(* ===== verification/_CoqProject ===== *)
-Q . S2P
Prelude.v
IdxPool.v
Walks.v
RouteApsp.v
RouteApspSpec.v
RouteServlet.v
RouteServletSpec.v
Bytes.v
Flow.v
FlowSpec.v
FlowNormSpec.v
Oxm.v
OxmSpec.v
Cbuf.v
Conn.v
ConnSpec.v
Ha.v
HaSpec.v
GenStore.v
FlowTbl.v
FlowTblSpec.v
FlowTblDel.v
FlowTblAdd.v
FlowTblEx.v
GroupTbl.v
GroupTblSpec.v
MeterTblSpec.v
GroupCmd.v
GroupCmdSpec.v
GroupThm.v
GroupEx.v
Topo.v
Loop.v
Lldp.v
TopoSpec.v
LoopSpec.v
LoopRun.v
LoopPorts.v
LoopTree.v
LoopForest.v
LoopThm.v
LoopRoutes.v
LoopMain.v
LldpSpec.v
LoopEx.v
L2Fdb.v
L2FdbSpec.v
L2FdbThm.v
L2FdbEx.v
Rlim.v
Nbq.v
AppEv.v
Reg.v
RegSpec.v
RegOps.v
RegLife.v
RegReg.v
RegNew.v
RegThm.v
RegStep.v
RegReplay.v
RegFlows.v
RegTables.v
RegMain.v
RegProp.v
RegEx.v
Act.v
ActParse.v
ActSpec.v
ActMake.v
ActCheck.v
ActThm.v
ActEx.v
FlowCmd.v
FlowCmdSpec.v
FlowCmdThm.v
FlowCmdAct.v
FlowCmdBytes.v
FlowCmdEx.v
