(* ===== verification/Prelude.v ===== *)
(** * OpenMUL: a verification of the controller's core

    OpenMUL is an OpenFlow controller in C.  The core (src/mul) keeps connections to switches and
    applications, the state of every switch (flow, group and meter tables, ports), and an
    active/standby pairing of two controllers.  A library (src/common-libs/mul-lib) holds what the core, the
    services and the applications share: buffers, connection loops, flow structures and the
    OpenFlow message codecs.  Services (src/services/loadable) such as topology routing run beside the core,
    read shared memory or exchange messages with it; applications (src/application) ask the core
    for flows, groups and meters.

    The development translates the code into executable functions, state passed explicitly.
    [None] stands for undefined behaviour or a failed assertion (an access out of range, signed overflow,
    a lock taken twice or released when free), so a theorem that a function returns [Some] also says that none of this
    happens.  Integers are [Z] with the wrap-around of their width written out ([u8] .. [u64], [sint]).

    ** The parts and where they are modelled

    - This file: machine integers, arrays, counted loops, tactics and the lemmas that all share.
    - [IdxPool]: the pool of small identifiers (mul-lib/src/idx_pool.c).
    - [Walks]: walks in a weighted graph.  [RouteApsp], [RouteApspSpec]: the shared routing block and the
      all-pairs computation (services/loadable/topo_routing/mul_route_apsp.c).
      [RouteServlet], [RouteServletSpec]: the reader of that block (mul_route_servlet.c), with the sequence
      number protocol between writer and readers.
    - [Bytes]: byte buffers.  [Flow], [FlowSpec], [FlowNormSpec]: [struct flow], its comparison under masks, the
      OpenFlow 1.0 wildcards and the normalisation for both versions (mul_of_msg.c, c_util.c).
      [Oxm], [OxmSpec]: the OpenFlow 1.3 match encoder and decoder (mul_of_msg.c).
    - [Cbuf]: message buffers (cbuf.c, cbuf.h).  [Conn], [ConnSpec]: the receive and send loops of
      a connection (c_util.c, c_util.h, mul_events.h).
    - [Ha], [HaSpec]: the election between two controllers (mul_ha.c).  [GenStore]: its
      generation id in a file.
    - [FlowTbl] with [FlowTblSpec], [FlowTblAdd], [FlowTblDel], [FlowTblEx]: the flow tables of a switch, their exact-match index,
      owners and references (mul_of.c, mul_priv.h).
    - [GroupTbl], [GroupCmd] with [GroupTblSpec], [MeterTblSpec], [GroupCmdSpec], [GroupThm], [GroupEx]: the group and
      meter tables, the commands that change them, the messages between controllers
      (mul_of.c, mul_app_interface.c).
    - [L2Fdb] with [L2FdbSpec], [L2FdbThm], [L2FdbEx]: the learning switch inside the core (mul_fp.c, mul_fp.h).
    - [Topo], [Lldp]: switches, ports and links of the topology service, the LLDP probes, its timer and its events
      (topo_routing/mul_lldp.c, mul_lldp_common.c, mul_tr.c).  [Loop]: loop detection (mul_loop.c).  [TopoSpec]: erasure of what
      the topology does not depend on.  [LoopSpec], [LoopRun], [LoopPorts], [LoopTree], [LoopForest], [LoopThm], [LoopRoutes],
      [LoopMain], [LldpSpec], [LoopEx]: one run of loop detection step by step, the tree of root ports, and the theorems.
    - [Act]: the buffer of an application's actions and the makers that append to it.  [ActParse]: the walks over instructions and
      actions, their handler tables and the checker (mul_of_msg.c, mul_of_msg.h).  [ActSpec]: abstract actions, instructions and
      calls, and their encoding.  [ActMake], [ActCheck], [ActThm], [ActEx]: the theorems about them.

    - [AppEv]: the messages that tell applications what happened, one handler per event (mul_app_interface.c).  [Reg]: the
      application list, the lists of the switches, references, registration, departure, delivery of events and their
      replay, and the steps by which a switch comes and goes (mul_app_interface.c, mul_of.c, mul_events.c, mul_priv.h).  There the
      tables of a switch are any type with the operations of the class [SwOps] and the laws of [SwTables] ([RegSpec]); [RegFlows]
      and [RegTables] prove that [GroupTbl] with [L2Fdb] is an instance.  [RegSpec], [RegOps], [RegLife], [RegReg], [RegNew], [RegThm],
      [RegStep], [RegReplay]: invariant and effect of each operation.  [RegMain]: runs of operations.  [RegProp], [RegEx]: the theorems and
      a concrete registry.

    - [FlowCmd]: the command by which an application asks for a flow, from the bytes of its message to the answer, the queue to the thread of the
      switch, and the calls of applications inside the controller (mul_app_interface.c, mul_of.c).  What differs between the versions of OpenFlow
      is the class [OfpCtors], with the laws of [OfpLaws] ([FlowCmdSpec]); [FlowCmdAct] proves them for 1.3 and 1.4.  [FlowCmdSpec]: the steps of a
      command.  [FlowCmdThm], [FlowCmdBytes], [FlowCmdEx]: the theorems, the layout of the message, and a concrete switch.

    - [Rlim]: the rate limiter (rlim.c, rlim.h).  [Nbq]: the queue without locks for one producer and one consumer (nbq.c, nbq.h),
      as the interleavings of their accesses to memory.

    The components build on each other as the code does: route queries read blocks that
    the all-pairs computation made; the group and meter tables hold the references of
    the flow entries of [FlowTbl], so their invariant is about both; what is sent to a
    switch depends on the role that [Ha] gives to the controller; loop detection takes its
    root ports from the routes that the all-pairs computation found over the links that the probes discovered;
    set-field actions are encoded as the fields of [Oxm]; an application that leaves is removed from the tables of
    every switch, and the references that the tables held return to the registry's counters; a flow command runs the normalisation of [Flow], the
    checker of [ActParse] with the groups and meters of [GroupTbl] and the operations of [FlowTbl], and hands the message to the peer of [Ha].

    ** What is proved

    - Routing: the computation ends without undefined behaviour and yields the weight of a shortest
      walk for every pair; recorded transit switches lie on shortest walks; a route handed to a
      caller is a shortest route over usable links, read under a sequence number that did not move.
    - Flows and messages: the round trips of wildcards and of OXM matches, the decoder inside its buffer on all inputs,
      the normalisations field by field, matching as equality of masked keys.
    - Connections: every arrival pattern of a valid stream is cut into exactly its messages; no byte is lost
      or repeated under partial sends.
    - Election: invariants over all runs, one master between two connected controllers, takeover.
    - Tables of a switch: an invariant over flows, groups, meters, owners and reference counts
      that all operations keep; the exact effect of additions, deletions and lookups; the
      protection of what flow entries use; a round trip of the messages that copy a group.
    - Applications: an invariant over all runs of registry operations (reference counts are exact, listed
      applications are alive); an event reaches exactly the applications that asked for it, in order; what a registration and a departure
      change; a new application is told of the switches that are there; what a switch keeps after an owner left.
    - Flow command: it completes and keeps the invariant of all tables of the switch; an accepted flow is in the table with the normalised
      match, the translated actions and exactly the groups and meters they use; a new flow that passes the checks is accepted and sent; the layout
      of the message; what deletion inside the controller finds.
    - Layer 2 fast path: learning, aging and forwarding as operations on a map from
      addresses to ports, and the persistence of what was learned.
    - Topology: a probe is understood by its receiver; one run of loop detection ends, elects the switch with the least
      identifier and blocks all links but those of a tree; flooded frames do not circulate and still reach every
      switch with a route to the root.
    - Actions: the makers refine a description of the list of instructions that the calls ask for; the checker on bytes
      equals a checker on that list and accepts only what a switch supports; the failure at the end of the buffer.
    - Library: the queue is linearizable under every interleaving in a sequentially consistent memory; what a rate limiter lets pass.

    ** Bounds and fuel

    Counted loops are [for_range] and structural, as are loops over lists.  Loops of the code that end for
    another reason take a fuel that the theorems show to be enough: the route expansion uses the hop budget of the
    code itself, the OXM decoder and the receive loop the length of their input (every turn
    consumes at least one byte, except on a header of length 0, where [zero_length_spins] shows that the code does not end).
    The state machine of loop detection passes through four states; the walks over instructions and actions are bounded by the
    counts of the code ([walk_fuel_enough]).  The passes of a flow command over the tables go upwards through 255 tables; their fuel is 256.  The routing block has room for 512 switches; the theorems hold for every number up to that.  The size of the
    forwarding database and its hash tables' sizes are parameters of the theorems.

    ** What is not modelled

    Threads, sockets and the event loop (mul_thread_core.c, mul_events.c, mul_main.c, mul_ipc.c): they call the operations
    modelled here; a lock is a flag that an operation takes and releases.  Of the life cycle of a switch only the steps
    that the registry sees; its ports, statistics, handshake and packet dispatch are left out, as are the remaining message
    constructors of mul_of.c and mul_of_msg.c.  Requests of applications other than flow, group and meter commands:
    queries, and the parsing of registrations (the registry starts from the parsed fields); the checker of OpenFlow 1.0 actions;
    the client library (mul_app_infra.c, mul_service.c, mul_servlet.c); the
    fabric, makdi, conx, prism and l2switch programs.
    Command line, logging, printing (among it the printing handlers of mul_of_msg.c), language bindings and the third-party libraries (quagga, libuuid) are
    outside of the development: they hold none of the logic above. *)
From stdpp Require Import base list gmap.
From Stdlib Require Import ZArith Lia.
#[local] Open Scope Z_scope.

(** ** Machine integers *)

(** [2^w] is written out so that [lia] sees the bounds. *)
Definition UINT8_MAX : Z := 255.
Definition UINT16_MAX : Z := 65535.
Definition UINT32_MAX : Z := 4294967295.
Definition UINT64_MAX : Z := 18446744073709551615.
Definition INT_MAX : Z := 2147483647.
Definition INT_MIN : Z := -2147483648.

Definition u8 (x : Z) : Z := x mod 256.
Definition u16 (x : Z) : Z := x mod 65536.
Definition u32 (x : Z) : Z := x mod 4294967296.
Definition u64 (x : Z) : Z := x mod 18446744073709551616.

(** Conversion of a wider value to C's [int] (two's complement, as gcc does). *)
Definition s32 (x : Z) : Z :=
  let y := u32 x in if y <=? INT_MAX then y else y - 4294967296.

(** Signed arithmetic that overflows [int] is undefined: [None]. *)
Definition sint (x : Z) : option Z :=
  if (INT_MIN <=? x) && (x <=? INT_MAX) then Some x else None.

(** ** Arrays indexed by C integers *)

(** An access outside the array is undefined behaviour: [None]. *)
Definition aget {A} (l : list A) (i : Z) : option A :=
  if i <? 0 then None else l !! Z.to_nat i.

Definition aset {A} (l : list A) (i : Z) (x : A) : option (list A) :=
  if (0 <=? i) && (i <? Z.of_nat (length l))
  then Some (<[Z.to_nat i := x]> l) else None.

#[global] Arguments aget : simpl never.
#[global] Arguments aset : simpl never.
#[global] Arguments sint : simpl never.

(** ** Counted loops *)

(** [for (i = i0; i < i0 + n; i++) s = f(i, s)], stopping at undefined behaviour. *)
Fixpoint for_from {S} (i0 : nat) (n : nat) (f : Z -> S -> option S) (s : S) : option S :=
  match n with
  | O => Some s
  | Datatypes.S n' => s' ← f (Z.of_nat i0) s; for_from (Datatypes.S i0) n' f s'
  end.

(** [for (i = 0; i < n; i++)]; a negative bound runs no iteration. *)
Definition for_range {S} (n : Z) (f : Z -> S -> option S) (s : S) : option S :=
  for_from 0 (Z.to_nat n) f s.

(** ** Shared automation *)

Create HintDb mul discriminated.

(** Turn the boolean tests of the code into propositions. *)
Ltac breflect :=
  repeat match goal with
  | H : (_ && _) = true |- _ => apply andb_prop in H; destruct H
  | H : (_ && _) = false |- _ => apply andb_false_iff in H
  | H : (_ || _) = true |- _ => apply orb_prop in H
  | H : (_ || _) = false |- _ => apply orb_false_elim in H; destruct H
  | H : negb _ = true |- _ => apply negb_true_iff in H
  | H : negb _ = false |- _ => apply negb_false_iff in H
  | H : (_ =? _)%Z = true |- _ => apply Z.eqb_eq in H
  | H : (_ =? _)%Z = false |- _ => apply Z.eqb_neq in H
  | H : (_ <? _)%Z = true |- _ => apply Z.ltb_lt in H
  | H : (_ <? _)%Z = false |- _ => apply Z.ltb_ge in H
  | H : (_ <=? _)%Z = true |- _ => apply Z.leb_le in H
  | H : (_ <=? _)%Z = false |- _ => apply Z.leb_gt in H
  end.

(** Case analysis on the conditionals and matches of a goal. *)
Ltac case_all :=
  repeat (case_match; simplify_eq/=).

(** Unfold a bind that is known to succeed. *)
Ltac inv_bind :=
  repeat match goal with
  | H : (_ ≫= _) = Some _ |- _ => apply bind_Some in H; destruct H as (? & ? & H)
  | H : Some _ = Some _ |- _ => injection H as H
  end.

(** ** Generic lemmas *)

Lemma sint_Some x : INT_MIN <= x <= INT_MAX -> sint x = Some x.
Proof. intros. unfold sint. rewrite !(proj2 (Z.leb_le _ _)) by lia. done. Qed.

Lemma sint_inv x y : sint x = Some y -> y = x /\ INT_MIN <= x <= INT_MAX.
Proof. unfold sint. case_match; [|done]. intros. simplify_eq. breflect. done. Qed.

Lemma s32_id x : INT_MIN <= x <= INT_MAX -> s32 x = x.
Proof.
  unfold s32, u32, INT_MIN, INT_MAX. intros Hx.
  destruct (Z.leb_spec (x mod 4294967296) 2147483647); Z.div_mod_to_equations; lia.
Qed.

Lemma s32_range x : INT_MIN <= s32 x <= INT_MAX.
Proof.
  unfold s32, u32, INT_MIN, INT_MAX.
  pose proof (Z.mod_pos_bound x 4294967296 ltac:(lia)).
  destruct (Z.leb_spec (x mod 4294967296) 2147483647); lia.
Qed.

Lemma aget_nat {A} (l : list A) (i : nat) : aget l (Z.of_nat i) = l !! i.
Proof. unfold aget. rewrite (proj2 (Z.ltb_ge _ _)) by lia. by rewrite Nat2Z.id. Qed.

Lemma aset_nat {A} (l : list A) (i : nat) x :
  (i < length l)%nat -> aset l (Z.of_nat i) x = Some (<[i := x]> l).
Proof.
  intros. unfold aset.
  rewrite (proj2 (Z.leb_le _ _)), (proj2 (Z.ltb_lt _ _)) by lia.
  by rewrite Nat2Z.id.
Qed.

Lemma aset_pos {A} (l : list A) (i : Z) x :
  0 <= i < Z.of_nat (length l) -> aset l i x = Some (<[Z.to_nat i := x]> l).
Proof.
  intros. unfold aset. by rewrite (proj2 (Z.leb_le _ _)), (proj2 (Z.ltb_lt _ _)) by lia.
Qed.

Lemma aget_Some {A} (l : list A) i x :
  aget l i = Some x -> 0 <= i < Z.of_nat (length l) /\ l !! Z.to_nat i = Some x.
Proof.
  unfold aget. case_match; [done|]. intros Hl. breflect.
  split; [|done]. apply lookup_lt_Some in Hl. lia.
Qed.

Lemma aset_Some {A} (l l' : list A) i x :
  aset l i x = Some l' -> 0 <= i < Z.of_nat (length l) /\ l' = <[Z.to_nat i := x]> l.
Proof. unfold aset. case_match; [|done]. intros. simplify_eq. breflect. done. Qed.

Lemma aget_in_range {A} (l : list A) i :
  0 <= i < Z.of_nat (length l) -> is_Some (aget l i).
Proof.
  intros. unfold aget. rewrite (proj2 (Z.ltb_ge _ _)) by lia.
  apply lookup_lt_is_Some. lia.
Qed.

(** Total correctness of a counted loop from an invariant. *)
Lemma for_from_inv {S} (P : nat -> S -> Prop) (f : Z -> S -> option S) n i0 s :
  P i0 s ->
  (forall i s, (i0 <= i < i0 + n)%nat -> P i s ->
     exists s', f (Z.of_nat i) s = Some s' /\ P (Datatypes.S i) s') ->
  exists s', for_from i0 n f s = Some s' /\ P (i0 + n)%nat s'.
Proof.
  revert i0 s. induction n as [|n IH]; intros i0 s H0 Hf; cbn.
  - exists s. by rewrite Nat.add_0_r.
  - destruct (Hf i0 s ltac:(lia) H0) as (s' & -> & H'); cbn.
    destruct (IH (Datatypes.S i0) s' H') as (s'' & H1 & H2).
    { intros. apply Hf; [lia|done]. }
    exists s''. split; [done|]. by rewrite Nat.add_succ_r.
Qed.

Lemma for_range_inv {S} (P : nat -> S -> Prop) (f : Z -> S -> option S) (n : nat) s :
  P 0%nat s ->
  (forall i s, (i < n)%nat -> P i s ->
     exists s', f (Z.of_nat i) s = Some s' /\ P (Datatypes.S i) s') ->
  exists s', for_range (Z.of_nat n) f s = Some s' /\ P n s'.
Proof.
  intros H0 Hf. unfold for_range. rewrite Nat2Z.id.
  destruct (for_from_inv P f n 0 s H0) as (s' & H1 & H2); [intros; apply Hf; [lia|done]|].
  eauto.
Qed.

(** Total correctness of a loop over all pairs below [n]; [D] is the set of
    pairs already visited. *)
Lemma for_pairs_inv {S} (P : (nat -> nat -> Prop) -> S -> Prop) (f : Z -> Z -> S -> option S)
    (n : nat) s :
  (forall D D' s, (forall a b, (a < n)%nat -> (b < n)%nat -> (D' a b <-> D a b)) ->
     P D s -> P D' s) ->
  P (fun _ _ => False) s ->
  (forall D i j s, (i < n)%nat -> (j < n)%nat -> ~ D i j -> P D s ->
     exists s', f (Z.of_nat i) (Z.of_nat j) s = Some s' /\
       P (fun a b => D a b \/ (i = a /\ j = b)) s') ->
  exists s', for_range (Z.of_nat n) (fun i => for_range (Z.of_nat n) (fun j => f i j)) s = Some s' /\
    P (fun _ _ => True) s'.
Proof.
  intros Hext H0 Hf.
  destruct (for_range_inv (fun i s => P (fun a _ => (a < i)%nat) s)
    (fun i => for_range (Z.of_nat n) (fun j => f i j)) n s) as (s' & H1 & H2).
  - eapply Hext; [|exact H0]. cbn. lia.
  - intros i t Hi Ht.
    destruct (for_range_inv (fun j s => P (fun a b => (a < i)%nat \/ (a = i /\ (b < j)%nat)) s)
      (fun j => f (Z.of_nat i) j) n t) as (t' & H1 & H2).
    + eapply Hext; [|exact Ht]. cbn. lia.
    + intros j u Hj Hu. destruct (Hf (fun a b => (a < i)%nat \/ (a = i /\ (b < j)%nat)) i j u Hi Hj
        ltac:(cbn; lia) Hu) as (u' & H1 & H2).
      exists u'. split; [done|]. eapply Hext; [|exact H2]. cbn. lia.
    + exists t'. split; [done|]. eapply Hext; [|exact H2]. cbn. lia.
  - exists s'. split; [done|]. eapply Hext; [|exact H2]. cbn. tauto.
Qed.

(** A boolean fact about a bounded integer, by enumeration. *)
Lemma range_enum (f : Z -> bool) (n : nat) a :
  forallb f (map Z.of_nat (seq 0 n)) = true -> 0 <= a < Z.of_nat n -> f a = true.
Proof.
  intros Hf Ha. rewrite forallb_forall in Hf. apply Hf.
  apply in_map_iff. exists (Z.to_nat a). split; [lia|]. apply in_seq. lia.
Qed.

Create Rewrite HintDb mulrw.
#[export] Hint Rewrite @length_insert @length_app @length_replicate : mulrw.
#[export] Hint Resolve sint_Some s32_id s32_range : mul.

(** ** Reachability *)

(** Reflexive transitive closure of a step relation. *)
Inductive steps {S : Type} (step : S -> S -> Prop) : S -> S -> Prop :=
| steps_refl s : steps step s s
| steps_step s1 s2 s3 : step s1 s2 -> steps step s2 s3 -> steps step s1 s3.

Lemma steps_invariant {S} (step : S -> S -> Prop) (I : S -> Prop) :
  (forall s s', I s -> step s s' -> I s') ->
  forall s s', steps step s s' -> I s -> I s'.
Proof. intros Hpres s s' Hs. induction Hs; eauto. Qed.

(** ** Lists of glib *)

(** [g_slist_remove] removes the first occurrence. *)
Fixpoint g_slist_remove (x : Z) (l : list Z) : list Z :=
  match l with [] => [] | y :: l => if x =? y then l else y :: g_slist_remove x l end.

Lemma g_slist_remove_elem x l y : NoDup l -> y ∈ g_slist_remove x l <-> y ∈ l /\ y <> x.
Proof.
  induction 1 as [|z l Hz Hnd IH]; cbn; [set_solver|]. destruct (Z.eqb_spec x z) as [->|Hne].
  - rewrite elem_of_cons. split; [|intros [[->|?] ?]; done]. intros Hy. split; [by right|]. by intros ->.
  - rewrite !elem_of_cons, IH. naive_solver.
Qed.

Lemma g_slist_remove_nodup x l : NoDup l -> NoDup (g_slist_remove x l).
Proof.
  induction 1 as [|z l Hz Hnd IH]; cbn; [constructor|]. destruct (x =? z); [done|].
  constructor; [|done]. rewrite g_slist_remove_elem by done. by intros [? _].
Qed.

Lemma g_slist_remove_length x l : x ∈ l -> length l = S (length (g_slist_remove x l)).
Proof.
  induction l as [|z l IH]; [set_solver|]. intros Hx. cbn. destruct (Z.eqb_spec x z); [done|].
  cbn. f_equal. apply IH. set_solver.
Qed.

Lemma filter_ext_elem {A} (P Q : A -> Prop) `{forall x, Decision (P x), forall x, Decision (Q x)} (l : list A) :
  (forall x, x ∈ l -> P x <-> Q x) -> base.filter P l = base.filter Q l.
Proof.
  induction l as [|x l IH]; intros H1; [done|]. rewrite !filter_cons, IH by (intros; apply H1; by right).
  destruct (decide (P x)) as [Hp|Hp], (decide (Q x)) as [Hq|Hq]; try done; exfalso; apply (H1 x) in Hp || apply (H1 x) in Hq;
    done || left.
Qed.

(** ** Counting *)

(** How often [g] occurs in a list. *)
Fixpoint cnt (g : Z) (l : list Z) : Z :=
  match l with [] => 0 | x :: l => (if bool_decide (x = g) then 1 else 0) + cnt g l end.

Lemma cnt_app g l k : cnt g (l ++ k) = cnt g l + cnt g k.
Proof. induction l as [|x l IH]; cbn; [done|]. rewrite IH. lia. Qed.

Lemma cnt_notin g l : g ∉ l -> cnt g l = 0.
Proof.
  induction l as [|x l IH]; cbn; [done|]. intros Hn. rewrite bool_decide_false, IH by set_solver. done.
Qed.

Lemma cnt_nonneg g l : 0 <= cnt g l.
Proof. induction l as [|x l IH]; cbn; [done|]. case_bool_decide; lia. Qed.

Lemma cnt_in g l : g ∈ l -> 1 <= cnt g l.
Proof.
  induction l as [|x l IH]; [set_solver|]. cbn. intros Hg. pose proof (cnt_nonneg g l).
  apply elem_of_cons in Hg as [->|Hg]; [rewrite bool_decide_true by done; lia|].
  specialize (IH Hg). case_bool_decide; lia.
Qed.

Lemma cnt_remove x y l : cnt x (g_slist_remove y l) = cnt x l - if bool_decide (y ∈ l) then cnt x [y] else 0.
Proof.
  induction l as [|z l IH]; [done|]. cbn [g_slist_remove cnt]. destruct (Z.eqb_spec y z) as [->|Hne].
  - rewrite (bool_decide_true (z ∈ z :: l)) by left. cbn. lia.
  - cbn [cnt]. rewrite IH. rewrite (bool_decide_ext (y ∈ z :: l) (y ∈ l)) by (rewrite elem_of_cons; naive_solver).
    cbn [cnt]. destruct (bool_decide (y ∈ l)); lia.
Qed.

Lemma cnt_remove_le x y l : cnt x (g_slist_remove y l) <= cnt x l.
Proof. rewrite cnt_remove. pose proof (cnt_nonneg x [y]). case_bool_decide; lia. Qed.

(** ** Sums over a table *)

Definition msum {A} (f : A -> Z) (m : gmap Z A) : Z := map_fold (fun _ a n => f a + n) 0 m.

Lemma msum_fresh {A} (f : A -> Z) m a x : m !! a = None -> msum f (<[a := x]> m) = f x + msum f m.
Proof. intros Ha. unfold msum. rewrite map_fold_insert_L; [done| |done]. intros. lia. Qed.

Lemma msum_delete {A} (f : A -> Z) m a x : m !! a = Some x -> msum f (delete a m) = msum f m - f x.
Proof.
  intros Ha. rewrite <- (insert_delete_id m a x Ha) at 2.
  rewrite msum_fresh by apply lookup_delete_eq. lia.
Qed.

Lemma msum_insert {A} (f : A -> Z) m a x y :
  m !! a = Some x -> msum f (<[a := y]> m) = msum f m - f x + f y.
Proof.
  intros Ha. rewrite <- insert_delete_eq, msum_fresh by apply lookup_delete_eq.
  rewrite (msum_delete f m a x Ha). lia.
Qed.

Lemma msum_nonneg {A} (f : A -> Z) m : (forall x, 0 <= f x) -> 0 <= msum f m.
Proof.
  intros Hf. induction m as [|a x m Ha IH] using map_ind; [done|].
  rewrite msum_fresh by done. specialize (Hf x). lia.
Qed.

Lemma msum_ge {A} (f : A -> Z) m a x : (forall x, 0 <= f x) -> m !! a = Some x -> f x <= msum f m.
Proof.
  intros Hf Ha. pose proof (msum_delete f m a x Ha). pose proof (msum_nonneg f (delete a m) Hf). lia.
Qed.

(** ** Maps of counters *)

(** [m'] is [m] with every count changed by [d]. *)
Definition shifted (d : Z -> Z) (m m' : gmap Z Z) : Prop :=
  forall g, m' !! g = (fun r => r + d g) <$> m !! g.

Lemma shifted_eq m m' : shifted (fun _ => 0) m m' -> m' = m.
Proof.
  intros Hs. apply map_eq. intros g. rewrite Hs. destruct (m !! g); cbn; [|done]. f_equal. lia.
Qed.

Lemma shifted_trans d1 d2 m1 m2 m3 :
  shifted d1 m1 m2 -> shifted d2 m2 m3 -> shifted (fun g => d1 g + d2 g) m1 m3.
Proof. intros H1 H2 g. rewrite H2, H1. destruct (m1 !! g); cbn; [|done]. f_equal. lia. Qed.

Lemma shifted_ext d1 d2 m m' : (forall g, d1 g = d2 g) -> shifted d1 m m' -> shifted d2 m m'.
Proof. intros He Hs g. rewrite Hs. destruct (m !! g); cbn; [|done]. by rewrite He. Qed.

Lemma shifted_dom d m m' g : shifted d m m' -> is_Some (m' !! g) <-> is_Some (m !! g).
Proof. intros Hs. rewrite Hs, fmap_is_Some. done. Qed.

Lemma shifted_one g d m r :
  m !! g = Some r -> shifted (fun x => if bool_decide (g = x) then d else 0) m (<[g := r + d]> m).
Proof.
  intros Hg x. destruct (decide (g = x)) as [<-|Hne].
  - rewrite lookup_insert_eq, Hg, bool_decide_true by done. done.
  - rewrite lookup_insert_ne, bool_decide_false by done.
    destruct (m !! x); cbn; [|done]. f_equal. lia.
Qed.

Lemma msum_ext {A B} (f : A -> Z) (g : B -> Z) m m' : (forall k, f <$> m !! k = g <$> m' !! k) -> msum f m = msum g m'.
Proof.
  intros Heq. assert (forall C (h : C -> Z) (n : gmap Z C), msum h n = msum id (h <$> n)) as E.
  { intros C h n. unfold msum. by rewrite map_fold_fmap. }
  rewrite (E _ f), (E _ g). f_equal. apply map_eq. intros k. by rewrite !lookup_fmap.
Qed.
