(* ===== verification/IdxPool.v ===== *)
(** * Index pool (common-libs/mul-lib/src/idx_pool.c)

    The pool hands out small integer identifiers (OpenFlow group ids of the
    conx service and of the prism application).  Its free entries form a
    singly linked list threaded through [idx_arr] by index; [next_idx] is the
    head and [-1] ends the list.

    [None] models an access outside [idx_arr] or a signed overflow; NULL
    results and the [-1] error codes of the C functions are values. *)
From S2P Require Import Prelude.
From stdpp Require Import base list sets.
From Stdlib Require Import ZArith Lia.
#[local] Open Scope Z_scope.

Module IdxPool.

(** ** Data *)

(** A [void *] the pool only stores; [0] is NULL. *)
Definition NULLP : Z := 0.

Record ipool_arr_t := mk_arr { arr_next_idx : Z; arr_priv : Z }.

Record ipool_hdl_t := mk_hdl {
  start_idx : Z;
  next_idx : Z;
  max_idx : Z;
  idx_arr : list ipool_arr_t }.

(** ** Operations *)

Definition ipool_get (pool : ipool_hdl_t) (priv : Z) : option (ipool_hdl_t * Z) :=
  let nx := next_idx pool in
  if nx =? -1 then Some (pool, -1)
  else
    e ← aget (idx_arr pool) nx;
    arr ← aset (idx_arr pool) nx (mk_arr (arr_next_idx e) priv);
    ret ← sint (nx + start_idx pool);
    Some (mk_hdl (start_idx pool) (arr_next_idx e) (max_idx pool) arr, ret).

Definition ipool_put (pool : ipool_hdl_t) (ret_idx : Z) : option (ipool_hdl_t * Z) :=
  if (ret_idx <? 0) || (max_idx pool <? ret_idx) then Some (pool, -1)
  else
    i ← sint (ret_idx - start_idx pool);
    arr ← aset (idx_arr pool) i (mk_arr (next_idx pool) NULLP);
    Some (mk_hdl (start_idx pool) i (max_idx pool) arr, 0).

(** The initialisation loop of [ipool_create]: entry [idx] points to [idx+1]. *)
Fixpoint init_arr (idx : Z) (n : nat) : list ipool_arr_t :=
  match n with
  | O => []
  | S n' => mk_arr (idx + 1) NULLP :: init_arr (idx + 1) n'
  end.

(** [hdl_ok] and [arr_ok] say whether the two [calloc]s succeed; the result
    [Some None] is the NULL return. *)
Definition ipool_create (hdl_ok arr_ok : bool) (sz start : Z)
  : option (option ipool_hdl_t) :=
  if INT_MAX <? sz then Some None
  else if negb hdl_ok then Some None
  else if negb arr_ok then Some None
  else
    let arr := init_arr 0 (Z.to_nat sz) in
    e ← aget arr (sz - 1);
    arr' ← aset arr (sz - 1) (mk_arr (-1) (arr_priv e));
    Some (Some (mk_hdl (s32 start) 0 (s32 (start + sz - 1)) arr')).

(** The outer [None] is an access outside the array; a NULL pool gives NULL. *)
Definition ipool_idx_priv (pool : option ipool_hdl_t) (idx : Z) : option Z :=
  match pool with
  | None => Some NULLP
  | Some p => if max_idx p <? idx then Some NULLP
              else e ← aget (idx_arr p) idx; Some (arr_priv e)
  end.

(** ** Abstract allocator *)

(** What the pool promises: a LIFO list of free identifiers. *)
Module Spec.
Definition get (free : list Z) : list Z * Z :=
  match free with [] => ([], -1) | i :: r => (r, i) end.
Definition put (free : list Z) (i : Z) : list Z := i :: free.
End Spec.

(** ** Representation *)

(** [chain arr h l]: starting from head [h] the links visit the slots [l]. *)
Fixpoint chain (arr : list ipool_arr_t) (h : Z) (l : list nat) : Prop :=
  match l with
  | [] => h = -1
  | i :: l' => h = Z.of_nat i /\
      exists e, arr !! i = Some e /\ chain arr (arr_next_idx e) l'
  end.

Record pool_wf (pool : ipool_hdl_t) (l : list nat) : Prop := {
  wf_chain : chain (idx_arr pool) (next_idx pool) l;
  wf_nodup : NoDup l;
  wf_start : 0 <= start_idx pool;
  wf_max : max_idx pool = start_idx pool + Z.of_nat (length (idx_arr pool)) - 1;
  wf_int : max_idx pool <= INT_MAX }.

(** The identifiers a list of slots stands for. *)
Definition ids (pool : ipool_hdl_t) (l : list nat) : list Z :=
  (fun i => Z.of_nat i + start_idx pool) <$> l.

(** One client step on a pool and the identifiers the client holds: take an
    identifier, be refused one, or give a held one back. *)
Inductive pstep : ipool_hdl_t * list Z -> ipool_hdl_t * list Z -> Prop :=
| ps_get p live priv p' i :
    ipool_get p priv = Some (p', i) -> i <> -1 -> pstep (p, live) (p', i :: live)
| ps_get_fail p live priv p' :
    ipool_get p priv = Some (p', -1) -> pstep (p, live) (p', live)
| ps_put p live live' i p' r :
    live ≡ₚ i :: live' -> ipool_put p i = Some (p', r) -> pstep (p, live) (p', live').

(** Free and held identifiers partition the identifiers of the pool. *)
Definition pool_inv (start : Z) (n : nat) (st : ipool_hdl_t * list Z) : Prop :=
  exists l, pool_wf st.1 l /\ start_idx st.1 = start /\ length (idx_arr st.1) = n /\
    ids st.1 l ++ st.2 ≡ₚ (fun i => Z.of_nat i + start) <$> seq 0 n.

(** ** Lemmas *)

Lemma chain_lt arr h l i : chain arr h l -> i ∈ l -> (i < length arr)%nat.
Proof.
  revert h. induction l as [|j l IH]; intros h Hc Hi; [by apply elem_of_nil in Hi|].
  destruct Hc as (-> & e & He & Hc). apply elem_of_cons in Hi as [->|Hi]; eauto.
  by eapply lookup_lt_Some.
Qed.

(** Writing a slot that is not on the list leaves the list as it is. *)
Lemma chain_insert_ne arr h l i e :
  chain arr h l -> i ∉ l -> chain (<[i := e]> arr) h l.
Proof.
  revert h. induction l as [|j l IH]; intros h Hc Hi; [done|].
  apply not_elem_of_cons in Hi as [Hij Hi].
  destruct Hc as (-> & e' & He & Hc). split; [done|].
  exists e'. rewrite list_lookup_insert_ne by done. eauto.
Qed.

Lemma pool_start_max pool l i :
  pool_wf pool l -> (i < length (idx_arr pool))%nat ->
  sint (Z.of_nat i + start_idx pool) = Some (Z.of_nat i + start_idx pool) /\
  0 <= Z.of_nat i + start_idx pool <= max_idx pool.
Proof.
  intros [_ _ Hs Hm Hi] Hlt.
  assert (0 <= Z.of_nat i + start_idx pool <= max_idx pool) by lia.
  split; [|done]. apply sint_Some. unfold INT_MIN. lia.
Qed.

Lemma get_wf_cons pool i l priv :
  pool_wf pool (i :: l) ->
  exists pool', ipool_get pool priv = Some (pool', Z.of_nat i + start_idx pool) /\
    pool_wf pool' l /\ start_idx pool' = start_idx pool /\ max_idx pool' = max_idx pool /\
    length (idx_arr pool') = length (idx_arr pool) /\
    (exists e, idx_arr pool' !! i = Some e /\ arr_priv e = priv) /\
    forall j, j <> i -> idx_arr pool' !! j = idx_arr pool !! j.
Proof.
  intros Hwf. pose proof Hwf as [(Hn & e & He & Hc) Hnd Hs Hm Hi].
  pose proof (lookup_lt_Some _ _ _ He) as Hlt.
  apply NoDup_cons in Hnd as [Hni Hnd].
  destruct (pool_start_max pool _ i Hwf Hlt) as [Hsint _].
  unfold ipool_get. rewrite Hn, (proj2 (Z.eqb_neq _ _)) by lia.
  rewrite aget_nat, He; cbn. rewrite aset_nat by done; cbn. rewrite Hsint; cbn.
  eexists; split; [done|]; cbn. repeat split; cbn; rewrite ?length_insert; auto.
  - by apply chain_insert_ne.
  - eexists. by rewrite list_lookup_insert_eq.
  - intros. by rewrite list_lookup_insert_ne.
Qed.

Lemma get_wf_nil pool priv : pool_wf pool [] -> ipool_get pool priv = Some (pool, -1).
Proof. intros [Hc _ _ _ _]. unfold ipool_get. by rewrite Hc. Qed.

Lemma put_wf pool l i :
  pool_wf pool l -> (i < length (idx_arr pool))%nat -> i ∉ l ->
  exists pool', ipool_put pool (Z.of_nat i + start_idx pool) = Some (pool', 0) /\
    pool_wf pool' (i :: l) /\ start_idx pool' = start_idx pool /\
    length (idx_arr pool') = length (idx_arr pool).
Proof.
  intros Hwf Hlt Hi. pose proof Hwf as [Hc Hnd Hs Hm Hint].
  destruct (pool_start_max pool _ i Hwf Hlt) as [_ Hrng].
  unfold ipool_put.
  rewrite (proj2 (Z.ltb_ge _ 0)), (proj2 (Z.ltb_ge (max_idx pool) _)) by lia; cbn.
  rewrite sint_Some by (unfold INT_MIN; lia); cbn.
  replace (Z.of_nat i + start_idx pool - start_idx pool) with (Z.of_nat i) by lia.
  rewrite aset_nat by done; cbn.
  eexists; split; [done|]. repeat split; cbn; rewrite ?length_insert; auto.
  - eexists; split; [by apply list_lookup_insert_eq|]. by apply chain_insert_ne.
  - by apply NoDup_cons.
Qed.

Lemma init_arr_length idx n : length (init_arr idx n) = n.
Proof. revert idx. induction n; intros; cbn; auto. Qed.

Lemma init_arr_lookup idx n i :
  (i < n)%nat -> init_arr idx n !! i = Some (mk_arr (idx + Z.of_nat i + 1) NULLP).
Proof.
  revert idx i. induction n as [|n IH]; intros idx i Hi; [lia|].
  destruct i as [|i]; cbn.
  - do 2 f_equal. lia.
  - rewrite IH by lia. do 2 f_equal. lia.
Qed.

(** The freshly initialised array chains every slot from [i] on. *)
Lemma init_chain n k i :
  (i + k = S n)%nat ->
  chain (<[n := mk_arr (-1) NULLP]> (init_arr 0 (S n)))
        (if (i =? S n)%nat then -1 else Z.of_nat i) (seq i k).
Proof.
  revert i. induction k as [|k IH]; intros i Hi; cbn [seq].
  - by replace i with (S n) by lia; rewrite Nat.eqb_refl.
  - rewrite (proj2 (Nat.eqb_neq i (S n))) by lia. split; [done|].
    specialize (IH (S i) ltac:(lia)). destruct (decide (i = n)) as [->|Hne].
    + exists (mk_arr (-1) NULLP). split.
      * apply list_lookup_insert_eq. rewrite init_arr_length. lia.
      * by rewrite Nat.eqb_refl in IH.
    + exists (mk_arr (0 + Z.of_nat i + 1) NULLP). split.
      * rewrite list_lookup_insert_ne by done. apply init_arr_lookup. lia.
      * rewrite (proj2 (Nat.eqb_neq (S i) (S n))) in IH by lia.
        cbn. by replace (0 + Z.of_nat i + 1) with (Z.of_nat (S i)) by lia.
Qed.

Lemma create_wf sz start :
  0 < sz <= INT_MAX -> 0 <= start -> start + sz - 1 <= INT_MAX ->
  exists pool, ipool_create true true sz start = Some (Some pool) /\
    pool_wf pool (seq 0 (Z.to_nat sz)) /\ start_idx pool = start /\
    length (idx_arr pool) = Z.to_nat sz.
Proof.
  intros Hsz Hst Hmax.
  assert (exists n, Z.to_nat sz = S n) as [n Hn] by (exists (Z.to_nat (sz - 1)); lia).
  assert (sz - 1 = Z.of_nat n) as Hsz1 by lia.
  unfold ipool_create. rewrite (proj2 (Z.ltb_ge _ _)) by lia. cbn [negb].
  rewrite Hn, Hsz1, aget_nat, init_arr_lookup by lia; cbn [mbind option_bind].
  rewrite aset_nat by (rewrite init_arr_length; lia); cbn [mbind option_bind].
  eexists; split; [done|]; cbn [idx_arr next_idx start_idx max_idx arr_priv].
  rewrite !s32_id by (unfold INT_MIN, INT_MAX in *; lia).
  repeat split; cbn [idx_arr next_idx start_idx max_idx];
    rewrite ?length_insert, ?init_arr_length; try lia.
  - pose proof (init_chain n (S n) 0 ltac:(lia)) as H. cbn [Nat.eqb] in H. exact (proj2 H).
  - apply NoDup_ListNoDup, seq_NoDup.
Qed.

Lemma ids_in_range start n i :
  i ∈ (fun i => Z.of_nat i + start) <$> seq 0 n <-> start <= i < start + Z.of_nat n.
Proof.
  rewrite list_elem_of_fmap. split.
  - intros (j & -> & Hj). apply elem_of_seq in Hj. lia.
  - intros Hi. exists (Z.to_nat (i - start)). split; [lia|]. apply elem_of_seq. lia.
Qed.

Lemma ids_nodup start n : NoDup ((fun i => Z.of_nat i + start) <$> seq 0 n).
Proof.
  apply NoDup_fmap_2_strong; [intros; lia|]. apply NoDup_ListNoDup, seq_NoDup.
Qed.

Lemma pstep_inv start n st st' : pool_inv start n st -> pstep st st' -> pool_inv start n st'.
Proof.
  intros (l & Hwf & Hst & Hlen & Hperm) Hs.
  destruct Hs as [p live priv p' i Hg Hi|p live priv p' Hg|p live live' i p' r Hl Hp];
    cbn in *.
  - destruct l as [|j l]; [rewrite get_wf_nil in Hg by done; congruence|].
    destruct (get_wf_cons p j l priv Hwf) as (q & Hq & Hwf' & Hs' & _ & Hlen' & _).
    rewrite Hq in Hg. simplify_eq. exists l; cbn. split_and!; [done|congruence..|].
    rewrite <- Hperm. unfold ids. rewrite Hs'. cbn. by rewrite Permutation_middle.
  - destruct l as [|j l].
    + rewrite get_wf_nil in Hg by done. simplify_eq. by exists [].
    + destruct (get_wf_cons p j l priv Hwf) as (q & Hq & _).
      destruct Hwf as [_ _ Hs0 _ _]. rewrite Hq in Hg. simplify_eq. lia.
  - assert (i ∈ (fun i => Z.of_nat i + start) <$> seq 0 n) as Hi.
    { rewrite <- Hperm, Hl. set_solver. }
    pose proof Hi as (j & -> & Hj)%list_elem_of_fmap. apply elem_of_seq in Hj.
    assert (j ∉ l) as Hjl.
    { intros Hin. pose proof (ids_nodup start n) as Hnd. rewrite <- Hperm, Hl in Hnd.
      apply NoDup_app in Hnd as (_ & Hnd & _). apply (Hnd (Z.of_nat j + start)).
      - unfold ids. rewrite Hst. by apply (list_elem_of_fmap_2 (fun i => Z.of_nat i + start)).
      - set_solver. }
    destruct (put_wf p l j Hwf ltac:(lia) Hjl) as (q & Hq & Hwf' & Hs' & Hlen').
    rewrite Hst in Hq. rewrite Hq in Hp. simplify_eq.
    exists (j :: l); cbn. split_and!; [done|congruence..|].
    rewrite <- Hperm, Hl. unfold ids. rewrite Hs'. cbn. by rewrite Permutation_middle.
Qed.

Lemma create_inv sz start pool :
  0 < sz <= INT_MAX -> 0 <= start -> start + sz - 1 <= INT_MAX ->
  ipool_create true true sz start = Some (Some pool) ->
  pool_inv start (Z.to_nat sz) (pool, []).
Proof.
  intros Hsz Hst Hmax Hc.
  destruct (create_wf sz start Hsz Hst Hmax) as (p & Hp & Hwf & Hs & Hl).
  rewrite Hp in Hc. simplify_eq. exists (seq 0 (Z.to_nat sz)); cbn.
  split_and!; auto. by rewrite app_nil_r.
Qed.

(** ** Properties *)

(** C40: functional refinement: on a well-formed pool [ipool_get] and
    [ipool_put] implement a LIFO free list of identifiers.  A get never faults,
    returns [-1] exactly when the free list is empty and otherwise pops its head;
    putting back an identifier of the pool that is not free pushes it. *)
Theorem ipool_refines_spec pool l :
  pool_wf pool l ->
  (forall priv, exists pool' l',
     ipool_get pool priv = Some (pool', (Spec.get (ids pool l)).2) /\
     pool_wf pool' l' /\ ids pool' l' = (Spec.get (ids pool l)).1) /\
  (forall i, start_idx pool <= i <= max_idx pool -> i ∉ ids pool l ->
     exists pool' l', ipool_put pool i = Some (pool', 0) /\
     pool_wf pool' l' /\ ids pool' l' = Spec.put (ids pool l) i).
Proof.
  intros Hwf. split.
  - intros priv. destruct l as [|i l]; cbn.
    + exists pool, []. by rewrite get_wf_nil.
    + destruct (get_wf_cons pool i l priv Hwf) as (q & Hq & Hwf' & Hs & _).
      exists q, l. unfold ids. by rewrite Hs.
  - intros i Hi Hni. pose proof Hwf as [_ _ _ Hm _].
    assert (i = Z.of_nat (Z.to_nat (i - start_idx pool)) + start_idx pool) as Ei by lia.
    destruct (put_wf pool l (Z.to_nat (i - start_idx pool))) as (q & Hq & Hwf' & Hs & _);
      [done|lia| |].
    { intros Hin. apply Hni. rewrite Ei. unfold ids.
      by apply (list_elem_of_fmap_2 (fun i => Z.of_nat i + start_idx pool)). }
    rewrite <- Ei in Hq. exists q. eexists. split_and!; [done|exact Hwf'|].
    unfold ids, Spec.put. rewrite Hs. cbn. by rewrite <- Ei.
Qed.

(** No identifier is ever handed out twice.  Whatever sequence of gets and
    puts (of identifiers it holds) a client runs on a pool of [sz] identifiers
    created at [start], the identifiers it holds are distinct and inside
    [start .. start+sz-1], the next get does not fault, and a get is refused
    only when all [sz] identifiers are held. *)
Theorem ipool_no_double_alloc sz start pool pool' live :
  0 < sz <= INT_MAX -> 0 <= start -> start + sz - 1 <= INT_MAX ->
  ipool_create true true sz start = Some (Some pool) ->
  steps pstep (pool, []) (pool', live) ->
  NoDup live /\ (forall i, i ∈ live -> start <= i < start + sz) /\
  forall priv, exists pool'' r, ipool_get pool' priv = Some (pool'', r) /\
    r ∉ live /\ (r = -1 <-> Z.of_nat (length live) = sz).
Proof.
  intros Hsz Hst Hmax Hc Hs.
  pose proof (create_inv _ _ _ Hsz Hst Hmax Hc) as Hinv.
  apply (steps_invariant _ (pool_inv start (Z.to_nat sz)) (pstep_inv _ _) _ _ Hs) in Hinv.
  destruct Hinv as (l & Hwf & Hs0 & Hlen & Hperm); cbn in *.
  pose proof (ids_nodup start (Z.to_nat sz)) as Hnd. rewrite <- Hperm in Hnd.
  apply NoDup_app in Hnd as (_ & Hdis & Hnd).
  assert (forall i, i ∈ live -> start <= i < start + sz) as Hin.
  { intros i Hi. assert (i ∈ ids pool' l ++ live) as Hi' by set_solver.
    rewrite Hperm in Hi'. apply ids_in_range in Hi'. lia. }
  split; [done|]. split; [done|]. intros priv.
  apply Permutation_length in Hperm. unfold ids in *.
  rewrite length_app, !length_fmap, length_seq in Hperm.
  destruct l as [|i l].
  - exists pool', (-1). rewrite get_wf_nil by done. split; [done|].
    split; [intros Hi; specialize (Hin _ Hi); lia|]. cbn in Hperm. lia.
  - destruct (get_wf_cons pool' i l priv Hwf) as (q & Hq & _). exists q. eexists.
    split; [exact Hq|]. split; [apply Hdis; cbn; set_solver|].
    cbn in Hperm. lia.
Qed.

(** the private pointer given to [ipool_get] is what [ipool_idx_priv]
    returns for the identifier, for pools whose first identifier is 0. *)
Theorem ipool_priv_roundtrip pool l priv pool' i :
  pool_wf pool l -> start_idx pool = 0 ->
  ipool_get pool priv = Some (pool', i) -> i <> -1 ->
  ipool_idx_priv (Some pool') i = Some priv.
Proof.
  intros Hwf Hs Hg Hi. destruct l as [|j l]; [rewrite get_wf_nil in Hg by done; congruence|].
  destruct (get_wf_cons pool j l priv Hwf) as (q & Hq & Hwf' & Hs' & Hm & Hl & (e & He & Hp) & _).
  rewrite Hq in Hg. simplify_eq. unfold ipool_idx_priv.
  pose proof (lookup_lt_Some _ _ _ He). destruct Hwf' as [_ _ _ Hmax _].
  rewrite (proj2 (Z.ltb_ge _ _)) by lia.
  rewrite Hs, Z.add_0_r, aget_nat, He. done.
Qed.

(** A pool whose first identifier is 1, as conx and prism create it, loses the
    pointer: the lookup reads the slot of the next identifier. *)
Lemma ipool_priv_lost_start1 :
  exists p p', ipool_create true true 2 1 = Some (Some p) /\
    ipool_get p 77 = Some (p', 1) /\ ipool_idx_priv (Some p') 1 = Some NULLP /\
    ipool_idx_priv (Some p') 2 = None.
Proof. do 2 eexists. repeat split; vm_compute; reflexivity. Qed.

(** Creating an empty pool writes before the array. *)
Lemma ipool_create_empty_faults start : ipool_create true true 0 start = None.
Proof. reflexivity. Qed.

(** ** Witnesses *)

Definition pool2 : ipool_hdl_t := mk_hdl 0 0 1 [mk_arr 1 0; mk_arr (-1) 0].

Lemma pool2_wf : pool_wf pool2 [0; 1]%nat.
Proof.
  constructor; cbn; try lia.
  - repeat (split; [done|]; eexists; split; [done|]). done.
  - by apply (bool_decide_unpack (NoDup [0; 1]%nat)).
  - unfold INT_MAX. lia.
Defined.

Lemma ipool_refines_spec_witness :
  exists pool' l', ipool_get pool2 9 = Some (pool', 0) /\ pool_wf pool' l' /\
    ids pool' l' = [1].
Proof. exact (proj1 (ipool_refines_spec pool2 _ pool2_wf) 9). Defined.

Lemma ipool_no_double_alloc_witness : NoDup [2; 1].
Proof.
  refine (proj1 (ipool_no_double_alloc 3 1 _ _ [2; 1] _ _ _ eq_refl _)).
  - unfold INT_MAX. lia.
  - lia.
  - unfold INT_MAX. lia.
  - eapply steps_step; [eapply (ps_get _ _ 5); [reflexivity|done]|].
    eapply steps_step; [eapply (ps_get _ _ 6); [reflexivity|done]|].
    apply steps_refl.
Defined.

Lemma ipool_priv_roundtrip_witness :
  ipool_idx_priv (Some (mk_hdl 0 1 1 [mk_arr 1 9; mk_arr (-1) 0])) 0 = Some 9.
Proof. refine (ipool_priv_roundtrip pool2 _ 9 _ 0 pool2_wf _ _ _); done. Defined.

End IdxPool.
