(* ===== verification/Walks.v ===== *)
(** * Walks in a weighted graph given by its weight matrix

    The graph theory behind the routing component: nodes are numbers below
    [n], [E a b] is the weight of the edge from [a] to [b] and [np] the value
    that stands for "no edge".  A walk from [a] to [b] is the list of its
    intermediate nodes. *)
From S2P Require Import Prelude.
From stdpp Require Import base list sets.
From Stdlib Require Import ZArith Lia.
#[local] Open Scope Z_scope.

Section WALKS.
Context (np : Z) (E : nat -> nat -> Z).

(** Total weight of a walk. *)
Fixpoint wsum (a : nat) (l : list nat) (b : nat) : Z :=
  match l with
  | [] => E a b
  | x :: l' => E a x + wsum x l' b
  end.

(** Every edge of the walk exists. *)
Fixpoint wok (a : nat) (l : list nat) (b : nat) : Prop :=
  match l with
  | [] => E a b <> np
  | x :: l' => E a x <> np /\ wok x l' b
  end.

#[global] Instance wok_dec a l b : Decision (wok a l b).
Proof. revert a. induction l; intros; cbn; apply _. Defined.

Lemma wok_app a l1 x l2 b : wok a (l1 ++ x :: l2) b <-> wok a l1 x /\ wok x l2 b.
Proof. revert a. induction l1 as [|y l1 IH]; intros a; cbn; [done|]. rewrite IH. tauto. Qed.

Lemma wsum_app a l1 x l2 b : wsum a (l1 ++ x :: l2) b = wsum a l1 x + wsum x l2 b.
Proof. revert a. induction l1 as [|y l1 IH]; intros a; cbn; [done|]. rewrite IH. lia. Qed.

(** Weights of the existing edges between nodes below [n] lie in [1 .. M]. *)
Section BOUNDED.
Context (n : nat) (M : Z)
  (Ebound : forall a b, (a < n)%nat -> (b < n)%nat -> E a b <> np -> 0 < E a b <= M).

Definition inside (l : list nat) : Prop := Forall (fun x => (x < n)%nat) l.

Lemma inside_mono l1 l2 : l1 ⊆ l2 -> inside l2 -> inside l1.
Proof. unfold inside. rewrite !Forall_forall. auto. Qed.

Lemma wsum_bounds a l b :
  (a < n)%nat -> (b < n)%nat -> inside l -> wok a l b ->
  0 < wsum a l b <= M * (Z.of_nat (length l) + 1).
Proof.
  revert a. induction l as [|x l IH]; intros a Ha Hb Hl Hok; cbn in *.
  - specialize (Ebound a b Ha Hb Hok). lia.
  - apply Forall_cons in Hl as [Hx Hl]. destruct Hok as [He Hok].
    specialize (IH x Hx Hb Hl Hok). specialize (Ebound a x Ha Hx He). lia.
Qed.

(** A walk between different nodes contains a simple path that is not longer. *)
Lemma walk_simple l : forall a b,
  a <> b -> (a < n)%nat -> (b < n)%nat -> inside l -> wok a l b ->
  exists l', wok a l' b /\ l' ⊆ l /\ NoDup (a :: l' ++ [b]) /\ wsum a l' b <= wsum a l b.
Proof.
  remember (length l) as m eqn:Hm; revert l Hm.
  induction m as [m IH] using lt_wf_ind. intros l -> a b Hab Ha Hb Hin Hok.
  destruct (decide (b ∈ l)) as [Hbl|Hbl].
  { (* stop at the first visit of [b] *)
    apply list_elem_of_split in Hbl as (l1 & l2 & ->).
    apply wok_app in Hok as [Hok1 Hok2].
    assert (inside l1 /\ inside l2) as [Hi1 Hi2].
    { split; (eapply inside_mono; [|exact Hin]); set_solver. }
    destruct (IH (length l1) ltac:(rewrite length_app; cbn; lia) l1 eq_refl a b)
      as (l' & H1 & H2 & H3 & H4); auto.
    exists l'. split_and!; auto; [set_solver|]. rewrite wsum_app.
    pose proof (wsum_bounds b l2 b Hb Hb Hi2 Hok2). lia. }
  destruct (decide (a ∈ l)) as [Hal|Hal].
  { apply list_elem_of_split in Hal as (l1 & l2 & ->).
    apply wok_app in Hok as [Hok1 Hok2].
    assert (inside l1 /\ inside l2) as [Hi1 Hi2].
    { split; (eapply inside_mono; [|exact Hin]); set_solver. }
    destruct (IH (length l2) ltac:(rewrite length_app; cbn; lia) l2 eq_refl a b)
      as (l' & H1 & H2 & H3 & H4); auto.
    exists l'. split_and!; auto; [set_solver|]. rewrite wsum_app.
    pose proof (wsum_bounds a l1 a Ha Ha Hi1 Hok1). lia. }
  destruct l as [|x l].
  { exists []. split_and!; auto; [|done]. cbn. apply NoDup_cons. split; [set_solver|].
    apply NoDup_singleton. }
  destruct Hok as [He Hok]. apply Forall_cons in Hin as [Hx Hin].
  apply not_elem_of_cons in Hal as [Hax Hal]. apply not_elem_of_cons in Hbl as [Hbx Hbl].
  destruct (IH (length l) ltac:(cbn; lia) l eq_refl x b) as (l' & H1 & H2 & H3 & H4); auto.
  exists (x :: l'). split_and!.
  - by split.
  - set_solver.
  - apply NoDup_cons. split; [set_solver|done].
  - cbn. lia.
Qed.

(** Simple paths visit at most [n] nodes. *)
Lemma simple_length a l b :
  (a < n)%nat -> (b < n)%nat -> inside l -> NoDup (a :: l ++ [b]) ->
  (length l + 2 <= n)%nat.
Proof.
  intros Ha Hb Hl Hnd.
  assert (length (a :: l ++ [b]) <= length (seq 0 n))%nat as H.
  { apply submseteq_length, NoDup_submseteq; [done|]. intros x Hx.
    apply elem_of_seq. rewrite elem_of_cons, elem_of_app, list_elem_of_singleton in Hx.
    destruct Hx as [->|[Hx| ->]]; try lia.
    apply (proj1 (Forall_forall _ _) Hl) in Hx. lia. }
  rewrite length_seq in H. cbn in H. rewrite length_app in H. cbn in H. lia.
Qed.

(** Hence a shortest walk weighs at most [M * (n - 1)]. *)
Lemma walk_simple_bound a l b :
  a <> b -> (a < n)%nat -> (b < n)%nat -> inside l -> wok a l b ->
  exists l', wok a l' b /\ l' ⊆ l /\ inside l' /\ a ∉ l' /\ b ∉ l' /\
    0 < wsum a l' b <= wsum a l b /\ wsum a l' b <= M * (Z.of_nat n - 1).
Proof.
  intros Hab Ha Hb Hin Hok.
  destruct (walk_simple l a b Hab Ha Hb Hin Hok) as (l' & H1 & H2 & H3 & H4).
  assert (inside l') as Hin'.
  { by eapply inside_mono. }
  pose proof (simple_length a l' b Ha Hb Hin' H3).
  pose proof (wsum_bounds a l' b Ha Hb Hin' H1).
  assert (0 < M) by nia.
  apply NoDup_cons in H3 as [H3a H3]. apply NoDup_app in H3 as (_ & H3b & _).
  exists l'. split_and!; auto; [set_solver|intros Hbl; apply (H3b b Hbl); set_solver|lia|nia].
Qed.

(** A walk through nodes up to [k] splits at [k] into walks through nodes
    below [k], and does not get longer. *)
Lemma walk_split k a l b :
  (a < n)%nat -> (b < n)%nat -> (k < n)%nat -> inside l -> wok a l b -> k ∈ l ->
  Forall (fun x => (x < S k)%nat) l ->
  exists l1 l2, wok a l1 k /\ wok k l2 b /\ inside l1 /\ inside l2 /\
    Forall (fun x => (x < k)%nat) l1 /\ Forall (fun x => (x < k)%nat) l2 /\
    wsum a l1 k + wsum k l2 b <= wsum a l b.
Proof.
  intros Ha Hb Hk Hin Hok Hkl Hlt.
  apply list_elem_of_split_l in Hkl as (l1 & r & -> & Hk1).
  apply wok_app in Hok as [Hok1 Hokr]. rewrite wsum_app.
  unfold inside in *. apply Forall_app in Hin as [Hi1 Hir], Hlt as [Hlt1 Hltr].
  apply Forall_cons in Hir as [_ Hir], Hltr as [_ Hltr].
  assert (forall l, k ∉ l -> Forall (fun x => (x < S k)%nat) l ->
            Forall (fun x => (x < k)%nat) l) as Hstrict.
  { intros l Hkl Hl. apply Forall_forall. intros x Hx.
    pose proof (proj1 (Forall_forall _ _) Hl x Hx). cbn in *.
    destruct (decide (x = k)); [congruence|lia]. }
  destruct (decide (k ∈ r)) as [Hkr|Hkr].
  - apply list_elem_of_split_r in Hkr as (c & l2 & -> & Hk2).
    apply wok_app in Hokr as [Hokc Hok2]. rewrite wsum_app.
    apply Forall_app in Hir as [Hic Hi2], Hltr as [_ Hlt2].
    apply Forall_cons in Hi2 as [_ Hi2], Hlt2 as [_ Hlt2].
    pose proof (wsum_bounds k c k Hk Hk Hic Hokc).
    exists l1, l2. split_and!; auto. lia.
  - exists l1, r. split_and!; auto. lia.
Qed.

End BOUNDED.
End WALKS.
