(* ===== verification/RouteApsp.v ===== *)
(** * All-pairs shortest paths (services/loadable/topo_routing/mul_route_apsp.c)

    The routing service keeps, in one shared block, the adjacency matrix and
    the transit matrix of the switches of the cluster, and recomputes all
    shortest paths with the Floyd-Warshall algorithm.  The matrices are flat
    arrays indexed by [row * nodes + col] ([RT_MATRIX_ELEM]); an access past
    the block is [None], as is a signed overflow of [int]. *)
From S2P Require Import Prelude.
From stdpp Require Import base list.
From Stdlib Require Import ZArith Lia.
#[local] Open Scope Z_scope.

Module Apsp.

(** ** Data (mul_route.h, mul_route_apsp.h) *)

Definition NEIGH_NO_PATH : Z := INT_MAX.
Definition NEIGH_NO_LINK : Z := UINT16_MAX.
Definition NEIGH_DFL_WEIGHT : Z := 100.
Definition NEIGH_FL_ONLINK : Z := 1.
Definition NEIGH_FL_BLOCK : Z := 2.
Definition RT_MAX_ADJ_PAIRS : Z := 4.
Definition RT_MAX_EQ_PATHS : Z := 4.
Definition MAX_SWITCHES_PER_CLUSTER : Z := 512.

Definition RT_APSP_NONE : Z := 0.
Definition RT_APSP_INIT : Z := 1.
Definition RT_APSP_ADJ_INIT : Z := 2.
Definition RT_APSP_RUN : Z := 4.
Definition RT_APSP_CONVERGED : Z := 8.

Definition EINVAL : Z := 22.

Record lweight_pair_t := mk_pair {
  la : Z; lb : Z; weight : Z; flags : Z }.

Record rt_adj_elem_t := mk_adj {
  dpid_a : Z; dpid_b : Z; pairs : Z; adj_pairs : list lweight_pair_t }.

Record rt_transit_elem_t := mk_transit {
  n_paths : Z; sw_alias : list Z }.

Record rt_apsp_state_t := mk_state {
  state : Z; calc_ts : Z; serv_ts : Z; nodes : Z; seq_lock : Z }.

Record rt_apsp_t := mk_apsp {
  state_info : rt_apsp_state_t;
  adj_matrix : list rt_adj_elem_t;
  paths : list rt_transit_elem_t }.

(** ** State updates *)

Definition set_flags (s : Z) (st : rt_apsp_t) : rt_apsp_t :=
  let i := state_info st in
  mk_apsp (mk_state s (calc_ts i) (serv_ts i) (nodes i) (seq_lock i))
          (adj_matrix st) (paths st).
Definition set_nodes (n : Z) (st : rt_apsp_t) : rt_apsp_t :=
  let i := state_info st in
  mk_apsp (mk_state (state i) (calc_ts i) (serv_ts i) n (seq_lock i))
          (adj_matrix st) (paths st).
Definition set_calc_ts (t : Z) (st : rt_apsp_t) : rt_apsp_t :=
  let i := state_info st in
  mk_apsp (mk_state (state i) t (serv_ts i) (nodes i) (seq_lock i))
          (adj_matrix st) (paths st).
Definition set_adj (m : list rt_adj_elem_t) (st : rt_apsp_t) : rt_apsp_t :=
  mk_apsp (state_info st) m (paths st).
Definition set_paths (m : list rt_transit_elem_t) (st : rt_apsp_t) : rt_apsp_t :=
  mk_apsp (state_info st) (adj_matrix st) m.
Definition set_pair_weight (w : Z) (p : lweight_pair_t) : lweight_pair_t :=
  mk_pair (la p) (lb p) w (flags p).

(** The sequence lock: writers bump the counter on entry and on exit. *)
Definition seq_bump (st : rt_apsp_t) : rt_apsp_t :=
  let i := state_info st in
  mk_apsp (mk_state (state i) (calc_ts i) (serv_ts i) (nodes i) (u32 (seq_lock i + 1)))
          (adj_matrix st) (paths st).
Definition c_seq_wr_lock := seq_bump.
Definition c_seq_wr_unlock := seq_bump.

(** ** Matrix access *)

Definition RT_MATRIX_ELEM (sz row col : Z) : Z := row * sz + col.
Definition RT_APSP_ADJ_ELEM (st : rt_apsp_t) (i j : Z) : option rt_adj_elem_t :=
  aget (adj_matrix st) (RT_MATRIX_ELEM (nodes (state_info st)) i j).
Definition put_adj_elem (st : rt_apsp_t) (i j : Z) (e : rt_adj_elem_t) : option rt_apsp_t :=
  m ← aset (adj_matrix st) (RT_MATRIX_ELEM (nodes (state_info st)) i j) e;
  Some (set_adj m st).
Definition RT_APSP_PATH_ELEM (st : rt_apsp_t) (i j : Z) : option rt_transit_elem_t :=
  aget (paths st) (RT_MATRIX_ELEM (nodes (state_info st)) i j).
Definition put_path_elem (st : rt_apsp_t) (i j : Z) (e : rt_transit_elem_t) : option rt_apsp_t :=
  m ← aset (paths st) (RT_MATRIX_ELEM (nodes (state_info st)) i j) e;
  Some (set_paths m st).

Definition rt_apsp_select_mp (e : rt_adj_elem_t) : Z := 0.

Definition rt_apsp_get_pair (st : rt_apsp_t) (a b : Z) : option lweight_pair_t :=
  e ← RT_APSP_ADJ_ELEM st a b;
  aget (adj_pairs e) (rt_apsp_select_mp e).

Definition rt_apsp_get_weight (st : rt_apsp_t) (a b : Z) : option Z :=
  p ← rt_apsp_get_pair st a b; Some (weight p).

Definition rt_apsp_onlink_neigh (st : rt_apsp_t) (a b : Z) : option bool :=
  p ← rt_apsp_get_pair st a b;
  Some (negb (Z.land (flags p) NEIGH_FL_ONLINK =? 0) &&
        (Z.land (flags p) NEIGH_FL_BLOCK =? 0)).

Definition rt_apsp_set_weight (st : rt_apsp_t) (a b w : Z) : option rt_apsp_t :=
  e ← RT_APSP_ADJ_ELEM st a b;
  p ← aget (adj_pairs e) (rt_apsp_select_mp e);
  ps ← aset (adj_pairs e) (rt_apsp_select_mp e) (set_pair_weight w p);
  put_adj_elem st a b (mk_adj (dpid_a e) (dpid_b e) (pairs e) ps).

Definition rt_apsp_get_src_dp (st : rt_apsp_t) (a b : Z) : option Z :=
  e ← RT_APSP_ADJ_ELEM st a b; Some (dpid_a e).

Definition has_flag (st : rt_apsp_t) (f : Z) : bool :=
  negb (Z.land (state (state_info st)) f =? 0).

Definition rt_apsp_converged (st : rt_apsp_t) : bool :=
  has_flag st RT_APSP_INIT && has_flag st RT_APSP_ADJ_INIT &&
  has_flag st RT_APSP_CONVERGED.

Definition flag_set (f : Z) (st : rt_apsp_t) : rt_apsp_t :=
  set_flags (Z.lor (state (state_info st)) f) st.
Definition flag_clear (f : Z) (st : rt_apsp_t) : rt_apsp_t :=
  set_flags (Z.land (state (state_info st)) (u32 (Z.lnot f))) st.

(** ** Clearing and initialisation *)

Definition zero_pair : lweight_pair_t := mk_pair 0 0 0 0.
Definition zero_adj : rt_adj_elem_t := mk_adj 0 0 0 (replicate 4 zero_pair).
Definition zero_transit : rt_transit_elem_t := mk_transit 0 (replicate 4 0).

(** [memset] of both matrices. *)
Definition mul_clear_route_matrix (st : rt_apsp_t) : rt_apsp_t :=
  mk_apsp (state_info st) (replicate (length (adj_matrix st)) zero_adj)
          (replicate (length (paths st)) zero_transit).

Definition mul_clear_route_state_info (st : rt_apsp_t) : rt_apsp_t :=
  set_nodes 0 (set_calc_ts 0 (set_flags RT_APSP_NONE st)).

Definition mul_route_apsp_clean_state (st : rt_apsp_t) : rt_apsp_t :=
  c_seq_wr_unlock (mul_clear_route_state_info (c_seq_wr_lock st)).

Definition rt_init_adj_pair_disconnected (p : lweight_pair_t) : lweight_pair_t :=
  mk_pair NEIGH_NO_LINK NEIGH_NO_LINK NEIGH_NO_PATH (flags p).

Definition rt_init_adj_pairs_disconnected (e : rt_adj_elem_t) : rt_adj_elem_t :=
  mk_adj (dpid_a e) (dpid_b e) 0 (rt_init_adj_pair_disconnected <$> adj_pairs e).

(** Heartbeat: stamp the block as alive. *)
Definition mul_route_apsp_hearbeat (now : Z) (st : rt_apsp_t) : rt_apsp_t :=
  let i := state_info st in
  mk_apsp (mk_state (state i) (calc_ts i) now (nodes i) (seq_lock i))
          (adj_matrix st) (paths st).

(** ** Adjacency updates *)

(** The scan of the pairs already known for two switches. *)
Fixpoint find_pair (ps : list lweight_pair_t) (n : nat) (new_adj : lweight_pair_t)
  : option nat :=
  match n, ps with
  | S n', p :: ps' =>
      if (la p =? la new_adj) && (lb p =? lb new_adj) then Some O
      else S <$> find_pair ps' n' new_adj
  | _, _ => None
  end.

Definition mul_route_apsp_add_neigh_conn (st : rt_apsp_t) (sw_a sw_b dpa dpb : Z)
  (new_adj : lweight_pair_t) (update : bool) : option rt_apsp_t :=
  let ns := nodes (state_info st) in
  if negb (has_flag st RT_APSP_INIT) then Some st
  else if (ns <=? u64 sw_a) || (ns <=? u64 sw_a) then Some st
  else
    e ← RT_APSP_ADJ_ELEM st sw_a sw_b;
    if RT_MAX_ADJ_PAIRS - 1 <=? pairs e then Some st
    else
      let e := mk_adj dpa dpb (pairs e) (adj_pairs e) in
      st ← put_adj_elem st sw_a sw_b e;
      match find_pair (adj_pairs e) (Z.to_nat (pairs e)) new_adj with
      | Some k =>
          p ← aget (adj_pairs e) (Z.of_nat k);
          if negb (weight p =? weight new_adj) || negb (flags p =? flags new_adj) then
            if update then Some (flag_clear RT_APSP_ADJ_INIT st)
            else
              ps ← aset (adj_pairs e) (Z.of_nat k)
                     (mk_pair (la p) (lb p) (weight new_adj) (flags new_adj));
              st ← put_adj_elem st sw_a sw_b (mk_adj dpa dpb (pairs e) ps);
              Some (flag_clear RT_APSP_ADJ_INIT st)
          else Some st
      | None =>
          if update then Some st
          else if pairs e <? RT_MAX_ADJ_PAIRS then
            ps ← aset (adj_pairs e) (pairs e)
                   (mk_pair (la new_adj) (lb new_adj) (weight new_adj) (flags new_adj));
            st ← put_adj_elem st sw_a sw_b (mk_adj dpa dpb (pairs e + 1) ps);
            Some (flag_clear RT_APSP_ADJ_INIT st)
          else Some st
      end.

(** What routing asks of the topology module (mul_lldp.c): the largest switch
    alias and, for two aliases, the connections it reports, each as source
    dpid, destination dpid and link. *)
Class Topology (T : Type) := {
  tr_get_max_switch_alias : T -> Z;
  tr_neigh_pair_adjacencies : T -> bool -> Z -> Z -> list (Z * Z * lweight_pair_t) }.

Section INIT.
Context {T : Type} `{Topology T}.

Definition init_elem (i j : Z) (st : rt_apsp_t) : option rt_apsp_t :=
  e ← RT_APSP_ADJ_ELEM st i j;
  st ← put_adj_elem st i j (rt_init_adj_pairs_disconnected e);
  put_path_elem st i j (mk_transit 0 (replicate 4 NEIGH_NO_PATH)).

Fixpoint add_neigh_conns (i j : Z) (l : list (Z * Z * lweight_pair_t)) (st : rt_apsp_t)
  : option rt_apsp_t :=
  match l with
  | [] => Some st
  | (da, db, p) :: l' =>
      st ← mul_route_apsp_add_neigh_conn st i j da db p false;
      add_neigh_conns i j l' st
  end.

(** The result pairs the new block with the C return code. *)
Definition mul_route_apsp_init_state (topo : T) (need_port_state : bool) (st : rt_apsp_t)
  : option (rt_apsp_t * Z) :=
  let st := mul_route_apsp_clean_state st in
  let max_alias := tr_get_max_switch_alias topo in
  if max_alias <? 0 then Some (st, - EINVAL)
  else
    let n := max_alias + 1 in
    let st := set_nodes n (mul_clear_route_matrix (c_seq_wr_lock st)) in
    st ← for_range n (fun i => for_range n (fun j => init_elem i j)) st;
    let st := set_flags RT_APSP_INIT st in
    st ← for_range n (fun i => for_range n (fun j =>
           add_neigh_conns i j (tr_neigh_pair_adjacencies topo need_port_state i j))) st;
    Some (c_seq_wr_unlock (flag_set RT_APSP_ADJ_INIT st), 0).

End INIT.

(** ** Floyd-Warshall *)

(** The relaxation of the pair [fw_i, fw_j] through [fw_k]. *)
Definition fw_relax (fw_k fw_i fw_j : Z) (st : rt_apsp_t) : option rt_apsp_t :=
  if fw_i =? fw_j then Some st
  else
    w_ij ← rt_apsp_get_weight st fw_i fw_j;
    w_ik ← rt_apsp_get_weight st fw_i fw_k;
    w_kj ← rt_apsp_get_weight st fw_k fw_j;
    if negb (w_ik =? NEIGH_NO_PATH) && negb (w_kj =? NEIGH_NO_PATH) then
      s ← sint (w_ik + w_kj);
      if s <? w_ij then
        st ← rt_apsp_set_weight st fw_i fw_j s;
        e ← RT_APSP_PATH_ELEM st fw_i fw_j;
        als ← for_range RT_MAX_EQ_PATHS (fun p l => aset l p NEIGH_NO_PATH) (sw_alias e);
        als ← aset als 0 fw_k;
        put_path_elem st fw_i fw_j (mk_transit 1 als)
      else if (s =? w_ij) && negb (fw_k =? fw_i) && negb (fw_k =? fw_j) then
        e ← RT_APSP_PATH_ELEM st fw_i fw_j;
        if n_paths e <? RT_MAX_EQ_PATHS then
          als ← aset (sw_alias e) (n_paths e) fw_k;
          put_path_elem st fw_i fw_j (mk_transit (n_paths e + 1) als)
        else Some st
      else Some st
    else Some st.

Definition fw_loops (n : Z) (st : rt_apsp_t) : option rt_apsp_t :=
  for_range n (fun k => for_range n (fun i => for_range n (fun j => fw_relax k i j))) st.

Definition mul_route_apsp_calc (now : Z) (st : rt_apsp_t) : option (rt_apsp_t * Z) :=
  let st := c_seq_wr_lock st in
  if negb (has_flag st RT_APSP_INIT) || negb (has_flag st RT_APSP_ADJ_INIT)
  then Some (c_seq_wr_unlock st, - EINVAL)
  else
    let n := nodes (state_info st) in
    st ← fw_loops n (flag_set RT_APSP_RUN st);
    Some (c_seq_wr_unlock
            (flag_set RT_APSP_CONVERGED (flag_clear RT_APSP_RUN (set_calc_ts now st))), 0).

(** Clean, initialise from the current topology and compute: what
    [mul_route_apsp_recalc] (with port states) and [__tr_invoke_routing]
    (without) do through the routing callbacks. *)
Definition rebuild_routes {T} `{Topology T} (topo : T) (need_port_state : bool)
  (now : Z) (st : rt_apsp_t) : option rt_apsp_t :=
  let st := mul_route_apsp_clean_state st in
  '(st, _) ← mul_route_apsp_init_state topo need_port_state st;
  '(st, _) ← mul_route_apsp_calc now st;
  Some st.

Definition mul_route_apsp_recalc {T} `{Topology T} (topo : T) (now : Z) (st : rt_apsp_t)
  : option rt_apsp_t :=
  if negb (has_flag st RT_APSP_ADJ_INIT)
  then rebuild_routes topo true now st else Some st.

End Apsp.
