(* ===== verification/RouteApspSpec.v ===== *)
(** * Correctness of the all-pairs shortest path computation

    The Floyd-Warshall loops of [RouteApsp] compute, without undefined
    behaviour, the weight of a shortest walk between every two switches and,
    in the transit matrix, intermediate switches that lie on shortest walks. *)
From S2P Require Import Prelude Walks RouteApsp.
From stdpp Require Import base list sets.
From Stdlib Require Import ZArith Lia.
#[local] Open Scope Z_scope.
Import Apsp.

(** ** Views of the shared block *)

Definition Pv (st : rt_apsp_t) (a b : nat) : lweight_pair_t :=
  default zero_pair (rt_apsp_get_pair st (Z.of_nat a) (Z.of_nat b)).
Definition Wv (st : rt_apsp_t) (a b : nat) : Z := weight (Pv st a b).
Definition Tv (st : rt_apsp_t) (a b : nat) : rt_transit_elem_t :=
  default zero_transit (RT_APSP_PATH_ELEM st (Z.of_nat a) (Z.of_nat b)).

(** The block holds matrices for [n] nodes, each element with its fixed arrays. *)
Record block_ok (n : nat) (st : rt_apsp_t) : Prop := {
  bo_nodes : nodes (state_info st) = Z.of_nat n;
  bo_adj : (n * n <= length (adj_matrix st))%nat;
  bo_paths : (n * n <= length (paths st))%nat;
  bo_adj4 : Forall (fun e => length (adj_pairs e) = 4%nat) (adj_matrix st);
  bo_paths4 : Forall (fun e => length (sw_alias e) = 4%nat) (paths st) }.

(** ** Matrix access lemmas *)

Lemma midx (n a b : nat) : RT_MATRIX_ELEM (Z.of_nat n) (Z.of_nat a) (Z.of_nat b) = Z.of_nat (a * n + b).
Proof. unfold RT_MATRIX_ELEM. lia. Qed.

Lemma midx_lt n a b : (a < n)%nat -> (b < n)%nat -> (a * n + b < n * n)%nat.
Proof. nia. Qed.

Lemma midx_inj (n a b c d : nat) :
  (b < n)%nat -> (d < n)%nat -> (a * n + b)%nat = (c * n + d)%nat -> a = c /\ b = d.
Proof.
  intros Hb Hd Heq. assert (a = c) as ->; [|lia].
  destruct (Nat.lt_trichotomy a c) as [H|[H|H]]; [|done|]; nia.
Qed.

Section VIEW.
Context (n : nat) (st : rt_apsp_t) (Hok : block_ok n st).

Lemma adj_elem_some a b :
  (a < n)%nat -> (b < n)%nat ->
  exists e, RT_APSP_ADJ_ELEM st (Z.of_nat a) (Z.of_nat b) = Some e /\
    adj_matrix st !! (a * n + b)%nat = Some e /\ length (adj_pairs e) = 4%nat.
Proof using Hok.
  intros Ha Hb. destruct Hok as [Hn Hla _ H4 _].
  destruct (lookup_lt_is_Some_2 (adj_matrix st) (a * n + b)%nat) as [e He].
  { pose proof (midx_lt n a b Ha Hb). lia. }
  exists e. unfold RT_APSP_ADJ_ELEM. rewrite Hn, midx, aget_nat.
  split_and!; try done. eapply (Forall_lookup_1 _ _ _ _ H4 He).
Qed.

Lemma get_pair_some a b :
  (a < n)%nat -> (b < n)%nat ->
  rt_apsp_get_pair st (Z.of_nat a) (Z.of_nat b) = Some (Pv st a b).
Proof using Hok.
  intros Ha Hb. unfold Pv, rt_apsp_get_pair.
  destruct (adj_elem_some a b Ha Hb) as (e & -> & _ & H4); cbn.
  unfold rt_apsp_select_mp. change 0 with (Z.of_nat 0). rewrite aget_nat.
  destruct (lookup_lt_is_Some_2 (adj_pairs e) 0%nat) as [p ->]; [lia|done].
Qed.

Lemma get_weight_some a b :
  (a < n)%nat -> (b < n)%nat ->
  rt_apsp_get_weight st (Z.of_nat a) (Z.of_nat b) = Some (Wv st a b).
Proof using Hok. intros. unfold rt_apsp_get_weight. by rewrite get_pair_some. Qed.

Lemma path_elem_some a b :
  (a < n)%nat -> (b < n)%nat ->
  RT_APSP_PATH_ELEM st (Z.of_nat a) (Z.of_nat b) = Some (Tv st a b) /\
  length (sw_alias (Tv st a b)) = 4%nat.
Proof using Hok.
  intros Ha Hb. destruct Hok as [Hn _ Hlp _ H4].
  destruct (lookup_lt_is_Some_2 (paths st) (a * n + b)%nat) as [e He].
  { pose proof (midx_lt n a b Ha Hb). lia. }
  unfold Tv, RT_APSP_PATH_ELEM. rewrite Hn, midx, aget_nat, He. split; [done|].
  cbn. eapply (Forall_lookup_1 _ _ _ _ H4 He).
Qed.

(** Writing an adjacency element changes that element only. *)
Lemma put_adj_spec a b e :
  (a < n)%nat -> (b < n)%nat -> length (adj_pairs e) = 4%nat ->
  exists st', put_adj_elem st (Z.of_nat a) (Z.of_nat b) e = Some st' /\
    block_ok n st' /\ state_info st' = state_info st /\ paths st' = paths st /\
    forall c d, (c < n)%nat -> (d < n)%nat ->
      RT_APSP_ADJ_ELEM st' (Z.of_nat c) (Z.of_nat d) =
      if decide (a = c /\ b = d) then Some e
      else RT_APSP_ADJ_ELEM st (Z.of_nat c) (Z.of_nat d).
Proof using Hok.
  intros Ha Hb He. destruct Hok as [Hn Hla Hlp H4 Hp4].
  pose proof (midx_lt n a b Ha Hb). unfold put_adj_elem.
  rewrite Hn, midx, aset_nat by lia; cbn.
  eexists; split; [done|]. split_and!; try done.
  - constructor; cbn; rewrite ?length_insert; auto. by apply Forall_insert.
  - intros c d Hc Hd. unfold RT_APSP_ADJ_ELEM; cbn. rewrite Hn, midx, !aget_nat.
    case_decide as Hcd.
    + destruct Hcd as [-> ->]. apply list_lookup_insert_eq. lia.
    + apply list_lookup_insert_ne. intros Heq. apply Hcd, (midx_inj n); auto.
Qed.

Lemma set_weight_spec a b w :
  (a < n)%nat -> (b < n)%nat ->
  exists st', rt_apsp_set_weight st (Z.of_nat a) (Z.of_nat b) w = Some st' /\
    block_ok n st' /\ state_info st' = state_info st /\ paths st' = paths st /\
    forall c d, (c < n)%nat -> (d < n)%nat ->
      Pv st' c d = if decide (a = c /\ b = d) then set_pair_weight w (Pv st a b)
                   else Pv st c d.
Proof using Hok.
  intros Ha Hb. unfold rt_apsp_set_weight.
  destruct (adj_elem_some a b Ha Hb) as (e & He & Hm & H4). rewrite He; cbn.
  unfold rt_apsp_select_mp. change 0 with (Z.of_nat 0). rewrite aget_nat.
  destruct (lookup_lt_is_Some_2 (adj_pairs e) 0%nat) as [p Hp]; [lia|].
  rewrite Hp; cbn. rewrite aset_nat by lia; cbn.
  destruct (put_adj_spec a b (mk_adj (dpid_a e) (dpid_b e) (pairs e)
              (<[0%nat:=set_pair_weight w p]> (adj_pairs e))))
    as (st' & Hst & Hok' & Hsi & Hpa & Hget); auto.
  { cbn. by rewrite length_insert. }
  exists st'. split_and!; auto. intros c d Hc Hd.
  unfold Pv, rt_apsp_get_pair. rewrite (Hget c d Hc Hd), He; cbn.
  unfold rt_apsp_select_mp. change 0 with (Z.of_nat 0).
  case_decide as Hcd; cbn; [|done]. rewrite !aget_nat, Hp.
  by rewrite list_lookup_insert_eq by lia.
Qed.

Lemma put_path_spec a b t :
  (a < n)%nat -> (b < n)%nat -> length (sw_alias t) = 4%nat ->
  exists st', put_path_elem st (Z.of_nat a) (Z.of_nat b) t = Some st' /\
    block_ok n st' /\ state_info st' = state_info st /\
    (forall c d, Pv st' c d = Pv st c d) /\
    forall c d, (c < n)%nat -> (d < n)%nat ->
      Tv st' c d = if decide (a = c /\ b = d) then t else Tv st c d.
Proof using Hok.
  intros Ha Hb He. destruct Hok as [Hn Hla Hlp H4 Hp4].
  pose proof (midx_lt n a b Ha Hb). unfold put_path_elem.
  rewrite Hn, midx, aset_nat by lia; cbn.
  eexists; split; [done|]. split_and!; try done.
  - constructor; cbn; rewrite ?length_insert; auto. by apply Forall_insert.
  - intros c d Hc Hd. unfold Tv, RT_APSP_PATH_ELEM; cbn. rewrite Hn, !midx, !aget_nat.
    case_decide as Hcd.
    + destruct Hcd as [-> ->]. rewrite list_lookup_insert_eq by lia. done.
    + rewrite list_lookup_insert_ne; [done|].
      intros Heq. apply Hcd, (midx_inj n); auto.
Qed.

End VIEW.

(** ** One relaxation *)

(** Resetting the alternatives: the loop over [RT_MAX_EQ_PATHS]. *)
Lemma reset_aliases (l : list Z) :
  length l = 4%nat ->
  for_range RT_MAX_EQ_PATHS (fun p l => aset l p NEIGH_NO_PATH) l =
  Some (replicate 4 NEIGH_NO_PATH).
Proof. destruct l as [|? [|? [|? [|? [|]]]]]; cbn; intros; try lia; reflexivity. Qed.

(** What a relaxation does to the pair it handles. *)
Inductive relaxed (k i j : nat) (st st' : rt_apsp_t) : Prop :=
| rx_same :
    Pv st' i j = Pv st i j -> Tv st' i j = Tv st i j ->
    (i = j \/ Wv st i k = NEIGH_NO_PATH \/ Wv st k j = NEIGH_NO_PATH \/
     Wv st i j <= Wv st i k + Wv st k j) ->
    relaxed k i j st st'
| rx_better :
    i <> j -> Wv st i k <> NEIGH_NO_PATH -> Wv st k j <> NEIGH_NO_PATH ->
    Wv st i k + Wv st k j < Wv st i j ->
    Pv st' i j = set_pair_weight (Wv st i k + Wv st k j) (Pv st i j) ->
    Tv st' i j = mk_transit 1 (Z.of_nat k :: replicate 3 NEIGH_NO_PATH) ->
    relaxed k i j st st'
| rx_equal :
    i <> j -> Wv st i k <> NEIGH_NO_PATH -> Wv st k j <> NEIGH_NO_PATH ->
    Wv st i k + Wv st k j = Wv st i j -> k <> i -> k <> j ->
    n_paths (Tv st i j) < 4 ->
    Pv st' i j = Pv st i j ->
    Tv st' i j = mk_transit (n_paths (Tv st i j) + 1)
      (<[Z.to_nat (n_paths (Tv st i j)) := Z.of_nat k]> (sw_alias (Tv st i j))) ->
    relaxed k i j st st'.

Lemma fw_relax_spec n st k i j :
  block_ok n st -> (k < n)%nat -> (i < n)%nat -> (j < n)%nat ->
  0 <= n_paths (Tv st i j) ->
  (Wv st i k <> NEIGH_NO_PATH -> Wv st k j <> NEIGH_NO_PATH ->
   INT_MIN <= Wv st i k + Wv st k j <= INT_MAX) ->
  exists st', fw_relax (Z.of_nat k) (Z.of_nat i) (Z.of_nat j) st = Some st' /\
    block_ok n st' /\ state_info st' = state_info st /\ relaxed k i j st st' /\
    forall c d, (c < n)%nat -> (d < n)%nat -> ~ (i = c /\ j = d) ->
      Pv st' c d = Pv st c d /\ Tv st' c d = Tv st c d.
Proof.
  intros Hok Hk Hi Hj Hnp Hov. unfold fw_relax.
  assert (forall st', st' = st -> relaxed k i j st st' ->
    exists st'', Some st' = Some st'' /\ block_ok n st'' /\ state_info st'' = state_info st /\
    relaxed k i j st st'' /\ forall c d, (c < n)%nat -> (d < n)%nat -> ~ (i = c /\ j = d) ->
      Pv st'' c d = Pv st c d /\ Tv st'' c d = Tv st c d) as Hsame.
  { intros ? -> Hr. exists st. split_and!; auto. }
  destruct (Z.eqb_spec (Z.of_nat i) (Z.of_nat j)) as [Hij|Hij].
  { apply Hsame; [done|]. apply rx_same; auto. left. lia. }
  rewrite !(get_weight_some n st Hok) by done; cbn.
  destruct (Z.eqb_spec (Wv st i k) NEIGH_NO_PATH) as [Hik|Hik]; cbn;
    [apply Hsame; [done|]; apply rx_same; auto|].
  destruct (Z.eqb_spec (Wv st k j) NEIGH_NO_PATH) as [Hkj|Hkj]; cbn;
    [apply Hsame; [done|]; apply rx_same; auto|].
  rewrite (sint_Some _ (Hov Hik Hkj)); cbn.
  destruct (Z.ltb_spec (Wv st i k + Wv st k j) (Wv st i j)) as [Hlt|Hge].
  - destruct (set_weight_spec n st Hok i j (Wv st i k + Wv st k j) Hi Hj)
      as (st1 & -> & Hok1 & Hsi1 & Hpa1 & HP1); cbn.
    destruct (path_elem_some n st1 Hok1 i j Hi Hj) as [-> H4]; cbn.
    rewrite reset_aliases by done; cbn [mbind option_bind].
    assert (aset (replicate 4 NEIGH_NO_PATH) 0 (Z.of_nat k) =
            Some (Z.of_nat k :: replicate 3 NEIGH_NO_PATH)) as -> by reflexivity.
    cbn [mbind option_bind].
    destruct (put_path_spec n st1 Hok1 i j
      (mk_transit 1 (Z.of_nat k :: replicate 3 NEIGH_NO_PATH)) Hi Hj eq_refl)
      as (st2 & -> & Hok2 & Hsi2 & HP2 & HT2).
    exists st2. split_and!; auto; [congruence| |].
    + apply rx_better; [lia|done|done|done| |].
      * rewrite HP2, HP1 by done. by rewrite decide_True.
      * rewrite HT2 by done. by rewrite decide_True.
    + intros c d Hc Hd Hcd. rewrite HP2, HT2, HP1 by done. rewrite !decide_False by done.
      split; [done|]. unfold Tv, RT_APSP_PATH_ELEM. by rewrite Hpa1, Hsi1.
  - destruct (Z.eqb_spec (Wv st i k + Wv st k j) (Wv st i j)) as [Heq|Hne]; cbn;
      [|apply Hsame; [done|]; apply rx_same; auto].
    destruct (Z.eqb_spec (Z.of_nat k) (Z.of_nat i)) as [Hki|Hki]; cbn;
      [apply Hsame; [done|]; apply rx_same; auto|].
    destruct (Z.eqb_spec (Z.of_nat k) (Z.of_nat j)) as [Hkj'|Hkj']; cbn;
      [apply Hsame; [done|]; apply rx_same; auto|].
    destruct (path_elem_some n st Hok i j Hi Hj) as [-> H4]; cbn.
    destruct (Z.ltb_spec (n_paths (Tv st i j)) RT_MAX_EQ_PATHS) as [Hn4|Hn4];
      [|apply Hsame; [done|]; apply rx_same; auto; right; right; right; lia].
    unfold RT_MAX_EQ_PATHS in Hn4.
    rewrite aset_pos by lia; cbn [mbind option_bind].
    destruct (put_path_spec n st Hok i j (mk_transit (n_paths (Tv st i j) + 1)
      (<[Z.to_nat (n_paths (Tv st i j)) := Z.of_nat k]> (sw_alias (Tv st i j)))) Hi Hj)
      as (st2 & -> & Hok2 & Hsi2 & HP2 & HT2); [by cbn; rewrite length_insert|].
    exists st2. split_and!; auto.
    + apply rx_equal; try done; try lia. rewrite HT2 by done. by rewrite decide_True.
    + intros c d Hc Hd Hcd. rewrite HP2, HT2 by done. by rewrite decide_False.
Qed.

(** ** The invariant of the loops *)

Section FW.
Context (E : nat -> nat -> Z) (n : nat) (M : Z).

(** The weights of the links the computation starts from. *)
Definition weights_ok : Prop :=
  forall a b, (a < n)%nat -> (b < n)%nat -> E a b <> NEIGH_NO_PATH -> 0 < E a b <= M.

Context (HE : weights_ok) (HM : 2 * M * Z.of_nat n < INT_MAX).

Local Abbreviation ok := (wok NEIGH_NO_PATH E).
Local Abbreviation len := (wsum E).
Local Abbreviation inn := (inside n).
Local Abbreviation below k := (Forall (fun x => (x < k)%nat)).

(** The recorded transit switches of a pair split its current weight. *)
Definition transit_ok (st : rt_apsp_t) (a b : nat) : Prop :=
  let t := Tv st a b in
  0 <= n_paths t <= 4 /\
  (n_paths t = 0 -> Wv st a b = E a b) /\
  forall m x, sw_alias t !! m = Some x ->
    (Z.of_nat m < n_paths t -> exists c : nat, x = Z.of_nat c /\ (c < n)%nat /\
       c <> a /\ c <> b /\ Wv st a c <> NEIGH_NO_PATH /\ Wv st c b <> NEIGH_NO_PATH /\
       Wv st a c + Wv st c b <= Wv st a b) /\
    (n_paths t <= Z.of_nat m -> x = NEIGH_NO_PATH).

(** A pair's weight is at most that of every walk through nodes below [k]. *)
Definition bounded (st : rt_apsp_t) (k : nat) (a b : nat) : Prop :=
  forall l, inn l -> below k l -> ok a l b ->
    Wv st a b <> NEIGH_NO_PATH /\ Wv st a b <= len a l b.

Record fw_inv (k : nat) (D : nat -> nat -> Prop) (st : rt_apsp_t) : Prop := {
  fi_block : block_ok n st;
  fi_diag : forall a, (a < n)%nat -> Wv st a a = E a a;
  fi_sound : forall a b, (a < n)%nat -> (b < n)%nat -> a <> b ->
    Wv st a b <> NEIGH_NO_PATH ->
    exists l, inn l /\ below (S k) l /\ ok a l b /\ len a l b = Wv st a b;
  fi_bound : forall a b, (a < n)%nat -> (b < n)%nat -> a <> b -> bounded st k a b;
  fi_done : forall a b, (a < n)%nat -> (b < n)%nat -> a <> b -> D a b -> bounded st (S k) a b;
  fi_transit : forall a b, (a < n)%nat -> (b < n)%nat -> transit_ok st a b }.

Lemma fw_pos k D st a b :
  fw_inv k D st -> (a < n)%nat -> (b < n)%nat -> Wv st a b <> NEIGH_NO_PATH -> 0 < Wv st a b.
Proof using HE.
  intros Hi Ha Hb Hne. destruct (decide (a = b)) as [->|Hab].
  - rewrite (fi_diag _ _ _ Hi) in Hne |- * by done. by apply HE.
  - destruct (fi_sound _ _ _ Hi a b Ha Hb Hab Hne) as (l & Hl & _ & Hok & <-).
    by apply (wsum_bounds NEIGH_NO_PATH E n M HE a l b).
Qed.

(** Weights from and to the current node stay small: the walk behind them can
    be cut to a simple one, which avoids that node. *)
Lemma fw_small k D st a b :
  fw_inv k D st -> (a < n)%nat -> (b < n)%nat -> a = k \/ b = k ->
  Wv st a b <> NEIGH_NO_PATH -> Wv st a b <= M * Z.of_nat n.
Proof using HE.
  intros Hi Ha Hb Hk Hne. destruct (decide (a = b)) as [->|Hab].
  - rewrite (fi_diag _ _ _ Hi) in Hne |- * by done. pose proof (HE b b Hb Hb Hne). nia.
  - destruct (fi_sound _ _ _ Hi a b Ha Hb Hab Hne) as (l & Hl & Hlt & Hok & Hw).
    destruct (walk_simple_bound NEIGH_NO_PATH E n M HE a l b Hab Ha Hb Hl Hok)
      as (l' & Hok' & Hsub & Hin' & Hal & Hbl & Hpos & Hle).
    assert (below k l') as Hbel.
    { apply Forall_forall. intros x Hx.
      pose proof (proj1 (Forall_forall _ _) Hlt x (Hsub x Hx)). cbn in *.
      destruct (decide (x = k)) as [->|]; [|lia]. destruct Hk; subst; contradiction. }
    destruct (fi_bound _ _ _ Hi a b Ha Hb Hab l' Hin' Hbel Hok') as [_ Hb'].
    assert (0 < M) by nia. nia.
Qed.

(** The sum tested by a relaxation neither overflows nor reaches the value
    that stands for "no path". *)
Lemma fw_sum k D st i j :
  fw_inv k D st -> (k < n)%nat -> (i < n)%nat -> (j < n)%nat ->
  Wv st i k <> NEIGH_NO_PATH -> Wv st k j <> NEIGH_NO_PATH ->
  0 < Wv st i k + Wv st k j < NEIGH_NO_PATH.
Proof using HE HM.
  intros Hi Hk Hii Hj Hik Hkj.
  pose proof (fw_small _ _ _ i k Hi Hii Hk (or_intror eq_refl) Hik).
  pose proof (fw_small _ _ _ k j Hi Hk Hj (or_introl eq_refl) Hkj).
  pose proof (fw_pos _ _ _ i k Hi Hii Hk Hik).
  pose proof (fw_pos _ _ _ k j Hi Hk Hj Hkj).
  unfold NEIGH_NO_PATH. lia.
Qed.

Section RELAX.
Context (k : nat) (D : nat -> nat -> Prop) (i j : nat) (st st' : rt_apsp_t)
  (Hi : fw_inv k D st) (Hk : (k < n)%nat) (Hin : (i < n)%nat) (Hjn : (j < n)%nat)
  (Hok' : block_ok n st')
  (Hoth : forall c d, (c < n)%nat -> (d < n)%nat -> ~ (i = c /\ j = d) ->
     Pv st' c d = Pv st c d /\ Tv st' c d = Tv st c d)
  (Hr : relaxed k i j st st').

(** Weights of other pairs stay, the relaxed pair's weight is the minimum. *)
Lemma relaxed_other a b :
  (a < n)%nat -> (b < n)%nat -> ~ (i = a /\ j = b) -> Wv st' a b = Wv st a b.
Proof using Hoth. intros Ha Hb Hne. unfold Wv. by destruct (Hoth a b Ha Hb Hne) as [-> _]. Qed.

Lemma relaxed_mono a b :
  (a < n)%nat -> (b < n)%nat ->
  Wv st' a b <= Wv st a b /\ (Wv st a b <> NEIGH_NO_PATH -> Wv st' a b <> NEIGH_NO_PATH).
Proof using Hi Hk Hin Hjn Hoth Hr HE HM.
  intros Ha Hb. destruct (decide (i = a /\ j = b)) as [[<- <-]|Hne].
  - destruct Hr as [HP _ _|Hij Hik Hkj Hlt HP _|? ? ? ? ? ? ? HP _];
      unfold Wv at 1 4; rewrite HP; cbn; fold (Wv st i j); [by split|split|by split].
    + lia.
    + pose proof (fw_sum _ _ _ i j Hi Hk Hin Hjn Hik Hkj). lia.
  - by rewrite relaxed_other.
Qed.

Lemma relaxed_min :
  i <> j -> Wv st i k <> NEIGH_NO_PATH -> Wv st k j <> NEIGH_NO_PATH ->
  Wv st' i j <= Wv st i k + Wv st k j /\ Wv st' i j <> NEIGH_NO_PATH.
Proof using Hi Hk Hin Hjn Hr HE HM.
  intros Hij Hik Hkj. pose proof (fw_sum _ _ _ i j Hi Hk Hin Hjn Hik Hkj).
  destruct Hr as [HP _ Hc|_ _ _ Hlt HP _|_ _ _ Heq _ _ _ HP _];
    unfold Wv at 1 4; rewrite HP; cbn; fold (Wv st i j); [|lia|lia].
  destruct Hc as [?|[?|[?|Hc]]]; [done..|lia].
Qed.

Lemma relaxed_bounded m a b :
  (a < n)%nat -> (b < n)%nat -> bounded st m a b -> bounded st' m a b.
Proof using Hi Hk Hin Hjn Hoth Hr HE HM.
  intros Ha Hb Hbd l Hl Hlt Hok. destruct (Hbd l Hl Hlt Hok) as [H1 H2].
  destruct (relaxed_mono a b Ha Hb) as [H3 H4]. split; [auto|lia].
Qed.

(** After the relaxation the pair is bounded by walks through [k] too. *)
Lemma relaxed_done : i <> j -> bounded st' (S k) i j.
Proof using Hi Hk Hin Hjn Hoth Hr HE HM.
  intros Hij l Hl Hlt Hok.
  destruct (decide (k ∈ l)) as [Hkl|Hkl].
  2:{ apply (relaxed_bounded k i j Hin Hjn (fi_bound _ _ _ Hi i j Hin Hjn Hij) l); auto.
      apply Forall_forall. intros x Hx.
      pose proof (proj1 (Forall_forall _ _) Hlt x Hx). cbn in *.
      destruct (decide (x = k)); [congruence|lia]. }
  destruct (walk_split NEIGH_NO_PATH E n M HE k i l j Hin Hjn Hk Hl Hok Hkl Hlt)
    as (l1 & l2 & Ho1 & Ho2 & Hi1 & Hi2 & Hb1 & Hb2 & Hsum).
  pose proof (wsum_bounds NEIGH_NO_PATH E n M HE i l1 k Hin Hk Hi1 Ho1).
  pose proof (wsum_bounds NEIGH_NO_PATH E n M HE k l2 j Hk Hjn Hi2 Ho2).
  destruct (decide (i = k)) as [Hik|Hik].
  { rewrite <- Hik in Ho2. assert (len i l2 j = len k l2 j) by (by rewrite Hik).
    destruct (fi_bound _ _ _ Hi i j Hin Hjn Hij l2 Hi2 Hb2 Ho2) as [Hc1 Hc2].
    destruct (relaxed_mono i j Hin Hjn) as [Hc3 Hc4]. split; [auto|lia]. }
  destruct (decide (k = j)) as [Hkj|Hkj].
  { rewrite Hkj in Ho1. assert (len i l1 j = len i l1 k) by (by rewrite Hkj).
    destruct (fi_bound _ _ _ Hi i j Hin Hjn Hij l1 Hi1 Hb1 Ho1) as [Hc1 Hc2].
    destruct (relaxed_mono i j Hin Hjn) as [Hc3 Hc4]. split; [auto|lia]. }
  destruct (fi_bound _ _ _ Hi i k Hin Hk Hik l1 Hi1 Hb1 Ho1) as [Hc1 Hc2].
  destruct (fi_bound _ _ _ Hi k j Hk Hjn Hkj l2 Hi2 Hb2 Ho2) as [Hc3 Hc4].
  destruct (relaxed_min Hij Hc1 Hc3). split; [done|lia].
Qed.

Lemma relaxed_sound a b :
  (a < n)%nat -> (b < n)%nat -> a <> b -> Wv st' a b <> NEIGH_NO_PATH ->
  exists l, inn l /\ below (S k) l /\ ok a l b /\ len a l b = Wv st' a b.
Proof using Hi Hk Hin Hjn Hoth Hr HE HM.
  intros Ha Hb Hab Hne. destruct (decide (i = a /\ j = b)) as [[<- <-]|Hn].
  2:{ rewrite relaxed_other in Hne |- * by done. by apply (fi_sound _ _ _ Hi). }
  destruct Hr as [HP _ _|_ Hik Hkj Hlt HP _|? ? ? ? ? ? ? HP _];
    unfold Wv in Hne |- *; rewrite HP in *; cbn in *; [by apply (fi_sound _ _ _ Hi)| |
      by apply (fi_sound _ _ _ Hi)].
  assert (i <> k) as Hik'.
  { intros <-. pose proof (fw_pos _ _ _ i i Hi Hin Hin Hik). lia. }
  assert (k <> j) as Hkj'.
  { intros <-. pose proof (fw_pos _ _ _ k k Hi Hk Hk Hkj). lia. }
  destruct (fi_sound _ _ _ Hi i k Hin Hk Hik' Hik) as (l1 & Hi1 & Hb1 & Ho1 & Hw1).
  destruct (fi_sound _ _ _ Hi k j Hk Hjn Hkj' Hkj) as (l2 & Hi2 & Hb2 & Ho2 & Hw2).
  exists (l1 ++ k :: l2). rewrite wsum_app, wok_app. split_and!; auto; try lia.
  - apply Forall_app. split; [done|]. by apply Forall_cons.
  - apply Forall_app. split; [done|]. apply Forall_cons. split; [lia|done].
Qed.

Lemma relaxed_transit a b :
  (a < n)%nat -> (b < n)%nat -> transit_ok st' a b.
Proof using Hi Hk Hin Hjn Hok' Hoth Hr HE HM.
  intros Ha Hb. pose proof (fi_transit _ _ _ Hi a b Ha Hb) as (Hnp & Hz & Hal).
  assert (Wv st' a b = Wv st a b -> Tv st' a b = Tv st a b -> transit_ok st' a b) as Hkeep.
  { intros HW HT. unfold transit_ok. rewrite HT, HW. split_and!; auto; try apply Hnp.
    intros m x Hx. destruct (Hal m x Hx) as [H1 H2]. split; [|done].
    intros Hm. destruct (H1 Hm) as (c & -> & Hc & Hca & Hcb & Hac & Hcb' & Hle).
    destruct (relaxed_mono a c Ha Hc) as [? ?], (relaxed_mono c b Hc Hb) as [? ?].
    exists c. split_and!; auto. lia. }
  destruct (decide (i = a /\ j = b)) as [[<- <-]|Hn].
  2:{ apply Hkeep; [by apply relaxed_other|by apply Hoth]. }
  destruct Hr as [HP HT _|Hij Hik Hkj Hlt HP HT|Hij Hik Hkj Heq Hki Hkj' Hn4 HP HT].
  - apply Hkeep; [unfold Wv; by rewrite HP|done].
  - assert (Wv st' i j = Wv st i k + Wv st k j) as HW by (unfold Wv at 1; by rewrite HP).
    assert (k <> i) as Hki by (intros <-; pose proof (fw_pos _ _ _ k k Hi Hk Hk Hik); lia).
    assert (k <> j) as Hkj' by (intros <-; pose proof (fw_pos _ _ _ k k Hi Hk Hk Hkj); lia).
    unfold transit_ok. rewrite HT; cbn [n_paths sw_alias]. split; [lia|]. split; [lia|].
    intros [|m] x Hx; cbn in Hx; simplify_eq.
    + split; [|lia]. intros _. exists k. rewrite HW, !relaxed_other by (done || (intros [? ?]; congruence)).
      split_and!; auto; lia.
    + split; [lia|]. intros _. by destruct m as [|[|[|]]]; cbn in Hx; simplify_eq.
  - assert (Wv st' i j = Wv st i j) as HW by (unfold Wv; by rewrite HP).
    unfold transit_ok. rewrite HT; cbn [n_paths sw_alias]. split; [lia|]. split; [lia|].
    intros m x Hx. destruct (decide (Z.to_nat (n_paths (Tv st i j)) = m)) as [<-|Hm].
    + rewrite list_lookup_insert_eq in Hx; simplify_eq.
      2:{ destruct (path_elem_some n st (fi_block _ _ _ Hi) i j Hin Hjn) as [_ ->]. lia. }
      split; [|lia]. intros _. exists k. rewrite HW, !relaxed_other by (done || (intros [? ?]; congruence)).
      split_and!; auto; lia.
    + rewrite list_lookup_insert_ne in Hx by done. destruct (Hal m x Hx) as [H1 H2].
      split; [|intros; apply H2; lia]. intros Hm'.
      destruct H1 as (c & -> & Hc & Hca & Hcb & Hac & Hcb' & Hle); [lia|].
      destruct (relaxed_mono i c Hin Hc) as [? ?], (relaxed_mono c j Hc Hjn) as [? ?].
      exists c. rewrite HW. split_and!; auto. lia.
Qed.

Lemma relaxed_inv : fw_inv k (fun a b => D a b \/ (i = a /\ j = b)) st'.
Proof using Hi Hk Hin Hjn Hok' Hoth Hr HE HM.
  constructor; [done| |apply relaxed_sound| | |apply relaxed_transit].
  - intros a Ha. destruct (decide (i = a /\ j = a)) as [[<- <-]|Hne].
    + destruct Hr as [HP _ _|? ? ? ? ? ?|? ? ? ? ? ? ? ? ?]; [|done..].
      unfold Wv. rewrite HP. by apply (fi_diag _ _ _ Hi).
    + rewrite relaxed_other by done. by apply (fi_diag _ _ _ Hi).
  - intros. apply relaxed_bounded; auto. by apply (fi_bound _ _ _ Hi).
  - intros a b Ha Hb Hab [HD|[<- <-]].
    + apply relaxed_bounded; auto. by apply (fi_done _ _ _ Hi).
    + by apply relaxed_done.
Qed.
End RELAX.

Lemma fw_relax_inv k D i j st :
  fw_inv k D st -> (k < n)%nat -> (i < n)%nat -> (j < n)%nat ->
  exists st', fw_relax (Z.of_nat k) (Z.of_nat i) (Z.of_nat j) st = Some st' /\
    state_info st' = state_info st /\ fw_inv k (fun a b => D a b \/ (i = a /\ j = b)) st' /\
    (forall a b, (a < n)%nat -> (b < n)%nat ->
       Pv st' a b = set_pair_weight (Wv st' a b) (Pv st a b)).
Proof using HE HM.
  intros Hi Hk Hin Hjn.
  destruct (fw_relax_spec n st k i j (fi_block _ _ _ Hi) Hk Hin Hjn)
    as (st' & Hst & Hok & Hsi & Hr & Hoth).
  - apply (fi_transit _ _ _ Hi i j Hin Hjn).
  - intros Hik Hkj. pose proof (fw_sum _ _ _ i j Hi Hk Hin Hjn Hik Hkj).
    unfold NEIGH_NO_PATH, INT_MIN in *. lia.
  - exists st'. split_and!; auto.
    + by eapply relaxed_inv.
    + intros a b Ha Hb. unfold Wv. destruct (decide (i = a /\ j = b)) as [[<- <-]|Hne].
      * destruct Hr as [HP _ _|? ? ? ? HP _|? ? ? ? ? ? ? HP _]; rewrite HP; by destruct (Pv st i j).
      * destruct (Hoth a b Ha Hb Hne) as [-> _]. by destruct (Pv st a b).
Qed.

(** *** The three loops *)

Lemma fw_inv_weaken k (D D' : nat -> nat -> Prop) st :
  (forall a b, (a < n)%nat -> (b < n)%nat -> D' a b -> D a b) -> fw_inv k D st -> fw_inv k D' st.
Proof. intros HD [? ? ? ? Hd ?]. constructor; auto. Qed.

Lemma fw_inv_next k st :
  fw_inv k (fun _ _ => True) st -> fw_inv (S k) (fun _ _ => False) st.
Proof.
  intros [Hb Hdi Hs _ Hd Ht]. constructor; auto; [|done].
  intros a b Ha Hb' Hab Hne. destruct (Hs a b Ha Hb' Hab Hne) as (l & Hl & Hlt & Hok & Hw).
  exists l. split_and!; auto. eapply Forall_impl; [exact Hlt|]. cbn. lia.
Qed.

(** Relaxations only touch weights. *)
Definition same_links (st st' : rt_apsp_t) : Prop :=
  state_info st' = state_info st /\
  forall a b, (a < n)%nat -> (b < n)%nat ->
    Pv st' a b = set_pair_weight (Wv st' a b) (Pv st a b).

Lemma same_links_refl st : same_links st st.
Proof. split; [done|]. intros. unfold Wv. by destruct (Pv st a b). Qed.

Lemma same_links_trans st1 st2 st3 :
  same_links st1 st2 -> same_links st2 st3 -> same_links st1 st3.
Proof.
  intros [H1 H2] [H3 H4]. split; [congruence|]. intros a b Ha Hb.
  rewrite H4, H2 by done. done.
Qed.

Lemma fw_loops_inv st :
  fw_inv 0 (fun _ _ => False) st ->
  exists st', fw_loops (Z.of_nat n) st = Some st' /\ same_links st st' /\
    fw_inv n (fun _ _ => False) st'.
Proof using HE HM.
  intros H0. unfold fw_loops.
  destruct (for_range_inv (fun k s => same_links st s /\ fw_inv k (fun _ _ => False) s)
    (fun k => for_range (Z.of_nat n) (fun i => for_range (Z.of_nat n) (fun j => fw_relax k i j)))
    n st) as (st' & H1 & H2 & H3); [by split; [apply same_links_refl|]| |eauto].
  intros k s Hk [Hl Hs].
  destruct (for_pairs_inv (fun D s => same_links st s /\ fw_inv k D s)
    (fun i j => fw_relax (Z.of_nat k) i j) n s) as (s' & H1 & H2 & H3).
  - intros D D' u HD [? Hu]. split; [done|]. eapply fw_inv_weaken; [|exact Hu].
    intros a b Ha Hb. by apply HD.
  - by split.
  - intros D i j u Hi Hj _ [Hl' Hu].
    destruct (fw_relax_inv k D i j u Hu Hk Hi Hj) as (u' & H1 & H2 & H3 & H4).
    exists u'. split_and!; auto. eapply same_links_trans; [exact Hl'|]. by split.
  - exists s'. split_and!; auto. by apply fw_inv_next.
Qed.

(** The triangle inequality of the final weights. *)
Lemma fw_final_triangle st a b c :
  fw_inv n (fun _ _ => False) st -> (a < n)%nat -> (b < n)%nat -> (c < n)%nat ->
  a <> b -> a <> c -> c <> b ->
  Wv st a c <> NEIGH_NO_PATH -> Wv st c b <> NEIGH_NO_PATH ->
  Wv st a b <> NEIGH_NO_PATH /\ Wv st a b <= Wv st a c + Wv st c b.
Proof.
  intros Hi Ha Hb Hc Hab Hac Hcb H1 H2.
  destruct (fi_sound _ _ _ Hi a c Ha Hc Hac H1) as (l1 & Hi1 & _ & Ho1 & <-).
  destruct (fi_sound _ _ _ Hi c b Hc Hb Hcb H2) as (l2 & Hi2 & _ & Ho2 & <-).
  assert (inn (l1 ++ c :: l2)) as Hin.
  { apply Forall_app. split; [done|]. by apply Forall_cons. }
  rewrite <- wsum_app.
  apply (fi_bound _ _ _ Hi a b Ha Hb Hab (l1 ++ c :: l2) Hin Hin). by apply wok_app.
Qed.

End FW.

(** ** The computation as a whole *)

(** A block that [mul_route_apsp_init_state] has filled for [n] switches with
    link weights in [1 .. M]. *)
Record apsp_ready (n : nat) (M : Z) (st : rt_apsp_t) : Prop := {
  ar_block : block_ok n st;
  ar_state : state (state_info st) = Z.lor RT_APSP_INIT RT_APSP_ADJ_INIT;
  ar_weights : weights_ok (Wv st) n M;
  ar_transit : forall a b, (a < n)%nat -> (b < n)%nat ->
    Tv st a b = mk_transit 0 (replicate 4 NEIGH_NO_PATH) }.

Lemma ready_inv n M st :
  apsp_ready n M st -> fw_inv (Wv st) n 0 (fun _ _ => False) st.
Proof.
  intros [Hb _ Hw Ht]. constructor; auto; [| |done|].
  - intros a b Ha Hb' _ Hne. exists []. split_and!; auto; by apply Forall_nil.
  - intros a b Ha Hb' _ l _ Hl Hok. destruct l as [|x l]; [split; [done|cbn; lia]|].
    apply Forall_cons in Hl as [? _]. lia.
  - intros a b Ha Hb'. unfold transit_ok. rewrite Ht by done. cbn [n_paths sw_alias].
    split; [lia|]. split; [done|]. intros m x Hx. split; [lia|]. intros _.
    by destruct m as [|[|[|[|]]]]; cbn in Hx; simplify_eq.
Qed.

(** Bumping the lock and the flags leaves the matrices alone. *)
Lemma views_of_matrices st st' :
  adj_matrix st' = adj_matrix st -> paths st' = paths st ->
  nodes (state_info st') = nodes (state_info st) ->
  (forall a b, Pv st' a b = Pv st a b) /\ (forall a b, Tv st' a b = Tv st a b) /\
  (forall n, block_ok n st -> block_ok n st').
Proof.
  intros Ha Hp Hn. split_and!.
  - intros. unfold Pv, rt_apsp_get_pair, RT_APSP_ADJ_ELEM. by rewrite Ha, Hn.
  - intros. unfold Tv, RT_APSP_PATH_ELEM. by rewrite Hp, Hn.
  - intros n [? ? ? ? ?]. constructor; by rewrite ?Ha, ?Hp, ?Hn.
Qed.

Lemma calc_inv n M now st :
  apsp_ready n M st -> 2 * M * Z.of_nat n < INT_MAX ->
  exists st', mul_route_apsp_calc now st = Some (st', 0) /\
    fw_inv (Wv st) n n (fun _ _ => False) st' /\ rt_apsp_converged st' = true /\
    nodes (state_info st') = Z.of_nat n /\
    forall a b, (a < n)%nat -> (b < n)%nat ->
      Pv st' a b = set_pair_weight (Wv st' a b) (Pv st a b).
Proof.
  intros Hr HM. pose proof Hr as [Hb Hs Hw Ht].
  pose (st1 := flag_set RT_APSP_RUN (c_seq_wr_lock st)).
  destruct (views_of_matrices st st1 eq_refl eq_refl eq_refl) as (HP & HT & HB).
  assert (apsp_ready n M st) as Hr' by done. apply ready_inv in Hr'.
  assert (fw_inv (Wv st) n 0 (fun _ _ => False) st1) as H1.
  { destruct Hr' as [? Hd Hso Hbd Hdo Htr].
    constructor; auto. }
  destruct (fw_loops_inv (Wv st) n M Hw HM st1 H1) as (st2 & Hst & [Hsi Hl] & H2).
  unfold mul_route_apsp_calc.
  assert (forall f, has_flag (c_seq_wr_lock st) f = has_flag st f) as Hf by done.
  rewrite !Hf. unfold has_flag at 1 2. rewrite Hs. cbn [negb orb Z.land Z.lor Z.eqb].
  change (nodes (state_info (c_seq_wr_lock st))) with (nodes (state_info st)).
  rewrite (bo_nodes _ _ Hb). fold st1. rewrite Hst; cbn [mbind option_bind].
  eexists. split; [done|].
  set (st3 := c_seq_wr_unlock _).
  destruct (views_of_matrices st2 st3 eq_refl eq_refl eq_refl) as (HP3 & HT3 & HB3).
  assert (forall a b, Wv st3 a b = Wv st2 a b) as HW3 by (intros; unfold Wv; by rewrite HP3).
  split_and!.
  - destruct H2 as [? Hd Hso Hbd Hdo Htr]. constructor; auto.
  - unfold rt_apsp_converged, has_flag, st3. cbn. rewrite Hsi; cbn. by rewrite Hs.
  - unfold st3; cbn. rewrite Hsi; cbn. apply Hb.
  - intros a b Ha Hb'. rewrite HP3, HW3, Hl, HP by done. done.
Qed.

(** ** Filling the block *)

Definition Av (st : rt_apsp_t) (a b : nat) : rt_adj_elem_t :=
  default zero_adj (RT_APSP_ADJ_ELEM st (Z.of_nat a) (Z.of_nat b)).

Lemma Pv_Av n st a b :
  block_ok n st -> (a < n)%nat -> (b < n)%nat -> adj_pairs (Av st a b) !! 0%nat = Some (Pv st a b).
Proof.
  intros Hok Ha Hb. pose proof (get_pair_some n st Hok a b Ha Hb) as Hp.
  unfold Av, rt_apsp_get_pair in *.
  destruct (RT_APSP_ADJ_ELEM st (Z.of_nat a) (Z.of_nat b)) as [e|]; [|done]. exact Hp.
Qed.

(** An adjacency element during initialisation: no link recorded and no path,
    or a first link that is one of the reported ones, which satisfy [Q]. *)
Definition elem_init (Q : lweight_pair_t -> Prop) (e : rt_adj_elem_t) : Prop :=
  length (adj_pairs e) = 4%nat /\ 0 <= pairs e <= 3 /\
  forall p, adj_pairs e !! 0%nat = Some p ->
    (pairs e = 0 -> weight p = NEIGH_NO_PATH /\ flags p = 0) /\ (0 < pairs e -> Q p).

Definition conn_ok (M : Z) (c : Z * Z * lweight_pair_t) : Prop :=
  0 < weight c.2 <= M.

Lemma find_pair_lt ps n new k : find_pair ps n new = Some k ->
  (k < n)%nat /\ (k < length ps)%nat /\ forall q, ps !! k = Some q -> la q = la new /\ lb q = lb new.
Proof.
  revert ps k. induction n as [|n IH]; intros [|p ps] k; cbn; try done.
  case_match eqn:E; intros Heq; simplify_eq; cbn.
  { split_and!; [lia|lia|]. intros q [= <-]. breflect. done. }
  destruct (find_pair ps n new) as [k'|] eqn:Hf; cbn in *; simplify_eq.
  apply IH in Hf as (? & ? & ?). split_and!; [lia|lia|done].
Qed.

(** What recording a connection of the pair [a, b] leaves behind. *)
Definition recorded (n : nat) (Q : lweight_pair_t -> Prop) (a b : nat) (st st' : rt_apsp_t) : Prop :=
  block_ok n st' /\ state (state_info st') = RT_APSP_INIT /\ paths st' = paths st /\
  nodes (state_info st') = nodes (state_info st) /\
  elem_init Q (Av st' a b) /\ 0 < pairs (Av st' a b) /\
  forall c d, (c < n)%nat -> (d < n)%nat -> ~ (a = c /\ b = d) -> Av st' c d = Av st c d.

Section RECORD.
Context (n : nat) (Q : lweight_pair_t -> Prop) (a b : nat) (Ha : (a < n)%nat) (Hb : (b < n)%nat).

Lemma put_recorded st st1 e e' :
  block_ok n st -> state (state_info st) = RT_APSP_INIT -> elem_init Q e' -> 0 < pairs e' ->
  length (adj_pairs e) = 4%nat ->
  put_adj_elem st (Z.of_nat a) (Z.of_nat b) e = Some st1 ->
  exists st2, put_adj_elem st1 (Z.of_nat a) (Z.of_nat b) e' = Some st2 /\
    recorded n Q a b st (flag_clear RT_APSP_ADJ_INIT st2) /\ recorded n Q a b st st2.
Proof using Ha Hb.
  intros Hok Hs He' Hpos H4 Hst1. pose proof He' as [H4' _].
  destruct (put_adj_spec n st Hok a b e Ha Hb H4) as (s1 & Hs1 & Hok1 & Hsi1 & Hpa1 & Hg1).
  rewrite Hs1 in Hst1; simplify_eq.
  destruct (put_adj_spec n st1 Hok1 a b e' Ha Hb H4') as (st2 & Hst2 & Hok2 & Hsi2 & Hpa2 & Hg2).
  assert (Av st2 a b = e') as HA2.
  { unfold Av. rewrite Hg2 by done. by rewrite decide_True. }
  assert (forall c d, (c < n)%nat -> (d < n)%nat -> ~ (a = c /\ b = d) ->
            Av st2 c d = Av st c d) as Ho2.
  { intros c d Hc Hd Hcd. unfold Av. by rewrite Hg2, decide_False, Hg1, decide_False by done. }
  exists st2. split; [done|]. unfold recorded.
  change (Av (flag_clear RT_APSP_ADJ_INIT st2)) with (Av st2). rewrite HA2. cbn.
  rewrite Hsi2, Hsi1, Hs, Hpa2. split; split_and!; auto.
  by apply (views_of_matrices st2).
Qed.

(** Overwriting the weight of a known link, or appending a new one, keeps the
    element well-formed. *)
Lemma elem_init_update e da db k q w f :
  elem_init Q e -> (k < Z.to_nat (pairs e))%nat -> Q (mk_pair (la q) (lb q) w f) ->
  elem_init Q (mk_adj da db (pairs e) (<[k := mk_pair (la q) (lb q) w f]> (adj_pairs e))).
Proof.
  intros (H4 & Hp3 & Hp0) Hk Hw. split_and!; cbn; [by rewrite length_insert|lia..|].
  intros p' Hp'. split; [lia|]. intros _. destruct k as [|k].
  - rewrite list_lookup_insert_eq in Hp' by lia. by simplify_eq.
  - rewrite list_lookup_insert_ne in Hp' by done. apply (Hp0 p' Hp'). lia.
Qed.

Lemma elem_init_append e da db p :
  elem_init Q e -> pairs e < 3 -> Q p ->
  elem_init Q (mk_adj da db (pairs e + 1)
    (<[Z.to_nat (pairs e) := mk_pair (la p) (lb p) (weight p) (flags p)]> (adj_pairs e))).
Proof.
  intros (H4 & Hp3 & Hp0) Hk Hw. split_and!; cbn; [by rewrite length_insert|lia..|].
  intros p' Hp'. split; [lia|]. intros _. destruct (decide (pairs e = 0)) as [Hz|Hz].
  - rewrite Hz in Hp'. change (Z.to_nat 0) with 0%nat in Hp'.
    rewrite list_lookup_insert_eq in Hp' by lia. injection Hp' as <-. by destruct p.
  - rewrite list_lookup_insert_ne in Hp' by lia. apply (Hp0 p' Hp'). lia.
Qed.

Lemma add_neigh_conn_spec st da db p :
  block_ok n st -> Z.of_nat n <= UINT64_MAX ->
  state (state_info st) = RT_APSP_INIT -> Q p ->
  elem_init Q (Av st a b) ->
  exists st', mul_route_apsp_add_neigh_conn st (Z.of_nat a) (Z.of_nat b) da db p false = Some st' /\
    recorded n Q a b st st'.
Proof using Ha Hb.
  intros Hok Hn Hs Hw Hinit. unfold mul_route_apsp_add_neigh_conn.
  unfold has_flag. rewrite Hs.
  change (Z.land RT_APSP_INIT RT_APSP_INIT =? 0) with false. cbn [negb].
  rewrite (bo_nodes _ _ Hok). unfold u64.
  rewrite Z.mod_small by (unfold UINT64_MAX in *; lia).
  rewrite (proj2 (Z.leb_gt _ _)) by lia. cbn [orb].
  destruct (adj_elem_some n st Hok a b Ha Hb) as (e & He & _ & H4).
  assert (Av st a b = e) as HAe by (unfold Av; by rewrite He). rewrite HAe in *.
  pose proof Hinit as (_ & Hp3 & Hp0). rewrite He; cbn [mbind option_bind].
  unfold RT_MAX_ADJ_PAIRS. destruct (Z.leb_spec (4 - 1) (pairs e)) as [Hfull|Hroom].
  { exists st. unfold recorded. rewrite HAe. split_and!; auto; lia. }
  cbn [pairs adj_pairs].
  destruct (put_adj_spec n st Hok a b (mk_adj da db (pairs e) (adj_pairs e)) Ha Hb H4)
    as (st1 & Hst1 & Hok1 & Hsi1 & Hpa1 & Hg1). rewrite Hst1; cbn [mbind option_bind].
  destruct (find_pair (adj_pairs e) (Z.to_nat (pairs e)) p) as [k|] eqn:Hfind.
  - apply find_pair_lt in Hfind as (Hk1 & Hk2 & Hk3).
    rewrite aget_nat. destruct (lookup_lt_is_Some_2 (adj_pairs e) k Hk2) as [q Hq].
    destruct (Hk3 q Hq) as [Hla Hlb]. rewrite Hq; cbn [mbind option_bind]. case_match.
    + rewrite aset_nat by done; cbn [mbind option_bind].
      destruct (put_recorded st st1 (mk_adj da db (pairs e) (adj_pairs e)) _ Hok Hs
        (elem_init_update e da db k q (weight p) (flags p) Hinit Hk1 ltac:(rewrite Hla, Hlb; by destruct p)) ltac:(cbn; lia) H4 Hst1)
        as (st2 & -> & Hr & _); cbn [mbind option_bind]. eauto.
    + exists st1. split; [done|]. assert (Av st1 a b = mk_adj da db (pairs e) (adj_pairs e)) as HA1.
      { unfold Av. rewrite Hg1 by done. by rewrite decide_True. }
      unfold recorded. rewrite HA1, Hsi1; cbn. split_and!; auto; [lia|].
      intros c d Hc Hd Hcd. unfold Av. by rewrite Hg1, decide_False by done.
  - rewrite (proj2 (Z.ltb_lt _ _)) by lia. rewrite aset_pos by lia; cbn [mbind option_bind].
    destruct (put_recorded st st1 (mk_adj da db (pairs e) (adj_pairs e)) _ Hok Hs (elem_init_append e da db p Hinit ltac:(lia) Hw)
      ltac:(cbn; lia) H4 Hst1) as (st2 & -> & Hr & _); cbn [mbind option_bind]. eauto.
Qed.

End RECORD.

(** Initialising one cell of both matrices. *)
Lemma init_elem_spec n Q st a b :
  block_ok n st -> (a < n)%nat -> (b < n)%nat -> (forall p, adj_pairs (Av st a b) !! 0%nat = Some p -> flags p = 0) ->
  exists st', init_elem (Z.of_nat a) (Z.of_nat b) st = Some st' /\ block_ok n st' /\
    state_info st' = state_info st /\
    (elem_init Q (Av st' a b) /\ pairs (Av st' a b) = 0 /\
     Tv st' a b = mk_transit 0 (replicate 4 NEIGH_NO_PATH)) /\
    forall c d, (c < n)%nat -> (d < n)%nat -> ~ (a = c /\ b = d) ->
      Av st' c d = Av st c d /\ Tv st' c d = Tv st c d.
Proof.
  intros Hok Ha Hb Hfl. unfold init_elem. unfold Av in Hfl.
  destruct (adj_elem_some n st Hok a b Ha Hb) as (e & He & _ & H4). rewrite He in Hfl |- *. cbn [mbind option_bind default] in *.
  set (e' := rt_init_adj_pairs_disconnected e).
  assert (length (adj_pairs e') = 4%nat) as H4' by (cbn; by rewrite length_fmap).
  destruct (put_adj_spec n st Hok a b e' Ha Hb H4')
    as (st1 & -> & Hok1 & Hsi1 & Hpa1 & Hg1); cbn [mbind option_bind].
  destruct (put_path_spec n st1 Hok1 a b (mk_transit 0 (replicate 4 NEIGH_NO_PATH)) Ha Hb eq_refl)
    as (st2 & Hst2 & Hok2 & Hsi2 & _ & HT2).
  assert (adj_matrix st2 = adj_matrix st1) as Hadj.
  { unfold put_path_elem in Hst2. inv_bind. by subst. }
  assert (forall c d, Av st2 c d = Av st1 c d) as HA2.
  { intros. unfold Av, RT_APSP_ADJ_ELEM. by rewrite Hadj, Hsi2. }
  assert (Av st2 a b = e') as HAe.
  { rewrite HA2. unfold Av. rewrite Hg1 by done. by rewrite decide_True. }
  assert (elem_init Q e') as Hinit.
  { split_and!; [done|by cbn..|]. intros p Hp. split; [|cbn; lia]. intros _. cbn in Hp.
    rewrite list_lookup_fmap in Hp. destruct (adj_pairs e !! 0%nat) as [q|] eqn:Eq; cbn in Hp; simplify_eq.
    split; [done|]. cbn. apply Hfl. done. }
  exists st2. rewrite HAe. split_and!; auto; [congruence|by rewrite HT2, decide_True|].
  - intros c d Hc Hd Hcd. rewrite HA2, HT2, decide_False by done. split.
    + unfold Av. by rewrite Hg1, decide_False by done.
    + unfold Tv, RT_APSP_PATH_ELEM. by rewrite Hpa1, Hsi1.
Qed.

Lemma add_neigh_conns_spec n (Q : lweight_pair_t -> Prop) a b l : (a < n)%nat -> (b < n)%nat -> Z.of_nat n <= UINT64_MAX ->
  Forall (fun c => Q c.2) l -> forall st,
  block_ok n st -> state (state_info st) = RT_APSP_INIT -> elem_init Q (Av st a b) ->
  exists st', add_neigh_conns (Z.of_nat a) (Z.of_nat b) l st = Some st' /\
    (l = [] /\ st' = st \/ l <> [] /\ recorded n Q a b st st').
Proof.
  intros Ha Hb Hn Hl. induction Hl as [|[[da db] p] l Hp Hl IH]; intros st Hok Hs He; cbn.
  - eauto.
  - destruct (add_neigh_conn_spec n Q a b Ha Hb st da db p Hok Hn Hs Hp He)
      as (st1 & -> & Hr1); cbn.
    pose proof Hr1 as (Hok1 & Hs1 & Hp1 & Hn1 & He1 & Hpos1 & Ho1).
    destruct (IH st1 Hok1 Hs1 He1) as (st2 & -> & [[_ ->]|[_ Hr2]]); [eauto|].
    exists st2. split; [done|]. right. split; [done|].
    destruct Hr2 as (Hok2 & Hs2 & Hp2 & Hn2 & He2 & Hpos2 & Ho2).
    unfold recorded. split_and!; auto; [congruence..|]. intros. rewrite Ho2, Ho1 by done. done.
Qed.

Section INITSTATE.
Context {T : Type} `{Topology T} (topo : T) (nps : bool) (n : nat) (M : Z).

(** What routing relies on: the aliases in use are below [n], and every
    connection reported has a positive weight of at most [M]. *)
Definition topo_ok : Prop :=
  tr_get_max_switch_alias topo = Z.of_nat n - 1 /\ (0 < n)%nat /\
  forall a b, (a < n)%nat -> (b < n)%nat ->
    Forall (conn_ok M) (tr_neigh_pair_adjacencies topo nps (Z.of_nat a) (Z.of_nat b)).

Local Abbreviation conns a b :=
  (tr_neigh_pair_adjacencies topo nps (Z.of_nat a) (Z.of_nat b)).

(** A link that is one of those reported for two switches. *)
Definition reported (a b : nat) (p : lweight_pair_t) : Prop := 0 < weight p <= M /\ exists c, c ∈ conns a b /\ p = c.2.

(** First loop: every cell disconnected. *)
Lemma init_cells st :
  block_ok n st ->
  (forall a b p, (a < n)%nat -> (b < n)%nat -> adj_pairs (Av st a b) !! 0%nat = Some p -> flags p = 0) ->
  exists st', for_range (Z.of_nat n) (fun i => for_range (Z.of_nat n) (fun j => init_elem i j)) st
      = Some st' /\ block_ok n st' /\ state_info st' = state_info st /\
    forall a b, (a < n)%nat -> (b < n)%nat ->
      elem_init (reported a b) (Av st' a b) /\ pairs (Av st' a b) = 0 /\
      Tv st' a b = mk_transit 0 (replicate 4 NEIGH_NO_PATH).
Proof.
  intros Hok Hfl.
  destruct (for_pairs_inv (fun D s => block_ok n s /\ state_info s = state_info st /\
    (forall a b, (a < n)%nat -> (b < n)%nat -> ~ D a b -> Av s a b = Av st a b) /\
    forall a b, (a < n)%nat -> (b < n)%nat -> D a b ->
      elem_init (reported a b) (Av s a b) /\ pairs (Av s a b) = 0 /\
      Tv s a b = mk_transit 0 (replicate 4 NEIGH_NO_PATH)) init_elem n st)
    as (st' & H1 & H2 & H3 & _ & H4).
  - intros D D' s HD (? & ? & Hn & Hs). split_and!; auto.
    + intros a b Ha Hb HD'. apply Hn; [done..|]. intros Hd'. apply HD'. by apply HD.
    + intros a b Ha Hb HD'. apply Hs; [done..|]. by apply HD.
  - by split_and!.
  - intros D i j s Hi Hj HnD (Hs & Hsi & Hn & Hd).
    destruct (init_elem_spec n (reported i j) s i j Hs Hi Hj) as (s' & Hs' & Hok' & Hsi' & Hij & Hoth).
    { intros p. rewrite (Hn i j Hi Hj HnD). by apply Hfl. }
    exists s'. split_and!; auto; [congruence| |].
    { intros a b Ha Hb HD. destruct (Hoth a b Ha Hb) as [-> _]; [tauto|]. apply Hn; tauto. }
    intros a b Ha Hb HD.
    destruct (decide (i = a /\ j = b)) as [[<- <-]|Hne]; [done|].
    destruct (Hoth a b Ha Hb Hne) as [-> ->]. apply Hd; [done..|tauto].
  - exists st'. split_and!; auto.
Qed.

(** Second loop: the reported connections. *)
Lemma fill_cells st :
  block_ok n st -> Z.of_nat n <= UINT64_MAX -> topo_ok ->
  state (state_info st) = RT_APSP_INIT ->
  (forall a b, (a < n)%nat -> (b < n)%nat -> elem_init (reported a b) (Av st a b) /\ pairs (Av st a b) = 0) ->
  exists st', for_range (Z.of_nat n) (fun i => for_range (Z.of_nat n) (fun j =>
      add_neigh_conns i j (tr_neigh_pair_adjacencies topo nps i j))) st = Some st' /\
    block_ok n st' /\ state (state_info st') = RT_APSP_INIT /\ paths st' = paths st /\
    nodes (state_info st') = nodes (state_info st) /\
    forall a b, (a < n)%nat -> (b < n)%nat ->
      elem_init (reported a b) (Av st' a b) /\ (pairs (Av st' a b) = 0 <-> conns a b = []).
Proof.
  intros Hok Hn (_ & _ & Ht) Hs Hc.
  destruct (for_pairs_inv (fun D s => block_ok n s /\ state (state_info s) = RT_APSP_INIT /\
    paths s = paths st /\ nodes (state_info s) = nodes (state_info st) /\
    forall a b, (a < n)%nat -> (b < n)%nat -> elem_init (reported a b) (Av s a b) /\
      (~ D a b -> pairs (Av s a b) = 0) /\ (D a b -> pairs (Av s a b) = 0 <-> conns a b = []))
    (fun i j => add_neigh_conns i j (tr_neigh_pair_adjacencies topo nps i j)) n st)
    as (st' & H1 & H2 & H3 & H4 & H5 & H6).
  - intros D D' s HD (? & ? & ? & ? & Hs'). split_and!; auto. intros a b Ha Hb.
    destruct (Hs' a b Ha Hb) as (? & ? & ?). specialize (HD a b Ha Hb).
    split_and!; auto; intros; tauto.
  - split_and!; auto. intros a b Ha Hb. destruct (Hc a b Ha Hb). split_and!; auto; done.
  - intros D i j s Hi Hj HnD (Hoks & Hss & Hps & Hns & Hcs).
    destruct (Hcs i j Hi Hj) as (Hei & Hz & _).
    assert (Forall (fun c => reported i j c.2) (conns i j)) as Hrep.
    { apply Forall_forall. intros c Hc'. split; [by apply (proj1 (Forall_forall _ _) (Ht i j Hi Hj))|by exists c]. }
    destruct (add_neigh_conns_spec n (reported i j) i j (conns i j) Hi Hj Hn Hrep s Hoks Hss Hei)
      as (s' & Hs' & [[Hnil ->]|[Hne (Hok' & Hs1 & Hp1 & Hn1 & He1 & Hpos1 & Ho1)]]).
    + exists s. split_and!; auto. intros a b Ha Hb. destruct (Hcs a b Ha Hb) as (? & ? & ?).
      split_and!; auto. intros [?|[<- <-]]; [auto|]. split; [done|]. auto.
    + exists s'. split_and!; auto; [congruence..|]. intros a b Ha Hb.
      destruct (decide (i = a /\ j = b)) as [[<- <-]|Hab].
      * split_and!; [done|tauto|]. intros _. split; [lia|done].
      * rewrite Ho1 by done. destruct (Hcs a b Ha Hb) as (? & ? & ?). split_and!; auto; tauto.
  - exists st'. split_and!; auto. intros a b Ha Hb. destruct (H6 a b Ha Hb) as (? & _ & ?). auto.
Qed.

Lemma init_state_full st :
  topo_ok -> Z.of_nat n <= MAX_SWITCHES_PER_CLUSTER -> M < NEIGH_NO_PATH ->
  (n * n <= length (adj_matrix st))%nat -> (n * n <= length (paths st))%nat ->
  exists st', mul_route_apsp_init_state topo nps st = Some (st', 0) /\
    apsp_ready n M st' /\
    (forall a b, (a < n)%nat -> (b < n)%nat -> (Wv st' a b = NEIGH_NO_PATH <-> conns a b = [])) /\
    forall a b, (a < n)%nat -> (b < n)%nat -> (conns a b = [] -> flags (Pv st' a b) = 0) /\ (conns a b <> [] -> reported a b (Pv st' a b)).
Proof.
  intros Ht Hn HM Hla Hlp. pose proof Ht as (Hmax & Hpos & _).
  unfold mul_route_apsp_init_state. rewrite Hmax, (proj2 (Z.ltb_ge _ _)) by lia.
  replace (Z.of_nat n - 1 + 1) with (Z.of_nat n) by lia.
  set (st0 := set_nodes (Z.of_nat n) _).
  assert (block_ok n st0) as Hok0.
  { constructor; cbn; rewrite ?length_replicate; auto; by apply Forall_replicate. }
  assert (forall a b p, (a < n)%nat -> (b < n)%nat -> adj_pairs (Av st0 a b) !! 0%nat = Some p -> flags p = 0) as Hz0.
  { intros a b p Ha Hb Hp. destruct (adj_elem_some n st0 Hok0 a b Ha Hb) as (e & He & _). unfold Av in Hp. rewrite He in Hp.
    unfold RT_APSP_ADJ_ELEM, aget in He. case_match; [done|]. cbn in He. apply lookup_replicate in He as [-> _].
    cbn in Hp. by simplify_eq. }
  destruct (init_cells st0 Hok0 Hz0) as (st1 & -> & Hok1 & Hsi1 & Hc1); cbn [mbind option_bind].
  set (st2 := set_flags RT_APSP_INIT st1).
  destruct (fill_cells st2) as (st3 & -> & Hok3 & Hs3 & Hp3 & Hn3 & Hc3); auto.
  { by apply (views_of_matrices st1). }
  { unfold MAX_SWITCHES_PER_CLUSTER, UINT64_MAX in *. lia. }
  { intros a b Ha Hb. destruct (Hc1 a b Ha Hb) as (? & ? & _). auto. }
  cbn [mbind option_bind]. eexists. split; [done|]. set (st4 := c_seq_wr_unlock _).
  assert (block_ok n st4) as Hok4 by (by apply (views_of_matrices st3)).
  assert (forall a b, (a < n)%nat -> (b < n)%nat ->
    (conns a b = [] -> Wv st4 a b = NEIGH_NO_PATH /\ flags (Pv st4 a b) = 0) /\
    (conns a b <> [] -> reported a b (Pv st4 a b))) as HW.
  { intros a b Ha Hb. destruct (Hc3 a b Ha Hb) as [(_ & Hp & Hw) Hnil].
    destruct (Hw (Pv st4 a b) (Pv_Av n st4 a b Hok4 Ha Hb)) as [Hw0 Hw1].
    split; [tauto|]. intros Hne. apply Hw1.
    destruct (decide (pairs (Av st3 a b) = 0)); [tauto|lia]. }
  split; [|split].
  - constructor; auto.
    + cbn. by rewrite Hs3.
    + intros a b Ha Hb Hw. destruct (HW a b Ha Hb) as [H1 H2]. destruct H2; tauto.
    + intros a b Ha Hb. change (Tv st4 a b) with (Tv st3 a b).
      transitivity (Tv st2 a b); [|apply (Hc1 a b Ha Hb)].
      unfold Tv, RT_APSP_PATH_ELEM. by rewrite Hp3, Hn3.
  - intros a b Ha Hb. destruct (HW a b Ha Hb) as [H1 H2]. split; [|by intros []%H1].
    intros Heq. destruct (decide (conns a b = [])) as [|Hne]; [done|]. destruct (H2 Hne) as [Hr _]. fold (Wv st4 a b) in Hr. lia.
  - intros a b Ha Hb. destruct (HW a b Ha Hb) as [H1 H2]. split; [by intros []%H1|done].
Qed.

Lemma init_state_spec st :
  topo_ok -> Z.of_nat n <= MAX_SWITCHES_PER_CLUSTER -> M < NEIGH_NO_PATH ->
  (n * n <= length (adj_matrix st))%nat -> (n * n <= length (paths st))%nat ->
  exists st', mul_route_apsp_init_state topo nps st = Some (st', 0) /\
    apsp_ready n M st' /\
    forall a b, (a < n)%nat -> (b < n)%nat -> (Wv st' a b = NEIGH_NO_PATH <-> conns a b = []).
Proof. intros. destruct (init_state_full st) as (st' & ? & ? & ? & _); eauto. Qed.


End INITSTATE.

(** ** Properties *)

(** C1: Floyd-Warshall correctness.  On a block initialised for [n] switches
    with link weights in [1 .. M] and [2*M*n < INT_MAX], [mul_route_apsp_calc]
    runs without overflow or stray access, returns 0, marks the routes
    converged, and the weight left for every two different switches is
    [NEIGH_NO_PATH] exactly when no walk joins them and otherwise the weight of
    a shortest walk. *)
Theorem apsp_calc_shortest n M now st :
  apsp_ready n M st -> 2 * M * Z.of_nat n < INT_MAX ->
  exists st', mul_route_apsp_calc now st = Some (st', 0) /\ rt_apsp_converged st' = true /\
    forall a b, (a < n)%nat -> (b < n)%nat -> a <> b ->
    exists w, rt_apsp_get_weight st' (Z.of_nat a) (Z.of_nat b) = Some w /\
      (w = NEIGH_NO_PATH -> forall l, inside n l -> ~ wok NEIGH_NO_PATH (Wv st) a l b) /\
      (w <> NEIGH_NO_PATH ->
         (exists l, inside n l /\ wok NEIGH_NO_PATH (Wv st) a l b /\ wsum (Wv st) a l b = w) /\
         forall l, inside n l -> wok NEIGH_NO_PATH (Wv st) a l b -> w <= wsum (Wv st) a l b).
Proof.
  intros Hr HM. destruct (calc_inv n M now st Hr HM) as (st' & Hst & Hinv & Hcv & Hn & _).
  exists st'. split_and!; auto. intros a b Ha Hb Hab.
  exists (Wv st' a b). rewrite (get_weight_some n) by (done || apply Hinv). split; [done|].
  assert (forall l, inside n l -> wok NEIGH_NO_PATH (Wv st) a l b ->
     Wv st' a b <> NEIGH_NO_PATH /\ Wv st' a b <= wsum (Wv st) a l b) as Hmin.
  { intros l Hl Hok. by apply (fi_bound _ _ _ _ _ Hinv a b Ha Hb Hab). }
  split.
  - intros Heq l Hl Hok. by destruct (Hmin l Hl Hok).
  - intros Hne. split; [|intros l Hl Hok; by destruct (Hmin l Hl Hok)].
    destruct (fi_sound _ _ _ _ _ Hinv a b Ha Hb Hab Hne) as (l & ? & _ & ? & ?). eauto.
Qed.

(** C2: the transit matrix is sound.  After the computation each of the
    [n_paths] recorded transit switches of a pair is a switch other than its
    ends through which a shortest route goes: the weights to and from it are
    finite and add up exactly to the weight of the pair; the unused slots hold
    [NEIGH_NO_PATH]; and with no transit recorded the weight is that of the
    direct link. *)
Theorem apsp_transit_sound n M now st st' a b :
  apsp_ready n M st -> 2 * M * Z.of_nat n < INT_MAX ->
  mul_route_apsp_calc now st = Some (st', 0) ->
  (a < n)%nat -> (b < n)%nat -> a <> b ->
  exists t, RT_APSP_PATH_ELEM st' (Z.of_nat a) (Z.of_nat b) = Some t /\
    0 <= n_paths t <= RT_MAX_EQ_PATHS /\
    (n_paths t = 0 -> Wv st' a b = Wv st a b) /\
    forall m x, sw_alias t !! m = Some x ->
      (Z.of_nat m < n_paths t ->
         exists c : nat, x = Z.of_nat c /\ (c < n)%nat /\ c <> a /\ c <> b /\
           Wv st' a c <> NEIGH_NO_PATH /\ Wv st' c b <> NEIGH_NO_PATH /\
           Wv st' a c + Wv st' c b = Wv st' a b) /\
      (n_paths t <= Z.of_nat m -> x = NEIGH_NO_PATH).
Proof.
  intros Hr HM Hc Ha Hb Hab.
  destruct (calc_inv n M now st Hr HM) as (s & Hst & Hinv & _).
  rewrite Hst in Hc. simplify_eq.
  destruct (path_elem_some n st' (fi_block _ _ _ _ _ Hinv) a b Ha Hb) as [Ht _].
  exists (Tv st' a b). split; [done|].
  destruct (fi_transit _ _ _ _ _ Hinv a b Ha Hb) as (Hnp & Hz & Hal).
  split_and!; auto; try apply Hnp. intros m x Hx. destruct (Hal m x Hx) as [H1 H2].
  split; [|done]. intros Hm.
  destruct (H1 Hm) as (c & -> & Hcn & Hca & Hcb & Hac & Hcb' & Hle).
  destruct (fw_final_triangle (Wv st) n st' a b c) as [_ Htri]; auto.
  exists c. split_and!; auto. lia.
Qed.

(** Initialisation.  Whatever the block held, [mul_route_apsp_init_state]
    on a topology of [n] aliases (at most the cluster size, matrices large
    enough) returns 0 and leaves a block ready for the computation, in which two
    switches are adjacent exactly when the topology reports a connection. *)
Theorem apsp_init_ready {T} `{Topology T} (topo : T) nps n M st :
  topo_ok topo nps n M -> Z.of_nat n <= MAX_SWITCHES_PER_CLUSTER -> M < NEIGH_NO_PATH ->
  (n * n <= length (adj_matrix st))%nat -> (n * n <= length (paths st))%nat ->
  exists st', mul_route_apsp_init_state topo nps st = Some (st', 0) /\
    apsp_ready n M st' /\
    forall a b, (a < n)%nat -> (b < n)%nat ->
      (Wv st' a b = NEIGH_NO_PATH <->
       tr_neigh_pair_adjacencies topo nps (Z.of_nat a) (Z.of_nat b) = []).
Proof. apply init_state_spec. Qed.

(** C7: end to end, cleaning, initialising and computing always succeeds on a
    well-formed topology and leaves converged routes: two different switches
    have a finite route weight exactly when a chain of reported connections
    leads from one to the other. *)
Theorem routing_reaches_connected {T} `{Topology T} (topo : T) nps n M now st :
  topo_ok topo nps n M -> Z.of_nat n <= MAX_SWITCHES_PER_CLUSTER ->
  2 * M * Z.of_nat n < INT_MAX -> M < NEIGH_NO_PATH ->
  (n * n <= length (adj_matrix st))%nat -> (n * n <= length (paths st))%nat ->
  exists st', rebuild_routes topo nps now st = Some st' /\
    rt_apsp_converged st' = true /\
    forall a b, (a < n)%nat -> (b < n)%nat -> a <> b ->
    exists w, rt_apsp_get_weight st' (Z.of_nat a) (Z.of_nat b) = Some w /\
     (w <> NEIGH_NO_PATH <->
      exists l, inside n l /\
        wok 0 (fun x y => Z.of_nat (length (tr_neigh_pair_adjacencies topo nps (Z.of_nat x) (Z.of_nat y))))
            a l b).
Proof.
  intros Ht Hn HM HM' Hla Hlp. unfold rebuild_routes.
  destruct (init_state_spec topo nps n M (mul_route_apsp_clean_state st)) as (s1 & -> & Hr & Hadj); auto.
  cbn [mbind option_bind].
  destruct (calc_inv n M now s1 Hr HM) as (s2 & -> & Hinv & Hcv & _). cbn [mbind option_bind].
  exists s2. split_and!; auto. intros a b Ha Hb Hab. exists (Wv s2 a b).
  rewrite (get_weight_some n) by (done || apply Hinv). split; [done|].
  assert (forall l x, (x < n)%nat -> inside n l ->
    wok 0 (fun x y => Z.of_nat (length (tr_neigh_pair_adjacencies topo nps (Z.of_nat x) (Z.of_nat y)))) x l b
    <-> wok NEIGH_NO_PATH (Wv s1) x l b) as Heq.
  { induction l as [|y l IH]; intros x Hx Hl; cbn.
    - rewrite (Hadj x b Hx Hb). rewrite <- length_zero_iff_nil. lia.
    - apply Forall_cons in Hl as [Hy Hl]. rewrite (IH y Hy Hl), (Hadj x y Hx Hy).
      rewrite <- length_zero_iff_nil. intuition lia. }
  split.
  - intros Hne. destruct (fi_sound _ _ _ _ _ Hinv a b Ha Hb Hab Hne) as (l & Hl & _ & Hok & _).
    exists l. split; [done|]. by apply Heq.
  - intros (l & Hl & Hok). apply Heq in Hok; auto.
    by apply (fi_bound _ _ _ _ _ Hinv a b Ha Hb Hab l Hl Hl Hok).
Qed.

(** ** Witnesses: three switches in a line, 0 - 1 - 2 *)

Definition line_conns (i j : Z) : list (Z * Z * lweight_pair_t) :=
  if (i =? j + 1) || (j =? i + 1)
  then [(i + 1, j + 1, mk_pair (10 * i + j) (10 * j + i) NEIGH_DFL_WEIGHT NEIGH_FL_ONLINK)]
  else [].

#[local] Instance line_topology : Topology nat := {
  tr_get_max_switch_alias n := Z.of_nat n - 1;
  tr_neigh_pair_adjacencies _ _ i j := line_conns i j }.

Definition blank (cap : nat) : rt_apsp_t :=
  mk_apsp (mk_state 0 0 0 0 0) (replicate cap zero_adj) (replicate cap zero_transit).

Definition line_block : rt_apsp_t :=
  Eval vm_compute in
    match mul_route_apsp_init_state 3%nat false (blank 9) with
    | Some (st, _) => st | None => blank 9
    end.

Definition line_routes : rt_apsp_t :=
  Eval vm_compute in
    match mul_route_apsp_calc 7 line_block with
    | Some (st, _) => st | None => blank 9
    end.

Lemma line_topo_ok : topo_ok 3%nat false 3 100.
Proof.
  split_and!; [done|lia|]. intros a b _ _. cbn. unfold line_conns. case_match; [|done].
  apply Forall_singleton. unfold conn_ok, NEIGH_DFL_WEIGHT. cbn. lia.
Defined.

Lemma line_ready : apsp_ready 3 100 line_block.
Proof.
  constructor.
  - constructor; [reflexivity|cbn; lia|cbn; lia| |];
      apply (bool_decide_unpack _); vm_compute; exact I.
  - reflexivity.
  - intros [|[|[|a]]] [|[|[|b]]] Ha Hb; try lia; vm_compute; intros; split; congruence.
  - intros [|[|[|a]]] [|[|[|b]]] Ha Hb; try lia; reflexivity.
Defined.

Lemma apsp_calc_shortest_witness :
  exists st', mul_route_apsp_calc 7 line_block = Some (st', 0) /\ rt_apsp_converged st' = true /\
    exists w, rt_apsp_get_weight st' 0 2 = Some w.
Proof.
  destruct (apsp_calc_shortest 3 100 7 line_block line_ready) as (st' & H1 & H2 & H3).
  - unfold INT_MAX. lia.
  - exists st'. split; [exact H1|]. split; [exact H2|].
    destruct (H3 0%nat 2%nat ltac:(lia) ltac:(lia) ltac:(lia)) as (w & Hw & _).
    exists w. exact Hw.
Defined.

Lemma apsp_transit_sound_witness :
  exists t, RT_APSP_PATH_ELEM line_routes 0 2 = Some t /\ 0 <= n_paths t <= RT_MAX_EQ_PATHS.
Proof.
  destruct (apsp_transit_sound 3 100 7 line_block line_routes 0 2 line_ready)
    as (t & H1 & H2 & _).
  - unfold INT_MAX. lia.
  - vm_compute. reflexivity.
  - lia.
  - lia.
  - lia.
  - exists t. split; [exact H1|exact H2].
Defined.

Lemma apsp_init_ready_witness :
  exists st', mul_route_apsp_init_state 3%nat false (blank 9) = Some (st', 0) /\
    apsp_ready 3 100 st'.
Proof.
  destruct (apsp_init_ready 3%nat false 3 100 (blank 9) line_topo_ok) as (st' & H1 & H2 & _).
  - unfold MAX_SWITCHES_PER_CLUSTER. lia.
  - unfold NEIGH_NO_PATH, INT_MAX. lia.
  - cbn. lia.
  - cbn. lia.
  - exists st'. split; [exact H1|exact H2].
Defined.

Lemma routing_reaches_connected_witness :
  exists st', rebuild_routes 3%nat false 7 (blank 9) = Some st' /\
    rt_apsp_converged st' = true.
Proof.
  destruct (routing_reaches_connected 3%nat false 3 100 7 (blank 9) line_topo_ok)
    as (st' & H1 & H2 & _).
  - unfold MAX_SWITCHES_PER_CLUSTER. lia.
  - unfold INT_MAX. lia.
  - unfold NEIGH_NO_PATH, INT_MAX. lia.
  - cbn. lia.
  - cbn. lia.
  - exists st'. split; [exact H1|exact H2].
Defined.
