(* ===== verification/RouteServlet.v ===== *)
(** * Route queries (services/loadable/topo_routing/mul_route_servlet.c)

    Applications read the shared routing block through this library.  A route
    is a list of path elements, a route list ([rt_list_t]) the list of routes
    found for a pair of switches.  The NULL route is the empty list.

    [None] models a stray access; the recursion of
    [mul_route_apsp_get_subp] is bounded by [max_hops], which the fuel follows
    (see [RouteServletSpec.get_subp_total]). *)
From S2P Require Import Prelude RouteApsp.
From stdpp Require Import base list.
From Stdlib Require Import ZArith Lia.
#[local] Open Scope Z_scope.
Import Apsp.

Module Servlet.

(** ** Data *)

Definition RT_PELEM_FIRST_HOP : Z := 1.
Definition RT_PELEM_LAST_HOP : Z := 2.
Definition RT_HB_INTVL_SEC : Z := 2.
Definition RT_MAX_GET_RETRIES : Z := 100.

Record rt_path_elem_t := mk_pe {
  pe_dpid : Z; pe_alias : Z; pe_flags : Z; pe_in_port : Z; pe_link : lweight_pair_t }.

(** A route pointer: NULL or a list, or memory that has been freed. *)
Inductive route_ptr := Route (r : list rt_path_elem_t) | Freed.

Record rt_list_t := mk_rl { rl_skip : Z; rl_route : route_ptr }.

Definition route_of (e : rt_list_t) : option (list rt_path_elem_t) :=
  match rl_route e with Route r => Some r | Freed => None end.

(** ** Building routes *)

Definition add_route_path_elem (route : list rt_path_elem_t) (node : Z)
  (adj : lweight_pair_t) (dpid : Z) (last_hop : bool) : list rt_path_elem_t :=
  let fl := if last_hop then RT_PELEM_LAST_HOP else 0 in
  let fl := match route with [] => Z.lor fl RT_PELEM_FIRST_HOP | _ => fl end in
  route ++ [mk_pe dpid node fl NEIGH_NO_LINK adj].

Definition mul_route_list_size (l : list rt_list_t) : Z := Z.of_nat (length l).

(** Both routes are copied element by element. *)
Definition mul_routes_concat (route1 route2 : list rt_path_elem_t) : list rt_path_elem_t :=
  route1 ++ route2.

(** The inner loop: each [kj] route is appended to the given [ik] route and
    the result pushed on the list. *)
Fixpoint merge_inner (path : list rt_list_t) (ik : rt_list_t) (kj : list rt_list_t)
  : option (list rt_list_t) :=
  match kj with
  | [] => Some path
  | e :: kj' =>
      r1 ← route_of ik;
      r2 ← route_of e;
      merge_inner (mk_rl 0 (Route (mul_routes_concat r1 r2)) :: path) ik kj'
  end.

(** The outer loop does not rewind [elem_path_kj]: after the first [ik] route
    the inner loop finds it at the end. *)
Fixpoint mul_route_list_merge (path path_ik path_kj : list rt_list_t) : option (list rt_list_t) :=
  match path_ik with
  | [] => Some path
  | ik :: path_ik' =>
      path ← merge_inner path ik path_kj;
      mul_route_list_merge path path_ik' []
  end.

(** ** Expanding the transit matrix *)

(** The loop over the equal-cost transit switches; [rec] is the recursive call. *)
Fixpoint subp_loop (rec : Z -> Z -> Z -> option (list rt_list_t * Z)) (st : rt_apsp_t)
  (src dest : Z) (k : nat) (n : Z) (path : list rt_list_t) (hops : Z)
  : option (list rt_list_t * Z) :=
  match k with
  | O => Some (path, hops)
  | S k' =>
      t ← RT_APSP_PATH_ELEM st src dest;
      transit_sw ← aget (sw_alias t) n;
      if transit_sw =? NEIGH_NO_PATH then
        onlink ← rt_apsp_onlink_neigh st src dest;
        if onlink : bool then
          p ← rt_apsp_get_pair st src dest;
          dp ← rt_apsp_get_src_dp st src dest;
          Some ([mk_rl 0 (Route (add_route_path_elem [] src p dp false))], hops)
        else Some (path, hops)
      else if (src =? transit_sw) || (dest =? transit_sw) then Some (path, hops)
      else
        '(path_ik, hops) ← rec src transit_sw hops;
        '(path_jk, hops) ← rec transit_sw dest hops;
        path ← mul_route_list_merge path path_ik path_jk;
        subp_loop rec st src dest k' (n + 1) path hops
  end.

Fixpoint mul_route_apsp_get_subp (fuel : nat) (st : rt_apsp_t) (src dest max_hops : Z)
  : option (list rt_list_t * Z) :=
  match fuel with
  | O => None
  | S fuel' =>
      if max_hops <=? 0 then Some ([], max_hops)
      else subp_loop (mul_route_apsp_get_subp fuel' st) st src dest
             (Z.to_nat RT_MAX_EQ_PATHS) 0 [] (max_hops - 1)
  end.

(** Fuel that always suffices: every call consumes one hop. *)
Definition get_subp (st : rt_apsp_t) (src dest max_hops : Z) : option (list rt_list_t * Z) :=
  mul_route_apsp_get_subp (S (Z.to_nat max_hops)) st src dest max_hops.

(** The routes other than the selected one are freed. *)
Fixpoint select_from (route_list : list rt_list_t) (rt_count hint : Z) (route : route_ptr)
  : route_ptr :=
  match route_list with
  | [] => route
  | tmp :: l' =>
      select_from l' (rt_count + 1) hint (if rt_count =? hint then rl_route tmp else route)
  end.

Definition mul_route_select_single_and_purge_list (route_list : list rt_list_t) (hint : Z)
  : route_ptr := select_from route_list 0 hint (Route []).

(** [prev] is the element before the current one, already prepared. *)
Fixpoint prep_from (prev : option rt_path_elem_t) (route : list rt_path_elem_t) (ret : Z)
  : list rt_path_elem_t * Z :=
  match route with
  | [] => ([], ret)
  | e :: rest =>
      let e :=
        match prev with
        | Some pv => mk_pe (pe_dpid e) (pe_alias e) 0 (lb (pe_link pv)) (pe_link e)
        | None => mk_pe (pe_dpid e) (pe_alias e) RT_PELEM_FIRST_HOP (pe_in_port e) (pe_link e)
        end in
      let ret := if match rest with [] => false | _ => true end &&
                    (la (pe_link e) =? NEIGH_NO_LINK) then -1 else ret in
      let '(rest', ret) := prep_from (Some e) rest ret in
      (match rest with
       | [] => mk_pe (pe_dpid e) (pe_alias e) (Z.lor (pe_flags e) RT_PELEM_LAST_HOP)
                     (pe_in_port e) (pe_link e)
       | _ => e
       end :: rest', ret)
  end.

Definition mul_route_prep_out (route : list rt_path_elem_t) : list rt_path_elem_t * Z :=
  prep_from None route 0.

(** ** Queries *)

Definition last_hop_link : lweight_pair_t :=
  mk_pair NEIGH_NO_LINK NEIGH_NO_LINK NEIGH_NO_PATH 0.

(** The final loop of [mul_route_apsp_get_mp_sp].  The local variable [route]
    is what gets extended: a NULL [tmp->route] stays NULL.  When a route is
    refused it is freed and the route of the {e head} of the list is set to
    NULL. *)
Fixpoint finish_from (done : list rt_list_t) (todo : list rt_list_t) (dest_sw dest_dpid : Z)
  : option (list rt_list_t) :=
  match todo with
  | [] => Some done
  | tmp :: rest =>
      r ← route_of tmp;
      let '(r', ret) := mul_route_prep_out
                          (add_route_path_elem r dest_sw last_hop_link dest_dpid true) in
      let kept := match r with [] => Route [] | _ => if ret =? 0 then Route r' else Freed end in
      let l := done ++ [mk_rl (rl_skip tmp) kept] in
      let l := if ret =? 0 then l
               else match l with
                    | [] => []
                    | h :: l' => mk_rl (rl_skip h) (Route []) :: l'
                    end in
      finish_from l rest dest_sw dest_dpid
  end.

Section QUERY.
(** [c_app_switch_get_dpid_with_alias] of the application library. *)
Context (dpid_with_alias : Z -> Z).

(** What one attempt of a reader sees: the block, and whether the sequence
    number had moved when it looked again. *)
Definition attempt := (rt_apsp_t * bool)%type.

Inductive try_result := Retry | Fail | Found (l : list rt_list_t) (max_hops : Z).

Definition try_get (a : attempt) (src_sw dest_sw : Z)
  (mp_select : option (Z -> Z)) (bpairs : bool) : option try_result :=
  let '(st, moved) := a in
  let max_hops := MAX_SWITCHES_PER_CLUSTER * RT_MAX_EQ_PATHS in
  if negb (rt_apsp_converged st) then Some (if moved then Retry else Fail)
  else
    w ← rt_apsp_get_weight st src_sw dest_sw;
    if w =? NEIGH_NO_PATH then Some (if moved then Retry else Fail)
    else
      '(route_list, hops) ← get_subp st src_sw dest_sw max_hops;
      let hint :=
        match mp_select with
        | None => 0
        | Some f =>
            let num := mul_route_list_size route_list in
            let h := f num in if num <=? h then 0 else h
        end in
      let route_list :=
        if bpairs then route_list
        else [mk_rl 0 (mul_route_select_single_and_purge_list route_list hint)] in
      if moved then Some Retry
      else if hops <=? 0 then Some Fail
      else Some (Found route_list hops).

Fixpoint retry_get (retries : nat) (attempts : list attempt) (src_sw dest_sw : Z)
  (mp_select : option (Z -> Z)) (bpairs : bool) : option (option (list rt_list_t)) :=
  match retries, attempts with
  | S n, a :: rest =>
      r ← try_get a src_sw dest_sw mp_select bpairs;
      match r with
      | Retry => retry_get n rest src_sw dest_sw mp_select bpairs
      | Fail => Some None
      | Found l _ => Some (Some l)
      end
  | _, _ => Some None
  end.

(** [Some None] is the NULL result.  [attempts] lists what the successive
    attempts see; a list shorter than the retry limit stands for a reader that
    is still spinning on the lock. *)
Definition mul_route_apsp_get_mp_sp (attempts : list attempt) (src_sw dest_sw : Z)
  (mp_select : option (Z -> Z)) (bpairs : bool) : option (option (list rt_list_t)) :=
  if src_sw =? dest_sw then
    l ← finish_from [] [mk_rl 0 (Route [])] dest_sw 0; Some (Some l)
  else
    let dest_dpid := dpid_with_alias dest_sw in
    if dest_dpid =? 0 then Some None
    else
      r ← retry_get (Z.to_nat RT_MAX_GET_RETRIES) attempts src_sw dest_sw mp_select bpairs;
      match r with
      | None => Some None
      | Some l => l ← finish_from [] l dest_sw dest_dpid; Some (Some l)
      end.

(** The route of the head of the list; NULL for a NULL list. *)
Definition head_route (r : option (list rt_list_t)) : option (list rt_path_elem_t) :=
  match r with
  | Some (e :: _) => route_of e
  | _ => Some []
  end.

Definition mul_route_apsp_get_sp (attempts : list attempt) (src_sw dest_sw : Z)
  : option (list rt_path_elem_t) :=
  r ← mul_route_apsp_get_mp_sp attempts src_sw dest_sw None false;
  head_route r.

Definition mul_route_service_alive (st : rt_apsp_t) (curr_ts : Z) : bool :=
  curr_ts <=? serv_ts (state_info st) + 2 * RT_HB_INTVL_SEC.

Definition mul_route_get_nodes (st : rt_apsp_t) (curr_ts : Z) : Z :=
  if mul_route_service_alive st curr_ts then nodes (state_info st) else 0.

(** The range test of the front ends. *)
Definition query_in_range (st : rt_apsp_t) (src_sw dest_sw : Z) : bool :=
  negb ((src_sw <? 0) || (dest_sw <? 0) ||
        (negb (src_sw =? dest_sw) &&
         ((nodes (state_info st) <=? src_sw) || (nodes (state_info st) <=? dest_sw)))).

(** [st] is the block at the time of the checks. *)
Definition mul_route_get (st : rt_apsp_t) (curr_ts : Z) (attempts : list attempt)
  (src_sw dest_sw : Z) : option (list rt_path_elem_t) :=
  if negb (mul_route_service_alive st curr_ts) then Some []
  else if negb (query_in_range st src_sw dest_sw) then Some []
  else mul_route_apsp_get_sp attempts src_sw dest_sw.

Definition mul_route_get_mp (st : rt_apsp_t) (curr_ts : Z) (attempts : list attempt)
  (src_sw dest_sw : Z) (mp_select : option (Z -> Z)) : option (list rt_path_elem_t) :=
  if negb (mul_route_service_alive st curr_ts) then Some []
  else if negb (query_in_range st src_sw dest_sw) then Some []
  else
    r ← mul_route_apsp_get_mp_sp attempts src_sw dest_sw mp_select false;
    head_route r.

Definition mul_route_get_all (st : rt_apsp_t) (curr_ts : Z) (attempts : list attempt)
  (src_sw dest_sw : Z) : option (option (list rt_list_t)) :=
  if negb (mul_route_service_alive st curr_ts) then Some None
  else if negb (query_in_range st src_sw dest_sw) then Some None
  else mul_route_apsp_get_mp_sp attempts src_sw dest_sw None true.

End QUERY.
End Servlet.
