(* ===== verification/RouteServletSpec.v ===== *)
(** * Correctness of route queries

    The routes read from a computed block are shortest routes over usable
    links, the expansion always terminates, and what a reader returns comes
    from a snapshot that did not change under it. *)
From S2P Require Import Prelude Walks RouteApsp RouteApspSpec RouteServlet.
From stdpp Require Import base list sets.
From Stdlib Require Import ZArith Lia.
#[local] Open Scope Z_scope.
Import Apsp Servlet.

(** ** What a route is *)

(** Element [e] leaves [s] towards another switch [m] over a link that is up and not blocked. *)
Definition hop_ok (st : rt_apsp_t) (e : rt_path_elem_t) (s m : Z) : Prop :=
  pe_alias e = s /\ s <> m /\ 0 <= m < nodes (state_info st) /\ rt_apsp_get_pair st s m = Some (pe_link e) /\
  rt_apsp_onlink_neigh st s m = Some true /\ rt_apsp_get_src_dp st s m = Some (pe_dpid e).

(** The elements lead hop by hop from [s] to [d]. *)
Fixpoint route_ok (st : rt_apsp_t) (s : Z) (r : list rt_path_elem_t) (d : Z) : Prop :=
  match r with
  | [] => s = d
  | e :: r' => exists m, hop_ok st e s m /\ route_ok st m r' d
  end.

Definition route_weight (r : list rt_path_elem_t) : Z :=
  foldr (fun e w => weight (pe_link e) + w) 0 r.

(** What the shortest path computation guarantees of a block. *)
Record routes_ok (n : nat) (st : rt_apsp_t) : Prop := {
  ro_block : block_ok n st;
  ro_size : Z.of_nat n <= MAX_SWITCHES_PER_CLUSTER;
  ro_transit : forall a b m x, (a < n)%nat -> (b < n)%nat -> a <> b ->
    sw_alias (Tv st a b) !! m = Some x ->
    x = NEIGH_NO_PATH \/
    exists c : nat, x = Z.of_nat c /\ (c < n)%nat /\ c <> a /\ c <> b /\
      Wv st a c + Wv st c b = Wv st a b }.

(** A non-empty route from [s] to [d] of the weight the matrix gives. *)
Definition good_route (st : rt_apsp_t) (s d : nat) (e : rt_list_t) : Prop :=
  exists r, rl_route e = Route r /\ r <> [] /\
    route_ok st (Z.of_nat s) r (Z.of_nat d) /\ route_weight r = Wv st s d.

(** ** Lemmas *)

Lemma route_ok_app st s r1 m r2 d :
  route_ok st s r1 m -> route_ok st m r2 d -> route_ok st s (r1 ++ r2) d.
Proof.
  revert s. induction r1 as [|e r1 IH]; intros s H1 H2; cbn in *; [by subst|].
  destruct H1 as (x & Hx & H1). eauto.
Qed.

Lemma route_weight_app r1 r2 : route_weight (r1 ++ r2) = route_weight r1 + route_weight r2.
Proof. unfold route_weight. induction r1 as [|e r1 IH]; cbn; [done|]. rewrite IH. lia. Qed.

Lemma merge_inner_good st a c b path ik kj :
  Wv st a c + Wv st c b = Wv st a b ->
  Forall (good_route st a b) path -> good_route st a c ik -> Forall (good_route st c b) kj ->
  exists path', merge_inner path ik kj = Some path' /\ Forall (good_route st a b) path'.
Proof.
  intros Hw Hp Hik Hkj. revert path Hp.
  induction Hkj as [|e kj He Hkj IH]; intros path Hp; cbn; [eauto|].
  destruct Hik as (r1 & E1 & N1 & O1 & W1), He as (r2 & E2 & N2 & O2 & W2).
  unfold route_of. rewrite E1, E2; cbn. apply IH. apply Forall_cons. split; [|done].
  exists (r1 ++ r2). split_and!; [done|by destruct r1| |].
  - by eapply route_ok_app.
  - rewrite route_weight_app. lia.
Qed.

Lemma merge_good st a c b path path_ik path_kj :
  Wv st a c + Wv st c b = Wv st a b ->
  Forall (good_route st a b) path -> Forall (good_route st a c) path_ik ->
  Forall (good_route st c b) path_kj ->
  exists path', mul_route_list_merge path path_ik path_kj = Some path' /\
    Forall (good_route st a b) path'.
Proof.
  intros Hw Hp Hik. revert path path_kj Hp.
  induction Hik as [|ik l Hi Hik IH]; intros path kj Hp Hkj; cbn; [eauto|].
  destruct (merge_inner_good st a c b path ik kj Hw Hp Hi Hkj) as (p' & -> & Hp'); cbn.
  apply IH; [done|by apply Forall_nil].
Qed.

(** [mul_route_list_merge] only extends the first [ik] route. *)
Lemma merge_first_only path ik l kj r1 rs :
  rl_route ik = Route r1 -> Forall2 (fun e r => rl_route e = Route r) kj rs ->
  mul_route_list_merge path (ik :: l) kj =
  Some (rev ((fun r => mk_rl 0 (Route (r1 ++ r))) <$> rs) ++ path).
Proof.
  intros E1 Hkj. cbn.
  assert (merge_inner path ik kj = Some (rev ((fun r => mk_rl 0 (Route (r1 ++ r))) <$> rs) ++ path))
    as ->.
  { revert path. induction Hkj as [|e r kj rs He Hkj IH]; intros path; cbn; [done|].
    unfold route_of. rewrite E1, He; cbn. rewrite IH. by rewrite <- app_assoc. }
  cbn. generalize (rev ((fun r => mk_rl 0 (Route (r1 ++ r))) <$> rs) ++ path) as p.
  induction l as [|x l IH]; intros p; cbn; [done|]. apply IH.
Qed.

Section SUBP.
Context (n : nat) (st : rt_apsp_t) (Hr : routes_ok n st).

Lemma onlink_some a b :
  (a < n)%nat -> (b < n)%nat ->
  exists v, rt_apsp_onlink_neigh st (Z.of_nat a) (Z.of_nat b) = Some v.
Proof using Hr.
  intros. unfold rt_apsp_onlink_neigh. rewrite (get_pair_some n) by (done || apply Hr).
  cbn. eauto.
Qed.

Lemma direct_good a b dp :
  (a < n)%nat -> (b < n)%nat -> a <> b ->
  rt_apsp_onlink_neigh st (Z.of_nat a) (Z.of_nat b) = Some true ->
  rt_apsp_get_src_dp st (Z.of_nat a) (Z.of_nat b) = Some dp ->
  good_route st a b (mk_rl 0 (Route (add_route_path_elem [] (Z.of_nat a) (Pv st a b) dp false))).
Proof using Hr.
  intros Ha Hb Hab Hon Hdp. eexists. split; [done|]. split; [done|]. cbn. split.
  - exists (Z.of_nat b). split; [|done]. split_and!; cbn; auto; [lia|lia|rewrite (bo_nodes _ _ (ro_block _ _ Hr)); lia|].
    by apply (get_pair_some n); [apply Hr|..].
  - unfold Wv. lia.
Qed.

(** One pass over the transit slots, given a recursive call that is right for
    all smaller hop budgets. *)
Lemma subp_loop_good rec B a b :
  (a < n)%nat -> (b < n)%nat -> a <> b ->
  (forall s d h, (s < n)%nat -> (d < n)%nat -> s <> d -> h < B ->
     exists l h', rec (Z.of_nat s) (Z.of_nat d) h = Some (l, h') /\ h' <= h /\
       Forall (good_route st s d) l) ->
  forall k m path hops, (m + k = 4)%nat -> hops < B -> Forall (good_route st a b) path ->
  exists l h', subp_loop rec st (Z.of_nat a) (Z.of_nat b) k (Z.of_nat m) path hops = Some (l, h') /\
    h' <= hops /\ Forall (good_route st a b) l.
Proof using Hr.
  intros Ha Hb Hab Hrec. induction k as [|k IH]; intros m path hops Hm HB Hp; cbn.
  { exists path, hops. split_and!; auto. lia. }
  destruct (path_elem_some n st (ro_block _ _ Hr) a b Ha Hb) as [-> H4]; cbn.
  rewrite aget_nat.
  destruct (lookup_lt_is_Some_2 (sw_alias (Tv st a b)) m) as [x Hx]; [lia|].
  rewrite Hx; cbn.
  destruct (Z.eqb_spec x NEIGH_NO_PATH) as [_|Hne].
  - destruct (onlink_some a b Ha Hb) as [[|] Hon]; rewrite Hon; cbn.
    + rewrite (get_pair_some n) by (done || apply Hr); cbn.
      destruct (adj_elem_some n st (ro_block _ _ Hr) a b Ha Hb) as (e & He & _).
      assert (rt_apsp_get_src_dp st (Z.of_nat a) (Z.of_nat b) = Some (dpid_a e)) as Hdp
        by (unfold rt_apsp_get_src_dp; by rewrite He).
      rewrite Hdp; cbn. do 2 eexists. split; [done|]. split; [lia|].
      apply Forall_singleton. by apply direct_good.
    + exists path, hops. split_and!; auto. lia.
  - destruct (ro_transit _ _ Hr a b m x Ha Hb Hab Hx) as [?|(c & -> & Hc & Hca & Hcb & Hw)]; [done|].
    destruct (Z.eqb_spec (Z.of_nat a) (Z.of_nat c)); [lia|].
    destruct (Z.eqb_spec (Z.of_nat b) (Z.of_nat c)); [lia|]. cbn.
    destruct (Hrec a c hops Ha Hc ltac:(lia) HB) as (l1 & h1 & -> & Hh1 & Hl1); cbn.
    destruct (Hrec c b h1 Hc Hb ltac:(lia) ltac:(lia)) as (l2 & h2 & -> & Hh2 & Hl2); cbn.
    destruct (merge_good st a c b path l1 l2 Hw Hp Hl1 Hl2) as (p' & -> & Hp'); cbn.
    replace (Z.of_nat m + 1) with (Z.of_nat (S m)) by lia.
    destruct (IH (S m) p' h2 ltac:(lia) ltac:(lia) Hp') as (l & h & -> & Hh & Hl).
    exists l, h. split_and!; auto. lia.
Qed.

Lemma get_subp_good fuel : forall a b hops,
  (a < n)%nat -> (b < n)%nat -> a <> b -> (0 < fuel)%nat -> hops < Z.of_nat fuel ->
  exists l h', mul_route_apsp_get_subp fuel st (Z.of_nat a) (Z.of_nat b) hops = Some (l, h') /\
    h' <= hops /\ Forall (good_route st a b) l.
Proof using Hr.
  induction fuel as [|fuel IH]; intros a b hops Ha Hb Hab H0 Hf; [lia|].
  cbn [mul_route_apsp_get_subp].
  destruct (Z.leb_spec hops 0); [by exists [], hops|].
  destruct (subp_loop_good (mul_route_apsp_get_subp fuel st) (Z.of_nat fuel) a b Ha Hb Hab)
    with (k := 4%nat) (m := 0%nat) (path := @nil rt_list_t) (hops := hops - 1)
    as (l & h & Hl & Hh & Hg); auto; try lia.
  { intros. apply IH; auto. lia. }
  exists l, h. split_and!; auto. lia.
Qed.
End SUBP.

(** A computed block satisfies what the queries need. *)
Lemma calc_routes_ok n M now st st' :
  apsp_ready n M st -> 2 * M * Z.of_nat n < INT_MAX -> Z.of_nat n <= MAX_SWITCHES_PER_CLUSTER ->
  mul_route_apsp_calc now st = Some (st', 0) ->
  routes_ok n st' /\ rt_apsp_converged st' = true.
Proof.
  intros Hrd HM Hn Hc.
  destruct (calc_inv n M now st Hrd HM) as (s & Hs & Hinv & Hcv & _).
  rewrite Hs in Hc; simplify_eq. split; [|done]. constructor; [apply Hinv|done|].
  intros a b m x Ha Hb Hab Hx.
  destruct (fi_transit _ _ _ _ _ Hinv a b Ha Hb) as (Hnp & _ & Hal).
  destruct (Hal m x Hx) as [H1 H2].
  destruct (Z.lt_ge_cases (Z.of_nat m) (n_paths (Tv st' a b))) as [Hlt|Hge]; [|auto].
  right. destruct (H1 Hlt) as (c & -> & Hcn & Hca & Hcb & Hac & Hcb' & Hle).
  destruct (fw_final_triangle (Wv st) n st' a b c) as [_ Htri]; auto.
  exists c. split_and!; auto. lia.
Qed.

(** Selecting with hint 0 takes the first route. *)
Lemma select_first l :
  mul_route_select_single_and_purge_list l 0 =
  match l with [] => Route [] | e :: _ => rl_route e end.
Proof.
  unfold mul_route_select_single_and_purge_list. destruct l as [|e l]; [done|]. cbn.
  assert (forall c r, 0 < c -> select_from l c 0 r = r) as H; [|by apply H].
  induction l as [|x l IH]; intros c r Hc; cbn; [done|].
  rewrite (proj2 (Z.eqb_neq _ _)) by lia. apply IH. lia.
Qed.

Lemma prep_from_length prev r ret : length (prep_from prev r ret).1 = length r.
Proof.
  revert prev ret. induction r as [|e r IH]; intros; cbn [prep_from]; [done|].
  destruct (prep_from _ r _) as [r' ret'] eqn:E. cbn. f_equal.
  change r' with ((r', ret').1). rewrite <- E. apply IH.
Qed.

(** The flags and input port the preparation gives to the element at [i]. *)
Definition prepared (r : list rt_path_elem_t) (i : nat) (prev : option rt_path_elem_t)
  (e e' : rt_path_elem_t) : Prop :=
  pe_dpid e' = pe_dpid e /\ pe_alias e' = pe_alias e /\ pe_link e' = pe_link e /\
  pe_flags e' = Z.lor (match prev with None => RT_PELEM_FIRST_HOP | _ => 0 end)
                      (if (S i =? length r)%nat then RT_PELEM_LAST_HOP else 0) /\
  pe_in_port e' = match prev with None => pe_in_port e | Some p => lb (pe_link p) end.

Lemma prep_from_spec r : forall prev ret i e,
  r !! i = Some e ->
  exists e', (prep_from prev r ret).1 !! i = Some e' /\
    prepared r i (match i with O => prev | S j => r !! j end) e e'.
Proof.
  induction r as [|x r IH]; intros prev ret i e Hi; [done|]. cbn [prep_from].
  destruct (prep_from _ r _) as [r' ret'] eqn:E.
  destruct i as [|i]; cbn in Hi; simplify_eq; cbn.
  - destruct r as [|y r]; eexists; (split; [done|]); destruct prev; unfold prepared; cbn; auto.
  - match type of E with prep_from ?p _ ?q = _ => destruct (IH p q i e Hi) as (e' & He' & Hp) end.
    rewrite E in He'. exists e'. split; [done|].
    destruct i as [|i]; [|exact Hp]. destruct prev; exact Hp.
Qed.

Lemma prep_from_ret r : forall prev,
  (prep_from prev r 0).2 = 0 <->
  forall i e, r !! i = Some e -> (S i < length r)%nat -> la (pe_link e) <> NEIGH_NO_LINK.
Proof.
  assert (forall r prev, (prep_from prev r (-1)).2 = -1) as Hm1.
  { clear r. induction r as [|x r IH]; intros prev; cbn [prep_from]; [done|].
    match goal with |- context [prep_from ?p r ?q] => pose proof (IH p) as H;
      assert (q = -1) as Hq by (by destruct (match r with [] => _ | _ => _ end && _));
      rewrite Hq; destruct (prep_from p r (-1)) end. exact H. }
  induction r as [|x r IH]; intros prev; cbn [prep_from].
  { split; [intros _ i e Hi; done|done]. }
  match goal with |- context [prep_from ?p r ?q] => remember p as pv end.
  destruct r as [|y r].
  - cbn. split; [intros _ [|i] e Hi Hlt; cbn in *; [lia|done]|done].
  - assert (la (pe_link (match prev with
        | Some pv => mk_pe (pe_dpid x) (pe_alias x) 0 (lb (pe_link pv)) (pe_link x)
        | None => mk_pe (pe_dpid x) (pe_alias x) RT_PELEM_FIRST_HOP (pe_in_port x) (pe_link x)
        end)) = la (pe_link x)) as Hla by (by destruct prev).
    rewrite Hla. cbn [andb]. destruct (Z.eqb_spec (la (pe_link x)) NEIGH_NO_LINK) as [Heq|Hne].
    + destruct (prep_from pv (y :: r) (-1)) as [r' ret'] eqn:E. cbn [snd].
      assert (ret' = -1) as -> by (rewrite <- (Hm1 (y :: r) pv), E; done).
      split; [done|]. intros Hall. exfalso. apply (Hall 0%nat x eq_refl); [cbn; lia|done].
    + specialize (IH pv). destruct (prep_from pv (y :: r) 0) as [r' ret'] eqn:E. cbn [snd] in *.
      rewrite IH. split.
      * intros Hall [|i] e Hi Hlt; cbn in Hi; [by simplify_eq|].
        apply (Hall i e Hi). cbn in *. lia.
      * intros Hall i e Hi Hlt. apply (Hall (S i) e Hi). cbn in *. lia.
Qed.

(** Finishing a single route: the destination is appended and the result
    prepared; a NULL route stays NULL. *)
Lemma finish_single sk r dest dp :
  finish_from [] [mk_rl sk (Route r)] dest dp =
  let p := mul_route_prep_out (add_route_path_elem r dest last_hop_link dp true) in
  Some [mk_rl sk (if (p.2 =? 0) && negb (bool_decide (r = [])) then Route p.1 else Route [])].
Proof.
  cbn [finish_from route_of rl_route mbind option_bind].
  destruct (mul_route_prep_out _) as [r' ret] eqn:E. cbn [fst snd].
  destruct r as [|x r]; destruct (ret =? 0); done.
Qed.

(** What one undisturbed attempt on a computed block finds. *)
Lemma try_get_good n st a b sel bp :
  routes_ok n st -> rt_apsp_converged st = true ->
  (a < n)%nat -> (b < n)%nat -> a <> b ->
  exists r, try_get (st, false) (Z.of_nat a) (Z.of_nat b) sel bp = Some r /\
    match r with
    | Retry => False
    | Fail => True
    | Found l _ => Wv st a b <> NEIGH_NO_PATH /\
        Forall (fun e => rl_route e = Route [] \/ good_route st a b e) l
    end.
Proof.
  intros Hr Hcv Ha Hb Hab. unfold try_get. rewrite Hcv. cbn [negb].
  rewrite (get_weight_some n) by (done || apply Hr). cbn [mbind option_bind].
  destruct (Z.eqb_spec (Wv st a b) NEIGH_NO_PATH) as [|Hne]; [by eexists|].
  unfold get_subp.
  destruct (get_subp_good n st Hr (S (Z.to_nat (MAX_SWITCHES_PER_CLUSTER * RT_MAX_EQ_PATHS)))
    a b (MAX_SWITCHES_PER_CLUSTER * RT_MAX_EQ_PATHS) Ha Hb Hab) as (l & h & -> & _ & Hl); [lia..|].
  cbn [mbind option_bind]. destruct (h <=? 0); eexists; (split; [done|]); [done|].
  split; [done|]. destruct bp.
  - eapply Forall_impl; [exact Hl|]. auto.
  - apply Forall_singleton. cbn. unfold mul_route_select_single_and_purge_list.
    match goal with |- context [select_from l 0 ?x _] => generalize x as hint; intros hint end.
    assert (forall l c r, Forall (good_route st a b) l ->
      (r = Route [] \/ good_route st a b (mk_rl 0 r)) ->
      let r' := select_from l c hint r in
      r' = Route [] \/ good_route st a b (mk_rl 0 r')) as Hsel.
    { clear. induction l as [|e l IH]; intros c r Hl Hr; cbn; [done|].
      apply Forall_cons in Hl as [He Hl]. apply IH; [done|].
      case_match; [right|done]. destruct He as (q & ? & ?). exists q. by cbn. }
    destruct (Hsel l 0 (Route []) Hl (or_introl eq_refl)) as [->|Hg]; [by left|by right].
Qed.

Lemma get_sp_good dpid_of n M now st st' rest a b :
  apsp_ready n M st -> 2 * M * Z.of_nat n < INT_MAX -> Z.of_nat n <= MAX_SWITCHES_PER_CLUSTER ->
  mul_route_apsp_calc now st = Some (st', 0) ->
  (a < n)%nat -> (b < n)%nat -> a <> b ->
  exists r, mul_route_apsp_get_sp dpid_of ((st', false) :: rest) (Z.of_nat a) (Z.of_nat b) = Some r /\
    (r = [] \/ exists body, body <> [] /\
       route_ok st' (Z.of_nat a) body (Z.of_nat b) /\
       rt_apsp_get_weight st' (Z.of_nat a) (Z.of_nat b) = Some (route_weight body) /\
       r = (mul_route_prep_out (body ++ [mk_pe (dpid_of (Z.of_nat b)) (Z.of_nat b)
              RT_PELEM_LAST_HOP NEIGH_NO_LINK last_hop_link])).1).
Proof.
  intros Hrd HM Hn Hc Ha Hb Hab.
  destruct (calc_routes_ok n M now st st' Hrd HM Hn Hc) as [Hr Hcv].
  unfold mul_route_apsp_get_sp, mul_route_apsp_get_mp_sp.
  rewrite (proj2 (Z.eqb_neq _ _)) by lia.
  destruct (dpid_of (Z.of_nat b) =? 0); [by exists []; split; [|left]|].
  change (Z.to_nat RT_MAX_GET_RETRIES) with 100%nat. cbn [retry_get].
  destruct (try_get_good n st' a b None false Hr Hcv Ha Hb Hab) as (res & Ht & Hres).
  rewrite Ht. cbn [mbind option_bind].
  destruct res as [| |l h]; [done|by exists []; split; [|left]|].
  assert (exists e, l = [e]) as [e ->].
  { clear Hres. unfold try_get in Ht. rewrite Hcv in Ht. cbn [negb] in Ht. inv_bind.
    case_match; [by simplify_eq|]. inv_bind. destruct x0 as [rl hp]. cbn in Ht.
    case_match; simplify_eq. by eexists. }
  destruct Hres as [Hne Hl]. apply Forall_cons in Hl as [Hl _]. destruct e as [sk rp].
  destruct Hl as [Hl|(body & Hl & Hbn & Hok & Hw)]; cbn in Hl; subst rp;
    cbn [mbind option_bind]; rewrite finish_single; cbn [mbind option_bind head_route].
  - exists []. split; [|by left]. unfold route_of; cbn [rl_route]. by rewrite bool_decide_true, andb_false_r.
  - rewrite bool_decide_false, andb_true_r by done.
    unfold add_route_path_elem. destruct body as [|x body]; [done|].
    case_match; [|by exists []; split; [|left]].
    eexists. split; [done|]. right. exists (x :: body). split_and!; auto.
    rewrite Hw. apply (get_weight_some n); [apply Hr|done..].
Qed.

(** ** Properties *)



(** [mul_route_prep_out] marks exactly the first and the last element,
    gives every later element the port on which its predecessor's link arrives,
    keeps everything else, and refuses exactly the routes with an intermediate
    element that has no outgoing port. *)
Theorem prep_out_spec r :
  length (mul_route_prep_out r).1 = length r /\
  (forall i e, r !! i = Some e ->
     exists e', (mul_route_prep_out r).1 !! i = Some e' /\
       pe_dpid e' = pe_dpid e /\ pe_alias e' = pe_alias e /\ pe_link e' = pe_link e /\
       pe_flags e' = Z.lor (if (i =? 0)%nat then RT_PELEM_FIRST_HOP else 0)
                           (if (S i =? length r)%nat then RT_PELEM_LAST_HOP else 0) /\
       pe_in_port e' = match i with
                       | O => pe_in_port e
                       | S j => match r !! j with Some p => lb (pe_link p) | None => 0 end
                       end) /\
  ((mul_route_prep_out r).2 = 0 <->
   forall i e, r !! i = Some e -> (S i < length r)%nat -> la (pe_link e) <> NEIGH_NO_LINK).
Proof.
  unfold mul_route_prep_out. split; [apply prep_from_length|]. split; [|apply prep_from_ret].
  intros i e Hi. destruct (prep_from_spec r None 0 i e Hi) as (e' & He' & H1 & H2 & H3 & H4 & H5).
  exists e'. rewrite H4, H5. split_and!; auto; destruct i as [|i]; try done;
    destruct (lookup_lt_is_Some_2 r i) as [p ->]; auto;
    apply lookup_lt_Some in Hi; lia.
Qed.

(** Sequence lock safety.  Whatever the writers do, a route list that a
    reader returns was computed from a block whose sequence number had not moved
    during the attempt, after fewer than [RT_MAX_GET_RETRIES] disturbed ones;
    in particular a reader disturbed that often returns NULL. *)
Theorem get_uses_stable_snapshot attempts src dest sel bp l :
  retry_get (Z.to_nat RT_MAX_GET_RETRIES) attempts src dest sel bp = Some (Some l) ->
  exists i st h, (i < Z.to_nat RT_MAX_GET_RETRIES)%nat /\ attempts !! i = Some (st, false) /\
    try_get (st, false) src dest sel bp = Some (Found l h) /\
    forall j, (j < i)%nat -> exists st', attempts !! j = Some (st', true).
Proof.
  generalize (Z.to_nat RT_MAX_GET_RETRIES) as k. intros k. revert attempts.
  induction k as [|k IH]; intros [|[st mv] att]; cbn [retry_get]; try done.
  intros Hg. apply bind_Some in Hg as (res & Ht & Hg).
  destruct res as [| |l' h]; simplify_eq.
  - destruct (IH att Hg) as (i & st' & h & Hi & Hl & Hf & Hj).
    assert (mv = true) as ->.
    { destruct mv; [done|]. exfalso. clear -Ht. unfold try_get in Ht.
      case_match; [done|]. inv_bind. case_match; [done|]. inv_bind.
      destruct x0. case_match; done. }
    exists (S i), st', h. split_and!; auto; [lia|]. intros [|j] Hlt; cbn; [eauto|]. apply Hj. lia.
  - assert (mv = false) as ->.
    { destruct mv; [|done]. exfalso. clear -Ht. unfold try_get in Ht.
      case_match; [done|]. inv_bind. case_match; [done|]. inv_bind. by destruct x0. }
    exists 0%nat, st, h. split_and!; auto; [lia|]. lia.
Qed.

(** The route from a switch to itself is lost: the element is appended to a
    local variable only. *)
Lemma get_sp_same_node dpid_of attempts s :
  mul_route_apsp_get_sp dpid_of attempts s s = Some [].
Proof.
  unfold mul_route_apsp_get_sp, mul_route_apsp_get_mp_sp. by rewrite Z.eqb_refl.
Qed.

(** ** Witnesses *)



Lemma get_uses_stable_snapshot_witness :
  exists i : nat, (i < 100)%nat.
Proof.
  destruct (get_uses_stable_snapshot [(line_routes, true); (line_routes, false)] 0 2 None true
    match retry_get 100 [(line_routes, true); (line_routes, false)] 0 2 None true with
    | Some (Some l) => l | _ => [] end) as (i & st & h & Hi & _).
  - vm_compute. reflexivity.
  - exists i. exact Hi.
Defined.
