(* ===== verification/Bytes.v ===== *)
(** * Byte buffers and the integers stored in them

    The controller reads and writes protocol messages through pointers into
    byte buffers, on a little-endian host.  A buffer is a list of bytes ([Z]
    between 0 and 255), an access outside it is undefined behaviour ([None]),
    an unsigned integer is stored with its least significant byte first and
    [htons], [htonl] and [htonll] reverse its bytes. *)
From stdpp Require Import base list.
From Stdlib Require Import ZArith Lia.
From S2P Require Import Prelude.
#[local] Open Scope Z_scope.

Module Bytes.

Definition is_byte (b : Z) : Prop := 0 <= b < 256.
Definition is_bytes (l : list Z) : Prop := Forall is_byte l.

(** The [n] bytes of an integer in memory, and the integer of some bytes. *)
Fixpoint le_bytes (n : nat) (v : Z) : list Z :=
  match n with
  | O => []
  | S n => v mod 256 :: le_bytes n (v / 256)
  end.

Fixpoint le_val (l : list Z) : Z :=
  match l with
  | [] => 0
  | b :: l => b + 256 * le_val l
  end.

Definition bswap (n : nat) (v : Z) : Z := le_val (rev (le_bytes n v)).

Definition htons : Z -> Z := bswap 2.
Definition ntohs : Z -> Z := bswap 2.
Definition htonl : Z -> Z := bswap 4.
Definition ntohl : Z -> Z := bswap 4.
Definition htonll : Z -> Z := bswap 8.
Definition ntohll : Z -> Z := bswap 8.

(** [memcpy] out of and into a buffer. *)
Definition rd (buf : list Z) (off n : nat) : option (list Z) :=
  if (off + n <=? length buf)%nat then Some (take n (drop off buf)) else None.

Definition wr (buf : list Z) (off : nat) (bs : list Z) : option (list Z) :=
  if (off + length bs <=? length buf)%nat
  then Some (take off buf ++ bs ++ drop (off + length bs) buf) else None.

(** [*(uintN_t * )(buf + off)] as a value and as a destination. *)
Definition rd_le (buf : list Z) (off n : nat) : option Z :=
  bs ← rd buf off n; Some (le_val bs).

Definition wr_le (buf : list Z) (off n : nat) (v : Z) : option (list Z) :=
  wr buf off (le_bytes n v).

#[global] Arguments rd : simpl never.
#[global] Arguments wr : simpl never.

(** ** Integers and their bytes *)

Lemma le_bytes_length n v : length (le_bytes n v) = n.
Proof. revert v. induction n as [|n IH]; intros v; cbn; [done|]. by rewrite IH. Qed.

Lemma le_bytes_bytes n v : is_bytes (le_bytes n v).
Proof.
  revert v. induction n as [|n IH]; intros v; [constructor|].
  apply Forall_cons. split; [|apply IH]. unfold is_byte. apply Z.mod_pos_bound. lia.
Qed.

Lemma pow256_S n : 256 ^ Z.of_nat (S n) = 256 * 256 ^ Z.of_nat n.
Proof. rewrite Nat2Z.inj_succ, Z.pow_succ_r by lia. done. Qed.

Lemma le_val_le_bytes n v : 0 <= v < 256 ^ Z.of_nat n -> le_val (le_bytes n v) = v.
Proof.
  revert v. induction n as [|n IH]; intros v Hv.
  - cbn in *. unfold le_val, le_bytes. lia.
  - rewrite pow256_S in Hv. change (le_bytes (S n) v) with (v mod 256 :: le_bytes n (v / 256)).
    change (v mod 256 + 256 * le_val (le_bytes n (v / 256)) = v).
    rewrite IH by (split; [apply Z.div_pos; lia|apply Z.div_lt_upper_bound; lia]).
    pose proof (Z.div_mod v 256). lia.
Qed.

Lemma le_bytes_le_val l : is_bytes l -> le_bytes (length l) (le_val l) = l.
Proof.
  induction l as [|b l IH]; intros Hl; [done|]. apply Forall_cons in Hl as [Hb Hl].
  change (le_val (b :: l)) with (b + 256 * le_val l). cbn [length].
  change (le_bytes (S (length l)) (b + 256 * le_val l)) with
    ((b + 256 * le_val l) mod 256 :: le_bytes (length l) ((b + 256 * le_val l) / 256)).
  unfold is_byte in Hb. f_equal.
  - rewrite Z.mul_comm, Z_mod_plus_full. by apply Z.mod_small.
  - rewrite Z.mul_comm, Z_div_plus_full by lia. rewrite Z.div_small by lia.
    by rewrite Z.add_0_l, IH.
Qed.

Lemma le_val_range l : is_bytes l -> 0 <= le_val l < 256 ^ Z.of_nat (length l).
Proof.
  induction l as [|b l IH]; intros Hl; [cbn; unfold le_val; lia|].
  apply Forall_cons in Hl as [Hb Hl]. unfold is_byte in Hb. specialize (IH Hl).
  cbn [length]. rewrite pow256_S. change (le_val (b :: l)) with (b + 256 * le_val l). lia.
Qed.

Lemma is_bytes_rev l : is_bytes l -> is_bytes (rev l).
Proof. unfold is_bytes. rewrite rev_alt. apply Forall_reverse. Qed.

Lemma bswap_range n v : 0 <= bswap n v < 256 ^ Z.of_nat n.
Proof.
  unfold bswap. pose proof (le_val_range (rev (le_bytes n v))) as H.
  rewrite length_rev, le_bytes_length in H. apply H, is_bytes_rev, le_bytes_bytes.
Qed.

Lemma le_bytes_bswap n v : le_bytes n (bswap n v) = rev (le_bytes n v).
Proof.
  unfold bswap. pose proof (le_bytes_le_val (rev (le_bytes n v))) as H.
  rewrite length_rev, le_bytes_length in H. apply H, is_bytes_rev, le_bytes_bytes.
Qed.

Lemma bswap_involutive n v : 0 <= v < 256 ^ Z.of_nat n -> bswap n (bswap n v) = v.
Proof.
  intros Hv. unfold bswap at 1. rewrite le_bytes_bswap, rev_involutive.
  by apply le_val_le_bytes.
Qed.

Lemma ntohs_htons v : 0 <= v < 65536 -> ntohs (htons v) = v.
Proof. intros. by apply (bswap_involutive 2). Qed.

Lemma ntohl_htonl v : 0 <= v < 2 ^ 32 -> ntohl (htonl v) = v.
Proof. intros. by apply (bswap_involutive 4). Qed.

Lemma bswap_inj n a b :
  0 <= a < 256 ^ Z.of_nat n -> 0 <= b < 256 ^ Z.of_nat n -> bswap n a = bswap n b -> a = b.
Proof. intros Ha Hb He. rewrite <- (bswap_involutive n a), <- (bswap_involutive n b) by done. by f_equal. Qed.

#[global] Arguments le_bytes : simpl never.
#[global] Arguments le_val : simpl never.
#[global] Arguments bswap : simpl never.

(** ** Buffers *)

Lemma rd_length buf off n bs : rd buf off n = Some bs -> length bs = n.
Proof.
  unfold rd. case_match eqn:E; [|done]. intros; simplify_eq. apply Nat.leb_le in E.
  rewrite length_take, length_drop. lia.
Qed.

Lemma rd_Some buf off n : (off + n <= length buf)%nat -> rd buf off n = Some (take n (drop off buf)).
Proof. intros H. unfold rd. by rewrite (proj2 (Nat.leb_le _ _)). Qed.

Lemma rd_is_Some buf off n : (off + n <= length buf)%nat -> is_Some (rd buf off n).
Proof. intros H. rewrite rd_Some by done. eauto. Qed.

Lemma wr_Some buf off bs : (off + length bs <= length buf)%nat ->
  wr buf off bs = Some (take off buf ++ bs ++ drop (off + length bs) buf).
Proof. intros H. unfold wr. by rewrite (proj2 (Nat.leb_le _ _)). Qed.

Lemma wr_length buf off bs buf' : wr buf off bs = Some buf' -> length buf' = length buf.
Proof.
  unfold wr. case_match eqn:E; [|done]. intros; simplify_eq. apply Nat.leb_le in E.
  rewrite !length_app, length_take, length_drop. lia.
Qed.

(** Reading a part of a buffer given as a concatenation. *)
Lemma rd_app_mid pre bs post off n :
  off = length pre -> n = length bs -> rd (pre ++ bs ++ post) off n = Some bs.
Proof.
  intros -> ->. rewrite rd_Some by (rewrite !length_app; lia).
  by rewrite drop_app_length, take_app_length.
Qed.

Lemma wr_app_mid pre old bs post off :
  off = length pre -> length bs = length old ->
  wr (pre ++ old ++ post) off bs = Some (pre ++ bs ++ post).
Proof.
  intros -> Hl. rewrite wr_Some by (rewrite !length_app; lia).
  rewrite take_app_length, Hl. do 3 f_equal.
  by rewrite <- drop_drop, !drop_app_length.
Qed.

Lemma rd_bytes buf off n bs : is_bytes buf -> rd buf off n = Some bs -> is_bytes bs.
Proof.
  unfold rd. case_match; [|done]. intros Hb ?; simplify_eq.
  by apply Forall_take, Forall_drop.
Qed.

End Bytes.
