(* ===== verification/Flow.v ===== *)
(** * Flows: the match structure of the controller

    [struct flow] (mul_app_interface.h) with its helpers: IPv6 addresses
    (packets.h), matching and wildcard conversions for OpenFlow 1.0,
    and the normalisation of OpenFlow 1.3 matches (mul_of_msg.c).  Multi-byte
    fields hold the value the host sees, which is the byte-swapped protocol
    value.  The IPv4 addresses share their storage with the IPv6 ones: [nw_src]
    and [nw_dst] are the first two words of [nw6_src]. *)
From stdpp Require Import base list.
From Stdlib Require Import ZArith Lia.
From S2P Require Import Prelude Bytes.
#[local] Open Scope Z_scope.

Module Flow.
Export Bytes.

(** ** Data *)

Record ipv6_addr := mk_ip6 { w0 : Z; w1 : Z; w2 : Z; w3 : Z }.

#[export] Instance ipv6_addr_eq_dec : EqDecision ipv6_addr.
Proof. solve_decision. Defined.

Record flow := mk_flow {
  in_port : Z; dl_vlan : Z; dl_type : Z;
  dl_dst : list Z; dl_src : list Z;
  dl_vlan_pcp : Z; table_id : Z; nw_tos : Z; nw_proto : Z;
  mpls_label : Z; tp_src : Z; tp_dst : Z;
  nw6_src : ipv6_addr; nw6_dst : ipv6_addr;
  tunnel_id : Z; metadata : Z; mpls_bos : Z; mpls_tc : Z; pad : list Z }.

#[export] Instance flow_eq_dec : EqDecision flow.
Proof. solve_decision. Defined.

(** The IPv4 view of the union. *)
Definition nw_src (f : flow) : Z := w0 (nw6_src f).
Definition nw_dst (f : flow) : Z := w1 (nw6_src f).

(** Assignments to the fields. *)
Definition set_in_port (x : Z) (f : flow) : flow :=
  mk_flow x (dl_vlan f) (dl_type f) (dl_dst f) (dl_src f) (dl_vlan_pcp f) (table_id f)
    (nw_tos f) (nw_proto f) (mpls_label f) (tp_src f) (tp_dst f) (nw6_src f) (nw6_dst f)
    (tunnel_id f) (metadata f) (mpls_bos f) (mpls_tc f) (pad f).
Definition set_dl_vlan (x : Z) (f : flow) : flow :=
  mk_flow (in_port f) x (dl_type f) (dl_dst f) (dl_src f) (dl_vlan_pcp f) (table_id f)
    (nw_tos f) (nw_proto f) (mpls_label f) (tp_src f) (tp_dst f) (nw6_src f) (nw6_dst f)
    (tunnel_id f) (metadata f) (mpls_bos f) (mpls_tc f) (pad f).
Definition set_dl_type (x : Z) (f : flow) : flow :=
  mk_flow (in_port f) (dl_vlan f) x (dl_dst f) (dl_src f) (dl_vlan_pcp f) (table_id f)
    (nw_tos f) (nw_proto f) (mpls_label f) (tp_src f) (tp_dst f) (nw6_src f) (nw6_dst f)
    (tunnel_id f) (metadata f) (mpls_bos f) (mpls_tc f) (pad f).
Definition set_dl_dst (x : list Z) (f : flow) : flow :=
  mk_flow (in_port f) (dl_vlan f) (dl_type f) x (dl_src f) (dl_vlan_pcp f) (table_id f)
    (nw_tos f) (nw_proto f) (mpls_label f) (tp_src f) (tp_dst f) (nw6_src f) (nw6_dst f)
    (tunnel_id f) (metadata f) (mpls_bos f) (mpls_tc f) (pad f).
Definition set_dl_src (x : list Z) (f : flow) : flow :=
  mk_flow (in_port f) (dl_vlan f) (dl_type f) (dl_dst f) x (dl_vlan_pcp f) (table_id f)
    (nw_tos f) (nw_proto f) (mpls_label f) (tp_src f) (tp_dst f) (nw6_src f) (nw6_dst f)
    (tunnel_id f) (metadata f) (mpls_bos f) (mpls_tc f) (pad f).
Definition set_dl_vlan_pcp (x : Z) (f : flow) : flow :=
  mk_flow (in_port f) (dl_vlan f) (dl_type f) (dl_dst f) (dl_src f) x (table_id f) (nw_tos
    f) (nw_proto f) (mpls_label f) (tp_src f) (tp_dst f) (nw6_src f) (nw6_dst f)
    (tunnel_id f) (metadata f) (mpls_bos f) (mpls_tc f) (pad f).
Definition set_table_id (x : Z) (f : flow) : flow :=
  mk_flow (in_port f) (dl_vlan f) (dl_type f) (dl_dst f) (dl_src f) (dl_vlan_pcp f) x
    (nw_tos f) (nw_proto f) (mpls_label f) (tp_src f) (tp_dst f) (nw6_src f) (nw6_dst f)
    (tunnel_id f) (metadata f) (mpls_bos f) (mpls_tc f) (pad f).
Definition set_nw_tos (x : Z) (f : flow) : flow :=
  mk_flow (in_port f) (dl_vlan f) (dl_type f) (dl_dst f) (dl_src f) (dl_vlan_pcp f)
    (table_id f) x (nw_proto f) (mpls_label f) (tp_src f) (tp_dst f) (nw6_src f) (nw6_dst
    f) (tunnel_id f) (metadata f) (mpls_bos f) (mpls_tc f) (pad f).
Definition set_nw_proto (x : Z) (f : flow) : flow :=
  mk_flow (in_port f) (dl_vlan f) (dl_type f) (dl_dst f) (dl_src f) (dl_vlan_pcp f)
    (table_id f) (nw_tos f) x (mpls_label f) (tp_src f) (tp_dst f) (nw6_src f) (nw6_dst f)
    (tunnel_id f) (metadata f) (mpls_bos f) (mpls_tc f) (pad f).
Definition set_mpls_label (x : Z) (f : flow) : flow :=
  mk_flow (in_port f) (dl_vlan f) (dl_type f) (dl_dst f) (dl_src f) (dl_vlan_pcp f)
    (table_id f) (nw_tos f) (nw_proto f) x (tp_src f) (tp_dst f) (nw6_src f) (nw6_dst f)
    (tunnel_id f) (metadata f) (mpls_bos f) (mpls_tc f) (pad f).
Definition set_tp_src (x : Z) (f : flow) : flow :=
  mk_flow (in_port f) (dl_vlan f) (dl_type f) (dl_dst f) (dl_src f) (dl_vlan_pcp f)
    (table_id f) (nw_tos f) (nw_proto f) (mpls_label f) x (tp_dst f) (nw6_src f) (nw6_dst
    f) (tunnel_id f) (metadata f) (mpls_bos f) (mpls_tc f) (pad f).
Definition set_tp_dst (x : Z) (f : flow) : flow :=
  mk_flow (in_port f) (dl_vlan f) (dl_type f) (dl_dst f) (dl_src f) (dl_vlan_pcp f)
    (table_id f) (nw_tos f) (nw_proto f) (mpls_label f) (tp_src f) x (nw6_src f) (nw6_dst
    f) (tunnel_id f) (metadata f) (mpls_bos f) (mpls_tc f) (pad f).
Definition set_nw6_src (x : ipv6_addr) (f : flow) : flow :=
  mk_flow (in_port f) (dl_vlan f) (dl_type f) (dl_dst f) (dl_src f) (dl_vlan_pcp f)
    (table_id f) (nw_tos f) (nw_proto f) (mpls_label f) (tp_src f) (tp_dst f) x (nw6_dst
    f) (tunnel_id f) (metadata f) (mpls_bos f) (mpls_tc f) (pad f).
Definition set_nw6_dst (x : ipv6_addr) (f : flow) : flow :=
  mk_flow (in_port f) (dl_vlan f) (dl_type f) (dl_dst f) (dl_src f) (dl_vlan_pcp f)
    (table_id f) (nw_tos f) (nw_proto f) (mpls_label f) (tp_src f) (tp_dst f) (nw6_src f)
    x (tunnel_id f) (metadata f) (mpls_bos f) (mpls_tc f) (pad f).
Definition set_tunnel_id (x : Z) (f : flow) : flow :=
  mk_flow (in_port f) (dl_vlan f) (dl_type f) (dl_dst f) (dl_src f) (dl_vlan_pcp f)
    (table_id f) (nw_tos f) (nw_proto f) (mpls_label f) (tp_src f) (tp_dst f) (nw6_src f)
    (nw6_dst f) x (metadata f) (mpls_bos f) (mpls_tc f) (pad f).
Definition set_metadata (x : Z) (f : flow) : flow :=
  mk_flow (in_port f) (dl_vlan f) (dl_type f) (dl_dst f) (dl_src f) (dl_vlan_pcp f)
    (table_id f) (nw_tos f) (nw_proto f) (mpls_label f) (tp_src f) (tp_dst f) (nw6_src f)
    (nw6_dst f) (tunnel_id f) x (mpls_bos f) (mpls_tc f) (pad f).
Definition set_mpls_bos (x : Z) (f : flow) : flow :=
  mk_flow (in_port f) (dl_vlan f) (dl_type f) (dl_dst f) (dl_src f) (dl_vlan_pcp f)
    (table_id f) (nw_tos f) (nw_proto f) (mpls_label f) (tp_src f) (tp_dst f) (nw6_src f)
    (nw6_dst f) (tunnel_id f) (metadata f) x (mpls_tc f) (pad f).
Definition set_mpls_tc (x : Z) (f : flow) : flow :=
  mk_flow (in_port f) (dl_vlan f) (dl_type f) (dl_dst f) (dl_src f) (dl_vlan_pcp f)
    (table_id f) (nw_tos f) (nw_proto f) (mpls_label f) (tp_src f) (tp_dst f) (nw6_src f)
    (nw6_dst f) (tunnel_id f) (metadata f) (mpls_bos f) x (pad f).
Definition set_pad (x : list Z) (f : flow) : flow :=
  mk_flow (in_port f) (dl_vlan f) (dl_type f) (dl_dst f) (dl_src f) (dl_vlan_pcp f)
    (table_id f) (nw_tos f) (nw_proto f) (mpls_label f) (tp_src f) (tp_dst f) (nw6_src f)
    (nw6_dst f) (tunnel_id f) (metadata f) (mpls_bos f) (mpls_tc f) x.
Definition set_nw_src (x : Z) (f : flow) : flow :=
  set_nw6_src (mk_ip6 x (w1 (nw6_src f)) (w2 (nw6_src f)) (w3 (nw6_src f))) f.
Definition set_nw_dst (x : Z) (f : flow) : flow :=
  set_nw6_src (mk_ip6 (w0 (nw6_src f)) x (w2 (nw6_src f)) (w3 (nw6_src f))) f.

Definition zero_mac_addr : list Z := replicate 6 0.
Definition ones_mac_addr : list Z := replicate 6 255.
Definition ip6_zero : ipv6_addr := mk_ip6 0 0 0 0.
Definition ip6_ones : ipv6_addr := mk_ip6 UINT32_MAX UINT32_MAX UINT32_MAX UINT32_MAX.

(** [memset(f, 0, sizeof( *f))] and [memset(f, 0xff, sizeof( *f))]. *)
Definition zero_flow : flow :=
  mk_flow 0 0 0 zero_mac_addr zero_mac_addr 0 0 0 0 0 0 0 ip6_zero ip6_zero 0 0 0 0 (replicate 6 0).
Definition ones_flow : flow :=
  mk_flow UINT32_MAX UINT16_MAX UINT16_MAX ones_mac_addr ones_mac_addr 255 255 255 255
    UINT32_MAX UINT16_MAX UINT16_MAX ip6_ones ip6_ones UINT64_MAX UINT64_MAX 255 255 (replicate 6 255).

(** C truth of an integer, and [memcmp(a, b, n) == 0] on whole arrays. *)
Definition nz (x : Z) : bool := negb (x =? 0).
Definition mac_eq (a b : list Z) : bool := bool_decide (a = b).

Definition ETH_TYPE_IP : Z := 0x0800.
Definition ETH_TYPE_IPV6 : Z := 0x86dd.
Definition ETH_TYPE_ARP : Z := 0x0806.
Definition ETH_TYPE_VLAN : Z := 0x8100.
Definition ETH_TYPE_SVLAN : Z := 0x88a8.
Definition ETH_TYPE_LLDP : Z := 0x88cc.
Definition ETH_TYPE_MPLS : Z := 0x8847.
Definition ETH_TYPE_MPLS_MCAST : Z := 0x8848.
Definition IP_TYPE_TCP : Z := 6.
Definition IP_TYPE_UDP : Z := 17.
Definition IP_TYPE_SCTP : Z := 132.

(** ** IPv6 addresses (packets.h) *)

Definition ipv6_addr_equal (a1 a2 : ipv6_addr) : bool :=
  Z.lor (Z.lor (Z.lor (Z.lxor (w0 a1) (w0 a2)) (Z.lxor (w1 a1) (w1 a2)))
               (Z.lxor (w2 a1) (w2 a2))) (Z.lxor (w3 a1) (w3 a2)) =? 0.

Definition ipv6_addr_nonzero (a1 : ipv6_addr) : bool :=
  nz (Z.lor (Z.lor (Z.lor (w0 a1) (w1 a1)) (w2 a1)) (w3 a1)).

Definition ipv6_addr_mask_equal (a1 m1 a2 : ipv6_addr) : bool :=
  ipv6_addr_equal
    (mk_ip6 (Z.land (w0 a1) (w0 m1)) (Z.land (w1 a1) (w1 m1))
            (Z.land (w2 a1) (w2 m1)) (Z.land (w3 a1) (w3 m1))) a2.

(** ** Matching (mul_of_msg.c) *)

Definition __of_match_flows_l4 (f1 m1 f2 : flow) : bool :=
  (negb (nz (nw_proto m1)) || (nw_proto f1 =? nw_proto f2)) &&
  (negb (nz (nw_tos m1)) || (nw_tos f1 =? nw_tos f2)) &&
  (negb (nz (tp_dst m1)) || (tp_dst f1 =? tp_dst f2)) &&
  (negb (nz (tp_src m1)) || (tp_src f1 =? tp_src f2)).

(** The IPv6 branch compares [fl1] with itself, as the code does. *)
Definition __of_match_flows_ip (fl1 mask fl2 : flow) : bool :=
  if negb (nz (dl_type mask)) then true
  else if negb (dl_type fl1 =? dl_type fl2) then false
  else if dl_type fl1 =? htons ETH_TYPE_IPV6 then
    ipv6_addr_mask_equal (nw6_src fl1) (nw6_src mask) (nw6_src fl1) &&
    ipv6_addr_mask_equal (nw6_dst fl1) (nw6_dst mask) (nw6_dst fl1)
  else if (dl_type fl1 =? htons ETH_TYPE_IP) || (dl_type fl1 =? htons ETH_TYPE_ARP) then
    (Z.land (nw_dst fl1) (nw_dst mask) =? nw_dst fl2) &&
    (Z.land (nw_src fl1) (nw_src mask) =? nw_src fl2)
  else true.

Definition __of_match_flows_mpls (f1 m1 f2 : flow) : bool :=
  (negb (nz (mpls_label m1)) || (mpls_label f1 =? mpls_label f2)) &&
  (negb (nz (mpls_tc m1)) || (mpls_tc f1 =? mpls_tc f2)) &&
  (negb (nz (mpls_bos m1)) || (mpls_bos f1 =? mpls_bos f2)).

Definition __of_match_flows_vlan (f1 m1 f2 : flow) : bool :=
  if nz (dl_vlan m1) && (dl_vlan f1 =? htons 0xfff) && nz (dl_vlan f2) then true
  else (negb (nz (dl_vlan m1)) || (dl_vlan f1 =? dl_vlan f2)) &&
       (negb (nz (dl_vlan_pcp m1)) || (dl_vlan_pcp f1 =? dl_vlan_pcp f2)).

Definition __of_match_flows_l2 (f1 m1 f2 : flow) : bool :=
  (mac_eq (dl_dst m1) zero_mac_addr || mac_eq (dl_dst f1) (dl_dst f2)) &&
  (mac_eq (dl_src m1) zero_mac_addr || mac_eq (dl_src f1) (dl_src f2)) &&
  (negb (nz (dl_type m1)) || (dl_type f1 =? dl_type f2)).

Definition __of_match_flows_mdata (f1 m1 f2 : flow) : bool :=
  (negb (nz (in_port m1)) || (in_port f1 =? in_port f2)) &&
  (negb (nz (metadata m1)) || (metadata f1 =? metadata f2)) &&
  (negb (nz (tunnel_id m1)) || (tunnel_id f1 =? tunnel_id f2)).

Definition __of_match_flows (f1 m1 f2 : flow) : bool :=
  __of_match_flows_l2 f1 m1 f2 && __of_match_flows_mpls f1 m1 f2 &&
  __of_match_flows_vlan f1 m1 f2 && __of_match_flows_ip f1 m1 f2 &&
  __of_match_flows_l4 f1 m1 f2 && __of_match_flows_mdata f1 m1 f2.

(** [memcmp] of the structures without their padding. *)
Definition flow_eq_nopad (a b : flow) : bool :=
  bool_decide (set_pad [] a = set_pad [] b).

Definition of_match_flows_prio (f1 m1 f2 m2 : flow) (p1 p2 : Z) : bool :=
  (p1 =? p2) && flow_eq_nopad m1 m2 && __of_match_flows f1 m1 f2.

Definition of_check_flow_wildcard_generic (mask : flow) : bool :=
  negb (negb (mac_eq (dl_src mask) zero_mac_addr) || negb (mac_eq (dl_dst mask) zero_mac_addr) ||
        nz (dl_type mask) || nz (dl_vlan mask) || nz (dl_vlan_pcp mask) ||
        nz (mpls_label mask) || nz (mpls_tc mask) || nz (mpls_bos mask) ||
        nz (dl_type mask) || nz (in_port mask) || nz (tunnel_id mask) ||
        nz (metadata mask)).

(** ** OpenFlow 1.0 wildcards *)

Definition OFPFW_IN_PORT : Z := 1.
Definition OFPFW_DL_VLAN : Z := 2.
Definition OFPFW_DL_SRC : Z := 4.
Definition OFPFW_DL_DST : Z := 8.
Definition OFPFW_DL_TYPE : Z := 16.
Definition OFPFW_NW_PROTO : Z := 32.
Definition OFPFW_TP_SRC : Z := 64.
Definition OFPFW_TP_DST : Z := 128.
Definition OFPFW_NW_SRC_SHIFT : Z := 8.
Definition OFPFW_NW_SRC_MASK : Z := 63 * 256.
Definition OFPFW_NW_SRC_ALL : Z := 32 * 256.
Definition OFPFW_NW_DST_SHIFT : Z := 14.
Definition OFPFW_NW_DST_MASK : Z := 63 * 16384.
Definition OFPFW_NW_DST_ALL : Z := 32 * 16384.
Definition OFPFW_DL_VLAN_PCP : Z := 1048576.
Definition OFPFW_NW_TOS : Z := 2097152.

(** The loop [while (num > 0) { num &= num-1; n++; }]; [None] when the fuel
    does not suffice. *)
Fixpoint count_bits_loop (fuel : nat) (num n : Z) : option Z :=
  match fuel with
  | O => None
  | S fuel => if 0 <? num then count_bits_loop fuel (Z.land num (num - 1)) (n + 1) else Some n
  end.

Definition c_count_one_bits (num : Z) : option Z := count_bits_loop 33 num 0.

(** [1 << (32 - len)] and the subtraction are [int] operations. *)
Definition make_inet_mask (len : Z) : option Z :=
  if nz len then
    if (32 - len <? 0) || (32 <=? 32 - len) then None
    else s ← sint (Z.shiftl 1 (32 - len));
         d ← sint (s - 1);
         Some (u32 (Z.lnot d))
  else Some 0.

(** [wildcards |= x] when [c]. *)
Definition or_if (c : bool) (x w : Z) : Z := if c then Z.lor w x else w.

(** The six prefix-length bits of one IPv4 mask. *)
Definition pref_wc (pref_len shift all w : Z) : Z :=
  if nz pref_len then Z.lor w (Z.shiftl (Z.land (32 - pref_len) 63) shift) else Z.lor w all.

Definition of10_mask_to_wc (mask : flow) : option Z :=
  pl_dst ← c_count_one_bits (nw_dst mask);
  pl_src ← c_count_one_bits (nw_src mask);
  let w := pref_wc pl_dst OFPFW_NW_DST_SHIFT OFPFW_NW_DST_ALL 0 in
  let w := pref_wc pl_src OFPFW_NW_SRC_SHIFT OFPFW_NW_SRC_ALL w in
  let w := or_if (negb (nz (in_port mask))) OFPFW_IN_PORT w in
  let w := or_if (negb (nz (dl_vlan mask))) OFPFW_DL_VLAN w in
  let w := or_if (negb (nz (dl_vlan_pcp mask))) OFPFW_DL_VLAN_PCP w in
  let w := or_if (negb (nz (dl_type mask))) OFPFW_DL_TYPE w in
  let w := or_if (negb (nz (tp_src mask))) OFPFW_TP_SRC w in
  let w := or_if (negb (nz (tp_dst mask))) OFPFW_TP_DST w in
  let w := or_if (negb (nz (nw_tos mask))) OFPFW_NW_TOS w in
  let w := or_if (negb (nz (nw_proto mask))) OFPFW_NW_PROTO w in
  let w := or_if (mac_eq (dl_dst mask) zero_mac_addr) OFPFW_DL_DST w in
  let w := or_if (mac_eq (dl_src mask) zero_mac_addr) OFPFW_DL_SRC w in
  Some (htonl w).

Definition wc_pref (w shift all : Z) : Z :=
  if nz (Z.land w all) then 0 else 32 - Z.land (Z.shiftr w shift) 63.

Definition wc_has (w x : Z) : bool := nz (Z.land w x).

Definition of10_wc_to_mask (wildcards : Z) : option flow :=
  let w := ntohl wildcards in
  let mask := set_nw6_src ip6_zero (set_nw6_dst ip6_zero ones_flow) in
  md ← make_inet_mask (wc_pref w OFPFW_NW_DST_SHIFT OFPFW_NW_DST_ALL);
  let mask := set_nw_dst (htonl md) mask in
  ms ← make_inet_mask (wc_pref w OFPFW_NW_SRC_SHIFT OFPFW_NW_SRC_ALL);
  let mask := set_nw_src (htonl ms) mask in
  let mask := if wc_has w OFPFW_IN_PORT then set_in_port 0 mask else mask in
  let mask := if wc_has w OFPFW_DL_VLAN then set_dl_vlan 0 mask else mask in
  let mask := if wc_has w OFPFW_DL_VLAN_PCP then set_dl_vlan_pcp 0 mask else mask in
  let mask := if wc_has w OFPFW_DL_TYPE then set_dl_type 0 mask else mask in
  let mask := if wc_has w OFPFW_TP_SRC then set_tp_src 0 mask else mask in
  let mask := if wc_has w OFPFW_TP_DST then set_tp_dst 0 mask else mask in
  let mask := if wc_has w OFPFW_NW_TOS then set_nw_tos 0 mask else mask in
  let mask := if wc_has w OFPFW_NW_PROTO then set_nw_proto 0 mask else mask in
  let mask := if wc_has w OFPFW_DL_DST then set_dl_dst zero_mac_addr mask else mask in
  let mask := if wc_has w OFPFW_DL_SRC then set_dl_src zero_mac_addr mask else mask in
  Some (set_table_id 255 (set_mpls_bos 0 (set_mpls_tc 0 (set_mpls_label 0
         (set_metadata 0 (set_tunnel_id 0 mask)))))).

(** Clearing of the network and transport fields of a flow. *)
Definition clear_nw (fl : flow) : flow :=
  set_nw_proto 0 (set_nw_tos 0 (set_nw_dst 0 (set_nw_src 0 (set_tp_dst 0 (set_tp_src 0 fl))))).

Definition NW_TP_ALL : Z :=
  Z.lor (Z.lor (Z.lor (Z.lor (Z.lor OFPFW_NW_DST_ALL OFPFW_NW_SRC_ALL) OFPFW_NW_PROTO)
    OFPFW_NW_TOS) OFPFW_TP_DST) OFPFW_TP_SRC.

(** [if (((w & MASK) >> SHIFT) >= 32) { w &= ~MASK; w |= ALL; }] *)
Definition fix_nw_bits (w m shift all : Z) : Z :=
  if 32 <=? Z.shiftr (Z.land w m) shift then Z.lor (Z.land w (u32 (Z.lnot m))) all else w.

(** Result: the return value with the flow and the mask left behind. *)
Definition of10_flow_correction (fl mask : flow) : option (Z * flow * flow) :=
  wc ← of10_mask_to_wc mask;
  let w := ntohl wc in
  if negb (wc_has w OFPFW_IN_PORT) && negb (nz (in_port fl)) then Some (-1, fl, mask)
  else
    let w := fix_nw_bits w OFPFW_NW_DST_MASK OFPFW_NW_DST_SHIFT OFPFW_NW_DST_ALL in
    let w := fix_nw_bits w OFPFW_NW_SRC_MASK OFPFW_NW_SRC_SHIFT OFPFW_NW_SRC_ALL in
    let '(fl, w) :=
      if negb (wc_has w OFPFW_DL_TYPE) then
        let eth_proto := ntohs (dl_type fl) in
        if eth_proto =? ETH_TYPE_ARP then
          (set_tp_dst 0 (set_tp_src 0 (set_nw_tos 0 (set_nw_proto 0 fl))),
           Z.lor w (Z.lor (Z.lor (Z.lor OFPFW_NW_PROTO OFPFW_NW_TOS) OFPFW_TP_DST) OFPFW_TP_SRC))
        else if eth_proto =? ETH_TYPE_IP then
          if wc_has w OFPFW_NW_PROTO then
            (set_tp_dst 0 (set_tp_src 0 fl), Z.lor w (Z.lor OFPFW_TP_DST OFPFW_TP_SRC))
          else (fl, w)
        else (clear_nw fl, Z.lor w NW_TP_ALL)
      else (clear_nw fl, Z.lor w NW_TP_ALL) in
    mask ← of10_wc_to_mask (htonl w);
    Some (0, fl, mask).

(** ** OpenFlow 1.3 normalisation *)

(** [memset(&f->ipv6, 0, sizeof(&f->ipv6))] clears as many bytes as a pointer
    has: the first two words of the union. *)
Definition clear_ipv6_ptr_size (f : flow) : flow := set_nw_dst 0 (set_nw_src 0 f).

Definition is_type (fl : flow) (t : Z) : bool := dl_type fl =? htons t.

Definition norm_vlan (s : Z * flow * flow) : Z * flow * flow :=
  let '(ret, fl, mask) := s in
  if negb (nz (dl_vlan mask)) && nz (dl_vlan_pcp mask)
  then (1, set_dl_vlan_pcp 0 fl, set_dl_vlan_pcp 0 mask) else s.

(** The code tests for [ETH_TYPE_MPLS] twice. *)
Definition norm_mpls (s : Z * flow * flow) : Z * flow * flow :=
  let '(ret, fl, mask) := s in
  if negb (nz (dl_type mask)) || (negb (is_type fl ETH_TYPE_MPLS) && negb (is_type fl ETH_TYPE_MPLS))
  then if nz (mpls_tc mask) || nz (mpls_bos mask) || nz (mpls_label mask)
       then (1, set_mpls_label 0 (set_mpls_bos 0 (set_mpls_tc 0 fl)),
                set_mpls_label 0 (set_mpls_bos 0 (set_mpls_tc 0 mask)))
       else s
  else s.

Definition norm_ip (s : Z * flow * flow) : Z * flow * flow :=
  let '(ret, fl, mask) := s in
  if negb (nz (dl_type mask)) ||
     (negb (is_type fl ETH_TYPE_IP) && negb (is_type fl ETH_TYPE_IPV6) &&
      negb (is_type fl ETH_TYPE_ARP))
  then if ipv6_addr_nonzero (nw6_src mask) || ipv6_addr_nonzero (nw6_dst mask) ||
          nz (nw_proto mask) || nz (tp_dst mask) || nz (tp_src mask)
       then (1, set_tp_src 0 (set_tp_dst 0 (set_nw_proto 0 (clear_ipv6_ptr_size fl))),
                set_tp_src 0 (set_tp_dst 0 (set_nw_proto 0 (clear_ipv6_ptr_size mask))))
       else s
  else s.

Definition norm_arp (s : Z * flow * flow) : Z * flow * flow :=
  let '(ret, fl, mask) := s in
  if nz (dl_type mask) && is_type fl ETH_TYPE_ARP
  then if nz (nw_proto mask) || nz (nw_tos mask) || nz (tp_src mask) || nz (tp_dst mask)
       then (1, set_tp_dst 0 (set_tp_src 0 (set_nw_tos 0 (set_nw_proto 0 fl))),
                set_tp_dst 0 (set_tp_src 0 (set_nw_tos 0 (set_nw_proto 0 mask))))
       else s
  else s.

Definition norm_l4 (s : Z * flow * flow) : Z * flow * flow :=
  let '(ret, fl, mask) := s in
  if nz (dl_type mask) && (is_type fl ETH_TYPE_IP || is_type fl ETH_TYPE_IPV6)
  then if negb (nz (nw_proto mask)) ||
          (negb (nw_proto fl =? IP_TYPE_TCP) && negb (nw_proto fl =? IP_TYPE_SCTP) &&
           negb (nw_proto fl =? IP_TYPE_UDP))
       then if nz (tp_dst mask) || nz (tp_src mask)
            then (1, set_tp_src 0 (set_tp_dst 0 fl), set_tp_src 0 (set_tp_dst 0 mask))
            else s
       else s
  else s.

Definition of131_flow_normalize (fl mask : flow) : Z * flow * flow :=
  let mask := set_table_id 255 mask in
  if nz (in_port mask) && negb (nz (in_port fl)) then (-1, fl, mask)
  else norm_l4 (norm_arp (norm_ip (norm_mpls (norm_vlan (0, fl, mask))))).

End Flow.
