(* ===== verification/FlowSpec.v ===== *)
(** * Properties of flow matching, wildcards and normalisation *)
From stdpp Require Import base list.
From Stdlib Require Import ZArith Lia.
From S2P Require Import Prelude Bytes Flow.
Import Flow.
#[local] Open Scope Z_scope.

(** ** Number of one bits *)

Fixpoint pos_pop (p : positive) : Z :=
  match p with
  | xH => 1
  | xO p => pos_pop p
  | xI p => pos_pop p + 1
  end.

(** The number of ones in the binary notation of a natural number. *)
Definition popcount (x : Z) : Z :=
  match x with Zpos p => pos_pop p | _ => 0 end.

Lemma land_double_odd a b : Z.land (2 * a) (2 * b + 1) = 2 * Z.land a b.
Proof.
  apply Z.bits_inj'. intros n Hn. rewrite Z.land_spec.
  destruct (Z.eq_dec n 0) as [->|Hne].
  - by rewrite !Z.testbit_even_0.
  - replace n with (Z.succ (n - 1)) by lia.
    rewrite !Z.testbit_even_succ, Z.testbit_odd_succ by lia. by rewrite Z.land_spec.
Qed.

Lemma popcount_double x : 0 <= x -> popcount (2 * x) = popcount x.
Proof. by destruct x. Qed.

(** [num &= num-1] removes exactly one bit. *)
Lemma clear_lowest p :
  0 <= Z.land (Zpos p) (Zpos p - 1) /\
  popcount (Z.land (Zpos p) (Zpos p - 1)) = pos_pop p - 1.
Proof.
  induction p as [p IH|p IH|].
  - replace (Zpos p~1 - 1) with (2 * Zpos p) by lia.
    replace (Zpos p~1) with (2 * Zpos p + 1) by lia.
    rewrite Z.land_comm, land_double_odd, Z.land_diag, popcount_double by lia. cbn [popcount pos_pop]. lia.
  - replace (Zpos p~0 - 1) with (2 * (Zpos p - 1) + 1) by lia.
    replace (Zpos p~0) with (2 * Zpos p) by lia.
    rewrite land_double_odd, popcount_double by lia. cbn [pos_pop]. lia.
  - split; [done|reflexivity].
Qed.

Lemma count_bits_loop_spec fuel num n :
  0 <= num -> popcount num < Z.of_nat fuel ->
  count_bits_loop fuel num n = Some (n + popcount num).
Proof.
  revert num n. induction fuel as [|fuel IH]; intros num n Hn Hf; cbn.
  - assert (0 <= popcount num); [|lia]. clear. destruct num as [|p|]; cbn; [lia| |lia].
    induction p; cbn; lia.
  - destruct num as [|p|]; [by rewrite Z.add_0_r| |lia].
    cbn [Z.ltb Z.compare]. change (0 ?= Zpos p) with Lt. cbv iota.
    pose proof (clear_lowest p) as [H1 H2]. cbn [popcount] in Hf.
    rewrite IH by lia. rewrite H2. f_equal. cbn. lia.
Qed.

Lemma popcount_bound k x : 0 <= x < 2 ^ Z.of_nat k -> popcount x <= Z.of_nat k.
Proof.
  revert x. induction k as [|k IH]; intros x Hx; [cbn in Hx; assert (x = 0) as -> by lia; done|].
  rewrite Nat2Z.inj_succ, Z.pow_succ_r in Hx by lia.
  destruct x as [|[p|p|]|]; cbn [popcount pos_pop]; [lia| | |lia|lia].
  - specialize (IH (Zpos p)). cbn [popcount] in IH. lia.
  - specialize (IH (Zpos p)). cbn [popcount] in IH. lia.
Qed.

Lemma count_one_bits_ok num : 0 <= num < 2 ^ 32 -> c_count_one_bits num = Some (popcount num).
Proof.
  intros H. unfold c_count_one_bits. rewrite count_bits_loop_spec; [done|lia|].
  pose proof (popcount_bound 32 num). lia.
Qed.

(** ** OpenFlow 1.0 wildcards *)

(** The netmask of a prefix length. *)
Definition inet_mask (p : Z) : Z := if p =? 0 then 0 else 2 ^ 32 - 2 ^ (32 - p).

Lemma make_inet_mask_ok p : 0 <= p <= 32 -> p <> 1 -> make_inet_mask p = Some (inet_mask p).
Proof.
  intros Hp H1.
  pose proof (range_enum (fun p => match make_inet_mask p with
    | Some x => x =? inet_mask p | None => p =? 1 end) 33 p ltac:(vm_compute; reflexivity) ltac:(lia)) as H.
  cbn beta in H. destruct (make_inet_mask p); breflect; by subst.
Qed.

Lemma inet_mask_popcount p : 0 <= p <= 32 -> popcount (htonl (inet_mask p)) = p.
Proof.
  intros Hp. apply Z.eqb_eq.
  apply (range_enum (fun p => popcount (htonl (inet_mask p)) =? p) 33); [vm_compute; reflexivity|lia].
Qed.

Lemma or_if_lor c x w : or_if c x w = Z.lor w (if c then x else 0).
Proof. destruct c; cbn; [done|by rewrite Z.lor_0_r]. Qed.

Lemma pref_wc_lor p shift w :
  0 <= p <= 32 -> pref_wc p shift (Z.shiftl 32 shift) w = Z.lor w (Z.shiftl (32 - p) shift).
Proof.
  intros Hp. unfold pref_wc, nz. destruct (Z.eqb_spec p 0) as [->|]; cbn; [done|].
  do 2 f_equal. apply Z.eqb_eq.
  pose proof (range_enum (fun q => Z.land q 63 =? q) 33 (32 - p) ltac:(vm_compute; reflexivity) ltac:(lia)). done.
Qed.

Lemma land_if (c : bool) x y : Z.land (if c then x else 0) y = if c then Z.land x y else 0.
Proof. by destruct c. Qed.
Lemma shiftr_if (c : bool) x n : Z.shiftr (if c then x else 0) n = if c then Z.shiftr x n else 0.
Proof. destruct c; [done|apply Z.shiftr_0_l]. Qed.
Lemma if_0 (c : bool) : (if c then 0 else 0) = 0.
Proof. by destruct c. Qed.

Lemma lor_range n a b : 0 <= n -> 0 <= a < 2 ^ n -> 0 <= b < 2 ^ n -> 0 <= Z.lor a b < 2 ^ n.
Proof.
  intros Hn Ha Hb. assert (0 <= Z.lor a b) by (apply Z.lor_nonneg; lia). split; [done|].
  destruct (Z.eq_dec (Z.lor a b) 0) as [->|]; [lia|].
  apply Z.log2_lt_pow2; [lia|]. rewrite Z.log2_lor by lia.
  destruct (Z.eq_dec a 0) as [->|], (Z.eq_dec b 0) as [->|]; cbn [Z.log2];
    [by cbn in *| | |]; apply Z.max_lub_lt;
    try (apply Z.log2_lt_pow2; lia); change (Z.log2 0) with 0;
    (destruct (Z.eq_dec n 0) as [->|]; lia).
Qed.

(** The wildcard word as one disjunction: [q] are the prefix fields, [c] the
    flags in the order of the code. *)
Definition wc_word (qd qs : Z) (c1 c2 c3 c4 c5 c6 c7 c8 c9 c10 : bool) : Z :=
  Z.lor (Z.lor (Z.lor (Z.lor (Z.lor (Z.lor (Z.lor (Z.lor (Z.lor (Z.lor (Z.lor
    (Z.shiftl qd 14) (Z.shiftl qs 8))
    (if c1 then 1 else 0)) (if c2 then 2 else 0)) (if c3 then 1048576 else 0))
    (if c4 then 16 else 0)) (if c5 then 64 else 0)) (if c6 then 128 else 0))
    (if c7 then 2097152 else 0)) (if c8 then 32 else 0)) (if c9 then 8 else 0))
    (if c10 then 4 else 0).

Definition mask_word (m : flow) : Z :=
  wc_word (32 - popcount (nw_dst m)) (32 - popcount (nw_src m))
    (negb (nz (in_port m))) (negb (nz (dl_vlan m))) (negb (nz (dl_vlan_pcp m)))
    (negb (nz (dl_type m))) (negb (nz (tp_src m))) (negb (nz (tp_dst m)))
    (negb (nz (nw_tos m))) (negb (nz (nw_proto m)))
    (mac_eq (dl_dst m) zero_mac_addr) (mac_eq (dl_src m) zero_mac_addr).

Lemma popcount_nonneg x : 0 <= popcount x.
Proof. destruct x as [|p|]; cbn; [lia| |lia]. induction p; cbn; lia. Qed.

Lemma popcount_u32 x : 0 <= x < 2 ^ 32 -> 0 <= popcount x <= 32.
Proof. pose proof (popcount_nonneg x). pose proof (popcount_bound 32 x). lia. Qed.

Lemma mask_to_wc_word m :
  0 <= nw_src m < 2 ^ 32 -> 0 <= nw_dst m < 2 ^ 32 ->
  of10_mask_to_wc m = Some (htonl (mask_word m)).
Proof.
  intros Hs Hd. unfold of10_mask_to_wc. rewrite !count_one_bits_ok by done. cbn [mbind option_bind].
  change OFPFW_NW_DST_ALL with (Z.shiftl 32 14). change OFPFW_NW_SRC_ALL with (Z.shiftl 32 8).
  unfold OFPFW_NW_DST_SHIFT, OFPFW_NW_SRC_SHIFT.
  rewrite !pref_wc_lor by (apply popcount_u32; done). rewrite Z.lor_0_l, !or_if_lor.
  unfold mask_word, wc_word, OFPFW_IN_PORT, OFPFW_DL_VLAN, OFPFW_DL_VLAN_PCP, OFPFW_DL_TYPE,
    OFPFW_TP_SRC, OFPFW_TP_DST, OFPFW_NW_TOS, OFPFW_NW_PROTO, OFPFW_DL_DST, OFPFW_DL_SRC.
  reflexivity.
Qed.

Lemma wc_word_range qd qs c1 c2 c3 c4 c5 c6 c7 c8 c9 c10 :
  0 <= qd <= 63 -> 0 <= qs <= 63 ->
  0 <= wc_word qd qs c1 c2 c3 c4 c5 c6 c7 c8 c9 c10 < 2 ^ 32.
Proof.
  intros Hd Hs. unfold wc_word.
  repeat (apply lor_range; [lia| |destruct_decide (decide True); repeat case_match; lia]).
  apply lor_range; [lia| |]; rewrite Z.shiftl_mul_pow2 by lia; lia.
Qed.

(** Evaluate the conjunctions and shifts of literals. *)
Ltac eval_bits :=
  repeat match goal with
  | |- context [Z.land (Zpos ?a) (Zpos ?b)] =>
      let r := eval vm_compute in (Z.land (Zpos a) (Zpos b)) in
      change (Z.land (Zpos a) (Zpos b)) with r
  | |- context [Z.shiftr (Zpos ?a) (Zpos ?b)] =>
      let r := eval vm_compute in (Z.shiftr (Zpos a) (Zpos b)) in
      change (Z.shiftr (Zpos a) (Zpos b)) with r
  | |- context [Z.land 0 ?a] => rewrite (Z.land_0_l a)
  end; rewrite ?if_0, ?Z.lor_0_r, ?Z.lor_0_l.

(** A prefix field does not touch the bits of a flag. *)
Lemma field_land q s x :
  0 <= q <= 63 -> (s = 8 \/ s = 14) ->
  x ∈ [1; 2; 4; 8; 16; 32; 64; 128; 1048576; 2097152] -> Z.land (Z.shiftl q s) x = 0.
Proof.
  intros Hq Hs Hx. apply Z.eqb_eq.
  assert (forallb (fun x => Z.land (Z.shiftl q s) x =? 0)
    [1; 2; 4; 8; 16; 32; 64; 128; 1048576; 2097152] = true) as H.
  { destruct Hs as [-> | ->].
    - apply (range_enum (fun q => forallb (fun x => Z.land (Z.shiftl q 8) x =? 0)
        [1; 2; 4; 8; 16; 32; 64; 128; 1048576; 2097152]) 64); [vm_compute; reflexivity|lia].
    - apply (range_enum (fun q => forallb (fun x => Z.land (Z.shiftl q 14) x =? 0)
        [1; 2; 4; 8; 16; 32; 64; 128; 1048576; 2097152]) 64); [vm_compute; reflexivity|lia]. }
  rewrite forallb_forall in H. apply H. by apply list_elem_of_In.
Qed.

Lemma wc_word_flags qd qs c1 c2 c3 c4 c5 c6 c7 c8 c9 c10 :
  0 <= qd <= 63 -> 0 <= qs <= 63 ->
  let w := wc_word qd qs c1 c2 c3 c4 c5 c6 c7 c8 c9 c10 in
  wc_has w OFPFW_IN_PORT = c1 /\ wc_has w OFPFW_DL_VLAN = c2 /\
  wc_has w OFPFW_DL_VLAN_PCP = c3 /\ wc_has w OFPFW_DL_TYPE = c4 /\
  wc_has w OFPFW_TP_SRC = c5 /\ wc_has w OFPFW_TP_DST = c6 /\
  wc_has w OFPFW_NW_TOS = c7 /\ wc_has w OFPFW_NW_PROTO = c8 /\
  wc_has w OFPFW_DL_DST = c9 /\ wc_has w OFPFW_DL_SRC = c10.
Proof.
  intros Hd Hs w. subst w. unfold wc_has, wc_word, OFPFW_IN_PORT, OFPFW_DL_VLAN, OFPFW_DL_VLAN_PCP,
    OFPFW_DL_TYPE, OFPFW_TP_SRC, OFPFW_TP_DST, OFPFW_NW_TOS, OFPFW_NW_PROTO, OFPFW_DL_DST, OFPFW_DL_SRC.
  split_and!; rewrite !Z.land_lor_distr_l, !land_if, !field_land by (auto || (apply list_elem_of_In; cbn; tauto));
    eval_bits; unfold nz; by case_match.
Qed.

(** The prefix length that a six-bit field stands for. *)
Definition pref_of (q : Z) : Z := if 32 <=? q then 0 else 32 - q.

Lemma wc_word_pref qd qs c1 c2 c3 c4 c5 c6 c7 c8 c9 c10 :
  0 <= qd <= 63 -> 0 <= qs <= 63 ->
  let w := wc_word qd qs c1 c2 c3 c4 c5 c6 c7 c8 c9 c10 in
  wc_pref w OFPFW_NW_DST_SHIFT OFPFW_NW_DST_ALL = pref_of qd /\
  wc_pref w OFPFW_NW_SRC_SHIFT OFPFW_NW_SRC_ALL = pref_of qs.
Proof.
  intros Hd Hs w. subst w. unfold wc_pref, pref_of, wc_word, OFPFW_NW_DST_SHIFT, OFPFW_NW_SRC_SHIFT.
  change OFPFW_NW_DST_ALL with 524288. change OFPFW_NW_SRC_ALL with 8192.
  assert (forall q, 0 <= q <= 63 ->
    Z.land (Z.shiftl q 14) 8192 = 0 /\ Z.land (Z.shiftl q 8) 524288 = 0 /\
    Z.shiftr (Z.shiftl q 8) 14 = 0 /\ Z.land (Z.shiftr (Z.shiftl q 14) 8) 63 = 0 /\
    (nz (Z.land (Z.shiftl q 14) 524288) = (32 <=? q)) /\
    (nz (Z.land (Z.shiftl q 8) 8192) = (32 <=? q)) /\
    Z.land (Z.shiftr (Z.shiftl q 14) 14) 63 = q /\ Z.land (Z.shiftr (Z.shiftl q 8) 8) 63 = q) as H.
  { intros q Hq. pose proof (range_enum (fun q =>
      (Z.land (Z.shiftl q 14) 8192 =? 0) && (Z.land (Z.shiftl q 8) 524288 =? 0) &&
      (Z.shiftr (Z.shiftl q 8) 14 =? 0) && (Z.land (Z.shiftr (Z.shiftl q 14) 8) 63 =? 0) &&
      eqb (nz (Z.land (Z.shiftl q 14) 524288)) (32 <=? q) &&
      eqb (nz (Z.land (Z.shiftl q 8) 8192)) (32 <=? q) &&
      (Z.land (Z.shiftr (Z.shiftl q 14) 14) 63 =? q) &&
      (Z.land (Z.shiftr (Z.shiftl q 8) 8) 63 =? q)) 64 q ltac:(vm_compute; reflexivity) ltac:(lia)) as E.
    cbn beta in E. breflect. split_and!; auto; by apply eqb_prop. }
  destruct (H qd Hd) as (D1 & _ & _ & D4 & D5 & _ & D7 & _).
  destruct (H qs Hs) as (_ & S2 & S3 & _ & _ & S6 & _ & S8). clear H.
  rewrite !Z.land_lor_distr_l, !land_if, !Z.shiftr_lor, !shiftr_if, !Z.land_lor_distr_l, !land_if,
    D1, D4, D7, S2, S3, S8.
  eval_bits. rewrite D5, S6.
  done.
Qed.

(** A conditional assignment as an assignment of a conditional value. *)
Lemma if_in_port (c : bool) x f : (if c then set_in_port x f else f) = set_in_port (if c then x else in_port f) f.
Proof. by destruct c, f. Qed.
Lemma if_dl_vlan (c : bool) x f : (if c then set_dl_vlan x f else f) = set_dl_vlan (if c then x else dl_vlan f) f.
Proof. by destruct c, f. Qed.
Lemma if_dl_vlan_pcp (c : bool) x f : (if c then set_dl_vlan_pcp x f else f) = set_dl_vlan_pcp (if c then x else dl_vlan_pcp f) f.
Proof. by destruct c, f. Qed.
Lemma if_dl_type (c : bool) x f : (if c then set_dl_type x f else f) = set_dl_type (if c then x else dl_type f) f.
Proof. by destruct c, f. Qed.
Lemma if_tp_src (c : bool) x f : (if c then set_tp_src x f else f) = set_tp_src (if c then x else tp_src f) f.
Proof. by destruct c, f. Qed.
Lemma if_tp_dst (c : bool) x f : (if c then set_tp_dst x f else f) = set_tp_dst (if c then x else tp_dst f) f.
Proof. by destruct c, f. Qed.
Lemma if_nw_tos (c : bool) x f : (if c then set_nw_tos x f else f) = set_nw_tos (if c then x else nw_tos f) f.
Proof. by destruct c, f. Qed.
Lemma if_nw_proto (c : bool) x f : (if c then set_nw_proto x f else f) = set_nw_proto (if c then x else nw_proto f) f.
Proof. by destruct c, f. Qed.
Lemma if_dl_dst (c : bool) x f : (if c then set_dl_dst x f else f) = set_dl_dst (if c then x else dl_dst f) f.
Proof. by destruct c, f. Qed.
Lemma if_dl_src (c : bool) x f : (if c then set_dl_src x f else f) = set_dl_src (if c then x else dl_src f) f.
Proof. by destruct c, f. Qed.

(** What the OpenFlow 1.0 wildcards can express of a mask. *)
Definition full (x all : Z) : Z := if nz x then all else 0.
Definition full_mac (a : list Z) : list Z :=
  if mac_eq a zero_mac_addr then zero_mac_addr else ones_mac_addr.

(** The mask of a wildcard word given by its fields. *)
Definition word_mask (qd qs : Z) (c1 c2 c3 c4 c5 c6 c7 c8 c9 c10 : bool) : flow :=
  mk_flow (if c1 then 0 else UINT32_MAX) (if c2 then 0 else UINT16_MAX) (if c4 then 0 else UINT16_MAX)
    (if c9 then zero_mac_addr else ones_mac_addr) (if c10 then zero_mac_addr else ones_mac_addr)
    (if c3 then 0 else 255) 255 (if c7 then 0 else 255) (if c8 then 0 else 255) 0
    (if c5 then 0 else UINT16_MAX) (if c6 then 0 else UINT16_MAX)
    (mk_ip6 (htonl (inet_mask (pref_of qs))) (htonl (inet_mask (pref_of qd))) 0 0)
    ip6_zero 0 0 0 0 (replicate 6 255).

Lemma wc_to_mask_word qd qs c1 c2 c3 c4 c5 c6 c7 c8 c9 c10 :
  0 <= qd <= 63 -> 0 <= qs <= 63 -> qd <> 31 -> qs <> 31 ->
  of10_wc_to_mask (htonl (wc_word qd qs c1 c2 c3 c4 c5 c6 c7 c8 c9 c10)) =
  Some (word_mask qd qs c1 c2 c3 c4 c5 c6 c7 c8 c9 c10).
Proof.
  intros Hd Hs Hd1 Hs1. unfold of10_wc_to_mask. rewrite ntohl_htonl by (apply wc_word_range; lia).
  pose proof (wc_word_flags qd qs c1 c2 c3 c4 c5 c6 c7 c8 c9 c10 Hd Hs)
    as (-> & -> & -> & -> & -> & -> & -> & -> & -> & ->).
  destruct (wc_word_pref qd qs c1 c2 c3 c4 c5 c6 c7 c8 c9 c10 Hd Hs) as [-> ->].
  rewrite !make_inet_mask_ok by (unfold pref_of; case_match; breflect; lia).
  cbn [mbind option_bind].
  rewrite if_in_port, if_dl_vlan, if_dl_vlan_pcp, if_dl_type, if_tp_src, if_tp_dst, if_nw_tos,
    if_nw_proto, if_dl_dst, if_dl_src. reflexivity.
Qed.

Lemma testbit_if (c : bool) x n : Z.testbit (if c then x else 0) n = c && Z.testbit x n.
Proof. destruct c; [done|]. by rewrite Z.bits_0. Qed.

(** Adding the bits of other fields to a wildcard word. *)
Lemma wc_word_lor qd qs c1 c2 c3 c4 c5 c6 c7 c8 c9 c10 qd' qs' d5 d6 d7 d8 :
  Z.lor (wc_word qd qs c1 c2 c3 c4 c5 c6 c7 c8 c9 c10)
        (wc_word qd' qs' false false false false d5 d6 d7 d8 false false) =
  wc_word (Z.lor qd qd') (Z.lor qs qs') c1 c2 c3 c4 (c5 || d5) (c6 || d6) (c7 || d7) (c8 || d8) c9 c10.
Proof.
  unfold wc_word. apply Z.bits_inj'. intros n _.
  rewrite !Z.shiftl_lor, !Z.lor_spec, !testbit_if, !Z.bits_0, !orb_false_r,
    !andb_orb_distrib_l. apply eq_true_iff_eq. rewrite !orb_true_iff. tauto.
Qed.

Lemma fix_nw_bits_id qd qs c1 c2 c3 c4 c5 c6 c7 c8 c9 c10 :
  0 <= qd <= 32 -> 0 <= qs <= 32 ->
  let w := wc_word qd qs c1 c2 c3 c4 c5 c6 c7 c8 c9 c10 in
  fix_nw_bits w OFPFW_NW_DST_MASK OFPFW_NW_DST_SHIFT OFPFW_NW_DST_ALL = w /\
  fix_nw_bits w OFPFW_NW_SRC_MASK OFPFW_NW_SRC_SHIFT OFPFW_NW_SRC_ALL = w.
Proof.
  intros Hd Hs w. subst w. unfold fix_nw_bits, OFPFW_NW_DST_SHIFT, OFPFW_NW_SRC_SHIFT.
  change OFPFW_NW_DST_MASK with 1032192. change OFPFW_NW_SRC_MASK with 16128.
  change OFPFW_NW_DST_ALL with (Z.shiftl 32 14). change OFPFW_NW_SRC_ALL with (Z.shiftl 32 8).
  change (u32 (Z.lnot 1032192)) with 4293935103. change (u32 (Z.lnot 16128)) with 4294951167.
  assert (forall q, 0 <= q <= 32 ->
    Z.shiftr (Z.land (Z.shiftl q 14) 1032192) 14 = q /\ Z.shiftr (Z.land (Z.shiftl q 8) 1032192) 14 = 0 /\
    Z.shiftr (Z.land (Z.shiftl q 8) 16128) 8 = q /\ Z.shiftr (Z.land (Z.shiftl q 14) 16128) 8 = 0 /\
    Z.land (Z.shiftl q 8) 4293935103 = Z.shiftl q 8 /\
    Z.land (Z.shiftl q 14) 4294951167 = Z.shiftl q 14) as H.
  { intros q Hq. pose proof (range_enum (fun q =>
      (Z.shiftr (Z.land (Z.shiftl q 14) 1032192) 14 =? q) &&
      (Z.shiftr (Z.land (Z.shiftl q 8) 1032192) 14 =? 0) &&
      (Z.shiftr (Z.land (Z.shiftl q 8) 16128) 8 =? q) &&
      (Z.shiftr (Z.land (Z.shiftl q 14) 16128) 8 =? 0) &&
      (Z.land (Z.shiftl q 8) 4293935103 =? Z.shiftl q 8) &&
      (Z.land (Z.shiftl q 14) 4294951167 =? Z.shiftl q 14)) 33 q
      ltac:(vm_compute; reflexivity) ltac:(lia)) as E.
    cbn beta in E. breflect. split_and!; auto. }
  destruct (H qd Hd) as (D1 & _ & _ & D4 & _ & D6).
  destruct (H qs Hs) as (_ & S2 & S3 & _ & S5 & _). clear H. unfold wc_word.
  rewrite !Z.land_lor_distr_l, !land_if, !Z.shiftr_lor, !shiftr_if, D1, D4, S2, S3, S5, D6.
  eval_bits. split.
  - case_match; [|done]. breflect. assert (qd = 32) as -> by lia.
    change (Z.land (Z.shiftl 32 14) 4293935103) with 0. rewrite Z.lor_0_l.
    by rewrite <- !Z.lor_assoc, (Z.lor_comm (Z.shiftl 32 14)), <- !Z.lor_assoc.
  - case_match; [|done]. breflect. assert (qs = 32) as -> by lia.
    change (Z.land (Z.shiftl 32 8) 4294951167) with 0. rewrite Z.lor_0_r.
    by rewrite <- !Z.lor_assoc, (Z.lor_comm (Z.shiftl 32 8)), <- !Z.lor_assoc.
Qed.

Lemma pref_of_popcount x : 0 <= x < 2 ^ 32 -> pref_of (32 - popcount x) = popcount x.
Proof. intros Hx. pose proof (popcount_u32 x Hx). unfold pref_of. case_match; breflect; lia. Qed.

Lemma pref_of_all q : 0 <= q <= 32 -> pref_of (Z.lor q 32) = 0 /\ 32 <= Z.lor q 32 <= 63.
Proof.
  intros Hq. pose proof (range_enum (fun q => (pref_of (Z.lor q 32) =? 0) &&
    (32 <=? Z.lor q 32) && (Z.lor q 32 <=? 63)) 33 q ltac:(vm_compute; reflexivity) ltac:(lia)) as E.
  cbn beta in E. breflect. done.
Qed.

(** ** Properties *)

(** The masks that OpenFlow 1.0 can express: each field is matched completely
    or not at all, addresses are matched by a prefix (of any length but 1). *)
Definition all_or_none (x all : Z) : Prop := x = 0 \/ x = all.
Definition is_prefix (x : Z) : Prop := exists p, 0 <= p <= 32 /\ p <> 1 /\ x = htonl (inet_mask p).

Record of10_exact (m : flow) : Prop := {
  ex_in_port : all_or_none (in_port m) UINT32_MAX;
  ex_vlan : all_or_none (dl_vlan m) UINT16_MAX;
  ex_pcp : all_or_none (dl_vlan_pcp m) 255;
  ex_type : all_or_none (dl_type m) UINT16_MAX;
  ex_dst : dl_dst m = zero_mac_addr \/ dl_dst m = ones_mac_addr;
  ex_src : dl_src m = zero_mac_addr \/ dl_src m = ones_mac_addr;
  ex_tos : all_or_none (nw_tos m) 255;
  ex_proto : all_or_none (nw_proto m) 255;
  ex_tp_src : all_or_none (tp_src m) UINT16_MAX;
  ex_tp_dst : all_or_none (tp_dst m) UINT16_MAX;
  ex_nw_src : is_prefix (nw_src m);
  ex_nw_dst : is_prefix (nw_dst m);
  ex_rest : m = set_nw6_src (mk_ip6 (nw_src m) (nw_dst m) 0 0) (set_nw6_dst ip6_zero
    (set_table_id 255 (set_mpls_label 0 (set_mpls_bos 0 (set_mpls_tc 0 (set_metadata 0
    (set_tunnel_id 0 (set_pad (replicate 6 255) m)))))))) }.

Lemma prefix_bits x : is_prefix x ->
  0 <= x < 2 ^ 32 /\ 32 - popcount x <> 31 /\ htonl (inet_mask (popcount x)) = x.
Proof.
  intros (p & Hp & H1 & ->). rewrite inet_mask_popcount by done. split; [|split; [lia|done]].
  apply (bswap_range 4).
Qed.

Lemma all_or_none_full x all : all_or_none x all -> all <> 0 -> (if negb (nz x) then 0 else all) = x.
Proof. intros [-> | ->] Hne; [done|]. unfold nz. by rewrite (proj2 (Z.eqb_neq _ _)). Qed.

Lemma full_mac_id a : a = zero_mac_addr \/ a = ones_mac_addr ->
  (if mac_eq a zero_mac_addr then zero_mac_addr else ones_mac_addr) = a.
Proof. by intros [-> | ->]. Qed.

(** OpenFlow 1.0 wildcards round trip.  For every mask that the protocol
    can express, [of10_mask_to_wc] and [of10_wc_to_mask] succeed and give the
    mask back, in every field of the structure. *)
Theorem of10_wc_roundtrip m :
  of10_exact m ->
  exists wc, of10_mask_to_wc m = Some wc /\ of10_wc_to_mask wc = Some m.
Proof.
  intros Hm. destruct (prefix_bits _ (ex_nw_src m Hm)) as (Hs & Hs1 & Hs2).
  destruct (prefix_bits _ (ex_nw_dst m Hm)) as (Hd & Hd1 & Hd2).
  pose proof (popcount_u32 _ Hs). pose proof (popcount_u32 _ Hd).
  exists (htonl (mask_word m)). split; [by apply mask_to_wc_word|].
  unfold mask_word. rewrite wc_to_mask_word by lia. f_equal.
  etransitivity; [|symmetry; exact (ex_rest m Hm)]. unfold word_mask.
  rewrite !pref_of_popcount, Hs2, Hd2, !all_or_none_full, !full_mac_id by (apply Hm || done).
  reflexivity.
Qed.

(** The fields of a corrected match and the layers they depend on. *)
Record of10_layered (fl m : flow) : Prop := {
  lay_l4 : tp_src m <> 0 \/ tp_dst m <> 0 ->
    dl_type m <> 0 /\ ntohs (dl_type fl) = ETH_TYPE_IP /\ nw_proto m <> 0;
  lay_ip : nw_proto m <> 0 \/ nw_tos m <> 0 -> dl_type m <> 0 /\ ntohs (dl_type fl) = ETH_TYPE_IP;
  lay_addr : nw_src m <> 0 \/ nw_dst m <> 0 ->
    dl_type m <> 0 /\ (ntohs (dl_type fl) = ETH_TYPE_IP \/ ntohs (dl_type fl) = ETH_TYPE_ARP) }.

Definition same_l2 (fl m fl' m' : flow) : Prop :=
  in_port fl' = in_port fl /\ dl_vlan fl' = dl_vlan fl /\ dl_vlan_pcp fl' = dl_vlan_pcp fl /\
  dl_type fl' = dl_type fl /\ dl_dst fl' = dl_dst fl /\ dl_src fl' = dl_src fl /\
  in_port m' = full (in_port m) UINT32_MAX /\ dl_vlan m' = full (dl_vlan m) UINT16_MAX /\
  dl_vlan_pcp m' = full (dl_vlan_pcp m) 255 /\ dl_type m' = full (dl_type m) UINT16_MAX /\
  dl_dst m' = full_mac (dl_dst m) /\ dl_src m' = full_mac (dl_src m).

Lemma full_negb x all : (if negb (nz x) then 0 else all) = full x all.
Proof. unfold full. by destruct (nz x). Qed.

(** The bits that the correction adds, as wildcard words. *)
Lemma arp_bits :
  Z.lor (Z.lor (Z.lor OFPFW_NW_PROTO OFPFW_NW_TOS) OFPFW_TP_DST) OFPFW_TP_SRC =
  wc_word 0 0 false false false false true true true true false false.
Proof. reflexivity. Qed.
Lemma l4_bits : Z.lor OFPFW_TP_DST OFPFW_TP_SRC =
  wc_word 0 0 false false false false true true false false false false.
Proof. reflexivity. Qed.
Lemma nw_tp_bits : NW_TP_ALL =
  wc_word 32 32 false false false false true true true true false false.
Proof. reflexivity. Qed.

(** Correction of an OpenFlow 1.0 match.  [of10_flow_correction] always
    returns; it refuses exactly a match on input port 0, and otherwise leaves
    the layer-2 part of the match as it was and a match whose network and
    transport fields are present only under the protocol they belong to. *)
Theorem of10_flow_correction_spec fl m :
  0 <= nw_src m < 2 ^ 32 -> 0 <= nw_dst m < 2 ^ 32 ->
  popcount (nw_src m) <> 1 -> popcount (nw_dst m) <> 1 ->
  exists ret fl' m', of10_flow_correction fl m = Some (ret, fl', m') /\
    ((ret = -1 /\ in_port m <> 0 /\ in_port fl = 0 /\ fl' = fl /\ m' = m) \/
     (ret = 0 /\ ~ (in_port m <> 0 /\ in_port fl = 0) /\
      of10_layered fl' m' /\ same_l2 fl m fl' m')).
Proof.
  intros Hs Hd Hs1 Hd1. pose proof (popcount_u32 _ Hs). pose proof (popcount_u32 _ Hd).
  unfold of10_flow_correction. rewrite mask_to_wc_word by done. cbn [mbind option_bind].
  unfold mask_word. rewrite ntohl_htonl by (apply wc_word_range; lia).
  destruct (wc_word_flags (32 - popcount (nw_dst m)) (32 - popcount (nw_src m))
    (negb (nz (in_port m))) (negb (nz (dl_vlan m))) (negb (nz (dl_vlan_pcp m)))
    (negb (nz (dl_type m))) (negb (nz (tp_src m))) (negb (nz (tp_dst m)))
    (negb (nz (nw_tos m))) (negb (nz (nw_proto m)))
    (mac_eq (dl_dst m) zero_mac_addr) (mac_eq (dl_src m) zero_mac_addr) ltac:(lia) ltac:(lia))
    as (F1 & _ & _ & F4 & _ & _ & _ & F8 & _).
  match goal with |- context [wc_word ?a ?b ?c ?d ?e ?f ?g ?h ?i ?j ?k ?l] =>
    destruct (fix_nw_bits_id a b c d e f g h i j k l ltac:(lia) ltac:(lia)) as [X1 X2] end.
  cbv zeta in *. rewrite F1, X1, X2, F4, F8. clear F1 X1 X2 F4 F8. rewrite !negb_involutive.
  destruct (nz (in_port m) && negb (nz (in_port fl))) eqn:Ein.
  { exists (-1), fl, m. split; [done|]. left. unfold nz in Ein. breflect. done. }
  assert (~ (in_port m <> 0 /\ in_port fl = 0)) as Hin.
  { intros [H1 H2]. rewrite H2 in Ein. unfold nz in Ein. cbn in Ein.
    rewrite (proj2 (Z.eqb_neq _ _) H1) in Ein. done. }
  destruct (pref_of_all (32 - popcount (nw_dst m)) ltac:(lia)) as [Pd Rd].
  destruct (pref_of_all (32 - popcount (nw_src m)) ltac:(lia)) as [Ps Rs].
  rewrite arp_bits, l4_bits, nw_tp_bits.
  destruct (nz (dl_type m)) eqn:Et; [destruct (Z.eqb_spec (ntohs (dl_type fl)) ETH_TYPE_ARP) as [Ea|Ea];
    [|destruct (Z.eqb_spec (ntohs (dl_type fl)) ETH_TYPE_IP) as [Ei|Ei];
      [destruct (nz (nw_proto m)) eqn:Ep|]]|]; cbn [negb];
    rewrite ?wc_word_lor, wc_to_mask_word by (rewrite ?Z.lor_0_r; lia); cbn [mbind option_bind];
    (eexists 0, _, _; split; [reflexivity|]); right; (split; [done|]); (split; [done|]);
    (split; [|unfold same_l2, full; cbn; rewrite Et; split_and!; try done;
              match goal with |- context [nz ?x] => by destruct (nz x) end]);
    constructor; cbn; rewrite ?orb_true_r, ?Pd, ?Ps; change (htonl (inet_mask 0)) with 0;
    unfold UINT16_MAX; naive_solver.
Qed.

(** ** Witnesses *)

Definition all_exact : flow :=
  set_nw6_src (mk_ip6 (htonl (inet_mask 24)) (htonl (inet_mask 32)) 0 0) (set_nw6_dst ip6_zero
    (set_mpls_label 0 (set_mpls_bos 0 (set_mpls_tc 0 (set_metadata 0 (set_tunnel_id 0
    (set_in_port 0 ones_flow))))))).

Lemma of10_wc_roundtrip_witness :
  exists wc, of10_mask_to_wc all_exact = Some wc /\ of10_wc_to_mask wc = Some all_exact.
Proof.
  apply (of10_wc_roundtrip all_exact). constructor.
  - left. reflexivity.
  - right. reflexivity.
  - right. reflexivity.
  - right. reflexivity.
  - right. reflexivity.
  - right. reflexivity.
  - right. reflexivity.
  - right. reflexivity.
  - right. reflexivity.
  - right. reflexivity.
  - exists 24. split; [lia|]. split; [lia|]. reflexivity.
  - exists 32. split; [lia|]. split; [lia|]. reflexivity.
  - reflexivity.
Defined.

Lemma of10_flow_correction_spec_witness :
  exists r, of10_flow_correction (set_in_port 1 zero_flow) all_exact = Some r.
Proof.
  destruct (of10_flow_correction_spec (set_in_port 1 zero_flow) all_exact)
    as (ret & fl & m & H & _).
  - split; [apply Z.leb_le|apply Z.ltb_lt]; vm_compute; reflexivity.
  - split; [apply Z.leb_le|apply Z.ltb_lt]; vm_compute; reflexivity.
  - apply Z.eqb_neq. vm_compute. reflexivity.
  - apply Z.eqb_neq. vm_compute. reflexivity.
  - exists (ret, fl, m). exact H.
Defined.
