(* ===== verification/FlowNormSpec.v ===== *)
(** * Properties of flow matching and of OpenFlow 1.3 normalisation *)
From stdpp Require Import base list.
From Stdlib Require Import ZArith Lia.
From S2P Require Import Prelude Bytes Flow.
Import Flow.
#[local] Open Scope Z_scope.

(** ** OpenFlow 1.3 normalisation *)

(** A match whose fields are present only under the protocol they belong to. *)
Record of131_normal (fl m : flow) : Prop := {
  nrm_port : in_port m <> 0 -> in_port fl <> 0;
  nrm_pcp : dl_vlan_pcp m <> 0 -> dl_vlan m <> 0;
  nrm_mpls : mpls_tc m <> 0 \/ mpls_bos m <> 0 \/ mpls_label m <> 0 ->
    dl_type m <> 0 /\ dl_type fl = htons ETH_TYPE_MPLS;
  nrm_proto : nw_proto m <> 0 -> dl_type m <> 0 /\
    (dl_type fl = htons ETH_TYPE_IP \/ dl_type fl = htons ETH_TYPE_IPV6);
  nrm_l4 : tp_src m <> 0 \/ tp_dst m <> 0 -> nw_proto m <> 0 /\
    (nw_proto fl = IP_TYPE_TCP \/ nw_proto fl = IP_TYPE_SCTP \/ nw_proto fl = IP_TYPE_UDP);
  nrm_addr : nw_src m <> 0 \/ nw_dst m <> 0 -> dl_type m <> 0 /\
    (dl_type fl = htons ETH_TYPE_IP \/ dl_type fl = htons ETH_TYPE_IPV6 \/
     dl_type fl = htons ETH_TYPE_ARP) }.


(** Normalisation only removes fields from a match. *)
Definition removable : list (flow -> Z) :=
  [dl_vlan_pcp; mpls_tc; mpls_bos; mpls_label; nw_proto; nw_tos; tp_src; tp_dst; nw_src; nw_dst].

Record norm_le (fl m fl' m' : flow) : Prop := {
  le_port : in_port fl' = in_port fl /\ in_port m' = in_port m;
  le_vlan : dl_vlan fl' = dl_vlan fl /\ dl_vlan m' = dl_vlan m;
  le_type : dl_type fl' = dl_type fl /\ dl_type m' = dl_type m;
  le_dst : dl_dst fl' = dl_dst fl /\ dl_dst m' = dl_dst m;
  le_src : dl_src fl' = dl_src fl /\ dl_src m' = dl_src m;
  le_tbl : table_id m' = table_id m;
  le_rem : Forall (fun g => g m' = 0 \/ (g m' = g m /\ g fl' = g fl)) removable }.

Lemma norm_le_id fl m : norm_le fl m fl m.
Proof. constructor; auto. apply Forall_forall. auto. Qed.

Lemma norm_le_trans fl m fl1 m1 fl2 m2 :
  norm_le fl m fl1 m1 -> norm_le fl1 m1 fl2 m2 -> norm_le fl m fl2 m2.
Proof.
  intros [[] [] [] [] [] ? F1] [[] [] [] [] [] ? F2]. constructor; try (split; congruence); [congruence|].
  rewrite Forall_forall in F1, F2. apply Forall_forall. intros g Hg.
  specialize (F1 g Hg). specialize (F2 g Hg).
  destruct F2 as [|[-> ->]]; [by left|]. destruct F1 as [|[-> ->]]; auto.
Qed.

(** A stage leaves a smaller match and establishes its clause. *)
Definition stage (f : Z * flow * flow -> Z * flow * flow) (Q : flow -> flow -> Prop) : Prop :=
  forall ret fl m, 0 <= ret ->
    let '(ret', fl', m') := f (ret, fl, m) in 0 <= ret' /\ norm_le fl m fl' m' /\ Q fl' m'.

Definition no_pcp (fl m : flow) : Prop := dl_vlan_pcp m <> 0 -> dl_vlan m <> 0.
Definition no_mpls (fl m : flow) : Prop :=
  mpls_tc m <> 0 \/ mpls_bos m <> 0 \/ mpls_label m <> 0 ->
  dl_type m <> 0 /\ dl_type fl = htons ETH_TYPE_MPLS.
Definition no_ip (fl m : flow) : Prop :=
  nw_proto m <> 0 \/ tp_src m <> 0 \/ tp_dst m <> 0 \/ nw_src m <> 0 \/ nw_dst m <> 0 ->
  dl_type m <> 0 /\ (dl_type fl = htons ETH_TYPE_IP \/ dl_type fl = htons ETH_TYPE_IPV6 \/
                     dl_type fl = htons ETH_TYPE_ARP).
Definition no_arp (fl m : flow) : Prop :=
  nw_proto m <> 0 \/ tp_src m <> 0 \/ tp_dst m <> 0 ->
  dl_type m <> 0 /\ dl_type fl = htons ETH_TYPE_ARP -> False.
Definition no_l4 (fl m : flow) : Prop :=
  tp_src m <> 0 \/ tp_dst m <> 0 ->
  dl_type m <> 0 /\ (dl_type fl = htons ETH_TYPE_IP \/ dl_type fl = htons ETH_TYPE_IPV6) ->
  nw_proto m <> 0 /\
  (nw_proto fl = IP_TYPE_TCP \/ nw_proto fl = IP_TYPE_SCTP \/ nw_proto fl = IP_TYPE_UDP).

Ltac if_cases :=
  repeat (match goal with |- context [if ?b then _ else _] => destruct b eqn:? end).

Ltac removed :=
  unfold removable; repeat (apply Forall_cons; split; [first [by left | by right]|]);
  apply Forall_nil; exact I.

(** One branch of a stage. *)
Ltac stage_branch :=
  cbv beta iota; (split; [lia|]); (split;
    [first [apply norm_le_id | constructor; try (cbn; auto; fail); removed]|]);
  unfold no_pcp, no_mpls, no_ip, no_arp, no_l4, nw_src, nw_dst, is_type, ipv6_addr_nonzero, nz in *;
  breflect; repeat match goal with H : Z.lor _ _ = 0 |- _ => apply Z.lor_eq_0_iff in H; destruct H end;
  cbn -[htons].

(** Either the branch has cleared the fields of the clause, or its tests give
    the conclusion. *)
Ltac stage_end :=
  let Hx := fresh in intros Hx;
  first
    [ solve [exfalso; clear -Hx; repeat destruct Hx as [Hx|Hx]; congruence]
    | solve [exfalso; repeat destruct Hx as [Hx|Hx]; congruence]
    | clear Hx; intros; repeat match goal with
      | H : _ \/ _ |- _ => destruct H; breflect
      | H : _ /\ _ |- _ => destruct H
      end; try congruence; split_and?; auto; congruence
    | intros; repeat match goal with
      | H : _ \/ _ |- _ => destruct H; breflect
      | H : _ /\ _ |- _ => destruct H
      end; try congruence; split_and?; auto; congruence ].

Lemma norm_vlan_stage : stage norm_vlan no_pcp.
Proof. intros ret fl m Hr. unfold norm_vlan. if_cases; stage_branch; stage_end. Qed.

Lemma norm_mpls_stage : stage norm_mpls no_mpls.
Proof. intros ret fl m Hr. unfold norm_mpls. if_cases; stage_branch; stage_end. Qed.

Lemma norm_ip_stage : stage norm_ip no_ip.
Proof. intros ret fl m Hr. unfold norm_ip. if_cases; stage_branch; stage_end. Qed.

Lemma norm_arp_stage : stage norm_arp no_arp.
Proof. intros ret fl m Hr. unfold norm_arp. if_cases; stage_branch; stage_end. Qed.

Lemma norm_l4_stage : stage norm_l4 no_l4.
Proof. intros ret fl m Hr. unfold norm_l4. if_cases; stage_branch; stage_end. Qed.

Definition norm_keeps (fl m fl' m' : flow) : Prop :=
  in_port fl' = in_port fl /\ dl_vlan fl' = dl_vlan fl /\ dl_type fl' = dl_type fl /\
  dl_dst fl' = dl_dst fl /\ dl_src fl' = dl_src fl /\
  in_port m' = in_port m /\ dl_vlan m' = dl_vlan m /\ dl_type m' = dl_type m /\
  dl_dst m' = dl_dst m /\ dl_src m' = dl_src m /\ table_id m' = 255.

(** A field that is left in a smaller match was there before. *)
Lemma norm_le_field fl m fl' m' g :
  norm_le fl m fl' m' -> g ∈ removable -> g m' <> 0 -> g m' = g m /\ g fl' = g fl.
Proof. intros Hle Hg Hne. 
  pose proof (proj1 (Forall_forall _ _) (le_rem _ _ _ _ Hle) g Hg) as H. cbn beta in H. tauto. Qed.

Ltac in_removable := unfold removable; apply list_elem_of_In; cbn; tauto.

Lemma no_pcp_le fl m fl' m' : norm_le fl m fl' m' -> no_pcp fl m -> no_pcp fl' m'.
Proof.
  intros Hle Hq Hx. destruct (norm_le_field _ _ _ _ dl_vlan_pcp Hle) as [He _]; [in_removable|done|].
  destruct (le_vlan _ _ _ _ Hle) as [_ ->]. apply Hq. congruence.
Qed.

Lemma no_mpls_le fl m fl' m' : norm_le fl m fl' m' -> no_mpls fl m -> no_mpls fl' m'.
Proof.
  intros Hle Hq Hx. destruct (le_type _ _ _ _ Hle) as [-> ->]. apply Hq.
  destruct Hx as [Hx|[Hx|Hx]];
    [left; destruct (norm_le_field _ _ _ _ mpls_tc Hle)
    |right; left; destruct (norm_le_field _ _ _ _ mpls_bos Hle)
    |right; right; destruct (norm_le_field _ _ _ _ mpls_label Hle)]; try in_removable; congruence.
Qed.

Lemma no_ip_le fl m fl' m' : norm_le fl m fl' m' -> no_ip fl m -> no_ip fl' m'.
Proof.
  intros Hle Hq Hx. destruct (le_type _ _ _ _ Hle) as [-> ->]. apply Hq.
  destruct Hx as [Hx|[Hx|[Hx|[Hx|Hx]]]];
    [left; destruct (norm_le_field _ _ _ _ nw_proto Hle)
    |right; left; destruct (norm_le_field _ _ _ _ tp_src Hle)
    |do 2 right; left; destruct (norm_le_field _ _ _ _ tp_dst Hle)
    |do 3 right; left; destruct (norm_le_field _ _ _ _ nw_src Hle)
    |do 4 right; destruct (norm_le_field _ _ _ _ nw_dst Hle)]; try in_removable; congruence.
Qed.

Lemma no_arp_le fl m fl' m' : norm_le fl m fl' m' -> no_arp fl m -> no_arp fl' m'.
Proof.
  intros Hle Hq Hx. destruct (le_type _ _ _ _ Hle) as [-> ->]. apply Hq.
  destruct Hx as [Hx|[Hx|Hx]];
    [left; destruct (norm_le_field _ _ _ _ nw_proto Hle)
    |right; left; destruct (norm_le_field _ _ _ _ tp_src Hle)
    |right; right; destruct (norm_le_field _ _ _ _ tp_dst Hle)]; try in_removable; congruence.
Qed.

(** The stages composed. *)
Lemma norm_stages fl m :
  let '(ret, fl', m') := norm_l4 (norm_arp (norm_ip (norm_mpls (norm_vlan (0, fl, m))))) in
  0 <= ret /\ norm_le fl m fl' m' /\
  no_pcp fl' m' /\ no_mpls fl' m' /\ no_ip fl' m' /\ no_arp fl' m' /\ no_l4 fl' m'.
Proof.
  pose proof (norm_vlan_stage 0 fl m ltac:(lia)) as H1.
  destruct (norm_vlan (0, fl, m)) as [[r1 f1] m1]. destruct H1 as (R1 & L1 & Q1).
  pose proof (norm_mpls_stage r1 f1 m1 R1) as H2.
  destruct (norm_mpls (r1, f1, m1)) as [[r2 f2] m2]. destruct H2 as (R2 & L2 & Q2).
  pose proof (norm_ip_stage r2 f2 m2 R2) as H3.
  destruct (norm_ip (r2, f2, m2)) as [[r3 f3] m3]. destruct H3 as (R3 & L3 & Q3).
  pose proof (norm_arp_stage r3 f3 m3 R3) as H4.
  destruct (norm_arp (r3, f3, m3)) as [[r4 f4] m4]. destruct H4 as (R4 & L4 & Q4).
  pose proof (norm_l4_stage r4 f4 m4 R4) as H5.
  destruct (norm_l4 (r4, f4, m4)) as [[r5 f5] m5]. destruct H5 as (R5 & L5 & Q5).
  split_and!; auto; eauto 6 using norm_le_trans, no_pcp_le, no_mpls_le, no_ip_le, no_arp_le.
Qed.

(** Normalisation of an OpenFlow 1.3 match.  [of131_flow_normalize] refuses
    exactly a match on input port 0; otherwise the match it leaves keeps the
    port, the VLAN id, the addresses and the type, and has a VLAN priority only with a
    VLAN id, MPLS fields only under the MPLS type, IPv4 addresses and a protocol only
    under IP or ARP, and ports only under TCP, UDP or SCTP. *)
Theorem of131_flow_normalize_spec fl m :
  let '(ret, fl', m') := of131_flow_normalize fl m in
  (ret = -1 <-> in_port m <> 0 /\ in_port fl = 0) /\
  (ret <> -1 -> of131_normal fl' m' /\ norm_keeps fl m fl' m').
Proof.
  unfold of131_flow_normalize. cbn [in_port set_table_id].
  pose proof (norm_stages fl (set_table_id 255 m)) as Hs.
  destruct (nz (in_port m) && negb (nz (in_port fl))) eqn:Hin; unfold nz in Hin.
  { breflect. split; [tauto|done]. }
  destruct (norm_l4 _) as [[ret fl'] m'].
  destruct Hs as (Hr & Hle & Q1 & Q2 & Q3 & Q4 & Q5).
  assert (in_port m <> 0 -> in_port fl <> 0) as Hp.
  { intros H1 H2. rewrite H2 in Hin. cbn in Hin. rewrite andb_true_r in Hin. breflect. done. }
  split; [split; [lia|intros [H1 H2]; exfalso; by apply (Hp H1)]|]. intros _.
  destruct Hle as [[P1 P2] [V1 V2] [T1 T2] [D1 D2] [S1 S2] HT _]. cbn in *.
  split; [|unfold norm_keeps; split_and!; done].
  assert (nw_proto m' <> 0 \/ tp_src m' <> 0 \/ tp_dst m' <> 0 -> dl_type m' <> 0 /\
    (dl_type fl' = htons ETH_TYPE_IP \/ dl_type fl' = htons ETH_TYPE_IPV6)) as Hip.
  { intros Hx. destruct Q3 as [Hd [?|[?|Ha]]]; [destruct Hx as [?|[?|?]]; auto|auto..].
    exfalso. exact (Q4 Hx (conj Hd Ha)). }
  constructor.
  - rewrite P1, P2. exact Hp.
  - exact Q1.
  - exact Q2.
  - intros Hx. apply Hip. by left.
  - intros Hx. apply (Q5 Hx), Hip. by right.
  - intros Hx. apply Q3. by do 3 right.
Qed.

(** The [sizeof] of a pointer: the upper words of an IPv6 mask survive the
    removal of the IP fields, so that normalising twice reports a change twice. *)
Lemma normalize_keeps_ipv6_words :
  let m := set_nw6_src (mk_ip6 1 1 1 1) zero_flow in
  let '(ret, fl', m') := of131_flow_normalize zero_flow m in
  ret = 1 /\ nw6_src m' = mk_ip6 0 0 1 1 /\ (of131_flow_normalize fl' m').1.1 = 1.
Proof. vm_compute. split_and!; reflexivity. Qed.

(** ** Strict matching *)

(** The fields that are compared for equality when the mask selects them. *)
Definition exact_fields : list (flow -> Z) :=
  [dl_type; mpls_label; mpls_tc; mpls_bos; dl_vlan; dl_vlan_pcp;
   nw_proto; nw_tos; tp_dst; tp_src; in_port; metadata; tunnel_id].

Definition is_ip4 (m f : flow) : bool :=
  nz (dl_type m) && (is_type f ETH_TYPE_IP || is_type f ETH_TYPE_ARP).

(** What a flow looks like through a mask. *)
Definition flow_key (m f : flow) : list (option Z) * option (list Z) * option (list Z) * option (Z * Z) :=
  (map (fun g => if nz (g m) then Some (g f) else None) exact_fields,
   if mac_eq (dl_dst m) zero_mac_addr then None else Some (dl_dst f),
   if mac_eq (dl_src m) zero_mac_addr then None else Some (dl_src f),
   if is_ip4 m f then Some (nw_dst f, nw_src f) else None).

Definition masked (m f : flow) : Prop :=
  Z.land (nw_src f) (nw_src m) = nw_src f /\ Z.land (nw_dst f) (nw_dst m) = nw_dst f.

Lemma opt_field_eq (b : bool) (x y : Z) :
  (negb b || (x =? y)) = true <-> (if b then Some x else None) = (if b then Some y else None).
Proof. destruct b; cbn; [|done]. rewrite Z.eqb_eq. split; congruence. Qed.

Lemma opt_mac_eq (b : bool) (x y : list Z) :
  (b || mac_eq x y) = true <-> (if b then None else Some x) = (if b then None else Some y).
Proof. destruct b; cbn; [done|]. unfold mac_eq. rewrite bool_decide_eq_true. split; congruence. Qed.

Lemma match_ip_key m f1 f2 :
  masked m f1 -> (nz (dl_type m) = true -> dl_type f1 <> htons ETH_TYPE_IPV6) ->
  (if nz (dl_type m) then Some (dl_type f1) else None) = (if nz (dl_type m) then Some (dl_type f2) else None) ->
  __of_match_flows_ip f1 m f2 = true <->
  (if is_ip4 m f1 then Some (nw_dst f1, nw_src f1) else None) =
  (if is_ip4 m f2 then Some (nw_dst f2, nw_src f2) else None).
Proof.
  intros [Ms Md] H6 Ht. unfold __of_match_flows_ip, is_ip4, is_type.
  destruct (nz (dl_type m)); cbn [negb andb]; [|done]. injection Ht as Ht.
  rewrite Ht, Z.eqb_refl. cbn [negb]. rewrite (proj2 (Z.eqb_neq _ _)) by (rewrite <- Ht; auto).
  case_match; [|done]. rewrite Ms, Md, andb_true_iff, !Z.eqb_eq. split; [intros [-> ->]; done|].
  by intros [= -> ->].
Qed.

(** Strict matching is equality of what the mask selects.  For a flow
    whose addresses are masked, that does not select IPv6 and does not ask for any
    VLAN id, [__of_match_flows] holds exactly when both flows
    have the same values in all the fields that the mask selects. *)
Theorem of_match_flows_key m f1 f2 :
  masked m f1 -> (nz (dl_type m) = true -> dl_type f1 <> htons ETH_TYPE_IPV6) ->
  dl_vlan f1 <> htons 0xfff ->
  __of_match_flows f1 m f2 = true <-> flow_key m f1 = flow_key m f2.
Proof.
  intros Hm H6 Hv. unfold flow_key. rewrite !pair_equal_spec. cbn [map exact_fields].
  rewrite <- !opt_mac_eq. unfold __of_match_flows. rewrite !andb_true_iff.
  unfold __of_match_flows_l2, __of_match_flows_mpls, __of_match_flows_vlan, __of_match_flows_l4,
    __of_match_flows_mdata.
  rewrite (proj2 (Z.eqb_neq _ _) Hv), andb_false_r. cbn [andb].
  rewrite !andb_true_iff, !opt_field_eq. split.
  - intros. destruct_and!. split_and!; auto; [|by apply match_ip_key]. congruence.
  - intros [[[Hl Hd] Hs] Hi]. simplify_list_eq. split_and!; auto. by apply match_ip_key.
Qed.

(** The IPv6 branch compares a flow with itself: flows to different IPv6
    addresses are identified. *)
Lemma match_ipv6_any_address :
  let m := set_nw6_dst ip6_ones (set_dl_type UINT16_MAX zero_flow) in
  let f1 := set_dl_type (htons ETH_TYPE_IPV6) zero_flow in
  __of_match_flows f1 m (set_nw6_dst ip6_ones f1) = true.
Proof. vm_compute. reflexivity. Qed.

(** ** Witnesses *)

Lemma of_match_flows_key_witness :
  let m := set_nw_dst UINT32_MAX (set_dl_type UINT16_MAX zero_flow) in
  let f := set_nw_dst 7 (set_dl_type (htons ETH_TYPE_IP) zero_flow) in
  __of_match_flows f m (set_in_port 9 f) = true <-> flow_key m f = flow_key m (set_in_port 9 f).
Proof.
  intros m f. apply (of_match_flows_key m f (set_in_port 9 f)).
  - split; reflexivity.
  - intros _. discriminate.
  - discriminate.
Defined.
