(* ===== verification/Oxm.v ===== *)
(** * OXM: the extensible match of OpenFlow 1.3

    Encoding of a flow and its mask as a list of OXM fields
    ([of131_add_oxm_fields], [of131_prep_ofpx_match]) and decoding of such a list
    ([of131_ofpx_match_to_flow]), from mul_of_msg.c, at the level of the bytes of
    the message.  The encoder writes into a buffer that it assumes cleared; it
    reads the old [oxm_field_hm] when it sets the mask bit, as the macros do.  The decoder
    walks a pointer over the message: the list it carries is what lies at and after the
    pointer.  Every access outside the buffer is [None]. *)
From stdpp Require Import base list.
From Stdlib Require Import ZArith Lia.
From S2P Require Import Prelude Bytes Flow.
#[local] Open Scope Z_scope.

Module Oxm.
Export Bytes Flow.

Definition OFPXMC_OPENFLOW_BASIC : Z := 0x8000.
Definition OFP_MAX_OXM_TLVS : Z := 32.
Definition OFPMT_OXM : Z := 1.
Definition OFPVID_PRESENT : Z := 0x1000.

(** [enum oxm_ofb_match_fields] *)
Definition OFPXMT_OFB_IN_PORT : Z := 0.
Definition OFPXMT_OFB_METADATA : Z := 2.
Definition OFPXMT_OFB_ETH_DST : Z := 3.
Definition OFPXMT_OFB_ETH_SRC : Z := 4.
Definition OFPXMT_OFB_ETH_TYPE : Z := 5.
Definition OFPXMT_OFB_VLAN_VID : Z := 6.
Definition OFPXMT_OFB_VLAN_PCP : Z := 7.
Definition OFPXMT_OFB_IP_DSCP : Z := 8.
Definition OFPXMT_OFB_IP_PROTO : Z := 10.
Definition OFPXMT_OFB_IPV4_SRC : Z := 11.
Definition OFPXMT_OFB_IPV4_DST : Z := 12.
Definition OFPXMT_OFB_TCP_SRC : Z := 13.
Definition OFPXMT_OFB_TCP_DST : Z := 14.
Definition OFPXMT_OFB_UDP_SRC : Z := 15.
Definition OFPXMT_OFB_UDP_DST : Z := 16.
Definition OFPXMT_OFB_ARP_SPA : Z := 22.
Definition OFPXMT_OFB_ARP_TPA : Z := 23.
Definition OFPXMT_OFB_IPV6_SRC : Z := 26.
Definition OFPXMT_OFB_IPV6_DST : Z := 27.
Definition OFPXMT_OFB_MPLS_LABEL : Z := 34.
Definition OFPXMT_OFB_MPLS_TC : Z := 35.
Definition OFPXMT_OFB_MPLS_BOS : Z := 36.
Definition OFPXMT_OFB_TUNNEL_ID : Z := 38.

(** The sixteen bytes of an IPv6 address in memory. *)
Definition ip6_bytes (a : ipv6_addr) : list Z :=
  le_bytes 4 (w0 a) ++ le_bytes 4 (w1 a) ++ le_bytes 4 (w2 a) ++ le_bytes 4 (w3 a).

Definition bytes_ip6 (bs : list Z) : ipv6_addr :=
  mk_ip6 (le_val (take 4 bs)) (le_val (take 4 (drop 4 bs)))
         (le_val (take 4 (drop 8 bs))) (le_val (take 4 (drop 12 bs))).

(** ** Encoder *)

(** The buffer and [oxm_field_sz], the offset of the [oxm] pointer. *)
Definition enc_state := (list Z * nat)%type.

Definition OFP_OXM_GHDR_FIELD (field_hm : Z) : Z := Z.land (Z.shiftr field_hm 1) 255.
Definition OFP_OXM_GHDR_HM (field_hm : Z) : Z := Z.land field_hm 1.
Definition OFP_OXM_SHDR_HM (field_hm hm : Z) : Z :=
  u8 (Z.lor (Z.land hm 1) (OFP_OXM_GHDR_FIELD field_hm)).
Definition OFP_OXM_SHDR_FIELD (field_hm field : Z) : Z :=
  u8 (Z.lor (Z.shiftl (Z.land field 127) 1) (OFP_OXM_GHDR_HM field_hm)).

(** The statements that every field of the encoder repeats: class, mask bit,
    field, length, byte order, and the payload. *)
Definition oxm_put (hm field length : Z) (data : list Z) (st : enc_state) : option enc_state :=
  let '(buf, oxm_field_sz) := st in
  old ← rd_le buf (oxm_field_sz + 1) 1;
  let field_hm := OFP_OXM_SHDR_FIELD (OFP_OXM_SHDR_HM old hm) field in
  buf ← wr_le buf oxm_field_sz 4
    (htonl (le_val ([u8 length; field_hm] ++ le_bytes 2 OFPXMC_OPENFLOW_BASIC)));
  buf ← wr buf (oxm_field_sz + 4) data;
  Some (buf, (oxm_field_sz + 4 + Z.to_nat (u8 length))%nat).

(** [if (c) { ... }] around a field. *)
Definition put_if (c : bool) (f : enc_state -> option enc_state) (st : enc_state) : option enc_state :=
  if c then f st else Some st.

Definition of_put_mpls_label_oxm (label sz : Z) : list Z :=
  let vp := le_bytes 4 label in
  if sz =? 3 then drop 1 vp else vp.

Definition put_port_mdata (flow mask : flow) (st : enc_state) : option enc_state :=
  st ← put_if (nz (in_port mask)) (oxm_put 0 OFPXMT_OFB_IN_PORT 4 (le_bytes 4 (in_port flow))) st;
  put_if (nz (metadata mask)) (oxm_put 1 OFPXMT_OFB_METADATA 16
    (le_bytes 8 (metadata flow) ++ le_bytes 8 (metadata mask))) st.

Definition put_eth (flow mask : flow) (st : enc_state) : option enc_state :=
  st ← put_if (negb (mac_eq (dl_dst mask) zero_mac_addr))
         (oxm_put 0 OFPXMT_OFB_ETH_DST 6 (dl_dst flow)) st;
  st ← put_if (negb (mac_eq (dl_src mask) zero_mac_addr))
         (oxm_put 0 OFPXMT_OFB_ETH_SRC 6 (dl_src flow)) st;
  put_if (nz (dl_type mask)) (oxm_put 0 OFPXMT_OFB_ETH_TYPE 2 (le_bytes 2 (dl_type flow))) st.

(** With VLAN id 0 nothing is stored. *)
Definition vlan_data (flow : flow) : list Z :=
  if nz (dl_vlan flow) then
    le_bytes 2 (Z.lor (if dl_vlan flow =? htons 0xfff then 0 else dl_vlan flow) (htons OFPVID_PRESENT))
  else [].

Definition put_vlan (flow mask : flow) (st : enc_state) : option enc_state :=
  st ← put_if (nz (dl_vlan mask)) (oxm_put 0 OFPXMT_OFB_VLAN_VID 2 (vlan_data flow)) st;
  put_if (nz (dl_vlan mask) && nz (dl_vlan_pcp mask))
    (oxm_put 0 OFPXMT_OFB_VLAN_PCP 1 (le_bytes 1 (dl_vlan_pcp flow))) st.

(** After [HTON_OXM_HDR] the first byte of the header, which [oxm->length]
    reads, is the high byte of the class. *)
Definition put_mpls (flow mask : flow) (st : enc_state) : option enc_state :=
  if nz (dl_type mask) &&
     ((htons (dl_type flow) =? ETH_TYPE_MPLS) || (htons (dl_type flow) =? ETH_TYPE_MPLS_MCAST))
  then
    st ← put_if (nz (mpls_label mask)) (oxm_put 0 OFPXMT_OFB_MPLS_LABEL 4
           (of_put_mpls_label_oxm (mpls_label flow) 0x80)) st;
    st ← put_if (nz (mpls_tc mask)) (oxm_put 0 OFPXMT_OFB_MPLS_TC 1 (le_bytes 1 (mpls_tc flow))) st;
    put_if (nz (mpls_bos mask)) (oxm_put 0 OFPXMT_OFB_MPLS_BOS 1 (le_bytes 1 (mpls_bos flow))) st
  else Some st.

Definition put_nw4 (flow mask : flow) (st : enc_state) : option enc_state :=
  if nz (dl_type mask) &&
     ((htons (dl_type flow) =? ETH_TYPE_ARP) || (htons (dl_type flow) =? ETH_TYPE_IP))
  then
    let arp := htons (dl_type flow) =? ETH_TYPE_ARP in
    st ← put_if (nz (nw_src mask))
           (oxm_put 1 (if arp then OFPXMT_OFB_ARP_SPA else OFPXMT_OFB_IPV4_SRC) 8
              (le_bytes 4 (nw_src flow) ++ le_bytes 4 (nw_src mask))) st;
    put_if (nz (nw_dst mask))
      (oxm_put 1 (if arp then OFPXMT_OFB_ARP_TPA else OFPXMT_OFB_IPV4_DST) 8
         (le_bytes 4 (nw_dst flow) ++ le_bytes 4 (nw_dst mask))) st
  else Some st.

Definition put_nw6 (flow mask : flow) (st : enc_state) : option enc_state :=
  if nz (dl_type mask) && (htons (dl_type flow) =? ETH_TYPE_IPV6) then
    st ← put_if (ipv6_addr_nonzero (nw6_src mask)) (oxm_put 1 OFPXMT_OFB_IPV6_SRC 32
           (ip6_bytes (nw6_src flow) ++ ip6_bytes (nw6_src mask))) st;
    put_if (ipv6_addr_nonzero (nw6_dst mask)) (oxm_put 1 OFPXMT_OFB_IPV6_DST 32
      (ip6_bytes (nw6_dst flow) ++ ip6_bytes (nw6_dst mask))) st
  else Some st.

Definition is_ip_or_ip6 (flow mask : flow) : bool :=
  nz (dl_type mask) &&
  ((htons (dl_type flow) =? ETH_TYPE_IP) || (htons (dl_type flow) =? ETH_TYPE_IPV6)).

Definition put_tos_proto (flow mask : flow) (st : enc_state) : option enc_state :=
  st ← put_if (is_ip_or_ip6 flow mask && nz (nw_tos mask))
         (oxm_put 0 OFPXMT_OFB_IP_DSCP 1 (le_bytes 1 (nw_tos flow))) st;
  put_if (is_ip_or_ip6 flow mask && nz (nw_proto mask))
    (oxm_put 0 OFPXMT_OFB_IP_PROTO 1 (le_bytes 1 (nw_proto flow))) st.

(** [oxm_src_port] and [oxm_dst_port]; [None] while [has_l4_ports] is false. *)
Definition l4_ports (flow mask : flow) : option (Z * Z) :=
  if is_ip_or_ip6 flow mask && nz (nw_proto mask) then
    if nw_proto flow =? IP_TYPE_TCP then Some (OFPXMT_OFB_TCP_SRC, OFPXMT_OFB_TCP_DST)
    else if nw_proto flow =? IP_TYPE_UDP then Some (OFPXMT_OFB_UDP_SRC, OFPXMT_OFB_UDP_DST)
    else None
  else None.

Definition put_l4 (flow mask : flow) (st : enc_state) : option enc_state :=
  match l4_ports flow mask with
  | Some (oxm_src_port, oxm_dst_port) =>
      st ← put_if (nz (tp_src mask)) (oxm_put 0 oxm_src_port 2 (le_bytes 2 (tp_src flow))) st;
      put_if (nz (tp_dst mask)) (oxm_put 0 oxm_dst_port 2 (le_bytes 2 (tp_dst flow))) st
  | None => Some st
  end.

Definition of131_add_oxm_fields (buf : list Z) (flow mask : flow) : option enc_state :=
  st ← put_port_mdata flow mask (buf, 0%nat);
  st ← put_eth flow mask st;
  st ← put_vlan flow mask st;
  st ← put_mpls flow mask st;
  st ← put_nw4 flow mask st;
  st ← put_nw6 flow mask st;
  st ← put_tos_proto flow mask st;
  put_l4 flow mask st.

Definition C_ALIGN_8B_LEN (len : Z) : Z := Z.land (len + 7) (Z.lnot 7).

(** The buffer is the [struct ofpx_match] and the room behind it. *)
Definition of131_prep_ofpx_match (buf : list Z) (flow mask : flow) : option (list Z * Z) :=
  '(fields, tlv_len) ← of131_add_oxm_fields (drop 4 buf) flow mask;
  let match_len := 4 + Z.of_nat tlv_len in
  buf ← wr_le (take 4 buf ++ fields) 0 2 (htons OFPMT_OXM);
  buf ← wr_le buf 2 2 (htons (u16 match_len));
  Some (buf, C_ALIGN_8B_LEN match_len).

(** ** Decoder *)

Record oxm_hdr := mk_hdr { oh_length : Z; oh_field_hm : Z; oh_class : Z }.

(** [ASSIGN_OXM_HDR] and [NTOH_OXM_HDR]. *)
Definition oxm_hdr_at (p : list Z) : option oxm_hdr :=
  v ← rd_le p 0 4;
  let bs := le_bytes 4 (ntohl v) in
  Some (mk_hdr (le_val (take 1 bs)) (le_val (take 1 (drop 1 bs))) (le_val (drop 2 bs))).

(** A case of the switch: [OxmErr] is [return -1]. *)
Inductive oxm_res := OxmErr | OxmOk (fl m : flow).

Section CASE.
(** [data] lies at [oxm_ptr->data]; [len] is what is left of the match. *)
Context (data : list Z) (h : oxm_hdr) (len : Z) (flow mask : flow).

Definition hm : bool := nz (OFP_OXM_GHDR_HM (oh_field_hm h)).

(** The two size tests of the switch: a field without mask, a field with an
    optional mask. *)
Definition bad_exact (sz : Z) : bool := hm || (len <? sz) || negb (oh_length h =? sz).
Definition min_tlv_len (sz : Z) : Z := if hm then 2 * sz else sz.
Definition bad_masked (sz : Z) : bool :=
  (len <? min_tlv_len sz) || negb (oh_length h =? min_tlv_len sz).

(** The value and the mask of a field of [n] bytes. *)
Definition rd_mask (n : nat) (all : Z) : option Z := if hm then rd_le data n n else Some all.

Definition get_in_port : option oxm_res :=
  if bad_exact 4 then Some OxmErr
  else v ← rd_le data 0 4; Some (OxmOk (set_in_port v flow) (set_in_port UINT32_MAX mask)).

Definition get_eth_dst : option oxm_res :=
  if bad_masked 6 then Some OxmErr
  else a ← rd data 0 6;
       m ← (if hm then rd data 6 6 else Some ones_mac_addr);
       Some (OxmOk (set_dl_dst a flow) (set_dl_dst m mask)).

Definition get_eth_src : option oxm_res :=
  if bad_masked 6 then Some OxmErr
  else a ← rd data 0 6;
       m ← (if hm then rd data 6 6 else Some ones_mac_addr);
       Some (OxmOk (set_dl_src a flow) (set_dl_src m mask)).

Definition get_vlan_vid : option oxm_res :=
  if bad_masked 2 then Some OxmErr
  else v ← rd_le data 0 2;
       let vid := if ntohs v =? OFPVID_PRESENT then htons 0xfff else Z.land v (htons 0xfff) in
       m ← rd_mask 2 UINT16_MAX;
       Some (OxmOk (set_dl_vlan vid flow) (set_dl_vlan m mask)).

Definition get_vlan_pcp : option oxm_res :=
  if bad_exact 1 then Some OxmErr
  else v ← rd_le data 0 1; Some (OxmOk (set_dl_vlan_pcp v flow) (set_dl_vlan_pcp 255 mask)).

Definition get_eth_type : option oxm_res :=
  if bad_exact 2 then Some OxmErr
  else v ← rd_le data 0 2; Some (OxmOk (set_dl_type v flow) (set_dl_type UINT16_MAX mask)).

(** [dl_type] is none of the types: [break] out of the switch. *)
Definition not_mpls : bool :=
  negb (dl_type flow =? htons ETH_TYPE_MPLS) && negb (dl_type flow =? htons ETH_TYPE_MPLS_MCAST).
Definition not_ip : bool :=
  negb (dl_type flow =? htons ETH_TYPE_IP) && negb (dl_type flow =? htons ETH_TYPE_IPV6).
Definition not_tcp_udp : bool :=
  negb (nw_proto flow =? IP_TYPE_UDP) && negb (nw_proto flow =? IP_TYPE_TCP).

Definition of_get_mpls_label_oxm (sz : Z) : option Z :=
  if sz =? 3 then bs ← rd data 0 3; Some (le_val (0 :: bs)) else rd_le data 0 4.

Definition get_mpls_label : option oxm_res :=
  if not_mpls then Some (OxmOk flow mask)
  else if hm || (len <? 4) || (oh_length h <? 4 - 1) then Some OxmErr
  else v ← of_get_mpls_label_oxm (oh_length h);
       Some (OxmOk (set_mpls_label v flow) (set_mpls_label UINT32_MAX mask)).

Definition get_mpls_tc : option oxm_res :=
  if not_mpls then Some (OxmOk flow mask)
  else if bad_exact 1 then Some OxmErr
  else v ← rd_le data 0 1; Some (OxmOk (set_mpls_tc v flow) (set_mpls_tc 255 mask)).

Definition get_mpls_bos : option oxm_res :=
  if not_mpls then Some (OxmOk flow mask)
  else if bad_exact 1 then Some OxmErr
  else v ← rd_le data 0 1; Some (OxmOk (set_mpls_bos v flow) (set_mpls_bos 255 mask)).

(** ARP_SPA/IPV4_SRC and ARP_TPA/IPV4_DST, under their type. *)
Definition get_nw_src (eth_type : Z) : option oxm_res :=
  if negb (dl_type flow =? htons eth_type) then Some (OxmOk flow mask)
  else if bad_masked 4 then Some OxmErr
  else v ← rd_le data 0 4; m ← rd_mask 4 UINT32_MAX;
       Some (OxmOk (set_nw_src v flow) (set_nw_src m mask)).

Definition get_nw_dst (eth_type : Z) : option oxm_res :=
  if negb (dl_type flow =? htons eth_type) then Some (OxmOk flow mask)
  else if bad_masked 4 then Some OxmErr
  else v ← rd_le data 0 4; m ← rd_mask 4 UINT32_MAX;
       Some (OxmOk (set_nw_dst v flow) (set_nw_dst m mask)).

Definition get_ipv6_dst : option oxm_res :=
  if negb (dl_type flow =? htons ETH_TYPE_IPV6) then Some (OxmOk flow mask)
  else if bad_masked 16 then Some OxmErr
  else a ← rd data 0 16;
       m ← (if hm then rd data 16 16 else Some (replicate 16 255));
       Some (OxmOk (set_nw6_dst (bytes_ip6 a) flow) (set_nw6_dst (bytes_ip6 m) mask)).

Definition get_ipv6_src : option oxm_res :=
  if negb (dl_type flow =? htons ETH_TYPE_IPV6) then Some (OxmOk flow mask)
  else if bad_masked 16 then Some OxmErr
  else a ← rd data 0 16;
       m ← (if hm then rd data 16 16 else Some (replicate 16 255));
       Some (OxmOk (set_nw6_src (bytes_ip6 a) flow) (set_nw6_src (bytes_ip6 m) mask)).

Definition get_ip_dscp : option oxm_res :=
  if not_ip then Some (OxmOk flow mask)
  else if bad_exact 1 then Some OxmErr
  else v ← rd_le data 0 1; Some (OxmOk (set_nw_tos v flow) (set_nw_tos 255 mask)).

Definition get_ip_proto : option oxm_res :=
  if not_ip then Some (OxmOk flow mask)
  else if bad_exact 1 then Some OxmErr
  else v ← rd_le data 0 1; Some (OxmOk (set_nw_proto v flow) (set_nw_proto 255 mask)).

(** A source port under the wrong protocol is refused and one of the wrong
    size is skipped; a destination port the other way round. *)
Definition get_tp_src : option oxm_res :=
  if not_ip || not_tcp_udp then Some OxmErr
  else if bad_exact 2 then Some (OxmOk flow mask)
  else v ← rd_le data 0 2; Some (OxmOk (set_tp_src v flow) (set_tp_src UINT16_MAX mask)).

Definition get_tp_dst : option oxm_res :=
  if not_ip || not_tcp_udp then Some (OxmOk flow mask)
  else if bad_exact 2 then Some OxmErr
  else v ← rd_le data 0 2; Some (OxmOk (set_tp_dst v flow) (set_tp_dst UINT16_MAX mask)).

Definition get_tunnel_id : option oxm_res :=
  if bad_masked 8 then Some OxmErr
  else v ← rd_le data 0 8; m ← rd_mask 8 UINT64_MAX;
       Some (OxmOk (set_tunnel_id v flow) (set_tunnel_id m mask)).

Definition get_metadata : option oxm_res :=
  if bad_masked 8 then Some OxmErr
  else v ← rd_le data 0 8; m ← rd_mask 8 UINT64_MAX;
       Some (OxmOk (set_metadata v flow) (set_metadata m mask)).

Definition oxm_switch : option oxm_res :=
  let f := OFP_OXM_GHDR_FIELD (oh_field_hm h) in
  if f =? OFPXMT_OFB_IN_PORT then get_in_port
  else if f =? OFPXMT_OFB_ETH_DST then get_eth_dst
  else if f =? OFPXMT_OFB_ETH_SRC then get_eth_src
  else if f =? OFPXMT_OFB_VLAN_VID then get_vlan_vid
  else if f =? OFPXMT_OFB_VLAN_PCP then get_vlan_pcp
  else if f =? OFPXMT_OFB_ETH_TYPE then get_eth_type
  else if f =? OFPXMT_OFB_MPLS_LABEL then get_mpls_label
  else if f =? OFPXMT_OFB_MPLS_TC then get_mpls_tc
  else if f =? OFPXMT_OFB_MPLS_BOS then get_mpls_bos
  else if f =? OFPXMT_OFB_ARP_SPA then get_nw_src ETH_TYPE_ARP
  else if f =? OFPXMT_OFB_ARP_TPA then get_nw_dst ETH_TYPE_ARP
  else if f =? OFPXMT_OFB_IPV4_SRC then get_nw_src ETH_TYPE_IP
  else if f =? OFPXMT_OFB_IPV4_DST then get_nw_dst ETH_TYPE_IP
  else if f =? OFPXMT_OFB_IPV6_DST then get_ipv6_dst
  else if f =? OFPXMT_OFB_IPV6_SRC then get_ipv6_src
  else if f =? OFPXMT_OFB_IP_DSCP then get_ip_dscp
  else if f =? OFPXMT_OFB_IP_PROTO then get_ip_proto
  else if (f =? OFPXMT_OFB_TCP_SRC) || (f =? OFPXMT_OFB_UDP_SRC) then get_tp_src
  else if (f =? OFPXMT_OFB_TCP_DST) || (f =? OFPXMT_OFB_UDP_DST) then get_tp_dst
  else if f =? OFPXMT_OFB_TUNNEL_ID then get_tunnel_id
  else if f =? OFPXMT_OFB_METADATA then get_metadata
  else Some (OxmOk flow mask).

End CASE.

(** The loop over the fields; [p] is [oxm_ptr].  The code refuses the 33rd
    field, so [fuel] 33 is never exhausted. *)
Fixpoint oxm_loop (fuel : nat) (p : list Z) (len n_tlvs : Z) (flow mask : flow)
  : option (Z * Flow.flow * Flow.flow) :=
  match fuel with
  | O => None
  | S fuel =>
      if 4 <? len then
        h ← oxm_hdr_at p;
        if negb (oh_class h =? OFPXMC_OPENFLOW_BASIC) || (OFP_MAX_OXM_TLVS <=? n_tlvs)
        then Some (-1, flow, mask)
        else
          r ← oxm_switch (drop 4 p) h len flow mask;
          match r with
          | OxmErr => Some (-1, flow, mask)
          | OxmOk flow mask =>
              oxm_loop fuel (drop (Z.to_nat (oh_length h) + 4) p)
                (len - (oh_length h + 4)) (n_tlvs + 1) flow mask
          end
      else Some (0, flow, mask)
  end.

Definition of131_ofpx_match_to_flow (buf : list Z) : option (Z * flow * flow) :=
  l ← rd_le buf 2 2;
  let len := ntohs l in
  if len <? 8 then Some (0, zero_flow, zero_flow)
  else
    t ← rd_le buf 0 2;
    if negb (ntohs t =? OFPMT_OXM) then Some (-1, zero_flow, zero_flow)
    else oxm_loop 33 (drop 4 buf) (len - 4) 0 zero_flow zero_flow.

End Oxm.
