(* ===== verification/OxmSpec.v ===== *)
(** * Properties of the OXM encoder and decoder

    The list of fields that a match stands for ([oxm_tlvs]) is the abstract
    form of the message.  The encoder writes exactly its bytes
    ([add_oxm_fields_tlvs]), the decoder applies its fields one after the other
    ([oxm_loop_tlvs]); the round trip is then a statement about the list. *)
From stdpp Require Import base list.
From Stdlib Require Import ZArith Lia.
From S2P Require Import Prelude Bytes Flow Oxm.
Import Oxm.
#[local] Open Scope Z_scope.

(** ** Abstract fields *)

Record tlv := mk_tlv { t_hm : bool; t_field : Z; t_data : list Z }.

Definition b2z (b : bool) : Z := if b then 1 else 0.

Definition enc_tlv (t : tlv) : list Z :=
  [128; 0; 2 * t_field t + b2z (t_hm t); Z.of_nat (length (t_data t))] ++ t_data t.

Definition enc (ts : list tlv) : list Z := concat (map enc_tlv ts).

Definition tlv_ok (t : tlv) : Prop :=
  0 <= t_field t < 128 /\ (length (t_data t) < 256)%nat /\ (0 < length (t_data t))%nat.

Definition opt (c : bool) (t : tlv) : list tlv := if c then [t] else [].

Definition vlan_payload (flow : flow) : list Z :=
  if nz (dl_vlan flow) then
    le_bytes 2 (Z.lor (if dl_vlan flow =? htons 0xfff then 0 else dl_vlan flow) (htons OFPVID_PRESENT))
  else [0; 0].

Section TLVS.
Context (fl m : flow).

Definition tlvs_port : list tlv :=
  opt (nz (in_port m)) (mk_tlv false OFPXMT_OFB_IN_PORT (le_bytes 4 (in_port fl))) ++
  opt (nz (metadata m)) (mk_tlv true OFPXMT_OFB_METADATA (le_bytes 8 (metadata fl) ++ le_bytes 8 (metadata m))).

Definition tlvs_eth : list tlv :=
  opt (negb (mac_eq (dl_dst m) zero_mac_addr)) (mk_tlv false OFPXMT_OFB_ETH_DST (dl_dst fl)) ++
  opt (negb (mac_eq (dl_src m) zero_mac_addr)) (mk_tlv false OFPXMT_OFB_ETH_SRC (dl_src fl)) ++
  opt (nz (dl_type m)) (mk_tlv false OFPXMT_OFB_ETH_TYPE (le_bytes 2 (dl_type fl))).

Definition tlvs_vlan : list tlv :=
  opt (nz (dl_vlan m)) (mk_tlv false OFPXMT_OFB_VLAN_VID (vlan_payload fl)) ++
  opt (nz (dl_vlan m) && nz (dl_vlan_pcp m))
    (mk_tlv false OFPXMT_OFB_VLAN_PCP (le_bytes 1 (dl_vlan_pcp fl))).

Definition sel (t : Z) : bool := nz (dl_type m) && (htons (dl_type fl) =? t).

Definition tlvs_mpls : list tlv :=
  if nz (dl_type m) && ((htons (dl_type fl) =? ETH_TYPE_MPLS) || (htons (dl_type fl) =? ETH_TYPE_MPLS_MCAST))
  then
    opt (nz (mpls_label m)) (mk_tlv false OFPXMT_OFB_MPLS_LABEL (le_bytes 4 (mpls_label fl))) ++
    opt (nz (mpls_tc m)) (mk_tlv false OFPXMT_OFB_MPLS_TC (le_bytes 1 (mpls_tc fl))) ++
    opt (nz (mpls_bos m)) (mk_tlv false OFPXMT_OFB_MPLS_BOS (le_bytes 1 (mpls_bos fl)))
  else [].

Definition tlvs_nw4 : list tlv :=
  if nz (dl_type m) && ((htons (dl_type fl) =? ETH_TYPE_ARP) || (htons (dl_type fl) =? ETH_TYPE_IP))
  then
    let arp := htons (dl_type fl) =? ETH_TYPE_ARP in
    opt (nz (nw_src m)) (mk_tlv true (if arp then OFPXMT_OFB_ARP_SPA else OFPXMT_OFB_IPV4_SRC)
      (le_bytes 4 (nw_src fl) ++ le_bytes 4 (nw_src m))) ++
    opt (nz (nw_dst m)) (mk_tlv true (if arp then OFPXMT_OFB_ARP_TPA else OFPXMT_OFB_IPV4_DST)
      (le_bytes 4 (nw_dst fl) ++ le_bytes 4 (nw_dst m)))
  else [].

Definition tlvs_nw6 : list tlv :=
  if nz (dl_type m) && (htons (dl_type fl) =? ETH_TYPE_IPV6) then
    opt (ipv6_addr_nonzero (nw6_src m)) (mk_tlv true OFPXMT_OFB_IPV6_SRC
      (ip6_bytes (nw6_src fl) ++ ip6_bytes (nw6_src m))) ++
    opt (ipv6_addr_nonzero (nw6_dst m)) (mk_tlv true OFPXMT_OFB_IPV6_DST
      (ip6_bytes (nw6_dst fl) ++ ip6_bytes (nw6_dst m)))
  else [].

Definition tlvs_tos_proto : list tlv :=
  opt (is_ip_or_ip6 fl m && nz (nw_tos m)) (mk_tlv false OFPXMT_OFB_IP_DSCP (le_bytes 1 (nw_tos fl))) ++
  opt (is_ip_or_ip6 fl m && nz (nw_proto m)) (mk_tlv false OFPXMT_OFB_IP_PROTO (le_bytes 1 (nw_proto fl))).

Definition tlvs_l4 : list tlv :=
  match l4_ports fl m with
  | Some (s, d) =>
      opt (nz (tp_src m)) (mk_tlv false s (le_bytes 2 (tp_src fl))) ++
      opt (nz (tp_dst m)) (mk_tlv false d (le_bytes 2 (tp_dst fl)))
  | None => []
  end.

(** The OXM fields of a match. *)
Definition oxm_tlvs : list tlv :=
  tlvs_port ++ tlvs_eth ++ tlvs_vlan ++ tlvs_mpls ++ tlvs_nw4 ++ tlvs_nw6 ++ tlvs_tos_proto ++ tlvs_l4.

End TLVS.

(** ** Encoder *)

(** A cleared buffer behind what has been written. *)
Definition zbuf (pre : list Z) (k : nat) : enc_state := (pre ++ replicate k 0, length pre).

Lemma enc_app a b : enc (a ++ b) = enc a ++ enc b.
Proof. unfold enc. by rewrite map_app, concat_app. Qed.

Lemma enc_tlv_length t : length (enc_tlv t) = (4 + length (t_data t))%nat.
Proof. unfold enc_tlv. rewrite length_app. done. Qed.

(** On a cleared byte the macros give the field and the mask bit. *)
Lemma field_hm_clear f b : 0 <= f < 128 ->
  OFP_OXM_SHDR_FIELD (OFP_OXM_SHDR_HM 0 (b2z b)) f = 2 * f + b2z b.
Proof.
  intros Hf. apply Z.eqb_eq. destruct b.
  - apply (range_enum (fun f => OFP_OXM_SHDR_FIELD (OFP_OXM_SHDR_HM 0 1) f =? 2 * f + 1) 128);
      [vm_compute; reflexivity|lia].
  - apply (range_enum (fun f => OFP_OXM_SHDR_FIELD (OFP_OXM_SHDR_HM 0 0) f =? 2 * f + 0) 128);
      [vm_compute; reflexivity|lia].
Qed.

(** The header as stored: byte-swapped. *)
Lemma hdr_bytes (l fh : Z) : is_byte l -> is_byte fh ->
  le_bytes 4 (htonl (le_val ([l; fh] ++ le_bytes 2 OFPXMC_OPENFLOW_BASIC))) = [128; 0; fh; l].
Proof.
  intros Hl Hf. unfold htonl. rewrite le_bytes_bswap.
  change (le_bytes 2 OFPXMC_OPENFLOW_BASIC) with [0; 128]. cbn [app].
  pose proof (le_bytes_le_val [l; fh; 0; 128]) as H. cbn [length] in H. rewrite H; [done|].
  repeat (constructor; [done|]). constructor.
Qed.

(** [data] is what the code stores; what it leaves out stays zero. *)
Lemma oxm_put_zbuf (b : bool) f (len : nat) data pre k :
  0 <= f < 128 -> (len < 256)%nat -> (length data <= len)%nat -> (4 + len <= k)%nat ->
  oxm_put (b2z b) f (Z.of_nat len) data (zbuf pre k) =
  Some (zbuf (pre ++ enc_tlv (mk_tlv b f (data ++ replicate (len - length data) 0))) (k - (4 + len))).
Proof.
  intros Hf Hlen Hd Hk. unfold oxm_put, zbuf.
  assert (u8 (Z.of_nat len) = Z.of_nat len) as Hu by (unfold u8; apply Z.mod_small; lia).
  rewrite Hu.
  assert (replicate k 0 = [0] ++ [0] ++ [0; 0] ++ replicate (length data) 0 ++
    replicate (len - length data) 0 ++ replicate (k - (4 + len)) 0) as ->.
  { rewrite <- !replicate_add.
    replace k with (4 + (length data + (len - length data + (k - (4 + len)))))%nat at 1 by lia. done. }
  unfold rd_le. rewrite (app_assoc pre [0]).
  rewrite rd_app_mid by (rewrite ?length_app; cbn; lia). cbn [mbind option_bind].
  change (le_val [0]) with 0. rewrite field_hm_clear by done. unfold wr_le.
  assert (is_byte (2 * f + b2z b)) by (unfold is_byte; destruct b; cbn; lia).
  rewrite hdr_bytes by (unfold is_byte in *; lia || done).
  rewrite <- (app_assoc pre [0]).
  rewrite (app_assoc [0] [0]), (app_assoc ([0] ++ [0]) [0; 0]).
  rewrite wr_app_mid by done. cbn [mbind option_bind].
  rewrite (app_assoc pre).
  rewrite wr_app_mid by (rewrite ?length_app, ?length_replicate; cbn; lia).
  cbn [mbind option_bind]. rewrite Nat2Z.id. f_equal. unfold enc_tlv. cbn [t_hm t_field t_data].
  f_equal.
  - rewrite length_app, length_replicate, <- !app_assoc.
    replace (length data + (len - length data))%nat with len by lia. done.
  - rewrite !length_app, length_replicate. cbn. lia.
Qed.

Lemma put_if_tlv c b h f z data pre k :
  h = b2z b -> z = Z.of_nat (length data) -> 0 <= f < 128 -> (length data < 256)%nat ->
  (4 + length data <= k)%nat ->
  let e := enc (opt c (mk_tlv b f data)) in
  put_if c (oxm_put h f z data) (zbuf pre k) = Some (zbuf (pre ++ e) (k - length e)) /\
  (length e <= 4 + length data)%nat.
Proof.
  intros -> -> Hf Hl Hk. destruct c; cbn [put_if opt].
  - unfold enc. cbn [map concat]. rewrite app_nil_r, enc_tlv_length. cbn [t_data].
    rewrite oxm_put_zbuf by lia. rewrite Nat.sub_diag. cbn [replicate]. by rewrite app_nil_r.
  - cbn. rewrite app_nil_r, Nat.sub_0_r. split; [done|lia].
Qed.

Lemma zbuf_app pre a b k : zbuf ((pre ++ a) ++ b) (k - length a - length b) =
  zbuf (pre ++ (a ++ b)) (k - length (a ++ b)).
Proof. by rewrite length_app, app_assoc, Nat.sub_add_distr. Qed.

(** A group of the encoder writes its fields; it needs room for [n] bytes. *)
Definition writes (n : nat) (f : enc_state -> option enc_state) (ts : list tlv) : Prop :=
  forall pre k, (n <= k)%nat ->
    f (zbuf pre k) = Some (zbuf (pre ++ enc ts) (k - length (enc ts))) /\ (length (enc ts) <= n)%nat.

Lemma writes_nil : writes 0 Some [].
Proof. intros pre k _. cbn. rewrite app_nil_r, Nat.sub_0_r. split; [done|lia]. Qed.

Lemma writes_le n n' f ts : writes n f ts -> (n <= n')%nat -> writes n' f ts.
Proof. intros H Hn pre k Hk. destruct (H pre k) as [? ?]; [lia|]. split; [done|lia]. Qed.

Lemma writes_bind n1 n2 f g ts1 ts2 :
  writes n1 f ts1 -> writes n2 g ts2 -> writes (n1 + n2) (fun st => st ← f st; g st) (ts1 ++ ts2).
Proof.
  intros H1 H2 pre k Hk. destruct (H1 pre k) as [E1 L1]; [lia|]. rewrite E1. cbn [mbind option_bind].
  destruct (H2 (pre ++ enc ts1) (k - length (enc ts1))%nat) as [E2 L2]; [lia|]. rewrite E2.
  rewrite enc_app, zbuf_app, length_app. split; [done|lia].
Qed.

Lemma writes_tlv c b h f z data n :
  h = b2z b -> z = Z.of_nat (length data) -> 0 <= f < 128 -> (length data < 256)%nat ->
  n = (4 + length data)%nat ->
  writes n (put_if c (oxm_put h f z data)) (opt c (mk_tlv b f data)).
Proof. intros ? ? ? ? -> pre k Hk. by apply put_if_tlv. Qed.

Lemma writes_if n (c : bool) f ts :
  writes n f ts -> writes n (fun st => if c then f st else Some st) (if c then ts else []).
Proof. intros H. destruct c; [done|]. eapply writes_le; [exact writes_nil|lia]. Qed.

(** Flows as C has them: every field within its width. *)
Definition ip6_wf (a : ipv6_addr) : Prop :=
  0 <= w0 a < 2 ^ 32 /\ 0 <= w1 a < 2 ^ 32 /\ 0 <= w2 a < 2 ^ 32 /\ 0 <= w3 a < 2 ^ 32.

Record flow_wf (f : flow) : Prop := {
  wf_in_port : 0 <= in_port f < 2 ^ 32;
  wf_vlan : 0 <= dl_vlan f < 2 ^ 16;
  wf_type : 0 <= dl_type f < 2 ^ 16;
  wf_dst : length (dl_dst f) = 6%nat;
  wf_src : length (dl_src f) = 6%nat;
  wf_pcp : 0 <= dl_vlan_pcp f < 2 ^ 8;
  wf_tos : 0 <= nw_tos f < 2 ^ 8;
  wf_proto : 0 <= nw_proto f < 2 ^ 8;
  wf_label : 0 <= mpls_label f < 2 ^ 32;
  wf_tp_src : 0 <= tp_src f < 2 ^ 16;
  wf_tp_dst : 0 <= tp_dst f < 2 ^ 16;
  wf_src6 : ip6_wf (nw6_src f);
  wf_dst6 : ip6_wf (nw6_dst f);
  wf_tunnel : 0 <= tunnel_id f < 2 ^ 64;
  wf_metadata : 0 <= metadata f < 2 ^ 64;
  wf_bos : 0 <= mpls_bos f < 2 ^ 8;
  wf_tc : 0 <= mpls_tc f < 2 ^ 8 }.

Section ENCODE.
Context (fl m : flow) (Hfl : flow_wf fl).

Ltac tlv_side := rewrite ?length_app, ?le_bytes_length; try rewrite (wf_dst fl Hfl);
  try rewrite (wf_src fl Hfl); cbn; first [done | lia].

Lemma put_port_writes : writes 28 (put_port_mdata fl m) (tlvs_port fl m).
Proof.
  unfold put_port_mdata, tlvs_port. apply (writes_bind 8 20); apply writes_tlv; tlv_side.
Qed.

Lemma put_eth_writes : writes 26 (put_eth fl m) (tlvs_eth fl m).
Proof.
  unfold put_eth, tlvs_eth. apply (writes_bind 10 16); [|apply (writes_bind 10 6)];
    apply writes_tlv; tlv_side.
Qed.

Lemma put_vlan_writes : writes 11 (put_vlan fl m) (tlvs_vlan fl m).
Proof.
  unfold put_vlan, tlvs_vlan. apply (writes_bind 6 5); [|apply writes_tlv; tlv_side].
  unfold vlan_data, vlan_payload. destruct (nz (dl_vlan fl)); [apply writes_tlv; tlv_side|].
  intros pre k Hk. destruct (nz (dl_vlan m)); cbn [put_if opt]; [|by apply (writes_le 0 6); [exact writes_nil|lia|]].
  pose proof (oxm_put_zbuf false OFPXMT_OFB_VLAN_VID 2 [] pre k) as H. cbn [b2z length app replicate] in H.
  change (Z.of_nat 2) with 2 in H. rewrite H by (unfold OFPXMT_OFB_VLAN_VID; lia).
  cbn. split; [done|lia].
Qed.

Lemma put_mpls_writes : writes 18 (put_mpls fl m) (tlvs_mpls fl m).
Proof.
  unfold put_mpls, tlvs_mpls. apply writes_if. apply (writes_bind 8 10); [|apply (writes_bind 5 5)];
    apply writes_tlv; tlv_side.
Qed.

Lemma put_nw4_writes : writes 24 (put_nw4 fl m) (tlvs_nw4 fl m).
Proof.
  unfold put_nw4, tlvs_nw4. apply writes_if. cbv zeta.
  apply (writes_bind 12 12); apply writes_tlv; try tlv_side; by case_match.
Qed.

Lemma ip6_bytes_length a : length (ip6_bytes a) = 16%nat.
Proof. unfold ip6_bytes. by rewrite !length_app, !le_bytes_length. Qed.

Lemma put_nw6_writes : writes 72 (put_nw6 fl m) (tlvs_nw6 fl m).
Proof.
  unfold put_nw6, tlvs_nw6. apply writes_if.
  apply (writes_bind 36 36); apply writes_tlv; rewrite ?length_app, ?ip6_bytes_length; cbn; first [done|lia].
Qed.

Lemma put_tos_proto_writes : writes 10 (put_tos_proto fl m) (tlvs_tos_proto fl m).
Proof. unfold put_tos_proto, tlvs_tos_proto. apply (writes_bind 5 5); apply writes_tlv; tlv_side. Qed.

Lemma put_l4_writes : writes 12 (put_l4 fl m) (tlvs_l4 fl m).
Proof.
  unfold put_l4, tlvs_l4. destruct (l4_ports fl m) as [[s d]|] eqn:E; [|eapply writes_le; [exact writes_nil|lia]].
  assert (0 <= s < 128 /\ 0 <= d < 128) as [? ?].
  { unfold l4_ports in E. repeat case_match; simplify_eq; done. }
  apply (writes_bind 6 6); apply writes_tlv; first [done | tlv_side].
Qed.

(** The encoder writes exactly the fields of the match. *)
Lemma add_oxm_fields_tlvs k :
  (201 <= k)%nat ->
  of131_add_oxm_fields (replicate k 0) fl m =
    Some (zbuf (enc (oxm_tlvs fl m)) (k - length (enc (oxm_tlvs fl m)))) /\
  (length (enc (oxm_tlvs fl m)) <= 201)%nat.
Proof.
  intros Hk.
  assert (writes 201 (fun st =>
    st ← put_port_mdata fl m st; st ← put_eth fl m st; st ← put_vlan fl m st;
    st ← put_mpls fl m st; st ← put_nw4 fl m st; st ← put_nw6 fl m st;
    st ← put_tos_proto fl m st; put_l4 fl m st) (oxm_tlvs fl m)) as H.
  { unfold oxm_tlvs. apply (writes_bind 28 173); [apply put_port_writes|].
    apply (writes_bind 26 147); [apply put_eth_writes|]. apply (writes_bind 11 136); [apply put_vlan_writes|].
    apply (writes_bind 18 118); [apply put_mpls_writes|]. apply (writes_bind 24 94); [apply put_nw4_writes|].
    apply (writes_bind 72 22); [apply put_nw6_writes|].
    apply (writes_bind 10 12); [apply put_tos_proto_writes|apply put_l4_writes]. }
  exact (H [] k Hk).
Qed.

End ENCODE.

(** ** Decoder *)

Lemma rd_app data post o n : (o + n <= length data)%nat -> rd (data ++ post) o n = rd data o n.
Proof.
  intros H. rewrite !rd_Some by (rewrite ?length_app; lia).
  by rewrite drop_app_le, take_app_le by (rewrite ?length_drop; lia).
Qed.

Lemma rd_le_app data post o n : (o + n <= length data)%nat -> rd_le (data ++ post) o n = rd_le data o n.
Proof. intros H. unfold rd_le. by rewrite rd_app. Qed.

Lemma rd_le_is_Some buf off n : (off + n <= length buf)%nat -> is_Some (rd_le buf off n).
Proof. intros H. unfold rd_le. rewrite rd_Some by done. cbn. eauto. Qed.

Lemma bad_exact_false h len sz :
  bad_exact h len sz = false -> hm h = false /\ oh_length h = sz /\ sz <= len.
Proof. unfold bad_exact. intros H. breflect. done. Qed.

Lemma bad_masked_false h len sz :
  bad_masked h len sz = false -> oh_length h = (if hm h then 2 * sz else sz) /\ oh_length h <= len.
Proof. unfold bad_masked, min_tlv_len. intros H. breflect. split; [done|]. lia. Qed.

(** The size tests do not depend on what follows a complete field. *)
Lemma bad_exact_len h len len' sz :
  oh_length h <= len -> oh_length h <= len' -> bad_exact h len sz = bad_exact h len' sz.
Proof.
  intros. unfold bad_exact. destruct (Z.eqb_spec (oh_length h) sz); cbn [negb].
  - rewrite !(proj2 (Z.ltb_ge _ _)) by lia. done.
  - by rewrite !orb_true_r.
Qed.

Lemma bad_masked_len h len len' sz :
  oh_length h <= len -> oh_length h <= len' -> bad_masked h len sz = bad_masked h len' sz.
Proof.
  intros. unfold bad_masked. destruct (Z.eqb_spec (oh_length h) (min_tlv_len h sz)); cbn [negb].
  - rewrite !(proj2 (Z.ltb_ge _ _)) by lia. done.
  - by rewrite !orb_true_r.
Qed.

(** The cases of the switch, one after the other. *)
Ltac switch_cases :=
  unfold oxm_switch; cbv zeta;
  repeat match goal with |- context [if ?b then _ else _] =>
    lazymatch b with context [OFP_OXM_GHDR_FIELD] => destruct b | _ => fail end end;
  unfold get_in_port, get_eth_dst, get_eth_src, get_vlan_vid, get_vlan_pcp, get_eth_type, get_mpls_label,
    get_mpls_tc, get_mpls_bos, get_nw_src, get_nw_dst, get_ipv6_dst, get_ipv6_src, get_ip_dscp,
    get_ip_proto, get_tp_src, get_tp_dst, get_tunnel_id, get_metadata, of_get_mpls_label_oxm, rd_mask.

Ltac size_facts :=
  repeat match goal with
  | H : bad_exact _ _ _ = false |- _ => apply bad_exact_false in H; destruct H as (? & ? & ?)
  | H : bad_masked _ _ _ = false |- _ => apply bad_masked_false in H; destruct H as (? & ?)
  | H : (hm _ || _ || _) = false |- _ => breflect
  | H : hm ?h = _, H' : context [if hm ?h then _ else _] |- _ => rewrite H in H'
  end.

(** A case reads nothing behind its field. *)
Lemma switch_extend data post h len len' fl m :
  oh_length h = Z.of_nat (length data) -> 4 + oh_length h <= len -> 4 + oh_length h <= len' ->
  oxm_switch (data ++ post) h len' fl m = oxm_switch data h len fl m.
Proof.
  intros Hl H1 H2. switch_cases; try done;
    rewrite ?(bad_exact_len h len' len), ?(bad_masked_len h len' len) by lia;
    rewrite ?(proj2 (Z.ltb_ge len 4)), ?(proj2 (Z.ltb_ge len' 4)) by lia;
    repeat match goal with |- context [if ?b then _ else _] =>
      lazymatch b with context [if _ then _ else _] => fail | _ => destruct b eqn:? end end; try done;
    size_facts; rewrite ?rd_le_app, ?rd_app by (breflect; lia); done.
Qed.

(** A case reads at most the rest of the match and four bytes. *)
Lemma switch_no_fault data h len fl m :
  len <= Z.of_nat (length data) -> is_Some (oxm_switch data h len fl m).
Proof.
  intros Hl. switch_cases;
    repeat match goal with |- context [if ?b then _ else _] =>
      lazymatch b with context [if _ then _ else _] => fail | _ => destruct b eqn:? end end;
    try (eexists; reflexivity); size_facts; breflect;
    rewrite ?rd_Some by lia; unfold rd_le; rewrite ?rd_Some by lia; cbn [mbind option_bind]; eauto.
Qed.

Lemma ghdr_field f b : 0 <= f < 128 -> OFP_OXM_GHDR_FIELD (2 * f + b2z b) = f.
Proof.
  intros Hf. unfold OFP_OXM_GHDR_FIELD. rewrite Z.shiftr_div_pow2 by lia.
  change (2 ^ 1) with 2. change 255 with (Z.ones 8). rewrite Z.land_ones by lia.
  replace ((2 * f + b2z b) / 2) with f; [apply Z.mod_small; change (2 ^ 8) with 256; lia|].
  destruct b; cbn [b2z]; Z.div_mod_to_equations; lia.
Qed.

Lemma ghdr_hm l f b c : hm (mk_hdr l (2 * f + b2z b) c) = b.
Proof.
  unfold hm, nz, OFP_OXM_GHDR_HM. cbn [oh_field_hm]. change 1 with (Z.ones 1) at 1.
  rewrite Z.land_ones by lia. change (2 ^ 1) with 2.
  rewrite Z.add_comm, (Z.mul_comm 2), Z.mod_add by lia. by destruct b.
Qed.

Definition tlv_hdr (t : tlv) : oxm_hdr :=
  mk_hdr (Z.of_nat (length (t_data t))) (2 * t_field t + b2z (t_hm t)) OFPXMC_OPENFLOW_BASIC.

Lemma enc_tlv_app t post : enc_tlv t ++ post =
  [128; 0; 2 * t_field t + b2z (t_hm t); Z.of_nat (length (t_data t))] ++ (t_data t ++ post).
Proof. unfold enc_tlv. by rewrite <- app_assoc. Qed.

Lemma hdr_at_enc t post : tlv_ok t -> oxm_hdr_at (enc_tlv t ++ post) = Some (tlv_hdr t).
Proof.
  intros (Hf & Hl & _). unfold oxm_hdr_at, rd_le. rewrite enc_tlv_app.
  match goal with |- context [rd (?h ++ ?r) 0 4] =>
    rewrite (rd_app_mid [] h r 0 4 eq_refl eq_refl : rd (h ++ r) 0 4 = Some h) end.
  cbn [mbind option_bind]. f_equal.
  unfold ntohl. rewrite le_bytes_bswap.
  assert (is_byte (2 * t_field t + b2z (t_hm t))) by (unfold is_byte; destruct (t_hm t); cbn; lia).
  match goal with |- context [le_val [?a; ?b; ?c; ?d]] => pose proof (le_bytes_le_val [a; b; c; d]) as H0 end.
  cbn [length] in H0. rewrite H0 by (repeat (constructor; [unfold is_byte in *; lia|]); constructor).
  cbn [rev app take drop]. unfold tlv_hdr, le_val. f_equal; lia.
Qed.

Lemma drop_enc t post : drop 4 (enc_tlv t ++ post) = t_data t ++ post.
Proof. by rewrite enc_tlv_app. Qed.

(** The effect of one field, read on its own. *)
Definition apply_tlv (t : tlv) (s : flow * flow) : option (flow * flow) :=
  match oxm_switch (t_data t) (tlv_hdr t) (4 + Z.of_nat (length (t_data t))) s.1 s.2 with
  | Some (OxmOk fl m) => Some (fl, m)
  | _ => None
  end.

Fixpoint apply_tlvs (ts : list tlv) (s : flow * flow) : option (flow * flow) :=
  match ts with
  | [] => Some s
  | t :: ts => s ← apply_tlv t s; apply_tlvs ts s
  end.

Lemma apply_tlvs_app a b s : apply_tlvs (a ++ b) s = s ← apply_tlvs a s; apply_tlvs b s.
Proof.
  revert s. induction a as [|t a IH]; intros s; cbn; [done|].
  destruct (apply_tlv t s); cbn; [apply IH|done].
Qed.

(** The decoder applies the fields of an encoded list in turn. *)
Lemma oxm_loop_tlvs ts : forall fuel n post fl m fl' m',
  Forall tlv_ok ts -> (length ts < fuel)%nat -> 0 <= n -> n + Z.of_nat (length ts) <= OFP_MAX_OXM_TLVS ->
  apply_tlvs ts (fl, m) = Some (fl', m') ->
  oxm_loop fuel (enc ts ++ post) (Z.of_nat (length (enc ts))) n fl m = Some (0, fl', m').
Proof.
  induction ts as [|t ts IH]; intros fuel n post fl m fl' m' Hok Hfuel Hn Hmax Ha;
    (destruct fuel as [|fuel]; [cbn in Hfuel; lia|]); cbn [oxm_loop].
  - cbn in Ha. by simplify_eq.
  - apply Forall_cons in Hok as [Ht Hok]. cbn [apply_tlvs] in Ha.
    apply bind_Some in Ha as ([fl1 m1] & Ha & Hrest).
    change (enc (t :: ts)) with (enc_tlv t ++ enc ts). rewrite <- app_assoc.
    rewrite hdr_at_enc by done. rewrite length_app, enc_tlv_length.
    destruct Ht as (Hf & Hl & Hl0). rewrite (proj2 (Z.ltb_lt _ _)) by lia.
    cbn [mbind option_bind oh_class tlv_hdr]. cbn [length] in *.
    rewrite (proj2 (Z.leb_gt _ _)) by lia. rewrite Z.eqb_refl. cbn [negb orb].
    unfold apply_tlv in Ha. cbn [fst snd] in Ha. rewrite drop_enc. fold (tlv_hdr t).
    rewrite (switch_extend (t_data t) _ _ (4 + Z.of_nat (length (t_data t)))) by (cbn; lia).
    destruct (oxm_switch _ _ _ _ _) as [[|fl2 m2]|]; simplify_eq. cbn [mbind option_bind oh_length tlv_hdr].
    replace (drop _ _) with (enc ts ++ post).
    2: { symmetry. apply drop_app_length'. rewrite enc_tlv_length. lia. }
    replace (Z.of_nat _ - _) with (Z.of_nat (length (enc ts))) by lia.
    apply (IH fuel); try done; lia.
Qed.

(** ** The effect of the encoder's fields *)

Lemma rd_whole bs n : n = length bs -> rd bs 0 n = Some bs.
Proof. intros ->. rewrite rd_Some by lia. by rewrite drop_0, firstn_all. Qed.

Lemma rd_le_one n v : 0 <= v < 256 ^ Z.of_nat n -> rd_le (le_bytes n v) 0 n = Some v.
Proof.
  intros Hv. unfold rd_le. rewrite rd_whole by (by rewrite le_bytes_length). cbn.
  by rewrite le_val_le_bytes.
Qed.

Lemma rd_le_fst n v w : 0 <= v < 256 ^ Z.of_nat n -> rd_le (le_bytes n v ++ le_bytes n w) 0 n = Some v.
Proof. intros Hv. rewrite rd_le_app by (rewrite le_bytes_length; lia). by apply rd_le_one. Qed.

Lemma rd_snd a b n : length a = n -> length b = n -> rd (a ++ b) n n = Some b.
Proof.
  intros Ha Hb. rewrite <- (app_nil_r b) at 1. by apply rd_app_mid.
Qed.

Lemma rd_le_snd n v w : 0 <= w < 256 ^ Z.of_nat n -> rd_le (le_bytes n v ++ le_bytes n w) n n = Some w.
Proof.
  intros Hw. unfold rd_le. rewrite rd_snd by apply le_bytes_length. cbn. by rewrite le_val_le_bytes.
Qed.

Lemma bytes_ip6_bytes a : ip6_wf a -> bytes_ip6 (ip6_bytes a) = a.
Proof.
  intros (H0 & H1 & H2 & H3). unfold bytes_ip6, ip6_bytes.
  assert (forall v (r : list Z), take 4 (le_bytes 4 v ++ r) = le_bytes 4 v) as T.
  { intros. apply take_app_length'. by rewrite le_bytes_length. }
  assert (forall v (r : list Z), drop 4 (le_bytes 4 v ++ r) = r) as D.
  { intros. apply drop_app_length'. by rewrite le_bytes_length. }
  change 12%nat with (4 + (4 + 4))%nat. change 8%nat with (4 + 4)%nat.
  rewrite <- !drop_drop, !D, !T.
  rewrite (firstn_all2 (le_bytes 4 (w3 a))) by (by rewrite le_bytes_length).
  rewrite !le_val_le_bytes by done. by destruct a.
Qed.

Lemma bad_exact_tlv t len sz :
  t_hm t = false -> Z.of_nat (length (t_data t)) = sz -> sz <= len -> bad_exact (tlv_hdr t) len sz = false.
Proof.
  intros Hh Hl Hs. unfold bad_exact, tlv_hdr. rewrite ghdr_hm, Hh. cbn [oh_length].
  rewrite Hl, Z.eqb_refl, (proj2 (Z.ltb_ge _ _)) by lia. done.
Qed.

Lemma bad_masked_tlv t len sz :
  Z.of_nat (length (t_data t)) = (if t_hm t then 2 * sz else sz) ->
  Z.of_nat (length (t_data t)) <= len -> bad_masked (tlv_hdr t) len sz = false.
Proof.
  intros Hl Hs. unfold bad_masked, min_tlv_len, tlv_hdr. rewrite ghdr_hm. cbn [oh_length].
  rewrite <- Hl, Z.eqb_refl, (proj2 (Z.ltb_ge _ _)) by lia. done.
Qed.

Lemma hm_tlv t : hm (tlv_hdr t) = t_hm t.
Proof. apply ghdr_hm. Qed.

Lemma field_tlv t : 0 <= t_field t < 128 -> OFP_OXM_GHDR_FIELD (oh_field_hm (tlv_hdr t)) = t_field t.
Proof. apply ghdr_field. Qed.

(** Select the case of a field and run it. *)
Ltac tlv_case :=
  unfold apply_tlv, oxm_switch; rewrite field_tlv by (cbn; done); cbn [t_field fst snd t_data];
  repeat match goal with |- context [?a =? ?b] =>
    lazymatch a with
    | OFPXMT_OFB_IN_PORT => idtac | OFPXMT_OFB_METADATA => idtac | OFPXMT_OFB_ETH_DST => idtac
    | OFPXMT_OFB_ETH_SRC => idtac | OFPXMT_OFB_ETH_TYPE => idtac | OFPXMT_OFB_VLAN_VID => idtac
    | OFPXMT_OFB_VLAN_PCP => idtac | OFPXMT_OFB_IP_DSCP => idtac | OFPXMT_OFB_IP_PROTO => idtac
    | OFPXMT_OFB_IPV4_SRC => idtac | OFPXMT_OFB_IPV4_DST => idtac | OFPXMT_OFB_TCP_SRC => idtac
    | OFPXMT_OFB_TCP_DST => idtac | OFPXMT_OFB_UDP_SRC => idtac | OFPXMT_OFB_UDP_DST => idtac
    | OFPXMT_OFB_ARP_SPA => idtac | OFPXMT_OFB_ARP_TPA => idtac | OFPXMT_OFB_IPV6_SRC => idtac
    | OFPXMT_OFB_IPV6_DST => idtac | OFPXMT_OFB_MPLS_LABEL => idtac | OFPXMT_OFB_MPLS_TC => idtac
    | OFPXMT_OFB_MPLS_BOS => idtac
    end; let r := eval vm_compute in (a =? b) in change (a =? b) with r end;
  cbn [orb].

Ltac tlv_len := cbn [t_data t_hm]; rewrite ?length_app, ?le_bytes_length, ?ip6_bytes_length; cbn; lia.

Section APPLY.
Context (a b : flow).

Lemma ap_in_port v : 0 <= v < 2 ^ 32 ->
  apply_tlv (mk_tlv false OFPXMT_OFB_IN_PORT (le_bytes 4 v)) (a, b) =
  Some (set_in_port v a, set_in_port UINT32_MAX b).
Proof.
  intros Hv. tlv_case. unfold get_in_port. rewrite bad_exact_tlv by (done || tlv_len).
  by rewrite rd_le_one.
Qed.

Lemma ap_metadata v w : 0 <= v < 2 ^ 64 -> 0 <= w < 2 ^ 64 ->
  apply_tlv (mk_tlv true OFPXMT_OFB_METADATA (le_bytes 8 v ++ le_bytes 8 w)) (a, b) =
  Some (set_metadata v a, set_metadata w b).
Proof.
  intros Hv Hw. tlv_case. unfold get_metadata, rd_mask. rewrite bad_masked_tlv by tlv_len.
  rewrite hm_tlv. cbn [t_hm]. by rewrite rd_le_fst, rd_le_snd.
Qed.

Lemma ap_eth_dst v : length v = 6%nat ->
  apply_tlv (mk_tlv false OFPXMT_OFB_ETH_DST v) (a, b) = Some (set_dl_dst v a, set_dl_dst ones_mac_addr b).
Proof.
  intros Hv. tlv_case. unfold get_eth_dst. rewrite bad_masked_tlv by (cbn [t_data t_hm]; rewrite Hv; cbn; lia).
  rewrite hm_tlv. by rewrite rd_whole.
Qed.

Lemma ap_eth_src v : length v = 6%nat ->
  apply_tlv (mk_tlv false OFPXMT_OFB_ETH_SRC v) (a, b) = Some (set_dl_src v a, set_dl_src ones_mac_addr b).
Proof.
  intros Hv. tlv_case. unfold get_eth_src. rewrite bad_masked_tlv by (cbn [t_data t_hm]; rewrite Hv; cbn; lia).
  rewrite hm_tlv. by rewrite rd_whole.
Qed.

Lemma ap_eth_type v : 0 <= v < 2 ^ 16 ->
  apply_tlv (mk_tlv false OFPXMT_OFB_ETH_TYPE (le_bytes 2 v)) (a, b) =
  Some (set_dl_type v a, set_dl_type UINT16_MAX b).
Proof.
  intros Hv. tlv_case. unfold get_eth_type. rewrite bad_exact_tlv by (done || tlv_len).
  by rewrite rd_le_one.
Qed.

Lemma ap_vlan_pcp v : 0 <= v < 2 ^ 8 ->
  apply_tlv (mk_tlv false OFPXMT_OFB_VLAN_PCP (le_bytes 1 v)) (a, b) =
  Some (set_dl_vlan_pcp v a, set_dl_vlan_pcp 255 b).
Proof.
  intros Hv. tlv_case. unfold get_vlan_pcp. rewrite bad_exact_tlv by (done || tlv_len).
  by rewrite rd_le_one.
Qed.

(** The VLAN id as the encoder stores it. *)
Definition vlan_stored (v : Z) : Z :=
  if nz v then Z.lor (if v =? htons 0xfff then 0 else v) (htons OFPVID_PRESENT) else 0.

Lemma vlan_decode x : 0 <= x < 4096 ->
  let v := vlan_stored (htons x) in
  0 <= v < 65536 /\
  (if ntohs v =? OFPVID_PRESENT then htons 0xfff else Z.land v (htons 0xfff)) = htons x.
Proof.
  intros Hx. pose proof (range_enum (fun x => let v := vlan_stored (htons x) in
    (0 <=? v) && (v <? 65536) &&
    ((if ntohs v =? OFPVID_PRESENT then htons 0xfff else Z.land v (htons 0xfff)) =? htons x)) 4096 x
    ltac:(vm_compute; reflexivity) ltac:(lia)) as H.
  cbn beta zeta in *. breflect. done.
Qed.

Lemma ap_vlan_vid f : 0 <= dl_vlan f < 2 ^ 16 -> ntohs (dl_vlan f) <= 0xfff ->
  apply_tlv (mk_tlv false OFPXMT_OFB_VLAN_VID (vlan_payload f)) (a, b) =
  Some (set_dl_vlan (dl_vlan f) a, set_dl_vlan UINT16_MAX b).
Proof.
  intros Hv Hx. assert (dl_vlan f = htons (ntohs (dl_vlan f))) as E.
  { symmetry. by apply (bswap_involutive 2). }
  destruct (vlan_decode (ntohs (dl_vlan f))) as [Hr Hd].
  { pose proof (bswap_range 2 (dl_vlan f)). unfold ntohs in *. lia. }
  rewrite <- E in Hr, Hd.
  assert (vlan_payload f = le_bytes 2 (vlan_stored (dl_vlan f))) as ->.
  { unfold vlan_payload, vlan_stored. by destruct (nz (dl_vlan f)). }
  tlv_case. unfold get_vlan_vid, rd_mask. rewrite bad_masked_tlv by tlv_len.
  rewrite hm_tlv. cbn [t_hm]. rewrite rd_le_one by done. cbn [mbind option_bind]. by rewrite Hd.
Qed.

(** Fields that are read only under their protocol. *)
Lemma ap_mpls_label v : dl_type a = htons ETH_TYPE_MPLS \/ dl_type a = htons ETH_TYPE_MPLS_MCAST ->
  0 <= v < 2 ^ 32 ->
  apply_tlv (mk_tlv false OFPXMT_OFB_MPLS_LABEL (le_bytes 4 v)) (a, b) =
  Some (set_mpls_label v a, set_mpls_label UINT32_MAX b).
Proof.
  intros Ht Hv. tlv_case. unfold get_mpls_label, not_mpls, of_get_mpls_label_oxm.
  replace (_ && _) with false by (destruct Ht as [-> | ->]; reflexivity).
  rewrite hm_tlv. cbn [t_hm oh_length tlv_hdr t_data]. rewrite le_bytes_length. cbn [orb].
  change (4 + Z.of_nat 4 <? 4) with false. change (Z.of_nat 4 <? 4 - 1) with false.
  change (Z.of_nat 4 =? 3) with false. cbn [orb]. by rewrite rd_le_one.
Qed.

Lemma ap_mpls_tc v : dl_type a = htons ETH_TYPE_MPLS \/ dl_type a = htons ETH_TYPE_MPLS_MCAST ->
  0 <= v < 2 ^ 8 ->
  apply_tlv (mk_tlv false OFPXMT_OFB_MPLS_TC (le_bytes 1 v)) (a, b) = Some (set_mpls_tc v a, set_mpls_tc 255 b).
Proof.
  intros Ht Hv. tlv_case. unfold get_mpls_tc, not_mpls.
  replace (_ && _) with false by (destruct Ht as [-> | ->]; reflexivity).
  rewrite bad_exact_tlv by (done || tlv_len). by rewrite rd_le_one.
Qed.

Lemma ap_mpls_bos v : dl_type a = htons ETH_TYPE_MPLS \/ dl_type a = htons ETH_TYPE_MPLS_MCAST ->
  0 <= v < 2 ^ 8 ->
  apply_tlv (mk_tlv false OFPXMT_OFB_MPLS_BOS (le_bytes 1 v)) (a, b) = Some (set_mpls_bos v a, set_mpls_bos 255 b).
Proof.
  intros Ht Hv. tlv_case. unfold get_mpls_bos, not_mpls.
  replace (_ && _) with false by (destruct Ht as [-> | ->]; reflexivity).
  rewrite bad_exact_tlv by (done || tlv_len). by rewrite rd_le_one.
Qed.

Lemma ap_nw_src (arp : bool) v w :
  dl_type a = htons (if arp then ETH_TYPE_ARP else ETH_TYPE_IP) -> 0 <= v < 2 ^ 32 -> 0 <= w < 2 ^ 32 ->
  apply_tlv (mk_tlv true (if arp then OFPXMT_OFB_ARP_SPA else OFPXMT_OFB_IPV4_SRC)
    (le_bytes 4 v ++ le_bytes 4 w)) (a, b) = Some (set_nw_src v a, set_nw_src w b).
Proof.
  intros Ht Hv Hw. destruct arp; tlv_case; unfold get_nw_src, rd_mask; rewrite Ht, Z.eqb_refl; cbn [negb];
    rewrite bad_masked_tlv by tlv_len; rewrite hm_tlv; cbn [t_hm]; by rewrite rd_le_fst, rd_le_snd.
Qed.

Lemma ap_nw_dst (arp : bool) v w :
  dl_type a = htons (if arp then ETH_TYPE_ARP else ETH_TYPE_IP) -> 0 <= v < 2 ^ 32 -> 0 <= w < 2 ^ 32 ->
  apply_tlv (mk_tlv true (if arp then OFPXMT_OFB_ARP_TPA else OFPXMT_OFB_IPV4_DST)
    (le_bytes 4 v ++ le_bytes 4 w)) (a, b) = Some (set_nw_dst v a, set_nw_dst w b).
Proof.
  intros Ht Hv Hw. destruct arp; tlv_case; unfold get_nw_dst, rd_mask; rewrite Ht, Z.eqb_refl; cbn [negb];
    rewrite bad_masked_tlv by tlv_len; rewrite hm_tlv; cbn [t_hm]; by rewrite rd_le_fst, rd_le_snd.
Qed.

Lemma ap_ipv6_src v w : dl_type a = htons ETH_TYPE_IPV6 -> ip6_wf v -> ip6_wf w ->
  apply_tlv (mk_tlv true OFPXMT_OFB_IPV6_SRC (ip6_bytes v ++ ip6_bytes w)) (a, b) =
  Some (set_nw6_src v a, set_nw6_src w b).
Proof.
  intros Ht Hv Hw. tlv_case. unfold get_ipv6_src. rewrite Ht, Z.eqb_refl. cbn [negb].
  rewrite bad_masked_tlv by tlv_len. rewrite hm_tlv. cbn [t_hm].
  rewrite (rd_app _ _ 0 16), rd_whole by (rewrite ip6_bytes_length; lia).
  rewrite rd_snd by apply ip6_bytes_length. cbn [mbind option_bind].
  by rewrite !bytes_ip6_bytes.
Qed.

Lemma ap_ipv6_dst v w : dl_type a = htons ETH_TYPE_IPV6 -> ip6_wf v -> ip6_wf w ->
  apply_tlv (mk_tlv true OFPXMT_OFB_IPV6_DST (ip6_bytes v ++ ip6_bytes w)) (a, b) =
  Some (set_nw6_dst v a, set_nw6_dst w b).
Proof.
  intros Ht Hv Hw. tlv_case. unfold get_ipv6_dst. rewrite Ht, Z.eqb_refl. cbn [negb].
  rewrite bad_masked_tlv by tlv_len. rewrite hm_tlv. cbn [t_hm].
  rewrite (rd_app _ _ 0 16), rd_whole by (rewrite ip6_bytes_length; lia).
  rewrite rd_snd by apply ip6_bytes_length. cbn [mbind option_bind].
  by rewrite !bytes_ip6_bytes.
Qed.

Definition ip_typed (f : flow) : Prop := dl_type f = htons ETH_TYPE_IP \/ dl_type f = htons ETH_TYPE_IPV6.

Lemma ap_ip_dscp v : ip_typed a -> 0 <= v < 2 ^ 8 ->
  apply_tlv (mk_tlv false OFPXMT_OFB_IP_DSCP (le_bytes 1 v)) (a, b) = Some (set_nw_tos v a, set_nw_tos 255 b).
Proof.
  intros Ht Hv. tlv_case. unfold get_ip_dscp, not_ip.
  replace (_ && _) with false by (destruct Ht as [-> | ->]; reflexivity).
  rewrite bad_exact_tlv by (done || tlv_len). by rewrite rd_le_one.
Qed.

Lemma ap_ip_proto v : ip_typed a -> 0 <= v < 2 ^ 8 ->
  apply_tlv (mk_tlv false OFPXMT_OFB_IP_PROTO (le_bytes 1 v)) (a, b) = Some (set_nw_proto v a, set_nw_proto 255 b).
Proof.
  intros Ht Hv. tlv_case. unfold get_ip_proto, not_ip.
  replace (_ && _) with false by (destruct Ht as [-> | ->]; reflexivity).
  rewrite bad_exact_tlv by (done || tlv_len). by rewrite rd_le_one.
Qed.

Definition l4_typed (f : flow) : Prop := ip_typed f /\ (nw_proto f = IP_TYPE_TCP \/ nw_proto f = IP_TYPE_UDP).

Lemma l4_typed_tests : l4_typed a -> not_ip a || not_tcp_udp a = false.
Proof.
  intros [[H1 | H1] [H2 | H2]]; unfold not_ip, not_tcp_udp; rewrite H1, H2; reflexivity.
Qed.

Lemma ap_tp_src (udp : bool) v : l4_typed a -> 0 <= v < 2 ^ 16 ->
  apply_tlv (mk_tlv false (if udp then OFPXMT_OFB_UDP_SRC else OFPXMT_OFB_TCP_SRC) (le_bytes 2 v)) (a, b) =
  Some (set_tp_src v a, set_tp_src UINT16_MAX b).
Proof.
  intros Ht Hv. destruct udp; tlv_case; unfold get_tp_src; rewrite l4_typed_tests by done;
    rewrite bad_exact_tlv by (done || tlv_len); by rewrite rd_le_one.
Qed.

Lemma ap_tp_dst (udp : bool) v : l4_typed a -> 0 <= v < 2 ^ 16 ->
  apply_tlv (mk_tlv false (if udp then OFPXMT_OFB_UDP_DST else OFPXMT_OFB_TCP_DST) (le_bytes 2 v)) (a, b) =
  Some (set_tp_dst v a, set_tp_dst UINT16_MAX b).
Proof.
  intros Ht Hv. destruct udp; tlv_case; unfold get_tp_dst; rewrite l4_typed_tests by done;
    rewrite bad_exact_tlv by (done || tlv_len); by rewrite rd_le_one.
Qed.
End APPLY.

(** ** What the message carries of a match *)

Section IMAGE.
Context (fl m : flow).

Definition is_mpls : bool :=
  nz (dl_type m) && ((htons (dl_type fl) =? ETH_TYPE_MPLS) || (htons (dl_type fl) =? ETH_TYPE_MPLS_MCAST)).
Definition is_nw4 : bool :=
  nz (dl_type m) && ((htons (dl_type fl) =? ETH_TYPE_ARP) || (htons (dl_type fl) =? ETH_TYPE_IP)).
Definition is_nw6 : bool := nz (dl_type m) && (htons (dl_type fl) =? ETH_TYPE_IPV6).
Definition is_l4 : bool :=
  is_ip_or_ip6 fl m && nz (nw_proto m) && ((nw_proto fl =? IP_TYPE_TCP) || (nw_proto fl =? IP_TYPE_UDP)).

(** [keep c x] is [x] where the match has the field. *)
Definition keep (c : bool) (x : Z) : Z := if c then x else 0.
Definition keep_mac (mask x : list Z) : list Z := if negb (mac_eq mask zero_mac_addr) then x else zero_mac_addr.

Definition oxm_flow : flow :=
  mk_flow (keep (nz (in_port m)) (in_port fl)) (keep (nz (dl_vlan m)) (dl_vlan fl))
    (keep (nz (dl_type m)) (dl_type fl)) (keep_mac (dl_dst m) (dl_dst fl)) (keep_mac (dl_src m) (dl_src fl))
    (keep (nz (dl_vlan m) && nz (dl_vlan_pcp m)) (dl_vlan_pcp fl)) 0
    (keep (is_ip_or_ip6 fl m && nz (nw_tos m)) (nw_tos fl))
    (keep (is_ip_or_ip6 fl m && nz (nw_proto m)) (nw_proto fl))
    (keep (is_mpls && nz (mpls_label m)) (mpls_label fl))
    (keep (is_l4 && nz (tp_src m)) (tp_src fl)) (keep (is_l4 && nz (tp_dst m)) (tp_dst fl))
    (if is_nw6 && ipv6_addr_nonzero (nw6_src m) then nw6_src fl
     else mk_ip6 (keep (is_nw4 && nz (nw_src m)) (nw_src fl)) (keep (is_nw4 && nz (nw_dst m)) (nw_dst fl)) 0 0)
    (if is_nw6 && ipv6_addr_nonzero (nw6_dst m) then nw6_dst fl else ip6_zero)
    0 (keep (nz (metadata m)) (metadata fl))
    (keep (is_mpls && nz (mpls_bos m)) (mpls_bos fl)) (keep (is_mpls && nz (mpls_tc m)) (mpls_tc fl))
    (replicate 6 0).

Definition oxm_mask : flow :=
  mk_flow (keep (nz (in_port m)) UINT32_MAX) (keep (nz (dl_vlan m)) UINT16_MAX)
    (keep (nz (dl_type m)) UINT16_MAX) (keep_mac (dl_dst m) ones_mac_addr) (keep_mac (dl_src m) ones_mac_addr)
    (keep (nz (dl_vlan m) && nz (dl_vlan_pcp m)) 255) 0
    (keep (is_ip_or_ip6 fl m && nz (nw_tos m)) 255)
    (keep (is_ip_or_ip6 fl m && nz (nw_proto m)) 255)
    (keep (is_mpls && nz (mpls_label m)) UINT32_MAX)
    (keep (is_l4 && nz (tp_src m)) UINT16_MAX) (keep (is_l4 && nz (tp_dst m)) UINT16_MAX)
    (if is_nw6 && ipv6_addr_nonzero (nw6_src m) then nw6_src m
     else mk_ip6 (keep (is_nw4 && nz (nw_src m)) (nw_src m)) (keep (is_nw4 && nz (nw_dst m)) (nw_dst m)) 0 0)
    (if is_nw6 && ipv6_addr_nonzero (nw6_dst m) then nw6_dst m else ip6_zero)
    0 (keep (nz (metadata m)) (metadata m))
    (keep (is_mpls && nz (mpls_bos m)) 255) (keep (is_mpls && nz (mpls_tc m)) 255)
    (replicate 6 0).

End IMAGE.

(** A field that may be absent, as an assignment of a conditional value. *)
Lemma opt_set {A} (get : flow -> A) (set : A -> flow -> flow) (z z' : A) c t v w a b :
  get a = z -> get b = z' -> (forall f, set (get f) f = f) ->
  (c = true -> apply_tlv t (a, b) = Some (set v a, set w b)) ->
  apply_tlvs (opt c t) (a, b) = Some (set (if c then v else z) a, set (if c then w else z') b).
Proof.
  intros <- <- Hid Ht. destruct c; cbn [opt apply_tlvs].
  - by rewrite Ht.
  - by rewrite !Hid.
Qed.

Lemma if_opt3 (c c1 c2 c3 : bool) t1 t2 t3 :
  (if c then opt c1 t1 ++ opt c2 t2 ++ opt c3 t3 else []) =
  opt (c && c1) t1 ++ opt (c && c2) t2 ++ opt (c && c3) t3.
Proof. by destruct c. Qed.

Lemma if_opt2 (c c1 c2 : bool) t1 t2 :
  (if c then opt c1 t1 ++ opt c2 t2 else []) = opt (c && c1) t1 ++ opt (c && c2) t2.
Proof. by destruct c. Qed.

Lemma tlvs_l4_opt fl m :
  tlvs_l4 fl m =
  opt (is_l4 fl m && nz (tp_src m)) (mk_tlv false
    (if negb (nw_proto fl =? IP_TYPE_TCP) then OFPXMT_OFB_UDP_SRC else OFPXMT_OFB_TCP_SRC) (le_bytes 2 (tp_src fl))) ++
  opt (is_l4 fl m && nz (tp_dst m)) (mk_tlv false
    (if negb (nw_proto fl =? IP_TYPE_TCP) then OFPXMT_OFB_UDP_DST else OFPXMT_OFB_TCP_DST) (le_bytes 2 (tp_dst fl))).
Proof.
  unfold tlvs_l4, l4_ports, is_l4. destruct (is_ip_or_ip6 fl m && nz (nw_proto m)); cbn [andb]; [|done].
  destruct (nw_proto fl =? IP_TYPE_TCP); cbn [orb andb negb]; [done|].
  by destruct (nw_proto fl =? IP_TYPE_UDP).
Qed.

Lemma type_of_htons fl t : 0 <= dl_type fl < 2 ^ 16 -> htons (dl_type fl) =? t = true -> dl_type fl = htons t.
Proof. intros H He. apply Z.eqb_eq in He. subst t. symmetry. by apply (bswap_involutive 2). Qed.

Ltac eta_flow := intros [? ? ? ? ? ? ? ? ? ? ? ? [] ? ? ? ? ? ?]; reflexivity.

(** The type in the structure being filled, from the test [H] of the encoder. *)
Ltac typed_goal H Hf :=
  cbn [dl_type nw_proto set_in_port set_dl_vlan set_dl_type set_dl_dst set_dl_src set_dl_vlan_pcp
    set_nw_tos set_nw_proto set_mpls_label set_tp_src set_tp_dst set_nw6_src set_nw6_dst
    set_metadata set_mpls_bos set_mpls_tc set_nw_src set_nw_dst];
  let H1 := fresh in let H2 := fresh in
  apply andb_prop in H as [H _]; apply andb_prop in H as [H1 H2]; rewrite H1;
  revert H2.

Ltac typed1 H Hf := typed_goal H Hf; apply type_of_htons, Hf.
Ltac typed2 H Hf := unfold is_ip_or_ip6, ip_typed in *; typed_goal H Hf; let E := fresh in
  intros E; apply orb_prop in E as [E|E]; [left|right]; revert E; apply type_of_htons, Hf.
Ltac typed4 H Hf := typed_goal H Hf; let E := fresh in
  intros E; destruct (htons _ =? ETH_TYPE_ARP) eqn:?; cbn [orb] in E;
  [by apply type_of_htons; [apply Hf|]|by apply type_of_htons; [apply Hf|]].
Ltac typed_l4 H Hf :=
  apply andb_prop in H as [H _]; let P := fresh in apply andb_prop in H as [H P]; split;
  [typed2 H Hf|
   cbn [dl_type nw_proto set_in_port set_dl_vlan set_dl_type set_dl_dst set_dl_src set_dl_vlan_pcp
    set_nw_tos set_nw_proto set_mpls_label set_tp_src set_tp_dst set_nw6_src set_nw6_dst
    set_metadata set_mpls_bos set_mpls_tc set_nw_src set_nw_dst];
   rewrite H; apply orb_prop in P as [P|P]; apply Z.eqb_eq in P; auto].

(** The fields of a match, applied to cleared structures. *)
Lemma apply_oxm_tlvs fl m :
  flow_wf fl -> flow_wf m -> ntohs (dl_vlan fl) <= 0xfff ->
  apply_tlvs (oxm_tlvs fl m) (zero_flow, zero_flow) = Some (oxm_flow fl m, oxm_mask fl m).
Proof.
  intros Hf Hm Hv. unfold oxm_tlvs, tlvs_mpls, tlvs_nw4, tlvs_nw6. rewrite tlvs_l4_opt, if_opt3, !if_opt2.
  unfold tlvs_port, tlvs_eth, tlvs_vlan, tlvs_tos_proto. rewrite <- !app_assoc, !apply_tlvs_app.
  rewrite (opt_set in_port set_in_port 0 0 _ _ (in_port fl) UINT32_MAX);
    [|reflexivity|reflexivity|eta_flow|intros _; apply ap_in_port, Hf]. cbn [mbind option_bind]. rewrite !apply_tlvs_app.
  rewrite (opt_set metadata set_metadata 0 0 _ _ (metadata fl) (metadata m));
    [|reflexivity|reflexivity|eta_flow|intros _; apply ap_metadata; [apply Hf|apply Hm]]. cbn [mbind option_bind]. rewrite !apply_tlvs_app.
  rewrite (opt_set dl_dst set_dl_dst zero_mac_addr zero_mac_addr _ _ (dl_dst fl) ones_mac_addr);
    [|reflexivity|reflexivity|eta_flow|intros _; apply ap_eth_dst, Hf]. cbn [mbind option_bind]. rewrite !apply_tlvs_app.
  rewrite (opt_set dl_src set_dl_src zero_mac_addr zero_mac_addr _ _ (dl_src fl) ones_mac_addr);
    [|reflexivity|reflexivity|eta_flow|intros _; apply ap_eth_src, Hf]. cbn [mbind option_bind]. rewrite !apply_tlvs_app.
  rewrite (opt_set dl_type set_dl_type 0 0 _ _ (dl_type fl) UINT16_MAX);
    [|reflexivity|reflexivity|eta_flow|intros _; apply ap_eth_type, Hf]. cbn [mbind option_bind]. rewrite !apply_tlvs_app.
  rewrite (opt_set dl_vlan set_dl_vlan 0 0 _ _ (dl_vlan fl) UINT16_MAX);
    [|reflexivity|reflexivity|eta_flow|intros _; apply ap_vlan_vid; [apply Hf|done]]. cbn [mbind option_bind]. rewrite !apply_tlvs_app.
  rewrite (opt_set dl_vlan_pcp set_dl_vlan_pcp 0 0 _ _ (dl_vlan_pcp fl) 255);
    [|reflexivity|reflexivity|eta_flow|intros _; apply ap_vlan_pcp, Hf]. cbn [mbind option_bind]. rewrite !apply_tlvs_app.
  rewrite (opt_set mpls_label set_mpls_label 0 0 _ _ (mpls_label fl) UINT32_MAX);
    [|reflexivity|reflexivity|eta_flow|intros H; apply ap_mpls_label; [typed2 H Hf|apply Hf]]. cbn [mbind option_bind]. rewrite !apply_tlvs_app.
  rewrite (opt_set mpls_tc set_mpls_tc 0 0 _ _ (mpls_tc fl) 255);
    [|reflexivity|reflexivity|eta_flow|intros H; apply ap_mpls_tc; [typed2 H Hf|apply Hf]]. cbn [mbind option_bind]. rewrite !apply_tlvs_app.
  rewrite (opt_set mpls_bos set_mpls_bos 0 0 _ _ (mpls_bos fl) 255);
    [|reflexivity|reflexivity|eta_flow|intros H; apply ap_mpls_bos; [typed2 H Hf|apply Hf]]. cbn [mbind option_bind]. rewrite !apply_tlvs_app.
  rewrite (opt_set nw_src set_nw_src 0 0 _ _ (nw_src fl) (nw_src m));
    [|reflexivity|reflexivity|eta_flow|intros H; apply ap_nw_src; [typed4 H Hf|apply (wf_src6 fl Hf)|apply (wf_src6 m Hm)]].
  cbn [mbind option_bind]. rewrite !apply_tlvs_app.
  rewrite (opt_set nw_dst set_nw_dst 0 0 _ _ (nw_dst fl) (nw_dst m));
    [|reflexivity|reflexivity|eta_flow|intros H; apply ap_nw_dst; [typed4 H Hf|apply (wf_src6 fl Hf)|apply (wf_src6 m Hm)]].
  cbn [mbind option_bind]. rewrite !apply_tlvs_app.
  rewrite (opt_set nw6_src set_nw6_src (mk_ip6 (keep (is_nw4 fl m && nz (nw_src m)) (nw_src fl)) (keep (is_nw4 fl m && nz (nw_dst m)) (nw_dst fl)) 0 0)
    (mk_ip6 (keep (is_nw4 fl m && nz (nw_src m)) (nw_src m)) (keep (is_nw4 fl m && nz (nw_dst m)) (nw_dst m)) 0 0) _ _ (nw6_src fl) (nw6_src m));
    [|reflexivity|reflexivity|eta_flow|intros H; apply ap_ipv6_src; [typed1 H Hf|apply Hf|apply Hm]].
  cbn [mbind option_bind]. rewrite !apply_tlvs_app.
  rewrite (opt_set nw6_dst set_nw6_dst ip6_zero ip6_zero _ _ (nw6_dst fl) (nw6_dst m));
    [|reflexivity|reflexivity|eta_flow|intros H; apply ap_ipv6_dst; [typed1 H Hf|apply Hf|apply Hm]].
  cbn [mbind option_bind]. rewrite !apply_tlvs_app.
  rewrite (opt_set nw_tos set_nw_tos 0 0 _ _ (nw_tos fl) 255);
    [|reflexivity|reflexivity|eta_flow|intros H; apply ap_ip_dscp; [typed2 H Hf|apply Hf]]. cbn [mbind option_bind]. rewrite !apply_tlvs_app.
  rewrite (opt_set nw_proto set_nw_proto 0 0 _ _ (nw_proto fl) 255);
    [|reflexivity|reflexivity|eta_flow|intros H; apply ap_ip_proto; [typed2 H Hf|apply Hf]]. cbn [mbind option_bind]. rewrite !apply_tlvs_app.
  rewrite (opt_set tp_src set_tp_src 0 0 _ _ (tp_src fl) UINT16_MAX);
    [|reflexivity|reflexivity|eta_flow|intros H; apply ap_tp_src; [typed_l4 H Hf|apply Hf]]. cbn [mbind option_bind]. rewrite ?apply_tlvs_app.
  rewrite (opt_set tp_dst set_tp_dst 0 0 _ _ (tp_dst fl) UINT16_MAX);
    [|reflexivity|reflexivity|eta_flow|intros H; apply ap_tp_dst; [typed_l4 H Hf|apply Hf]].
  reflexivity.
Qed.

Lemma opt_ok c t : tlv_ok t -> Forall tlv_ok (opt c t).
Proof. intros H. destruct c; cbn; auto. Qed.

Lemma oxm_tlvs_ok fl m : flow_wf fl -> Forall tlv_ok (oxm_tlvs fl m) /\ (length (oxm_tlvs fl m) <= 18)%nat.
Proof.
  intros Hf. unfold oxm_tlvs, tlvs_mpls, tlvs_nw4, tlvs_nw6. rewrite tlvs_l4_opt, if_opt3, !if_opt2.
  unfold tlvs_port, tlvs_eth, tlvs_vlan, tlvs_tos_proto. split.
  - rewrite !Forall_app. split_and!; apply opt_ok; unfold tlv_ok, vlan_payload; cbn [t_field t_data];
      rewrite ?length_app, ?le_bytes_length, ?ip6_bytes_length, ?(wf_dst fl Hf), ?(wf_src fl Hf);
      repeat case_match; rewrite ?le_bytes_length; cbn; (split; [done|lia]).
  - assert (forall c t, (length (opt c t) <= 1)%nat) as H by (intros [] t; cbn; lia).
    rewrite !length_app.
    repeat match goal with |- context [length (opt ?c ?t)] =>
      pose proof (H c t); generalize dependent (length (opt c t)); intros end. lia.
Qed.

Lemma wr_le_head a b c d rest n v : n = 2%nat ->
  wr_le (a :: b :: c :: d :: rest) 0 n v = Some (le_bytes 2 v ++ c :: d :: rest).
Proof. intros ->. apply (wr_app_mid [] [a; b]); [done|by rewrite le_bytes_length]. Qed.

Lemma wr_le_second a c d rest v :
  length a = 2%nat -> wr_le (a ++ c :: d :: rest) 2 2 v = Some (a ++ le_bytes 2 v ++ rest).
Proof. intros Ha. apply (wr_app_mid a [c; d]); [done|by rewrite le_bytes_length]. Qed.

(** The message of a match: type, length, fields, and zeros. *)
Lemma prep_ofpx_match_bytes fl m k :
  flow_wf fl -> (205 <= k)%nat ->
  let e := enc (oxm_tlvs fl m) in
  of131_prep_ofpx_match (replicate k 0) fl m =
    Some (le_bytes 2 (htons OFPMT_OXM) ++ le_bytes 2 (htons (4 + Z.of_nat (length e))) ++
          e ++ replicate (k - 4 - length e) 0, C_ALIGN_8B_LEN (4 + Z.of_nat (length e))) /\
  (length e <= 201)%nat.
Proof.
  intros Hf Hk e. unfold of131_prep_ofpx_match.
  assert (replicate k 0 = [0; 0; 0; 0] ++ replicate (k - 4) 0) as ->.
  { change [0; 0; 0; 0] with (replicate 4 0). rewrite <- replicate_add. f_equal. lia. }
  cbn [app skipn firstn]. rewrite drop_0, take_0. cbn [app].
  destruct (add_oxm_fields_tlvs fl m Hf (k - 4)) as [E L]; [lia|]. rewrite E. fold e in E, L |- *.
  unfold zbuf. cbn [mbind option_bind].
  rewrite wr_le_head by done. cbn [mbind option_bind].
  rewrite wr_le_second by apply le_bytes_length. cbn [mbind option_bind]. unfold u16. rewrite Z.mod_small by lia. done.
Qed.


(** ** Bounds of the decoder *)

Lemma hdr_length_nonneg p h : oxm_hdr_at p = Some h -> 0 <= oh_length h < 256.
Proof.
  unfold oxm_hdr_at. intros H. inv_bind. subst h. cbn [oh_length].
  pose proof (le_val_range (take 1 (le_bytes 4 (ntohl x)))) as R.
  rewrite length_take, le_bytes_length in R. apply R. apply Forall_take, le_bytes_bytes.
Qed.

Lemma oxm_loop_total fuel : forall p len n fl m,
  0 <= n <= OFP_MAX_OXM_TLVS -> OFP_MAX_OXM_TLVS < n + Z.of_nat fuel ->
  (len <= 4 \/ len + 4 <= Z.of_nat (length p)) ->
  exists r fl' m', oxm_loop fuel p len n fl m = Some (r, fl', m') /\ (r = 0 \/ r = -1).
Proof.
  induction fuel as [|fuel IH]; intros p len n fl m Hn Hf Hp; cbn [oxm_loop]; [lia|].
  destruct (Z.ltb_spec 4 len) as [Hlen|]; [|by eexists _, _, _; split; [done|left]].
  destruct Hp as [|Hp]; [lia|].
  destruct (oxm_hdr_at p) as [h|] eqn:Eh.
  2: { unfold oxm_hdr_at in Eh. destruct (rd_le_is_Some p 0 4) as [v Hv]; [lia|]. by rewrite Hv in Eh. }
  cbn [mbind option_bind]. pose proof (hdr_length_nonneg p h Eh) as Hl.
  destruct (negb _ || _) eqn:Et; [by eexists _, _, _; split; [done|right]|]. breflect.
  destruct (switch_no_fault (drop 4 p) h len fl m) as [r Hr]; [rewrite length_drop; lia|].
  rewrite Hr. cbn [mbind option_bind]. destruct r as [|fl1 m1]; [by eexists _, _, _; split; [done|right]|].
  apply IH; [lia|lia|]. rewrite length_drop. lia.
Qed.

(** C36: bounds and termination of the decoder.  On any message whose buffer
    extends four bytes beyond the length that its header states (and has at least
    twelve bytes), [of131_ofpx_match_to_flow] reads only inside the buffer, stops
    after at most 33 rounds of its loop, and returns 0 or -1. *)
Theorem ofpx_match_to_flow_total buf l :
  rd_le buf 2 2 = Some l -> Z.max 8 (ntohs l) + 4 <= Z.of_nat (length buf) ->
  exists r fl m, of131_ofpx_match_to_flow buf = Some (r, fl, m) /\ (r = 0 \/ r = -1).
Proof.
  intros Hl Hb. unfold of131_ofpx_match_to_flow. rewrite Hl. cbn [mbind option_bind].
  destruct (ntohs l <? 8); [by eexists _, _, _; split; [done|left]|].
  destruct (rd_le_is_Some buf 0 2) as [t ->]; [lia|]. cbn [mbind option_bind].
  destruct (negb _); [by eexists _, _, _; split; [done|right]|].
  apply oxm_loop_total; unfold OFP_MAX_OXM_TLVS; [lia|lia|]. right. rewrite length_drop. lia.
Qed.

(** Without the four extra bytes the decoder reads past the message: an input
    port field of which only one payload byte is left. *)
Lemma ofpx_match_overread :
  of131_ofpx_match_to_flow [0; 1; 0; 9; 128; 0; 0; 4; 1] = None.
Proof. vm_compute. reflexivity. Qed.

(** Under a wrong protocol a source port is refused and a destination port
    skipped. *)
Lemma l4_port_errors a b d len h :
  not_ip a || not_tcp_udp a = true ->
  get_tp_src d h len a b = Some OxmErr /\ get_tp_dst d h len a b = Some (OxmOk a b).
Proof. intros H. unfold get_tp_src, get_tp_dst. by rewrite H. Qed.

(** ** Witnesses *)

Definition tcp_flow : flow :=
  set_tp_dst (htons 80) (set_nw_proto 6 (set_nw_dst 7 (set_dl_type (htons ETH_TYPE_IP)
    (set_dl_vlan (htons 10) (set_in_port 3 zero_flow))))).
Definition tcp_mask : flow :=
  set_tp_dst UINT16_MAX (set_nw_proto 255 (set_nw_dst UINT32_MAX (set_dl_type UINT16_MAX
    (set_dl_vlan UINT16_MAX (set_in_port UINT32_MAX zero_flow))))).


Lemma ofpx_match_to_flow_total_witness :
  exists r, of131_ofpx_match_to_flow [0; 1; 0; 9; 128; 0; 0; 4; 1; 0; 0; 0; 0] = Some r.
Proof.
  destruct (ofpx_match_to_flow_total [0; 1; 0; 9; 128; 0; 0; 4; 1; 0; 0; 0; 0] 2304) as (r & fl & m & H & _).
  - reflexivity.
  - apply Z.leb_le. vm_compute. reflexivity.
  - exists (r, fl, m). exact H.
Defined.
