(* ===== verification/Cbuf.v ===== *)
(** * Message buffers (cbuf.h, cbuf.c)

    A [struct cbuf] is followed in its block by the bytes it manages.  [mem]
    is that area; [data] and [tail] are offsets into it and [end] is its
    size.  [len] is kept separately, as in the code, with the wrap-around of a
    [size_t].  A failed [assert] and an access outside the area are [None].  The list
    of a [struct cbuf_head] is a list, with the separately kept length. *)
From stdpp Require Import base list.
From Stdlib Require Import ZArith Lia.
From S2P Require Import Prelude Bytes.
#[local] Open Scope Z_scope.

Module Cbuf.
Export Bytes.

Record cbuf := mk_cbuf {
  mem : list Z; data : Z; tail : Z; blen : Z; nofree : bool }.

Definition CBUF_SZ : Z := 64.
Definition CBUF_BLK_ALIGN_SZ : Z := 64.
Definition CBUF_ALIGN_SZ (len : Z) : Z :=
  Z.land (len + (CBUF_BLK_ALIGN_SZ - 1)) (Z.lnot (CBUF_BLK_ALIGN_SZ - 1)).

Definition bend (b : cbuf) : Z := Z.of_nat (length (mem b)).
Definition cbuf_tailroom (b : cbuf) : Z := bend b - tail b.

Section ALLOC.
(** [malloc] returns a block of unspecified contents. *)
Context (malloc : nat -> list Z).

Definition init_cbuf (area : list Z) : cbuf := mk_cbuf area 0 0 0 false.

Definition alloc_cbuf (len : Z) : cbuf :=
  let alloc_len := CBUF_ALIGN_SZ (len + CBUF_SZ) in
  init_cbuf (malloc (Z.to_nat (alloc_len - CBUF_SZ))).

Definition zalloc_cbuf (len : Z) : cbuf :=
  let alloc_len := CBUF_ALIGN_SZ (len + CBUF_SZ) in
  init_cbuf (replicate (Z.to_nat (alloc_len - CBUF_SZ)) 0).

Definition cbuf_put (b : cbuf) (len : Z) : option cbuf :=
  if tail b + len <=? bend b
  then Some (mk_cbuf (mem b) (data b) (tail b + len) (u64 (blen b + len)) (nofree b)) else None.

Definition cbuf_pull (b : cbuf) (len : Z) : option cbuf :=
  if data b + len <=? bend b
  then Some (mk_cbuf (mem b) (data b + len) (tail b) (u64 (blen b - len)) (nofree b)) else None.

(** The room is computed from the start of the structure and [CBUF_SZ] is
    added to it. *)
Definition cbuf_headroom (b : cbuf) : Z :=
  let room := s32 ((data b + CBUF_SZ) + CBUF_SZ) in
  if room <? 0 then 0 else room.

Definition cbuf_push (b : cbuf) (len : Z) : option cbuf :=
  if len <=? cbuf_headroom b
  then Some (mk_cbuf (mem b) (data b - len) (tail b) (u64 (blen b + len)) (nofree b)) else None.

Definition cbuf_reset (b : cbuf) : cbuf := mk_cbuf (mem b) 0 0 0 false.

(** [n] bytes from offset [o], and a copy to offset [o]. *)
Definition mem_rd (b : cbuf) (o n : Z) : option (list Z) :=
  if (o <? 0) || (n <? 0) then None else rd (mem b) (Z.to_nat o) (Z.to_nat n).
Definition mem_wr (b : cbuf) (o : Z) (bs : list Z) : option cbuf :=
  if o <? 0 then None
  else m ← wr (mem b) (Z.to_nat o) bs; Some (mk_cbuf m (data b) (tail b) (blen b) (nofree b)).

(** The caller keeps only the buffer returned, so the release of the old one
    is not a change of state. *)
Definition cbuf_realloc_tailroom (b : cbuf) (room : Z) : option cbuf :=
  if cbuf_tailroom b <? room then
    bs ← mem_rd b (data b) (blen b);
    n ← mem_wr (alloc_cbuf (blen b + room)) 0 bs;
    cbuf_put n (blen b)
  else Some b.

Definition cbuf_realloc_headroom (b : cbuf) (room : Z) : option cbuf :=
  n ← cbuf_put (alloc_cbuf (blen b + room)) (blen b + room);
  n ← cbuf_pull n room;
  bs ← mem_rd b (data b) (blen b);
  mem_wr n (data n) bs.

(** ** Queues *)

Record cbuf_head := mk_head { hlen : Z; bufs : list cbuf }.

Definition cbuf_list_head_init : cbuf_head := mk_head 0 [].
Definition cbuf_list_queue_len (h : cbuf_head) : Z := s32 (hlen h).
Definition cbuf_list_queue_tail (h : cbuf_head) (b : cbuf) : cbuf_head :=
  mk_head (u64 (hlen h + 1)) (bufs h ++ [b]).
Definition cbuf_list_queue (h : cbuf_head) (b : cbuf) : cbuf_head :=
  mk_head (u64 (hlen h + 1)) (b :: bufs h).
Definition cbuf_list_dequeue (h : cbuf_head) : option cbuf * cbuf_head :=
  match bufs h with
  | [] => (None, h)
  | b :: r => (Some b, mk_head (u64 (hlen h - 1)) r)
  end.
Definition cbuf_list_count (h : cbuf_head) : Z := Z.of_nat (length (bufs h)).

Fixpoint rm_inline (l : list cbuf) : option (list cbuf) :=
  match l with
  | [] => Some []
  | b :: r =>
      b' ← (if nofree b then cbuf_realloc_headroom b 0 else Some b);
      r' ← rm_inline r;
      Some (b' :: r')
  end.

Definition cbuf_list_rm_inline_bufs (h : cbuf_head) : option cbuf_head :=
  l ← rm_inline (bufs h); Some (mk_head (Z.of_nat (length l)) l).

(** [None] when the assertion on the length fails. *)
Definition cbuf_list_purge (h : cbuf_head) : option cbuf_head :=
  if u64 (hlen h - Z.of_nat (length (bufs h))) =? 0 then Some (mk_head 0 []) else None.

End ALLOC.

(** ** Well-formed buffers *)

(** The bytes between [data] and [tail]. *)
Definition content (b : cbuf) : list Z := take (Z.to_nat (blen b)) (drop (Z.to_nat (data b)) (mem b)).

Record cbuf_ok (b : cbuf) : Prop := {
  ok_data : 0 <= data b <= tail b;
  ok_tail : tail b <= bend b;
  ok_len : blen b = tail b - data b;
  ok_small : bend b < 2 ^ 62 }.

Section ALLOC_OK.
Context (malloc : nat -> list Z) (malloc_length : forall n, length (malloc n) = n).

Lemma align_ge len : len <= CBUF_ALIGN_SZ len < len + 64.
Proof.
  unfold CBUF_ALIGN_SZ, CBUF_BLK_ALIGN_SZ. change (64 - 1) with (Z.ones 6).
  rewrite <- Z.ldiff_land, Z.ldiff_ones_r by lia. rewrite Z.shiftr_div_pow2, Z.shiftl_mul_pow2 by lia.
  change (2 ^ 6) with 64. change (Z.ones 6) with 63. Z.div_mod_to_equations. lia.
Qed.

Lemma alloc_ok len : 0 <= len < 2 ^ 61 -> cbuf_ok (alloc_cbuf malloc len) /\
  content (alloc_cbuf malloc len) = [] /\ len <= cbuf_tailroom (alloc_cbuf malloc len).
Proof.
  intros Hl. unfold alloc_cbuf, init_cbuf. pose proof (align_ge (len + CBUF_SZ)). unfold CBUF_SZ in *.
  split; [|split]; [constructor; unfold bend; cbn; rewrite ?malloc_length; lia|done|].
  unfold cbuf_tailroom, bend. cbn. rewrite malloc_length. lia.
Qed.

Lemma u64_small x : 0 <= x < 2 ^ 64 -> u64 x = x.
Proof. intros. unfold u64. by apply Z.mod_small. Qed.

Lemma content_length b : cbuf_ok b -> Z.of_nat (length (content b)) = blen b.
Proof.
  intros [? ? ? ?]. unfold content, bend in *. rewrite length_take, length_drop. lia.
Qed.

(** Taking [n] bytes off the front. *)
Lemma pull_ok b n : cbuf_ok b -> 0 <= n <= blen b ->
  exists b', cbuf_pull b n = Some b' /\ cbuf_ok b' /\ content b' = drop (Z.to_nat n) (content b) /\
    cbuf_tailroom b' = cbuf_tailroom b /\ nofree b' = nofree b.
Proof.
  intros [? ? Hl ?] Hn. unfold cbuf_pull. rewrite (proj2 (Z.leb_le _ _)) by lia.
  eexists. split; [done|]. rewrite u64_small by (unfold bend in *; lia). split; [|split; [|done]].
  - constructor; cbn [data tail blen]; unfold bend in *; cbn [mem]; lia.
  - unfold content. cbn [mem data blen]. rewrite skipn_firstn_comm, drop_drop. f_equal; [lia|]. f_equal. lia.
Qed.

(** Bytes stored at the tail and accounted for. *)
Lemma put_ok b bs : cbuf_ok b -> Z.of_nat (length bs) <= cbuf_tailroom b ->
  exists b1 b', mem_wr b (tail b) bs = Some b1 /\ cbuf_put b1 (Z.of_nat (length bs)) = Some b' /\
    cbuf_ok b' /\ content b' = content b ++ bs.
Proof.
  intros [? ? Hl ?] Hn. unfold cbuf_tailroom, bend in *. unfold mem_wr. rewrite (proj2 (Z.ltb_ge _ _)) by lia.
  rewrite wr_Some by lia. cbn [mbind option_bind]. eexists _, _. split; [done|].
  set (m := take (Z.to_nat (tail b)) (mem b) ++ bs ++ drop (Z.to_nat (tail b) + length bs) (mem b)).
  assert (length m = length (mem b)) as Lm.
  { unfold m. rewrite !length_app, length_take, length_drop. lia. }
  unfold cbuf_put, bend. cbn [tail mem data blen nofree]. rewrite Lm.
  rewrite (proj2 (Z.leb_le _ _)) by lia. split; [done|].
  rewrite u64_small by lia. split.
  - constructor; cbn [data tail blen]; unfold bend; cbn [mem]; fold m; rewrite ?Lm; lia.
  - unfold content. cbn [mem data blen].
    replace (Z.to_nat (blen b + Z.of_nat (length bs))) with (Z.to_nat (blen b) + length bs)%nat by lia.
    unfold m. rewrite drop_app_le by (rewrite length_take; lia). rewrite skipn_firstn_comm.
    replace (Z.to_nat (tail b) - Z.to_nat (data b))%nat with (Z.to_nat (blen b)) by lia.
    assert (length (take (Z.to_nat (blen b)) (drop (Z.to_nat (data b)) (mem b))) = Z.to_nat (blen b)) as L.
    { rewrite length_take, length_drop. lia. }
    rewrite take_app_ge by lia. rewrite L. f_equal.
    replace (Z.to_nat (blen b) + length bs - Z.to_nat (blen b))%nat with (length bs) by lia.
    by rewrite take_app_length.
Qed.

Lemma mem_rd_content b : cbuf_ok b -> mem_rd b (data b) (blen b) = Some (content b).
Proof.
  intros [? ? ? ?]. unfold mem_rd, bend in *. rewrite !(proj2 (Z.ltb_ge _ _)) by lia. cbn [orb].
  rewrite rd_Some by lia. done.
Qed.

(** Reallocation keeps the contents and makes the room asked for. *)
Lemma realloc_tailroom_ok b room : cbuf_ok b -> 0 <= room < 2 ^ 60 -> blen b < 2 ^ 60 ->
  exists b', cbuf_realloc_tailroom malloc b room = Some b' /\ cbuf_ok b' /\ content b' = content b /\
    room <= cbuf_tailroom b'.
Proof.
  intros Hb Hr Hlen. unfold cbuf_realloc_tailroom.
  destruct (Z.ltb_spec (cbuf_tailroom b) room) as [Hlt|]; [|eauto 6].
  rewrite mem_rd_content by done. cbn [mbind option_bind].
  pose proof (content_length b Hb) as Hc.
  assert (0 <= blen b) by (destruct Hb; lia).
  destruct (alloc_ok (blen b + room)) as (Ha & Ec & Hroom); [lia|].
  destruct (put_ok _ (content b) Ha) as (b1 & b' & Hw & Hp & Hok & Hcon); [lia|].
  change (tail (alloc_cbuf malloc (blen b + room))) with 0 in Hw. rewrite Hw. cbn [mbind option_bind].
  rewrite Hc in Hp. rewrite Hp. eexists. split; [done|]. split; [done|].
  rewrite Hcon, Ec. split; [done|].
  unfold cbuf_put in Hp. case_match; [|done]. simplify_eq. unfold cbuf_tailroom, bend in *. cbn [mem tail].
  unfold mem_wr in Hw. cbn [Z.ltb Z.compare] in Hw. apply bind_Some in Hw as (mm & Hw & Hw').
  apply wr_length in Hw. simplify_eq. cbn [mem tail data] in *.
  change (tail (alloc_cbuf malloc (blen b + room))) with 0 in *. lia.
Qed.

(** A copy without headroom keeps the contents. *)
Lemma realloc_headroom_ok b : cbuf_ok b -> blen b < 2 ^ 60 ->
  exists b', cbuf_realloc_headroom malloc b 0 = Some b' /\ cbuf_ok b' /\ content b' = content b /\
    blen b' = blen b.
Proof.
  intros Hb Hlen. pose proof (content_length b Hb) as Hc. assert (0 <= blen b) by (destruct Hb; lia).
  unfold cbuf_realloc_headroom. rewrite Z.add_0_r.
  destruct (alloc_ok (blen b)) as (Ha & _ & Hroom); [lia|].
  unfold cbuf_put, cbuf_tailroom in *.
  change (tail (alloc_cbuf malloc (blen b))) with 0 in *.
  rewrite (proj2 (Z.leb_le _ _)) by lia. cbn [mbind option_bind]. unfold cbuf_pull, bend in *.
  cbn [data mem tail blen nofree alloc_cbuf init_cbuf].
  change (mem (alloc_cbuf malloc (blen b))) with
    (malloc (Z.to_nat (CBUF_ALIGN_SZ (blen b + CBUF_SZ) - CBUF_SZ))) in *.
  set (m := malloc (Z.to_nat (CBUF_ALIGN_SZ (blen b + CBUF_SZ) - CBUF_SZ))) in *.
  rewrite (proj2 (Z.leb_le _ _)) by lia. cbn [mbind option_bind].
  rewrite mem_rd_content by done. cbn [mbind option_bind]. unfold mem_wr. cbn [data mem tail blen nofree].
  change (0 + 0 <? 0) with false. cbv iota.
  rewrite wr_Some by (change (Z.to_nat (0 + 0)) with 0%nat; lia). cbn [mbind option_bind].
  eexists. split; [done|]. rewrite !u64_small by (rewrite ?u64_small; lia).
  change (Z.to_nat (0 + 0)) with 0%nat. rewrite take_0. cbn [app Nat.add].
  destruct Ha as [_ _ _ Hs]. unfold bend in Hs. change (mem (alloc_cbuf malloc (blen b))) with m in Hs.
  split; [|split; [|cbn; lia]].
  - constructor; unfold bend; cbn [data tail blen mem]; rewrite ?length_app, ?length_drop; lia.
  - unfold content at 1. cbn [data mem blen]. change (Z.to_nat (0 + 0)) with 0%nat. rewrite drop_0.
    match goal with |- take ?n _ = _ => replace n with (length (content b)) by (cbn; lia) end.
    by rewrite take_app_length.
Qed.
End ALLOC_OK.
End Cbuf.
