(* ===== verification/Conn.v ===== *)
(** * Connections: framing and transmission (c_util.c, c_util.h, mul_events.h)

    The receive loops cut the byte stream of a connection into messages; the
    send loops drain a queue of buffers into a socket that may take only a part of
    what it is offered.  The socket is a parameter of each step: for receiving, the
    chunks of bytes that successive calls of [recv] can return (an empty chunk is the end of the
    stream), for sending, the results of the successive calls. *)
From stdpp Require Import base list.
From Stdlib Require Import ZArith Lia.
From S2P Require Import Prelude Bytes Cbuf.
#[local] Open Scope Z_scope.

Module Conn.
Export Bytes Cbuf.

Record conn := mk_conn {
  conn_cbuf : option cbuf; tx_q : cbuf_head; is_sock : bool; ssl : bool; dead : bool;
  rx_pkts : Z; tx_pkts : Z; tx_err : Z; rd_blk_on_wr : bool; wr_blk_on_rd : bool }.

Definition set_tx_q (q : cbuf_head) (c : conn) : conn :=
  mk_conn (conn_cbuf c) q (is_sock c) (ssl c) (dead c) (rx_pkts c) (tx_pkts c) (tx_err c)
    (rd_blk_on_wr c) (wr_blk_on_rd c).
Definition set_cbuf (b : option cbuf) (c : conn) : conn :=
  mk_conn b (tx_q c) (is_sock c) (ssl c) (dead c) (rx_pkts c) (tx_pkts c) (tx_err c)
    (rd_blk_on_wr c) (wr_blk_on_rd c).
Definition set_dead (d : bool) (c : conn) : conn :=
  mk_conn (conn_cbuf c) (tx_q c) (is_sock c) (ssl c) d (rx_pkts c) (tx_pkts c) (tx_err c)
    (rd_blk_on_wr c) (wr_blk_on_rd c).
Definition inc_tx_pkts (c : conn) : conn :=
  mk_conn (conn_cbuf c) (tx_q c) (is_sock c) (ssl c) (dead c) (rx_pkts c) (u32 (tx_pkts c + 1)) (tx_err c)
    (rd_blk_on_wr c) (wr_blk_on_rd c).
Definition inc_tx_err (c : conn) : conn :=
  mk_conn (conn_cbuf c) (tx_q c) (is_sock c) (ssl c) (dead c) (rx_pkts c) (tx_pkts c) (u32 (tx_err c + 1))
    (rd_blk_on_wr c) (wr_blk_on_rd c).
Definition inc_rx_pkts (c : conn) : conn :=
  mk_conn (conn_cbuf c) (tx_q c) (is_sock c) (ssl c) (dead c) (u32 (rx_pkts c + 1)) (tx_pkts c) (tx_err c)
    (rd_blk_on_wr c) (wr_blk_on_rd c).
Definition set_rd_blk (v : bool) (c : conn) : conn :=
  mk_conn (conn_cbuf c) (tx_q c) (is_sock c) (ssl c) (dead c) (rx_pkts c) (tx_pkts c) (tx_err c)
    v (wr_blk_on_rd c).
Definition set_wr_blk (v : bool) (c : conn) : conn :=
  mk_conn (conn_cbuf c) (tx_q c) (is_sock c) (ssl c) (dead c) (rx_pkts c) (tx_pkts c) (tx_err c)
    (rd_blk_on_wr c) v.

(** ** OpenFlow headers (mul_of_msg.h) *)

Definition OFP_MAX_PAYLOAD : Z := 65536.
Definition OFP_MAX_TYPE : Z := 255.

Definition byte_at (h : list Z) (i : nat) : Z := nth i h 0.
Definition of_get_data_len (h : list Z) : Z := ntohs (le_val (take 2 (drop 2 h))).
Definition __of_hdr_valid (h : list Z) (len : Z) : bool :=
  (len <=? OFP_MAX_PAYLOAD) &&
  ((byte_at h 0 =? 1) || (byte_at h 0 =? 4) || (byte_at h 0 =? 5)) &&
  (byte_at h 1 <? OFP_MAX_TYPE).
Definition of_hdr_valid (h : list Z) : bool := __of_hdr_valid h (of_get_data_len h).

(** ** Receiving *)

Section READ.
Context (malloc : nat -> list Z).
Context (get_data_len : list Z -> Z) (validate_hdr : list Z -> bool).
Context (hdr_sz rcv_buf_sz : Z).

Inductive rx := RxErr | RxEof | RxGot (bs : list Z).

(** [recv] with room for [room] bytes; without a chunk it would block. *)
Definition recv (q : list (list Z)) (room : Z) : rx * list (list Z) :=
  match q with
  | [] => (RxErr, [])
  | [] :: q => (RxEof, q)
  | c :: q =>
      if Z.of_nat (length c) <=? room then (RxGot c, q)
      else (RxGot (take (Z.to_nat room) c), drop (Z.to_nat room) c :: q)
  end.

(** The inner loop: messages complete in the buffer are handed to [proc_msg],
    whose calls are recorded; [false] is a corrupted header. *)
Fixpoint proc_loop (fuel : nat) (b : cbuf) (out : list (list Z)) : option (cbuf * list (list Z) * bool) :=
  match fuel with
  | O => None
  | S fuel =>
      if (hdr_sz <=? blen b) && (u64 (get_data_len (content b)) <=? blen b) then
        if negb (validate_hdr (content b)) then Some (b, out, false)
        else
          let l := u64 (get_data_len (content b)) in
          let curr_b := take (Z.to_nat l) (content b) in
          b ← cbuf_pull b l;
          proc_loop fuel b (out ++ [curr_b])
      else Some (b, out, true)
  end.

(** Result: return value, buffer kept in the connection, chunks not received,
    messages processed. *)
Fixpoint read_loop (fuel : nat) (sock : bool) (loop_cnt : Z) (b : cbuf) (q out : list (list Z))
  : option (Z * cbuf * list (list Z) * list (list Z)) :=
  match fuel with
  | O => None
  | S fuel =>
      b ← (if cbuf_tailroom b =? 0 then cbuf_realloc_tailroom malloc b rcv_buf_sz else Some b);
      let loop_cnt := loop_cnt + 1 in
      let '(r, q) := if sock && (100 <=? loop_cnt) then (RxErr, q) else recv q (cbuf_tailroom b) in
      match r with
      | RxErr => Some (-1, b, q, out)
      | RxEof => Some (0, b, q, out)
      | RxGot bs =>
          b ← mem_wr b (tail b) bs;
          b ← cbuf_put b (Z.of_nat (length bs));
          '(b, out, ok) ← proc_loop (S (Z.to_nat (blen b))) b out;
          if negb ok then Some (0, b, q, out)
          else read_loop fuel sock loop_cnt b q out
      end
  end.

Definition c_socket_read_nonblock_loop (c : conn) (q : list (list Z))
  : option (Z * conn * list (list Z) * list (list Z)) :=
  let b := match conn_cbuf c with None => alloc_cbuf malloc rcv_buf_sz | Some b => b end in
  '(ret, b, q, out) ← read_loop (S (S (length (concat q)))) (is_sock c) 0 b q [];
  Some (ret, set_cbuf (Some b) c, q, out).

(** One message at a time, blocking.  [MSG_WAITALL] may still return less. *)
Fixpoint chunk_loop (fuel : nat) (b : cbuf) (rem : Z) (q : list (list Z))
  : option (Z * cbuf * list (list Z)) :=
  match fuel with
  | O => None
  | S fuel =>
      b ← (if cbuf_tailroom b <? rem then cbuf_realloc_tailroom malloc b rem else Some b);
      match recv q rem with
      | (RxErr, q) => Some (-1, b, q)
      | (RxEof, q) => Some (0, b, q)
      | (RxGot bs, q) =>
          b ← mem_wr b (tail b) bs;
          b ← cbuf_put b (Z.of_nat (length bs));
          let rem := rem - Z.of_nat (length bs) in
          if negb (rem =? 0) then chunk_loop fuel b rem q else Some (1, b, q)
      end
  end.

(** The return value is [tot_rcv_sz] on success. *)
Definition c_socket_read_chunk_loop (b : cbuf) (tot_rcv_sz : Z) (q : list (list Z))
  : option (Z * cbuf * list (list Z)) :=
  '(ret, b, q) ← chunk_loop (S (length (concat q))) b tot_rcv_sz q;
  Some (if ret =? 1 then tot_rcv_sz else ret, b, q).

Definition c_socket_read_block_loop (c : conn) (q : list (list Z))
  : option (Z * conn * list (list Z) * list (list Z)) :=
  '(rd_sz, b, q) ← c_socket_read_chunk_loop (alloc_cbuf malloc rcv_buf_sz) hdr_sz q;
  if rd_sz <=? 0 then Some (rd_sz, c, q, [])
  else
    let tot_need_rd := get_data_len (content b) in
    if tot_need_rd <? hdr_sz then Some (0, c, q, [])
    else if negb (validate_hdr (content b)) then Some (0, c, q, [])
    else
      '(rd_sz, b, q) ← (if negb (tot_need_rd - hdr_sz =? 0)
                        then c_socket_read_chunk_loop b (tot_need_rd - hdr_sz) q
                        else Some (rd_sz, b, q));
      if rd_sz <=? 0 then Some (rd_sz, c, q, [])
      else Some (blen b, inc_rx_pkts c, q, [content b]).

End READ.

(** ** Sending *)

(** The result of one call of [send], [write] or [SSL_write]: [TxSent n] with
    [0 < n], a zero result, or an error by what the code distinguishes. *)
Inductive tx :=
  | TxSent (n : Z) | TxZero | TxAgain | TxIntr | TxFail
  | TxWantRead | TxZeroReturn.

Section WRITE.
Context (malloc : nat -> list Z).

(** The end of both send loops. *)
Definition tx_out (c : conn) : option conn :=
  if negb (cbuf_list_queue_len (tx_q c) =? 0)
  then q ← cbuf_list_rm_inline_bufs malloc (tx_q c); Some (set_tx_q q c) else Some c.
Definition tx_sched (c : conn) : option conn :=
  q ← cbuf_list_rm_inline_bufs malloc (tx_q c); Some (set_tx_q q c).

(** A socket that takes [n] bytes takes at most the buffer, and reports 0 for
    an empty one. *)
Definition tx_result (e : tx) (buf : cbuf) : tx :=
  match e with
  | TxSent n => if Z.min n (blen buf) <=? 0 then TxZero else TxSent (Z.min n (blen buf))
  | _ => e
  end.

(** Nothing sent, try later. *)
Definition tx_again (c : conn) (wire : list Z) : option (Z * bool * conn * list Z) :=
  if wr_blk_on_rd c then c ← tx_out c; Some (0, false, c, wire)
  else c ← tx_sched (inc_tx_err c); Some (0, true, c, wire).

(** Result: error, whether [sched_tx] was called, the connection, the bytes
    given to the socket.  [TxWantRead] and [TxZeroReturn] occur only with SSL.
    A script that ends stands for a socket that blocks. *)
Fixpoint write_loop (script : list tx) (c : conn) (wire : list Z) : option (Z * bool * conn * list Z) :=
  match cbuf_list_dequeue (tx_q c) with
  | (None, _) => c ← tx_out c; Some (0, false, c, wire)
  | (Some buf, q) =>
      let c := set_tx_q q c in
      let requeue c := set_tx_q (cbuf_list_queue (tx_q c) buf) c in
      match script with
      | [] => tx_again (requeue c) wire
      | e :: script =>
          match tx_result e buf with
          | TxAgain | TxZero => tx_again (requeue c) wire
          | TxWantRead => c ← tx_out (requeue (set_wr_blk true c)); Some (0, false, c, wire)
          | TxZeroReturn => c ← tx_out (set_dead true c); Some (-1, false, c, wire)
          | TxIntr | TxFail =>
              if wr_blk_on_rd c then c ← tx_out (requeue c); Some (0, false, c, wire)
              else c ← tx_out (set_dead true (requeue c)); Some (-1, false, c, wire)
          | TxSent n =>
              let c := if rd_blk_on_wr c then set_rd_blk false c else c in
              let wire := wire ++ take (Z.to_nat n) (content buf) in
              if n <? blen buf then
                buf ← cbuf_pull buf n;
                c ← tx_sched (set_tx_q (cbuf_list_queue (tx_q c) buf) c); Some (0, true, c, wire)
              else write_loop script (inc_tx_pkts c) wire
          end
      end
  end.

Definition c_socket_write_nonblock_loop (script : list tx) (c : conn) : option (Z * bool * conn * list Z) :=
  if dead c then
    q ← cbuf_list_purge (tx_q c);
    c ← tx_out (set_tx_q q c); Some (-1, false, c, [])
  else if wr_blk_on_rd c then c ← tx_out c; Some (0, false, c, [])
  else write_loop script c [].

(** Dropping the buffers that a [writev] of [sent] bytes has taken. *)
Fixpoint sg_drop (l : list cbuf) (h : cbuf_head) (sent : Z) (c : conn) : option (conn * bool) :=
  match l with
  | [] => Some (set_tx_q h c, false)
  | buf :: r =>
      if sent =? 0 then Some (set_tx_q h c, false)
      else
        let h' := (cbuf_list_dequeue h).2 in
        if blen buf <=? sent then sg_drop r h' (sent - blen buf) (inc_tx_pkts c)
        else b ← cbuf_pull buf sent; Some (set_tx_q (cbuf_list_queue h' b) c, true)
  end.

Definition C_TX_BUF_SZ : nat := 1024.

Definition c_socket_write_nonblock_sg_loop (result : tx) (c : conn) : option (Z * bool * conn * list Z) :=
  if cbuf_list_queue_len (tx_q c) =? 0 then Some (0, false, c, [])
  else if dead c then
    q ← cbuf_list_purge (tx_q c);
    c ← tx_out (set_tx_q q c); Some (-1, false, c, [])
  else
    let iov := concat (map content (take C_TX_BUF_SZ (bufs (tx_q c)))) in
    match result with
    | TxZero | TxAgain => c ← tx_sched (inc_tx_err c); Some (0, true, c, [])
    | TxSent n =>
        r ← sg_drop (bufs (tx_q c)) (tx_q c) n c;
        c ← (if r.2 then tx_sched r.1 else tx_out r.1);
        Some (0, r.2 : bool, c, take (Z.to_nat n) iov)
    | _ => c ← tx_out (set_dead true c); Some (-1, false, c, [])
    end.

(** The front ends; [limit] is 1024 for [c_conn_tx] and [C_MUL_TX_BUF_SZ] for
    [c_thread_tx].  A buffer above the limit is dropped. *)
Definition c_conn_tx (script : list tx) (c : conn) (b : cbuf) : option (conn * list Z) :=
  if 1024 <? cbuf_list_queue_len (tx_q c) then Some (c, [])
  else
    '(_, _, c, wire) ← c_socket_write_nonblock_loop script (set_tx_q (cbuf_list_queue_tail (tx_q c) b) c);
    Some (c, wire).

Definition C_MUL_TX_BUF_SZ : Z := 20480.

Definition c_thread_tx (script : list tx) (c : conn) (b : cbuf) (only_q : bool) : option (conn * list Z) :=
  if C_MUL_TX_BUF_SZ <? cbuf_list_queue_len (tx_q c) then Some (c, [])
  else
    let c := set_tx_q (cbuf_list_queue_tail (tx_q c) b) c in
    if only_q then Some (c, [])
    else '(_, _, c, wire) ← c_socket_write_nonblock_loop script c; Some (c, wire).

End WRITE.

Definition C_MAX_TX_RETRIES : nat := 4.

(** [retries] is the number of retries left; [force_nblk] only selects which
    results are worth a retry.  Result: error, connection, bytes sent. *)
Fixpoint block_loop (retries : nat) (script : list tx) (force_nblk : bool) (c : conn) (buf : cbuf)
  (wire : list Z) : option (Z * conn * list Z) :=
  match script with
  | [] => Some (0, set_dead true (inc_tx_err c), wire)
  | e :: script =>
      match tx_result e buf with
      | TxSent n =>
          let wire := wire ++ take (Z.to_nat n) (content buf) in
          if n <? blen buf then
            buf ← cbuf_pull buf n;
            match retries with
            | O => Some (-1, inc_tx_err c, wire)
            | S r => block_loop r script force_nblk c buf wire
            end
          else Some (0, inc_tx_pkts c, wire)
      | r =>
          if match r with
             | TxIntr => true
             | TxZero | TxAgain => force_nblk
             | _ => false
             end
          then match retries with
               | O => Some (-1, inc_tx_err c, wire)
               | S r => block_loop r script force_nblk c buf wire
               end
          else Some (0, set_dead true (inc_tx_err c), wire)
      end
  end.

Definition __c_socket_write_block_loop (script : list tx) (c : conn) (buf : cbuf) (force_nblk : bool)
  : option (Z * conn * list Z) :=
  if dead c then Some (-1, c, [])
  else block_loop C_MAX_TX_RETRIES script force_nblk c buf [].

End Conn.
