(* ===== verification/ConnSpec.v ===== *)
(** * Properties of the connection loops *)
From stdpp Require Import base list.
From Stdlib Require Import ZArith Lia.
From S2P Require Import Prelude Bytes Cbuf Conn.
Import Conn.
#[local] Open Scope Z_scope.

(** ** Framing *)

Section FRAMING.
Context (malloc : nat -> list Z) (malloc_length : forall n, length (malloc n) = n).
Context (get_data_len : list Z -> Z) (validate_hdr : list Z -> bool) (hdr_sz rcv_buf_sz : Z).

(** The header functions look at the header only. *)
Hypothesis len_local : forall a b, hdr_sz <= Z.of_nat (length a) -> get_data_len (a ++ b) = get_data_len a.
Hypothesis valid_local : forall a b, hdr_sz <= Z.of_nat (length a) -> validate_hdr (a ++ b) = validate_hdr a.
Hypothesis len_range : forall a, 0 <= get_data_len a < 2 ^ 31.
Hypothesis rcv_pos : 0 < rcv_buf_sz < 2 ^ 32.

Definition complete (s : list Z) : Prop :=
  hdr_sz <= Z.of_nat (length s) /\ get_data_len s <= Z.of_nat (length s).

(** A byte stream as messages with valid headers and an incomplete rest. *)
Inductive well_framed : list Z -> list (list Z) -> list Z -> Prop :=
| wf_rest s : ~ complete s -> well_framed s [] s
| wf_msg s m msgs rest :
    complete (m ++ s) -> validate_hdr (m ++ s) = true -> m <> [] ->
    get_data_len (m ++ s) = Z.of_nat (length m) ->
    well_framed s msgs rest -> well_framed (m ++ s) (m :: msgs) rest.

Lemma complete_app a b : complete a -> complete (a ++ b).
Proof. intros [H1 H2]. split; [|rewrite len_local by done]; rewrite length_app; lia. Qed.

Lemma complete_dec s :
  {complete s} + {~ complete s}.
Proof.
  destruct (Z_le_dec hdr_sz (Z.of_nat (length s))) as [H1|H1];
    [destruct (Z_le_dec (get_data_len s) (Z.of_nat (length s))) as [H2|H2]|];
    [left; done|right; intros []; done|right; intros []; done].
Qed.

(** The test of the inner loop. *)
Lemma proc_test b : cbuf_ok b ->
  ((hdr_sz <=? blen b) && (u64 (get_data_len (content b)) <=? blen b)) = true <-> complete (content b).
Proof.
  intros Hb. unfold complete. rewrite content_length by done.
  rewrite u64_small by (pose proof (len_range (content b)); lia).
  rewrite andb_true_iff, !Z.leb_le. done.
Qed.

(** The inner loop takes the messages of the stream that are complete,
    whatever is still to come. *)
Lemma proc_loop_spec fuel : forall b out x msgs rest,
  cbuf_ok b -> (length (content b) < fuel)%nat -> well_framed (content b ++ x) msgs rest ->
  exists b' out1 msgs', proc_loop get_data_len validate_hdr hdr_sz fuel b out = Some (b', out ++ out1, true) /\
    cbuf_ok b' /\ msgs = out1 ++ msgs' /\ content b = concat out1 ++ content b' /\
    ~ complete (content b') /\ well_framed (content b' ++ x) msgs' rest.
Proof.
  induction fuel as [|fuel IH]; intros b out x msgs rest Hb Hf Hw; [lia|]. cbn [proc_loop].
  destruct (complete_dec (content b)) as [Hc|Hc].
  - rewrite (proj2 (proc_test b Hb)) by done.
    inversion Hw as [s Hn|s m msgs' rest' Hcm Hv Hne Hlen Hw' Heq]; subst.
    { exfalso. apply Hn. by apply complete_app. }
    rewrite Heq in Hv, Hlen, Hcm. rewrite valid_local in Hv by apply Hc. rewrite len_local in Hlen by apply Hc.
    rewrite Hv. cbn [negb]. rewrite u64_small by (pose proof (len_range (content b)); lia).
    rewrite Hlen. destruct Hc as [_ Hc2]. rewrite Hlen in Hc2.
    destruct (pull_ok b (Z.of_nat (length m)) Hb) as (b1 & -> & Hb1 & Hcon & _ & _).
    { rewrite <- content_length by done. lia. }
    cbn [mbind option_bind]. rewrite Nat2Z.id in *.
    assert (take (length m) (content b) = m) as Hm.
    { rewrite <- (take_app_le (content b) x) by lia. rewrite <- Heq. by rewrite take_app_length. }
    assert (s = content b1 ++ x) as Hs.
    { rewrite Hcon. rewrite <- drop_app_le by lia. rewrite <- Heq. by rewrite drop_app_length. }
    rewrite Hs in Hw'. rewrite Hm.
    destruct (IH b1 (out ++ [m]) x msgs' rest Hb1) as (b' & out1 & ms & E & Hok & -> & Hc1 & Hinc & Hwf); [|done|].
    { rewrite Hcon, length_drop. destruct m; [done|]. cbn [length] in *. lia. }
    exists b', (m :: out1), ms. rewrite E, <- app_assoc. split_and!; auto.
    cbn [concat]. rewrite <- app_assoc, <- Hc1, Hcon. rewrite <- Hm at 1. by rewrite take_drop.
  - destruct (_ && _) eqn:E; [apply proc_test in E; done|].
    exists b, [], msgs. rewrite app_nil_r. split_and!; auto.
Qed.

(** What a receive adds to the buffer comes off the stream. *)
Lemma recv_spec q room : 0 < room ->
  match recv q room with
  | (RxErr, q') => q = [] /\ q' = []
  | (RxEof, q') => q = [] :: q'
  | (RxGot bs, q') => concat q = bs ++ concat q' /\ bs <> [] /\ Z.of_nat (length bs) <= room
  end.
Proof.
  intros Hr. destruct q as [|[|z c] q]; cbn [recv]; [done|done|].
  destruct (Z.leb_spec (Z.of_nat (length (z :: c))) room); [done|].
  change (concat ((z :: c) :: q)) with ((z :: c) ++ concat q).
  change (concat (drop (Z.to_nat room) (z :: c) :: q)) with (drop (Z.to_nat room) (z :: c) ++ concat q).
  rewrite app_assoc, take_drop. split; [done|]. rewrite length_take. split; [|lia].
  destruct (Z.to_nat room) eqn:E; [lia|done].
Qed.

(** What the outer loop has done when it stops. *)
Definition read_post (c0 : list Z) (q q' : list (list Z)) (out msgs : list (list Z)) (rest : list Z)
  (b' : cbuf) : Prop :=
  exists consumed msgs', concat q = consumed ++ concat q' /\ msgs = out ++ msgs' /\
    c0 ++ consumed = concat out ++ content b' /\ cbuf_ok b' /\ ~ complete (content b') /\
    well_framed (content b' ++ concat q') msgs' rest.

Lemma read_loop_spec fuel : forall sock cnt b q msgs rest,
  cbuf_ok b -> ~ complete (content b) -> (length (concat q) < fuel)%nat ->
  Z.of_nat (length (content b ++ concat q)) < 2 ^ 32 ->
  well_framed (content b ++ concat q) msgs rest ->
  forall out0, exists ret b' q' out,
    read_loop malloc get_data_len validate_hdr hdr_sz rcv_buf_sz fuel sock cnt b q out0 =
      Some (ret, b', q', out0 ++ out) /\
    read_post (content b) q q' out msgs rest b' /\
    (ret = -1 \/ ret = 0) /\ (ret = -1 -> sock = false -> q' = []).
Proof.
  induction fuel as [|fuel IH]; intros sock cnt b q msgs rest Hb Hn Hf Hsz Hw out0; [lia|].
  cbn [read_loop].
  assert (exists b1, (if cbuf_tailroom b =? 0 then cbuf_realloc_tailroom malloc b rcv_buf_sz else Some b) = Some b1 /\
    cbuf_ok b1 /\ content b1 = content b /\ 0 < cbuf_tailroom b1) as (b1 & -> & Hb1 & Hc1 & Hroom).
  { rewrite length_app in Hsz. pose proof (content_length b Hb).
    destruct (Z.eqb_spec (cbuf_tailroom b) 0).
    - destruct (realloc_tailroom_ok malloc malloc_length b rcv_buf_sz Hb) as (b1 & ? & ? & ? & ?); [lia|lia|].
      exists b1. split_and!; auto; lia.
    - exists b. split_and!; auto. destruct Hb. unfold cbuf_tailroom in *. lia. }
  cbn [mbind option_bind].
  assert (forall q', concat q = concat q' -> read_post (content b) q q' [] msgs rest b1) as Hstop.
  { intros q' Hq. exists [], msgs. rewrite Hc1, <- Hq, app_nil_r. split_and!; auto. }
  destruct (sock && (100 <=? cnt + 1)) eqn:Hcnt.
  { apply andb_prop in Hcnt as [-> _]. exists (-1), b1, q, []. rewrite app_nil_r.
    split_and!; auto. intros; done. }
  pose proof (recv_spec q (cbuf_tailroom b1) Hroom) as Hr.
  destruct (recv q (cbuf_tailroom b1)) as [[| |bs] q'].
  - destruct Hr as [-> ->]. exists (-1), b1, [], []. rewrite app_nil_r. split_and!; auto.
  - subst q. exists 0, b1, q', []. rewrite app_nil_r. split_and!; auto. done.
  - destruct Hr as (Hq & Hne & Hlen).
    destruct (put_ok b1 bs Hb1 Hlen) as (b2 & b3 & -> & Hp & Hb3 & Hc3). cbn [mbind option_bind].
    rewrite Hp. cbn [mbind option_bind]. rewrite Hc1 in Hc3.
    rewrite Hq, app_assoc, <- Hc3 in Hw.
    destruct (proc_loop_spec (S (Z.to_nat (blen b3))) b3 out0 (concat q') msgs rest Hb3)
      as (b4 & out1 & msgs1 & -> & Hb4 & -> & Hc4 & Hn4 & Hw4); [|done|].
    { pose proof (content_length b3 Hb3). lia. }
    cbn [mbind option_bind negb].
    destruct (IH sock (cnt + 1) b4 q' msgs1 rest Hb4 Hn4) with (out0 := out0 ++ out1)
      as (ret & b' & q'' & out & E & Hpost & Hret & Hlast); [| |done|].
    { rewrite Hq, length_app in Hf. destruct bs; [done|]. cbn [length] in Hf. lia. }
    { apply (f_equal length) in Hc4. apply (f_equal length) in Hc3. rewrite Hq in Hsz.
      rewrite !length_app in *. lia. }
    exists ret, b', q'', (out1 ++ out). rewrite app_assoc. split_and!; auto.
    destruct Hpost as (consumed & msgs' & H1 & -> & H3 & H4 & H5 & H6).
    exists (bs ++ consumed), msgs'. rewrite Hq, H1, <- !app_assoc. split_and!; auto.
    rewrite concat_app, <- app_assoc, <- H3, !app_assoc. f_equal. by rewrite <- Hc4.
Qed.

(** The buffer of a connection between two calls. *)
Definition pending (c : conn) : list Z :=
  match conn_cbuf c with Some b => content b | None => [] end.
Definition conn_ok (c : conn) : Prop :=
  match conn_cbuf c with Some b => cbuf_ok b /\ ~ complete (content b) | None => ~ complete [] end.

(** C29: framing does not depend on how the stream arrives.  For a stream of
    messages with valid headers and non-zero lengths, whatever the sizes of the
    pieces that [recv] returns and wherever a message is cut,
    [c_socket_read_nonblock_loop] returns; it hands the messages of the stream to the
    application in order, each exactly once and complete, loses no byte, and keeps the incomplete
    rest for the next call, which continues from there; when it has read the
    whole stream it has delivered all its messages. *)
Theorem read_nonblock_framing c q msgs rest :
  conn_ok c -> Z.of_nat (length (pending c ++ concat q)) < 2 ^ 32 ->
  well_framed (pending c ++ concat q) msgs rest ->
  exists ret c' q' out consumed msgs',
    c_socket_read_nonblock_loop malloc get_data_len validate_hdr hdr_sz rcv_buf_sz c q =
      Some (ret, c', q', out) /\
    concat q = consumed ++ concat q' /\ msgs = out ++ msgs' /\
    pending c ++ consumed = concat out ++ pending c' /\
    conn_ok c' /\ well_framed (pending c' ++ concat q') msgs' rest /\
    (concat q' = [] -> out = msgs /\ pending c' = rest).
Proof.
  intros Hok Hsz Hw. unfold c_socket_read_nonblock_loop.
  set (b := match conn_cbuf c with None => alloc_cbuf malloc rcv_buf_sz | Some b => b end).
  assert (cbuf_ok b /\ ~ complete (content b) /\ content b = pending c) as (Hb & Hn & Hc).
  { unfold b, conn_ok, pending in *. destruct (conn_cbuf c) as [b0|]; [tauto|].
    destruct (alloc_ok malloc malloc_length rcv_buf_sz) as (? & E & _); [lia|]. by rewrite E. }
  rewrite <- Hc in Hsz, Hw.
  destruct (read_loop_spec (S (S (length (concat q)))) (is_sock c) 0 b q msgs rest Hb Hn) with (out0 := @nil (list Z))
    as (ret & b' & q' & out & E & Hpost & _); [lia|done|done|].
  cbn [app] in E. rewrite E. cbn [mbind option_bind].
  destruct Hpost as (consumed & msgs' & H1 & H2 & H3 & H4 & H5 & H6).
  eexists ret, _, q', out, consumed, msgs'. split; [done|]. unfold pending at 2 3 4, conn_ok. cbn [conn_cbuf set_cbuf].
  rewrite <- Hc. split_and!; auto. intros Hq. rewrite Hq, app_nil_r in H6.
  inversion H6 as [|s m ms r Hcm]; subst; [by rewrite app_nil_r|].
  exfalso. apply H5. match goal with E : _ = content b' |- _ => rewrite <- E end. done.
Qed.
End FRAMING.

(** ** OpenFlow headers *)

Lemma of_len_local a b : 8 <= Z.of_nat (length a) -> of_get_data_len (a ++ b) = of_get_data_len a.
Proof.
  intros H. unfold of_get_data_len. by rewrite drop_app_le, take_app_le by (rewrite ?length_drop; lia).
Qed.

Lemma of_valid_local a b : 8 <= Z.of_nat (length a) -> of_hdr_valid (a ++ b) = of_hdr_valid a.
Proof.
  intros H. unfold of_hdr_valid, __of_hdr_valid, byte_at. rewrite of_len_local by done.
  by rewrite !app_nth1 by lia.
Qed.

Lemma of_len_range a : 0 <= of_get_data_len a < 2 ^ 31.
Proof. pose proof (bswap_range 2 (le_val (take 2 (drop 2 a)))). unfold of_get_data_len, ntohs. lia. Qed.

(** A header with length 0 stops the receive loop for good.  The validity
    test has no lower bound on the length, so that the loop hands the same empty
    message to the application again and again: no number of rounds is enough. *)
Theorem zero_length_spins fuel b out :
  cbuf_ok b -> 8 <= blen b -> of_get_data_len (content b) = 0 -> of_hdr_valid (content b) = true ->
  proc_loop of_get_data_len of_hdr_valid 8 fuel b out = None.
Proof.
  intros Hb Hl Hz Hv. revert b out Hb Hl Hz Hv.
  induction fuel as [|fuel IH]; intros b out Hb Hl Hz Hv; cbn [proc_loop]; [done|].
  rewrite Hz, Hv. change (u64 0) with 0. rewrite !(proj2 (Z.leb_le _ _)) by lia. cbn [andb negb].
  destruct (pull_ok b 0 Hb) as (b' & -> & Hb' & Hc & _); [lia|]. cbn [mbind option_bind].
  change (Z.to_nat 0) with 0%nat in Hc. rewrite drop_0 in Hc.
  pose proof (content_length b Hb). pose proof (content_length b' Hb'). rewrite Hc in *.
  apply IH; rewrite ?Hc; try done. lia.
Qed.

(** ** Transmission *)

Section TRANSMIT.
Context (malloc : nat -> list Z) (malloc_length : forall n, length (malloc n) = n).

(** The bytes waiting in a queue. *)
Definition queued (h : cbuf_head) : list Z := concat (map content (bufs h)).

Definition buf_ok (b : cbuf) : Prop := cbuf_ok b /\ blen b < 2 ^ 60.

Definition queue_ok (h : cbuf_head) : Prop :=
  Forall buf_ok (bufs h) /\ hlen h = Z.of_nat (length (bufs h)) /\ hlen h < 2 ^ 30.

Lemma rm_inline_ok l : Forall buf_ok l ->
  exists l', rm_inline malloc l = Some l' /\ Forall buf_ok l' /\ length l' = length l /\
    map content l' = map content l.
Proof.
  induction l as [|b l IH]; intros Hl; [by exists []|]. apply Forall_cons in Hl as [[Hb Hs] Hl].
  destruct (IH Hl) as (l' & E & Hl' & Hn & Hc). cbn [rm_inline].
  assert (exists b', (if nofree b then cbuf_realloc_headroom malloc b 0 else Some b) = Some b' /\
    buf_ok b' /\ content b' = content b) as (b' & -> & Hb' & Hcb).
  { destruct (nofree b); [|by exists b].
    destruct (realloc_headroom_ok malloc malloc_length b Hb Hs) as (b' & ? & ? & ? & ?).
    exists b'. split_and!; auto. split; [done|lia]. }
  cbn [mbind option_bind]. rewrite E. cbn [mbind option_bind]. exists (b' :: l').
  split; [done|]. split; [by constructor|]. cbn. by rewrite Hn, Hcb, Hc.
Qed.

Lemma rm_inline_bufs_ok h : queue_ok h ->
  exists h', cbuf_list_rm_inline_bufs malloc h = Some h' /\ queue_ok h' /\ queued h' = queued h /\
    length (bufs h') = length (bufs h).
Proof.
  intros (Hb & Hl & Hs). unfold cbuf_list_rm_inline_bufs.
  destruct (rm_inline_ok (bufs h) Hb) as (l & -> & Hl' & Hn & Hc). cbn [mbind option_bind].
  eexists. split; [done|]. unfold queue_ok, queued. cbn [bufs hlen]. rewrite Hn, Hc. split_and!; auto. lia.
Qed.

Definition same_flags (c c' : conn) : Prop := dead c' = dead c /\ wr_blk_on_rd c' = wr_blk_on_rd c.

Lemma tx_sched_ok c : queue_ok (tx_q c) ->
  exists c', tx_sched malloc c = Some c' /\ queue_ok (tx_q c') /\ queued (tx_q c') = queued (tx_q c) /\
    dead c' = dead c.
Proof.
  intros Hq. unfold tx_sched. destruct (rm_inline_bufs_ok _ Hq) as (h & -> & Hh & Hc & _).
  cbn [mbind option_bind]. eexists. split; [done|]. done.
Qed.

Lemma tx_out_ok c : queue_ok (tx_q c) ->
  exists c', tx_out malloc c = Some c' /\ queue_ok (tx_q c') /\ queued (tx_q c') = queued (tx_q c) /\
    dead c' = dead c.
Proof. intros Hq. unfold tx_out. case_match; [by apply tx_sched_ok|by exists c]. Qed.

Lemma queue_head_ok h b : queue_ok h -> buf_ok b -> hlen h + 1 < 2 ^ 30 ->
  queue_ok (cbuf_list_queue h b) /\ queued (cbuf_list_queue h b) = content b ++ queued h.
Proof.
  intros (Hb & Hl & Hs) Hbb Hlt. split; [|done]. unfold queue_ok. cbn [bufs hlen cbuf_list_queue].
  rewrite u64_small by lia. split; [by constructor|]. cbn [length]. lia.
Qed.

Lemma dequeue_ok h b q : queue_ok h -> cbuf_list_dequeue h = (Some b, q) ->
  buf_ok b /\ queue_ok q /\ queued h = content b ++ queued q /\ hlen q + 1 < 2 ^ 30 /\
  (length (bufs q) < length (bufs h))%nat.
Proof.
  intros (Hb & Hl & Hs) E. unfold cbuf_list_dequeue in E. destruct (bufs h) as [|b0 r] eqn:Eb; [done|].
  simplify_eq. apply Forall_cons in Hb as [Hb0 Hr]. cbn [length] in *.
  split; [done|]. unfold queue_ok, queued. cbn [bufs hlen]. rewrite Eb, u64_small by lia.
  split; [split; [done|lia]|]. cbn. split; [done|]. lia.
Qed.

(** How a round that sends nothing ends. *)
Definition ends (r : option (Z * bool * conn * list Z)) (wire pend : list Z) : Prop :=
  exists err sched c', r = Some (err, sched, c', wire) /\ queue_ok (tx_q c') /\ queued (tx_q c') = pend.

Lemma ends_out c wire err : queue_ok (tx_q c) ->
  ends (c ← tx_out malloc c; Some (err, false, c, wire)) wire (queued (tx_q c)).
Proof. intros Hq. destruct (tx_out_ok c Hq) as (c' & -> & ? & ? & _). by eexists _, _, _. Qed.

Lemma ends_sched c wire err : queue_ok (tx_q c) ->
  ends (c ← tx_sched malloc c; Some (err, true, c, wire)) wire (queued (tx_q c)).
Proof. intros Hq. destruct (tx_sched_ok c Hq) as (c' & -> & ? & ? & _). by eexists _, _, _. Qed.

Lemma ends_again c wire : queue_ok (tx_q c) -> ends (tx_again malloc c wire) wire (queued (tx_q c)).
Proof. intros Hq. unfold tx_again. case_match; [by apply ends_out|]. exact (ends_sched (inc_tx_err c) wire 0 Hq). Qed.

(** No result of a send loses or repeats a byte, unless SSL reports that the
    peer has closed. *)
Lemma write_loop_ok script : forall c wire,
  queue_ok (tx_q c) -> Forall (fun e => e <> TxZeroReturn) script ->
  exists err sched c' wire', write_loop malloc script c wire = Some (err, sched, c', wire ++ wire') /\
    queue_ok (tx_q c') /\ wire' ++ queued (tx_q c') = queued (tx_q c).
Proof.
  assert (forall r wire pend, ends r wire pend -> exists err sched c' wire',
    r = Some (err, sched, c', wire ++ wire') /\ queue_ok (tx_q c') /\ wire' ++ queued (tx_q c') = pend) as Hends.
  { intros r wire pend (err & sched & c' & -> & ? & ?). exists err, sched, c', []. by rewrite app_nil_r. }
  induction script as [|e script IH]; intros c wire Hq Hs; cbn [write_loop];
    destruct (cbuf_list_dequeue (tx_q c)) as [[buf|] q] eqn:Eq.
  2, 4: by apply Hends, ends_out.
  - destruct (dequeue_ok _ _ _ Hq Eq) as (Hb & Hq' & -> & Hl & _).
    destruct (queue_head_ok q buf Hq' Hb Hl) as [Hrq <-]. by apply Hends, ends_again.
  - destruct (dequeue_ok _ _ _ Hq Eq) as (Hb & Hq' & -> & Hl & _). apply Forall_cons in Hs as [He Hs].
    destruct (queue_head_ok q buf Hq' Hb Hl) as [Hrq Hcq]. rewrite <- Hcq.
    destruct (tx_result e buf) as [n| | | | | |] eqn:Er; try (by apply Hends, ends_again).
    + assert (0 < n <= blen buf) as Hn.
      { unfold tx_result in Er. destruct e; simplify_eq. case_match; simplify_eq. breflect. lia. }
      destruct Hb as [Hb Hbs].
      destruct (pull_ok buf n Hb) as (buf' & Hp & Hb' & Hc & _ & _); [lia|].
      destruct (Z.ltb_spec n (blen buf)).
      * rewrite Hp. cbn [mbind option_bind]. destruct (queue_head_ok q buf' Hq') as [Hrq' Hcq']; [|done|].
        { split; [done|]. pose proof (content_length buf' Hb') as L1. pose proof (content_length buf Hb).
          rewrite Hc, length_drop in L1. lia. }
        match goal with |- context [tx_sched malloc ?c0] => destruct (ends_sched c0
          (wire ++ take (Z.to_nat n) (content buf)) 0) as (err & sched & c' & E & Hok & Hpend) end.
        { by case_match. }
        exists err, sched, c', (take (Z.to_nat n) (content buf)). rewrite E. split_and!; [done..|].
        rewrite Hpend. replace (queued _) with (queued (cbuf_list_queue q buf')) by (by case_match).
        rewrite Hcq', Hc, Hcq, app_assoc, take_drop. done.
      * match goal with |- context [write_loop malloc script ?c0] =>
          destruct (IH c0 (wire ++ take (Z.to_nat n) (content buf))) as (err & sched & c' & w & E & Hok & Hpend) end;
          [by case_match|done|].
        exists err, sched, c', (take (Z.to_nat n) (content buf) ++ w). rewrite E, app_assoc.
        split_and!; [done..|]. rewrite <- app_assoc, Hpend, Hcq.
        replace (queued _) with (queued q) by (by case_match). f_equal.
        apply firstn_all2. pose proof (content_length buf Hb). lia.
    + case_match; by apply Hends, ends_out.
    + case_match; by apply Hends, ends_out.
    + by apply Hends, ends_out.
    + unfold tx_result in Er. destruct e; simplify_eq. by case_match.
Qed.

Lemma write_nonblock_ok script c :
  queue_ok (tx_q c) -> dead c = false -> Forall (fun e => e <> TxZeroReturn) script ->
  exists err sched c' wire, c_socket_write_nonblock_loop malloc script c = Some (err, sched, c', wire) /\
    queue_ok (tx_q c') /\ wire ++ queued (tx_q c') = queued (tx_q c).
Proof.
  intros Hq Hd Hs. unfold c_socket_write_nonblock_loop. rewrite Hd.
  destruct (wr_blk_on_rd c).
  - destruct (ends_out c [] 0 Hq) as (err & sched & c' & E & Hok & Hp). exists err, sched, c', []. done.
  - destruct (write_loop_ok script c [] Hq Hs) as (err & sched & c' & w & E & Hok & Hp).
    exists err, sched, c', w. done.
Qed.

(** C30: transmission loses nothing and keeps the order.  Whatever part of each
    buffer the socket accepts and whatever error it reports (other than the closing
    of an SSL peer), [c_socket_write_nonblock_loop] on a live connection returns, and the bytes it has
    sent followed by the bytes left in the queue are the bytes that were
    queued. *)
Theorem write_nonblock_no_loss script c :
  queue_ok (tx_q c) -> dead c = false -> Forall (fun e => e <> TxZeroReturn) script ->
  exists err sched c' wire, c_socket_write_nonblock_loop malloc script c = Some (err, sched, c', wire) /\
    queue_ok (tx_q c') /\ wire ++ queued (tx_q c') = queued (tx_q c).
Proof. apply write_nonblock_ok. Qed.

(** enqueueing keeps the stream: [c_conn_tx] and [c_thread_tx] either drop
    the whole buffer, when the queue is over its limit, or send and queue all of it
    behind what was queued before. *)
Theorem conn_tx_appends script c b :
  queue_ok (tx_q c) -> hlen (tx_q c) + 1 < 2 ^ 30 -> buf_ok b -> dead c = false ->
  Forall (fun e => e <> TxZeroReturn) script ->
  exists c' wire, c_conn_tx malloc script c b = Some (c', wire) /\ queue_ok (tx_q c') /\
    wire ++ queued (tx_q c') =
      if 1024 <? hlen (tx_q c) then queued (tx_q c) else queued (tx_q c) ++ content b.
Proof.
  intros Hq Hl Hb Hd Hs. unfold c_conn_tx, cbuf_list_queue_len.
  destruct Hq as (Hf & Hlen & Hlt). rewrite s32_id by (unfold INT_MIN, INT_MAX; lia).
  case_match; [exists c, []; done|].
  destruct (write_nonblock_ok script (set_tx_q (cbuf_list_queue_tail (tx_q c) b) c))
    as (err & sched & c' & w & E & Hok & Hp); [|done|done|].
  { unfold queue_ok. cbn. rewrite u64_small, Forall_app, length_app by lia. cbn. split_and!; auto; lia. }
  rewrite E. cbn [mbind option_bind]. exists c', w. split_and!; auto. rewrite Hp.
  unfold queued. cbn [bufs cbuf_list_queue_tail tx_q set_tx_q]. rewrite map_app, concat_app. cbn.
  by rewrite app_nil_r.
Qed.

(** ** Scatter-gather and blocking transmission *)

Lemma sg_drop_ok l : forall h sent c, bufs h = l -> queue_ok h ->
  0 <= sent <= Z.of_nat (length (queued h)) ->
  exists c' s, sg_drop l h sent c = Some (c', s) /\ queue_ok (tx_q c') /\
    queued (tx_q c') = drop (Z.to_nat sent) (queued h).
Proof.
  induction l as [|b l IH]; intros h sent c Hl Hq Hs; cbn [sg_drop].
  - eexists _, _. split; [done|]. cbn. split; [done|]. unfold queued in *. rewrite Hl in *. cbn. by destruct (Z.to_nat sent).
  - destruct (Z.eqb_spec sent 0) as [->|Hne].
    { eexists _, _. split; [done|]. cbn. split; [done|]. by rewrite drop_0. }
    destruct (cbuf_list_dequeue h) as [[b0|] q] eqn:Ed; [|unfold cbuf_list_dequeue in Ed; by rewrite Hl in Ed].
    destruct (dequeue_ok _ _ _ Hq Ed) as ([Hb Hbs] & Hq' & Hcq & Hlt & _).
    assert (b0 = b /\ bufs q = l) as [-> Hl'].
    { unfold cbuf_list_dequeue in Ed. rewrite Hl in Ed. by simplify_eq. }
    cbn [snd]. pose proof (content_length b Hb) as Lb. rewrite Hcq, length_app in Hs.
    destruct (Z.leb_spec (blen b) sent).
    + destruct (IH q (sent - blen b) (inc_tx_pkts c) Hl' Hq') as (c' & s & -> & Hok & Hc); [lia|].
      exists c', s. split_and!; auto. rewrite Hc, Hcq, drop_app_ge by lia. f_equal. lia.
    + destruct (pull_ok b sent Hb) as (b' & -> & Hb' & Hc & _ & _); [lia|]. cbn [mbind option_bind].
      destruct (queue_head_ok q b' Hq') as [Hok Hqq]; [|done|].
      { split; [done|]. pose proof (content_length b' Hb') as L. rewrite Hc, length_drop in L. lia. }
      eexists _, _. split; [done|]. cbn [tx_q set_tx_q]. split; [done|].
      rewrite Hqq, Hc, Hcq, drop_app_le by lia. done.
Qed.

(** the scatter-gather send loses nothing: for any number of bytes that
    [writev] accepts of the first 1024 buffers, or any error, the bytes sent followed by
    the bytes left in the queue are the bytes that were queued. *)
Theorem write_sg_no_loss result c :
  queue_ok (tx_q c) -> dead c = false ->
  (forall n, result = TxSent n ->
     0 < n <= Z.of_nat (length (concat (map content (take C_TX_BUF_SZ (bufs (tx_q c))))))) ->
  exists err sched c' wire, c_socket_write_nonblock_sg_loop malloc result c = Some (err, sched, c', wire) /\
    queue_ok (tx_q c') /\ wire ++ queued (tx_q c') = queued (tx_q c).
Proof.
  intros Hq Hd Hn. unfold c_socket_write_nonblock_sg_loop. rewrite Hd.
  case_match; [by eexists _, _, _, []|].
  assert (forall r, ends r [] (queued (tx_q c)) -> exists err sched c' wire,
    r = Some (err, sched, c', wire) /\ queue_ok (tx_q c') /\ wire ++ queued (tx_q c') = queued (tx_q c)) as Hends.
  { intros r (err & sched & c' & -> & ? & ?). by exists err, sched, c', []. }
  destruct result as [n| | | | | |];
    [|apply Hends; exact (ends_sched (inc_tx_err c) [] 0 Hq)
     |apply Hends; exact (ends_sched (inc_tx_err c) [] 0 Hq)
     |apply Hends; exact (ends_out (set_dead true c) [] (-1) Hq)
     |apply Hends; exact (ends_out (set_dead true c) [] (-1) Hq)
     |apply Hends; exact (ends_out (set_dead true c) [] (-1) Hq)
     |apply Hends; exact (ends_out (set_dead true c) [] (-1) Hq)].
  specialize (Hn n eq_refl). set (iov := concat (map content (take C_TX_BUF_SZ (bufs (tx_q c))))) in *.
  assert (exists more, queued (tx_q c) = iov ++ more) as [more Hmore].
  { exists (concat (map content (drop C_TX_BUF_SZ (bufs (tx_q c))))). unfold iov, queued.
    by rewrite <- concat_app, <- map_app, take_drop. }
  destruct (sg_drop_ok (bufs (tx_q c)) (tx_q c) n c eq_refl Hq) as (c1 & s & -> & Hq1 & Hc1).
  { rewrite Hmore, length_app. lia. }
  cbn [mbind option_bind fst snd].
  assert (exists c', (if s then tx_sched malloc c1 else tx_out malloc c1) = Some c' /\ queue_ok (tx_q c') /\
    queued (tx_q c') = queued (tx_q c1)) as (c' & -> & Hq' & Hc').
  { destruct s; [destruct (tx_sched_ok c1 Hq1) as (c' & ? & ? & ? & _)|
                 destruct (tx_out_ok c1 Hq1) as (c' & ? & ? & ? & _)]; by exists c'. }
  cbn [mbind option_bind]. eexists _, _, _, _. split; [done|]. split; [done|].
  rewrite Hc', Hc1, Hmore. rewrite <- (take_app_le iov more) by lia. by rewrite take_drop.
Qed.

Lemma block_loop_prefix retries : forall script force c buf wire,
  buf_ok buf -> dead c = false ->
  exists err c' w rest, block_loop retries script force c buf wire = Some (err, c', wire ++ w) /\
    content buf = w ++ rest /\ (err = 0 -> dead c' = false -> rest = []).
Proof.
  assert (forall (err : Z) (c : conn) (wire : list Z) (buf : cbuf), (err = 0 -> dead c = false -> False) ->
    exists err' c' w rest, Some (err, c, wire) = Some (err', c', wire ++ w) /\
    content buf = w ++ rest /\ (err' = 0 -> dead c' = false -> rest = [])) as Hnone.
  { intros err c wire buf H. exists err, c, [], (content buf). rewrite app_nil_r. split_and!; auto. intros; exfalso; auto. }
  induction retries as [|r IH]; intros script force c buf wire Hb Hd;
    (destruct script as [|e script]; cbn [block_loop]; [by apply Hnone|]);
    destruct (tx_result e buf) as [n| | | | | |] eqn:Er; try (by (case_match; apply Hnone));
    try (by (case_match; [apply IH|apply Hnone])).
  all: try (by apply Hnone).
  all: try (by apply IH).
  all: assert (0 < n <= blen buf) as Hn by
    (unfold tx_result in Er; destruct e; simplify_eq; case_match; simplify_eq; breflect; lia).
  all: destruct Hb as [Hb Hbs]; destruct (pull_ok buf n Hb) as (buf' & Hp & Hb' & Hc & _ & _); [lia|].
  all: pose proof (content_length buf Hb) as L; pose proof (content_length buf' Hb') as L'.
  all: rewrite Hc, length_drop in L'.
  all: destruct (Z.ltb_spec n (blen buf)); [rewrite Hp; cbn [mbind option_bind]|].
  - eexists _, _, _, (drop (Z.to_nat n) (content buf)). split; [done|]. by rewrite take_drop.
  - eexists _, _, _, []. split; [done|]. rewrite app_nil_r. split; [|done].
    symmetry. apply firstn_all2. lia.
  - destruct (IH script force c buf' (wire ++ take (Z.to_nat n) (content buf))) as (err & c' & w & rest & E & Hw & Hr);
      [split; [done|lia]|done|].
    exists err, c', (take (Z.to_nat n) (content buf) ++ w), rest. rewrite E, app_assoc. split; [done|].
    split; [|done]. rewrite <- app_assoc, <- Hw, Hc. by rewrite take_drop.
  - eexists _, _, _, []. split; [done|]. rewrite app_nil_r. split; [|done].
    symmetry. apply firstn_all2. lia.
Qed.

(** the blocking send gives up after [C_MAX_TX_RETRIES] retries; what it
    has sent is a prefix of the buffer, and the whole buffer when it reports success on a
    connection that is still alive. *)
Theorem write_block_prefix script force c buf :
  buf_ok buf -> dead c = false ->
  exists err c' w rest, __c_socket_write_block_loop script c buf force = Some (err, c', w) /\
    content buf = w ++ rest /\ (err = 0 -> dead c' = false -> rest = []).
Proof.
  intros Hb Hd. unfold __c_socket_write_block_loop. rewrite Hd.
  exact (block_loop_prefix C_MAX_TX_RETRIES script force c buf [] Hb Hd).
Qed.
End TRANSMIT.

(** ** Witnesses *)

Definition zero_malloc (n : nat) : list Z := replicate n 0.
Lemma zero_malloc_length n : length (zero_malloc n) = n.
Proof. apply length_replicate. Defined.

Definition new_conn : conn := mk_conn None (mk_head 0 []) true false false 0 0 0 false false.
Definition hello_msg : list Z := [1; 0; 0; 8; 0; 0; 0; 0].
Definition cut_stream : list (list Z) := [[1; 0; 0]; [8; 0; 0; 0; 0; 4]].

Lemma hello_framed : well_framed of_get_data_len of_hdr_valid 8 (concat cut_stream) [hello_msg] [4].
Proof.
  apply (wf_msg of_get_data_len of_hdr_valid 8 [4] hello_msg [] [4]).
  - split; apply Z.leb_le; vm_compute; reflexivity.
  - vm_compute. reflexivity.
  - discriminate.
  - vm_compute. reflexivity.
  - apply wf_rest. intros [H _]. apply Z.leb_le in H. vm_compute in H. discriminate.
Defined.

Lemma read_nonblock_framing_witness :
  exists ret c' q' out,
    c_socket_read_nonblock_loop zero_malloc of_get_data_len of_hdr_valid 8 64 new_conn cut_stream =
      Some (ret, c', q', out) /\ (concat q' = [] -> out = [hello_msg] /\ pending c' = [4]).
Proof.
  destruct (read_nonblock_framing zero_malloc zero_malloc_length of_get_data_len of_hdr_valid 8 64
    of_len_local of_valid_local of_len_range ltac:(lia) new_conn cut_stream [hello_msg] [4])
    as (ret & c' & q' & out & consumed & msgs' & H & _ & _ & _ & _ & _ & Hall).
  - intros [H _]. apply Z.leb_le in H. vm_compute in H. discriminate.
  - apply Z.ltb_lt. vm_compute. reflexivity.
  - exact hello_framed.
  - exists ret, c', q', out. split; [exact H|exact Hall].
Defined.

Definition spin_buf : cbuf := mk_cbuf [1; 0; 0; 0; 0; 0; 0; 0] 0 8 8 false.

Lemma spin_buf_ok : cbuf_ok spin_buf.
Proof. constructor; cbn; unfold bend; cbn; lia. Defined.

Lemma zero_length_spins_witness :
  proc_loop of_get_data_len of_hdr_valid 8 1000 spin_buf [] = None.
Proof.
  apply (zero_length_spins 1000 spin_buf []).
  - exact spin_buf_ok.
  - cbn. lia.
  - vm_compute. reflexivity.
  - vm_compute. reflexivity.
Defined.

Definition busy_conn : conn := mk_conn None (mk_head 1 [spin_buf]) true false false 0 0 0 false false.

Lemma busy_queue_ok : queue_ok (tx_q busy_conn).
Proof.
  split; [|split; [reflexivity|cbn; lia]]. apply Forall_cons. split; [|apply Forall_nil; exact I].
  split; [exact spin_buf_ok|cbn; lia].
Defined.

Lemma write_nonblock_no_loss_witness :
  exists err sched c' wire,
    c_socket_write_nonblock_loop zero_malloc [TxSent 3] busy_conn = Some (err, sched, c', wire) /\
    wire ++ queued (tx_q c') = [1; 0; 0; 0; 0; 0; 0; 0].
Proof.
  destruct (write_nonblock_no_loss zero_malloc zero_malloc_length [TxSent 3] busy_conn)
    as (err & sched & c' & wire & H & _ & Hw).
  - exact busy_queue_ok.
  - reflexivity.
  - apply Forall_cons. split; [discriminate|apply Forall_nil; exact I].
  - exists err, sched, c', wire. split; [exact H|exact Hw].
Defined.

Lemma conn_tx_appends_witness :
  exists c' wire, c_conn_tx zero_malloc [TxSent 3; TxAgain] busy_conn spin_buf = Some (c', wire).
Proof.
  destruct (conn_tx_appends zero_malloc zero_malloc_length [TxSent 3; TxAgain] busy_conn spin_buf)
    as (c' & wire & H & _).
  - exact busy_queue_ok.
  - cbn. lia.
  - split; [exact spin_buf_ok|cbn; lia].
  - reflexivity.
  - apply Forall_cons. split; [discriminate|]. apply Forall_cons. split; [discriminate|].
    apply Forall_nil. exact I.
  - exists c', wire. exact H.
Defined.

Lemma write_sg_no_loss_witness :
  exists err sched c' wire,
    c_socket_write_nonblock_sg_loop zero_malloc (TxSent 3) busy_conn = Some (err, sched, c', wire).
Proof.
  destruct (write_sg_no_loss zero_malloc zero_malloc_length (TxSent 3) busy_conn)
    as (err & sched & c' & wire & H & _).
  - exact busy_queue_ok.
  - reflexivity.
  - intros n Hn. injection Hn as <-. split; [lia|]. apply Z.leb_le. vm_compute. reflexivity.
  - exists err, sched, c', wire. exact H.
Defined.

Lemma write_block_prefix_witness :
  exists r, __c_socket_write_block_loop [TxSent 3; TxIntr; TxSent 9] busy_conn spin_buf false = Some r.
Proof.
  destruct (write_block_prefix [TxSent 3; TxIntr; TxSent 9] false busy_conn spin_buf)
    as (err & c' & w & rest & H & _).
  - split; [exact spin_buf_ok|cbn; lia].
  - reflexivity.
  - exists (err, c', w). exact H.
Defined.

(** The room that [cbuf_headroom] reports for a fresh buffer lies before the
    structure: a push that passes its assertion leaves the block. *)
Lemma push_past_block : cbuf_push (init_cbuf (replicate 64 0)) 128 =
  Some (mk_cbuf (replicate 64 0) (-128) 0 128 false).
Proof. vm_compute. reflexivity. Qed.
