(* ===== verification/Ha.v ===== *)
(** * High availability: the master election (mul_ha.c)

    The fields of [ctrl_hdl_t] that the election keeps, the operations on them, and
    the messages they emit: states for the peer controller, notifications for the
    applications, role requests for the switches, synchronisation requests and
    updates of the stored generation id.  Each send on the connection to the peer may find it
    broken: [orc] lists, for the sends to come, whether the socket dies in them. *)
From stdpp Require Import base list.
From Stdlib Require Import ZArith Lia.
From S2P Require Import Prelude.
#[local] Open Scope Z_scope.

Module Ha.

Definition C_HA_STATE_NONE : Z := 0.
Definition C_HA_STATE_CONNECTED : Z := 1.
Definition C_HA_STATE_MASTER : Z := 2.
Definition C_HA_STATE_SLAVE : Z := 3.
Definition C_HA_STATE_CONFLICT : Z := 4.
Definition C_HA_STATE_NOHA : Z := 5.
Definition C_HA_MAX_RETRIES : Z := 5.
Definition C_HA_TAKEOVER_TIMEO : Z := 10.
Definition OFPCR_ROLE_EQUAL : Z := 1.
Definition OFPCR_ROLE_MASTER : Z := 2.
Definition OFPCR_ROLE_SLAVE : Z := 3.

(** A connected switch: its datapath id, whether its state has been requested
    from the peer, whether its protocol has role requests. *)
Record c_switch := mk_sw { dpid : Z; ha_syncd_req : bool; has_role_request : bool }.

Record ctrl_hdl := mk_hdl {
  ha_state : Z; ha_sysid : Z; ha_peer_sysid : Z; ha_peer_state : Z; gen_id : Z;
  conflict_resolve : bool; c_peer : bool; conn_dead : bool; conn_open : bool;
  ha_retries : Z; last_ha_hearbeat : Z; switches : list c_switch }.

Inductive ev :=
  | ToPeer (sysid gen state : Z)
  | NotifyApps (sysid gen state : Z)
  | RoleRequest (d role gen : Z)
  | SyncReq (d : Z)
  | SyncDone (d : Z)
  | StoreGenId (gen : Z).

Record st := mk_st { h : ctrl_hdl; orc : list bool; out : list ev }.

Definition emit (e : list ev) (s : st) : st := mk_st (h s) (orc s) (out s ++ e).

Definition set_ha_state (x : Z) (c : ctrl_hdl) : ctrl_hdl :=
  mk_hdl x (ha_sysid c) (ha_peer_sysid c) (ha_peer_state c) (gen_id c) (conflict_resolve c) (c_peer c)
    (conn_dead c) (conn_open c) (ha_retries c) (last_ha_hearbeat c) (switches c).
Definition set_ha_sysid (x : Z) (c : ctrl_hdl) : ctrl_hdl :=
  mk_hdl (ha_state c) x (ha_peer_sysid c) (ha_peer_state c) (gen_id c) (conflict_resolve c) (c_peer c)
    (conn_dead c) (conn_open c) (ha_retries c) (last_ha_hearbeat c) (switches c).
Definition set_peer (sysid state : Z) (c : ctrl_hdl) : ctrl_hdl :=
  mk_hdl (ha_state c) (ha_sysid c) sysid state (gen_id c) (conflict_resolve c) (c_peer c)
    (conn_dead c) (conn_open c) (ha_retries c) (last_ha_hearbeat c) (switches c).
Definition set_gen_id (x : Z) (c : ctrl_hdl) : ctrl_hdl :=
  mk_hdl (ha_state c) (ha_sysid c) (ha_peer_sysid c) (ha_peer_state c) x (conflict_resolve c) (c_peer c)
    (conn_dead c) (conn_open c) (ha_retries c) (last_ha_hearbeat c) (switches c).
Definition set_conflict (x : bool) (c : ctrl_hdl) : ctrl_hdl :=
  mk_hdl (ha_state c) (ha_sysid c) (ha_peer_sysid c) (ha_peer_state c) (gen_id c) x (c_peer c)
    (conn_dead c) (conn_open c) (ha_retries c) (last_ha_hearbeat c) (switches c).
Definition set_conn (dead opened : bool) (c : ctrl_hdl) : ctrl_hdl :=
  mk_hdl (ha_state c) (ha_sysid c) (ha_peer_sysid c) (ha_peer_state c) (gen_id c) (conflict_resolve c) (c_peer c)
    dead opened (ha_retries c) (last_ha_hearbeat c) (switches c).
Definition set_retries (x : Z) (c : ctrl_hdl) : ctrl_hdl :=
  mk_hdl (ha_state c) (ha_sysid c) (ha_peer_sysid c) (ha_peer_state c) (gen_id c) (conflict_resolve c) (c_peer c)
    (conn_dead c) (conn_open c) x (last_ha_hearbeat c) (switches c).
Definition set_heartbeat (x : Z) (c : ctrl_hdl) : ctrl_hdl :=
  mk_hdl (ha_state c) (ha_sysid c) (ha_peer_sysid c) (ha_peer_state c) (gen_id c) (conflict_resolve c) (c_peer c)
    (conn_dead c) (conn_open c) (ha_retries c) x (switches c).
Definition set_switches (x : list c_switch) (c : ctrl_hdl) : ctrl_hdl :=
  mk_hdl (ha_state c) (ha_sysid c) (ha_peer_sysid c) (ha_peer_state c) (gen_id c) (conflict_resolve c) (c_peer c)
    (conn_dead c) (conn_open c) (ha_retries c) (last_ha_hearbeat c) x.

Definition on (f : ctrl_hdl -> ctrl_hdl) (s : st) : st := mk_st (f (h s)) (orc s) (out s).

(** [c_thread_tx] on the connection to the peer: on a dead connection the
    message is dropped, otherwise it is sent unless the socket dies. *)
Definition peer_tx (e : ev) (s : st) : st :=
  if conn_dead (h s) then s
  else match orc s with
       | true :: o => mk_st (set_conn true (conn_open (h s)) (h s)) o (out s)
       | false :: o => mk_st (h s) o (out s ++ [e])
       | [] => emit [e] s
       end.

Definition c_ha_master (c : ctrl_hdl) : bool := ha_state c =? C_HA_STATE_MASTER.
Definition c_ha_slave (c : ctrl_hdl) : bool := ha_state c =? C_HA_STATE_SLAVE.
Definition c_switch_of_master_check (c : ctrl_hdl) : bool := negb (ha_state c =? C_HA_STATE_SLAVE).
Definition c_switch_needs_state_sync (c : ctrl_hdl) : bool := ha_state c =? C_HA_STATE_SLAVE.

Definition __c_ha_proc (b : ev) (force : bool) (s : st) : st :=
  if negb force && negb (c_ha_master (h s)) then s else peer_tx b s.

Definition c_ha_proc (b : ev) (s : st) : st := __c_ha_proc b false s.

(** The role for the switches; the code leaves it unset in other states. *)
Definition of_role (state : Z) : option Z :=
  if (state =? C_HA_STATE_NONE) || (state =? C_HA_STATE_CONNECTED) ||
     (state =? C_HA_STATE_NOHA) || (state =? C_HA_STATE_CONFLICT) then Some OFPCR_ROLE_EQUAL
  else if state =? C_HA_STATE_MASTER then Some OFPCR_ROLE_MASTER
  else if state =? C_HA_STATE_SLAVE then Some OFPCR_ROLE_SLAVE
  else None.

Definition c_ha_get_of_state (c : ctrl_hdl) : option (Z * Z) :=
  r ← of_role (ha_state c); Some (r, gen_id c).

(** The state that is reported: without a configured peer there is no HA. *)
Definition c_ha_mk_state_resp (c : ctrl_hdl) : Z * Z * Z :=
  (ha_sysid c, gen_id c, if c_peer c then ha_state c else C_HA_STATE_NOHA).

Definition c_ha_req_switch_state (d : Z) (s : st) : st := __c_ha_proc (SyncReq d) true s.
Definition c_ha_switch_state_sync_done (d : Z) (s : st) : st := __c_ha_proc (SyncDone d) true s.

Definition c_ha_notify (s : st) : st :=
  let '(i, g, x) := c_ha_mk_state_resp (h s) in emit [NotifyApps i g x] s.

(** Visits the switches in order, updating their flags. *)
Fixpoint req_per_switch (l : list c_switch) (s : st) : list c_switch * st :=
  match l with
  | [] => ([], s)
  | sw :: l =>
      if negb (ha_syncd_req sw) && c_switch_needs_state_sync (h s) then
        let s := c_ha_req_switch_state (dpid sw) s in
        let '(l', s) := req_per_switch l s in
        (mk_sw (dpid sw) true (has_role_request sw) :: l', s)
      else let '(l', s) := req_per_switch l s in (sw :: l', s)
  end.

Definition c_ha_req_sync (s : st) : st :=
  let '(l, s) := req_per_switch (switches (h s)) s in on (set_switches l) s.

Definition __of_send_role_request (sw : c_switch) (c : ctrl_hdl) : option (list ev) :=
  '(role, g) ← c_ha_get_of_state c;
  Some (if has_role_request sw then [RoleRequest (dpid sw) role g] else []).

Fixpoint master_view (l : list c_switch) (c : ctrl_hdl) : option (list ev) :=
  match l with
  | [] => Some []
  | sw :: l => e ← __of_send_role_request sw c; r ← master_view l c; Some (e ++ r)
  end.

Definition c_ha_update_all_sw_master_view (s : st) : option st :=
  e ← master_view (switches (h s)) (h s); Some (emit e s).

(** The update of the generation id and of its file. *)
Definition __c_ha_generation_id_update (g : Z) (s : st) : st :=
  let g := u64 g in emit [StoreGenId g] (on (set_gen_id g) s).

Definition c_ha_generation_id_update (g inc : Z) (s : st) : option st :=
  c_ha_update_all_sw_master_view (__c_ha_generation_id_update (g + inc) s).

(** The end of every transition. *)
Definition transition_end (s : st) : option st :=
  s ← c_ha_update_all_sw_master_view s; Some (c_ha_notify s).

(** The case [C_HA_STATE_NONE] of the transition; [rnd] is [random_uint32]. *)
Definition transition_none (rnd : Z) (s : st) : option st :=
  let s := on (fun c => set_conn true false (set_retries 0 c)) s in
  let x := ha_state (h s) in
  let s := if (x =? C_HA_STATE_SLAVE) || (x =? C_HA_STATE_MASTER) then on (set_ha_sysid 0) s
           else if x =? C_HA_STATE_CONFLICT then on (set_ha_sysid (u32 rnd)) s else s in
  transition_end (on (set_ha_state C_HA_STATE_NONE) s).

Definition c_ha_send_state (rnd : Z) (s : st) : option st :=
  let '(i, g, x) := c_ha_mk_state_resp (h s) in
  let s := peer_tx (ToPeer i g x) s in
  if conn_dead (h s) then transition_none rnd s else Some s.

(** [None] is [NOT_REACHED]. *)
Definition c_ha_state_transition (rnd new_state : Z) (s : st) : option st :=
  if new_state =? C_HA_STATE_SLAVE then
    let s := on (set_ha_state new_state) s in
    let s := __c_ha_generation_id_update (gen_id (h s) + 1) s in
    transition_end (c_ha_req_sync s)
  else if new_state =? C_HA_STATE_CONFLICT then
    transition_end (on (fun c => set_conflict true (set_ha_state new_state c)) s)
  else if new_state =? C_HA_STATE_NONE then transition_none rnd s
  else if new_state =? C_HA_STATE_MASTER then
    let s := on (set_ha_state new_state) s in
    transition_end (__c_ha_generation_id_update (gen_id (h s) + 1) s)
  else if new_state =? C_HA_STATE_CONNECTED then
    s ← c_ha_send_state rnd (on (set_ha_state new_state) s);
    transition_end s
  else None.

(** A dead socket seen by the receiver. *)
Definition c_ha_thread_read (rnd : Z) (sock_dead : bool) (s : st) : option st :=
  if sock_dead then c_ha_state_transition rnd C_HA_STATE_NONE s else Some s.

(** [from_peer]: the message comes from the configured peer address;
    [len_ok]: it is long enough. *)
Definition c_ha_rcv_peer_state (rnd now : Z) (from_peer len_ok : bool) (sysid gen state : Z) (s : st)
  : option st :=
  if negb (c_peer (h s)) then Some s
  else if negb from_peer then Some s
  else if negb len_ok then Some s
  else
    let s := on (set_peer sysid state) s in
    s ← (if gen_id (h s) <? gen then c_ha_generation_id_update gen 0 s else Some s);
    let c := h s in
    s ← (if ((ha_peer_state c =? C_HA_STATE_SLAVE) && (ha_state c =? C_HA_STATE_SLAVE)) ||
            ((ha_peer_state c =? C_HA_STATE_MASTER) && (ha_state c =? C_HA_STATE_MASTER)) ||
            (ha_sysid c =? ha_peer_sysid c) || (ha_peer_state c =? C_HA_STATE_CONFLICT)
         then if negb (conflict_resolve c) then c_ha_state_transition rnd C_HA_STATE_CONFLICT s
              else Some s
         else Some (on (set_conflict false) s));
    Some (on (set_heartbeat now) s).

Definition c_ha_connect (rnd : Z) (connected : bool) (s : st) : option st :=
  if connected then c_ha_state_transition rnd C_HA_STATE_CONNECTED (on (set_conn false true) s)
  else Some (on (fun c => set_conn true (conn_open c) c) s).

Definition elect (rnd : Z) (s : st) : option st :=
  let c := h s in
  if C_HA_STATE_CONNECTED <=? ha_peer_state c then
    if ha_peer_sysid c <? ha_sysid c then c_ha_state_transition rnd C_HA_STATE_SLAVE s
    else if ha_sysid c <? ha_peer_sysid c then c_ha_state_transition rnd C_HA_STATE_MASTER s
    else c_ha_state_transition rnd C_HA_STATE_CONFLICT s
  else c_ha_state_transition rnd C_HA_STATE_CONFLICT s.

(** The timer: [connected] is the outcome of a connection attempt. *)
Definition c_ha_state_machine (rnd curr : Z) (connected : bool) (s : st) : option st :=
  let x := ha_state (h s) in
  if x =? C_HA_STATE_NONE then
    if c_peer (h s) then c_ha_connect rnd connected s else Some s
  else if x =? C_HA_STATE_CONNECTED then
    s ← c_ha_send_state rnd s;
    elect rnd s
  else if x =? C_HA_STATE_MASTER then c_ha_send_state rnd s
  else if x =? C_HA_STATE_SLAVE then
    s ← (if last_ha_hearbeat (h s) + C_HA_TAKEOVER_TIMEO <? curr
         then c_ha_state_transition rnd C_HA_STATE_MASTER s else Some s);
    c_ha_send_state rnd s
  else if x =? C_HA_STATE_CONFLICT then
    s ← c_ha_send_state rnd s;
    let r := ha_retries (h s) in
    let s := on (set_retries (s32 (r + 1))) s in
    if (C_HA_MAX_RETRIES <=? r) && (ha_peer_state (h s) =? C_HA_STATE_CONFLICT)
    then c_ha_state_transition rnd C_HA_STATE_NONE s else Some s
  else None.

(** The role reply of a switch (mul_of.c). *)
Definition of131_recv_role_reply (generation_id : Z) (s : st) : option st :=
  '(_, g) ← c_ha_get_of_state (h s);
  if negb (generation_id =? UINT64_MAX) && (g <? generation_id)
  then c_ha_generation_id_update generation_id 0 s else Some s.

End Ha.
