(* ===== verification/HaSpec.v ===== *)
(** * High availability: properties of the master election *)
From stdpp Require Import base sets list sorting.
From Stdlib Require Import ZArith Lia.
From S2P Require Import Prelude Ha.
Import Ha.
#[local] Open Scope Z_scope.

(** ** The messages of a transition *)

(** The role requests for the switches that have them. *)
Definition role_requests (role g : Z) (l : list c_switch) : list ev :=
  map (fun sw => RoleRequest (dpid sw) role g) (filter (fun sw => has_role_request sw = true) l).

(** The state as the applications see it. *)
Definition notification (c : ctrl_hdl) : ev :=
  let '(i, g, x) := c_ha_mk_state_resp c in NotifyApps i g x.

Lemma master_view_eq l c r :
  of_role (ha_state c) = Some r -> master_view l c = Some (role_requests r (gen_id c) l).
Proof.
  intros Hr. induction l as [|sw l IH]; [done|]. cbn [master_view].
  unfold __of_send_role_request, c_ha_get_of_state. rewrite Hr. cbn. rewrite IH. cbn.
  unfold role_requests. by destruct (has_role_request sw) eqn:E; cbn; rewrite ?E.
Qed.

Lemma of_role_total x : 0 <= x <= 4 -> exists r, of_role x = Some r.
Proof.
  intros. assert (x = 0 \/ x = 1 \/ x = 2 \/ x = 3 \/ x = 4) as Hx by lia.
  destruct Hx as [->|[->|[->|[->| ->]]]]; eexists; reflexivity.
Qed.

Lemma master_view_all s r :
  of_role (ha_state (h s)) = Some r ->
  c_ha_update_all_sw_master_view s =
    Some (emit (role_requests r (gen_id (h s)) (switches (h s))) s).
Proof. intros Hr. unfold c_ha_update_all_sw_master_view. by rewrite (master_view_eq _ _ r Hr). Qed.

Lemma transition_end_eq s r :
  of_role (ha_state (h s)) = Some r ->
  transition_end s =
    Some (emit [notification (h s)] (emit (role_requests r (gen_id (h s)) (switches (h s))) s)).
Proof.
  intros Hr. unfold transition_end. rewrite (master_view_all _ r Hr). cbn.
  unfold c_ha_notify, notification. cbn. by destruct (c_ha_mk_state_resp (h s)) as [[??]?].
Qed.

Lemma h_emit e s : h (emit e s) = h s.
Proof. done. Qed.
Lemma h_on f s : h (on f s) = f (h s).
Proof. done. Qed.
#[export] Hint Rewrite h_emit h_on : ha.

(** A send changes the connection and the trace only. *)
Lemma peer_tx_cases e s :
  peer_tx e s = s \/
  (exists o, peer_tx e s = mk_st (h s) o (out s ++ [e])) \/
  (exists o, peer_tx e s = mk_st (set_conn true (conn_open (h s)) (h s)) o (out s)).
Proof.
  unfold peer_tx, emit. destruct (conn_dead (h s)); [by left|]. right.
  destruct (orc s) as [|[] o]; [left|right|left]; eauto.
Qed.

(** A send that finds the connection alive. *)
Definition live (s : st) : Prop := conn_dead (h s) = false /\ head (orc s) <> Some true.

Lemma peer_tx_live e s : live s -> peer_tx e s = mk_st (h s) (tail (orc s)) (out s ++ [e]).
Proof. intros [Hd Ho]. unfold peer_tx, emit. rewrite Hd. by destruct (orc s) as [|[] o]. Qed.

(** The state as the peer sees it. *)
Definition heartbeat (c : ctrl_hdl) : ev := let '(i, g, x) := c_ha_mk_state_resp c in ToPeer i g x.

Lemma send_state_live rnd s :
  live s -> c_ha_send_state rnd s = Some (mk_st (h s) (tail (orc s)) (out s ++ [heartbeat (h s)])).
Proof.
  intros Hl. unfold c_ha_send_state, heartbeat.
  destruct (c_ha_mk_state_resp (h s)) as [[i g] x]. rewrite peer_tx_live by done.
  cbn. destruct Hl as [-> _]. done.
Qed.

(** ** The invariant of the election *)

Definition role_gens : list ev -> list Z :=
  omap (fun e => match e with RoleRequest _ _ g => Some g | _ => None end).

Record ok (s : st) : Prop := {
  ok_state : 0 <= ha_state (h s) <= C_HA_STATE_CONFLICT;
  ok_gen : 0 <= gen_id (h s) <= UINT64_MAX;
  ok_sorted : StronglySorted Z.le (role_gens (out s));
  ok_bound : Forall (fun g => g <= gen_id (h s)) (role_gens (out s)) }.

(** [s'] follows [s] by operations that raise the generation id to at most
    [k] above the bound [B] of the ids seen so far. *)
Definition adv (B k : Z) (s s' : st) : Prop :=
  ok s -> gen_id (h s) <= B -> B + k <= UINT64_MAX ->
  ok s' /\ gen_id (h s) <= gen_id (h s') <= B + k.

Lemma adv_refl B s : adv B 0 s s.
Proof. intros Hok ??. split; [done|lia]. Qed.

Lemma adv_trans B k1 k2 s1 s2 s3 :
  0 <= k1 -> 0 <= k2 -> adv B k1 s1 s2 -> adv (B + k1) k2 s2 s3 -> adv B (k1 + k2) s1 s3.
Proof.
  intros ?? H1 H2 Hok Hb Hk. destruct (H1 Hok Hb ltac:(lia)) as [Hok2 ?].
  destruct (H2 Hok2 ltac:(lia) ltac:(lia)) as [Hok3 ?]. split; [done|lia].
Qed.

Lemma adv_weaken B k k' s s' : k <= k' -> adv B k s s' -> adv B k' s s'.
Proof. intros ? Ha Hok Hb Hk. destruct (Ha Hok Hb ltac:(lia)). split; [done|lia]. Qed.

Lemma role_gens_app l r : role_gens (l ++ r) = role_gens l ++ role_gens r.
Proof. apply omap_app. Qed.

(** A change of the handle that keeps the generation id and a legal state. *)
Lemma adv_on B f s :
  (0 <= ha_state (h s) <= C_HA_STATE_CONFLICT -> 0 <= ha_state (f (h s)) <= C_HA_STATE_CONFLICT) ->
  gen_id (f (h s)) = gen_id (h s) -> adv B 0 s (on f s).
Proof.
  intros Hs Hg [H1 H2 H3 H4] ??. split; [|cbn; lia].
  split; cbn; rewrite ?Hg; auto.
Qed.

Lemma adv_no_roles B e s : role_gens e = [] -> adv B 0 s (emit e s).
Proof.
  intros He [H1 H2 H3 H4] ??. split; [|cbn; lia].
  split; cbn; rewrite ?role_gens_app, ?He, ?app_nil_r; auto.
Qed.

Lemma role_gens_requests r g l x : x ∈ role_gens (role_requests r g l) -> x = g.
Proof.
  unfold role_requests. induction (filter _ l) as [|sw l' IH]; cbn; [by rewrite elem_of_nil|].
  intros [->|?]%elem_of_cons; auto.
Qed.

Lemma requests_sorted r g l : StronglySorted Z.le (role_gens (role_requests r g l)).
Proof.
  assert (Hall : forall k, (forall x, x ∈ k -> x = g) -> StronglySorted Z.le k).
  { induction k as [|a k IH]; intros Hk; constructor.
    - apply IH. intros x Hx. apply Hk. set_solver.
    - apply Forall_forall. intros x Hx. rewrite (Hk x), (Hk a) by set_solver. lia. }
  apply Hall. intros x. apply role_gens_requests.
Qed.

(** Role requests with the current generation id keep the order. *)
Lemma adv_requests B r s : adv B 0 s (emit (role_requests r (gen_id (h s)) (switches (h s))) s).
Proof.
  intros [H1 H2 H3 H4] ??. split; [|cbn; lia].
  rewrite Forall_forall in H4. split; cbn; auto; rewrite role_gens_app.
  - apply StronglySorted_app_2; [|done|apply requests_sorted].
    intros x y Hx ->%role_gens_requests. auto.
  - apply Forall_forall. intros x [?| ->%role_gens_requests]%elem_of_app; auto; lia.
Qed.

(** The operations that do not raise the id compose without cost. *)
Lemma adv_trans0 B k s1 s2 s3 : 0 <= k -> adv B 0 s1 s2 -> adv B k s2 s3 -> adv B k s1 s3.
Proof.
  intros ? H1 H2. replace k with (0 + k) by lia.
  eapply adv_trans; [lia|lia|exact H1|]. by rewrite Z.add_0_r.
Qed.

Lemma adv_peer_tx B e s : role_gens [e] = [] -> adv B 0 s (peer_tx e s).
Proof.
  intros He. destruct (peer_tx_cases e s) as [->|[[o ->]|[o ->]]]; [apply adv_refl|..];
    intros [H1 H2 H3 H4] ??; (split; [|cbn; lia]); split; cbn;
    rewrite ?role_gens_app, ?He, ?app_nil_r; auto.
Qed.

(** ** Every operation preserves the invariant *)

Lemma ok_role s : ok s -> exists r, of_role (ha_state (h s)) = Some r.
Proof. intros [Hs _ _ _]. apply of_role_total. exact Hs. Qed.

Lemma notification_no_role c : role_gens [notification c] = [].
Proof. unfold notification. by destruct (c_ha_mk_state_resp c) as [[??]?]. Qed.

(** The same for an operation that may have no result: it has one. *)
Definition runs (B k : Z) (s : st) (r : option st) : Prop :=
  ok s -> gen_id (h s) <= B -> B + k <= UINT64_MAX ->
  exists s', r = Some s' /\ ok s' /\ gen_id (h s) <= gen_id (h s') <= B + k.

Lemma runs_ret B k s s' : adv B k s s' -> runs B k s (Some s').
Proof. intros Ha Hok ??. destruct (Ha Hok) as [? ?]; [done|done|]. by exists s'. Qed.

Lemma runs_pre B k s s1 r : 0 <= k -> adv B 0 s s1 -> runs B k s1 r -> runs B k s r.
Proof.
  intros ? Ha Hr Hok ??. destruct (Ha Hok) as [Hok1 ?]; [done|lia|].
  destruct (Hr Hok1) as (s' & ? & ? & ?); [lia|done|]. exists s'. by split_and!; [| |lia|lia].
Qed.

(** [__c_ha_generation_id_update] before [r]. *)
Lemma runs_pre1 B s s1 r : adv B 1 s s1 -> (forall B, runs B 0 s1 r) -> runs B 1 s r.
Proof.
  intros Ha Hr Hok ??. destruct (Ha Hok) as [Hok1 ?]; [done|lia|].
  destruct (Hr (B + 1) Hok1) as (s' & ? & ? & ?); [lia|lia|]. exists s'. by split_and!; [| |lia|lia].
Qed.

Lemma runs_bind B k1 k2 s r (f : st -> option st) :
  0 <= k1 -> 0 <= k2 -> runs B k1 s r -> (forall s', runs (B + k1) k2 s' (f s')) ->
  runs B (k1 + k2) s (r ≫= f).
Proof.
  intros ?? H1 H2 Hok ??. destruct (H1 Hok) as (s1 & -> & Hok1 & ?); [done|lia|].
  destruct (H2 s1 Hok1) as (s' & ? & ? & ?); [lia|lia|]. exists s'. by split_and!; [| |lia|lia].
Qed.

Lemma runs_weaken B k k' s r : k <= k' -> runs B k s r -> runs B k' s r.
Proof.
  intros ? Hr Hok ??. destruct (Hr Hok) as (s' & ? & ? & ?); [done|lia|].
  exists s'. by split_and!; [| |lia|lia].
Qed.

Lemma runs_master_view B s : runs B 0 s (c_ha_update_all_sw_master_view s).
Proof.
  intros Hok ??. destruct (ok_role s Hok) as [r Hr]. rewrite (master_view_all _ r Hr).
  destruct (adv_requests B r s Hok) as [? ?]; [done|lia|]. eexists. split; [reflexivity|]. done.
Qed.

Lemma runs_transition_end B s : runs B 0 s (transition_end s).
Proof.
  intros Hok ??. destruct (ok_role s Hok) as [r Hr]. rewrite (transition_end_eq _ r Hr).
  refine (runs_ret B 0 _ _ _ Hok _ _); [|done|done].
  eapply adv_trans0; [lia|apply adv_requests|]. apply adv_no_roles, notification_no_role.
Qed.

(** The new id does not wrap while there is room for it. *)
Lemma adv_gen_update B k g s :
  gen_id (h s) <= g <= B + k -> adv B k s (__c_ha_generation_id_update g s).
Proof.
  intros Hg [H1 H2 H3 H4] ??.
  assert (u64 g = g) as Hu by (unfold u64; rewrite Z.mod_small; unfold UINT64_MAX in *; lia).
  unfold __c_ha_generation_id_update. rewrite Hu. split; [|cbn; lia].
  split; cbn; rewrite ?role_gens_app, ?app_nil_r; auto; [lia|].
  eapply Forall_impl; [exact H4|]. cbn. intros. lia.
Qed.

Lemma adv_next_gen B s : adv B 1 s (__c_ha_generation_id_update (gen_id (h s) + 1) s).
Proof. intros Hok ??. apply adv_gen_update; auto. lia. Qed.

Lemma runs_transition_none B rnd s : runs B 0 s (transition_none rnd s).
Proof.
  unfold transition_none. eapply runs_pre; [lia| |].
  { apply (adv_on B (fun c => set_conn true false (set_retries 0 c))); done. }
  set (s1 := on _ s). eapply (runs_pre B 0 s1); [lia| |].
  2:{ eapply runs_pre; [lia| |apply runs_transition_end].
      apply (adv_on B (set_ha_state C_HA_STATE_NONE)); [|done]. done. }
  cbv zeta. case_match; [by apply adv_on|]. case_match; [by apply adv_on|apply adv_refl].
Qed.

Lemma runs_send_state B rnd s : runs B 0 s (c_ha_send_state rnd s).
Proof.
  unfold c_ha_send_state. destruct (c_ha_mk_state_resp (h s)) as [[i g] x].
  eapply runs_pre; [lia|by apply (adv_peer_tx B (ToPeer i g x))|].
  destruct (conn_dead _); [apply runs_transition_none|apply runs_ret, adv_refl].
Qed.

Lemma adv_req_per_switch B l : forall s, adv B 0 s (snd (req_per_switch l s)).
Proof.
  induction l as [|sw l IH]; intros s; cbn; [apply adv_refl|].
  destruct (_ && _).
  - assert (H1 : adv B 0 s (c_ha_req_switch_state (dpid sw) s)).
    { unfold c_ha_req_switch_state, __c_ha_proc. cbn. by apply adv_peer_tx. }
    specialize (IH (c_ha_req_switch_state (dpid sw) s)).
    destruct (req_per_switch l _) as [l' s']. eapply adv_trans0; eauto. lia.
  - specialize (IH s). by destruct (req_per_switch l s) as [l' s'].
Qed.

Lemma adv_req_sync B s : adv B 0 s (c_ha_req_sync s).
Proof.
  unfold c_ha_req_sync. pose proof (adv_req_per_switch B (switches (h s)) s) as Hr.
  destruct (req_per_switch _ s) as [l s1]. eapply adv_trans0; [lia|exact Hr|]. by apply adv_on.
Qed.

Lemma adv_set_state B x s : 0 <= x <= C_HA_STATE_CONFLICT -> adv B 0 s (on (set_ha_state x) s).
Proof. intros. by apply adv_on. Qed.

Lemma state_cases x : 0 <= x <= C_HA_STATE_CONFLICT ->
  x = C_HA_STATE_NONE \/ x = C_HA_STATE_CONNECTED \/ x = C_HA_STATE_MASTER \/
  x = C_HA_STATE_SLAVE \/ x = C_HA_STATE_CONFLICT.
Proof.
  unfold C_HA_STATE_NONE, C_HA_STATE_CONNECTED, C_HA_STATE_MASTER, C_HA_STATE_SLAVE, C_HA_STATE_CONFLICT.
  lia.
Qed.

(** The transitions one by one. *)
Lemma to_none rnd s : c_ha_state_transition rnd C_HA_STATE_NONE s = transition_none rnd s.
Proof. reflexivity. Qed.
Lemma to_connected rnd s :
  c_ha_state_transition rnd C_HA_STATE_CONNECTED s =
    (c_ha_send_state rnd (on (set_ha_state C_HA_STATE_CONNECTED) s) ≫= transition_end).
Proof. reflexivity. Qed.
Lemma to_master rnd s :
  c_ha_state_transition rnd C_HA_STATE_MASTER s =
    transition_end (__c_ha_generation_id_update (gen_id (h s) + 1) (on (set_ha_state C_HA_STATE_MASTER) s)).
Proof. reflexivity. Qed.
Lemma to_slave rnd s :
  c_ha_state_transition rnd C_HA_STATE_SLAVE s =
    transition_end (c_ha_req_sync
      (__c_ha_generation_id_update (gen_id (h s) + 1) (on (set_ha_state C_HA_STATE_SLAVE) s))).
Proof. reflexivity. Qed.
Lemma to_conflict rnd s :
  c_ha_state_transition rnd C_HA_STATE_CONFLICT s =
    transition_end (on (fun c => set_conflict true (set_ha_state C_HA_STATE_CONFLICT c)) s).
Proof. reflexivity. Qed.

Lemma runs_state_transition B rnd x s :
  0 <= x <= C_HA_STATE_CONFLICT -> runs B 1 s (c_ha_state_transition rnd x s).
Proof.
  intros Hx. destruct (state_cases x Hx) as [->|[->|[->|[->| ->]]]].
  - rewrite to_none. apply runs_weaken with 0; [lia|]. apply runs_transition_none.
  - rewrite to_connected. apply runs_weaken with 0; [lia|].
    eapply runs_pre; [lia|by apply (adv_set_state B C_HA_STATE_CONNECTED)|].
    apply (runs_bind B 0 0); [lia|lia|apply runs_send_state|]. intros. apply runs_transition_end.
  - rewrite to_master. eapply runs_pre; [lia|by apply (adv_set_state B C_HA_STATE_MASTER)|].
    eapply runs_pre1; [apply adv_next_gen|]. intros. apply runs_transition_end.
  - rewrite to_slave. eapply runs_pre; [lia|by apply (adv_set_state B C_HA_STATE_SLAVE)|].
    eapply runs_pre1; [apply adv_next_gen|]. intros B'.
    eapply runs_pre; [lia|apply adv_req_sync|apply runs_transition_end].
  - rewrite to_conflict. apply runs_weaken with 0; [lia|].
    eapply runs_pre; [lia| |apply runs_transition_end].
    by apply (adv_on B (fun c => set_conflict true (set_ha_state C_HA_STATE_CONFLICT c))).
Qed.
#[export] Hint Resolve runs_send_state runs_transition_end runs_transition_none runs_master_view : ha.

(** The transitions that leave the generation id alone. *)
Lemma runs_to_conflict B rnd s : runs B 0 s (c_ha_state_transition rnd C_HA_STATE_CONFLICT s).
Proof.
  rewrite to_conflict. eapply runs_pre; [lia| |apply runs_transition_end].
  by apply (adv_on B (fun c => set_conflict true (set_ha_state C_HA_STATE_CONFLICT c))).
Qed.

Lemma runs_generation_id_update B g s :
  gen_id (h s) <= g <= B -> runs B 0 s (c_ha_generation_id_update g 0 s).
Proof.
  intros Hg. unfold c_ha_generation_id_update. rewrite Z.add_0_r.
  eapply runs_pre; [lia| |apply runs_master_view]. apply adv_gen_update. lia.
Qed.

Lemma runs_id B k s : 0 <= k -> runs B k s (Some s).
Proof. intros. eapply runs_weaken; [eassumption|]. apply runs_ret, adv_refl. Qed.

Lemma runs_rcv_peer_state B rnd now fp lo sysid gen state s :
  gen <= B -> runs B 0 s (c_ha_rcv_peer_state rnd now fp lo sysid gen state s).
Proof.
  intros Hg. unfold c_ha_rcv_peer_state.
  do 3 (case_match; [by apply runs_id|]).
  eapply runs_pre; [lia|by apply (adv_on B (set_peer sysid state))|].
  apply (runs_bind B 0 0); [lia|lia| |intros s1; apply (runs_bind _ 0 0); [lia|lia| |intros s2]].
  - case_match; [|by apply runs_id]. breflect. apply runs_generation_id_update. lia.
  - rewrite Z.add_0_r. case_match; [case_match; [apply runs_to_conflict|by apply runs_id]|].
    apply runs_ret. by apply adv_on.
  - apply runs_ret. by apply adv_on.
Qed.

Lemma runs_connect B rnd up s : runs B 0 s (c_ha_connect rnd up s).
Proof.
  unfold c_ha_connect. destruct up; [|apply runs_ret; by apply adv_on].
  eapply runs_pre; [lia|by apply (adv_on B (set_conn false true))|]. rewrite to_connected.
  eapply runs_pre; [lia|by apply (adv_set_state B C_HA_STATE_CONNECTED)|].
  apply (runs_bind B 0 0); [lia|lia|apply runs_send_state|]. intros. apply runs_transition_end.
Qed.

Lemma runs_elect B rnd s : runs B 1 s (elect rnd s).
Proof. unfold elect. repeat case_match; by apply runs_state_transition. Qed.

Lemma runs_state_machine B rnd curr up s : ok s -> runs B 1 s (c_ha_state_machine rnd curr up s).
Proof.
  intros Hok. unfold c_ha_state_machine.
  destruct (state_cases _ (ok_state s Hok)) as [->|[->|[->|[->| ->]]]]; cbn - [c_ha_connect elect
    c_ha_send_state c_ha_state_transition s32 on].
  - case_match; [|by apply runs_id]. eapply runs_weaken; [|apply runs_connect]. lia.
  - apply (runs_bind B 0 1); [lia|lia|apply runs_send_state|]. intros. apply runs_elect.
  - eapply runs_weaken; [|apply runs_send_state]. lia.
  - apply (runs_bind B 1 0); [lia|lia| |intros; apply runs_send_state].
    case_match; [by apply runs_state_transition|by apply runs_id].
  - eapply runs_weaken; [|apply (runs_bind B 0 0); [lia|lia|apply runs_send_state|]]; [lia|].
    intros s1. eapply runs_pre; [lia|by apply (adv_on _ (set_retries (s32 (ha_retries (h s1) + 1))))|].
    case_match; [apply runs_transition_none|by apply runs_id].
Qed.

Lemma runs_role_reply B g s : ok s -> g <= B -> runs B 0 s (of131_recv_role_reply g s).
Proof.
  intros Hok Hg. unfold of131_recv_role_reply, c_ha_get_of_state.
  destruct (ok_role s Hok) as [r ->]. cbn. case_match; [|by apply runs_id].
  breflect. apply runs_generation_id_update. lia.
Qed.

(** ** Runs *)

(** What a controller reacts to: its timer, a state report of the peer, the
    reader of the connection, the role reply of a switch. *)
Inductive input :=
  | Timer (rnd curr : Z) (connected : bool)
  | PeerState (rnd now : Z) (from_peer len_ok : bool) (sysid gen state : Z)
  | Reader (rnd : Z) (sock_dead : bool)
  | RoleReply (gen : Z).

Definition react (i : input) : st -> option st :=
  match i with
  | Timer rnd curr up => c_ha_state_machine rnd curr up
  | PeerState rnd now fp lo sysid gen state => c_ha_rcv_peer_state rnd now fp lo sysid gen state
  | Reader rnd dead => c_ha_thread_read rnd dead
  | RoleReply gen => of131_recv_role_reply gen
  end.

Fixpoint run (ins : list input) (s : st) : option st :=
  match ins with [] => Some s | i :: ins => react i s ≫= run ins end.

Definition input_gen (i : input) : Z :=
  match i with PeerState _ _ _ _ _ g _ => g | RoleReply g => g | _ => 0 end.

Lemma runs_react B i s : ok s -> input_gen i <= B -> runs B 1 s (react i s).
Proof.
  intros Hok Hg. destruct i; cbn in *.
  - by apply runs_state_machine.
  - eapply runs_weaken; [|by apply runs_rcv_peer_state]. lia.
  - unfold c_ha_thread_read. case_match; [by apply runs_state_transition|by apply runs_id].
  - eapply runs_weaken; [|by apply runs_role_reply]. lia.
Qed.

(** C31: on every sequence of timer ticks, state reports of the peer, connection
    failures and role replies, whatever sends fail, the controller never
    reaches [NOT_REACHED] or an unset role: its state stays one of the five of
    the election, its generation id never decreases, and the role requests its switches
    get carry generation ids in non-decreasing order (a switch rejects a stale
    one), none above the current id.  [B] bounds the ids of the
    messages; each reaction adds at most one to it, so the id does not wrap
    while [B] plus the number of reactions fits 64 bits. *)
Theorem ha_run_safe B ins s :
  ok s -> gen_id (h s) <= B -> Forall (fun i => input_gen i <= B) ins ->
  B + Z.of_nat (length ins) <= UINT64_MAX ->
  exists s', run ins s = Some s' /\ ok s' /\
    gen_id (h s) <= gen_id (h s') <= B + Z.of_nat (length ins).
Proof.
  revert B s. induction ins as [|i ins IH]; intros B s Hok Hb Hi Hl; cbn [run length] in *.
  { exists s. split_and!; [done|done|lia|lia]. }
  apply Forall_cons in Hi as [Hi His].
  destruct (runs_react B i s Hok Hi Hok Hb ltac:(lia)) as (s1 & -> & Hok1 & ?). cbn [mbind option_bind].
  destruct (IH (B + 1) s1 Hok1 ltac:(lia)) as (s' & ? & ? & ?); [|lia|].
  { eapply Forall_impl; [exact His|]. cbn. intros. lia. }
  exists s'. split_and!; [done|done|lia|lia].
Qed.

(** ** The transitions *)

(** The trace ends with the announcement of the state. *)
Definition announced (s : st) : Prop :=
  exists pre role, of_role (ha_state (h s)) = Some role /\
    out s = pre ++ role_requests role (gen_id (h s)) (switches (h s)) ++ [notification (h s)].

Lemma transition_end_announced s s' : transition_end s = Some s' -> ok s' -> announced s'.
Proof.
  intros He Hok. assert (h s' = h s) as Hh.
  { unfold transition_end, c_ha_update_all_sw_master_view in He. inv_bind. subst.
    unfold c_ha_notify. by destruct (c_ha_mk_state_resp _) as [[??]?]. }
  destruct (ok_role s' Hok) as [r Hr]. rewrite Hh in Hr.
  rewrite (transition_end_eq _ r Hr) in He. injection He as <-.
  exists (out s), r. split; [done|]. cbn. by rewrite <- app_assoc.
Qed.

(** whatever the state, a transition to any state of the election completes, and the last
    things it emits are a role request for every switch that has
    them, with the role and the generation id of the state it ended in, and one
    notification of that state for the applications. *)
Theorem transition_announces rnd x s :
  0 <= x <= C_HA_STATE_CONFLICT -> ok s -> gen_id (h s) < UINT64_MAX ->
  exists s', c_ha_state_transition rnd x s = Some s' /\ ok s' /\ announced s'.
Proof.
  intros Hx Hok Hg.
  destruct (runs_state_transition (gen_id (h s)) rnd x s Hx Hok ltac:(lia) ltac:(lia))
    as (s' & Hs & Hok' & _). exists s'. split_and!; [done|done|].
  destruct (state_cases x Hx) as [->|[->|[->|[->| ->]]]].
  - rewrite to_none in Hs. by eapply transition_end_announced.
  - rewrite to_connected in Hs. apply bind_Some in Hs as (s2 & _ & Hs).
    by eapply transition_end_announced.
  - rewrite to_master in Hs. by eapply transition_end_announced.
  - rewrite to_slave in Hs. by eapply transition_end_announced.
  - rewrite to_conflict in Hs. by eapply transition_end_announced.
Qed.

(** ** The election *)

Lemma transition_end_h s s' : transition_end s = Some s' -> h s' = h s.
Proof.
  unfold transition_end, c_ha_update_all_sw_master_view. intros He. inv_bind. subst.
  unfold c_ha_notify. by destruct (c_ha_mk_state_resp _) as [[??]?].
Qed.

(** Two handles that differ in the connection and in the marks of the switches only. *)
Record same_role (c c' : ctrl_hdl) : Prop := {
  sr_state : ha_state c' = ha_state c;
  sr_sysid : ha_sysid c' = ha_sysid c;
  sr_gen : gen_id c' = gen_id c }.

Lemma same_role_trans c1 c2 c3 : same_role c1 c2 -> same_role c2 c3 -> same_role c1 c3.
Proof. intros [] []. split; congruence. Qed.

Lemma peer_tx_same_role e s : same_role (h s) (h (peer_tx e s)).
Proof. by destruct (peer_tx_cases e s) as [->|[[o ->]|[o ->]]]. Qed.

Lemma req_per_switch_same_role l : forall s, same_role (h s) (h (snd (req_per_switch l s))).
Proof.
  induction l as [|sw l IH]; intros s; cbn; [done|]. destruct (_ && _).
  - pose proof (peer_tx_same_role (SyncReq (dpid sw)) s) as H1.
    specialize (IH (c_ha_req_switch_state (dpid sw) s)).
    destruct (req_per_switch l _) as [l' s']. eapply same_role_trans; [exact H1|exact IH].
  - specialize (IH s). by destruct (req_per_switch l s) as [l' s'].
Qed.

Lemma req_sync_same_role s : same_role (h s) (h (c_ha_req_sync s)).
Proof.
  unfold c_ha_req_sync. pose proof (req_per_switch_same_role (switches (h s)) s) as Hr.
  destruct (req_per_switch _ s) as [l s1]. eapply same_role_trans; [exact Hr|done].
Qed.

Lemma next_gen_u64 g : 0 <= g < UINT64_MAX -> u64 (g + 1) = g + 1.
Proof. intros. unfold u64. rewrite Z.mod_small; [done|]. unfold UINT64_MAX in *. lia. Qed.

(** The outcome of the comparison of the system ids. *)
Definition elected (mine peer : Z) : Z := if mine <? peer then C_HA_STATE_MASTER else C_HA_STATE_SLAVE.

Lemma elect_spec rnd s :
  ok s -> gen_id (h s) < UINT64_MAX -> C_HA_STATE_CONNECTED <= ha_peer_state (h s) ->
  ha_sysid (h s) <> ha_peer_sysid (h s) ->
  exists s', elect rnd s = Some s' /\ ha_state (h s') = elected (ha_sysid (h s)) (ha_peer_sysid (h s)) /\
    ha_sysid (h s') = ha_sysid (h s) /\ gen_id (h s') = gen_id (h s) + 1.
Proof.
  intros Hok Hg Hp Hne. unfold elect, elected.
  rewrite (proj2 (Z.leb_le _ _) Hp).
  assert (forall x, 0 <= x <= C_HA_STATE_CONFLICT -> exists s', c_ha_state_transition rnd x s = Some s')
    as Htot.
  { intros x Hx. destruct (runs_state_transition (gen_id (h s)) rnd x s Hx Hok) as (s' & ? & _); eauto; lia. }
  pose proof (ok_gen s Hok).
  destruct (Z.ltb_spec (ha_peer_sysid (h s)) (ha_sysid (h s))).
  - rewrite (proj2 (Z.ltb_ge _ _)) by lia. destruct (Htot C_HA_STATE_SLAVE ltac:(done)) as [s' E].
    exists s'. split; [done|]. rewrite to_slave in E. apply transition_end_h in E. rewrite E.
    match goal with |- context [h (c_ha_req_sync ?x)] => destruct (req_sync_same_role x) as [-> -> ->] end.
    cbn. split_and!; [done|done|]. apply next_gen_u64. lia.
  - rewrite (proj2 (Z.ltb_lt _ _)) by lia. destruct (Htot C_HA_STATE_MASTER ltac:(done)) as [s' E].
    exists s'. split; [done|]. rewrite to_master in E. apply transition_end_h in E. rewrite E.
    cbn. split_and!; [done|done|]. apply next_gen_u64. lia.
Qed.

Lemma machine_connected rnd curr up s :
  ha_state (h s) = C_HA_STATE_CONNECTED ->
  c_ha_state_machine rnd curr up s = (c_ha_send_state rnd s ≫= elect rnd).
Proof. intros Hs. unfold c_ha_state_machine. by rewrite Hs. Qed.

Lemma ok_live s : ok s -> ok (mk_st (h s) (tail (orc s)) (out s ++ [heartbeat (h s)])).
Proof.
  intros [H1 H2 H3 H4]. assert (role_gens [heartbeat (h s)] = []) as He.
  { unfold heartbeat. by destruct (c_ha_mk_state_resp (h s)) as [[??]?]. }
  split; cbn; rewrite ?role_gens_app, ?He, ?app_nil_r; auto.
Qed.

(** C32: two connected controllers with different system ids, each of which has the
    report of the other, settle at their next timer ticks on exactly one master,
    the one with the smaller id, and one slave, and both move to a new generation. *)
Theorem election_one_master ra rb ta tb ua ub a b :
  ok a -> ok b -> live a -> live b ->
  gen_id (h a) < UINT64_MAX -> gen_id (h b) < UINT64_MAX ->
  ha_state (h a) = C_HA_STATE_CONNECTED -> ha_state (h b) = C_HA_STATE_CONNECTED ->
  ha_peer_sysid (h a) = ha_sysid (h b) -> ha_peer_sysid (h b) = ha_sysid (h a) ->
  C_HA_STATE_CONNECTED <= ha_peer_state (h a) -> C_HA_STATE_CONNECTED <= ha_peer_state (h b) ->
  ha_sysid (h a) < ha_sysid (h b) ->
  exists a' b', c_ha_state_machine ra ta ua a = Some a' /\ c_ha_state_machine rb tb ub b = Some b' /\
    ha_state (h a') = C_HA_STATE_MASTER /\ ha_state (h b') = C_HA_STATE_SLAVE /\
    gen_id (h a') = gen_id (h a) + 1 /\ gen_id (h b') = gen_id (h b) + 1.
Proof.
  intros Oa Ob La Lb Ga Gb Sa Sb Pa Pb Qa Qb Hlt.
  rewrite !machine_connected, !send_state_live by done. cbn [mbind option_bind].
  destruct (elect_spec ra _ (ok_live a Oa)) as (a' & Ea & Ha & _ & Ha'); cbn; try done; [lia|].
  destruct (elect_spec rb _ (ok_live b Ob)) as (b' & Eb & Hb & _ & Hb'); cbn; try done; [lia|].
  cbn in *. unfold elected in *. rewrite Pa, (proj2 (Z.ltb_lt _ _)) in Ha by lia.
  rewrite Pb, (proj2 (Z.ltb_ge _ _)) in Hb by lia. eauto 10.
Qed.

(** ** State reports of the peer *)

(** The reports that are a conflict for a controller in the state [c]. *)
Definition conflicts (c : ctrl_hdl) (sysid state : Z) : bool :=
  ((state =? C_HA_STATE_SLAVE) && (ha_state c =? C_HA_STATE_SLAVE)) ||
  ((state =? C_HA_STATE_MASTER) && (ha_state c =? C_HA_STATE_MASTER)) ||
  (ha_sysid c =? sysid) || (state =? C_HA_STATE_CONFLICT).

Lemma generation_id_update_h g s s' :
  c_ha_generation_id_update g 0 s = Some s' -> h s' = set_gen_id (u64 g) (h s).
Proof.
  unfold c_ha_generation_id_update, c_ha_update_all_sw_master_view. intros He. inv_bind. subst.
  cbn. by rewrite Z.add_0_r.
Qed.

Lemma rcv_peer_state_accept rnd now sysid gen state s :
  ok s -> c_peer (h s) = true -> 0 <= gen <= UINT64_MAX ->
  exists s', c_ha_rcv_peer_state rnd now true true sysid gen state s = Some s' /\
    let cf := conflicts (h s) sysid state in
    h s' = mk_hdl (if cf && negb (conflict_resolve (h s)) then C_HA_STATE_CONFLICT else ha_state (h s))
      (ha_sysid (h s)) sysid state (Z.max (gen_id (h s)) gen) cf true (conn_dead (h s))
      (conn_open (h s)) (ha_retries (h s)) now (switches (h s)).
Proof.
  intros Hok Hp Hg. pose proof (ok_gen s Hok) as Hgs.
  destruct (runs_rcv_peer_state (Z.max (gen_id (h s)) gen) rnd now true true sysid gen state s)
    as (s' & E & _ & _); [lia|done|lia|lia|]. exists s'. split; [done|].
  unfold c_ha_rcv_peer_state in E. rewrite Hp in E. cbn [negb] in E.
  apply bind_Some in E as (s1 & E1 & E). apply bind_Some in E as (s2 & E2 & E). injection E as <-.
  assert (h s1 = set_gen_id (Z.max (gen_id (h s)) gen) (set_peer sysid state (h s))) as Hs1.
  { cbn in E1. destruct (Z.ltb_spec (gen_id (h s)) gen).
    - apply generation_id_update_h in E1. rewrite E1. cbn. f_equal.
      unfold u64. rewrite Z.mod_small by (unfold UINT64_MAX in *; lia). lia.
    - injection E1 as <-. cbn. unfold set_gen_id, set_peer. cbn. f_equal. lia. }
  clear E1. rewrite Hs1 in E2. cbn in E2. unfold conflicts. cbn.
  destruct (_ || _ || _ || _); cbn.
  - destruct (conflict_resolve (h s)) eqn:Hc; cbn in *.
    + injection E2 as <-. rewrite Hs1. unfold set_heartbeat. cbn. by rewrite Hc, Hp.
    + apply transition_end_h in E2. rewrite E2. cbn. rewrite Hs1. unfold set_heartbeat. cbn. by rewrite Hp.
  - injection E2 as <-. cbn. rewrite Hs1. unfold set_heartbeat. cbn. by rewrite Hp.
Qed.

(** A state report that does not come from the configured peer, is too short, or arrives
    without a configured peer changes nothing.  An accepted one records the peer's id and
    state and the time, raises the generation id to the peer's, and makes the controller
    enter the conflict state exactly when the roles collide, the ids are equal or the peer
    reports a conflict, unless a conflict is being resolved already; a report without a
    collision ends the resolution. *)
Theorem peer_state_spec rnd now fp lo sysid gen state s :
  ok s -> 0 <= gen <= UINT64_MAX ->
  exists s', c_ha_rcv_peer_state rnd now fp lo sysid gen state s = Some s' /\
    let cf := conflicts (h s) sysid state in
    if c_peer (h s) && fp && lo then
      h s' = mk_hdl (if cf && negb (conflict_resolve (h s)) then C_HA_STATE_CONFLICT else ha_state (h s))
        (ha_sysid (h s)) sysid state (Z.max (gen_id (h s)) gen) cf true (conn_dead (h s))
        (conn_open (h s)) (ha_retries (h s)) now (switches (h s))
    else s' = s.
Proof.
  intros Hok Hg. destruct (c_peer (h s)) eqn:Hp; [destruct fp; [destruct lo|]|]; cbn [andb].
  1: by apply rcv_peer_state_accept.
  all: exists s; unfold c_ha_rcv_peer_state; by rewrite Hp.
Qed.

(** ** Heartbeats and takeover *)

(** The two roles of a settled pair. *)
Definition settled (x y : Z) : Prop :=
  (x = C_HA_STATE_MASTER /\ y = C_HA_STATE_SLAVE) \/ (x = C_HA_STATE_SLAVE /\ y = C_HA_STATE_MASTER).

(** The tick of a slave whose master is not overdue, or of a master. *)
Lemma quiet_tick rnd curr up s :
  live s ->
  ha_state (h s) = C_HA_STATE_MASTER \/
    ha_state (h s) = C_HA_STATE_SLAVE /\ curr <= last_ha_hearbeat (h s) + C_HA_TAKEOVER_TIMEO ->
  c_ha_state_machine rnd curr up s =
    Some (mk_st (h s) (tail (orc s)) (out s ++ [heartbeat (h s)])).
Proof.
  intros Hl Hq. unfold c_ha_state_machine. destruct Hq as [-> |[-> Ht]].
  - by apply send_state_live.
  - cbn - [c_ha_send_state]. rewrite (proj2 (Z.ltb_ge _ _)) by done. by apply send_state_live.
Qed.

(** In a settled pair the tick of one side, a slave within its takeover time or a
    master, changes nothing of it and sends one report; the other side, on receiving
    exactly that report, keeps its own role, restarts its takeover clock and has the larger of
    both generation ids.  So heartbeats keep one master and one slave. *)
Theorem heartbeat_keeps_roles ra rb curr now up a b :
  live a -> ok a -> ok b -> c_peer (h a) = true -> c_peer (h b) = true ->
  settled (ha_state (h a)) (ha_state (h b)) -> ha_sysid (h a) <> ha_sysid (h b) ->
  (ha_state (h a) = C_HA_STATE_SLAVE -> curr <= last_ha_hearbeat (h a) + C_HA_TAKEOVER_TIMEO) ->
  exists a' b' i g x, c_ha_state_machine ra curr up a = Some a' /\ h a' = h a /\
    out a' = out a ++ [ToPeer i g x] /\ c_ha_rcv_peer_state rb now true true i g x b = Some b' /\
    settled (ha_state (h a')) (ha_state (h b')) /\ last_ha_hearbeat (h b') = now /\
    gen_id (h b') = Z.max (gen_id (h b)) (gen_id (h a)) /\ ha_sysid (h b') = ha_sysid (h b).
Proof.
  intros La Oa Ob Pa Pb Hset Hne Ht.
  rewrite quiet_tick by (try done; unfold settled in Hset; intuition auto).
  destruct (rcv_peer_state_accept rb now (ha_sysid (h a)) (gen_id (h a)) (ha_state (h a)) b Ob Pb (ok_gen a Oa))
    as (b' & Eb & Hb). cbv zeta in Hb.
  assert (conflicts (h b) (ha_sysid (h a)) (ha_state (h a)) = false) as Hcf.
  { unfold conflicts. rewrite (proj2 (Z.eqb_neq (ha_sysid (h b)) (ha_sysid (h a)))) by done.
    by destruct Hset as [[-> ->]|[-> ->]]. }
  rewrite Hcf in Hb. cbn [andb] in Hb.
  eexists _, b', (ha_sysid (h a)), (gen_id (h a)), (ha_state (h a)). split; [reflexivity|].
  unfold heartbeat, c_ha_mk_state_resp. rewrite Pa, Hb. by split_and!.
Qed.

(** A slave that has not heard its master for longer than the takeover time becomes
    master with the next generation id, tells the peer, and takes the mastership of its
    switches; up to that time it stays as it is. *)
Theorem slave_takeover rnd curr up s :
  ok s -> live s -> gen_id (h s) < UINT64_MAX -> ha_state (h s) = C_HA_STATE_SLAVE ->
  exists s', c_ha_state_machine rnd curr up s = Some s' /\
    if last_ha_hearbeat (h s) + C_HA_TAKEOVER_TIMEO <? curr then
      h s' = set_gen_id (gen_id (h s) + 1) (set_ha_state C_HA_STATE_MASTER (h s)) /\
      out s' = out s ++ [StoreGenId (gen_id (h s) + 1)] ++
        role_requests OFPCR_ROLE_MASTER (gen_id (h s) + 1) (switches (h s)) ++
        [notification (h s'); heartbeat (h s')]
    else h s' = h s /\ out s' = out s ++ [heartbeat (h s)].
Proof.
  intros Hok Hl Hg Hs. destruct (Z.ltb_spec (last_ha_hearbeat (h s) + C_HA_TAKEOVER_TIMEO) curr) as [Ht|Ht].
  2:{ rewrite quiet_tick by auto. eexists. split; [reflexivity|]. done. }
  unfold c_ha_state_machine. rewrite Hs. cbn - [c_ha_send_state c_ha_state_transition].
  rewrite (proj2 (Z.ltb_lt _ _) Ht), to_master.
  unfold __c_ha_generation_id_update. rewrite next_gen_u64 by (pose proof (ok_gen s Hok); lia).
  rewrite (transition_end_eq _ OFPCR_ROLE_MASTER) by done. cbn [mbind option_bind].
  rewrite send_state_live by exact Hl. eexists. split; [reflexivity|]. cbn. split; [done|].
  by rewrite <- !app_assoc.
Qed.

(** When the report of a connected controller finds the connection broken, the transition
    to [C_HA_STATE_NONE] that destroys it does not end the tick: the election goes on with
    the last report of the peer, and the controller ends as master (or slave)
    without a connection. *)
Theorem connected_elects_without_peer rnd curr up s :
  ok s -> gen_id (h s) < UINT64_MAX -> ha_state (h s) = C_HA_STATE_CONNECTED ->
  conn_dead (h s) = true -> C_HA_STATE_CONNECTED <= ha_peer_state (h s) ->
  ha_sysid (h s) < ha_peer_sysid (h s) ->
  exists s', c_ha_state_machine rnd curr up s = Some s' /\
    ha_state (h s') = C_HA_STATE_MASTER /\ conn_dead (h s') = true /\ conn_open (h s') = false.
Proof.
  intros Hok Hg Hs Hd Hp Hlt. rewrite machine_connected by done.
  unfold c_ha_send_state, peer_tx. rewrite Hd. cbn [c_ha_mk_state_resp]. rewrite Hd.
  unfold transition_none. cbn [h on ha_state set_conn set_retries]. rewrite Hs.
  rewrite (transition_end_eq _ OFPCR_ROLE_EQUAL) by done. cbn [mbind option_bind].
  unfold elect. autorewrite with ha. cbn - [c_ha_state_transition].
  rewrite (proj2 (Z.leb_le _ _) Hp), (proj2 (Z.ltb_ge _ _)), (proj2 (Z.ltb_lt _ _)) by lia.
  rewrite to_master, (transition_end_eq _ OFPCR_ROLE_MASTER) by done.
  eexists. split; [reflexivity|]. done.
Qed.

(** ** Witnesses *)

Definition ex_hdl (state sysid peer_sysid peer_state gen : Z) (dead : bool) : ctrl_hdl :=
  mk_hdl state sysid peer_sysid peer_state gen false true dead true 0 100
    [mk_sw 1 false true; mk_sw 2 false false].
Definition ex_st (c : ctrl_hdl) : st := mk_st c [] [].

Lemma ex_ok state sysid psysid pstate gen dead :
  0 <= state <= C_HA_STATE_CONFLICT -> 0 <= gen <= UINT64_MAX ->
  ok (ex_st (ex_hdl state sysid psysid pstate gen dead)).
Proof. intros. split; cbn; auto; constructor. Qed.

Ltac ex_done := try (apply ex_ok); try done; try (cbn; lia).

Lemma ha_run_safe_witness :
  exists s', run [Timer 3 100 true; PeerState 3 101 true true 7 12 1; Timer 3 102 true; Reader 4 true]
    (ex_st (ex_hdl 0 5 0 0 10 true)) = Some s' /\ 10 <= gen_id (h s') <= 16.
Proof.
  destruct (ha_run_safe 12
    [Timer 3 100 true; PeerState 3 101 true true 7 12 1; Timer 3 102 true; Reader 4 true]
    (ex_st (ex_hdl 0 5 0 0 10 true))) as (s' & ? & _ & ?); ex_done.
  - repeat constructor; cbn; lia.
  - by exists s'.
Defined.

Lemma transition_announces_witness :
  exists s', c_ha_state_transition 3 C_HA_STATE_SLAVE (ex_st (ex_hdl 1 9 7 1 10 false)) = Some s' /\
    announced s'.
Proof.
  destruct (transition_announces 3 C_HA_STATE_SLAVE (ex_st (ex_hdl 1 9 7 1 10 false)))
    as (s' & ? & _ & ?); ex_done. by exists s'.
Defined.

Lemma election_one_master_witness :
  exists a' b', c_ha_state_machine 1 200 true (ex_st (ex_hdl 1 5 9 1 10 false)) = Some a' /\
    c_ha_state_machine 1 201 true (ex_st (ex_hdl 1 9 5 1 12 false)) = Some b' /\
    ha_state (h a') = C_HA_STATE_MASTER /\ ha_state (h b') = C_HA_STATE_SLAVE.
Proof.
  destruct (election_one_master 1 1 200 201 true true (ex_st (ex_hdl 1 5 9 1 10 false))
    (ex_st (ex_hdl 1 9 5 1 12 false))) as (a' & b' & ? & ? & ? & ? & _); ex_done.
  by exists a', b'.
Defined.

Lemma peer_state_spec_witness :
  exists s', c_ha_rcv_peer_state 1 300 true true 9 20 C_HA_STATE_MASTER
      (ex_st (ex_hdl C_HA_STATE_MASTER 5 9 1 10 false)) = Some s' /\
    ha_state (h s') = C_HA_STATE_CONFLICT /\ gen_id (h s') = 20.
Proof.
  destruct (peer_state_spec 1 300 true true 9 20 C_HA_STATE_MASTER
    (ex_st (ex_hdl C_HA_STATE_MASTER 5 9 1 10 false))) as (s' & ? & E); ex_done.
  exists s'. split; [done|]. cbn in E. by rewrite E.
Defined.

Lemma heartbeat_keeps_roles_witness :
  exists a' b' i g x, c_ha_state_machine 1 105 true (ex_st (ex_hdl C_HA_STATE_SLAVE 9 5 2 11 false)) = Some a' /\
    c_ha_rcv_peer_state 1 106 true true i g x (ex_st (ex_hdl C_HA_STATE_MASTER 5 9 3 12 false)) = Some b' /\
    settled (ha_state (h a')) (ha_state (h b')).
Proof.
  destruct (heartbeat_keeps_roles 1 1 105 106 true (ex_st (ex_hdl C_HA_STATE_SLAVE 9 5 2 11 false))
    (ex_st (ex_hdl C_HA_STATE_MASTER 5 9 3 12 false)))
    as (a' & b' & i & g & x & ? & _ & _ & ? & ? & _); ex_done.
  - by right.
  - by exists a', b', i, g, x.
Defined.

Lemma slave_takeover_witness :
  exists s', c_ha_state_machine 1 111 true (ex_st (ex_hdl C_HA_STATE_SLAVE 9 5 2 11 false)) = Some s' /\
    ha_state (h s') = C_HA_STATE_MASTER /\ gen_id (h s') = 12.
Proof.
  destruct (slave_takeover 1 111 true (ex_st (ex_hdl C_HA_STATE_SLAVE 9 5 2 11 false)))
    as (s' & ? & E & _); ex_done. exists s'. split; [done|]. by rewrite E.
Defined.

Lemma connected_elects_without_peer_witness :
  exists s', c_ha_state_machine 1 111 true (ex_st (ex_hdl C_HA_STATE_CONNECTED 5 9 1 11 true)) = Some s' /\
    ha_state (h s') = C_HA_STATE_MASTER /\ conn_open (h s') = false.
Proof.
  destruct (connected_elects_without_peer 1 111 true (ex_st (ex_hdl C_HA_STATE_CONNECTED 5 9 1 11 true)))
    as (s' & ? & ? & _ & ?); ex_done. by exists s'.
Defined.
