(* ===== verification/GenStore.v ===== *)
(** * The stored generation id (mul_ha.c)

    The generation id outlives the controller in a file: [__c_ha_generation_id_update]
    prints it with ["0x%llx"], [c_ha_generation_id_init] reads a line of it with
    [fgets] and [strtoull] at start-up.  Characters are their codes. *)
From stdpp Require Import base list.
From Stdlib Require Import ZArith Lia.
From S2P Require Import Prelude.
#[local] Open Scope Z_scope.

Module GenStore.

(** ** The C library's printing and reading of hexadecimal numbers *)

Definition hex_char (d : Z) : Z := if d <? 10 then 48 + d else 87 + d.

(** ["%llx"]; sixteen digits are enough for 64 bits. *)
Fixpoint hex (fuel : nat) (n : Z) : list Z :=
  match fuel with
  | O => []
  | S fuel => if n <? 16 then [hex_char n] else hex fuel (n / 16) ++ [hex_char (n mod 16)]
  end.

Definition hex_val (c : Z) : option Z :=
  if (48 <=? c) && (c <=? 57) then Some (c - 48)
  else if (97 <=? c) && (c <=? 102) then Some (c - 87)
  else if (65 <=? c) && (c <=? 70) then Some (c - 55)
  else None.

Definition isspace (c : Z) : bool := (c =? 32) || ((9 <=? c) && (c <=? 13)).

Fixpoint skip_space (l : list Z) : list Z :=
  match l with c :: l' => if isspace c then skip_space l' else l | [] => [] end.

(** The digits that follow; beyond 64 bits the value stays [ULLONG_MAX] and
    [errno] becomes [ERANGE]. *)
Fixpoint digits (acc : Z) (erange : bool) (l : list Z) : Z * bool :=
  match l with
  | c :: l' => match hex_val c with
               | Some d => let v := 16 * acc + d in
                           if erange || (UINT64_MAX <? v) then digits UINT64_MAX true l'
                           else digits v false l'
               | None => (acc, erange)
               end
  | [] => (acc, erange)
  end.

Definition skip_0x (l : list Z) : list Z :=
  match l with
  | 48 :: x :: c :: l' =>
      if ((x =? 120) || (x =? 88)) && bool_decide (is_Some (hex_val c)) then c :: l' else l
  | _ => l
  end.

(** [strtoull(l, NULL, 16)] and whether it sets [errno] to [ERANGE]. *)
Definition strtoull16 (l : list Z) : Z * bool :=
  match skip_space l with
  | 43 :: l' => digits 0 false (skip_0x l')
  | 45 :: l' => let '(v, e) := digits 0 false (skip_0x l') in if e then (v, e) else (u64 (- v), e)
  | l' => digits 0 false (skip_0x l')
  end.

(** [fgets(buf, n, fp)]: up to [n - 1] characters, through the first newline. *)
Fixpoint fgets (n : nat) (l : list Z) : list Z :=
  match n with
  | S (S _ as n') => match l with
           | c :: l' => if c =? 10 then [c] else c :: fgets n' l'
           | [] => []
           end
  | _ => []
  end.

(** ** The two functions *)

(** The contents of the file after an update that could open it. *)
Definition gen_id_file (gen_id : Z) : list Z := [48; 120] ++ hex 16 gen_id.

(** [file] is [None] when it cannot be opened; [errno] whether it is [ERANGE]
    at the call.  On an empty file [buf] is read uninitialised: [None]. *)
Definition c_ha_generation_id_init (file : option (list Z)) (errno : bool) : option Z :=
  match file with
  | None => Some 0
  | Some [] => None
  | Some l =>
      let '(gen_id, e) := strtoull16 (fgets 127 l) in
      Some (if (gen_id =? UINT64_MAX) && (e || errno) then 0 else gen_id)
  end.

(** ** The round trip *)

Lemma hex_val_char d : 0 <= d < 16 -> hex_val (hex_char d) = Some d.
Proof.
  intros. unfold hex_char. destruct (Z.ltb_spec d 10); unfold hex_val.
  - rewrite !(proj2 (Z.leb_le _ _)) by lia. cbn [andb]. f_equal. lia.
  - rewrite (proj2 (Z.leb_gt (87 + d) 57)), andb_false_r by lia.
    rewrite !(proj2 (Z.leb_le _ _)) by lia. cbn [andb]. f_equal. lia.
Qed.

Lemma hex_char_range d : 0 <= d < 16 -> 48 <= hex_char d <= 102.
Proof. intros. unfold hex_char. destruct (Z.ltb_spec d 10); lia. Qed.

(** Reading the digits of [n] appends them to the number read so far. *)
Lemma digits_hex fuel : forall n acc r,
  0 <= n < 16 ^ Z.of_nat fuel -> n <= UINT64_MAX -> (0 < fuel)%nat -> acc = 0 ->
  digits acc false (hex fuel n ++ r) = digits n false r.
Proof.
  induction fuel as [|fuel IH]; intros n acc r Hn Hm Hf ->; [lia|]. cbn [hex].
  destruct (Z.ltb_spec n 16).
  - cbn. rewrite hex_val_char by lia. rewrite (proj2 (Z.ltb_ge _ _)) by lia. cbn. by rewrite ?Z.add_0_l.
  - rewrite Nat2Z.inj_succ, Z.pow_succ_r in Hn by lia.
    pose proof (Z.div_mod n 16 ltac:(lia)). pose proof (Z.mod_pos_bound n 16 ltac:(lia)).
    rewrite <- app_assoc, IH; [| | |destruct fuel; cbn in Hn; lia|done].
    + cbn. rewrite hex_val_char by lia. rewrite (proj2 (Z.ltb_ge _ _)) by lia. cbn. f_equal. lia.
    + split; [apply Z.div_pos; lia|]. apply Z.div_lt_upper_bound; lia.
    + lia.
Qed.

Lemma hex_range fuel : forall n, 0 <= n -> Forall (fun c => 48 <= c <= 102) (hex fuel n).
Proof.
  induction fuel as [|fuel IH]; intros n Hn; cbn [hex]; [constructor|].
  destruct (Z.ltb_spec n 16).
  - constructor; [|constructor]. apply hex_char_range. lia.
  - apply Forall_app. split; [apply IH, Z.div_pos; lia|].
    constructor; [|constructor]. apply hex_char_range, Z.mod_pos_bound. lia.
Qed.

Lemma hex_length fuel : forall n, (length (hex fuel n) <= fuel)%nat.
Proof.
  induction fuel as [|fuel IH]; intros n; cbn [hex]; [cbn; lia|].
  case_match; [cbn; lia|]. rewrite length_app. specialize (IH (n / 16)). cbn. lia.
Qed.

Lemma fgets_all n l :
  (length l < n)%nat -> Forall (fun c => 48 <= c <= 120) l -> fgets n l = l.
Proof.
  revert l. induction n as [|[|n] IH]; intros l Hl Hc; [lia|destruct l; [done|cbn in Hl; lia]|].
  destruct l as [|c l]; [done|]. apply Forall_cons in Hc as [Hc Hl']. cbn.
  rewrite (proj2 (Z.eqb_neq _ _)) by lia. f_equal. apply IH; [cbn in Hl; lia|done].
Qed.

(** The first digit of a number is one. *)
Lemma hex_head fuel n : (0 < fuel)%nat -> 0 <= n < 16 ^ Z.of_nat fuel ->
  exists c r, hex fuel n = c :: r /\ is_Some (hex_val c).
Proof.
  revert n. induction fuel as [|fuel IH]; intros n Hf Hn; [lia|]. cbn [hex].
  destruct (Z.ltb_spec n 16).
  - exists (hex_char n), []. rewrite hex_val_char by lia. eauto.
  - rewrite Nat2Z.inj_succ, Z.pow_succ_r in Hn by lia.
    destruct (IH (n / 16)) as (c & r & -> & Hc); [destruct fuel; cbn in Hn; lia| |].
    + split; [apply Z.div_pos; lia|]. apply Z.div_lt_upper_bound; lia.
    + by exists c, (r ++ [hex_char (n mod 16)]).
Qed.

(** The generation id that a controller stored is the one it starts with after a
    restart, for every 64-bit id; the largest one is lost when
    [errno] happens to be [ERANGE] before. *)
Theorem gen_id_store_roundtrip gen_id errno :
  0 <= gen_id <= UINT64_MAX -> errno = false \/ gen_id <> UINT64_MAX ->
  c_ha_generation_id_init (Some (gen_id_file gen_id)) errno = Some gen_id.
Proof.
  intros Hg He. unfold gen_id_file. cbn [app]. unfold c_ha_generation_id_init.
  rewrite fgets_all.
  2:{ cbn [length]. pose proof (hex_length 16 gen_id). lia. }
  2:{ do 2 (apply Forall_cons; split; [lia|]). eapply Forall_impl; [apply hex_range; lia|]. cbn. lia. }
  unfold strtoull16. cbn [skip_space isspace].
  assert (0 <= gen_id < 16 ^ Z.of_nat 16) as Hb by (unfold UINT64_MAX in *; cbn; lia).
  destruct (hex_head 16 gen_id ltac:(lia) Hb) as (c & r & E & Hc).
  pose proof (digits_hex 16 gen_id 0 [] Hb ltac:(lia) ltac:(lia) eq_refl) as Hd.
  rewrite app_nil_r in Hd. rewrite E in *. cbn - [digits]. rewrite bool_decide_true by done.
  rewrite Hd. cbn. destruct (Z.eqb_spec gen_id UINT64_MAX); [|done].
  destruct He as [->|]; [done|congruence].
Qed.

Lemma gen_id_store_roundtrip_witness :
  c_ha_generation_id_init (Some (gen_id_file 3735928559)) false = Some 3735928559.
Proof. apply gen_id_store_roundtrip; [unfold UINT64_MAX; lia|by left]. Defined.

End GenStore.
