(* ===== verification/FlowTbl.v ===== *)
(** * The flow tables of a switch (mul_of.c)

    The controller keeps, for every switch, a list of flow entries per table in
    order of priority, an index of the entries by cookie, and reference counts
    from the entries to the groups, the meters and the applications
    that own them.  Entries are objects on a heap ([ents], by address): the tables and the index hold
    their addresses.  Access to a freed entry, releasing a lock that is not
    held, waiting for a lock that this thread holds and the use of
    missing message constructors have no result ([None]). *)
From stdpp Require Import base list gmap.
From Stdlib Require Import ZArith Lia.
From S2P Require Import Prelude Bytes Flow Ha.
#[local] Open Scope Z_scope.

Module FlowTbl.
Import Flow.

Definition C_MAX_RULE_FLOW_TBLS : Z := 255.
Definition C_TBL_HW_IDX_DFL : Z := 0.
Definition C_FL_ENT_STATIC : Z := 0x1.
Definition C_FL_ENT_CLONE : Z := 0x2.
Definition C_FL_ENT_LOCAL : Z := 0x4.
Definition C_FL_ENT_NOCACHE : Z := 0x8.
Definition C_FL_ENT_NOSYNC : Z := 0x10.
Definition C_FL_ENT_BARRIER : Z := 0x80.
Definition C_FL_ENT_RESIDUAL : Z := 0x100.
Definition C_FL_ENT_STALE : Z := 0x200.
Definition C_FL_NO_ACK : Z := 0x400.
Definition C_FL_ENT_RES_STALE : Z := 0x2000.
Definition C_FL_RES_STALE_FLAG : Z := 0x8000000000000000.
Definition SW_HA_NONE : Z := 0.
Definition EPERM : Z := 1.
Definition EEXIST : Z := 17.
Definition EINVAL : Z := 22.

(** [flags & m] as a condition, and [flags & ~m]. *)
Definition has (flags m : Z) : bool := negb (Z.land flags m =? 0).
Definition clr (flags m : Z) : Z := Z.land flags (Z.lnot m).

(** ** Data *)

(** The counters of an entry; [pps] and [bps] are doubles that this code only clears. *)
Record c_fl_entry_stats := mk_stats {
  byte_count : Z; pkt_count : Z; duration_sec : Z; duration_nsec : Z;
  pps : Z; bps : Z; last_refresh : Z; last_scan : Z }.
Definition zero_stats (now : Z) : c_fl_entry_stats := mk_stats 0 0 0 0 0 0 now 0.

(** [actions] are the [action_len] bytes; [groups] and [meters] the ids of the
    groups and meters the entry points to; [FL_LOCK] whether the lock is held. *)
Record c_fl_entry := mk_ent {
  FL_FLAGS : Z; FL_PRIO : Z; FL_INSTALLED : bool; FL_REF : Z; FL_ITIMEO : Z; FL_HTIMEO : Z;
  FL_XID : Z; FL_COOKIE : Z; fl : flow; fl_mask : flow; app_ref : Z; app_owner_list : list Z;
  actions : list Z; groups : list Z; meters : list Z; stale_time : Z;
  fl_stats : c_fl_entry_stats; FL_LOCK : bool }.

Record c_flow_tbl := mk_tbl { sw_active_entries : Z; rule_fl_tbl : list Z }.

(** A bucket of a group, and a band of a meter as its bytes. *)
Record of_act_vec_elem := mk_bkt { weight : Z; ff_port : Z; ff_group : Z; bkt_actions : list Z }.
Record of_meter_band_elem := mk_band { band : list Z }.

(** What is sent: additions and deletions of flows, groups and meters, requests for
    statistics and barriers to the switch; deletions of flows and other commands
    (as their bytes) to the peer controller. *)
Inductive msg :=
  | FlowAdd (f m : flow) (buffer_id : Z) (acts : list Z) (itimeo htimeo prio cookie : Z) (modify : bool)
  | FlowDel (f m : flow) (strict : bool) (prio : Z)
  | Barrier
  | GroupAdd (group type : Z) (bkts : list (option of_act_vec_elem)) (modify : bool)
  | GroupDel (group : Z)
  | MeterAdd (meter flags : Z) (bands : list (option of_meter_band_elem)) (modify : bool)
  | MeterDel (meter : Z)
  | GroupStatReq (group : Z)
  | MeterStatReq (meter : Z)
  | MeterConfStatReq (meter : Z)
  | HaFlowDel (f m : flow) (prio : Z)
  | HaCmd (b : list Z).

(** [grp_refs], [meter_refs] and [app_refs] are the reference counts of the
    groups and meters of the switch and of the applications. *)
Record c_switch := mk_switch {
  ents : gmap Z c_fl_entry; rule_flow_tbls : list c_flow_tbl; fl_cookies : list (Z * Z);
  fl_idx_cookie : Z; grp_refs : gmap Z Z; meter_refs : gmap Z Z; app_refs : gmap Z Z;
  ofp_ctors : bool; multi_table_support : bool; sw_ha_state : Z; tx : list msg }.

Record of_flow_mod_params := mk_parms {
  app_owner : Z; p_flow : flow; p_mask : flow; p_actions : list Z; p_buffer_id : Z;
  p_prio : Z; p_itimeo : Z; p_htimeo : Z; p_flags : Z; p_cookie : Z; p_seq_cookie : Z;
  meter_dep : list Z; grp_dep : list Z }.

(** [calloc] *)
Definition zero_ent : c_fl_entry :=
  mk_ent 0 0 false 0 0 0 0 0 zero_flow zero_flow 0 [] [] [] [] 0 (zero_stats 0) false.

Definition set_FL_FLAGS (x : Z) (e : c_fl_entry) : c_fl_entry :=
  mk_ent x (FL_PRIO e) (FL_INSTALLED e) (FL_REF e) (FL_ITIMEO e) (FL_HTIMEO e) (FL_XID e)
    (FL_COOKIE e) (fl e) (fl_mask e) (app_ref e) (app_owner_list e) (actions e) (groups e)
    (meters e) (stale_time e) (fl_stats e) (FL_LOCK e).
Definition set_FL_INSTALLED (x : bool) (e : c_fl_entry) : c_fl_entry :=
  mk_ent (FL_FLAGS e) (FL_PRIO e) x (FL_REF e) (FL_ITIMEO e) (FL_HTIMEO e) (FL_XID e) (FL_COOKIE e)
    (fl e) (fl_mask e) (app_ref e) (app_owner_list e) (actions e) (groups e) (meters e)
    (stale_time e) (fl_stats e) (FL_LOCK e).
Definition set_FL_REF (x : Z) (e : c_fl_entry) : c_fl_entry :=
  mk_ent (FL_FLAGS e) (FL_PRIO e) (FL_INSTALLED e) x (FL_ITIMEO e) (FL_HTIMEO e) (FL_XID e)
    (FL_COOKIE e) (fl e) (fl_mask e) (app_ref e) (app_owner_list e) (actions e) (groups e)
    (meters e) (stale_time e) (fl_stats e) (FL_LOCK e).
Definition set_FL_XID (x : Z) (e : c_fl_entry) : c_fl_entry :=
  mk_ent (FL_FLAGS e) (FL_PRIO e) (FL_INSTALLED e) (FL_REF e) (FL_ITIMEO e) (FL_HTIMEO e) x
    (FL_COOKIE e) (fl e) (fl_mask e) (app_ref e) (app_owner_list e) (actions e) (groups e)
    (meters e) (stale_time e) (fl_stats e) (FL_LOCK e).
Definition set_FL_COOKIE (x : Z) (e : c_fl_entry) : c_fl_entry :=
  mk_ent (FL_FLAGS e) (FL_PRIO e) (FL_INSTALLED e) (FL_REF e) (FL_ITIMEO e) (FL_HTIMEO e) (FL_XID e)
    x (fl e) (fl_mask e) (app_ref e) (app_owner_list e) (actions e) (groups e) (meters e)
    (stale_time e) (fl_stats e) (FL_LOCK e).
Definition set_actions (x : list Z) (e : c_fl_entry) : c_fl_entry :=
  mk_ent (FL_FLAGS e) (FL_PRIO e) (FL_INSTALLED e) (FL_REF e) (FL_ITIMEO e) (FL_HTIMEO e) (FL_XID e)
    (FL_COOKIE e) (fl e) (fl_mask e) (app_ref e) (app_owner_list e) x (groups e) (meters e)
    (stale_time e) (fl_stats e) (FL_LOCK e).
Definition set_groups (x : list Z) (e : c_fl_entry) : c_fl_entry :=
  mk_ent (FL_FLAGS e) (FL_PRIO e) (FL_INSTALLED e) (FL_REF e) (FL_ITIMEO e) (FL_HTIMEO e) (FL_XID e)
    (FL_COOKIE e) (fl e) (fl_mask e) (app_ref e) (app_owner_list e) (actions e) x (meters e)
    (stale_time e) (fl_stats e) (FL_LOCK e).
Definition set_meters (x : list Z) (e : c_fl_entry) : c_fl_entry :=
  mk_ent (FL_FLAGS e) (FL_PRIO e) (FL_INSTALLED e) (FL_REF e) (FL_ITIMEO e) (FL_HTIMEO e) (FL_XID e)
    (FL_COOKIE e) (fl e) (fl_mask e) (app_ref e) (app_owner_list e) (actions e) (groups e) x
    (stale_time e) (fl_stats e) (FL_LOCK e).
Definition set_stale_time (x : Z) (e : c_fl_entry) : c_fl_entry :=
  mk_ent (FL_FLAGS e) (FL_PRIO e) (FL_INSTALLED e) (FL_REF e) (FL_ITIMEO e) (FL_HTIMEO e) (FL_XID e)
    (FL_COOKIE e) (fl e) (fl_mask e) (app_ref e) (app_owner_list e) (actions e) (groups e)
    (meters e) x (fl_stats e) (FL_LOCK e).
Definition set_fl_stats (x : c_fl_entry_stats) (e : c_fl_entry) : c_fl_entry :=
  mk_ent (FL_FLAGS e) (FL_PRIO e) (FL_INSTALLED e) (FL_REF e) (FL_ITIMEO e) (FL_HTIMEO e) (FL_XID e)
    (FL_COOKIE e) (fl e) (fl_mask e) (app_ref e) (app_owner_list e) (actions e) (groups e)
    (meters e) (stale_time e) x (FL_LOCK e).
Definition set_FL_LOCK (x : bool) (e : c_fl_entry) : c_fl_entry :=
  mk_ent (FL_FLAGS e) (FL_PRIO e) (FL_INSTALLED e) (FL_REF e) (FL_ITIMEO e) (FL_HTIMEO e) (FL_XID e)
    (FL_COOKIE e) (fl e) (fl_mask e) (app_ref e) (app_owner_list e) (actions e) (groups e)
    (meters e) (stale_time e) (fl_stats e) x.
Definition set_owners (r : Z) (l : list Z) (e : c_fl_entry) : c_fl_entry :=
  mk_ent (FL_FLAGS e) (FL_PRIO e) (FL_INSTALLED e) (FL_REF e) (FL_ITIMEO e) (FL_HTIMEO e) (FL_XID e)
    (FL_COOKIE e) (fl e) (fl_mask e) r l (actions e) (groups e) (meters e) (stale_time e)
    (fl_stats e) (FL_LOCK e).

Definition set_ents (x : gmap Z c_fl_entry) (s : c_switch) : c_switch :=
  mk_switch x (rule_flow_tbls s) (fl_cookies s) (fl_idx_cookie s) (grp_refs s) (meter_refs s)
    (app_refs s) (ofp_ctors s) (multi_table_support s) (sw_ha_state s) (tx s).
Definition set_rule_flow_tbls (x : list c_flow_tbl) (s : c_switch) : c_switch :=
  mk_switch (ents s) x (fl_cookies s) (fl_idx_cookie s) (grp_refs s) (meter_refs s) (app_refs s)
    (ofp_ctors s) (multi_table_support s) (sw_ha_state s) (tx s).
Definition set_fl_cookies (x : list (Z * Z)) (s : c_switch) : c_switch :=
  mk_switch (ents s) (rule_flow_tbls s) x (fl_idx_cookie s) (grp_refs s) (meter_refs s) (app_refs s)
    (ofp_ctors s) (multi_table_support s) (sw_ha_state s) (tx s).
Definition set_fl_idx_cookie (x : Z) (s : c_switch) : c_switch :=
  mk_switch (ents s) (rule_flow_tbls s) (fl_cookies s) x (grp_refs s) (meter_refs s) (app_refs s)
    (ofp_ctors s) (multi_table_support s) (sw_ha_state s) (tx s).
Definition set_grp_refs (x : gmap Z Z) (s : c_switch) : c_switch :=
  mk_switch (ents s) (rule_flow_tbls s) (fl_cookies s) (fl_idx_cookie s) x (meter_refs s)
    (app_refs s) (ofp_ctors s) (multi_table_support s) (sw_ha_state s) (tx s).
Definition set_meter_refs (x : gmap Z Z) (s : c_switch) : c_switch :=
  mk_switch (ents s) (rule_flow_tbls s) (fl_cookies s) (fl_idx_cookie s) (grp_refs s) x (app_refs s)
    (ofp_ctors s) (multi_table_support s) (sw_ha_state s) (tx s).
Definition set_app_refs (x : gmap Z Z) (s : c_switch) : c_switch :=
  mk_switch (ents s) (rule_flow_tbls s) (fl_cookies s) (fl_idx_cookie s) (grp_refs s) (meter_refs s)
    x (ofp_ctors s) (multi_table_support s) (sw_ha_state s) (tx s).
Definition set_tx (x : list msg) (s : c_switch) : c_switch :=
  mk_switch (ents s) (rule_flow_tbls s) (fl_cookies s) (fl_idx_cookie s) (grp_refs s) (meter_refs s)
    (app_refs s) (ofp_ctors s) (multi_table_support s) (sw_ha_state s) x.

(** Assignment through a pointer to an entry, and [free]. *)
Definition upd (a : Z) (f : c_fl_entry -> c_fl_entry) (s : c_switch) : option c_switch :=
  e ← ents s !! a; Some (set_ents (<[a := f e]> (ents s)) s).
Definition store (a : Z) (e : c_fl_entry) (s : c_switch) : c_switch := set_ents (<[a := e]> (ents s)) s.
Definition free (a : Z) (s : c_switch) : c_switch := set_ents (delete a (ents s)) s.
Definition send (m : msg) (s : c_switch) : c_switch := set_tx (tx s ++ [m]) s.

Definition c_wr_lock (a : Z) (s : c_switch) : option c_switch :=
  e ← ents s !! a; if FL_LOCK e then None else upd a (set_FL_LOCK true) s.
Definition c_wr_unlock (a : Z) (s : c_switch) : option c_switch :=
  e ← ents s !! a; if FL_LOCK e then upd a (set_FL_LOCK false) s else None.

(** [atomic_inc] and [atomic_dec] on the counter of an object that must exist. *)
Definition ref_add (id d : Z) (m : gmap Z Z) : option (gmap Z Z) :=
  r ← m !! id; Some (<[id := r + d]> m).
Definition c_app_ref (app : Z) (s : c_switch) : option c_switch :=
  m ← ref_add app 1 (app_refs s); Some (set_app_refs m s).
Definition c_app_unref (app : Z) (s : c_switch) : option c_switch :=
  m ← ref_add app (-1) (app_refs s); Some (set_app_refs m s).

(** ** Validation *)

Definition of_switch_table_supported (s : c_switch) (table : Z) : bool :=
  if (table <? C_MAX_RULE_FLOW_TBLS) && ofp_ctors s && multi_table_support s then true
  else table =? C_TBL_HW_IDX_DFL.

Definition c_flow_mod_validate_parms (s : c_switch) (p : of_flow_mod_params) : bool :=
  negb (negb (of_switch_table_supported s (table_id (p_flow p))) || (app_owner p =? 0) ||
        (has (p_flags p) C_FL_ENT_CLONE && has (p_flags p) C_FL_ENT_LOCAL) ||
        has (p_flags p) C_FL_ENT_NOCACHE).

Definition FL_NEED_HW_SYNC (c : Ha.ctrl_hdl) (p : of_flow_mod_params) : bool :=
  negb (has (p_flags p) C_FL_ENT_NOSYNC || has (p_flags p) C_FL_ENT_CLONE ||
        has (p_flags p) C_FL_ENT_RESIDUAL || has (p_flags p) C_FL_ENT_LOCAL ||
        negb (Ha.c_switch_of_master_check c)).

(** ** Owners *)

Definition __c_flow_find_app_owner (e : c_fl_entry) (app : Z) : bool :=
  bool_decide (app ∈ app_owner_list e).

(** The branch that finds the owner releases the lock. *)
Definition __c_flow_add_app_owner (a new_app : Z) (s : c_switch) : option (Z * c_switch) :=
  e ← ents s !! a;
  if __c_flow_find_app_owner e new_app then s ← c_wr_unlock a s; Some (- EEXIST, s)
  else
    s ← c_app_ref new_app s;
    s ← upd a (fun e => set_owners (app_ref e + 1) (app_owner_list e ++ [new_app]) e) s;
    Some (0, s).

Definition c_flow_add_app_owner (a new_app : Z) (s : c_switch) : option (Z * c_switch) :=
  s ← c_wr_lock a s;
  '(_, s) ← __c_flow_add_app_owner a new_app s;
  s ← c_wr_unlock a s;
  Some (0, s).

Definition __c_flow_del_app_owner (a app : Z) (s : c_switch) : option c_switch :=
  s ← upd a (fun e => set_owners (app_ref e - 1) (g_slist_remove app (app_owner_list e)) e) s;
  c_app_unref app s.

Fixpoint unref_all (l : list Z) (s : c_switch) : option c_switch :=
  match l with [] => Some s | app :: l => s ← c_app_unref app s; unref_all l s end.

Definition __c_flow_find_del_all_app_owner (a : Z) (s : c_switch) : option c_switch :=
  e ← ents s !! a;
  s ← unref_all (app_owner_list e) s;
  upd a (fun e => set_owners (app_ref e - Z.of_nat (length (app_owner_list e))) [] e) s.

(** ** Groups and meters *)

Fixpoint drop_refs (l : list Z) (m : gmap Z Z) : option (gmap Z Z) :=
  match l with [] => Some m | g :: l => m ← ref_add g (-1) m; drop_refs l m end.

(** Takes references until an id is missing; also the ids taken. *)
Fixpoint take_refs (l : list Z) (m : gmap Z Z) : list Z * bool * gmap Z Z :=
  match l with
  | [] => ([], true, m)
  | g :: l => match m !! g with
              | None => ([], false, m)
              | Some r => let '(t, b, m) := take_refs l (<[g := r + 1]> m) in (g :: t, b, m)
              end
  end.

Definition __c_flow_rule_disassociate_meters_only (l : list Z) (s : c_switch) : option c_switch :=
  m ← drop_refs l (meter_refs s); Some (set_meter_refs m s).
Definition __c_flow_rule_disassociate_meters (a : Z) (s : c_switch) : option c_switch :=
  e ← ents s !! a;
  s ← __c_flow_rule_disassociate_meters_only (meters e) s;
  upd a (set_meters []) s.
Definition __c_flow_rule_disassociate_grps_only (l : list Z) (s : c_switch) : option c_switch :=
  m ← drop_refs l (grp_refs s); Some (set_grp_refs m s).
Definition __c_flow_rule_disassociate_grps (a : Z) (s : c_switch) : option c_switch :=
  e ← ents s !! a;
  s ← __c_flow_rule_disassociate_grps_only (groups e) s;
  upd a (set_groups []) s.

Definition __c_flow_rule_associate_meters (a : Z) (l : list Z) (s : c_switch) : option (Z * c_switch) :=
  let '(t, b, m) := take_refs l (meter_refs s) in
  s ← upd a (fun e => set_meters (meters e ++ t) e) (set_meter_refs m s);
  if b then Some (0, s)
  else s ← __c_flow_rule_disassociate_meters a s; Some (-1, s).
Definition __c_flow_rule_associate_grps (a : Z) (l : list Z) (s : c_switch) : option (Z * c_switch) :=
  let '(t, b, m) := take_refs l (grp_refs s) in
  s ← upd a (fun e => set_groups (groups e ++ t) e) (set_grp_refs m s);
  if b then Some (0, s)
  else s ← __c_flow_rule_disassociate_grps a s; Some (-1, s).

(** ** The index by cookie *)

Definition c_fl_cookie_match (e1 e2 : c_fl_entry) : bool :=
  if nz (FL_XID e2) then (FL_COOKIE e1 =? FL_COOKIE e2) && (FL_XID e1 =? FL_XID e2)
  else (FL_COOKIE e1 =? FL_COOKIE e2) &&
       of_match_flows_prio (fl e1) (fl_mask e1) (fl e2) (fl_mask e2) (FL_PRIO e1) (FL_PRIO e2).

(** The position of the node whose key matches [e]; keys with another hash are not compared. *)
Fixpoint cookie_pos (l : list (Z * Z)) (e : c_fl_entry) (s : c_switch) (i : nat) : option (option nat) :=
  match l with
  | [] => Some None
  | (k, _) :: l =>
      e1 ← ents s !! k;
      if (u32 (FL_COOKIE e1) =? u32 (FL_COOKIE e)) && c_fl_cookie_match e1 e then Some (Some i)
      else cookie_pos l e s (S i)
  end.

(** [g_hash_table_insert(fl_cookies, a, a)]: an equal key keeps its node, which
    gets the new value. *)
Definition cookies_insert (a : Z) (s : c_switch) : option c_switch :=
  e ← ents s !! a;
  p ← cookie_pos (fl_cookies s) e s 0;
  Some (set_fl_cookies (match p with
                        | Some i => alter (fun '(k, _) => (k, a)) i (fl_cookies s)
                        | None => fl_cookies s ++ [(a, a)]
                        end) s).

(** [g_hash_table_remove(fl_cookies, a)] *)
Definition cookies_remove (a : Z) (s : c_switch) : option c_switch :=
  e ← ents s !! a;
  p ← cookie_pos (fl_cookies s) e s 0;
  Some (match p with Some i => set_fl_cookies (delete i (fl_cookies s)) s | None => s end).

(** ** Life time *)

Definition c_flow_entry_put (a : Z) (s : c_switch) : option c_switch :=
  e ← ents s !! a;
  if FL_REF e =? 0 then
    s ← __c_flow_rule_disassociate_meters a s;
    s ← __c_flow_rule_disassociate_grps a s;
    Some (free a s)
  else upd a (set_FL_REF (FL_REF e - 1)) s.

(** A rule entry has no clones in the builds without exact-match flows. *)
Definition c_flow_rule_free (a : Z) (s : c_switch) : option c_switch :=
  s ← cookies_remove a s; c_flow_entry_put a s.

(** ** Messages *)

Definition of_send_flow_add (c : Ha.ctrl_hdl) (xid a buffer_id : Z) (modify : bool) (s : c_switch)
  : option c_switch :=
  if negb (Ha.c_switch_of_master_check c) then Some s
  else if negb (ofp_ctors s) then None
  else
    e ← ents s !! a;
    s ← c_wr_lock a s;
    s ← upd a (set_FL_XID xid) s;
    s ← c_wr_unlock a s;
    let s := send (FlowAdd (fl e) (fl_mask e) buffer_id (actions e) (FL_ITIMEO e) (FL_HTIMEO e)
                     (FL_PRIO e) (FL_COOKIE e) modify) s in
    Some (if has (FL_FLAGS e) C_FL_ENT_BARRIER then send Barrier s else s).

Definition of_send_flow_del (c : Ha.ctrl_hdl) (e : c_fl_entry) (strict : bool) (s : c_switch)
  : option c_switch :=
  if negb (Ha.c_switch_of_master_check c) then Some s
  else if negb (ofp_ctors s) then None
  else Some (send (FlowDel (fl e) (fl_mask e) strict (FL_PRIO e)) s).

Definition of_send_flow_del_strict_sync (c : Ha.ctrl_hdl) (e : c_fl_entry) (s : c_switch)
  : option c_switch :=
  if negb (Ha.c_ha_master c) || (sw_ha_state s =? SW_HA_NONE) || negb (has (FL_FLAGS e) C_FL_ENT_STATIC)
  then Some s
  else if negb (ofp_ctors s) then None
  else Some (send (HaFlowDel (fl e) (fl_mask e) (FL_PRIO e)) s).

Definition of_send_flow_del_strict (c : Ha.ctrl_hdl) (e : c_fl_entry) (s : c_switch) : option c_switch :=
  s ← of_send_flow_del_strict_sync c e s; of_send_flow_del c e true s.

(** ** Lookup *)

Definition strict_key (e : c_fl_entry) (f m : flow) (prio : Z) : bool :=
  bool_decide (fl e = f) && flow_eq_nopad (fl_mask e) m && (FL_PRIO e =? prio).

(** The entry with the same match and priority, and the position of the first
    entry that is not above the priority. *)
Fixpoint strict_prio_hint (l : list Z) (i : nat) (hint : option nat) (f m : flow) (prio : Z) (s : c_switch)
  : option (option Z * option nat) :=
  match l with
  | [] => Some (None, hint)
  | a :: l =>
      e ← ents s !! a;
      let hint := if bool_decide (hint = None) && (FL_PRIO e <=? prio) then Some i else hint in
      if strict_key e f m prio then Some (Some a, hint)
      else strict_prio_hint l (S i) hint f m prio s
  end.
Definition __c_flow_lookup_rule_strict_prio_hint (l : list Z) (f m : flow) (prio : Z) (s : c_switch) :=
  strict_prio_hint l 0 None f m prio s.

Fixpoint __c_flow_lookup_rule (l : list Z) (f : flow) (match_residual : bool) (s : c_switch)
  : option (option Z) :=
  match l with
  | [] => Some None
  | a :: l =>
      e ← ents s !! a;
      if (negb match_residual && has (FL_FLAGS e) C_FL_ENT_RESIDUAL) ||
         (match_residual && has (FL_FLAGS e) C_FL_ENT_LOCAL)
      then __c_flow_lookup_rule l f match_residual s
      else if __of_match_flows f (fl_mask e) (fl e) then Some (Some a)
      else __c_flow_lookup_rule l f match_residual s
  end.

Definition c_do_flow_lookup_slow (f : flow) (match_residual : bool) (s : c_switch)
  : option (option Z * c_switch) :=
  t ← aget (rule_flow_tbls s) (table_id f);
  r ← __c_flow_lookup_rule (rule_fl_tbl t) f match_residual s;
  match r with
  | Some a => s ← upd a (fun e => set_FL_REF (FL_REF e + 1) e) s; Some (Some a, s)
  | None => Some (None, s)
  end.

Definition c_do_flow_lookup (f : flow) (match_residual : bool) (s : c_switch) :=
  c_do_flow_lookup_slow f match_residual s.

(** ** Modification *)

(** The part for an entry read back from the switch: a new owner takes it over. *)
Definition residual_takeover (a : Z) (p : of_flow_mod_params) (s : c_switch)
  : option (bool * c_switch) :=
  s ← __c_flow_find_del_all_app_owner a s;
  '(_, s) ← __c_flow_add_app_owner a (app_owner p) s;
  e ← ents s !! a;
  if bool_decide (actions e = p_actions p) then Some (false, s)
  else s ← upd a (set_FL_INSTALLED false) s; Some (true, s).

(** The new actions and flags, with the counters cleared. *)
Definition mod_fields (now : Z) (p : of_flow_mod_params) (e : c_fl_entry) : c_fl_entry :=
  let e := set_fl_stats (zero_stats now) (set_actions (p_actions p) e) in
  let e := if has (FL_FLAGS e) C_FL_ENT_RESIDUAL && negb (has (p_flags p) C_FL_ENT_RESIDUAL)
           then set_FL_FLAGS (p_flags p) e else e in
  set_FL_FLAGS (clr (FL_FLAGS e) C_FL_NO_ACK) e.

(** The part with the dependencies in place. *)
Definition rule_mod_commit (a now : Z) (p : of_flow_mod_params) (old_groups old_meters : list Z)
    (s : c_switch) : option c_switch :=
  s ← __c_flow_rule_disassociate_grps_only old_groups s;
  s ← __c_flow_rule_disassociate_meters_only old_meters s;
  s ← upd a (mod_fields now p) s;
  c_wr_unlock a s.

(** Restores the old dependencies. *)
Definition rule_mod_restore (a : Z) (old_groups old_meters : list Z) (s : c_switch) : option c_switch :=
  s ← upd a (fun e => set_groups old_groups (set_meters old_meters e)) s;
  c_wr_unlock a s.

(** The result, whether the entry is to be installed, and the switch. *)
Definition c_flow_rule_mod (now a : Z) (p : of_flow_mod_params) (hw : bool) (s : c_switch)
  : option (Z * bool * c_switch) :=
  s ← c_wr_lock a s;
  e ← ents s !! a;
  let old_meters := meters e in
  let old_groups := groups e in
  s ← upd a (fun e => set_groups [] (set_meters [] e)) s;
  if has (FL_FLAGS e) C_FL_ENT_RESIDUAL && has (p_flags p) C_FL_ENT_RESIDUAL then Some (-1, hw, s)
  else
    '(hw, s) ← (if has (FL_FLAGS e) C_FL_ENT_RESIDUAL then residual_takeover a p s else Some (hw, s));
    '(r, s) ← __c_flow_rule_associate_grps a (grp_dep p) s;
    if negb (r =? 0) then s ← rule_mod_restore a old_groups old_meters s; Some (-1, hw, s)
    else
      '(r, s) ← __c_flow_rule_associate_meters a (meter_dep p) s;
      if negb (r =? 0) then
        s ← __c_flow_rule_disassociate_grps a s;
        s ← rule_mod_restore a old_groups old_meters s; Some (-1, hw, s)
      else s ← rule_mod_commit a now p old_groups old_meters s; Some (0, hw, s).

(** ** Addition *)

Definition new_entry (now : Z) (hw_sync : bool) (p : of_flow_mod_params) : c_fl_entry :=
  mk_ent (p_flags p) (p_prio p) false (if hw_sync then 1 else 0) (p_itimeo p) (p_htimeo p) 0 0
    (p_flow p) (p_mask p) 0 [] (p_actions p) [] [] 0 (zero_stats now) false.

(** [g_slist_insert_before] at the hint, [g_slist_append] without one. *)
Definition insert_at (hint : option nat) (a : Z) (l : list Z) : list Z :=
  match hint with Some i => take i l ++ a :: drop i l | None => l ++ [a] end.

Definition upd_tbl (t : Z) (f : c_flow_tbl -> c_flow_tbl) (s : c_switch) : option c_switch :=
  x ← aget (rule_flow_tbls s) t;
  l ← aset (rule_flow_tbls s) t (f x);
  Some (set_rule_flow_tbls l s).

(** The cookie: a sequence number below the application's cookie. *)
Definition set_cookie (a : Z) (p : of_flow_mod_params) (s : c_switch) : option c_switch :=
  let hi := u64 (Z.shiftl (p_cookie p) 32) in
  if p_seq_cookie p =? 0 then
    let s := set_fl_idx_cookie (u32 (fl_idx_cookie s + 1)) s in
    upd a (set_FL_COOKIE (Z.lor (fl_idx_cookie s) hi)) s
  else upd a (set_FL_COOKIE (Z.lor (p_seq_cookie p) hi)) s.

Definition set_new_flags (now : Z) (e : c_fl_entry) : c_fl_entry :=
  let e := if has (FL_FLAGS e) C_FL_ENT_RES_STALE then
             let e := if has (FL_FLAGS e) C_FL_ENT_RESIDUAL
                      then set_FL_FLAGS (Z.lor (FL_FLAGS e) C_FL_ENT_STALE) (set_stale_time now e) else e in
             set_FL_COOKIE (Z.lor (FL_COOKIE e) C_FL_RES_STALE_FLAG) e
           else e in
  let e := if has (FL_FLAGS e) C_FL_ENT_RESIDUAL || has (FL_FLAGS e) C_FL_NO_ACK
           then set_FL_INSTALLED true e else e in
  set_FL_FLAGS (clr (FL_FLAGS e) C_FL_NO_ACK) e.

(** The label [hw_install]. *)
Definition hw_install (c : Ha.ctrl_hdl) (xid a : Z) (p : of_flow_mod_params) (hw_sync modify : bool)
    (s : c_switch) : option (Z * c_switch) :=
  if hw_sync then
    s ← of_send_flow_add c xid a (p_buffer_id p) modify s;
    s ← c_flow_entry_put a s;
    Some (0, s)
  else Some (0, s).

(** The branch that finds an entry at [b]; [a] is the new object. *)
Definition rule_add_found (c : Ha.ctrl_hdl) (now xid a b : Z) (p : of_flow_mod_params) (hw_sync : bool)
    (s : c_switch) : option (Z * c_switch) :=
  e ← ents s !! b;
  let residual := has (FL_FLAGS e) C_FL_ENT_RESIDUAL in
  if has (p_flags p) C_FL_ENT_LOCAL && residual then Some (- EPERM, free a s)
  else if has (p_flags p) C_FL_ENT_LOCAL && has (FL_FLAGS e) C_FL_ENT_LOCAL then
    '(r, s) ← c_flow_add_app_owner b (app_owner p) s; Some (r, free a s)
  else if negb residual && negb (__c_flow_find_app_owner e (app_owner p)) then Some (- EPERM, free a s)
  else if negb residual && bool_decide (p_actions p = actions e) then
    s ← upd b (fun e => set_FL_FLAGS (clr (FL_FLAGS e) C_FL_ENT_STALE) e) s; Some (- EEXIST, free a s)
  else
    '(r, hw_sync, s) ← c_flow_rule_mod now b p hw_sync s;
    if negb (r =? 0) then Some (- EINVAL, free a s)
    else
      s ← upd b (fun e => set_FL_FLAGS (clr (FL_FLAGS e) C_FL_ENT_STALE) e) s;
      s ← (if hw_sync : bool then upd b (fun e => set_FL_REF (FL_REF e + 1) e) s else Some s);
      hw_install c xid b p hw_sync true (free a s).

(** The branch that inserts the new entry [a]. *)
Definition rule_add_new (c : Ha.ctrl_hdl) (now xid a : Z) (hint : option nat) (p : of_flow_mod_params)
    (hw_sync : bool) (s : c_switch) : option (Z * c_switch) :=
  '(r, s) ← __c_flow_rule_associate_grps a (grp_dep p) s;
  if negb (r =? 0) then Some (- EINVAL, free a s)
  else
    '(r, s) ← __c_flow_rule_associate_meters a (meter_dep p) s;
    if negb (r =? 0) then s ← __c_flow_rule_disassociate_grps a s; Some (- EINVAL, free a s)
    else
      '(_, s) ← c_flow_add_app_owner a (app_owner p) s;
      s ← upd_tbl (table_id (p_flow p)) (fun t =>
            mk_tbl (u32 (sw_active_entries t + 1)) (insert_at hint a (rule_fl_tbl t))) s;
      s ← set_cookie a p s;
      s ← upd a (set_new_flags now) s;
      s ← cookies_insert a s;
      hw_install c xid a p hw_sync false s.

(** [a] is the address that [calloc] returns, [xid] the transaction id of the message. *)
Definition c_flow_rule_add (c : Ha.ctrl_hdl) (now xid a : Z) (p : of_flow_mod_params) (s : c_switch)
  : option (Z * c_switch) :=
  let hw_sync := FL_NEED_HW_SYNC c p in
  let s := store a zero_ent s in
  if negb (c_flow_mod_validate_parms s p) then Some (- EINVAL, s)
  else
    let s := store a (new_entry now hw_sync p) s in
    t ← aget (rule_flow_tbls s) (table_id (p_flow p));
    '(found, hint) ← __c_flow_lookup_rule_strict_prio_hint (rule_fl_tbl t) (p_flow p) (p_mask p) (p_prio p) s;
    match found with
    | Some b => rule_add_found c now xid a b p hw_sync s
    | None => rule_add_new c now xid a hint p hw_sync s
    end.

Definition c_switch_flow_add (c : Ha.ctrl_hdl) (now xid a : Z) (p : of_flow_mod_params) (s : c_switch) :=
  c_flow_rule_add c now xid a p s.

(** ** Deletion *)

(** The entry whose owner was removed, and the list without it if it was the last owner. *)
Fixpoint __c_flow_rule_del_strict (l : list Z) (f m : flow) (prio app : Z) (s : c_switch)
  : option (option Z * list Z * c_switch) :=
  match l with
  | [] => Some (None, [], s)
  | a :: l =>
      s ← c_wr_lock a s;
      e ← ents s !! a;
      if bool_decide (fl e = f) && bool_decide (fl_mask e = m) && (FL_PRIO e =? prio) &&
         __c_flow_find_app_owner e app then
        s ← __c_flow_del_app_owner a app s;
        s ← c_wr_unlock a s;
        e ← ents s !! a;
        Some (Some a, if app_ref e =? 0 then l else a :: l, s)
      else
        s ← c_wr_unlock a s;
        '(r, l', s) ← __c_flow_rule_del_strict l f m prio app s;
        Some (r, a :: l', s)
  end.

Definition c_flow_rule_del (c : Ha.ctrl_hdl) (p : of_flow_mod_params) (s : c_switch)
  : option (Z * c_switch) :=
  if negb (c_flow_mod_validate_parms s p) then Some (-1, s)
  else
    let tid := table_id (p_flow p) in
    t ← aget (rule_flow_tbls s) tid;
    '(r, l, s) ← __c_flow_rule_del_strict (rule_fl_tbl t) (p_flow p) (p_mask p) (p_prio p) (app_owner p) s;
    s ← upd_tbl tid (fun t => mk_tbl (sw_active_entries t) l) s;
    match r with
    | None => Some (-1, s)
    | Some a =>
        e ← ents s !! a;
        s ← (if has (FL_FLAGS e) C_FL_ENT_LOCAL then Some s else of_send_flow_del_strict c e s);
        if app_ref e =? 0 then
          s ← c_flow_rule_free a s;
          s ← upd_tbl tid (fun t => mk_tbl (u32 (sw_active_entries t - 1)) (rule_fl_tbl t)) s;
          Some (0, s)
        else Some (0, s)
    end.

Definition c_switch_flow_del (c : Ha.ctrl_hdl) (p : of_flow_mod_params) (s : c_switch) :=
  c_flow_rule_del c p s.

(** ** Removal of an application, reset *)

Fixpoint __c_per_switch_del_app_flow_rule (c : Ha.ctrl_hdl) (l : list Z) (app : Z) (s : c_switch)
  : option (list Z * c_switch) :=
  match l with
  | [] => Some ([], s)
  | a :: l =>
      s ← c_wr_lock a s;
      e ← ents s !! a;
      if __c_flow_find_app_owner e app then
        s ← __c_flow_del_app_owner a app s;
        e ← ents s !! a;
        if app_ref e =? 0 then
          s ← (if has (FL_FLAGS e) C_FL_ENT_LOCAL then Some s else of_send_flow_del c e false s);
          s ← c_wr_unlock a s;
          s ← c_flow_rule_free a s;
          __c_per_switch_del_app_flow_rule c l app s
        else
          s ← c_wr_unlock a s;
          '(l', s) ← __c_per_switch_del_app_flow_rule c l app s;
          Some (a :: l', s)
      else
        s ← c_wr_unlock a s;
        '(l', s) ← __c_per_switch_del_app_flow_rule c l app s;
        Some (a :: l', s)
  end.

(** One pass of the loop over the tables. *)
Definition del_app_tbl (c : Ha.ctrl_hdl) (app i : Z) (s : c_switch) : option c_switch :=
  t ← aget (rule_flow_tbls s) i;
  '(l, s) ← __c_per_switch_del_app_flow_rule c (rule_fl_tbl t) app s;
  upd_tbl i (fun t => mk_tbl (sw_active_entries t) l) s.

Definition __c_per_switch_del_app_flow_owner (c : Ha.ctrl_hdl) (app : Z) (s : c_switch) : option c_switch :=
  for_range C_MAX_RULE_FLOW_TBLS (del_app_tbl c app) s.

Fixpoint free_all (l : list Z) (s : c_switch) : option c_switch :=
  match l with [] => Some s | a :: l => s ← c_flow_rule_free a s; free_all l s end.

Definition reset_tbl (i : Z) (s : c_switch) : option c_switch :=
  t ← aget (rule_flow_tbls s) i;
  s ← free_all (rule_fl_tbl t) s;
  upd_tbl i (fun t => mk_tbl (sw_active_entries t) []) s.

Definition c_switch_flow_tbl_reset (s : c_switch) : option c_switch :=
  for_range C_MAX_RULE_FLOW_TBLS reset_tbl s.

End FlowTbl.
