(* ===== verification/FlowTblSpec.v ===== *)
(** * The flow tables of a switch: invariant and properties *)
From stdpp Require Import base list gmap sorting.
From Stdlib Require Import ZArith Lia.
From S2P Require Import Prelude Bytes Flow Ha FlowTbl.
Import FlowTbl.
Import Flow.
#[local] Open Scope Z_scope.

(** ** Reference counts *)

Lemma drop_refs_spec l : forall m,
  Forall (fun g => is_Some (m !! g)) l ->
  exists m', drop_refs l m = Some m' /\ shifted (fun g => - cnt g l) m m'.
Proof.
  induction l as [|g l IH]; intros m Hl; cbn.
  { exists m. split; [done|]. intros x. destruct (m !! x); cbn; [|done]. f_equal. lia. }
  apply Forall_cons in Hl as [[r Hr] Hl]. unfold ref_add. rewrite Hr. cbn.
  pose proof (shifted_one g (-1) m r Hr) as H1.
  destruct (IH (<[g := r + -1]> m)) as (m' & -> & H2).
  { eapply Forall_impl; [exact Hl|]. cbn. intros x Hx. by rewrite (shifted_dom _ _ _ _ H1). }
  exists m'. split; [done|]. eapply shifted_ext; [|by eapply shifted_trans].
  intros x. cbn. destruct (decide (g = x)); [rewrite !bool_decide_true|rewrite !bool_decide_false]; done || lia.
Qed.

(** Some id of a list is not there. *)
Definition missing (l : list Z) (m : gmap Z Z) : Prop := exists g, g ∈ l /\ m !! g = None.

Lemma take_refs_spec l : forall m t b m',
  take_refs l m = (t, b, m') ->
  shifted (fun g => cnt g t) m m' /\ Forall (fun g => is_Some (m !! g)) t /\ if b then t = l else missing l m.
Proof.
  induction l as [|g l IH]; intros m t b m' Ht; cbn in Ht.
  { simplify_eq. split_and!; [|done|done]. intros x. destruct (m' !! x); cbn; [|done]. f_equal. lia. }
  destruct (m !! g) as [r|] eqn:Hr.
  2:{ simplify_eq. split_and!; [|done|exists g; by split; [left|]]. intros x. destruct (m' !! x); cbn; [|done]. f_equal. lia. }
  destruct (take_refs l _) as [[t1 b1] m1] eqn:E. simplify_eq.
  pose proof (shifted_one g 1 m r Hr) as H1. destruct (IH _ _ _ _ E) as (H2 & H3 & H4). split_and!.
  - eapply shifted_ext; [|by eapply shifted_trans]. intros x. done.
  - constructor; [eauto|]. eapply Forall_impl; [exact H3|]. cbn. intros x Hx.
    by rewrite (shifted_dom _ _ _ _ H1) in Hx.
  - destruct b; [by rewrite H4|]. destruct H4 as (x & Hx & Hm). exists x. split; [by right|]. apply eq_None_not_Some.
    rewrite <- (shifted_dom _ _ _ _ H1), Hm. by intros [? ?].
Qed.

(** The references that all entries on the heap hold. *)
Definition refsum (f : c_fl_entry -> list Z) (g : Z) (m : gmap Z c_fl_entry) : Z :=
  map_fold (fun _ e n => cnt g (f e) + n) 0 m.

Lemma refsum_fresh f g m a e : m !! a = None -> refsum f g (<[a := e]> m) = cnt g (f e) + refsum f g m.
Proof. intros Ha. unfold refsum. rewrite map_fold_insert_L; [done| |done]. intros. lia. Qed.

Lemma refsum_delete f g m a e : m !! a = Some e -> refsum f g (delete a m) = refsum f g m - cnt g (f e).
Proof.
  intros Ha. rewrite <- (insert_delete_id m a e Ha) at 2.
  rewrite refsum_fresh by apply lookup_delete_eq. lia.
Qed.

Lemma refsum_insert f g m a e e' :
  m !! a = Some e -> refsum f g (<[a := e']> m) = refsum f g m - cnt g (f e) + cnt g (f e').
Proof.
  intros Ha. rewrite <- insert_delete_eq, refsum_fresh by apply lookup_delete_eq.
  rewrite (refsum_delete f g m a e Ha). lia.
Qed.

(** Every reference goes to an object that exists, and the counts are exact. *)
Record refs_ok (f : c_fl_entry -> list Z) (m : gmap Z c_fl_entry) (r : gmap Z Z) : Prop := {
  ro_alive : forall a e, m !! a = Some e -> Forall (fun g => is_Some (r !! g)) (f e);
  ro_exact : forall g n, r !! g = Some n -> n = refsum f g m }.

(** An entry is replaced and the counts move with it. *)
Lemma refs_ok_upd f m r r' a e e' :
  refs_ok f m r -> m !! a = Some e -> shifted (fun g => cnt g (f e') - cnt g (f e)) r r' ->
  Forall (fun g => is_Some (r !! g)) (f e') -> refs_ok f (<[a := e']> m) r'.
Proof.
  intros [H1 H2] Ha Hs Hf. split.
  - intros b x Hb. destruct (decide (b = a)) as [->|Hne].
    + rewrite lookup_insert_eq in Hb. simplify_eq. eapply Forall_impl; [exact Hf|]. cbn. intros g.
      by rewrite (shifted_dom _ _ _ _ Hs).
    + rewrite lookup_insert_ne in Hb by done. eapply Forall_impl; [by eapply H1|]. cbn. intros g.
      by rewrite (shifted_dom _ _ _ _ Hs).
  - intros g n Hg. rewrite Hs in Hg. destruct (r !! g) as [k|] eqn:Hk; cbn in Hg; [|done].
    simplify_eq. rewrite (refsum_insert f g m a e e' Ha), (H2 g k Hk). lia.
Qed.

Lemma refs_ok_same f m r a e e' :
  refs_ok f m r -> m !! a = Some e -> f e' = f e -> refs_ok f (<[a := e']> m) r.
Proof.
  intros Hr Ha He. eapply (refs_ok_upd f m r r a e e'); [done|done| |].
  - intros g. rewrite He. destruct (r !! g); cbn; [|done]. f_equal. lia.
  - rewrite He. by eapply ro_alive.
Qed.

Lemma refs_ok_fresh f m r a e : refs_ok f m r -> m !! a = None -> f e = [] -> refs_ok f (<[a := e]> m) r.
Proof.
  intros [H1 H2] Ha He. split.
  - intros b x Hb. destruct (decide (b = a)) as [->|Hne].
    + rewrite lookup_insert_eq in Hb. simplify_eq. by rewrite He.
    + rewrite lookup_insert_ne in Hb by done. by eapply H1.
  - intros g n Hg. rewrite refsum_fresh by done. rewrite He. cbn. by apply H2.
Qed.

Lemma refs_ok_delete f m r r' a e :
  refs_ok f m r -> m !! a = Some e -> shifted (fun g => - cnt g (f e)) r r' ->
  refs_ok f (delete a m) r'.
Proof.
  intros [H1 H2] Ha Hs. split.
  - intros b x Hb. apply lookup_delete_Some in Hb as [? Hb]. eapply Forall_impl; [by eapply H1|].
    cbn. intros g. by rewrite (shifted_dom _ _ _ _ Hs).
  - intros g n Hg. rewrite Hs in Hg. destruct (r !! g) as [k|] eqn:Hk; cbn in Hg; [|done].
    simplify_eq. rewrite (refsum_delete f g m a e Ha), (H2 g k Hk). lia.
Qed.

(** ** Entries on the heap *)

Lemma upd_eq a e f s : ents s !! a = Some e -> upd a f s = Some (store a (f e) s).
Proof. intros He. unfold upd. by rewrite He. Qed.

Lemma lookup_store a e s : ents (store a e s) !! a = Some e.
Proof. apply lookup_insert_eq. Qed.

Lemma lookup_store_ne a b e s : a <> b -> ents (store a e s) !! b = ents s !! b.
Proof. apply lookup_insert_ne. Qed.

Lemma store_store a e e' s : store a e' (store a e s) = store a e' s.
Proof. unfold store, set_ents. cbn. by rewrite insert_insert_eq. Qed.

Lemma store_id a e s : ents s !! a = Some e -> store a e s = s.
Proof. intros He. unfold store, set_ents. rewrite insert_id by done. by destruct s. Qed.

Lemma lock_eq a e s :
  ents s !! a = Some e -> FL_LOCK e = false -> c_wr_lock a s = Some (store a (set_FL_LOCK true e) s).
Proof. intros He Hl. unfold c_wr_lock. rewrite He. cbn. rewrite Hl. by apply upd_eq. Qed.

Lemma unlock_eq a e s :
  ents s !! a = Some e -> FL_LOCK e = true -> c_wr_unlock a s = Some (store a (set_FL_LOCK false e) s).
Proof. intros He Hl. unfold c_wr_unlock. rewrite He. cbn. rewrite Hl. by apply upd_eq. Qed.

(** An entry with its lock released. *)
Lemma unlocked_id e : FL_LOCK e = false -> set_FL_LOCK false e = e.
Proof. destruct e. cbn. by intros ->. Qed.

(** The reference counts of the applications only change for applications that exist. *)
Definition same_apps (m m' : gmap Z Z) : Prop := forall x, is_Some (m' !! x) <-> is_Some (m !! x).

Lemma same_apps_refl m : same_apps m m.
Proof. done. Qed.
Lemma same_apps_trans m1 m2 m3 : same_apps m1 m2 -> same_apps m2 m3 -> same_apps m1 m3.
Proof. intros H1 H2 x. by rewrite (H2 x), (H1 x). Qed.

Lemma shifted_same d m m' : shifted d m m' -> same_apps m m'.
Proof. intros Hs x. by rewrite (shifted_dom _ _ _ _ Hs). Qed.

Lemma shifted_none d m : (forall x, d x = 0) -> shifted d m m.
Proof. intros Hd x. rewrite Hd. destruct (m !! x); cbn; [|done]. f_equal. lia. Qed.

Lemma ref_add_apps x d m : is_Some (m !! x) -> exists m', ref_add x d m = Some m' /\ shifted (fun y => d * cnt y [x]) m m'.
Proof.
  intros [r Hr]. unfold ref_add. rewrite Hr. cbn [mbind option_bind]. eexists. split; [done|].
  eapply shifted_ext; [|by apply shifted_one]. intros y. cbn. case_bool_decide; lia.
Qed.

Lemma unref_all_spec l : forall s,
  Forall (fun x => is_Some (app_refs s !! x)) l ->
  exists m, unref_all l s = Some (set_app_refs m s) /\ shifted (fun y => - cnt y l) (app_refs s) m.
Proof.
  induction l as [|x l IH]; intros s Hl; cbn [unref_all].
  { exists (app_refs s). destruct s. split; [done|]. by apply shifted_none. }
  apply Forall_cons in Hl as [Hx Hl]. unfold c_app_unref.
  destruct (ref_add_apps x (-1) _ Hx) as (m1 & -> & H1). cbn.
  destruct (IH (set_app_refs m1 s)) as (m & -> & H2).
  { eapply Forall_impl; [exact Hl|]. cbn. intros y. by rewrite (shifted_dom _ _ _ _ H1). }
  exists m. split; [done|]. eapply shifted_ext; [|exact (shifted_trans _ _ _ _ _ H1 H2)]. intros y. cbn. lia.
Qed.

Definition add_owner (app : Z) (e : c_fl_entry) : c_fl_entry :=
  set_owners (app_ref e + 1) (app_owner_list e ++ [app]) e.
Definition del_owner (app : Z) (e : c_fl_entry) : c_fl_entry :=
  set_owners (app_ref e - 1) (g_slist_remove app (app_owner_list e)) e.

Lemma __add_app_owner_eq a e app s :
  ents s !! a = Some e -> app ∉ app_owner_list e -> is_Some (app_refs s !! app) ->
  exists m, shifted (fun y => cnt y [app]) (app_refs s) m /\
    __c_flow_add_app_owner a app s = Some (0, store a (add_owner app e) (set_app_refs m s)).
Proof.
  intros He Hn Hx. unfold __c_flow_add_app_owner. rewrite He. cbn.
  unfold __c_flow_find_app_owner. rewrite bool_decide_false by done. unfold c_app_ref.
  destruct (ref_add_apps app 1 _ Hx) as (m & -> & Hm). exists m.
  split; [refine (shifted_ext _ _ _ _ _ Hm); intros y; cbn [cnt]; lia|]. cbn. by rewrite (upd_eq a e) by done.
Qed.

Lemma add_app_owner_eq a e app s :
  ents s !! a = Some e -> FL_LOCK e = false -> app ∉ app_owner_list e -> is_Some (app_refs s !! app) ->
  exists m, shifted (fun y => cnt y [app]) (app_refs s) m /\
    c_flow_add_app_owner a app s = Some (0, store a (add_owner app e) (set_app_refs m s)).
Proof.
  intros He Hl Hn Hx. unfold c_flow_add_app_owner. rewrite (lock_eq a e) by done. cbn.
  destruct (__add_app_owner_eq a (set_FL_LOCK true e) app (store a (set_FL_LOCK true e) s))
    as (m & Hm & ->); [apply lookup_store|done|done|]. cbn.
  rewrite (unlock_eq _ _ _ (lookup_store _ _ _)) by done.
  exists m. split; [done|]. cbn. rewrite store_store. do 2 f_equal.
  destruct e; cbn in *; subst. unfold store, set_ents, set_app_refs. cbn. by rewrite insert_insert_eq.
Qed.

(** The locks of the code around the removal of an owner. *)
Lemma del_app_owner_eq a e app s :
  ents s !! a = Some e -> is_Some (app_refs s !! app) ->
  exists m, shifted (fun y => - cnt y [app]) (app_refs s) m /\
    __c_flow_del_app_owner a app s = Some (store a (del_owner app e) (set_app_refs m s)).
Proof.
  intros He Hx. unfold __c_flow_del_app_owner. rewrite (upd_eq a e) by done. cbn.
  unfold c_app_unref. cbn. destruct (ref_add_apps app (-1) _ Hx) as (m & -> & Hm). exists m.
  split; [eapply shifted_ext; [|exact Hm]; intros y; cbn [cnt]; lia|done].
Qed.

(** Taking references for an entry that has none: all of them, or the state before. *)
Lemma associate_grps_spec a e l s :
  ents s !! a = Some e -> groups e = [] ->
  (exists m, shifted (fun g => cnt g l) (grp_refs s) m /\ Forall (fun g => is_Some (grp_refs s !! g)) l /\
    __c_flow_rule_associate_grps a l s = Some (0, store a (set_groups l e) (set_grp_refs m s))) \/
  __c_flow_rule_associate_grps a l s = Some (-1, s) /\ missing l (grp_refs s).
Proof.
  intros He Hg. unfold __c_flow_rule_associate_grps.
  destruct (take_refs l (grp_refs s)) as [[t b] m] eqn:Et.
  apply take_refs_spec in Et as (Hs & Ha & Hb). rewrite (upd_eq a e) by done. cbn. rewrite Hg. cbn.
  destruct b; [left; exists m; by rewrite Hb in *|right; split; [|done]].
  unfold __c_flow_rule_disassociate_grps. rewrite lookup_store. cbn.
  unfold __c_flow_rule_disassociate_grps_only. cbn.
  destruct (drop_refs_spec t m) as (m' & -> & Hs').
  { eapply Forall_impl; [exact Ha|]. cbn. intros g. by rewrite (shifted_dom _ _ _ _ Hs). }
  cbn. rewrite (upd_eq a (set_groups t e)) by apply lookup_store. cbn.
  assert (m' = grp_refs s) as ->.
  { apply shifted_eq. eapply shifted_ext; [|by eapply shifted_trans]. intros g. cbn. lia. }
  do 2 f_equal. assert (set_groups [] (set_groups t e) = e) as -> by (destruct e; cbn in *; by subst).
  unfold store, set_ents, set_grp_refs. cbn. rewrite insert_insert_eq, insert_id by done. by destruct s.
Qed.

Lemma associate_meters_spec a e l s :
  ents s !! a = Some e -> meters e = [] ->
  (exists m, shifted (fun g => cnt g l) (meter_refs s) m /\ Forall (fun g => is_Some (meter_refs s !! g)) l /\
    __c_flow_rule_associate_meters a l s = Some (0, store a (set_meters l e) (set_meter_refs m s))) \/
  __c_flow_rule_associate_meters a l s = Some (-1, s) /\ missing l (meter_refs s).
Proof.
  intros He Hg. unfold __c_flow_rule_associate_meters.
  destruct (take_refs l (meter_refs s)) as [[t b] m] eqn:Et.
  apply take_refs_spec in Et as (Hs & Ha & Hb). rewrite (upd_eq a e) by done. cbn. rewrite Hg. cbn.
  destruct b; [left; exists m; by rewrite Hb in *|right; split; [|done]].
  unfold __c_flow_rule_disassociate_meters. rewrite lookup_store. cbn.
  unfold __c_flow_rule_disassociate_meters_only. cbn.
  destruct (drop_refs_spec t m) as (m' & -> & Hs').
  { eapply Forall_impl; [exact Ha|]. cbn. intros g. by rewrite (shifted_dom _ _ _ _ Hs). }
  cbn. rewrite (upd_eq a (set_meters t e)) by apply lookup_store. cbn.
  assert (m' = meter_refs s) as ->.
  { apply shifted_eq. eapply shifted_ext; [|by eapply shifted_trans]. intros g. cbn. lia. }
  do 2 f_equal. assert (set_meters [] (set_meters t e) = e) as -> by (destruct e; cbn in *; by subst).
  unfold store, set_ents, set_meter_refs. cbn. rewrite insert_insert_eq, insert_id by done. by destruct s.
Qed.

(** ** The invariant *)

(** An entry of table [t]; [A] are the applications.  The flows have no bits that
    the mask leaves out: they match themselves. *)
Record ent_ok (A : gmap Z Z) (t : Z) (e : c_fl_entry) : Prop := {
  eo_lock : FL_LOCK e = false;
  eo_ref : 0 <= FL_REF e;
  eo_app_ref : app_ref e = Z.of_nat (length (app_owner_list e));
  eo_nodup : NoDup (app_owner_list e);
  eo_owned : app_owner_list e <> [];
  eo_apps : Forall (fun x => is_Some (A !! x)) (app_owner_list e);
  eo_table : table_id (fl e) = t;
  eo_self : __of_match_flows (fl e) (fl_mask e) (fl e) = true }.

(** An entry before another in a table: its priority is not lower, and its match is another. *)
Definition before (e1 e2 : c_fl_entry) : Prop :=
  FL_PRIO e2 <= FL_PRIO e1 /\ strict_key e1 (fl e2) (fl_mask e2) (FL_PRIO e2) = false.

(** The entries at the addresses of a list. *)
Definition view (m : gmap Z c_fl_entry) (l : list Z) (es : list c_fl_entry) : Prop :=
  Forall2 (fun a e => m !! a = Some e) l es.

Definition tbl_ok (A : gmap Z Z) (m : gmap Z c_fl_entry) (t : Z) (l : list Z) : Prop :=
  exists es, view m l es /\ NoDup l /\ Forall (ent_ok A t) es /\ StronglySorted before es.

Definition in_tables (s : c_switch) (a : Z) : Prop :=
  exists t tbl, rule_flow_tbls s !! t = Some tbl /\ a ∈ rule_fl_tbl tbl.

(** The index holds the entries of the tables, each once, and their cookies differ. *)
Definition idx_ok (s : c_switch) : Prop :=
  exists ks, fl_cookies s = map (fun a => (a, a)) ks /\ NoDup ks /\ (forall a, a ∈ ks <-> in_tables s a) /\
    forall a b ea eb, a ∈ ks -> b ∈ ks -> ents s !! a = Some ea -> ents s !! b = Some eb ->
      FL_COOKIE ea = FL_COOKIE eb -> a = b.

Record wf (s : c_switch) : Prop := {
  wf_len : length (rule_flow_tbls s) = 255%nat;
  wf_tbl : forall t tbl, rule_flow_tbls s !! t = Some tbl ->
    tbl_ok (app_refs s) (ents s) (Z.of_nat t) (rule_fl_tbl tbl);
  wf_grp : refs_ok groups (ents s) (grp_refs s);
  wf_meter : refs_ok meters (ents s) (meter_refs s);
  wf_idx : idx_ok s }.

(** The same match, priority and cookie. *)
Record keyeq (e e' : c_fl_entry) : Prop := {
  ke_fl : fl e' = fl e; ke_mask : fl_mask e' = fl_mask e; ke_prio : FL_PRIO e' = FL_PRIO e;
  ke_cookie : FL_COOKIE e' = FL_COOKIE e }.

Lemma keyeq_refl e : keyeq e e.
Proof. done. Qed.

Lemma before_keyeq e1 e2 e1' e2' : keyeq e1 e1' -> keyeq e2 e2' -> before e1 e2 -> before e1' e2'.
Proof.
  intros [F1 M1 P1 _] [F2 M2 P2 _] [Hp Hk]. unfold before, strict_key in *.
  by rewrite F1, M1, P1, F2, M2, P2.
Qed.

Lemma sorted_keyeq es es' : Forall2 keyeq es es' -> StronglySorted before es -> StronglySorted before es'.
Proof.
  induction 1 as [|e e' es es' He Hes IH]; intros Hs; [constructor|].
  apply StronglySorted_inv in Hs as [Hs Hf]. constructor; [auto|].
  clear Hs IH. induction Hes as [|x y es es' Hx Hes IH]; constructor.
  - apply Forall_cons in Hf as [Hf _]. by eapply before_keyeq.
  - apply Forall_cons in Hf as [_ Hf]. auto.
Qed.

(** One entry is replaced. *)
Lemma view_upd m l es b e e' :
  view m l es -> m !! b = Some e ->
  exists es', view (<[b := e']> m) l es' /\ Forall2 (fun x y => x = y \/ x = e /\ y = e') es es'.
Proof.
  intros Hv Hb. induction Hv as [|a x l es Ha Hv (es' & IH1 & IH2)]; [exists []; split; constructor|].
  destruct (decide (a = b)) as [->|Hne].
  - exists (e' :: es'). split; constructor; [apply lookup_insert_eq|done| |done]. right. split; congruence.
  - exists (x :: es'). split; constructor; [by rewrite lookup_insert_ne|done|by left|done].
Qed.

Lemma tbl_ok_upd A A' m t l b e e' :
  tbl_ok A m t l -> m !! b = Some e -> keyeq e e' -> same_apps A A' ->
  (ent_ok A t e -> ent_ok A' t e') -> tbl_ok A' (<[b := e']> m) t l.
Proof.
  intros (es & Hv & Hnd & Hok & Hs) Hb Hk HA He.
  destruct (view_upd m l es b e e' Hv Hb) as (es' & Hv' & Hf). exists es'. split_and!; [done|done| |].
  - rewrite Forall_forall in Hok. apply Forall_forall. intros y Hy.
    apply list_elem_of_lookup in Hy as [i Hy].
    destruct (Forall2_lookup_r _ _ _ _ _ Hf Hy) as (x & Hx & Hxy).
    apply list_elem_of_lookup_2 in Hx. specialize (Hok _ Hx).
    destruct Hxy as [<-|[-> ->]]; [|auto]. destruct Hok. split; auto.
    eapply Forall_impl; [eassumption|]. cbn. intros z. by rewrite (HA z).
  - eapply sorted_keyeq; [|exact Hs]. eapply Forall2_impl; [exact Hf|].
    intros x y [->|[-> ->]]; [apply keyeq_refl|done].
Qed.

Lemma view_elem m l es a : view m l es -> a ∈ l -> exists e, m !! a = Some e /\ e ∈ es.
Proof.
  intros Hv [i Hi]%list_elem_of_lookup. destruct (Forall2_lookup_l _ _ _ _ _ Hv Hi) as (e & He & Hm).
  exists e. split; [done|]. by eapply list_elem_of_lookup_2.
Qed.

Lemma wf_entry s t tbl a :
  wf s -> rule_flow_tbls s !! t = Some tbl -> a ∈ rule_fl_tbl tbl ->
  exists e, ents s !! a = Some e /\ ent_ok (app_refs s) (Z.of_nat t) e.
Proof.
  intros Hwf Ht Ha. destruct (wf_tbl s Hwf t tbl Ht) as (es & Hv & _ & Hok & _).
  destruct (view_elem _ _ _ _ Hv Ha) as (e & He & Hin). exists e. split; [done|].
  rewrite Forall_forall in Hok. auto.
Qed.

Lemma wf_in_tables s a : wf s -> in_tables s a -> exists e t, ents s !! a = Some e /\ ent_ok (app_refs s) t e.
Proof. intros Hwf (t & tbl & Ht & Ha). destruct (wf_entry s t tbl a Hwf Ht Ha) as (e & ? & ?). eauto. Qed.

(** Preservation: one entry changes, tables and index stay. *)
Lemma wf_upd s s' b e e' :
  wf s -> ents s !! b = Some e -> keyeq e e' ->
  (forall t, ent_ok (app_refs s) t e -> ent_ok (app_refs s') t e') ->
  ents s' = <[b := e']> (ents s) -> rule_flow_tbls s' = rule_flow_tbls s -> fl_cookies s' = fl_cookies s ->
  same_apps (app_refs s) (app_refs s') ->
  refs_ok groups (ents s') (grp_refs s') -> refs_ok meters (ents s') (meter_refs s') -> wf s'.
Proof.
  intros Hwf Hb Hk He Em Et Ec HA Hg Hm. split; auto.
  - rewrite Et. apply Hwf.
  - rewrite Et, Em. intros t tbl Ht. eapply tbl_ok_upd; eauto. by apply Hwf.
  - destruct (wf_idx s Hwf) as (ks & E1 & E2 & E3 & E4). exists ks. rewrite Ec. split_and!; [done|done| |].
    + intros a. rewrite E3. unfold in_tables. by rewrite Et.
    + intros x y ex ey Hx Hy. rewrite Em.
      assert (forall z ez, <[b := e']> (ents s) !! z = Some ez ->
                exists ez', ents s !! z = Some ez' /\ FL_COOKIE ez = FL_COOKIE ez') as Hz.
      { intros z ez. destruct (decide (z = b)) as [->|Hne].
        - rewrite lookup_insert_eq. intros. simplify_eq. exists e. split; [done|]. apply Hk.
        - rewrite lookup_insert_ne by done. eauto. }
      intros (ex' & Hx' & ->)%Hz (ey' & Hy' & ->)%Hz. by apply (E4 x y ex' ey').
Qed.

(** ** References to applications *)

(** The owners of all entries on the heap. *)
Definition owns (x : Z) (m : gmap Z c_fl_entry) : Z := msum (fun e => cnt x (app_owner_list e)) m.

Lemma owns_nonneg x m : 0 <= owns x m.
Proof. apply msum_nonneg. intros. apply cnt_nonneg. Qed.

(** References and owners move together, no application that is gone becomes an owner, and the same groups and meters are there. *)
Record moves (s s' : c_switch) : Prop := {
  mv_apps : shifted (fun x => owns x (ents s') - owns x (ents s)) (app_refs s) (app_refs s');
  mv_dead : forall x, app_refs s !! x = None -> owns x (ents s') <= owns x (ents s);
  mv_grp : same_apps (grp_refs s) (grp_refs s');
  mv_meter : same_apps (meter_refs s) (meter_refs s');
  mv_ctors : ofp_ctors s' = ofp_ctors s;
  mv_multi : multi_table_support s' = multi_table_support s }.

Lemma moves_trans s1 s2 s3 : moves s1 s2 -> moves s2 s3 -> moves s1 s3.
Proof.
  intros [A1 A0 A2 A3 A4 A5] [B1 B0 B2 B3 B4 B5]. split; [| |by eapply same_apps_trans|by eapply same_apps_trans|congruence|congruence].
  - eapply shifted_ext; [|exact (shifted_trans _ _ _ _ _ A1 B1)]. intros x. cbn. lia.
  - intros x Hx. specialize (A0 x Hx). assert (app_refs s2 !! x = None) as Hx2 by (by rewrite (A1 x), Hx). specialize (B0 x Hx2). lia.
Qed.

(** The owners stay as they are. *)
Lemma moves_same s s' : (forall x, owns x (ents s') = owns x (ents s)) -> app_refs s' = app_refs s ->
  same_apps (grp_refs s) (grp_refs s') -> same_apps (meter_refs s) (meter_refs s') -> ofp_ctors s' = ofp_ctors s ->
  multi_table_support s' = multi_table_support s -> moves s s'.
Proof.
  intros Ho Ha Hg Hm Hc Ht. split; try done; [|intros x _; by rewrite Ho]. rewrite Ha. apply shifted_none. intros x. rewrite Ho. lia.
Qed.

Lemma moves_refl s : moves s s.
Proof. by apply moves_same. Qed.

(** One entry changes. *)
Lemma moves_upd s s' a e e' : ents s !! a = Some e -> ents s' = <[a := e']> (ents s) ->
  shifted (fun x => cnt x (app_owner_list e') - cnt x (app_owner_list e)) (app_refs s) (app_refs s') ->
  (forall x, app_refs s !! x = None -> cnt x (app_owner_list e') <= cnt x (app_owner_list e)) ->
  same_apps (grp_refs s) (grp_refs s') -> same_apps (meter_refs s) (meter_refs s') -> ofp_ctors s' = ofp_ctors s ->
  multi_table_support s' = multi_table_support s -> moves s s'.
Proof.
  intros He Em Hs Hd Hg Hm Hc Ht.
  assert (forall x, owns x (ents s') = owns x (ents s) - cnt x (app_owner_list e) + cnt x (app_owner_list e')) as Ho.
  { intros x. unfold owns. by rewrite Em, (msum_insert _ _ _ e). }
  split; try done.
  - eapply shifted_ext; [|exact Hs]. intros x. cbn. rewrite Ho. lia.
  - intros x Hx. rewrite Ho. specialize (Hd x Hx). lia.
Qed.

Lemma moves_entry s s' a e e' : ents s !! a = Some e -> ents s' = <[a := e']> (ents s) -> app_owner_list e' = app_owner_list e ->
  app_refs s' = app_refs s -> same_apps (grp_refs s) (grp_refs s') -> same_apps (meter_refs s) (meter_refs s') ->
  ofp_ctors s' = ofp_ctors s -> multi_table_support s' = multi_table_support s -> moves s s'.
Proof.
  intros He Em Ho Ha Hg Hm Hc Ht. eapply moves_upd; try done; rewrite Ho; [|done]. rewrite Ha. apply shifted_none. intros x. lia.
Qed.

Lemma moves_store a e e' s : ents s !! a = Some e -> app_owner_list e' = app_owner_list e -> moves s (store a e' s).
Proof.
  intros He Ho. by eapply moves_entry.
Qed.

Lemma moves_fresh a e s : ents s !! a = None -> app_owner_list e = [] -> moves s (store a e s).
Proof. intros Ha Ho. apply moves_same; try done. intros x. unfold owns. cbn. rewrite msum_fresh, Ho by done. done. Qed.

Lemma moves_free a e s : ents s !! a = Some e -> app_owner_list e = [] -> moves s (free a s).
Proof. intros Ha Ho. apply moves_same; try done. intros x. unfold owns. cbn. rewrite (msum_delete _ _ _ e), Ho by done. cbn. lia. Qed.

(** A list does not see the heap outside it. *)
Lemma view_frame m m' l es : view m l es -> (forall b, b ∈ l -> m' !! b = m !! b) -> view m' l es.
Proof.
  intros Hv Heq. induction Hv as [|b x l es Hb Hv IH]; constructor.
  - rewrite Heq; set_solver.
  - apply IH. intros. apply Heq. set_solver.
Qed.

(** An object that is in no table. *)
Lemma tbl_ok_fresh A m t l a e : tbl_ok A m t l -> a ∉ l -> tbl_ok A (<[a := e]> m) t l.
Proof.
  intros (es & Hv & Hrest) Hn. exists es. split; [|done]. eapply view_frame; [exact Hv|].
  intros b Hb. apply lookup_insert_ne. by intros ->.
Qed.

Lemma tbl_ok_delete A m t l a : tbl_ok A m t l -> a ∉ l -> tbl_ok A (delete a m) t l.
Proof.
  intros (es & Hv & Hrest) Hn. exists es. split; [|done]. eapply view_frame; [exact Hv|].
  intros b Hb. apply lookup_delete_ne. by intros ->.
Qed.

Lemma wf_not_in s t tbl a : ~ in_tables s a -> rule_flow_tbls s !! t = Some tbl -> a ∉ rule_fl_tbl tbl.
Proof. intros Hn Ht Ha. apply Hn. by exists t, tbl. Qed.

Lemma fresh_not_in s a : wf s -> ents s !! a = None -> ~ in_tables s a.
Proof. intros Hwf Ha Hin. destruct (wf_in_tables s a Hwf Hin) as (e & ? & He & _). congruence. Qed.

(** The heap changes at an address outside the tables. *)
Lemma wf_outside s m' r1 r2 A' ix tx' a :
  wf s -> ~ in_tables s a -> (forall b, b <> a -> m' !! b = ents s !! b) ->
  (forall l t, tbl_ok (app_refs s) (ents s) t l -> a ∉ l -> tbl_ok A' m' t l) ->
  refs_ok groups m' r1 -> refs_ok meters m' r2 ->
  wf (mk_switch m' (rule_flow_tbls s) (fl_cookies s) ix r1 r2 A' (ofp_ctors s)
        (multi_table_support s) (sw_ha_state s) tx').
Proof.
  intros Hwf Hn Hm Ht Hg Hr. split; cbn; auto.
  - apply Hwf.
  - intros t tbl Htb. apply Ht; [by apply Hwf|by eapply wf_not_in].
  - destruct (wf_idx s Hwf) as (ks & E1 & E2 & E3 & E4). exists ks. split_and!; [done|done|done|].
    intros x y ex ey Hx Hy Hex Hey. cbn in Hex, Hey.
    assert (x <> a) by (intros ->; apply Hn; by apply E3).
    assert (y <> a) by (intros ->; apply Hn; by apply E3).
    rewrite Hm in Hex, Hey by done. by apply (E4 x y ex ey).
Qed.

Lemma wf_store_fresh s a e :
  wf s -> ents s !! a = None -> groups e = [] -> meters e = [] -> wf (store a e s).
Proof.
  intros Hwf Ha Hg Hm. apply (wf_outside s (<[a := e]> (ents s)) (grp_refs s) (meter_refs s)
    (app_refs s) (fl_idx_cookie s) (tx s) a); auto.
  - by apply fresh_not_in.
  - intros b Hb. by rewrite lookup_insert_ne.
  - intros l t Ht Hn. by apply tbl_ok_fresh.
  - apply refs_ok_fresh; auto. apply Hwf.
  - apply refs_ok_fresh; auto. apply Hwf.
Qed.

Lemma wf_free_unused s a e :
  wf s -> ~ in_tables s a -> ents s !! a = Some e -> groups e = [] -> meters e = [] -> wf (free a s).
Proof.
  intros Hwf Hn Ha Hg Hm. apply (wf_outside s (delete a (ents s)) (grp_refs s) (meter_refs s)
    (app_refs s) (fl_idx_cookie s) (tx s) a); auto.
  - intros b Hb. by rewrite lookup_delete_ne.
  - intros l t Ht Hl. by apply tbl_ok_delete.
  - eapply refs_ok_delete; [apply Hwf|done|]. rewrite Hg. intros g.
    destruct (grp_refs s !! g); cbn; [|done]. f_equal. lia.
  - eapply refs_ok_delete; [apply Hwf|done|]. rewrite Hm. intros g.
    destruct (meter_refs s !! g); cbn; [|done]. f_equal. lia.
Qed.

(** ** Lookup *)

Lemma flow_eq_nopad_sym f g : flow_eq_nopad f g = flow_eq_nopad g f.
Proof. unfold flow_eq_nopad. apply bool_decide_ext. split; intros; congruence. Qed.

Lemma strict_key_sym e e' :
  strict_key e (fl e') (fl_mask e') (FL_PRIO e') = strict_key e' (fl e) (fl_mask e) (FL_PRIO e).
Proof.
  unfold strict_key. rewrite flow_eq_nopad_sym, Z.eqb_sym. f_equal. f_equal. apply bool_decide_ext.
  split; congruence.
Qed.

(** The hint of a search that starts at position [i]. *)
Definition hint_ok (p : Z) (es : list c_fl_entry) (i : nat) (h : option nat) : Prop :=
  match h with
  | None => Forall (fun e => p < FL_PRIO e) es
  | Some k => exists j e, k = (i + j)%nat /\ es !! j = Some e /\ FL_PRIO e <= p /\
                Forall (fun e => p < FL_PRIO e) (take j es)
  end.

Lemma strict_prio_hint_spec f k p s l es : view (ents s) l es -> forall i h0,
  exists r h, strict_prio_hint l i h0 f k p s = Some (r, h) /\
    match r with
    | Some b => exists e, b ∈ l /\ ents s !! b = Some e /\ strict_key e f k p = true
    | None => Forall (fun e => strict_key e f k p = false) es /\
              (if h0 is Some _ then h = h0 else hint_ok p es i h)
    end.
Proof.
  intros Hv. induction Hv as [|a e l es Ha Hv IH]; intros i h0; cbn [strict_prio_hint].
  { exists None, h0. split; [done|]. split; [done|]. destruct h0; [done|constructor]. }
  rewrite Ha. cbn - [strict_key]. destruct (strict_key e f k p) eqn:Hk.
  { eexists _, _. split; [done|]. exists e. split_and!; [set_solver|done|done]. }
  set (h1 := if _ && _ then Some i else h0). destruct (IH (S i) h1) as (r & h & -> & Hr).
  exists r, h. split; [done|]. destruct r as [b|].
  { destruct Hr as (x & ? & ? & ?). exists x. split_and!; [set_solver|done|done]. }
  destruct Hr as [Hr Hh]. split; [by constructor|]. subst h1. destruct h0 as [k0|]; cbn in *; [done|].
  destruct (Z.leb_spec (FL_PRIO e) p).
  - subst h. exists 0%nat, e. split_and!; [lia|done|done|constructor].
  - destruct h as [j|]; cbn in *; [|by constructor].
    destruct Hh as (j' & x & -> & ? & ? & ?). exists (S j'), x. split_and!; [lia|done|done|by constructor].
Qed.

(** The insertion of an entry at the hint. *)
Lemma sorted_insert e es i :
  StronglySorted before es ->
  Forall (fun x => strict_key x (fl e) (fl_mask e) (FL_PRIO e) = false) es ->
  Forall (fun x => FL_PRIO e < FL_PRIO x) (take i es) ->
  Forall (fun x => FL_PRIO x <= FL_PRIO e) (drop i es) ->
  StronglySorted before (take i es ++ e :: drop i es).
Proof.
  intros Hs Hk Ht Hd. rewrite <- (take_drop i es) in Hs, Hk.
  apply StronglySorted_app in Hs as (Hc & Hs1 & Hs2). apply Forall_app in Hk as [Hk1 Hk2].
  rewrite Forall_forall in Ht, Hd, Hk1, Hk2.
  assert (forall x, x ∈ take i es -> before x e) as Hbe.
  { intros x Hx. split; [specialize (Ht x Hx); lia|auto]. }
  apply StronglySorted_app_2; [|done|constructor; [done|]].
  - intros x y Hx [->|Hy]%elem_of_cons; auto.
  - apply Forall_forall. intros y Hy. split; [auto|]. rewrite strict_key_sym. auto.
Qed.

Lemma sorted_below e es j p :
  StronglySorted before es -> es !! j = Some e -> FL_PRIO e <= p ->
  Forall (fun x => FL_PRIO x <= p) (drop j es).
Proof.
  intros Hs Hj Hp. rewrite (drop_S es e j Hj). constructor; [done|].
  rewrite <- (take_drop j es), (drop_S es e j Hj) in Hs. apply StronglySorted_app in Hs as (_ & _ & Hs).
  apply StronglySorted_inv in Hs as [_ Hs]. eapply Forall_impl; [exact Hs|]. cbn. intros x [? _]. lia.
Qed.

Lemma view_insert m l es a e i :
  view m l es -> m !! a = Some e -> view m (take i l ++ a :: drop i l) (take i es ++ e :: drop i es).
Proof.
  intros Hv Ha. apply Forall2_app; [by apply Forall2_take|]. constructor; [done|by apply Forall2_drop].
Qed.

Lemma tbl_ok_insert A m t l es a e h :
  view m l es -> tbl_ok A m t l -> m !! a = Some e -> a ∉ l -> ent_ok A t e ->
  Forall (fun x => strict_key x (fl e) (fl_mask e) (FL_PRIO e) = false) es ->
  hint_ok (FL_PRIO e) es 0 h -> tbl_ok A m t (insert_at h a l).
Proof.
  intros Hv (es' & Hv' & Hnd & Hok & Hs) Ha Hn He Hk Hh.
  assert (es' = es) as ->.
  { clear - Hv Hv'. revert es Hv. induction Hv' as [|x y l es' Hx Hv' IH]; intros es Hv.
    - by apply Forall2_nil_inv_l in Hv.
    - apply Forall2_cons_inv_l in Hv as (z & k & Hz & Hv & ->). f_equal; [congruence|auto]. }
  assert (insert_at None a l = take (length l) l ++ a :: drop (length l) l) as Hnone.
  { cbn. by rewrite firstn_all, drop_all. }
  assert (exists i, insert_at h a l = take i l ++ a :: drop i l /\
    Forall (fun x => FL_PRIO e < FL_PRIO x) (take i es) /\
    Forall (fun x => FL_PRIO x <= FL_PRIO e) (drop i es)) as (i & -> & H1 & H2).
  { destruct h as [k|].
    - destruct Hh as (j & x & -> & Hj & Hp & Ht). exists j. split_and!; [done|done|].
      by eapply sorted_below.
    - exists (length l). split; [done|]. cbn in Hh. pose proof (Forall2_length _ _ _ Hv) as Hl.
      rewrite Hl, firstn_all, drop_all. done. }
  exists (take i es ++ e :: drop i es). split_and!.
  - by apply view_insert.
  - rewrite <- (take_drop i l) in Hn, Hnd. apply NoDup_app in Hnd as (? & Hc & ?).
    apply NoDup_app. split_and!; [done| |constructor; [set_solver|done]].
    intros x Hx [->|Hy]%elem_of_cons; [set_solver|by eapply Hc].
  - rewrite <- (take_drop i es) in Hok. apply Forall_app in Hok as [? ?].
    apply Forall_app. split; [done|by constructor].
  - by apply sorted_insert.
Qed.

(** ** The index *)

(** No key has the cookie of [e]. *)
Lemma cookie_pos_none l e s : forall i,
  Forall (fun kv => exists x, ents s !! kv.1 = Some x /\ FL_COOKIE x <> FL_COOKIE e) l ->
  cookie_pos l e s i = Some None.
Proof.
  induction l as [|[k v] l IH]; intros i Hl; cbn; [done|].
  apply Forall_cons in Hl as [(x & Hx & Hne) Hl]. cbn in Hx. rewrite Hx. cbn.
  replace (c_fl_cookie_match x e) with false; [rewrite andb_false_r; auto|].
  unfold c_fl_cookie_match. rewrite (proj2 (Z.eqb_neq _ _) Hne). by case_match.
Qed.

Lemma cookie_match_refl e : __of_match_flows (fl e) (fl_mask e) (fl e) = true -> c_fl_cookie_match e e = true.
Proof.
  intros Hm. unfold c_fl_cookie_match, of_match_flows_prio, flow_eq_nopad.
  rewrite !Z.eqb_refl, bool_decide_true, Hm by done. by case_match.
Qed.


(** The node of an entry that is indexed. *)
Lemma cookie_pos_self s a e : ents s !! a = Some e -> c_fl_cookie_match e e = true -> forall ks i,
  a ∈ ks -> Forall (fun k => exists x, ents s !! k = Some x /\ (FL_COOKIE x = FL_COOKIE e -> k = a)) ks ->
  exists j, ks !! j = Some a /\ cookie_pos (map (fun a => (a, a)) ks) e s i = Some (Some (i + j)%nat).
Proof.
  intros Ha Hr ks. induction ks as [|k ks IH]; intros i Hin Hks; [set_solver|].
  apply Forall_cons in Hks as [(x & Hx & Hk) Hks]. cbn [map cookie_pos]. rewrite Hx. cbn [mbind option_bind].
  destruct (decide (k = a)) as [->|Hne].
  - assert (x = e) as -> by congruence. exists 0%nat. rewrite Z.eqb_refl, Hr. cbn.
    split; [done|]. by rewrite Nat.add_0_r.
  - replace (c_fl_cookie_match x e) with false.
    + rewrite andb_false_r. destruct (IH (S i)) as (j & Hj & ->); [set_solver|done|].
      exists (S j). split; [done|]. do 2 f_equal. lia.
    + unfold c_fl_cookie_match. assert (FL_COOKIE x <> FL_COOKIE e) as Hc by auto.
      rewrite (proj2 (Z.eqb_neq _ _) Hc). by case_match.
Qed.

Lemma idx_alive s ks a e :
  wf s -> (forall a, a ∈ ks <-> in_tables s a) ->
  (forall a b ea eb, a ∈ ks -> b ∈ ks -> ents s !! a = Some ea -> ents s !! b = Some eb ->
     FL_COOKIE ea = FL_COOKIE eb -> a = b) ->
  a ∈ ks -> ents s !! a = Some e ->
  Forall (fun k => exists x, ents s !! k = Some x /\ (FL_COOKIE x = FL_COOKIE e -> k = a)) ks.
Proof.
  intros Hwf Hin Hinj Ha He. apply Forall_forall. intros k Hk.
  destruct (wf_in_tables s k Hwf) as (x & ? & Hx & _); [by apply Hin|].
  exists x. split; [done|]. intros Hc. by apply (Hinj k a x e).
Qed.

(** [cookies_remove] of an entry of the tables; [s'] differs from [s] in what the index does not see. *)
Lemma cookies_remove_spec s s' a e e' ks :
  wf s -> ents s !! a = Some e -> in_tables s a -> ents s' = <[a := e']> (ents s) -> keyeq e e' ->
  fl_cookies s' = fl_cookies s -> fl_cookies s = map (fun a => (a, a)) ks ->
  (forall a, a ∈ ks <-> in_tables s a) ->
  (forall a b ea eb, a ∈ ks -> b ∈ ks -> ents s !! a = Some ea -> ents s !! b = Some eb ->
     FL_COOKIE ea = FL_COOKIE eb -> a = b) ->
  exists j, ks !! j = Some a /\
    cookies_remove a s' = Some (set_fl_cookies (map (fun a => (a, a)) (delete j ks)) s').
Proof.
  intros Hwf He Hin Em Hk Ec Ek Hks Hinj. unfold cookies_remove.
  rewrite Em, lookup_insert_eq. cbn [mbind option_bind]. rewrite Ec, Ek.
  destruct (wf_in_tables s a Hwf Hin) as (e0 & t & He0 & Hok). assert (e0 = e) as -> by congruence.
  destruct (cookie_pos_self s' a e') with (ks := ks) (i := 0%nat) as (j & Hj & ->).
  - by rewrite Em, lookup_insert_eq.
  - apply cookie_match_refl. destruct Hk as [-> -> _ _]. apply Hok.
  - by apply Hks.
  - apply Forall_forall. intros k Hkin.
    pose proof (idx_alive s ks a e Hwf Hks Hinj (proj2 (Hks a) Hin) He) as Hal.
    rewrite Forall_forall in Hal. destruct (Hal k Hkin) as (x & Hx & Hc). rewrite Em.
    destruct (decide (k = a)) as [->|Hne].
    + exists e'. by rewrite lookup_insert_eq.
    + exists x. rewrite lookup_insert_ne by done. split; [done|]. rewrite (ke_cookie _ _ Hk). done.
  - exists j. split; [done|]. cbn. do 2 f_equal. clear. revert j. induction ks as [|k ks IH]; intros [|j]; cbn; auto.
    by rewrite IH.
Qed.

(** ** Releasing an entry *)

Lemma disassociate_grps_eq a e s :
  ents s !! a = Some e -> Forall (fun g => is_Some (grp_refs s !! g)) (groups e) ->
  exists m, shifted (fun g => - cnt g (groups e)) (grp_refs s) m /\
    __c_flow_rule_disassociate_grps a s = Some (store a (set_groups [] e) (set_grp_refs m s)).
Proof.
  intros He Hg. unfold __c_flow_rule_disassociate_grps, __c_flow_rule_disassociate_grps_only.
  rewrite He. cbn. destruct (drop_refs_spec _ _ Hg) as (m & -> & Hm). exists m. split; [done|]. cbn.
  by rewrite (upd_eq a e).
Qed.

Lemma disassociate_meters_eq a e s :
  ents s !! a = Some e -> Forall (fun g => is_Some (meter_refs s !! g)) (meters e) ->
  exists m, shifted (fun g => - cnt g (meters e)) (meter_refs s) m /\
    __c_flow_rule_disassociate_meters a s = Some (store a (set_meters [] e) (set_meter_refs m s)).
Proof.
  intros He Hg. unfold __c_flow_rule_disassociate_meters, __c_flow_rule_disassociate_meters_only.
  rewrite He. cbn. destruct (drop_refs_spec _ _ Hg) as (m & -> & Hm). exists m. split; [done|]. cbn.
  by rewrite (upd_eq a e).
Qed.

(** Giving up a reference: the object is freed with its references, or one of the
    references to it goes. *)
Lemma entry_put_spec a e s :
  ents s !! a = Some e -> refs_ok groups (ents s) (grp_refs s) -> refs_ok meters (ents s) (meter_refs s) ->
  exists m G M, c_flow_entry_put a s =
      Some (mk_switch m (rule_flow_tbls s) (fl_cookies s) (fl_idx_cookie s) G M (app_refs s) (ofp_ctors s)
              (multi_table_support s) (sw_ha_state s) (tx s)) /\
    m = (if FL_REF e =? 0 then delete a (ents s) else <[a := set_FL_REF (FL_REF e - 1) e]> (ents s)) /\
    refs_ok groups m G /\ refs_ok meters m M /\ same_apps (grp_refs s) G /\ same_apps (meter_refs s) M.
Proof.
  intros He Hg Hm. unfold c_flow_entry_put. rewrite He. cbn [mbind option_bind].
  destruct (FL_REF e =? 0).
  - destruct (disassociate_meters_eq a e s He) as (M & HM & ->); [by eapply ro_alive|]. cbn [mbind option_bind].
    destruct (disassociate_grps_eq a (set_meters [] e) (store a (set_meters [] e) (set_meter_refs M s)))
      as (G & HG & ->); [apply lookup_store|exact (ro_alive _ _ _ Hg a e He)|]. cbn [mbind option_bind].
    eexists _, G, M. split; [|split; [reflexivity|]].
    + unfold free, store, set_ents, set_grp_refs, set_meter_refs. cbn. rewrite !delete_insert_eq. done.
    + split_and!; [eapply refs_ok_delete; eauto..|exact (shifted_same _ _ _ HG)|exact (shifted_same _ _ _ HM)].
  - rewrite (upd_eq a e) by done. eexists _, (grp_refs s), (meter_refs s). split; [|split; [reflexivity|]].
    + done.
    + split_and!; [eapply refs_ok_same; eauto..|done|done].
Qed.

Lemma tbl_ok_remove A m t l1 a l2 :
  tbl_ok A m t (l1 ++ a :: l2) -> tbl_ok A m t (l1 ++ l2) /\ a ∉ l1 ++ l2.
Proof.
  intros (es & Hv & Hnd & Hok & Hs).
  apply Forall2_app_inv_l in Hv as (es1 & es2 & Hv1 & Hv2 & ->).
  apply Forall2_cons_inv_l in Hv2 as (e & es2' & He & Hv2 & ->).
  apply NoDup_app in Hnd as (N1 & N2 & N3). apply NoDup_cons in N3 as [N3 N4].
  split; [|intros [Ha|Ha]%elem_of_app; [by apply (N2 a Ha), elem_of_cons; left|done]].
  exists (es1 ++ es2'). split_and!.
  - by apply Forall2_app.
  - apply NoDup_app. split_and!; [done| |done]. intros x Hx Hx'. by apply (N2 x Hx), elem_of_cons; right.
  - apply Forall_app in Hok as [? Hok]. apply Forall_cons in Hok as [_ Hok]. by apply Forall_app.
  - apply StronglySorted_app in Hs as (H1 & H2 & H3). apply StronglySorted_inv in H3 as [H3 _].
    apply StronglySorted_app_2; [|done|done]. intros x y Hx Hy. apply H1; [done|]. by apply elem_of_cons; right.
Qed.

(** An entry is in one table only. *)
Lemma one_table s t t' tbl tbl' a :
  wf s -> rule_flow_tbls s !! t = Some tbl -> a ∈ rule_fl_tbl tbl ->
  rule_flow_tbls s !! t' = Some tbl' -> a ∈ rule_fl_tbl tbl' -> t = t'.
Proof.
  intros Hwf Ht Ha Ht' Ha'. destruct (wf_entry s t tbl a Hwf Ht Ha) as (e & He & Hok).
  destruct (wf_entry s t' tbl' a Hwf Ht' Ha') as (e' & He' & Hok'). assert (e' = e) as -> by congruence.
  apply Nat2Z.inj. rewrite <- (eo_table _ _ _ Hok). apply (eo_table _ _ _ Hok').
Qed.

Lemma elem_of_delete_nodup (ks : list Z) j a b :
  NoDup ks -> ks !! j = Some a -> b ∈ delete j ks <-> b ∈ ks /\ b <> a.
Proof.
  intros Hnd Hj. rewrite delete_take_drop. rewrite <- (take_drop_middle ks j a Hj) in Hnd |- * at 3.
  apply NoDup_app in Hnd as (N1 & N2 & N3). apply NoDup_cons in N3 as [N3 N4].
  rewrite !elem_of_app, elem_of_cons. split.
  - intros [Hb|Hb]; split; auto; intros ->; [by apply (N2 a Hb), elem_of_cons; left|done].
  - intros [[Hb|[Hb|Hb]] Hne]; auto. done.
Qed.

Lemma NoDup_delete (ks : list Z) j a : NoDup ks -> ks !! j = Some a -> NoDup (delete j ks).
Proof.
  intros Hnd Hj. rewrite delete_take_drop. rewrite <- (take_drop_middle ks j a Hj) in Hnd.
  apply NoDup_app in Hnd as (N1 & N2 & N3). apply NoDup_cons in N3 as [N3 N4].
  apply NoDup_app. split_and!; [done| |done]. intros x Hx Hx'. by apply (N2 x Hx), elem_of_cons; right.
Qed.

Lemma idx_remove s t tbl l1 a l2 ks j n :
  wf s -> rule_flow_tbls s !! t = Some tbl -> rule_fl_tbl tbl = l1 ++ a :: l2 ->
  NoDup ks -> (forall a, a ∈ ks <-> in_tables s a) -> ks !! j = Some a -> forall b,
  b ∈ delete j ks <->
  exists t' tbl', <[t := mk_tbl n (l1 ++ l2)]> (rule_flow_tbls s) !! t' = Some tbl' /\ b ∈ rule_fl_tbl tbl'.
Proof.
  intros Hwf Ht Hl Hnd Hks Hj b.
  assert (a ∉ l1 ++ l2) as Hna.
  { pose proof (wf_tbl s Hwf t tbl Ht) as Hok. rewrite Hl in Hok. by apply tbl_ok_remove in Hok as [_ ?]. }
  rewrite (elem_of_delete_nodup ks j a b Hnd Hj), Hks. pose proof (lookup_lt_Some _ _ _ Ht) as Hlt. split.
  - intros [(t' & tbl' & Ht' & Hb) Hne]. destruct (decide (t' = t)) as [->|Hnt].
    + exists t, (mk_tbl n (l1 ++ l2)). split; [by apply list_lookup_insert_eq|]. cbn.
      assert (tbl' = tbl) as -> by congruence. rewrite Hl in Hb. set_solver.
    + exists t', tbl'. split; [|done]. by rewrite list_lookup_insert_ne.
  - intros (t' & tbl' & Ht' & Hb). destruct (decide (t' = t)) as [->|Hnt].
    + rewrite list_lookup_insert_eq in Ht' by done. simplify_eq. cbn in Hb.
      split; [|by intros ->]. exists t, tbl. split; [done|]. rewrite Hl. set_solver.
    + rewrite list_lookup_insert_ne in Ht' by done. split; [by exists t', tbl'|]. intros ->.
      apply Hnt. eapply (one_table s t' t); eauto. rewrite Hl. set_solver.
Qed.

(** A table does not see the heap outside its list. *)
Lemma tbl_ok_frame A A' m m' t l :
  tbl_ok A m t l -> same_apps A A' -> (forall b, b ∈ l -> m' !! b = m !! b) -> tbl_ok A' m' t l.
Proof.
  intros (es & Hv & N & Hok & Hs) HA Heq. exists es. split_and!; [by eapply view_frame|done| |done].
  - eapply Forall_impl; [exact Hok|]. intros x [? ? ? ? ? Hap ? ?]. split; auto.
    eapply Forall_impl; [exact Hap|]. cbn. intros z. by rewrite (HA z).
Qed.

(** The invariant without one entry of a table. *)
Lemma wf_remove s t tbl l1 a l2 ks j n m G M A ix tx' :
  wf s -> rule_flow_tbls s !! t = Some tbl -> rule_fl_tbl tbl = l1 ++ a :: l2 ->
  NoDup ks -> (forall a, a ∈ ks <-> in_tables s a) ->
  (forall a b ea eb, a ∈ ks -> b ∈ ks -> ents s !! a = Some ea -> ents s !! b = Some eb ->
     FL_COOKIE ea = FL_COOKIE eb -> a = b) ->
  ks !! j = Some a -> (forall b, b <> a -> m !! b = ents s !! b) -> same_apps (app_refs s) A ->
  refs_ok groups m G -> refs_ok meters m M ->
  wf (mk_switch m (<[t := mk_tbl n (l1 ++ l2)]> (rule_flow_tbls s)) (map (fun a => (a, a)) (delete j ks))
        ix G M A (ofp_ctors s) (multi_table_support s) (sw_ha_state s) tx').
Proof.
  intros Hwf Ht Hl Hnd Hks Hinj Hj Hm HA HG HM.
  pose proof (wf_tbl s Hwf t tbl Ht) as Hok. rewrite Hl in Hok. apply tbl_ok_remove in Hok as [Hok Hna].
  split; cbn; auto.
  - rewrite length_insert. apply Hwf.
  - intros t' tbl' Ht'. destruct (decide (t' = t)) as [->|Hne].
    + rewrite list_lookup_insert_eq in Ht' by (by eapply lookup_lt_Some). simplify_eq. cbn.
      eapply tbl_ok_frame; [exact Hok|done|]. intros b Hb. apply Hm. by intros ->.
    + rewrite list_lookup_insert_ne in Ht' by done. eapply tbl_ok_frame; [by apply Hwf|done|].
      intros b Hb. apply Hm. intros ->. apply Hne. eapply (one_table s t' t); eauto. rewrite Hl. set_solver.
  - exists (delete j ks). split_and!; [done|by eapply NoDup_delete| |].
    + intros b. by eapply (idx_remove s t tbl l1 a l2 ks j n).
    + cbn. intros x y ex ey [Hx Hxa]%(elem_of_delete_nodup ks j a) [Hy Hya]%(elem_of_delete_nodup ks j a); auto.
      rewrite !Hm by done. by apply Hinj.
Qed.

(** What the release of an entry leaves alone. *)
Record rest_same (s s' : c_switch) : Prop := {
  rs_tbls : rule_flow_tbls s' = rule_flow_tbls s; rs_apps : app_refs s' = app_refs s;
  rs_ctors : ofp_ctors s' = ofp_ctors s; rs_multi : multi_table_support s' = multi_table_support s;
  rs_ha : sw_ha_state s' = sw_ha_state s; rs_tx : tx s' = tx s }.

(** The entry [a] leaves table [t]: with the list without it the invariant holds again. *)
Lemma rule_free_spec s s1 t tbl l1 a l2 e e1 n :
  wf s -> rule_flow_tbls s !! t = Some tbl -> rule_fl_tbl tbl = l1 ++ a :: l2 -> ents s !! a = Some e ->
  ents s1 = <[a := e1]> (ents s) -> keyeq e e1 -> groups e1 = groups e -> meters e1 = meters e ->
  fl_cookies s1 = fl_cookies s -> grp_refs s1 = grp_refs s -> meter_refs s1 = meter_refs s ->
  same_apps (app_refs s) (app_refs s1) ->
  exists s2, c_flow_rule_free a s1 = Some s2 /\ rest_same s1 s2 /\
    (forall b, b <> a -> ents s2 !! b = ents s1 !! b) /\ (app_owner_list e1 = [] -> moves s1 s2) /\
    wf (set_rule_flow_tbls (<[t := mk_tbl n (l1 ++ l2)]> (rule_flow_tbls s)) s2).
Proof.
  intros Hwf Ht Hl He Em Hk Eg Emt Ec Egr Emr HA.
  destruct (wf_idx s Hwf) as (ks & Ek & Hnd & Hks & Hinj).
  assert (in_tables s a) as Hin by (exists t, tbl; rewrite Hl; set_solver).
  destruct (cookies_remove_spec s s1 a e e1 ks) as (j & Hj & Ecr); auto.
  unfold c_flow_rule_free. rewrite Ecr. cbn [mbind option_bind].
  destruct (entry_put_spec a e1 (set_fl_cookies (map (fun a => (a, a)) (delete j ks)) s1))
    as (m & G & M & -> & Hm & HG & HM & HsG & HsM); cbn [ents grp_refs meter_refs set_fl_cookies].
  { by rewrite Em, lookup_insert_eq. }
  { rewrite Em, Egr. eapply refs_ok_same; eauto. apply Hwf. }
  { rewrite Em, Emr. eapply refs_ok_same; eauto. apply Hwf. }
  assert (forall b, b <> a -> m !! b = ents s1 !! b) as Hmb.
  { intros b Hb. rewrite Hm. cbn. case_match; [by rewrite lookup_delete_ne|by rewrite lookup_insert_ne]. }
  eexists. split; [reflexivity|]. split; [done|]. split; [exact Hmb|]. split.
  { intros Ho. apply moves_same; try done. intros x. cbn. rewrite Hm. unfold owns. cbn.
    assert (ents s1 !! a = Some e1) as H1 by by rewrite Em, lookup_insert_eq.
    case_match; [rewrite (msum_delete _ _ _ e1), Ho by done|rewrite (msum_insert _ _ _ e1) by done]; cbn; lia. }
  unshelve epose proof (wf_remove s t tbl l1 a l2 ks j n m G M (app_refs s1) (fl_idx_cookie s1) (tx s1)
    Hwf Ht Hl Hnd Hks Hinj Hj _ HA HG HM) as [W1 W2 W3 W4 W5]; [|by split].
  intros b Hb. by rewrite Hmb, Em, lookup_insert_ne.
Qed.
