(* ===== verification/FlowTblDel.v ===== *)
(** * The flow tables of a switch: deletion, removal of an application, reset *)
From stdpp Require Import base list gmap sorting.
From Stdlib Require Import ZArith Lia.
From S2P Require Import Prelude Bytes Flow Ha FlowTbl FlowTblSpec.
Import FlowTbl.
Import Flow.
#[local] Open Scope Z_scope.

(** ** Owners *)

(** The entry after an owner left, if there is another. *)
Lemma del_owner_ok A A' t app e :
  ent_ok A t e -> app ∈ app_owner_list e -> app_ref (del_owner app e) <> 0 -> same_apps A A' ->
  ent_ok A' t (del_owner app e).
Proof.
  intros [H1 H2 H3 H4 H5 H6 H7 H8] Ha Hr HA. pose proof (g_slist_remove_length _ _ Ha) as Hl.
  split; cbn; auto.
  - cbn in Hr. lia.
  - by apply g_slist_remove_nodup.
  - intros E. cbn in Hr. rewrite E in Hl. cbn in Hl. lia.
  - rewrite Forall_forall in H6. apply Forall_forall. intros x [Hx _]%g_slist_remove_elem; [|done].
    apply (HA x). auto.
Qed.

Lemma del_owner_keyeq app e : keyeq e (del_owner app e).
Proof. done. Qed.

(** The last owner leaves exactly when it is the only one. *)
Lemma del_owner_last A t app e :
  ent_ok A t e -> app ∈ app_owner_list e -> app_ref (del_owner app e) = 0 <-> app_owner_list e = [app].
Proof.
  intros He Ha. cbn. rewrite (eo_app_ref _ _ _ He). pose proof (g_slist_remove_length _ _ Ha) as Hl.
  split; [|by intros ->]. intros H0. destruct (app_owner_list e) as [|x [|y l]]; [set_solver| |cbn in *; lia].
  f_equal. set_solver.
Qed.

(** ** The search for an entry to delete *)

(** Locking and unlocking an entry leaves no trace. *)
Lemma relock a e s :
  ents s !! a = Some e -> FL_LOCK e = false ->
  c_wr_unlock a (store a (set_FL_LOCK true e) s) = Some s.
Proof.
  intros He Hl. rewrite (unlock_eq _ _ _ (lookup_store _ _ _)) by done. rewrite store_store.
  replace (set_FL_LOCK false (set_FL_LOCK true e)) with e by (destruct e; cbn in *; by subst).
  by rewrite store_id.
Qed.

(** The removal of an owner under the lock. *)
Lemma locked_del_owner a e app s :
  ents s !! a = Some e -> FL_LOCK e = false -> is_Some (app_refs s !! app) ->
  exists A, shifted (fun y => - cnt y [app]) (app_refs s) A /\
    (s ← __c_flow_del_app_owner a app (store a (set_FL_LOCK true e) s); c_wr_unlock a s) =
      Some (store a (del_owner app e) (set_app_refs A s)) /\
    __c_flow_del_app_owner a app (store a (set_FL_LOCK true e) s) =
      Some (store a (del_owner app (set_FL_LOCK true e)) (set_app_refs A (store a (set_FL_LOCK true e) s))).
Proof.
  intros He Hl Hx.
  destruct (del_app_owner_eq a (set_FL_LOCK true e) app (store a (set_FL_LOCK true e) s))
    as (A & HA & E); [apply lookup_store|done|]. exists A. split; [done|]. split; [|done].
  rewrite E. cbn [mbind option_bind]. rewrite (unlock_eq _ _ _ (lookup_store _ _ _)) by done.
  f_equal. rewrite store_store. unfold store, set_app_refs, set_ents. cbn. rewrite insert_insert_eq.
  by destruct e; cbn in *; subst.
Qed.

Definition del_match (e : c_fl_entry) (f m : flow) (prio app : Z) : bool :=
  bool_decide (fl e = f) && bool_decide (fl_mask e = m) && (FL_PRIO e =? prio) && __c_flow_find_app_owner e app.

Lemma del_strict_spec t f m prio app s l es :
  view (ents s) l es -> Forall (ent_ok (app_refs s) t) es ->
  (Forall (fun e => del_match e f m prio app = false) es /\
   __c_flow_rule_del_strict l f m prio app s = Some (None, l, s)) \/
  exists l1 a l2 e A, l = l1 ++ a :: l2 /\ ents s !! a = Some e /\ del_match e f m prio app = true /\
    shifted (fun y => - cnt y [app]) (app_refs s) A /\
    __c_flow_rule_del_strict l f m prio app s =
      Some (Some a, if app_ref (del_owner app e) =? 0 then l1 ++ l2 else l,
            store a (del_owner app e) (set_app_refs A s)).
Proof.
  intros Hv Hok. induction Hv as [|a e l es Ha Hv IH]; cbn [__c_flow_rule_del_strict].
  { left. by split. }
  apply Forall_cons in Hok as [He Hok]. pose proof (eo_lock _ _ _ He) as Hl.
  rewrite (lock_eq a e) by done. cbn [mbind option_bind]. rewrite lookup_store. cbn [mbind option_bind].
  change (fl (set_FL_LOCK true e)) with (fl e). change (fl_mask (set_FL_LOCK true e)) with (fl_mask e).
  change (FL_PRIO (set_FL_LOCK true e)) with (FL_PRIO e).
  change (__c_flow_find_app_owner (set_FL_LOCK true e) app) with (__c_flow_find_app_owner e app).
  fold (del_match e f m prio app). destruct (del_match e f m prio app) eqn:Hm.
  - right. assert (app ∈ app_owner_list e) as Hin.
    { unfold del_match, __c_flow_find_app_owner in Hm. breflect. by eapply bool_decide_eq_true_1. }
    destruct (locked_del_owner a e app s Ha Hl) as (A & HA & E & E1).
    { pose proof (eo_apps _ _ _ He) as Hap. rewrite Forall_forall in Hap. auto. }
    exists [], a, l, e, A. split_and!; [done|done|done|done|].
    rewrite E1 in E |- *. cbn [mbind option_bind] in E |- *. rewrite E. cbn [mbind option_bind].
    rewrite lookup_store. done.
  - rewrite relock by done. cbn [mbind option_bind].
    destruct (IH Hok) as [[Hn ->]|(l1 & b & l2 & x & A & -> & Hb & Hx & HA & ->)].
    + left. split; [by constructor|done].
    + right. exists (a :: l1), b, l2, x, A. split_and!; [done|done|done|done|]. cbn. by case_match.
Qed.

(** ** Deletion *)

Lemma aget_table s t tbl : rule_flow_tbls s !! t = Some tbl -> aget (rule_flow_tbls s) (Z.of_nat t) = Some tbl.
Proof. intros Ht. by rewrite aget_nat. Qed.

Lemma upd_tbl_eq t tbl f s :
  rule_flow_tbls s !! t = Some tbl ->
  upd_tbl (Z.of_nat t) f s = Some (set_rule_flow_tbls (<[t := f tbl]> (rule_flow_tbls s)) s).
Proof.
  intros Ht. unfold upd_tbl. rewrite (aget_table s t tbl Ht). cbn.
  rewrite aset_nat by (by eapply lookup_lt_Some). done.
Qed.

Lemma wf_set_tx x s : wf s -> wf (set_tx x s).
Proof. intros [H1 H2 H3 H4 H5]. by split. Qed.

(** The messages of a strict deletion. *)
Definition del_msgs (c : Ha.ctrl_hdl) (e : c_fl_entry) (s : c_switch) : list msg :=
  (if Ha.c_ha_master c && negb (sw_ha_state s =? SW_HA_NONE) && has (FL_FLAGS e) C_FL_ENT_STATIC
   then [HaFlowDel (fl e) (fl_mask e) (FL_PRIO e)] else []) ++
  (if Ha.c_switch_of_master_check c then [FlowDel (fl e) (fl_mask e) true (FL_PRIO e)] else []).

Lemma send_del_strict_eq c e s :
  ofp_ctors s = true -> of_send_flow_del_strict c e s = Some (set_tx (tx s ++ del_msgs c e s) s).
Proof.
  intros Hc. unfold of_send_flow_del_strict, of_send_flow_del_strict_sync, of_send_flow_del, del_msgs.
  rewrite Hc. destruct (Ha.c_ha_master c); cbn [negb andb orb];
    [destruct (sw_ha_state s =? SW_HA_NONE); cbn [negb andb orb];
     [|destruct (has (FL_FLAGS e) C_FL_ENT_STATIC); cbn [negb andb orb]]|];
    cbn [mbind option_bind]; rewrite ?Hc; cbn; rewrite ?Hc;
    destruct (Ha.c_switch_of_master_check c); cbn; unfold send, set_tx; cbn;
    rewrite ?app_nil_r, <- ?app_assoc; try done; by destruct s.
Qed.

(** Valid parameters name a table that exists. *)
Lemma validate_table s p :
  length (rule_flow_tbls s) = 255%nat -> 0 <= table_id (p_flow p) -> c_flow_mod_validate_parms s p = true ->
  exists t tbl, table_id (p_flow p) = Z.of_nat t /\ rule_flow_tbls s !! t = Some tbl.
Proof.
  intros Hl H0 Hv. unfold c_flow_mod_validate_parms in Hv. apply negb_true_iff in Hv. breflect.
  assert (table_id (p_flow p) < 255) as Ht.
  { unfold of_switch_table_supported, C_MAX_RULE_FLOW_TBLS, C_TBL_HW_IDX_DFL in *.
    match goal with H : (if ?c then _ else _) = true |- _ => destruct c eqn:E end; breflect; lia. }
  destruct (lookup_lt_is_Some_2 (rule_flow_tbls s) (Z.to_nat (table_id (p_flow p)))) as [tbl Htb]; [lia|].
  exists (Z.to_nat (table_id (p_flow p))), tbl. split; [lia|done].
Qed.

(** The entry that a deletion finds. *)
Definition del_target (s : c_switch) (p : of_flow_mod_params) (a : Z) (e : c_fl_entry) : Prop :=
  exists tbl, rule_flow_tbls s !! Z.to_nat (table_id (p_flow p)) = Some tbl /\ a ∈ rule_fl_tbl tbl /\
    ents s !! a = Some e /\ del_match e (p_flow p) (p_mask p) (p_prio p) (app_owner p) = true.

Lemma del_match_owner e f m prio app : del_match e f m prio app = true -> app ∈ app_owner_list e.
Proof. unfold del_match, __c_flow_find_app_owner. intros. breflect. by eapply bool_decide_eq_true_1. Qed.

(** The entries in the tables after one left. *)
Lemma in_tables_remove s s' t tbl l1 a l2 n :
  wf s -> rule_flow_tbls s !! t = Some tbl -> rule_fl_tbl tbl = l1 ++ a :: l2 ->
  rule_flow_tbls s' = <[t := mk_tbl n (l1 ++ l2)]> (rule_flow_tbls s) ->
  forall b, in_tables s' b <-> in_tables s b /\ b <> a.
Proof.
  intros Hwf Ht El Etb b. destruct (wf_idx s Hwf) as (ks & _ & Hnd' & Hks & _).
  assert (a ∈ ks) as Hka by (apply Hks; exists t, tbl; rewrite El; set_solver).
  apply list_elem_of_lookup in Hka as [j Hj].
  rewrite <- Hks, <- (elem_of_delete_nodup ks j a b Hnd' Hj). unfold in_tables. rewrite Etb.
  symmetry. by apply (idx_remove s t tbl l1 a l2 ks j).
Qed.

(** The last owner leaves: the entry goes. *)
Lemma rule_del_last s t tbl l1 a l2 e A c app :
  wf s -> ofp_ctors s = true -> rule_flow_tbls s !! t = Some tbl -> rule_fl_tbl tbl = l1 ++ a :: l2 ->
  ents s !! a = Some e -> shifted (fun y => - cnt y [app]) (app_refs s) A -> app_owner_list e = [app] ->
  let s1 := set_rule_flow_tbls (<[t := mk_tbl (sw_active_entries tbl) (l1 ++ l2)]> (rule_flow_tbls s))
              (store a (del_owner app e) (set_app_refs A s)) in
  exists s', (s2 ← (if has (FL_FLAGS e) C_FL_ENT_LOCAL then Some s1
                    else of_send_flow_del_strict c (del_owner app e) s1);
              s2 ← c_flow_rule_free a s2;
              s2 ← upd_tbl (Z.of_nat t) (fun t => mk_tbl (u32 (sw_active_entries t - 1)) (rule_fl_tbl t)) s2;
              Some (0, s2)) = Some (0, s') /\ wf s' /\
    rule_flow_tbls s' = <[t := mk_tbl (u32 (sw_active_entries tbl - 1)) (l1 ++ l2)]> (rule_flow_tbls s) /\
    (forall b, b <> a -> ents s' !! b = ents s !! b) /\
    tx s' = tx s ++ (if has (FL_FLAGS e) C_FL_ENT_LOCAL then [] else del_msgs c e s) /\ moves s s'.
Proof.
  intros Hwf Hc Ht Hl He HAs Ho s1. pose proof (shifted_same _ _ _ HAs) as HA.
  set (s2 := set_tx (tx s ++ (if has (FL_FLAGS e) C_FL_ENT_LOCAL then [] else del_msgs c e s)) s1).
  assert ((if has (FL_FLAGS e) C_FL_ENT_LOCAL then Some s1
           else of_send_flow_del_strict c (del_owner app e) s1) = Some s2) as ->.
  { subst s2. case_match; [|by rewrite send_del_strict_eq].
    rewrite app_nil_r. by subst s1. }
  cbn [mbind option_bind].
  destruct (rule_free_spec s s2 t tbl l1 a l2 e (del_owner app e) (u32 (sw_active_entries tbl - 1)))
    as (s3 & -> & [R1 R2 R3 R4 R5 R6] & Hb & Mv & Hwf3); auto; try done. cbn [mbind option_bind].
  pose proof (lookup_lt_Some _ _ _ Ht) as Hlt.
  rewrite (upd_tbl_eq t (mk_tbl (sw_active_entries tbl) (l1 ++ l2)))
    by (rewrite R1; by apply list_lookup_insert_eq).
  cbn [mbind option_bind]. eexists. split; [reflexivity|]. rewrite R1. cbn. rewrite list_insert_insert_eq.
  assert (moves s s2) as M1.
  { apply (moves_upd s s2 a e (del_owner app e)); try done; [|intros; apply cnt_remove_le]. eapply shifted_ext; [|exact HAs]. intros y.
    cbn [del_owner app_owner_list set_owners]. rewrite cnt_remove, bool_decide_true; [lia|rewrite Ho; set_solver]. }
  split_and!; [done|done| |by rewrite R6|].
  - intros b Hne. rewrite Hb by done. by apply lookup_insert_ne.
  - eapply moves_trans; [exact M1|]. eapply moves_trans; [apply Mv|by apply moves_same]. cbn. rewrite Ho. cbn. by rewrite Z.eqb_refl.
Qed.

(** No entry of the table matches. *)
Lemma no_target s p t tbl es :
  table_id (p_flow p) = Z.of_nat t -> rule_flow_tbls s !! t = Some tbl -> view (ents s) (rule_fl_tbl tbl) es ->
  Forall (fun e => del_match e (p_flow p) (p_mask p) (p_prio p) (app_owner p) = false) es ->
  forall a e, ~ del_target s p a e.
Proof.
  intros Et Ht Hview Hno a e (tbl' & Ht' & Ha & He & Hm). rewrite Et, Nat2Z.id in Ht'.
  assert (tbl' = tbl) as -> by congruence. destruct (view_elem _ _ _ _ Hview Ha) as (e' & He' & Hin).
  assert (e' = e) as -> by congruence. rewrite Forall_forall in Hno. rewrite (Hno e Hin) in Hm. done.
Qed.

(** Another owner remains: the entry stays without this one. *)
Lemma wf_owner_left s a e A app tx' :
  wf s -> in_tables s a -> ents s !! a = Some e -> app ∈ app_owner_list e ->
  app_ref (del_owner app e) <> 0 -> same_apps (app_refs s) A ->
  wf (set_tx tx' (store a (del_owner app e) (set_app_refs A s))).
Proof.
  intros Hwf Hin He Ho Hr HA. eapply (wf_upd s _ a e (del_owner app e)); auto; try done.
  - intros t Hok. by eapply del_owner_ok.
  - eapply refs_ok_same; [apply Hwf|done|done].
  - eapply refs_ok_same; [apply Hwf|done|done].
Qed.

Lemma set_same_tbl s t tbl : rule_flow_tbls s !! t = Some tbl -> forall s1,
  rule_flow_tbls s1 = rule_flow_tbls s ->
  set_rule_flow_tbls (<[t := mk_tbl (sw_active_entries tbl) (rule_fl_tbl tbl)]> (rule_flow_tbls s1)) s1 = s1.
Proof.
  intros Ht s1 E. rewrite E. rewrite list_insert_id; [|by destruct tbl]. rewrite <- E. by destruct s1.
Qed.

(** A deletion, with what it does to the references. *)
Lemma flow_del_run c p s :
  wf s -> ofp_ctors s = true -> 0 <= table_id (p_flow p) ->
  exists r s', c_switch_flow_del c p s = Some (r, s') /\ wf s' /\ moves s s' /\
    ((r = -1 /\ s' = s /\ (c_flow_mod_validate_parms s p = false \/ forall a e, ~ del_target s p a e)) \/
     (r = 0 /\ exists a e, del_target s p a e /\
        tx s' = tx s ++ (if has (FL_FLAGS e) C_FL_ENT_LOCAL then [] else del_msgs c e s) /\
        (forall b, b <> a -> ents s' !! b = ents s !! b) /\
        (app_owner_list e = [app_owner p] -> ~ in_tables s' a /\
           forall b, in_tables s' b <-> in_tables s b /\ b <> a) /\
        (app_owner_list e <> [app_owner p] -> ents s' !! a = Some (del_owner (app_owner p) e) /\
           rule_flow_tbls s' = rule_flow_tbls s))).
Proof.
  intros Hwf Hc H0. unfold c_switch_flow_del, c_flow_rule_del.
  destruct (c_flow_mod_validate_parms s p) eqn:Hv; cbn [negb].
  2:{ exists (-1), s. pose proof (moves_refl s). split_and!; auto 10. }
  destruct (validate_table s p (wf_len s Hwf) H0 Hv) as (t & tbl & Et & Ht). rewrite Et.
  rewrite (aget_table s t tbl Ht). cbn [mbind option_bind].
  destruct (wf_tbl s Hwf t tbl Ht) as (es & Hview & Hnd & Hok & Hsort).
  destruct (del_strict_spec (Z.of_nat t) (p_flow p) (p_mask p) (p_prio p) (app_owner p) s _ es Hview Hok)
    as [[Hno ->]|(l1 & a & l2 & e & A & El & He & Hm & HA & ->)]; cbn [mbind option_bind].
  { rewrite (upd_tbl_eq t tbl) by done. cbn [mbind option_bind]. rewrite (set_same_tbl s t tbl) by done.
    exists (-1), s. split_and!; [done|done|apply moves_refl|]. left. split_and!; [done|done|]. right.
    by eapply no_target. }
  pose proof (del_match_owner _ _ _ _ _ Hm) as Hown.
  assert (a ∈ rule_fl_tbl tbl) as Hat by (rewrite El; set_solver).
  assert (del_target s p a e) as Htgt by (exists tbl; rewrite Et, Nat2Z.id; done).
  destruct (wf_entry s t tbl a Hwf Ht Hat) as (e' & He' & Heok). assert (e' = e) as -> by congruence.
  pose proof (del_owner_last _ _ _ _ Heok Hown) as Hlast.
  rewrite (upd_tbl_eq t tbl) by done. cbn [mbind option_bind].
  set (s1 := set_rule_flow_tbls _ _).
  replace (ents s1 !! a) with (Some (del_owner (app_owner p) e)) by (symmetry; apply lookup_store).
  cbn [mbind option_bind]. change (FL_FLAGS (del_owner (app_owner p) e)) with (FL_FLAGS e).
  destruct (Z.eqb_spec (app_ref (del_owner (app_owner p) e)) 0) as [Hz|Hz].
  - destruct (rule_del_last s t tbl l1 a l2 e A c (app_owner p) Hwf Hc Ht El He HA (proj1 Hlast Hz))
      as (s' & E & Hwf' & Etb & Hb & Etx & Mv).
    change (set_rule_flow_tbls _ _) with s1 in E.
    exists 0, s'. split; [exact E|]. split; [done|]. split; [done|]. right. split; [done|]. exists a, e. split_and!; try done.
    + intros _. pose proof (in_tables_remove s s' t tbl l1 a l2 _ Hwf Ht El Etb) as Hin.
      split; [|done]. rewrite Hin. by intros [_ ?].
    + intros Hn. exfalso. apply Hn. by apply Hlast.
  - assert (s1 = store a (del_owner (app_owner p) e) (set_app_refs A s)) as ->.
    { subst s1. by apply (set_same_tbl s t tbl). }
    set (s2 := store a (del_owner (app_owner p) e) (set_app_refs A s)).
    set (x := if has (FL_FLAGS e) C_FL_ENT_LOCAL then [] else del_msgs c e s).
    exists 0, (set_tx (tx s ++ x) s2). split_and!.
    + subst x. case_match; [|by rewrite send_del_strict_eq].
      rewrite app_nil_r. by destruct s.
    + apply wf_owner_left; auto; [by exists t, tbl|by eapply shifted_same].
    + apply (moves_upd s _ a e (del_owner (app_owner p) e)); try done; [|intros; apply cnt_remove_le]. eapply shifted_ext; [|exact HA]. intros y.
      cbn [del_owner app_owner_list set_owners]. rewrite cnt_remove, bool_decide_true by done. lia.
    + right. split; [done|]. exists a, e. split_and!; try done.
      * intros b Hb. by apply lookup_insert_ne.
      * intros Hn. exfalso. apply Hz. by apply Hlast.
      * intros _. split; [apply lookup_store|done].
Qed.

(** C13: on a well-formed switch a strict deletion completes and keeps the invariant of the tables,
    the index and the reference counts.  It is refused, with nothing changed, when the
    parameters are invalid or the application owns no entry with this match and priority.
    Otherwise the application stops being an owner of such an entry: the last owner takes the entry
    out of its table and leaves every other entry alone, any other owner leaves the entry in
    place; the switch is told unless the entry is local. *)
Theorem flow_del_spec c p s :
  wf s -> ofp_ctors s = true -> 0 <= table_id (p_flow p) ->
  exists r s', c_switch_flow_del c p s = Some (r, s') /\ wf s' /\
    ((r = -1 /\ s' = s /\ (c_flow_mod_validate_parms s p = false \/ forall a e, ~ del_target s p a e)) \/
     (r = 0 /\ exists a e, del_target s p a e /\
        tx s' = tx s ++ (if has (FL_FLAGS e) C_FL_ENT_LOCAL then [] else del_msgs c e s) /\
        (forall b, b <> a -> ents s' !! b = ents s !! b) /\
        (app_owner_list e = [app_owner p] -> ~ in_tables s' a /\
           forall b, in_tables s' b <-> in_tables s b /\ b <> a) /\
        (app_owner_list e <> [app_owner p] -> ents s' !! a = Some (del_owner (app_owner p) e) /\
           rule_flow_tbls s' = rule_flow_tbls s))).
Proof.
  intros Hwf Hc H0. destruct (flow_del_run c p s Hwf Hc H0) as (r & s' & E & W & _ & Hp). by exists r, s'.
Qed.

(** ** The removal of an application *)

Definition purge (app : Z) (e : c_fl_entry) : c_fl_entry :=
  if __c_flow_find_app_owner e app then del_owner app e else e.

(** The entry at [a] has another owner. *)
Definition keeps (app : Z) (m : gmap Z c_fl_entry) (a : Z) : Prop :=
  exists e, m !! a = Some e /\ app_owner_list e <> [app].

#[export] Instance keeps_dec app m a : Decision (keeps app m a).
Proof.
  destruct (m !! a) as [e|] eqn:E; [|right; intros (e & ? & _); congruence].
  destruct (decide (app_owner_list e = [app])); [right; intros (e' & ? & ?); congruence|left; by exists e].
Defined.

Lemma filter_keeps_ext app m m' (l : list Z) :
  (forall b, b ∈ l -> m' !! b = m !! b) ->
  base.filter (keeps app m') l = base.filter (keeps app m) l.
Proof.
  intros Heq. apply filter_ext_elem. intros a Ha. unfold keeps. by rewrite Heq.
Qed.

(** The state of the loop over table [t] with the list [l] in it. *)
Definition with_list (t : nat) (n : Z) (tb : list c_flow_tbl) (l : list Z) (s : c_switch) : c_switch :=
  set_rule_flow_tbls (<[t := mk_tbl n l]> tb) s.

Lemma with_list_entry t n tb l a s :
  (t < length tb)%nat -> wf (with_list t n tb l s) -> a ∈ l ->
  exists e, ents s !! a = Some e /\ ent_ok (app_refs s) (Z.of_nat t) e.
Proof.
  intros Ht Hwf Ha. apply (wf_entry (with_list t n tb l s) t (mk_tbl n l)); [done| |done].
  by apply list_lookup_insert_eq.
Qed.

(** The branches of one pass: the entry is not owned, stays with other owners, or goes. *)
Lemma del_app_step c app t n tb pre a l s e :
  (t < length tb)%nat -> wf (with_list t n tb (pre ++ a :: l) s) -> ofp_ctors s = true ->
  ents s !! a = Some e -> app ∈ app_owner_list e -> app_owner_list e = [app] ->
  exists A sL s2, same_apps (app_refs s) A /\
    __c_flow_del_app_owner a app (store a (set_FL_LOCK true e) s) = Some sL /\
    ents sL !! a = Some (del_owner app (set_FL_LOCK true e)) /\
    (s1 ← (if has (FL_FLAGS e) C_FL_ENT_LOCAL then Some sL
           else of_send_flow_del c (del_owner app (set_FL_LOCK true e)) false sL);
     s1 ← c_wr_unlock a s1; c_flow_rule_free a s1) = Some s2 /\
    wf (with_list t n tb (pre ++ l) s2) /\ rule_flow_tbls s2 = rule_flow_tbls s /\ ofp_ctors s2 = true /\
    forall b, b <> a -> ents s2 !! b = ents s !! b.
Proof.
  intros Ht Hwf Hc He Hin Hlast.
  destruct (with_list_entry t n tb _ a s Ht Hwf) as (e' & He' & Hok); [set_solver|].
  assert (e' = e) as -> by congruence. pose proof (eo_lock _ _ _ Hok) as Hl.
  destruct (locked_del_owner a e app s He Hl) as (A & HAs & _ & E1).
  { pose proof (eo_apps _ _ _ Hok) as Hap. rewrite Forall_forall in Hap. auto. }
  pose proof (shifted_same _ _ _ HAs) as HA.
  set (sL := store a (del_owner app (set_FL_LOCK true e)) (set_app_refs A (store a (set_FL_LOCK true e) s))) in *.
  assert (exists x, (if has (FL_FLAGS e) C_FL_ENT_LOCAL then Some sL
           else of_send_flow_del c (del_owner app (set_FL_LOCK true e)) false sL) =
           Some (set_tx (tx s ++ x) sL)) as (x & Ex).
  { unfold of_send_flow_del. change (ofp_ctors sL) with (ofp_ctors s). rewrite Hc.
    case_match; [|case_match]; [exists []|exists []|eexists; reflexivity];
      rewrite app_nil_r; by subst sL. }
  exists A, sL. rewrite Ex. cbn [mbind option_bind].
  rewrite (unlock_eq a (del_owner app (set_FL_LOCK true e))) by (done || apply lookup_store).
  cbn [mbind option_bind]. set (s1 := store a _ (set_tx _ _)).
  destruct (rule_free_spec (with_list t n tb (pre ++ a :: l) s) s1 t (mk_tbl n (pre ++ a :: l)) pre a l e
    (del_owner app e) n) as (s2 & E2 & [R1 R2 R3 R4 R5 R6] & Hb & _ & Hwf2); auto; try done.
  { by apply list_lookup_insert_eq. }
  { subst s1 sL. cbn. rewrite !insert_insert_eq. by destruct e; cbn in *; subst. }
  exists s2. split_and!; [done|done|apply lookup_store|exact E2| |by rewrite R1|by rewrite R3|].
  - unfold with_list in *. cbn in Hwf2. by rewrite list_insert_insert_eq in Hwf2.
  - intros b Hne. rewrite Hb by done. subst s1 sL. cbn. by rewrite !lookup_insert_ne.
Qed.

Lemma wf_with_list_stay t n tb l a s e A app :
  (t < length tb)%nat -> wf (with_list t n tb l s) -> a ∈ l -> ents s !! a = Some e ->
  app ∈ app_owner_list e -> app_ref (del_owner app e) <> 0 -> same_apps (app_refs s) A ->
  wf (with_list t n tb l (store a (del_owner app e) (set_app_refs A s))).
Proof.
  intros Ht Hwf Ha He Ho Hr HA.
  apply (wf_owner_left (with_list t n tb l s) a e A app (tx s)); auto.
  exists t, (mk_tbl n l). split; [by apply list_lookup_insert_eq|done].
Qed.

Lemma purge_other app e : app ∉ app_owner_list e -> purge app e = e.
Proof. intros Hn. unfold purge, __c_flow_find_app_owner. by rewrite bool_decide_false. Qed.

(** What the loop has done to the rest [l] of table [t] after the entries [pre]. *)
Definition app_post (app : Z) (t : nat) (n : Z) (tb : list c_flow_tbl) (pre l : list Z) (s : c_switch)
    (r : option (list Z * c_switch)) : Prop :=
  exists s', r = Some (base.filter (keeps app (ents s)) l, s') /\
    wf (with_list t n tb (pre ++ base.filter (keeps app (ents s)) l) s') /\
    rule_flow_tbls s' = rule_flow_tbls s /\ ofp_ctors s' = true /\
    (forall b, b ∉ l -> ents s' !! b = ents s !! b) /\
    (forall b, b ∈ l -> keeps app (ents s) b -> ents s' !! b = purge app <$> ents s !! b).

(** The entry at the head goes. *)
Lemma app_post_gone app t n tb pre a l s s2 r :
  a ∉ l -> ~ keeps app (ents s) a -> (forall b, b <> a -> ents s2 !! b = ents s !! b) ->
  rule_flow_tbls s2 = rule_flow_tbls s -> app_post app t n tb pre l s2 r -> app_post app t n tb pre (a :: l) s r.
Proof.
  intros Hal Hk Hb Etb (s' & E' & W' & T' & C' & N' & K'). exists s'.
  rewrite filter_cons, decide_False by done.
  rewrite (filter_keeps_ext app (ents s) (ents s2) l) in E', W' by (intros b Hbl; apply Hb; by intros ->).
  split_and!; [done|done|congruence|done| |].
  - intros b Hbl. rewrite N' by set_solver. apply Hb. set_solver.
  - intros b Hbl Hkb. assert (b <> a) by (intros ->; done).
    rewrite K', Hb; [done|done|set_solver|]. destruct Hkb as (e1 & ? & ?). exists e1. by rewrite Hb.
Qed.

(** The entry at the head stays, without the application. *)
Lemma app_post_stay app t n tb pre a l s s2 e r :
  a ∉ l -> ents s !! a = Some e -> app_owner_list e <> [app] -> ents s2 = <[a := purge app e]> (ents s) ->
  rule_flow_tbls s2 = rule_flow_tbls s -> app_post app t n tb (pre ++ [a]) l s2 r ->
  app_post app t n tb pre (a :: l) s ('(l', s) ← r; Some (a :: l', s)).
Proof.
  intros Hal He Hne Em Etb (s' & -> & W' & T' & C' & N' & K'). exists s'.
  assert (forall b, b <> a -> ents s2 !! b = ents s !! b) as Hb by (intros; rewrite Em; by apply lookup_insert_ne).
  rewrite filter_cons, decide_True by (by exists e).
  rewrite (filter_keeps_ext app (ents s) (ents s2) l) in * by (intros b Hbl; apply Hb; by intros ->).
  rewrite <- app_assoc in W'. split_and!; [done|done|congruence|done| |].
  - intros b Hbl. rewrite N' by set_solver. apply Hb. set_solver.
  - intros b [->|Hbl]%elem_of_cons Hkb.
    + rewrite N', Em, lookup_insert_eq, He by done. done.
    + assert (b <> a) by (intros ->; done).
      rewrite K', Hb; [done|done|done|]. destruct Hkb as (e1 & ? & ?). exists e1. by rewrite Hb.
Qed.

Lemma with_list_nodup t n tb l s : (t < length tb)%nat -> wf (with_list t n tb l s) -> NoDup l.
Proof.
  intros Ht Hwf. by destruct (wf_tbl _ Hwf t (mk_tbl n l)) as (? & _ & ? & _); [apply list_lookup_insert_eq|].
Qed.

(** An entry with other owners under its lock. *)
Lemma del_app_shared a e app t s :
  ents s !! a = Some e -> ent_ok (app_refs s) t e -> app ∈ app_owner_list e ->
  exists A sL, same_apps (app_refs s) A /\
    __c_flow_del_app_owner a app (store a (set_FL_LOCK true e) s) = Some sL /\
    ents sL !! a = Some (del_owner app (set_FL_LOCK true e)) /\
    c_wr_unlock a sL = Some (store a (del_owner app e) (set_app_refs A s)).
Proof.
  intros He Hok Hin. destruct (locked_del_owner a e app s He (eo_lock _ _ _ Hok)) as (A & HA & E & E1).
  { pose proof (eo_apps _ _ _ Hok) as Hap. rewrite Forall_forall in Hap. auto. }
  rewrite E1 in E. eexists A, _. split_and!; [by eapply shifted_same|exact E1|apply lookup_store|exact E].
Qed.

Lemma del_app_rule_spec c app t n tb l : (t < length tb)%nat -> forall pre s,
  wf (with_list t n tb (pre ++ l) s) -> ofp_ctors s = true ->
  app_post app t n tb pre l s (__c_per_switch_del_app_flow_rule c l app s).
Proof.
  intros Ht. induction l as [|a l IH]; intros pre s Hwf Hc; cbn [__c_per_switch_del_app_flow_rule].
  { exists s. split_and!; try done. set_solver. }
  destruct (with_list_entry t n tb _ a s Ht Hwf) as (e & He & Hok); [set_solver|].
  pose proof (with_list_nodup t n tb _ s Ht Hwf) as (_ & _ & [Hal _]%NoDup_cons)%NoDup_app.
  rewrite (lock_eq a e) by (done || apply Hok). cbn [mbind option_bind]. rewrite lookup_store.
  cbn [mbind option_bind]. unfold __c_flow_find_app_owner. cbn [app_owner_list set_FL_LOCK].
  case_bool_decide as Hin; [destruct (decide (app_owner_list e = [app])) as [Hone|Hmore]|].
  - destruct (del_app_step c app t n tb pre a l s e Ht Hwf Hc He Hin Hone)
      as (A & sL & s2 & HA & -> & HeL & Es & Hwf2 & Etb & Hc2 & Hb). cbn [mbind option_bind].
    rewrite HeL. cbn [mbind option_bind].
    assert (app_ref (del_owner app (set_FL_LOCK true e)) = 0) as ->
      by (by apply (del_owner_last _ _ _ _ Hok Hin)).
    cbn [Z.eqb FL_FLAGS del_owner set_owners set_FL_LOCK].
    eapply (app_post_gone _ _ _ _ _ _ _ _ s2); [done| |done|done|].
    { intros (e1 & ? & ?). congruence. }
    replace (_ ≫= _) with (__c_per_switch_del_app_flow_rule c l app s2); [by apply IH|].
    destruct (if has (FL_FLAGS e) C_FL_ENT_LOCAL then _ else _) as [s1|]; [|done]. cbn in Es |- *.
    destruct (c_wr_unlock a s1) as [s1'|]; [|done]. cbn in Es |- *. by rewrite Es.
  - destruct (del_app_shared a e app _ s He Hok Hin) as (A & sL & HA & -> & HeL & E). cbn [mbind option_bind].
    rewrite HeL. cbn [mbind option_bind].
    assert (app_ref (del_owner app e) <> 0) as Hz by (intros H0; by apply Hmore, (del_owner_last _ _ _ _ Hok Hin)).
    change (app_ref (del_owner app (set_FL_LOCK true e))) with (app_ref (del_owner app e)).
    rewrite (proj2 (Z.eqb_neq _ _) Hz), E. cbn [mbind option_bind].
    eapply (app_post_stay _ _ _ _ _ _ _ _ (store a (del_owner app e) (set_app_refs A s)) e);
      [done|done|done| |done|apply IH].
    + unfold purge, __c_flow_find_app_owner. by rewrite bool_decide_true.
    + rewrite <- app_assoc. apply wf_with_list_stay; auto. set_solver.
    + done.
  - rewrite relock by (done || apply Hok). cbn [mbind option_bind].
    eapply (app_post_stay _ _ _ _ _ _ _ _ s e); [done|done| | |done|apply IH; [by rewrite <- app_assoc|done]].
    + intros E. rewrite E in Hin. set_solver.
    + rewrite purge_other by done. by rewrite insert_id.
Qed.

(** One table. *)
Lemma del_app_tbl_spec c app t tbl s :
  wf s -> ofp_ctors s = true -> rule_flow_tbls s !! t = Some tbl ->
  exists s', del_app_tbl c app (Z.of_nat t) s = Some s' /\ wf s' /\ ofp_ctors s' = true /\
    rule_flow_tbls s' = <[t := mk_tbl (sw_active_entries tbl)
                                 (base.filter (keeps app (ents s)) (rule_fl_tbl tbl))]> (rule_flow_tbls s) /\
    (forall b, b ∉ rule_fl_tbl tbl -> ents s' !! b = ents s !! b) /\
    (forall b, b ∈ rule_fl_tbl tbl -> keeps app (ents s) b -> ents s' !! b = purge app <$> ents s !! b).
Proof.
  intros Hwf Hc Ht. unfold del_app_tbl. rewrite (aget_table s t tbl Ht). cbn [mbind option_bind].
  pose proof (lookup_lt_Some _ _ _ Ht) as Hlt.
  destruct (del_app_rule_spec c app t (sw_active_entries tbl) (rule_flow_tbls s) (rule_fl_tbl tbl) Hlt [] s)
    as (s1 & -> & W & T & C & N & K); [|done|].
  { unfold with_list. cbn [Datatypes.app]. by rewrite (set_same_tbl s t tbl) by done. }
  cbn [mbind option_bind]. rewrite (upd_tbl_eq t tbl) by (by rewrite T). cbn [Datatypes.app] in W.
  eexists. split; [reflexivity|]. rewrite T. by split_and!.
Qed.

(** The tables below [i] after the loop has passed them. *)
Record app_inv (app : Z) (s : c_switch) (i : nat) (s' : c_switch) : Prop := {
  ai_wf : wf s';
  ai_ctors : ofp_ctors s' = true;
  ai_tbls : forall t tbl, rule_flow_tbls s !! t = Some tbl -> rule_flow_tbls s' !! t =
    Some (mk_tbl (sw_active_entries tbl)
            (if decide (t < i)%nat then base.filter (keeps app (ents s)) (rule_fl_tbl tbl) else rule_fl_tbl tbl));
  ai_ents : forall t tbl b, rule_flow_tbls s !! t = Some tbl -> b ∈ rule_fl_tbl tbl ->
    (t < i)%nat \/ ents s' !! b = ents s !! b;
  ai_kept : forall t tbl b, rule_flow_tbls s !! t = Some tbl -> b ∈ rule_fl_tbl tbl ->
    (t < i)%nat -> keeps app (ents s) b -> ents s' !! b = purge app <$> ents s !! b }.

Lemma app_inv_step c app s i s1 :
  wf s -> (i < 255)%nat -> app_inv app s i s1 ->
  exists s', del_app_tbl c app (Z.of_nat i) s1 = Some s' /\ app_inv app s (S i) s'.
Proof.
  intros Hwf Hi [I1 I2 I3 I4 I5].
  destruct (lookup_lt_is_Some_2 (rule_flow_tbls s) i) as [tbl Ht]; [by rewrite (wf_len s Hwf)|].
  pose proof (I3 i tbl Ht) as Ht1. rewrite decide_False in Ht1 by lia.
  destruct (del_app_tbl_spec c app i _ s1 I1 I2 Ht1) as (s' & E & W & C & T & N & K). cbn in T, N, K.
  assert (forall b, b ∈ rule_fl_tbl tbl -> ents s1 !! b = ents s !! b) as Heq.
  { intros b Hb. destruct (I4 i tbl b Ht Hb); [lia|done]. }
  rewrite (filter_keeps_ext app (ents s) (ents s1)) in T by done.
  assert (forall t' tbl' b, rule_flow_tbls s !! t' = Some tbl' -> b ∈ rule_fl_tbl tbl' -> t' <> i ->
            ents s' !! b = ents s1 !! b) as Hoth.
  { intros t' tbl' b Ht' Hb Hne. apply N. intros Hb'. apply Hne. by eapply (one_table s t' i). }
  exists s'. split; [done|]. split; auto.
  - intros t' tbl' Ht'. rewrite T. destruct (decide (t' = i)) as [->|Hne].
    + rewrite list_lookup_insert_eq by (by eapply lookup_lt_Some).
      assert (tbl' = tbl) as -> by congruence. by rewrite decide_True by lia.
    + rewrite list_lookup_insert_ne by done. rewrite (I3 t' tbl' Ht'). do 2 f_equal.
      repeat case_decide; (done || lia).
  - intros t' tbl' b Ht' Hb. destruct (decide (t' = i)) as [->|Hne]; [left; lia|].
    destruct (I4 t' tbl' b Ht' Hb); [left; lia|right]. rewrite (Hoth t' tbl' b Ht' Hb Hne). done.
  - intros t' tbl' b Ht' Hb Hlt Hk. destruct (decide (t' = i)) as [->|Hne].
    + assert (tbl' = tbl) as -> by congruence. destruct Hk as (e & He & Hk).
      rewrite K, Heq; [done|done|done|]. exists e. by rewrite Heq.
    + rewrite (Hoth t' tbl' b Ht' Hb Hne). apply (I5 t' tbl' b); auto. lia.
Qed.

Lemma purge_no_owner A t app e : ent_ok A t e -> app ∉ app_owner_list (purge app e).
Proof.
  intros Hok. unfold purge, __c_flow_find_app_owner. case_bool_decide as Hin; [|done]. cbn.
  rewrite g_slist_remove_elem by apply Hok. by intros [_ ?].
Qed.

(** The removal, with the constructors that stay. *)
Lemma app_removal_run c app s :
  wf s -> ofp_ctors s = true ->
  exists s', __c_per_switch_del_app_flow_owner c app s = Some s' /\ wf s' /\ ofp_ctors s' = true /\
    (forall t tbl, rule_flow_tbls s !! t = Some tbl -> rule_flow_tbls s' !! t =
       Some (mk_tbl (sw_active_entries tbl) (base.filter (keeps app (ents s)) (rule_fl_tbl tbl)))) /\
    forall b, in_tables s' b -> exists e, ents s !! b = Some e /\ ents s' !! b = Some (purge app e) /\
      app ∉ app_owner_list (purge app e).
Proof.
  intros Hwf Hc. unfold __c_per_switch_del_app_flow_owner. change C_MAX_RULE_FLOW_TBLS with (Z.of_nat 255).
  destruct (for_range_inv (app_inv app s) (del_app_tbl c app) 255 s) as (s' & E & [I1 I2 I3 I4 I5]).
  - split; auto; [|lia]. intros t tbl Ht. rewrite Ht, decide_False by lia. by destruct tbl.
  - intros i s1 Hi. by apply app_inv_step.
  - assert (forall t tbl, rule_flow_tbls s !! t = Some tbl -> (t < 255)%nat) as Hlt.
    { intros t tbl Ht. rewrite <- (wf_len s Hwf). by eapply lookup_lt_Some. }
    exists s'. split_and!; [done|done|done| |].
    + intros t tbl Ht. rewrite (I3 t tbl Ht), decide_True; [done|]. eauto.
    + intros b (t & tbl' & Ht' & Hb).
      destruct (lookup_lt_is_Some_2 (rule_flow_tbls s) t) as [tbl Ht].
      { rewrite (wf_len s Hwf), <- (wf_len s' I1). by eapply lookup_lt_Some. }
      rewrite (I3 t tbl Ht) in Ht'. rewrite decide_True in Ht' by eauto. simplify_eq. cbn in Hb.
      apply list_elem_of_filter in Hb as [Hk Hb].
      destruct (wf_entry s t tbl b Hwf Ht Hb) as (e & He & Hok). exists e.
      rewrite (I5 t tbl b Ht Hb), He; eauto. split_and!; [done|done|]. by eapply purge_no_owner.
Qed.

(** When an application goes, the removal of its flows completes on every well-formed
    switch and keeps the invariant: each table keeps, in order, exactly the entries that have
    another owner, the application owns none of them any more and nothing else of them changes,
    and groups and meters lose the references of the entries that went.  The counters
    [sw_active_entries] stay as they were. *)
Theorem app_removal_spec c app s :
  wf s -> ofp_ctors s = true ->
  exists s', __c_per_switch_del_app_flow_owner c app s = Some s' /\ wf s' /\
    (forall t tbl, rule_flow_tbls s !! t = Some tbl -> rule_flow_tbls s' !! t =
       Some (mk_tbl (sw_active_entries tbl) (base.filter (keeps app (ents s)) (rule_fl_tbl tbl)))) /\
    forall b, in_tables s' b -> exists e, ents s !! b = Some e /\ ents s' !! b = Some (purge app e) /\
      app ∉ app_owner_list (purge app e).
Proof.
  intros Hwf Hc. destruct (app_removal_run c app s Hwf Hc) as (s' & ? & ? & _ & ? & ?). by exists s'.
Qed.

(** ** Reset *)

Lemma free_all_spec t n tb l : (t < length tb)%nat -> forall s, wf (with_list t n tb l s) ->
  exists s', free_all l s = Some s' /\ wf (with_list t n tb [] s') /\ rule_flow_tbls s' = rule_flow_tbls s.
Proof.
  intros Ht. induction l as [|a l IH]; intros s Hwf; cbn [free_all]; [by exists s|].
  destruct (with_list_entry t n tb _ a s Ht Hwf) as (e & He & Hok); [set_solver|].
  destruct (rule_free_spec (with_list t n tb (a :: l) s) s t (mk_tbl n (a :: l)) [] a l e e n)
    as (s1 & -> & [R1 _ _ _ _ _] & _ & _ & W); auto; try done.
  { by apply list_lookup_insert_eq. }
  { cbn. by rewrite insert_id. }
  cbn [mbind option_bind]. cbn in W. rewrite list_insert_insert_eq in W.
  destruct (IH s1 W) as (s' & -> & W' & T'). exists s'. split_and!; [done|done|]. by rewrite T'.
Qed.

(** A reset completes on every well-formed switch: all tables and the index are empty, and the
    groups and meters keep only the references of entries that are still in use elsewhere
    (the reference counts stay exact).  The counters [sw_active_entries] stay as they were. *)
Theorem tbl_reset_spec s :
  wf s -> exists s', c_switch_flow_tbl_reset s = Some s' /\ wf s' /\ fl_cookies s' = [] /\
    rule_flow_tbls s' = map (fun t => mk_tbl (sw_active_entries t) []) (rule_flow_tbls s).
Proof.
  intros Hwf. unfold c_switch_flow_tbl_reset. change C_MAX_RULE_FLOW_TBLS with (Z.of_nat 255).
  set (z := fun t => mk_tbl (sw_active_entries t) []).
  destruct (for_range_inv (fun i s' => wf s' /\ rule_flow_tbls s' =
    map z (take i (rule_flow_tbls s)) ++ drop i (rule_flow_tbls s)) reset_tbl 255 s) as (s' & E & W & T).
  - by rewrite take_0, drop_0.
  - intros i s1 Hi [W T]. destruct (lookup_lt_is_Some_2 (rule_flow_tbls s) i) as [tbl Ht]; [by rewrite (wf_len s Hwf)|].
    assert (length (map z (take i (rule_flow_tbls s))) = i) as Hl.
    { rewrite length_map, length_take, (wf_len s Hwf). lia. }
    assert (rule_flow_tbls s1 !! i = Some tbl) as Ht1.
    { rewrite T, lookup_app_r, Hl, Nat.sub_diag, lookup_drop, Nat.add_0_r by lia. done. }
    unfold reset_tbl. rewrite (aget_table s1 i tbl Ht1). cbn [mbind option_bind].
    destruct (free_all_spec i (sw_active_entries tbl) (rule_flow_tbls s1) (rule_fl_tbl tbl)) with (s := s1)
      as (s2 & -> & W2 & T2); [by eapply lookup_lt_Some| |].
    { unfold with_list. by rewrite (set_same_tbl s1 i tbl). }
    cbn [mbind option_bind]. rewrite (upd_tbl_eq i tbl) by (by rewrite T2). rewrite T2.
    eexists. split; [reflexivity|]. split; [exact W2|]. cbn. rewrite T.
    rewrite (drop_S _ tbl i Ht), (take_S_r _ i tbl Ht), map_app. cbn.
    rewrite insert_app_r_alt, Hl, Nat.sub_diag by lia. cbn. by rewrite <- app_assoc.
  - rewrite firstn_all2, drop_ge, app_nil_r in T by (rewrite (wf_len s Hwf); lia).
    exists s'. split_and!; [done|done| |done].
    destruct (wf_idx s' W) as ([|k ks] & -> & _ & Hks & _); [done|]. exfalso.
    destruct (proj1 (Hks k) ltac:(set_solver)) as (t & tbl & Ht & Hb). rewrite T in Ht.
    apply list_lookup_fmap_Some in Ht as (tbl' & -> & _). cbn in Hb. set_solver.
Qed.
