(* ===== verification/FlowTblAdd.v ===== *)
(** * The flow tables of a switch: addition, modification, lookup *)
From stdpp Require Import base list gmap sorting.
From Stdlib Require Import ZArith Lia.
From S2P Require Import Prelude Bytes Flow Ha FlowTbl FlowTblSpec FlowTblDel.
Import FlowTbl.
Import Flow.
#[local] Open Scope Z_scope.

(** ** Installation in the switch *)

Definition add_msgs (c : Ha.ctrl_hdl) (e : c_fl_entry) (buffer_id : Z) (modify : bool) : list msg :=
  if Ha.c_switch_of_master_check c then
    FlowAdd (fl e) (fl_mask e) buffer_id (actions e) (FL_ITIMEO e) (FL_HTIMEO e) (FL_PRIO e) (FL_COOKIE e) modify
    :: (if has (FL_FLAGS e) C_FL_ENT_BARRIER then [Barrier] else [])
  else [].

Lemma send_add_eq c xid a buf modify s e :
  ents s !! a = Some e -> FL_LOCK e = false -> ofp_ctors s = true ->
  exists x, of_send_flow_add c xid a buf modify s =
    Some (set_tx (tx s ++ add_msgs c e buf modify) (store a (set_FL_XID x e) s)).
Proof.
  intros He Hl Hc. unfold of_send_flow_add, add_msgs. destruct (Ha.c_switch_of_master_check c); cbn [negb].
  - rewrite Hc, He. cbn [mbind option_bind negb]. rewrite (lock_eq a e) by done. cbn [mbind option_bind].
    rewrite (upd_eq a (set_FL_LOCK true e)) by apply lookup_store. cbn [mbind option_bind].
    rewrite (unlock_eq a (set_FL_XID xid (set_FL_LOCK true e))) by (done || apply lookup_store).
    cbn [mbind option_bind]. exists xid. f_equal.
    assert (forall s0, store a (set_FL_LOCK false (set_FL_XID xid (set_FL_LOCK true e)))
              (store a (set_FL_XID xid (set_FL_LOCK true e)) (store a (set_FL_LOCK true e) s0)) =
              store a (set_FL_XID xid e) s0) as ->.
    { intros s0. rewrite !store_store. by destruct e; cbn in *; subst. }
    case_match; unfold send, set_tx; cbn; by rewrite <- ?app_assoc.
  - exists (FL_XID e). rewrite app_nil_r. replace (set_FL_XID (FL_XID e) e) with e by (by destruct e).
    rewrite store_id by done. by destruct s.
Qed.

(** Giving up a reference that is not the last. *)
Lemma entry_put_held a e s :
  ents s !! a = Some e -> 1 <= FL_REF e ->
  c_flow_entry_put a s = Some (store a (set_FL_REF (FL_REF e - 1) e) s).
Proof.
  intros He Hr. unfold c_flow_entry_put. rewrite He. cbn [mbind option_bind].
  rewrite (proj2 (Z.eqb_neq _ _)) by lia. by apply upd_eq.
Qed.

(** The entry after its installation. *)
Definition installed_as (hw : bool) (x : Z) (e : c_fl_entry) : c_fl_entry :=
  if hw then set_FL_REF (FL_REF e - 1) (set_FL_XID x e) else e.

Lemma installed_same hw x e :
  keyeq e (installed_as hw x e) /\ app_owner_list (installed_as hw x e) = app_owner_list e /\
  actions (installed_as hw x e) = actions e.
Proof. by destruct hw. Qed.

Lemma installed_deps hw x e : groups (installed_as hw x e) = groups e /\ meters (installed_as hw x e) = meters e.
Proof. by destruct hw. Qed.

Lemma strict_key_keyeq e e' f m prio : keyeq e e' -> strict_key e' f m prio = strict_key e f m prio.
Proof. intros [K1 K2 K3 _]. unfold strict_key. by rewrite K1, K2, K3. Qed.

Lemma hw_install_spec c xid a p hw modify s e :
  wf s -> ents s !! a = Some e -> FL_LOCK e = false -> (hw = true -> 1 <= FL_REF e) -> ofp_ctors s = true ->
  exists s' x, hw_install c xid a p hw modify s = Some (0, s') /\ wf s' /\
    ents s' = <[a := installed_as hw x e]> (ents s) /\ rule_flow_tbls s' = rule_flow_tbls s /\
    tx s' = tx s ++ (if hw then add_msgs c e (p_buffer_id p) modify else []) /\ moves s s'.
Proof.
  intros Hwf He Hl Hr Hc. unfold hw_install. destruct hw.
  - destruct (send_add_eq c xid a (p_buffer_id p) modify s e He Hl Hc) as (x & ->). cbn [mbind option_bind].
    rewrite (entry_put_held a (set_FL_XID x e)) by (by apply lookup_store || cbn; auto). cbn [mbind option_bind].
    eexists _, x. split; [reflexivity|].
    split_and!; [|cbn; by rewrite insert_insert_eq|done|done|by eapply (moves_entry s _ a e (installed_as true x e)); cbn; rewrite ?insert_insert_eq].
    eapply (wf_upd s _ a e (installed_as true x e)); auto; try done.
    + intros t [? ? ? ? ? ? ? ?]. split; auto. cbn. specialize (Hr eq_refl). lia.
    + cbn. by rewrite insert_insert_eq.
    + cbn. rewrite insert_insert_eq. eapply refs_ok_same; [apply Hwf|done|done].
    + cbn. rewrite insert_insert_eq. eapply refs_ok_same; [apply Hwf|done|done].
  - exists s, 0. cbn. rewrite insert_id, app_nil_r by done. split_and!; try done. apply moves_refl.
Qed.

(** ** A new entry *)

(** The object outside the tables changes, and the counts move with it. *)
Lemma wf_set_outside s a e e' G M A ix tx' :
  wf s -> ~ in_tables s a -> ents s !! a = Some e -> same_apps (app_refs s) A ->
  refs_ok groups (<[a := e']> (ents s)) G -> refs_ok meters (<[a := e']> (ents s)) M ->
  wf (mk_switch (<[a := e']> (ents s)) (rule_flow_tbls s) (fl_cookies s) ix G M A (ofp_ctors s)
        (multi_table_support s) (sw_ha_state s) tx').
Proof.
  intros Hwf Hn He HA HG HM. apply (wf_outside s _ G M A ix tx' a); auto.
  - intros b Hb. by apply lookup_insert_ne.
  - intros l t Hok Hl. eapply tbl_ok_frame; [exact Hok|done|]. intros b Hb. apply lookup_insert_ne. by intros ->.
Qed.

(** An entry from outside joins table [t] and the index. *)
Lemma wf_join s a e t tbl es h n ix tx' :
  wf s -> ~ in_tables s a -> ents s !! a = Some e -> rule_flow_tbls s !! t = Some tbl ->
  ent_ok (app_refs s) (Z.of_nat t) e -> view (ents s) (rule_fl_tbl tbl) es ->
  Forall (fun x => strict_key x (fl e) (fl_mask e) (FL_PRIO e) = false) es -> hint_ok (FL_PRIO e) es 0 h ->
  (forall b eb, in_tables s b -> ents s !! b = Some eb -> FL_COOKIE eb <> FL_COOKIE e) ->
  wf (mk_switch (ents s) (<[t := mk_tbl n (insert_at h a (rule_fl_tbl tbl))]> (rule_flow_tbls s))
        (fl_cookies s ++ [(a, a)]) ix (grp_refs s) (meter_refs s) (app_refs s) (ofp_ctors s)
        (multi_table_support s) (sw_ha_state s) tx').
Proof.
  intros Hwf Hn He Ht Hok Hv Hk Hh Hc. pose proof (lookup_lt_Some _ _ _ Ht) as Hlt.
  assert (forall b, b ∈ insert_at h a (rule_fl_tbl tbl) <-> b = a \/ b ∈ rule_fl_tbl tbl) as Hins.
  { intros b. destruct h as [i|]; cbn; [|set_solver].
    rewrite <- (take_drop i (rule_fl_tbl tbl)) at 3. set_solver. }
  split; cbn; try apply Hwf.
  - rewrite length_insert. apply Hwf.
  - intros t' tbl' Ht'. destruct (decide (t' = t)) as [->|Hne].
    + rewrite list_lookup_insert_eq in Ht' by done. simplify_eq. cbn.
      eapply tbl_ok_insert; eauto; [by apply Hwf|by eapply wf_not_in].
    + rewrite list_lookup_insert_ne in Ht' by done. by apply Hwf.
  - destruct (wf_idx s Hwf) as (ks & Ek & Hnd & Hks & Hinj). exists (ks ++ [a]).
    assert (a ∉ ks) as Hnk by (by rewrite Hks). split_and!.
    + by rewrite map_app, Ek.
    + apply NoDup_app. split_and!; [done|set_solver|apply NoDup_singleton].
    + intros b. rewrite elem_of_app, list_elem_of_singleton, Hks. split.
      * intros [(t' & tbl' & Ht' & Hb)| ->].
        -- destruct (decide (t' = t)) as [->|Hne].
           ++ eexists t, _. split; [by apply list_lookup_insert_eq|]. cbn. apply Hins. right. congruence.
           ++ exists t', tbl'. split; [cbn; by rewrite list_lookup_insert_ne|done].
        -- eexists t, _. split; [by apply list_lookup_insert_eq|]. cbn. apply Hins. by left.
      * intros (t' & tbl' & Ht' & Hb). cbn in Ht'. destruct (decide (t' = t)) as [->|Hne].
        -- rewrite list_lookup_insert_eq in Ht' by done. simplify_eq. cbn in Hb.
           apply Hins in Hb as [->|Hb]; [by right|left]. by exists t, tbl.
        -- rewrite list_lookup_insert_ne in Ht' by done. left. by exists t', tbl'.
    + intros x y ex ey Hx Hy Hex Hey Hcc. cbn in Hex, Hey.
      apply elem_of_app in Hx as [Hx|Hx]; apply elem_of_app in Hy as [Hy|Hy].
      * by apply (Hinj x y ex ey).
      * apply list_elem_of_singleton in Hy as ->. exfalso. apply (Hc x ex); [by apply Hks|done|congruence].
      * apply list_elem_of_singleton in Hx as ->. exfalso. apply (Hc y ey); [by apply Hks|done|congruence].
      * set_solver.
Qed.

(** The cookie of a new entry. *)
Definition base_cookie (s : c_switch) (p : of_flow_mod_params) : Z :=
  Z.lor (if p_seq_cookie p =? 0 then u32 (fl_idx_cookie s + 1) else p_seq_cookie p) (u64 (Z.shiftl (p_cookie p) 32)).
Definition new_cookie (s : c_switch) (p : of_flow_mod_params) : Z :=
  if has (p_flags p) C_FL_ENT_RES_STALE then Z.lor (base_cookie s p) C_FL_RES_STALE_FLAG else base_cookie s p.

(** No entry of the tables has it. *)
Definition fresh_cookie (s : c_switch) (p : of_flow_mod_params) : Prop :=
  forall b e, in_tables s b -> ents s !! b = Some e -> FL_COOKIE e <> new_cookie s p.

Definition added (now : Z) (hw : bool) (p : of_flow_mod_params) (s : c_switch) : c_fl_entry :=
  set_new_flags now (set_FL_COOKIE (base_cookie s p) (add_owner (app_owner p)
    (set_meters (meter_dep p) (set_groups (grp_dep p) (new_entry now hw p))))).

Lemma set_cookie_eq a e p s :
  ents s !! a = Some e -> exists ix,
  set_cookie a p s = Some (store a (set_FL_COOKIE (base_cookie s p) e) (set_fl_idx_cookie ix s)).
Proof.
  intros He. unfold set_cookie, base_cookie. destruct (p_seq_cookie p =? 0).
  - exists (u32 (fl_idx_cookie s + 1)). by rewrite (upd_eq a e).
  - exists (fl_idx_cookie s). rewrite (upd_eq a e) by done. by destruct s.
Qed.

(** What [set_new_flags] leaves alone. *)
Lemma set_new_flags_same now e :
  keyeq (set_FL_COOKIE (FL_COOKIE (set_new_flags now e)) e) (set_new_flags now e) /\
  groups (set_new_flags now e) = groups e /\ meters (set_new_flags now e) = meters e /\
  FL_REF (set_new_flags now e) = FL_REF e /\ FL_LOCK (set_new_flags now e) = FL_LOCK e /\
  app_ref (set_new_flags now e) = app_ref e /\ app_owner_list (set_new_flags now e) = app_owner_list e /\
  actions (set_new_flags now e) = actions e.
Proof. unfold set_new_flags. repeat case_match; by split_and!. Qed.

Lemma added_cookie now hw p s : FL_COOKIE (added now hw p s) = new_cookie s p.
Proof.
  unfold added, new_cookie, set_new_flags. cbn - [has].
  destruct (has (p_flags p) C_FL_ENT_RES_STALE); repeat case_match; done.
Qed.

Lemma added_same now hw p s :
  let e := added now hw p s in
  groups e = grp_dep p /\ meters e = meter_dep p /\
  (app_owner_list e = [app_owner p] /\ actions e = p_actions p /\
   strict_key e (p_flow p) (p_mask p) (p_prio p) = true) /\ FL_REF e = if hw then 1 else 0.
Proof.
  unfold added. set (e := set_FL_COOKIE _ _). cbn zeta.
  destruct (set_new_flags_same now e) as ([F1 F2 F3 _] & G1 & G2 & G3 & _ & _ & G4 & G5).
  unfold strict_key, flow_eq_nopad. rewrite G1, G2, G3, G4, G5, F1, F2, F3. cbn.
  by rewrite !bool_decide_true, Z.eqb_refl.
Qed.

Lemma added_key now hw p s :
  let e := added now hw p s in fl e = p_flow p /\ fl_mask e = p_mask p /\ FL_PRIO e = p_prio p.
Proof.
  unfold added. set (e := set_FL_COOKIE _ _). cbn zeta.
  by destruct (set_new_flags_same now e) as ([-> -> -> _] & _).
Qed.

Lemma added_ok A t now hw p s :
  is_Some (A !! app_owner p) -> table_id (p_flow p) = t ->
  __of_match_flows (p_flow p) (p_mask p) (p_flow p) = true -> ent_ok A t (added now hw p s).
Proof.
  intros HA Ht Hm. unfold added. set (e := set_FL_COOKIE _ _).
  destruct (set_new_flags_same now e) as ([F1 F2 _ _] & _ & _ & F3 & F4 & F5 & F6 & _).
  split; rewrite ?F3, ?F4, ?F5, ?F6, ?F1, ?F2; cbn; auto.
  - case_match; lia.
  - apply NoDup_singleton.
Qed.

Lemma installed_added hw x now p s :
  let e := installed_as hw x (added now hw p s) in
  strict_key e (p_flow p) (p_mask p) (p_prio p) = true /\ app_owner_list e = [app_owner p] /\
  actions e = p_actions p.
Proof.
  destruct (added_same now hw p s) as (_ & _ & (A1 & A2 & A3) & _).
  destruct (installed_same hw x (added now hw p s)) as (I1 & I2 & I3). cbn zeta.
  rewrite I2, I3, (strict_key_keyeq _ _ _ _ _ I1). done.
Qed.

Lemma cookies_insert_fresh a e s ks :
  ents s !! a = Some e -> fl_cookies s = map (fun a => (a, a)) ks ->
  (forall k, k ∈ ks -> exists x, ents s !! k = Some x /\ FL_COOKIE x <> FL_COOKIE e) ->
  cookies_insert a s = Some (set_fl_cookies (fl_cookies s ++ [(a, a)]) s).
Proof.
  intros He Ek Hks. unfold cookies_insert. rewrite He. cbn [mbind option_bind].
  rewrite cookie_pos_none; [done|]. rewrite Ek. apply Forall_forall. intros [k v] Hin.
  apply list_elem_of_fmap in Hin as (k' & [= -> ->] & Hk). cbn. auto.
Qed.

(** The references of a new object: all of them, or an error that leaves the switch as it was. *)
Lemma new_refs a n gl ml s (K : c_switch -> option (Z * c_switch)) :
  ents s !! a = Some n -> groups n = [] -> meters n = [] ->
  let r := ('(r, s) ← __c_flow_rule_associate_grps a gl s;
            if negb (r =? 0) then Some (- EINVAL, free a s)
            else '(r, s) ← __c_flow_rule_associate_meters a ml s;
                 if negb (r =? 0) then s ← __c_flow_rule_disassociate_grps a s; Some (- EINVAL, free a s)
                 else K s) in
  r = Some (- EINVAL, free a s) /\ (missing gl (grp_refs s) \/ missing ml (meter_refs s)) \/
  exists G M, shifted (fun g => cnt g gl) (grp_refs s) G /\ Forall (fun g => is_Some (grp_refs s !! g)) gl /\
    shifted (fun g => cnt g ml) (meter_refs s) M /\ Forall (fun g => is_Some (meter_refs s !! g)) ml /\
    r = K (store a (set_meters ml (set_groups gl n)) (set_meter_refs M (set_grp_refs G s))).
Proof.
  intros Hn Hg Hm. cbn zeta.
  destruct (associate_grps_spec a n gl s Hn Hg) as [(G & HG & AG & ->)|[-> Hms]]; cbn [mbind option_bind]; [|by left; auto].
  cbn [Z.eqb negb]. set (s1 := store a (set_groups gl n) (set_grp_refs G s)).
  destruct (associate_meters_spec a (set_groups gl n) ml s1 (lookup_store _ _ _) Hm)
    as [(M & HM & AM & ->)|[-> Hms]]; cbn [mbind option_bind Z.eqb negb].
  - right. exists G, M. split_and!; auto. f_equal. subst s1. unfold store, set_ents, set_meter_refs, set_grp_refs. cbn.
    by rewrite insert_insert_eq.
  - left. split; [|by right]. cbn. destruct (disassociate_grps_eq a (set_groups gl n) s1 (lookup_store _ _ _)) as (G' & HG' & ->).
    { cbn. eapply Forall_impl; [exact AG|]. cbn. intros g. by rewrite (shifted_dom _ _ _ _ HG). }
    cbn [mbind option_bind]. assert (G' = grp_refs s) as ->.
    { apply shifted_eq. eapply shifted_ext; [|by eapply shifted_trans]. intros g. cbn. lia. }
    subst s1. unfold free, store, set_ents, set_grp_refs. cbn. by rewrite !delete_insert_eq.
Qed.

(** The steps after the references are taken, up to the installation. *)
Lemma add_tail a app n p now t tbl h s (K : c_switch -> option (Z * c_switch)) ks :
  ents s !! a = Some n -> FL_LOCK n = false -> app_owner_list n = [] -> is_Some (app_refs s !! app) ->
  table_id (p_flow p) = Z.of_nat t -> rule_flow_tbls s !! t = Some tbl ->
  fl_cookies s = map (fun a => (a, a)) ks -> a ∉ ks ->
  let e := set_new_flags now (set_FL_COOKIE (base_cookie s p) (add_owner app n)) in
  (forall k, k ∈ ks -> exists x, ents s !! k = Some x /\ FL_COOKIE x <> FL_COOKIE e) ->
  exists A ix, shifted (fun y => cnt y [app]) (app_refs s) A /\
    ('(_, s) ← c_flow_add_app_owner a app s;
     s ← upd_tbl (table_id (p_flow p)) (fun t =>
           mk_tbl (u32 (sw_active_entries t + 1)) (insert_at h a (rule_fl_tbl t))) s;
     s ← set_cookie a p s;
     s ← upd a (set_new_flags now) s;
     s ← cookies_insert a s; K s) =
    K (mk_switch (<[a := e]> (ents s))
         (<[t := mk_tbl (u32 (sw_active_entries tbl + 1)) (insert_at h a (rule_fl_tbl tbl))]> (rule_flow_tbls s))
         (fl_cookies s ++ [(a, a)]) ix (grp_refs s) (meter_refs s) A (ofp_ctors s)
         (multi_table_support s) (sw_ha_state s) (tx s)).
Proof.
  intros Hn Hl Ho Hx Et Ht Ek Hka e Hks.
  destruct (add_app_owner_eq a n app s Hn Hl) as (A & HA & ->); [rewrite Ho; set_solver|done|].
  cbn [mbind option_bind]. rewrite Et, (upd_tbl_eq t tbl) by done. cbn [mbind option_bind].
  set (s2 := set_rule_flow_tbls _ _).
  destruct (set_cookie_eq a (add_owner app n) p s2) as (ix & ->); [apply lookup_store|]. cbn [mbind option_bind].
  change (base_cookie s2 p) with (base_cookie s p).
  rewrite (upd_eq a (set_FL_COOKIE (base_cookie s p) (add_owner app n))) by apply lookup_store.
  cbn [mbind option_bind]. fold e. set (s3 := store a e _).
  exists A, ix. split; [done|]. rewrite (cookies_insert_fresh a e s3 ks); [|apply lookup_store|exact Ek|].
  - cbn [mbind option_bind]. f_equal. subst s3 s2. unfold set_fl_cookies, store, set_ents, set_fl_idx_cookie. cbn.
    by rewrite !insert_insert_eq.
  - intros k Hk. destruct (Hks k Hk) as (x & Hxk & Hc). exists x. split; [|done].
    subst s3 s2. cbn. rewrite !lookup_insert_ne; [done|..]; by intros ->.
Qed.

(** The switch with the new entry in its table. *)
Lemma wf_new_entry s a n e t tbl es h k ix A :
  wf s -> ~ in_tables s a -> ents s !! a = Some n -> same_apps (app_refs s) A ->
  groups e = groups n -> meters e = meters n -> rule_flow_tbls s !! t = Some tbl -> ent_ok A (Z.of_nat t) e ->
  view (ents s) (rule_fl_tbl tbl) es ->
  Forall (fun x => strict_key x (fl e) (fl_mask e) (FL_PRIO e) = false) es -> hint_ok (FL_PRIO e) es 0 h ->
  (forall b eb, in_tables s b -> ents s !! b = Some eb -> FL_COOKIE eb <> FL_COOKIE e) ->
  wf (mk_switch (<[a := e]> (ents s)) (<[t := mk_tbl k (insert_at h a (rule_fl_tbl tbl))]> (rule_flow_tbls s))
        (fl_cookies s ++ [(a, a)]) ix (grp_refs s) (meter_refs s) A (ofp_ctors s)
        (multi_table_support s) (sw_ha_state s) (tx s)).
Proof.
  intros Hwf Hn Ha HA Eg Em Ht Hok Hv Hk Hh Hc.
  pose proof (wf_set_outside s a n e (grp_refs s) (meter_refs s) A ix (tx s) Hwf Hn Ha HA
    ltac:(eapply refs_ok_same; [apply Hwf|done|done]) ltac:(eapply refs_ok_same; [apply Hwf|done|done])) as W.
  refine (wf_join _ a e t tbl es h k ix (tx s) W _ _ _ _ _ _ _ _); auto.
  - apply lookup_insert_eq.
  - eapply view_frame; [exact Hv|]. intros b Hb. cbn. apply lookup_insert_ne. intros <-.
    apply Hn. by exists t, tbl.
  - intros b eb Hb. cbn. destruct (decide (b = a)) as [->|Hne]; [done|].
    rewrite lookup_insert_ne by done. by apply Hc.
Qed.

Lemma rule_add_new_spec c now xid a h p hw s t tbl es :
  wf s -> ~ in_tables s a -> ents s !! a = Some (new_entry now hw p) ->
  table_id (p_flow p) = Z.of_nat t -> rule_flow_tbls s !! t = Some tbl -> view (ents s) (rule_fl_tbl tbl) es ->
  Forall (fun x => strict_key x (p_flow p) (p_mask p) (p_prio p) = false) es -> hint_ok (p_prio p) es 0 h ->
  is_Some (app_refs s !! app_owner p) -> __of_match_flows (p_flow p) (p_mask p) (p_flow p) = true ->
  fresh_cookie s p -> ofp_ctors s = true ->
  rule_add_new c now xid a h p hw s = Some (- EINVAL, free a s) /\
    (missing (grp_dep p) (grp_refs s) \/ missing (meter_dep p) (meter_refs s)) \/
  exists s' x, rule_add_new c now xid a h p hw s = Some (0, s') /\ wf s' /\
    ents s' = <[a := installed_as hw x (added now hw p s)]> (ents s) /\
    rule_flow_tbls s' = <[t := mk_tbl (u32 (sw_active_entries tbl + 1)) (insert_at h a (rule_fl_tbl tbl))]>
                          (rule_flow_tbls s) /\
    tx s' = tx s ++ (if hw then add_msgs c (added now hw p s) (p_buffer_id p) false else []) /\ moves s s'.
Proof.
  intros Hwf Hn Ha Et Ht Hv Hk Hh Hx Hm Hf Hc. unfold rule_add_new.
  destruct (wf_idx s Hwf) as (ks & Ek & _ & Hks & _).
  edestruct (new_refs a (new_entry now hw p) (grp_dep p) (meter_dep p) s) as [E|(G & M & HG & AG & HM & AM & E)];
    [exact Ha|done|done|left; exact E|right; rewrite E; clear E].
  set (n := set_meters _ _). set (s1 := store a n _).
  assert (wf s1) as Hwf1.
  { apply (wf_set_outside s a (new_entry now hw p) n G M (app_refs s) (fl_idx_cookie s) (tx s)); auto; [done|..].
    - eapply (refs_ok_upd groups _ (grp_refs s)); [apply Hwf|done| |done]. eapply shifted_ext; [|exact HG].
      intros g. cbn. lia.
    - eapply (refs_ok_upd meters _ (meter_refs s)); [apply Hwf|done| |done]. eapply shifted_ext; [|exact HM].
      intros g. cbn. lia. }
  set (e := added now hw p s).
  destruct (add_tail a (app_owner p) n p now t tbl h s1
    (fun s => hw_install c xid a p hw false s) ks) as (A & ix & HAs & ->); auto.
  { apply lookup_store. }
  { by rewrite Hks. }
  { intros k Hkk. destruct (wf_in_tables s k Hwf) as (x & ? & Hxk & _); [by apply Hks|]. exists x. split.
    - apply Hks in Hkk. subst s1. rewrite lookup_store_ne; [done|]. by intros <-.
    - change (FL_COOKIE x <> FL_COOKIE e). subst e. rewrite added_cookie. apply (Hf k); [by apply Hks|done]. }
  change (set_new_flags now _) with e. cbn zeta beta. pose proof (shifted_same _ _ _ HAs) as HA. set (s2 := mk_switch _ _ _ _ _ _ _ _ _ _ _).
  assert (wf s2) as Hwf2.
  { apply (wf_new_entry s1 a n e t tbl es); auto.
    - apply lookup_store.
    - apply (added_same now hw p s).
    - apply (added_same now hw p s).
    - apply added_ok; auto. by apply HA.
    - eapply view_frame; [exact Hv|]. intros b Hb. subst s1. rewrite lookup_store_ne; [done|]. intros <-.
      apply Hn. by exists t, tbl.
    - destruct (added_key now hw p s) as (E1 & E2 & E3). subst e. by rewrite E1, E2, E3.
    - destruct (added_key now hw p s) as (E1 & E2 & E3). subst e. by rewrite E3.
    - intros b eb Hb. subst s1. rewrite lookup_store_ne by (intros <-; done). subst e. rewrite added_cookie.
      by apply Hf. }
  destruct (hw_install_spec c xid a p hw false s2 e Hwf2) as (s' & x & -> & W & Em & Tb & Tx & Mv); auto.
  { apply lookup_insert_eq. }
  { apply (eo_lock A (Z.of_nat t)), added_ok; auto. by apply HA. }
  { intros ->. subst e. by rewrite (proj2 (proj2 (proj2 (added_same now true p s)))). }
  exists s', x. split_and!; [done|done| |done|done|]; [rewrite Em; subst s2 s1; cbn; by rewrite !insert_insert_eq|].
  eapply moves_trans; [|exact Mv]. eapply (moves_upd s s2 a _ e Ha); try done.
  - apply insert_insert_eq.
  - subst e. rewrite (proj1 (proj1 (proj2 (proj2 (added_same now hw p s))))). eapply shifted_ext; [|exact HAs]. intros y. cbn [app_owner_list new_entry cnt]. lia.
  - intros y Hy. subst e. rewrite (proj1 (proj1 (proj2 (proj2 (added_same now hw p s))))). cbn [cnt].
    rewrite bool_decide_false by (intros Heq; subst; rewrite Hy in Hx; by destruct Hx). done.
  - by eapply shifted_same.
  - by eapply shifted_same.
Qed.

(** ** Modification *)

(** The entry [x] under modification, [e] before: locked, without references, and taken over if
    it was read back from the switch. *)
Record in_mod (app : Z) (e x : c_fl_entry) : Prop := {
  im_key : keyeq e x; im_ref : FL_REF x = FL_REF e; im_lock : FL_LOCK x = true; im_flags : FL_FLAGS x = FL_FLAGS e;
  im_groups : groups x = []; im_meters : meters x = []; im_actions : actions x = actions e;
  im_owners : app_owner_list x = (if has (FL_FLAGS e) C_FL_ENT_RESIDUAL then [app] else app_owner_list e);
  im_app_ref : app_ref x = if has (FL_FLAGS e) C_FL_ENT_RESIDUAL then 1 else app_ref e }.

Lemma in_mod_dead (A : gmap Z Z) app e x : in_mod app e x -> is_Some (A !! app) ->
  forall y, A !! y = None -> cnt y (app_owner_list x) <= cnt y (app_owner_list e).
Proof.
  intros Him [r Hr] y Hy. rewrite (im_owners _ _ _ Him). case_match; [|done]. cbn.
  rewrite bool_decide_false by congruence. apply cnt_nonneg.
Qed.

(** The counters [A] have followed the change of the owners. *)
Definition owners_moved (s : c_switch) (e x : c_fl_entry) (A : gmap Z Z) : Prop :=
  shifted (fun y => cnt y (app_owner_list x) - cnt y (app_owner_list e)) (app_refs s) A.

Definition opened (e : c_fl_entry) : c_fl_entry := set_groups [] (set_meters [] (set_FL_LOCK true e)).

Lemma takeover_spec b p e t s :
  ents s !! b = Some e -> ent_ok (app_refs s) t e -> has (FL_FLAGS e) C_FL_ENT_RESIDUAL = true ->
  is_Some (app_refs s !! app_owner p) ->
  exists hw x A, residual_takeover b p (store b (opened e) s) = Some (hw, store b x (set_app_refs A s)) /\
    in_mod (app_owner p) e x /\ owners_moved s e x A.
Proof.
  intros He Hok Hr Hx. unfold residual_takeover, __c_flow_find_del_all_app_owner. rewrite lookup_store.
  cbn [mbind option_bind].
  destruct (unref_all_spec (app_owner_list e) (store b (opened e) s)) as (A1 & E1 & HA1); [apply Hok|].
  change (app_owner_list (opened e)) with (app_owner_list e). rewrite E1. cbn [mbind option_bind].
  rewrite (upd_eq b (opened e)) by apply lookup_store. cbn [mbind option_bind].
  set (x1 := set_owners _ [] (opened e)).
  destruct (__add_app_owner_eq b x1 (app_owner p) (store b x1 (set_app_refs A1 (store b (opened e) s))))
    as (A & HA & ->); [apply lookup_store|cbn; set_solver|by apply (shifted_same _ _ _ HA1)|]. cbn [mbind option_bind].
  rewrite lookup_store. cbn [mbind option_bind].
  assert (forall y, store b y (set_app_refs A (store b x1 (set_app_refs A1 (store b (opened e) s)))) =
                    store b y (set_app_refs A s)) as Hst.
  { intros y. unfold store, set_ents, set_app_refs. cbn. by rewrite !insert_insert_eq. }
  assert (owners_moved s e (add_owner (app_owner p) x1) A) as HAA.
  { eapply shifted_ext; [|exact (shifted_trans _ _ _ _ _ HA1 HA)]. intros y. cbn [add_owner app_owner_list set_owners x1 app cnt]. lia. }
  assert (app_ref x1 = 0) as Hz by (cbn; rewrite (eo_app_ref _ _ _ Hok); lia).
  assert (forall i, in_mod (app_owner p) e (set_FL_INSTALLED i (add_owner (app_owner p) x1))) as Him.
  { intros i. split; rewrite ?Hr; try done. change (app_ref x1 + 1 = 1). lia. }
  case_bool_decide.
  - eexists false, _, A. split; [by rewrite Hst|]. split; [|done].
    specialize (Him (FL_INSTALLED e)). by destruct e.
  - rewrite (upd_eq b (add_owner (app_owner p) x1)) by apply lookup_store. cbn [mbind option_bind].
    rewrite store_store, Hst. eexists true, _, A. split; [reflexivity|]. done.
Qed.

(** The entry at the end of a modification that keeps the references [gl] and [ml]. *)
Lemma closed_ok A A' t app e x f :
  ent_ok A t e -> in_mod app e x -> same_apps A A' -> is_Some (A !! app) ->
  keyeq x f -> FL_REF f = FL_REF x -> FL_LOCK f = false -> app_owner_list f = app_owner_list x ->
  app_ref f = app_ref x -> ent_ok A' t f.
Proof.
  intros [H1 H2 H3 H4 H5 H6 H7 H8] [[K1 K2 K3 K4] K5 K6 K7 K8 K9 _ K10 K11] HA Hx [F1 F2 F3 F4] Er El Eo Ea.
  split.
  - done.
  - by rewrite Er, K5.
  - rewrite Ea, Eo, K11, K10. case_match; done.
  - rewrite Eo, K10. case_match; [apply NoDup_singleton|done].
  - rewrite Eo, K10. case_match; done.
  - rewrite Eo, K10. assert (forall l, Forall (fun y => is_Some (A !! y)) l -> Forall (fun y => is_Some (A' !! y)) l) as Hf.
    { intros l Hl. eapply Forall_impl; [exact Hl|]. cbn. intros y. by rewrite (HA y). }
    case_match; apply Hf; [by constructor|done].
  - by rewrite F1, K1.
  - by rewrite F1, F2, K1, K2.
Qed.

(** The result of [c_flow_rule_mod] on the entry [b]. *)
Record mod_post (p : of_flow_mod_params) (s : c_switch) (b : Z) (e : c_fl_entry) (r : Z) (s' : c_switch) : Prop := {
  mp_wf : wf s';
  mp_tbls : rule_flow_tbls s' = rule_flow_tbls s;
  mp_ctors : ofp_ctors s' = ofp_ctors s;
  mp_tx : tx s' = tx s;
  mp_moves : moves s s';
  mp_ent : exists f, ents s' = <[b := f]> (ents s) /\ keyeq e f /\ FL_REF f = FL_REF e /\ FL_LOCK f = false /\
    app_owner_list f = (if has (FL_FLAGS e) C_FL_ENT_RESIDUAL then [app_owner p] else app_owner_list e) /\
    (r = 0 -> actions f = p_actions p /\ groups f = grp_dep p /\ meters f = meter_dep p) /\
    (r <> 0 -> actions f = actions e /\ groups f = groups e /\ meters f = meters e) }.

Lemma rule_mod_restore_spec p s b e x A t :
  wf s -> ents s !! b = Some e -> ent_ok (app_refs s) t e -> is_Some (app_refs s !! app_owner p) ->
  in_mod (app_owner p) e x -> owners_moved s e x A ->
  exists s', rule_mod_restore b (groups e) (meters e) (store b x (set_app_refs A s)) = Some s' /\
    mod_post p s b e (-1) s'.
Proof.
  intros Hwf He Hok Hx Him HAs. pose proof (shifted_same _ _ _ HAs) as HA. unfold rule_mod_restore. rewrite (upd_eq b x) by apply lookup_store.
  cbn [mbind option_bind].
  rewrite (unlock_eq b (set_groups (groups e) (set_meters (meters e) x))) by (apply lookup_store || apply Him).
  rewrite !store_store. set (f := set_FL_LOCK false _).
  assert (keyeq e f) as Hk by (destruct Him as [[] _ _ _ _ _ _ _ _]; by split).
  eexists. split; [reflexivity|]. split; try done.
  - apply (wf_upd s _ b e f); auto; try done.
    + intros t' Ht'. eapply (closed_ok _ _ t' _ e x); eauto. done.
    + eapply refs_ok_same; [apply Hwf|done|done].
    + eapply refs_ok_same; [apply Hwf|done|done].
  - apply (moves_upd s _ b e f); try done. exact (in_mod_dead _ _ _ _ Him Hx).
  - exists f. split_and!; try done; [apply Him|apply Him|]. intros _. split_and!; [apply Him|done|done].
Qed.

Lemma mod_fields_same now p e :
  keyeq e (mod_fields now p e) /\ FL_REF (mod_fields now p e) = FL_REF e /\ FL_LOCK (mod_fields now p e) = FL_LOCK e /\
  app_owner_list (mod_fields now p e) = app_owner_list e /\ app_ref (mod_fields now p e) = app_ref e /\
  groups (mod_fields now p e) = groups e /\ meters (mod_fields now p e) = meters e /\
  actions (mod_fields now p e) = p_actions p.
Proof. unfold mod_fields. case_match; by split_and!. Qed.

#[local] Arguments mod_fields : simpl never.

Lemma rule_mod_commit_spec now p s b e x A t G M :
  wf s -> ents s !! b = Some e -> ent_ok (app_refs s) t e -> is_Some (app_refs s !! app_owner p) ->
  in_mod (app_owner p) e x -> owners_moved s e x A ->
  shifted (fun g => cnt g (grp_dep p)) (grp_refs s) G -> Forall (fun g => is_Some (grp_refs s !! g)) (grp_dep p) ->
  shifted (fun g => cnt g (meter_dep p)) (meter_refs s) M ->
  Forall (fun g => is_Some (meter_refs s !! g)) (meter_dep p) ->
  exists s', rule_mod_commit b now p (groups e) (meters e)
      (store b (set_meters (meter_dep p) (set_groups (grp_dep p) x))
         (set_meter_refs M (set_grp_refs G (set_app_refs A s)))) = Some s' /\
    mod_post p s b e 0 s'.
Proof.
  intros Hwf He Hok Hx Him HAs HG AG HM AM. pose proof (shifted_same _ _ _ HAs) as HA. unfold rule_mod_commit, __c_flow_rule_disassociate_grps_only.
  set (y := set_meters _ (set_groups _ x)). cbn [grp_refs store set_ents set_meter_refs set_grp_refs].
  destruct (drop_refs_spec (groups e) G) as (G2 & -> & HG2).
  { eapply Forall_impl; [exact (ro_alive _ _ _ (wf_grp s Hwf) b e He)|]. cbn. intros g.
    by rewrite (shifted_dom _ _ _ _ HG). }
  cbn [mbind option_bind]. unfold __c_flow_rule_disassociate_meters_only.
  cbn [meter_refs store set_ents set_meter_refs set_grp_refs].
  destruct (drop_refs_spec (meters e) M) as (M2 & -> & HM2).
  { eapply Forall_impl; [exact (ro_alive _ _ _ (wf_meter s Hwf) b e He)|]. cbn. intros g.
    by rewrite (shifted_dom _ _ _ _ HM). }
  cbn [mbind option_bind]. rewrite (upd_eq b y) by apply lookup_store. cbn [mbind option_bind].
  destruct (mod_fields_same now p y) as ([C1 C2 C3 C4] & C5 & C6 & C7 & C8 & C9 & C10 & C11).
  rewrite (unlock_eq b (mod_fields now p y)) by (apply lookup_store || (rewrite C6; apply Him)).
  set (f := set_FL_LOCK false (mod_fields now p y)).
  assert (keyeq e f) as Hk by (destruct Him as [[] _ _ _ _ _ _ _ _]; split; cbn; etrans; eauto).
  assert (refs_ok groups (<[b := f]> (ents s)) G2) as Hgr.
  { eapply (refs_ok_upd groups _ (grp_refs s)); [apply Hwf|done| |by cbn; rewrite C9].
    eapply shifted_ext; [|by eapply shifted_trans]. intros g. cbn. rewrite C9. cbn. lia. }
  assert (refs_ok meters (<[b := f]> (ents s)) M2) as Hmr.
  { eapply (refs_ok_upd meters _ (meter_refs s)); [apply Hwf|done| |by cbn; rewrite C10].
    eapply shifted_ext; [|by eapply shifted_trans]. intros g. cbn. rewrite C10. cbn. lia. }
  eexists. split; [reflexivity|]. split; try done.
  - apply (wf_upd s _ b e f); auto; try done; [|cbn; by rewrite !insert_insert_eq..].
    intros t' Ht'. eapply (closed_ok _ _ t' _ e x); eauto; by split.
  - apply (moves_upd s _ b e f); try done; cbn.
    + by rewrite !insert_insert_eq.
    + by rewrite C7.
    + rewrite C7. exact (in_mod_dead _ _ _ _ Him Hx).
    + eapply shifted_same, shifted_trans; [exact HG|exact HG2].
    + eapply shifted_same, shifted_trans; [exact HM|exact HM2].
  - exists f. cbn. rewrite !insert_insert_eq, C5, C7, C9, C10, C11. split_and!; try done; apply Him.
Qed.

Lemma opened_in_mod app e : has (FL_FLAGS e) C_FL_ENT_RESIDUAL = false -> in_mod app e (opened e).
Proof. intros Hr. split; rewrite ?Hr; done. Qed.

(** The part of the modification after the takeover. *)
Definition mod_tail (now b : Z) (p : of_flow_mod_params) (og om : list Z) (hw : bool) (s : c_switch)
  : option (Z * bool * c_switch) :=
  '(r, s) ← __c_flow_rule_associate_grps b (grp_dep p) s;
  if negb (r =? 0) then s ← rule_mod_restore b og om s; Some (-1, hw, s)
  else
    '(r, s) ← __c_flow_rule_associate_meters b (meter_dep p) s;
    if negb (r =? 0) then
      s ← __c_flow_rule_disassociate_grps b s;
      s ← rule_mod_restore b og om s; Some (-1, hw, s)
    else s ← rule_mod_commit b now p og om s; Some (0, hw, s).

Lemma set_groups_back l x : groups x = [] -> set_groups [] (set_groups l x) = x.
Proof. destruct x. cbn. by intros ->. Qed.

(** The counts and the heap are set independently. *)
Lemma store_grps b x G s : store b x (set_grp_refs G s) = set_grp_refs G (store b x s).
Proof. done. Qed.
Lemma store_meters b x M s : store b x (set_meter_refs M s) = set_meter_refs M (store b x s).
Proof. done. Qed.
Lemma set_grps_twice G G' s : set_grp_refs G (set_grp_refs G' s) = set_grp_refs G s.
Proof. done. Qed.

Lemma store_grps_back b x y G s r :
  r = grp_refs s -> store b x (set_grp_refs r (store b y (set_grp_refs G s))) = store b x s.
Proof. intros ->. rewrite !store_grps, set_grps_twice, store_store. by destruct s. Qed.

Lemma store_twice b x y z G M A s :
  store b x (set_meter_refs M (store b y (set_grp_refs G (store b z (set_app_refs A s))))) =
  store b x (set_meter_refs M (set_grp_refs G (set_app_refs A s))).
Proof. by rewrite !store_meters, !store_grps, !store_store. Qed.

Lemma mod_tail_spec now b p hw s e x A t :
  wf s -> ents s !! b = Some e -> ent_ok (app_refs s) t e -> is_Some (app_refs s !! app_owner p) ->
  in_mod (app_owner p) e x -> owners_moved s e x A ->
  exists r s', mod_tail now b p (groups e) (meters e) hw (store b x (set_app_refs A s)) = Some (r, hw, s') /\
    mod_post p s b e r s' /\ (r = 0 \/ r = -1).
Proof.
  intros Hwf He Hok Hx Him HA. unfold mod_tail. set (s1 := store b x (set_app_refs A s)).
  destruct (rule_mod_restore_spec p s b e x A t Hwf He Hok Hx Him HA) as (sr & Er & Hr). fold s1 in Er.
  destruct (associate_grps_spec b x (grp_dep p) s1 (lookup_store _ _ _) (im_groups _ _ _ Him))
    as [(G & HG & AG & ->)|[-> _]]; cbn [mbind option_bind Z.eqb negb].
  2:{ cbn. rewrite Er. cbn. eexists _, _. split; [reflexivity|]. auto. }
  set (s2 := store b (set_groups (grp_dep p) x) (set_grp_refs G s1)).
  destruct (associate_meters_spec b (set_groups (grp_dep p) x) (meter_dep p) s2 (lookup_store _ _ _)
    (im_meters _ _ _ Him)) as [(M & HM & AM & ->)|[-> _]]; cbn [mbind option_bind Z.eqb negb].
  - destruct (rule_mod_commit_spec now p s b e x A t G M) as (sc & Ec & Hc); auto.
    assert (store b (set_meters (meter_dep p) (set_groups (grp_dep p) x)) (set_meter_refs M s2) =
            store b (set_meters (meter_dep p) (set_groups (grp_dep p) x))
              (set_meter_refs M (set_grp_refs G (set_app_refs A s)))) as -> by apply store_twice.
    rewrite Ec. cbn. eexists _, _. split; [reflexivity|]. auto.
  - cbn. destruct (disassociate_grps_eq b (set_groups (grp_dep p) x) s2 (lookup_store _ _ _)) as (G' & HG' & ->).
    { cbn. eapply Forall_impl; [exact AG|]. cbn. intros g. by rewrite (shifted_dom _ _ _ _ HG). }
    cbn [mbind option_bind]. assert (G' = grp_refs s) as ->.
    { apply shifted_eq. eapply shifted_ext; [|by eapply shifted_trans]. intros g. cbn. lia. }
    assert (store b (set_groups [] (set_groups (grp_dep p) x)) (set_grp_refs (grp_refs s) s2) = s1) as ->.
    { rewrite (set_groups_back _ _ (im_groups _ _ _ Him)). subst s2. rewrite (store_grps_back b x _ G s1) by done.
      apply store_store. }
    rewrite Er. cbn. eexists _, _. split; [reflexivity|]. auto.
Qed.

Lemma rule_mod_spec now b p hw s e t :
  wf s -> ents s !! b = Some e -> ent_ok (app_refs s) t e -> is_Some (app_refs s !! app_owner p) ->
  has (FL_FLAGS e) C_FL_ENT_RESIDUAL && has (p_flags p) C_FL_ENT_RESIDUAL = false ->
  exists r hw' s', c_flow_rule_mod now b p hw s = Some (r, hw', s') /\ mod_post p s b e r s' /\ (r = 0 \/ r = -1).
Proof.
  intros Hwf He Hok Hx Hres. unfold c_flow_rule_mod. rewrite (lock_eq b e) by (done || apply Hok).
  cbn [mbind option_bind]. rewrite lookup_store. cbn [mbind option_bind].
  rewrite (upd_eq b (set_FL_LOCK true e)) by apply lookup_store. cbn [mbind option_bind]. rewrite store_store.
  change (set_groups [] (set_meters [] (set_FL_LOCK true e))) with (opened e).
  change (FL_FLAGS (set_FL_LOCK true e)) with (FL_FLAGS e). rewrite Hres.
  change (groups (set_FL_LOCK true e)) with (groups e). change (meters (set_FL_LOCK true e)) with (meters e).
  destruct (has (FL_FLAGS e) C_FL_ENT_RESIDUAL) eqn:Hr.
  - destruct (takeover_spec b p e t s He Hok Hr Hx) as (hw' & x & A & -> & Him & HA). cbn [mbind option_bind].
    destruct (mod_tail_spec now b p hw' s e x A t) as (r & s' & E & Hp & Hrr); auto. exists r, hw', s'. by split.
  - cbn [mbind option_bind].
    destruct (mod_tail_spec now b p hw s e (opened e) (app_refs s) t) as (r & s' & E & Hp & Hrr); auto.
    { by apply opened_in_mod. }
    { apply shifted_none. intros y. cbn. lia. }
    exists r, hw, s'. split; [|done]. rewrite <- E. by destruct s.
Qed.

(** ** An entry with the same match and priority exists *)

(** A change of an entry that the invariant does not see. *)
Lemma wf_touch s b e e' :
  wf s -> ents s !! b = Some e -> keyeq e e' -> groups e' = groups e -> meters e' = meters e ->
  (forall t, ent_ok (app_refs s) t e -> ent_ok (app_refs s) t e') -> wf (store b e' s).
Proof.
  intros Hwf He Hk Hg Hm Hok. apply (wf_upd s _ b e e'); auto; try done.
  - eapply refs_ok_same; [apply Hwf|done|done].
  - eapply refs_ok_same; [apply Hwf|done|done].
Qed.

Lemma wf_flags s b e x : wf s -> ents s !! b = Some e -> wf (store b (set_FL_FLAGS x e) s).
Proof. intros Hwf He. apply (wf_touch s b e); auto; [done|]. intros t []. by split. Qed.

Lemma wf_ref_inc s b e : wf s -> ents s !! b = Some e -> wf (store b (set_FL_REF (FL_REF e + 1) e) s).
Proof. intros Hwf He. apply (wf_touch s b e); auto; [done|]. intros t []. split; auto. cbn. lia. Qed.

Lemma wf_add_owner s b e app A :
  wf s -> ents s !! b = Some e -> app ∉ app_owner_list e -> is_Some (app_refs s !! app) ->
  same_apps (app_refs s) A -> wf (store b (add_owner app e) (set_app_refs A s)).
Proof.
  intros Hwf He Hn Hx HA. apply (wf_upd s _ b e (add_owner app e)); auto; try done.
  - intros t [H1 H2 H3 H4 H5 H6 H7 H8]. split; cbn; auto.
    + rewrite H3, length_app. cbn. lia.
    + apply NoDup_app. split_and!; [done|set_solver|apply NoDup_singleton].
    + by destruct (app_owner_list e).
    + apply Forall_app. split; [|constructor; [by apply HA|constructor]].
      eapply Forall_impl; [exact H6|]. cbn. intros y. by rewrite (HA y).
  - eapply refs_ok_same; [apply Hwf|done|done].
  - eapply refs_ok_same; [apply Hwf|done|done].
Qed.

(** The two requests that do not leave the entry unlocked as they found it: a local flow that
    its owner adds again, and a flow read back from the switch twice. *)
Definition relocks (e : c_fl_entry) (p : of_flow_mod_params) : bool :=
  (has (p_flags p) C_FL_ENT_LOCAL && has (FL_FLAGS e) C_FL_ENT_LOCAL &&
   negb (has (FL_FLAGS e) C_FL_ENT_RESIDUAL) && __c_flow_find_app_owner e (app_owner p)) ||
  (has (FL_FLAGS e) C_FL_ENT_RESIDUAL && has (p_flags p) C_FL_ENT_RESIDUAL &&
   negb (has (p_flags p) C_FL_ENT_LOCAL)).

(** What a request does to the entry it finds. *)
Definition merged (e f : c_fl_entry) (p : of_flow_mod_params) (r : Z) : Prop :=
  keyeq e f /\
  (r = 0 -> app_owner p ∈ app_owner_list f /\
     (has (p_flags p) C_FL_ENT_LOCAL && has (FL_FLAGS e) C_FL_ENT_LOCAL = false ->
        actions f = p_actions p /\ groups f = grp_dep p /\ meters f = meter_dep p)) /\
  (r = - EPERM -> f = e).

Lemma found_modify c now xid a b p hw s e n t :
  wf s -> ~ in_tables s a -> ents s !! a = Some n -> groups n = [] -> meters n = [] -> app_owner_list n = [] -> a <> b ->
  ents s !! b = Some e -> ent_ok (app_refs s) t e -> is_Some (app_refs s !! app_owner p) -> ofp_ctors s = true ->
  has (FL_FLAGS e) C_FL_ENT_RESIDUAL && has (p_flags p) C_FL_ENT_RESIDUAL = false ->
  has (FL_FLAGS e) C_FL_ENT_RESIDUAL || __c_flow_find_app_owner e (app_owner p) = true ->
  exists r s' f, ('(r, hw_sync, s) ← c_flow_rule_mod now b p hw s;
      if negb (r =? 0) then Some (- EINVAL, free a s)
      else
        s ← upd b (fun e => set_FL_FLAGS (clr (FL_FLAGS e) C_FL_ENT_STALE) e) s;
        s ← (if hw_sync : bool then upd b (fun e => set_FL_REF (FL_REF e + 1) e) s else Some s);
        hw_install c xid b p hw_sync true (free a s)) = Some (r, s') /\
    wf s' /\ rule_flow_tbls s' = rule_flow_tbls s /\ ents s' = delete a (<[b := f]> (ents s)) /\
    merged e f p r /\ moves s s' /\ (r = 0 \/ r = - EINVAL).
Proof.
  intros Hwf Hna Ha Hg Hm Hn Hab He Hok Hx Hc Hres Hown.
  destruct (rule_mod_spec now b p hw s e t Hwf He Hok Hx Hres) as (r & hw' & s1 & -> & Hp & Hr).
  destruct Hp as [W T C Tx Mv (f & Em & Hk & Href & Hlk & Ho & H0 & H1)]. cbn [mbind option_bind].
  assert (~ in_tables s1 a) as Hna1 by (unfold in_tables; by rewrite T).
  assert (ents s1 !! a = Some n) as Ha1 by (by rewrite Em, lookup_insert_ne).
  assert (ents s1 !! b = Some f) as Hb1 by (by rewrite Em, lookup_insert_eq).
  destruct Hr as [->| ->]; cbn [Z.eqb negb].
  2:{ cbn. eexists _, _, f. split; [reflexivity|]. split_and!; [by eapply wf_free_unused|done|cbn; by rewrite Em|
      split_and!; done|eapply moves_trans; [exact Mv|by eapply moves_free]|by right]. }
  rewrite (upd_eq b f) by done. cbn [mbind option_bind].
  set (g := set_FL_FLAGS (clr (FL_FLAGS f) C_FL_ENT_STALE) f).
  assert (wf (store b g s1)) as W2 by (by apply wf_flags).
  set (g' := if hw' then set_FL_REF (FL_REF g + 1) g else g). set (s2 := store b g' s1).
  assert ((if hw' then upd b (fun e => set_FL_REF (FL_REF e + 1) e) (store b g s1) else Some (store b g s1)) =
          Some s2) as ->.
  { subst s2 g'. destruct hw'; [|done]. by rewrite (upd_eq b g), store_store by apply lookup_store. }
  cbn [mbind option_bind].
  assert (wf s2) as W3.
  { subst s2 g'. destruct hw'; [|done]. rewrite <- (store_store b g). apply wf_ref_inc; [done|apply lookup_store]. }
  destruct (hw_install_spec c xid b p hw' true (free a s2) g') as (s' & x & -> & W' & Em' & Tb' & _ & Mv').
  - eapply (wf_free_unused s2 a n); auto. subst s2. by rewrite lookup_store_ne.
  - cbn. rewrite lookup_delete_ne by done. apply lookup_store.
  - subst g' g. by destruct hw'.
  - intros ->. subst g' g. cbn. rewrite Href. pose proof (eo_ref _ _ _ Hok). lia.
  - by cbn; rewrite C.
  - eexists _, s', (installed_as hw' x g'). split; [reflexivity|]. split_and!; [done|by rewrite Tb'| |split_and!| |by left].
    + rewrite Em'. cbn. rewrite Em, !insert_insert_eq, delete_insert_ne, insert_insert_eq by done.
      by rewrite delete_insert_ne by done.
    + subst g' g. destruct Hk. by destruct hw'; split.
    + intros _. assert (app_owner_list (installed_as hw' x g') = app_owner_list f) as -> by (by subst g' g; destruct hw').
      assert (actions (installed_as hw' x g') = actions f) as -> by (by subst g' g; destruct hw').
      assert (groups (installed_as hw' x g') = groups f) as -> by (by subst g' g; destruct hw').
      assert (meters (installed_as hw' x g') = meters f) as -> by (by subst g' g; destruct hw').
      split; [|intros _; by apply H0]. rewrite Ho. destruct (has (FL_FLAGS e) C_FL_ENT_RESIDUAL); [set_solver|].
      by eapply bool_decide_eq_true_1.
    + done.
    + eapply moves_trans; [exact Mv|]. eapply moves_trans; [|exact Mv']. apply (moves_trans _ s2).
      * eapply moves_store; [exact Hb1|]. subst g' g. by destruct hw'.
      * eapply (moves_free a n); [|done]. subst s2. by rewrite lookup_store_ne.
Qed.

(** The outcome of a request that found the entry [b]. *)
Definition found_post (a b : Z) (p : of_flow_mod_params) (s : c_switch) (e : c_fl_entry)
    (o : option (Z * c_switch)) : Prop :=
  exists r s' f, o = Some (r, s') /\ wf s' /\ rule_flow_tbls s' = rule_flow_tbls s /\
    ents s' = delete a (<[b := f]> (ents s)) /\ merged e f p r /\ moves s s' /\
    (r = 0 \/ r = - EINVAL \/ r = - EPERM \/ r = - EEXIST).

Section found.
  Context (a b : Z) (p : of_flow_mod_params) (s : c_switch) (e n : c_fl_entry) (t : Z).
  Context (Hwf : wf s) (Hna : ~ in_tables s a) (Ha : ents s !! a = Some n) (Hg : groups n = []) (Hm : meters n = [])
    (Hno : app_owner_list n = []).
  Context (Hab : a <> b) (He : ents s !! b = Some e) (Hok : ent_ok (app_refs s) t e).
  Context (Hx : is_Some (app_refs s !! app_owner p)) (Hc : ofp_ctors s = true).

Lemma found_refused r :
  r = - EPERM -> found_post a b p s e (Some (r, free a s)).
Proof.
  intros ->. eexists _, _, e. split; [reflexivity|].
  split_and!; [by eapply wf_free_unused|done|cbn; by rewrite insert_id|by split_and!|by eapply moves_free|auto].
Qed.

Lemma found_exists :
  found_post a b p s e (s ← upd b (fun e => set_FL_FLAGS (clr (FL_FLAGS e) C_FL_ENT_STALE) e) s;
                        Some (- EEXIST, free a s)).
Proof.
  rewrite (upd_eq b e) by done. cbn [mbind option_bind].
  eexists (- EEXIST), _, _. split; [reflexivity|]. split_and!; [|done|done|by split_and!| |auto].
  - eapply (wf_free_unused _ a n); auto; [by apply wf_flags|by rewrite lookup_store_ne].
  - apply (moves_trans _ (store b (set_FL_FLAGS (clr (FL_FLAGS e) C_FL_ENT_STALE) e) s)); [by eapply moves_store|].
    eapply (moves_free a n); [by rewrite lookup_store_ne|done].
Qed.

Lemma found_joined :
  has (p_flags p) C_FL_ENT_LOCAL && has (FL_FLAGS e) C_FL_ENT_LOCAL = true ->
  __c_flow_find_app_owner e (app_owner p) = false ->
  found_post a b p s e ('(r, s) ← c_flow_add_app_owner b (app_owner p) s; Some (r, free a s)).
Proof.
  intros Hl Hn. apply bool_decide_eq_false_1 in Hn.
  destruct (add_app_owner_eq b e (app_owner p) s He (eo_lock _ _ _ Hok) Hn Hx) as (A & HA & ->).
  cbn [mbind option_bind]. set (s1 := store b _ _). eexists 0, (free a s1), (add_owner (app_owner p) e).
  pose proof (shifted_same _ _ _ HA) as HAs. split; [reflexivity|]. split_and!; [|done|done|split_and!| |by left].
  - eapply (wf_free_unused s1 a n); auto; [by apply wf_add_owner|]. subst s1. by rewrite lookup_store_ne.
  - done.
  - intros _. split; [cbn; set_solver|]. by rewrite Hl.
  - done.
  - apply (moves_trans _ s1).
    + apply (moves_upd s s1 b e (add_owner (app_owner p) e)); try done; cbn [add_owner app_owner_list set_owners].
      * eapply shifted_ext; [|exact HA]. intros y. cbn beta. rewrite cnt_app. lia.
      * intros y Hy. rewrite cnt_app. cbn [cnt]. rewrite bool_decide_false by (intros <-; rewrite Hy in Hx; by destruct Hx). lia.
    + eapply (moves_free a n); [|done]. subst s1. by rewrite lookup_store_ne.
Qed.

Lemma rule_add_found_spec c now xid hw :
  relocks e p = false -> found_post a b p s e (rule_add_found c now xid a b p hw s).
Proof.
  unfold relocks, rule_add_found. rewrite He. cbn [mbind option_bind]. intros [Hrel1 Hrel2]%orb_false_iff.
  destruct (has (p_flags p) C_FL_ENT_LOCAL && has (FL_FLAGS e) C_FL_ENT_RESIDUAL) eqn:H1; [by apply found_refused|].
  destruct (has (p_flags p) C_FL_ENT_LOCAL && has (FL_FLAGS e) C_FL_ENT_LOCAL) eqn:H2.
  { apply found_joined; [done|]. by destruct (has (p_flags p) C_FL_ENT_LOCAL), (has (FL_FLAGS e) C_FL_ENT_LOCAL),
      (has (FL_FLAGS e) C_FL_ENT_RESIDUAL), (__c_flow_find_app_owner e (app_owner p)). }
  destruct (negb _ && negb (__c_flow_find_app_owner e (app_owner p))) eqn:H3; [by apply found_refused|].
  destruct (negb _ && bool_decide _); [apply found_exists|].
  destruct (found_modify c now xid a b p hw s e n t) as (r & s' & f & E & Hrest); auto.
  - by destruct (has (FL_FLAGS e) C_FL_ENT_RESIDUAL), (has (p_flags p) C_FL_ENT_RESIDUAL),
      (has (p_flags p) C_FL_ENT_LOCAL).
  - by destruct (has (FL_FLAGS e) C_FL_ENT_RESIDUAL), (__c_flow_find_app_owner e (app_owner p)).
  - exists r, s', f. split; [exact E|]. naive_solver.
Qed.

End found.

(** The outcome of a request to add a flow. *)
Record add_post (c : Ha.ctrl_hdl) (now a : Z) (p : of_flow_mod_params) (s : c_switch) (r : Z) (s' : c_switch) : Prop := {
  ap_wf : wf s';
  ap_moves : moves s s';
  ap_err : r <> 0 -> rule_flow_tbls s' = rule_flow_tbls s;
  ap_ok : r = 0 -> exists tbl b e, rule_flow_tbls s' !! Z.to_nat (table_id (p_flow p)) = Some tbl /\
    b ∈ rule_fl_tbl tbl /\ ents s' !! b = Some e /\ strict_key e (p_flow p) (p_mask p) (p_prio p) = true /\
    app_owner p ∈ app_owner_list e /\
    (has (p_flags p) C_FL_ENT_LOCAL = false -> actions e = p_actions p /\ groups e = grp_dep p /\ meters e = meter_dep p) /\
    forall k, k <> b -> in_tables s k -> ents s' !! k = ents s !! k;
  ap_new : c_flow_mod_validate_parms s p = true ->
    (forall b e, in_tables s b -> ents s !! b = Some e -> strict_key e (p_flow p) (p_mask p) (p_prio p) = false) ->
    ~ missing (grp_dep p) (grp_refs s) -> ~ missing (meter_dep p) (meter_refs s) ->
    r = 0 /\ tx s' = tx s ++ (if FL_NEED_HW_SYNC c p then add_msgs c (added now true p s) (p_buffer_id p) false else []) }.

Section flow_add.
  Context (c : Ha.ctrl_hdl) (now xid a : Z) (p : of_flow_mod_params) (s : c_switch).
  Context (Hwf : wf s) (Ha : ents s !! a = None) (Hx : is_Some (app_refs s !! app_owner p)) (Hc : ofp_ctors s = true).

Notation hw := (FL_NEED_HW_SYNC c p).
Notation s1 := (store a (new_entry now hw p) s).

Lemma new_moves : moves s s1.
Proof. by apply moves_fresh. Qed.

Lemma new_wf : wf s1 /\ ~ in_tables s1 a.
Proof. split; [by apply wf_store_fresh|]. by apply (fresh_not_in s). Qed.

(** The entry [b] with the same match and priority was found in table [t]. *)
Lemma add_found_post t tbl b e :
  rule_flow_tbls s !! t = Some tbl -> table_id (p_flow p) = Z.of_nat t -> b ∈ rule_fl_tbl tbl -> ents s1 !! b = Some e ->
  strict_key e (p_flow p) (p_mask p) (p_prio p) = true -> relocks e p = false ->
  exists r s', rule_add_found c now xid a b p hw s1 = Some (r, s') /\ add_post c now a p s r s'.
Proof.
  intros Ht Et Hb He Hkey Hrel. destruct new_wf as [W1 Hna].
  destruct (wf_entry s1 t tbl b W1 Ht Hb) as (e' & He' & Hok). assert (e' = e) as -> by congruence.
  assert (b <> a) as Hba by (intros ->; apply Hna; by exists t, tbl).
  destruct (rule_add_found_spec a b p s1 e (new_entry now hw p) (Z.of_nat t) W1 Hna (lookup_store _ _ _) eq_refl eq_refl eq_refl
    (not_eq_sym Hba) He Hok Hx Hc c now xid hw Hrel) as (r & s' & f & -> & W' & T' & Em & (Hk & Hm0 & _) & Mv & _).
  exists r, s'. split; [done|]. split; [done|exact (moves_trans _ _ _ new_moves Mv)|done| |].
  - intros ->. exists tbl, b, f. rewrite T', Et, Nat2Z.id. destruct (Hm0 eq_refl) as [Ho Hact]. split_and!; [done|done| | |done| |].
    + by rewrite Em, lookup_delete_ne, lookup_insert_eq by done.
    + by rewrite (strict_key_keyeq e).
    + intros Hl. apply Hact. by rewrite Hl.
    + intros k Hkb Hk'. assert (k <> a) by (intros ->; by apply Hna). rewrite Em, lookup_delete_ne, lookup_insert_ne by done.
      by rewrite lookup_store_ne.
  - intros _ Hno. rewrite lookup_store_ne in He by done. rewrite (Hno b e) in Hkey; [done|by exists t, tbl|done].
Qed.

(** No entry was found. *)
Lemma add_new_post t tbl es h :
  rule_flow_tbls s !! t = Some tbl -> table_id (p_flow p) = Z.of_nat t -> view (ents s1) (rule_fl_tbl tbl) es ->
  Forall (fun x => strict_key x (p_flow p) (p_mask p) (p_prio p) = false) es -> hint_ok (p_prio p) es 0 h ->
  __of_match_flows (p_flow p) (p_mask p) (p_flow p) = true -> fresh_cookie s p ->
  exists r s', rule_add_new c now xid a h p hw s1 = Some (r, s') /\ add_post c now a p s r s'.
Proof.
  intros Ht Et Hview Hnone Hh Hself Hfc. destruct new_wf as [W1 Hna].
  destruct (rule_add_new_spec c now xid a h p hw s1 t tbl es) as [[-> Hms]|(s' & x & -> & W' & Em & T' & Tx & Mv)];
    auto; [apply lookup_store| | |].
  { intros k ek Hk. rewrite lookup_store_ne; [by apply Hfc|]. intros <-. done. }
  { eexists _, _. split; [reflexivity|]. split; [|eapply moves_trans; [exact new_moves|by eapply moves_free; [apply lookup_store|]]|done|done|].
    - eapply (wf_free_unused s1 a); auto; [apply lookup_store|done|done].
    - intros _ _ H1 H2. by destruct Hms. }
  exists 0, s'. split; [done|]. split; [done|exact (moves_trans _ _ _ new_moves Mv)|done| |].
  - intros _. rewrite T', Et, Nat2Z.id. eexists _, a, _. split; [by apply list_lookup_insert_eq, (lookup_lt_Some _ _ tbl)|].
    rewrite Em, lookup_insert_eq. destruct (installed_added hw x now p s1) as (I1 & I2 & I3).
    split; [cbn; destruct h as [i|]; cbn; set_solver|]. split; [reflexivity|]. split; [exact I1|].
    split; [rewrite I2; by apply list_elem_of_singleton|]. split.
    + intros _. destruct (added_same now hw p s1) as (G1 & G2 & _). destruct (installed_deps hw x (added now hw p s1)) as [D1 D2].
      split; [exact I3|]. by rewrite D1, D2.
    + intros k Hk _. by rewrite lookup_insert_ne, lookup_store_ne by done.
  - intros _ _ _ _. split; [done|]. rewrite Tx. cbn [tx store set_ents]. destruct hw; [reflexivity|done].
Qed.

Lemma flow_add_run :
  0 <= table_id (p_flow p) -> __of_match_flows (p_flow p) (p_mask p) (p_flow p) = true -> fresh_cookie s p ->
  (forall b e, in_tables s b -> ents s !! b = Some e ->
     strict_key e (p_flow p) (p_mask p) (p_prio p) = true -> relocks e p = false) ->
  exists r s', c_switch_flow_add c now xid a p s = Some (r, s') /\ add_post c now a p s r s'.
Proof.
  intros H0 Hself Hfc Hrel. unfold c_switch_flow_add, c_flow_rule_add.
  destruct (c_flow_mod_validate_parms (store a zero_ent s) p) eqn:Hv; cbn [negb].
  2:{ eexists _, _. split; [reflexivity|]. split; [by apply wf_store_fresh|by apply moves_fresh|done|done|]. intros Hv'.
      change (c_flow_mod_validate_parms s p = false) in Hv. congruence. }
  rewrite store_store. destruct new_wf as [W1 Hna]. destruct (validate_table s p (wf_len s Hwf) H0) as (t & tbl & Et & Ht); [done|].
  rewrite Et, (aget_table s1 t tbl Ht). cbn [mbind option_bind].
  destruct (wf_tbl s1 W1 t tbl Ht) as (es & Hview & _ & Hoks & _).
  destruct (strict_prio_hint_spec (p_flow p) (p_mask p) (p_prio p) s1 _ es Hview 0 None) as (r & h & Eh & Hr).
  unfold __c_flow_lookup_rule_strict_prio_hint. rewrite Eh. cbn [mbind option_bind]. destruct r as [b|].
  - destruct Hr as (e & Hb & He & Hkey). eapply add_found_post; eauto. apply (Hrel b e); [by exists t, tbl| |done].
    rewrite lookup_store_ne in He; [done|]. intros <-. apply Hna. by exists t, tbl.
  - destruct Hr as [Hnone Hh]. by eapply add_new_post.
Qed.

End flow_add.


(** ** Lookup of a packet *)

Definition candidate (match_residual : bool) (e : c_fl_entry) : bool :=
  negb ((negb match_residual && has (FL_FLAGS e) C_FL_ENT_RESIDUAL) ||
        (match_residual && has (FL_FLAGS e) C_FL_ENT_LOCAL)).

Definition hit (f : flow) (match_residual : bool) (e : c_fl_entry) : bool :=
  candidate match_residual e && __of_match_flows f (fl_mask e) (fl e).

Lemma lookup_rule_spec f res s l es :
  view (ents s) l es -> StronglySorted before es ->
  exists r, __c_flow_lookup_rule l f res s = Some r /\
    match r with
    | None => Forall (fun e => hit f res e = false) es
    | Some a => exists e, a ∈ l /\ ents s !! a = Some e /\ hit f res e = true /\
                  Forall (fun x => hit f res x = true -> FL_PRIO x <= FL_PRIO e) es
    end.
Proof.
  intros Hv. induction Hv as [|a e l es Ha Hv IH]; intros Hs; cbn [__c_flow_lookup_rule]; [by exists None|].
  apply StronglySorted_inv in Hs as [Hs Hf]. rewrite Ha. cbn [mbind option_bind].
  destruct (hit f res e) eqn:Hh; unfold hit, candidate in Hh.
  - apply andb_true_iff in Hh as [H1 H2]. apply negb_true_iff in H1. rewrite H1, H2.
    exists (Some a). split; [done|]. exists e. split_and!; [set_solver|done| |].
    + unfold hit, candidate. by rewrite H1, H2.
    + constructor; [done|]. eapply Forall_impl; [exact Hf|]. cbn. intros x [? _] _. done.
  - destruct (IH Hs) as (r & E & Hr). exists r. split.
    + destruct (_ || _); [done|]. cbn in Hh. by rewrite Hh.
    + destruct r as [b|]; [|by constructor]. destruct Hr as (x & Hb & Hx & Hhx & Hall).
      exists x. split_and!; [set_solver|done|done|]. constructor; [|done]. unfold hit, candidate. congruence.
Qed.

(** C10: the lookup of a packet in its table finds an entry that matches it whenever there is one
    among the entries that count (not those read back from the switch, or not the local ones),
    and of these one of the highest priority; it takes a reference to it and changes nothing
    else, and without a match it changes nothing. *)
Theorem flow_lookup_highest f res s tbl :
  wf s -> 0 <= table_id f -> rule_flow_tbls s !! Z.to_nat (table_id f) = Some tbl ->
  exists r s', c_do_flow_lookup f res s = Some (r, s') /\ wf s' /\
    match r with
    | None => s' = s /\ forall b e, b ∈ rule_fl_tbl tbl -> ents s !! b = Some e -> hit f res e = false
    | Some a => exists e, a ∈ rule_fl_tbl tbl /\ ents s !! a = Some e /\ hit f res e = true /\
        s' = store a (set_FL_REF (FL_REF e + 1) e) s /\
        forall b x, b ∈ rule_fl_tbl tbl -> ents s !! b = Some x -> hit f res x = true -> FL_PRIO x <= FL_PRIO e
    end.
Proof.
  intros Hwf H0 Ht. unfold c_do_flow_lookup, c_do_flow_lookup_slow.
  replace (aget (rule_flow_tbls s) (table_id f)) with (Some tbl)
    by (rewrite <- (aget_table s _ tbl Ht); f_equal; lia). cbn [mbind option_bind].
  destruct (wf_tbl s Hwf _ tbl Ht) as (es & Hv & _ & _ & Hs).
  assert (forall P : c_fl_entry -> Prop, Forall P es -> forall b e, b ∈ rule_fl_tbl tbl -> ents s !! b = Some e -> P e)
    as Hall.
  { intros P HP b e Hb He. destruct (view_elem _ _ _ _ Hv Hb) as (e' & He' & Hin).
    assert (e' = e) as -> by congruence. rewrite Forall_forall in HP. auto. }
  destruct (lookup_rule_spec f res s _ es Hv Hs) as (r & -> & Hr). cbn [mbind option_bind].
  destruct r as [a|].
  - destruct Hr as (e & Ha & He & Hh & Hmax). rewrite (upd_eq a e) by done. cbn [mbind option_bind].
    eexists _, _. split; [reflexivity|]. split; [by apply wf_ref_inc|]. exists e. split_and!; try done.
    exact (Hall _ Hmax).
  - eexists _, _. split; [reflexivity|]. split_and!; [done|done|]. exact (Hall _ Hr).
Qed.
