(* ===== verification/FlowTblEx.v ===== *)
(** * The flow tables of a switch: initial state, two defects, witnesses *)
From stdpp Require Import base list gmap sorting.
From Stdlib Require Import ZArith Lia.
From S2P Require Import Prelude Bytes Flow Ha FlowTbl FlowTblSpec FlowTblDel FlowTblAdd.
Import FlowTbl.
Import Flow.
#[local] Open Scope Z_scope.

(** ** The initial state *)

Definition no_tbl : c_flow_tbl := mk_tbl 0 [].

(** A switch without flows, with groups and meters that nothing refers to. *)
Definition empty_switch (grps mtrs apps : gmap Z Z) : c_switch :=
  mk_switch ∅ (replicate 255 no_tbl) [] 0 grps mtrs apps true true SW_HA_NONE [].

Lemma empty_not_in G M A a : ~ in_tables (empty_switch G M A) a.
Proof. intros (t & tbl & Ht & Ha). apply lookup_replicate in Ht as [-> _]. cbn in Ha. set_solver. Qed.

Lemma wf_empty G M A :
  (forall g n, G !! g = Some n -> n = 0) -> (forall g n, M !! g = Some n -> n = 0) -> wf (empty_switch G M A).
Proof.
  intros HG HM. split.
  - apply length_replicate.
  - intros t tbl Ht. apply lookup_replicate in Ht as [-> _]. exists []. split_and!; constructor.
  - split; [done|]. intros g n Hg. by rewrite (HG g n Hg).
  - split; [done|]. intros g n Hg. by rewrite (HM g n Hg).
  - exists []. split_and!; [done|constructor| |set_solver].
    intros a. split; [set_solver|]. by intros ?%empty_not_in.
Qed.

(** ** Two requests that break the lock of an entry *)

(** Adding an owner a second time releases the lock twice, which is undefined. *)
Lemma add_owner_twice_undefined b app s e :
  ents s !! b = Some e -> FL_LOCK e = false -> app ∈ app_owner_list e -> c_flow_add_app_owner b app s = None.
Proof.
  intros He Hl Ho. unfold c_flow_add_app_owner. rewrite (lock_eq b e) by done. cbn [mbind option_bind].
  unfold __c_flow_add_app_owner. rewrite lookup_store. cbn [mbind option_bind].
  unfold __c_flow_find_app_owner. rewrite bool_decide_true by done. rewrite relock by done.
  cbn [mbind option_bind]. unfold c_wr_unlock. rewrite He. cbn [mbind option_bind]. by rewrite Hl.
Qed.

(** A second flow read back from the switch with the match and priority of a first one is refused,
    but the refusal leaves the entry locked, so that the next thread that
    takes its lock never gets it, and drops the entry's list of groups and meters while
    their reference counts stay. *)
Theorem residual_mod_keeps_lock now b p hw s e :
  ents s !! b = Some e -> FL_LOCK e = false ->
  has (FL_FLAGS e) C_FL_ENT_RESIDUAL = true -> has (p_flags p) C_FL_ENT_RESIDUAL = true ->
  exists s', c_flow_rule_mod now b p hw s = Some (-1, hw, s') /\ c_wr_lock b s' = None /\
    ents s' !! b = Some (opened e) /\ grp_refs s' = grp_refs s /\ meter_refs s' = meter_refs s.
Proof.
  intros He Hl Hr Hp. unfold c_flow_rule_mod. rewrite (lock_eq b e) by done. cbn [mbind option_bind].
  rewrite lookup_store. cbn [mbind option_bind].
  rewrite (upd_eq b (set_FL_LOCK true e)) by apply lookup_store. cbn [mbind option_bind].
  change (FL_FLAGS (set_FL_LOCK true e)) with (FL_FLAGS e). rewrite Hr, Hp. cbn [andb].
  eexists. split; [reflexivity|]. split_and!; [|by rewrite store_store, lookup_store|done|done].
  unfold c_wr_lock. by rewrite store_store, lookup_store.
Qed.

(** ** Witnesses *)

Definition ex_apps : gmap Z Z := {[7 := 0; 8 := 0]}.
Definition ex0 : c_switch := empty_switch {[5 := 0]} ∅ ex_apps.
Definition ex_hdl : Ha.ctrl_hdl := Ha.mk_hdl 2 5 0 0 10 false true false true 0 0 [].
Definition ex_parms (app prio flags : Z) (grp : list Z) : of_flow_mod_params :=
  mk_parms app zero_flow zero_flow [1; 2; 3; 4] 0 prio 0 0 flags 0 0 [] grp.

Lemma ex0_wf : wf ex0.
Proof.
  apply wf_empty; [|done]. intros g n Hg.
  apply lookup_singleton_Some in Hg as [_ <-]. done.
Qed.

(** A switch with one entry, of application 7, at address 1. *)
Definition ex_ent (flags : Z) : c_fl_entry :=
  mk_ent flags 10 true 0 0 0 0 77 zero_flow zero_flow 1 [7] [1; 2; 3; 4] [] [] 0 (zero_stats 0) false.
Definition ex1 (flags : Z) : c_switch :=
  mk_switch (<[1 := ex_ent flags]> (ents (store 1 zero_ent ex0)))
    (<[0%nat := mk_tbl 1 (insert_at None 1 [])]> (rule_flow_tbls (store 1 zero_ent ex0)))
    (fl_cookies (store 1 zero_ent ex0) ++ [(1, 1)]) 1 {[5 := 0]} ∅ ex_apps true true SW_HA_NONE [].

Lemma ex1_wf flags : wf (ex1 flags).
Proof.
  apply (wf_new_entry (store 1 zero_ent ex0) 1 zero_ent (ex_ent flags) 0 no_tbl [] None 1 1 ex_apps); try done.
  - apply wf_store_fresh; [apply ex0_wf|done|done|done].
  - apply empty_not_in.
  - split; cbn; try done; [apply NoDup_singleton|by repeat constructor].
  - constructor.
  - constructor.
  - intros b eb Hb. destruct (empty_not_in {[5 := 0]} ∅ ex_apps b Hb).
Qed.


(** The request of the witness succeeds, and the group counts the reference. *)
Example flow_add_runs :
  match c_switch_flow_add ex_hdl 100 3 1 (ex_parms 7 10 1 [5]) ex0 with
  | Some (r, s') => (r =? 0) && bool_decide (grp_refs s' !! 5 = Some 1) && bool_decide (length (tx s') = 1%nat)
  | None => false
  end = true.
Proof. vm_compute. reflexivity. Qed.

Lemma flow_del_spec_witness :
  exists r s', c_switch_flow_del ex_hdl (ex_parms 7 10 1 []) (ex1 1) = Some (r, s') /\ wf s'.
Proof.
  destruct (flow_del_spec ex_hdl (ex_parms 7 10 1 []) (ex1 1)) as (r & s' & E & W & _);
    [apply ex1_wf|reflexivity|cbn; lia|]. exists r, s'. exact (conj E W).
Defined.

Lemma app_removal_spec_witness :
  exists s', __c_per_switch_del_app_flow_owner ex_hdl 7 (ex1 1) = Some s' /\ wf s'.
Proof.
  destruct (app_removal_spec ex_hdl 7 (ex1 1)) as (s' & E & W & _); [apply ex1_wf|reflexivity|]. exists s'. exact (conj E W).
Defined.

Lemma tbl_reset_spec_witness : exists s', c_switch_flow_tbl_reset (ex1 1) = Some s' /\ fl_cookies s' = [].
Proof. destruct (tbl_reset_spec (ex1 1) (ex1_wf 1)) as (s' & E & _ & C & _). exists s'. exact (conj E C). Defined.

Lemma flow_lookup_highest_witness :
  exists r s', c_do_flow_lookup zero_flow false (ex1 1) = Some (r, s') /\ wf s'.
Proof.
  destruct (flow_lookup_highest zero_flow false (ex1 1) (mk_tbl 1 [1])) as (r & s' & E & W & _);
    [apply ex1_wf|cbn; lia|reflexivity|]. exists r, s'. exact (conj E W).
Defined.

Lemma residual_mod_keeps_lock_witness :
  exists s', c_flow_rule_mod 100 1 (ex_parms 7 10 256 []) false (ex1 256) = Some (-1, false, s') /\
    c_wr_lock 1 s' = None.
Proof.
  destruct (residual_mod_keeps_lock 100 1 (ex_parms 7 10 256 []) false (ex1 256) (ex_ent 256))
    as (s' & E & L & _);
    [reflexivity|reflexivity|reflexivity|reflexivity|]. exists s'. exact (conj E L).
Defined.
