(* ===== verification/GroupTbl.v ===== *)
(** * The group and meter tables of a switch (mul_of.c)

    Groups and meters are kept in hash tables by their ids, with the
    application that owns them and a fixed array of buckets or bands of which the
    first [act_vec_len] (or [meter_nbands]) are in use.  Flow entries point to
    them: the counter [ref] of a group or meter is the one that the flow
    tables keep in [grp_refs] and [meter_refs].  The switch is the one of the flow tables with its lock,
    these two tables and the list of expired entries.  An access outside
    an array or through a null pointer, the use of a freed application and
    waiting for the lock that this thread holds have no result ([None]). *)
From stdpp Require Import base list gmap.
From Stdlib Require Import ZArith Lia.
From S2P Require Import Prelude Bytes Ha FlowTbl.
#[local] Open Scope Z_scope.

Module GroupTbl.
Import Bytes.
Notation has := FlowTbl.has.
Notation clr := FlowTbl.clr.

Definition OF_MAX_ACT_VECTORS : Z := 128.
Definition OF_MAX_METER_VECTORS : Z := 128.
Definition C_GRP_STATIC : Z := 0x1.
Definition C_GRP_GSTATS : Z := 0x2.
Definition C_GRP_EXPIRED : Z := 0x4.
Definition C_GRP_BARRIER_EN : Z := 0x8.
Definition C_GRP_NOT_INSTALLED : Z := 0x10.
Definition C_GRP_RESIDUAL : Z := 0x20.
Definition C_GRP_STALE : Z := 0x40.
Definition C_GRP_LOCAL : Z := 0x80.
Definition C_METER_STATIC : Z := 0x1.
Definition C_METER_GSTATS : Z := 0x2.
Definition C_METER_EXPIRED : Z := 0x4.
Definition C_METER_BARRIER_EN : Z := 0x8.
Definition C_METER_NOT_INSTALLED : Z := 0x10.
Definition C_METER_RESIDUAL : Z := 0x20.
Definition C_METER_STALE : Z := 0x40.
Definition OFPG_MAX : Z := 0xffffff00.
Definition OFPG_ALL : Z := 0xfffffffc.
Definition OFPG_ANY : Z := 0xffffffff.
Definition OFPGT_INDIRECT : Z := 2.
Definition C_GRP_STAT_TIMEO : Z := 4.
Definition C_GRP_STALE_TIMEO : Z := 20.
Definition C_GRP_EXP_TIMEO : Z := 10.
Definition C_METER_STAT_TIMEO : Z := 3.
Definition C_METER_STALE_TIMEO : Z := 20.
Definition C_METER_EXP_TIMEO : Z := 10.
Definition C_OFPT_GROUP_MOD : Z := 0xc6.
Definition C_OFPT_METER_MOD : Z := 0xc7.
Definition C_OFPG_ADD : Z := 0.
Definition C_OFPG_DEL : Z := 1.
Definition C_OFPMC_ADD : Z := 0.
Definition C_OFPMC_DEL : Z := 1.
Definition OFPGC_DELETE : Z := 2.
Definition OFPMC_DELETE : Z := 2.
Definition OFP_VERSION : Z := 0x01.

(** ** Data *)

(** An array of pointers; [None] is the null pointer. *)
Notation vec A := (list (option A)).

Notation bucket := FlowTbl.of_act_vec_elem.
Notation band_elem := FlowTbl.of_meter_band_elem.

Record c_switch_group := mk_grp {
  g_app_owner : Z; g_group : Z; g_type : Z; g_flags : Z;
  act_vectors : vec bucket; act_vec_len : Z; g_installed : bool;
  g_last_scan : Z; g_last_seen : Z; g_stale_time : Z; g_last_expired : Z; g_try_expire_cnt : Z;
  g_byte_count : Z; g_packet_count : Z; g_duration_sec : Z; g_duration_nsec : Z }.

Record c_switch_meter := mk_meter {
  m_app_owner : Z; m_meter : Z; m_flags : Z; m_cflags : Z;
  meter_bands : vec band_elem; meter_nbands : Z; m_installed : bool;
  m_last_scan : Z; m_last_seen : Z; m_stale_time : Z; m_last_expired : Z; m_try_expire_cnt : Z;
  m_flow_count : Z; m_byte_count : Z; m_packet_count : Z; m_duration_sec : Z; m_duration_nsec : Z }.

Record of_group_mod_params := mk_gparms {
  gp_app_owner : Z; gp_group : Z; gp_type : Z; gp_flags : Z;
  gp_act_vectors : vec bucket; gp_act_vec_len : Z }.

Record of_meter_mod_params := mk_mparms {
  mp_app_owner : Z; mp_meter : Z; mp_flags : Z; mp_cflags : Z;
  mp_meter_bands : vec band_elem; mp_meter_nbands : Z }.

(** An application and the message that deletes what expired for it. *)
Record c_sw_expired_ent := mk_exp { exp_app : Z; exp_b : list Z }.

(** [of13_ctors]: the message constructors are those of OpenFlow 1.3 or 1.4, which have all
    functions for groups and meters; those of 1.0 have none. *)
Record switch := mk_sw {
  sw_fl : FlowTbl.c_switch; sw_lock : bool; datapath_id : Z; of13_ctors : bool;
  sw_bulk_grp_stats : bool; sw_bulk_meter_conf_stats : bool;
  groups : gmap Z c_switch_group; meters : gmap Z c_switch_meter; exp_list : list c_sw_expired_ent }.

Definition set_sw_fl (x : FlowTbl.c_switch) (s : switch) : switch :=
  mk_sw x (sw_lock s) (datapath_id s) (of13_ctors s) (sw_bulk_grp_stats s) (sw_bulk_meter_conf_stats s)
    (groups s) (meters s) (exp_list s).
Definition set_sw_lock (x : bool) (s : switch) : switch :=
  mk_sw (sw_fl s) x (datapath_id s) (of13_ctors s) (sw_bulk_grp_stats s) (sw_bulk_meter_conf_stats s)
    (groups s) (meters s) (exp_list s).
Definition set_groups (x : gmap Z c_switch_group) (s : switch) : switch :=
  mk_sw (sw_fl s) (sw_lock s) (datapath_id s) (of13_ctors s) (sw_bulk_grp_stats s)
    (sw_bulk_meter_conf_stats s) x (meters s) (exp_list s).
Definition set_meters (x : gmap Z c_switch_meter) (s : switch) : switch :=
  mk_sw (sw_fl s) (sw_lock s) (datapath_id s) (of13_ctors s) (sw_bulk_grp_stats s)
    (sw_bulk_meter_conf_stats s) (groups s) x (exp_list s).
Definition set_exp_list (x : list c_sw_expired_ent) (s : switch) : switch :=
  mk_sw (sw_fl s) (sw_lock s) (datapath_id s) (of13_ctors s) (sw_bulk_grp_stats s)
    (sw_bulk_meter_conf_stats s) (groups s) (meters s) x.

Definition c_wr_lock (s : switch) : option switch :=
  if sw_lock s then None else Some (set_sw_lock true s).
Definition c_wr_unlock (s : switch) : option switch :=
  if sw_lock s then Some (set_sw_lock false s) else None.

(** [c_switch_tx] *)
Definition sw_tx (m : FlowTbl.msg) (s : switch) : switch := set_sw_fl (FlowTbl.send m (sw_fl s)) s.

(** A new object starts with no references; [free] ends its life. *)
Definition put_group (id : Z) (g : c_switch_group) (s : switch) : switch :=
  set_groups (<[id := g]> (groups s)) s.
Definition new_group (id : Z) (g : c_switch_group) (s : switch) : switch :=
  put_group id g (set_sw_fl (FlowTbl.set_grp_refs (<[id := 0]> (FlowTbl.grp_refs (sw_fl s))) (sw_fl s)) s).
Definition free_group (id : Z) (s : switch) : switch :=
  set_groups (delete id (groups s))
    (set_sw_fl (FlowTbl.set_grp_refs (delete id (FlowTbl.grp_refs (sw_fl s))) (sw_fl s)) s).
Definition put_meter (id : Z) (m : c_switch_meter) (s : switch) : switch :=
  set_meters (<[id := m]> (meters s)) s.
Definition new_meter (id : Z) (m : c_switch_meter) (s : switch) : switch :=
  put_meter id m (set_sw_fl (FlowTbl.set_meter_refs (<[id := 0]> (FlowTbl.meter_refs (sw_fl s))) (sw_fl s)) s).
Definition free_meter (id : Z) (s : switch) : switch :=
  set_meters (delete id (meters s))
    (set_sw_fl (FlowTbl.set_meter_refs (delete id (FlowTbl.meter_refs (sw_fl s))) (sw_fl s)) s).

(** An application with no references left is freed. *)
Definition c_app_put (app : Z) (s : switch) : option switch :=
  r ← FlowTbl.app_refs (sw_fl s) !! app;
  Some (set_sw_fl (FlowTbl.set_app_refs
    (if r =? 0 then delete app (FlowTbl.app_refs (sw_fl s))
     else <[app := r - 1]> (FlowTbl.app_refs (sw_fl s))) (sw_fl s)) s).
Definition c_app_ref (app : Z) (s : switch) : option switch :=
  f ← FlowTbl.c_app_ref app (sw_fl s); Some (set_sw_fl f s).

(** ** Arrays of buckets and bands *)

(** The array that holds these elements, then null pointers. *)
Definition to_vec {A} (l : list A) : vec A :=
  map Some l ++ replicate (Z.to_nat OF_MAX_ACT_VECTORS - length l) None.

(** The first [n] pointers of an array. *)
Definition vec_take {A} (n : Z) (v : vec A) : option (vec A) :=
  if n <=? Z.of_nat (length v) then Some (take (Z.to_nat n) v) else None.

(** [for (i = 0; i < n; i++) dst[i] = src[i]] *)
Definition vec_copy {A} (n : Z) (src dst : vec A) : option (vec A) :=
  for_range n (fun i d => x ← aget src i; aset d i x) dst.

(** [for (i = 0; i < n; i++) { free(v[i]); v[i] = NULL; }] *)
Definition vec_clear {A} (n : Z) (v : vec A) : option (vec A) :=
  for_range n (fun i v => _ ← aget v i; aset v i None) v.

(** Whether two arrays agree at the positions from [i] on, up to the first difference. *)
Fixpoint vec_same {A} (same : A -> A -> bool) (n : nat) (i : Z) (a b : vec A) : option bool :=
  match n with
  | O => Some true
  | S n => x ← aget a i; x ← x; y ← aget b i; y ← y;
           if same x y then vec_same same n (i + 1) a b else Some false
  end.

Definition bkt_same (x y : bucket) : bool :=
  (FlowTbl.weight x =? FlowTbl.weight y) && (FlowTbl.ff_port x =? FlowTbl.ff_port y) &&
  (FlowTbl.ff_group x =? FlowTbl.ff_group y) && bool_decide (FlowTbl.bkt_actions x = FlowTbl.bkt_actions y).

Definition band_same (x y : band_elem) : bool := bool_decide (FlowTbl.band x = FlowTbl.band y).

(** ** Messages between controllers and applications *)

(** [of_prep_msg]: the header; [xid] is the next transaction id.  The length field has 16 bits. *)
Definition ofp_hdr (len type xid : Z) : list Z :=
  le_bytes 1 OFP_VERSION ++ le_bytes 1 type ++ le_bytes 2 (htons (u16 len)) ++ le_bytes 4 xid.

Definition bkt_bytes (x : bucket) : list Z :=
  le_bytes 2 (htons (FlowTbl.weight x)) ++ le_bytes 2 (htons (u16 (Z.of_nat (length (FlowTbl.bkt_actions x))))) ++
  le_bytes 4 (htonl (FlowTbl.ff_port x)) ++ le_bytes 4 (htonl (FlowTbl.ff_group x)) ++ [0; 0; 0; 0] ++
  FlowTbl.bkt_actions x.

(** The bytes of the elements in use: [None] when an [assert] on one of them fails. *)
Definition vec_bytes {A} (f : A -> list Z) (v : vec A) : option (list Z) :=
  l ← mapM id v; Some (concat (map f l)).

Definition c_of_prep_group_mod_msg (dpid xid : Z) (g : c_switch_group) (add : bool) : option (list Z) :=
  body ← (if add then v ← vec_take (act_vec_len g) (act_vectors g); vec_bytes bkt_bytes v else Some []);
  let flags := if g_installed g then g_flags g else Z.lor (g_flags g) C_GRP_NOT_INSTALLED in
  Some (ofp_hdr (48 + Z.of_nat (length body)) C_OFPT_GROUP_MOD xid ++ le_bytes 8 (htonll dpid) ++
    le_bytes 1 (if add then C_OFPG_ADD else C_OFPG_DEL) ++ le_bytes 1 (g_type g) ++ le_bytes 1 flags ++ [0] ++
    le_bytes 4 (htonl (g_group g)) ++ le_bytes 8 (ntohll (g_packet_count g)) ++
    le_bytes 8 (ntohll (g_byte_count g)) ++ le_bytes 4 (ntohl (g_duration_sec g)) ++
    le_bytes 4 (ntohl (g_duration_nsec g)) ++ body).

Definition c_of_prep_meter_mod_msg (dpid xid : Z) (m : c_switch_meter) (add : bool) : option (list Z) :=
  body ← (if add then v ← vec_take (meter_nbands m) (meter_bands m); vec_bytes FlowTbl.band v else Some []);
  let cflags := if m_installed m then m_cflags m else Z.lor (m_cflags m) C_METER_NOT_INSTALLED in
  Some (ofp_hdr (56 + Z.of_nat (length body)) C_OFPT_METER_MOD xid ++ le_bytes 8 (htonll dpid) ++
    le_bytes 1 (if add then C_OFPMC_ADD else C_OFPMC_DEL) ++ le_bytes 1 cflags ++
    le_bytes 2 (htons (m_flags m)) ++ le_bytes 4 (htonl (m_meter m)) ++
    le_bytes 8 (htonll (m_byte_count m)) ++ le_bytes 8 (htonll (m_packet_count m)) ++
    le_bytes 4 (htonl (m_flow_count m)) ++ [0; 0; 0; 0] ++ le_bytes 4 (htonl (m_duration_sec m)) ++
    le_bytes 4 (htonl (m_duration_nsec m)) ++ body).

(** ** Groups *)

Definition C_SWITCH_SUPPORTS_GROUP (s : switch) : bool := FlowTbl.ofp_ctors (sw_fl s) && of13_ctors s.

Definition of131_group_validate_parms (add : bool) (group type len : Z) : bool :=
  if (group =? OFPG_ANY) || (OFPG_MAX <? group) then false
  else if add then
    if group =? OFPG_ALL then false
    else negb ((type =? OFPGT_INDIRECT) && (1 <? len))
  else true.

(** Whether the buckets of the request differ from those of the group. *)
Definition grp_bkt_diff (old : c_switch_group) (p : of_group_mod_params) : option bool :=
  if act_vec_len old =? gp_act_vec_len p
  then same ← vec_same bkt_same (Z.to_nat (act_vec_len old)) 0 (act_vectors old) (gp_act_vectors p);
       Some (negb same)
  else Some true.

(** Changes group [id], which is [old]; the result, the group and whether to install it. *)
Definition __c_switch_group_modify (now id : Z) (old : c_switch_group) (p : of_group_mod_params)
    (install : bool) (s : switch) : option (Z * bool * switch) :=
  if negb (has (g_flags old) C_GRP_RESIDUAL) && negb (g_app_owner old =? gp_app_owner p)
  then Some (-1, install, s)
  else
    diff ← grp_bkt_diff old p;
    let diff := diff || has (g_flags old) C_GRP_EXPIRED in
    let takeover := has (g_flags old) C_GRP_RESIDUAL && negb (has (gp_flags p) C_GRP_RESIDUAL) in
    s ← (if takeover then s ← c_app_put (g_app_owner old) s; c_app_ref (gp_app_owner p) s else Some s);
    let install := if takeover then diff else install in
    if negb (diff || takeover) then Some (-1, install, s)
    else
      v ← vec_clear (act_vec_len old) (act_vectors old);
      v ← vec_copy (gp_act_vec_len p) (gp_act_vectors p) v;
      Some (0, install, put_group id
        (mk_grp (if takeover then gp_app_owner p else g_app_owner old) (g_group old) (gp_type p) (gp_flags p)
           v (gp_act_vec_len p) false 0 now (g_stale_time old) (g_last_expired old) (g_try_expire_cnt old)
           (g_byte_count old) (g_packet_count old) (g_duration_sec old) (g_duration_nsec old)) s).

Definition c_switch_group_init (now : Z) (p : of_group_mod_params) (s : switch)
  : option (c_switch_group * switch) :=
  v ← vec_copy (gp_act_vec_len p) (gp_act_vectors p) (replicate (Z.to_nat OF_MAX_ACT_VECTORS) None);
  s ← c_app_ref (gp_app_owner p) s;
  let stale := has (gp_flags p) C_GRP_RESIDUAL && negb (Z.land (Z.shiftr (gp_group p) 31) 1 =? 0) in
  Some (mk_grp (gp_app_owner p) (gp_group p) (gp_type p)
          (if stale then Z.lor (gp_flags p) C_GRP_STALE else gp_flags p) v (gp_act_vec_len p) false
          0 now (if stale then now else 0) 0 0 0 0 0 0, s).

Definition set_g_flags (x : Z) (g : c_switch_group) : c_switch_group :=
  mk_grp (g_app_owner g) (g_group g) (g_type g) x (act_vectors g) (act_vec_len g) (g_installed g)
    (g_last_scan g) (g_last_seen g) (g_stale_time g) (g_last_expired g) (g_try_expire_cnt g)
    (g_byte_count g) (g_packet_count g) (g_duration_sec g) (g_duration_nsec g).

(** [hw_install] of [c_switch_group_add] *)
Definition grp_hw_install (c : Ha.ctrl_hdl) (p : of_group_mod_params) (install modify : bool) (s : switch)
  : option switch :=
  if Ha.c_switch_of_master_check c && install then
    v ← vec_take (gp_act_vec_len p) (gp_act_vectors p);
    let s := sw_tx (FlowTbl.GroupAdd (gp_group p) (gp_type p) v modify) s in
    Some (if has (gp_flags p) C_GRP_BARRIER_EN then sw_tx FlowTbl.Barrier s else s)
  else Some s.

Definition c_switch_group_add (c : Ha.ctrl_hdl) (now : Z) (p : of_group_mod_params) (s : switch)
  : option (Z * switch) :=
  if negb (C_SWITCH_SUPPORTS_GROUP s) then Some (-1, s)
  else if negb (of131_group_validate_parms true (gp_group p) (gp_type p) (gp_act_vec_len p)) then Some (-1, s)
  else
    s ← c_wr_lock s;
    match groups s !! gp_group p with
    | Some old =>
        '(r, install, s) ← __c_switch_group_modify now (gp_group p) old p true s;
        if r =? 0 then
          s ← c_wr_unlock s;
          s ← grp_hw_install c p install true s; Some (0, s)
        else
          g ← groups s !! gp_group p;
          s ← c_wr_unlock (put_group (gp_group p) (set_g_flags (clr (g_flags g) C_GRP_STALE) g) s);
          Some (- FlowTbl.EEXIST, s)
    | None =>
        '(g, s) ← c_switch_group_init now p s;
        s ← c_wr_unlock (new_group (gp_group p) g s);
        s ← grp_hw_install c p (negb (has (gp_flags p) C_GRP_RESIDUAL)) false s; Some (0, s)
    end.

(** The destructor of the hash table. *)
Definition c_switch_group_ent_free (id : Z) (s : switch) : option switch :=
  g ← groups s !! id;
  s ← c_app_put (g_app_owner g) s;
  _ ← vec_clear (act_vec_len g) (act_vectors g);
  Some (free_group id s).

Definition c_switch_group_del (c : Ha.ctrl_hdl) (p : of_group_mod_params) (s : switch) : option (Z * switch) :=
  if negb (C_SWITCH_SUPPORTS_GROUP s) then Some (-1, s)
  else if negb (of131_group_validate_parms false (gp_group p) (gp_type p) (gp_act_vec_len p)) then Some (-1, s)
  else
    s ← c_wr_lock s;
    match groups s !! gp_group p with
    | None => s ← c_wr_unlock s; Some (-1, s)
    | Some g =>
        ref ← FlowTbl.grp_refs (sw_fl s) !! gp_group p;
        if negb (ref =? 0) then s ← c_wr_unlock s; Some (-1, s)
        else
          s ← (if g_app_owner g =? gp_app_owner p then
                 s ← c_switch_group_ent_free (gp_group p) s;
                 Some (if Ha.c_switch_of_master_check c then sw_tx (FlowTbl.GroupDel (gp_group p)) s else s)
               else Some s);
          s ← c_wr_unlock s; Some (0, s)
    end.

(** [g_hash_table_foreach_remove] with the owner as the condition. *)
Definition c_group_owner_match (app : Z) (g : c_switch_group) : bool := g_app_owner g =? app.
Fixpoint free_groups (l : list (Z * c_switch_group)) (app : Z) (s : switch) : option switch :=
  match l with
  | [] => Some s
  | (id, g) :: l =>
      s ← (if c_group_owner_match app g then c_switch_group_ent_free id s else Some s);
      free_groups l app s
  end.
Definition __c_per_switch_del_group_with_owner (app : Z) (s : switch) : option switch :=
  free_groups (map_to_list (groups s)) app s.

(** Whether a flow may use a group, with the ids it uses so far. *)
Definition c_of_fl_group_check_add (id : Z) (grp_list : list Z) (s : switch) : bool * list Z :=
  match groups s !! id with
  | None => (false, grp_list)
  | Some g =>
      if has (g_flags g) C_GRP_EXPIRED then (false, grp_list)
      else if bool_decide (id ∈ grp_list) then (true, grp_list) else (true, grp_list ++ [id])
  end.

(** ** Meters *)

Definition C_SWITCH_SUPPORTS_METER (s : switch) : bool := FlowTbl.ofp_ctors (sw_fl s) && of13_ctors s.

Definition meter_bands_diff (old : c_switch_meter) (p : of_meter_mod_params) : option bool :=
  if meter_nbands old =? mp_meter_nbands p
  then same ← vec_same band_same (Z.to_nat (meter_nbands old)) 0 (meter_bands old) (mp_meter_bands p);
       Some (negb same)
  else Some true.

Definition __c_switch_meter_modify (now id : Z) (old : c_switch_meter) (p : of_meter_mod_params)
    (install : bool) (s : switch) : option (Z * bool * switch) :=
  if negb (has (m_cflags old) C_METER_RESIDUAL) && negb (m_app_owner old =? mp_app_owner p)
  then Some (-1, install, s)
  else
    diff ← meter_bands_diff old p;
    let diff := diff || has (m_cflags old) C_METER_EXPIRED in
    let takeover := has (m_cflags old) C_METER_RESIDUAL && negb (has (mp_cflags p) C_METER_RESIDUAL) in
    s ← (if takeover then s ← c_app_put (m_app_owner old) s; c_app_ref (mp_app_owner p) s else Some s);
    let install := if takeover then diff else install in
    if negb (diff || takeover) then Some (-1, install, s)
    else
      v ← vec_clear (meter_nbands old) (meter_bands old);
      v ← vec_copy (mp_meter_nbands p) (mp_meter_bands p) v;
      Some (0, install, put_meter id
        (mk_meter (if takeover then mp_app_owner p else m_app_owner old) (m_meter old) (mp_flags p)
           (mp_cflags p) v (mp_meter_nbands p) false 0 now (m_stale_time old) (m_last_expired old)
           (m_try_expire_cnt old) (m_flow_count old) (m_byte_count old) (m_packet_count old)
           (m_duration_sec old) (m_duration_nsec old)) s).

Definition c_switch_meter_init (now : Z) (p : of_meter_mod_params) (s : switch)
  : option (c_switch_meter * switch) :=
  v ← vec_copy (mp_meter_nbands p) (mp_meter_bands p) (replicate (Z.to_nat OF_MAX_ACT_VECTORS) None);
  s ← c_app_ref (mp_app_owner p) s;
  let stale := has (mp_cflags p) C_METER_RESIDUAL && negb (Z.land (Z.shiftr (mp_meter p) 31) 1 =? 0) in
  Some (mk_meter (mp_app_owner p) (mp_meter p) (mp_flags p)
          (if stale then Z.lor (mp_cflags p) C_METER_STALE else mp_cflags p) v (mp_meter_nbands p) false
          0 now (if stale then now else 0) 0 0 0 0 0 0 0, s).

(** The assignments of the code to [flags] and [cflags] of a meter. *)
Definition set_m_flags (x y : Z) (m : c_switch_meter) : c_switch_meter :=
  mk_meter (m_app_owner m) (m_meter m) x y (meter_bands m) (meter_nbands m) (m_installed m)
    (m_last_scan m) (m_last_seen m) (m_stale_time m) (m_last_expired m) (m_try_expire_cnt m)
    (m_flow_count m) (m_byte_count m) (m_packet_count m) (m_duration_sec m) (m_duration_nsec m).

(** [hw_install] of [c_switch_meter_add] *)
Definition meter_hw_install (c : Ha.ctrl_hdl) (p : of_meter_mod_params) (install modify : bool) (s : switch)
  : option switch :=
  if Ha.c_switch_of_master_check c && install then
    v ← vec_take (mp_meter_nbands p) (mp_meter_bands p);
    let s := sw_tx (FlowTbl.MeterAdd (mp_meter p) (mp_flags p) v modify) s in
    Some (if has (mp_cflags p) C_METER_BARRIER_EN then sw_tx FlowTbl.Barrier s else s)
  else Some s.

(** A refused change clears [C_METER_STALE] in [flags], not in [cflags] that holds it. *)
Definition c_switch_meter_add (c : Ha.ctrl_hdl) (now : Z) (p : of_meter_mod_params) (s : switch)
  : option (Z * switch) :=
  if negb (C_SWITCH_SUPPORTS_METER s) then Some (-1, s)
  else
    s ← c_wr_lock s;
    match meters s !! mp_meter p with
    | Some old =>
        '(r, install, s) ← __c_switch_meter_modify now (mp_meter p) old p true s;
        if r =? 0 then
          s ← c_wr_unlock s;
          s ← meter_hw_install c p install true s; Some (0, s)
        else
          m ← meters s !! mp_meter p;
          s ← c_wr_unlock (put_meter (mp_meter p) (set_m_flags (clr (m_flags m) C_METER_STALE) (m_cflags m) m) s);
          Some (- FlowTbl.EEXIST, s)
    | None =>
        '(m, s) ← c_switch_meter_init now p s;
        s ← c_wr_unlock (new_meter (mp_meter p) m s);
        s ← meter_hw_install c p (negb (has (mp_cflags p) C_METER_RESIDUAL)) false s; Some (0, s)
    end.

Definition c_switch_meter_ent_free (id : Z) (s : switch) : option switch :=
  m ← meters s !! id;
  s ← c_app_put (m_app_owner m) s;
  _ ← vec_clear (meter_nbands m) (meter_bands m);
  Some (free_meter id s).

Definition c_switch_meter_del (c : Ha.ctrl_hdl) (p : of_meter_mod_params) (s : switch) : option (Z * switch) :=
  if negb (C_SWITCH_SUPPORTS_METER s) then Some (-1, s)
  else
    s ← c_wr_lock s;
    match meters s !! mp_meter p with
    | None => s ← c_wr_unlock s; Some (-1, s)
    | Some m =>
        ref ← FlowTbl.meter_refs (sw_fl s) !! mp_meter p;
        if negb (ref =? 0) then s ← c_wr_unlock s; Some (-1, s)
        else
          s ← (if m_app_owner m =? mp_app_owner p then
                 s ← c_switch_meter_ent_free (mp_meter p) s;
                 Some (if Ha.c_switch_of_master_check c then sw_tx (FlowTbl.MeterDel (mp_meter p)) s else s)
               else Some s);
          s ← c_wr_unlock s; Some (0, s)
    end.

Definition c_meter_owner_match (app : Z) (m : c_switch_meter) : bool := m_app_owner m =? app.
Fixpoint free_meters (l : list (Z * c_switch_meter)) (app : Z) (s : switch) : option switch :=
  match l with
  | [] => Some s
  | (id, m) :: l =>
      s ← (if c_meter_owner_match app m then c_switch_meter_ent_free id s else Some s);
      free_meters l app s
  end.
Definition __c_per_switch_del_meter_with_owner (app : Z) (s : switch) : option switch :=
  free_meters (map_to_list (meters s)) app s.

Definition c_of_fl_meter_check_add (id : Z) (meter_list : list Z) (s : switch) : bool * list Z :=
  match meters s !! id with
  | None => (false, meter_list)
  | Some m =>
      if has (m_cflags m) C_METER_EXPIRED then (false, meter_list)
      else if bool_decide (id ∈ meter_list) then (true, meter_list) else (true, meter_list ++ [id])
  end.

(** ** Applications that go *)

(** The part of [c_per_switch_app_unregister] that removes what the application owns, under the
    lock of the switch. *)
Definition app_unregister_owned (c : Ha.ctrl_hdl) (app : Z) (s : switch) : option switch :=
  f ← FlowTbl.__c_per_switch_del_app_flow_owner c app (sw_fl s);
  s ← __c_per_switch_del_group_with_owner app (set_sw_fl f s);
  __c_per_switch_del_meter_with_owner app s.

(** ** The periodic scan *)

Definition set_g_scan (installed : bool) (flags scan seen : Z) (g : c_switch_group) : c_switch_group :=
  mk_grp (g_app_owner g) (g_group g) (g_type g) flags (act_vectors g) (act_vec_len g) installed
    scan seen (g_stale_time g) (g_last_expired g) (g_try_expire_cnt g)
    (g_byte_count g) (g_packet_count g) (g_duration_sec g) (g_duration_nsec g).
Definition g_expire (now : Z) (g : c_switch_group) : c_switch_group :=
  mk_grp (g_app_owner g) (g_group g) (g_type g) (Z.lor (g_flags g) C_GRP_EXPIRED) (act_vectors g)
    (act_vec_len g) (g_installed g) (g_last_scan g) (g_last_seen g) (g_stale_time g) now
    (u32 (g_try_expire_cnt g + 1)) (g_byte_count g) (g_packet_count g) (g_duration_sec g) (g_duration_nsec g).

(** The deletion of an expired entry is queued for its owner, who is referenced. *)
Definition expire (app : Z) (b : list Z) (s : switch) : option switch :=
  s ← c_app_ref app s; Some (set_exp_list (exp_list s ++ [mk_exp app b]) s).

Definition __of_send_group_stat_req (c : Ha.ctrl_hdl) (id : Z) (s : switch) : switch :=
  if Ha.c_switch_of_master_check c && C_SWITCH_SUPPORTS_GROUP s then sw_tx (FlowTbl.GroupStatReq id) s else s.
Definition __of_send_meter_stat_req (c : Ha.ctrl_hdl) (id : Z) (s : switch) : switch :=
  if Ha.c_switch_of_master_check c && C_SWITCH_SUPPORTS_METER s then sw_tx (FlowTbl.MeterStatReq id) s else s.
Definition __of_send_meter_config_stat_req (c : Ha.ctrl_hdl) (id : Z) (s : switch) : switch :=
  if Ha.c_switch_of_master_check c && C_SWITCH_SUPPORTS_METER s then sw_tx (FlowTbl.MeterConfStatReq id) s else s.

(** The time that a group may wait for an answer has passed. *)
Definition grp_timed_out (now : Z) (g : c_switch_group) : bool :=
  (negb (has (g_flags g) C_GRP_STALE) && negb (g_last_scan g =? 0) && (5 * C_GRP_STAT_TIMEO <? now - g_last_seen g)) ||
  (has (g_flags g) C_GRP_STALE && (C_GRP_STALE_TIMEO <? now - g_stale_time g)).

Definition c_per_group_stats_scan (c : Ha.ctrl_hdl) (now xid id : Z) (s : switch) : option switch :=
  g ← groups s !! id;
  if negb (Ha.c_switch_of_master_check c) then
    Some (put_group id (set_g_scan true (clr (g_flags g) C_GRP_STALE) now now g) s)
  else
    let g := if sw_bulk_grp_stats s then set_g_scan (g_installed g) (g_flags g) now (g_last_seen g) g else g in
    let s := put_group id g s in
    if negb (g_installed g) || has (g_flags g) C_GRP_STALE || has (g_flags g) C_GRP_GSTATS then
      if grp_timed_out now g then
        if has (g_flags g) C_GRP_EXPIRED && (now - g_last_expired g <? C_GRP_EXP_TIMEO) then Some s
        else
          let g := g_expire now g in
          b ← c_of_prep_group_mod_msg (datapath_id s) xid g false;
          expire (g_app_owner g) b (put_group id g s)
      else if negb (has (g_flags g) C_GRP_STALE) &&
              ((g_last_scan g =? 0) ||
               ((has (g_flags g) C_GRP_GSTATS || negb (g_installed g)) && (C_GRP_STAT_TIMEO <? now - g_last_scan g)))
      then
        let s := __of_send_group_stat_req c (g_group g) s in
        Some (put_group id (set_g_scan (g_installed g) (g_flags g) now
                              (if g_last_scan g =? 0 then now else g_last_seen g) g) s)
      else Some s
    else Some s.

Definition set_m_scan (installed : bool) (flags scan seen : Z) (m : c_switch_meter) : c_switch_meter :=
  mk_meter (m_app_owner m) (m_meter m) flags (m_cflags m) (meter_bands m) (meter_nbands m) installed
    scan seen (m_stale_time m) (m_last_expired m) (m_try_expire_cnt m)
    (m_flow_count m) (m_byte_count m) (m_packet_count m) (m_duration_sec m) (m_duration_nsec m).
Definition m_expire (now : Z) (m : c_switch_meter) : c_switch_meter :=
  mk_meter (m_app_owner m) (m_meter m) (m_flags m) (Z.lor (m_cflags m) C_METER_EXPIRED) (meter_bands m)
    (meter_nbands m) (m_installed m) (m_last_scan m) (m_last_seen m) (m_stale_time m) now
    (u32 (m_try_expire_cnt m + 1)) (m_flow_count m) (m_byte_count m) (m_packet_count m)
    (m_duration_sec m) (m_duration_nsec m).

(** For a slave and for a meter that is not installed the code changes [flags], not [cflags]. *)
Definition c_per_meter_verify_stats_scan (c : Ha.ctrl_hdl) (now xid id : Z) (s : switch) : option switch :=
  m ← meters s !! id;
  if negb (Ha.c_switch_of_master_check c) then
    Some (put_meter id (set_m_scan true (clr (m_flags m) C_METER_STALE) now now m) s)
  else if (m_installed m && has (m_cflags m) C_METER_GSTATS) || has (m_cflags m) C_METER_STALE then
    if (negb (has (m_cflags m) C_METER_STALE) && (5 * C_METER_STAT_TIMEO <? now - m_last_seen m)) ||
       (has (m_cflags m) C_METER_STALE && (C_METER_STALE_TIMEO <? now - m_stale_time m)) then
      if has (m_cflags m) C_METER_EXPIRED && (now - m_last_expired m <? C_METER_EXP_TIMEO) then Some s
      else
        let m := m_expire now m in
        b ← c_of_prep_meter_mod_msg (datapath_id s) xid m false;
        expire (m_app_owner m) b (put_meter id m s)
    else if negb (has (m_cflags m) C_METER_STALE) && (C_METER_STAT_TIMEO <? now - m_last_scan m) then
      let s := __of_send_meter_stat_req c (m_meter m) s in
      Some (put_meter id (set_m_scan (m_installed m) (m_flags m) now (m_last_seen m) m) s)
    else Some s
  else
    let m := if sw_bulk_meter_conf_stats s
             then set_m_scan (m_installed m) (m_flags m) now (m_last_seen m) m else m in
    let s := put_meter id m s in
    if negb (m_installed m) then
      if negb (m_last_scan m =? 0) && (5 * C_METER_STAT_TIMEO <? now - m_last_seen m) then
        let m := set_m_flags (Z.lor (m_flags m) C_METER_EXPIRED) (m_cflags m) m in
        b ← c_of_prep_meter_mod_msg (datapath_id s) xid m false;
        expire (m_app_owner m) b (put_meter id m s)
      else if (m_last_scan m =? 0) || (C_METER_STAT_TIMEO <? now - m_last_scan m) then
        let s := __of_send_meter_config_stat_req c (m_meter m) s in
        Some (put_meter id (set_m_scan (m_installed m) (m_flags m) now
                              (if m_last_scan m =? 0 then now else m_last_seen m) m) s)
      else Some s
    else Some s.

(** The scan of the groups and the meters with these ids. *)
Fixpoint scan_groups (l : list Z) (c : Ha.ctrl_hdl) (now xid : Z) (s : switch) : option switch :=
  match l with
  | [] => Some s
  | id :: l => s ← c_per_group_stats_scan c now xid id s; scan_groups l c now xid s
  end.
Fixpoint scan_meters (l : list Z) (c : Ha.ctrl_hdl) (now xid : Z) (s : switch) : option switch :=
  match l with
  | [] => Some s
  | id :: l => s ← c_per_meter_verify_stats_scan c now xid id s; scan_meters l c now xid s
  end.

End GroupTbl.
