(* ===== verification/GroupTblSpec.v ===== *)
(** * Groups and meters: the invariant of the tables

    What the tables of groups and meters, the flow tables and the applications agree on, and
    that every operation keeps it. *)
From stdpp Require Import base list gmap.
From Stdlib Require Import ZArith Lia.
From S2P Require Import Prelude Bytes Ha FlowTbl FlowTblSpec GroupTbl.
Import GroupTbl.
#[local] Open Scope Z_scope.

Lemma refsum_msum f g m : refsum f g m = msum (fun e => cnt g (f e)) m.
Proof. done. Qed.

(** A table of references without a user of [id]: it may be added or deleted. *)
Lemma refs_ok_new f m r id : refs_ok f m r -> r !! id = None -> refs_ok f m (<[id := 0]> r).
Proof.
  intros [H1 H2] Hid. split.
  - intros a e Ha. eapply Forall_impl; [by eapply H1|]. cbn. intros g Hg.
    destruct (decide (id = g)) as [->|]; [rewrite lookup_insert_eq; eauto|by rewrite lookup_insert_ne].
  - intros g n Hg. destruct (decide (id = g)) as [->|]; [|rewrite lookup_insert_ne in Hg by done; by apply H2].
    rewrite lookup_insert_eq in Hg. simplify_eq. rewrite refsum_msum.
    assert (forall a e, m !! a = Some e -> cnt g (f e) = 0) as Hz.
    { intros a e Ha. apply cnt_notin. intros Hin. apply (H1 a e) in Ha.
      rewrite Forall_forall in Ha. destruct (Ha g Hin). congruence. }
    clear H1 H2. induction m as [|a e m Ha IH] using map_ind; [done|]. rewrite msum_fresh by done.
    rewrite (Hz a e) by apply lookup_insert_eq. rewrite <- IH; [done|].
    intros b x Hb. apply (Hz b x). by rewrite lookup_insert_ne by congruence.
Qed.

Lemma refs_ok_unused f m r id : refs_ok f m r -> r !! id = Some 0 -> refs_ok f m (delete id r).
Proof.
  intros [H1 H2] Hid. split.
  - intros a e Ha. pose proof (H1 a e Ha) as Hf. rewrite Forall_forall in *. intros g Hg.
    destruct (decide (id = g)) as [->|]; [|rewrite lookup_delete_ne by done; by apply Hf].
    exfalso. pose proof (H2 g 0 Hid) as Hz. rewrite refsum_msum in Hz.
    pose proof (msum_ge (fun e => cnt g (f e)) m a e ltac:(intros; apply cnt_nonneg) Ha).
    pose proof (cnt_in g (f e) Hg). cbn in *. lia.
  - intros g n Hg. destruct (decide (id = g)) as [->|]; [by rewrite lookup_delete_eq in Hg|].
    rewrite lookup_delete_ne in Hg by done. by apply H2.
Qed.

(** ** Arrays *)

Lemma to_vec_length {A} (l : list A) : (length l <= 128)%nat -> length (to_vec l) = 128%nat.
Proof. intros Hl. unfold to_vec. rewrite length_app, length_map, length_replicate. change (Z.to_nat OF_MAX_ACT_VECTORS) with 128%nat. lia. Qed.

Lemma to_vec_lookup {A} (l : list A) i x : l !! i = Some x -> to_vec l !! i = Some (Some x).
Proof.
  intros Hi. unfold to_vec. rewrite lookup_app_l by (rewrite length_map; by eapply lookup_lt_Some).
  by rewrite list_lookup_fmap, Hi.
Qed.

Lemma vec_take_to_vec {A} (l : list A) :
  (length l <= 128)%nat -> vec_take (Z.of_nat (length l)) (to_vec l) = Some (map Some l).
Proof.
  intros Hl. unfold vec_take. rewrite to_vec_length by done.
  rewrite (proj2 (Z.leb_le _ _)) by lia. rewrite Nat2Z.id. unfold to_vec. f_equal.
  rewrite take_app_le by (rewrite length_map; lia). rewrite <- (length_map Some l) at 1. by rewrite take_ge.
Qed.

Lemma vec_clear_to_vec {A} (l : list A) :
  (length l <= 128)%nat -> vec_clear (Z.of_nat (length l)) (to_vec l) = Some (replicate 128 None).
Proof.
  intros Hl. unfold vec_clear.
  destruct (for_range_inv (fun i (v : vec A) => v = replicate i None ++ drop i (to_vec l))
    (fun i v => _ ← aget v i; aset v i None) (length l) (to_vec l)) as (v & -> & ->).
  - done.
  - intros i v Hi ->. destruct (lookup_lt_is_Some_2 l i Hi) as [x Hx]. apply to_vec_lookup in Hx.
    rewrite (drop_S _ _ _ Hx).
    assert (length (to_vec l) = 128%nat) by by apply to_vec_length.
    destruct (aget_in_range (replicate i None ++ Some x :: drop (S i) (to_vec l)) (Z.of_nat i)) as [y Hy].
    { rewrite length_app, length_replicate. cbn. lia. }
    rewrite Hy. cbn [mbind option_bind].
    rewrite aset_pos by (rewrite length_app, length_replicate; cbn; lia).
    eexists. split; [done|]. rewrite Nat2Z.id.
    replace (<[i:=None]> (replicate i None ++ Some x :: drop (S i) (to_vec l))) with
      (replicate i None ++ None :: drop (S i) (to_vec l)).
    2:{ rewrite <- (length_replicate i (@None A)) at 3. rewrite <- (Nat.add_0_r (length _)).
        by rewrite insert_app_r. }
    by rewrite replicate_S_end, <- app_assoc.
  - f_equal. unfold to_vec. rewrite <- (length_map Some l) at 2. rewrite drop_app_length.
    rewrite <- replicate_add. f_equal. change (Z.to_nat OF_MAX_ACT_VECTORS) with 128%nat. lia.
Qed.

Lemma vec_copy_to_vec {A} (l : list A) :
  (length l <= 128)%nat -> vec_copy (Z.of_nat (length l)) (to_vec l) (replicate 128 None) = Some (to_vec l).
Proof.
  intros Hl. unfold vec_copy.
  destruct (for_range_inv (fun i (v : vec A) => v = take i (to_vec l) ++ replicate (128 - i) None)
    (fun i d => x ← aget (to_vec l) i; aset d i x) (length l) (replicate 128 None)) as (v & -> & ->).
  - done.
  - intros i v Hi ->. destruct (lookup_lt_is_Some_2 l i Hi) as [x Hx]. apply to_vec_lookup in Hx.
    assert (length (to_vec l) = 128%nat) by by apply to_vec_length.
    rewrite aget_nat, Hx. cbn [mbind option_bind].
    rewrite aset_pos by (rewrite length_app, length_take, length_replicate; lia).
    eexists. split; [done|]. rewrite Nat2Z.id, (take_S_r _ _ _ Hx).
    replace (128 - i)%nat with (S (128 - S i)) by lia. cbn [replicate].
    rewrite <- app_assoc.
    assert (length (take i (to_vec l)) = i) as E by (rewrite length_take; lia).
    rewrite <- E at 1. rewrite <- (Nat.add_0_r (length _)). by rewrite insert_app_r.
  - f_equal. unfold to_vec. rewrite <- (length_map Some l) at 1. by rewrite take_app_length.
Qed.

Lemma vec_same_to_vec {A} (same : A -> A -> bool) (l k : list A) :
  length l = length k -> exists b, vec_same same (length l) 0 (to_vec l) (to_vec k) = Some b /\
    (b = true <-> Forall2 (fun x y => same x y = true) l k).
Proof.
  intros Hlen.
  cut (forall n i, (i + n = length l)%nat -> exists b,
    vec_same same n (Z.of_nat i) (to_vec l) (to_vec k) = Some b /\
    (b = true <-> Forall2 (fun x y => same x y = true) (drop i l) (drop i k))).
  { intros H. by apply (H (length l) 0%nat). }
  induction n as [|n IH]; intros i Hi; cbn [vec_same].
  { exists true. rewrite !drop_ge by lia. split; [done|]. split; [constructor|done]. }
  destruct (lookup_lt_is_Some_2 l i ltac:(lia)) as [x Hx].
  destruct (lookup_lt_is_Some_2 k i ltac:(lia)) as [y Hy].
  rewrite !aget_nat.
  rewrite (to_vec_lookup l i x Hx), (to_vec_lookup k i y Hy). cbn [mbind option_bind].
  rewrite (drop_S l x i Hx), (drop_S k y i Hy). destruct (same x y) eqn:E.
  - destruct (IH (S i) ltac:(lia)) as (b & Hb & Hiff). exists b.
    replace (Z.of_nat i + 1) with (Z.of_nat (S i)) by lia. split; [done|]. rewrite Hiff.
    split; [by constructor|]. by inversion 1.
  - exists false. split; [done|]. split; [done|]. inversion 1. congruence.
Qed.

(** ** The invariant *)

Definition own (x o : Z) : Z := if bool_decide (o = x) then 1 else 0.

(** The references to application [x] that the tables and the expired entries hold. *)
Definition owned (x : Z) (s : switch) : Z :=
  msum (fun g => own x (g_app_owner g)) (groups s) + msum (fun m => own x (m_app_owner m)) (meters s) +
  cnt x (map exp_app (exp_list s)).

(** The first [n] slots of an array are in use, the others empty. *)
Definition vec_ok {A} (v : vec A) (n : Z) : Prop :=
  exists l : list A, (length l <= 128)%nat /\ v = to_vec l /\ n = Z.of_nat (length l).

(** A deletion of a group or a meter as the controller writes it: its length is what its header says. *)
Definition msg_ok (b : list Z) : Prop :=
  exists len type, Bytes.rd_le b 2 2 = Some len /\ Bytes.ntohs len = Z.of_nat (length b) /\
    Bytes.rd_le b 1 1 = Some type /\ (type = C_OFPT_GROUP_MOD \/ type = C_OFPT_METER_MOD).

(** [h x] further references to application [x] are held by the code that runs. *)
Record gwf (h : Z -> Z) (s : switch) : Prop := {
  gw_fl : wf (sw_fl s);
  gw_grp : forall id, is_Some (groups s !! id) <-> is_Some (FlowTbl.grp_refs (sw_fl s) !! id);
  gw_meter : forall id, is_Some (meters s !! id) <-> is_Some (FlowTbl.meter_refs (sw_fl s) !! id);
  gw_gok : forall id g, groups s !! id = Some g -> g_group g = id /\ vec_ok (act_vectors g) (act_vec_len g);
  gw_mok : forall id m, meters s !! id = Some m -> m_meter m = id /\ vec_ok (meter_bands m) (meter_nbands m);
  gw_apps : forall x, match FlowTbl.app_refs (sw_fl s) !! x with
                      | Some r => owned x s + h x <= r
                      | None => owned x s + h x = 0
                      end;
  gw_exp : Forall (fun e => msg_ok (exp_b e)) (exp_list s) }.

Definition nohold (x : Z) : Z := 0.

Lemma own_range x o : 0 <= own x o <= 1.
Proof. unfold own. case_bool_decide; lia. Qed.

Lemma owned_nonneg x s : 0 <= owned x s.
Proof.
  unfold owned. pose proof (msum_nonneg (fun g => own x (g_app_owner g)) (groups s) (fun g => proj1 (own_range x _))).
  pose proof (msum_nonneg (fun m => own x (m_app_owner m)) (meters s) (fun m => proj1 (own_range x _))).
  pose proof (cnt_nonneg x (map exp_app (exp_list s))). lia.
Qed.

(** The state of the flow tables changes only in its counters and messages. *)
Lemma wf_frame f f' :
  wf f -> FlowTbl.ents f' = FlowTbl.ents f -> FlowTbl.rule_flow_tbls f' = FlowTbl.rule_flow_tbls f ->
  FlowTbl.fl_cookies f' = FlowTbl.fl_cookies f ->
  (forall x, is_Some (FlowTbl.app_refs f !! x) -> is_Some (FlowTbl.app_refs f' !! x)) ->
  refs_ok FlowTbl.groups (FlowTbl.ents f) (FlowTbl.grp_refs f') ->
  refs_ok FlowTbl.meters (FlowTbl.ents f) (FlowTbl.meter_refs f') -> wf f'.
Proof.
  intros [W1 W2 W3 W4 W5] He Ht Hc Ha Hg Hm. split.
  - by rewrite Ht.
  - rewrite Ht, He. intros t tbl Htb. destruct (W2 t tbl Htb) as (es & V & N & E & S).
    exists es. split_and!; [done|done| |done]. eapply Forall_impl; [exact E|]. cbn. intros e O.
    destruct O. split; auto. eapply Forall_impl; [eassumption|]. cbn. auto.
  - by rewrite He.
  - by rewrite He.
  - destruct W5 as (ks & E1 & E2 & E3 & E4). exists ks. rewrite Hc, He. split_and!; [done|done| |done].
    intros a. rewrite E3. unfold in_tables. by rewrite Ht.
Qed.

(** ** Applications *)

Definition with_apps (m : gmap Z Z) (s : switch) : switch :=
  set_sw_fl (FlowTbl.set_app_refs m (sw_fl s)) s.

Notation apps s := (FlowTbl.app_refs (sw_fl s)).

Lemma app_ref_spec x s : is_Some (apps s !! x) ->
  exists m, c_app_ref x s = Some (with_apps m s) /\ shifted (fun y => own y x) (apps s) m.
Proof.
  intros [r Hr]. unfold c_app_ref, FlowTbl.c_app_ref, FlowTbl.ref_add. rewrite Hr. cbn.
  eexists. split; [done|]. by apply shifted_one.
Qed.

Lemma app_unref_spec x s : is_Some (apps s !! x) ->
  exists m, FlowTbl.c_app_unref x (sw_fl s) = Some (FlowTbl.set_app_refs m (sw_fl s)) /\
    shifted (fun y => - own y x) (apps s) m.
Proof.
  intros [r Hr]. unfold FlowTbl.c_app_unref, FlowTbl.ref_add. rewrite Hr. cbn.
  eexists. split; [done|]. eapply shifted_ext; [|by apply shifted_one].
  intros y. cbn. unfold own. by case_bool_decide.
Qed.

Lemma app_put_spec x r s : apps s !! x = Some r -> 1 <= r ->
  exists m, c_app_put x s = Some (with_apps m s) /\ shifted (fun y => - own y x) (apps s) m.
Proof.
  intros Hr H1. unfold c_app_put. rewrite Hr. cbn. rewrite (proj2 (Z.eqb_neq _ _)) by lia.
  eexists. split; [done|]. eapply shifted_ext; [|replace (r - 1) with (r + -1) by lia; by apply shifted_one].
  intros y. cbn. unfold own. by case_bool_decide.
Qed.

(** An application that is owner of something, or held, is alive. *)
Lemma gwf_alive h s x : gwf h s -> 1 <= owned x s + h x -> exists r, apps s !! x = Some r /\ 1 <= r.
Proof.
  intros G H1. pose proof (gw_apps h s G x) as Ha. destruct (apps s !! x) as [r|]; [|lia].
  exists r. split; [done|lia].
Qed.

(** The references to applications change with the holders. *)
Lemma gwf_apps h h' s m :
  gwf h s -> shifted (fun x => h' x - h x) (apps s) m -> (forall x, is_Some (apps s !! x) \/ h' x = h x) ->
  gwf h' (with_apps m s).
Proof.
  intros [F G M GO MO A E] Hs Hd. split; auto.
  - eapply wf_frame; [exact F|done|done|done| |apply F|apply F].
    intros x Hx. cbn. by rewrite (shifted_dom _ _ _ _ Hs).
  - intros x. specialize (A x). cbn. rewrite Hs. destruct (Hd x) as [[r Hr]|Hh].
    + rewrite Hr in *. cbn. change (owned x (with_apps m s)) with (owned x s). lia.
    + destruct (apps s !! x); cbn; change (owned x (with_apps m s)) with (owned x s); lia.
Qed.

(** ** Groups and meters in the tables *)

Lemma owned_put_group x id g g' s : groups s !! id = Some g ->
  owned x (put_group id g' s) = owned x s - own x (g_app_owner g) + own x (g_app_owner g').
Proof. intros Hg. unfold owned. cbn. rewrite (msum_insert _ _ _ g) by done. lia. Qed.

Lemma owned_put_meter x id m m' s : meters s !! id = Some m ->
  owned x (put_meter id m' s) = owned x s - own x (m_app_owner m) + own x (m_app_owner m').
Proof. intros Hm. unfold owned. cbn. rewrite (msum_insert _ _ _ m) by done. lia. Qed.

(** A group is replaced: its owner gives a reference back to the holder, who gives one for the new owner. *)
Lemma gwf_put_group h s id g g' :
  gwf h s -> groups s !! id = Some g -> g_group g' = id -> vec_ok (act_vectors g') (act_vec_len g') ->
  gwf (fun x => h x + own x (g_app_owner g) - own x (g_app_owner g')) (put_group id g' s).
Proof.
  intros [F G M GO MO A E] Hg Hid Hv. split; auto.
  - intros i. cbn. rewrite <- G. destruct (decide (id = i)) as [->|]; [rewrite lookup_insert_eq, Hg|rewrite lookup_insert_ne by done]; by split.
  - intros i x. cbn. destruct (decide (id = i)) as [->|]; [rewrite lookup_insert_eq|rewrite lookup_insert_ne by done; apply GO].
    intros ?; simplify_eq. done.
  - intros x. specialize (A x). cbn. rewrite (owned_put_group x id g) by done.
    destruct (apps s !! x); lia.
Qed.

Lemma gwf_put_meter h s id m m' :
  gwf h s -> meters s !! id = Some m -> m_meter m' = id -> vec_ok (meter_bands m') (meter_nbands m') ->
  gwf (fun x => h x + own x (m_app_owner m) - own x (m_app_owner m')) (put_meter id m' s).
Proof.
  intros [F G M GO MO A E] Hg Hid Hv. split; auto.
  - intros i. cbn. rewrite <- M. destruct (decide (id = i)) as [->|]; [rewrite lookup_insert_eq, Hg|rewrite lookup_insert_ne by done]; by split.
  - intros i x. cbn. destruct (decide (id = i)) as [->|]; [rewrite lookup_insert_eq|rewrite lookup_insert_ne by done; apply MO].
    intros ?; simplify_eq. done.
  - intros x. specialize (A x). cbn. rewrite (owned_put_meter x id m) by done.
    destruct (apps s !! x); lia.
Qed.

Lemma gwf_ext h h' s : (forall x, h x = h' x) -> gwf h s -> gwf h' s.
Proof. intros He [F G M GO MO A E]. split; auto. intros x. rewrite <- He. apply A. Qed.

Lemma gwf_new_group h s id g :
  gwf h s -> groups s !! id = None -> g_group g = id -> vec_ok (act_vectors g) (act_vec_len g) ->
  gwf (fun x => h x - own x (g_app_owner g)) (new_group id g s).
Proof.
  intros [F G M GO MO A E] Hg Hid Hv.
  assert (FlowTbl.grp_refs (sw_fl s) !! id = None) as Hr.
  { apply eq_None_not_Some. rewrite <- G, Hg. by intros [? ?]. }
  split; auto.
  - eapply wf_frame; [exact F|done|done|done|done| |apply F]. cbn. apply refs_ok_new; [apply F|done].
  - intros i. cbn. destruct (decide (id = i)) as [->|]; [rewrite !lookup_insert_eq|rewrite !lookup_insert_ne by done]; [|done].
    split; eauto.
  - intros i x. cbn. destruct (decide (id = i)) as [->|]; [rewrite lookup_insert_eq|rewrite lookup_insert_ne by done; apply GO].
    intros ?; simplify_eq. done.
  - intros x. specialize (A x). unfold owned in *. cbn. rewrite msum_fresh by done.
    destruct (apps s !! x); cbn; lia.
Qed.

Lemma gwf_new_meter h s id m :
  gwf h s -> meters s !! id = None -> m_meter m = id -> vec_ok (meter_bands m) (meter_nbands m) ->
  gwf (fun x => h x - own x (m_app_owner m)) (new_meter id m s).
Proof.
  intros [F G M GO MO A E] Hg Hid Hv.
  assert (FlowTbl.meter_refs (sw_fl s) !! id = None) as Hr.
  { apply eq_None_not_Some. rewrite <- M, Hg. by intros [? ?]. }
  split; auto.
  - eapply wf_frame; [exact F|done|done|done|done|apply F|]. cbn. apply refs_ok_new; [apply F|done].
  - intros i. cbn. destruct (decide (id = i)) as [->|]; [rewrite !lookup_insert_eq|rewrite !lookup_insert_ne by done]; [|done].
    split; eauto.
  - intros i x. cbn. destruct (decide (id = i)) as [->|]; [rewrite lookup_insert_eq|rewrite lookup_insert_ne by done; apply MO].
    intros ?; simplify_eq. done.
  - intros x. specialize (A x). unfold owned in *. cbn. rewrite msum_fresh by done.
    destruct (apps s !! x); cbn; lia.
Qed.

Lemma gwf_free_group h s id g :
  gwf h s -> groups s !! id = Some g -> FlowTbl.grp_refs (sw_fl s) !! id = Some 0 ->
  gwf (fun x => h x + own x (g_app_owner g)) (free_group id s).
Proof.
  intros [F G M GO MO A E] Hg Hr. split; auto.
  - eapply wf_frame; [exact F|done|done|done|done| |apply F]. cbn. apply refs_ok_unused; [apply F|done].
  - intros i. cbn. destruct (decide (id = i)) as [->|]; [rewrite !lookup_delete_eq|rewrite !lookup_delete_ne by done]; done.
  - intros i x. cbn. destruct (decide (id = i)) as [->|]; [by rewrite lookup_delete_eq|rewrite lookup_delete_ne by done; apply GO].
  - intros x. specialize (A x). unfold owned in *. cbn. rewrite (msum_delete _ _ _ g) by done.
    destruct (apps s !! x); cbn; lia.
Qed.

Lemma gwf_free_meter h s id m :
  gwf h s -> meters s !! id = Some m -> FlowTbl.meter_refs (sw_fl s) !! id = Some 0 ->
  gwf (fun x => h x + own x (m_app_owner m)) (free_meter id s).
Proof.
  intros [F G M GO MO A E] Hg Hr. split; auto.
  - eapply wf_frame; [exact F|done|done|done|done|apply F|]. cbn. apply refs_ok_unused; [apply F|done].
  - intros i. cbn. destruct (decide (id = i)) as [->|]; [rewrite !lookup_delete_eq|rewrite !lookup_delete_ne by done]; done.
  - intros i x. cbn. destruct (decide (id = i)) as [->|]; [by rewrite lookup_delete_eq|rewrite lookup_delete_ne by done; apply MO].
  - intros x. specialize (A x). unfold owned in *. cbn. rewrite (msum_delete _ _ _ m) by done.
    destruct (apps s !! x); cbn; lia.
Qed.

Lemma gwf_tx h m s : gwf h s -> gwf h (sw_tx m s).
Proof.
  intros [F G M GO MO A E]. split; auto. eapply wf_frame; [exact F|done|done|done|done|apply F|apply F].
Qed.

Lemma gwf_lock h b s : gwf h s -> gwf h (set_sw_lock b s).
Proof. by intros [F G M GO MO A E]; split. Qed.

Lemma gwf_exp h s app b :
  gwf h s -> msg_ok b -> gwf (fun x => h x - own x app) (set_exp_list (exp_list s ++ [mk_exp app b]) s).
Proof.
  intros [F G M GO MO A E] Hb. split; auto.
  - intros x. specialize (A x). unfold owned in *. cbn. rewrite map_app, cnt_app. cbn. fold (own x app).
    destruct (apps s !! x); lia.
  - apply Forall_app. split; [done|]. by constructor.
Qed.

#[export] Hint Resolve gwf_tx gwf_lock : mul.

(** ** Applications that operations take and release *)

Lemma app_ref_gwf h s x : gwf h s -> is_Some (apps s !! x) ->
  exists m, c_app_ref x s = Some (with_apps m s) /\ shifted (fun y => own y x) (apps s) m /\
    gwf (fun y => h y + own y x) (with_apps m s).
Proof.
  intros G Hx. destruct (app_ref_spec x s Hx) as (m & E & Hs). exists m. split_and!; [done|done|].
  eapply gwf_apps; [done| |].
  - eapply shifted_ext; [|exact Hs]. intros y. cbn. lia.
  - intros y. destruct (decide (x = y)) as [->|]; [by left|right]. unfold own.
    rewrite bool_decide_false by done. lia.
Qed.

Lemma app_put_gwf h s x : gwf h s -> 1 <= owned x s + h x ->
  exists m, c_app_put x s = Some (with_apps m s) /\ shifted (fun y => - own y x) (apps s) m /\
    gwf (fun y => h y - own y x) (with_apps m s).
Proof.
  intros G Hx. destruct (gwf_alive h s x G Hx) as (r & Hr & H1).
  destruct (app_put_spec x r s Hr H1) as (m & E & Hs). exists m. split_and!; [done|done|].
  eapply gwf_apps; [done| |].
  - eapply shifted_ext; [|exact Hs]. intros y. cbn. lia.
  - intros y. destruct (decide (x = y)) as [->|]; [left; eauto|right]. unfold own.
    rewrite bool_decide_false by done. lia.
Qed.

Lemma owned_group x s id g : groups s !! id = Some g -> own x (g_app_owner g) <= owned x s.
Proof.
  intros Hg. unfold owned.
  pose proof (msum_ge (fun g => own x (g_app_owner g)) (groups s) id g (fun g => proj1 (own_range x _)) Hg).
  pose proof (msum_nonneg (fun m => own x (m_app_owner m)) (meters s) (fun m => proj1 (own_range x _))).
  pose proof (cnt_nonneg x (map exp_app (exp_list s))). cbn in *. lia.
Qed.

Lemma owned_meter x s id m : meters s !! id = Some m -> own x (m_app_owner m) <= owned x s.
Proof.
  intros Hg. unfold owned.
  pose proof (msum_ge (fun m => own x (m_app_owner m)) (meters s) id m (fun g => proj1 (own_range x _)) Hg).
  pose proof (msum_nonneg (fun g => own x (g_app_owner g)) (groups s) (fun m => proj1 (own_range x _))).
  pose proof (cnt_nonneg x (map exp_app (exp_list s))). cbn in *. lia.
Qed.

Lemma own_self x : own x x = 1.
Proof. unfold own. by rewrite bool_decide_true. Qed.

Lemma with_apps_id s : with_apps (apps s) s = s.
Proof. by destruct s as [[] ? ? ? ? ? ? ? ?]. Qed.

(** ** Comparison of arrays *)

#[global] Instance bucket_eq_dec : EqDecision bucket.
Proof. solve_decision. Defined.
#[global] Instance band_eq_dec : EqDecision band_elem.
Proof. solve_decision. Defined.

Lemma bkt_same_eq x y : bkt_same x y = true <-> x = y.
Proof.
  destruct x, y. unfold bkt_same. cbn. rewrite !andb_true_iff, !Z.eqb_eq, bool_decide_eq_true. naive_solver.
Qed.

Lemma band_same_eq x y : band_same x y = true <-> x = y.
Proof. destruct x, y. unfold band_same. cbn. rewrite bool_decide_eq_true. naive_solver. Qed.

Lemma Forall2_same_eq {A} (same : A -> A -> bool) (l k : list A) :
  (forall x y, same x y = true <-> x = y) -> Forall2 (fun x y => same x y = true) l k <-> l = k.
Proof.
  intros Hs. split.
  - induction 1 as [|x y l k Hx _ IH]; [done|]. f_equal; [by apply Hs|done].
  - intros ->. induction k; constructor; [by apply Hs|done].
Qed.

Lemma to_vec_inj {A} (l k : list A) : to_vec l = to_vec k -> l = k.
Proof.
  unfold to_vec. generalize (Z.to_nat OF_MAX_ACT_VECTORS - length l)%nat as n.
  generalize (Z.to_nat OF_MAX_ACT_VECTORS - length k)%nat as n'.
  intros n' n. revert k. induction l as [|x l IH]; intros [|y k]; cbn; try done.
  - by destruct n.
  - by destruct n'.
  - intros ?; simplify_eq. f_equal. auto.
Qed.

(** The comparison of the code says exactly whether the arrays differ. *)
Lemma vec_diff_spec {A} `{EqDecision A} (same : A -> A -> bool) (v w : vec A) n k :
  (forall x y, same x y = true <-> x = y) -> vec_ok v n -> vec_ok w k ->
  (if n =? k then b ← vec_same same (Z.to_nat n) 0 v w; Some (negb b) else Some true) =
  Some (bool_decide (v <> w)).
Proof.
  intros Hs (l & _ & -> & ->) (l' & _ & -> & ->). destruct (Z.eqb_spec (Z.of_nat (length l)) (Z.of_nat (length l'))).
  - rewrite Nat2Z.id. destruct (vec_same_to_vec same l l' ltac:(lia)) as (b & -> & Hb). cbn. f_equal.
    rewrite (Forall2_same_eq same l l' Hs) in Hb. destruct b; cbn; symmetry.
    + apply bool_decide_eq_false. rewrite (proj1 Hb eq_refl). tauto.
    + apply bool_decide_eq_true. intros He. apply to_vec_inj in He. by apply Hb in He.
  - f_equal. symmetry. apply bool_decide_eq_true. intros He. apply to_vec_inj in He. congruence.
Qed.

(** The old array is emptied and the new one written into it. *)
Lemma vec_replace {A} (v w : vec A) n k : vec_ok v n -> vec_ok w k ->
  exists v', vec_clear n v = Some v' /\ vec_copy k w v' = Some w.
Proof.
  intros (l & Hl & -> & ->) (l' & Hl' & -> & ->). eexists. split; [by apply vec_clear_to_vec|].
  by apply vec_copy_to_vec.
Qed.

Lemma vec_init {A} (w : vec A) k : vec_ok w k -> vec_copy k w (replicate (Z.to_nat OF_MAX_ACT_VECTORS) None) = Some w.
Proof. intros (l' & Hl' & -> & ->). by apply vec_copy_to_vec. Qed.

Lemma vec_take_ok {A} (w : vec A) k : vec_ok w k -> exists l, w = to_vec l /\ vec_take k w = Some (map Some l).
Proof. intros (l & Hl & -> & ->). exists l. split; [done|]. by apply vec_take_to_vec. Qed.

(** ** What operations leave alone *)

Record frame (s s' : switch) : Prop := {
  fr_dpid : datapath_id s' = datapath_id s;
  fr_lock : sw_lock s' = sw_lock s;
  fr_apps : forall x, is_Some (apps s' !! x) <-> is_Some (apps s !! x);
  fr_ents : FlowTbl.ents (sw_fl s') = FlowTbl.ents (sw_fl s);
  fr_tbls : FlowTbl.rule_flow_tbls (sw_fl s') = FlowTbl.rule_flow_tbls (sw_fl s) }.

Lemma frame_refl s : frame s s.
Proof. done. Qed.
Lemma frame_trans s1 s2 s3 : frame s1 s2 -> frame s2 s3 -> frame s1 s3.
Proof.
  intros [A1 A2 A3 A4 A5] [B1 B2 B3 B4 B5]. split; [congruence|congruence| |congruence|congruence].
  intros x. by rewrite B3, A3.
Qed.

(** Messages to the switch, in order. *)
Definition sw_txs (l : list FlowTbl.msg) (s : switch) : switch :=
  set_sw_fl (FlowTbl.set_tx (FlowTbl.tx (sw_fl s) ++ l) (sw_fl s)) s.

Lemma gwf_txs h l s : gwf h s -> gwf h (sw_txs l s).
Proof.
  intros [F G M GO MO A E]. split; auto. eapply wf_frame; [exact F|done|done|done|done|apply F|apply F].
Qed.
Lemma frame_txs l s : frame s (sw_txs l s).
Proof. done. Qed.
Lemma sw_txs_nil s : sw_txs [] s = s.
Proof. unfold sw_txs. rewrite app_nil_r. by destruct s as [[] ? ? ? ? ? ? ? ?]. Qed.
Lemma sw_tx_txs m s : sw_tx m s = sw_txs [m] s.
Proof. done. Qed.
Lemma sw_txs_app l k s : sw_txs k (sw_txs l s) = sw_txs (l ++ k) s.
Proof. unfold sw_txs. cbn. by rewrite app_assoc. Qed.

(** ** Changes of a group *)

Section GROUPS.
Context (h : Z -> Z) (Hh : forall x, 0 <= h x).

Definition grp_ok (p : of_group_mod_params) : Prop := vec_ok (gp_act_vectors p) (gp_act_vec_len p).
Definition grp_foreign (g : c_switch_group) (p : of_group_mod_params) : bool :=
  negb (has (g_flags g) C_GRP_RESIDUAL) && negb (g_app_owner g =? gp_app_owner p).
Definition grp_takeover (g : c_switch_group) (p : of_group_mod_params) : bool :=
  has (g_flags g) C_GRP_RESIDUAL && negb (has (gp_flags p) C_GRP_RESIDUAL).
(** Other buckets, or an expired group: the switch has to learn of it. *)
Definition grp_differs (g : c_switch_group) (p : of_group_mod_params) : bool :=
  bool_decide (act_vectors g <> gp_act_vectors p) || has (g_flags g) C_GRP_EXPIRED.

(** The group that a request leaves, when it changes one and when it makes one. *)
Definition grp_changed (now : Z) (g : c_switch_group) (p : of_group_mod_params) : c_switch_group :=
  mk_grp (if grp_takeover g p then gp_app_owner p else g_app_owner g) (g_group g) (gp_type p) (gp_flags p)
    (gp_act_vectors p) (gp_act_vec_len p) false 0 now (g_stale_time g) (g_last_expired g) (g_try_expire_cnt g)
    (g_byte_count g) (g_packet_count g) (g_duration_sec g) (g_duration_nsec g).
Definition grp_stale (p : of_group_mod_params) : bool :=
  has (gp_flags p) C_GRP_RESIDUAL && negb (Z.land (Z.shiftr (gp_group p) 31) 1 =? 0).
Definition grp_created (now : Z) (p : of_group_mod_params) : c_switch_group :=
  mk_grp (gp_app_owner p) (gp_group p) (gp_type p)
    (if grp_stale p then Z.lor (gp_flags p) C_GRP_STALE else gp_flags p)
    (gp_act_vectors p) (gp_act_vec_len p) false 0 now (if grp_stale p then now else 0) 0 0 0 0 0 0.

Lemma group_modify_refused now g p install s :
  gwf h s -> groups s !! gp_group p = Some g -> grp_ok p ->
  grp_foreign g p || negb (grp_differs g p || grp_takeover g p) = true ->
  __c_switch_group_modify now (gp_group p) g p install s = Some (-1, install, s).
Proof.
  intros G Hg Hp Hr. unfold __c_switch_group_modify. fold (grp_foreign g p).
  destruct (grp_foreign g p); [done|]. cbn in Hr. unfold grp_bkt_diff.
  rewrite (vec_diff_spec bkt_same _ _ _ _ bkt_same_eq (proj2 (gw_gok h s G _ _ Hg)) Hp). cbn.
  fold (grp_differs g p) (grp_takeover g p). apply negb_true_iff, orb_false_iff in Hr as [-> ->]. done.
Qed.

Lemma group_modify_done now g p install s :
  gwf h s -> groups s !! gp_group p = Some g -> grp_ok p -> is_Some (apps s !! gp_app_owner p) ->
  grp_foreign g p = false -> grp_differs g p || grp_takeover g p = true ->
  exists m, __c_switch_group_modify now (gp_group p) g p install s =
      Some (0, if grp_takeover g p then grp_differs g p else install,
            put_group (gp_group p) (grp_changed now g p) (with_apps m s)) /\
    gwf h (put_group (gp_group p) (grp_changed now g p) (with_apps m s)) /\
    (forall x, is_Some (m !! x) <-> is_Some (apps s !! x)).
Proof.
  intros G Hg Hp Ha Hf Hd. destruct (gw_gok h s G _ _ Hg) as [Hid Hv].
  unfold __c_switch_group_modify. fold (grp_foreign g p). rewrite Hf. unfold grp_bkt_diff.
  rewrite (vec_diff_spec bkt_same _ _ _ _ bkt_same_eq Hv Hp). cbn [mbind option_bind].
  fold (grp_differs g p) (grp_takeover g p). rewrite Hd. cbn [negb].
  destruct (vec_replace _ _ _ _ Hv Hp) as (v' & Ev1 & Ev2). rewrite Ev1.
  unfold grp_changed. destruct (grp_takeover g p) eqn:Ht.
  - destruct (app_put_gwf h s (g_app_owner g) G) as (m1 & E1 & S1 & G1).
    { pose proof (owned_group (g_app_owner g) s _ g Hg) as Ho. rewrite own_self in Ho. specialize (Hh (g_app_owner g)). lia. }
    destruct (app_ref_gwf _ _ (gp_app_owner p) G1) as (m2 & E2 & S2 & G2).
    { cbn. by rewrite (shifted_dom _ _ _ _ S1). }
    rewrite E1. cbn [mbind option_bind]. rewrite E2. cbn [mbind option_bind]. rewrite Ev2. cbn [mbind option_bind].
    exists m2. split_and!; [done| |].
    + eapply gwf_ext; [|eapply (gwf_put_group _ _ _ g); [exact G2|done|done|done]]. intros x. cbn. lia.
    + intros x. by rewrite (shifted_dom _ _ _ _ S2), <- (shifted_dom _ _ _ _ S1).
  - cbn [mbind option_bind]. rewrite Ev2. cbn [mbind option_bind]. exists (apps s). rewrite with_apps_id.
    split_and!; [done| |done].
    eapply gwf_ext; [|eapply (gwf_put_group _ _ _ g); [exact G|done|done|done]]. intros x. cbn. lia.
Qed.

Lemma group_init_done now p s :
  gwf h s -> groups s !! gp_group p = None -> grp_ok p -> is_Some (apps s !! gp_app_owner p) ->
  exists m, c_switch_group_init now p s = Some (grp_created now p, with_apps m s) /\
    gwf h (new_group (gp_group p) (grp_created now p) (with_apps m s)) /\
    (forall x, is_Some (m !! x) <-> is_Some (apps s !! x)).
Proof.
  intros G Hg Hp Ha. unfold c_switch_group_init. rewrite (vec_init _ _ Hp). cbn [mbind option_bind].
  destruct (app_ref_gwf h s (gp_app_owner p) G Ha) as (m & E & S & G'). rewrite E. cbn [mbind option_bind].
  exists m. split_and!; [done| |intros x; by apply (shifted_dom _ _ _ _ S)].
  eapply gwf_ext; [|by eapply gwf_new_group]. intros x. cbn. lia.
Qed.

(** What is sent to install a group. *)
Definition grp_msgs (c : Ha.ctrl_hdl) (p : of_group_mod_params) (install modify : bool) : list FlowTbl.msg :=
  if Ha.c_switch_of_master_check c && install then
    FlowTbl.GroupAdd (gp_group p) (gp_type p) (take (Z.to_nat (gp_act_vec_len p)) (gp_act_vectors p)) modify ::
    (if has (gp_flags p) C_GRP_BARRIER_EN then [FlowTbl.Barrier] else [])
  else [].

Lemma grp_hw_install_done c p install modify s :
  grp_ok p -> grp_hw_install c p install modify s = Some (sw_txs (grp_msgs c p install modify) s).
Proof.
  intros Hp. unfold grp_hw_install, grp_msgs. destruct (_ && _); [|by rewrite sw_txs_nil].
  destruct (vec_take_ok _ _ Hp) as (l & _ & Hl). rewrite Hl. cbn [mbind option_bind].
  unfold vec_take in Hl. case_match; [|done]. simplify_eq. rewrite Hl.
  destruct (has _ _); [|done]. by rewrite !sw_tx_txs, sw_txs_app.
Qed.

(** The outcome of a request to add a group, on every branch. *)
Inductive group_add_effect (c : Ha.ctrl_hdl) (now : Z) (p : of_group_mod_params) (s : switch) : Z -> switch -> Prop :=
  | ga_invalid :
      C_SWITCH_SUPPORTS_GROUP s = false \/
      of131_group_validate_parms true (gp_group p) (gp_type p) (gp_act_vec_len p) = false ->
      group_add_effect c now p s (-1) s
  | ga_refused g :
      groups s !! gp_group p = Some g -> grp_foreign g p || negb (grp_differs g p || grp_takeover g p) = true ->
      group_add_effect c now p s (- FlowTbl.EEXIST)
        (put_group (gp_group p) (set_g_flags (clr (g_flags g) C_GRP_STALE) g) s)
  | ga_changed g m :
      groups s !! gp_group p = Some g -> grp_foreign g p = false -> grp_differs g p || grp_takeover g p = true ->
      group_add_effect c now p s 0
        (sw_txs (grp_msgs c p (if grp_takeover g p then grp_differs g p else true) true)
           (put_group (gp_group p) (grp_changed now g p) (with_apps m s)))
  | ga_created m :
      groups s !! gp_group p = None ->
      group_add_effect c now p s 0
        (sw_txs (grp_msgs c p (negb (has (gp_flags p) C_GRP_RESIDUAL)) false)
           (new_group (gp_group p) (grp_created now p) (with_apps m s))).

Lemma group_add_done c now p s :
  gwf h s -> sw_lock s = false -> grp_ok p -> is_Some (apps s !! gp_app_owner p) ->
  exists r s', c_switch_group_add c now p s = Some (r, s') /\ gwf h s' /\ frame s s' /\
    exp_list s' = exp_list s /\ group_add_effect c now p s r s'.
Proof.
  intros G Hl Hp Ha. unfold c_switch_group_add.
  destruct (C_SWITCH_SUPPORTS_GROUP s) eqn:Hs; cbn [negb];
    [|exists (-1), s; split_and!; try done; apply ga_invalid; auto].
  destruct (of131_group_validate_parms _ _ _ _) eqn:Hval; cbn [negb];
    [|exists (-1), s; split_and!; try done; apply ga_invalid; auto].
  unfold c_wr_lock. rewrite Hl. cbn [mbind option_bind]. change (groups (set_sw_lock true s)) with (groups s).
  pose proof (gwf_lock h true s G) as GL.
  destruct (groups s !! gp_group p) as [g|] eqn:Hg.
  - destruct (grp_foreign g p || negb (grp_differs g p || grp_takeover g p)) eqn:Hr.
    + rewrite (group_modify_refused now g p true _ GL Hg Hp Hr). cbn.
      rewrite Hg. cbn. do 2 eexists. split; [done|].
      assert (set_sw_lock false (put_group (gp_group p) (set_g_flags (clr (g_flags g) C_GRP_STALE) g) (set_sw_lock true s)) =
        put_group (gp_group p) (set_g_flags (clr (g_flags g) C_GRP_STALE) g) s) as -> by (destruct s; cbn in *; by subst).
      destruct (gw_gok h s G _ _ Hg) as [Hid Hv]. split_and!; [|done|done|by apply ga_refused].
      eapply gwf_ext; [|eapply (gwf_put_group _ _ _ g); [exact G|done|done|done]]. intros x. cbn. lia.
    + apply orb_false_iff in Hr as [Hf Hd]. apply negb_false_iff in Hd.
      destruct (group_modify_done now g p true _ GL Hg Hp Ha Hf Hd) as (m & E & G' & D). rewrite E. cbn.
      rewrite grp_hw_install_done by done. cbn. do 2 eexists. split; [done|].
      assert (set_sw_lock false (put_group (gp_group p) (grp_changed now g p) (with_apps m (set_sw_lock true s))) =
        put_group (gp_group p) (grp_changed now g p) (with_apps m s)) as Eq by (destruct s; cbn in *; by subst).
      rewrite Eq. split_and!; [|by split|done|by apply ga_changed].
      apply gwf_txs. rewrite <- Eq. by apply gwf_lock.
  - destruct (group_init_done now p _ GL Hg Hp Ha) as (m & E & G' & D). rewrite E. cbn.
    rewrite grp_hw_install_done by done. cbn. do 2 eexists. split; [done|].
    assert (set_sw_lock false (new_group (gp_group p) (grp_created now p) (with_apps m (set_sw_lock true s))) =
      new_group (gp_group p) (grp_created now p) (with_apps m s)) as Eq by (destruct s; cbn in *; by subst).
    rewrite Eq. split_and!; [|by split|done|by apply ga_created].
    apply gwf_txs. rewrite <- Eq. by apply gwf_lock.
Qed.

(** The outcome of a request to delete a group. *)
Inductive group_del_effect (c : Ha.ctrl_hdl) (p : of_group_mod_params) (s : switch) : Z -> switch -> Prop :=
  | gd_invalid :
      C_SWITCH_SUPPORTS_GROUP s = false \/
      of131_group_validate_parms false (gp_group p) (gp_type p) (gp_act_vec_len p) = false ->
      group_del_effect c p s (-1) s
  | gd_missing : groups s !! gp_group p = None -> group_del_effect c p s (-1) s
  | gd_used n :
      is_Some (groups s !! gp_group p) -> FlowTbl.grp_refs (sw_fl s) !! gp_group p = Some n -> n <> 0 ->
      group_del_effect c p s (-1) s
  | gd_foreign g :
      groups s !! gp_group p = Some g -> FlowTbl.grp_refs (sw_fl s) !! gp_group p = Some 0 ->
      g_app_owner g <> gp_app_owner p -> group_del_effect c p s 0 s
  | gd_done g m :
      groups s !! gp_group p = Some g -> FlowTbl.grp_refs (sw_fl s) !! gp_group p = Some 0 ->
      g_app_owner g = gp_app_owner p ->
      group_del_effect c p s 0
        (sw_txs (if Ha.c_switch_of_master_check c then [FlowTbl.GroupDel (gp_group p)] else [])
           (free_group (gp_group p) (with_apps m s))).

Lemma group_free_done s id g :
  gwf h s -> groups s !! id = Some g -> FlowTbl.grp_refs (sw_fl s) !! id = Some 0 ->
  exists m, c_switch_group_ent_free id s = Some (free_group id (with_apps m s)) /\
    gwf h (free_group id (with_apps m s)) /\ shifted (fun y => - own y (g_app_owner g)) (apps s) m.
Proof.
  intros G Hg Hr. unfold c_switch_group_ent_free. rewrite Hg. cbn [mbind option_bind].
  destruct (app_put_gwf h s (g_app_owner g) G) as (m & E & S & G').
  { pose proof (owned_group (g_app_owner g) s _ g Hg) as Ho. rewrite own_self in Ho. specialize (Hh (g_app_owner g)). lia. }
  rewrite E. cbn [mbind option_bind]. destruct (gw_gok h s G _ _ Hg) as [_ (l & Hl & Hv & Hn)].
  rewrite Hv, Hn, vec_clear_to_vec by done. cbn [mbind option_bind]. exists m. split_and!; [done| |done].
  eapply gwf_ext; [|eapply (gwf_free_group _ _ _ g); [exact G'|done|done]]. intros x. cbn. lia.
Qed.

Lemma group_del_done c p s :
  gwf h s -> sw_lock s = false ->
  exists r s', c_switch_group_del c p s = Some (r, s') /\ gwf h s' /\ frame s s' /\
    exp_list s' = exp_list s /\ group_del_effect c p s r s'.
Proof.
  intros G Hl. unfold c_switch_group_del.
  destruct (C_SWITCH_SUPPORTS_GROUP s) eqn:Hs; cbn [negb];
    [|exists (-1), s; split_and!; try done; apply gd_invalid; auto].
  destruct (of131_group_validate_parms _ _ _ _) eqn:Hval; cbn [negb];
    [|exists (-1), s; split_and!; try done; apply gd_invalid; auto].
  unfold c_wr_lock. rewrite Hl. cbn [mbind option_bind]. change (groups (set_sw_lock true s)) with (groups s).
  pose proof (gwf_lock h true s G) as GL.
  assert (set_sw_lock false (set_sw_lock true s) = s) as Eq by (destruct s; cbn in *; by subst).
  destruct (groups s !! gp_group p) as [g|] eqn:Hg.
  2:{ cbn. rewrite Eq. exists (-1), s. split_and!; try done. by apply gd_missing. }
  assert (is_Some (FlowTbl.grp_refs (sw_fl s) !! gp_group p)) as [n Hn] by (apply (gw_grp h s G); eauto).
  cbn. rewrite Hn. cbn. destruct (Z.eqb_spec n 0) as [->|Hz]; cbn.
  2:{ rewrite Eq. exists (-1), s. split_and!; try done. eapply gd_used; eauto. }
  destruct (Z.eqb_spec (g_app_owner g) (gp_app_owner p)) as [Ho|Ho]; cbn.
  2:{ rewrite Eq. exists 0, s. split_and!; try done. by eapply gd_foreign. }
  destruct (group_free_done _ _ g GL Hg Hn) as (m & E & G' & S). rewrite E. cbn.
  assert (set_sw_lock false (free_group (gp_group p) (with_apps m (set_sw_lock true s))) =
    free_group (gp_group p) (with_apps m s)) as Eq2 by (destruct s; cbn in *; by subst).
  exists 0, (sw_txs (if Ha.c_switch_of_master_check c then [FlowTbl.GroupDel (gp_group p)] else [])
    (free_group (gp_group p) (with_apps m s))). split_and!.
  - destruct (Ha.c_switch_of_master_check c); cbn; [|by rewrite sw_txs_nil, Eq2].
    rewrite sw_tx_txs. by rewrite <- Eq2.
  - apply gwf_txs. rewrite <- Eq2. by apply gwf_lock.
  - split; try done. intros x. cbn. by rewrite (shifted_dom _ _ _ _ S).
  - done.
  - by eapply gd_done.
Qed.

End GROUPS.
