(* ===== verification/MeterTblSpec.v ===== *)
(** * Meters: what the operations on them do

    As for groups: every operation keeps the invariant and has exactly the effects listed. *)
From stdpp Require Import base list gmap.
From Stdlib Require Import ZArith Lia.
From S2P Require Import Prelude Bytes Ha FlowTbl FlowTblSpec GroupTbl GroupTblSpec.
Import GroupTbl.
#[local] Open Scope Z_scope.

Notation apps s := (FlowTbl.app_refs (sw_fl s)).

(** ** Changes of a meter *)

Section METERS.
Context (h : Z -> Z) (Hh : forall x, 0 <= h x).

Definition meter_ok (p : of_meter_mod_params) : Prop := vec_ok (mp_meter_bands p) (mp_meter_nbands p).
Definition meter_foreign (g : c_switch_meter) (p : of_meter_mod_params) : bool :=
  negb (has (m_cflags g) C_METER_RESIDUAL) && negb (m_app_owner g =? mp_app_owner p).
Definition meter_takeover (g : c_switch_meter) (p : of_meter_mod_params) : bool :=
  has (m_cflags g) C_METER_RESIDUAL && negb (has (mp_cflags p) C_METER_RESIDUAL).
(** Other bands, or an expired meter: the switch has to learn of it. *)
Definition meter_differs (g : c_switch_meter) (p : of_meter_mod_params) : bool :=
  bool_decide (meter_bands g <> mp_meter_bands p) || has (m_cflags g) C_METER_EXPIRED.

(** The meter that a request leaves, when it changes one and when it makes one. *)
Definition meter_changed (now : Z) (g : c_switch_meter) (p : of_meter_mod_params) : c_switch_meter :=
  mk_meter (if meter_takeover g p then mp_app_owner p else m_app_owner g) (m_meter g) (mp_flags p) (mp_cflags p)
    (mp_meter_bands p) (mp_meter_nbands p) false 0 now (m_stale_time g) (m_last_expired g) (m_try_expire_cnt g)
    (m_flow_count g) (m_byte_count g) (m_packet_count g) (m_duration_sec g) (m_duration_nsec g).
Definition meter_stale (p : of_meter_mod_params) : bool :=
  has (mp_cflags p) C_METER_RESIDUAL && negb (Z.land (Z.shiftr (mp_meter p) 31) 1 =? 0).
Definition meter_created (now : Z) (p : of_meter_mod_params) : c_switch_meter :=
  mk_meter (mp_app_owner p) (mp_meter p) (mp_flags p)
    (if meter_stale p then Z.lor (mp_cflags p) C_METER_STALE else mp_cflags p)
    (mp_meter_bands p) (mp_meter_nbands p) false 0 now (if meter_stale p then now else 0) 0 0 0 0 0 0 0.

Lemma meter_modify_refused now g p install s :
  gwf h s -> meters s !! mp_meter p = Some g -> meter_ok p ->
  meter_foreign g p || negb (meter_differs g p || meter_takeover g p) = true ->
  __c_switch_meter_modify now (mp_meter p) g p install s = Some (-1, install, s).
Proof.
  intros G Hg Hp Hr. unfold __c_switch_meter_modify. fold (meter_foreign g p).
  destruct (meter_foreign g p); [done|]. cbn in Hr. unfold meter_bands_diff.
  rewrite (vec_diff_spec band_same _ _ _ _ band_same_eq (proj2 (gw_mok h s G _ _ Hg)) Hp). cbn.
  fold (meter_differs g p) (meter_takeover g p). apply negb_true_iff, orb_false_iff in Hr as [-> ->]. done.
Qed.

Lemma meter_modify_done now g p install s :
  gwf h s -> meters s !! mp_meter p = Some g -> meter_ok p -> is_Some (apps s !! mp_app_owner p) ->
  meter_foreign g p = false -> meter_differs g p || meter_takeover g p = true ->
  exists m, __c_switch_meter_modify now (mp_meter p) g p install s =
      Some (0, if meter_takeover g p then meter_differs g p else install,
            put_meter (mp_meter p) (meter_changed now g p) (with_apps m s)) /\
    gwf h (put_meter (mp_meter p) (meter_changed now g p) (with_apps m s)) /\
    (forall x, is_Some (m !! x) <-> is_Some (apps s !! x)).
Proof.
  intros G Hg Hp Ha Hf Hd. destruct (gw_mok h s G _ _ Hg) as [Hid Hv].
  unfold __c_switch_meter_modify. fold (meter_foreign g p). rewrite Hf. unfold meter_bands_diff.
  rewrite (vec_diff_spec band_same _ _ _ _ band_same_eq Hv Hp). cbn [mbind option_bind].
  fold (meter_differs g p) (meter_takeover g p). rewrite Hd. cbn [negb].
  destruct (vec_replace _ _ _ _ Hv Hp) as (v' & Ev1 & Ev2). rewrite Ev1.
  unfold meter_changed. destruct (meter_takeover g p) eqn:Ht.
  - destruct (app_put_gwf h s (m_app_owner g) G) as (m1 & E1 & S1 & G1).
    { pose proof (owned_meter (m_app_owner g) s _ g Hg) as Ho. rewrite own_self in Ho. specialize (Hh (m_app_owner g)). lia. }
    destruct (app_ref_gwf _ _ (mp_app_owner p) G1) as (m2 & E2 & S2 & G2).
    { cbn. by rewrite (shifted_dom _ _ _ _ S1). }
    rewrite E1. cbn [mbind option_bind]. rewrite E2. cbn [mbind option_bind]. rewrite Ev2. cbn [mbind option_bind].
    exists m2. split_and!; [done| |].
    + eapply gwf_ext; [|eapply (gwf_put_meter _ _ _ g); [exact G2|done|done|done]]. intros x. cbn. lia.
    + intros x. by rewrite (shifted_dom _ _ _ _ S2), <- (shifted_dom _ _ _ _ S1).
  - cbn [mbind option_bind]. rewrite Ev2. cbn [mbind option_bind]. exists (apps s). rewrite with_apps_id.
    split_and!; [done| |done].
    eapply gwf_ext; [|eapply (gwf_put_meter _ _ _ g); [exact G|done|done|done]]. intros x. cbn. lia.
Qed.

Lemma meter_init_done now p s :
  gwf h s -> meters s !! mp_meter p = None -> meter_ok p -> is_Some (apps s !! mp_app_owner p) ->
  exists m, c_switch_meter_init now p s = Some (meter_created now p, with_apps m s) /\
    gwf h (new_meter (mp_meter p) (meter_created now p) (with_apps m s)) /\
    (forall x, is_Some (m !! x) <-> is_Some (apps s !! x)).
Proof.
  intros G Hg Hp Ha. unfold c_switch_meter_init. rewrite (vec_init _ _ Hp). cbn [mbind option_bind].
  destruct (app_ref_gwf h s (mp_app_owner p) G Ha) as (m & E & S & G'). rewrite E. cbn [mbind option_bind].
  exists m. split_and!; [done| |intros x; by apply (shifted_dom _ _ _ _ S)].
  eapply gwf_ext; [|by eapply gwf_new_meter]. intros x. cbn. lia.
Qed.

(** What is sent to install a meter. *)
Definition meter_msgs (c : Ha.ctrl_hdl) (p : of_meter_mod_params) (install modify : bool) : list FlowTbl.msg :=
  if Ha.c_switch_of_master_check c && install then
    FlowTbl.MeterAdd (mp_meter p) (mp_flags p) (take (Z.to_nat (mp_meter_nbands p)) (mp_meter_bands p)) modify ::
    (if has (mp_cflags p) C_METER_BARRIER_EN then [FlowTbl.Barrier] else [])
  else [].

Lemma meter_hw_install_done c p install modify s :
  meter_ok p -> meter_hw_install c p install modify s = Some (sw_txs (meter_msgs c p install modify) s).
Proof.
  intros Hp. unfold meter_hw_install, meter_msgs. destruct (_ && _); [|by rewrite sw_txs_nil].
  destruct (vec_take_ok _ _ Hp) as (l & _ & Hl). rewrite Hl. cbn [mbind option_bind].
  unfold vec_take in Hl. case_match; [|done]. simplify_eq. rewrite Hl.
  destruct (has _ _); [|done]. by rewrite !sw_tx_txs, sw_txs_app.
Qed.

(** The outcome of a request to add a meter, on every branch. *)
Inductive meter_add_effect (c : Ha.ctrl_hdl) (now : Z) (p : of_meter_mod_params) (s : switch) : Z -> switch -> Prop :=
  | ma_invalid :
      C_SWITCH_SUPPORTS_METER s = false ->
      meter_add_effect c now p s (-1) s
  | ma_refused g :
      meters s !! mp_meter p = Some g -> meter_foreign g p || negb (meter_differs g p || meter_takeover g p) = true ->
      meter_add_effect c now p s (- FlowTbl.EEXIST)
        (put_meter (mp_meter p) (set_m_flags (clr (m_flags g) C_METER_STALE) (m_cflags g) g) s)
  | ma_changed g m :
      meters s !! mp_meter p = Some g -> meter_foreign g p = false -> meter_differs g p || meter_takeover g p = true ->
      meter_add_effect c now p s 0
        (sw_txs (meter_msgs c p (if meter_takeover g p then meter_differs g p else true) true)
           (put_meter (mp_meter p) (meter_changed now g p) (with_apps m s)))
  | ma_created m :
      meters s !! mp_meter p = None ->
      meter_add_effect c now p s 0
        (sw_txs (meter_msgs c p (negb (has (mp_cflags p) C_METER_RESIDUAL)) false)
           (new_meter (mp_meter p) (meter_created now p) (with_apps m s))).

Lemma meter_add_done c now p s :
  gwf h s -> sw_lock s = false -> meter_ok p -> is_Some (apps s !! mp_app_owner p) ->
  exists r s', c_switch_meter_add c now p s = Some (r, s') /\ gwf h s' /\ frame s s' /\
    exp_list s' = exp_list s /\ meter_add_effect c now p s r s'.
Proof.
  intros G Hl Hp Ha. unfold c_switch_meter_add.
  destruct (C_SWITCH_SUPPORTS_METER s) eqn:Hs; cbn [negb];
    [|exists (-1), s; split_and!; try done; by apply ma_invalid].
  unfold c_wr_lock. rewrite Hl. cbn [mbind option_bind]. change (meters (set_sw_lock true s)) with (meters s).
  pose proof (gwf_lock h true s G) as GL.
  destruct (meters s !! mp_meter p) as [g|] eqn:Hg.
  - destruct (meter_foreign g p || negb (meter_differs g p || meter_takeover g p)) eqn:Hr.
    + rewrite (meter_modify_refused now g p true _ GL Hg Hp Hr). cbn.
      rewrite Hg. cbn. do 2 eexists. split; [done|].
      assert (set_sw_lock false (put_meter (mp_meter p) (set_m_flags (clr (m_flags g) C_METER_STALE) (m_cflags g) g) (set_sw_lock true s)) =
        put_meter (mp_meter p) (set_m_flags (clr (m_flags g) C_METER_STALE) (m_cflags g) g) s) as -> by (destruct s; cbn in *; by subst).
      destruct (gw_mok h s G _ _ Hg) as [Hid Hv]. split_and!; [|done|done|by apply ma_refused].
      eapply gwf_ext; [|eapply (gwf_put_meter _ _ _ g); [exact G|done|done|done]]. intros x. cbn. lia.
    + apply orb_false_iff in Hr as [Hf Hd]. apply negb_false_iff in Hd.
      destruct (meter_modify_done now g p true _ GL Hg Hp Ha Hf Hd) as (m & E & G' & D). rewrite E. cbn.
      rewrite meter_hw_install_done by done. cbn. do 2 eexists. split; [done|].
      assert (set_sw_lock false (put_meter (mp_meter p) (meter_changed now g p) (with_apps m (set_sw_lock true s))) =
        put_meter (mp_meter p) (meter_changed now g p) (with_apps m s)) as Eq by (destruct s; cbn in *; by subst).
      rewrite Eq. split_and!; [|by split|done|by apply ma_changed].
      apply gwf_txs. rewrite <- Eq. by apply gwf_lock.
  - destruct (meter_init_done now p _ GL Hg Hp Ha) as (m & E & G' & D). rewrite E. cbn.
    rewrite meter_hw_install_done by done. cbn. do 2 eexists. split; [done|].
    assert (set_sw_lock false (new_meter (mp_meter p) (meter_created now p) (with_apps m (set_sw_lock true s))) =
      new_meter (mp_meter p) (meter_created now p) (with_apps m s)) as Eq by (destruct s; cbn in *; by subst).
    rewrite Eq. split_and!; [|by split|done|by apply ma_created].
    apply gwf_txs. rewrite <- Eq. by apply gwf_lock.
Qed.

(** The outcome of a request to delete a meter. *)
Inductive meter_del_effect (c : Ha.ctrl_hdl) (p : of_meter_mod_params) (s : switch) : Z -> switch -> Prop :=
  | md_invalid :
      C_SWITCH_SUPPORTS_METER s = false ->
      meter_del_effect c p s (-1) s
  | md_missing : meters s !! mp_meter p = None -> meter_del_effect c p s (-1) s
  | md_used n :
      is_Some (meters s !! mp_meter p) -> FlowTbl.meter_refs (sw_fl s) !! mp_meter p = Some n -> n <> 0 ->
      meter_del_effect c p s (-1) s
  | md_foreign g :
      meters s !! mp_meter p = Some g -> FlowTbl.meter_refs (sw_fl s) !! mp_meter p = Some 0 ->
      m_app_owner g <> mp_app_owner p -> meter_del_effect c p s 0 s
  | md_done g m :
      meters s !! mp_meter p = Some g -> FlowTbl.meter_refs (sw_fl s) !! mp_meter p = Some 0 ->
      m_app_owner g = mp_app_owner p ->
      meter_del_effect c p s 0
        (sw_txs (if Ha.c_switch_of_master_check c then [FlowTbl.MeterDel (mp_meter p)] else [])
           (free_meter (mp_meter p) (with_apps m s))).

Lemma meter_free_done s id g :
  gwf h s -> meters s !! id = Some g -> FlowTbl.meter_refs (sw_fl s) !! id = Some 0 ->
  exists m, c_switch_meter_ent_free id s = Some (free_meter id (with_apps m s)) /\
    gwf h (free_meter id (with_apps m s)) /\ shifted (fun y => - own y (m_app_owner g)) (apps s) m.
Proof.
  intros G Hg Hr. unfold c_switch_meter_ent_free. rewrite Hg. cbn [mbind option_bind].
  destruct (app_put_gwf h s (m_app_owner g) G) as (m & E & S & G').
  { pose proof (owned_meter (m_app_owner g) s _ g Hg) as Ho. rewrite own_self in Ho. specialize (Hh (m_app_owner g)). lia. }
  rewrite E. cbn [mbind option_bind]. destruct (gw_mok h s G _ _ Hg) as [_ (l & Hl & Hv & Hn)].
  rewrite Hv, Hn, vec_clear_to_vec by done. cbn [mbind option_bind]. exists m. split_and!; [done| |done].
  eapply gwf_ext; [|eapply (gwf_free_meter _ _ _ g); [exact G'|done|done]]. intros x. cbn. lia.
Qed.

Lemma meter_del_done c p s :
  gwf h s -> sw_lock s = false ->
  exists r s', c_switch_meter_del c p s = Some (r, s') /\ gwf h s' /\ frame s s' /\
    exp_list s' = exp_list s /\ meter_del_effect c p s r s'.
Proof.
  intros G Hl. unfold c_switch_meter_del.
  destruct (C_SWITCH_SUPPORTS_METER s) eqn:Hs; cbn [negb];
    [|exists (-1), s; split_and!; try done; by apply md_invalid].
  unfold c_wr_lock. rewrite Hl. cbn [mbind option_bind]. change (meters (set_sw_lock true s)) with (meters s).
  pose proof (gwf_lock h true s G) as GL.
  assert (set_sw_lock false (set_sw_lock true s) = s) as Eq by (destruct s; cbn in *; by subst).
  destruct (meters s !! mp_meter p) as [g|] eqn:Hg.
  2:{ cbn. rewrite Eq. exists (-1), s. split_and!; try done. by apply md_missing. }
  assert (is_Some (FlowTbl.meter_refs (sw_fl s) !! mp_meter p)) as [n Hn] by (apply (gw_meter h s G); eauto).
  cbn. rewrite Hn. cbn. destruct (Z.eqb_spec n 0) as [->|Hz]; cbn.
  2:{ rewrite Eq. exists (-1), s. split_and!; try done. eapply md_used; eauto. }
  destruct (Z.eqb_spec (m_app_owner g) (mp_app_owner p)) as [Ho|Ho]; cbn.
  2:{ rewrite Eq. exists 0, s. split_and!; try done. by eapply md_foreign. }
  destruct (meter_free_done _ _ g GL Hg Hn) as (m & E & G' & S). rewrite E. cbn.
  assert (set_sw_lock false (free_meter (mp_meter p) (with_apps m (set_sw_lock true s))) =
    free_meter (mp_meter p) (with_apps m s)) as Eq2 by (destruct s; cbn in *; by subst).
  exists 0, (sw_txs (if Ha.c_switch_of_master_check c then [FlowTbl.MeterDel (mp_meter p)] else [])
    (free_meter (mp_meter p) (with_apps m s))). split_and!.
  - destruct (Ha.c_switch_of_master_check c); cbn; [|by rewrite sw_txs_nil, Eq2].
    rewrite sw_tx_txs. by rewrite <- Eq2.
  - apply gwf_txs. rewrite <- Eq2. by apply gwf_lock.
  - split; try done. intros x. cbn. by rewrite (shifted_dom _ _ _ _ S).
  - done.
  - by eapply md_done.
Qed.

End METERS.
