(* ===== verification/GroupCmd.v ===== *)
(** * Commands on groups and meters (mul_app_interface.c, mul_of.c)

    An application, the peer controller or the expiry of an entry asks for a change of a
    group or a meter with a message; these definitions read it, check it
    and run the operation.  A message is the list of its bytes; a read beyond it
    has no result ([None]).  [validate_acts] and the functions that check the features of a
    switch are pointers in the table of the protocol version: they are arguments.
    The reply to a remote application is not part of the state and is left out. *)
From stdpp Require Import base list gmap.
From Stdlib Require Import ZArith Lia.
From S2P Require Import Prelude Bytes Ha FlowTbl GroupTbl.
#[local] Open Scope Z_scope.

Module GroupCmd.
Import Bytes GroupTbl.

Section COMMANDS.
(** Validation of the actions of a bucket: [None] for an error, otherwise whether they are local. *)
Context (validate_acts : list Z -> option bool).
(** The checks of a request against the features that the switch reported; 0 is success. *)
Context (group_validate_feat : of_group_mod_params -> Z) (meter_validate_feat : of_meter_mod_params -> Z).
(** Whether an application came in through the auxiliary interface, and the application that
    such commands are run for, when it is registered. *)
Context (aux_remote : Z -> bool) (vty_app : option Z).

(** The loop over the buckets: at most [n] more, from offset [dist], with [tot_len] bytes left.
    Whether they are valid, the flags of the group, and the buckets. *)
Fixpoint parse_bkts (n : nat) (b : list Z) (dist : nat) (tot_len flags : Z) (acc : list bucket)
  : option (bool * Z * list bucket) :=
  match n with
  | O => Some (true, flags, acc)
  | S n =>
      if tot_len <? 16 then Some (true, flags, acc)
      else
        act_len ← rd_le b (dist + 2) 2;
        let act_len := ntohs act_len in
        if tot_len - 16 <? act_len then Some (false, flags, acc)
        else
          acts ← rd b (dist + 16) (Z.to_nat act_len);
          w ← rd_le b dist 2; p ← rd_le b (dist + 4) 4; g ← rd_le b (dist + 8) 4;
          let acc := acc ++ [FlowTbl.mk_bkt (ntohs w) (ntohl p) (ntohl g) acts] in
          match validate_acts acts with
          | None => Some (false, flags, acc)
          | Some local =>
              parse_bkts n b (dist + 16 + Z.to_nat act_len) (tot_len - (act_len + 16))
                (if local then Z.lor flags C_GRP_LOCAL else flags) acc
          end
  end.

(** The loop over the bands. *)
Fixpoint parse_bands (n : nat) (b : list Z) (dist : nat) (tot_len : Z) (acc : list band_elem)
  : option (bool * list band_elem) :=
  match n with
  | O => Some (true, acc)
  | S n =>
      if tot_len <? 12 then Some (true, acc)
      else
        band_len ← rd_le b (dist + 2) 2;
        let band_len := ntohs band_len in
        if tot_len <? band_len then Some (false, acc)
        else
          x ← rd b dist (Z.to_nat band_len);
          parse_bands n b (dist + Z.to_nat band_len) (tot_len - band_len) (acc ++ [FlowTbl.mk_band x])
  end.

(** The application that a command is run for, with a reference when it is another one. *)
Definition cmd_app (app : Z) (s : switch) : option (Z * switch) :=
  if aux_remote app then
    match vty_app with
    | Some v => s ← c_app_ref v s; Some (v, s)
    | None => Some (app, s)
    end
  else Some (app, s).
Definition cmd_app_put (app_arg app : Z) (s : switch) : option switch :=
  if app =? app_arg then Some s else c_app_put app s.

(** [c_ha_proc] of the command: only the master forwards it. *)
Definition ha_forward (c : Ha.ctrl_hdl) (fwd : bool) (b : list Z) (s : switch) : switch :=
  if fwd && Ha.c_ha_master c then sw_tx (FlowTbl.HaCmd b) s else s.

(** The operation of a command on a group, once its buckets are read. *)
Definition group_mod_run (c : Ha.ctrl_hdl) (now : Z) (add : bool) (p : of_group_mod_params) (s : switch)
  : option (Z * switch) :=
  if add then
    if negb (group_validate_feat p =? 0) then Some (group_validate_feat p, s) else c_switch_group_add c now p s
  else c_switch_group_del c p s.

(** The request of a message with a valid header: whether its buckets are valid, its flags, the request. *)
Definition read_group_mod (b : list Z) (tot_len app : Z) : option (bool * Z * of_group_mod_params) :=
  id ← rd_le b 20 4; type ← rd_le b 17 1; flags ← rd_le b 18 1;
  '(ok, fl, bkts) ← parse_bkts (Z.to_nat OF_MAX_ACT_VECTORS) b 48 (tot_len - 48) flags [];
  Some (ok, flags, mk_gparms app (ntohl id) type fl (to_vec bkts) (Z.of_nat (length bkts))).

Definition group_mod_exec (c : Ha.ctrl_hdl) (now : Z) (add : bool) (app : Z) (b : list Z) (tot_len : Z)
    (s : switch) : option (Z * switch) :=
  '(ok, flags, p) ← read_group_mod b tot_len app;
  '(ret, s) ← (if (ok : bool) then group_mod_run c now add p s else Some (-1, s));
  Some (ret, ha_forward c ((has flags C_GRP_STATIC || has flags C_GRP_RESIDUAL) && (ret =? 0)) b s).

Definition c_app_group_mod_command (c : Ha.ctrl_hdl) (now app_arg : Z) (b : list Z) (s : switch)
  : option (Z * switch) :=
  len ← rd_le b 2 2;
  let tot_len := ntohs len in
  if tot_len <? 48 then Some (-1, s)
  else
    command ← rd_le b 16 1;
    if negb ((command =? C_OFPG_ADD) || (command =? C_OFPG_DEL)) then Some (-1, s)
    else
      dpid ← rd_le b 8 8;
      if negb (ntohll dpid =? datapath_id s) then Some (-1, s)
      else
        '(app, s) ← cmd_app app_arg s;
        '(ret, s) ← group_mod_exec c now (command =? C_OFPG_ADD) app b tot_len s;
        s ← cmd_app_put app_arg app s; Some (ret, s).

Definition meter_mod_run (c : Ha.ctrl_hdl) (now : Z) (add : bool) (p : of_meter_mod_params) (s : switch)
  : option (Z * switch) :=
  if add then
    if negb (meter_validate_feat p =? 0) then Some (meter_validate_feat p, s) else c_switch_meter_add c now p s
  else c_switch_meter_del c p s.

Definition read_meter_mod (b : list Z) (tot_len app : Z) : option (bool * Z * of_meter_mod_params) :=
  id ← rd_le b 20 4; flags ← rd_le b 18 2; cflags ← rd_le b 17 1;
  '(ok, bands) ← parse_bands (Z.to_nat OF_MAX_METER_VECTORS) b 56 (tot_len - 56) [];
  Some (ok, cflags, mk_mparms app (ntohl id) (ntohs flags) cflags (to_vec bands) (Z.of_nat (length bands))).

Definition meter_mod_exec (c : Ha.ctrl_hdl) (now : Z) (add : bool) (app : Z) (b : list Z) (tot_len : Z)
    (s : switch) : option (Z * switch) :=
  '(ok, cflags, p) ← read_meter_mod b tot_len app;
  '(ret, s) ← (if (ok : bool) then meter_mod_run c now add p s else Some (-1, s));
  Some (ret, ha_forward c ((has cflags C_METER_STATIC || has cflags C_METER_RESIDUAL) && (ret =? 0)) b s).

Definition c_app_meter_mod_command (c : Ha.ctrl_hdl) (now app_arg : Z) (b : list Z) (s : switch)
  : option (Z * switch) :=
  len ← rd_le b 2 2;
  let tot_len := ntohs len in
  if tot_len <? 56 then Some (-1, s)
  else
    command ← rd_le b 16 1;
    if negb ((command =? C_OFPMC_ADD) || (command =? C_OFPMC_DEL)) then Some (-1, s)
    else
      dpid ← rd_le b 8 8;
      if negb (ntohll dpid =? datapath_id s) then Some (-1, s)
      else
        '(app, s) ← cmd_app app_arg s;
        '(ret, s) ← meter_mod_exec c now (command =? C_OFPMC_ADD) app b tot_len s;
        s ← cmd_app_put app_arg app s; Some (ret, s).

(** [__mul_app_command_handler] on the two messages that are read here. *)
Definition __mul_app_command_handler (c : Ha.ctrl_hdl) (now app : Z) (b : list Z) (s : switch)
  : option (Z * switch) :=
  type ← rd_le b 1 1;
  if type =? C_OFPT_GROUP_MOD then c_app_group_mod_command c now app b s
  else if type =? C_OFPT_METER_MOD then c_app_meter_mod_command c now app b s
  else None.

(** ** What expired is deleted for its owner *)

Fixpoint run_expired (l : list c_sw_expired_ent) (c : Ha.ctrl_hdl) (now : Z) (s : switch) : option switch :=
  match l with
  | [] => Some s
  | e :: l => '(_, s) ← __mul_app_command_handler c now (exp_app e) (exp_b e) s; run_expired l c now s
  end.
Fixpoint unref_expired (l : list c_sw_expired_ent) (s : switch) : option switch :=
  match l with
  | [] => Some s
  | e :: l => f ← FlowTbl.c_app_unref (exp_app e) (sw_fl s); unref_expired l (set_sw_fl f s)
  end.
Definition c_sw_trigger_expiry (c : Ha.ctrl_hdl) (now : Z) (s : switch) : option switch :=
  s ← run_expired (exp_list s) c now s;
  s ← unref_expired (exp_list s) s;
  Some (set_exp_list [] s).

(** ** Errors that the switch reports *)

(** [c_signal_app_event] takes the locks of the controller and of the switch. *)
Definition signal_event (c : Ha.ctrl_hdl) (now : Z) (s : switch) : option switch :=
  s ← c_sw_trigger_expiry c now s;
  if sw_lock s then None else Some s.

(** [b] is the refused message as the switch returned it.  For the deletion of an unknown group the
    code goes on with the lock held. *)
Definition of131_recv_err_group_mod (c : Ha.ctrl_hdl) (now xid : Z) (b : list Z) (msg_len : Z) (s : switch)
  : option switch :=
  if msg_len <? 16 then Some s
  else
    id ← rd_le b 12 4; cmd ← rd_le b 8 2;
    s ← c_wr_lock s;
    match groups s !! ntohl id with
    | None => if ntohs cmd =? OFPGC_DELETE then signal_event c now s else c_wr_unlock s
    | Some g =>
        m ← c_of_prep_group_mod_msg (datapath_id s) xid g false;
        s ← expire (g_app_owner g) m s;
        s ← c_wr_unlock s; signal_event c now s
    end.

Definition of131_recv_err_meter_mod (c : Ha.ctrl_hdl) (now xid : Z) (b : list Z) (msg_len : Z) (s : switch)
  : option switch :=
  if msg_len <? 16 then Some s
  else
    id ← rd_le b 12 4; cmd ← rd_le b 8 2;
    s ← c_wr_lock s;
    match meters s !! ntohl id with
    | None => if ntohs cmd =? OFPMC_DELETE then signal_event c now s else c_wr_unlock s
    | Some m =>
        x ← c_of_prep_meter_mod_msg (datapath_id s) xid m false;
        s ← expire (m_app_owner m) x s;
        s ← c_wr_unlock s; signal_event c now s
    end.

(** The scan of the groups and meters of a switch. *)
Definition c_switch_group_traverse_all (c : Ha.ctrl_hdl) (now xid : Z) (s : switch) : option switch :=
  scan_groups (map fst (map_to_list (groups s))) c now xid s.
Definition c_switch_meter_traverse_all (c : Ha.ctrl_hdl) (now xid : Z) (s : switch) : option switch :=
  scan_meters (map fst (map_to_list (meters s))) c now xid s.

End COMMANDS.
End GroupCmd.
