(* ===== verification/GroupCmdSpec.v ===== *)
(** * Commands on groups and meters: safety, effects and round trip *)
From stdpp Require Import base list gmap.
From Stdlib Require Import ZArith Lia.
From S2P Require Import Prelude Bytes Ha FlowTbl FlowTblSpec GroupTbl GroupTblSpec MeterTblSpec GroupCmd.
Import Bytes GroupTbl GroupCmd.
#[local] Open Scope Z_scope.

(** ** Reading messages *)

Lemma obind_Some {A B} (f : A -> option B) x : (Some x ≫= f) = f x.
Proof. done. Qed.

Lemma rd_skip a b off n : (length a <= off)%nat -> rd (a ++ b) off n = rd b (off - length a) n.
Proof.
  intros Ha. unfold rd. rewrite length_app.
  destruct (Nat.leb_spec (off + n) (length a + length b)), (Nat.leb_spec (off - length a + n) (length b)); try lia; [|done].
  rewrite drop_app_ge by done. done.
Qed.

Lemma rd_here a b n : n = length a -> rd (a ++ b) 0 n = Some a.
Proof. intros ->. rewrite rd_Some by (rewrite length_app; lia). rewrite drop_0. by rewrite take_app_length. Qed.

Lemma rd_le_Some b off n : (off + n <= length b)%nat -> exists v, rd_le b off n = Some v.
Proof. intros H. unfold rd_le. rewrite rd_Some by done. cbn. eauto. Qed.

Lemma rd_le_le n v post : 0 <= v < 256 ^ Z.of_nat n -> rd_le (le_bytes n v ++ post) 0 n = Some v.
Proof. intros Hv. unfold rd_le. rewrite rd_here by by rewrite le_bytes_length. cbn. by rewrite le_val_le_bytes. Qed.

(** Reads the field of a message that is written as the list of its fields. *)
Ltac rd_field :=
  unfold rd_le;
  repeat (rewrite rd_skip by (rewrite ?le_bytes_length; cbn; lia); rewrite ?le_bytes_length; cbn [length Nat.sub]);
  rewrite rd_here by (rewrite ?le_bytes_length; done); cbn [mbind option_bind].

Lemma prep_group_del_ok dpid xid g :
  exists b, c_of_prep_group_mod_msg dpid xid g false = Some b /\ msg_ok b.
Proof.
  unfold c_of_prep_group_mod_msg. cbn [mbind option_bind length]. eexists. split; [done|].
  unfold msg_ok, ofp_hdr. do 2 eexists. rewrite <- !app_assoc. split_and!.
  - rd_field. done.
  - rewrite !length_app, !le_bytes_length. done.
  - rd_field. done.
  - by left.
Qed.

Lemma prep_meter_del_ok dpid xid m :
  exists b, c_of_prep_meter_mod_msg dpid xid m false = Some b /\ msg_ok b.
Proof.
  unfold c_of_prep_meter_mod_msg. cbn [mbind option_bind length]. eexists. split; [done|].
  unfold msg_ok, ofp_hdr. do 2 eexists. rewrite <- !app_assoc. split_and!.
  - rd_field. done.
  - rewrite !length_app, !le_bytes_length. done.
  - rd_field. done.
  - by right.
Qed.

Lemma rd_le_range b off n v : is_bytes b -> rd_le b off n = Some v -> 0 <= v < 256 ^ Z.of_nat n.
Proof.
  intros Hb. unfold rd_le. destruct (rd b off n) as [bs|] eqn:E; cbn; [|done]. intros ?; simplify_eq.
  pose proof (rd_length _ _ _ _ E) as <-. apply le_val_range. by eapply rd_bytes.
Qed.

Lemma ntohs_range v : 0 <= ntohs v < 65536.
Proof. apply (bswap_range 2). Qed.

Section COMMANDS.
Context (validate_acts : list Z -> option bool).
Context (group_validate_feat : of_group_mod_params -> Z) (meter_validate_feat : of_meter_mod_params -> Z).
Context (aux_remote : Z -> bool) (vty_app : option Z).
Notation parse_bkts := (parse_bkts validate_acts).
Notation group_cmd := (c_app_group_mod_command validate_acts group_validate_feat aux_remote vty_app).
Notation meter_cmd := (c_app_meter_mod_command meter_validate_feat aux_remote vty_app).
Notation handler := (__mul_app_command_handler validate_acts group_validate_feat meter_validate_feat aux_remote vty_app).

(** The loops read only what the message holds, and at most as many elements as the array has. *)
Lemma parse_bkts_safe n b : forall dist tot flags acc,
  0 <= tot -> Z.of_nat dist + tot <= Z.of_nat (length b) ->
  exists ok fl bk, parse_bkts n b dist tot flags acc = Some (ok, fl, bk) /\ (length bk <= length acc + n)%nat.
Proof.
  induction n as [|n IH]; intros dist tot flags acc Ht Hb; cbn [GroupCmd.parse_bkts].
  { do 3 eexists. split; [done|]. lia. }
  destruct (Z.ltb_spec tot 16); [do 3 eexists; split; [done|]; lia|].
  destruct (rd_le_Some b (dist + 2) 2) as [al ->]; [lia|]. cbn [mbind option_bind].
  pose proof (ntohs_range al) as Ha. destruct (Z.ltb_spec (tot - 16) (ntohs al)).
  { do 3 eexists; split; [done|]; lia. }
  destruct (rd_is_Some b (dist + 16) (Z.to_nat (ntohs al))) as [acts ->]; [lia|]. cbn [mbind option_bind].
  destruct (rd_le_Some b dist 2) as [w ->]; [lia|]. cbn [mbind option_bind].
  destruct (rd_le_Some b (dist + 4) 4) as [p ->]; [lia|]. cbn [mbind option_bind].
  destruct (rd_le_Some b (dist + 8) 4) as [g ->]; [lia|]. cbn [mbind option_bind].
  destruct (validate_acts acts) as [loc|].
  - destruct (IH (dist + 16 + Z.to_nat (ntohs al))%nat (tot - (ntohs al + 16))
      (if loc then Z.lor flags C_GRP_LOCAL else flags)
      (acc ++ [FlowTbl.mk_bkt (ntohs w) (ntohl p) (ntohl g) acts])) as (ok & fl & bk & -> & Hl); [lia|lia|].
    do 3 eexists. split; [done|]. rewrite length_app in Hl. cbn in Hl. lia.
  - do 3 eexists. split; [done|]. rewrite length_app. cbn. lia.
Qed.

Lemma parse_bands_safe n b : forall dist tot acc,
  0 <= tot -> Z.of_nat dist + tot <= Z.of_nat (length b) ->
  exists ok bk, parse_bands n b dist tot acc = Some (ok, bk) /\ (length bk <= length acc + n)%nat.
Proof.
  induction n as [|n IH]; intros dist tot acc Ht Hb; cbn [parse_bands].
  { do 2 eexists. split; [done|]. lia. }
  destruct (Z.ltb_spec tot 12); [do 2 eexists; split; [done|]; lia|].
  destruct (rd_le_Some b (dist + 2) 2) as [al ->]; [lia|]. cbn [mbind option_bind].
  pose proof (ntohs_range al) as Ha. destruct (Z.ltb_spec tot (ntohs al)).
  { do 2 eexists; split; [done|]; lia. }
  destruct (rd_is_Some b dist (Z.to_nat (ntohs al))) as [x ->]; [lia|]. cbn [mbind option_bind].
  destruct (IH (dist + Z.to_nat (ntohs al))%nat (tot - ntohs al) (acc ++ [FlowTbl.mk_band x]))
    as (ok & bk & -> & Hl); [lia|lia|].
  do 2 eexists. split; [done|]. rewrite length_app in Hl. cbn in Hl. lia.
Qed.

Lemma to_vec_ok {A} (l : list A) : (length l <= 128)%nat -> vec_ok (to_vec l) (Z.of_nat (length l)).
Proof. intros Hl. by exists l. Qed.

Lemma gwf_mono h h' s : (forall x, 0 <= h' x <= h x) -> gwf h s -> gwf h' s.
Proof.
  intros Hh [F G M GO MO A E]. split; auto. intros x. specialize (A x). specialize (Hh x).
  pose proof (owned_nonneg x s). destruct (apps s !! x); lia.
Qed.


(** ** Commands keep the invariant *)

Lemma read_group_safe b tot app :
  48 <= tot <= Z.of_nat (length b) ->
  exists ok flags p, read_group_mod validate_acts b tot app = Some (ok, flags, p) /\
    vec_ok (gp_act_vectors p) (gp_act_vec_len p) /\ gp_app_owner p = app.
Proof.
  intros Ht. unfold read_group_mod. remember (Z.to_nat OF_MAX_ACT_VECTORS) as n eqn:Hn.
  destruct (rd_le_Some b 20 4) as [id ->]; [lia|]. destruct (rd_le_Some b 17 1) as [ty ->]; [lia|].
  destruct (rd_le_Some b 18 1) as [flags ->]; [lia|]. rewrite !obind_Some.
  destruct (parse_bkts_safe n b 48 (tot - 48) flags [])
    as (ok & fl & bk & E & Hbk); [lia|lia|].
  rewrite E, obind_Some. do 3 eexists. split_and!; [done| |done]. apply to_vec_ok. by rewrite Hn in Hbk.
Qed.

Lemma read_meter_safe b tot app :
  56 <= tot <= Z.of_nat (length b) ->
  exists ok flags p, read_meter_mod b tot app = Some (ok, flags, p) /\
    vec_ok (mp_meter_bands p) (mp_meter_nbands p) /\ mp_app_owner p = app.
Proof.
  intros Ht. unfold read_meter_mod. remember (Z.to_nat OF_MAX_METER_VECTORS) as n eqn:Hn.
  destruct (rd_le_Some b 20 4) as [id ->]; [lia|]. destruct (rd_le_Some b 18 2) as [flags ->]; [lia|].
  destruct (rd_le_Some b 17 1) as [cflags ->]; [lia|]. rewrite !obind_Some.
  destruct (parse_bands_safe n b 56 (tot - 56) [])
    as (ok & bk & E & Hbk); [lia|lia|].
  rewrite E, obind_Some. do 3 eexists. split_and!; [done| |done]. apply to_vec_ok. by rewrite Hn in Hbk.
Qed.

Section KEEP.
Context (h : Z -> Z) (Hh : forall x, 0 <= h x).

(** What a command or a scan may do to a switch. *)
Definition keeps (s s' : switch) : Prop := gwf h s' /\ frame s s' /\ exp_list s' = exp_list s.

(** A message as long as its header says, from an application that is registered. *)
Definition cmd_ok (app : Z) (b : list Z) (s : switch) : Prop :=
  (exists len, rd_le b 2 2 = Some len /\ ntohs len = Z.of_nat (length b)) /\
  is_Some (apps s !! app) /\ (forall v, vty_app = Some v -> is_Some (apps s !! v)).

Lemma frame_lock s s' : frame s s' -> sw_lock s = false -> sw_lock s' = false.
Proof. intros [? -> ? ? ?] ?. done. Qed.

Lemma group_run_keeps c now add p s :
  gwf h s -> sw_lock s = false -> grp_ok p -> is_Some (apps s !! gp_app_owner p) ->
  exists r s', group_mod_run group_validate_feat c now add p s = Some (r, s') /\ keeps s s'.
Proof.
  intros G Hl Hp Ha. unfold group_mod_run. destruct add.
  - destruct (negb _); [by exists (group_validate_feat p), s|].
    destruct (group_add_done h Hh c now p s G Hl Hp Ha) as (r & s' & E & ? & ? & ? & _). by exists r, s'.
  - destruct (group_del_done h Hh c p s G Hl) as (r & s' & E & ? & ? & ? & _). by exists r, s'.
Qed.

Lemma meter_run_keeps c now add p s :
  gwf h s -> sw_lock s = false -> meter_ok p -> is_Some (apps s !! mp_app_owner p) ->
  exists r s', meter_mod_run meter_validate_feat c now add p s = Some (r, s') /\ keeps s s'.
Proof.
  intros G Hl Hp Ha. unfold meter_mod_run. destruct add.
  - destruct (negb _); [by exists (meter_validate_feat p), s|].
    destruct (meter_add_done h Hh c now p s G Hl Hp Ha) as (r & s' & E & ? & ? & ? & _). by exists r, s'.
  - destruct (meter_del_done h Hh c p s G Hl) as (r & s' & E & ? & ? & ? & _). by exists r, s'.
Qed.

Lemma forward_keeps c fwd b s : gwf h s -> keeps s (ha_forward c fwd b s).
Proof. intros G. unfold ha_forward. destruct (_ && _); [|done]. split_and!; [by apply gwf_tx|done|done]. Qed.

Lemma keeps_trans s1 s2 s3 : keeps s1 s2 -> keeps s2 s3 -> keeps s1 s3.
Proof. intros (? & F1 & E1) (? & F2 & E2). split_and!; [done|by eapply frame_trans|congruence]. Qed.

Lemma group_exec_keeps c now add app b tot s :
  gwf h s -> sw_lock s = false -> is_Some (apps s !! app) -> 48 <= tot <= Z.of_nat (length b) ->
  exists r s', group_mod_exec validate_acts group_validate_feat c now add app b tot s = Some (r, s') /\ keeps s s'.
Proof.
  intros G Hl Ha Ht. unfold group_mod_exec.
  destruct (read_group_safe b tot app Ht) as (ok & flags & p & -> & Hp & Ho). cbn [mbind option_bind].
  assert (exists r s', (if ok then group_mod_run group_validate_feat c now add p s else Some (-1, s)) = Some (r, s') /\ keeps s s')
    as (r & s' & -> & K).
  { destruct ok; [|by exists (-1), s]. apply group_run_keeps; try done. by rewrite Ho. }
  cbn [mbind option_bind]. do 2 eexists. split; [done|]. eapply keeps_trans; [exact K|]. apply forward_keeps, K.
Qed.

Lemma meter_exec_keeps c now add app b tot s :
  gwf h s -> sw_lock s = false -> is_Some (apps s !! app) -> 56 <= tot <= Z.of_nat (length b) ->
  exists r s', meter_mod_exec meter_validate_feat c now add app b tot s = Some (r, s') /\ keeps s s'.
Proof.
  intros G Hl Ha Ht. unfold meter_mod_exec.
  destruct (read_meter_safe b tot app Ht) as (ok & flags & p & -> & Hp & Ho). cbn [mbind option_bind].
  assert (exists r s', (if ok then meter_mod_run meter_validate_feat c now add p s else Some (-1, s)) = Some (r, s') /\ keeps s s')
    as (r & s' & -> & K).
  { destruct ok; [|by exists (-1), s]. apply meter_run_keeps; try done. by rewrite Ho. }
  cbn [mbind option_bind]. do 2 eexists. split; [done|]. eapply keeps_trans; [exact K|]. apply forward_keeps, K.
Qed.

End KEEP.

(** The work of a command, for the application it is run for. *)
Lemma with_cmd_app h app s (f : Z -> switch -> option (Z * switch)) :
  (forall x, 0 <= h x) -> gwf h s -> is_Some (apps s !! app) ->
  (forall v, vty_app = Some v -> is_Some (apps s !! v)) -> (sw_lock s = false) ->
  (forall h' a s1, (forall x, 0 <= h' x) -> gwf h' s1 -> sw_lock s1 = false -> is_Some (apps s1 !! a) ->
     exists r s2, f a s1 = Some (r, s2) /\ keeps h' s1 s2) ->
  exists r s', ('(a, s1) ← cmd_app aux_remote vty_app app s; '(r, s2) ← f a s1;
                s3 ← cmd_app_put app a s2; Some (r, s3)) = Some (r, s') /\ keeps h s s'.
Proof.
  intros Hh G Ha Hv Hl Hf. unfold cmd_app.
  assert (exists r s2, f app s = Some (r, s2) /\ keeps h s s2) as Hplain by by apply Hf.
  assert (exists r s', (let '(a, s1) := (app, s) in '(r, s2) ← f a s1;
     s3 ← cmd_app_put app a s2; Some (r, s3)) = Some (r, s') /\ keeps h s s') as Hsame.
  { destruct Hplain as (r & s2 & -> & K). cbn. unfold cmd_app_put. rewrite Z.eqb_refl. cbn.
    by do 2 eexists. }
  destruct (aux_remote app); [|exact Hsame]. destruct vty_app as [v|]; [|exact Hsame].
  destruct (app_ref_gwf h s v G (Hv v eq_refl)) as (m & E & S & G1). rewrite E. cbn [mbind option_bind].
  set (h' := fun y => h y + own y v) in *.
  assert (forall x, 0 <= h' x) as Hh' by (intros x; unfold h'; pose proof (own_range x v); specialize (Hh x); lia).
  assert (frame s (with_apps m s)) as F1 by (split; try done; intros x; cbn; by rewrite (shifted_dom _ _ _ _ S)).
  destruct (Hf h' v (with_apps m s) Hh' G1 Hl) as (r & s2 & -> & G2 & F2 & E2).
  { cbn. rewrite (shifted_dom _ _ _ _ S). by apply Hv. }
  cbn [mbind option_bind]. unfold cmd_app_put. destruct (Z.eqb_spec v app) as [->|Hne]; cbn [mbind option_bind].
  - do 2 eexists. split; [done|]. split_and!; [|by eapply frame_trans|done].
    eapply gwf_mono; [|exact G2]. intros x. unfold h'. specialize (Hh x). pose proof (own_range x app). lia.
  - destruct (app_put_gwf h' s2 v G2) as (m' & Ep & Sp & Gp).
    { pose proof (owned_nonneg v s2). unfold h'. rewrite own_self. specialize (Hh v). lia. }
    rewrite Ep. cbn [mbind option_bind]. do 2 eexists. split; [done|]. split_and!; [| |done].
    + eapply gwf_ext; [|exact Gp]. intros x. unfold h'. lia.
    + eapply frame_trans; [exact F1|]. eapply frame_trans; [exact F2|].
      split; try done. intros x. cbn. by rewrite (shifted_dom _ _ _ _ Sp).
Qed.

Lemma group_cmd_keeps h c now app b s :
  (forall x, 0 <= h x) -> gwf h s -> sw_lock s = false -> cmd_ok app b s ->
  exists r s', group_cmd c now app b s = Some (r, s') /\ keeps h s s'.
Proof.
  intros Hh G Hl ((len & El & Elen) & Ha & Hv). unfold c_app_group_mod_command. rewrite El. cbn [mbind option_bind].
  destruct (Z.ltb_spec (ntohs len) 48) as [|Hlen]; [by exists (-1), s|].
  destruct (rd_le_Some b 16 1) as [cmd ->]; [lia|]. cbn [mbind option_bind].
  destruct (negb _); [by exists (-1), s|].
  destruct (rd_le_Some b 8 8) as [dp ->]; [lia|]. cbn [mbind option_bind].
  destruct (negb _); [by exists (-1), s|].
  apply (with_cmd_app h app s (fun a s1 =>
    group_mod_exec validate_acts group_validate_feat c now (cmd =? C_OFPG_ADD) a b (ntohs len) s1)); try done.
  intros h' a s1 Hh' G1 Hl1 Ha1. apply group_exec_keeps; try done. lia.
Qed.

Lemma meter_cmd_keeps h c now app b s :
  (forall x, 0 <= h x) -> gwf h s -> sw_lock s = false -> cmd_ok app b s ->
  exists r s', meter_cmd c now app b s = Some (r, s') /\ keeps h s s'.
Proof.
  intros Hh G Hl ((len & El & Elen) & Ha & Hv). unfold c_app_meter_mod_command. rewrite El. cbn [mbind option_bind].
  destruct (Z.ltb_spec (ntohs len) 56) as [|Hlen]; [by exists (-1), s|].
  destruct (rd_le_Some b 16 1) as [cmd ->]; [lia|]. cbn [mbind option_bind].
  destruct (negb _); [by exists (-1), s|].
  destruct (rd_le_Some b 8 8) as [dp ->]; [lia|]. cbn [mbind option_bind].
  destruct (negb _); [by exists (-1), s|].
  apply (with_cmd_app h app s (fun a s1 =>
    meter_mod_exec meter_validate_feat c now (cmd =? C_OFPMC_ADD) a b (ntohs len) s1)); try done.
  intros h' a s1 Hh' G1 Hl1 Ha1. apply meter_exec_keeps; try done. lia.
Qed.

(** ** What expired *)

Lemma handler_keeps h c now app b s :
  (forall x, 0 <= h x) -> gwf h s -> sw_lock s = false -> msg_ok b -> is_Some (apps s !! app) ->
  (forall v, vty_app = Some v -> is_Some (apps s !! v)) ->
  exists r s', handler c now app b s = Some (r, s') /\ keeps h s s'.
Proof.
  intros Hh G Hl (len & ty & E1 & E2 & E3 & Ht) Ha Hv. unfold __mul_app_command_handler. rewrite E3, obind_Some.
  assert (cmd_ok app b s) as Hc by (split_and!; eauto).
  destruct Ht as [-> | ->]; cbn; [by apply group_cmd_keeps|by apply meter_cmd_keeps].
Qed.

Lemma run_expired_keeps h c now l : forall s,
  (forall x, 0 <= h x) -> gwf h s -> sw_lock s = false -> (forall v, vty_app = Some v -> is_Some (apps s !! v)) ->
  l ⊆ exp_list s ->
  exists s', run_expired validate_acts group_validate_feat meter_validate_feat aux_remote vty_app l c now s = Some s' /\
    keeps h s s'.
Proof.
  induction l as [|e l IH]; intros s Hh G Hl Hv Hin; cbn [run_expired]; [by exists s|].
  assert (e ∈ exp_list s) as He by (apply Hin; left).
  destruct (handler_keeps h c now (exp_app e) (exp_b e) s Hh G Hl) as (r & s1 & -> & G1 & F1 & E1).
  - pose proof (gw_exp h s G) as Hx. rewrite Forall_forall in Hx. by apply Hx.
  - destruct (gwf_alive h s (exp_app e) G) as (r & Hr & _); [|eauto].
    pose proof (cnt_in (exp_app e) (map exp_app (exp_list s)) ltac:(by apply list_elem_of_fmap_2)) as H1.
    pose proof (msum_nonneg (fun g => own (exp_app e) (g_app_owner g)) (groups s) (fun g => proj1 (own_range _ _))).
    pose proof (msum_nonneg (fun g => own (exp_app e) (m_app_owner g)) (meters s) (fun g => proj1 (own_range _ _))).
    specialize (Hh (exp_app e)). unfold owned. lia.
  - done.
  - rewrite obind_Some.
    destruct (IH s1 Hh G1 (frame_lock _ _ F1 Hl)) as (s' & -> & K).
    + intros v Hv'. apply F1. by apply Hv.
    + rewrite E1. set_solver.
    + exists s'. split; [done|]. by eapply keeps_trans; [|exact K].
Qed.

Lemma unref_expired_spec l : forall s,
  Forall (fun e => is_Some (apps s !! exp_app e)) l ->
  exists m, unref_expired l s = Some (with_apps m s) /\ shifted (fun x => - cnt x (map exp_app l)) (apps s) m.
Proof.
  induction l as [|e l IH]; intros s Hl; cbn [unref_expired].
  { exists (apps s). rewrite with_apps_id. split; [done|]. intros x. cbn. destruct (apps s !! x); cbn; [|done]. f_equal. lia. }
  apply Forall_cons in Hl as [He Hl]. destruct (app_unref_spec _ s He) as (m & E & S). rewrite E, obind_Some.
  destruct (IH (with_apps m s)) as (m' & E' & S').
  { eapply Forall_impl; [exact Hl|]. cbn. intros x Hx. by rewrite (shifted_dom _ _ _ _ S). }
  exists m'. change (set_sw_fl (FlowTbl.set_app_refs m (sw_fl s)) s) with (with_apps m s). rewrite E'. split; [done|].
  eapply shifted_ext; [|eapply shifted_trans; [exact S|exact S']]. intros x. cbn. unfold own. lia.
Qed.

(** A step that may also change the list of expired entries. *)
Definition stepok (h : Z -> Z) (s s' : switch) : Prop := gwf h s' /\ frame s s'.

Lemma trigger_expiry_ok h c now s :
  (forall x, 0 <= h x) -> gwf h s -> sw_lock s = false -> (forall v, vty_app = Some v -> is_Some (apps s !! v)) ->
  exists s', c_sw_trigger_expiry validate_acts group_validate_feat meter_validate_feat aux_remote vty_app c now s = Some s' /\
    stepok h s s' /\ exp_list s' = [].
Proof.
  intros Hh G Hl Hv. unfold c_sw_trigger_expiry.
  destruct (run_expired_keeps h c now (exp_list s) s Hh G Hl Hv ltac:(done)) as (s1 & -> & G1 & F1 & E1).
  rewrite obind_Some. destruct (unref_expired_spec (exp_list s1) s1) as (m & -> & S).
  { apply Forall_forall. intros e He. destruct (gwf_alive h s1 (exp_app e) G1) as (r & Hr & _); [|eauto].
    pose proof (cnt_in (exp_app e) (map exp_app (exp_list s1)) ltac:(by apply list_elem_of_fmap_2)) as H1.
    pose proof (msum_nonneg (fun g => own (exp_app e) (g_app_owner g)) (groups s1) (fun g => proj1 (own_range _ _))).
    pose proof (msum_nonneg (fun g => own (exp_app e) (m_app_owner g)) (meters s1) (fun g => proj1 (own_range _ _))).
    specialize (Hh (exp_app e)). unfold owned. lia. }
  rewrite obind_Some. eexists. split; [done|]. split; [|done]. split.
  - destruct G1 as [F G2 M GO MO A E]. split; auto.
    + eapply wf_frame; [exact F|done|done|done| |apply F|apply F]. intros x Hx. cbn. by rewrite (shifted_dom _ _ _ _ S).
    + intros x. specialize (A x). cbn. rewrite S. unfold owned in *. cbn. destruct (apps s1 !! x); cbn in *; [lia|].
      pose proof (cnt_nonneg x (map exp_app (exp_list s1))).
      pose proof (msum_nonneg (fun g => own x (g_app_owner g)) (groups s1) (fun g => proj1 (own_range _ _))).
      pose proof (msum_nonneg (fun g => own x (m_app_owner g)) (meters s1) (fun g => proj1 (own_range _ _))).
      specialize (Hh x). lia.
  - eapply frame_trans; [exact F1|]. split; try done. intros x. cbn. by rewrite (shifted_dom _ _ _ _ S).
Qed.

(** ** The scan *)

(** A group that changes only in its state, and one whose deletion is queued. *)
Lemma put_same_group h s id g g' :
  gwf h s -> groups s !! id = Some g -> g_group g' = g_group g -> g_app_owner g' = g_app_owner g ->
  act_vectors g' = act_vectors g -> act_vec_len g' = act_vec_len g -> gwf h (put_group id g' s).
Proof.
  intros G Hg E1 E2 E3 E4. destruct (gw_gok h s G _ _ Hg) as [Hid Hv].
  eapply gwf_ext; [|eapply (gwf_put_group h s id g g'); [done|done|congruence|by rewrite E3, E4]].
  intros x. cbn. rewrite E2. lia.
Qed.

Lemma put_same_meter h s id m m' :
  gwf h s -> meters s !! id = Some m -> m_meter m' = m_meter m -> m_app_owner m' = m_app_owner m ->
  meter_bands m' = meter_bands m -> meter_nbands m' = meter_nbands m -> gwf h (put_meter id m' s).
Proof.
  intros G Hg E1 E2 E3 E4. destruct (gw_mok h s G _ _ Hg) as [Hid Hv].
  eapply gwf_ext; [|eapply (gwf_put_meter h s id m m'); [done|done|congruence|by rewrite E3, E4]].
  intros x. cbn. rewrite E2. lia.
Qed.

Lemma expire_ok h s app b :
  gwf h s -> is_Some (apps s !! app) -> msg_ok b ->
  exists s', expire app b s = Some s' /\ stepok h s s' /\ groups s' = groups s /\ meters s' = meters s.
Proof.
  intros G Ha Hb. unfold expire. destruct (app_ref_gwf h s app G Ha) as (m & -> & S & G1). rewrite obind_Some.
  eexists. split; [done|]. split; [|done]. split.
  - eapply gwf_ext; [|eapply gwf_exp; [exact G1|exact Hb]]. intros x. cbn. lia.
  - split; try done. intros x. cbn. by rewrite (shifted_dom _ _ _ _ S).
Qed.

Lemma owner_alive h s id g :
  (forall x, 0 <= h x) -> gwf h s -> groups s !! id = Some g -> is_Some (apps s !! g_app_owner g).
Proof.
  intros Hh G Hg. destruct (gwf_alive h s (g_app_owner g) G) as (r & Hr & _); [|eauto].
  pose proof (owned_group (g_app_owner g) s id g Hg) as H1. rewrite own_self in H1. specialize (Hh (g_app_owner g)). lia.
Qed.

Lemma meter_owner_alive h s id m :
  (forall x, 0 <= h x) -> gwf h s -> meters s !! id = Some m -> is_Some (apps s !! m_app_owner m).
Proof.
  intros Hh G Hg. destruct (gwf_alive h s (m_app_owner m) G) as (r & Hr & _); [|eauto].
  pose proof (owned_meter (m_app_owner m) s id m Hg) as H1. rewrite own_self in H1. specialize (Hh (m_app_owner m)). lia.
Qed.

(** The keys of both tables stay. *)
Definition samedom (s s' : switch) : Prop :=
  (forall i, is_Some (groups s' !! i) <-> is_Some (groups s !! i)) /\
  (forall i, is_Some (meters s' !! i) <-> is_Some (meters s !! i)).

Lemma samedom_put_group id g g' s : groups s !! id = Some g -> samedom s (put_group id g' s).
Proof.
  intros Hg. split; [|done]. intros i. cbn. destruct (decide (id = i)) as [->|].
  - rewrite lookup_insert_eq, Hg. split; eauto.
  - by rewrite lookup_insert_ne.
Qed.

Lemma samedom_put_meter id m m' s : meters s !! id = Some m -> samedom s (put_meter id m' s).
Proof.
  intros Hg. split; [done|]. intros i. cbn. destruct (decide (id = i)) as [->|].
  - rewrite lookup_insert_eq, Hg. split; eauto.
  - by rewrite lookup_insert_ne.
Qed.

Definition scanok (h : Z -> Z) (s s' : switch) : Prop := stepok h s s' /\ samedom s s'.

Lemma scanok_refl h s : gwf h s -> scanok h s s.
Proof. done. Qed.

Lemma scanok_trans h s1 s2 s3 : scanok h s1 s2 -> scanok h s2 s3 -> scanok h s1 s3.
Proof.
  intros [[G1 F1] [D1 D1']] [[G2 F2] [D2 D2']]. split; [split; [done|by eapply frame_trans]|].
  split; intros i; [by rewrite D2, D1|by rewrite D2', D1'].
Qed.

Lemma scan_put_group h s id g g' :
  gwf h s -> groups s !! id = Some g -> g_group g' = g_group g -> g_app_owner g' = g_app_owner g ->
  act_vectors g' = act_vectors g -> act_vec_len g' = act_vec_len g -> scanok h s (put_group id g' s).
Proof.
  intros G Hg E1 E2 E3 E4. split; [split; [by eapply put_same_group|done]|by eapply samedom_put_group].
Qed.

Lemma scan_put_meter h s id m m' :
  gwf h s -> meters s !! id = Some m -> m_meter m' = m_meter m -> m_app_owner m' = m_app_owner m ->
  meter_bands m' = meter_bands m -> meter_nbands m' = meter_nbands m -> scanok h s (put_meter id m' s).
Proof.
  intros G Hg E1 E2 E3 E4. split; [split; [by eapply put_same_meter|done]|by eapply samedom_put_meter].
Qed.

Lemma scan_expire h s app b :
  gwf h s -> is_Some (apps s !! app) -> msg_ok b -> exists s', expire app b s = Some s' /\ scanok h s s'.
Proof.
  intros G Ha Hb. destruct (expire_ok h s app b G Ha Hb) as (s' & E & S & Eg & Em). exists s'. split; [done|].
  split; [done|]. split; intros i; [by rewrite Eg|by rewrite Em].
Qed.

Lemma scan_expire_group h now xid s id g :
  (forall x, 0 <= h x) -> gwf h s -> groups s !! id = Some g ->
  exists s', (b ← c_of_prep_group_mod_msg (datapath_id s) xid (g_expire now g) false;
              expire (g_app_owner (g_expire now g)) b (put_group id (g_expire now g) s)) = Some s' /\ scanok h s s'.
Proof.
  intros Hh G Hg. destruct (prep_group_del_ok (datapath_id s) xid (g_expire now g)) as (b & -> & Hb). rewrite obind_Some.
  pose proof (scan_put_group h s id g (g_expire now g) G Hg eq_refl eq_refl eq_refl eq_refl) as S1.
  destruct (scan_expire h (put_group id (g_expire now g) s) (g_app_owner g) b) as (s' & E & S2);
    [apply S1|exact (owner_alive h s id g Hh G Hg)|done|].
  exists s'. split; [exact E|by eapply scanok_trans].
Qed.

Lemma scan_tx h m s : gwf h s -> scanok h s (sw_tx m s).
Proof. intros G. split; [split; [by apply gwf_tx|done]|done]. Qed.

Lemma group_scan_ok h c now xid s id :
  (forall x, 0 <= h x) -> gwf h s -> is_Some (groups s !! id) ->
  exists s', c_per_group_stats_scan c now xid id s = Some s' /\ scanok h s s'.
Proof.
  intros Hh G [g Hg]. unfold c_per_group_stats_scan. rewrite Hg, obind_Some.
  destruct (negb (Ha.c_switch_of_master_check c)); [eexists; split; [done|by eapply scan_put_group]|].
  set (g1 := if sw_bulk_grp_stats s then _ else g).
  assert (scanok h s (put_group id g1 s)) as S1 by (eapply scan_put_group; try done; unfold g1; by destruct (sw_bulk_grp_stats s)).
  assert (groups (put_group id g1 s) !! id = Some g1) as Hg1 by apply lookup_insert_eq.
  generalize dependent g1. intros g1 S1 Hg1. generalize dependent (put_group id g1 s). intros s1 S1 Hg1.
  assert (gwf h s1) as G1 by apply S1.
  destruct (_ || _); [|by exists s1]. destruct (grp_timed_out now g1).
  - destruct (_ && _); [by exists s1|].
    destruct (scan_expire_group h now xid s1 id g1 Hh G1 Hg1) as (s' & E & S2).
    exists s'. split; [exact E|by eapply scanok_trans].
  - destruct (_ && _); [|by exists s1]. eexists. split; [done|]. eapply scanok_trans; [exact S1|].
    assert (scanok h s1 (__of_send_group_stat_req c (g_group g1) s1)) as S2
      by (unfold __of_send_group_stat_req; destruct (_ && _); [by apply scan_tx|done]).
    eapply scanok_trans; [exact S2|]. eapply (scan_put_group _ _ _ g1); try done; [apply S2|].
    unfold __of_send_group_stat_req. by destruct (_ && _).
Qed.

Lemma scan_expire_meter h xid s id m m' :
  (forall x, 0 <= h x) -> gwf h s -> meters s !! id = Some m -> m_meter m' = m_meter m ->
  m_app_owner m' = m_app_owner m -> meter_bands m' = meter_bands m -> meter_nbands m' = meter_nbands m ->
  exists s', (b ← c_of_prep_meter_mod_msg (datapath_id s) xid m' false;
              expire (m_app_owner m') b (put_meter id m' s)) = Some s' /\ scanok h s s'.
Proof.
  intros Hh G Hg E1 E2 E3 E4. destruct (prep_meter_del_ok (datapath_id s) xid m') as (b & -> & Hb). rewrite obind_Some.
  pose proof (scan_put_meter h s id m m' G Hg E1 E2 E3 E4) as S1.
  destruct (scan_expire h (put_meter id m' s) (m_app_owner m') b) as (s' & E & S2); [apply S1| |done|].
  - rewrite E2. exact (meter_owner_alive h s id m Hh G Hg).
  - exists s'. split; [exact E|by eapply scanok_trans].
Qed.

Lemma meter_scan_ok h c now xid s id :
  (forall x, 0 <= h x) -> gwf h s -> is_Some (meters s !! id) ->
  exists s', c_per_meter_verify_stats_scan c now xid id s = Some s' /\ scanok h s s'.
Proof.
  intros Hh G [m Hm]. unfold c_per_meter_verify_stats_scan. rewrite Hm, obind_Some.
  destruct (negb (Ha.c_switch_of_master_check c)); [eexists; split; [done|by eapply scan_put_meter]|].
  destruct (m_installed m && _ || _).
  { destruct (_ || _).
    - destruct (_ && _); [by exists s|]. by apply (scan_expire_meter h xid s id m).
    - destruct (_ && _); [|by exists s]. eexists. split; [done|].
      assert (scanok h s (__of_send_meter_stat_req c (m_meter m) s)) as S2
        by (unfold __of_send_meter_stat_req; destruct (_ && _); [by apply scan_tx|done]).
      eapply scanok_trans; [exact S2|]. eapply (scan_put_meter _ _ _ m); try done; [apply S2|].
      unfold __of_send_meter_stat_req. by destruct (_ && _). }
  set (m1 := if sw_bulk_meter_conf_stats s then _ else m).
  assert (scanok h s (put_meter id m1 s)) as S1
    by (eapply scan_put_meter; try done; unfold m1; by destruct (sw_bulk_meter_conf_stats s)).
  assert (meters (put_meter id m1 s) !! id = Some m1) as Hm1 by apply lookup_insert_eq.
  generalize dependent m1. intros m1 S1 Hm1. generalize dependent (put_meter id m1 s). intros s1 S1 Hm1.
  assert (gwf h s1) as G1 by apply S1.
  destruct (negb (m_installed m1)); [|by exists s1]. destruct (_ && _).
  - destruct (scan_expire_meter h xid s1 id m1
      (set_m_flags (Z.lor (m_flags m1) C_METER_EXPIRED) (m_cflags m1) m1) Hh G1 Hm1) as (s' & E & S2); try done.
    exists s'. split; [exact E|by eapply scanok_trans].
  - destruct (_ || _); [|by exists s1]. eexists. split; [done|]. eapply scanok_trans; [exact S1|].
    assert (scanok h s1 (__of_send_meter_config_stat_req c (m_meter m1) s1)) as S2
      by (unfold __of_send_meter_config_stat_req; destruct (_ && _); [by apply scan_tx|done]).
    eapply scanok_trans; [exact S2|]. eapply (scan_put_meter _ _ _ m1); try done; [apply S2|].
    unfold __of_send_meter_config_stat_req. by destruct (_ && _).
Qed.

Lemma scan_groups_ok h c now xid l : forall s,
  (forall x, 0 <= h x) -> gwf h s -> Forall (fun i => is_Some (groups s !! i)) l ->
  exists s', scan_groups l c now xid s = Some s' /\ scanok h s s'.
Proof.
  induction l as [|i l IH]; intros s Hh G Hl; cbn [scan_groups]; [by exists s|].
  apply Forall_cons in Hl as [Hi Hl]. destruct (group_scan_ok h c now xid s i Hh G Hi) as (s1 & -> & S1).
  rewrite obind_Some. destruct (IH s1 Hh) as (s' & -> & S2); [apply S1| |].
  - eapply Forall_impl; [exact Hl|]. cbn. intros j. apply S1.
  - exists s'. split; [done|by eapply scanok_trans].
Qed.

Lemma scan_meters_ok h c now xid l : forall s,
  (forall x, 0 <= h x) -> gwf h s -> Forall (fun i => is_Some (meters s !! i)) l ->
  exists s', scan_meters l c now xid s = Some s' /\ scanok h s s'.
Proof.
  induction l as [|i l IH]; intros s Hh G Hl; cbn [scan_meters]; [by exists s|].
  apply Forall_cons in Hl as [Hi Hl]. destruct (meter_scan_ok h c now xid s i Hh G Hi) as (s1 & -> & S1).
  rewrite obind_Some. destruct (IH s1 Hh) as (s' & -> & S2); [apply S1| |].
  - eapply Forall_impl; [exact Hl|]. cbn. intros j. apply S1.
  - exists s'. split; [done|by eapply scanok_trans].
Qed.

Lemma map_keys_lookup {A} (m : gmap Z A) : Forall (fun i => is_Some (m !! i)) (map fst (map_to_list m)).
Proof.
  apply Forall_forall. intros i Hi. apply list_elem_of_fmap in Hi as ([k x] & -> & Hk).
  apply elem_of_map_to_list in Hk. eauto.
Qed.

(** ** Errors from the switch *)

Lemma signal_ok h c now s :
  (forall x, 0 <= h x) -> gwf h s -> sw_lock s = false -> (forall v, vty_app = Some v -> is_Some (apps s !! v)) ->
  exists s', signal_event validate_acts group_validate_feat meter_validate_feat aux_remote vty_app c now s = Some s' /\
    stepok h s s'.
Proof.
  intros Hh G Hl Hv. unfold signal_event.
  destruct (trigger_expiry_ok h c now s Hh G Hl Hv) as (s' & -> & [G' F] & _). rewrite obind_Some.
  rewrite (frame_lock _ _ F Hl). by exists s'.
Qed.

(** Under the lock a deletion is queued; then it is run without the lock. *)
Lemma locked_expire_ok h c now s app b :
  (forall x, 0 <= h x) -> gwf h s -> sw_lock s = false -> (forall v, vty_app = Some v -> is_Some (apps s !! v)) ->
  is_Some (apps s !! app) -> msg_ok b ->
  exists s', (s1 ← expire app b (set_sw_lock true s); s2 ← c_wr_unlock s1;
    signal_event validate_acts group_validate_feat meter_validate_feat aux_remote vty_app c now s2) = Some s' /\ stepok h s s'.
Proof.
  intros Hh G Hl Hv Ha Hb.
  destruct (expire_ok h (set_sw_lock true s) app b (gwf_lock h true s G) Ha Hb) as (s1 & -> & [G1 F1] & _).
  rewrite obind_Some. unfold c_wr_unlock. rewrite (fr_lock _ _ F1). cbn [sw_lock set_sw_lock]. rewrite obind_Some.
  destruct (signal_ok h c now (set_sw_lock false s1) Hh (gwf_lock h false s1 G1) eq_refl) as (s' & -> & G' & F').
  { intros v Hv'. apply (fr_apps _ _ F1). by apply Hv. }
  exists s'. split; [done|]. split; [done|]. eapply frame_trans; [|exact F']. destruct F1. by split.
Qed.

Lemma group_err_ok h c now xid b len s :
  (forall x, 0 <= h x) -> gwf h s -> sw_lock s = false -> (forall v, vty_app = Some v -> is_Some (apps s !! v)) ->
  len <= Z.of_nat (length b) -> (exists cmd, rd_le b 8 2 = Some cmd /\ ntohs cmd <> OFPGC_DELETE) \/ len < 16 ->
  exists s', of131_recv_err_group_mod validate_acts group_validate_feat meter_validate_feat aux_remote vty_app
    c now xid b len s = Some s' /\ stepok h s s'.
Proof.
  intros Hh G Hl Hv Hb Hc. unfold of131_recv_err_group_mod. destruct (Z.ltb_spec len 16); [by exists s|].
  destruct Hc as [(cmd & E & Hc)|]; [|lia]. destruct (rd_le_Some b 12 4) as [id ->]; [lia|].
  rewrite E, !obind_Some. unfold c_wr_lock. rewrite Hl, obind_Some.
  change (groups (set_sw_lock true s)) with (groups s).
  destruct (groups s !! ntohl id) as [g|] eqn:Hg.
  - destruct (prep_group_del_ok (datapath_id (set_sw_lock true s)) xid g) as (x & -> & Hx). rewrite obind_Some.
    apply locked_expire_ok; try done. by eapply owner_alive.
  - rewrite (proj2 (Z.eqb_neq _ _) Hc). unfold c_wr_unlock. cbn [sw_lock set_sw_lock].
    exists s. split; [|done]. f_equal. destruct s. cbn in *. by subst.
Qed.

Lemma meter_err_ok h c now xid b len s :
  (forall x, 0 <= h x) -> gwf h s -> sw_lock s = false -> (forall v, vty_app = Some v -> is_Some (apps s !! v)) ->
  len <= Z.of_nat (length b) -> (exists cmd, rd_le b 8 2 = Some cmd /\ ntohs cmd <> OFPMC_DELETE) \/ len < 16 ->
  exists s', of131_recv_err_meter_mod validate_acts group_validate_feat meter_validate_feat aux_remote vty_app
    c now xid b len s = Some s' /\ stepok h s s'.
Proof.
  intros Hh G Hl Hv Hb Hc. unfold of131_recv_err_meter_mod. destruct (Z.ltb_spec len 16); [by exists s|].
  destruct Hc as [(cmd & E & Hc)|]; [|lia]. destruct (rd_le_Some b 12 4) as [id ->]; [lia|].
  rewrite E, !obind_Some. unfold c_wr_lock. rewrite Hl, obind_Some.
  change (meters (set_sw_lock true s)) with (meters s).
  destruct (meters s !! ntohl id) as [m|] eqn:Hg.
  - destruct (prep_meter_del_ok (datapath_id (set_sw_lock true s)) xid m) as (x & -> & Hx). rewrite obind_Some.
    apply locked_expire_ok; try done. by eapply meter_owner_alive.
  - rewrite (proj2 (Z.eqb_neq _ _) Hc). unfold c_wr_unlock. cbn [sw_lock set_sw_lock].
    exists s. split; [|done]. f_equal. destruct s. cbn in *. by subst.
Qed.

(** ** Runs *)

(** What may happen to the groups and meters of a switch, with the state of the controller and the time. *)
Inductive event :=
  | EvGroup (app : Z) (b : list Z)
  | EvMeter (app : Z) (b : list Z)
  | EvScanGroups (xid : Z)
  | EvScanMeters (xid : Z)
  | EvExpiry
  | EvGroupErr (xid : Z) (b : list Z) (len : Z)
  | EvMeterErr (xid : Z) (b : list Z) (len : Z).

Definition run_event (c : Ha.ctrl_hdl) (now : Z) (e : event) (s : switch) : option switch :=
  match e with
  | EvGroup app b => '(_, s) ← group_cmd c now app b s; Some s
  | EvMeter app b => '(_, s) ← meter_cmd c now app b s; Some s
  | EvScanGroups xid => c_switch_group_traverse_all c now xid s
  | EvScanMeters xid => c_switch_meter_traverse_all c now xid s
  | EvExpiry => c_sw_trigger_expiry validate_acts group_validate_feat meter_validate_feat aux_remote vty_app c now s
  | EvGroupErr xid b len => of131_recv_err_group_mod validate_acts group_validate_feat meter_validate_feat
      aux_remote vty_app c now xid b len s
  | EvMeterErr xid b len => of131_recv_err_meter_mod validate_acts group_validate_feat meter_validate_feat
      aux_remote vty_app c now xid b len s
  end.

Fixpoint run_events (l : list (Ha.ctrl_hdl * Z * event)) (s : switch) : option switch :=
  match l with
  | [] => Some s
  | (c, now, e) :: l => s ← run_event c now e s; run_events l s
  end.

(** The messages are as long as they say, the applications are registered, and a refused
    message is not a deletion. *)
Definition event_ok (A : gmap Z Z) (e : event) : Prop :=
  let cmd app b := (exists len, rd_le b 2 2 = Some len /\ ntohs len = Z.of_nat (length b)) /\ is_Some (A !! app) in
  let err b len := len <= Z.of_nat (length b) /\ exists c, rd_le b 8 2 = Some c /\ ntohs c <> 2 in
  match e with
  | EvGroup app b | EvMeter app b => cmd app b
  | EvGroupErr _ b len | EvMeterErr _ b len => err b len
  | _ => True
  end.

Lemma run_event_ok c now e s :
  gwf nohold s -> sw_lock s = false -> (forall v, vty_app = Some v -> is_Some (apps s !! v)) ->
  event_ok (apps s) e -> exists s', run_event c now e s = Some s' /\ stepok nohold s s'.
Proof.
  intros G Hl Hv He. assert (forall x, 0 <= nohold x) as Hh by done.
  destruct e as [app b|app b|xid|xid| |xid b len|xid b len]; cbn in He |- *.
  - destruct (group_cmd_keeps nohold c now app b s Hh G Hl) as (r & s' & -> & G' & F & _); [by destruct He|].
    rewrite obind_Some. by exists s'.
  - destruct (meter_cmd_keeps nohold c now app b s Hh G Hl) as (r & s' & -> & G' & F & _); [by destruct He|].
    rewrite obind_Some. by exists s'.
  - destruct (scan_groups_ok nohold c now xid _ s Hh G (map_keys_lookup (groups s))) as (s' & E & S & _). by exists s'.
  - destruct (scan_meters_ok nohold c now xid _ s Hh G (map_keys_lookup (meters s))) as (s' & E & S & _). by exists s'.
  - destruct (trigger_expiry_ok nohold c now s Hh G Hl Hv) as (s' & E & S & _). by exists s'.
  - destruct He as [? He]. by apply group_err_ok; try left.
  - destruct He as [? He]. by apply meter_err_ok; try left.
Qed.

Lemma event_ok_apps A A' e : (forall x, is_Some (A' !! x) <-> is_Some (A !! x)) -> event_ok A e -> event_ok A' e.
Proof. intros Hd. destruct e; cbn; try done; intros [? ?]; split; try done; by apply Hd. Qed.

Lemma run_events_ok l : forall s,
  gwf nohold s -> sw_lock s = false -> (forall v, vty_app = Some v -> is_Some (apps s !! v)) ->
  Forall (fun '(_, _, e) => event_ok (apps s) e) l ->
  exists s', run_events l s = Some s' /\ stepok nohold s s'.
Proof.
  induction l as [|[[c now] e] l IH]; intros s G Hl Hv Hok; cbn [run_events]; [by exists s|].
  apply Forall_cons in Hok as [He Hok]. destruct (run_event_ok c now e s G Hl Hv He) as (s1 & -> & G1 & F1).
  rewrite obind_Some. destruct (IH s1 G1 (frame_lock _ _ F1 Hl)) as (s' & -> & G' & F').
  - intros v Hv'. apply F1. by apply Hv.
  - eapply Forall_impl; [exact Hok|]. intros [[? ?] ?]. cbn. apply event_ok_apps. apply F1.
  - exists s'. split; [done|]. split; [done|by eapply frame_trans].
Qed.

End COMMANDS.
