(* ===== verification/GroupThm.v ===== *)
(** * Groups and meters: theorems

    The runs of the tables, the effect of requests, the protection of what flows use, and the round
    trip of a group through the message that copies it to the peer controller. *)
From stdpp Require Import base list gmap.
From Stdlib Require Import ZArith Lia.
From S2P Require Import Prelude Bytes Flow Ha FlowTbl FlowTblSpec FlowTblAdd FlowTblEx GroupTbl GroupTblSpec MeterTblSpec GroupCmd GroupCmdSpec.
Import Bytes GroupTbl GroupCmd.
#[local] Open Scope Z_scope.

(** ** Round trip *)

Lemma rd_shift pre b k n : rd (pre ++ b) (length pre + k) n = rd b k n.
Proof. rewrite rd_skip by lia. f_equal. lia. Qed.

(** The fields of a bucket fit into the message. *)
Record bkt_fits (x : bucket) : Prop := {
  bf_weight : 0 <= FlowTbl.weight x < 65536;
  bf_port : 0 <= FlowTbl.ff_port x < 2 ^ 32;
  bf_group : 0 <= FlowTbl.ff_group x < 2 ^ 32;
  bf_len : Z.of_nat (length (FlowTbl.bkt_actions x)) < 65536 }.

Lemma bkt_bytes_length x : length (bkt_bytes x) = (16 + length (FlowTbl.bkt_actions x))%nat.
Proof. unfold bkt_bytes. rewrite !length_app, !le_bytes_length. cbn. lia. Qed.

Lemma le_val_htons v : le_val (le_bytes 2 (htons v)) = htons v.
Proof. apply le_val_le_bytes, bswap_range. Qed.
Lemma le_val_htonl v : le_val (le_bytes 4 (htonl v)) = htonl v.
Proof. apply le_val_le_bytes, bswap_range. Qed.
Lemma le_val_htonll v : le_val (le_bytes 8 (htonll v)) = htonll v.
Proof. apply le_val_le_bytes, bswap_range. Qed.

(** The fields of a written bucket, wherever it is in the message. *)
Lemma bkt_bytes_fields pre x post (b := pre ++ bkt_bytes x ++ post) (d := length pre) :
  bkt_fits x ->
  rd_le b d 2 = Some (htons (FlowTbl.weight x)) /\
  rd_le b (d + 2) 2 = Some (htons (Z.of_nat (length (FlowTbl.bkt_actions x)))) /\
  rd_le b (d + 4) 4 = Some (htonl (FlowTbl.ff_port x)) /\
  rd_le b (d + 8) 4 = Some (htonl (FlowTbl.ff_group x)) /\
  rd b (d + 16) (length (FlowTbl.bkt_actions x)) = Some (FlowTbl.bkt_actions x).
Proof.
  intros [_ _ _ Hl]. unfold b, d, bkt_bytes. rewrite <- !app_assoc. cbn [app].
  assert (u16 (Z.of_nat (length (FlowTbl.bkt_actions x))) = Z.of_nat (length (FlowTbl.bkt_actions x))) as ->
    by (unfold u16; apply Z.mod_small; lia).
  rewrite <- (Nat.add_0_r (length pre)) at 1. unfold rd_le. rewrite !rd_shift. split_and!.
  - rd_field. by rewrite le_val_htons.
  - rd_field. by rewrite le_val_htons.
  - rd_field. by rewrite le_val_htonl.
  - rd_field. by rewrite le_val_htonl.
  - change (0 :: 0 :: 0 :: 0 :: FlowTbl.bkt_actions x ++ post) with ([0; 0; 0; 0] ++ FlowTbl.bkt_actions x ++ post).
    rd_field. done.
Qed.

Lemma parse_bkts_bytes va n l : forall pre flags acc,
  (length l <= n)%nat -> Forall bkt_fits l -> Forall (fun x => va (FlowTbl.bkt_actions x) = Some false) l ->
  parse_bkts va n (pre ++ concat (map bkt_bytes l)) (length pre)
    (Z.of_nat (length (concat (map bkt_bytes l)))) flags acc = Some (true, flags, acc ++ l).
Proof.
  revert l. induction n as [|n IH]; intros [|x l] pre flags acc Hn Hf Hv; cbn [length] in Hn; try lia.
  - cbn. by rewrite (app_nil_r acc).
  - cbn. by rewrite (app_nil_r acc).
  - apply Forall_cons in Hf as [Hx Hf]. apply Forall_cons in Hv as [Hvx Hv].
    cbn [map concat]. destruct (bkt_bytes_fields pre x (concat (map bkt_bytes l)) Hx) as (E1 & E2 & E3 & E4 & E5).
    destruct Hx as [H1 H2 H3 H4]. cbn [parse_bkts]. rewrite length_app, bkt_bytes_length.
    rewrite (proj2 (Z.ltb_ge _ _)) by lia. rewrite E2, obind_Some, ntohs_htons by lia.
    rewrite (proj2 (Z.ltb_ge _ _)) by lia. rewrite Nat2Z.id, E5, E1, E3, E4, !obind_Some.
    rewrite ntohs_htons, !ntohl_htonl, Hvx by done.
    assert (FlowTbl.mk_bkt (FlowTbl.weight x) (FlowTbl.ff_port x) (FlowTbl.ff_group x) (FlowTbl.bkt_actions x) = x)
      as -> by by destruct x.
    pose proof (IH l (pre ++ bkt_bytes x) flags (acc ++ [x]) ltac:(lia) Hf Hv) as E.
    rewrite length_app, bkt_bytes_length, <- !app_assoc in E. cbn [app] in E.
    replace (length pre + 16 + length (FlowTbl.bkt_actions x))%nat
      with (length pre + (16 + length (FlowTbl.bkt_actions x)))%nat by lia.
    rewrite <- E. f_equal. lia.
Qed.

(** A group whose fields and buckets [l] fit into the message. *)
Record grp_fits (g : c_switch_group) (l : list bucket) : Prop := {
  gf_vec : act_vectors g = to_vec l /\ act_vec_len g = Z.of_nat (length l) /\ (length l <= 128)%nat;
  gf_bkts : Forall bkt_fits l;
  gf_type : 0 <= g_type g < 256;
  gf_flags : 0 <= g_flags g < 256;
  gf_group : 0 <= g_group g < 2 ^ 32;
  gf_total : 48 + Z.of_nat (length (concat (map bkt_bytes l))) < 65536 }.

(** The flags in the message say whether the switch has confirmed the group. *)
Definition sent_flags (g : c_switch_group) : Z :=
  if g_installed g then g_flags g else Z.lor (g_flags g) C_GRP_NOT_INSTALLED.

Lemma lor_byte a b : 0 <= a < 256 -> 0 <= b < 256 -> 0 <= Z.lor a b < 256.
Proof.
  intros Ha Hb. split; [apply Z.lor_nonneg; lia|].
  destruct (Z.eq_dec (Z.lor a b) 0) as [->|Hz]; [lia|].
  assert (0 < Z.lor a b) by (pose proof (proj2 (Z.lor_nonneg a b) ltac:(lia)); lia).
  apply (Z.log2_lt_pow2 _ 8); [done|]. rewrite Z.log2_lor by lia.
  apply Z.max_lub_lt; [destruct (Z.eq_dec a 0) as [->|]; [done|]|destruct (Z.eq_dec b 0) as [->|]; [done|]];
    apply Z.log2_lt_pow2; lia.
Qed.

Lemma mapM_Some {A} (l : list A) : mapM id (map Some l) = Some l.
Proof. induction l as [|x l IH]; [done|]. cbn. rewrite IH. done. Qed.

(** The message of a group, field by field. *)
Lemma prep_group_reads va dpid xid g l app :
  grp_fits g l -> Forall (fun x => va (FlowTbl.bkt_actions x) = Some false) l -> 0 <= dpid < 2 ^ 64 ->
  exists b, c_of_prep_group_mod_msg dpid xid g true = Some b /\
    rd_le b 2 2 = Some (htons (Z.of_nat (length b))) /\ Z.of_nat (length b) < 65536 /\ (48 <= length b)%nat /\
    rd_le b 16 1 = Some C_OFPG_ADD /\ rd_le b 8 8 = Some (htonll dpid) /\
    read_group_mod va b (Z.of_nat (length b)) app = Some (true, sent_flags g,
      mk_gparms app (g_group g) (g_type g) (sent_flags g) (act_vectors g) (act_vec_len g)).
Proof.
  intros [(Ev & El & Hl) Hb Ht Hf Hg Htot] Hva Hd. unfold c_of_prep_group_mod_msg.
  rewrite Ev, El, vec_take_to_vec, obind_Some by done. unfold vec_bytes. rewrite mapM_Some, !obind_Some.
  fold (sent_flags g). set (body := concat (map bkt_bytes l)) in *.
  assert (0 <= sent_flags g < 256) as Hs by (unfold sent_flags; destruct (g_installed g); [done|by apply lor_byte]).
  unfold ofp_hdr. rewrite <- !app_assoc. eexists. split; [done|].
  rewrite !length_app, !le_bytes_length. cbn [length Nat.add].
  assert (u16 (48 + Z.of_nat (length body)) = 48 + Z.of_nat (length body)) as -> by (unfold u16; apply Z.mod_small; lia).
  replace (Z.of_nat (S _)) with (48 + Z.of_nat (length body)) by lia. split_and!.
  - rd_field. by rewrite le_val_htons.
  - done.
  - lia.
  - rd_field. done.
  - rd_field. by rewrite le_val_htonll.
  - unfold read_group_mod. remember (Z.to_nat OF_MAX_ACT_VECTORS) as n eqn:Hn.
    match goal with |- context [rd_le ?b 20 4] => set (msg := b) end.
    assert (rd_le msg 20 4 = Some (htonl (g_group g))) as -> by (unfold msg; rd_field; by rewrite le_val_htonl).
    assert (rd_le msg 17 1 = Some (g_type g)) as -> by (unfold msg; rd_field; by rewrite le_val_le_bytes).
    assert (rd_le msg 18 1 = Some (sent_flags g)) as -> by (unfold msg; rd_field; by rewrite le_val_le_bytes).
    rewrite !obind_Some, ntohl_htonl by done.
    replace (48 + Z.of_nat (length body) - 48) with (Z.of_nat (length body)) by lia.
    assert (exists pre, msg = pre ++ body /\ length pre = 48%nat) as (pre & -> & Hp).
    { unfold msg. rewrite !app_assoc. eexists. split; [done|]. rewrite !length_app, !le_bytes_length. done. }
    rewrite <- Hp. unfold body. rewrite parse_bkts_bytes by (done || (rewrite Hn; exact Hl)). by rewrite obind_Some.
Qed.

(** C35: a group copied to the peer controller arrives as it is.  The message that the controller
    writes for a group is one that the peer's command accepts when it comes from a registered
    application: a peer that has no such group makes it, with the same id, type and buckets, in the same order,
    owned by that application, and with the flags of the message (which also say whether the
    switch had confirmed the group), and keeps its invariant.  The buckets must fit into a message of 65535 bytes and their
    actions must be valid and not local. *)
Theorem group_sync_roundtrip va gfeat ar vty c now app xid g l s :
  grp_fits g l -> Forall (fun x => va (FlowTbl.bkt_actions x) = Some false) l ->
  gwf nohold s -> sw_lock s = false -> 0 <= datapath_id s < 2 ^ 64 ->
  is_Some (FlowTbl.app_refs (sw_fl s) !! app) -> ar app = false -> groups s !! g_group g = None ->
  C_SWITCH_SUPPORTS_GROUP s = true -> of131_group_validate_parms true (g_group g) (g_type g) (act_vec_len g) = true ->
  (forall p, gfeat p = 0) ->
  exists b s' g', c_of_prep_group_mod_msg (datapath_id s) xid g true = Some b /\
    c_app_group_mod_command va gfeat ar vty c now app b s = Some (0, s') /\ gwf nohold s' /\
    groups s' !! g_group g = Some g' /\ g_group g' = g_group g /\ g_type g' = g_type g /\
    act_vectors g' = act_vectors g /\ act_vec_len g' = act_vec_len g /\ g_app_owner g' = app /\
    clr (g_flags g') C_GRP_STALE = clr (sent_flags g) C_GRP_STALE.
Proof.
  intros Hfit Hva G Hl Hd Ha Har Hg Hsup Hval Hfeat.
  destruct (prep_group_reads va (datapath_id s) xid g l app Hfit Hva Hd) as (b & Eb & E1 & E2 & E3 & E4 & E5 & E6).
  set (p := mk_gparms app (g_group g) (g_type g) (sent_flags g) (act_vectors g) (act_vec_len g)) in *.
  destruct (group_add_done nohold (fun _ => Z.le_refl 0) c now p s G Hl) as (r & s1 & Ea & G1 & _ & _ & Eff).
  { destruct Hfit as [(Ev & El & Hlen) _ _ _ _ _]. exists l. done. }
  { done. }
  assert (r = 0 /\ groups s1 !! g_group g = Some (grp_created now p)) as [-> Hnew].
  { destruct Eff as [[?|?]|g0 Hg0|g0 m Hg0|m Hm]; cbn in *; try congruence. split; [done|]. apply lookup_insert_eq. }
  exists b. eexists. exists (grp_created now p). split; [done|]. split.
  - unfold c_app_group_mod_command. rewrite E1, obind_Some, ntohs_htons by lia.
    rewrite (proj2 (Z.ltb_ge _ _)) by lia. rewrite E4, E5, !obind_Some. cbn [negb orb Z.eqb C_OFPG_ADD].
    rewrite (bswap_involutive 8) by done. rewrite Z.eqb_refl. cbn [negb].
    unfold cmd_app. rewrite Har, obind_Some. unfold group_mod_exec. rewrite E6, obind_Some.
    unfold group_mod_run. rewrite Hfeat. cbn [negb Z.eqb]. rewrite Ea, !obind_Some. unfold cmd_app_put.
    rewrite Z.eqb_refl, obind_Some. done.
  - split; [by apply forward_keeps|]. split; [unfold ha_forward; by destruct (_ && _)|].
    split_and!; try done. cbn. destruct (grp_stale p); [|done]. unfold FlowTbl.clr. cbn.
    apply Z.bits_inj'. intros i Hi. rewrite !Z.land_spec, Z.lor_spec, Z.lnot_spec by done.
    by destruct (Z.testbit (sent_flags g) i), (Z.testbit C_GRP_STALE i).
Qed.

(** ** Runs, requests and what flows use *)


(** A request to add a group has one of four outcomes, each with exactly the state it
    leaves: refused as invalid with nothing changed; refused because another
    application owns the group or its buckets are the same, with only the stale mark cleared; the group
    changed to the buckets, type and flags of the request (a group read back from the switch also
    changes its owner, and is sent only when it differs); or a new group made.  Every outcome
    keeps the invariant, and the reference count of a group that was there. *)
Theorem group_add_spec c now p s :
  gwf nohold s -> sw_lock s = false -> vec_ok (gp_act_vectors p) (gp_act_vec_len p) ->
  is_Some (FlowTbl.app_refs (sw_fl s) !! gp_app_owner p) ->
  exists r s', c_switch_group_add c now p s = Some (r, s') /\ gwf nohold s' /\ group_add_effect c now p s r s' /\
    (forall i n, FlowTbl.grp_refs (sw_fl s) !! i = Some n -> FlowTbl.grp_refs (sw_fl s') !! i = Some n).
Proof.
  intros G Hl Hp Ha.
  destruct (group_add_done nohold (fun _ => Z.le_refl 0) c now p s G Hl Hp Ha) as (r & s' & E & G' & F & _ & Eff).
  exists r, s'. split_and!; [done|done|done|]. intros i n Hi. destruct Eff as [|g Hg|g m Hg|m Hm]; cbn; try done.
  rewrite lookup_insert_ne; [done|]. intros <-.
  assert (is_Some (groups s !! gp_group p)) as [? ?] by (apply (gw_grp _ _ G); eauto). congruence.
Qed.

(** A group, or a meter, that some flow entry of the switch points to. *)
Definition used_by_flow (f : FlowTbl.c_fl_entry -> list Z) (id : Z) (s : switch) : Prop :=
  exists a e, FlowTbl.ents (sw_fl s) !! a = Some e /\ id ∈ f e.

Lemma used_counted f id s r :
  refs_ok f (FlowTbl.ents (sw_fl s)) r -> used_by_flow f id s -> exists n, r !! id = Some n /\ n <> 0.
Proof.
  intros [R1 R2] (a & e & Ha & Hin). pose proof (R1 a e Ha) as Hf. rewrite Forall_forall in Hf.
  destruct (Hf id Hin) as [n Hn]. exists n. split; [done|]. rewrite (R2 id n Hn), refsum_msum.
  pose proof (msum_ge (fun e => cnt id (f e)) _ a e ltac:(intros; apply cnt_nonneg) Ha) as H.
  pose proof (cnt_in id (f e) Hin). cbn in H. lia.
Qed.

(** C18: what a flow uses is not deleted: a request to delete a group or a meter that some flow
    entry points to is refused with nothing changed, and a request that does
    delete one leaves every pointer of the flow entries to a group or meter that exists. *)
Theorem used_stays c p q s :
  gwf nohold s -> sw_lock s = false ->
  (exists r s', c_switch_group_del c p s = Some (r, s') /\ gwf nohold s' /\
     (used_by_flow FlowTbl.groups (gp_group p) s -> r = -1 /\ s' = s) /\
     forall i, used_by_flow FlowTbl.groups i s' -> is_Some (groups s' !! i)) /\
  (exists r s', c_switch_meter_del c q s = Some (r, s') /\ gwf nohold s' /\
     (used_by_flow FlowTbl.meters (mp_meter q) s -> r = -1 /\ s' = s) /\
     forall i, used_by_flow FlowTbl.meters i s' -> is_Some (meters s' !! i)).
Proof.
  intros G Hl. split.
  - destruct (group_del_done nohold (fun _ => Z.le_refl 0) c p s G Hl) as (r & s' & E & G' & _ & _ & Eff).
    exists r, s'. split_and!; [done|done| |].
    + intros Hu. destruct (used_counted _ _ _ _ (wf_grp _ (gw_fl _ _ G)) Hu) as (n & Hn & Hz).
      destruct Eff; try done; simplify_eq; congruence.
    + intros i Hi. destruct (used_counted _ _ _ _ (wf_grp _ (gw_fl _ _ G')) Hi) as (n & Hn & _).
      apply (gw_grp _ _ G'). eauto.
  - destruct (meter_del_done nohold (fun _ => Z.le_refl 0) c q s G Hl) as (r & s' & E & G' & _ & _ & Eff).
    exists r, s'. split_and!; [done|done| |].
    + intros Hu. destruct (used_counted _ _ _ _ (wf_meter _ (gw_fl _ _ G)) Hu) as (n & Hn & Hz).
      destruct Eff; try done; simplify_eq; congruence.
    + intros i Hi. destruct (used_counted _ _ _ _ (wf_meter _ (gw_fl _ _ G')) Hi) as (n & Hn & _).
      apply (gw_meter _ _ G'). eauto.
Qed.

(** ** An application that goes *)

(** What an application leaves of a table. *)
Definition without_owner {A} (owner : A -> Z) (app : Z) (m m' : gmap Z A) : Prop :=
  forall id, m' !! id = (x ← m !! id; if owner x =? app then None else Some x).

(** The references that the tables hold to [app] are dropped, those to others stay. *)
Record drops (app : Z) (s s' : switch) : Prop := {
  ds_apps : shifted (fun x => owned x s' - owned x s) (FlowTbl.app_refs (sw_fl s)) (FlowTbl.app_refs (sw_fl s'));
  ds_other : forall x, x <> app -> owned x s' = owned x s;
  ds_le : owned app s' <= owned app s;
  ds_ctors : FlowTbl.ofp_ctors (sw_fl s') = FlowTbl.ofp_ctors (sw_fl s) }.

Lemma drops_refl app s : drops app s s.
Proof. split; try done. intros x. destruct (_ !! x); cbn; [|done]. f_equal. lia. Qed.

Lemma drops_trans app s1 s2 s3 : drops app s1 s2 -> drops app s2 s3 -> drops app s1 s3.
Proof.
  intros [A1 A2 A3 A4] [B1 B2 B3 B4]. split; [|intros; rewrite B2, A2 by done; done|lia|congruence].
  eapply shifted_ext; [|exact (shifted_trans _ _ _ _ _ A1 B1)]. intros x. cbn. lia.
Qed.

Lemma drops_one app s s' m : (forall x, owned x s' = owned x s - own x app) -> FlowTbl.app_refs (sw_fl s') = m ->
  FlowTbl.ofp_ctors (sw_fl s') = FlowTbl.ofp_ctors (sw_fl s) -> shifted (fun y => - own y app) (FlowTbl.app_refs (sw_fl s)) m -> drops app s s'.
Proof.
  intros Ho <- Hc Hs. split; [|intros x Hx|..]; rewrite ?Ho.
  - eapply shifted_ext; [|exact Hs]. intros x. cbn. rewrite Ho. lia.
  - unfold own. rewrite bool_decide_false by done. lia.
  - pose proof (own_range app app). lia.
  - done.
Qed.

Lemma free_groups_done h app l : forall s,
  (forall x, 0 <= h x) -> gwf h s -> NoDup (map fst l) ->
  Forall (fun '(id, g) => groups s !! id = Some g /\
     (g_app_owner g = app -> FlowTbl.grp_refs (sw_fl s) !! id = Some 0)) l ->
  exists s', free_groups l app s = Some s' /\ gwf h s' /\ frame s s' /\ drops app s s' /\ meters s' = meters s /\
    FlowTbl.meter_refs (sw_fl s') = FlowTbl.meter_refs (sw_fl s) /\
    forall id, groups s' !! id = (x ← groups s !! id; if bool_decide (id ∈ map fst l) && (g_app_owner x =? app) then None else Some x).
Proof.
  induction l as [|[id g] l IH]; intros s Hh G Hnd Hl; cbn [free_groups].
  { exists s. split_and!; try done; [apply drops_refl|]. intros i. cbn. by destruct (groups s !! i). }
  apply Forall_cons in Hl as [[Hg Hr] Hl]. apply NoDup_cons in Hnd as [Hni Hnd]. unfold c_group_owner_match.
  destruct (Z.eqb_spec (g_app_owner g) app) as [Ho|Ho].
  - destruct (group_free_done h Hh s id g G Hg (Hr Ho)) as (m & E & G1 & S). rewrite E, obind_Some.
    destruct (IH (free_group id (with_apps m s)) Hh G1 Hnd) as (s' & -> & G' & F & D & M1 & M2 & L).
    { eapply Forall_impl; [apply Forall_and; split; [exact Hl|apply Forall_forall; intros y Hy; exact (list_elem_of_fmap_2 fst _ _ Hy)]|].
      intros [i x] [[H1 H2] Hi]. cbn in Hi |- *. assert (id <> i) by (intros ->; by apply Hni).
      rewrite !lookup_delete_ne by done. done. }
    exists s'. split_and!; [done|done| | |done|done|].
    + eapply frame_trans; [|exact F]. split; try done. intros x. cbn. by rewrite (shifted_dom _ _ _ _ S).
    + eapply drops_trans; [|exact D]. rewrite Ho in S. apply (drops_one _ _ _ m); try done. intros x. unfold owned. cbn.
      rewrite (msum_delete _ _ _ g), Ho by done. lia.
    + intros i. rewrite L. cbn [groups free_group set_groups map fst]. destruct (decide (id = i)) as [<-|Hne].
      * rewrite lookup_delete_eq, Hg. cbn. rewrite bool_decide_true by set_solver. by rewrite (proj2 (Z.eqb_eq _ _) Ho).
      * rewrite lookup_delete_ne by done. cbn. destruct (groups s !! i) as [x|]; cbn; [|done].
        by rewrite (bool_decide_ext (i ∈ map fst l) (i ∈ id :: map fst l)) by set_solver.
  - rewrite obind_Some. destruct (IH s Hh G Hnd Hl) as (s' & -> & G' & F & D & M1 & M2 & L).
    exists s'. split_and!; try done. intros i. rewrite L. cbn [map fst].
    destruct (decide (id = i)) as [<-|Hne].
    + rewrite Hg. cbn. rewrite (proj2 (Z.eqb_neq _ _) Ho), !andb_false_r. done.
    + destruct (groups s !! i) as [x|]; cbn; [|done].
      by rewrite (bool_decide_ext (i ∈ map fst l) (i ∈ id :: map fst l)) by set_solver.
Qed.

Lemma free_meters_done h app l : forall s,
  (forall x, 0 <= h x) -> gwf h s -> NoDup (map fst l) ->
  Forall (fun '(id, g) => meters s !! id = Some g /\
     (m_app_owner g = app -> FlowTbl.meter_refs (sw_fl s) !! id = Some 0)) l ->
  exists s', free_meters l app s = Some s' /\ gwf h s' /\ frame s s' /\ drops app s s' /\ groups s' = groups s /\
    FlowTbl.grp_refs (sw_fl s') = FlowTbl.grp_refs (sw_fl s) /\
    forall id, meters s' !! id = (x ← meters s !! id; if bool_decide (id ∈ map fst l) && (m_app_owner x =? app) then None else Some x).
Proof.
  induction l as [|[id g] l IH]; intros s Hh G Hnd Hl; cbn [free_meters].
  { exists s. split_and!; try done; [apply drops_refl|]. intros i. cbn. by destruct (meters s !! i). }
  apply Forall_cons in Hl as [[Hg Hr] Hl]. apply NoDup_cons in Hnd as [Hni Hnd]. unfold c_meter_owner_match.
  destruct (Z.eqb_spec (m_app_owner g) app) as [Ho|Ho].
  - destruct (meter_free_done h Hh s id g G Hg (Hr Ho)) as (m & E & G1 & S). rewrite E, obind_Some.
    destruct (IH (free_meter id (with_apps m s)) Hh G1 Hnd) as (s' & -> & G' & F & D & M1 & M2 & L).
    { eapply Forall_impl; [apply Forall_and; split; [exact Hl|apply Forall_forall; intros y Hy; exact (list_elem_of_fmap_2 fst _ _ Hy)]|].
      intros [i x] [[H1 H2] Hi]. cbn in Hi |- *. assert (id <> i) by (intros ->; by apply Hni).
      rewrite !lookup_delete_ne by done. done. }
    exists s'. split_and!; [done|done| | |done|done|].
    + eapply frame_trans; [|exact F]. split; try done. intros x. cbn. by rewrite (shifted_dom _ _ _ _ S).
    + eapply drops_trans; [|exact D]. rewrite Ho in S. apply (drops_one _ _ _ m); try done. intros x. unfold owned. cbn.
      rewrite (msum_delete _ _ _ g), Ho by done. lia.
    + intros i. rewrite L. cbn [meters free_meter set_meters map fst]. destruct (decide (id = i)) as [<-|Hne].
      * rewrite lookup_delete_eq, Hg. cbn. rewrite bool_decide_true by set_solver. by rewrite (proj2 (Z.eqb_eq _ _) Ho).
      * rewrite lookup_delete_ne by done. cbn. destruct (meters s !! i) as [x|]; cbn; [|done].
        by rewrite (bool_decide_ext (i ∈ map fst l) (i ∈ id :: map fst l)) by set_solver.
  - rewrite obind_Some. destruct (IH s Hh G Hnd Hl) as (s' & -> & G' & F & D & M1 & M2 & L).
    exists s'. split_and!; try done. intros i. rewrite L. cbn [map fst].
    destruct (decide (id = i)) as [<-|Hne].
    + rewrite Hg. cbn. rewrite (proj2 (Z.eqb_neq _ _) Ho), !andb_false_r. done.
    + destruct (meters s !! i) as [x|]; cbn; [|done].
      by rewrite (bool_decide_ext (i ∈ map fst l) (i ∈ id :: map fst l)) by set_solver.
Qed.

Lemma unused_zero f id s r :
  refs_ok f (FlowTbl.ents (sw_fl s)) r -> is_Some (r !! id) -> ~ used_by_flow f id s -> r !! id = Some 0.
Proof.
  intros [R1 R2] [n Hn] Hu. rewrite Hn. f_equal. rewrite (R2 id n Hn), refsum_msum.
  assert (forall a e, FlowTbl.ents (sw_fl s) !! a = Some e -> cnt id (f e) = 0) as Hz.
  { intros a e Ha. apply cnt_notin. intros Hin. apply Hu. by exists a, e. }
  revert Hz. generalize (FlowTbl.ents (sw_fl s)). clear. intros m Hz.
  induction m as [|a e m Ha IH] using map_ind; [done|]. rewrite msum_fresh by done.
  rewrite (Hz a e) by apply lookup_insert_eq. rewrite IH; [done|].
  intros b x Hb. apply (Hz b x). by rewrite lookup_insert_ne by congruence.
Qed.

Lemma in_keys {A} (m : gmap Z A) id x : m !! id = Some x -> id ∈ map fst (map_to_list m).
Proof. intros Hx. apply elem_of_map_to_list in Hx. exact (list_elem_of_fmap_2 fst _ _ Hx). Qed.

(** Both removals, with what they leave of the references. *)
Lemma owner_removal_run app s :
  gwf nohold s ->
  (forall id g, groups s !! id = Some g -> g_app_owner g = app -> ~ used_by_flow FlowTbl.groups id s) ->
  (forall id m, meters s !! id = Some m -> m_app_owner m = app -> ~ used_by_flow FlowTbl.meters id s) ->
  exists s1 s2, __c_per_switch_del_group_with_owner app s = Some s1 /\
    __c_per_switch_del_meter_with_owner app s1 = Some s2 /\ gwf nohold s2 /\ frame s s2 /\ drops app s s2 /\
    without_owner g_app_owner app (groups s) (groups s2) /\ without_owner m_app_owner app (meters s) (meters s2) /\
    FlowTbl.ents (sw_fl s2) = FlowTbl.ents (sw_fl s).
Proof.
  intros G Hg Hm. assert (forall x, 0 <= nohold x) as Hh by done.
  unfold __c_per_switch_del_group_with_owner, __c_per_switch_del_meter_with_owner.
  destruct (free_groups_done nohold app (map_to_list (groups s)) s Hh G (NoDup_fst_map_to_list _))
    as (s1 & E1 & G1 & F1 & D1 & M1 & M2 & L1).
  { apply Forall_forall. intros [id g] Hin. apply elem_of_map_to_list in Hin. split; [done|]. intros Ho.
    eapply unused_zero; [apply G|apply (gw_grp _ _ G); eauto|by eapply Hg]. }
  destruct (free_meters_done nohold app (map_to_list (meters s1)) s1 Hh G1 (NoDup_fst_map_to_list _))
    as (s2 & E2 & G2 & F2 & D2 & N1 & N2 & L2).
  { apply Forall_forall. intros [id m] Hin. apply elem_of_map_to_list in Hin. split; [done|]. intros Ho.
    eapply unused_zero; [apply G1|apply (gw_meter _ _ G1); eauto|].
    unfold used_by_flow. rewrite (fr_ents _ _ F1). eapply Hm; [|done]. by rewrite <- M1. }
  exists s1, s2. split_and!; [done|done|done|by eapply frame_trans|by eapply drops_trans| | |by rewrite (fr_ents _ _ F2), (fr_ents _ _ F1)].
  - intros id. rewrite N1, L1. destruct (groups s !! id) as [g|] eqn:E; [|done]. cbn.
    by rewrite bool_decide_true by by eapply in_keys.
  - intros id. rewrite L2, M1. destruct (meters s !! id) as [g|] eqn:E; [|done]. cbn.
    by rewrite bool_decide_true by by eapply in_keys.
Qed.

(** When an application goes, its groups and meters go: if no flow entry uses them any more, both
    removals complete, keep the invariant, and leave exactly the groups and meters of
    the other applications, unchanged, and the flow entries as they were. *)
Theorem owner_removal_spec app s :
  gwf nohold s ->
  (forall id g, groups s !! id = Some g -> g_app_owner g = app -> ~ used_by_flow FlowTbl.groups id s) ->
  (forall id m, meters s !! id = Some m -> m_app_owner m = app -> ~ used_by_flow FlowTbl.meters id s) ->
  exists s1 s2, __c_per_switch_del_group_with_owner app s = Some s1 /\
    __c_per_switch_del_meter_with_owner app s1 = Some s2 /\ gwf nohold s2 /\
    without_owner g_app_owner app (groups s) (groups s2) /\ without_owner m_app_owner app (meters s) (meters s2) /\
    FlowTbl.ents (sw_fl s2) = FlowTbl.ents (sw_fl s).
Proof.
  intros G Hg Hm. destruct (owner_removal_run app s G Hg Hm) as (s1 & s2 & ? & ? & ? & _ & _ & ? & ? & ?). by exists s1, s2.
Qed.
