(* ===== verification/GroupEx.v ===== *)
(** * Groups and meters: a concrete switch and witnesses *)
From stdpp Require Import base list gmap.
From Stdlib Require Import ZArith Lia.
From S2P Require Import Prelude Bytes Flow Ha FlowTbl FlowTblSpec FlowTblEx GroupTbl GroupTblSpec GroupCmd GroupCmdSpec GroupThm.
Import Bytes GroupTbl GroupCmd.
#[local] Open Scope Z_scope.

Definition gx_bkt : bucket := FlowTbl.mk_bkt 10 3 0 [0; 0; 0; 8; 0; 0; 0; 1].
Definition gx_group : c_switch_group := mk_grp 7 5 1 1 (to_vec [gx_bkt]) 1 true 50 90 0 0 0 0 0 0 0.
Definition gx_meter : c_switch_meter := mk_meter 7 6 1 1 (to_vec []) 0 true 50 90 0 0 0 0 0 0 0 0.

(** A flow entry that uses group 5 and is held outside the tables. *)
Definition gx_ent : FlowTbl.c_fl_entry :=
  FlowTbl.mk_ent 1 10 true 0 0 0 0 77 Flow.zero_flow Flow.zero_flow 1 [7] [1; 2; 3; 4] [5] [] 0
    (FlowTbl.zero_stats 0) false.

Definition gx_fl : FlowTbl.c_switch :=
  FlowTbl.mk_switch {[1 := gx_ent]} (replicate 255 no_tbl) [] 0 {[5 := 1]} {[6 := 0]} {[7 := 2; 8 := 0]} true true
    FlowTbl.SW_HA_NONE [].

(** Application 7 owns group 5 and meter 6; application 8 owns nothing. *)
Definition gx : switch :=
  mk_sw gx_fl false 9 true false false {[5 := gx_group]} {[6 := gx_meter]} [].

Lemma gx_fl_wf : wf gx_fl.
Proof.
  split.
  - apply length_replicate.
  - intros t tbl Ht. apply lookup_replicate in Ht as [-> _]. exists []. split_and!; constructor.
  - split.
    + intros a e Ha. cbn [FlowTbl.ents gx_fl] in Ha. apply lookup_singleton_Some in Ha as [_ <-]. constructor; [by eexists|constructor].
    + intros g n Hg. cbn [FlowTbl.grp_refs FlowTbl.meter_refs gx_fl] in Hg. apply lookup_singleton_Some in Hg as [<- <-]. reflexivity.
  - split.
    + intros a e Ha. cbn [FlowTbl.ents gx_fl] in Ha. apply lookup_singleton_Some in Ha as [_ <-]. constructor.
    + intros g n Hg. cbn [FlowTbl.grp_refs FlowTbl.meter_refs gx_fl] in Hg. apply lookup_singleton_Some in Hg as [<- <-]. reflexivity.
  - exists []. split_and!; [done|constructor| |set_solver].
    intros a. split; [set_solver|]. intros (t & tbl & Ht & Ha). apply lookup_replicate in Ht as [-> _].
    cbn in Ha. set_solver.
Qed.

Lemma gx_owned x : owned x gx = own x 7 + own x 7.
Proof. unfold owned, msum. cbn. rewrite !map_fold_singleton. cbn. lia. Qed.

Lemma gx_gwf : gwf nohold gx.
Proof.
  split.
  - apply gx_fl_wf.
  - intros id. cbn. destruct (decide (id = 5)) as [->|]; [by rewrite !lookup_singleton_eq|by rewrite !lookup_singleton_ne].
  - intros id. cbn. destruct (decide (id = 6)) as [->|]; [by rewrite !lookup_singleton_eq|by rewrite !lookup_singleton_ne].
  - intros id g Hg. cbn [groups meters gx] in Hg. apply lookup_singleton_Some in Hg as [<- <-]. split; [done|]. exists [gx_bkt]. split_and!; cbn; [lia|done|done].
  - intros id g Hg. cbn [groups meters gx] in Hg. apply lookup_singleton_Some in Hg as [<- <-]. split; [done|]. exists []. split_and!; cbn; [lia|done|done].
  - intros x. rewrite gx_owned. cbn. unfold nohold, own. destruct (decide (x = 7)) as [->|H7].
    { vm_compute. discriminate. }
    rewrite bool_decide_false by done. rewrite lookup_insert_ne by done.
    destruct (decide (x = 8)) as [->|H8]; [vm_compute; discriminate|]. by rewrite lookup_singleton_ne.
  - constructor.
Qed.

(** The deletion of the unused meter 6 for its owner, as a message. *)
Definition gx_meter_del : list Z :=
  ofp_hdr 56 C_OFPT_METER_MOD 1 ++ le_bytes 8 (htonll 9) ++ le_bytes 1 C_OFPMC_DEL ++ le_bytes 1 0 ++
  le_bytes 2 0 ++ le_bytes 4 (htonl 6) ++ replicate 32 0.

Definition gx_events : list (Ha.ctrl_hdl * Z * event) :=
  [(ex_hdl, 100, EvScanGroups 1); (ex_hdl, 100, EvScanMeters 2); (ex_hdl, 100, EvExpiry);
   (ex_hdl, 101, EvMeter 7 gx_meter_del)].


(** In the run of the witness the meter goes, the group that a flow uses stays. *)
Example group_events_run :
  match run_events (fun _ => Some false) (fun _ => 0) (fun _ => 0) (fun _ => false) None gx_events gx with
  | Some s' => bool_decide (meters s' !! 6 = None) && bool_decide (is_Some (groups s' !! 5)) &&
               bool_decide (FlowTbl.app_refs (sw_fl s') !! 7 = Some 1)
  | None => false
  end = true.
Proof. vm_compute. reflexivity. Qed.

Definition gx_add : of_group_mod_params := mk_gparms 8 9 0 1 (to_vec [gx_bkt; gx_bkt]) 2.

Lemma group_add_spec_witness :
  exists r s', c_switch_group_add ex_hdl 100 gx_add gx = Some (r, s') /\ gwf nohold s'.
Proof.
  destruct (group_add_spec ex_hdl 100 gx_add gx) as (r & s' & E & W & _);
    [exact gx_gwf|reflexivity| |by eexists|exists r, s'; exact (conj E W)].
  exists [gx_bkt; gx_bkt]. split_and!; cbn; [lia|done|done].
Defined.

Lemma used_stays_witness :
  used_by_flow FlowTbl.groups 5 gx /\
  c_switch_group_del ex_hdl (mk_gparms 7 5 1 0 (to_vec []) 0) gx = Some (-1, gx).
Proof.
  assert (used_by_flow FlowTbl.groups 5 gx) as Hu by (exists 1, gx_ent; split; [reflexivity|cbn; set_solver]).
  split; [exact Hu|].
  destruct (used_stays ex_hdl (mk_gparms 7 5 1 0 (to_vec []) 0) (mk_mparms 7 6 0 0 (to_vec []) 0) gx gx_gwf eq_refl)
    as [(r & s' & E & _ & U & _) _].
  destruct (U Hu) as [-> ->]. exact E.
Defined.

Definition gx_peer_group : c_switch_group := mk_grp 3 12 1 1 (to_vec [gx_bkt; gx_bkt]) 2 true 50 90 0 0 0 0 0 0 0.

Lemma gx_bkt_fits : bkt_fits gx_bkt.
Proof. split; cbn; lia. Qed.

Lemma group_sync_roundtrip_witness :
  exists b s' g', c_of_prep_group_mod_msg 9 1 gx_peer_group true = Some b /\
    c_app_group_mod_command (fun _ => Some false) (fun _ => 0) (fun _ => false) None ex_hdl 100 8 b gx = Some (0, s') /\
    groups s' !! 12 = Some g' /\ act_vectors g' = act_vectors gx_peer_group.
Proof.
  destruct (group_sync_roundtrip (fun _ => Some false) (fun _ => 0) (fun _ => false) None ex_hdl 100 8 1
    gx_peer_group [gx_bkt; gx_bkt] gx) as (b & s' & g' & E1 & E2 & _ & E3 & _ & _ & E4 & _).
  - split; [split_and!; cbn; (done || lia)|exact (Forall_cons_2 _ _ _ gx_bkt_fits (Forall_cons_2 _ _ _ gx_bkt_fits (Forall_nil_2 _)))|cbn; lia|cbn; lia|cbn; lia|vm_compute; reflexivity].
  - by repeat constructor.
  - exact gx_gwf.
  - reflexivity.
  - cbn. lia.
  - by eexists.
  - reflexivity.
  - reflexivity.
  - reflexivity.
  - reflexivity.
  - done.
  - exists b, s', g'. exact (conj E1 (conj E2 (conj E3 E4))).
Defined.

(** The same switch when no flow uses its groups. *)
Definition gx_idle : switch :=
  mk_sw (empty_switch {[5 := 0]} {[6 := 0]} {[7 := 2; 8 := 0]}) false 9 true false false
    {[5 := gx_group]} {[6 := gx_meter]} [].

Lemma gx_idle_gwf : gwf nohold gx_idle.
Proof.
  destruct gx_gwf as [F G M GO MO A E]. split; [| |exact M|exact GO|exact MO|exact A|exact E].
  - apply wf_empty; intros g n Hg; by apply lookup_singleton_Some in Hg as [_ <-].
  - intros id. cbn. destruct (decide (id = 5)) as [->|]; [by rewrite !lookup_singleton_eq|by rewrite !lookup_singleton_ne].
Qed.

Lemma owner_removal_spec_witness :
  exists s1 s2, __c_per_switch_del_group_with_owner 7 gx_idle = Some s1 /\
    __c_per_switch_del_meter_with_owner 7 s1 = Some s2 /\ gwf nohold s2.
Proof.
  destruct (owner_removal_spec 7 gx_idle) as (s1 & s2 & E1 & E2 & W & _).
  - exact gx_idle_gwf.
  - intros id g _ _ (a & e & He & _). cbn in He. by rewrite lookup_empty in He.
  - intros id g _ _ (a & e & He & _). cbn in He. by rewrite lookup_empty in He.
  - exists s1, s2. exact (conj E1 (conj E2 W)).
Defined.

(** ** A flow of one application with a group of another *)

(** Entry 1 of table 0 belongs to application 8 and uses group 5 of application 7. *)
Definition gy : switch :=
  mk_sw (FlowTbl.mk_switch {[1 := FlowTbl.set_owners 1 [8] gx_ent]}
           (<[0%nat := FlowTbl.mk_tbl 1 [1]]> (replicate 255 no_tbl)) [(1, 1)] 1 {[5 := 1]} {[6 := 0]} {[7 := 2; 8 := 1]}
           true true FlowTbl.SW_HA_NONE [])
    false 9 true false false {[5 := gx_group]} {[6 := gx_meter]} [].

(** When application 7 goes the group is freed although the entry still points to it: to release
    the entry afterwards is undefined. *)
Example unregister_leaves_dangling_group :
  match app_unregister_owned ex_hdl 7 gy with
  | Some s' => bool_decide (groups s' !! 5 = None) &&
               bool_decide (FlowTbl.groups <$> (FlowTbl.ents (sw_fl s') !! 1) = Some [5]) &&
               match FlowTbl.c_flow_entry_put 1 (sw_fl s') with None => true | Some _ => false end
  | None => false
  end = true.
Proof. vm_compute. reflexivity. Qed.
