(* ===== verification/Topo.v ===== *)
(** * Topology: switches, ports and neighbours (mul_lldp.c, mul_lldp_common.c, mul_tr.c)

    The routing service finds links by the LLDP packets that it sends out of every port, keeps for every switch
    its ports and, by neighbour switch, the ports that lead there, and rebuilds the routes of
    [RouteApsp] when links change.

    A switch is identified by its dpid and a port by its number.  A pointer to a port in the lists of neighbours is its number with
    the identity [lp_uid] of the object, so that a pointer to a freed port is seen.  Hash tables are finite
    maps; [g_hash_table_foreach] visits the keys in an order that glib leaves open: the parameter [order].  The
    service runs in one thread: a lock that is taken twice never returns ([None]). *)
From stdpp Require Import base list gmap.
From Stdlib Require Import ZArith Lia.
From S2P Require Import Prelude RouteApsp RouteServlet.
#[local] Open Scope Z_scope.

(** The order in which glib visits the keys of a hash table. *)
Class HashOrder := {
  order : gset Z -> list Z;
  order_perm : forall X, order X ≡ₚ elements X }.

Module Topo.
Import Apsp.

Definition MUL_LLDP_INV_DPID : Z := 0xffffffffffffffff.
Definition OFPP_MAX : Z := 0xff00.
Definition OFPPC_PORT_DOWN : Z := 1.
Definition OFPPS_LINK_DOWN : Z := 1.
Definition RT_PERIODIC_TRIGGER_TS : Z := 60.
Definition LOOP_PORT_TR_TIMEO : Z := 2.
Definition LLDP_PROBE_PORT_INTERVAL : Z := 1.
Definition C_RT_APSP_CONVERGED : Z := 4.

Inductive lldp_port_status := LLDP_PORT_STATUS_INIT | LLDP_PORT_STATUS_NEIGHBOR | LLDP_PORT_STATUS_EXTERNAL.
Inductive loop_port_status :=
  | LOOP_PORT_STATUS_INIT | LOOP_PORT_STATUS_NONE | LOOP_PORT_STATUS_DP
  | LOOP_PORT_STATUS_RP | LOOP_PORT_STATUS_NDP | LOOP_PORT_STATUS_DP_N.
#[global] Instance lldp_port_status_eq : EqDecision lldp_port_status.
Proof. solve_decision. Defined.
#[global] Instance loop_port_status_eq : EqDecision loop_port_status.
Proof. solve_decision. Defined.

Record lldp_port := mk_lport {
  port_no : Z; lp_uid : Z; status : lldp_port_status; loop_status : loop_port_status;
  commit_loop_status : loop_port_status; config : Z; pstate : Z; hold_time : Z;
  neighbor_port : Z; neighbor_dpid : Z; hw_addr : list Z; ttl : Z; next_probe : Z }.

Record lldp_switch := mk_lsw {
  sw_lock : bool; sw_ref : Z; dpid : Z; alias_id : Z; ports : gmap Z lldp_port;
  neighbors : gmap Z (list (Z * Z)); root_switch : bool; root_path_cost : Z }.

Inductive loop_state :=
  LOOP_STATE_RESET | LOOP_STATE_ROOT_ELECT | LOOP_STATE_ROOT_COST_CALC | LOOP_STATE_DP_SELECT | LOOP_STATE_NONE_SELECT.

Record loop_dat := mk_loop {
  root_dpid : Z; next_loop_state : loop_state; loop_blocked : bool; root_sw : option Z;
  loop_reset_only : bool; loop_conv_state : Z; held_ports : Z; clr_ports : Z }.

(** The part of [tr_struct_t] beside the routing block. *)
Record tr_flags := mk_tr {
  rt_trigger : bool; rt_init_trigger : bool; rt_next_trigger_ts : Z; loop_trigger : bool; loop_en : bool;
  rt_timeo_set : bool }.

Inductive rw_lock := LkFree | LkRead (n : nat) | LkWrite.

(** What is sent to the core: port changes, LLDP packets, the flow that brings LLDP packets, and the states of
    loop detection and of routing. *)
Inductive topo_msg :=
  | PortMod (dpid port config mask : Z)
  | LldpOut (dpid port : Z) (pkt : list Z)
  | LldpFlow (dpid : Z)
  | LoopStatus (state : Z)
  | TrStatus (status : Z).

Record topo_hdl := mk_topo {
  switches : gmap Z lldp_switch; switch_lock : rw_lock; sw_imap : list (option Z); max_sw_alias : Z;
  loop_info : loop_dat; tr : tr_flags; rt : rt_apsp_t; orphans : list lldp_switch; next_uid : Z; topo_tx : list topo_msg }.

(** ** Fields *)

Definition set_switches (x : gmap Z lldp_switch) (t : topo_hdl) : topo_hdl :=
  mk_topo x (switch_lock t) (sw_imap t) (max_sw_alias t) (loop_info t) (tr t) (rt t) (orphans t) (next_uid t) (topo_tx t).
Definition set_switch_lock (x : rw_lock) (t : topo_hdl) : topo_hdl :=
  mk_topo (switches t) x (sw_imap t) (max_sw_alias t) (loop_info t) (tr t) (rt t) (orphans t) (next_uid t) (topo_tx t).
Definition set_imap (x : list (option Z)) (t : topo_hdl) : topo_hdl :=
  mk_topo (switches t) (switch_lock t) x (max_sw_alias t) (loop_info t) (tr t) (rt t) (orphans t) (next_uid t) (topo_tx t).
Definition set_max_alias (x : Z) (t : topo_hdl) : topo_hdl :=
  mk_topo (switches t) (switch_lock t) (sw_imap t) x (loop_info t) (tr t) (rt t) (orphans t) (next_uid t) (topo_tx t).
Definition set_loop (x : loop_dat) (t : topo_hdl) : topo_hdl :=
  mk_topo (switches t) (switch_lock t) (sw_imap t) (max_sw_alias t) x (tr t) (rt t) (orphans t) (next_uid t) (topo_tx t).
Definition set_tr (x : tr_flags) (t : topo_hdl) : topo_hdl :=
  mk_topo (switches t) (switch_lock t) (sw_imap t) (max_sw_alias t) (loop_info t) x (rt t) (orphans t) (next_uid t) (topo_tx t).
Definition set_rt (x : rt_apsp_t) (t : topo_hdl) : topo_hdl :=
  mk_topo (switches t) (switch_lock t) (sw_imap t) (max_sw_alias t) (loop_info t) (tr t) x (orphans t) (next_uid t) (topo_tx t).
Definition set_orphans (x : list lldp_switch) (t : topo_hdl) : topo_hdl :=
  mk_topo (switches t) (switch_lock t) (sw_imap t) (max_sw_alias t) (loop_info t) (tr t) (rt t) x (next_uid t) (topo_tx t).
Definition set_uid (x : Z) (t : topo_hdl) : topo_hdl :=
  mk_topo (switches t) (switch_lock t) (sw_imap t) (max_sw_alias t) (loop_info t) (tr t) (rt t) (orphans t) x (topo_tx t).
Definition send (m : topo_msg) (t : topo_hdl) : topo_hdl :=
  mk_topo (switches t) (switch_lock t) (sw_imap t) (max_sw_alias t) (loop_info t) (tr t) (rt t) (orphans t) (next_uid t)
    (topo_tx t ++ [m]).

Definition set_lock (x : bool) (s : lldp_switch) : lldp_switch :=
  mk_lsw x (sw_ref s) (dpid s) (alias_id s) (ports s) (neighbors s) (root_switch s) (root_path_cost s).
Definition set_ref (x : Z) (s : lldp_switch) : lldp_switch :=
  mk_lsw (sw_lock s) x (dpid s) (alias_id s) (ports s) (neighbors s) (root_switch s) (root_path_cost s).
Definition set_ports (x : gmap Z lldp_port) (s : lldp_switch) : lldp_switch :=
  mk_lsw (sw_lock s) (sw_ref s) (dpid s) (alias_id s) x (neighbors s) (root_switch s) (root_path_cost s).
Definition set_neighbors (x : gmap Z (list (Z * Z))) (s : lldp_switch) : lldp_switch :=
  mk_lsw (sw_lock s) (sw_ref s) (dpid s) (alias_id s) (ports s) x (root_switch s) (root_path_cost s).
Definition set_root (x : bool) (cost : Z) (s : lldp_switch) : lldp_switch :=
  mk_lsw (sw_lock s) (sw_ref s) (dpid s) (alias_id s) (ports s) (neighbors s) x cost.

Definition set_loop_status (x : loop_port_status) (p : lldp_port) : lldp_port :=
  mk_lport (port_no p) (lp_uid p) (status p) x (commit_loop_status p) (config p) (pstate p) (hold_time p)
    (neighbor_port p) (neighbor_dpid p) (hw_addr p) (ttl p) (next_probe p).
Definition set_commit (x : loop_port_status) (p : lldp_port) : lldp_port :=
  mk_lport (port_no p) (lp_uid p) (status p) (loop_status p) x (config p) (pstate p) (hold_time p)
    (neighbor_port p) (neighbor_dpid p) (hw_addr p) (ttl p) (next_probe p).
Definition set_hold (x : Z) (p : lldp_port) : lldp_port :=
  mk_lport (port_no p) (lp_uid p) (status p) (loop_status p) (commit_loop_status p) (config p) (pstate p) x
    (neighbor_port p) (neighbor_dpid p) (hw_addr p) (ttl p) (next_probe p).
Definition set_neigh (st : lldp_port_status) (np nd t : Z) (p : lldp_port) : lldp_port :=
  mk_lport (port_no p) (lp_uid p) st (loop_status p) (commit_loop_status p) (config p) (pstate p) (hold_time p)
    np nd (hw_addr p) t (next_probe p).
Definition set_ttl (x : Z) (p : lldp_port) : lldp_port :=
  mk_lport (port_no p) (lp_uid p) (status p) (loop_status p) (commit_loop_status p) (config p) (pstate p) (hold_time p)
    (neighbor_port p) (neighbor_dpid p) (hw_addr p) x (next_probe p).
Definition set_status (x : lldp_port_status) (p : lldp_port) : lldp_port :=
  mk_lport (port_no p) (lp_uid p) x (loop_status p) (commit_loop_status p) (config p) (pstate p) (hold_time p)
    (neighbor_port p) (neighbor_dpid p) (hw_addr p) (ttl p) (next_probe p).
Definition set_cfg (c s : Z) (p : lldp_port) : lldp_port :=
  mk_lport (port_no p) (lp_uid p) (status p) (loop_status p) (commit_loop_status p) c s (hold_time p)
    (neighbor_port p) (neighbor_dpid p) (hw_addr p) (ttl p) (next_probe p).
Definition set_probe (x : Z) (p : lldp_port) : lldp_port :=
  mk_lport (port_no p) (lp_uid p) (status p) (loop_status p) (commit_loop_status p) (config p) (pstate p) (hold_time p)
    (neighbor_port p) (neighbor_dpid p) (hw_addr p) (ttl p) x.

(** ** Locks *)

Definition c_wr_lock (t : topo_hdl) : option topo_hdl :=
  match switch_lock t with LkFree => Some (set_switch_lock LkWrite t) | _ => None end.
Definition c_wr_unlock (t : topo_hdl) : option topo_hdl :=
  match switch_lock t with LkWrite => Some (set_switch_lock LkFree t) | _ => None end.
Definition c_rd_lock (t : topo_hdl) : option topo_hdl :=
  match switch_lock t with
  | LkFree => Some (set_switch_lock (LkRead 1) t)
  | LkRead n => Some (set_switch_lock (LkRead (S n)) t)
  | LkWrite => None
  end.
Definition c_rd_unlock (t : topo_hdl) : option topo_hdl :=
  match switch_lock t with
  | LkRead (S (S n)) => Some (set_switch_lock (LkRead (S n)) t)
  | LkRead 1 => Some (set_switch_lock LkFree t)
  | _ => None
  end.

(** A change of a switch object, and of a port object of it. *)
Definition upd_sw (d : Z) (f : lldp_switch -> lldp_switch) (t : topo_hdl) : topo_hdl :=
  set_switches (alter f d (switches t)) t.
Definition upd_port (d p : Z) (f : lldp_port -> lldp_port) (t : topo_hdl) : topo_hdl :=
  upd_sw d (fun s => set_ports (alter f p (ports s)) s) t.
Definition get_port (d p : Z) (t : topo_hdl) : option lldp_port := s ← switches t !! d; ports s !! p.

Definition sw_take (d : Z) (t : topo_hdl) : option topo_hdl :=
  s ← switches t !! d; if sw_lock s then None else Some (upd_sw d (set_lock true) t).
Definition sw_drop (d : Z) (t : topo_hdl) : option topo_hdl :=
  s ← switches t !! d; if sw_lock s then Some (upd_sw d (set_lock false) t) else None.

(** ** References *)

Definition __fetch_and_retain_switch (d : Z) (t : topo_hdl) : bool * topo_hdl :=
  match switches t !! d with
  | Some s => (true, upd_sw d (fun s => set_ref (sw_ref s + 1) s) t)
  | None => (false, t)
  end.
Definition fetch_and_retain_switch (d : Z) (t : topo_hdl) : option (bool * topo_hdl) :=
  t ← c_rd_lock t;
  let '(r, t) := __fetch_and_retain_switch d t in
  t ← c_rd_unlock t; Some (r, t).

(** Of a switch that is in the table, and so is referenced by it. *)
Definition lldp_switch_unref (d : Z) (t : topo_hdl) : option topo_hdl :=
  s ← switches t !! d;
  if sw_ref s - 1 =? 0 then None else Some (upd_sw d (fun s => set_ref (sw_ref s - 1) s) t).

(** ** Traversal *)

Fixpoint foreach {A} (f : Z -> A -> option A) (l : list Z) (a : A) : option A :=
  match l with
  | [] => Some a
  | k :: l => a ← f k a; foreach f l a
  end.

Section ORDER.
Context `{HashOrder}.

Definition __lldp_switch_traverse_all (f : Z -> topo_hdl -> option topo_hdl) (t : topo_hdl) : option topo_hdl :=
  foreach f (order (dom (switches t))) t.
Definition __lldp_port_traverse_all (d : Z) (f : Z -> topo_hdl -> option topo_hdl) (t : topo_hdl) : option topo_hdl :=
  s ← switches t !! d; foreach f (order (dom (ports s))) t.
Definition lldp_port_traverse_all (d : Z) (f : Z -> topo_hdl -> option topo_hdl) (t : topo_hdl) : option topo_hdl :=
  t ← sw_take d t; t ← __lldp_port_traverse_all d f t; sw_drop d t.
End ORDER.

Definition __lldp_num_ports_in_switch (s : lldp_switch) : Z := Z.of_nat (size (ports s)).
Definition __lldp_port_find (d p : Z) (t : topo_hdl) : option lldp_port := get_port d p t.

(** ** Links for routing *)

(** The object a pointer in a list of neighbours leads to. *)
Definition deref (s : lldp_switch) (q : Z * Z) : option lldp_port :=
  p ← ports s !! q.1; if lp_uid p =? q.2 then Some p else None.

Definition blocked_status (x : loop_port_status) : bool :=
  match x with LOOP_PORT_STATUS_NDP | LOOP_PORT_STATUS_DP_N => true | _ => false end.

Definition lldp_send_rt_neigh_conn (send_port_state : bool) (p : lldp_port) : lweight_pair_t :=
  if send_port_state && blocked_status (loop_status p)
  then mk_pair (port_no p) (neighbor_port p) (100 * NEIGH_DFL_WEIGHT) (Z.lor NEIGH_FL_ONLINK NEIGH_FL_BLOCK)
  else mk_pair (port_no p) (neighbor_port p) NEIGH_DFL_WEIGHT NEIGH_FL_ONLINK.

Definition lldp_get_switch_from_imap (t : topo_hdl) (i : Z) : option lldp_switch :=
  match aget (sw_imap t) i with Some (Some d) => switches t !! d | _ => None end.

(** The connections that are reported for two aliases. *)
Definition __lldp_init_neigh_pair_adjacencies (t : topo_hdl) (send_port_state : bool) (i j : Z)
  : list (Z * Z * lweight_pair_t) :=
  match lldp_get_switch_from_imap t i, lldp_get_switch_from_imap t j with
  | Some from_sw, Some to_sw =>
      match neighbors from_sw !! dpid to_sw with
      | Some l => omap (fun q => p ← deref from_sw q;
                    Some (dpid from_sw, dpid to_sw, lldp_send_rt_neigh_conn send_port_state p)) l
      | None => []
      end
  | _, _ => []
  end.

#[global] Instance lldp_topology : Topology topo_hdl := {|
  tr_get_max_switch_alias := max_sw_alias;
  tr_neigh_pair_adjacencies := __lldp_init_neigh_pair_adjacencies |}.

(** No list of neighbours holds a pointer to a freed port. *)
Definition lists_alive (t : topo_hdl) : bool :=
  bool_decide (map_Forall (fun _ s => map_Forall (fun _ l => Forall (fun q => is_Some (deref s q)) l) (neighbors s))
    (switches t)).

(** ** Routing *)

Definition set_loop_trigger (x : bool) (t : topo_hdl) : topo_hdl :=
  let r := tr t in
  set_tr (mk_tr (rt_trigger r) (rt_init_trigger r) (rt_next_trigger_ts r) x (loop_en r) (rt_timeo_set r)) t.

Definition __tr_invoke_routing (now : Z) (t : topo_hdl) : option topo_hdl :=
  if lists_alive t then
    b ← rebuild_routes t false now (rt t);
    let r := tr t in
    Some (set_tr (mk_tr (rt_trigger r) true (rt_next_trigger_ts r) true (loop_en r) (rt_timeo_set r)) (set_rt b t))
  else None.

(** The lock is taken when it is free, and released again. *)
Definition tr_invoke_routing (now : Z) (t : topo_hdl) : option topo_hdl :=
  if negb (rt_init_trigger (tr t)) then Some t
  else
    match switch_lock t with
    | LkFree => t ← __tr_invoke_routing now (set_switch_lock LkWrite t); c_wr_unlock t
    | _ => __tr_invoke_routing now t
    end.

Definition __tr_route_recalc (now : Z) (t : topo_hdl) : option topo_hdl :=
  if lists_alive t then b ← mul_route_apsp_recalc t now (rt t); Some (set_rt b t) else None.

(** [c_app_switch_get_dpid_with_alias] is of the application library. *)
Definition __tr_get_route (dpid_with_alias : Z -> Z) (src dst : Z) (t : topo_hdl) : option (list Servlet.rt_path_elem_t) :=
  let num_nodes := max_sw_alias t in
  if (num_nodes =? 0) || (src <? 0) || (dst <? 0) || (num_nodes <? src) || (num_nodes <? dst) then Some []
  else Servlet.mul_route_apsp_get_sp dpid_with_alias [(rt t, false)] src dst.

Definition __lldp_set_next_tr_timeo (now timeo : Z) (t : topo_hdl) : topo_hdl :=
  let r := tr t in
  if rt_timeo_set r then t
  else set_tr (mk_tr (rt_trigger r) (rt_init_trigger r) (now + timeo) (loop_trigger r) (loop_en r) true) t.

End Topo.
