(* ===== verification/Loop.v ===== *)
(** * Loop detection (mul_loop.c)

    Loop detection elects a root switch, gives every other switch a root port on its route to the root, and
    marks the remaining ports between switches: the port at the other end of a root port is designated, all others are blocked.
    It runs as a small state machine over the switches of [Topo] with the routes of [RouteServlet].  A pointer to
    the root switch is its dpid; [now] is the time during a run. *)
From stdpp Require Import base list gmap.
From Stdlib Require Import ZArith Lia.
From S2P Require Import Prelude RouteApsp RouteServlet Topo.
#[local] Open Scope Z_scope.

Module Loop.
Import Apsp Topo.

Definition OFPPC_NO_RECV : Z := 4.
Definition OFPPC_NO_FLOOD : Z := 16.
Definition OFPPC_NO_FWD : Z := 32.
Definition LOOP_PORT_HOLD_TIMEO : Z := 2.
Definition C_LOOP_STATE_NONE : Z := 0.
Definition C_LOOP_STATE_LD : Z := 1.
Definition C_LOOP_STATE_CONV : Z := 2.

(** ** Fields of the state machine *)

Definition set_root_dpid (x : Z) (l : loop_dat) : loop_dat :=
  mk_loop x (next_loop_state l) (loop_blocked l) (root_sw l) (loop_reset_only l) (loop_conv_state l) (held_ports l) (clr_ports l).
Definition set_next (x : loop_state) (l : loop_dat) : loop_dat :=
  mk_loop (root_dpid l) x (loop_blocked l) (root_sw l) (loop_reset_only l) (loop_conv_state l) (held_ports l) (clr_ports l).
Definition set_blocked (x : bool) (l : loop_dat) : loop_dat :=
  mk_loop (root_dpid l) (next_loop_state l) x (root_sw l) (loop_reset_only l) (loop_conv_state l) (held_ports l) (clr_ports l).
Definition set_root_sw (x : option Z) (l : loop_dat) : loop_dat :=
  mk_loop (root_dpid l) (next_loop_state l) (loop_blocked l) x (loop_reset_only l) (loop_conv_state l) (held_ports l) (clr_ports l).
Definition set_reset_only (x : bool) (l : loop_dat) : loop_dat :=
  mk_loop (root_dpid l) (next_loop_state l) (loop_blocked l) (root_sw l) x (loop_conv_state l) (held_ports l) (clr_ports l).
Definition set_conv (x : Z) (l : loop_dat) : loop_dat :=
  mk_loop (root_dpid l) (next_loop_state l) (loop_blocked l) (root_sw l) (loop_reset_only l) x (held_ports l) (clr_ports l).
Definition set_counts (held clr : Z) (l : loop_dat) : loop_dat :=
  mk_loop (root_dpid l) (next_loop_state l) (loop_blocked l) (root_sw l) (loop_reset_only l) (loop_conv_state l) held clr.
Definition upd_loop (f : loop_dat -> loop_dat) (t : topo_hdl) : topo_hdl := set_loop (f (loop_info t)) t.

(** ** Ports *)

Definition mul_dp_port_update (d port config mask : Z) (t : topo_hdl) : topo_hdl := send (PortMod d (u16 port) config mask) t.

Definition mul_loop_port_mod (d port : Z) (st : loop_port_status) (t : topo_hdl) : topo_hdl :=
  let three := Z.lor (Z.lor OFPPC_NO_RECV OFPPC_NO_FWD) OFPPC_NO_FLOOD in
  let two := Z.lor OFPPC_NO_RECV OFPPC_NO_FLOOD in
  match st with
  | LOOP_PORT_STATUS_INIT => mul_dp_port_update d port two three t
  | LOOP_PORT_STATUS_NONE | LOOP_PORT_STATUS_DP | LOOP_PORT_STATUS_RP => mul_dp_port_update d port 0 three t
  | LOOP_PORT_STATUS_DP_N | LOOP_PORT_STATUS_NDP => mul_dp_port_update d port two two t
  end.

(** The routing block is told that a link is blocked. *)
Definition mul_loop_rt_neigh_conn_update (d p nd np : Z) (block_rt : bool) (t : topo_hdl) : option topo_hdl :=
  s ← switches t !! d; ns ← switches t !! nd; port ← get_port d p t;
  let fl := if block_rt then Z.lor NEIGH_FL_ONLINK NEIGH_FL_BLOCK else NEIGH_FL_ONLINK in
  b ← mul_route_apsp_add_neigh_conn (rt t) (alias_id s) (alias_id ns) (dpid s) (dpid ns)
        (mk_pair (port_no port) (neighbor_port port) NEIGH_NO_PATH fl) true;
  Some (set_rt b t).

(** A port that falls back to no loop state is held for a while first. *)
Definition __mul_loop_port_update (now d p : Z) (new_state : loop_port_status) (t : topo_hdl) : option topo_hdl :=
  port ← get_port d p t;
  let apply t := upd_port d p (set_loop_status new_state) (mul_loop_port_mod d (port_no port) new_state t) in
  if bool_decide (new_state = LOOP_PORT_STATUS_NONE) then
    let t := upd_port d p (set_commit new_state) t in
    if (hold_time port =? 0) || (now <=? hold_time port + LOOP_PORT_HOLD_TIMEO) then
      Some (if hold_time port =? 0 then upd_port d p (set_hold now) t else t)
    else Some (apply (upd_port d p (set_hold 0) t))
  else Some (apply t).

Definition mul_mark_ports_per_switch := __mul_loop_port_update.

(** ** Reset *)

Definition mul_per_switch_port_loop_reset (d : Z) (mod_ports : bool) (p : Z) (t : topo_hdl) : option topo_hdl :=
  port ← get_port d p t;
  let t := if mod_ports then mul_loop_port_mod d (port_no port) LOOP_PORT_STATUS_INIT t else t in
  Some (upd_port d p (set_loop_status LOOP_PORT_STATUS_INIT) t).

Section ORDER.
Context `{HashOrder} (dpid_with_alias : Z -> Z) (now : Z).

Definition mul_per_switch_loop_reset (d : Z) (t : topo_hdl) : option topo_hdl :=
  t ← sw_take d t;
  let t := upd_sw d (set_root false 0) t in
  t ← __lldp_port_traverse_all d (mul_per_switch_port_loop_reset d false) t;
  sw_drop d t.

Definition __mul_loop_detect_state_reset (t : topo_hdl) : option topo_hdl :=
  let t := upd_loop (set_root_dpid MUL_LLDP_INV_DPID) t in
  t ← __lldp_switch_traverse_all mul_per_switch_loop_reset t;
  let t := if loop_reset_only (loop_info t)
           then upd_loop (set_blocked true) (set_loop_trigger true t) else t in
  Some (upd_loop (set_next LOOP_STATE_ROOT_ELECT) t).

(** ** The root *)

Definition mul_root_per_switch_elect (d : Z) (st : topo_hdl * Z) : option (topo_hdl * Z) :=
  let '(t, least) := st in
  t ← sw_take d t;
  s ← switches t !! d;
  let least := if (dpid s <? least) && negb (__lldp_num_ports_in_switch s =? 0) then dpid s else least in
  t ← sw_drop d t; Some (t, least).

Definition __mul_loop_detect_root_select (t : topo_hdl) : option topo_hdl :=
  let t := upd_loop (set_root_sw None) t in
  '(t, least) ← foreach mul_root_per_switch_elect (order (dom (switches t))) (t, MUL_LLDP_INV_DPID);
  let t := upd_loop (set_root_dpid least) t in
  if least =? MUL_LLDP_INV_DPID then Some (upd_loop (set_next LOOP_STATE_NONE_SELECT) t)
  else
    let '(found, t) := __fetch_and_retain_switch least t in
    if found then
      let t := upd_loop (set_root_sw (Some least)) t in
      t ← lldp_port_traverse_all least (fun p => mul_mark_ports_per_switch now least p LOOP_PORT_STATUS_DP) t;
      Some (upd_loop (set_next LOOP_STATE_ROOT_COST_CALC) t)
    else Some (upd_loop (fun l => set_next LOOP_STATE_NONE_SELECT (set_root_dpid MUL_LLDP_INV_DPID l)) t).

(** ** Root ports *)

(** The cost of a route and the first port number of it that is not 0. *)
Definition mul_route_cost_calc (iroute : list Servlet.rt_path_elem_t) : Z * Z :=
  (10 * Z.of_nat (length iroute),
   foldr (fun e r => if la (Servlet.pe_link e) =? 0 then r else la (Servlet.pe_link e)) 0 iroute).

Definition mul_per_switch_rp_calc (root d : Z) (t : topo_hdl) : option topo_hdl :=
  if d =? root then Some t
  else
    s ← switches t !! d; r ← switches t !! root;
    iroute ← __tr_get_route dpid_with_alias (alias_id s) (alias_id r) t;
    match iroute with
    | [] =>
        let t := upd_sw d (fun s => set_root (root_switch s) (-1) s) t in
        lldp_port_traverse_all d (fun p => mul_mark_ports_per_switch now d p LOOP_PORT_STATUS_NONE) t
    | _ =>
        let '(cost, rport) := mul_route_cost_calc iroute in
        let t := upd_sw d (fun s => set_root (root_switch s) cost s) t in
        t ← sw_take d t;
        t ← match __lldp_port_find d rport t with
            | Some _ => mul_mark_ports_per_switch now d rport LOOP_PORT_STATUS_RP t
            | None => Some t
            end;
        sw_drop d t
    end.

Definition no_root (t : topo_hdl) : topo_hdl :=
  upd_loop (fun l => set_next LOOP_STATE_NONE_SELECT (set_root_dpid MUL_LLDP_INV_DPID l)) t.

Definition __mul_loop_detect_root_cost_calc (t : topo_hdl) : option topo_hdl :=
  match root_sw (loop_info t) with
  | Some r =>
      t ← __lldp_switch_traverse_all (mul_per_switch_rp_calc r) t;
      Some (upd_loop (set_next LOOP_STATE_DP_SELECT) t)
  | None => Some (no_root t)
  end.

(** ** Designated ports *)

(** Both ends of a link are marked and blocked for routing. *)
Definition block_port (d p : Z) (st : loop_port_status) (nd np : Z) (t : topo_hdl) : option topo_hdl :=
  t ← mul_mark_ports_per_switch now d p st t; mul_loop_rt_neigh_conn_update d p nd np true t.

Definition dp_decide (d p : Z) (port : lldp_port) (neigh_port : lldp_port) (t : topo_hdl) : option topo_hdl :=
  let nd := neighbor_dpid port in let np := neighbor_port port in
  let as_dpn t := block_port d p LOOP_PORT_STATUS_DP_N nd np t in
  let as_ndp t := t ← block_port d p LOOP_PORT_STATUS_NDP nd np t; block_port nd np LOOP_PORT_STATUS_DP_N d p t in
  match loop_status neigh_port with
  | LOOP_PORT_STATUS_RP => mul_mark_ports_per_switch now d p LOOP_PORT_STATUS_DP t
  | LOOP_PORT_STATUS_DP => as_ndp t
  | LOOP_PORT_STATUS_NDP => as_dpn t
  | LOOP_PORT_STATUS_DP_N => block_port d p LOOP_PORT_STATUS_NDP nd np t
  | _ =>
      s ← switches t !! d; ns ← switches t !! nd;
      if root_path_cost s <? root_path_cost ns then as_dpn t
      else if root_path_cost ns <? root_path_cost s then as_ndp t
      else if dpid s <=? dpid ns then as_dpn t else as_ndp t
  end.

Definition mul_per_switch_port_dp_calc (d p : Z) (t : topo_hdl) : option topo_hdl :=
  port ← get_port d p t;
  if bool_decide (status port = LLDP_PORT_STATUS_NEIGHBOR) && negb (bool_decide (loop_status port = LOOP_PORT_STATUS_RP)) then
    let nd := neighbor_dpid port in
    let '(found, t) := __fetch_and_retain_switch nd t in
    if found then
      let need_lock := negb (nd =? d) in
      t ← (if need_lock then sw_take nd t else Some t);
      t ← match __lldp_port_find nd (neighbor_port port) t with
          | Some neigh_port => dp_decide d p port neigh_port t
          | None => Some t
          end;
      t ← (if need_lock then sw_drop nd t else Some t);
      lldp_switch_unref nd t
    else Some t
  else Some t.

Definition mul_per_switch_dp_calc (root d : Z) (t : topo_hdl) : option topo_hdl :=
  if d =? root then Some t
  else t ← sw_take d t; t ← __lldp_port_traverse_all d (mul_per_switch_port_dp_calc d) t; sw_drop d t.

Definition __mul_loop_detect_dp_select (t : topo_hdl) : option topo_hdl :=
  match root_sw (loop_info t) with
  | Some r =>
      t ← __lldp_switch_traverse_all (mul_per_switch_dp_calc r) t;
      Some (upd_loop (set_next LOOP_STATE_NONE_SELECT) t)
  | None => Some (no_root t)
  end.

(** ** The other ports *)

Definition idle_status (x : loop_port_status) : bool :=
  match x with LOOP_PORT_STATUS_NONE | LOOP_PORT_STATUS_INIT => true | _ => false end.

(** Counts the ports that are held at the start and those that are not any more at the end. *)
Definition mark_none_counted (d p : Z) (port : lldp_port) (t : topo_hdl) : option topo_hdl :=
  let t := if hold_time port =? 0 then t else upd_loop (fun l => set_counts (held_ports l + 1) (clr_ports l) l) t in
  t ← mul_mark_ports_per_switch now d p LOOP_PORT_STATUS_NONE t;
  port ← get_port d p t;
  Some (if hold_time port =? 0 then upd_loop (fun l => set_counts (held_ports l) (clr_ports l + 1) l) t else t).

Definition mul_per_switch_port_mark_none (d p : Z) (t : topo_hdl) : option topo_hdl :=
  port ← get_port d p t;
  if idle_status (loop_status port) then mark_none_counted d p port t else Some t.

Definition mul_per_switch_none_select (root d : Z) (t : topo_hdl) : option topo_hdl :=
  if d =? root then Some t
  else t ← sw_take d t; t ← __lldp_port_traverse_all d (mul_per_switch_port_mark_none d) t; sw_drop d t.

Definition mul_per_switch_port_mark_none_lazy (d p : Z) (t : topo_hdl) : option topo_hdl :=
  port ← get_port d p t;
  if idle_status (loop_status port) && negb (hold_time port =? 0) then mark_none_counted d p port t else Some t.

Definition mul_per_switch_none_select_lazy (d : Z) (t : topo_hdl) : option topo_hdl :=
  t ← sw_take d t; t ← __lldp_port_traverse_all d (mul_per_switch_port_mark_none_lazy d) t; sw_drop d t.

Definition __mul_loop_detect_none_select (t : topo_hdl) : option topo_hdl :=
  t ← match root_sw (loop_info t) with
      | Some r =>
          t ← __lldp_switch_traverse_all (mul_per_switch_none_select r) t;
          t ← lldp_switch_unref r t;
          Some (upd_loop (set_root_sw None) t)
      | None => Some (upd_loop (set_root_dpid MUL_LLDP_INV_DPID) t)
      end;
  Some (upd_loop (fun l => set_next LOOP_STATE_RESET (set_blocked true l)) t).

(** ** The state machine *)

Definition loop_step (t : topo_hdl) : option topo_hdl :=
  match next_loop_state (loop_info t) with
  | LOOP_STATE_RESET => __mul_loop_detect_state_reset t
  | LOOP_STATE_ROOT_ELECT => __mul_loop_detect_root_select t
  | LOOP_STATE_ROOT_COST_CALC => __mul_loop_detect_root_cost_calc t
  | LOOP_STATE_DP_SELECT => t ← __mul_loop_detect_dp_select t; __tr_route_recalc now t
  | LOOP_STATE_NONE_SELECT => __mul_loop_detect_none_select t
  end.

(** Every state leads to a later one, so five turns are enough. *)
Fixpoint loop_run (fuel : nat) (t : topo_hdl) : option topo_hdl :=
  if loop_blocked (loop_info t) then Some t
  else match fuel with O => None | S fuel => t ← loop_step t; loop_run fuel t end.

Definition mul_loop_convergence_state (l : loop_dat) (run : bool) : Z :=
  if held_ports l =? clr_ports l then C_LOOP_STATE_CONV else if run then C_LOOP_STATE_LD else C_LOOP_STATE_NONE.

Definition mul_loop_detect (need_lock : bool) (t : topo_hdl) : option topo_hdl :=
  t ← (if need_lock then c_wr_lock t else Some t);
  let t := upd_loop (set_counts 0 0) t in
  t ← __lldp_switch_traverse_all mul_per_switch_none_select_lazy t;
  '(run, t) ← (if loop_trigger (tr t) && loop_en (tr t) then
                 let run := negb (loop_reset_only (loop_info t)) in
                 t ← loop_run 5 (set_loop_trigger false (upd_loop (set_blocked false) t));
                 Some (run, t)
               else Some (false, t));
  let t := upd_loop (set_reset_only false) t in
  let conv := mul_loop_convergence_state (loop_info t) run in
  let t := if negb (conv =? C_LOOP_STATE_NONE) && negb (loop_conv_state (loop_info t) =? conv)
           then send (LoopStatus conv) t else t in
  let t := upd_loop (set_conv conv) t in
  if need_lock then c_wr_unlock t else Some t.

Definition mul_loop_detect_reset (lock : bool) (t : topo_hdl) : option topo_hdl :=
  mul_loop_detect lock
    (set_loop_trigger true (upd_loop (fun l => set_next LOOP_STATE_RESET (set_reset_only true l)) t)).

End ORDER.
End Loop.
