(* ===== verification/Lldp.v ===== *)
(** * Link discovery: the events of the topology service (mul_lldp.c, mul_lldp_common.c)

    Switches and ports come and go, LLDP packets tell where a port leads, and a timer probes ports, drops links
    that were not confirmed, rebuilds routes and runs loop detection. *)
From stdpp Require Import base list gmap.
From Stdlib Require Import ZArith Lia.
From S2P Require Import Prelude Bytes RouteApsp RouteServlet Topo Loop.
#[local] Open Scope Z_scope.

Module Lldp.
Import Apsp Topo Loop Bytes.

Definition LLDP_CHASSIS_ID_TLV : Z := 1.
Definition LLDP_PORT_ID_TLV : Z := 2.
Definition LLDP_TTL_TLV : Z := 3.
Definition LLDP_END_OF_LLDPDU_TLV : Z := 0.
Definition LLDP_CHASSIS_ID_LOCALLY_ASSIGNED : Z := 7.
Definition LLDP_PORT_ID_LOCALLY_ASSIGNED : Z := 7.
Definition LLDP_DEFAULT_TTL : Z := 20.
Definition ETH_LLDP : Z := 0x88cc.

(** ** Packets *)

(** A type of 7 bits and a length of 9 bits, lower bits first. *)
Definition tlv_head (ty len : Z) : list Z := le_bytes 2 (Z.lor (Z.land ty 127) (Z.shiftl (Z.land len 511) 7)).

Definition lldp_create_packet (src_addr : list Z) (srcId srcPort : Z) : list Z :=
  [0x01; 0x80; 0xc2; 0x00; 0x00; 0x00] ++ src_addr ++ le_bytes 2 (htons ETH_LLDP) ++
  tlv_head LLDP_CHASSIS_ID_TLV 9 ++ [LLDP_CHASSIS_ID_LOCALLY_ASSIGNED] ++ le_bytes 8 (htonll srcId) ++
  tlv_head LLDP_PORT_ID_TLV 3 ++ [LLDP_PORT_ID_LOCALLY_ASSIGNED] ++ le_bytes 2 (htons srcPort) ++
  tlv_head LLDP_TTL_TLV 2 ++ le_bytes 2 (htons LLDP_DEFAULT_TTL) ++ tlv_head LLDP_END_OF_LLDPDU_TLV 0.

Definition lldp_tx (d p : Z) (t : topo_hdl) : option topo_hdl :=
  s ← switches t !! d; port ← get_port d p t;
  Some (send (LldpOut (dpid s) (port_no port) (lldp_create_packet (hw_addr port) (dpid s) (port_no port))) t).

(** ** Links *)

Definition lldp_port_connect_to_neigh (now d p other_id other_port ttl : Z) (t : topo_hdl) : option topo_hdl :=
  port ← get_port d p t;
  if bool_decide (status port = LLDP_PORT_STATUS_NEIGHBOR) && (neighbor_dpid port =? other_id) && (neighbor_port port =? other_port)
  then Some (upd_port d p (set_ttl ttl) t)
  else
    let t := upd_port d p (set_neigh LLDP_PORT_STATUS_NEIGHBOR other_port other_id ttl) t in
    let t := upd_sw d (fun s => set_neighbors
               (<[other_id := default [] (neighbors s !! other_id) ++ [(p, lp_uid port)]]> (neighbors s)) s) t in
    tr_invoke_routing now t.

(** [g_slist_remove]: the first occurrence. *)
Fixpoint slist_remove (q : Z * Z) (l : list (Z * Z)) : list (Z * Z) :=
  match l with
  | [] => []
  | x :: l => if bool_decide (x = q) then l else x :: slist_remove q l
  end.

(** The end of a link at one port: [None] in the result when the port has no neighbour. *)
Definition disconnect_end (d p : Z) (t : topo_hdl) : option (option lldp_port * topo_hdl) :=
  port ← get_port d p t;
  if negb (bool_decide (status port = LLDP_PORT_STATUS_NEIGHBOR)) then Some (None, t)
  else
    s ← switches t !! d;
    let nb := match neighbors s !! neighbor_dpid port with
              | Some l =>
                  match slist_remove (p, lp_uid port) l with
                  | [] => delete (neighbor_dpid port) (neighbors s)
                  | l => <[neighbor_dpid port := l]> (neighbors s)
                  end
              | None => neighbors s
              end in
    let t := upd_sw d (set_neighbors nb) t in
    Some (Some port, upd_port d p (set_status LLDP_PORT_STATUS_INIT) t).

(** With [tear_pair] also the end at the neighbour.  When the neighbour has no such port, the message about it reads the
    number of the port through a null pointer. *)
Definition lldp_port_disconnect_to_neigh (now d p : Z) (tear_pair : bool) (t : topo_hdl) : option topo_hdl :=
  '(r, t) ← disconnect_end d p t;
  match r with
  | None => Some t
  | Some port =>
      if tear_pair then
        let nd := neighbor_dpid port in
        '(found, t) ← fetch_and_retain_switch nd t;
        if found : bool then
          let r_lock := negb (nd =? d) in
          t ← (if r_lock then sw_take nd t else Some t);
          '(r, t) ← disconnect_end nd (neighbor_port port) t;
          t ← match r with Some _ => tr_invoke_routing now t | None => Some t end;
          t ← (if r_lock then sw_drop nd t else Some t);
          t ← lldp_switch_unref nd t;
          tr_invoke_routing now t
        else Some t
      else tr_invoke_routing now t
  end.

Definition connect_lldp_switch_neigh_pair (now d p nd np ttl : Z) (t : topo_hdl) : option (Z * topo_hdl) :=
  '(found, t) ← fetch_and_retain_switch d t;
  if found : bool then
    t ← sw_take d t;
    '(ret, t) ← match __lldp_port_find d p t with
                | None => Some (-1, t)
                | Some _ => t ← lldp_port_connect_to_neigh now d p nd np ttl t; Some (0, t)
                end;
    t ← sw_drop d t; t ← lldp_switch_unref d t; Some (ret, t)
  else Some (-1, t).

Definition tlv_type (b : list Z) (off : nat) : option Z := v ← rd_le b off 2; Some (Z.land v 127).

(** The length of the packet is not looked at. *)
Definition lldp_packet_handler (now receiver_id receiver_port : Z) (pkt : list Z) (t : topo_hdl) : option (Z * topo_hdl) :=
  ct ← tlv_type pkt 14; cs ← rd_le pkt 16 1; ci ← rd_le pkt 17 8;
  pt ← tlv_type pkt 25; ps ← rd_le pkt 27 1; pi ← rd_le pkt 28 2;
  tt ← tlv_type pkt 30; tv ← rd_le pkt 32 2; et ← tlv_type pkt 34;
  if negb (ct =? LLDP_CHASSIS_ID_TLV) || negb (cs =? LLDP_CHASSIS_ID_LOCALLY_ASSIGNED) || negb (pt =? LLDP_PORT_ID_TLV) ||
     negb (ps =? LLDP_PORT_ID_LOCALLY_ASSIGNED) || negb (tt =? LLDP_TTL_TLV) || negb (et =? LLDP_END_OF_LLDPDU_TLV)
  then Some (-1, t)
  else connect_lldp_switch_neigh_pair now receiver_id receiver_port (ntohll ci) (ntohs pi) (now + ntohs tv) t.

Definition lldp_packet_in_cb (now d inport : Z) (raw : list Z) (t : topo_hdl) : option topo_hdl :=
  ethertype ← rd_le raw 12 2;
  if ntohs ethertype =? ETH_LLDP then '(_, t) ← lldp_packet_handler now d (u16 inport) raw t; Some t else Some t.

(** ** Switches *)

Definition lldp_add_switch_to_imap (alias d : Z) (t : topo_hdl) : option (Z * topo_hdl) :=
  if (alias <? 0) || (MAX_SWITCHES_PER_CLUSTER <=? alias) then Some (-1, t)
  else
    x ← aget (sw_imap t) alias;
    match x with
    | Some _ => Some (-1, t)
    | None => m ← aset (sw_imap t) alias (Some d); Some (0, set_imap m t)
    end.

Definition lldp_del_switch_from_imap (alias : Z) (t : topo_hdl) : option topo_hdl :=
  if (alias <? 0) || (MAX_SWITCHES_PER_CLUSTER <=? alias) then Some t
  else m ← aset (sw_imap t) alias None; Some (set_imap m t).

Definition lldp_switch_add (d alias : Z) (t : topo_hdl) : option topo_hdl :=
  t ← c_wr_lock t;
  match switches t !! d with
  | Some _ => c_wr_unlock t
  | None =>
      '(ret, t) ← lldp_add_switch_to_imap alias d t;
      if ret <? 0 then c_wr_unlock t
      else
        let t := set_switches (<[d := mk_lsw false 1 d alias ∅ ∅ false 0]> (switches t)) t in
        let t := if max_sw_alias t <? alias then set_max_alias alias t else t in
        t ← c_wr_unlock t; Some (send (LldpFlow d) t)
  end.

Section ORDER.
Context `{HashOrder} (dpid_with_alias : Z -> Z).

(** The destruction of a switch that has left the table.  Nothing reaches the object any more, so that of the disconnection
    of its ports only the invocations of routing are seen. *)
Definition lldp_switch_remove (now : Z) (s : lldp_switch) (t : topo_hdl) : option topo_hdl :=
  if sw_ref s - 1 =? 0 then
    t ← lldp_del_switch_from_imap (alias_id s) t;
    foreach (fun p t =>
      port ← ports s !! p;
      if bool_decide (status port = LLDP_PORT_STATUS_NEIGHBOR) then tr_invoke_routing now t else Some t)
      (order (dom (ports s))) t
  else Some (set_orphans (set_ref (sw_ref s - 1) s :: orphans t) t).

Definition lldp_max_alias_finder (d : Z) (t : topo_hdl) : option topo_hdl :=
  s ← switches t !! d; Some (if max_sw_alias t <? alias_id s then set_max_alias (alias_id s) t else t).
Definition __lldp_max_aliasid_reset (t : topo_hdl) : option topo_hdl :=
  __lldp_switch_traverse_all lldp_max_alias_finder (set_max_alias (-1) t).

Definition lldp_switch_delete (now d : Z) (t : topo_hdl) : option topo_hdl :=
  t ← c_wr_lock t;
  t ← match switches t !! d with
      | Some s => lldp_switch_remove now s (set_switches (delete d (switches t)) t)
      | None => Some t
      end;
  t ← __lldp_max_aliasid_reset t;
  c_wr_unlock t.

(** ** Ports *)

Record mul_port := mk_mport { mp_no : Z; mp_config : Z; mp_state : Z; mp_hw : list Z }.

Definition lldp_port_add (now d : Z) (i : mul_port) (t : topo_hdl) : option (Z * topo_hdl) :=
  if OFPP_MAX <? mp_no i then Some (0, t)
  else
    t ← sw_take d t;
    match __lldp_port_find d (mp_no i) t with
    | Some _ => t ← sw_drop d t; Some (-1, t)
    | None =>
        let port := mk_lport (mp_no i) (next_uid t) LLDP_PORT_STATUS_INIT LOOP_PORT_STATUS_INIT LOOP_PORT_STATUS_INIT
                      (mp_config i) (mp_state i) 0 0 0 (mp_hw i) 0 0 in
        let t := set_uid (next_uid t + 1) (upd_sw d (fun s => set_ports (<[mp_no i := port]> (ports s)) s) t) in
        t ← (if loop_en (tr t) then
               t ← __mul_loop_port_update now d (mp_no i) LOOP_PORT_STATUS_INIT t;
               Some (__lldp_set_next_tr_timeo now LOOP_PORT_TR_TIMEO t)
             else Some t);
        t ← (if (Z.land (mp_config i) OFPPC_PORT_DOWN =? 0) && (Z.land (mp_state i) OFPPS_LINK_DOWN =? 0)
             then lldp_tx d (mp_no i) t else Some t);
        t ← sw_drop d t; Some (0, t)
    end.

Definition lldp_port_add_with_dpid (now d : Z) (i : mul_port) (t : topo_hdl) : option topo_hdl :=
  '(found, t) ← fetch_and_retain_switch d t;
  if found : bool then '(_, t) ← lldp_port_add now d i t; lldp_switch_unref d t else Some t.

Definition lldp_port_mod (now d : Z) (i : mul_port) (up_down : bool) (t : topo_hdl) : option (Z * topo_hdl) :=
  if OFPP_MAX <? mp_no i then Some (0, t)
  else
    '(found, t) ← fetch_and_retain_switch d t;
    if found : bool then
      t ← sw_take d t;
      match __lldp_port_find d (mp_no i) t with
      | None => t ← sw_drop d t; t ← lldp_switch_unref d t; Some (-1, t)
      | Some _ =>
          let t := upd_port d (mp_no i) (set_cfg (mp_config i) (mp_state i)) t in
          t ← (if negb up_down then lldp_port_disconnect_to_neigh now d (mp_no i) true t
               else
                 t ← (if loop_en (tr t) then
                        t ← __mul_loop_port_update now d (mp_no i) LOOP_PORT_STATUS_INIT t;
                        Some (__lldp_set_next_tr_timeo now LOOP_PORT_TR_TIMEO t)
                      else Some t);
                 lldp_tx d (mp_no i) t);
          t ← sw_drop d t; t ← lldp_switch_unref d t; Some (0, t)
      end
    else Some (-1, t).

(** A switch that is not known is a null pointer here. *)
Definition lldp_port_delete (now d : Z) (i : mul_port) (t : topo_hdl) : option (Z * topo_hdl) :=
  if OFPP_MAX <? mp_no i then Some (0, t)
  else
    '(found, t) ← fetch_and_retain_switch d t;
    if found : bool then
      t ← sw_take d t;
      match __lldp_port_find d (mp_no i) t with
      | None => t ← sw_drop d t; t ← lldp_switch_unref d t; Some (-1, t)
      | Some _ =>
          t ← lldp_port_disconnect_to_neigh now d (mp_no i) true t;
          let t := upd_sw d (fun s => set_ports (delete (mp_no i) (ports s)) s) t in
          t ← sw_drop d t; t ← lldp_switch_unref d t;
          Some (0, if loop_en (tr t) then __lldp_set_next_tr_timeo now LOOP_PORT_TR_TIMEO t else t)
      end
    else None.

(** ** The timer *)

Definition __lldp_per_port_timer (now d p : Z) (t : topo_hdl) : option topo_hdl :=
  port ← get_port d p t;
  if bool_decide (status port = LLDP_PORT_STATUS_NEIGHBOR) && (ttl port <=? now)
  then lldp_port_disconnect_to_neigh now d p true t
  else if (next_probe port =? 0) || (next_probe port <=? now)
  then lldp_tx d p (upd_port d p (set_probe (now + LLDP_PROBE_PORT_INTERVAL)) t)
  else Some t.

Definition lldp_per_switch_timer (now d : Z) (t : topo_hdl) : option topo_hdl :=
  t ← sw_take d t; t ← __lldp_port_traverse_all d (__lldp_per_port_timer now d) t; sw_drop d t.

Definition lldp_update_timer (now : Z) (t : topo_hdl) : option topo_hdl :=
  let trig_core := loop_trigger (tr t) in
  t ← c_rd_lock t;
  t ← __lldp_switch_traverse_all (lldp_per_switch_timer now) t;
  t ← c_rd_unlock t;
  '(trig_core, t) ← (if rt_trigger (tr t) || (rt_next_trigger_ts (tr t) <=? now) then
      let r := tr t in
      let t := set_tr (mk_tr false (rt_init_trigger r) (rt_next_trigger_ts r) (loop_trigger r) (loop_en r) (rt_timeo_set r)) t in
      t ← c_wr_lock t; t ← __tr_invoke_routing now t; t ← c_wr_unlock t;
      let r := tr t in
      Some (true, set_tr (mk_tr (rt_trigger r) (rt_init_trigger r) (now + RT_PERIODIC_TRIGGER_TS) (loop_trigger r) (loop_en r) false) t)
    else Some (trig_core, t));
  t ← mul_loop_detect dpid_with_alias now true t;
  Some (if trig_core : bool then set_loop_trigger false (send (TrStatus C_RT_APSP_CONVERGED) t) else t).

(** ** Requests *)

Definition lldp_service_set_loop_detect (now : Z) (enable : bool) (t : topo_hdl) : option topo_hdl :=
  let set_en t := let r := tr t in
    set_tr (mk_tr (rt_trigger r) (rt_init_trigger r) (rt_next_trigger_ts r) (loop_trigger r) enable (rt_timeo_set r)) t in
  let t := __lldp_set_next_tr_timeo now LOOP_PORT_TR_TIMEO t in
  if enable then Some (set_en t)
  else t ← mul_loop_detect_reset dpid_with_alias now true t; Some (set_en t).

End ORDER.

Definition lldp_init (t : rt_apsp_t) (now : Z) : topo_hdl :=
  mk_topo ∅ LkFree (replicate (Z.to_nat MAX_SWITCHES_PER_CLUSTER) None) (-1)
    (mk_loop MUL_LLDP_INV_DPID LOOP_STATE_RESET false None false 0 0 0)
    (mk_tr false false (now + 4) false false false) t [] 0 [].

End Lldp.
