(* ===== verification/TopoSpec.v ===== *)
(** * Topology: views of the state and how operations change them *)
From stdpp Require Import base list gmap.
From Stdlib Require Import ZArith Lia.
From S2P Require Import Prelude RouteApsp Topo.
Import Topo.
#[local] Open Scope Z_scope.

Lemma topo_bind {A B} (f : A -> option B) x : (Some x ≫= f) = f x.
Proof. done. Qed.

(** ** Traversals *)

Lemma foreach_inv {A} (P : list Z -> A -> Prop) f l : forall done a,
  P done a ->
  (forall done' k a, k ∈ l -> k ∉ done' -> P (done ++ done') a -> exists a', f k a = Some a' /\ P (done ++ done' ++ [k]) a') ->
  NoDup l ->
  exists a', foreach f l a = Some a' /\ P (done ++ l) a'.
Proof.
  induction l as [|k l IH]; intros done a H0 Hs Hn; cbn [foreach].
  { exists a. by rewrite app_nil_r. }
  apply NoDup_cons in Hn as [Hk Hn].
  destruct (Hs [] k a) as (a1 & E & H1); [set_solver|set_solver|by rewrite app_nil_r|]. rewrite E, topo_bind.
  destruct (IH (done ++ [k]) a1) as (a2 & E2 & H2); [done| |done|].
  - intros done' x b Hx Hnx Hb. rewrite <- app_assoc in Hb.
    destruct (decide (x = k)) as [->|Ne]; [done|].
    destruct (Hs (k :: done') x b) as (b' & Eb & Hb'); [set_solver|set_solver|done|]. exists b'. split; [done|].
    rewrite <- app_assoc. done.
  - exists a2. split; [done|]. by rewrite <- app_assoc in H2.
Qed.

Section ORDER.
Context `{HashOrder}.

Lemma order_NoDup X : NoDup (order X).
Proof. rewrite order_perm. apply NoDup_elements. Qed.
Lemma elem_of_order X k : k ∈ order X <-> k ∈ X.
Proof. rewrite order_perm. apply elem_of_elements. Qed.
End ORDER.

(** ** What loop detection and the probes do not change *)

Definition erase_port (p : lldp_port) : lldp_port :=
  set_loop_status LOOP_PORT_STATUS_INIT (set_commit LOOP_PORT_STATUS_INIT (set_hold 0 (set_probe 0 p))).
Definition erase_sw (s : lldp_switch) : lldp_switch := set_root false 0 (set_ports (erase_port <$> ports s) s).
Definition skel (t : topo_hdl) : gmap Z lldp_switch := erase_sw <$> switches t.

(** The loop status of a port. *)
Definition ls (t : topo_hdl) (d p : Z) : option loop_port_status := loop_status <$> get_port d p t.

(** Where a port leads: the neighbour switch and its port. *)
Definition link_of (port : lldp_port) : option (Z * Z) :=
  if bool_decide (status port = LLDP_PORT_STATUS_NEIGHBOR) then Some (neighbor_dpid port, neighbor_port port) else None.
Definition link (t : topo_hdl) (d p : Z) : option (Z * Z) := port ← get_port d p t; link_of port.

Lemma skel_lookup t d : skel t !! d = erase_sw <$> switches t !! d.
Proof. apply lookup_fmap. Qed.

Lemma skel_port t d p : erase_port <$> get_port d p t = s ← skel t !! d; ports s !! p.
Proof.
  rewrite skel_lookup. unfold get_port. destruct (switches t !! d) as [s|]; cbn; [|done]. by rewrite lookup_fmap.
Qed.

Lemma link_skel t d p : link t d p = s ← skel t !! d; port ← ports s !! p; link_of port.
Proof.
  unfold link. transitivity ((erase_port <$> get_port d p t) ≫= link_of).
  - by destruct (get_port d p t).
  - rewrite skel_port. by destruct (skel t !! d).
Qed.


Lemma link_same t t' d p : skel t' = skel t -> link t' d p = link t d p.
Proof. intros E. by rewrite !link_skel, E. Qed.

Lemma is_port_same t t' d p : skel t' = skel t -> is_Some (get_port d p t') <-> is_Some (get_port d p t).
Proof. intros E. rewrite <- (fmap_is_Some erase_port (get_port d p t')), <- (fmap_is_Some erase_port (get_port d p t)), !skel_port, E. done. Qed.

Lemma ls_is_Some t d p : is_Some (ls t d p) <-> is_Some (get_port d p t).
Proof. unfold ls. apply fmap_is_Some. Qed.

(** ** Updates *)

Lemma get_port_upd_sw t d f d' p : (forall s, ports (f s) = ports s) -> get_port d' p (upd_sw d f t) = get_port d' p t.
Proof.
  intros Hf. unfold get_port, upd_sw. cbn. destruct (decide (d = d')) as [->|Ne].
  - rewrite lookup_alter_eq. destruct (switches t !! d'); cbn; [|done]. by rewrite Hf.
  - by rewrite lookup_alter_ne.
Qed.

Lemma get_port_upd t d p f d' p' : get_port d' p' (upd_port d p f t) =
  if bool_decide (d = d' /\ p = p') then f <$> get_port d p t else get_port d' p' t.
Proof.
  unfold get_port, upd_port, upd_sw. cbn. destruct (decide (d = d')) as [->|Ne].
  - rewrite lookup_alter_eq. destruct (switches t !! d') as [s|] eqn:E; cbn; rewrite ?E; [|by case_bool_decide].
    cbn. destruct (decide (p = p')) as [->|Np].
    + rewrite bool_decide_true by done. by rewrite lookup_alter_eq.
    + rewrite bool_decide_false by naive_solver. by rewrite lookup_alter_ne.
  - rewrite lookup_alter_ne by done. rewrite bool_decide_false by naive_solver. done.
Qed.

Lemma skel_upd_sw t d f g : (forall s, erase_sw (f s) = g (erase_sw s)) -> skel (upd_sw d f t) = alter g d (skel t).
Proof.
  intros Hf. apply map_eq. intros i. unfold skel, upd_sw. cbn. rewrite !lookup_fmap. destruct (decide (d = i)) as [->|Ne].
  - rewrite !lookup_alter_eq, lookup_fmap. destruct (switches t !! i); cbn; [by rewrite Hf|done].
  - by rewrite !lookup_alter_ne, lookup_fmap by done.
Qed.

Lemma skel_upd_same t d f : (forall s, erase_sw (f s) = erase_sw s) -> skel (upd_sw d f t) = skel t.
Proof. intros Hf. rewrite (skel_upd_sw t d f id) by done. apply map_eq. intros i. destruct (decide (d = i)) as [->|]; [|by rewrite lookup_alter_ne].
  rewrite lookup_alter_eq. by destruct (skel t !! i). Qed.

Lemma erase_alter_port f p s : (forall x, erase_port (f x) = erase_port x) ->
  erase_sw (set_ports (alter f p (ports s)) s) = erase_sw s.
Proof.
  intros Hf. unfold erase_sw, set_root, set_ports. cbn. f_equal. apply map_eq. intros i. rewrite !lookup_fmap.
  destruct (decide (p = i)) as [->|Ne]; [|by rewrite lookup_alter_ne].
  rewrite lookup_alter_eq. destruct (ports s !! i); cbn; [by rewrite Hf|done].
Qed.

Lemma skel_upd_port t d p f : (forall x, erase_port (f x) = erase_port x) -> skel (upd_port d p f t) = skel t.
Proof. intros Hf. apply skel_upd_same. intros s. by apply erase_alter_port. Qed.

(** The rest of the state, without the routing block, the counters and what was sent. *)
Definition rest (t : topo_hdl) :=
  (sw_imap t, max_sw_alias t, switch_lock t, tr t, (orphans t, next_uid t),
   let l := loop_info t in (root_dpid l, next_loop_state l, loop_blocked l, root_sw l, loop_reset_only l)).

(** An operation that only changes loop states of ports. *)
Record quiet (t t' : topo_hdl) : Prop := { q_skel : skel t' = skel t; q_rest : rest t' = rest t }.

#[global] Instance quiet_preorder : PreOrder quiet.
Proof.
  split; [done|]. intros t1 t2 t3 [A1 B1] [A2 B2]. split; congruence.
Qed.

(** Taking the lock of a switch around a quiet operation. *)
Lemma skel_lock t d b : skel (upd_sw d (set_lock b) t) = alter (set_lock b) d (skel t).
Proof. by apply skel_upd_sw. Qed.

Lemma with_lock t d s f : switches t !! d = Some s -> sw_lock s = false ->
  (exists t', f (upd_sw d (set_lock true) t) = Some t' /\ quiet (upd_sw d (set_lock true) t) t') ->
  exists t' t'', (t ← sw_take d t; t ← f t; sw_drop d t) = Some t'' /\ f (upd_sw d (set_lock true) t) = Some t' /\
    t'' = upd_sw d (set_lock false) t' /\ quiet t t''.
Proof.
  intros Hd Hl (t' & E & [Q1 Q2]). exists t', (upd_sw d (set_lock false) t').
  unfold sw_take. rewrite Hd, topo_bind, Hl, topo_bind, E, topo_bind.
  assert (erase_sw <$> switches t' !! d = Some (set_lock true (erase_sw s))) as Hs'.
  { rewrite <- skel_lookup, Q1, skel_lock, lookup_alter_eq, skel_lookup, Hd. done. }
  destruct (switches t' !! d) as [s'|] eqn:Es; [|done]. cbn in Hs'. injection Hs' as Ls.
  unfold sw_drop. rewrite Es, topo_bind, Ls. split_and!; [done|done|done|]. split; [|exact Q2].
  rewrite skel_lock, Q1, skel_lock. apply map_eq. intros i. destruct (decide (d = i)) as [->|Ne]; [|by rewrite !lookup_alter_ne].
  rewrite !lookup_alter_eq, skel_lookup, Hd. cbn. by destruct s; cbn in *; subst.
Qed.
