(* ===== verification/LoopSpec.v ===== *)
(** * Loop detection: the phases of a run *)
From stdpp Require Import base list gmap.
From Stdlib Require Import ZArith Lia.
From S2P Require Import Prelude RouteApsp RouteServlet Topo Loop TopoSpec.
Import Apsp Topo Loop.
#[local] Open Scope Z_scope.

Notation here d p d' p' := (bool_decide (d = d' /\ p = p')).

Lemma ls_upd t d p f d' p' : (forall x, loop_status (f x) = loop_status x) -> ls (upd_port d p f t) d' p' = ls t d' p'.
Proof.
  intros Hf. unfold ls. rewrite get_port_upd. case_bool_decide as E; [|done]. destruct E as [-> ->].
  destruct (get_port d' p' t); cbn; [by rewrite Hf|done].
Qed.

Lemma ls_upd_sw t d f d' p : (forall s, ports (f s) = ports s) -> ls (upd_sw d f t) d' p = ls t d' p.
Proof. intros Hf. unfold ls. by rewrite get_port_upd_sw. Qed.

Lemma quiet_upd_port t d p f : (forall x, erase_port (f x) = erase_port x) -> quiet t (upd_port d p f t).
Proof. intros Hf. split; [by apply skel_upd_port|done]. Qed.

Lemma quiet_get t t' d p : quiet t t' -> is_Some (get_port d p t) -> is_Some (get_port d p t').
Proof. intros [Q _] H. by apply (is_port_same t t'). Qed.

(** ** Marking a port *)

(** [t'] is [t] with the loop state of one port set. *)
Record marked (d p : Z) (st : loop_port_status) (t t' : topo_hdl) : Prop := {
  mk_quiet : quiet t t'; mk_rt : rt t' = rt t;
  mk_ls : forall d' p', ls t' d' p' = if here d p d' p' then Some st else ls t d' p' }.

Lemma mark_spec now d p st t : is_Some (get_port d p t) -> st <> LOOP_PORT_STATUS_NONE ->
  exists t', mul_mark_ports_per_switch now d p st t = Some t' /\ marked d p st t t'.
Proof.
  intros [port Hp] Hst. unfold mul_mark_ports_per_switch, __mul_loop_port_update.
  rewrite Hp, topo_bind, bool_decide_false by done. eexists. split; [done|].
  set (t1 := mul_loop_port_mod _ _ _ t).
  assert (switches t1 = switches t /\ rest t1 = rest t /\ rt t1 = rt t) as (E1 & E2 & E3) by (unfold t1; by destruct st).
  assert (forall d' p', get_port d' p' t1 = get_port d' p' t) as Eg by (intros; unfold get_port; by rewrite E1).
  split; [split; [|done]|done|].
  - rewrite skel_upd_port by done. unfold skel. by rewrite E1.
  - intros d' p'. unfold ls. rewrite get_port_upd, !Eg. case_bool_decide; [|done]. by rewrite Hp.
Qed.

(** Some idle ports are marked as having no loop state. *)
Definition idle (t : topo_hdl) (d p : Z) : Prop := exists x, ls t d p = Some x /\ idle_status x = true.
Record idles (t t' : topo_hdl) : Prop := {
  id_quiet : quiet t t'; id_rt : rt t' = rt t;
  id_ls : forall d p, ls t' d p = ls t d p \/ (idle t d p /\ ls t' d p = Some LOOP_PORT_STATUS_NONE) }.

#[global] Instance idles_preorder : PreOrder idles.
Proof.
  split; [intros t; split; [done|done|by left]|]. intros t1 t2 t3 [A1 B1 C1] [A2 B2 C2].
  split; [by etransitivity|congruence|]. intros d p.
  destruct (C2 d p) as [E|[I E]]; [rewrite E; apply C1|]. right. split; [|done].
  destruct (C1 d p) as [E1|[I1 _]]; [|done]. unfold idle in *. by rewrite E1 in I.
Qed.

Lemma mark_none_spec now d p t : is_Some (get_port d p t) -> idle t d p ->
  exists t', mul_mark_ports_per_switch now d p LOOP_PORT_STATUS_NONE t = Some t' /\ idles t t'.
Proof.
  intros [port Hp] Hi. unfold mul_mark_ports_per_switch, __mul_loop_port_update.
  rewrite Hp, topo_bind, bool_decide_true by done. case_match.
  - eexists. split; [done|]. case_match.
    + split; [etransitivity; by apply quiet_upd_port|done|]. intros d' p'. left. by rewrite !ls_upd.
    + split; [by apply quiet_upd_port|done|]. intros d' p'. left. by rewrite ls_upd.
  - eexists. split; [done|]. set (t1 := upd_port d p (set_hold 0) _).
    assert (quiet t t1) as Q1 by (etransitivity; by apply quiet_upd_port).
    cbn [mul_loop_port_mod]. unfold mul_dp_port_update. split; [etransitivity; [exact Q1|]|done|].
    + split; [|done]. by rewrite skel_upd_port.
    + intros d' p'. unfold ls at 1 3. rewrite get_port_upd. case_bool_decide as E.
      * destruct E as [-> ->]. right. split; [done|]. change (get_port d' p' (send _ t1)) with (get_port d' p' t1).
        destruct (quiet_get t t1 d' p' Q1) as [x Hx]; [by exists port|]. by rewrite Hx.
      * left. change (get_port d' p' (send _ t1)) with (get_port d' p' t1). fold (ls t1 d' p'). unfold t1. by rewrite !ls_upd.
Qed.

Lemma idles_counts t f : (forall l, root_dpid (f l) = root_dpid l /\ next_loop_state (f l) = next_loop_state l /\
    loop_blocked (f l) = loop_blocked l /\ root_sw (f l) = root_sw l /\ loop_reset_only (f l) = loop_reset_only l) ->
  idles t (upd_loop f t).
Proof.
  intros Hf. destruct (Hf (loop_info t)) as (A & B & C & D & E).
  split; [split; [done|unfold rest; cbn; by rewrite A, B, C, D, E]|done|by left].
Qed.

Lemma none_counted_spec now d p port t : get_port d p t = Some port -> idle t d p ->
  exists t', mark_none_counted now d p port t = Some t' /\ idles t t'.
Proof.
  intros Hp Hi. unfold mark_none_counted. set (t1 := if hold_time port =? 0 then t else _).
  assert (idles t t1) as I1 by (unfold t1; case_match; [done|by apply idles_counts]).
  destruct (mark_none_spec now d p t1) as (t2 & E2 & I2).
  { unfold t1; case_match; by exists port. }
  { unfold t1; by case_match. }
  rewrite E2, topo_bind. destruct (quiet_get t t2 d p) as [x Hx]; [etransitivity; [apply I1|apply I2]|by exists port|].
  rewrite Hx, topo_bind. eexists. split; [done|]. etransitivity; [exact I1|]. etransitivity; [exact I2|].
  case_match; [by apply idles_counts|done].
Qed.

(** ** Traversals *)

Section TRAVERSE.
Context `{HashOrder}.

Lemma port_traverse (P : list Z -> topo_hdl -> Prop) f d t s : switches t !! d = Some s -> P [] t ->
  (forall done p t', p ∉ done -> is_Some (ports s !! p) -> P done t' -> exists t'', f p t' = Some t'' /\ P (done ++ [p]) t'') ->
  exists t', __lldp_port_traverse_all d f t = Some t' /\ P (order (dom (ports s))) t'.
Proof.
  intros Hs H0 Hf. unfold __lldp_port_traverse_all. rewrite Hs, topo_bind.
  apply (foreach_inv P f (order (dom (ports s))) [] t H0); [|apply order_NoDup].
  intros done p t' Hp Hd HP. apply Hf; [done| |done]. by apply elem_of_dom, elem_of_order.
Qed.

Lemma switch_traverse (P : list Z -> topo_hdl -> Prop) f t : P [] t ->
  (forall done d t', d ∉ done -> is_Some (switches t !! d) -> P done t' -> exists t'', f d t' = Some t'' /\ P (done ++ [d]) t'') ->
  exists t', __lldp_switch_traverse_all f t = Some t' /\ P (order (dom (switches t))) t'.
Proof.
  intros H0 Hf. unfold __lldp_switch_traverse_all.
  apply (foreach_inv P f (order (dom (switches t))) [] t H0); [|apply order_NoDup].
  intros done d t' Hp Hd HP. apply Hf; [done| |done]. by apply elem_of_dom, elem_of_order.
Qed.

(** All locks of the switches are free. *)
Definition unlocked (t : topo_hdl) : Prop := forall d s, switches t !! d = Some s -> sw_lock s = false.

Lemma unlocked_skel t : unlocked t <-> forall d s, skel t !! d = Some s -> sw_lock s = false.
Proof.
  unfold unlocked. setoid_rewrite skel_lookup. split.
  - intros U d s (x & Hx & ->)%fmap_Some. cbn. by eapply U.
  - intros U d s Hs. apply (U d (erase_sw s)). by rewrite Hs.
Qed.

Lemma unlocked_quiet t t' : quiet t t' -> unlocked t -> unlocked t'.
Proof. rewrite !unlocked_skel. intros [-> _]. done. Qed.

Lemma quiet_switch t t' d s : quiet t t' -> switches t !! d = Some s ->
  exists s', switches t' !! d = Some s' /\ erase_sw s' = erase_sw s.
Proof.
  intros [Q _] Hs. assert (skel t' !! d = Some (erase_sw s)) as E by (rewrite Q, skel_lookup, Hs; done).
  rewrite skel_lookup in E. apply fmap_Some in E as (s' & H' & E'). by exists s'.
Qed.

Lemma erase_port_dom s s' p : erase_sw s' = erase_sw s -> is_Some (ports s' !! p) <-> is_Some (ports s !! p).
Proof.
  intros E. assert (ports (erase_sw s') !! p = ports (erase_sw s) !! p) as E' by by rewrite E.
  cbn in E'. rewrite !lookup_fmap in E'. destruct (ports s' !! p), (ports s !! p); cbn in E'; try done; split; intros []; eauto; done.
Qed.

(** A traversal of the ports of a switch under its lock. *)
Lemma locked_traverse (P : list Z -> topo_hdl -> Prop) f d t s :
  switches t !! d = Some s -> sw_lock s = false ->
  P [] (upd_sw d (set_lock true) t) ->
  (forall done p t', p ∉ done -> is_Some (ports s !! p) -> quiet (upd_sw d (set_lock true) t) t' -> P done t' ->
     exists t'', f p t' = Some t'' /\ quiet t' t'' /\ P (done ++ [p]) t'') ->
  exists t', (t ← sw_take d t; t ← __lldp_port_traverse_all d f t; sw_drop d t) = Some (upd_sw d (set_lock false) t') /\
    quiet t (upd_sw d (set_lock false) t') /\ P (order (dom (ports s))) t'.
Proof.
  intros Hs Hl H0 Hf. set (t0 := upd_sw d (set_lock true) t).
  assert (switches t0 !! d = Some (set_lock true s)) as Hs0 by (unfold t0, upd_sw; cbn; by rewrite lookup_alter_eq, Hs).
  destruct (port_traverse (fun done t' => quiet t0 t' /\ P done t') f d t0 (set_lock true s) Hs0) as (t' & E & Q & HP).
  - by split.
  - intros done p t' Hd Hp [Q HP]. destruct (Hf done p t' Hd Hp Q HP) as (t'' & E & Q' & HP').
    exists t''. split_and!; [done|by etransitivity|done].
  - destruct (with_lock t d s (__lldp_port_traverse_all d f) Hs Hl) as (t1 & t2 & E1 & E2 & -> & Q2); [by exists t'|].
    fold t0 in E2. rewrite E in E2. injection E2 as <-. by exists t'.
Qed.
End TRAVERSE.
