(* ===== verification/LoopRun.v ===== *)
(** * Loop detection: reset, election, root ports *)
From stdpp Require Import base list gmap.
From Stdlib Require Import ZArith Lia.
From S2P Require Import Prelude RouteApsp RouteServlet Topo Loop TopoSpec LoopSpec.
Import Apsp Topo Loop.
#[local] Open Scope Z_scope.

Section RUN.
Context `{HashOrder} (now : Z).

Lemma idles_unlock t t' d : idles (upd_sw d (set_lock true) t) t' -> quiet t (upd_sw d (set_lock false) t') ->
  idles t (upd_sw d (set_lock false) t').
Proof.
  intros [_ Hr Hl] Q. split; [done|done|]. intros d' p. rewrite ls_upd_sw by done.
  destruct (Hl d' p) as [E|[(x & Hx & Ix) E]]; rewrite ls_upd_sw in * by done; [by left|right].
  split; [by exists x|done].
Qed.

Lemma port_in t d s p : switches t !! d = Some s -> is_Some (ports s !! p) -> is_Some (get_port d p t).
Proof. intros Hs Hp. unfold get_port. by rewrite Hs. Qed.

(** ** Ports without a loop state *)

Lemma idle_traverse f d t s : switches t !! d = Some s -> sw_lock s = false ->
  (forall p t', is_Some (get_port d p t') -> exists t'', f p t' = Some t'' /\ idles t' t'') ->
  exists t', (t ← sw_take d t; t ← __lldp_port_traverse_all d f t; sw_drop d t) = Some t' /\ idles t t'.
Proof.
  intros Hs Hl Hf. set (t0 := upd_sw d (set_lock true) t).
  destruct (locked_traverse (fun _ t' => idles t0 t') f d t s Hs Hl) as (t' & E & Q & I); [done| |].
  - intros done p t' _ Hp Q I. destruct (Hf p t') as (t'' & E & I').
    { apply (quiet_get _ _ _ _ Q). unfold get_port, upd_sw. cbn. rewrite lookup_alter_eq, Hs. done. }
    exists t''. split_and!; [done|apply I'|by etransitivity].
  - rewrite E. eexists. split; [done|]. by apply idles_unlock.
Qed.

Lemma lazy_switch d t s : switches t !! d = Some s -> sw_lock s = false ->
  exists t', mul_per_switch_none_select_lazy now d t = Some t' /\ idles t t'.
Proof.
  intros Hs Hl. apply (idle_traverse _ d t s Hs Hl). intros p t' [port Hp].
  unfold mul_per_switch_port_mark_none_lazy. rewrite Hp, topo_bind. case_match eqn:E; [|by exists t'].
  apply andb_true_iff in E as [E _]. apply none_counted_spec; [done|]. exists (loop_status port). unfold ls. by rewrite Hp.
Qed.

Lemma none_switch r d t s : switches t !! d = Some s -> sw_lock s = false ->
  exists t', mul_per_switch_none_select now r d t = Some t' /\ idles t t'.
Proof.
  intros Hs Hl. unfold mul_per_switch_none_select. case_match; [by exists t|].
  apply (idle_traverse _ d t s Hs Hl). intros p t' [port Hp].
  unfold mul_per_switch_port_mark_none. rewrite Hp, topo_bind. case_match eqn:E; [|by exists t'].
  apply none_counted_spec; [done|]. exists (loop_status port). unfold ls. by rewrite Hp.
Qed.

(** A traversal of all switches in which every step is quiet. *)
Lemma quiet_traverse (P : list Z -> topo_hdl -> Prop) f t : unlocked t -> P [] t ->
  (forall done d t' s, d ∉ done -> quiet t t' -> switches t' !! d = Some s -> sw_lock s = false -> P done t' ->
     exists t'', f d t' = Some t'' /\ quiet t' t'' /\ P (done ++ [d]) t'') ->
  exists t', __lldp_switch_traverse_all f t = Some t' /\ quiet t t' /\ P (order (dom (switches t))) t'.
Proof.
  intros U H0 Hf. destruct (switch_traverse (fun done t' => quiet t t' /\ P done t') f t) as (t' & E & Q & HP);
    [done| |by exists t'].
  intros done d t' Hd [s0 Hs0] [Q HP]. destruct (quiet_switch t t' d s0 Q Hs0) as (s & Hs & Es).
  destruct (Hf done d t' s Hd Q Hs) as (t'' & E & Q' & HP'); [|done|].
  - change (sw_lock (erase_sw s) = false). rewrite Es. cbn. by eapply U.
  - exists t''. split_and!; [done|by etransitivity|done].
Qed.

Lemma idle_phase f t : unlocked t ->
  (forall d t' s, switches t' !! d = Some s -> sw_lock s = false -> exists t'', f d t' = Some t'' /\ idles t' t'') ->
  exists t', __lldp_switch_traverse_all f t = Some t' /\ idles t t'.
Proof.
  intros U Hf. destruct (quiet_traverse (fun _ t' => idles t t') f t U) as (t' & E & _ & I); [done| |by exists t'].
  intros done d t' s _ _ Hs Hl I. destruct (Hf d t' s Hs Hl) as (t'' & E & I'). exists t''.
  split_and!; [done|apply I'|by etransitivity].
Qed.

(** ** Reset *)

Definition reset_ls (o : option loop_port_status) : option loop_port_status := (fun _ => LOOP_PORT_STATUS_INIT) <$> o.

Lemma ls_outside t d p s : switches t !! d = Some s -> p ∉ dom (ports s) -> ls t d p = None.
Proof. intros Hs Hp. unfold ls, get_port. rewrite Hs. cbn. apply not_elem_of_dom in Hp. by rewrite Hp. Qed.

Lemma reset_switch d t s : switches t !! d = Some s -> sw_lock s = false ->
  exists t', mul_per_switch_loop_reset d t = Some t' /\ quiet t t' /\ rt t' = rt t /\
    forall d' p, ls t' d' p = if bool_decide (d = d') then reset_ls (ls t d' p) else ls t d' p.
Proof.
  intros Hs Hl. unfold mul_per_switch_loop_reset.
  assert (sw_take d t = Some (upd_sw d (set_lock true) t)) as Et by (unfold sw_take; by rewrite Hs, topo_bind, Hl).
  set (t1 := upd_sw d (set_root false 0) t).
  assert (forall k : topo_hdl -> option topo_hdl, (t ← sw_take d t; k (upd_sw d (set_root false 0) t)) = (t ← sw_take d t1; k t)) as Ek.
  { intros k. unfold sw_take. cbn. rewrite lookup_alter_eq, Hs. cbn. rewrite Hl. cbn. f_equal. unfold upd_sw, set_switches. cbn. f_equal.
    apply map_eq. intros i. destruct (decide (d = i)) as [->|Ne]; [rewrite !lookup_alter_eq, Hs; done|by rewrite !lookup_alter_ne]. }
  rewrite (Ek (fun t => t ← __lldp_port_traverse_all d (mul_per_switch_port_loop_reset d false) t; sw_drop d t)).
  assert (switches t1 !! d = Some (set_root false 0 s)) as Hs1 by (unfold t1; cbn; by rewrite lookup_alter_eq, Hs).
  set (t0 := upd_sw d (set_lock true) t1).
  assert (forall d' p, ls t0 d' p = ls t d' p) as L0 by (intros; unfold t0, t1; by rewrite !ls_upd_sw).
  destruct (locked_traverse (fun done t' => rt t' = rt t /\ forall d' p,
      ls t' d' p = if bool_decide (d = d' /\ p ∈ done) then reset_ls (ls t d' p) else ls t d' p)
    (mul_per_switch_port_loop_reset d false) d t1 (set_root false 0 s) Hs1 Hl) as (t' & E & Q & R & L).
  - split; [done|]. intros d' p. fold t0. rewrite bool_decide_false by set_solver. apply L0.
  - intros done p t' Hd Hp Q [R L]. unfold mul_per_switch_port_loop_reset.
    destruct (quiet_get _ t' d p Q) as [port Hport].
    { fold t0. unfold t0. rewrite get_port_upd_sw by done. by apply (port_in t1 d _ p Hs1). }
    rewrite Hport, topo_bind. eexists. split; [done|]. split; [by apply quiet_upd_port|]. split; [done|].
    intros d' p'. unfold ls at 1. rewrite get_port_upd, Hport. case_bool_decide as E1.
    + destruct E1 as [<- <-]. rewrite bool_decide_true by set_solver.
      specialize (L d p). rewrite bool_decide_false in L by naive_solver. rewrite <- L. unfold ls. by rewrite Hport.
    + fold (ls t' d' p'). rewrite L. by rewrite (bool_decide_ext (d = d' /\ p' ∈ done) (d = d' /\ p' ∈ done ++ [p])) by set_solver.
  - rewrite E. eexists. split; [done|]. split; [|split; [done|]].
    + transitivity t1; [|done]. split; [|done]. by apply skel_upd_same.
    + intros d' p. rewrite ls_upd_sw, L by done. case_bool_decide as E1; case_bool_decide as E2; [done|naive_solver| |done].
      subst d'. rewrite (ls_outside t d p s Hs); [done|]. intros Hp. apply E1. split; [done|]. by apply elem_of_order.
Qed.

Lemma reset_phase t : unlocked t ->
  exists t', __lldp_switch_traverse_all mul_per_switch_loop_reset t = Some t' /\ quiet t t' /\ rt t' = rt t /\
    forall d p, ls t' d p = reset_ls (ls t d p).
Proof.
  intros U. destruct (quiet_traverse (fun done t' => rt t' = rt t /\ forall d p,
      ls t' d p = if bool_decide (d ∈ done) then reset_ls (ls t d p) else ls t d p)
    mul_per_switch_loop_reset t U) as (t' & E & Q & R & L).
  - split; [done|]. intros d p. by rewrite bool_decide_false by set_solver.
  - intros done d t' s Hd Q Hs Hl [R L]. destruct (reset_switch d t' s Hs Hl) as (t'' & E & Q' & R' & L').
    exists t''. split_and!; [done|done|congruence|]. intros d' p. rewrite L', L.
    destruct (decide (d = d')) as [<-|Ne].
    + rewrite bool_decide_true, bool_decide_false, bool_decide_true by set_solver. done.
    + rewrite bool_decide_false by done. by rewrite (bool_decide_ext (d' ∈ done) (d' ∈ done ++ [d])) by set_solver.
  - exists t'. split_and!; [done|done|done|]. intros d p. rewrite L. case_bool_decide as E1; [done|].
    destruct (switches t !! d) as [s|] eqn:Es.
    + destruct E1. apply elem_of_order, elem_of_dom. by exists s.
    + unfold ls, get_port. by rewrite Es.
Qed.

(** ** Election *)

Lemma lock_unlock d t s : switches t !! d = Some s -> sw_lock s = false ->
  upd_sw d (set_lock false) (upd_sw d (set_lock true) t) = t.
Proof.
  intros Hs Hl. destruct t as [sw ? ? ? ? ? ? ? ? ?]. unfold upd_sw, set_switches. cbn in *. f_equal.
  apply map_eq. intros i. destruct (decide (d = i)) as [->|Ne]; [|by rewrite !lookup_alter_ne].
  rewrite !lookup_alter_eq, Hs. cbn. destruct s. cbn in *. by subst.
Qed.

(** Switches are stored under their dpids. *)
Definition keyed (t : topo_hdl) : Prop := forall d s, switches t !! d = Some s -> dpid s = d.

(** A switch that can become root. *)
Definition eligible (t : topo_hdl) (d : Z) : Prop :=
  exists s, switches t !! d = Some s /\ ports s <> ∅ /\ d < MUL_LLDP_INV_DPID.

(** The root is the eligible switch of the least dpid. *)
Definition elected (t : topo_hdl) (l : list Z) (r : Z) : Prop :=
  (r = MUL_LLDP_INV_DPID /\ forall d, d ∈ l -> ~ eligible t d) \/
  (r ∈ l /\ eligible t r /\ forall d, d ∈ l -> eligible t d -> r <= d).

Lemma num_ports_zero s : (__lldp_num_ports_in_switch s =? 0) = bool_decide (ports s = ∅).
Proof.
  unfold __lldp_num_ports_in_switch. case_bool_decide as E.
  - rewrite E, map_size_empty. done.
  - apply Z.eqb_neq. intros Hz. apply E, map_size_empty_iff. lia.
Qed.

Lemma elect_step t done d r s : unlocked t -> keyed t -> switches t !! d = Some s -> elected t done r ->
  exists r', mul_root_per_switch_elect d (t, r) = Some (t, r') /\ elected t (done ++ [d]) r'.
Proof.
  intros U K Hs He. unfold mul_root_per_switch_elect, sw_take. rewrite Hs, topo_bind, (U d s Hs), topo_bind.
  cbn [switches upd_sw set_switches]. rewrite lookup_alter_eq, Hs. cbn [fmap option_fmap option_map]. rewrite topo_bind.
  unfold sw_drop at 1. cbn [switches upd_sw set_switches]. rewrite lookup_alter_eq, Hs. cbn [fmap option_fmap option_map]. rewrite topo_bind.
  cbn [sw_lock set_lock]. rewrite topo_bind. fold (upd_sw d (set_lock true) t).
  rewrite (lock_unlock d t s Hs (U d s Hs)). eexists. split; [done|].
  change (__lldp_num_ports_in_switch (set_lock true s)) with (__lldp_num_ports_in_switch s). rewrite num_ports_zero.
  cbn [dpid set_lock]. rewrite (K d s Hs).
  assert (eligible t d <-> ports s <> ∅ /\ d < MUL_LLDP_INV_DPID) as Ed.
  { split; [intros (s' & Hs' & E); rewrite Hs in Hs'; by injection Hs' as ->|intros E; by exists s]. }
  destruct (Z.ltb_spec d r) as [Lt|Ge]; cbn [andb].
  - case_bool_decide as Ep; cbn [negb].
    + destruct He as [[-> Hn]|(Hr & Hel & Hm)]; [left|right].
      * split; [done|]. intros x [Hx| ->%list_elem_of_singleton]%elem_of_app; [by apply Hn|]. rewrite Ed. naive_solver.
      * split_and!; [set_solver|done|]. intros x [Hx| ->%list_elem_of_singleton]%elem_of_app; [by apply Hm|]. rewrite Ed. naive_solver.
    + right. split_and!; [set_solver| |].
      * apply Ed. split; [done|]. destruct He as [[-> _]|(_ & (? & _ & _ & ?) & _)]; lia.
      * intros x [Hx| ->%list_elem_of_singleton]%elem_of_app Hel; [|lia].
        destruct He as [[_ Hn]|(_ & _ & Hm)]; [by apply Hn in Hx|]. specialize (Hm x Hx Hel). lia.
  - destruct He as [[-> Hn]|(Hr & Hel & Hm)]; [left|right].
    + split; [done|]. intros x [Hx| ->%list_elem_of_singleton]%elem_of_app; [by apply Hn|]. rewrite Ed. lia.
    + split_and!; [set_solver|done|]. intros x [Hx| ->%list_elem_of_singleton]%elem_of_app Hx'; [by apply Hm|lia].
Qed.

Lemma elect_phase t : unlocked t -> keyed t ->
  exists r, foreach mul_root_per_switch_elect (order (dom (switches t))) (t, MUL_LLDP_INV_DPID) = Some (t, r) /\
    elected t (order (dom (switches t))) r.
Proof.
  intros U K. destruct (foreach_inv (fun done '(t', r) => t' = t /\ elected t done r) mul_root_per_switch_elect
    (order (dom (switches t))) [] (t, MUL_LLDP_INV_DPID)) as ([t' r] & E & -> & He).
  - split; [done|]. left. split; [done|set_solver].
  - intros done d [t' r] Hd _ [-> He]. apply elem_of_order, elem_of_dom in Hd as [s Hs].
    destruct (elect_step t done d r s U K Hs He) as (r' & E & He'). by exists (t, r').
  - apply order_NoDup.
  - by exists r.
Qed.

(** ** Marking all ports of a switch *)

Lemma mark_all d st t s : switches t !! d = Some s -> sw_lock s = false -> st <> LOOP_PORT_STATUS_NONE ->
  exists t', lldp_port_traverse_all d (fun p => mul_mark_ports_per_switch now d p st) t = Some t' /\ quiet t t' /\ rt t' = rt t /\
    forall d' p, ls t' d' p = if bool_decide (d = d') then (fun _ => st) <$> ls t d' p else ls t d' p.
Proof.
  intros Hs Hl Hst. unfold lldp_port_traverse_all. set (t0 := upd_sw d (set_lock true) t).
  assert (forall d' p, ls t0 d' p = ls t d' p) as L0 by (intros; unfold t0; by rewrite ls_upd_sw).
  destruct (locked_traverse (fun done t' => rt t' = rt t /\ forall d' p,
      ls t' d' p = if bool_decide (d = d' /\ p ∈ done) then Some st else ls t d' p)
    (fun p => mul_mark_ports_per_switch now d p st) d t s Hs Hl) as (t' & E & Q & R & L).
  - split; [done|]. intros d' p. fold t0. rewrite bool_decide_false by set_solver. apply L0.
  - intros done p t' Hd Hp Q [R L]. destruct (mark_spec now d p st t') as (t'' & E & [Q' R' L']); [|done|].
    { apply (quiet_get _ _ _ _ Q). fold t0. unfold t0. rewrite get_port_upd_sw by done. by apply (port_in t d s). }
    exists t''. split_and!; [done|done|congruence|]. intros d' p'. rewrite L', L. case_bool_decide as E1.
    + rewrite bool_decide_true by set_solver. done.
    + by rewrite (bool_decide_ext (d = d' /\ p' ∈ done) (d = d' /\ p' ∈ done ++ [p])) by set_solver.
  - rewrite E. eexists. split_and!; [done|done|done|]. intros d' p. rewrite ls_upd_sw, L by done.
    case_bool_decide as E1; case_bool_decide as E2; [|naive_solver| |done].
    + destruct E1 as [<- Hp]. destruct (ls t d p) eqn:El; [done|]. apply elem_of_order, elem_of_dom in Hp as [x Hx].
      unfold ls, get_port in El. rewrite Hs in El. cbn in El. by rewrite Hx in El.
    + subst d'. rewrite (ls_outside t d p s Hs); [done|]. intros Hp. apply E1. split; [done|]. by apply elem_of_order.
Qed.

Lemma mark_none_all d t s : switches t !! d = Some s -> sw_lock s = false -> (forall p, is_Some (ls t d p) -> idle t d p) ->
  exists t', lldp_port_traverse_all d (fun p => mul_mark_ports_per_switch now d p LOOP_PORT_STATUS_NONE) t = Some t' /\ idles t t'.
Proof.
  intros Hs Hl Hi. unfold lldp_port_traverse_all. set (t0 := upd_sw d (set_lock true) t).
  destruct (locked_traverse (fun _ t' => idles t0 t') (fun p => mul_mark_ports_per_switch now d p LOOP_PORT_STATUS_NONE) d t s Hs Hl)
    as (t' & E & Q & I); [done| |].
  - intros done p t' _ Hp Q I. destruct (mark_none_spec now d p t') as (t'' & E & I').
    + apply (quiet_get _ _ _ _ Q). fold t0. unfold t0. rewrite get_port_upd_sw by done. by apply (port_in t d s).
    + destruct (Hi p) as (x & Hx & Ix); [apply ls_is_Some; by apply (port_in t d s)|].
      destruct (id_ls _ _ I d p) as [E|[_ E]]; [|by eexists; rewrite E].
      exists x. rewrite E. unfold t0. by rewrite ls_upd_sw.
    + exists t''. split_and!; [done|apply I'|by etransitivity].
  - rewrite E. eexists. split; [done|]. by apply idles_unlock.
Qed.
End RUN.
