(* ===== verification/LoopPorts.v ===== *)
(** * Loop detection: root ports, designated and blocked ports *)
From stdpp Require Import base list gmap.
From Stdlib Require Import ZArith Lia.
From S2P Require Import Prelude RouteApsp RouteApspSpec RouteServlet Topo Loop TopoSpec LoopSpec LoopRun.
Import Apsp Topo Loop.
#[local] Open Scope Z_scope.

Section PORTS.
Context `{HashOrder} (dw : Z -> Z) (now : Z).
Context (R : Z) (rp : Z -> option Z).

(** ** Root ports *)

(** The port that the route of a switch to the root [R] starts with, [None] when there is no route. *)
Definition root_routes (t : topo_hdl) : Prop := forall d s r0,
  switches t !! d = Some s -> d <> R -> switches t !! R = Some r0 ->
  exists r, __tr_get_route dw (alias_id s) (alias_id r0) t = Some r /\
    match rp d with
    | None => r = []
    | Some p => r <> [] /\ (mul_route_cost_calc r).2 = p /\ is_Some (get_port d p t)
    end.

(** The loop states of a switch after its root port is known. *)
Definition costed (t : topo_hdl) (d : Z) : Prop := forall p x, ls t d p = Some x ->
  if bool_decide (rp d = Some p) then x = LOOP_PORT_STATUS_RP else idle_status x = true.

Definition near (d : Z) (t t' : topo_hdl) : Prop := forall d' p, d' <> d ->
  ls t' d' p = ls t d' p \/ (idle t d' p /\ ls t' d' p = Some LOOP_PORT_STATUS_NONE).

Lemma quiet_root d f t : (forall s, ports (f s) = ports s /\ erase_sw (f s) = erase_sw s) -> quiet t (upd_sw d f t).
Proof. intros Hf. split; [|done]. apply skel_upd_same. intros s. apply Hf. Qed.

Lemma rp_switch d t s r0 : root_routes t -> switches t !! d = Some s -> sw_lock s = false -> d <> R ->
  switches t !! R = Some r0 -> (forall p x, ls t d p = Some x -> idle_status x = true) ->
  exists t', mul_per_switch_rp_calc dw now R d t = Some t' /\ quiet t t' /\ rt t' = rt t /\ costed t' d /\ near d t t'.
Proof.
  intros Hroute Hs Hl Hd HR Hidle. unfold mul_per_switch_rp_calc.
  rewrite (proj2 (Z.eqb_neq d R) Hd), Hs, topo_bind, HR, topo_bind.
  destruct (Hroute d s r0 Hs Hd HR) as (r & Er & Hr). rewrite Er, topo_bind.
  destruct (rp d) as [p0|] eqn:Ep.
  - destruct Hr as (Hne & Hc & Hp). destruct r as [|e r]; [done|]. destruct (mul_route_cost_calc (e :: r)) as [cost rport].
    cbn in Hc. subst rport. set (t1 := upd_sw d (fun s => set_root (root_switch s) cost s) t).
    assert (switches t1 !! d = Some (set_root (root_switch s) cost s)) as Hs1 by (unfold t1; cbn; by rewrite lookup_alter_eq, Hs).
    assert (forall d' p, ls t1 d' p = ls t d' p) as L1 by (intros; unfold t1; by rewrite ls_upd_sw).
    set (f := fun t => match __lldp_port_find d p0 t with
                       | Some _ => mul_mark_ports_per_switch now d p0 LOOP_PORT_STATUS_RP t | None => Some t end).
    destruct (mark_spec now d p0 LOOP_PORT_STATUS_RP (upd_sw d (set_lock true) t1)) as (t2 & E2 & [Q2 R2 L2]); [|done|].
    { unfold t1. by rewrite !get_port_upd_sw. }
    assert (f (upd_sw d (set_lock true) t1) = Some t2) as Ef.
    { unfold f, __lldp_port_find, t1. rewrite !get_port_upd_sw by done. destruct Hp as [x ->]. exact E2. }
    destruct (with_lock t1 d _ f Hs1 Hl) as (t3 & t4 & E4 & E3 & -> & Q4); [by exists t2|].
    rewrite Ef in E3. injection E3 as <-. unfold f in E4. rewrite E4. eexists. split; [done|].
    assert (quiet t t1) as Q1 by by apply quiet_root.
    split_and!; [by etransitivity|done| |].
    + intros p x. rewrite ls_upd_sw, L2, ls_upd_sw, L1 by done. case_bool_decide; case_bool_decide; naive_solver.
    + intros d' p Ne. left. rewrite ls_upd_sw, L2, ls_upd_sw, L1 by done. by rewrite bool_decide_false by naive_solver.
  - subst r. set (t1 := upd_sw d (fun s => set_root (root_switch s) (-1) s) t).
    assert (switches t1 !! d = Some (set_root (root_switch s) (-1) s)) as Hs1 by (unfold t1; cbn; by rewrite lookup_alter_eq, Hs).
    assert (forall d' p, ls t1 d' p = ls t d' p) as L1 by (intros; unfold t1; by rewrite ls_upd_sw).
    destruct (mark_none_all now d t1 _ Hs1 Hl) as (t2 & E2 & [Q2 R2 L2]).
    { intros p [x Hx]. exists x. split; [done|]. rewrite L1 in Hx. by apply (Hidle p). }
    rewrite E2. exists t2. assert (quiet t t1) as Q1 by by apply quiet_root.
    split_and!; [done|by etransitivity|done| |].
    + intros p x Hx. rewrite bool_decide_false by congruence. destruct (L2 d p) as [E|[_ E]]; rewrite E in Hx.
      * rewrite L1 in Hx. by apply (Hidle p).
      * by injection Hx as <-.
    + intros d' p _. destruct (L2 d' p) as [E|[(x & Hx & Ix) E]]; rewrite E; [left; apply L1|right].
      split; [|done]. exists x. by rewrite <- L1.
Qed.

(** The loop states after the root ports are known. *)
Definition after_cost (t : topo_hdl) : Prop := forall d p x, ls t d p = Some x ->
  if bool_decide (d = R) then x = LOOP_PORT_STATUS_DP
  else if bool_decide (rp d = Some p) then x = LOOP_PORT_STATUS_RP else idle_status x = true.

Lemma root_routes_quiet t t' : quiet t t' -> rt t' = rt t -> root_routes t -> root_routes t'.
Proof.
  intros Q Er Hr d s r0 Hs Hd HR. assert (quiet t' t) as Q' by (destruct Q; by split).
  destruct (quiet_switch _ _ _ _ Q' Hs) as (s1 & Hs1 & E1). destruct (quiet_switch _ _ _ _ Q' HR) as (r1 & HR1 & E2).
  destruct (Hr d s1 r1 Hs1 Hd HR1) as (r & E & Hm). exists r. split.
  - rewrite <- E. unfold __tr_get_route. rewrite Er. destruct Q as [_ Qr].
    assert (max_sw_alias t' = max_sw_alias t) as -> by (unfold rest in Qr; congruence).
    assert (alias_id s = alias_id s1) as -> by (change (alias_id (erase_sw s) = alias_id (erase_sw s1)); by rewrite E1).
    assert (alias_id r0 = alias_id r1) as -> by (change (alias_id (erase_sw r0) = alias_id (erase_sw r1)); by rewrite E2).
    done.
  - destruct (rp d); [|done]. destruct Hm as (? & ? & ?). split_and!; [done|done|]. by apply (quiet_get t t').
Qed.

Lemma near_idle d t t' : near d t t' -> forall d' p x, d' <> d -> ls t' d' p = Some x ->
  exists y, ls t d' p = Some y /\ (x = y \/ (idle_status y = true /\ x = LOOP_PORT_STATUS_NONE)).
Proof.
  intros N d' p x Ne Hx. destruct (N d' p Ne) as [E|[(y & Hy & Iy) E]]; rewrite E in Hx.
  - exists x. split; [done|]. by left.
  - injection Hx as <-. exists y. split; [done|]. by right.
Qed.

Lemma cost_phase t r0 : unlocked t -> switches t !! R = Some r0 -> root_routes t ->
  (forall d p x, ls t d p = Some x -> if bool_decide (d = R) then x = LOOP_PORT_STATUS_DP else idle_status x = true) ->
  exists t', __lldp_switch_traverse_all (mul_per_switch_rp_calc dw now R) t = Some t' /\ quiet t t' /\ rt t' = rt t /\ after_cost t'.
Proof.
  intros U HR Hroute H0.
  destruct (quiet_traverse (fun done t' => rt t' = rt t /\ forall d p x, ls t' d p = Some x ->
      if bool_decide (d = R) then x = LOOP_PORT_STATUS_DP
      else if bool_decide (d ∈ done /\ rp d = Some p) then x = LOOP_PORT_STATUS_RP else idle_status x = true)
    (mul_per_switch_rp_calc dw now R) t U) as (t' & E & Q & Er & L).
  - split; [done|]. intros d p x Hx. specialize (H0 d p x Hx). case_bool_decide; [done|].
    by rewrite bool_decide_false by set_solver.
  - intros done d t' s Hd Q Hs Hl [Er L]. destruct (decide (d = R)) as [->|Ne].
    { exists t'. unfold mul_per_switch_rp_calc. rewrite Z.eqb_refl. split_and!; [done|done|done|].
      intros d p x Hx. specialize (L d p x Hx). case_bool_decide; [done|].
      by rewrite (bool_decide_ext (d ∈ done ++ [R] /\ rp d = Some p) (d ∈ done /\ rp d = Some p)) by set_solver. }
    destruct (quiet_switch t t' R r0 Q HR) as (r1 & HR1 & _).
    destruct (rp_switch d t' s r1) as (t'' & E & Q' & Er' & C & N); [by eapply root_routes_quiet|done|done|done|done| |].
    { intros p x Hx. specialize (L d p x Hx). rewrite bool_decide_false in L by done. by rewrite bool_decide_false in L by set_solver. }
    exists t''. split_and!; [done|done|congruence|]. intros d' p x Hx. destruct (decide (d' = d)) as [->|Nd].
    + rewrite bool_decide_false by done. specialize (C p x Hx).
      by rewrite (bool_decide_ext (d ∈ done ++ [d] /\ rp d = Some p) (rp d = Some p)) by set_solver.
    + destruct (near_idle d t' t'' N d' p x Nd Hx) as (y & Hy & Hxy). specialize (L d' p y Hy).
      destruct Hxy as [<-|[Iy ->]].
      * case_bool_decide; [done|].
        by rewrite (bool_decide_ext (d' ∈ done ++ [d] /\ rp d' = Some p) (d' ∈ done /\ rp d' = Some p)) by set_solver.
      * case_bool_decide; [by subst y|].
        rewrite (bool_decide_ext (d' ∈ done ++ [d] /\ rp d' = Some p) (d' ∈ done /\ rp d' = Some p)) by set_solver.
        case_bool_decide; [by subst y|done].
  - exists t'. split_and!; [done|done|done|]. intros d p x Hx. specialize (L d p x Hx). case_bool_decide; [done|].
    assert (is_Some (switches t !! d)) as [s Hs].
    { assert (is_Some (get_port d p t)) as [port Hp] by (apply (is_port_same t t' d p); [apply Q|apply ls_is_Some; by exists x]).
      unfold get_port in Hp. destruct (switches t !! d); [eauto|done]. }
    rewrite (bool_decide_ext (d ∈ order (dom (switches t)) /\ rp d = Some p) (rp d = Some p)) in L; [done|].
    rewrite elem_of_order, elem_of_dom. naive_solver.
Qed.
End PORTS.
