(* ===== verification/LoopTree.v ===== *)
(** * Loop detection: designated and blocked ports *)
From stdpp Require Import base list gmap.
From Stdlib Require Import ZArith Lia.
From S2P Require Import Prelude RouteApsp RouteApspSpec RouteServlet Topo Loop TopoSpec LoopSpec LoopRun LoopPorts.
Import Apsp Topo Loop.
#[local] Open Scope Z_scope.

(** Telling the routing block about a link never fails. *)
Lemma add_neigh_conn_update n st a b da db p : block_ok n st -> Z.of_nat n <= UINT64_MAX -> (a < n)%nat -> (b < n)%nat ->
  exists st', mul_route_apsp_add_neigh_conn st (Z.of_nat a) (Z.of_nat b) da db p true = Some st' /\ block_ok n st'.
Proof.
  intros Hok Hn Ha Hb. unfold mul_route_apsp_add_neigh_conn. destruct (has_flag st RT_APSP_INIT); cbn [negb]; [|by exists st].
  rewrite (bo_nodes _ _ Hok). unfold u64. rewrite Z.mod_small by (unfold UINT64_MAX in *; lia).
  rewrite (proj2 (Z.leb_gt _ _)) by lia. cbn [orb].
  destruct (adj_elem_some n st Hok a b Ha Hb) as (e & He & _ & H4). rewrite He, topo_bind.
  destruct (RT_MAX_ADJ_PAIRS - 1 <=? pairs e); [by exists st|].
  destruct (put_adj_spec n st Hok a b (mk_adj da db (pairs e) (adj_pairs e)) Ha Hb H4) as (st1 & E1 & Hok1 & _).
  rewrite E1, topo_bind. cbn [adj_pairs pairs].
  destruct (find_pair (adj_pairs e) (Z.to_nat (pairs e)) p) as [k|] eqn:Ef; [|by exists st1].
  apply find_pair_lt in Ef as (_ & Hk & _). destruct (lookup_lt_is_Some_2 _ _ Hk) as [q Hq].
  rewrite aget_nat, Hq, topo_bind. case_match; [|by exists st1]. eexists. split; [done|]. by apply (views_of_matrices st1).
Qed.

Section TREE.
Context `{HashOrder} (now : Z).
Context (n : nat) (Hn : Z.of_nat n <= UINT64_MAX).

(** Switch aliases are below [n], and the table holds a reference to every switch. *)
Definition sw_wf (t : topo_hdl) : Prop :=
  forall d s, skel t !! d = Some s -> 0 <= alias_id s < Z.of_nat n /\ 1 <= sw_ref s.

Lemma sw_wf_get t d s : sw_wf t -> switches t !! d = Some s -> 0 <= alias_id s < Z.of_nat n /\ 1 <= sw_ref s.
Proof. intros W Hs. apply (W d (erase_sw s)). by rewrite skel_lookup, Hs. Qed.

(** Marking a port as blocked. *)
Record blocks (d p : Z) (st : loop_port_status) (t t' : topo_hdl) : Prop := {
  bk_quiet : quiet t t'; bk_rt : block_ok n (rt t) -> block_ok n (rt t');
  bk_ls : forall d' p', ls t' d' p' = if here d p d' p' then Some st else ls t d' p' }.

Lemma is_port_switch t d p : is_Some (get_port d p t) -> is_Some (switches t !! d).
Proof. unfold get_port. destruct (switches t !! d); [eauto|by intros []]. Qed.

Lemma block_port_spec d p st nd np t : sw_wf t -> block_ok n (rt t) -> is_Some (get_port d p t) -> is_Some (switches t !! nd) ->
  st <> LOOP_PORT_STATUS_NONE -> exists t', block_port now d p st nd np t = Some t' /\ blocks d p st t t'.
Proof.
  intros W Hb Hp [ns Hns] Hst. unfold block_port. destruct (mark_spec now d p st t Hp Hst) as (t1 & E1 & [Q1 R1 L1]).
  rewrite E1, topo_bind. unfold mul_loop_rt_neigh_conn_update.
  destruct (is_port_switch t d p Hp) as [s Hs].
  destruct (quiet_switch t t1 d s Q1 Hs) as (s1 & Hs1 & Es). destruct (quiet_switch t t1 nd ns Q1 Hns) as (ns1 & Hns1 & Ens).
  destruct (quiet_get t t1 d p Q1 Hp) as [port Hport]. rewrite Hs1, topo_bind, Hns1, topo_bind, Hport, topo_bind.
  destruct (sw_wf_get t d s W Hs) as [A1 _]. destruct (sw_wf_get t nd ns W Hns) as [A2 _].
  assert (alias_id s1 = alias_id s) as -> by (change (alias_id (erase_sw s1) = alias_id (erase_sw s)); by rewrite Es).
  assert (alias_id ns1 = alias_id ns) as -> by (change (alias_id (erase_sw ns1) = alias_id (erase_sw ns)); by rewrite Ens).
  rewrite <- (Z2Nat.id (alias_id s)), <- (Z2Nat.id (alias_id ns)) by lia. rewrite R1.
  edestruct (add_neigh_conn_update n (rt t) (Z.to_nat (alias_id s)) (Z.to_nat (alias_id ns))) as (b & Eb & Hb');
    [done|done|lia|lia|]. rewrite Eb, topo_bind.
  eexists. split; [done|]. split; [|done|done]. destruct Q1. by split.
Qed.

Lemma sw_wf_quiet t t' : quiet t t' -> sw_wf t -> sw_wf t'.
Proof. intros [Q _] W d s. rewrite Q. apply W. Qed.

(** An operation on a neighbour, with a reference to it and, for another switch, its lock. *)
Lemma with_fetch t nd s (b : bool) f :
  switches t !! nd = Some s -> 1 <= sw_ref s -> (b = true -> sw_lock s = false) ->
  let t1 := upd_sw nd (fun s => set_ref (sw_ref s + 1) s) t in
  let t2 := if b then upd_sw nd (set_lock true) t1 else t1 in
  (exists t3, f t2 = Some t3 /\ quiet t2 t3) ->
  exists t3 t5, (t ← (if b then sw_take nd t1 else Some t1); t ← f t; t ← (if b then sw_drop nd t else Some t);
                 lldp_switch_unref nd t) = Some t5 /\
    f t2 = Some t3 /\ quiet t t5 /\ rt t5 = rt t3 /\ forall d p, ls t5 d p = ls t3 d p.
Proof.
  intros Hs Hr Hb t1 t2 (t3 & E & Q).
  assert (switches t1 !! nd = Some (set_ref (sw_ref s + 1) s)) as Hs1 by (unfold t1; cbn; by rewrite lookup_alter_eq, Hs).
  assert (exists t4, (t ← (if b then sw_take nd t1 else Some t1); t ← f t; (if b then sw_drop nd t else Some t)) = Some t4 /\
    quiet t1 t4 /\ rt t4 = rt t3 /\ forall d p, ls t4 d p = ls t3 d p) as (t4 & E4 & Q4 & R4 & L4).
  { destruct b.
    - destruct (with_lock t1 nd _ f Hs1 (Hb eq_refl)) as (t3' & t4 & E4 & E3 & -> & Q4); [by exists t3|].
      fold t2 in E3. rewrite E in E3. injection E3 as <-. eexists. split; [exact E4|]. split_and!; [done|done|].
      intros. by rewrite ls_upd_sw.
    - exists t3. rewrite topo_bind. fold t2. by rewrite E. }
  exists t3, (upd_sw nd (fun s => set_ref (sw_ref s - 1) s) t4).
  destruct (quiet_switch t1 t4 nd _ Q4 Hs1) as (s4 & Hs4 & E44).
  assert (sw_ref s4 = sw_ref s + 1) as Er by (change (sw_ref (erase_sw s4) = sw_ref s + 1); by rewrite E44).
  split; [|split_and!; [done| |done|intros; by rewrite ls_upd_sw]].
  - destruct (if b then sw_take nd t1 else Some t1) as [u1|]; [|done]. rewrite topo_bind in *.
    destruct (f u1) as [u2|]; [|done]. rewrite topo_bind in *. rewrite E4, topo_bind. unfold lldp_switch_unref.
    rewrite Hs4, topo_bind, Er. destruct (Z.eqb_spec (sw_ref s + 1 - 1) 0); [lia|done].
  - split; [|transitivity (rest t4); [done|apply Q4]].
    rewrite (skel_upd_sw _ _ _ (fun s => set_ref (sw_ref s - 1) s)) by done. rewrite (q_skel _ _ Q4). unfold t1.
    rewrite (skel_upd_sw _ _ _ (fun s => set_ref (sw_ref s + 1) s)) by done.
    apply map_eq. intros i. destruct (decide (nd = i)) as [->|Ne]; [|by rewrite !lookup_alter_ne].
    rewrite !lookup_alter_eq, skel_lookup, Hs. cbn. unfold set_ref. cbn. replace (sw_ref s + 1 - 1) with (sw_ref s) by lia. by destruct s.
Qed.

(** ** One port *)

(** The states [x] and [y] that a port and its neighbour get, given the state [z] of the neighbour. *)
Definition decides (z x y : loop_port_status) : Prop :=
  match z with
  | LOOP_PORT_STATUS_RP => x = LOOP_PORT_STATUS_DP /\ y = z
  | LOOP_PORT_STATUS_DP => x = LOOP_PORT_STATUS_NDP /\ y = LOOP_PORT_STATUS_DP_N
  | LOOP_PORT_STATUS_NDP => x = LOOP_PORT_STATUS_DP_N /\ y = z
  | LOOP_PORT_STATUS_DP_N => x = LOOP_PORT_STATUS_NDP /\ y = z
  | _ => x = LOOP_PORT_STATUS_DP_N /\ y = z \/ x = LOOP_PORT_STATUS_NDP /\ y = LOOP_PORT_STATUS_DP_N
  end.

Record decided (d p nd np : Z) (x y : loop_port_status) (t t' : topo_hdl) : Prop := {
  dc_quiet : quiet t t'; dc_rt : block_ok n (rt t) -> block_ok n (rt t');
  dc_ls : forall d' p', ls t' d' p' = if here d p d' p' then Some x else if here nd np d' p' then Some y else ls t d' p' }.

Section ONE.
Context (t : topo_hdl) (W : sw_wf t) (Hb : block_ok n (rt t)).
Context (d p : Z) (port np_port : lldp_port).
Notation nd := (neighbor_dpid port). Notation np := (neighbor_port port).
Context (Hp : is_Some (get_port d p t)) (Hnp : get_port nd np t = Some np_port) (Hne : ~ (d = nd /\ p = np)).
Notation z := (loop_status np_port).

Lemma one_block st : st <> LOOP_PORT_STATUS_NONE ->
  exists t', block_port now d p st nd np t = Some t' /\ decided d p nd np st z t t'.
Proof.
  intros Hst. destruct (block_port_spec d p st nd np t W Hb Hp) as (t' & E & [Q B L]); [|done|].
  { apply (is_port_switch _ nd np). by exists np_port. }
  exists t'. split; [done|]. split; [done|done|]. intros d' p'. rewrite L. case_bool_decide; [done|].
  case_bool_decide as Eh; [|done]. destruct Eh as [<- <-]. unfold ls. by rewrite Hnp.
Qed.

Lemma two_blocks :
  exists t', (t ← block_port now d p LOOP_PORT_STATUS_NDP nd np t; block_port now nd np LOOP_PORT_STATUS_DP_N d p t) = Some t' /\
    decided d p nd np LOOP_PORT_STATUS_NDP LOOP_PORT_STATUS_DP_N t t'.
Proof.
  destruct (one_block LOOP_PORT_STATUS_NDP) as (t1 & E1 & [Q1 B1 L1]); [done|]. rewrite E1, topo_bind.
  destruct (block_port_spec nd np LOOP_PORT_STATUS_DP_N d p t1) as (t2 & E2 & [Q2 B2 L2]);
    [by apply (sw_wf_quiet t)|by apply B1|apply (quiet_get t t1); [done|by exists np_port]| |done|].
  { apply (is_port_switch _ d p). by apply (quiet_get t t1). }
  exists t2. split; [done|]. split; [by etransitivity|auto|]. intros d' p'. rewrite L2, L1.
  case_bool_decide as Ea; case_bool_decide as Eb; naive_solver.
Qed.

Lemma dp_decide_spec : exists t' x y, dp_decide now d p port np_port t = Some t' /\ decides z x y /\ decided d p nd np x y t t'.
Proof.
  destruct (is_port_switch t d p Hp) as [s Hs]. destruct (is_port_switch t nd np) as [ns Hns]; [by exists np_port|].
  unfold dp_decide. destruct z eqn:Ez; cbn [decides].
  1,2: rewrite Hs, topo_bind, Hns, topo_bind.
  1,2: destruct (root_path_cost s <? root_path_cost ns);
    [|destruct (root_path_cost ns <? root_path_cost s); [|destruct (dpid s <=? dpid ns)]].
  1,3,5,7: destruct (one_block LOOP_PORT_STATUS_DP_N) as (t' & E & D); [done|]; rewrite Ez in D; eexists t', _, _; eauto.
  1,2,3,4: destruct two_blocks as (t' & E & D); eexists t', _, _; eauto.
  - destruct two_blocks as (t' & E & D). eexists t', _, _; eauto.
  - destruct (mark_spec now d p LOOP_PORT_STATUS_DP t Hp) as (t' & E & [Q B L]); [done|].
    exists t', LOOP_PORT_STATUS_DP, LOOP_PORT_STATUS_RP. split_and!; [done|done|done|]. split; [done|by rewrite B|].
    intros d' p'. rewrite L. case_bool_decide; [done|]. case_bool_decide as Eh; [|done]. destruct Eh as [<- <-].
    unfold ls. by rewrite Hnp, <- Ez.
  - destruct (one_block LOOP_PORT_STATUS_DP_N) as (t' & E & D); [done|]. rewrite Ez in D. eexists t', _, _; eauto.
  - destruct (one_block LOOP_PORT_STATUS_NDP) as (t' & E & D); [done|]. rewrite Ez in D. eexists t', _, _; eauto.
Qed.
End ONE.

(** Links are known at both ends. *)
Definition symmetric (t : topo_hdl) : Prop := forall d p nd np, link t d p = Some (nd, np) ->
  link t nd np = Some (d, p) /\ ~ (d = nd /\ p = np).

Lemma link_port t d p x : link t d p = Some x -> is_Some (get_port d p t).
Proof. unfold link. destruct (get_port d p t); [eauto|done]. Qed.

(** The lock of [d] only is taken. *)
Definition locked_only (d : Z) (t : topo_hdl) : Prop := forall d' s, skel t !! d' = Some s -> sw_lock s = bool_decide (d' = d).

Lemma dp_calc_link d p t port nd np : sw_wf t -> block_ok n (rt t) -> symmetric t -> locked_only d t ->
  get_port d p t = Some port -> link t d p = Some (nd, np) -> loop_status port <> LOOP_PORT_STATUS_RP ->
  exists t' x y z, mul_per_switch_port_dp_calc now d p t = Some t' /\ ls t nd np = Some z /\ decides z x y /\ decided d p nd np x y t t'.
Proof.
  intros W Hb Hsym Hlk Hport Hlink Hst. unfold mul_per_switch_port_dp_calc. rewrite Hport, topo_bind.
  assert (status port = LLDP_PORT_STATUS_NEIGHBOR /\ nd = neighbor_dpid port /\ np = neighbor_port port) as (Es & -> & ->).
  { unfold link in Hlink. rewrite Hport, topo_bind in Hlink. unfold link_of in Hlink. case_bool_decide; [|done]. by injection Hlink. }
  rewrite bool_decide_true, bool_decide_false by done. cbn [negb andb].
  destruct (Hsym _ _ _ _ Hlink) as [Hback Hne]. destruct (link_port _ _ _ _ Hback) as [q Hq].
  destruct (is_port_switch t (neighbor_dpid port) (neighbor_port port)) as [ns Hns]; [by exists q|].
  unfold __fetch_and_retain_switch. rewrite Hns. cbv beta iota.
  set (b := negb (neighbor_dpid port =? d)). set (f := fun t => match __lldp_port_find (neighbor_dpid port) (neighbor_port port) t with
    | Some neigh_port => dp_decide now d p port neigh_port t | None => Some t end).
  set (t1 := upd_sw (neighbor_dpid port) (fun s => set_ref (sw_ref s + 1) s) t).
  set (t2 := if b then upd_sw (neighbor_dpid port) (set_lock true) t1 else t1).
  assert (forall a c, get_port a c t2 = get_port a c t) as G2 by (intros; unfold t2, t1; destruct b; by rewrite ?get_port_upd_sw).
  assert (forall a c, ls t2 a c = ls t a c) as L2 by (intros; unfold ls; by rewrite G2).
  destruct (sw_wf_get t _ ns W Hns) as [_ Href].
  destruct (dp_decide_spec t2) with (d := d) (p := p) (port := port) (np_port := q) as (t3 & x & y & E3 & Hd & [Q3 B3 L3]).
  { intros i s Hi. unfold t2 in Hi. assert (exists s', skel t !! i = Some s' /\ alias_id s = alias_id s' /\ sw_ref s' <= sw_ref s) as (s' & Hs' & -> & Hr).
    { destruct b; unfold t1 in Hi; rewrite ?skel_lock, (skel_upd_sw _ _ _ (fun s => set_ref (sw_ref s + 1) s)) in Hi by done.
      - destruct (decide (neighbor_dpid port = i)) as [<-|Ni].
        + rewrite !lookup_alter_eq in Hi. destruct (skel t !! _) as [u|]; [|done]. injection Hi as <-. exists u. cbn. split_and!; [done|done|lia].
        + rewrite !lookup_alter_ne in Hi by done. by exists s.
      - destruct (decide (neighbor_dpid port = i)) as [<-|Ni].
        + rewrite lookup_alter_eq in Hi. destruct (skel t !! _) as [u|]; [|done]. injection Hi as <-. exists u. cbn. split_and!; [done|done|lia].
        + rewrite lookup_alter_ne in Hi by done. by exists s. }
    destruct (W i s' Hs'). split; [done|lia]. }
  { unfold t2. by destruct b. }
  { rewrite G2. by exists port. }
  { by rewrite G2. }
  { done. }
  destruct (with_fetch t (neighbor_dpid port) ns b f Hns Href) as (t3' & t5 & E5 & E3' & Q5 & R5 & L5).
  { unfold b. intros Hbb. apply negb_true_iff, Z.eqb_neq in Hbb.
    pose proof (Hlk (neighbor_dpid port) (erase_sw ns)) as Hl. rewrite skel_lookup, Hns in Hl. specialize (Hl eq_refl).
    rewrite bool_decide_false in Hl by done. done. }
  { exists t3. split; [|done]. unfold f, __lldp_port_find. fold t1. fold t2. rewrite G2, Hq. exact E3. }
  assert (t3' = t3) as ->.
  { fold t1 in E3'. fold t2 in E3'. unfold f, __lldp_port_find in E3'. rewrite G2, Hq, E3 in E3'. by injection E3'. }
  exists t5, x, y, (loop_status q). split_and!; [exact E5|unfold ls; by rewrite Hq|done|]. split; [done| |].
  - intros B. rewrite R5. apply B3. unfold t2. by destruct b.
  - intros d' p'. rewrite L5, L3, L2. done.
Qed.
End TREE.
