(* ===== verification/LoopForest.v ===== *)
(** * Loop detection: the states of all links *)
From stdpp Require Import base list gmap.
From Stdlib Require Import ZArith Lia.
From S2P Require Import Prelude RouteApsp RouteApspSpec RouteServlet Topo Loop TopoSpec LoopSpec LoopRun LoopPorts LoopTree.
Import Apsp Topo Loop.
#[local] Open Scope Z_scope.

Section FOREST.
Context `{HashOrder} (now : Z).
Context (R : Z) (rp : Z -> option Z) (n : nat) (Hn : Z.of_nat n <= UINT64_MAX).

Notation is_rp d p := (bool_decide (rp d = Some p)).

(** The states of the links while designated ports are chosen; [D] tells which ports were looked at. *)
Definition J (D : Z -> Z -> Prop) (t : topo_hdl) : Prop := forall d p nd np x,
  link t d p = Some (nd, np) -> ls t d p = Some x ->
  if is_rp d p then x = LOOP_PORT_STATUS_RP
  else if is_rp nd np then (d = R \/ D d p -> x = LOOP_PORT_STATUS_DP) /\ (idle_status x = true \/ x = LOOP_PORT_STATUS_DP)
  else (d = R -> x = LOOP_PORT_STATUS_DP \/ blocked_status x = true) /\
       (d <> R -> idle_status x = true \/ blocked_status x = true) /\
       (D d p -> blocked_status x = true) /\ (d = R -> D nd np -> blocked_status x = true).

Lemma J_ext (D D' : Z -> Z -> Prop) t : (forall d p nd np, link t d p = Some (nd, np) -> D' d p -> D d p) ->
  symmetric t -> J D t -> J D' t.
Proof.
  intros HD Hs HJ d p nd np x Hl Hx. specialize (HJ d p nd np x Hl Hx). destruct (Hs _ _ _ _ Hl) as [Hb _].
  case_bool_decide; [done|]. case_bool_decide.
  - destruct HJ as [A B]. split; [|done]. intros [?|?]; apply A; [by left|right; by eapply HD].
  - destruct HJ as (A & B & C & E). split_and!; [done|done|intros; apply C; by eapply HD|intros; apply E; [done|by eapply HD]].
Qed.

Lemma symmetric_quiet t t' : quiet t t' -> symmetric t -> symmetric t'.
Proof. intros [Q _] Hs d p nd np. rewrite !(link_same t t') by done. apply Hs. Qed.

Lemma locked_only_quiet d t t' : quiet t t' -> locked_only d t -> locked_only d t'.
Proof. intros [Q _] Hs d' s. rewrite Q. apply Hs. Qed.

(** The decision for a port keeps the states of all links as they should be. *)
Lemma decided_J D d p nd np x y z t t' : symmetric t -> J D t -> d <> R -> (forall q, ~ D R q) ->
  link t d p = Some (nd, np) -> ls t nd np = Some z -> rp d <> Some p ->
  decides z x y -> decided n d p nd np x y t t' -> J (fun a b => D a b \/ (a = d /\ b = p)) t'.
Proof.
  intros Hs HJ Hd HDR Hl Hz Hrp Hdec [Q _ L] a b na nb w Hl' Hw.
  rewrite (link_same t t') in Hl' by apply Q. rewrite L in Hw.
  destruct (Hs _ _ _ _ Hl) as [Hback Hne]. destruct (Hs _ _ _ _ Hl') as [Hback' Hne'].
  pose proof (HJ nd np d p z Hback Hz) as Jz. rewrite (bool_decide_false _ Hrp) in Jz.
  destruct (decide (d = a /\ p = b)) as [[<- <-]|E1]; [|rewrite bool_decide_false in Hw by done;
    destruct (decide (nd = a /\ np = b)) as [[<- <-]|E2]; [|rewrite bool_decide_false in Hw by done]].
  - rewrite bool_decide_true in Hw by done. rewrite Hl in Hl'. injection Hl' as <- <-. injection Hw as <-.
    rewrite (bool_decide_false _ Hrp). case_bool_decide as Enp.
    + subst z. cbn in Hdec. destruct Hdec as [-> _]. split; [done|by right].
    + destruct Jz as (A & B & _). split_and!; [done|intros _|intros _|done]; destruct z; cbn in Hdec, A, B; naive_solver.
  - rewrite bool_decide_true in Hw by done. rewrite Hback in Hl'. injection Hl' as <- <-. injection Hw as <-.
    rewrite (bool_decide_false (rp d = _)) by done. case_bool_decide as Enp.
    + subst z. by destruct Hdec as [_ ->].
    + destruct Jz as (A & B & C & E). destruct z; cbn in Hdec, A, B, C; naive_solver.
  - pose proof (HJ a b na nb w Hl' Hw) as Jw. case_bool_decide; [done|]. case_bool_decide.
    + destruct Jw as [A B]. split; [|done]. naive_solver.
    + destruct Jw as (A & B & C & E). split_and!; [done|done|naive_solver|]. intros ? [?|[-> ->]]; [by apply E|].
      rewrite Hl in Hback'. injection Hback' as -> ->. naive_solver.
Qed.

Lemma dp_port_step D d p t : sw_wf n t -> block_ok n (rt t) -> symmetric t -> locked_only d t -> d <> R -> (forall q, ~ D R q) ->
  is_Some (get_port d p t) -> J D t ->
  exists t', mul_per_switch_port_dp_calc now d p t = Some t' /\ quiet t t' /\ block_ok n (rt t') /\
    J (fun a b => D a b \/ (a = d /\ b = p)) t'.
Proof.
  intros W Hb Hs Hk Hd HDR [port Hp] HJ. destruct (link t d p) as [[nd np]|] eqn:El.
  - destruct (decide (loop_status port = LOOP_PORT_STATUS_RP)) as [Erp|Nrp].
    + exists t. unfold mul_per_switch_port_dp_calc. rewrite Hp, topo_bind, (bool_decide_true (loop_status port = _)) by done.
      rewrite andb_false_r. split_and!; [done|done|done|].
      assert (rp d = Some p) as Hrp.
      { specialize (HJ d p nd np LOOP_PORT_STATUS_RP El). unfold ls in HJ. rewrite Hp in HJ. cbn in HJ. rewrite Erp in HJ.
        specialize (HJ eq_refl). case_bool_decide; [done|]. case_bool_decide; [destruct HJ as [_ []]; done|].
        destruct HJ as (_ & B & _). destruct (B Hd); done. }
      intros a b na nb w Hl' Hw. specialize (HJ a b na nb w Hl' Hw). destruct (Hs _ _ _ _ Hl') as [Hb' _].
      case_bool_decide; [done|]. case_bool_decide; [naive_solver|]. destruct HJ as (A & B & C & E).
      split_and!; [done|done|naive_solver|]. intros ? [?|[-> ->]]; [by apply E|]. rewrite El in Hb'. naive_solver.
    + destruct (dp_calc_link now n Hn d p t port nd np W Hb Hs Hk Hp El Nrp) as (t' & x & y & z & E & Hz & Hdec & Hdd).
      exists t'. split_and!; [done|apply Hdd|by apply Hdd|].
      apply (decided_J D d p nd np x y z t t'); try done.
      intros Hrp. specialize (HJ d p nd np (loop_status port) El). unfold ls in HJ. rewrite Hp in HJ.
      specialize (HJ eq_refl). by rewrite bool_decide_true in HJ.
  - exists t. unfold mul_per_switch_port_dp_calc. rewrite Hp, topo_bind. unfold link in El. rewrite Hp, topo_bind in El. unfold link_of in El.
    case_bool_decide as Es; [done|]. cbn [andb]. split_and!; [done|done|done|].
    apply (J_ext D); [|done|done]. intros a b na nb Hl' [?|[-> ->]]; [done|].
    unfold link in Hl'. rewrite Hp, topo_bind in Hl'. unfold link_of in Hl'. by rewrite bool_decide_false in Hl'.
Qed.

Lemma link_upd_sw t d f d' p : (forall s, ports (f s) = ports s) -> link (upd_sw d f t) d' p = link t d' p.
Proof. intros Hf. unfold link. by rewrite get_port_upd_sw. Qed.

Lemma J_upd_sw D t d f : (forall s, ports (f s) = ports s) -> J D (upd_sw d f t) <-> J D t.
Proof. intros Hf. unfold J. setoid_rewrite link_upd_sw; [|done]. setoid_rewrite ls_upd_sw; [|done]. done. Qed.

Lemma dp_switch (D : Z -> Z -> Prop) d t s : sw_wf n t -> block_ok n (rt t) -> symmetric t -> unlocked t -> (forall q, ~ D R q) ->
  switches t !! d = Some s -> d <> R -> J D t ->
  exists t', mul_per_switch_dp_calc now R d t = Some t' /\ quiet t t' /\ block_ok n (rt t') /\ J (fun a b => D a b \/ a = d) t'.
Proof.
  intros W Hb Hs U HDR Hd Ne HJ. unfold mul_per_switch_dp_calc. rewrite (proj2 (Z.eqb_neq d R) Ne).
  set (t0 := upd_sw d (set_lock true) t).
  assert (sw_wf n t0) as W0.
  { intros i x. unfold t0. rewrite skel_lock. destruct (decide (d = i)) as [->|]; [|rewrite lookup_alter_ne by done; apply W].
    rewrite lookup_alter_eq. intros (y & Hy & ->)%fmap_Some. exact (W i y Hy). }
  assert (symmetric t0) as S0 by (intros a b na nb; unfold t0; rewrite !link_upd_sw by done; apply Hs).
  assert (locked_only d t0) as K0.
  { intros i x. unfold t0. rewrite skel_lock. destruct (decide (d = i)) as [->|].
    - rewrite lookup_alter_eq. intros (y & Hy & ->)%fmap_Some. by rewrite bool_decide_true.
    - rewrite lookup_alter_ne by done. rewrite bool_decide_false by congruence. intros Hx. by apply (proj1 (unlocked_skel t) U i). }
  destruct (locked_traverse (fun done t' => block_ok n (rt t') /\ J (fun a b => D a b \/ (a = d /\ b ∈ done)) t')
    (mul_per_switch_port_dp_calc now d) d t s Hd (U d s Hd)) as (t' & E & Q & B & HJ').
  - split; [done|]. fold t0. apply (J_ext D); [set_solver|done|]. unfold t0. by apply J_upd_sw.
  - intros done p t' Hp Hport Q [B HJ']. fold t0 in Q.
    destruct (dp_port_step (fun a b => D a b \/ (a = d /\ b ∈ done)) d p t') as (t'' & E & Q' & B' & J');
      [by apply (sw_wf_quiet n t0)|done|by apply (symmetric_quiet t0)|by apply (locked_only_quiet d t0)|done|naive_solver| |done|].
    { apply (quiet_get _ _ _ _ Q). unfold t0. rewrite get_port_upd_sw by done. by apply (port_in t d s). }
    exists t''. split_and!; [done|done|done|]. apply (J_ext (fun a b => (D a b \/ (a = d /\ b ∈ done)) \/ (a = d /\ b = p))); [set_solver| |done].
    apply (symmetric_quiet t'); [done|]. by apply (symmetric_quiet t0).
  - rewrite E. eexists. split_and!; [done|done|done|]. apply J_upd_sw; [done|].
    assert (symmetric t') as S'.
    { assert (symmetric (upd_sw d (set_lock false) t')) as S1 by by apply (symmetric_quiet t).
      intros a b na nb. specialize (S1 a b na nb). by rewrite !link_upd_sw in S1 by done. }
    apply (J_ext (fun a b => D a b \/ (a = d /\ b ∈ order (dom (ports s))))); [|done|done].
    intros a b na nb Hl [?| ->]; [by left|right]. split; [done|]. apply elem_of_order, elem_of_dom.
    assert (is_Some (get_port d b (upd_sw d (set_lock false) t'))) as Hb'.
    { apply (link_port _ _ _ (na, nb)). by rewrite link_upd_sw. }
    apply (is_port_same t _ d b (q_skel _ _ Q)) in Hb'. unfold get_port in Hb'. by rewrite Hd in Hb'.
Qed.

(** The states of the links at the end: of a root port, its other end is designated; a link without a root port is blocked at both ends. *)
Definition tree_states (t : topo_hdl) : Prop := forall d p nd np x,
  link t d p = Some (nd, np) -> ls t d p = Some x ->
  if is_rp d p then x = LOOP_PORT_STATUS_RP
  else if is_rp nd np then x = LOOP_PORT_STATUS_DP else blocked_status x = true.

Lemma after_cost_J t : rp R = None -> (forall d p nd np, link t d p = Some (nd, np) -> rp d = Some p -> rp nd <> Some np) ->
  after_cost R rp t -> J (fun _ _ => False) t.
Proof.
  intros HR Hrp Ha d p nd np x Hl Hx. specialize (Ha d p x Hx). case_bool_decide as E1.
  - subst d x. rewrite bool_decide_false by congruence. case_bool_decide; [split; [done|by right]|]. split_and!; try done. by left.
  - case_bool_decide; [done|]. case_bool_decide; [split; [naive_solver|by left]|]. split_and!; try done. by left.
Qed.

Lemma dp_phase t : sw_wf n t -> block_ok n (rt t) -> symmetric t -> unlocked t -> rp R = None ->
  (forall p nd np, link t R p = Some (nd, np) -> nd <> R) ->
  (forall d p nd np, link t d p = Some (nd, np) -> rp d = Some p -> rp nd <> Some np) -> after_cost R rp t ->
  exists t', __lldp_switch_traverse_all (mul_per_switch_dp_calc now R) t = Some t' /\ quiet t t' /\ block_ok n (rt t') /\ tree_states t'.
Proof.
  intros W Hb Hs U HR Hself Hrp Ha.
  destruct (quiet_traverse (fun done t' => block_ok n (rt t') /\ J (fun a _ => a ∈ done /\ a <> R) t')
    (mul_per_switch_dp_calc now R) t U) as (t' & E & Q & B & HJ).
  - split; [done|]. apply (J_ext (fun _ _ => False)); [set_solver|done|]. by apply after_cost_J.
  - intros done d t' s Hd Q Hds Hl [B HJ]. destruct (decide (d = R)) as [->|Ne].
    { exists t'. unfold mul_per_switch_dp_calc. rewrite Z.eqb_refl. split_and!; [done|done|done|].
      apply (J_ext (fun a _ => a ∈ done /\ a <> R)); [set_solver|by apply (symmetric_quiet t)|done]. }
    destruct (dp_switch (fun a _ => a ∈ done /\ a <> R) d t' s) as (t'' & E & Q' & B' & J');
      [by apply (sw_wf_quiet n t)|done|by apply (symmetric_quiet t)|by apply (unlocked_quiet t)|naive_solver|done|done|done|].
    exists t''. split_and!; [done|done|done|].
    apply (J_ext (fun a _ => (a ∈ done /\ a <> R) \/ a = d)); [set_solver|by apply (symmetric_quiet t'); [|apply (symmetric_quiet t)]|done].
  - exists t'. split_and!; [done|done|done|]. intros d p nd np x Hl Hx. specialize (HJ d p nd np x Hl Hx).
    assert (forall a b y, link t' a b = Some y -> a ∈ order (dom (switches t))) as Hin.
    { intros a b y Hy. apply elem_of_order, elem_of_dom. apply (is_port_switch t a b).
      apply (is_port_same t t' a b); [apply Q|]. by eapply link_port. }
    assert (symmetric t') as S' by by apply (symmetric_quiet t). destruct (S' _ _ _ _ Hl) as [Hback _].
    case_bool_decide; [done|]. case_bool_decide.
    + destruct HJ as [A _]. apply A. destruct (decide (d = R)); [by left|right]. split; [by eapply Hin|done].
    + destruct HJ as (A & B' & C & F). destruct (decide (d = R)) as [->|Ne]; [|apply C; split; [by eapply Hin|done]].
      apply F; [done|]. split; [by eapply Hin|]. rewrite (link_same t t') in Hl by apply Q. by eapply Hself.
Qed.
End FOREST.
