(* ===== verification/LoopThm.v ===== *)
(** * Loop detection: a run leaves a spanning tree *)
From stdpp Require Import base list gmap.
From Stdlib Require Import ZArith Lia.
From S2P Require Import Prelude RouteApsp RouteApspSpec RouteServlet Topo Loop TopoSpec LoopSpec LoopRun LoopPorts LoopTree LoopForest.
Import Apsp Topo Loop.
#[local] Open Scope Z_scope.

(** ** Routes after a change of port states *)

Lemma conn_weight b p : 0 < weight (lldp_send_rt_neigh_conn b p) <= 10000.
Proof. unfold lldp_send_rt_neigh_conn. case_match; cbn; unfold NEIGH_DFL_WEIGHT; lia. Qed.

Lemma lldp_topo_ok n t b : max_sw_alias t = Z.of_nat n - 1 -> (0 < n)%nat -> topo_ok t b n 10000.
Proof.
  intros Hm Hn. split_and!; [done|done|]. intros x y _ _. apply Forall_forall. intros c.
  cbn [tr_neigh_pair_adjacencies lldp_topology]. unfold __lldp_init_neigh_pair_adjacencies.
  destruct (lldp_get_switch_from_imap t (Z.of_nat x)) as [s|]; [|by intros ?%elem_of_nil].
  destruct (lldp_get_switch_from_imap t (Z.of_nat y)) as [s'|]; [|by intros ?%elem_of_nil].
  destruct (neighbors s !! dpid s') as [l|]; [|by intros ?%elem_of_nil].
  intros (q & Hq & E)%list_elem_of_omap. apply bind_Some in E as (p & _ & [= <-]). apply conn_weight.
Qed.

Lemma rebuild_total n t b now st : max_sw_alias t = Z.of_nat n - 1 -> (0 < n)%nat -> Z.of_nat n <= MAX_SWITCHES_PER_CLUSTER ->
  (n * n <= length (adj_matrix st))%nat -> (n * n <= length (paths st))%nat ->
  exists st', rebuild_routes t b now st = Some st' /\ block_ok n st'.
Proof.
  intros Hm Hn Hmax Ha Hp. unfold rebuild_routes.
  destruct (init_state_spec t b n 10000 (mul_route_apsp_clean_state st)) as (s1 & E1 & Hr & _);
    [by apply lldp_topo_ok|done|unfold NEIGH_NO_PATH, INT_MAX; lia|done|done|]. rewrite E1, topo_bind.
  destruct (calc_inv n 10000 now s1 Hr) as (s2 & E2 & Hinv & _);
    [unfold MAX_SWITCHES_PER_CLUSTER, INT_MAX in *; lia|]. rewrite E2, topo_bind. exists s2. split; [done|]. apply Hinv.
Qed.

Lemma deref_erase s q : is_Some (deref (erase_sw s) q) <-> is_Some (deref s q).
Proof.
  unfold deref, erase_sw. cbn. rewrite lookup_fmap. destruct (ports s !! q.1) as [x|]; cbn; [|done].
  destruct (lp_uid x =? q.2); split; intros []; eauto; done.
Qed.

Lemma alive_skel t : lists_alive t = true <->
  forall d s nd l q, skel t !! d = Some s -> neighbors s !! nd = Some l -> q ∈ l -> is_Some (deref s q).
Proof.
  unfold lists_alive. rewrite bool_decide_eq_true. split.
  - intros Hf d s nd l q. rewrite skel_lookup. intros (s0 & Hs & ->)%fmap_Some Hl Hq. apply deref_erase.
    specialize (Hf d s0 Hs nd l Hl). rewrite Forall_forall in Hf. by apply Hf.
  - intros Hf d s Hs nd l Hl. apply Forall_forall. intros q Hq. apply deref_erase.
    apply (Hf d (erase_sw s) nd l q); [by rewrite skel_lookup, Hs|done|done].
Qed.

Lemma alive_same t t' : skel t' = skel t -> lists_alive t = true -> lists_alive t' = true.
Proof. intros E. rewrite !alive_skel, E. done. Qed.

Lemma recalc_total n now t : max_sw_alias t = Z.of_nat n - 1 -> (0 < n)%nat -> Z.of_nat n <= MAX_SWITCHES_PER_CLUSTER ->
  block_ok n (rt t) -> lists_alive t = true ->
  exists b, __tr_route_recalc now t = Some (set_rt b t).
Proof.
  intros Hm Hn Hmax Hb Ha. unfold __tr_route_recalc, mul_route_apsp_recalc. rewrite Ha. case_match; [|by exists (rt t)].
  destruct (rebuild_total n t true now (rt t)) as (b & E & _); [done|done|done|apply Hb|apply Hb|]. rewrite E, topo_bind. by exists b.
Qed.

(** ** A run *)

Section RUN.
Context `{HashOrder} (dw : Z -> Z) (now : Z) (n : nat).

(** What a run of loop detection relies on. *)
Record topo_base (t : topo_hdl) : Prop := {
  lw_unlocked : unlocked t; lw_keyed : keyed t; lw_sw : sw_wf n t; lw_sym : symmetric t; lw_alive : lists_alive t = true;
  lw_max : max_sw_alias t = Z.of_nat n - 1; lw_pos : (0 < n)%nat; lw_size : Z.of_nat n <= MAX_SWITCHES_PER_CLUSTER }.

(** ... with a routing block that has room for the switches. *)
Record loop_wf (t : topo_hdl) : Prop := { lw_base :> topo_base t; lw_block : block_ok n (rt t) }.

Lemma keyed_skel t : keyed t <-> forall d s, skel t !! d = Some s -> dpid s = d.
Proof.
  unfold keyed. setoid_rewrite skel_lookup. split.
  - intros K d s (x & Hx & ->)%fmap_Some. cbn. by apply K.
  - intros K d s Hs. apply (K d (erase_sw s)). by rewrite Hs.
Qed.

Lemma topo_base_same t t' : skel t' = skel t -> max_sw_alias t' = max_sw_alias t -> topo_base t -> topo_base t'.
Proof.
  intros Q M [U K W S A X P Z]. split; [| | | | |congruence|done|done].
  - rewrite unlocked_skel, Q. by apply unlocked_skel.
  - rewrite keyed_skel, Q. by apply keyed_skel.
  - intros d s. rewrite Q. apply W.
  - intros d p nd np. rewrite !(link_same t t') by done. apply S.
  - by apply (alive_same t).
Qed.

Lemma loop_wf_same t t' : skel t' = skel t -> max_sw_alias t' = max_sw_alias t -> block_ok n (rt t') -> loop_wf t -> loop_wf t'.
Proof. intros Q M B [W _]. split; [by apply (topo_base_same t)|done]. Qed.

Lemma rest_max t t' : rest t' = rest t -> max_sw_alias t' = max_sw_alias t.
Proof. unfold rest. congruence. Qed.

Lemma loop_wf_quiet t t' : quiet t t' -> block_ok n (rt t') -> loop_wf t -> loop_wf t'.
Proof. intros [Q R] B W. apply (loop_wf_same t); [done|by apply rest_max|done|done]. Qed.

(** [R] is the eligible switch of the least dpid. *)
Definition is_root (t : topo_hdl) (R : Z) : Prop := eligible t R /\ forall d, eligible t d -> R <= d.

Lemma eligible_skel t d : eligible t d <-> exists s, skel t !! d = Some s /\ ports s <> ∅ /\ d < MUL_LLDP_INV_DPID.
Proof.
  unfold eligible. setoid_rewrite skel_lookup. split.
  - intros (s & Hs & Hp & Hd). exists (erase_sw s). rewrite Hs. split_and!; [done| |done]. cbn. by intros ?%fmap_empty_inv.
  - intros (s & (x & Hx & ->)%fmap_Some & Hp & Hd). exists x. split_and!; [done| |done]. intros E. apply Hp. cbn. by rewrite E, fmap_empty.
Qed.

Lemma is_root_same t t' R : skel t' = skel t -> is_root t R -> is_root t' R.
Proof. intros Q [A B]. split; [apply eligible_skel; rewrite Q; by apply eligible_skel|]. intros d Hd. apply B. apply eligible_skel. rewrite <- Q. by apply eligible_skel. Qed.

Lemma elected_root t R r : is_root t R -> elected t (order (dom (switches t))) r -> r = R.
Proof.
  intros [HR Hm] He. assert (R ∈ order (dom (switches t))) as Hin.
  { apply elem_of_order, elem_of_dom. destruct HR as (s & Hs & _). by exists s. }
  destruct He as [[_ Hn]|(_ & Hel & Hl)]; [by apply Hn in Hin|]. specialize (Hm r Hel). specialize (Hl R Hin HR). lia.
Qed.

(** Routes do not depend on reference counts. *)
Lemma root_routes_same R rp t t' : (forall d s, switches t' !! d = Some s -> exists s', switches t !! d = Some s' /\ alias_id s' = alias_id s) ->
  (forall d p, is_Some (get_port d p t) -> is_Some (get_port d p t')) -> rt t' = rt t -> max_sw_alias t' = max_sw_alias t ->
  root_routes dw R rp t -> root_routes dw R rp t'.
Proof.
  intros Ha Hp Hr Hm Hroot d s r0 Hs Hd HR. destruct (Ha d s Hs) as (s1 & Hs1 & <-). destruct (Ha R r0 HR) as (r1 & HR1 & <-).
  destruct (Hroot d s1 r1 Hs1 Hd HR1) as (r & E & M). exists r. split; [unfold __tr_get_route in *; by rewrite Hr, Hm|].
  destruct (rp d); [|done]. destruct M as (? & ? & ?). split_and!; [done|done|by apply Hp].
Qed.

Section ROOT.
Context (R : Z) (rp : Z -> option Z).

(** What is asked of the routes: [rp] gives the first port of the route of a switch to the root, it leads over a known link to a
    switch that is closer to the root, and no cable joins two ports of the root. *)
Record tree_routes (dist : Z -> nat) (t : topo_hdl) : Prop := {
  tw_root : is_root t R; tw_rp : rp R = None; tw_routes : root_routes dw R rp t;
  tw_near : forall d p, rp d = Some p -> exists nd np, link t d p = Some (nd, np) /\ (dist nd < dist d)%nat;
  tw_self : forall p nd np, link t R p = Some (nd, np) -> nd <> R }.

Lemma rp_one_end dist t : tree_routes dist t ->
  forall d p nd np, symmetric t -> link t d p = Some (nd, np) -> rp d = Some p -> rp nd <> Some np.
Proof.
  intros T d p nd np S Hl Hd Hnd. destruct (S _ _ _ _ Hl) as [Hb _].
  destruct (tw_near _ _ T d p Hd) as (a & b & H1 & D1). destruct (tw_near _ _ T nd np Hnd) as (a' & b' & H2 & D2).
  rewrite Hl in H1. rewrite Hb in H2. simplify_eq. lia.
Qed.

(** *** The steps of the state machine *)

Definition frame (t : topo_hdl) :=
  (max_sw_alias t, switch_lock t, tr t, loop_blocked (loop_info t), loop_reset_only (loop_info t)).

Lemma rest_frame t t' : rest t' = rest t -> frame t' = frame t.
Proof. unfold rest, frame. congruence. Qed.

Lemma step_reset t : loop_wf t -> next_loop_state (loop_info t) = LOOP_STATE_RESET -> loop_reset_only (loop_info t) = false ->
  exists t1, loop_step dw now t = Some t1 /\ skel t1 = skel t /\ rt t1 = rt t /\ frame t1 = frame t /\
    next_loop_state (loop_info t1) = LOOP_STATE_ROOT_ELECT /\ forall d p x, ls t1 d p = Some x -> idle_status x = true.
Proof.
  intros W Hn Hro. unfold loop_step. rewrite Hn. unfold __mul_loop_detect_state_reset.
  set (t0 := upd_loop (set_root_dpid MUL_LLDP_INV_DPID) t).
  destruct (reset_phase t0) as (t1 & E & Q & Er & L); [apply (lw_unlocked _ W)|]. rewrite E, topo_bind.
  assert (loop_reset_only (loop_info t1) = false) as Hro1.
  { assert (frame t1 = frame t0) as Ef by (apply rest_frame, Q). unfold frame in Ef. cbn in Ef. congruence. }
  rewrite Hro1. eexists. split; [done|]. split_and!; [apply (q_skel _ _ Q)|done| |done|].
  - transitivity (frame t1); [done|]. transitivity (frame t0); [apply rest_frame, Q|done].
  - intros d p x. change (ls (upd_loop _ t1) d p) with (ls t1 d p). rewrite L. intros (y & _ & ->)%fmap_Some. done.
Qed.

Definition ref_up (s : lldp_switch) : lldp_switch := set_ref (sw_ref s + 1) s.

Lemma step_elect t : loop_wf t -> is_root t R -> next_loop_state (loop_info t) = LOOP_STATE_ROOT_ELECT ->
  (forall d p x, ls t d p = Some x -> idle_status x = true) ->
  exists t1, loop_step dw now t = Some t1 /\ skel t1 = alter ref_up R (skel t) /\ rt t1 = rt t /\ frame t1 = frame t /\
    next_loop_state (loop_info t1) = LOOP_STATE_ROOT_COST_CALC /\ root_sw (loop_info t1) = Some R /\ root_dpid (loop_info t1) = R /\
    forall d p x, ls t1 d p = Some x -> if bool_decide (d = R) then x = LOOP_PORT_STATUS_DP else idle_status x = true.
Proof.
  intros W HR Hn Hi. unfold loop_step. rewrite Hn. unfold __mul_loop_detect_root_select.
  set (t0 := upd_loop (set_root_sw None) t). destruct (elect_phase t0) as (r & E & He); [apply (lw_unlocked _ W)|apply (lw_keyed _ W)|].
  rewrite E, topo_bind. apply (elected_root t0 R) in He as ->; [|done]. cbv beta iota zeta.
  destruct HR as [(s & Hs & Hp & Hlt) _]. rewrite (proj2 (Z.eqb_neq _ _)) by lia.
  unfold __fetch_and_retain_switch. cbn [switches upd_loop set_loop t0]. rewrite Hs. cbv beta iota zeta.
  set (t1 := upd_loop (set_root_sw (Some R)) _).
  assert (switches t1 !! R = Some (ref_up s)) as Hs1 by (unfold t1; cbn; by rewrite lookup_alter_eq, Hs).
  destruct (mark_all now R LOOP_PORT_STATUS_DP t1 (ref_up s) Hs1) as (t2 & E2 & Q & Er & L);
    [apply (lw_unlocked _ W R s Hs)|done|]. rewrite E2, topo_bind.
  pose proof (q_rest _ _ Q) as Qr. eexists. split; [done|]. split_and!.
  - change (skel (upd_loop _ t2)) with (skel t2). rewrite (q_skel _ _ Q).
    change (skel t1) with (skel (upd_sw R ref_up t)). by apply skel_upd_sw.
  - done.
  - transitivity (frame t2); [done|]. rewrite (rest_frame _ _ Qr). done.
  - done.
  - change (root_sw (loop_info t2) = Some R). unfold rest in Qr. cbn in Qr. congruence.
  - change (root_dpid (loop_info t2) = R). unfold rest in Qr. cbn in Qr. congruence.
  - intros d p x. change (ls (upd_loop _ t2) d p) with (ls t2 d p). rewrite L.
    change (ls t1 d p) with (ls (upd_sw R ref_up t) d p). rewrite ls_upd_sw by done.
    case_bool_decide as E3; [subst d; rewrite bool_decide_true by done; by intros (y & _ & ->)%fmap_Some|].
    rewrite bool_decide_false by congruence. apply Hi.
Qed.

Lemma step_cost t : loop_wf t -> root_routes dw R rp t -> is_Some (switches t !! R) ->
  next_loop_state (loop_info t) = LOOP_STATE_ROOT_COST_CALC -> root_sw (loop_info t) = Some R ->
  (forall d p x, ls t d p = Some x -> if bool_decide (d = R) then x = LOOP_PORT_STATUS_DP else idle_status x = true) ->
  exists t1, loop_step dw now t = Some t1 /\ skel t1 = skel t /\ rt t1 = rt t /\ frame t1 = frame t /\
    next_loop_state (loop_info t1) = LOOP_STATE_DP_SELECT /\ root_sw (loop_info t1) = Some R /\ root_dpid (loop_info t1) = root_dpid (loop_info t) /\
    after_cost R rp t1.
Proof.
  intros W Hr [r0 HR] Hn Hroot Hi. unfold loop_step. rewrite Hn. unfold __mul_loop_detect_root_cost_calc. rewrite Hroot.
  destruct (cost_phase dw now R rp t r0) as (t1 & E & Q & Er & A); [apply W|done|done|done|]. rewrite E, topo_bind.
  pose proof (q_rest _ _ Q) as Qr. eexists. split; [done|]. split_and!; [apply Q|done| |done| | |done].
  - transitivity (frame t1); [done|]. by apply rest_frame.
  - change (root_sw (loop_info t1) = Some R). unfold rest in Qr. congruence.
  - change (root_dpid (loop_info t1) = root_dpid (loop_info t)). unfold rest in Qr. congruence.
Qed.

Lemma step_dp dist t : loop_wf t -> tree_routes dist t -> next_loop_state (loop_info t) = LOOP_STATE_DP_SELECT ->
  root_sw (loop_info t) = Some R -> after_cost R rp t ->
  exists t1, loop_step dw now t = Some t1 /\ skel t1 = skel t /\ frame t1 = frame t /\
    next_loop_state (loop_info t1) = LOOP_STATE_NONE_SELECT /\ root_sw (loop_info t1) = Some R /\ root_dpid (loop_info t1) = root_dpid (loop_info t) /\
    tree_states rp t1.
Proof.
  intros W T Hn Hroot Ha. unfold loop_step. rewrite Hn. unfold __mul_loop_detect_dp_select. rewrite Hroot.
  destruct (dp_phase now R rp n) with (t := t) as (t1 & E & Q & B & Ht).
  - unfold UINT64_MAX. pose proof (lw_size _ W). unfold MAX_SWITCHES_PER_CLUSTER in *. lia.
  - apply W.
  - apply W.
  - apply W.
  - apply W.
  - apply T.
  - apply T.
  - intros d p nd np Hl. apply (rp_one_end dist t T d p nd np (lw_sym _ W) Hl).
  - done.
  - rewrite E, !topo_bind. set (t2 := upd_loop _ t1). pose proof (q_rest _ _ Q) as Qr.
    assert (loop_wf t2) as W2 by (apply (loop_wf_same t t2); [apply Q|change (max_sw_alias t1 = max_sw_alias t); by apply rest_max|exact B|exact W]).
    destruct (recalc_total n now t2) as (b & Eb); [apply W2..|]. rewrite Eb. eexists. split; [done|].
    split_and!; [apply Q| |done| | |exact Ht].
    + transitivity (frame t1); [done|]. by apply rest_frame.
    + change (root_sw (loop_info t1) = Some R). unfold rest in Qr. congruence.
    + change (root_dpid (loop_info t1) = root_dpid (loop_info t)). unfold rest in Qr. congruence.
Qed.

Lemma tree_states_idles t t' : idles t t' -> tree_states rp t -> tree_states rp t'.
Proof.
  intros [Q _ L] Ht d p nd np x Hl Hx. rewrite (link_same t t') in Hl by apply Q.
  destruct (L d p) as [E|[(y & Hy & Iy) _]]; [rewrite E in Hx; by apply (Ht d p)|].
  specialize (Ht d p nd np y Hl Hy). repeat case_bool_decide; subst; try done. by destruct y.
Qed.

Lemma step_none t : unlocked t -> (exists s, switches t !! R = Some s /\ 2 <= sw_ref s) ->
  next_loop_state (loop_info t) = LOOP_STATE_NONE_SELECT -> root_sw (loop_info t) = Some R -> tree_states rp t ->
  exists t1, loop_step dw now t = Some t1 /\ skel t1 = alter (fun s => set_ref (sw_ref s - 1) s) R (skel t) /\
    max_sw_alias t1 = max_sw_alias t /\ switch_lock t1 = switch_lock t /\ tr t1 = tr t /\
    loop_blocked (loop_info t1) = true /\ next_loop_state (loop_info t1) = LOOP_STATE_RESET /\
    root_dpid (loop_info t1) = root_dpid (loop_info t) /\ tree_states rp t1.
Proof.
  intros U (s & Hs & Hr) Hn Hroot Ht. unfold loop_step. rewrite Hn. unfold __mul_loop_detect_none_select. rewrite Hroot.
  destruct (idle_phase (mul_per_switch_none_select now R) t U) as (t1 & E & I); [intros d t' s' H1 H2; exact (none_switch now R d t' s' H1 H2)|]. rewrite E, topo_bind.
  destruct (quiet_switch t t1 R s (id_quiet _ _ I) Hs) as (s1 & Hs1 & Es).
  assert (sw_ref s1 = sw_ref s) as Er by (change (sw_ref (erase_sw s1) = sw_ref (erase_sw s)); by rewrite Es).
  unfold lldp_switch_unref. rewrite Hs1, topo_bind, (proj2 (Z.eqb_neq _ _)), !topo_bind by lia.
  pose proof (q_rest _ _ (id_quiet _ _ I)) as Qr. eexists. split; [done|]. split_and!; try done.
  - change (skel (upd_sw R (fun s => set_ref (sw_ref s - 1) s) t1) = alter (fun s => set_ref (sw_ref s - 1) s) R (skel t)).
    rewrite <- (q_skel _ _ (id_quiet _ _ I)). by apply skel_upd_sw.
  - change (max_sw_alias t1 = max_sw_alias t). by apply rest_max.
  - change (switch_lock t1 = switch_lock t). unfold rest in Qr. congruence.
  - change (tr t1 = tr t). unfold rest in Qr. congruence.
  - change (root_dpid (loop_info t1) = root_dpid (loop_info t)). unfold rest in Qr. congruence.
  - assert (tree_states rp t1) as Ht1 by by apply (tree_states_idles t).
    intros d p nd np x. change (link (upd_loop _ _) d p) with (link (upd_sw R (fun s => set_ref (sw_ref s - 1) s) t1) d p).
    change (ls (upd_loop _ _) d p) with (ls (upd_sw R (fun s => set_ref (sw_ref s - 1) s) t1) d p).
    rewrite link_upd_sw, ls_upd_sw by done. apply Ht1.
Qed.

(** *** One more reference to the root *)

Section REF.
Context (t t' : topo_hdl) (Href : skel t' = alter ref_up R (skel t)).

Lemma ref_back d s' : skel t' !! d = Some s' -> exists s, skel t !! d = Some s /\ (s' = s \/ s' = ref_up s).
Proof.
  rewrite Href. destruct (decide (R = d)) as [<-|Ne]; [rewrite lookup_alter_eq|rewrite lookup_alter_ne by done].
  - intros (s & Hs & ->)%fmap_Some. exists s. split; [done|by right].
  - intros Hs. exists s'. split; [done|by left].
Qed.

Lemma ref_port d p : erase_port <$> get_port d p t' = erase_port <$> get_port d p t.
Proof.
  rewrite !skel_port, Href. destruct (decide (R = d)) as [<-|Ne]; [rewrite lookup_alter_eq|by rewrite lookup_alter_ne].
  by destruct (skel t !! R).
Qed.

Lemma ref_link d p : link t' d p = link t d p.
Proof.
  assert (forall u, link u d p = (erase_port <$> get_port d p u) ≫= link_of) as E by (intros u; unfold link; by destruct (get_port d p u)).
  by rewrite !E, ref_port.
Qed.

Lemma ref_loop_wf : rt t' = rt t -> max_sw_alias t' = max_sw_alias t -> loop_wf t -> loop_wf t'.
Proof.
  intros Er Em [[U K W S A X P Z] B]. split; [|by rewrite Er]. split; [| | | | |congruence|done|done].
  - apply unlocked_skel. intros d s' (s & Hs & [->| ->])%ref_back; by apply (proj1 (unlocked_skel t) U d s).
  - apply keyed_skel. intros d s' (s & Hs & [->| ->])%ref_back; by apply (proj1 (keyed_skel t) K d s).
  - intros d s' (s & Hs & [->| ->])%ref_back; [by apply (W d)|]. destruct (W d s Hs). cbn. split; [done|lia].
  - intros d p nd np. rewrite !ref_link. apply S.
  - apply alive_skel. intros d s' nd l q (s & Hs & [->| ->])%ref_back; by apply (proj1 (alive_skel t) A d s nd l q).
Qed.

Lemma ref_tree_routes dist : rt t' = rt t -> max_sw_alias t' = max_sw_alias t -> tree_routes dist t -> tree_routes dist t'.
Proof.
  intros Er Em [[HR Hm] Hrp Hroot Hnear Hself]. split; [|done| | |].
  - split.
    + apply eligible_skel in HR as (s & Hs & Hp & Hlt). apply eligible_skel. exists (ref_up s).
      rewrite Href, lookup_alter_eq, Hs. done.
    + intros d (s' & (s & Hs & Hc)%ref_back & Hp & Hlt)%eligible_skel. apply Hm, eligible_skel. exists s. split; [done|].
      by destruct Hc as [->| ->].
  - apply (root_routes_same R rp t t'); [| |done|done|done].
    + intros d s' Hs'. destruct (ref_back d (erase_sw s')) as (s & Hs & Hc); [by rewrite skel_lookup, Hs'|].
      rewrite skel_lookup in Hs. apply fmap_Some in Hs as (s0 & Hs0 & ->). exists s0. split; [done|].
      destruct Hc as [E|E]; apply (f_equal alias_id) in E; by cbn in E.
    + intros d p Hp. rewrite <- (fmap_is_Some erase_port), ref_port. by apply fmap_is_Some.
  - intros d p Hd. rewrite ref_link. by apply Hnear.
  - intros p nd np. rewrite ref_link. apply Hself.
Qed.
End REF.

Lemma tree_routes_same dist t t' : skel t' = skel t -> rt t' = rt t -> max_sw_alias t' = max_sw_alias t ->
  tree_routes dist t -> tree_routes dist t'.
Proof.
  intros Q Er Em [Hr Hrp Hroot Hnear Hself]. split; [by apply (is_root_same t)|done| | |].
  - apply (root_routes_same R rp t t'); [| |done|done|done].
    + intros d s Hs. assert (skel t !! d = Some (erase_sw s)) as E by (rewrite <- Q, skel_lookup, Hs; done).
      rewrite skel_lookup in E. apply fmap_Some in E as (s' & Hs' & E). exists s'. split; [done|].
      apply (f_equal alias_id) in E. by cbn in E.
    + intros d p. by apply is_port_same.
  - intros d p Hd. rewrite (link_same t t') by done. by apply Hnear.
  - intros p nd np. rewrite (link_same t t') by done. apply Hself.
Qed.

(** *** All steps together *)

Lemma run_tree dist t : loop_wf t -> tree_routes dist t -> next_loop_state (loop_info t) = LOOP_STATE_RESET ->
  loop_reset_only (loop_info t) = false -> loop_blocked (loop_info t) = false ->
  exists t', loop_run dw now 5 t = Some t' /\ skel t' = skel t /\ switch_lock t' = switch_lock t /\ max_sw_alias t' = max_sw_alias t /\
    tr t' = tr t /\ root_dpid (loop_info t') = R /\ tree_states rp t'.
Proof.
  intros W T Hn Hro Hb. cbn [loop_run]. rewrite Hb.
  destruct (step_reset t W Hn Hro) as (t1 & E1 & Q1 & R1 & F1 & N1 & I1). rewrite E1, topo_bind.
  assert (max_sw_alias t1 = max_sw_alias t /\ loop_blocked (loop_info t1) = false) as [M1 B1] by (unfold frame in F1; split; congruence).
  assert (loop_wf t1) as W1 by (apply (loop_wf_same t); [done|done|rewrite R1; apply W|done]).
  assert (tree_routes dist t1) as T1 by by apply (tree_routes_same dist t).
  rewrite B1. destruct (step_elect t1 W1 (tw_root _ _ T1) N1 I1) as (t2 & E2 & Q2 & R2 & F2 & N2 & Rt2 & D2 & L2). rewrite E2, topo_bind.
  assert (max_sw_alias t2 = max_sw_alias t1 /\ loop_blocked (loop_info t2) = false) as [M2 B2] by (unfold frame in F2; split; congruence).
  assert (loop_wf t2) as W2 by by apply (ref_loop_wf t1).
  assert (tree_routes dist t2) as T2 by by apply (ref_tree_routes t1).
  assert (exists s, switches t2 !! R = Some s /\ 2 <= sw_ref s) as (s2 & Hs2 & Hr2).
  { destruct (tw_root _ _ T1) as [(s & Hs & _) _]. destruct (sw_wf_get n t1 R s (lw_sw _ W1) Hs) as [_ Hr].
    assert (skel t2 !! R = Some (ref_up (erase_sw s))) as E by (rewrite Q2, lookup_alter_eq, skel_lookup, Hs; done).
    rewrite skel_lookup in E. apply fmap_Some in E as (s2 & Hs2 & E). exists s2. split; [done|].
    apply (f_equal sw_ref) in E. cbn in E. lia. }
  rewrite B2. destruct (step_cost t2 W2 (tw_routes _ _ T2)) as (t3 & E3 & Q3 & R3 & F3 & N3 & Rt3 & D3 & A3); [by exists s2|done|done|done|].
  rewrite E3, topo_bind.
  assert (max_sw_alias t3 = max_sw_alias t2 /\ loop_blocked (loop_info t3) = false) as [M3 B3] by (unfold frame in F3; split; congruence).
  assert (loop_wf t3) as W3 by (apply (loop_wf_same t2); [done|done|rewrite R3; apply W2|done]).
  assert (tree_routes dist t3) as T3 by by apply (tree_routes_same dist t2).
  rewrite B3. destruct (step_dp dist t3 W3 T3 N3 Rt3 A3) as (t4 & E4 & Q4 & F4 & N4 & Rt4 & D4 & Tr4). rewrite E4, topo_bind.
  assert (loop_blocked (loop_info t4) = false) as B4 by (unfold frame in F4; congruence).
  assert (unlocked t4) as U4 by (rewrite unlocked_skel, Q4; apply unlocked_skel, W3).
  assert (exists s, switches t4 !! R = Some s /\ 2 <= sw_ref s) as H4.
  { assert (skel t4 !! R = Some (erase_sw s2)) as E by (rewrite Q4, Q3, skel_lookup, Hs2; done).
    rewrite skel_lookup in E. apply fmap_Some in E as (s4 & Hs4 & E). exists s4. split; [done|].
    apply (f_equal sw_ref) in E. cbn in E. lia. }
  rewrite B4. destruct (step_none t4 U4 H4 N4 Rt4 Tr4) as (t5 & E5 & Q5 & M5 & K5 & X5 & B5 & N5 & D5 & Tr5). rewrite E5, topo_bind, B5.
  exists t5. split_and!; [done| | | | | |done].
  - rewrite Q5, Q4, Q3, Q2, Q1. apply map_eq. intros i. destruct (decide (R = i)) as [->|Ne]; [|by rewrite !lookup_alter_ne].
    rewrite !lookup_alter_eq. destruct (skel t !! i) as [s|]; [|done]. cbn. unfold ref_up, set_ref. cbn.
    replace (sw_ref s + 1 - 1) with (sw_ref s) by lia. by destruct s.
  - unfold frame in F1, F2, F3, F4. congruence.
  - unfold frame in F1, F2, F3, F4. congruence.
  - unfold frame in F1, F2, F3, F4. congruence.
  - congruence.
Qed.

(** A triggered run of loop detection. *)
Record triggered (t : topo_hdl) : Prop := {
  tg_trigger : loop_trigger (tr t) = true; tg_en : loop_en (tr t) = true;
  tg_next : next_loop_state (loop_info t) = LOOP_STATE_RESET; tg_only : loop_reset_only (loop_info t) = false;
  tg_lock : switch_lock t = LkFree }.

Lemma detect_tree dist t : loop_wf t -> tree_routes dist t -> triggered t ->
  exists t', mul_loop_detect dw now true t = Some t' /\ skel t' = skel t /\ switch_lock t' = LkFree /\
    root_dpid (loop_info t') = R /\ tree_states rp t'.
Proof.
  intros W T [G1 G2 G3 G4 G5]. unfold mul_loop_detect, c_wr_lock. rewrite G5, topo_bind.
  set (t0 := upd_loop (set_counts 0 0) (set_switch_lock LkWrite t)).
  destruct (idle_phase (mul_per_switch_none_select_lazy now) t0) as (t1 & E1 & [Q1 R1 _]);
    [apply W|intros d t' s' H1 H2; exact (lazy_switch now d t' s' H1 H2)|]. rewrite E1, topo_bind.
  pose proof (q_rest _ _ Q1) as Qr. assert (tr t1 = tr t) as Etr by (unfold rest in Qr; cbn in Qr; congruence).
  rewrite Etr, G1, G2. cbn [andb].
  set (t2 := set_loop_trigger false (upd_loop (set_blocked false) t1)).
  assert (max_sw_alias t1 = max_sw_alias t) as Em by (rewrite (rest_max _ _ Qr); done).
  assert (skel t2 = skel t) as Q2 by apply Q1.
  destruct (run_tree dist t2) as (t3 & E3 & Q3 & K3 & M3 & X3 & D3 & Tr3).
  - apply (loop_wf_same t); [done|exact Em|change (block_ok n (rt t1)); rewrite R1; apply W|done].
  - apply (tree_routes_same dist t); [done|exact R1|exact Em|done].
  - change (next_loop_state (loop_info t1) = LOOP_STATE_RESET). unfold rest in Qr. cbn in Qr. congruence.
  - change (loop_reset_only (loop_info t1) = false). unfold rest in Qr. cbn in Qr. congruence.
  - done.
  - rewrite E3, !topo_bind. cbv beta iota zeta. set (cs := mul_loop_convergence_state _ _). set (b := _ && _).
    assert (switch_lock t3 = LkWrite) as K by (rewrite K3; change (switch_lock t1 = LkWrite); unfold rest in Qr; cbn in Qr; congruence).
    unfold c_wr_unlock. exists (set_switch_lock LkFree (upd_loop (set_conv cs) (if b then send (LoopStatus cs) (upd_loop (set_reset_only false) t3)
      else upd_loop (set_reset_only false) t3))).
    destruct b; cbn [switch_lock upd_loop set_loop send]; rewrite K; (split; [done|]);
      (split_and!; [rewrite <- Q2; exact Q3|done|exact D3|exact Tr3]).
Qed.
End ROOT.
End RUN.
