(* ===== verification/LoopRoutes.v ===== *)
(** * Loop detection: the routes it uses

    The routes that [RouteApsp] computes over the links that [Topo] knows are what loop detection asks for: the first port
    of a route leads over a known link to a switch that is closer to the root. *)
From stdpp Require Import base list gmap.
From Stdlib Require Import ZArith Lia.
From S2P Require Import Prelude Walks RouteApsp RouteApspSpec RouteServlet RouteServletSpec Topo Loop TopoSpec LoopSpec LoopRun LoopPorts LoopTree LoopForest LoopThm.
Import Apsp Servlet Topo Loop.
#[local] Open Scope Z_scope.

(** The map of aliases, the ports and the lists of neighbours agree. *)
Record links_wf (t : topo_hdl) : Prop := {
  lk_imap : forall i d, aget (sw_imap t) i = Some (Some d) -> exists s, switches t !! d = Some s /\ alias_id s = i;
  lk_alias : forall d s, switches t !! d = Some s -> aget (sw_imap t) (alias_id s) = Some (Some d);
  lk_port : forall d p port, get_port d p t = Some port -> port_no port = p /\ 0 < p;
  lk_list : forall d s nd l q, switches t !! d = Some s -> neighbors s !! nd = Some l -> q ∈ l ->
    exists port, deref s q = Some port /\ link_of port = Some (nd, neighbor_port port) }.

(** The routing block was computed from the present links. *)
Definition fresh (n : nat) (t : topo_hdl) : Prop :=
  exists now st, rebuild_routes t false now st = Some (rt t) /\ (n * n <= length (adj_matrix st))%nat /\ (n * n <= length (paths st))%nat.

Section ROUTES.
Context `{HashOrder} (dw : Z -> Z) (n : nat) (t : topo_hdl).
Context (W : topo_base n t) (K : links_wf t) (F : fresh n t).

Notation conns a b := (__lldp_init_neigh_pair_adjacencies t false (Z.of_nat a) (Z.of_nat b)).

Lemma alias_inj d d' s s' : switches t !! d = Some s -> switches t !! d' = Some s' -> alias_id s = alias_id s' -> d = d'.
Proof using K. intros Hs Hs' E. apply (lk_alias _ K) in Hs, Hs'. rewrite E in Hs. congruence. Qed.

(** A reported connection is a link. *)
Lemma conn_link a b c : c ∈ conns a b ->
  exists d s s' , switches t !! d = Some s /\ alias_id s = Z.of_nat a /\ switches t !! dpid s' = Some s' /\ alias_id s' = Z.of_nat b /\
    exists np, link t d (la c.2) = Some (dpid s', np) /\ flags c.2 = NEIGH_FL_ONLINK /\ 0 < la c.2.
Proof using W K.
  unfold __lldp_init_neigh_pair_adjacencies, lldp_get_switch_from_imap. intros Hc.
  destruct (aget (sw_imap t) (Z.of_nat a)) as [[d|]|] eqn:Ea; [|by apply elem_of_nil in Hc..].
  destruct (aget (sw_imap t) (Z.of_nat b)) as [[d'|]|] eqn:Eb; [|by destruct (switches t !! d); apply elem_of_nil in Hc..].
  destruct (lk_imap _ K _ _ Ea) as (s & Hs & As). destruct (lk_imap _ K _ _ Eb) as (s' & Hs' & As').
  rewrite Hs, Hs' in Hc. destruct (neighbors s !! dpid s') as [l|] eqn:El; [|by apply elem_of_nil in Hc].
  apply list_elem_of_omap in Hc as (q & Hq & Ec). apply bind_Some in Ec as (port & Hd & [= <-]).
  destruct (lk_list _ K d s (dpid s') l q Hs El Hq) as (port' & Hd' & Hl). rewrite Hd in Hd'. injection Hd' as <-.
  rewrite (lw_keyed _ _ W d' s' Hs') in *.
  assert (get_port d q.1 t = Some port) as Hp.
  { unfold deref in Hd. apply bind_Some in Hd as (x & Hx & E). destruct (_ =? _) in E; [|done]. injection E as ->.
    unfold get_port. by rewrite Hs. }
  destruct (lk_port _ K _ _ _ Hp) as [Ep Hpos]. exists d, s, s'. rewrite (lw_keyed _ _ W d' s' Hs'). split_and!; [done..|].
  exists (neighbor_port port). cbn. rewrite Ep. split_and!; [|done|done]. unfold link. by rewrite Hp.
Qed.

(** The computed block: weights and links. *)
Lemma fresh_block : exists M st1 now, M = 10000 /\ apsp_ready n M st1 /\ mul_route_apsp_calc now st1 = Some (rt t, 0) /\
  fw_inv (Wv st1) n n (fun _ _ => False) (rt t) /\ block_ok n (rt t) /\
  forall a b, (a < n)%nat -> (b < n)%nat ->
    Pv (rt t) a b = set_pair_weight (Wv (rt t) a b) (Pv st1 a b) /\
    (conns a b = [] -> flags (Pv st1 a b) = 0) /\ (conns a b <> [] -> exists c, c ∈ conns a b /\ Pv st1 a b = c.2) /\
    (Wv st1 a b = NEIGH_NO_PATH <-> conns a b = []).
Proof using W F.
  destruct F as (now & st & Er & Ha & Hp). unfold rebuild_routes in Er.
  destruct (init_state_full t false n 10000 (mul_route_apsp_clean_state st)) as (s1 & E1 & Hr & Hadj & Hrep);
    [apply lldp_topo_ok; apply W|apply W|unfold NEIGH_NO_PATH, INT_MAX; lia|done|done|]. rewrite E1, topo_bind in Er.
  destruct (calc_inv n 10000 now s1 Hr) as (s2 & E2 & Hinv & _ & _ & HP);
    [pose proof (lw_size _ _ W); unfold MAX_SWITCHES_PER_CLUSTER, INT_MAX in *; lia|]. rewrite E2, topo_bind in Er.
  injection Er as <-. exists 10000, s1, now. split_and!; [done|done|done|done|apply Hinv|].
  intros a b Ha' Hb'. destruct (Hrep a b Ha' Hb') as [R1 R2]. split_and!; [by apply HP|done| |by apply Hadj].
  intros Hne. destruct (R2 Hne) as [_ (c & Hc & E)]. by exists c.
Qed.

(** A hop of a route goes over a link of finite positive weight. *)
Lemma hop_link e a m : (a < n)%nat -> hop_ok (rt t) e (Z.of_nat a) m ->
  exists m' : nat, m = Z.of_nat m' /\ (m' < n)%nat /\ a <> m' /\ weight (pe_link e) = Wv (rt t) a m' /\
    Wv (rt t) a m' <> NEIGH_NO_PATH /\ 0 < Wv (rt t) a m' /\
    exists c, c ∈ conns a m' /\ la (pe_link e) = la c.2.
Proof using W F.
  intros Ha (_ & Hne & Hm & Hp & Hon & _). destruct fresh_block as (M & st1 & now & -> & Hr & _ & Hinv & Hb & HP).
  rewrite (bo_nodes _ _ Hb) in Hm. exists (Z.to_nat m). rewrite Z2Nat.id by lia.
  assert (Z.to_nat m < n)%nat as Hm' by lia. destruct (HP a (Z.to_nat m) Ha Hm') as (E1 & E2 & E3 & E4).
  rewrite <- (Z2Nat.id m) in Hp, Hon by lia. rewrite (get_pair_some n (rt t) Hb a (Z.to_nat m) Ha Hm') in Hp. injection Hp as Hp.
  assert (conns a (Z.to_nat m) <> []) as Hc.
  { intros Hz. specialize (E2 Hz). unfold rt_apsp_onlink_neigh in Hon.
    rewrite (get_pair_some n (rt t) Hb a (Z.to_nat m) Ha Hm'), E1 in Hon. cbn in Hon. rewrite E2 in Hon. done. }
  destruct (E3 Hc) as (c & Hcin & Ec).
  assert (Wv (rt t) a (Z.to_nat m) <> NEIGH_NO_PATH) as Hw.
  { apply (fi_bound _ _ _ _ _ Hinv a (Z.to_nat m) Ha Hm' ltac:(lia) []); [constructor|constructor|]. cbn. by rewrite E4. }
  assert (0 < Wv (rt t) a (Z.to_nat m)) as Hpos.
  { apply (fw_pos (Wv st1) n 10000 (ar_weights _ _ _ Hr) _ _ _ a (Z.to_nat m) Hinv Ha Hm' Hw). }
  split_and!; [lia|done|lia| |done|done|].
  - rewrite <- Hp. done.
  - exists c. rewrite Z2Nat.id in Hcin by lia. split; [done|]. rewrite <- Hp, E1, Ec. done.
Qed.

(** The rest of a route is at least as long as the way. *)
Lemma route_dist r : forall x y : nat, (x < n)%nat -> (y < n)%nat -> route_ok (rt t) (Z.of_nat x) r (Z.of_nat y) ->
  x = y \/ (Wv (rt t) x y <> NEIGH_NO_PATH /\ Wv (rt t) x y <= route_weight r).
Proof using W F.
  destruct fresh_block as (M & st1 & now & -> & Hr & _ & Hinv & Hb & _).
  induction r as [|e r IH]; intros x y Hx Hy Hok; [left; cbn in Hok; lia|]. destruct Hok as (m & Hh & Hok).
  destruct (hop_link e x m Hx Hh) as (m' & -> & Hm & Hne & Hw & Hf & Hpos & _).
  destruct (decide (x = y)) as [|Hxy]; [by left|right]. change (route_weight (e :: r)) with (weight (pe_link e) + route_weight r).
  rewrite Hw. destruct (IH m' y Hm Hy Hok) as [->|[Hf' Hle]].
  - split; [done|]. assert (0 <= route_weight r); [|lia]. clear -Hok W F Hy. revert y Hy Hok.
    enough (forall x z : nat, (x < n)%nat -> route_ok (rt t) (Z.of_nat x) r (Z.of_nat z) -> 0 <= route_weight r) by eauto.
    induction r as [|e r IH]; intros x z Hx Hok; [cbn; lia|]. destruct Hok as (m & Hh & Hok).
    destruct (hop_link e x m Hx Hh) as (m' & -> & Hm & _ & Hw & _ & Hpos & _). specialize (IH m' z Hm Hok).
    change (route_weight (e :: r)) with (weight (pe_link e) + route_weight r). lia.
  - destruct (decide (m' = y)) as [->|Hmy].
    + destruct (IH y y Hy Hy Hok) as [_|[_ Hle']]; [|split; [done|]].
      * pose proof (fw_pos (Wv st1) n 10000 (ar_weights _ _ _ Hr) _ _ _ y y Hinv Hy Hy Hf'). split; [done|lia].
      * pose proof (fw_pos (Wv st1) n 10000 (ar_weights _ _ _ Hr) _ _ _ y y Hinv Hy Hy Hf'). lia.
    + destruct (fw_final_triangle (Wv st1) n (rt t) x y m') as [T1 T2]; [done..|by apply not_eq_sym|done|done|done|].
      split; [done|lia].
Qed.

(** ** The first port of a route *)

Lemma cost_first body last : match body with [] => False | e :: _ => 0 < la (pe_link e) end ->
  (mul_route_cost_calc (mul_route_prep_out (body ++ last)).1).2 =
  match body with [] => 0 | e :: _ => la (pe_link e) end.
Proof using.
  destruct body as [|e body]; [done|]. intros Hpos. unfold mul_route_prep_out.
  destruct (prep_from_spec ((e :: body) ++ last) None 0 0 e eq_refl) as (e' & He' & _ & _ & Hl & _).
  destruct (prep_from None ((e :: body) ++ last) 0) as [[|x r] ret]; [done|]. cbn in He'. injection He' as ->. cbn.
  rewrite Hl, (proj2 (Z.eqb_neq _ _)) by lia. done.
Qed.

(** How far a switch is from the root [R]. *)
Definition dist_of (R d : Z) : nat :=
  if d =? R then 0%nat
  else match switches t !! d, switches t !! R with
       | Some s, Some r => Z.to_nat (Wv (rt t) (Z.to_nat (alias_id s)) (Z.to_nat (alias_id r)))
       | _, _ => 0%nat
       end.

Lemma route_first R d s r0 : switches t !! d = Some s -> d <> R -> switches t !! R = Some r0 ->
  exists r, __tr_get_route dw (alias_id s) (alias_id r0) t = Some r /\
    (r = [] \/ r <> [] /\ exists nd np, link t d (mul_route_cost_calc r).2 = Some (nd, np) /\ (dist_of R nd < dist_of R d)%nat).
Proof using W K F.
  intros Hs Hd HR. unfold __tr_get_route. rewrite (lw_max _ _ W).
  destruct (sw_wf_get n t d s (lw_sw _ _ W) Hs) as [As _]. destruct (sw_wf_get n t R r0 (lw_sw _ _ W) HR) as [Ar _].
  destruct (_ || _); [exists []; by split; [|left]|].
  destruct fresh_block as (M & st1 & now & -> & Hr & Hcalc & Hinv & Hb & _).
  assert (alias_id s <> alias_id r0) as Hne by (intros E; apply Hd; by apply (alias_inj d R s r0)).
  destruct (get_sp_good dw n 10000 now st1 (rt t) [] (Z.to_nat (alias_id s)) (Z.to_nat (alias_id r0))) as (r & Er & Hcase);
    [done|pose proof (lw_size _ _ W); unfold MAX_SWITCHES_PER_CLUSTER, INT_MAX in *; lia|apply W|done|lia|lia|lia|].
  rewrite !Z2Nat.id in Er, Hcase by lia. exists r. split; [done|]. destruct Hcase as [->|(body & Hbn & Hok & Hw & ->)]; [by left|right].
  set (l := mk_pe _ _ _ _ _) in *. clearbody l. destruct body as [|e body]; [done|].
  split. { unfold mul_route_prep_out. intros E. apply (f_equal length) in E. rewrite prep_from_length in E. done. }
  destruct Hok as (m & Hh & Hok). rewrite <- (Z2Nat.id (alias_id s)) in Hh by lia.
  destruct (hop_link e (Z.to_nat (alias_id s)) m ltac:(lia) Hh) as (m' & -> & Hm & Hnm & Hwe & Hf & Hpos & c & Hc & Hla).
  destruct (conn_link _ _ _ Hc) as (d0 & s0 & s' & Hs0 & A0 & Hs' & A' & np & Hl & _ & Hp).
  assert (d0 = d) as -> by (apply (alias_inj d0 d s0 s); [done|done|lia]).
  rewrite (cost_first (e :: body) [l]) by (rewrite Hla; exact Hp). rewrite Hla. exists (dpid s'), np. split; [done|].
  unfold dist_of. rewrite (proj2 (Z.eqb_neq d R)), Hs, HR by done.
  rewrite <- (Z2Nat.id (alias_id s)), <- (Z2Nat.id (alias_id r0)) in Hw by lia.
  rewrite (get_weight_some n) in Hw by (done || lia). injection Hw as Hw.
  rewrite <- (Z2Nat.id (alias_id r0)) in Hok by lia.
  assert (0 < Wv (rt t) (Z.to_nat (alias_id s)) (Z.to_nat (alias_id r0))) as Hgt.
  { apply (fw_pos (Wv st1) n 10000 (ar_weights _ _ _ Hr) n (fun _ _ => False)); [done|lia|lia|].
    destruct (route_dist (e :: body) (Z.to_nat (alias_id s)) (Z.to_nat (alias_id r0))) as [?|[? _]]; [lia|lia| |lia|done].
    exists (Z.of_nat m'). done. }
  destruct (Z.eqb_spec (dpid s') R) as [_|Hn']; [lia|]. rewrite Hw.
  change (route_weight (e :: body)) with (weight (pe_link e) + route_weight body). rewrite Hwe.
  rewrite Hs', A', Nat2Z.id.
  destruct (route_dist body m' (Z.to_nat (alias_id r0)) Hm ltac:(lia) Hok) as [E|[Hf' Hle]]; [|lia].
  exfalso. apply Hn'. apply (alias_inj _ R s' r0); [done|done|lia].
Qed.

(** ** The routes are those of a tree *)

Definition rp_of (R d : Z) : option Z :=
  if d =? R then None
  else s ← switches t !! d; r0 ← switches t !! R; r ← __tr_get_route dw (alias_id s) (alias_id r0) t;
       if bool_decide (r = []) then None else Some (mul_route_cost_calc r).2.

Lemma fresh_tree R : is_root t R -> (forall p nd np, link t R p = Some (nd, np) -> nd <> R) ->
  tree_routes dw R (rp_of R) (dist_of R) t.
Proof using W K F.
  intros HR Hself. split; [done|unfold rp_of; by rewrite Z.eqb_refl| | |done].
  - intros d s r0 Hs Hd Hr0. destruct (route_first R d s r0 Hs Hd Hr0) as (r & E & Hr). exists r. split; [done|].
    unfold rp_of. rewrite (proj2 (Z.eqb_neq d R)), Hs, topo_bind, Hr0, topo_bind, E, topo_bind by done.
    destruct Hr as [->|(Hne & nd & np & Hl & _)]; [done|]. rewrite bool_decide_false by done. split_and!; [done|done|].
    unfold link in Hl. apply bind_Some in Hl as (port & Hp & _). by exists port.
  - intros d p. unfold rp_of. destruct (Z.eqb_spec d R) as [|Hd]; [done|]. intros E.
    apply bind_Some in E as (s & Hs & E). apply bind_Some in E as (r0 & Hr0 & E). apply bind_Some in E as (r & Hr & E).
    destruct (route_first R d s r0 Hs Hd Hr0) as (r' & E' & Hc). rewrite Hr in E'. injection E' as <-.
    case_bool_decide; [done|]. injection E as <-. destruct Hc as [|[_ Hc]]; [done|exact Hc].
Qed.
End ROUTES.
