(* ===== verification/LoopMain.v ===== *)
(** * Loop detection: what is left is a spanning forest

    Routing and loop detection together, on a topology whose links are known at both ends.  A frame that is flooded over
    the links that are not blocked never comes to a switch twice, and every switch with a route to the
    root still reaches it. *)
From stdpp Require Import base list gmap.
From Stdlib Require Import ZArith Lia.
From S2P Require Import Prelude RouteApsp RouteApspSpec Topo Loop TopoSpec LoopTree LoopForest LoopThm LoopRoutes.
Import Apsp Topo Loop.
#[local] Open Scope Z_scope.

(** ** Frames *)

(** A link that is not blocked at either end. *)
Definition active (t : topo_hdl) (d p nd np : Z) : Prop :=
  link t d p = Some (nd, np) /\
  exists x y, ls t d p = Some x /\ ls t nd np = Some y /\ blocked_status x = false /\ blocked_status y = false.

(** A flooded frame is at switch [d], where it came in through port [i], and was at the switches [l] before.  It leaves
    through another port. *)
Inductive flood (t : topo_hdl) : Z -> option Z -> list Z -> Prop :=
  | flood_start d : flood t d None []
  | flood_hop d i l p nd np : flood t d i l -> i <> Some p -> active t d p nd np -> flood t nd (Some np) (d :: l).

Section FOREST.
Context (t : topo_hdl) (rp : Z -> option Z) (dist : Z -> nat).
Context (Hsym : symmetric t) (Htree : tree_states rp t).
Context (Hnear : forall d p, rp d = Some p -> exists nd np, link t d p = Some (nd, np) /\ (dist nd < dist d)%nat).

(** The three kinds of links. *)
Lemma link_states d p nd np : link t d p = Some (nd, np) -> exists x y, ls t d p = Some x /\ ls t nd np = Some y /\
  ((rp d = Some p /\ x = LOOP_PORT_STATUS_RP /\ y = LOOP_PORT_STATUS_DP /\ (dist nd < dist d)%nat) \/
   (rp nd = Some np /\ x = LOOP_PORT_STATUS_DP /\ y = LOOP_PORT_STATUS_RP /\ (dist d < dist nd)%nat) \/
   (blocked_status x = true /\ blocked_status y = true)).
Proof using Hsym Htree Hnear.
  intros Hl. destruct (Hsym _ _ _ _ Hl) as [Hb _].
  assert (forall d p nd np, link t d p = Some (nd, np) -> is_Some (ls t d p)) as Hs.
  { intros a b a' b' Hab. unfold link in Hab. apply bind_Some in Hab as (port & Hp & _). unfold ls. rewrite Hp. by eexists. }
  assert (forall d p nd np, link t d p = Some (nd, np) -> rp d = Some p -> (dist nd < dist d)%nat) as Hd.
  { intros a b a' b' Hab Hr. destruct (Hnear a b Hr) as (y & z & Hyz & Hlt). rewrite Hab in Hyz. by simplify_eq. }
  destruct (Hs _ _ _ _ Hl) as [x Hx]. destruct (Hs _ _ _ _ Hb) as [y Hy]. exists x, y. split_and!; [done|done|].
  pose proof (Htree d p nd np x Hl Hx) as Tx. pose proof (Htree nd np d p y Hb Hy) as Ty.
  destruct (bool_decide_reflect (rp d = Some p)) as [E1|E1]; destruct (bool_decide_reflect (rp nd = Some np)) as [E2|E2].
  - pose proof (Hd _ _ _ _ Hl E1). pose proof (Hd _ _ _ _ Hb E2). lia.
  - left. split_and!; [done..|]. by apply (Hd d p nd np).
  - right. left. split_and!; [done..|]. by apply (Hd nd np d p).
  - right. right. done.
Qed.

(** A link that is not blocked leads up through a root port or down to one. *)
Lemma active_ends d p nd np : active t d p nd np ->
  (rp d = Some p /\ (dist nd < dist d)%nat) \/ (rp nd = Some np /\ (dist d < dist nd)%nat).
Proof using Hsym Htree Hnear.
  intros (Hl & x & y & Hx & Hy & Bx & _). destruct (link_states d p nd np Hl) as (x' & y' & Hx' & Hy' & Hc).
  simplify_eq. destruct Hc as [(? & ? & ? & ?)|[(? & ? & ? & ?)|[? ?]]]; [by left|by right|congruence].
Qed.

Lemma rp_active d p : rp d = Some p -> exists nd np, active t d p nd np /\ (dist nd < dist d)%nat.
Proof using Hsym Htree Hnear.
  intros Hr. destruct (Hnear d p Hr) as (nd & np & Hl & Hd). exists nd, np. split; [|done].
  destruct (link_states d p nd np Hl) as (x & y & Hx & Hy & Hc). split; [done|]. exists x, y. specialize (Htree d p nd np x Hl Hx).
  rewrite bool_decide_true in Htree by done. destruct Hc as [(? & ? & ? & ?)|[(? & ? & ? & ?)|[? ?]]]; subst; done.
Qed.

(** A frame that was not received on the root port has only gone up. *)
Lemma flood_up d i l : flood t d i l -> i = None \/ i <> rp d -> forall x, x ∈ l -> (dist d < dist x)%nat.
Proof using Hsym Htree Hnear.
  induction 1 as [|d i l p nd np Hf IH Hi Ha]; intros Hu x; [by intros ?%elem_of_nil|].
  destruct Hu as [|Hu]; [done|]. destruct (active_ends _ _ _ _ Ha) as [[Hr Hd]|[Hr _]]; [|congruence].
  intros [->|Hx]%elem_of_cons; [done|]. transitivity (dist d); [done|]. apply IH; [|done]. right. congruence.
Qed.

(** How a switch that was visited was left: down, or through its root port. *)
Lemma flood_left d i l : flood t d i l -> forall x, x ∈ l ->
  (dist x < dist d)%nat \/ exists p y q, rp x = Some p /\ link t x p = Some (y, q) /\ ((y = d /\ i = Some q) \/ y ∈ l).
Proof using Hsym Htree Hnear.
  induction 1 as [|d i l p nd np Hf IH Hi Ha]; intros x; [by intros ?%elem_of_nil|].
  pose proof (proj1 Ha) as Hl. intros [->|Hx]%elem_of_cons.
  - destruct (active_ends _ _ _ _ Ha) as [[Hr Hd]|[Hr Hd]]; [right|by left]. exists p, nd, np. split_and!; [done|done|]. by left.
  - destruct (IH x Hx) as [Hlt|(p' & y & q & H1 & H2 & H3)].
    + destruct (active_ends _ _ _ _ Ha) as [[Hr Hd]|[Hr Hd]]; [|left; lia].
      assert (dist d < dist x)%nat; [|lia]. apply (flood_up d i l Hf); [right; congruence|done].
    + right. exists p', y, q. split_and!; [done|done|]. right. apply elem_of_cons. destruct H3 as [[-> _]|H3]; [by left|by right].
Qed.

Lemma flood_once d i l : flood t d i l -> NoDup (d :: l).
Proof using Hsym Htree Hnear.
  induction 1 as [|d i l p nd np Hf IH Hi Ha]; [apply NoDup_singleton|]. apply NoDup_cons. split; [|done].
  assert (flood t nd (Some np) (d :: l)) as Hf' by by econstructor. apply NoDup_cons in IH as [Hdl _].
  destruct (active_ends _ _ _ _ Ha) as [[Hr Hd]|[Hr Hd]].
  - intros Hx. assert (dist nd < dist nd)%nat; [|lia]. apply (flood_up nd (Some np) (d :: l) Hf'); [|done].
    right. intros E. symmetry in E. destruct (Hnear nd np E) as (a & b & Hl & Hlt). destruct (Hsym _ _ _ _ (proj1 Ha)) as [Hb _].
    rewrite Hb in Hl. simplify_eq. lia.
  - intros [->|Hx]%elem_of_cons; [lia|]. destruct (Hsym _ _ _ _ (proj1 Ha)) as [Hb _].
    destruct (flood_left d i l Hf nd Hx) as [?|(p' & y & q & H1 & H2 & H3)]; [lia|].
    rewrite Hr in H1. injection H1 as <-. rewrite Hb in H2. injection H2 as <- <-. destruct H3 as [[_ ->]|?]; done.
Qed.

Lemma climb R : (forall d, is_Some (switches t !! d) -> d <> R -> is_Some (rp d)) ->
  forall d, is_Some (switches t !! d) -> rtc (fun a b => exists p np, active t a p b np) d R.
Proof using Hsym Htree Hnear.
  intros Hall. enough (forall k d, (dist d < k)%nat -> is_Some (switches t !! d) ->
    rtc (fun a b => exists p np, active t a p b np) d R) as Hk by eauto.
  induction k as [|k IH]; intros d Hd Hs; [lia|]. destruct (decide (d = R)) as [->|Ne]; [apply rtc_refl|].
  destruct (Hall d Hs Ne) as [p Hp]. destruct (rp_active d p Hp) as (nd & np & Ha & Hlt).
  apply rtc_l with nd; [by exists p, np|]. apply IH; [lia|]. destruct (Hsym _ _ _ _ (proj1 Ha)) as [Hb _].
  unfold link, get_port in Hb. destruct (switches t !! nd); [by eexists|done].
Qed.
End FOREST.

(** ** Runs *)

Section DETECT.
Context `{HashOrder} (dw : Z -> Z) (now : Z) (n : nat) (R : Z).

(** What routing and loop detection rely on: a consistent topology whose links are known at both ends, with the root [R], of which
    no two ports are joined by a cable. *)
Record topo_wf (t : topo_hdl) : Prop := {
  tp_wf : topo_base n t; tp_links : links_wf t; tp_root : is_root t R;
  tp_self : forall p nd np, link t R p = Some (nd, np) -> nd <> R }.

Lemma skel_switch t t' d s : skel t' = skel t -> switches t !! d = Some s ->
  exists s', switches t' !! d = Some s' /\ erase_sw s' = erase_sw s.
Proof.
  intros Q Hs. assert (skel t' !! d = Some (erase_sw s)) as E by (rewrite Q, skel_lookup, Hs; done).
  rewrite skel_lookup in E. apply fmap_Some in E as (s' & Hs' & E). by exists s'.
Qed.

Lemma skel_get_port t t' d p port : skel t' = skel t -> get_port d p t = Some port ->
  exists port', get_port d p t' = Some port' /\ erase_port port' = erase_port port.
Proof.
  intros Q Hp. assert (erase_port <$> get_port d p t' = Some (erase_port port)) as E.
  { rewrite skel_port, Q, <- skel_port, Hp. done. }
  apply fmap_Some in E as (port' & Hp' & E). by exists port'.
Qed.

Lemma deref_same s s' q port : erase_sw s' = erase_sw s -> deref s q = Some port ->
  exists port', deref s' q = Some port' /\ erase_port port' = erase_port port.
Proof.
  intros E. unfold deref. intros (x & Hx & Hu)%bind_Some.
  assert (ports (erase_sw s') !! q.1 = ports (erase_sw s) !! q.1) as Ep by by rewrite E.
  cbn in Ep. rewrite !lookup_fmap, Hx in Ep. cbn in Ep. apply fmap_Some in Ep as (x' & Hx' & Ex). rewrite Hx', topo_bind.
  assert (lp_uid x' = lp_uid x) as -> by (apply (f_equal lp_uid) in Ex; done).
  destruct (_ =? _); [|done]. injection Hu as <-. by exists x'.
Qed.

Lemma erase_link port port' : erase_port port' = erase_port port ->
  link_of port' = link_of port /\ neighbor_port port' = neighbor_port port /\ port_no port' = port_no port.
Proof.
  intros E. split_and!; [|by apply (f_equal neighbor_port) in E|by apply (f_equal port_no) in E].
  change (link_of (erase_port port') = link_of (erase_port port)). by rewrite E.
Qed.

Lemma links_wf_same t t' : skel t' = skel t -> sw_imap t' = sw_imap t -> links_wf t -> links_wf t'.
Proof.
  intros Q Ei [L1 L2 L3 L4]. split.
  - intros i d. rewrite Ei. intros Hi. destruct (L1 i d Hi) as (s & Hs & <-).
    destruct (skel_switch t t' d s Q Hs) as (s' & Hs' & E). exists s'. split; [done|]. by apply (f_equal alias_id) in E.
  - intros d s' Hs'. destruct (skel_switch t' t d s' (eq_sym Q) Hs') as (s & Hs & E). rewrite Ei.
    apply (f_equal alias_id) in E. cbn in E. rewrite <- E. by apply L2.
  - intros d p port' Hp. destruct (skel_get_port t' t d p port' (eq_sym Q) Hp) as (port & Hp0 & E).
    destruct (erase_link _ _ E) as (_ & _ & Eno). rewrite <- Eno. by apply (L3 d).
  - intros d s' nd l q Hs' Hl Hq. destruct (skel_switch t' t d s' (eq_sym Q) Hs') as (s & Hs & E).
    destruct (L4 d s nd l q Hs) as (port & Hd & Hlk); [|done|].
    { apply (f_equal neighbors) in E. cbn in E. by rewrite E. }
    destruct (deref_same s s' q port (eq_sym E) Hd) as (port' & Hd' & E'). exists port'. split; [done|].
    destruct (erase_link _ _ E') as (-> & -> & _). done.
Qed.

Lemma topo_wf_same t t' : skel t' = skel t -> sw_imap t' = sw_imap t -> max_sw_alias t' = max_sw_alias t -> topo_wf t -> topo_wf t'.
Proof.
  intros Q Ei Em [W L HR Hs]. split; [by apply (topo_base_same n t)|by apply (links_wf_same t)|by apply (is_root_same t)|].
  intros p nd np. rewrite (link_same t t') by done. apply Hs.
Qed.

(** The routing block has room for the switches. *)
Definition room (t : topo_hdl) : Prop := (n * n <= length (adj_matrix (rt t)))%nat /\ (n * n <= length (paths (rt t)))%nat.

(** The routes are computed anew, under the write lock. *)
Lemma invoke_fresh t : topo_wf t -> room t ->
  exists b, __tr_invoke_routing now t = Some (set_tr (mk_tr (rt_trigger (tr t)) true (rt_next_trigger_ts (tr t)) true
      (loop_en (tr t)) (rt_timeo_set (tr t))) (set_rt b t)) /\ block_ok n b /\ fresh n (set_rt b t).
Proof.
  intros [W L _ _] [R1 R2]. destruct (rebuild_total n t false now (rt t)) as (b & E & B); [apply W..|done|done|].
  exists b. unfold __tr_invoke_routing. rewrite (lw_alive _ _ W), E, topo_bind. split_and!; [done|done|].
  exists now, (rt t). by split_and!.
Qed.

(** What a run of loop detection with fresh routes leaves. *)
Record spanning (rp : Z -> option Z) (dist : Z -> nat) (t t' : topo_hdl) : Prop := {
  sp_skel : skel t' = skel t; sp_lock : switch_lock t' = LkFree; sp_root : root_dpid (loop_info t') = R;
  sp_sym : symmetric t'; sp_tree : tree_states rp t';
  sp_near : forall d p, rp d = Some p -> exists nd np, link t' d p = Some (nd, np) /\ (dist nd < dist d)%nat }.

Lemma detect_spanning t : topo_wf t -> fresh n t -> triggered t ->
  exists t', mul_loop_detect dw now true t = Some t' /\ spanning (rp_of dw t R) (dist_of t R) t t'.
Proof.
  intros [W L HR Hs] F G. pose proof (fresh_tree dw n t W L F R HR Hs) as T.
  destruct (fresh_block n t W F) as (_ & _ & _ & _ & _ & _ & _ & B & _). assert (loop_wf n t) as W' by by split.
  destruct (detect_tree dw now n R (rp_of dw t R) (dist_of t R) t W' T G) as (t' & E & Q & K & D & Tr).
  exists t'. split; [done|]. split; [done|done|done| |done|].
  - intros d p nd np. rewrite !(link_same t t') by done. apply (lw_sym _ _ W).
  - intros d p Hd. rewrite (link_same t t') by done. by apply (tw_near _ _ _ _ _ T).
Qed.

(** ** Properties *)

(** C12: what one run of loop detection does.  On a topology of which every link is known at both ends, with routes that were computed
    from it, [mul_loop_detect] completes, elects the switch of the least dpid that has ports, changes nothing but loop states
    and releases the lock.  Of every switch with a route to the root, the port that the route starts with becomes the
    root port and the other end of its link the designated port; both ends of every other link between switches are
    blocked. *)
Theorem loop_detect_links t : topo_wf t -> fresh n t -> triggered t ->
  exists t', mul_loop_detect dw now true t = Some t' /\ skel t' = skel t /\ switch_lock t' = LkFree /\ root_dpid (loop_info t') = R /\
    (forall d s r0 r, switches t !! d = Some s -> d <> R -> switches t !! R = Some r0 ->
       __tr_get_route dw (alias_id s) (alias_id r0) t = Some r -> r <> [] ->
       exists nd np, link t d (mul_route_cost_calc r).2 = Some (nd, np) /\
         ls t' d (mul_route_cost_calc r).2 = Some LOOP_PORT_STATUS_RP /\ ls t' nd np = Some LOOP_PORT_STATUS_DP) /\
    forall d p nd np, link t d p = Some (nd, np) ->
      (ls t' d p = Some LOOP_PORT_STATUS_RP /\ ls t' nd np = Some LOOP_PORT_STATUS_DP) \/
      (ls t' d p = Some LOOP_PORT_STATUS_DP /\ ls t' nd np = Some LOOP_PORT_STATUS_RP) \/
      (exists x y, ls t' d p = Some x /\ ls t' nd np = Some y /\ blocked_status x = true /\ blocked_status y = true).
Proof.
  intros T F G. destruct (detect_spanning t T F G) as (t' & E & [Q K D S Tr N]). exists t'. split_and!; [done..| |].
  - intros d s r0 r Hs Hd Hr0 Er Hr.
    assert (rp_of dw t R d = Some (mul_route_cost_calc r).2) as Hrp.
    { unfold rp_of. rewrite (proj2 (Z.eqb_neq d R)), Hs, topo_bind, Hr0, topo_bind, Er, topo_bind by done. by rewrite bool_decide_false. }
    destruct (N d _ Hrp) as (nd & np & Hl & _). exists nd, np. rewrite (link_same t t') in Hl by done. split; [done|].
    destruct (link_states t' (rp_of dw t R) (dist_of t R) S Tr N d (mul_route_cost_calc r).2 nd np) as (x & y & Hx & Hy & Hc); [by rewrite (link_same t t')|].
    rewrite Hx, Hy. specialize (Tr d (mul_route_cost_calc r).2 nd np x). rewrite (link_same t t'), bool_decide_true in Tr by done. specialize (Tr Hl Hx). subst x.
    destruct Hc as [(? & ? & ? & ?)|[(? & ? & ? & ?)|[? ?]]]; by subst.
  - intros d p nd np Hl. destruct (link_states t' (rp_of dw t R) (dist_of t R) S Tr N d p nd np) as (x & y & Hx & Hy & Hc); [by rewrite (link_same t t')|].
    rewrite Hx, Hy. destruct Hc as [(? & -> & -> & ?)|[(? & -> & -> & ?)|[? ?]]]; [by left|by right; left|]. right. right. by exists x, y.
Qed.

(** C15: loop detection keeps the network together.  When every switch but the root has a route to it, every switch still
    reaches the root over links that are blocked at neither end after [mul_loop_detect]. *)
Theorem loop_detect_connected t : topo_wf t -> fresh n t -> triggered t ->
  (forall d s r0, switches t !! d = Some s -> d <> R -> switches t !! R = Some r0 ->
     __tr_get_route dw (alias_id s) (alias_id r0) t <> Some []) ->
  exists t', mul_loop_detect dw now true t = Some t' /\
    forall d, is_Some (switches t !! d) -> rtc (fun a b => exists p np, active t' a p b np) d R.
Proof.
  intros T F G Hall. destruct (detect_spanning t T F G) as (t' & E & [Q K D S Tr N]). exists t'. split; [done|].
  assert (forall d, is_Some (switches t' !! d) <-> is_Some (switches t !! d)) as Hsw.
  { intros d. rewrite <- (fmap_is_Some erase_sw (switches t' !! d)), <- (fmap_is_Some erase_sw (switches t !! d)), <- !skel_lookup. by rewrite Q. }
  intros d Hd. apply (climb t' (rp_of dw t R) (dist_of t R) S Tr N R); [|by apply Hsw]. intros x Hx Ne. apply Hsw in Hx as [s Hs].
  destruct (tp_root _ T) as [(r0 & Hr0 & _) _].
  destruct (fresh_tree dw n t (tp_wf _ T) (tp_links _ T) F R (tp_root _ T) (tp_self _ T)) as [_ _ Hr _ _].
  destruct (Hr x s r0 Hs Ne Hr0) as (r & Er & Hm). specialize (Hall x s r0 Hs Ne Hr0). destruct (rp_of dw t R x); [by eexists|]. subst. done.
Qed.
End DETECT.
