(* ===== verification/LldpSpec.v ===== *)
(** * Link discovery: probes, links and the timer *)
From stdpp Require Import base list gmap.
From Stdlib Require Import ZArith Lia.
From S2P Require Import Prelude Bytes RouteApsp RouteApspSpec Topo Loop Lldp TopoSpec LoopSpec LoopRun LoopTree LoopForest LoopThm LoopRoutes LoopMain.
Import Apsp Topo Loop Bytes Lldp.
#[local] Open Scope Z_scope.

(** ** Probes *)

Lemma ntohll_htonll v : 0 <= v < 2 ^ 64 -> ntohll (htonll v) = v.
Proof. apply (bswap_involutive 8). Qed.

Lemma rd_le_probe hw id port extra : length hw = 6%nat ->
  let pkt := lldp_create_packet hw id port ++ extra in
  rd_le pkt 12 2 = Some (htons ETH_LLDP) /\ rd_le pkt 17 8 = Some (htonll id) /\ rd_le pkt 28 2 = Some (htons port) /\
  rd_le pkt 32 2 = Some (htons LLDP_DEFAULT_TTL) /\
  tlv_type pkt 14 = Some LLDP_CHASSIS_ID_TLV /\ rd_le pkt 16 1 = Some LLDP_CHASSIS_ID_LOCALLY_ASSIGNED /\
  tlv_type pkt 25 = Some LLDP_PORT_ID_TLV /\ rd_le pkt 27 1 = Some LLDP_PORT_ID_LOCALLY_ASSIGNED /\
  tlv_type pkt 30 = Some LLDP_TTL_TLV /\ tlv_type pkt 34 = Some LLDP_END_OF_LLDPDU_TLV.
Proof.
  intros Hl. do 6 (destruct hw as [|? hw]; [done|]). destruct hw; [|done]. clear Hl. cbv zeta. split_and!; try reflexivity.
  - change (Some (le_val (le_bytes 8 (htonll id))) = Some (htonll id)). by rewrite le_val_le_bytes by apply bswap_range.
  - change (Some (le_val (le_bytes 2 (htons port))) = Some (htons port)). by rewrite le_val_le_bytes by apply bswap_range.
Qed.

(** ** The timer *)

(** No link is about to expire. *)
Definition calm (now : Z) (t : topo_hdl) : Prop := forall d p port, get_port d p t = Some port ->
  status port = LLDP_PORT_STATUS_NEIGHBOR -> now < ttl port.

Lemma calm_quiet now t t' : quiet t t' -> calm now t -> calm now t'.
Proof.
  intros [Q _] C d p port' Hp. destruct (skel_get_port t' t d p port' (eq_sym Q) Hp) as (port & Hp0 & E).
  pose proof (f_equal status E) as Es. pose proof (f_equal ttl E) as Et. cbn in Es, Et. rewrite <- Es, <- Et. by apply (C d p).
Qed.

Section TIMER.
Context `{HashOrder} (now : Z).

Lemma port_timer_calm d p t port : calm now t -> get_port d p t = Some port ->
  exists t', __lldp_per_port_timer now d p t = Some t' /\ quiet t t' /\ rt t' = rt t.
Proof.
  intros C Hp. unfold __lldp_per_port_timer. rewrite Hp, topo_bind.
  replace (bool_decide (status port = LLDP_PORT_STATUS_NEIGHBOR) && (ttl port <=? now)) with false.
  2:{ case_bool_decide as E; [|done]. specialize (C d p port Hp E). cbn. symmetry. apply Z.leb_gt. lia. }
  case_match; [|by exists t]. unfold lldp_tx.
  set (t1 := upd_port d p (set_probe (now + LLDP_PROBE_PORT_INTERVAL)) t).
  assert (quiet t t1) as Q by (split; [by apply skel_upd_port|done]).
  assert (get_port d p t1 = Some (set_probe (now + LLDP_PROBE_PORT_INTERVAL) port)) as Hp1.
  { unfold t1. rewrite get_port_upd, bool_decide_true, Hp by done. done. }
  assert (exists s, switches t1 !! d = Some s) as [s Hs].
  { unfold get_port in Hp1. destruct (switches t1 !! d); [by eexists|done]. }
  rewrite Hs, topo_bind, Hp1, topo_bind. eexists. split; [done|]. split; [|done]. etransitivity; [exact Q|]. by split.
Qed.

Lemma switch_timer_calm d t s : calm now t -> switches t !! d = Some s -> sw_lock s = false ->
  exists t', lldp_per_switch_timer now d t = Some t' /\ quiet t t' /\ rt t' = rt t.
Proof.
  intros C Hs Hl. assert (calm now (upd_sw d (set_lock true) t)) as C0.
  { intros d' p port. rewrite get_port_upd_sw by done. apply C. }
  destruct (locked_traverse (fun _ t' => rt t' = rt t) (__lldp_per_port_timer now d) d t s Hs Hl) as (t' & E & Q & Er);
    [done| |by eexists; split_and!].
  intros done p t' _ [x Hx] Q Er.
  assert (exists port, get_port d p t' = Some port) as [port Hp].
  { apply (is_port_same (upd_sw d (set_lock true) t) t'); [apply Q|]. rewrite get_port_upd_sw by done. unfold get_port. rewrite Hs. by exists x. }
  destruct (port_timer_calm d p t' port) as (t'' & E & Q' & Er'); [by apply (calm_quiet now (upd_sw d (set_lock true) t))|done|].
  exists t''. split_and!; [done|done|congruence].
Qed.

Lemma timers_calm t : calm now t -> unlocked t ->
  exists t', __lldp_switch_traverse_all (lldp_per_switch_timer now) t = Some t' /\ quiet t t' /\ rt t' = rt t.
Proof.
  intros C U. apply (quiet_traverse (fun _ t' => rt t' = rt t) (lldp_per_switch_timer now) t U); [done|].
  intros done d t' s _ Q Hs Hl Er. destruct (switch_timer_calm d t' s) as (t'' & E & Q' & Er'); [by apply (calm_quiet now t)|done|done|].
  exists t''. split_and!; [done|done|congruence].
Qed.
End TIMER.

Section TICK.
Context `{HashOrder} (dw : Z -> Z) (now : Z) (n : nat) (R : Z).

(** The timer is going to compute the routes and to run loop detection. *)
Record due (t : topo_hdl) : Prop := {
  du_route : rt_trigger (tr t) || (rt_next_trigger_ts (tr t) <=? now) = true; du_en : loop_en (tr t) = true;
  du_next : next_loop_state (loop_info t) = LOOP_STATE_RESET; du_only : loop_reset_only (loop_info t) = false;
  du_lock : switch_lock t = LkFree }.

Lemma timer_spanning t : topo_wf n R t -> room n t -> calm now t -> due t ->
  exists t' rp dist, lldp_update_timer dw now t = Some t' /\ spanning R rp dist t t'.
Proof.
  intros T M C [D1 D2 D3 D4 D5]. unfold lldp_update_timer, c_rd_lock. rewrite D5, topo_bind.
  set (t0 := set_switch_lock (LkRead 1) t).
  destruct (timers_calm now t0) as (t1 & E1 & [Q1 Qr] & R1); [exact C|exact (lw_unlocked _ _ (tp_wf _ _ _ T))|].
  rewrite E1, topo_bind. unfold rest in Qr. injection Qr as Ei Em El Et Eo Eu L1 L2 L3 L4 L5. cbn in Ei, Em, El, Et, Eo, Eu, L1, L2, L3, L4, L5.
  unfold c_rd_unlock. rewrite El, topo_bind. cbn [tr set_switch_lock]. rewrite Et, D1.
  unfold c_wr_lock. cbn [switch_lock set_tr set_switch_lock]. rewrite topo_bind.
  set (t2 := set_switch_lock LkWrite _).
  assert (topo_wf n R t2) as T2.
  { apply (topo_wf_same n R t t2); [exact Q1|exact Ei|exact Em|done]. }
  assert (room n t2) as M2 by (unfold room; change (rt t2) with (rt t1); rewrite R1; exact M).
  destruct (invoke_fresh now n R t2 T2 M2) as (b & Eb & B & F). rewrite Eb, topo_bind. unfold c_wr_unlock.
  change (switch_lock _) with LkWrite at 1. cbv iota. rewrite !topo_bind. cbv beta iota zeta.
  set (t3 := set_tr _ (set_switch_lock LkFree _)).
  destruct (detect_spanning dw now n R t3) as (t4 & E4 & [P1 P2 P3 P4 P5 P6]).
  - apply (topo_wf_same n R t2 t3); [done|done|done|done].
  - exact F.
  - split; [done|exact D2| | |done].
    + change (next_loop_state (loop_info t1) = LOOP_STATE_RESET). congruence.
    + change (loop_reset_only (loop_info t1) = false). congruence.
  - rewrite E4, topo_bind. eexists _, (rp_of dw t3 R), (dist_of t3 R). split; [done|].
    split; [|exact P2|exact P3|exact P4|exact P5|exact P6]. transitivity (skel t3); [exact P1|]. exact Q1.
Qed.

(** ** Properties *)

(** C9: no frame circulates.  On a topology of which every link is known at both ends and no link is about to expire, a tick of the
    timer [lldp_update_timer] that is due to compute the routes completes, and after it a frame that is flooded over the
    links that are blocked at neither end, and never sent back where it came from, visits no switch twice. *)
Theorem update_timer_loop_free t : topo_wf n R t -> room n t -> calm now t -> due t ->
  exists t', lldp_update_timer dw now t = Some t' /\ root_dpid (loop_info t') = R /\ skel t' = skel t /\
    forall d i l, flood t' d i l -> NoDup (d :: l).
Proof.
  intros T M C D. destruct (timer_spanning t T M C D) as (t' & rp & dist & E & [P1 P2 P3 P4 P5 P6]).
  exists t'. split_and!; [done..|]. intros d i l. by apply (flood_once t' rp dist).
Qed.
End TICK.

(** ** Links from probes *)

Lemma upd_sw_comp d f g t : upd_sw d f (upd_sw d g t) = upd_sw d (fun s => f (g s)) t.
Proof.
  unfold upd_sw, set_switches. cbn. f_equal. apply map_eq. intros i. destruct (decide (d = i)) as [->|Ne].
  - rewrite !lookup_alter_eq. by destruct (switches t !! i).
  - by rewrite !lookup_alter_ne.
Qed.

Lemma upd_sw_ext d f g t s : switches t !! d = Some s -> f s = g s -> upd_sw d f t = upd_sw d g t.
Proof. intros Hs E. unfold upd_sw. f_equal. apply alter_ext. intros x Hx. rewrite Hs in Hx. by injection Hx as <-. Qed.

Lemma lookup_upd_sw d f t s : switches t !! d = Some s -> switches (upd_sw d f t) !! d = Some (f s).
Proof. intros Hs. unfold upd_sw. cbn. by rewrite lookup_alter_eq, Hs. Qed.

Lemma set_lock_id t : switch_lock t = LkFree -> set_switch_lock LkFree t = t.
Proof. destruct t. cbn. by intros ->. Qed.

(** A switch is fetched, locked, changed by [f], unlocked and released. *)
Lemma fetched_change d t s f : switches t !! d = Some s -> sw_lock s = false -> 1 <= sw_ref s -> switch_lock t = LkFree ->
  (forall b r x, f (set_lock b (set_ref r x)) = set_lock b (set_ref r (f x))) ->
  fetch_and_retain_switch d t = Some (true, upd_sw d ref_up t) /\
  sw_take d (upd_sw d ref_up t) = Some (upd_sw d (set_lock true) (upd_sw d ref_up t)) /\
  (t ← sw_drop d (upd_sw d f (upd_sw d (set_lock true) (upd_sw d ref_up t))); lldp_switch_unref d t) = Some (upd_sw d f t).
Proof.
  intros Hs Hl Hr Hlk Hf. pose proof (lookup_upd_sw d ref_up t s Hs) as H1. split_and!.
  - unfold fetch_and_retain_switch, c_rd_lock. rewrite Hlk, topo_bind. unfold __fetch_and_retain_switch. cbn [switches set_switch_lock].
    rewrite Hs. unfold c_rd_unlock. cbn [switch_lock upd_sw set_switches set_switch_lock]. rewrite topo_bind.
    do 2 f_equal. destruct t. cbn in *. by subst.
  - unfold sw_take. rewrite H1, topo_bind. cbn. by rewrite Hl.
  - rewrite !upd_sw_comp. set (g := fun s => f (set_lock true (ref_up s))).
    pose proof (lookup_upd_sw d g t s Hs) as H2. unfold sw_drop. rewrite H2, topo_bind.
    assert (g s = set_lock true (set_ref (sw_ref s + 1) (f s))) as Eg by apply Hf. rewrite Eg. cbn [sw_lock set_lock].
    rewrite topo_bind, upd_sw_comp. unfold lldp_switch_unref. rewrite (lookup_upd_sw d _ t s Hs), topo_bind, Eg. cbn [sw_ref set_lock set_ref].
    rewrite (proj2 (Z.eqb_neq _ _)) by lia. f_equal. rewrite upd_sw_comp. apply (upd_sw_ext d _ _ t s Hs). rewrite Eg. cbn.
    replace (sw_ref s + 1 - 1) with (sw_ref s) by lia.
    transitivity (f (set_lock false (set_ref (sw_ref s) s))); [by rewrite Hf|]. destruct s. cbn in *. by subst.
Qed.

Definition learn_sw (p id port until : Z) (x : lldp_port) (s : lldp_switch) : lldp_switch :=
  set_neighbors (<[id := default [] (neighbors s !! id) ++ [(p, lp_uid x)]]> (neighbors s))
    (set_ports (alter (set_neigh LLDP_PORT_STATUS_NEIGHBOR port id until) p (ports s)) s).
Definition learn (d p id port until : Z) (x : lldp_port) (t : topo_hdl) : topo_hdl := upd_sw d (learn_sw p id port until x) t.

Lemma learn_port d p id port until x t d' p' : get_port d' p' (learn d p id port until x t) =
  if bool_decide (d = d' /\ p = p') then set_neigh LLDP_PORT_STATUS_NEIGHBOR port id until <$> get_port d p t else get_port d' p' t.
Proof.
  rewrite <- (get_port_upd t d p (set_neigh LLDP_PORT_STATUS_NEIGHBOR port id until) d' p').
  unfold learn, upd_port, get_port, upd_sw. cbn. destruct (decide (d = d')) as [->|Ne]; [|by rewrite !lookup_alter_ne].
  rewrite !lookup_alter_eq. by destruct (switches t !! d').
Qed.

Lemma connect_spec now d p id port until t s x :
  switches t !! d = Some s -> sw_lock s = false -> 1 <= sw_ref s -> ports s !! p = Some x -> switch_lock t = LkFree ->
  rt_init_trigger (tr t) = false ->
  connect_lldp_switch_neigh_pair now d p id port until t =
  Some (0, if bool_decide (link t d p = Some (id, port)) then upd_port d p (set_ttl until) t else learn d p id port until x t).
Proof.
  intros Hs Hl Href Hx Hlk Htr. assert (get_port d p t = Some x) as Hgp by (unfold get_port; rewrite Hs; done).
  set (known := bool_decide (link t d p = Some (id, port))).
  set (F := if known then (fun s => set_ports (alter (set_ttl until) p (ports s)) s) else learn_sw p id port until x).
  destruct (fetched_change d t s F Hs Hl Href Hlk) as (E1 & E2 & E3); [by intros; unfold F; destruct known|].
  unfold connect_lldp_switch_neigh_pair. rewrite E1, topo_bind, E2, topo_bind.
  set (t2 := upd_sw d (set_lock true) (upd_sw d ref_up t)) in *.
  assert (get_port d p t2 = Some x) as Hg2 by (unfold t2; by rewrite !get_port_upd_sw).
  unfold __lldp_port_find. rewrite Hg2.
  assert (lldp_port_connect_to_neigh now d p id port until t2 = Some (upd_sw d F t2)) as ->.
  { unfold lldp_port_connect_to_neigh. rewrite Hg2, topo_bind.
    replace (bool_decide (status x = LLDP_PORT_STATUS_NEIGHBOR) && (neighbor_dpid x =? id) && (neighbor_port x =? port)) with known.
    - unfold F. destruct known; [done|]. unfold tr_invoke_routing. change (rt_init_trigger _) with (rt_init_trigger (tr t)). rewrite Htr.
      cbn [negb]. f_equal. unfold upd_port. by rewrite upd_sw_comp.
    - unfold known, link. rewrite Hgp, topo_bind. unfold link_of. case_bool_decide as E; case_bool_decide as E'; cbn [andb]; try done.
      + injection E as -> ->. by rewrite !Z.eqb_refl.
      + destruct (Z.eqb_spec (neighbor_dpid x) id); destruct (Z.eqb_spec (neighbor_port x) port); cbn; congruence. }
  rewrite !topo_bind. cbv beta iota. apply bind_Some in E3 as (t3 & E3 & E4). rewrite E3, topo_bind, E4, topo_bind.
  unfold F, learn. by destruct known.
Qed.

