(* ===== verification/LoopEx.v ===== *)
(** * Loop detection and discovery: examples

    Three switches in a triangle, built by the events of the service: the switches and their ports are added and every
    port receives the probe of the port at the other end of its cable. *)
From stdpp Require Import base list gmap.
From Stdlib Require Import ZArith Lia.
From S2P Require Import Prelude Bytes RouteApsp RouteApspSpec RouteServlet Topo Loop Lldp TopoSpec LoopSpec LoopRun LoopTree LoopForest LoopThm LoopRoutes LoopMain LldpSpec.
Import Apsp Topo Loop Bytes Lldp.
#[local] Open Scope Z_scope.

Module LoopEx.

#[global] Instance sorted_order : HashOrder := {| order := elements; order_perm := fun X => reflexivity (elements X) |}.

Definition mac : list Z := [2; 0; 0; 0; 0; 1].
Definition blank_block : rt_apsp_t := blank 9.

Definition add_port (d p : Z) (t : topo_hdl) : option topo_hdl := lldp_port_add_with_dpid 100 d (mk_mport p 0 0 mac) t.
Definition probe (d p nd np : Z) (t : topo_hdl) : option topo_hdl := lldp_packet_in_cb 100 d p (lldp_create_packet mac nd np) t.
Definition cable (d p nd np : Z) (t : topo_hdl) : option topo_hdl := t ← probe d p nd np t; probe nd np d p t.

Definition wired : option topo_hdl :=
  t ← lldp_switch_add 1 0 (lldp_init blank_block 100); t ← lldp_switch_add 2 1 t; t ← lldp_switch_add 3 2 t;
  t ← add_port 1 1 t; t ← add_port 1 2 t; t ← add_port 2 1 t; t ← add_port 2 2 t; t ← add_port 3 1 t; t ← add_port 3 2 t;
  t ← cable 1 1 2 1 t; t ← cable 2 2 3 1 t; t ← cable 3 2 1 2 t;
  lldp_service_set_loop_detect (fun z => z + 1) 100 true t.
Definition tri : topo_hdl := default (lldp_init blank_block 100) wired.

(** The same after the routes were computed. *)
Definition tri_routed : topo_hdl := default tri (__tr_invoke_routing 104 tri).

(** ** The triangle is well formed *)

Lemma ports_all (P : Z -> Z -> lldp_port -> Prop) `{forall d p x, Decision (P d p x)} t :
  bool_decide (map_Forall (fun d s => map_Forall (P d) (ports s)) (switches t)) = true ->
  forall d p x, get_port d p t = Some x -> P d p x.
Proof.
  intros Hb d p x (s & Hs & Hx)%bind_Some. apply bool_decide_eq_true in Hb. exact (Hb d s Hs p x Hx).
Qed.

Lemma switches_all (P : Z -> lldp_switch -> Prop) `{forall d s, Decision (P d s)} t :
  bool_decide (map_Forall P (switches t)) = true -> forall d s, switches t !! d = Some s -> P d s.
Proof. intros Hb d s Hs. apply bool_decide_eq_true in Hb. exact (Hb d s Hs). Qed.

Definition links_ok (t : topo_hdl) (d p : Z) (x : lldp_port) : Prop :=
  match link_of x with
  | Some (nd, np) => link t nd np = Some (d, p) /\ ~ (d = nd /\ p = np) /\ (d = 1 -> nd <> 1)
  | None => True
  end.
#[local] Instance links_ok_dec t d p x : Decision (links_ok t d p x).
Proof. unfold links_ok. destruct (link_of x) as [[??]|]; apply _. Defined.

Definition lists_ok (s : lldp_switch) : Prop :=
  map_Forall (fun nd l => Forall (fun q => (x ← deref s q; l ← link_of x; Some (bool_decide (l.1 = nd))) = Some true) l) (neighbors s).
#[local] Instance lists_ok_dec s : Decision (lists_ok s) := _.

Definition imap_ok (t : topo_hdl) : Prop := Forall (fun i : nat =>
  match sw_imap t !! i with
  | Some (Some d) => (alias_id <$> switches t !! d) = Some (Z.of_nat i)
  | _ => True
  end) (seq 0 (length (sw_imap t))).
#[local] Instance imap_ok_dec t : Decision (imap_ok t).
Proof. unfold imap_ok. apply @Forall_dec. intros i. destruct (sw_imap t !! i) as [[?|]|]; apply _. Defined.

Definition wf_check (n : nat) (t : topo_hdl) : bool :=
  bool_decide (map_Forall (fun d s => sw_lock s = false /\ dpid s = d /\ (0 <= alias_id s < Z.of_nat n /\ 1 <= sw_ref s) /\
    aget (sw_imap t) (alias_id s) = Some (Some d) /\ 1 <= d /\ lists_ok s) (switches t)) &&
  bool_decide (map_Forall (fun d s => map_Forall (links_ok t d) (ports s)) (switches t)) &&
  bool_decide (map_Forall (fun d s => map_Forall (fun p x => port_no x = p /\ 0 < p) (ports s)) (switches t)) &&
  lists_alive t && bool_decide (imap_ok t) && bool_decide (max_sw_alias t = Z.of_nat n - 1) &&
  match switches t !! 1 with Some s => negb (bool_decide (ports s = ∅)) | None => false end.

Lemma wf_check_sound n t : (0 < n)%nat -> Z.of_nat n <= MAX_SWITCHES_PER_CLUSTER -> wf_check n t = true -> topo_wf n 1 t.
Proof.
  unfold wf_check. rewrite !andb_true_iff. intros Hn Hmax ((((((C1 & C2) & C3) & C4) & C5) & C6) & C7).
  pose proof (switches_all _ t C1) as S. pose proof (ports_all _ t C2) as L. pose proof (ports_all _ t C3) as N. cbv beta in S, N.
  apply bool_decide_eq_true in C5, C6.
  assert (forall d p nd np, link t d p = Some (nd, np) -> link t nd np = Some (d, p) /\ ~ (d = nd /\ p = np) /\ (d = 1 -> nd <> 1)) as Hl.
  { intros d p nd np (x & Hx & E)%bind_Some. specialize (L d p x Hx). unfold links_ok in L. by rewrite E in L. }
  split; [split| | |].
  - intros d s Hs. apply (S d s Hs).
  - intros d s Hs. apply (S d s Hs).
  - intros d s. rewrite skel_lookup. intros (x & Hx & ->)%fmap_Some. cbn. apply (S d x Hx).
  - intros d p nd np Hd. split; apply (Hl d p nd np Hd).
  - done.
  - done.
  - done.
  - done.
  - split; [| |exact N|].
    + intros i d Hi. unfold aget in Hi. case_match; [done|]. unfold imap_ok in C5. rewrite Forall_forall in C5. specialize (C5 (Z.to_nat i)).
      rewrite Hi in C5. destruct (switches t !! d) as [s|]; [|exfalso].
      * exists s. split; [done|]. assert (alias_id <$> Some s = Some (Z.of_nat (Z.to_nat i))) as E; [|injection E as ->; lia].
        apply C5. apply elem_of_seq. apply lookup_lt_Some in Hi. lia.
      * discriminate C5. apply elem_of_seq. apply lookup_lt_Some in Hi. lia.
    + intros d s Hs. apply (S d s Hs).
    + intros d s nd l q Hs Hnl Hq. destruct (S d s Hs) as (_ & _ & _ & _ & _ & Ho). specialize (Ho nd l Hnl). cbv beta in Ho. rewrite Forall_forall in Ho.
      specialize (Ho q Hq). apply bind_Some in Ho as (x & Hd & Ho). apply bind_Some in Ho as ([a b] & Hk & Ho).
      injection Ho as Ho. apply bool_decide_eq_true in Ho. cbn in Ho. subst a. exists x. split; [done|].
      unfold link_of in *. case_bool_decide; [|done]. by injection Hk as -> ->.
  - split.
    + destruct (switches t !! 1) as [s|] eqn:E1; [|done]. exists s. split_and!; [done| |done].
      intros E. rewrite E in C7. by rewrite bool_decide_true in C7.
    + intros d (s & Hs & _). apply (S d s Hs).
  - intros p nd np Hp. by apply (Hl 1 p nd np Hp).
Qed.

Lemma tri_wf : topo_wf 3 1 tri.
Proof. apply wf_check_sound; [lia|done|vm_compute; reflexivity]. Qed.
Lemma tri_routed_wf : topo_wf 3 1 tri_routed.
Proof. apply wf_check_sound; [lia|done|vm_compute; reflexivity]. Qed.
Lemma tri_fresh : fresh 3 tri_routed.
Proof. exists 104, (rt tri). split_and!; [vm_compute; reflexivity|apply Nat.leb_le; vm_compute; reflexivity..]. Qed.

(** ** Witnesses *)

Lemma loop_detect_links_witness : exists t', mul_loop_detect (fun z => z + 1) 104 true tri_routed = Some t' /\
  root_dpid (loop_info t') = 1 /\ ls t' 2 1 = Some LOOP_PORT_STATUS_RP /\ ls t' 1 1 = Some LOOP_PORT_STATUS_DP.
Proof.
  destruct (loop_detect_links (fun z => z + 1) 104 3 1 tri_routed tri_routed_wf tri_fresh) as (t' & E & _ & _ & HR & Hp & _);
    [split; vm_compute; reflexivity|].
  exists t'. split; [done|]. split; [done|].
  assert (alias_id <$> switches tri_routed !! 2 = Some 1) as A2 by (vm_compute; reflexivity).
  assert (alias_id <$> switches tri_routed !! 1 = Some 0) as A1 by (vm_compute; reflexivity).
  assert ((fun r => (bool_decide (r = []), (mul_route_cost_calc r).2)) <$> __tr_get_route (fun z => z + 1) 1 0 tri_routed = Some (false, 1)) as Er
    by (vm_compute; reflexivity).
  assert (link tri_routed 2 1 = Some (1, 1)) as El by (vm_compute; reflexivity).
  apply fmap_Some in A2 as (s & Hs & A2). apply fmap_Some in A1 as (r0 & Hr & A1). apply fmap_Some in Er as (r & Hrt & E12).
  injection E12 as E1 E2. symmetry in E1, E2. change ((mul_route_cost_calc r).2 = 1) in E2.
  destruct (Hp 2 s r0 r Hs) as (nd & np & Hl & Hx & Hy); [discriminate|exact Hr|rewrite <- A1, <- A2; exact Hrt|by apply bool_decide_eq_false in E1|].
  rewrite E2, El in Hl. injection Hl as <- <-. rewrite E2 in Hx. by split.
Defined.

Definition has_route (s : lldp_switch) : bool :=
  match switches tri_routed !! 1 with
  | Some r0 => match __tr_get_route (fun z => z + 1) (alias_id s) (alias_id r0) tri_routed with Some [] => false | _ => true end
  | None => true
  end.

Lemma loop_detect_connected_witness : exists t', mul_loop_detect (fun z => z + 1) 104 true tri_routed = Some t' /\
  rtc (fun a b => exists p np, active t' a p b np) 3 1.
Proof.
  destruct (loop_detect_connected (fun z => z + 1) 104 3 1 tri_routed tri_routed_wf tri_fresh) as (t' & E & Hc);
    [split; vm_compute; reflexivity| |exists t'; split; [exact E|]; apply Hc; apply fmap_is_Some with (f := alias_id); vm_compute; by eexists].
  intros d s r0 Hs Hd Hr E. assert (d = 1 \/ has_route s = true) as Hrt.
  { clear -Hs. revert d s Hs. refine (switches_all (fun d s => d = 1 \/ has_route s = true) tri_routed _). vm_compute. reflexivity. }
  destruct Hrt as [H1|Hrt]; [exact (Hd H1)|]. unfold has_route in Hrt. rewrite Hr, E in Hrt. discriminate Hrt.
Defined.

Lemma update_timer_loop_free_witness : exists t', lldp_update_timer (fun z => z + 1) 104 tri = Some t' /\
  forall d i l, flood t' d i l -> NoDup (d :: l).
Proof.
  destruct (update_timer_loop_free (fun z => z + 1) 104 3 1 tri tri_wf) as (t' & E & _ & _ & Hf); [| | |exists t'; exact (conj E Hf)].
  - split; apply Nat.leb_le; vm_compute; reflexivity.
  - assert (forall d p x, get_port d p tri = Some x -> 104 < ttl x) as Ht; [|intros d p x Hx _; by apply (Ht d p)].
    intros d p x Hx. apply Z.ltb_lt. revert d p x Hx. apply (@ports_all (fun _ _ x => (104 <? ttl x) = true) (fun _ _ x => decide ((104 <? ttl x) = true)) tri). vm_compute. reflexivity.
  - split; vm_compute; reflexivity.
Defined.


(** The designated port of the root, the root ports, and the link that is blocked. *)
Example tri_states :
  (fun x => ls (default tri (lldp_update_timer (fun z => z + 1) 104 tri)) x.1 x.2) <$> [(1, 1); (1, 2); (2, 1); (2, 2); (3, 1); (3, 2)] =
  [Some LOOP_PORT_STATUS_DP; Some LOOP_PORT_STATUS_DP; Some LOOP_PORT_STATUS_RP; Some LOOP_PORT_STATUS_DP_N;
   Some LOOP_PORT_STATUS_NDP; Some LOOP_PORT_STATUS_RP].
Proof. vm_compute. reflexivity. Qed.
End LoopEx.
