(* ===== verification/L2Fdb.v ===== *)
(** * The layer 2 fast path of the controller (mul_fp.c, mul_fp.h)

    The controller can learn and forward for a switch by itself.  The forwarding
    database is an array of chains of buckets of two entries each; the first bucket of a chain is
    in the array.  A chain is the list of its entries: bucket [b] holds positions [2 b]
    and [2 b + 1], a new bucket adds two entries at the end, and releasing bucket
    [b] removes its two.  [now] is the time during an operation.  The size of the array
    is a parameter: 524288 in the code. *)
From stdpp Require Import base list gmap.
From Stdlib Require Import ZArith Lia.
From S2P Require Import Prelude Ha.
#[local] Open Scope Z_scope.

Module L2Fdb.

Definition C_FDB_ITIMEO : Z := 30.
Definition C_FDB_HTIMEO : Z := 60 * 5.
Definition C_FDB_ENT_PER_BKT : nat := 2.
Definition C_FL_PRIO_FWD : Z := 2.
Definition OF_ALL_PORTS : Z := 0xfffffffc.
Definition NO_BUFFER : Z := 0xffffffff.
Definition ETH_TYPE_LLDP : Z := 0x88cc.
Definition C_MLPS_DOWN : Z := 0x1.
Definition C_MLPC_DOWN : Z := 0x1.
Definition OFPPC_NO_RECV : Z := 0x4.
Definition C_LOOP_STATE_NONE : Z := 0.
Definition C_SWITCH_FP_AGING_TIMEO : Z := 10.

(** A MAC address as its six bytes. *)
Record c_l2fdb_ent := mk_ent {
  e_timestamp : Z; e_port : Z; e_valid : bool; e_installed : bool; e_mac : list Z }.
Definition zero_ent : c_l2fdb_ent := mk_ent 0 0 false false [0; 0; 0; 0; 0; 0].
Notation row := (list c_l2fdb_ent).

Record c_port := mk_port { p_state : Z; p_config : Z; p_of_config : Z }.

(** What is sent: the flow that forwards a destination and its deletion, a packet given to
    [pkt_out_fast] (with its buffer, input and output port and the length of the data sent along), and a
    packet left to the slow path. *)
Inductive fp_msg :=
  | FpAdd (mac : list Z) (port buffer : Z)
  | FpDel (mac : list Z)
  | FpOut (buffer in_port oport data_len : Z)
  | FpSlow (in_port : Z).

(** [app_flow_tbl] is null before the fast path is set up. *)
Record fp_switch := mk_fp {
  app_flow_tbl : option (list row); fp_lock : bool; sw_ports : gmap Z c_port; fp_tx : list fp_msg }.

Definition set_tbl (t : option (list row)) (s : fp_switch) : fp_switch :=
  mk_fp t (fp_lock s) (sw_ports s) (fp_tx s).
Definition set_lock (x : bool) (s : fp_switch) : fp_switch :=
  mk_fp (app_flow_tbl s) x (sw_ports s) (fp_tx s).
Definition emit (l : list fp_msg) (s : fp_switch) : fp_switch :=
  mk_fp (app_flow_tbl s) (fp_lock s) (sw_ports s) (fp_tx s ++ l).
Definition c_wr_lock (s : fp_switch) : option fp_switch :=
  if fp_lock s then None else Some (set_lock true s).
Definition c_wr_unlock (s : fp_switch) : option fp_switch :=
  if fp_lock s then Some (set_lock false s) else None.

Definition set_e_port (x : Z) (e : c_l2fdb_ent) := mk_ent (e_timestamp e) x (e_valid e) (e_installed e) (e_mac e).
Definition set_e_time (x : Z) (e : c_l2fdb_ent) := mk_ent x (e_port e) (e_valid e) (e_installed e) (e_mac e).
Definition set_e_valid (x : bool) (e : c_l2fdb_ent) := mk_ent (e_timestamp e) (e_port e) x (e_installed e) (e_mac e).
Definition set_e_inst (x : bool) (e : c_l2fdb_ent) := mk_ent (e_timestamp e) (e_port e) (e_valid e) x (e_mac e).

(** ** Entries *)

(** The port parameter of this function has 16 bits. *)
Definition c_l2fdb_ent_init (now : Z) (mac : list Z) (port : Z) (e : c_l2fdb_ent) : c_l2fdb_ent :=
  mk_ent now (u16 port) true (e_installed e) mac.

Definition mac_byte (mac : list Z) (i : nat) : Z := nth i mac 0.

Definition is_multicast_ether_addr (mac : list Z) : bool := negb (Z.land 1 (mac_byte mac 0) =? 0).
Definition is_broadcast_ether_addr (mac : list Z) : bool :=
  Z.land (Z.land (Z.land (Z.land (Z.land (mac_byte mac 0) (mac_byte mac 1)) (mac_byte mac 2))
    (mac_byte mac 3)) (mac_byte mac 4)) (mac_byte mac 5) =? 0xff.

Section TABLE.
Context (C_L2FDB_SZ : Z).
Context (c : Ha.ctrl_hdl).

Definition c_l2fdb_key (mac : list Z) : Z :=
  u32 (Z.lor (Z.lor (Z.lor (Z.shiftl (mac_byte mac 4) 24) (Z.shiftl (Z.lxor (mac_byte mac 3) (mac_byte mac 5)) 16))
         (Z.shiftl (mac_byte mac 2) 8)) (mac_byte mac 1)) mod C_L2FDB_SZ.

Definition c_l2fdb_equal (m1 m2 : list Z) : bool := bool_decide (m1 = m2).

(** Only the master sends to the switch. *)
Definition to_switch (l : list fp_msg) : list fp_msg := if Ha.c_switch_of_master_check c then l else [].

Definition c_l2fdb_uninstall (e : c_l2fdb_ent) : c_l2fdb_ent * list fp_msg :=
  (set_e_inst false e, to_switch [FpDel (e_mac e)]).

Definition c_l2fdb_install (e : c_l2fdb_ent) : c_l2fdb_ent * list fp_msg :=
  let '(e, l) := c_l2fdb_uninstall e in
  (set_e_inst true e, l ++ to_switch [FpAdd (e_mac e) (e_port e) NO_BUFFER]).

Definition c_l2fdb_evict (now : Z) (mac : list Z) (port : Z) (e : c_l2fdb_ent) : c_l2fdb_ent * list fp_msg :=
  let '(e, l) := if e_installed e then c_l2fdb_uninstall e else (e, []) in
  (c_l2fdb_ent_init now mac (u16 port) e, l).

(** ** Learning *)

Inductive scan_res := Found (i : nat) | Missing (emp evict : option nat).

(** Looks for [mac] from position [i] on; remembers the first free position and the first
    entry that may be evicted. *)
Fixpoint learn_scan (now : Z) (mac : list Z) (l : row) (i : nat) (emp evict : option nat) : scan_res :=
  match l with
  | [] => Missing emp evict
  | e :: l =>
      if negb (e_valid e) then
        learn_scan now mac l (S i) (match emp with None => Some i | _ => emp end) evict
      else if c_l2fdb_equal mac (e_mac e) then Found i
      else learn_scan now mac l (S i) emp
             (match evict with
              | None => if e_timestamp e + C_FDB_HTIMEO + 10 <? now then Some i else None
              | _ => evict
              end)
  end.

Definition learn_row (now : Z) (mac : list Z) (port : Z) (r : row) : option (row * list fp_msg) :=
  match learn_scan now mac r 0 None None with
  | Found i =>
      e ← r !! i;
      let '(e, l) := if e_port e =? port then (e, []) else c_l2fdb_install (set_e_port port e) in
      Some (<[i := set_e_time now e]> r, l)
  | Missing (Some i) _ => e ← r !! i; Some (<[i := c_l2fdb_ent_init now mac port e]> r, [])
  | Missing None None =>
      Some (r ++ c_l2fdb_ent_init now mac port zero_ent :: replicate (C_FDB_ENT_PER_BKT - 1) zero_ent, [])
  | Missing None (Some i) =>
      e ← r !! i;
      let '(e, l) := c_l2fdb_evict now mac port e in
      Some (<[i := e]> r, l)
  end.

Definition c_l2fdb_learn (now : Z) (mac : list Z) (port : Z) (s : fp_switch) : option fp_switch :=
  t ← app_flow_tbl s;
  r ← aget t (c_l2fdb_key mac);
  '(r, l) ← learn_row now mac port r;
  t ← aset t (c_l2fdb_key mac) r;
  Some (emit l (set_tbl (Some t) s)).

(** ** Lookup *)

Fixpoint lookup_row (mac : list Z) (l : row) (i : nat) : option nat :=
  match l with
  | [] => None
  | e :: l => if e_valid e && c_l2fdb_equal mac (e_mac e) then Some i else lookup_row mac l (S i)
  end.

(** The entry found, by its position in its row; its time is renewed. *)
Definition c_l2fdb_lookup (now : Z) (mac : list Z) (s : fp_switch) : option (option nat * fp_switch) :=
  t ← app_flow_tbl s;
  r ← aget t (c_l2fdb_key mac);
  match lookup_row mac r 0 with
  | None => Some (None, s)
  | Some i =>
      e ← r !! i;
      t ← aset t (c_l2fdb_key mac) (<[i := set_e_time now e]> r);
      Some (Some i, set_tbl (Some t) s)
  end.

(** ** Aging *)

(** The port of an entry is down, or is the one asked for. *)
Definition port_gone (ports : gmap Z c_port) (port : Z) (check_port : bool) (e : c_l2fdb_ent) : bool :=
  match ports !! e_port e with
  | Some p => negb (Z.land (p_state p) C_MLPS_DOWN =? 0) || negb (Z.land (p_config p) C_MLPC_DOWN =? 0)
  | None => false
  end || (check_port && (e_port e =? port)).

Definition aged (now : Z) (e : c_l2fdb_ent) : bool := e_timestamp e + C_FDB_HTIMEO + 2 <? now.

(** [find_new_entry]: the first entry that is not valid, from position [i] on. *)
Fixpoint find_free (l : row) (i : nat) : option nat :=
  match l with
  | [] => None
  | e :: l => if e_valid e then find_free l (S i) else Some i
  end.

Section ROW.
Context (now : Z) (gone : c_l2fdb_ent -> bool).

(** The entries of a bucket whose first position is [base], from position [p] on, [n] of them.  [dst]
    is the free position to move the next valid entry to and [empty] whether no entry is left in the bucket. *)
Fixpoint age_ents (n p base : nat) (r : row) (dst : option nat) (empty : bool) (l : list fp_msg)
  : option (row * option nat * bool * list fp_msg) :=
  match n with
  | O => Some (r, dst, empty, l)
  | S n =>
      e ← r !! p;
      if e_valid e then
        if aged now e || gone e then
          let '(e, l') := if gone e then c_l2fdb_uninstall (set_e_valid false e) else (set_e_valid false e, []) in
          age_ents n (S p) base (<[p := e]> r) (match dst with None => Some p | _ => dst end) empty (l ++ l')
        else
          match dst with
          | None => age_ents n (S p) base r None false l
          | Some d =>
              let r := <[p := set_e_valid false e]> (<[d := e]> r) in
              age_ents n (S p) base r (find_free (drop (S d) r) (S d)) (d <? base)%nat l
          end
      else Some (r, dst, empty, l)
  end.

(** The buckets from number [b] on, [n] of them.  The first bucket is never released. *)
Fixpoint age_bkts (n b : nat) (r : row) (dst : option nat) (l : list fp_msg) : option (row * list fp_msg) :=
  match n with
  | O => Some (r, l)
  | S n =>
      let base := (C_FDB_ENT_PER_BKT * b)%nat in
      '(r, dst, empty, l) ← age_ents C_FDB_ENT_PER_BKT base base r dst true l;
      if (0 <? b)%nat && (empty : bool) then
        let dst := if bool_decide (dst = Some base) then None else dst in
        age_bkts n b (take base r ++ drop (base + C_FDB_ENT_PER_BKT) r) dst l
      else age_bkts n (S b) r dst l
  end.

Definition age_row (r : row) : option (row * list fp_msg) :=
  age_bkts (length r / C_FDB_ENT_PER_BKT) 0 r None [].
End ROW.

(** The loop over the array. *)
Definition age_tbl (now port : Z) (check_port : bool) (ports : gmap Z c_port) (t : list row)
  : option (list row * list fp_msg) :=
  for_range C_L2FDB_SZ (fun i '(t, l) =>
    r ← aget t i;
    '(r, l') ← age_row now (port_gone ports port check_port) r;
    t ← aset t i r; Some (t, l ++ l')) (t, []).

Definition c_l2fdb_aging (now port : Z) (check_port : bool) (s : fp_switch) : option fp_switch :=
  s ← c_wr_lock s;
  s ← match app_flow_tbl s with
      | None => Some s
      | Some t => '(t, l) ← age_tbl now port check_port (sw_ports s) t; Some (emit l (set_tbl (Some t) s))
      end;
  c_wr_unlock s.

(** ** Set-up and removal *)

Definition c_l2fdb_init (s : fp_switch) : fp_switch :=
  set_tbl (Some (replicate (Z.to_nat C_L2FDB_SZ) (replicate C_FDB_ENT_PER_BKT zero_ent))) s.

(** Every valid entry is removed from the switch, and all buckets but the first are released. *)
Fixpoint destroy_ents (r : row) : row * list fp_msg :=
  match r with
  | [] => ([], [])
  | e :: r =>
      let '(e, l) := if e_valid e then let '(e, l) := c_l2fdb_uninstall e in (set_e_valid false e, l) else (e, []) in
      let '(r, l') := destroy_ents r in (e :: r, l ++ l')
  end.
Definition destroy_row (r : row) : row * list fp_msg :=
  let '(r, l) := destroy_ents r in (take C_FDB_ENT_PER_BKT r, l).

Definition __c_l2fdb_destroy (locked need_free : bool) (s : fp_switch) : option fp_switch :=
  s ← (if locked then Some s else c_wr_lock s);
  s ← match app_flow_tbl s with
      | None => Some s
      | Some t =>
          '(t, l) ← for_range C_L2FDB_SZ (fun i '(t, l) =>
            r ← aget t i;
            let '(r, l') := destroy_row r in
            t ← aset t i r; Some (t, l ++ l')) (t, []);
          Some (emit l (set_tbl (Some t) s))
      end;
  let s := if need_free then set_tbl None s else s in
  if locked then Some s else c_wr_unlock s.

Definition c_l2fdb_destroy (locked : bool) (s : fp_switch) : option fp_switch := __c_l2fdb_destroy locked true s.
Definition c_l2_topo_change (locked : bool) (s : fp_switch) : option fp_switch := __c_l2fdb_destroy locked false s.

(** ** Forwarding *)

(** A packet: its addresses and type, its buffer in the switch, its length and where it came in. *)
Record packet := mk_pkt {
  dl_src : list Z; dl_dst : list Z; dl_type : Z; buffer_id : Z; pkt_len : Z; in_port : Z }.

(** With loop detection, packets from unknown or blocked ports are dropped. *)
Definition blocked (loop_en : bool) (s : fp_switch) (port : Z) : bool :=
  loop_en && match sw_ports s !! port with
             | None => true
             | Some p => negb (Z.land (p_of_config p) OFPPC_NO_RECV =? 0)
             end.

Definition c_l2_lrn_fwd (now : Z) (loop_en : bool) (loop_status : Z) (k : packet) (s : fp_switch)
  : option (Z * fp_switch) :=
  if loop_en && (loop_status =? C_LOOP_STATE_NONE) then Some (-1, s)
  else if dl_type k =? ETH_TYPE_LLDP then Some (0, emit [FpSlow (in_port k)] s)
  else
    s ← c_wr_lock s;
    if blocked loop_en s (in_port k) then s ← c_wr_unlock s; Some (-1, s)
    else
      s ← c_l2fdb_learn now (dl_src k) (in_port k) s;
      if negb (is_broadcast_ether_addr (dl_dst k)) && is_multicast_ether_addr (dl_dst k) then
        s ← c_wr_unlock s; Some (0, emit [FpSlow (in_port k)] s)
      else
        '(f, s) ← c_l2fdb_lookup now (dl_dst k) s;
        let out oport := FpOut (buffer_id k) (in_port k) oport (if buffer_id k =? NO_BUFFER then pkt_len k else 0) in
        match f with
        | None => s ← c_wr_unlock s; Some (0, emit [out OF_ALL_PORTS] s)
        | Some i =>
            t ← app_flow_tbl s;
            r ← aget t (c_l2fdb_key (dl_dst k));
            e ← r !! i;
            t ← aset t (c_l2fdb_key (dl_dst k)) (<[i := set_e_inst true e]> r);
            let s := emit (to_switch [FpAdd (dl_dst k) (e_port e) (buffer_id k)]) (set_tbl (Some t) s) in
            s ← c_wr_unlock s;
            Some (0, if buffer_id k =? NO_BUFFER then emit [out (e_port e)] s else s)
        end.

(** ** Port changes *)

(** The lock of the controller and the time of the last aging; an early return keeps the lock. *)
Definition c_l2fdb_deactivate_on_port_down (now : Z) (st : bool * Z) : option (bool * Z) :=
  let '(lock, last) := st in
  if lock then None
  else if C_SWITCH_FP_AGING_TIMEO <? now - last then Some (true, last)
  else Some (false, now - C_SWITCH_FP_AGING_TIMEO + 2).

Definition c_l2_port_status (now config_mask state_mask : Z) (st : bool * Z) : option (bool * Z) :=
  if negb (Z.land config_mask C_MLPC_DOWN =? 0) || negb (Z.land state_mask C_MLPS_DOWN =? 0)
  then c_l2fdb_deactivate_on_port_down now st else Some st.

End TABLE.
End L2Fdb.
