(* ===== verification/L2FdbSpec.v ===== *)
(** * The layer 2 fast path: what it stores and how it forwards *)
From stdpp Require Import base list gmap.
From Stdlib Require Import ZArith Lia.
From S2P Require Import Prelude Ha L2Fdb.
Import L2Fdb.
#[local] Open Scope Z_scope.

Lemma obind_some {A B} (f : A -> option B) x : (Some x ≫= f) = f x.
Proof. done. Qed.

Lemma insert_mid {A} (a b : list A) x y n : n = length a -> <[n := y]> (a ++ x :: b) = a ++ y :: b.
Proof. intros ->. rewrite <- (Nat.add_0_r (length a)). by rewrite insert_app_r. Qed.

Notation valids := (Forall (fun e => e_valid e = true)).
Notation invalids := (Forall (fun e => e_valid e = false)).

Section ROWS.
Context (c : Ha.ctrl_hdl).

(** ** Aging of a row *)

Section AGING.
Context (now : Z) (gone : c_l2fdb_ent -> bool).

Definition kept (e : c_l2fdb_ent) : Prop := aged now e || gone e = false.
#[global] Instance kept_dec e : Decision (kept e) := bool_eq_dec _ _.

(** The deletions that are sent for the entries of a row. *)
Definition gone_msgs (l : row) : list fp_msg :=
  flat_map (fun e => if gone e then to_switch c [FpDel (e_mac e)] else []) l.

(** [dst] is the first position after the entries kept so far, when it is free. *)
Definition dst_ok (k j rest : row) (dst : option nat) : Prop :=
  rest <> [] -> dst = if bool_decide (j = []) then None else Some (length k).

(** The entry at position [p] is the first that has not been looked at. *)
Lemma age_ents_spec n : forall p base k j rest tail dst l,
  invalids j -> valids rest -> invalids tail -> p = (length k + length j)%nat -> (base <= p)%nat ->
  (p + n <= length (k ++ j ++ rest ++ tail))%nat -> dst_ok k j rest dst ->
  exists j' dst', age_ents c now gone n p base (k ++ j ++ rest ++ tail) dst (length k <=? base)%nat l =
      Some (k ++ base.filter kept (take n rest) ++ j' ++ drop n rest ++ tail, dst',
            (length (k ++ base.filter kept (take n rest)) <=? base)%nat, l ++ gone_msgs (take n rest)) /\
    invalids j' /\ (length k + length (base.filter kept (take n rest)) + length j' = p + length (take n rest))%nat /\
    dst_ok (k ++ base.filter kept (take n rest)) j' (drop n rest) dst'.
Proof.
  induction n as [|n IH]; intros p base k j rest tail dst l Hj Hr Ht Hp Hb Hlen Hd; cbn [age_ents].
  { exists j, dst. rewrite take_0, drop_0. cbn. rewrite !app_nil_r. split_and!; [done|done|lia|done]. }
  destruct rest as [|e rest].
  { destruct tail as [|e tail]; [rewrite !length_app in Hlen; cbn in Hlen; lia|].
    assert ((k ++ j ++ [] ++ e :: tail) !! p = Some e) as ->.
    { rewrite app_assoc. rewrite lookup_app_r by (rewrite length_app; lia).
      replace (p - length (k ++ j))%nat with 0%nat by (rewrite length_app; lia). done. }
    rewrite obind_some. apply Forall_cons in Ht as [He _]. rewrite He.
    exists j, dst. rewrite firstn_nil, drop_nil. cbn. rewrite !app_nil_r. split_and!; [done|done|lia|done]. }
  apply Forall_cons in Hr as [He Hr].
  assert ((k ++ j ++ (e :: rest) ++ tail) !! p = Some e) as ->.
  { rewrite app_assoc, lookup_app_r by (rewrite length_app; lia).
    replace (p - length (k ++ j))%nat with 0%nat by (rewrite length_app; lia). done. }
  rewrite obind_some, He. cbn [take drop].
  rewrite filter_cons. destruct (decide (kept e)) as [Hk|Hk].
  - unfold kept in Hk. rewrite Hk. apply orb_false_iff in Hk as [_ Hg].
    rewrite Hd by done. destruct j as [|x j].
    + rewrite bool_decide_true by done. cbn [app].
      replace (k ++ e :: rest ++ tail) with ((k ++ [e]) ++ [] ++ rest ++ tail) by by rewrite <- app_assoc.
      destruct (IH (S p) base (k ++ [e]) [] rest tail None l) as (j' & dst' & E & J & L & D);
        [constructor|done|done|rewrite length_app; cbn in *; lia|lia| |by intros _; rewrite bool_decide_true|].
      { rewrite !length_app in *. cbn in *. lia. }
      replace (length (k ++ [e]) <=? base)%nat with false in E
        by (symmetry; apply Nat.leb_gt; rewrite length_app; cbn in *; lia).
      rewrite E. exists j', dst'. rewrite <- !app_assoc in *. cbn [app flat_map gone_msgs] in *. rewrite Hg. cbn [app].
      split_and!; [done|done| |done]. rewrite !length_app in *. cbn in *. lia.
    + rewrite bool_decide_false by done. apply Forall_cons in Hj as [Hx Hj].
      assert (<[p:=set_e_valid false e]> (<[length k:=e]> (k ++ (x :: j) ++ (e :: rest) ++ tail)) =
        (k ++ [e]) ++ (j ++ [set_e_valid false e]) ++ rest ++ tail) as ->.
      { cbn [app]. rewrite insert_mid by done.
        replace (k ++ e :: j ++ e :: rest ++ tail) with ((k ++ e :: j) ++ e :: rest ++ tail) by by rewrite <- app_assoc.
        rewrite insert_mid by (rewrite length_app; cbn in *; lia). by rewrite <- !app_assoc. }
      assert (find_free (drop (S (length k)) ((k ++ [e]) ++ (j ++ [set_e_valid false e]) ++ rest ++ tail)) (S (length k)) =
        Some (S (length k))) as ->.
      { replace (S (length k)) with (length (k ++ [e])) by (rewrite length_app; cbn; lia). rewrite drop_app_length.
        destruct j as [|y j]; cbn; [done|]. apply Forall_cons in Hj as [-> _]. done. }
      replace (length k <? base)%nat with (length (k ++ [e]) <=? base)%nat
        by (rewrite length_app; apply eq_true_iff_eq; rewrite Nat.leb_le, Nat.ltb_lt; cbn; lia).
      destruct (IH (S p) base (k ++ [e]) (j ++ [set_e_valid false e]) rest tail (Some (S (length k))) l)
        as (j' & dst' & E & J & L & D);
        [apply Forall_app; split; [done|by constructor]|done|done|rewrite !length_app in *; cbn in *; lia|lia| | |].
      { rewrite !length_app in *. cbn in *. rewrite ?length_app in *. cbn in *. lia. }
      { intros _. rewrite bool_decide_false by (by destruct j). rewrite length_app. cbn. f_equal. lia. }
      rewrite E. exists j', dst'. rewrite <- !app_assoc in *. cbn [app flat_map gone_msgs] in *. rewrite Hg. cbn [app].
      split_and!; [done|done| |done]. rewrite !length_app in *. cbn in *. lia.
  - unfold kept in Hk. apply not_false_is_true in Hk. rewrite Hk.
    set (e' := if gone e then set_e_inst false (set_e_valid false e) else set_e_valid false e).
    assert ((if gone e then c_l2fdb_uninstall c (set_e_valid false e) else (set_e_valid false e, [])) =
      (e', if gone e then to_switch c [FpDel (e_mac e)] else [])) as -> by (unfold e'; by destruct (gone e)).
    assert (e_valid e' = false) as He' by (unfold e'; by destruct (gone e)).
    assert (<[p:=e']> (k ++ j ++ (e :: rest) ++ tail) = k ++ (j ++ [e']) ++ rest ++ tail) as ->.
    { rewrite !app_assoc, <- (app_assoc (k ++ j)). cbn [app]. rewrite insert_mid by (rewrite length_app; lia).
      by rewrite <- !app_assoc. }
    destruct (IH (S p) base k (j ++ [e']) rest tail (match dst with None => Some p | _ => dst end)
      (l ++ (if gone e then to_switch c [FpDel (e_mac e)] else []))) as (j' & dst' & E & J & L & D);
      [apply Forall_app; split; [done|by constructor]|done|done|rewrite length_app; cbn in *; lia|lia| | |].
    { rewrite !length_app in *. cbn in *. rewrite ?length_app in *. cbn in *. lia. }
    { intros _. rewrite bool_decide_false by (by destruct j). pose proof (Hd ltac:(done)) as Hd'.
      destruct j; [rewrite bool_decide_true in Hd' by done|rewrite bool_decide_false in Hd' by done]; subst dst; cbn in *; f_equal; lia. }
    rewrite E. exists j', dst'. cbn [flat_map gone_msgs]. rewrite <- !app_assoc. split_and!; [done|done| |done].
    cbn. lia.
Qed.

(** The entries that are not valid can be split at any position when no entry is left to look at. *)
Lemma resplit k j rest tail q :
  invalids j -> invalids tail -> (length k <= q)%nat ->
  (length k + length j = q)%nat \/ (rest = [] /\ (q <= length k + length j + length tail)%nat) ->
  exists j' tail', k ++ j ++ rest ++ tail = k ++ j' ++ rest ++ tail' /\ invalids j' /\ invalids tail' /\
    (length k + length j' = q)%nat /\ forall d, dst_ok k j rest d -> dst_ok k j' rest d.
Proof.
  intros Hj Ht Hk [Hq|[-> Hq]]; [by exists j, tail|].
  exists (take (q - length k) (j ++ tail)), (drop (q - length k) (j ++ tail)).
  assert (invalids (j ++ tail)) as Hi by by apply Forall_app.
  split_and!; [by cbn; rewrite take_drop|by apply Forall_take|by apply Forall_drop| |by intros d _ ?].
  rewrite length_take, length_app. lia.
Qed.

(** Releasing the bucket at [base] removes two entries that are not valid. *)
Lemma release_bkt k j rest tail base :
  invalids j -> (length k <= base)%nat -> (length k + length j = base + C_FDB_ENT_PER_BKT)%nat ->
  take base (k ++ j ++ rest ++ tail) ++ drop (base + C_FDB_ENT_PER_BKT) (k ++ j ++ rest ++ tail) =
  k ++ take (base - length k) j ++ rest ++ tail.
Proof.
  intros Hj Hk Hl. rewrite !app_assoc, <- (app_assoc _ rest tail), <- (app_assoc _ rest tail).
  rewrite <- Hl, <- length_app, drop_app_length, take_app_le by (rewrite length_app; unfold C_FDB_ENT_PER_BKT in *; lia).
  rewrite take_app_ge by done. by rewrite <- !app_assoc.
Qed.

Lemma gone_msgs_app a b : gone_msgs (a ++ b) = gone_msgs a ++ gone_msgs b.
Proof. apply flat_map_app. Qed.

Lemma age_bkts_spec n : forall b k j rest tail dst l,
  invalids j -> valids rest -> invalids tail -> (length k + length j = 2 * b)%nat ->
  (length (k ++ j ++ rest ++ tail) = 2 * (b + n))%nat -> (0 < b + n)%nat -> dst_ok k j rest dst ->
  (b <= 1 \/ 2 * b < length k + 2)%nat ->
  exists b' inv, age_bkts c now gone n b (k ++ j ++ rest ++ tail) dst l =
      Some (k ++ base.filter kept rest ++ inv, l ++ gone_msgs rest) /\ invalids inv /\
    length (k ++ base.filter kept rest ++ inv) = (2 * b')%nat /\ (0 < b')%nat /\
    (b' = 1 \/ 2 * b' < length (k ++ base.filter kept rest) + 2)%nat.
Proof.
  induction n as [|n IH]; intros b k j rest tail dst l Hj Hr Ht Hp Hlen H0 Hd Hb; cbn [age_bkts].
  { rewrite !length_app in Hlen. destruct rest; [|cbn in Hlen; lia]. destruct tail; [|cbn in Hlen; lia].
    exists b, j. cbn. rewrite !app_nil_r. split_and!; [done|done| |lia|lia]. rewrite length_app. lia. }
  change C_FDB_ENT_PER_BKT with 2%nat. set (base := (2 * b)%nat) in *.
  destruct (age_ents_spec 2 base base k j rest tail dst l) as (j1 & dst1 & E & J1 & L1 & D1);
    [done|done|done|lia|lia|rewrite Hlen; unfold base; lia|done|].
  replace (length k <=? base)%nat with true in E by (symmetry; apply Nat.leb_le; lia).
  rewrite E, obind_some. set (k1 := k ++ base.filter kept (take 2 rest)) in *.
  set (r1 := drop 2 rest) in *. rewrite (app_assoc k (base.filter kept (take 2 rest))). fold k1.
  assert (length (base.filter kept (take 2 rest)) <= length (take 2 rest))%nat as Hf by apply length_filter.
  rewrite length_take in Hf, L1.
  assert (length k1 <= base + 2 /\ length k1 + length j1 = base + 2 `min` length rest)%nat as [Hk1 Hk2]
    by (unfold k1; rewrite length_app; lia).
  assert (length k1 + length j1 + length r1 + length tail = 2 * (b + S n))%nat as Hlen1
    by (unfold r1; rewrite length_drop; rewrite !length_app in Hlen; unfold base in *; lia).
  destruct (resplit k1 j1 r1 tail (base + 2)) as (j2 & tail2 & Eq & J2 & T2 & L2 & D2); [done|done|done| |].
  { destruct (Nat.leb_spec 2 (length rest)); [left; lia|right]. split; [apply nil_length_inv; unfold r1; rewrite length_drop; lia|].
    unfold r1 in Hlen1. rewrite length_drop in Hlen1. lia. }
  rewrite Eq. apply D2 in D1.
  assert (length k1 + length j2 + length r1 + length tail2 = 2 * (b + S n))%nat as Hlen2
    by (apply (f_equal length) in Eq; rewrite !length_app in Eq; lia).
  assert (forall inv, k ++ base.filter kept rest ++ inv = k1 ++ base.filter kept r1 ++ inv) as Ek.
  { intros inv. unfold k1, r1. rewrite <- (take_drop 2 rest) at 1. by rewrite filter_app, <- !app_assoc. }
  assert (gone_msgs rest = gone_msgs (take 2 rest) ++ gone_msgs r1) as Em
    by (unfold r1; by rewrite <- gone_msgs_app, take_drop).
  assert (valids r1) as Hr1 by by apply Forall_drop.
  specialize (Ek []) as Ek0. rewrite !app_nil_r in Ek0. setoid_rewrite Ek. rewrite Ek0, Em, (app_assoc l).
  destruct ((0 <? b)%nat && (length k1 <=? base)%nat) eqn:Eb.
  - apply andb_true_iff in Eb as [B0 B1]. apply Nat.ltb_lt in B0. apply Nat.leb_le in B1.
    pose proof (release_bkt k1 j2 r1 tail2 base J2 B1 L2) as Er. unfold C_FDB_ENT_PER_BKT in Er. rewrite Er.
    apply IH; [by apply Forall_take|done|done|rewrite length_take; lia| |lia| |unfold base in *; lia].
    { rewrite !length_app, length_take. unfold base in *. lia. }
    intros Hne. specialize (D1 Hne). rewrite bool_decide_false in D1 by (intros ->; cbn in *; lia). rewrite D1.
    destruct (decide (length k1 = base)) as [Eb|Nb].
    + rewrite bool_decide_true by congruence. rewrite bool_decide_true; [done|]. by replace (base - length k1)%nat with 0%nat by lia.
    + rewrite (bool_decide_false (Some _ = _)) by congruence. rewrite bool_decide_false; [done|].
      intros Hx%(f_equal length). rewrite length_take in Hx. cbn in Hx. lia.
  - apply IH; [done|done|done|unfold base in *; lia|rewrite !length_app; lia|lia|done|].
    apply andb_false_iff in Eb as [B0|B1]; [apply Nat.ltb_ge in B0|apply Nat.leb_gt in B1]; unfold base in *; lia.
Qed.
End AGING.
End ROWS.

(** ** Rows *)

Definition row_find (mac : list Z) (r : row) : option c_l2fdb_ent := i ← lookup_row mac r 0; r !! i.

(** A row is a chain of at least one bucket; its valid entries come first, no later bucket is without any, their
    addresses differ. *)
Record row_of (r v inv : row) : Prop := {
  ro_eq : r = v ++ inv; ro_valid : valids v; ro_inv : invalids inv; ro_nodup : NoDup (e_mac <$> v);
  ro_len : exists b, length r = (2 * b)%nat /\ (0 < b)%nat /\ (b = 1 \/ 2 * b < length v + 2)%nat }.

Lemma lookup_row_spec mac l : forall i,
  match lookup_row mac l i with
  | Some q => exists d e, q = (i + d)%nat /\ l !! d = Some e /\ e_valid e = true /\ e_mac e = mac
  | None => forall e, e ∈ l -> e_valid e = true -> e_mac e <> mac
  end.
Proof.
  induction l as [|e l IH]; intros i; cbn; [set_solver|].
  destruct (e_valid e && c_l2fdb_equal mac (e_mac e)) eqn:E.
  { apply andb_true_iff in E as [E1 E2%bool_decide_eq_true]. exists 0%nat, e. split_and!; [lia|done..]. }
  specialize (IH (S i)). destruct (lookup_row mac l (S i)) as [q|].
  - destruct IH as (d & x & -> & H). exists (S d), x. split; [lia|done].
  - intros x [->|Hx]%elem_of_cons Hv; [|by apply IH]. intros <-. rewrite Hv in E. cbn in E.
    by apply bool_decide_eq_false in E.
Qed.

Lemma NoDup_mac_eq (v : row) e1 e2 :
  NoDup (e_mac <$> v) -> e1 ∈ v -> e2 ∈ v -> e_mac e1 = e_mac e2 -> e1 = e2.
Proof.
  intros Hn [i Hi]%list_elem_of_lookup [j Hj]%list_elem_of_lookup E.
  assert (i = j) as ->; [|congruence].
  apply (NoDup_lookup _ i j (e_mac e1) Hn); rewrite list_lookup_fmap; [by rewrite Hi|rewrite Hj; cbn; congruence].
Qed.

Lemma row_valid_in r v inv e : row_of r v inv -> e ∈ r -> e_valid e = true -> e ∈ v.
Proof.
  intros [-> _ Hi _ _] [Hv|He]%elem_of_app Hv'; [done|]. rewrite Forall_forall in Hi. by rewrite (Hi e He) in Hv'.
Qed.

(** What a lookup finds. *)
Lemma row_find_iff r v inv mac e : row_of r v inv -> row_find mac r = Some e <-> e ∈ v /\ e_mac e = mac.
Proof.
  intros Hr. unfold row_find. pose proof (lookup_row_spec mac r 0) as H.
  destruct (lookup_row mac r 0) as [q|].
  - destruct H as (d & x & -> & Hd & Hx & Hm). rewrite obind_some. cbn [Nat.add]. rewrite Hd.
    assert (x ∈ v) by (eapply row_valid_in; [done|by eapply list_elem_of_lookup_2|done]).
    split; [by intros [= <-]|]. intros [He Hm']. f_equal. apply (NoDup_mac_eq v); [apply Hr|done|done|congruence].
  - split; [done|]. intros [He Hm]. exfalso. apply (H e); [|by apply (proj1 (Forall_forall _ _) (ro_valid _ _ _ Hr))|done].
    rewrite (ro_eq _ _ _ Hr). apply elem_of_app. by left.
Qed.

(** Two rows find the same under the same conditions. *)
Lemma opt_ext {A} (x y : option A) : (forall a, x = Some a <-> y = Some a) -> x = y.
Proof.
  intros H. destruct x as [a|]; [symmetry; by apply H|]. destruct y as [b|]; [by apply H|done].
Qed.

(** Aging a row keeps exactly the entries to keep, in the same shape. *)
Lemma age_row_spec c now gone r v inv : row_of r v inv ->
  exists inv', age_row c now gone r = Some (base.filter (kept now gone) v ++ inv', gone_msgs c gone v) /\
    row_of (base.filter (kept now gone) v ++ inv') (base.filter (kept now gone) v) inv'.
Proof.
  intros [-> Hv Hi Hn (b & Hlen & B0 & _)]. unfold age_row. rewrite Hlen.
  replace (2 * b / C_FDB_ENT_PER_BKT)%nat with b by (unfold C_FDB_ENT_PER_BKT; rewrite Nat.mul_comm, Nat.div_mul; lia).
  destruct (age_bkts_spec c now gone b 0 [] [] v inv None []) as (b' & inv' & E & I & L & B1 & B2);
    [constructor|done|done|done|done|lia|by intros _; rewrite bool_decide_true|lia|].
  cbn [app] in *. rewrite E. exists inv'. split; [done|]. split; [done| |done| |by exists b'].
  { apply Forall_forall. intros e [_ He]%list_elem_of_filter. by apply (proj1 (Forall_forall _ _) Hv). }
  clear -Hn. induction v as [|e v IH]; [constructor|]. cbn in Hn. apply NoDup_cons in Hn as [H1 H2].
  rewrite filter_cons. destruct (decide _); [|by apply IH]. cbn. apply NoDup_cons. split; [|by apply IH].
  intros (x & Ex & [_ Hx]%list_elem_of_filter)%list_elem_of_fmap. apply H1. apply list_elem_of_fmap. by exists x.
Qed.
