(* ===== verification/L2FdbThm.v ===== *)
(** * The layer 2 fast path: learning, aging and forwarding *)
From stdpp Require Import base list gmap.
From Stdlib Require Import ZArith Lia.
From S2P Require Import Prelude Ha L2Fdb L2FdbSpec.
Import L2Fdb.
#[local] Open Scope Z_scope.

(** ** Changing one entry of a row *)

Lemma row_find_fresh r v inv mac : row_of r v inv -> row_find mac r = None <-> mac ∉ e_mac <$> v.
Proof.
  intros Hr. rewrite list_elem_of_fmap. split.
  - intros H (e & -> & He). by rewrite (proj2 (row_find_iff r v inv (e_mac e) e Hr)) in H.
  - intros H. destruct (row_find mac r) as [e|] eqn:E; [|done]. apply (row_find_iff r v inv) in E as [He <-]; [|done].
    destruct H. by exists e.
Qed.

(** An entry replaced by another of the same or of a new address. *)
Lemma replace_ent r a e b inv e' :
  row_of r (a ++ e :: b) inv -> e_valid e' = true -> e_mac e' ∉ e_mac <$> (a ++ b) ->
  row_of (a ++ e' :: b ++ inv) (a ++ e' :: b) inv /\
  row_find (e_mac e') (a ++ e' :: b ++ inv) = Some e' /\
  forall m, m <> e_mac e' ->
    row_find m (a ++ e' :: b ++ inv) = if bool_decide (m = e_mac e) then None else row_find m r.
Proof.
  intros Hr He' Hn. assert (row_of (a ++ e' :: b ++ inv) (a ++ e' :: b) inv) as Hr'.
  { destruct Hr as [-> V I N (k & L & K)]. apply Forall_app in V as [Va [_ Vb]%Forall_cons].
    split; [by rewrite <- app_assoc|apply Forall_app; split; [done|by constructor]|done| |].
    - rewrite fmap_app, fmap_cons in *. apply NoDup_app in N as (N1 & N2 & [N3 N4]%NoDup_cons).
      apply NoDup_app. split; [done|]. rewrite NoDup_cons. set_solver.
    - exists k. rewrite !length_app in *. cbn in *. rewrite ?length_app in *. split; [lia|]. done. }
  split; [done|]. split.
  { apply (row_find_iff _ _ _ _ _ Hr'). set_solver. }
  intros m Hm. apply opt_ext. intros x. rewrite (row_find_iff _ _ _ _ _ Hr'). case_bool_decide as Em.
  - split; [|done]. intros [Hx <-]. pose proof (ro_nodup _ _ _ Hr) as N.
    rewrite fmap_app, fmap_cons in N. apply NoDup_app in N as (N1 & N2 & [N3 N4]%NoDup_cons).
    apply elem_of_app in Hx as [Hx|[->|Hx]%elem_of_cons]; [|done|].
    + destruct (N2 (e_mac x)); [by apply list_elem_of_fmap_2|set_solver].
    + destruct N3. rewrite <- Em. by apply list_elem_of_fmap_2.
  - rewrite (row_find_iff _ _ _ _ _ Hr). set_solver.
Qed.

(** An entry of a new address added after the valid ones. *)
Lemma append_ent r v inv inv' e' :
  row_of r v inv -> e_valid e' = true -> row_find (e_mac e') r = None -> invalids inv' ->
  (exists b, length (v ++ e' :: inv') = (2 * b)%nat /\ (0 < b)%nat /\ (b = 1 \/ 2 * b < length v + 3)%nat) ->
  row_of (v ++ e' :: inv') (v ++ [e']) inv' /\
  row_find (e_mac e') (v ++ e' :: inv') = Some e' /\
  forall m, m <> e_mac e' -> row_find m (v ++ e' :: inv') = row_find m r.
Proof.
  intros Hr He' Hn Hi (b & L & B). assert (row_of (v ++ e' :: inv') (v ++ [e']) inv') as Hr'.
  { apply (row_find_fresh r v inv _ Hr) in Hn. split; [by rewrite <- app_assoc| |done| |].
    - apply Forall_app. split; [apply Hr|by constructor].
    - rewrite fmap_app. apply NoDup_app. split; [apply Hr|]. cbn. rewrite NoDup_cons. set_solver by eauto using NoDup_nil_2.
    - exists b. rewrite (length_app v [e']). cbn. split; [done|]. lia. }
  split; [done|]. split; [apply (row_find_iff _ _ _ _ _ Hr'); set_solver|].
  intros m Hm. apply opt_ext. intros x. rewrite (row_find_iff _ _ _ _ _ Hr'), (row_find_iff _ _ _ _ _ Hr). set_solver.
Qed.

(** ** Learning *)

Definition expired (now : Z) (e : c_l2fdb_ent) : Prop := e_timestamp e + C_FDB_HTIMEO + 10 < now.

Lemma learn_scan_spec now mac l : forall i emp evict,
  match learn_scan now mac l i emp evict with
  | Found q => exists d e, q = (i + d)%nat /\ l !! d = Some e /\ e_valid e = true /\ e_mac e = mac
  | Missing emp' evict' =>
      (forall e, e ∈ l -> e_valid e = true -> e_mac e <> mac) /\
      match emp' with
      | Some q => emp = Some q \/ emp = None /\ exists d e, q = (i + d)%nat /\ l !! d = Some e /\ e_valid e = false /\
                    valids (take d l)
      | None => emp = None /\ valids l
      end /\
      match evict' with
      | Some q => evict = Some q \/ exists d e, q = (i + d)%nat /\ l !! d = Some e /\ e_valid e = true /\ expired now e
      | None => evict = None
      end
  end.
Proof.
  induction l as [|e l IH]; intros i emp evict; cbn [learn_scan].
  { split_and!; [set_solver|destruct emp; [by left|done]|destruct evict; [by left|done]]. }
  destruct (e_valid e) eqn:V; cbn [negb].
  - destruct (c_l2fdb_equal mac (e_mac e)) eqn:Eq.
    { apply bool_decide_eq_true in Eq. exists 0%nat, e. split_and!; [lia|done..]. }
    apply bool_decide_eq_false in Eq. set (ev := match evict with None => _ | _ => _ end).
    specialize (IH (S i) emp ev). destruct (learn_scan now mac l (S i) emp ev) as [q|emp' evict'].
    { destruct IH as (d & x & -> & H). exists (S d), x. split; [lia|done]. }
    destruct IH as (H1 & H2 & H3). split_and!.
    + intros x [->|Hx]%elem_of_cons; [by intros _ ?; apply Eq|by apply H1].
    + destruct emp' as [q|]; [|by destruct H2; split; [|constructor]].
      destruct H2 as [H2|(H2 & d & x & -> & Hx & Hv & Ht)]; [by left|right]. split; [done|].
      exists (S d), x. split_and!; [lia|done|done|by constructor].
    + destruct evict' as [q|].
      * destruct H3 as [H3|(d & x & -> & Hx)]; [|right; exists (S d), x; split; [lia|done]].
        unfold ev in H3. destruct evict as [q'|]; [by left|]. destruct (_ <? _) eqn:Lt; [|done]. injection H3 as <-.
        right. exists 0%nat, e. apply Z.ltb_lt in Lt. split_and!; [lia|done..].
      * unfold ev in H3. by destruct evict.
  - specialize (IH (S i) (match emp with None => Some i | _ => emp end) evict).
    destruct (learn_scan now mac l (S i) _ evict) as [q|emp' evict'].
    { destruct IH as (d & x & -> & H). exists (S d), x. split; [lia|done]. }
    destruct IH as (H1 & H2 & H3). split_and!.
    + intros x [->|Hx]%elem_of_cons; [congruence|by apply H1].
    + destruct emp' as [q|]; [|by destruct emp, H2].
      destruct emp as [q'|]; [destruct H2 as [H2|[H2 _]]; [by left|done]|]. right. split; [done|].
      destruct H2 as [[= <-]|[H2 _]]; [|done]. exists 0%nat, e. split_and!; [lia|done|done|constructor].
    + destruct evict' as [q|]; [|done]. destruct H3 as [H3|(d & x & -> & Hx)]; [by left|].
      right. exists (S d), x. split; [lia|done].
Qed.

Section LEARN.
Context (c : Ha.ctrl_hdl).

(** What learning [mac] at [port] sends, given the entry found for it and the one evicted. *)
Definition learn_msgs (mac : list Z) (port : Z) (old ev : option c_l2fdb_ent) : list fp_msg :=
  match old with
  | Some e => if e_port e =? port then [] else to_switch c [FpDel mac] ++ to_switch c [FpAdd mac port NO_BUFFER]
  | None => match ev with
            | Some e => if e_installed e then to_switch c [FpDel (e_mac e)] else []
            | None => []
            end
  end.

(** The entry [ev] that may be evicted: it is expired and [mac] has none. *)
Definition evicts (now : Z) (mac : list Z) (find : list Z -> option c_l2fdb_ent) (ev : option c_l2fdb_ent) : Prop :=
  match ev with
  | Some e => find (e_mac e) = Some e /\ expired now e /\ find mac = None
  | None => True
  end.

(** What is found after learning. *)
Record learns (now : Z) (mac : list Z) (port : Z) (find find' : list Z -> option c_l2fdb_ent) (ev : option c_l2fdb_ent)
    : Prop := {
  ln_new : exists e, find' mac = Some e /\ e_timestamp e = now /\
             e_port e = if find mac is Some _ then port else u16 port;
  ln_other : forall m, m <> mac -> find' m = if bool_decide (Some m = e_mac <$> ev) then None else find m }.

Lemma row_split r v inv i e : row_of r v inv -> r !! i = Some e -> e_valid e = true ->
  exists a b, v = a ++ e :: b /\ r = a ++ e :: b ++ inv /\ i = length a.
Proof.
  intros Hr Hi He. assert (v !! i = Some e) as Hv.
  { rewrite (ro_eq _ _ _ Hr) in Hi. apply lookup_app_Some in Hi as [Hi|[_ Hi]]; [done|].
    pose proof (proj1 (Forall_forall _ _) (ro_inv _ _ _ Hr) e (list_elem_of_lookup_2 _ _ _ Hi)). congruence. }
  apply list_elem_of_split_length in Hv as (a & b & -> & ->). exists a, b.
  split_and!; [done|rewrite (ro_eq _ _ _ Hr); by rewrite <- app_assoc|done].
Qed.

(** The first entry that is not valid follows the valid ones. *)
Lemma first_free r v inv d e : row_of r v inv -> r !! d = Some e -> e_valid e = false -> valids (take d r) ->
  exists inv', r = v ++ e :: inv' /\ invalids inv' /\ d = length v.
Proof.
  intros [-> V I _ _] Hd He Ht. destruct (Nat.lt_trichotomy d (length v)) as [H|[->|H]].
  - rewrite lookup_app_l in Hd by done.
    pose proof (proj1 (Forall_forall _ _) V e (list_elem_of_lookup_2 _ _ _ Hd)). congruence.
  - rewrite lookup_app_r, Nat.sub_diag in Hd by lia. destruct inv as [|x l]; [done|]. injection Hd as ->.
    exists l. by apply Forall_cons in I as [_ ?].
  - rewrite take_app_ge in Ht by lia. apply Forall_app in Ht as [_ Ht].
    apply lookup_app_Some in Hd as [Hd|[_ Hd]]; [apply lookup_lt_Some in Hd; lia|].
    destruct inv as [|x l]; [done|]. apply Forall_cons in I as [I _].
    destruct (d - length v)%nat eqn:E; [lia|]. cbn in Ht. apply Forall_cons in Ht as [Ht _]. congruence.
Qed.

Section ROW.
Context (now : Z) (mac : list Z) (port : Z) (r v inv : row) (Hr : row_of r v inv).

(** The row learned [mac]. *)
Definition row_learned (res : option (row * list fp_msg)) : Prop :=
  exists r' v' inv' ev, res = Some (r', learn_msgs mac port (row_find mac r) ev) /\ row_of r' v' inv' /\
    evicts now mac (fun m => row_find m r) ev /\ learns now mac port (fun m => row_find m r) (fun m => row_find m r') ev.

Lemma learn_found i e : r !! i = Some e -> e_valid e = true -> e_mac e = mac ->
  row_learned (let '(e, l) := if e_port e =? port then (e, []) else c_l2fdb_install c (set_e_port port e) in
               Some (<[i := set_e_time now e]> r, l)).
Proof.
  intros Hd Hv Hm. destruct (row_split r v inv i e Hr Hd Hv) as (a & b & Ev & Er & ->). rewrite Ev in Hr.
  assert (row_find mac r = Some e) as Hf by (apply (row_find_iff _ _ _ _ _ Hr); set_solver).
  set (x := if e_port e =? port then _ else _).
  assert (x = (mk_ent (e_timestamp e) port true (e_installed x.1) mac, learn_msgs mac port (Some e) None)) as Ex.
  { unfold x, c_l2fdb_install, learn_msgs. destruct e as [t p w s m]. cbn in *. subst w m.
    destruct (Z.eqb_spec p port) as [->|]; done. }
  rewrite Ex. cbv beta iota. set (e' := set_e_time now _). unfold row_learned.
  destruct (replace_ent r a e b inv e') as (R1 & R2 & R3); [done|done| |].
  { pose proof (ro_nodup _ _ _ Hr) as N. rewrite fmap_app, fmap_cons in N.
    apply NoDup_app in N as (N1 & N2 & [N3 N4]%NoDup_cons). cbn [e' set_e_time e_mac]. rewrite fmap_app. set_solver. }
  exists (a ++ e' :: b ++ inv), (a ++ e' :: b), inv, None. rewrite Hf.
  split_and!; [f_equal; f_equal; rewrite Er; by rewrite insert_mid|done|done|split].
  - exists e'. by rewrite Hf.
  - intros m Hne. rewrite R3 by done. by rewrite bool_decide_false by congruence.
Qed.

Lemma learn_append inv' e' : row_find mac r = None -> e_valid e' = true -> e_mac e' = mac -> e_timestamp e' = now ->
  e_port e' = u16 port -> invalids inv' ->
  (exists b, length (v ++ e' :: inv') = (2 * b)%nat /\ (0 < b)%nat /\ (b = 1 \/ 2 * b < length v + 3)%nat) ->
  row_learned (Some (v ++ e' :: inv', [])).
Proof.
  intros Hf Hv Hm Ht Hp Hi Hb. rewrite <- Hm in Hf. destruct (append_ent r v inv inv' e') as (R1 & R2 & R3); [done..|].
  rewrite Hm in *. exists (v ++ e' :: inv'), (v ++ [e']), inv', None. rewrite Hf. split_and!; [done..|split].
  - exists e'. by rewrite Hf.
  - intros m Hne. rewrite bool_decide_false by done. by apply R3.
Qed.

Lemma learn_evict i e : row_find mac r = None -> r !! i = Some e -> e_valid e = true -> expired now e ->
  row_learned (let '(e, l) := c_l2fdb_evict c now mac port e in Some (<[i := e]> r, l)).
Proof.
  intros Hf Hd Hv Hx. destruct (row_split r v inv i e Hr Hd Hv) as (a & b & Ev & Er & ->).
  pose proof (proj1 (row_find_fresh r v inv mac Hr) Hf) as Hn. rewrite Ev in Hr, Hn.
  assert (row_find (e_mac e) r = Some e) as Hfe by (apply (row_find_iff _ _ _ _ _ Hr); set_solver).
  set (x := c_l2fdb_evict c now mac port e).
  assert (x = (mk_ent now (u16 port) true (e_installed x.1) mac, learn_msgs mac port None (Some e))) as Ex.
  { unfold x, c_l2fdb_evict, c_l2fdb_uninstall, learn_msgs, c_l2fdb_ent_init.
    assert (u16 (u16 port) = u16 port) as -> by (unfold u16; by rewrite Z.mod_mod). by destruct (e_installed e). }
  rewrite Ex. cbv beta iota. set (e' := mk_ent now _ _ _ _).
  destruct (replace_ent r a e b inv e') as (R1 & R2 & R3); [done|done| |].
  { rewrite fmap_app, fmap_cons in Hn. rewrite fmap_app. cbn [e' e_mac]. set_solver. }
  exists (a ++ e' :: b ++ inv), (a ++ e' :: b), inv, (Some e). rewrite Hf.
  split_and!; [f_equal; f_equal; rewrite Er; by rewrite insert_mid|done|done|split].
  - exists e'. by rewrite Hf.
  - intros m Hne. rewrite R3 by done. cbn. case_bool_decide as B1; case_bool_decide as B2; congruence.
Qed.

Lemma learn_row_spec : row_learned (learn_row c now mac port r).
Proof.
  unfold learn_row. pose proof (learn_scan_spec now mac r 0 None None) as Hs.
  destruct (learn_scan now mac r 0 None None) as [q|emp evict].
  { destruct Hs as (d & e & -> & Hd & Hv & Hm). cbn [Nat.add]. rewrite Hd, obind_some. by apply learn_found. }
  destruct Hs as (Hno & He & Hev). destruct (ro_len _ _ _ Hr) as (b & L & B0 & B1).
  assert (row_find mac r = None) as Hf.
  { destruct (row_find mac r) as [e|] eqn:E; [|done]. apply (row_find_iff _ _ _ _ _ Hr) in E as [Hi Hm].
    destruct (Hno e); [rewrite (ro_eq _ _ _ Hr); set_solver|by apply (proj1 (Forall_forall _ _) (ro_valid _ _ _ Hr))|done]. }
  destruct emp as [q|].
  - destruct He as [|(_ & d & e & -> & Hd & Hv & Ht)]; [done|]. cbn [Nat.add]. rewrite Hd, obind_some.
    destruct (first_free r v inv d e Hr Hd Hv Ht) as (inv' & Er & I' & ->).
    rewrite Er, insert_mid by done. apply learn_append; [done..|].
    exists b. rewrite Er, length_app in L. rewrite length_app. cbn in *. split; [done|]. lia.
  - destruct He as [_ Hv]. assert (inv = []) as Ei.
    { destruct inv as [|x l] eqn:E; [done|]. rewrite (ro_eq _ _ _ Hr) in Hv.
      pose proof (ro_inv _ _ _ Hr) as [I _]%Forall_cons. apply Forall_app in Hv as [_ [Hx _]%Forall_cons]. congruence. }
    destruct evict as [q|].
    + destruct Hev as [|(d & e & -> & Hd & He & Hx)]; [done|]. cbn [Nat.add]. rewrite Hd, obind_some. by apply learn_evict.
    + assert (r = v) as Erv by (rewrite (ro_eq _ _ _ Hr), Ei; by rewrite app_nil_r). rewrite Erv.
      apply learn_append; [done..|by repeat constructor|]. exists (S b). rewrite Erv in L. rewrite length_app. cbn. lia.
Qed.
End ROW.
End LEARN.

(** ** The table *)

Section TABLE.
Context (n : nat) (c : Ha.ctrl_hdl).
Notation SZ := (Z.of_nat n).
Notation key := (c_l2fdb_key SZ).

Definition row_ok (i : nat) (r : row) : Prop :=
  exists v inv, row_of r v inv /\ Forall (fun e => key (e_mac e) = Z.of_nat i) v.

(** The table has its size, and every entry is in the row of its address. *)
Record tbl_ok (t : list row) : Prop := {
  to_pos : (0 < n)%nat; to_len : length t = n; to_row : forall i r, t !! i = Some r -> row_ok i r }.

(** The entry that the table holds for an address. *)
Definition fdb (t : list row) (mac : list Z) : option c_l2fdb_ent := r ← aget t (key mac); row_find mac r.

Lemma tbl_row t mac : tbl_ok t ->
  exists k r, key mac = Z.of_nat k /\ t !! k = Some r /\ aget t (key mac) = Some r /\ row_ok k r.
Proof.
  intros [P L R]. assert (0 <= key mac < SZ) as [K0 K1] by (apply Z.mod_pos_bound; lia).
  destruct (lookup_lt_is_Some_2 t (Z.to_nat (key mac))) as [r Hr]; [lia|].
  exists (Z.to_nat (key mac)), r. rewrite Z2Nat.id by done. split_and!; [done|done| |by apply R].
  rewrite <- (Z2Nat.id (key mac)) at 1 by done. by rewrite aget_nat.
Qed.

(** Changing a row. *)
Lemma tbl_set t k r r' : tbl_ok t -> t !! k = Some r -> row_ok k r' ->
  aset t (Z.of_nat k) r' = Some (<[k := r']> t) /\ tbl_ok (<[k := r']> t) /\
  forall m, fdb (<[k := r']> t) m = if key m =? Z.of_nat k then row_find m r' else fdb t m.
Proof.
  intros H Hk Hr'. assert (k < length t)%nat as Hlt by (eapply lookup_lt_Some; done).
  split; [by rewrite aset_nat|]. split.
  - destruct H as [P L R]. split; [done|by rewrite length_insert|]. intros i x Hi.
    apply list_lookup_insert_Some in Hi as [(-> & <- & _)|[_ Hi]]; [done|by apply R].
  - intros m. destruct (tbl_row t m H) as (i & x & Ei & Hi & _). unfold fdb. rewrite Ei, !aget_nat.
    destruct (Z.eqb_spec (Z.of_nat i) (Z.of_nat k)) as [->%Nat2Z.inj|Ne].
    + rewrite list_lookup_insert_eq by done. done.
    + rewrite list_lookup_insert_ne by (intros ->; done). done.
Qed.

(** What a row holds is what the table holds for the addresses of that row. *)
Lemma row_fdb t k r m e : tbl_ok t -> t !! k = Some r -> row_find m r = Some e -> key m = Z.of_nat k /\ fdb t m = Some e.
Proof.
  intros H Hk Hf. destruct (to_row t H k r Hk) as (v & inv & Hr & Hkeys).
  pose proof Hf as [He Hm]%(row_find_iff r v inv m e Hr). rewrite Forall_forall in Hkeys.
  pose proof (Hkeys e He) as Km. rewrite Hm in Km. split; [done|]. unfold fdb. by rewrite Km, aget_nat, Hk.
Qed.

Lemma fdb_row t k r m : t !! k = Some r -> key m = Z.of_nat k -> fdb t m = row_find m r.
Proof. intros Hk Km. unfold fdb. by rewrite Km, aget_nat, Hk. Qed.

(** Learning, for the table. *)
Lemma learn_tbl now mac port s t : app_flow_tbl s = Some t -> tbl_ok t ->
  exists t' ev, c_l2fdb_learn SZ c now mac port s =
      Some (emit (learn_msgs c mac port (fdb t mac) ev) (set_tbl (Some t') s)) /\ tbl_ok t' /\
    evicts now mac (fdb t) ev /\ learns now mac port (fdb t) (fdb t') ev.
Proof.
  intros Hs Ht. unfold c_l2fdb_learn. rewrite Hs, obind_some.
  destruct (tbl_row t mac Ht) as (k & r & Ek & Hk & Hg & v & inv & Hr & Hkeys). rewrite Hg, obind_some.
  destruct (learn_row_spec c now mac port r v inv Hr) as (r' & v' & inv' & ev & E & Hr' & Hev & [Hn Ho]).
  rewrite E, obind_some. rewrite (fdb_row t k r mac Hk Ek). rewrite Ek.
  assert (row_ok k r') as Hok.
  { exists v', inv'. split; [done|]. apply Forall_forall. intros e He.
    destruct (decide (e_mac e = mac)) as [->|Ne]; [done|].
    pose proof (proj2 (row_find_iff r' v' inv' (e_mac e) e Hr') (conj He eq_refl)) as Hf. rewrite (Ho _ Ne) in Hf.
    case_bool_decide; [done|]. by apply (row_fdb t k r) in Hf as []. }
  destruct (tbl_set t k r r' Ht Hk Hok) as (Ea & Hok' & Hf'). rewrite Ea, obind_some.
  exists (<[k := r']> t), ev. split_and!; [done|done| |split].
  - destruct ev as [e|]; [|done]. destruct Hev as (H1 & H2 & H3). cbn.
    destruct (row_fdb t k r _ e Ht Hk H1) as [_ F]. by rewrite (fdb_row t k r mac Hk Ek).
  - rewrite Hf', Ek, Z.eqb_refl. by rewrite (fdb_row t k r mac Hk Ek).
  - intros m Ne. rewrite Hf'. destruct (Z.eqb_spec (key m) (Z.of_nat k)) as [Km|Km].
    { rewrite (Ho m Ne). case_bool_decide; [done|]. by rewrite (fdb_row t k r m Hk Km). }
    rewrite bool_decide_false; [done|]. destruct ev as [e|]; [|done]. intros [= ->]. destruct Hev as (H1 & _).
    by destruct (row_fdb t k r _ e Ht Hk H1).
Qed.

(** *** Aging *)

Section AGE.
Context (now port : Z) (check_port : bool) (ports : gmap Z c_port).
Notation gone := (port_gone ports port check_port).

(** What is left of an entry, and the deletions sent for it. *)
Definition survives (o : option c_l2fdb_ent) : option c_l2fdb_ent :=
  e ← o; if aged now e || gone e then None else Some e.
Definition dels (t : list row) (P : list Z -> Prop) (x : fp_msg) : Prop :=
  exists e, fdb t (e_mac e) = Some e /\ P (e_mac e) /\ gone e = true /\ x ∈ to_switch c [FpDel (e_mac e)].

Lemma age_row_find r v inv : row_of r v inv ->
  exists r' v' inv' l, age_row c now gone r = Some (r', l) /\ row_of r' v' inv' /\ v' ⊆ v /\
    (forall m, row_find m r' = survives (row_find m r)) /\
    forall x, x ∈ l <-> exists e, row_find (e_mac e) r = Some e /\ gone e = true /\ x ∈ to_switch c [FpDel (e_mac e)].
Proof.
  intros Hr. destruct (age_row_spec c now gone r v inv Hr) as (inv' & E & Hr'). eexists _, _, inv', _.
  split; [exact E|]. split; [exact Hr'|]. split_and!.
  - intros e [_ He]%list_elem_of_filter. done.
  - intros m. apply opt_ext. intros e. rewrite (row_find_iff _ _ _ _ _ Hr'), list_elem_of_filter. unfold survives.
    split.
    + intros [[K He] Hm]. rewrite (proj2 (row_find_iff r v inv m e Hr)) by done. cbn. unfold kept in K. by rewrite K.
    + intros (x & Hx & Hs)%bind_Some. apply (row_find_iff r v inv m x Hr) in Hx as [Hx Hm].
      destruct (aged now x || gone x) eqn:K; [done|]. by injection Hs as ->.
  - intros x. unfold gone_msgs. rewrite list_elem_of_In, in_flat_map. split.
    + intros (e & He%list_elem_of_In & Hx). destruct (gone e) eqn:G; [|done]. exists e.
      split; [by apply (row_find_iff r v inv _ e Hr)|]. split; [done|by apply list_elem_of_In].
    + intros (e & He & G & Hx). apply (row_find_iff r v inv _ e Hr) in He as [He _]. exists e.
      split; [by apply list_elem_of_In|]. rewrite G. by apply list_elem_of_In.
Qed.

Lemma age_tbl_spec t : tbl_ok t ->
  exists t' l, age_tbl SZ c now port check_port ports t = Some (t', l) /\ tbl_ok t' /\
    (forall m, fdb t' m = survives (fdb t m)) /\ forall x, x ∈ l <-> dels t (fun _ => True) x.
Proof.
  intros Ht. unfold age_tbl.
  destruct (for_range_inv (fun i '(t', l) => tbl_ok t' /\
    (forall m, fdb t' m = if key m <? Z.of_nat i then survives (fdb t m) else fdb t m) /\
    (forall j, (i <= j)%nat -> t' !! j = t !! j) /\
    forall x, x ∈ l <-> dels t (fun m => key m < Z.of_nat i) x) (fun i '(t, l) =>
    r ← aget t i; '(r, l') ← age_row c now gone r; t ← aset t i r; Some (t, l ++ l')) n (t, []))
    as ([t' l] & E & Ht' & Hf & _ & Hl).
  - split_and!; [done| |done|].
    + intros m. destruct (tbl_row t m Ht) as (k & r & -> & _). destruct (Z.ltb_spec (Z.of_nat k) (Z.of_nat 0)); [lia|done].
    + intros x. split; [by intros ?%elem_of_nil|]. intros (e & _ & Hk & _).
      destruct (tbl_row t (e_mac e) Ht) as (k & r & Ek & _). lia.
  - intros i [t' l] Hi (Ht' & Hf & Hsame & Hl). rewrite aget_nat.
    destruct (lookup_lt_is_Some_2 t i) as [r Hr]; [rewrite (to_len t Ht); done|].
    pose proof (Hsame i (le_n _)) as Hi'. rewrite Hr in Hi'. rewrite Hi', obind_some.
    destruct (to_row t Ht i r Hr) as (v & inv & Hrow & Hkeys).
    destruct (age_row_find r v inv Hrow) as (r' & v' & inv' & l' & Ea & Hrow' & Hsub & Hfind & Hmsg).
    rewrite Ea, obind_some.
    assert (row_ok i r') as Hok.
    { exists v', inv'. split; [done|]. rewrite Forall_forall in Hkeys |- *. intros e He. by apply Hkeys, Hsub. }
    destruct (tbl_set t' i r r' Ht' Hi' Hok) as (Es & Hok' & Hf'). rewrite Es, obind_some.
    eexists. split; [done|]. split_and!; [done| | |].
    + intros m. rewrite Hf'. destruct (Z.eqb_spec (key m) (Z.of_nat i)) as [K|K].
      * rewrite Hfind, <- (fdb_row t i r m Hr K). destruct (Z.ltb_spec (key m) (Z.of_nat (S i))); [done|lia].
      * rewrite Hf. destruct (Z.ltb_spec (key m) (Z.of_nat i)), (Z.ltb_spec (key m) (Z.of_nat (S i))); done || lia.
    + intros j Hj. rewrite list_lookup_insert_ne by lia. apply Hsame. lia.
    + intros x. rewrite elem_of_app, Hl, Hmsg. unfold dels. split.
      * intros [(e & He & K & G)|(e & He & G)]; exists e; [split_and!; [done|lia|apply G..]|].
        destruct (row_fdb t i r _ e Ht Hr He) as [K F]. split_and!; [done|lia|apply G..].
      * intros (e & He & K & G). destruct (decide (key (e_mac e) = Z.of_nat i)) as [K'|K'].
        -- right. exists e. by rewrite <- (fdb_row t i r _ Hr K').
        -- left. exists e. split_and!; [done|lia|apply G..].
  - exists t', l. split_and!; [done|done| |].
    + intros m. rewrite Hf. destruct (tbl_row t m Ht) as (k & r & -> & Hk & _). apply lookup_lt_Some in Hk.
      rewrite (to_len t Ht) in Hk. destruct (Z.ltb_spec (Z.of_nat k) (Z.of_nat n)); [done|lia].
    + intros x. rewrite Hl. split; intros (e & He & K & G); exists e; split_and!; try done; try apply G.
      destruct (tbl_row t (e_mac e) Ht) as (k & r & -> & Hk & _). apply lookup_lt_Some in Hk.
      rewrite (to_len t Ht) in Hk. lia.
Qed.
End AGE.

(** *** Lookup *)

(** An entry of a row changed, with its address. *)
Lemma tbl_touch t mac i e e' k r : tbl_ok t -> key mac = Z.of_nat k -> t !! k = Some r ->
  r !! i = Some e -> e_valid e = true -> e_mac e = mac -> e_valid e' = true -> e_mac e' = mac ->
  aset t (key mac) (<[i := e']> r) = Some (<[k := <[i := e']> r]> t) /\ tbl_ok (<[k := <[i := e']> r]> t) /\
  forall m, fdb (<[k := <[i := e']> r]> t) m = if bool_decide (m = mac) then Some e' else fdb t m.
Proof.
  intros Ht Ek Hk Hi Hv Hm Hv' Hm'. destruct (to_row t Ht k r Hk) as (v & inv & Hr & Hkeys).
  destruct (row_split r v inv i e Hr Hi Hv) as (a & b & -> & Er & ->).
  destruct (replace_ent r a e b inv e') as (R1 & R2 & R3); [done|done| |].
  { pose proof (ro_nodup _ _ _ Hr) as N. rewrite fmap_app, fmap_cons in N.
    apply NoDup_app in N as (N1 & N2 & [N3 N4]%NoDup_cons). rewrite fmap_app, Hm', <- Hm. set_solver. }
  assert (<[length a := e']> r = a ++ e' :: b ++ inv) as -> by (rewrite Er; by apply insert_mid).
  assert (row_ok k (a ++ e' :: b ++ inv)) as Hok.
  { exists (a ++ e' :: b), inv. split; [done|]. apply Forall_app in Hkeys as [Ka [_ Kb]%Forall_cons].
    apply Forall_app. split; [done|]. constructor; [by rewrite Hm'|done]. }
  destruct (tbl_set t k r _ Ht Hk Hok) as (Ea & Hok' & Hf). rewrite Ek, Ea. split_and!; [done|done|].
  intros m. rewrite Hf, Hm', Hm in *. case_bool_decide as Em.
  - subst m. by rewrite Ek, Z.eqb_refl.
  - destruct (Z.eqb_spec (key m) (Z.of_nat k)) as [K|K]; [|done].
    rewrite R3, (fdb_row t k r m Hk K) by done. by rewrite bool_decide_false.
Qed.

(** A lookup finds what the table holds and renews its time. *)
Lemma lookup_tbl now mac s t : app_flow_tbl s = Some t -> tbl_ok t ->
  match fdb t mac with
  | None => c_l2fdb_lookup SZ now mac s = Some (None, s)
  | Some e => exists k i r t', c_l2fdb_lookup SZ now mac s = Some (Some i, set_tbl (Some t') s) /\ tbl_ok t' /\
      key mac = Z.of_nat k /\ t' !! k = Some r /\ r !! i = Some (set_e_time now e) /\ e_valid e = true /\ e_mac e = mac /\
      forall m, fdb t' m = if bool_decide (m = mac) then Some (set_e_time now e) else fdb t m
  end.
Proof.
  intros Hs Ht. destruct (tbl_row t mac Ht) as (k & r & Ek & Hk & Hg & v & inv & Hr & _).
  rewrite (fdb_row t k r mac Hk Ek). unfold c_l2fdb_lookup. rewrite Hs, obind_some, Hg, obind_some. unfold row_find.
  pose proof (lookup_row_spec mac r 0) as L. destruct (lookup_row mac r 0) as [q|]; [|done].
  destruct L as (d & e & -> & Hd & Hv & Hm). cbn [Nat.add]. rewrite obind_some, Hd, obind_some.
  destruct (tbl_touch t mac d e (set_e_time now e) k r) as (Ea & Hok & Hf); [done..|]. rewrite Ea, obind_some.
  assert (k < length t)%nat by (eapply lookup_lt_Some; done). assert (d < length r)%nat by (eapply lookup_lt_Some; done).
  exists k, d, (<[d := set_e_time now e]> r), (<[k := <[d := set_e_time now e]> r]> t).
  split_and!; [done|done|done|by apply list_lookup_insert_eq|by apply list_lookup_insert_eq|done|done|done].
Qed.

(** ** What the fast path does *)

(** A packet is not for the fast path. *)
Definition passed_up (k : packet) : bool :=
  negb (is_broadcast_ether_addr (dl_dst k)) && is_multicast_ether_addr (dl_dst k).

(** What is sent for a packet whose destination has the entry [o]. *)
Definition fwd_msgs (k : packet) (o : option c_l2fdb_ent) : list fp_msg :=
  let len := if buffer_id k =? NO_BUFFER then pkt_len k else 0 in
  match o with
  | None => [FpOut (buffer_id k) (in_port k) OF_ALL_PORTS len]
  | Some e => to_switch c [FpAdd (dl_dst k) (e_port e) (buffer_id k)] ++
      if buffer_id k =? NO_BUFFER then [FpOut (buffer_id k) (in_port k) (e_port e) len] else []
  end.

(** The state after an operation: the lock is free again. *)
Definition fp_after (s : fp_switch) (t : list row) (l : list fp_msg) : fp_switch :=
  mk_fp (Some t) false (sw_ports s) (fp_tx s ++ l).

Definition accepted (loop_en : bool) (loop_status : Z) (k : packet) (s : fp_switch) : Prop :=
  loop_en && (loop_status =? C_LOOP_STATE_NONE) = false /\ dl_type k <> ETH_TYPE_LLDP /\
  blocked loop_en s (in_port k) = false.

Lemma lrn_fwd_accepted now loop_en loop_status k s t :
  app_flow_tbl s = Some t -> fp_lock s = false -> tbl_ok t -> accepted loop_en loop_status k s ->
  exists t1 ev t2, tbl_ok t1 /\ evicts now (dl_src k) (fdb t) ev /\
    learns now (dl_src k) (in_port k) (fdb t) (fdb t1) ev /\ tbl_ok t2 /\
    (forall m, fdb t2 m = if bool_decide (m = dl_dst k) && negb (passed_up k)
                          then set_e_inst true ∘ set_e_time now <$> fdb t1 m else fdb t1 m) /\
    c_l2_lrn_fwd SZ c now loop_en loop_status k s =
      Some (0, fp_after s t2 (learn_msgs c (dl_src k) (in_port k) (fdb t (dl_src k)) ev ++
        if passed_up k then [FpSlow (in_port k)] else fwd_msgs k (fdb t1 (dl_dst k)))).
Proof.
  intros Hs Hl Ht (A1 & A2 & A3). unfold c_l2_lrn_fwd. rewrite A1. apply Z.eqb_neq in A2. rewrite A2.
  unfold c_wr_lock. rewrite Hl, obind_some. change (blocked loop_en (set_lock true s)) with (blocked loop_en s). rewrite A3.
  destruct (learn_tbl now (dl_src k) (in_port k) (set_lock true s) t) as (t1 & ev & E & Ht1 & Hev & Hln); [done|done|].
  rewrite E, obind_some. clear E. set (lm := learn_msgs _ _ _ _ _). set (s1 := emit lm _).
  exists t1, ev. fold (passed_up k). destruct (passed_up k) eqn:Ep.
  { exists t1. split_and!; [done..| |].
    - intros m. by rewrite andb_false_r.
    - cbn. unfold emit, fp_after. cbn. by rewrite <- app_assoc. }
  pose proof (lookup_tbl now (dl_dst k) s1 t1 eq_refl Ht1) as Hlk.
  destruct (fdb t1 (dl_dst k)) as [e|] eqn:Ef.
  - destruct Hlk as (j & i & r & t' & El & Ht' & Ek & Hj & Hi & Hv & Hm & Hf). rewrite El, obind_some. cbv beta iota.
    cbn [app_flow_tbl set_tbl]. rewrite obind_some, Ek, aget_nat, Hj, obind_some, Hi, obind_some.
    destruct (tbl_touch t' (dl_dst k) i (set_e_time now e) (set_e_inst true (set_e_time now e)) j r) as (Ea & Hok & Hf');
      [done..|].
    rewrite Ek in Ea. rewrite Ea, obind_some. exists (<[j := <[i := set_e_inst true (set_e_time now e)]> r]> t').
    split_and!; [done..| |].
    + intros m. rewrite Hf', Hf. case_bool_decide as Em; [|done]. subst m. by rewrite Ef.
    + cbn. unfold emit, fp_after. cbn. destruct (buffer_id k =? NO_BUFFER); cbn; rewrite ?app_nil_r, <- !app_assoc; done.
  - rewrite Hlk, obind_some. exists t1. split_and!; [done..| |].
    + intros m. cbn. rewrite andb_true_r. case_bool_decide as Em; [|done]. subst m. by rewrite Ef.
    + cbn. unfold emit, fp_after. cbn. by rewrite <- app_assoc.
Qed.

Lemma lrn_fwd_rejected now le ls k s : fp_lock s = false ->
  le && (ls =? C_LOOP_STATE_NONE) = true \/ dl_type k <> ETH_TYPE_LLDP /\ blocked le s (in_port k) = true ->
  c_l2_lrn_fwd SZ c now le ls k s = Some (-1, s).
Proof.
  intros Hl H. unfold c_l2_lrn_fwd. destruct (le && _); [done|]. destruct H as [|[A%Z.eqb_neq B]]; [done|].
  unfold c_wr_lock. rewrite A, Hl, obind_some. change (blocked le (set_lock true s)) with (blocked le s).
  rewrite B. destruct s. cbn in *. by subst.
Qed.

Lemma lrn_fwd_lldp now le ls k s : le && (ls =? C_LOOP_STATE_NONE) = false -> dl_type k = ETH_TYPE_LLDP ->
  c_l2_lrn_fwd SZ c now le ls k s = Some (0, emit [FpSlow (in_port k)] s).
Proof. intros A B. unfold c_l2_lrn_fwd. by rewrite A, B. Qed.

Lemma lrn_fwd_cases now le ls k s : fp_lock s = false ->
  c_l2_lrn_fwd SZ c now le ls k s = Some (-1, s) \/
  c_l2_lrn_fwd SZ c now le ls k s = Some (0, emit [FpSlow (in_port k)] s) \/ accepted le ls k s.
Proof.
  intros Hl. destruct (le && (ls =? C_LOOP_STATE_NONE)) eqn:A; [left; apply lrn_fwd_rejected; auto|].
  destruct (decide (dl_type k = ETH_TYPE_LLDP)) as [B|B]; [right; left; by apply lrn_fwd_lldp|].
  destruct (blocked le s (in_port k)) eqn:D; [left; apply lrn_fwd_rejected; auto|]. by right; right.
Qed.

(** C20: What a packet does to the forwarding database of a switch and what is sent for it, on every branch.  Without converged
    loop detection, or from a blocked port, it is dropped and nothing changes; link discovery goes to the slow path unlearned.
    Otherwise its source is learned: the table then holds the source with the input port and the
    present time, all other addresses as before, except at most one that was expired and made place.  A multicast goes to the slow path;
    a known destination is sent to its port, with a flow for it and its time renewed; an unknown one is
    flooded.  The lock is free at the end in all cases. *)
Theorem l2_forward_spec now loop_en loop_status k s t :
  app_flow_tbl s = Some t -> fp_lock s = false -> tbl_ok t ->
  (loop_en && (loop_status =? C_LOOP_STATE_NONE) = true -> c_l2_lrn_fwd SZ c now loop_en loop_status k s = Some (-1, s)) /\
  (loop_en && (loop_status =? C_LOOP_STATE_NONE) = false -> dl_type k = ETH_TYPE_LLDP ->
     c_l2_lrn_fwd SZ c now loop_en loop_status k s = Some (0, emit [FpSlow (in_port k)] s)) /\
  (dl_type k <> ETH_TYPE_LLDP -> blocked loop_en s (in_port k) = true ->
     c_l2_lrn_fwd SZ c now loop_en loop_status k s = Some (-1, s)) /\
  (accepted loop_en loop_status k s ->
     exists t1 ev t2, tbl_ok t1 /\ evicts now (dl_src k) (fdb t) ev /\
       learns now (dl_src k) (in_port k) (fdb t) (fdb t1) ev /\ tbl_ok t2 /\
       (forall m, fdb t2 m = if bool_decide (m = dl_dst k) && negb (passed_up k)
                             then set_e_inst true ∘ set_e_time now <$> fdb t1 m else fdb t1 m) /\
       c_l2_lrn_fwd SZ c now loop_en loop_status k s =
         Some (0, fp_after s t2 (learn_msgs c (dl_src k) (in_port k) (fdb t (dl_src k)) ev ++
           if passed_up k then [FpSlow (in_port k)] else fwd_msgs k (fdb t1 (dl_dst k))))).
Proof.
  intros Hs Hl Ht. split_and!; intros; [apply lrn_fwd_rejected|apply lrn_fwd_lldp|apply lrn_fwd_rejected|apply lrn_fwd_accepted]; auto.
Qed.

Lemma aging_state now port check_port s t : app_flow_tbl s = Some t -> fp_lock s = false -> tbl_ok t ->
  exists t' l, c_l2fdb_aging SZ c now port check_port s = Some (fp_after s t' l) /\ tbl_ok t' /\
    (forall m, fdb t' m = survives now port check_port (sw_ports s) (fdb t m)) /\
    forall x, x ∈ l <-> dels port check_port (sw_ports s) t (fun _ => True) x.
Proof.
  intros Hs Hl Ht. unfold c_l2fdb_aging, c_wr_lock. rewrite Hl, obind_some. cbn [app_flow_tbl set_lock sw_ports]. rewrite Hs.
  destruct (age_tbl_spec now port check_port (sw_ports s) t Ht) as (t' & l & E & H). rewrite E, obind_some.
  exists t', l. split; [done|exact H].
Qed.

(** C21: Aging the forwarding database, which moves entries between the buckets of a chain and releases buckets, removes exactly the
    entries whose time is over, whose port is down or whose port is the one asked for; all
    others are found as before.  Deletions are sent to the switch for exactly the entries
    of the gone ports, and the table keeps its shape. *)
Theorem fdb_aging_spec now port check_port s t : app_flow_tbl s = Some t -> fp_lock s = false -> tbl_ok t ->
  exists t' l, c_l2fdb_aging SZ c now port check_port s = Some (fp_after s t' l) /\ tbl_ok t' /\
    (forall m e, fdb t' m = Some e <->
       fdb t m = Some e /\ aged now e = false /\ port_gone (sw_ports s) port check_port e = false) /\
    forall x, x ∈ l <-> exists e, fdb t (e_mac e) = Some e /\ port_gone (sw_ports s) port check_port e = true /\
                          x ∈ to_switch c [FpDel (e_mac e)].
Proof.
  intros Hs Hl Ht. destruct (aging_state now port check_port s t Hs Hl Ht) as (t' & l & E & Hok & Hf & Hx).
  exists t', l. split_and!; [done|done| |].
  - intros m e. rewrite Hf. unfold survives. rewrite bind_Some. split.
    + intros (e' & He & K). destruct (aged now e') eqn:E1, (port_gone _ _ _ e') eqn:E2; try done. cbn in K.
      by injection K as ->.
    + intros (He & E1 & E2). exists e. by rewrite E1, E2.
  - intros x. rewrite Hx. unfold dels. naive_solver.
Qed.

(** *** Sequences of packets and agings *)

Inductive fp_op :=
  | OpPkt (now : Z) (loop_en : bool) (loop_status : Z) (k : packet)
  | OpAge (now port : Z) (check_port : bool).

Definition run_op (o : fp_op) (s : fp_switch) : option fp_switch :=
  match o with
  | OpPkt now le ls k => '(_, s) ← c_l2_lrn_fwd SZ c now le ls k s; Some s
  | OpAge now port cp => c_l2fdb_aging SZ c now port cp s
  end.
Fixpoint run_ops (l : list fp_op) (s : fp_switch) : option fp_switch :=
  match l with
  | [] => Some s
  | o :: l => s ← run_op o s; run_ops l s
  end.

Section KEEP.
Context (mac : list Z) (p T : Z).

(** What may come while [mac], learned at time [T], stays known at port [p]: packets of other sources, or of
    this one from the same port, and agings that do not concern the port, before the time is over. *)
Definition harmless (ports : gmap Z c_port) (o : fp_op) : Prop :=
  match o with
  | OpPkt now _ _ k => T <= now <= T + C_FDB_HTIMEO + 10 /\ (dl_src k = mac -> in_port k = p)
  | OpAge now port cp => now <= T + C_FDB_HTIMEO + 2 /\ port_gone ports port cp (set_e_port p zero_ent) = false
  end.

Record knows (ports : gmap Z c_port) (s : fp_switch) : Prop := {
  kn_lock : fp_lock s = false; kn_ports : sw_ports s = ports;
  kn_ent : exists t e, app_flow_tbl s = Some t /\ tbl_ok t /\ fdb t mac = Some e /\ e_port e = p /\ T <= e_timestamp e }.

(** Learning keeps it. *)
Lemma learn_keeps now k t t1 ev e :
  evicts now (dl_src k) (fdb t) ev -> learns now (dl_src k) (in_port k) (fdb t) (fdb t1) ev ->
  T <= now <= T + C_FDB_HTIMEO + 10 -> (dl_src k = mac -> in_port k = p) ->
  fdb t mac = Some e -> e_port e = p -> T <= e_timestamp e ->
  exists e1, fdb t1 mac = Some e1 /\ e_port e1 = p /\ T <= e_timestamp e1.
Proof.
  intros Hev [(x & Hx & Tx & Px) Ho] Hn Hp He Ep Et. destruct (decide (mac = dl_src k)) as [Em|Ne].
  - rewrite <- Em, He in *. exists x. split_and!; [done|rewrite Px; by apply Hp|lia].
  - exists e. rewrite (Ho mac Ne). rewrite bool_decide_false; [done|]. destruct ev as [v|]; [|done]. intros [= ->].
    destruct Hev as (H1 & H2 & _). rewrite He in H1. injection H1 as ->. unfold expired in H2. lia.
Qed.

Lemma run_op_keeps ports o s : knows ports s -> harmless ports o -> exists s', run_op o s = Some s' /\ knows ports s'.
Proof.
  intros [L P (t & e & Hs & Ht & He & Ep & Et)] Hh. destruct o as [now le ls k|now port cp]; cbn [run_op].
  - destruct Hh as [Hn Hp]. destruct (lrn_fwd_cases now le ls k s L) as [->|[->|A]].
    + exists s. split; [done|]. split; [done|done|by exists t, e].
    + eexists. split; [done|]. split; [done|done|by exists t, e].
    + destruct (lrn_fwd_accepted now le ls k s t Hs L Ht A) as (t1 & ev & t2 & Ht1 & Hev & Hln & Ht2 & Hf & E).
      rewrite E, obind_some. eexists. split; [done|]. split; [done|done|].
      destruct (learn_keeps now k t t1 ev e) as (e1 & H1 & H2 & H3); [done..|].
      destruct (bool_decide (mac = dl_dst k) && negb (passed_up k)) eqn:B.
      * exists t2, (set_e_inst true (set_e_time now e1)). rewrite Hf, B, H1. split_and!; [done..|cbn; lia].
      * exists t2, e1. by rewrite Hf, B.
  - destruct Hh as [Hn Hp]. destruct (aging_state now port cp s t Hs L Ht) as (t' & l & E & Ht' & Hf & _).
    rewrite E. eexists. split; [done|]. split; [done|done|]. exists t', e. split_and!; [done|done| |done|done].
    rewrite Hf, He. unfold survives. rewrite obind_some.
    assert (port_gone (sw_ports s) port cp e = false) as -> by (rewrite P; unfold port_gone in *; cbn in Hp; by rewrite Ep).
    unfold aged. destruct (Z.ltb_spec (e_timestamp e + C_FDB_HTIMEO + 2) now); [lia|done].
Qed.

Lemma run_ops_keeps ports l : forall s, knows ports s -> Forall (harmless ports) l ->
  exists s', run_ops l s = Some s' /\ knows ports s'.
Proof.
  induction l as [|o l IH]; intros s Hk Hh; cbn [run_ops]; [by exists s|]. apply Forall_cons in Hh as [Ho Hh].
  destruct (run_op_keeps ports o s Hk Ho) as (s1 & E & Hk1). rewrite E, obind_some. by apply IH.
Qed.
End KEEP.

(** A switch learns where a station is and keeps forwarding to it.  After an accepted packet from a station on a
    16-bit port, and after any packets of other stations, packets of this one from the same port, and
    agings that do not concern its port, all within the life time of the entry, an accepted packet
    for the station is sent to that port: its last messages are the forwarding flow and, when the
    switch did not keep the packet, the packet itself. *)
Theorem l2_learned_forwarded T le ls k s t ops now le' ls' k' :
  app_flow_tbl s = Some t -> fp_lock s = false -> tbl_ok t -> 0 <= in_port k < 65536 -> accepted le ls k s ->
  Forall (harmless (dl_src k) (in_port k) T (sw_ports s)) ops ->
  accepted le' ls' k' s -> dl_dst k' = dl_src k -> dl_src k' <> dl_src k -> passed_up k' = false ->
  T <= now <= T + C_FDB_HTIMEO + 10 ->
  exists s1 s2 l e, run_ops (OpPkt T le ls k :: ops) s = Some s1 /\
    c_l2_lrn_fwd SZ c now le' ls' k' s1 = Some (0, s2) /\
    fp_tx s2 = fp_tx s1 ++ l ++ fwd_msgs k' (Some e) /\ e_port e = in_port k.
Proof.
  intros Hs Hl Ht Hp A Hops A' Hd Hne Hup Hnow.
  assert (exists s1, run_ops (OpPkt T le ls k :: ops) s = Some s1 /\
    knows (dl_src k) (in_port k) T (sw_ports s) s1) as (s1 & Hrun & [L P (u & e & Hu & Hok & He & Ep & Et)]).
  { cbn [run_ops run_op].
    destruct (lrn_fwd_accepted T le ls k s t Hs Hl Ht A) as (t1 & ev & t2 & Ht1 & Hev & Hln & Ht2 & Hf & E).
    rewrite E, !obind_some. apply run_ops_keeps; [|done].
    destruct Hln as [(x & Hx & Tx & Px) _]. split; [done|done|].
    assert (e_port x = in_port k) as Px' by (rewrite Px; destruct (fdb t (dl_src k)); [done|apply Z.mod_small; lia]).
    destruct (bool_decide (dl_src k = dl_dst k) && negb (passed_up k)) eqn:B.
    - exists t2, (set_e_inst true (set_e_time T x)). rewrite Hf, B, Hx. split_and!; [done..|cbn; lia].
    - exists t2, x. rewrite Hf, B. split_and!; [done..|lia]. }
  assert (accepted le' ls' k' s1) as A1 by (unfold accepted, blocked in *; by rewrite P).
  destruct (lrn_fwd_accepted now le' ls' k' s1 u Hu L Hok A1) as (t1 & ev & t2 & _ & Hev & Hln & _ & _ & E).
  destruct (learn_keeps (dl_src k) (in_port k) T now k' u t1 ev e) as (e1 & H1 & H2 & H3); [done..|].
  rewrite Hup, Hd, H1 in E. eexists s1, _, _, e1. split; [done|]. split; [exact E|]. done.
Qed.

Lemma init_ok s : (0 < n)%nat -> exists t, app_flow_tbl (c_l2fdb_init SZ s) = Some t /\ tbl_ok t.
Proof.
  intros Hn. eexists. split; [done|]. split; [done|rewrite length_replicate; lia|].
  intros i r (-> & _)%lookup_replicate. exists [], (replicate 2 zero_ent). split; [|constructor].
  split; [done|constructor|by repeat constructor|constructor|exists 1%nat; cbn; lia].
Qed.
End TABLE.
