(* ===== verification/L2FdbEx.v ===== *)
(** * The layer 2 fast path: concrete states *)
From stdpp Require Import base list gmap.
From Stdlib Require Import ZArith Lia.
From S2P Require Import Prelude Ha L2Fdb L2FdbSpec L2FdbThm.
Import L2Fdb.
#[local] Open Scope Z_scope.

(** A master, three stations, a table of one chain that has two buckets, and port 3 down. *)
Definition fx_hdl : Ha.ctrl_hdl := Ha.mk_hdl 2 5 0 0 10 false true false true 0 0 [].
Definition fx_mac (x : Z) : list Z := [0; 16; 0; 0; 0; x].
Definition fx_tbl : list row :=
  [[mk_ent 100 1 true true (fx_mac 1); mk_ent 500 3 true true (fx_mac 2); mk_ent 500 2 true false (fx_mac 3); zero_ent]].
Definition fx_sw : fp_switch := mk_fp (Some fx_tbl) false {[1 := mk_port 0 0 0; 2 := mk_port 0 0 0; 3 := mk_port 1 0 0]} [].
Definition fx_pkt (src dst port : Z) : packet := mk_pkt (fx_mac src) (fx_mac dst) 0x800 NO_BUFFER 64 port.

Lemma fx_tbl_ok : tbl_ok 1 fx_tbl.
Proof.
  split; [lia|done|]. intros [|i] r Hi; [|done]. injection Hi as <-.
  exists [mk_ent 100 1 true true (fx_mac 1); mk_ent 500 3 true true (fx_mac 2); mk_ent 500 2 true false (fx_mac 3)], [zero_ent].
  split; [split; [done|by repeat constructor|by repeat constructor| |exists 2%nat; cbn; lia]|by repeat constructor].
  apply (bool_decide_unpack _). vm_compute. exact I.
Qed.

(** The first entry is over its time and the second one's port is down: one bucket is left, with the third entry. *)
Example fx_aging : c_l2fdb_aging 1 fx_hdl 500 0 false fx_sw =
  Some (fp_after fx_sw [[mk_ent 500 2 true false (fx_mac 3); mk_ent 500 3 false false (fx_mac 2)]] [FpDel (fx_mac 2)]).
Proof. vm_compute. reflexivity. Qed.

Lemma l2_forward_spec_witness :
  exists t1 ev t2, tbl_ok 1 t1 /\ evicts 600 (fx_mac 4) (fdb 1 fx_tbl) ev /\
    learns 600 (fx_mac 4) 70000 (fdb 1 fx_tbl) (fdb 1 t1) ev /\ tbl_ok 1 t2 /\
    (forall m, fdb 1 t2 m = if bool_decide (m = fx_mac 3) && negb (passed_up (fx_pkt 4 3 70000))
                            then set_e_inst true ∘ set_e_time 600 <$> fdb 1 t1 m else fdb 1 t1 m) /\
    c_l2_lrn_fwd 1 fx_hdl 600 false 0 (fx_pkt 4 3 70000) fx_sw =
      Some (0, fp_after fx_sw t2 (learn_msgs fx_hdl (fx_mac 4) 70000 (fdb 1 fx_tbl (fx_mac 4)) ev ++
        if passed_up (fx_pkt 4 3 70000) then [FpSlow 70000] else fwd_msgs fx_hdl (fx_pkt 4 3 70000) (fdb 1 t1 (fx_mac 3)))).
Proof.
  apply (l2_forward_spec 1 fx_hdl 600 false 0 (fx_pkt 4 3 70000) fx_sw fx_tbl eq_refl eq_refl fx_tbl_ok).
  split_and!; vm_compute; congruence.
Defined.

Lemma fdb_aging_spec_witness :
  exists t' l, c_l2fdb_aging 1 fx_hdl 500 0 false fx_sw = Some (fp_after fx_sw t' l) /\ tbl_ok 1 t' /\
    (forall m e, fdb 1 t' m = Some e <->
       fdb 1 fx_tbl m = Some e /\ aged 500 e = false /\ port_gone (sw_ports fx_sw) 0 false e = false) /\
    forall x, x ∈ l <-> exists e, fdb 1 fx_tbl (e_mac e) = Some e /\ port_gone (sw_ports fx_sw) 0 false e = true /\
                          x ∈ to_switch fx_hdl [FpDel (e_mac e)].
Proof. apply (fdb_aging_spec 1 fx_hdl 500 0 false fx_sw fx_tbl); [reflexivity|reflexivity|apply fx_tbl_ok]. Defined.

(** Station 4 is learned at port 1, other packets and an aging follow, then a packet goes to it. *)
Definition fx_ops : list fp_op := [OpPkt 510 false 0 (fx_pkt 3 4 2); OpAge 520 3 true; OpPkt 530 false 0 (fx_pkt 5 6 2)].

Lemma l2_learned_forwarded_witness :
  exists s1 s2 l e, run_ops 1 fx_hdl (OpPkt 500 false 0 (fx_pkt 4 9 1) :: fx_ops) fx_sw = Some s1 /\
    c_l2_lrn_fwd 1 fx_hdl 600 false 0 (fx_pkt 3 4 2) s1 = Some (0, s2) /\
    fp_tx s2 = fp_tx s1 ++ l ++ fwd_msgs fx_hdl (fx_pkt 3 4 2) (Some e) /\ e_port e = 1.
Proof.
  apply (l2_learned_forwarded 1 fx_hdl 500 false 0 (fx_pkt 4 9 1) fx_sw fx_tbl fx_ops 600 false 0 (fx_pkt 3 4 2));
    [reflexivity|reflexivity|apply fx_tbl_ok|cbn; lia|split_and!; vm_compute; congruence| |
     split_and!; vm_compute; congruence|reflexivity|vm_compute; congruence|reflexivity|unfold C_FDB_HTIMEO; lia].
  repeat constructor; vm_compute; congruence.
Defined.

(** The port of a station is stored with 16 bits when it is first learned and with 32 when it moves. *)
Example fx_port_truncated :
  (fun o => '(_, s) ← o; t ← app_flow_tbl s; e ← fdb 1 t (fx_mac 4); Some (e_port e))
    (c_l2_lrn_fwd 1 fx_hdl 500 false 0 (fx_pkt 4 3 70000) fx_sw) = Some 4464.
Proof. vm_compute. reflexivity. Qed.
