(* ===== verification/Rlim.v ===== *)
(** * The rate limiter (rlim.c, rlim.h, c_util.h)

    A limiter lets at most [max] events pass until more than [limit_ts] has gone by since the window was opened; the switch
    connections use one per direction.  The clock is an argument: [now0] is the first [gettimeofday] of a call, made only to open a
    window, [now] the second.  [None] is signed overflow of the counter of suppressed events. *)
From stdpp Require Import base list.
From Stdlib Require Import ZArith Lia.
From S2P Require Import Prelude.
#[local] Open Scope Z_scope.

Module Rlim.

Record timeval := mk_tv { tv_sec : Z; tv_usec : Z }.

Definition c_timeval_diff (t2 t1 : timeval) : timeval :=
  if tv_usec t1 <=? tv_usec t2 then mk_tv (tv_sec t2 - tv_sec t1) (tv_usec t2 - tv_usec t1)
  else mk_tv (tv_sec t2 - tv_sec t1 - 1) (1000000 - tv_usec t1 + tv_usec t2).

Definition c_timeval_a_more_b (a b : timeval) : bool :=
  let diff := tv_sec a - tv_sec b in
  if 0 <? diff then true else if diff <? 0 then false else tv_usec b <? tv_usec a.

Record c_rlim_dat := mk_rl { limit_ts : timeval; start_ts : timeval; rl_max : Z; rl_pass : Z; rl_skip : Z }.

Definition zero_tv : timeval := mk_tv 0 0.
Definition ZERO_TS (ts : timeval) : bool := (tv_sec ts =? 0) && (tv_usec ts =? 0).

Definition c_rlim_dat_init (msecs max : Z) : c_rlim_dat :=
  mk_rl (mk_tv (msecs / 1000) (msecs mod 1000 * 1000)) zero_tv max 0 0.

(** The result says whether the event is suppressed. *)
Definition c_rlim (now0 now : timeval) (rs : c_rlim_dat) : option (bool * c_rlim_dat) :=
  if ZERO_TS (limit_ts rs) then Some (true, rs)
  else
    let start := if ZERO_TS (start_ts rs) then now0 else start_ts rs in
    let over := c_timeval_a_more_b (c_timeval_diff now start) (limit_ts rs) in
    let start := if over then zero_tv else start in
    let pass := if over then 0 else rl_pass rs in
    let skip := if over then 0 else rl_skip rs in
    if negb (rl_max rs =? 0) && (pass <? rl_max rs) then Some (false, mk_rl (limit_ts rs) start (rl_max rs) (pass + 1) skip)
    else skip ← sint (skip + 1); Some (true, mk_rl (limit_ts rs) start (rl_max rs) pass skip).

(** [pps] is a [uint32_t], [max] an [int]; an absent limiter or no rate is an error. *)
Definition c_rlim_dat_update (rs : option c_rlim_dat) (pps : Z) : option c_rlim_dat * Z :=
  match rs with
  | Some rs => if pps =? 0 then (Some rs, -1) else (Some (mk_rl (mk_tv 1 0) (start_ts rs) (s32 pps) (rl_pass rs) (rl_skip rs)), 0)
  | None => (None, -1)
  end.

(** A sequence of events, with the times they come at. *)
Fixpoint c_rlim_all (times : list (timeval * timeval)) (rs : c_rlim_dat) : option (list bool * c_rlim_dat) :=
  match times with
  | [] => Some ([], rs)
  | (now0, now) :: times => '(b, rs) ← c_rlim now0 now rs; '(bs, rs) ← c_rlim_all times rs; Some (b :: bs, rs)
  end.

(** ** Time in microseconds *)

Definition usecs (t : timeval) : Z := 1000000 * tv_sec t + tv_usec t.
Definition tv_ok (t : timeval) : Prop := 0 <= tv_usec t < 1000000.

Lemma diff_usecs t2 t1 : tv_ok t1 -> tv_ok t2 -> tv_ok (c_timeval_diff t2 t1) /\ usecs (c_timeval_diff t2 t1) = usecs t2 - usecs t1.
Proof.
  unfold tv_ok, usecs, c_timeval_diff. intros H1 H2. destruct (Z.leb_spec (tv_usec t1) (tv_usec t2)); cbn; lia.
Qed.

Lemma more_usecs a b : tv_ok a -> tv_ok b -> c_timeval_a_more_b a b = (usecs b <? usecs a).
Proof.
  unfold tv_ok, usecs, c_timeval_a_more_b. intros Ha Hb. symmetry.
  destruct (Z.ltb_spec 0 (tv_sec a - tv_sec b)); [apply Z.ltb_lt; lia|].
  destruct (Z.ltb_spec (tv_sec a - tv_sec b) 0); [apply Z.ltb_ge; lia|].
  destruct (Z.ltb_spec (tv_usec b) (tv_usec a)); [apply Z.ltb_lt; lia|apply Z.ltb_ge; lia].
Qed.

Lemma zero_usecs t : tv_ok t -> ZERO_TS t = (usecs t =? 0).
Proof.
  unfold tv_ok, usecs, ZERO_TS. intros Ht. destruct (Z.eqb_spec (tv_sec t) 0), (Z.eqb_spec (tv_usec t) 0), (Z.eqb_spec (1000000 * tv_sec t + tv_usec t) 0);
    cbn; lia || done.
Qed.

(** ** Windows *)

Definition passed (bs : list bool) : Z := Z.of_nat (length (filter (fun b => b = false) bs)).

(** A limiter as the code keeps it: a limit, counters in range. *)
Record rl_ok (rs : c_rlim_dat) : Prop := {
  ro_limit : tv_ok (limit_ts rs) /\ 0 < usecs (limit_ts rs);
  ro_start : tv_ok (start_ts rs);
  ro_max : 0 < rl_max rs <= INT_MAX;
  ro_pass : 0 <= rl_pass rs <= rl_max rs;
  ro_skip : 0 <= rl_skip rs }.

(** Readings of the clock between [a] and [b], in order within a call. *)
Definition between (a b : Z) (t : timeval * timeval) : Prop :=
  tv_ok t.1 /\ tv_ok t.2 /\ 0 < usecs t.1 /\ a <= usecs t.1 /\ usecs t.1 <= usecs t.2 <= b.

(** What a call does, in microseconds. *)
Lemma rlim_step rs a b t r rs' : rl_ok rs -> between a b t -> c_rlim t.1 t.2 rs = Some (r, rs') ->
  let s := if usecs (start_ts rs) =? 0 then usecs t.1 else usecs (start_ts rs) in
  let over := usecs (limit_ts rs) <? usecs t.2 - s in
  let p := if over then 0 else rl_pass rs in
  rl_ok rs' /\ limit_ts rs' = limit_ts rs /\ rl_max rs' = rl_max rs /\ usecs (start_ts rs') = (if over then 0 else s) /\
  r = negb (p <? rl_max rs) /\ rl_pass rs' = (if r then p else p + 1).
Proof.
  intros [[Hl Hl0] Hs Hm Hp Hk] (H1 & H2 & H3 & _) H. destruct t as [t1 t2]. cbn [fst snd] in *. unfold c_rlim in H.
  rewrite (zero_usecs _ Hl), (proj2 (Z.eqb_neq _ _)) in H by lia. rewrite (zero_usecs _ Hs) in H. cbv zeta in *.
  set (st := if usecs (start_ts rs) =? 0 then t1 else start_ts rs) in *.
  assert (Hst : tv_ok st) by (unfold st; by destruct (usecs (start_ts rs) =? 0)).
  replace (if usecs (start_ts rs) =? 0 then usecs t1 else usecs (start_ts rs)) with (usecs st) by (unfold st; by destruct (usecs (start_ts rs) =? 0)).
  destruct (diff_usecs t2 st Hst H2) as [Hd Ed]. rewrite (more_usecs _ _ Hd Hl), Ed in H.
  rewrite (proj2 (Z.eqb_neq (rl_max rs) 0)) in H by lia. cbn [negb andb] in H.
  destruct (usecs (limit_ts rs) <? usecs t2 - usecs st) eqn:Eo.
  - rewrite (proj2 (Z.ltb_lt 0 _)) in H |- * by lia. simplify_eq. cbn. split; [|done]. split; cbn; try done; lia.
  - destruct (Z.ltb_spec (rl_pass rs) (rl_max rs)).
    + simplify_eq. cbn. split; [|done]. split; cbn; try done; lia.
    + inv_bind. apply sint_inv in H4 as [-> ?]. simplify_eq. cbn. split; [|done]. split; cbn; try done; lia.
Qed.

Lemma passed_cons b bs : passed (b :: bs) = (if b then 0 else 1) + passed bs.
Proof. unfold passed. destruct b; [by rewrite filter_cons_False|]. rewrite filter_cons_True by done. cbn [length]. lia. Qed.

(** Once a window was opened within an interval no longer than the limit, no other one is opened in it. *)
Lemma one_window a times : forall rs bs rs', rl_ok rs -> usecs (start_ts rs) = 0 \/ a <= usecs (start_ts rs) ->
  Forall (between a (a + usecs (limit_ts rs))) times -> c_rlim_all times rs = Some (bs, rs') ->
  passed bs = Z.min (Z.of_nat (length times)) (rl_max rs - rl_pass rs).
Proof.
  induction times as [|t times IH]; intros rs bs rs' Hok Hs Ht H; cbn [c_rlim_all] in H.
  - simplify_eq. destruct Hok. change (passed []) with 0. cbn [length]. lia.
  - destruct t as [t1 t2]. apply Forall_cons in Ht as [Ht Hts]. inv_bind. destruct x as [r rs1]. inv_bind. destruct x as [bs1 rs2].
    simplify_eq. destruct (rlim_step rs _ _ (t1, t2) r rs1 Hok Ht H0) as (Hok1 & El & Em & Es & Er & Ep).
    destruct Ht as (_ & _ & T1 & T2 & T3). cbn [fst snd] in *. rewrite <- El in Hts.
    set (s := if usecs (start_ts rs) =? 0 then usecs t1 else usecs (start_ts rs)) in *.
    assert (a <= s) by (unfold s; destruct (Z.eqb_spec (usecs (start_ts rs)) 0); lia).
    rewrite (proj2 (Z.ltb_ge _ _)) in Es, Er, Ep by lia.
    specialize (IH rs1 bs1 rs' Hok1 ltac:(right; lia) Hts H1). rewrite passed_cons, IH, Em, Ep. cbn [length].
    destruct Hok, Hok1. destruct (Z.ltb_spec (rl_pass rs) (rl_max rs)); cbn in Er; subst r; lia.
Qed.

Lemma two_windows a times : forall rs bs rs', rl_ok rs -> Forall (between a (a + usecs (limit_ts rs))) times ->
  c_rlim_all times rs = Some (bs, rs') -> passed bs <= rl_max rs - rl_pass rs + rl_max rs.
Proof.
  induction times as [|t times IH]; intros rs bs rs' Hok Ht H; cbn [c_rlim_all] in H.
  - simplify_eq. destruct Hok. change (passed []) with 0. cbn [length]. lia.
  - destruct t as [t1 t2]. apply Forall_cons in Ht as [Ht Hts]. inv_bind. destruct x as [r rs1]. inv_bind. destruct x as [bs1 rs2].
    simplify_eq. destruct (rlim_step rs _ _ (t1, t2) r rs1 Hok Ht H0) as (Hok1 & El & Em & Es & Er & Ep). cbn [fst snd] in *.
    rewrite <- El in Hts. rewrite passed_cons. destruct Hok, Hok1.
    destruct (usecs (limit_ts rs) <? _) eqn:Eo.
    + pose proof (one_window a times rs1 bs1 rs' ltac:(done) ltac:(auto) Hts H1) as E. rewrite Em, Ep in E.
      rewrite (proj2 (Z.ltb_lt _ _)) in Er by lia. subst r. cbn in *. lia.
    + specialize (IH rs1 bs1 rs' ltac:(done) Hts H1). rewrite Em, Ep in IH.
      destruct (Z.ltb_spec (rl_pass rs) (rl_max rs)); cbn in Er; subst r; lia.
Qed.

(** C39: in any stretch of time no longer than the limit at most twice [max] events pass, whatever happened before; and of the first
    events after the limiter was set up exactly the first [max] of that stretch pass. *)
Theorem rlim_bound rs a times bs rs' : rl_ok rs -> Forall (between a (a + usecs (limit_ts rs))) times ->
  c_rlim_all times rs = Some (bs, rs') ->
  passed bs <= 2 * rl_max rs /\
  (usecs (start_ts rs) = 0 -> rl_pass rs = 0 -> passed bs = Z.min (Z.of_nat (length times)) (rl_max rs)).
Proof.
  intros Hok Ht H. split.
  - pose proof (two_windows a times rs bs rs' Hok Ht H). destruct Hok. lia.
  - intros Hs Hp. rewrite (one_window a times rs bs rs' Hok (or_introl Hs) Ht H), Hp. lia.
Qed.

(** A limiter of 3 events in 100 ms: the fourth event is suppressed, and after the window three more pass, five in 60 ms. *)
Definition at_ms (ms : Z) : timeval * timeval := let t := mk_tv (1 + ms / 1000) (ms mod 1000 * 1000) in (t, t).
Definition rl3 : c_rlim_dat := c_rlim_dat_init 100 3.
Example rl3_run :
  ('(bs, _) ← c_rlim_all (map at_ms [0; 90; 95; 98; 101; 102; 103; 150]) rl3; Some bs) =
  Some [false; false; false; true; false; false; false; true].
Proof. vm_compute. reflexivity. Qed.

(** A limiter without a limit suppresses everything. *)
Lemma no_limit_suppresses t1 t2 max : c_rlim t1 t2 (c_rlim_dat_init 0 max) = Some (true, c_rlim_dat_init 0 max).
Proof. done. Qed.

Lemma rl3_ok : rl_ok rl3.
Proof. split; vm_compute; intuition congruence. Qed.

Lemma rlim_bound_witness : exists bs rs', c_rlim_all (map at_ms [0; 90; 95; 98]) rl3 = Some (bs, rs') /\ passed bs = 3.
Proof.
  eexists _, _. split; [vm_compute; reflexivity|].
  refine (proj2 (rlim_bound rl3 1000000 (map at_ms [0; 90; 95; 98]) _ _ rl3_ok _ _) _ _);
    [repeat constructor; vm_compute; congruence|vm_compute; reflexivity|vm_compute; reflexivity|vm_compute; reflexivity].
Defined.

End Rlim.
