(* ===== verification/Nbq.v ===== *)
(** * The queue without locks (nbq.c, nbq.h)

    One thread appends, another one removes, and neither takes a lock.  The operations are broken into their accesses to shared
    memory, and a run is any interleaving of the two threads ([run]).  Memory is a map from addresses to elements; an access to an
    element that was freed is [None].  [log] records what the operations did, in the order in which it took effect: a value is in the
    queue when [tail] was written, gone when the caller gets it.

    The model has the order of a single memory: each access is seen by the other thread before the next one. *)
From stdpp Require Import base list gmap.
From Stdlib Require Import ZArith Lia.
From S2P Require Import Prelude.
#[local] Open Scope Z_scope.

Module Nbq.

Record nbq_elem := mk_elem { udata : Z; next : option positive }.
Definition zero_elem : nbq_elem := mk_elem 0 None.

Inductive qev := Enq (x : Z) | Deq (x : Z) | DeqNull | EnqFailed (x : Z).

(** Where each thread stands in its operation, with its local variables. *)
Inductive ppc :=
| PIdle
| PPrev (x : Z) (prev : positive)
| PTmp (x : Z) (prev tmp : positive)
| PNext (x : Z) (prev tmp : positive)
| PData (x : Z) (prev tmp : positive).

Inductive cpc :=
| CIdle
| CHead (h : positive)
| CFound
| CPrev (prev : positive)
| CNext (prev : positive) (n : option positive)
| CMoved (prev : positive)
| CData (prev : positive) (x : Z).

Record st := mk_st { heap : gmap positive nbq_elem; head : option positive; tail : positive; pp : ppc; cp : cpc; log : list qev }.

Definition set_p (p : ppc) (s : st) : st := mk_st (heap s) (head s) (tail s) p (cp s) (log s).
Definition set_c (c : cpc) (s : st) : st := mk_st (heap s) (head s) (tail s) (pp s) c (log s).
Definition set_heap (h : gmap positive nbq_elem) (s : st) : st := mk_st h (head s) (tail s) (pp s) (cp s) (log s).
Definition add_log (e : qev) (s : st) : st := mk_st (heap s) (head s) (tail s) (pp s) (cp s) (log s ++ [e]).

(** [calloc] gives an address that is not in use.  When it fails [nbq_init] returns without touching the queue: there is no queue to
    run, and its caller is not told. *)
Definition nbq_init (alloc : bool) : option st :=
  if alloc then
    let tmp := fresh (dom (∅ : gmap positive nbq_elem)) in Some (mk_st {[tmp := zero_elem]} (Some tmp) tmp PIdle CIdle [])
  else None.

(** [nbq_enqueue]: [x] is the argument when an operation begins, [alloc] whether [calloc] succeeds. *)
Definition enqueue_step (x : Z) (alloc : bool) (s : st) : option st :=
  match pp s with
  | PIdle => Some (set_p (PPrev x (tail s)) s)
  | PPrev x prev =>
      if alloc then
        let tmp := fresh (dom (heap s)) in Some (set_p (PTmp x prev tmp) (set_heap (<[tmp := zero_elem]> (heap s)) s))
      else Some (set_p PIdle (add_log (EnqFailed x) s))
  | PTmp x prev tmp =>
      e ← heap s !! prev; Some (set_p (PNext x prev tmp) (set_heap (<[prev := mk_elem (udata e) (Some tmp)]> (heap s)) s))
  | PNext x prev tmp =>
      e ← heap s !! prev; Some (set_p (PData x prev tmp) (set_heap (<[prev := mk_elem x (next e)]> (heap s)) s))
  | PData x prev tmp => Some (mk_st (heap s) (head s) tmp PIdle (cp s) (log s ++ [Enq x]))
  end.

(** [nbq_dequeue]; reading [head] through a null pointer is a fault. *)
Definition dequeue_step (s : st) : option st :=
  match cp s with
  | CIdle => h ← head s; Some (set_c (CHead h) s)
  | CHead h => if decide (h = tail s) then Some (set_c CIdle (add_log DeqNull s)) else Some (set_c CFound s)
  | CFound => h ← head s; Some (set_c (CPrev h) s)
  | CPrev prev => e ← heap s !! prev; Some (set_c (CNext prev (next e)) s)
  | CNext prev n => Some (mk_st (heap s) n (tail s) (pp s) (CMoved prev) (log s))
  | CMoved prev => e ← heap s !! prev; Some (set_c (CData prev (udata e)) s)
  | CData prev x =>
      e ← heap s !! prev; Some (set_c CIdle (add_log (Deq x) (set_heap (delete prev (heap s)) s)))
  end.

(** [nbq_iterate] by the thread that removes, with the other one at rest: the values [iter] is called with. *)
Fixpoint iterate_from (fuel : nat) (tmp : option positive) (s : st) : option (list Z) :=
  match fuel with
  | O => None
  | S fuel =>
      if decide (tmp = Some (tail s)) then Some []
      else a ← tmp; e ← heap s !! a; l ← iterate_from fuel (next e) s; Some (udata e :: l)
  end.
Definition nbq_iterate (arg : bool) (s : st) : option (list Z) :=
  if arg then iterate_from (S (size (heap s))) (head s) s else Some [].

(** A schedule: which thread makes its next access. *)
Inductive ev := P (x : Z) (alloc : bool) | C.
Definition step (e : ev) (s : st) : option st := match e with P x alloc => enqueue_step x alloc s | C => dequeue_step s end.
Fixpoint run (sched : list ev) (s : st) : option st :=
  match sched with [] => Some s | e :: sched => s ← step e s; run sched s end.

(** ** The queue it implements *)

(** The contents after a history, if the history is one of a first-in first-out queue. *)
Definition qstep (e : qev) (q : list Z) : option (list Z) :=
  match e with
  | Enq x => Some (q ++ [x])
  | EnqFailed _ => Some q
  | DeqNull => match q with [] => Some [] | _ => None end
  | Deq x => match q with y :: q => if x =? y then Some q else None | [] => None end
  end.
Definition fifo (l : list qev) : option (list Z) := fold_left (fun q e => q ← q; qstep e q) l (Some []).

Lemma fifo_snoc l e : fifo (l ++ [e]) = q ← fifo l; qstep e q.
Proof. unfold fifo. by rewrite fold_left_app. Qed.
#[global] Arguments fifo : simpl never.

(** ** The chain of elements *)

(** [chain m a xs b]: from [a] along [next] to [b], through elements with the values [xs], all different. *)
Inductive chain (m : gmap positive nbq_elem) : positive -> list positive -> list Z -> positive -> Prop :=
| chain_nil a : is_Some (m !! a) -> chain m a [] [] a
| chain_cons a n x l xs b : m !! a = Some (mk_elem x (Some n)) -> a ∉ l -> a <> b -> chain m n l xs b -> chain m a (a :: l) (x :: xs) b.

Lemma chain_last m a l xs b : chain m a l xs b -> is_Some (m !! b) /\ b ∉ l.
Proof.
  induction 1 as [a Ha|a n x l xs b Ha Hl Hn H [IH1 IH2]]; [split; [done|apply not_elem_of_nil]|].
  split; [done|]. rewrite elem_of_cons. intros [->|?]; done.
Qed.

(** Elements outside of the chain do not matter. *)
Lemma chain_frame m m' a l xs b : chain m a l xs b -> (forall c, c ∈ l -> m' !! c = m !! c) -> is_Some (m' !! b) -> chain m' a l xs b.
Proof.
  induction 1 as [a Ha|a n x l xs b Ha Hl Hn H IH]; intros Hf Hb; [by constructor|].
  econstructor; [rewrite Hf; [done|left]|done|done|]. apply IH; [|done]. intros c Hc. apply Hf. by right.
Qed.

Lemma chain_in m a l xs b c : chain m a l xs b -> c ∈ l -> is_Some (m !! c).
Proof.
  induction 1 as [a Ha|a n x l xs b Ha Hl Hn H IH]; [by intros ?%not_elem_of_nil|]. rewrite elem_of_cons. intros [->|Hc]; [eauto|auto].
Qed.

(** The tail got its value and its successor: the chain is one longer. *)
Lemma chain_snoc m a l xs b x n : chain m a l xs b -> m !! b = Some (mk_elem x (Some n)) -> n ∉ l -> n <> b -> is_Some (m !! n) ->
  chain m a (l ++ [b]) (xs ++ [x]) n.
Proof.
  induction 1 as [a Ha|a y v l xs b Ha Hl Hn H IH]; intros Hb Hnl Hnb Hs; cbn.
  - econstructor; [done|apply not_elem_of_nil|done|by constructor].
  - rewrite elem_of_cons in Hnl. econstructor; [done| |naive_solver|apply IH; naive_solver].
    rewrite elem_of_app, elem_of_cons. intros [?|[?|?%elem_of_nil]]; [done|done|done].
Qed.

(** ** The invariant of all interleavings *)

(** The element the consumer has taken out of the chain, with its value. *)
Definition holds (c : cpc) (m : gmap positive nbq_elem) (l : list positive) (t : positive) (p : positive) (x : Z) : Prop :=
  p ∉ l /\ p <> t /\ (exists e, m !! p = Some e /\ udata e = x).

Definition cinv (c : cpc) (m : gmap positive nbq_elem) (a : positive) (l : list positive) (t : positive) (held : list Z) : Prop :=
  match c with
  | CIdle => held = []
  | CHead h => held = [] /\ h = a
  | CFound => held = [] /\ l <> []
  | CPrev p => held = [] /\ p = a /\ l <> []
  | CNext p n => held = [] /\ p = a /\ l <> [] /\ exists x, m !! a = Some (mk_elem x n)
  | CMoved p => exists x, held = [x] /\ holds c m l t p x
  | CData p x => held = [x] /\ holds c m l t p x
  end.

Definition not_held (c : cpc) (q : positive) : Prop := match c with CMoved p | CData p _ => q <> p | _ => True end.

Definition new_elem (c : cpc) (m : gmap positive nbq_elem) (l : list positive) (t q : positive) : Prop :=
  is_Some (m !! q) /\ q ∉ l /\ q <> t /\ not_held c q.

Definition pinv (p : ppc) (c : cpc) (m : gmap positive nbq_elem) (l : list positive) (t : positive) : Prop :=
  match p with
  | PIdle => True
  | PPrev _ prev => prev = t
  | PTmp _ prev tmp => prev = t /\ new_elem c m l t tmp
  | PNext _ prev tmp => prev = t /\ new_elem c m l t tmp /\ exists y, m !! t = Some (mk_elem y (Some tmp))
  | PData x prev tmp => prev = t /\ new_elem c m l t tmp /\ m !! t = Some (mk_elem x (Some tmp))
  end.

Record inv_at (s : st) (a : positive) (l : list positive) (xs held : list Z) : Prop := {
  iv_head : head s = Some a;
  iv_chain : chain (heap s) a l xs (tail s);
  iv_cons : cinv (cp s) (heap s) a l (tail s) held;
  iv_prod : pinv (pp s) (cp s) (heap s) l (tail s);
  iv_fifo : fifo (log s) = Some (held ++ xs) }.

Definition inv (s : st) : Prop := exists a l xs held, inv_at s a l xs held.

Lemma inv_init alloc s : nbq_init alloc = Some s -> inv s.
Proof. destruct alloc; [|done]. intros [= <-]. exists (fresh (dom (∅ : gmap positive nbq_elem))), [], [], []. split; try done. constructor. cbn. by rewrite lookup_singleton_eq. Qed.

(** What the consumer relies on is not changed by a producer that writes outside of the chain. *)
Lemma cinv_frame c m m' a l t held xs : chain m a l xs t -> (forall q, is_Some (m !! q) -> q <> t -> m' !! q = m !! q) ->
  cinv c m a l t held -> cinv c m' a l t held.
Proof.
  intros Hch Hf. destruct c; cbn; auto.
  - intros (? & -> & Hl & x & Hx). split_and!; try done. exists x. rewrite Hf; [done|eauto|]. by destruct Hch.
  - intros (x & ? & ? & ? & e & He & ?). exists x. split; [done|]. split_and!; try done. exists e. rewrite Hf; [done|eauto|done].
  - intros (? & ? & ? & e & He & ?). split; [done|]. split_and!; try done. exists e. rewrite Hf; [done|eauto|done].
Qed.

Lemma chain_write m m' a l xs t : chain m a l xs t -> (forall q, is_Some (m !! q) -> q <> t -> m' !! q = m !! q) -> is_Some (m' !! t) ->
  chain m' a l xs t.
Proof.
  intros Hch Hf Ht. eapply chain_frame; [exact Hch| |done]. intros c Hc. apply Hf; [by eapply chain_in|].
  intros ->. by destruct (chain_last _ _ _ _ _ Hch).
Qed.

Lemma produce_inv x alloc s : inv s -> exists s', enqueue_step x alloc s = Some s' /\ inv s'.
Proof.
  intros (a & l & xs & held & [Hh Hch Hc Hp Hq]). destruct (chain_last _ _ _ _ _ Hch) as [[et Het] Htl].
  unfold enqueue_step. destruct (pp s) as [|y prev|y prev tmp|y prev tmp|y prev tmp] eqn:Ep; cbn in Hp.
  - eexists. split; [reflexivity|]. exists a, l, xs, held. by split.
  - subst prev. destruct alloc.
    + eexists. split; [reflexivity|]. set (tmp := fresh (dom (heap s))).
      assert (Ht : heap s !! tmp = None) by apply not_elem_of_dom, is_fresh.
      assert (Hf : forall q, is_Some (heap s !! q) -> <[tmp := zero_elem]> (heap s) !! q = heap s !! q).
      { intros q [e He]. rewrite lookup_insert_ne; [done|]. intros ->. congruence. }
      exists a, l, xs, held. split; cbn; try done.
      * eapply chain_write; [exact Hch|auto|]. rewrite Hf; eauto.
      * eapply cinv_frame; [exact Hch|auto|exact Hc].
      * split; [done|]. split_and!.
        -- by rewrite lookup_insert_eq.
        -- intros Hin. destruct (chain_in _ _ _ _ _ _ Hch Hin). congruence.
        -- intros Heq. congruence.
        -- destruct (cp s); cbn in Hc |- *; try done; unfold holds in Hc; naive_solver congruence.
    + eexists. split; [reflexivity|]. exists a, l, xs, held. split; cbn; try done. by rewrite fifo_snoc, Hq.
  - destruct Hp as [-> Hn]. rewrite Het. eexists. split; [reflexivity|]. exists a, l, xs, held.
    assert (Hf : forall q, is_Some (heap s !! q) -> q <> tail s -> <[tail s := mk_elem (udata et) (Some tmp)]> (heap s) !! q = heap s !! q).
    { intros q _ Hne. by rewrite lookup_insert_ne. }
    split; cbn; try done.
    + eapply chain_write; [exact Hch|done|]. by rewrite lookup_insert_eq.
    + by eapply cinv_frame.
    + destruct Hn as (N1 & N2 & N3 & N4). split; [done|]. split; [split_and!; try done; by rewrite Hf|].
      exists (udata et). by rewrite lookup_insert_eq.
  - destruct Hp as (-> & Hn & z & Hz). rewrite Hz. eexists. split; [reflexivity|]. exists a, l, xs, held. cbn [next].
    assert (Hf : forall q, is_Some (heap s !! q) -> q <> tail s -> <[tail s := mk_elem y (Some tmp)]> (heap s) !! q = heap s !! q).
    { intros q _ Hne. by rewrite lookup_insert_ne. }
    split; cbn; try done.
    + eapply chain_write; [exact Hch|done|]. by rewrite lookup_insert_eq.
    + by eapply cinv_frame.
    + destruct Hn as (N1 & N2 & N3 & N4). split; [done|]. split; [split_and!; try done; by rewrite Hf|]. by rewrite lookup_insert_eq.
  - destruct Hp as (-> & (N1 & N2 & N3 & N4) & Hz). eexists. split; [reflexivity|]. exists a, (l ++ [tail s]), (xs ++ [y]), held.
    split; cbn; try done.
    + by apply chain_snoc.
    + destruct (cp s); cbn in Hc, N4 |- *; auto; unfold holds in *; rewrite ?elem_of_app, ?elem_of_cons, ?elem_of_nil;
        try (split_and!; naive_solver (by destruct l)).
      destruct Hc as (x0 & ? & ? & ? & ?). exists x0. rewrite elem_of_app, elem_of_cons, elem_of_nil. naive_solver.
    + rewrite fifo_snoc, Hq. cbn. by rewrite app_assoc.
Qed.

Lemma consume_inv s : inv s -> exists s', dequeue_step s = Some s' /\ inv s'.
Proof.
  intros (a & l & xs & held & [Hh Hch Hc Hp Hq]). unfold dequeue_step.
  destruct (cp s) as [|h| |p|p n|p|p x] eqn:Ec; cbn in Hc.
  - subst held. rewrite Hh. eexists. split; [reflexivity|]. exists a, l, xs, []. split; try done; by destruct (pp s).
  - destruct Hc as [-> ->]. destruct (decide (a = tail s)) as [He|Hne]; (eexists; split; [reflexivity|]).
    + assert (l = [] /\ xs = []) as [-> ->] by (destruct Hch; done).
      exists a, [], [], []. split; try done; cbn; try (by destruct (pp s)). by rewrite fifo_snoc, Hq.
    + exists a, l, xs, []. split; try done; cbn; try (by destruct (pp s)). split; [done|]. intros ->. by inversion Hch.
  - destruct Hc as [-> Hl]. rewrite Hh. eexists. split; [reflexivity|]. exists a, l, xs, []. split; try done; by destruct (pp s).
  - destruct Hc as (-> & -> & Hl). inversion Hch as [|b n x l' xs' c Ha ?? Hch' E1 E2 E3]; subst; [done|]. rewrite Ha.
    eexists. split; [reflexivity|]. exists a, (a :: l'), (x :: xs'), []. split; try done; cbn; try (by destruct (pp s)).
    split_and!; try done. by exists x.
  - destruct Hc as (-> & -> & Hl & x & Hx). inversion Hch as [|b n' x' l' xs' c Ha ?? Hch' E1 E2 E3]; subst; [done|].
    rewrite Ha in Hx. simplify_eq. eexists. split; [reflexivity|]. exists n', l', xs', [x]. split; try done; cbn.
    + exists x. split; [done|]. split_and!; try done. by eexists.
    + destruct (pp s); cbn in Hp |- *; try done; unfold new_elem in *; rewrite elem_of_cons in Hp; naive_solver.
  - destruct Hc as (x & -> & H1 & H2 & e & He & Hd). rewrite He. eexists. split; [reflexivity|]. exists a, l, xs, [x].
    split; try done; cbn; try (by destruct (pp s)). rewrite Hd. split; [done|]. split_and!; try done. by eexists.
  - destruct Hc as (-> & H1 & H2 & e & He & Hd). rewrite He. eexists. split; [reflexivity|]. exists a, l, xs, [].
    assert (Hf : forall q, q <> p -> delete p (heap s) !! q = heap s !! q) by (intros q Hne; by rewrite lookup_delete_ne).
    split; try done; cbn.
    + eapply chain_frame; [exact Hch| |]; [intros c Hin; apply Hf; by intros ->|].
      rewrite Hf by done. apply (chain_last _ _ _ _ _ Hch).
    + destruct (pp s); cbn in Hp |- *; try done; unfold new_elem in *; cbn in Hp; rewrite ?Hf by naive_solver; naive_solver.
    + rewrite fifo_snoc, Hq. cbn. by rewrite Z.eqb_refl.
Qed.

Lemma run_inv sched : forall s, inv s -> exists s', run sched s = Some s' /\ inv s'.
Proof.
  induction sched as [|e sched IH]; intros s Hi; [by exists s|]. cbn [run].
  assert (exists s1, step e s = Some s1 /\ inv s1) as (s1 & -> & H1) by (destruct e; [by apply produce_inv|by apply consume_inv]).
  by apply IH.
Qed.

(** C33: whatever way the accesses of one thread that appends and one that removes are interleaved, no freed element is touched, and
    the operations take effect as those of a first-in first-out queue: every value is removed once, in the order in which it was
    appended, and a removal finds nothing only when everything appended before has been removed. *)
Theorem nbq_linearizable sched : exists s q, (s0 ← nbq_init true; run sched s0) = Some s /\ fifo (log s) = Some q.
Proof.
  destruct (run_inv sched _ (inv_init true _ eq_refl)) as (s & E & a & l & xs & held & [_ _ _ _ H]). by exists s, (held ++ xs).
Qed.

(** ** At rest *)

Lemma iterate_chain m t a l xs : chain m a l xs t -> forall fuel s, heap s = m -> tail s = t -> (length l < fuel)%nat ->
  iterate_from fuel (Some a) s = Some xs.
Proof.
  induction 1 as [a Ha|a n x l xs b Ha Hl Hn H IH]; intros fuel s Hm Ht Hf; destruct fuel as [|fuel]; try (cbn in Hf; lia); cbn [iterate_from].
  - rewrite Ht. by rewrite decide_True.
  - rewrite decide_False by (rewrite Ht; congruence). cbn. rewrite Hm, Ha. cbn. by rewrite IH by (done || (cbn in Hf; lia)).
Qed.

Lemma chain_size m a l xs t : chain m a l xs t -> (length l <= size m)%nat.
Proof.
  intros H. assert (NoDup l) as Hn.
  { induction H; constructor; done. }
  rewrite <- (size_list_to_set (C := gset positive) l Hn), <- size_dom. apply subseteq_size. intros c Hc.
  apply elem_of_list_to_set in Hc. apply elem_of_dom. by eapply chain_in.
Qed.

(** With both threads at rest [nbq_iterate] visits what is in the queue. *)
Lemma iterate_contents sched s : (s0 ← nbq_init true; run sched s0) = Some s -> cp s = CIdle -> nbq_iterate true s = fifo (log s).
Proof.
  intros E Hc. destruct (run_inv sched _ (inv_init true _ eq_refl)) as (s' & E' & a & l & xs & held & [Hh Hch Hco _ Hq]). cbn in E. simplify_eq.
  rewrite Hc in Hco. cbn in Hco. subst held. rewrite Hq. unfold nbq_iterate. rewrite Hh.
  eapply iterate_chain; [exact Hch|done|done|]. pose proof (chain_size _ _ _ _ _ Hch). lia.
Qed.

(** The tail is seen before the value only if accesses are reordered: here the consumer runs between the writes of the producer. *)
Example nbq_race :
  option_map log (s0 ← nbq_init true; run ([P 7 true; P 0 true; P 0 true; C; C; P 0 true; C; P 0 true] ++ replicate 7 C ++ [C]) s0) =
  Some [DeqNull; Enq 7; Deq 7; DeqNull].
Proof. vm_compute. reflexivity. Qed.

End Nbq.
