(* ===== verification/AppEv.v ===== *)
(** * Events for applications (mul_app_interface.c, mul_app_interface.h)

    What happens at a switch or in the controller becomes a message for the applications.  Each event has a handler that builds the
    message from the switch, the message [b] that the switch sent ([None] without one) and the details the caller adds ([priv]).
    Messages are given by their fields as they stand in memory, in network order where the code converts them.  [None] is a failed
    assertion, an access outside of a buffer or details of another event; [Some None] a handler that returns without a message. *)
From stdpp Require Import base list.
From Stdlib Require Import ZArith Lia.
From S2P Require Import Prelude Bytes Flow.
#[local] Open Scope Z_scope.

Module AppEv.
Import Bytes.

Definition OFP_VERSION : Z := 0x01.
Definition OFP_VERSION_131 : Z := 0x04.
Definition OFP_VERSION_140 : Z := 0x05.
Definition C_OFPT_SWITCH_ADD : Z := 6.
Definition C_OFPT_PACKET_IN : Z := 10.
Definition C_OFPT_VENDOR_MSG : Z := 4.
Definition C_OFPT_PORT_STATUS : Z := 12.
Definition C_OFPT_SWITCH_DELETE : Z := 0xc0.
Definition C_OFPT_FLOW_MOD : Z := 14.
Definition C_OFPT_FLOW_REMOVED : Z := 11.
Definition C_OFPT_ERR_MSG : Z := 1.
Definition C_OFPT_METER_MOD : Z := 0xc7.

Inductive c_app_event :=
| C_DP_REG | C_DP_UNREG | C_PACKET_IN | C_PORT_CHANGE | C_FLOW_REMOVED | C_FLOW_MOD_FAILED | C_HA_STATE | C_VENDOR_MSG
| C_TR_STATUS | C_GROUP_MOD_FAILED | C_METER_MOD_FAILED.

#[export] Instance c_app_event_eq_dec : EqDecision c_app_event.
Proof. solve_decision. Defined.

(** The values of the enumeration. *)
Definition event_bit (e : c_app_event) : Z :=
  match e with
  | C_DP_REG => 0 | C_DP_UNREG => 1 | C_PACKET_IN => 2 | C_PORT_CHANGE => 3 | C_FLOW_REMOVED => 4 | C_FLOW_MOD_FAILED => 5
  | C_HA_STATE => 6 | C_VENDOR_MSG => 7 | C_TR_STATUS => 8 | C_GROUP_MOD_FAILED => 9 | C_METER_MOD_FAILED => 10
  end.

(** ** Switches, ports and the details of events *)

Record c_sw_port := mk_port {
  port_no : Z; hw_addr : list Z; p_name : list Z; p_type : Z; config : Z; state : Z; of_config : Z; of_state : Z;
  curr : Z; advertised : Z; supported : Z; peer : Z; curr_speed : Z; max_speed : Z }.

(** What messages say about a switch. *)
Record sw_info := mk_info {
  alias_id : Z; version : Z; n_buffers : Z; n_tables : Z; capabilities : Z; rx_max : Z; tx_max : Z;
  rx_dump_en : bool; tx_dump_en : bool; sw_ports : list c_sw_port }.

Record c_port_cfg_state_mask := mk_chg { config_mask : Z; state_mask : Z }.

Inductive priv :=
| NoPriv
| PktIn (fl : Flow.flow) (pkt_ofs pkt_len : nat) (buffer_id : Z)
| PortChg (port_desc : c_sw_port) (chg_mask : option c_port_cfg_state_mask) (reason : Z)
| VendorData (data_ofs data_len : nat)
| FlowParms (fl mask : Flow.flow) (prio command reason cookie seq_cookie : Z)
| GroupParms (group command : Z)
| MeterParms (meter command : Z).

(** ** Messages *)

(** The bytes of a [struct flow]: a flow, or the memory at an offset in the parameters that hold the pointer to it. *)
Inductive flow_image := FlowAt (f : Flow.flow) | ParmsAt (ofs : Z).

Inductive body :=
| SwitchAdd (datapath_id sw_alias ver nbufs ntables caps st rx_rlim tx_rlim rx_dump tx_dump : Z) (ports : list c_sw_port)
| SwitchDelete (datapath_id sw_alias : Z)
| PacketIn (datapath_id sw_alias buffer_id : Z) (fl : flow_image) (data : list Z)
| PortStatus (datapath_id sw_alias reason cmask smask : Z) (desc : c_sw_port)
| VendorMsg (datapath_id sw_alias : Z) (data : list Z)
| FlowRemoved (datapath_id : Z) (fl mask : flow_image) (cookie priority reason : Z)
| FlowModErr (type code ver htype datapath_id sw_alias : Z) (fl mask : flow_image) (priority command cookie seq_cookie : Z)
| GroupModErr (type code ver htype datapath_id group_id command : Z)
| MeterModErr (type code ver htype datapath_id meter_id command : Z)
| Copy (b : list Z).

(** [h_xid] is [None] where [of_prep_msg_common] takes a new transaction id; [h_length] is the 16-bit field. *)
Record app_msg := mk_msg { h_version : Z; h_type : Z; h_length : Z; h_xid : option Z; m_body : body }.

Definition of_prep_msg_common (ver len type xid : Z) (m : body) : app_msg :=
  mk_msg ver type (htons (u16 len)) (if xid =? 0 then None else Some xid) m.

Definition c_buf_ofp_ver (b : option (list Z)) : option Z := match b with None => Some 0 | Some b => rd_le b 0 1 end.
Definition c_buf_ofp_xid (b : option (list Z)) : option Z := match b with None => Some 0 | Some b => rd_le b 4 4 end.

Definition ver_known (v : Z) : bool := (v =? OFP_VERSION) || (v =? OFP_VERSION_131) || (v =? OFP_VERSION_140).

(** [type] is not copied: the message was cleared before. *)
Definition c_sw_port_hton (src : c_sw_port) : c_sw_port :=
  mk_port (htonl (port_no src)) (hw_addr src) (p_name src) 0 (htonl (config src)) (htonl (state src)) (htonl (of_config src))
    (htonl (of_state src)) (htonl (curr src)) (htonl (advertised src)) (htonl (supported src)) (htonl (peer src))
    (htonl (curr_speed src)) (htonl (max_speed src)).

(** The walk over the ports stops writing after [max_blocks] of them. *)
Fixpoint c_app_dp_port_reg_prep (max_blocks : nat) (ports : list c_sw_port) (done : list c_sw_port) : list c_sw_port :=
  match ports with
  | [] => done
  | p :: ports =>
      c_app_dp_port_reg_prep max_blocks ports (if (max_blocks <=? length done)%nat then done else done ++ [c_sw_port_hton p])
  end.

Definition c_app_dpreg_event_prep (dpid st : Z) (i : sw_info) (orig_b : option (list Z)) : option app_msg :=
  xid ← c_buf_ofp_xid orig_b;
  let n_ports := length (sw_ports i) in
  Some (of_prep_msg_common (version i) (56 + Z.of_nat n_ports * 72) C_OFPT_SWITCH_ADD xid
    (SwitchAdd (htonll dpid) (htonl (u32 (alias_id i))) (version i) (htonl (n_buffers i)) (n_tables i) (htonl (capabilities i))
       (htonll st) (htonl (u32 (rx_max i))) (htonl (u32 (tx_max i))) (if rx_dump_en i then 1 else 0) (if tx_dump_en i then 1 else 0)
       (c_app_dp_port_reg_prep n_ports (sw_ports i) []))).

(** ** The handlers *)

Definition c_app_dpreg_event (dpid st : Z) (i : sw_info) (b : option (list Z)) : option (option app_msg) :=
  if ver_known (version i) then m ← c_app_dpreg_event_prep dpid st i b; Some (Some m) else Some None.

Definition c_app_dpunreg_event (dpid : Z) (i : sw_info) : option (option app_msg) :=
  Some (Some (of_prep_msg_common (version i) 24 C_OFPT_SWITCH_DELETE 0 (SwitchDelete (htonll dpid) (htonl (u32 (alias_id i)))))).

Definition c_app_packet_in_event (dpid : Z) (i : sw_info) (b : list Z) (fl : Flow.flow) (pkt_ofs pkt_len : nat) (buffer_id : Z)
  : option (option app_msg) :=
  ver ← c_buf_ofp_ver (Some b);
  if ver_known ver then
    xid ← c_buf_ofp_xid (Some b);
    data ← rd b pkt_ofs pkt_len;
    Some (Some (of_prep_msg_common ver (120 + Z.of_nat pkt_len) C_OFPT_PACKET_IN xid
      (PacketIn (htonll dpid) (htonl (u32 (alias_id i))) (htonl buffer_id) (FlowAt fl) data)))
  else Some None.

Definition c_app_port_change_event (dpid : Z) (i : sw_info) (b : list Z) (desc : c_sw_port)
    (chg_mask : option c_port_cfg_state_mask) (reason : Z) : option (option app_msg) :=
  let cm := match chg_mask with Some m => config_mask m | None => 0 end in
  let sm := match chg_mask with Some m => state_mask m | None => 0 end in
  ver ← c_buf_ofp_ver (Some b);
  if ver_known ver then
    xid ← c_buf_ofp_xid (Some b);
    Some (Some (of_prep_msg_common ver 112 C_OFPT_PORT_STATUS xid
      (PortStatus (htonll dpid) (htonl (u32 (alias_id i))) reason (htonl cm) (htonl sm) (c_sw_port_hton desc))))
  else Some None.

(** The data must fit behind the header of the new message. *)
Definition c_app_vendor_msg_event (dpid : Z) (i : sw_info) (b : list Z) (data_ofs data_len : nat) : option (option app_msg) :=
  ver ← c_buf_ofp_ver (Some b);
  if ver_known ver then
    l ← rd_le b 2 2;
    let length := ntohs l in
    if length <? 12 then Some None
    else
      xid ← c_buf_ofp_xid (Some b);
      data ← rd b data_ofs data_len;
      if Z.of_nat data_len <=? length - 12 then
        Some (Some (of_prep_msg_common ver (24 + length - 12) C_OFPT_VENDOR_MSG xid
          (VendorMsg (htonll dpid) (htonl (u32 (alias_id i))) (data ++ replicate (Z.to_nat (length - 12) - data_len) 0))))
      else None
  else Some None.

(** [memcpy(&cofm->flow, &fl_parms->flow, ...)] copies the parameters from the pointer on, not the flow it points to. *)
Definition c_app_flow_removed_event (dpid : Z) (b : list Z) (reason : Z) : option (option app_msg) :=
  ver ← c_buf_ofp_ver (Some b);
  if ver_known ver then
    cookie ← rd_le b 48 8;
    prio ← rd_le b 56 2;
    Some (Some (of_prep_msg_common ver 232 C_OFPT_FLOW_REMOVED 0
      (FlowRemoved (htonll dpid) (ParmsAt 8) (ParmsAt 16) cookie prio reason)))
  else Some None.

(** The messages about failed requests: the type and code of the error of the switch. *)
Definition mod_failed (b : list Z) (len : Z) (mk : Z -> Z -> Z -> body) : option (option app_msg) :=
  ver ← c_buf_ofp_ver (Some b);
  if ver_known ver then
    type ← rd_le b 8 2;
    code ← rd_le b 10 2;
    Some (Some (of_prep_msg_common ver (12 + len) C_OFPT_ERR_MSG 0 (mk type code ver)))
  else Some None.

(** [command] is an 8-bit field. *)
Definition c_app_flow_mod_failed_event (dpid : Z) (i : sw_info) (b : list Z) (fl mask : Flow.flow) (prio command cookie seq_cookie : Z)
  : option (option app_msg) :=
  mod_failed b 240 (fun type code ver =>
    FlowModErr type code ver C_OFPT_FLOW_MOD (htonll dpid) (htonl (u32 (alias_id i))) (FlowAt fl) (FlowAt mask) (htons prio)
      (u8 (htons command)) (htonl cookie) (htonl seq_cookie)).
Definition c_app_group_mod_failed_event (dpid : Z) (b : list Z) (group command : Z) : option (option app_msg) :=
  mod_failed b 48 (fun type code ver => GroupModErr type code ver C_OFPT_METER_MOD (htonll dpid) (htonl group) command).
Definition c_app_meter_mod_failed_event (dpid : Z) (b : list Z) (meter command : Z) : option (option app_msg) :=
  mod_failed b 56 (fun type code ver => MeterModErr type code ver C_OFPT_METER_MOD (htonll dpid) (htonl meter) command).

(** A copy of the message; its header is the one of [b]. *)
Definition c_app_ha_event (b : list Z) : option (option app_msg) := Some (Some (mk_msg 0 0 0 None (Copy b))).
Definition c_app_tr_status_event (b : list Z) : option (option app_msg) := Some (Some (mk_msg 0 0 0 None (Copy b))).

(** [c_app_handler_ops]: the handler of each event.  The handlers of a switch fault without one. *)
Definition app_handler (e : c_app_event) (sw : option (Z * Z * sw_info)) (b : option (list Z)) (p : priv) : option (option app_msg) :=
  match e, sw, b, p with
  | C_DP_REG, Some (dpid, st, i), b, _ => c_app_dpreg_event dpid st i b
  | C_DP_UNREG, Some (dpid, _, i), _, _ => c_app_dpunreg_event dpid i
  | C_PACKET_IN, Some (dpid, _, i), Some b, PktIn fl ofs len id => c_app_packet_in_event dpid i b fl ofs len id
  | C_PORT_CHANGE, Some (dpid, _, i), Some b, PortChg d m r => c_app_port_change_event dpid i b d m r
  | C_FLOW_REMOVED, Some (dpid, _, _), Some b, FlowParms _ _ _ _ r _ _ => c_app_flow_removed_event dpid b r
  | C_FLOW_MOD_FAILED, Some (dpid, _, i), Some b, FlowParms fl m pr c _ ck sq => c_app_flow_mod_failed_event dpid i b fl m pr c ck sq
  | C_GROUP_MOD_FAILED, Some (dpid, _, _), Some b, GroupParms g c => c_app_group_mod_failed_event dpid b g c
  | C_METER_MOD_FAILED, Some (dpid, _, _), Some b, MeterParms m c => c_app_meter_mod_failed_event dpid b m c
  | C_VENDOR_MSG, Some (dpid, _, i), Some b, VendorData o l => c_app_vendor_msg_event dpid i b o l
  | C_HA_STATE, _, Some b, _ => c_app_ha_event b
  | C_TR_STATUS, _, Some b, _ => c_app_tr_status_event b
  | _, _, _, _ => None
  end.

(** ** Facts *)

Lemma port_reg_prep_done n ports : forall done, (length done + length ports <= n)%nat ->
  c_app_dp_port_reg_prep n ports done = done ++ map c_sw_port_hton ports.
Proof.
  induction ports as [|p ports IH]; intros done H; cbn; [by rewrite app_nil_r|]. cbn in H.
  rewrite (proj2 (Nat.leb_gt _ _)) by lia. rewrite IH by (rewrite length_app; cbn; lia). by rewrite <- app_assoc.
Qed.

(** The message about a new switch carries all its ports. *)
Lemma dpreg_ports dpid st i b m : c_app_dpreg_event_prep dpid st i b = Some m ->
  exists x, m_body m = SwitchAdd (htonll dpid) (htonl (u32 (alias_id i))) (version i) (htonl (n_buffers i)) (n_tables i)
    (htonl (capabilities i)) (htonll st) (htonl (u32 (rx_max i))) (htonl (u32 (tx_max i))) (if rx_dump_en i then 1 else 0)
    (if tx_dump_en i then 1 else 0) (map c_sw_port_hton (sw_ports i)) /\ h_xid m = x.
Proof.
  unfold c_app_dpreg_event_prep. rewrite port_reg_prep_done by (cbn; lia). intros H. inv_bind. simplify_eq. by eexists.
Qed.

End AppEv.
