(* ===== verification/Reg.v ===== *)
(** * Registration of applications and delivery of events (mul_app_interface.c, mul_of.c, mul_events.c)

    The controller keeps a list of applications, and each switch a list of those that want its events.  Applications are
    objects with a reference counter: the lists of the switches, what an application owns in the tables of a switch, the fast
    path it runs and queued events count.  Addresses of applications and switches are numbers, 0 the null pointer; [refs] holds the
    counters, so that an application is allocated exactly if it has one.

    The flow, group and meter tables and the forwarding database of a switch are another component: here they are a type with
    the operations of the class [SwOps], and the theorems rely on the laws of [SwTables] (see [RegSpec]).

    A lock is -1 when held for writing and otherwise the number of readers; a second acquisition that would wait for this thread
    itself, an access to a freed object and a failed assertion have no result ([None]). *)
From stdpp Require Import base list gmap.
From Stdlib Require Import ZArith Lia.
From S2P Require Import Prelude Bytes AppEv.
#[local] Open Scope Z_scope.

Module Reg.
Import Bytes AppEv.

Definition C_MAX_APP_STRLEN : nat := 64.
Definition C_APP_ALL_SW : Z := 0x01.
Definition C_APP_REMOTE : Z := 0x02.
Definition C_APP_AUX_REMOTE : Z := 0x04.
Definition C_APP_FP_L2 : Z := 0x01.
Definition C_FP_TYPE_DFL : Z := 0.
Definition C_FP_TYPE_L2 : Z := 1.
Definition SW_REGISTERED : Z := 0x2.
Definition SW_DEAD : Z := 0x4.
Definition SW_PUBLISHED : Z := 0x4000.
Definition C_LOOP_STATE_NONE : Z := 0.

Definition has (x f : Z) : bool := negb (Z.land x f =? 0).

(** The callback of an application; [cb_user] is one given by a local caller. *)
Inductive ev_callback := c_remote_app_event | c_app_event_blackhole | cb_user (f : Z).

(** [app_name] without its terminator. *)
Record c_app_info := mk_app {
  ev_mask : Z; app_flags : Z; priv_flags : Z; n_dpid : Z; app_cookie : Z; dpid_hlist : option (gset Z);
  ev_cb : ev_callback; app_name : list Z }.

(** Which functions of the fast path are those of the layer 2 switch. *)
Record c_switch_fp_ops := mk_ops {
  fp_fwd : bool; fp_port_status : bool; fp_db_dump : bool; fp_topo_change : bool; fp_db_dtor : bool; fp_db_ctor : bool;
  fp_aging : bool }.

Record c_switch (T : Type) := mk_sw {
  DPID : Z; sw_ref : Z; sw_lock : Z; switch_state : Z; info : sw_info; app_list : list Z; app_eventq : list (Z * app_msg);
  fp_ops : c_switch_fp_ops; fp_type : Z; fp_owner : Z; tabs : T }.
#[global] Arguments mk_sw {T}.
#[global] Arguments DPID {T}.
#[global] Arguments sw_ref {T}.
#[global] Arguments sw_lock {T}.
#[global] Arguments switch_state {T}.
#[global] Arguments info {T}.
#[global] Arguments app_list {T}.
#[global] Arguments app_eventq {T}.
#[global] Arguments fp_ops {T}.
#[global] Arguments fp_type {T}.
#[global] Arguments fp_owner {T}.
#[global] Arguments tabs {T}.

(** [sw_hash_tbl] lists the switches in the order of a traversal; [out] is what the applications were given. *)
Record ctrl_hdl (T : Type) := mk_ctrl {
  lock : Z; apps_all : list Z; sw_hash_tbl : list Z; loop_status : Z; apps : gmap Z c_app_info; refs : gmap Z Z;
  sws : gmap Z (c_switch T); out : list (Z * app_msg) }.
#[global] Arguments mk_ctrl {T}.
#[global] Arguments lock {T}.
#[global] Arguments apps_all {T}.
#[global] Arguments sw_hash_tbl {T}.
#[global] Arguments loop_status {T}.
#[global] Arguments apps {T}.
#[global] Arguments refs {T}.
#[global] Arguments sws {T}.
#[global] Arguments out {T}.

(** What the registry calls of the tables of a switch: the removal of the flows, groups and meters of an
    application, which drops references to it, and the forwarding database of the fast path. *)
Class SwOps (T : Type) := {
  app_unregister_owned : Z -> gmap Z Z -> T -> option (gmap Z Z * T);
  c_l2fdb_init : T -> option T;
  c_l2fdb_destroy : T -> option T }.

Section MODEL.
Context {T : Type} `{SwOps T}.

Definition set_lock (x : Z) (c : ctrl_hdl T) : ctrl_hdl T :=
  mk_ctrl x (apps_all c) (sw_hash_tbl c) (loop_status c) (apps c) (refs c) (sws c) (out c).
Definition set_apps_all (x : list Z) (c : ctrl_hdl T) : ctrl_hdl T :=
  mk_ctrl (lock c) x (sw_hash_tbl c) (loop_status c) (apps c) (refs c) (sws c) (out c).
Definition set_hash (x : list Z) (c : ctrl_hdl T) : ctrl_hdl T :=
  mk_ctrl (lock c) (apps_all c) x (loop_status c) (apps c) (refs c) (sws c) (out c).
Definition set_loop (x : Z) (c : ctrl_hdl T) : ctrl_hdl T :=
  mk_ctrl (lock c) (apps_all c) (sw_hash_tbl c) x (apps c) (refs c) (sws c) (out c).
Definition set_apps (x : gmap Z c_app_info) (c : ctrl_hdl T) : ctrl_hdl T :=
  mk_ctrl (lock c) (apps_all c) (sw_hash_tbl c) (loop_status c) x (refs c) (sws c) (out c).
Definition set_refs (x : gmap Z Z) (c : ctrl_hdl T) : ctrl_hdl T :=
  mk_ctrl (lock c) (apps_all c) (sw_hash_tbl c) (loop_status c) (apps c) x (sws c) (out c).
Definition set_sws (x : gmap Z (c_switch T)) (c : ctrl_hdl T) : ctrl_hdl T :=
  mk_ctrl (lock c) (apps_all c) (sw_hash_tbl c) (loop_status c) (apps c) (refs c) x (out c).
Definition add_out (x : Z * app_msg) (c : ctrl_hdl T) : ctrl_hdl T :=
  mk_ctrl (lock c) (apps_all c) (sw_hash_tbl c) (loop_status c) (apps c) (refs c) (sws c) (out c ++ [x]).

Definition set_sw_ref (x : Z) (s : c_switch T) : c_switch T :=
  mk_sw (DPID s) x (sw_lock s) (switch_state s) (info s) (app_list s) (app_eventq s) (fp_ops s) (fp_type s) (fp_owner s) (tabs s).
Definition set_sw_lock (x : Z) (s : c_switch T) : c_switch T :=
  mk_sw (DPID s) (sw_ref s) x (switch_state s) (info s) (app_list s) (app_eventq s) (fp_ops s) (fp_type s) (fp_owner s) (tabs s).
Definition set_state (x : Z) (s : c_switch T) : c_switch T :=
  mk_sw (DPID s) (sw_ref s) (sw_lock s) x (info s) (app_list s) (app_eventq s) (fp_ops s) (fp_type s) (fp_owner s) (tabs s).
Definition set_app_list (x : list Z) (s : c_switch T) : c_switch T :=
  mk_sw (DPID s) (sw_ref s) (sw_lock s) (switch_state s) (info s) x (app_eventq s) (fp_ops s) (fp_type s) (fp_owner s) (tabs s).
Definition set_eventq (x : list (Z * app_msg)) (s : c_switch T) : c_switch T :=
  mk_sw (DPID s) (sw_ref s) (sw_lock s) (switch_state s) (info s) (app_list s) x (fp_ops s) (fp_type s) (fp_owner s) (tabs s).
Definition set_fp (o : c_switch_fp_ops) (ty own : Z) (t : T) (s : c_switch T) : c_switch T :=
  mk_sw (DPID s) (sw_ref s) (sw_lock s) (switch_state s) (info s) (app_list s) (app_eventq s) o ty own t.
Definition set_alias (x : Z) (s : c_switch T) : c_switch T :=
  let i := info s in
  mk_sw (DPID s) (sw_ref s) (sw_lock s) (switch_state s)
    (mk_info x (version i) (n_buffers i) (n_tables i) (capabilities i) (rx_max i) (tx_max i) (rx_dump_en i) (tx_dump_en i) (sw_ports i))
    (app_list s) (app_eventq s) (fp_ops s) (fp_type s) (fp_owner s) (tabs s).
Definition set_tabs (t : T) (s : c_switch T) : c_switch T := set_fp (fp_ops s) (fp_type s) (fp_owner s) t s.

(** Assignment through a pointer to a switch. *)
Definition upd_sw (sw : Z) (f : c_switch T -> c_switch T) (c : ctrl_hdl T) : option (ctrl_hdl T) :=
  s ← sws c !! sw; Some (set_sws (<[sw := f s]> (sws c)) c).

(** ** Locks and references *)

Definition wr_lock (l : Z) : option Z := if l =? 0 then Some (-1) else None.
Definition wr_unlock (l : Z) : option Z := if l =? -1 then Some 0 else None.
Definition rd_lock (l : Z) : option Z := if 0 <=? l then Some (l + 1) else None.
Definition rd_unlock (l : Z) : option Z := if 0 <? l then Some (l - 1) else None.

Definition on_lock (f : Z -> option Z) (c : ctrl_hdl T) : option (ctrl_hdl T) := l ← f (lock c); Some (set_lock l c).
Definition on_sw_lock (f : Z -> option Z) (sw : Z) (c : ctrl_hdl T) : option (ctrl_hdl T) :=
  s ← sws c !! sw; l ← f (sw_lock s); upd_sw sw (set_sw_lock l) c.

Definition c_sw_hier_rdlock (sw : option Z) (c : ctrl_hdl T) : option (ctrl_hdl T) :=
  c ← on_lock rd_lock c; match sw with Some sw => on_sw_lock rd_lock sw c | None => Some c end.
Definition c_sw_hier_unlock (sw : option Z) (c : ctrl_hdl T) : option (ctrl_hdl T) :=
  c ← match sw with Some sw => on_sw_lock rd_unlock sw c | None => Some c end; on_lock rd_unlock c.

Definition c_app_ref (app : Z) (c : ctrl_hdl T) : option (ctrl_hdl T) :=
  r ← refs c !! app; Some (set_refs (<[app := r + 1]> (refs c)) c).

(** Without references left the application is freed. *)
Definition c_app_put (app : Z) (c : ctrl_hdl T) : option (ctrl_hdl T) :=
  r ← refs c !! app;
  Some (if r =? 0 then set_apps (delete app (apps c)) (set_refs (delete app (refs c)) c)
        else set_refs (<[app := r - 1]> (refs c)) c).

(** [strncmp(a, b, C_MAX_APP_STRLEN) == 0] for strings without their terminators. *)
Definition same_name (a b : list Z) : bool := bool_decide (take C_MAX_APP_STRLEN a = take C_MAX_APP_STRLEN b).

Fixpoint find_app (p : c_app_info -> bool) (l : list Z) (c : ctrl_hdl T) : option (option Z) :=
  match l with
  | [] => Some None
  | a :: l => i ← apps c !! a; if p i then Some (Some a) else find_app p l c
  end.
Definition __c_app_lookup (name : list Z) (c : ctrl_hdl T) : option (option Z) :=
  find_app (fun i => same_name (app_name i) name) (apps_all c) c.
Definition __c_app_lookup_by_cookie (cookie : Z) (c : ctrl_hdl T) : option (option Z) :=
  find_app (fun i => app_cookie i =? cookie) (apps_all c) c.

Definition get_of (r : option (option Z)) (c : ctrl_hdl T) : option (option Z * ctrl_hdl T) :=
  a ← r; match a with None => Some (None, c) | Some a => c ← c_app_ref a c; Some (Some a, c) end.
Definition __c_app_get (name : list Z) (c : ctrl_hdl T) := get_of (__c_app_lookup name c) c.
Definition __c_app_get_by_cookie (cookie : Z) (c : ctrl_hdl T) := get_of (__c_app_lookup_by_cookie cookie c) c.
Definition c_app_get (name : list Z) (c : ctrl_hdl T) : option (option Z * ctrl_hdl T) :=
  c ← on_lock rd_lock c; '(r, c) ← __c_app_get name c; c ← on_lock rd_unlock c; Some (r, c).
Definition c_app_get_by_cookie (cookie : Z) (c : ctrl_hdl T) : option (option Z * ctrl_hdl T) :=
  c ← on_lock rd_lock c; '(r, c) ← __c_app_get_by_cookie cookie c; c ← on_lock rd_unlock c; Some (r, c).

(** [strcpy(app->app_name, "unreg")]; the object has no other contents yet. *)
Definition unreg : list Z := [117; 110; 114; 101; 103].
Definition zero_app : c_app_info := mk_app 0 0 0 0 0 None c_app_event_blackhole [].
Definition c_app_alloc (app : Z) (c : ctrl_hdl T) : ctrl_hdl T :=
  set_apps (<[app := mk_app 0 0 0 0 0 None c_app_event_blackhole unreg]> (apps c)) (set_refs (<[app := 0]> (refs c)) c).

(** ** Switches *)

Fixpoint lookup_dpid (dpid : Z) (l : list Z) (c : ctrl_hdl T) : option (option Z) :=
  match l with
  | [] => Some None
  | sw :: l => s ← sws c !! sw; if DPID s =? dpid then Some (Some sw) else lookup_dpid dpid l c
  end.
Definition __c_switch_get (dpid : Z) (c : ctrl_hdl T) : option (option Z * ctrl_hdl T) :=
  r ← lookup_dpid dpid (sw_hash_tbl c) c;
  match r with
  | None => Some (None, c)
  | Some sw => c ← upd_sw sw (fun s => set_sw_ref (sw_ref s + 1) s) c; Some (Some sw, c)
  end.
(** Only the branch that does not free the switch. *)
Definition c_switch_put (sw : Z) (c : ctrl_hdl T) : option (ctrl_hdl T) :=
  s ← sws c !! sw; if sw_ref s =? 0 then None else upd_sw sw (fun s => set_sw_ref (sw_ref s - 1) s) c.

Fixpoint traverse (f : Z -> ctrl_hdl T -> option (ctrl_hdl T)) (l : list Z) (c : ctrl_hdl T) : option (ctrl_hdl T) :=
  match l with [] => Some c | x :: l => c ← f x c; traverse f l c end.
Definition __c_switch_traverse_all (f : Z -> ctrl_hdl T -> option (ctrl_hdl T)) (c : ctrl_hdl T) : option (ctrl_hdl T) :=
  traverse f (sw_hash_tbl c) c.

Definition __c_per_switch_app_register (app sw : Z) (c : ctrl_hdl T) : option (ctrl_hdl T) :=
  s ← sws c !! sw;
  if bool_decide (app ∈ app_list s) then Some c
  else c ← c_app_ref app c; upd_sw sw (fun s => set_app_list (app_list s ++ [app]) s) c.
Definition c_per_switch_app_register (app sw : Z) (c : ctrl_hdl T) : option (ctrl_hdl T) :=
  c ← on_sw_lock wr_lock sw c; c ← __c_per_switch_app_register app sw c; on_sw_lock wr_unlock sw c.

Definition dfl_ops (o : c_switch_fp_ops) : c_switch_fp_ops := mk_ops false false false false false false (fp_aging o).
Definition l2_ops : c_switch_fp_ops := mk_ops true true true true true true true.

Definition __c_sw_fpops_set (app sw ty : Z) (c : ctrl_hdl T) : option (ctrl_hdl T) :=
  s ← sws c !! sw;
  if fp_type s =? ty then Some c
  else if ty =? C_FP_TYPE_DFL then
    if negb (fp_owner s =? app) then Some c
    else
      t ← (if fp_db_dtor (fp_ops s) then c_l2fdb_destroy (tabs s) else Some (tabs s));
      c ← upd_sw sw (set_fp (dfl_ops (fp_ops s)) ty 0 t) c;
      c_app_put app c
  else if ty =? C_FP_TYPE_L2 then
    t ← (if fp_db_dtor (fp_ops s) then c_l2fdb_destroy (tabs s) else Some (tabs s));
    t ← c_l2fdb_init t;
    i ← apps c !! app;
    let i := mk_app (ev_mask i) (app_flags i) (Z.lor (priv_flags i) C_APP_FP_L2) (n_dpid i) (app_cookie i) (dpid_hlist i) (ev_cb i) (app_name i) in
    c ← c_app_ref app (set_apps (<[app := i]> (apps c)) c);
    upd_sw sw (set_fp l2_ops ty app t) c
  else Some c.

Definition c_per_switch_app_unregister (app sw : Z) (c : ctrl_hdl T) : option (ctrl_hdl T) :=
  c ← on_sw_lock wr_lock sw c;
  s ← sws c !! sw;
  '(r, t) ← app_unregister_owned app (refs c) (tabs s);
  c ← upd_sw sw (set_tabs t) (set_refs r c);
  if bool_decide (app ∈ app_list s) then
    c ← upd_sw sw (fun s => set_app_list (g_slist_remove app (app_list s)) s) c;
    i ← apps c !! app;
    c ← (if has (priv_flags i) C_APP_FP_L2 && (app =? fp_owner s) then __c_sw_fpops_set app sw C_FP_TYPE_DFL c else Some c);
    c ← on_sw_lock wr_unlock sw c;
    c_app_put app c
  else on_sw_lock wr_unlock sw c.

Definition __c_per_switch_app_unregister (app sw : Z) (c : ctrl_hdl T) : option (ctrl_hdl T) :=
  c ← upd_sw sw (fun s => set_app_list (g_slist_remove app (app_list s)) s) c; c_app_put app c.

(** Whether an application wants the events of a switch; the list of switches must exist to be searched. *)
Definition wants (i : c_app_info) (dpid : Z) : option bool :=
  if has (app_flags i) C_APP_ALL_SW then Some true else h ← dpid_hlist i; Some (bool_decide (dpid ∈ h)).

Definition c_per_app_switch_register (sw app : Z) (c : ctrl_hdl T) : option (ctrl_hdl T) :=
  i ← apps c !! app; s ← sws c !! sw;
  if has (app_flags i) C_APP_AUX_REMOTE then Some c
  else b ← wants i (DPID s); if b : bool then __c_per_switch_app_register app sw c else Some c.
Definition c_per_app_switch_unregister (sw app : Z) (c : ctrl_hdl T) : option (ctrl_hdl T) :=
  i ← apps c !! app; s ← sws c !! sw;
  if has (app_flags i) C_APP_AUX_REMOTE then Some c
  else b ← wants i (DPID s); if b : bool then __c_per_switch_app_unregister app sw c else Some c.

Definition c_switch_app_list_exp (sw : Z) (c : ctrl_hdl T) : option (ctrl_hdl T) :=
  traverse (c_per_app_switch_register sw) (apps_all c) c.

(** The list is freed but the pointer stays.  If the list is not empty by then the pointer is one to freed memory, a state this model
    does not have: no result. *)
Definition c_switch_app_list_de_exp (sw : Z) (c : ctrl_hdl T) : option (ctrl_hdl T) :=
  s ← sws c !! sw;
  match app_list s with
  | [] => Some c
  | _ => c ← traverse (c_per_app_switch_unregister sw) (apps_all c) c;
         s ← sws c !! sw; match app_list s with [] => Some c | _ => None end
  end.

(** ** Events *)

(** [c_remote_app_event] sends and takes the buffer; [c_app_event_blackhole] frees it. *)
Definition call_cb (app : Z) (i : c_app_info) (m : app_msg) (c : ctrl_hdl T) : ctrl_hdl T :=
  match ev_cb i with c_app_event_blackhole => c | _ => add_out (app, m) c end.

(** Without a switch a local application gets nothing. *)
Definition c_app_event_finish (sw : option Z) (app : Z) (m : app_msg) (c : ctrl_hdl T) : option (ctrl_hdl T) :=
  i ← apps c !! app;
  if has (app_flags i) C_APP_REMOTE then Some (call_cb app i m c)
  else match sw with
       | None => Some c
       | Some sw => c ← c_app_ref app c; upd_sw sw (fun s => set_eventq (app_eventq s ++ [(app, m)]) s) c
       end.

(** The callback of a queued event gets the switch; the buffer is freed afterwards, which must not have happened before. *)
Definition c_app_event_send (q : Z * app_msg) (c : ctrl_hdl T) : option (ctrl_hdl T) :=
  let '(app, m) := q in
  i ← apps c !! app;
  if has (app_flags i) C_APP_REMOTE then c_app_put app c
  else match ev_cb i with
       | c_app_event_blackhole => None
       | _ => c_app_put app (add_out (app, m) c)
       end.
Fixpoint send_all (l : list (Z * app_msg)) (c : ctrl_hdl T) : option (ctrl_hdl T) :=
  match l with [] => Some c | q :: l => c ← c_app_event_send q c; send_all l c end.
Definition c_switch_app_eventq_send (sw : option Z) (c : ctrl_hdl T) : option (ctrl_hdl T) :=
  match sw with
  | None => Some c
  | Some sw => s ← sws c !! sw; c ← send_all (app_eventq s) c; upd_sw sw (set_eventq []) c
  end.

(** The switch as the handlers see it; the events of the controller itself go without it. *)
Definition sw_view (sw : option Z) (c : ctrl_hdl T) : option (option (Z * Z * sw_info)) :=
  match sw with None => Some None | Some sw => s ← sws c !! sw; Some (Some (DPID s, switch_state s, info s)) end.
Definition finish_sw (e : c_app_event) (sw : option Z) : option Z :=
  match e with C_HA_STATE | C_TR_STATUS => None | _ => sw end.

Definition one_event (sw : option Z) (b : option (list Z)) (e : c_app_event) (p : priv) (app : Z) (c : ctrl_hdl T) : option (ctrl_hdl T) :=
  i ← apps c !! app;
  if has (Z.shiftl 1 (event_bit e)) (ev_mask i) then
    v ← sw_view sw c;
    m ← app_handler e v b p;
    match m with None => Some c | Some m => c_app_event_finish (finish_sw e sw) app m c end
  else Some c.

Definition c_process_app_event_loop (sw : option Z) (b : option (list Z)) (e : c_app_event) (app : option Z) (p : priv) (c : ctrl_hdl T)
  : option (ctrl_hdl T) :=
  match app with
  | Some app => one_event sw b e p app c
  | None =>
      l ← match sw with Some sw => s ← sws c !! sw; Some (app_list s) | None => Some (apps_all c) end;
      traverse (one_event sw b e p) l c
  end.

(** [c_topo_loop_change_notify(true, new_state, false, false)] *)
Definition c_topo_loop_change_notify (new_state : Z) (c : ctrl_hdl T) : option (ctrl_hdl T) :=
  c ← on_lock wr_lock c; on_lock wr_unlock (set_loop new_state c).

Definition pre_proc (e : c_app_event) (sw : option Z) (c : ctrl_hdl T) : option (ctrl_hdl T) :=
  match e with C_DP_REG => sw ← sw; c_switch_app_list_exp sw c | _ => Some c end.
Definition post_proc (e : c_app_event) (sw : option Z) (c : ctrl_hdl T) : option (ctrl_hdl T) :=
  match e with C_DP_UNREG => sw ← sw; c_switch_app_list_de_exp sw c | _ => Some c end.

Definition c_signal_app_event (sw : option Z) (b : option (list Z)) (e : c_app_event) (app : option Z) (p : priv) (locked : bool)
    (c : ctrl_hdl T) : option (ctrl_hdl T) :=
  c ← match e with
      | C_DP_UNREG | C_PORT_CHANGE => if locked then None else c_topo_loop_change_notify C_LOOP_STATE_NONE c
      | _ => Some c
      end;
  c ← (if locked then Some c else c_sw_hier_rdlock sw c);
  c ← pre_proc e sw c;
  c ← c_process_app_event_loop sw b e app p c;
  c ← post_proc e sw c;
  c ← (if locked then Some c else c_sw_hier_unlock sw c);
  c_switch_app_eventq_send sw c.

(** ** Registration *)

(** The object of a registered application; [strncpy] leaves at most 63 characters. *)
Definition reg_info (i : c_app_info) (remote : bool) (name : list Z) (flags mask : Z) (cb : option ev_callback) : c_app_info :=
  mk_app mask (if remote then Z.lor flags C_APP_REMOTE else flags) (priv_flags i) (n_dpid i) (app_cookie i) (dpid_hlist i)
    (match cb with Some f => f | None => c_app_event_blackhole end) (take (C_MAX_APP_STRLEN - 1) name).

Definition set_dpids (n : Z) (h : gset Z) (i : c_app_info) : c_app_info :=
  mk_app (ev_mask i) (app_flags i) (priv_flags i) n (app_cookie i) (Some h) (ev_cb i) (app_name i).

Definition upd_app (app : Z) (f : c_app_info -> c_app_info) (c : ctrl_hdl T) : option (ctrl_hdl T) :=
  i ← apps c !! app; Some (set_apps (<[app := f i]> (apps c)) c).

Definition add_dpid (n app d : Z) (c : ctrl_hdl T) : option (ctrl_hdl T) :=
  let dpid := ntohll d in
  i ← apps c !! app;
  h ← dpid_hlist i;
  if bool_decide (dpid ∈ h) then Some c
  else
    c ← upd_app app (set_dpids n ({[dpid]} ∪ h)) c;
    '(sw, c) ← __c_switch_get dpid c;
    match sw with
    | None => Some c
    | Some sw => c ← c_per_switch_app_register app sw c; c_switch_put sw c
    end.

(** The part of [mul_register_app] under the lock. *)
Definition register_locked (app : Z) (is_remote : bool) (name : list Z) (flags mask : Z) (dpid_list : list Z) (cb : option ev_callback)
    (c : ctrl_hdl T) : option (Z * ctrl_hdl T) :=
  c ← on_lock wr_lock c;
  '(old, c) ← __c_app_get name c;
  match old with
  | Some _ => c ← on_lock wr_unlock c; Some (-1, c)
  | None =>
      c ← upd_app app (fun i => reg_info i is_remote name flags mask cb) c;
      i ← apps c !! app;
      if has (app_flags i) C_APP_ALL_SW then
        c ← __c_switch_traverse_all (c_per_switch_app_register app) c;
        c ← on_lock wr_unlock (set_apps_all (apps_all c ++ [app]) c);
        Some (0, c)
      else if bool_decide (dpid_list = []) then c ← on_lock wr_unlock c; Some (-1, c)
      else
        c ← upd_app app (set_dpids (Z.of_nat (length dpid_list)) ∅) c;
        c ← traverse (add_dpid (Z.of_nat (length dpid_list)) app) dpid_list c;
        c ← on_lock wr_unlock (set_apps_all (apps_all c ++ [app]) c);
        Some (0, c)
  end.

(** [new] is the address that [calloc] gives when [app_arg] is null; it is freed on an error. *)
Definition mul_register_app (app_arg : option Z) (new : Z) (name : list Z) (flags mask : Z) (dpid_list : list Z)
    (cb : option ev_callback) (c : ctrl_hdl T) : option (Z * ctrl_hdl T) :=
  match app_arg with
  | Some app => register_locked app true name flags mask dpid_list cb c
  | None =>
      '(r, c) ← register_locked new false name flags mask dpid_list cb (set_apps (<[new := zero_app]> (apps c)) (set_refs (<[new := 0]> (refs c)) c));
      Some (r, if r =? 0 then c else set_apps (delete new (apps c)) (set_refs (delete new (refs c)) c))
  end.

Definition mul_unregister_app (name : list Z) (c : ctrl_hdl T) : option (Z * ctrl_hdl T) :=
  c ← on_lock wr_lock c;
  '(app, c) ← __c_app_get name c;
  match app with
  | None => c ← on_lock wr_unlock c; Some (-1, c)
  | Some app =>
      let c := set_apps_all (g_slist_remove app (apps_all c)) c in
      c ← __c_switch_traverse_all (c_per_switch_app_unregister app) c;
      c ← upd_app app (fun i => mk_app (ev_mask i) (app_flags i) (Z.land (priv_flags i) (Z.lnot C_APP_FP_L2))
            (match dpid_hlist i with Some _ => 0 | None => n_dpid i end) (app_cookie i) None c_app_event_blackhole (app_name i)) c;
      c ← on_lock wr_unlock c;
      c ← c_app_put app c;
      Some (0, c)
  end.

(** The connection of an application ends. *)
Definition c_worker_do_app_del (app : Z) (c : ctrl_hdl T) : option (ctrl_hdl T) :=
  i ← apps c !! app;
  c ← (if has (app_flags i) C_APP_AUX_REMOTE then Some c else '(_, c) ← mul_unregister_app (app_name i) c; Some c);
  c_app_put app c.

(** [c_app_set_fpops_command] for a message of full length that names the switch and the type. *)
Definition c_app_set_fpops_command (app dpid ty : Z) (c : ctrl_hdl T) : option (Z * ctrl_hdl T) :=
  i ← apps c !! app;
  if has (app_flags i) C_APP_AUX_REMOTE then Some (-1, c)
  else
    c ← on_lock rd_lock c;
    '(sw, c) ← __c_switch_get dpid c;
    c ← on_lock rd_unlock c;
    match sw with
    | None => Some (-1, c)
    | Some sw =>
        c ← on_sw_lock wr_lock sw c;
        c ← __c_sw_fpops_set app sw ty c;
        c ← on_sw_lock wr_unlock sw c;
        c ← c_switch_put sw c;
        Some (0, c)
    end.

(** ** Replay of the switches for a new application *)

Fixpoint replay_q (l : list Z) (c : ctrl_hdl T) : option (list Z * ctrl_hdl T) :=
  match l with
  | [] => Some ([], c)
  | sw :: l =>
      s ← sws c !! sw;
      if has (switch_state s) SW_PUBLISHED then
        c ← upd_sw sw (fun s => set_sw_ref (sw_ref s + 1) s) c;
        '(q, c) ← replay_q l c; Some (sw :: q, c)
      else replay_q l c
  end.

(** The queued message about the switch is the [b] of the event; only its transaction id is used. *)
Definition replay_one (app sw : Z) (c : ctrl_hdl T) : option (ctrl_hdl T) :=
  i ← apps c !! app; s ← sws c !! sw;
  b ← wants i (DPID s);
  c ← (if b : bool then c_signal_app_event (Some sw) None C_DP_REG (Some app) NoPriv false c else Some c);
  c_switch_put sw c.

Definition c_switch_replay_all (app : Z) (c : ctrl_hdl T) : option (ctrl_hdl T) :=
  c ← on_lock rd_lock c;
  '(q, c) ← replay_q (sw_hash_tbl c) c;
  c ← on_lock rd_unlock c;
  traverse (replay_one app) q c.

(** ** Switches come and go *)

(** [c_switch_add] with the alias that the pool gives. *)
Definition c_switch_add (sw alias : Z) (c : ctrl_hdl T) : option (ctrl_hdl T) :=
  s ← sws c !! sw;
  c ← on_lock wr_lock c;
  '(old, c) ← __c_switch_get (DPID s) c;
  match old with
  | Some old => c ← c_switch_put old c; on_lock wr_unlock c
  | None => c ← upd_sw sw (set_alias alias) (set_hash (sw_hash_tbl c ++ [sw]) c); on_lock wr_unlock c
  end.

(** The part of publication: the event, and the state of the switch. *)
Definition c_switch_publish (sw : Z) (b : option (list Z)) (c : ctrl_hdl T) : option (ctrl_hdl T) :=
  c ← c_signal_app_event (Some sw) b C_DP_REG None NoPriv false c;
  upd_sw sw (fun s => set_state (Z.lor (switch_state s) SW_PUBLISHED) s) c.

Definition c_switch_del (sw : Z) (c : ctrl_hdl T) : option (ctrl_hdl T) :=
  c ← on_lock wr_lock c;
  s ← sws c !! sw;
  c ← on_lock wr_unlock (set_hash (base.filter (fun x => bool_decide (DPID <$> sws c !! x <> Some (DPID s))) (sw_hash_tbl c)) c);
  c ← (if has (switch_state s) SW_REGISTERED then c_signal_app_event (Some sw) None C_DP_UNREG None NoPriv false c else Some c);
  upd_sw sw (fun s => set_state (Z.lor (switch_state s) SW_DEAD) s) c.

End MODEL.
End Reg.
