(* ===== verification/RegSpec.v ===== *)
(** * Registration and events: what holds between operations

    The laws that the registry expects of the tables of a switch, the invariant, and the exact effect of the steps that the operations
    are made of. *)
From stdpp Require Import base list gmap.
From Stdlib Require Import ZArith Lia.
From S2P Require Import Prelude Bytes AppEv Reg.
Import AppEv Reg.
#[local] Open Scope Z_scope.

(** ** The interface of the tables of a switch *)

(** [t_owned x t] references to the application [x] are held by the tables [t]; [t_ok D t] says that they are well formed with owners
    among the live applications [D]; [t_purgeable x t] that what [x] owns may go, [t_clean x t] that [x] owns nothing. *)
Class SwTables (T : Type) `{SwOps T} := {
  t_owned : Z -> T -> Z;
  t_ok : gset Z -> T -> Prop;
  t_purgeable : Z -> T -> Prop;
  t_clean : Z -> T -> Prop;
  t_owned_nonneg x t : 0 <= t_owned x t;
  t_ok_live D D' t : (forall x, x ∈ D -> x ∈ D' \/ t_owned x t = 0) -> t_ok D t -> t_ok D' t;
  t_purge app r t : t_ok (dom r) t -> t_purgeable app t -> is_Some (r !! app) -> (forall x n, r !! x = Some n -> t_owned x t <= n) ->
    exists r' t', app_unregister_owned app r t = Some (r', t') /\ t_ok (dom r') t' /\ t_clean app t' /\
      (forall x, x <> app -> t_owned x t' = t_owned x t) /\ t_owned app t' <= t_owned app t /\
      shifted (fun x => t_owned x t' - t_owned x t) r r';
  t_init D t : t_ok D t -> exists t', c_l2fdb_init t = Some t' /\ t_ok D t' /\ (forall x, t_owned x t' = t_owned x t) /\
    (forall x, t_clean x t -> t_clean x t');
  t_destroy D t : t_ok D t -> exists t', c_l2fdb_destroy t = Some t' /\ t_ok D t' /\ (forall x, t_owned x t' = t_owned x t) /\
    (forall x, t_clean x t -> t_clean x t') }.

Section SPEC.
Context {T : Type} `{SwTables T}.
Implicit Types c : ctrl_hdl T.
Implicit Types s : c_switch T.

(** ** References *)

Definition fp_own (x o : Z) : Z := if (o =? x) && negb (o =? 0) then 1 else 0.

(** The references to [x] that a switch holds. *)
Definition weight (x : Z) (s : c_switch T) : Z :=
  cnt x (app_list s) + fp_own x (fp_owner s) + cnt x (map fst (app_eventq s)) + t_owned x (tabs s).

Definition held (x : Z) (c : ctrl_hdl T) : Z := msum (weight x) (sws c).

Lemma fp_own_range x o : 0 <= fp_own x o <= 1.
Proof. unfold fp_own. destruct (_ && _); lia. Qed.

Lemma weight_nonneg x s : 0 <= weight x s.
Proof.
  unfold weight. pose proof (cnt_nonneg x (app_list s)). pose proof (fp_own_range x (fp_owner s)).
  pose proof (cnt_nonneg x (map fst (app_eventq s))). pose proof (t_owned_nonneg x (tabs s)). lia.
Qed.

Lemma held_sw x c sw s : sws c !! sw = Some s -> weight x s <= held x c.
Proof. intros Hs. unfold held. exact (msum_ge (weight x) _ sw s (weight_nonneg x) Hs). Qed.

(** ** States that differ in counters, switches and output *)

Definition with_ (R : gmap Z Z) (S : gmap Z (c_switch T)) (O : list (Z * app_msg)) (c : ctrl_hdl T) : ctrl_hdl T :=
  mk_ctrl (lock c) (apps_all c) (sw_hash_tbl c) (loop_status c) (apps c) R S O.

Lemma with_same c : with_ (refs c) (sws c) (out c) c = c.
Proof. by destruct c. Qed.

Lemma set_sws_same c : set_sws (sws c) c = c.
Proof. by destruct c. Qed.

Lemma set_refs_same c : set_refs (refs c) c = c.
Proof. by destruct c. Qed.

Lemma upd_sw_eq sw s f c : sws c !! sw = Some s -> upd_sw sw f c = Some (set_sws (<[sw := f s]> (sws c)) c).
Proof. intros Hs. unfold upd_sw. by rewrite Hs. Qed.

Lemma c_app_ref_eq a r c : refs c !! a = Some r -> c_app_ref a c = Some (set_refs (<[a := r + 1]> (refs c)) c).
Proof. intros Hr. unfold c_app_ref. by rewrite Hr. Qed.

Lemma c_app_put_eq a r c : refs c !! a = Some r -> 0 < r -> c_app_put a c = Some (set_refs (<[a := r - 1]> (refs c)) c).
Proof. intros Hr Hp. unfold c_app_put. rewrite Hr. cbn. by rewrite (proj2 (Z.eqb_neq _ _)) by lia. Qed.

(** Counters that go up or down by the occurrences in a list. *)
Lemma shifted_cons_up a r l R m : m !! a = Some r -> shifted (fun x => cnt x l) (<[a := r + 1]> m) R -> shifted (fun x => cnt x (a :: l)) m R.
Proof.
  intros Ha Hs. eapply shifted_ext; [|eapply shifted_trans; [exact (shifted_one a 1 m r Ha)|exact Hs]]. done.
Qed.

Lemma shifted_cons_down a r l R m : m !! a = Some r -> shifted (fun x => - cnt x l) (<[a := r - 1]> m) R ->
  shifted (fun x => - cnt x (a :: l)) m R.
Proof.
  intros Ha Hs. eapply shifted_ext; [|eapply shifted_trans; [exact (shifted_one a (-1) m r Ha)|exact Hs]].
  intros x. cbn. case_bool_decide; lia.
Qed.

Lemma shifted_nil m : shifted (fun x => cnt x []) m m.
Proof. intros x. destruct (m !! x); cbn; [|done]. f_equal. lia. Qed.

Lemma shifted_nil_down m : shifted (fun x => - cnt x []) m m.
Proof. intros x. destruct (m !! x); cbn; [|done]. f_equal. lia. Qed.

(** ** Delivery *)

Definition subscribed (e : c_app_event) (i : c_app_info) : bool := has (Z.shiftl 1 (event_bit e)) (ev_mask i).
Definition remote (i : c_app_info) : bool := has (app_flags i) C_APP_REMOTE.
Definition silent (i : c_app_info) : bool := match ev_cb i with c_app_event_blackhole => true | _ => false end.

(** Those of a list of applications for which a test of their object holds, with the message. *)
Definition pick (p : c_app_info -> bool) (A : gmap Z c_app_info) (m : app_msg) (l : list Z) : list (Z * app_msg) :=
  flat_map (fun a => match A !! a with Some i => if p i then [(a, m)] else [] | None => [] end) l.

(** What is sent at once, and what is queued. *)
Definition sent_now (e : c_app_event) := pick (fun i => subscribed e i && remote i && negb (silent i)).
Definition queued (e : c_app_event) := pick (fun i => subscribed e i && negb (remote i)).

Definition at_sw (sw : Z) (s : c_switch T) (R : gmap Z Z) (O : list (Z * app_msg)) (c : ctrl_hdl T) : ctrl_hdl T :=
  with_ R (<[sw := s]> (sws c)) O c.

Lemma at_sw_at_sw sw s s' R R' O O' c : at_sw sw s' R' O' (at_sw sw s R O c) = at_sw sw s' R' O' c.
Proof. unfold at_sw, with_. cbn. by rewrite insert_insert_eq. Qed.

Lemma lookup_at_sw sw s R O c : sws (at_sw sw s R O c) !! sw = Some s.
Proof. apply lookup_insert_eq. Qed.

Lemma call_cb_eq a i m c : call_cb a i m c = if silent i then c else add_out (a, m) c.
Proof. unfold call_cb, silent. by destruct (ev_cb i). Qed.

Lemma one_event_eq sw b e p a i m s c : sws c !! sw = Some s -> apps c !! a = Some i ->
  app_handler e (Some (DPID s, switch_state s, info s)) b p = Some (Some m) ->
  one_event (Some sw) b e p a c = if subscribed e i then c_app_event_finish (finish_sw e (Some sw)) a m c else Some c.
Proof.
  intros Hs Hi Hm. unfold one_event, subscribed. rewrite Hi. cbn [mbind option_bind]. destruct (has _ _); [|done].
  cbn [sw_view]. rewrite Hs. cbn [mbind option_bind]. rewrite Hm. done.
Qed.

(** The loop over applications, at a switch whose events are about it. *)
Lemma event_loop sw b e p l m : finish_sw e (Some sw) = Some sw -> forall s R O c,
  sws c !! sw = Some s -> refs c = R -> out c = O ->
  app_handler e (Some (DPID s, switch_state s, info s)) b p = Some (Some m) ->
  Forall (fun a => is_Some (apps c !! a) /\ is_Some (R !! a)) l ->
  exists R', traverse (one_event (Some sw) b e p) l c =
      Some (at_sw sw (set_eventq (app_eventq s ++ queued e (apps c) m l) s) R' (O ++ sent_now e (apps c) m l) c) /\
    shifted (fun x => cnt x (map fst (queued e (apps c) m l))) R R'.
Proof.
  intros Hf. induction l as [|a l IH]; intros s R O c Hs HR HO Hm Hl; cbn [traverse].
  { exists R. split; [|apply shifted_nil]. unfold queued, sent_now, pick. cbn [flat_map]. rewrite !app_nil_r. subst R O.
    unfold at_sw. rewrite insert_id by (rewrite Hs; by destruct s). by rewrite with_same. }
  apply Forall_cons in Hl as [[[i Hi] [r Hr]] Hl]. rewrite (one_event_eq sw b e p a i m s) by done.
  unfold queued, sent_now, pick in *. cbn [flat_map]. rewrite Hi.
  destruct (subscribed e i); cbn [andb app]; [|by apply IH]. rewrite Hf.
  unfold c_app_event_finish. rewrite Hi. cbn [mbind option_bind]. fold (remote i). destruct (remote i) eqn:Er; cbn [andb negb app].
  - rewrite call_cb_eq. destruct (silent i); cbn [negb app mbind option_bind]; [by apply IH|].
    destruct (IH s R (O ++ [(a, m)]) (add_out (a, m) c)) as (R' & E & Hsh); try done. { cbn. by rewrite HO. }
    exists R'. rewrite E, <- app_assoc. done.
  - subst R. rewrite (c_app_ref_eq a r) by done. cbn [mbind option_bind]. rewrite (upd_sw_eq sw s) by done. cbn [mbind option_bind sws set_refs].
    destruct (IH (set_eventq (app_eventq s ++ [(a, m)]) s) (<[a := r + 1]> (refs c)) O
      (set_sws (<[sw := set_eventq (app_eventq s ++ [(a, m)]) s]> (sws c)) (set_refs (<[a := r + 1]> (refs c)) c))) as (R' & E & Hsh); try done.
    + cbn. apply lookup_insert_eq.
    + eapply Forall_impl; [exact Hl|]. cbn. intros x [H1 [n H2]]. split; [done|]. rewrite lookup_insert_is_Some'. eauto.
    + exists R'. cbn [sws set_sws set_refs] in E. rewrite E. split.
      * unfold at_sw, with_. cbn. by rewrite insert_insert_eq, <- app_assoc.
      * cbn [map fst]. eapply shifted_cons_up; [exact Hr|exact Hsh].
Qed.

(** The queued events are delivered and their references dropped. *)
Lemma send_all_eq q : forall c,
  Forall (fun '(a, _) => exists i, apps c !! a = Some i /\ remote i = false /\ silent i = false) q ->
  (forall x n, refs c !! x = Some n -> cnt x (map fst q) <= n) -> Forall (fun '(a, _) => is_Some (refs c !! a)) q ->
  exists R, send_all q c = Some (with_ R (sws c) (out c ++ q) c) /\ shifted (fun x => - cnt x (map fst q)) (refs c) R.
Proof.
  induction q as [|[a m] q IH]; intros c Hq Hr Hs; cbn [send_all].
  { exists (refs c). split; [|apply shifted_nil_down]. by rewrite app_nil_r, with_same. }
  apply Forall_cons in Hq as [(i & Hi & Hre & Hsi) Hq]. apply Forall_cons in Hs as [[r Ha] Hs].
  unfold c_app_event_send. rewrite Hi. cbn [mbind option_bind]. fold (remote i). rewrite Hre.
  assert (0 < r) as Hpos.
  { specialize (Hr a r Ha). cbn in Hr. rewrite bool_decide_true in Hr by done. pose proof (cnt_nonneg a (map fst q)). lia. }
  assert (match ev_cb i with c_app_event_blackhole => None | _ => c_app_put a (add_out (a, m) c) end =
          c_app_put a (add_out (a, m) c)) as -> by (unfold silent in Hsi; by destruct (ev_cb i)).
  rewrite (c_app_put_eq a r) by done. cbn [mbind option_bind refs add_out].
  destruct (IH (set_refs (<[a := r - 1]> (refs c)) (add_out (a, m) c))) as (R & E & Hsh); cbn [refs set_refs]; try done.
  - intros x n Hx. destruct (decide (x = a)) as [->|Hne].
    + rewrite lookup_insert_eq in Hx. simplify_eq. specialize (Hr a r Ha). cbn in Hr. rewrite bool_decide_true in Hr by done. lia.
    + rewrite lookup_insert_ne in Hx by done. specialize (Hr x n Hx). cbn in Hr. rewrite bool_decide_false in Hr by done. lia.
  - eapply Forall_impl; [exact Hs|]. intros [x y] [n Hn]. rewrite lookup_insert_is_Some'. eauto.
  - exists R. rewrite E. split; [unfold with_; cbn; by rewrite <- app_assoc|]. by eapply shifted_cons_down.
Qed.

(** ** The applications of a switch *)

(** Whether an application wants the events of a switch, and may have them. *)
Definition wanted (A : gmap Z c_app_info) (dpid a : Z) : bool :=
  match A !! a with
  | Some i => negb (has (app_flags i) C_APP_AUX_REMOTE) && match wants i dpid with Some b => b | None => false end
  | None => false
  end.

(** A registered object: the set of switches exists if it is needed, and queued events have a callback. *)
Record app_ok (i : c_app_info) : Prop := {
  ao_aux : has (app_flags i) C_APP_AUX_REMOTE = false;
  ao_dpids : has (app_flags i) C_APP_ALL_SW = true \/ is_Some (dpid_hlist i);
  ao_cb : remote i = false -> silent i = true -> forall e, subscribed e i = false }.

Lemma app_ok_wants i dpid : app_ok i -> exists b, wants i dpid = Some b.
Proof.
  intros [_ [Ha|[h Hh]] _]; unfold wants; [rewrite Ha; eauto|]. destruct (has _ _); [eauto|]. rewrite Hh. cbn. eauto.
Qed.

Lemma wanted_eq A dpid a i : A !! a = Some i -> app_ok i -> wants i dpid = Some (wanted A dpid a).
Proof.
  intros Ha Hok. unfold wanted. rewrite Ha, (ao_aux _ Hok). cbn. by destruct (app_ok_wants i dpid Hok) as [b ->].
Qed.

Definition missing (A : gmap Z c_app_info) (dpid : Z) (have : list Z) (l : list Z) : list Z :=
  base.filter (fun a => wanted A dpid a = true /\ a ∉ have) l.

Lemma missing_snoc A dpid have a l : a ∉ l -> missing A dpid (have ++ [a]) l = missing A dpid have l.
Proof.
  intros Ha. unfold missing. apply filter_ext_elem. intros x Hx. rewrite elem_of_app, elem_of_cons, elem_of_nil.
  assert (x <> a) by (by intros ->). naive_solver.
Qed.

(** [c_switch_app_list_exp] adds the applications that are missing. *)
Lemma list_exp_eq sw l : forall s c, sws c !! sw = Some s -> NoDup l ->
  Forall (fun a => (exists i, apps c !! a = Some i /\ app_ok i) /\ is_Some (refs c !! a)) l ->
  exists R, traverse (c_per_app_switch_register sw) l c =
      Some (at_sw sw (set_app_list (app_list s ++ missing (apps c) (DPID s) (app_list s) l) s) R (out c) c) /\
    shifted (fun x => cnt x (missing (apps c) (DPID s) (app_list s) l)) (refs c) R.
Proof.
  induction l as [|a l IH]; intros s c Hs Hnd Hl; cbn [traverse].
  { exists (refs c). split; [|apply shifted_nil]. cbn. rewrite app_nil_r. unfold at_sw.
    rewrite insert_id by (rewrite Hs; by destruct s). by rewrite with_same. }
  apply NoDup_cons in Hnd as [Ha Hnd]. apply Forall_cons in Hl as [[(i & Hi & Hok) [r Hr]] Hl].
  assert (c_per_app_switch_register sw a c =
    if wanted (apps c) (DPID s) a then __c_per_switch_app_register a sw c else Some c) as ->.
  { unfold c_per_app_switch_register. rewrite Hi, Hs. cbn [mbind option_bind]. rewrite (ao_aux _ Hok), (wanted_eq _ _ _ _ Hi Hok). done. }
  unfold missing. rewrite filter_cons. fold (missing (apps c) (DPID s) (app_list s) l).
  destruct (wanted (apps c) (DPID s) a) eqn:Ew; [|rewrite decide_False by naive_solver; by apply IH].
  unfold __c_per_switch_app_register. rewrite Hs. cbn [mbind option_bind]. case_bool_decide as Hin.
  { rewrite decide_False by naive_solver. cbn [mbind option_bind]. by apply IH. }
  rewrite decide_True by done. rewrite (c_app_ref_eq a r) by done. cbn [mbind option_bind]. rewrite (upd_sw_eq sw s) by done.
  cbn [mbind option_bind sws set_refs].
  destruct (IH (set_app_list (app_list s ++ [a]) s) (set_sws (<[sw := set_app_list (app_list s ++ [a]) s]> (sws c)) (set_refs (<[a := r + 1]> (refs c)) c)))
    as (R & E & Hsh); [apply lookup_insert_eq|done| |].
  { eapply Forall_impl; [exact Hl|]. cbn. intros x [H1 [n H2]]. split; [done|]. rewrite lookup_insert_is_Some'. eauto. }
  cbn [app_list set_app_list DPID apps set_sws set_refs refs out] in E, Hsh. rewrite missing_snoc in E, Hsh by done. exists R. rewrite E. split.
  - unfold at_sw, with_. cbn. by rewrite insert_insert_eq, <- app_assoc.
  - by eapply shifted_cons_up.
Qed.

Fixpoint rem_all (l L : list Z) : list Z := match l with [] => L | a :: l => rem_all l (g_slist_remove a L) end.

Lemma rem_all_nil l : forall L, NoDup L -> (forall x, x ∈ L -> x ∈ l) -> rem_all l L = [].
Proof.
  induction l as [|a l IH]; intros L Hnd Hin; cbn.
  - destruct L as [|x L]; [done|]. destruct (not_elem_of_nil x). apply Hin. left.
  - apply IH; [by apply g_slist_remove_nodup|]. intros x [Hx Hne]%g_slist_remove_elem; [|done].
    apply Hin in Hx as [?|?]%elem_of_cons; done.
Qed.

Definition wanting (A : gmap Z c_app_info) (dpid : Z) (l : list Z) : list Z := base.filter (fun a => wanted A dpid a = true) l.

(** [c_switch_app_list_de_exp] takes them out. *)
Lemma list_unreg_eq sw l : forall s c, sws c !! sw = Some s ->
  Forall (fun a => exists i, apps c !! a = Some i /\ app_ok i) l ->
  (forall a, a ∈ wanting (apps c) (DPID s) l -> exists n, refs c !! a = Some n /\ cnt a (wanting (apps c) (DPID s) l) <= n) ->
  exists R, traverse (c_per_app_switch_unregister sw) l c =
      Some (at_sw sw (set_app_list (rem_all (wanting (apps c) (DPID s) l) (app_list s)) s) R (out c) c) /\
    shifted (fun x => - cnt x (wanting (apps c) (DPID s) l)) (refs c) R.
Proof.
  induction l as [|a l IH]; intros s c Hs Hl Hr; cbn [traverse].
  { exists (refs c). split; [|apply shifted_nil_down]. unfold at_sw. cbn. rewrite insert_id by (rewrite Hs; by destruct s).
    by rewrite with_same. }
  apply Forall_cons in Hl as [(i & Hi & Hok) Hl].
  assert (c_per_app_switch_unregister sw a c =
    if wanted (apps c) (DPID s) a then __c_per_switch_app_unregister a sw c else Some c) as ->.
  { unfold c_per_app_switch_unregister. rewrite Hi, Hs. cbn [mbind option_bind]. rewrite (ao_aux _ Hok), (wanted_eq _ _ _ _ Hi Hok). done. }
  unfold wanting in *. rewrite filter_cons in *. fold (wanting (apps c) (DPID s) l) in *.
  destruct (wanted (apps c) (DPID s) a) eqn:Ew.
  2:{ rewrite decide_False in * by done. by apply IH. }
  rewrite decide_True in * by done. destruct (Hr a) as (r & Ha & Hle); [left|]. cbn in Hle. rewrite bool_decide_true in Hle by done.
  pose proof (cnt_nonneg a (wanting (apps c) (DPID s) l)).
  unfold __c_per_switch_app_unregister. rewrite (upd_sw_eq sw s) by done. cbn [mbind option_bind].
  rewrite (c_app_put_eq a r) by (done || lia). cbn [mbind option_bind refs set_sws].
  set (s1 := set_app_list (g_slist_remove a (app_list s)) s).
  destruct (IH s1 (set_refs (<[a := r - 1]> (refs c)) (set_sws (<[sw := s1]> (sws c)) c))) as (R & E & Hsh); [apply lookup_insert_eq|done| |].
  { cbn [refs set_refs apps set_sws DPID s1]. intros x Hx. destruct (Hr x) as (n & Hn & Hc); [by right|]. cbn in Hc.
    destruct (decide (x = a)) as [->|Hne].
    - rewrite lookup_insert_eq. eexists. split; [done|]. assert (cnt a (wanting (apps c) (DPID s) l) <= r - 1) as Hx1 by lia. exact Hx1.
    - rewrite lookup_insert_ne by done. exists n. split; [done|]. rewrite bool_decide_false in Hc by done. exact Hc. }
  change (DPID s1) with (DPID s) in *. cbn [apps set_sws set_refs refs out] in E, Hsh. exists R. rewrite E. split.
  - unfold at_sw, with_. cbn. by rewrite insert_insert_eq.
  - by eapply shifted_cons_down.
Qed.

(** ** Counters follow the references *)

(** Counters and switches change together. *)
Definition conserved (c c' : ctrl_hdl T) : Prop := shifted (fun x => held x c' - held x c) (refs c) (refs c').

Lemma conserved_refl c : conserved c c.
Proof. intros x. destruct (refs c !! x); cbn; [|done]. f_equal. lia. Qed.

Lemma conserved_trans c1 c2 c3 : conserved c1 c2 -> conserved c2 c3 -> conserved c1 c3.
Proof. intros H1 H2. eapply shifted_ext; [|by eapply shifted_trans]. intros x. cbn. lia. Qed.

Lemma held_at_sw x sw s s' R O c : sws c !! sw = Some s -> held x (at_sw sw s' R O c) = held x c - weight x s + weight x s'.
Proof. intros Hs. unfold held. cbn. by rewrite (msum_insert _ _ _ s). Qed.

Lemma conserved_at_sw sw s s' R O c : sws c !! sw = Some s -> shifted (fun x => weight x s' - weight x s) (refs c) R ->
  conserved c (at_sw sw s' R O c).
Proof. intros Hs Hsh. eapply shifted_ext; [|exact Hsh]. intros x. cbn. rewrite (held_at_sw x sw s) by done. lia. Qed.

(** Enough references for all that is held. *)
Definition enough (c : ctrl_hdl T) : Prop := forall x, match refs c !! x with Some n => held x c <= n | None => held x c = 0 end.

Lemma held_nonneg x c : 0 <= held x c.
Proof. apply msum_nonneg, weight_nonneg. Qed.

(** ** Registration at switches *)

Definition add_if (app : Z) (s : c_switch T) : c_switch T :=
  if bool_decide (app ∈ app_list s) then s else set_app_list (app_list s ++ [app]) s.

Lemma add_if_weight app x s : weight x (add_if app s) = weight x s + if bool_decide (app ∈ app_list s) then 0 else cnt x [app].
Proof. unfold add_if. case_bool_decide; [lia|]. unfold weight. cbn [app_list set_app_list]. rewrite cnt_app. cbn [fp_owner app_eventq tabs set_app_list]. lia. Qed.

Lemma on_sw_lock_eq f l sw s c : sws c !! sw = Some s -> f (sw_lock s) = Some l ->
  on_sw_lock f sw c = Some (at_sw sw (set_sw_lock l s) (refs c) (out c) c).
Proof. intros Hs Hf. unfold on_sw_lock. rewrite Hs. cbn [mbind option_bind]. rewrite Hf. cbn [mbind option_bind]. by rewrite (upd_sw_eq sw s). Qed.

Lemma set_sw_lock_same s l k : sw_lock s = l -> set_sw_lock l (set_sw_lock k s) = s.
Proof. intros <-. by destruct s. Qed.

Lemma register_one sw s app c : sws c !! sw = Some s -> sw_lock s = 0 -> is_Some (refs c !! app) ->
  exists R, c_per_switch_app_register app sw c = Some (at_sw sw (add_if app s) R (out c) c) /\
    shifted (fun x => weight x (add_if app s) - weight x s) (refs c) R.
Proof.
  intros Hs Hl [r Hr]. unfold c_per_switch_app_register. rewrite (on_sw_lock_eq wr_lock (-1) sw s) by (done || by rewrite Hl).
  cbn [mbind option_bind]. unfold __c_per_switch_app_register. rewrite lookup_at_sw. cbn [mbind option_bind app_list set_sw_lock].
  unfold add_if. case_bool_decide as Hin; cbn [mbind option_bind].
  - exists (refs c). rewrite (on_sw_lock_eq wr_unlock 0 sw (set_sw_lock (-1) s)) by (done || apply lookup_at_sw).
    rewrite at_sw_at_sw, (set_sw_lock_same s) by done. split; [done|]. intros x. destruct (refs c !! x); cbn; [|done]. f_equal. lia.
  - rewrite (c_app_ref_eq app r) by done. cbn [mbind option_bind]. rewrite (upd_sw_eq sw (set_sw_lock (-1) s)) by (cbn; apply lookup_insert_eq).
    cbn [mbind option_bind]. exists (<[app := r + 1]> (refs c)).
    rewrite (on_sw_lock_eq wr_unlock 0 sw (set_app_list (app_list s ++ [app]) (set_sw_lock (-1) s))) by (done || (cbn; apply lookup_insert_eq)).
    split.
    + unfold at_sw, with_. cbn. rewrite !insert_insert_eq. destruct s. cbn in Hl. subst. done.
    + eapply shifted_ext; [|exact (shifted_one app 1 (refs c) r Hr)]. intros x. unfold weight. cbn. rewrite cnt_app. cbn. lia.
Qed.

Lemma shifted_is_Some d m m' x : shifted d m m' -> is_Some (m !! x) -> is_Some (m' !! x).
Proof. intros Hs. by rewrite (shifted_dom _ _ _ x Hs). Qed.

(** Registration at a list of switches. *)
Lemma register_all app l : forall c, NoDup l -> Forall (fun sw => exists s, sws c !! sw = Some s /\ sw_lock s = 0) l ->
  is_Some (refs c !! app) ->
  exists R S, traverse (c_per_switch_app_register app) l c = Some (with_ R S (out c) c) /\
    (forall x, S !! x = (fun s => if bool_decide (x ∈ l) then add_if app s else s) <$> sws c !! x) /\ conserved c (with_ R S (out c) c).
Proof.
  induction l as [|sw l IH]; intros c Hnd Hl Hr; cbn [traverse].
  { exists (refs c), (sws c). rewrite with_same. split_and!; [done| |apply conserved_refl]. intros x. by destruct (sws c !! x). }
  apply NoDup_cons in Hnd as [Hni Hnd]. apply Forall_cons in Hl as [(s & Hs & Hlk) Hl].
  destruct (register_one sw s app c Hs Hlk Hr) as (R1 & -> & Hsh). cbn [mbind option_bind].
  destruct (IH (at_sw sw (add_if app s) R1 (out c) c)) as (R & S & E & HS & Hc); [done| |by eapply shifted_is_Some|].
  { apply Forall_forall. intros x Hx. rewrite Forall_forall in Hl. destruct (Hl x Hx) as (s' & Hs' & ?). exists s'.
    split; [|done]. cbn. rewrite lookup_insert_ne; [done|]. by intros ->. }
  exists R, S. rewrite E. split_and!; [done| |eapply conserved_trans; [by eapply conserved_at_sw|exact Hc]].
  intros x. rewrite HS. cbn. destruct (decide (x = sw)) as [->|Hne].
  - rewrite lookup_insert_eq, Hs. cbn. rewrite bool_decide_false by done. by rewrite bool_decide_true by left.
  - rewrite lookup_insert_ne by done. destruct (sws c !! x); [|done]. cbn. f_equal.
    by rewrite (bool_decide_ext (x ∈ sw :: l) (x ∈ l)) by (rewrite elem_of_cons; naive_solver).
Qed.

(** ** An application leaves a switch *)

Record unreg_of (app : Z) (D : gset Z) (s s' : c_switch T) : Prop := {
  uo_dpid : DPID s' = DPID s; uo_ref : sw_ref s' = sw_ref s; uo_lock : sw_lock s' = sw_lock s;
  uo_state : switch_state s' = switch_state s; uo_info : info s' = info s; uo_eventq : app_eventq s' = app_eventq s;
  uo_list : app_list s' = g_slist_remove app (app_list s);
  uo_clean : t_clean app (tabs s'); uo_ok : t_ok D (tabs s');
  uo_fp : (fp_owner s' = fp_owner s /\ fp_type s' = fp_type s /\ fp_ops s' = fp_ops s) \/
    (fp_owner s = app /\ fp_owner s' = 0 /\ fp_type s' = C_FP_TYPE_DFL /\ fp_ops s' = dfl_ops (fp_ops s));
  uo_weight : forall x, x <> app -> weight x s' = weight x s }.

Lemma g_slist_remove_notin x l : x ∉ l -> g_slist_remove x l = l.
Proof.
  induction l as [|y l IH]; [done|]. cbn. intros [Hn Hl]%not_elem_of_cons. rewrite (proj2 (Z.eqb_neq x y)) by done. by rewrite IH.
Qed.

End SPEC.
