(* ===== verification/RegOps.v ===== *)
(** * Registration and events: the operations

    An application leaves the switches; the phases of an event; the invariant of the registry. *)
From stdpp Require Import base list gmap.
From Stdlib Require Import ZArith Lia.
From S2P Require Import Prelude Bytes AppEv Reg RegSpec.
Import AppEv Reg.
#[local] Open Scope Z_scope.

Section OPS.
Context {T : Type} `{SwTables T}.
Implicit Types c : ctrl_hdl T.
Implicit Types s : c_switch T.

(** ** Leaving a switch *)

(** What the fast path may become when its owner leaves: nothing changes, or the default with one reference less. *)
Definition fp_left (app : Z) (D : gset Z) (s s' : c_switch T) (R R' : gmap Z Z) : Prop :=
  (s' = s /\ R' = R) \/
  (exists t r, fp_owner s = app /\ R !! app = Some r /\ R' = <[app := r - 1]> R /\ s' = set_fp (dfl_ops (fp_ops s)) C_FP_TYPE_DFL 0 t s /\
     t_ok D t /\ (forall x, t_owned x t = t_owned x (tabs s)) /\ (forall x, t_clean x (tabs s) -> t_clean x t)).

Lemma fp_clear app sw s r D c : sws c !! sw = Some s -> refs c !! app = Some r -> 0 < r -> t_ok D (tabs s) ->
  exists s' R', __c_sw_fpops_set app sw C_FP_TYPE_DFL c = Some (at_sw sw s' R' (out c) c) /\ fp_left app D s s' (refs c) R'.
Proof.
  intros Hs Hr Hp Ht. unfold __c_sw_fpops_set. rewrite Hs. cbn [mbind option_bind].
  assert (at_sw sw s (refs c) (out c) c = c) as Hid by (unfold at_sw; rewrite insert_id by done; apply with_same).
  destruct (_ =? _); [exists s, (refs c); rewrite Hid; split; [done|by left]|]. rewrite Z.eqb_refl.
  destruct (Z.eqb_spec (fp_owner s) app) as [Ho|Ho]; cbn [negb]; [|exists s, (refs c); rewrite Hid; split; [done|by left]].
  assert (exists t, (if fp_db_dtor (fp_ops s) then c_l2fdb_destroy (tabs s) else Some (tabs s)) = Some t /\ t_ok D t /\
    (forall x, t_owned x t = t_owned x (tabs s)) /\ (forall x, t_clean x (tabs s) -> t_clean x t)) as (t & -> & Htk).
  { destruct (fp_db_dtor _); [by apply t_destroy|]. eexists. eauto. }
  cbn [mbind option_bind]. rewrite (upd_sw_eq sw s) by done. cbn [mbind option_bind].
  rewrite (c_app_put_eq app r) by done. eexists _, _. split; [reflexivity|]. right. exists t, r. naive_solver.
Qed.

Lemma unregister_one app sw s n i c : sws c !! sw = Some s -> sw_lock s = 0 -> apps c !! app = Some i -> refs c !! app = Some n -> app <> 0 ->
  enough c -> t_ok (dom (refs c)) (tabs s) -> t_purgeable app (tabs s) ->
  exists s' R, c_per_switch_app_unregister app sw c = Some (at_sw sw s' R (out c) c) /\
    unreg_of app (dom (refs c)) s s' /\ shifted (fun x => weight x s' - weight x s) (refs c) R.
Proof.
  intros Hs Hl Hi Hn Hz Hen Hok Hpu. unfold c_per_switch_app_unregister.
  rewrite (on_sw_lock_eq wr_lock (-1) sw s) by (done || by rewrite Hl). cbn [mbind option_bind].
  rewrite lookup_at_sw. cbn [mbind option_bind tabs set_sw_lock app_list fp_owner].
  assert (forall x k, refs c !! x = Some k -> weight x s <= k) as Hw.
  { intros x k Hx. specialize (Hen x). rewrite Hx in Hen. pose proof (held_sw x c sw s Hs). lia. }
  destruct (t_purge app (refs c) (tabs s) Hok Hpu ltac:(eauto)) as (R1 & t & E & Htk & Hcl & Hoth & Hle & Hsh).
  { intros x k Hx. specialize (Hw x k Hx). unfold weight in Hw. pose proof (cnt_nonneg x (app_list s)).
    pose proof (cnt_nonneg x (map fst (app_eventq s))). pose proof (fp_own_range x (fp_owner s)). lia. }
  cbn [refs at_sw with_]. rewrite E. cbn [mbind option_bind].
  rewrite (upd_sw_eq sw (set_sw_lock (-1) s)) by (cbn; apply lookup_insert_eq). cbn [mbind option_bind].
  assert (dom R1 = dom (refs c)) as HD.
  { apply set_eq. intros x. rewrite !elem_of_dom. by apply shifted_dom with (d := fun x => t_owned x t - t_owned x (tabs s)). }
  rewrite HD in Htk. set (s1 := set_tabs t (set_sw_lock (-1) s)).
  assert (set_sws (<[sw := s1]> (sws (set_refs R1 (at_sw sw (set_sw_lock (-1) s) (refs c) (out c) c)))) (set_refs R1 (at_sw sw (set_sw_lock (-1) s) (refs c) (out c) c))
    = at_sw sw s1 R1 (out c) c) as -> by (unfold at_sw, with_; cbn; by rewrite insert_insert_eq).
  assert (R1 !! app = Some (n + (t_owned app t - t_owned app (tabs s)))) as HR1 by (by rewrite (Hsh app), Hn).
  pose proof (Hw app n Hn) as Hwa. unfold weight in Hwa. pose proof (t_owned_nonneg app t) as Hnn. pose proof (cnt_nonneg app (map fst (app_eventq s))).
  case_bool_decide as Hin.
  2:{ rewrite (on_sw_lock_eq wr_unlock 0 sw s1) by (done || apply lookup_at_sw). rewrite at_sw_at_sw. cbn [refs out at_sw with_].
      eexists _, _. split; [reflexivity|]. split.
      - split; cbn; try done; [by rewrite g_slist_remove_notin|by left|]. intros x Hx. unfold weight. cbn. by rewrite Hoth.
      - eapply shifted_ext; [|exact Hsh]. intros x. unfold weight. cbn. lia. }
  pose proof (cnt_in app (app_list s) Hin) as Hc1.
  rewrite (upd_sw_eq sw s1) by apply lookup_at_sw. cbn [mbind option_bind apps set_sws at_sw with_]. rewrite Hi. cbn [mbind option_bind].
  set (s2 := set_app_list (g_slist_remove app (app_list s1)) s1).
  set (c2 := set_sws (<[sw := s2]> _) _).
  assert (sws c2 !! sw = Some s2) as Hs2 by (cbn; apply lookup_insert_eq).
  assert (exists s3 R3 r3, (if has (priv_flags i) C_APP_FP_L2 && (app =? fp_owner s) then __c_sw_fpops_set app sw C_FP_TYPE_DFL c2 else Some c2) =
    Some (at_sw sw s3 R3 (out c) c) /\ fp_left app (dom (refs c)) s2 s3 R1 R3 /\ R3 !! app = Some r3 /\ 0 < r3) as (s3 & R3 & r3 & -> & Hfp & Hr3 & Hp3).
  { assert (c2 = at_sw sw s2 R1 (out c) c) as Hc2 by (unfold c2, at_sw, with_; cbn; by rewrite insert_insert_eq).
    destruct (_ && _) eqn:Ef.
    - apply andb_prop in Ef as [_ Ef]. apply Z.eqb_eq in Ef.
      assert (fp_own app (fp_owner s) = 1) as Hf1 by (unfold fp_own; rewrite <- Ef, Z.eqb_refl; by rewrite (proj2 (Z.eqb_neq _ _))).
      destruct (fp_clear app sw s2 (n + (t_owned app t - t_owned app (tabs s))) (dom (refs c)) c2) as (s3 & R3 & Es & Hfp); try done; [lia|].
      exists s3, R3. rewrite Es, Hc2, at_sw_at_sw. change (refs c2) with R1 in Hfp.
      destruct Hfp as [[-> ->]|(t3 & r & F1 & F2 & F3 & F4)].
      + eexists. split; [done|]. split; [by left|]. split; [exact HR1|lia].
      + eexists. split; [done|]. split; [right; by exists t3, r|]. subst R3. rewrite lookup_insert_eq. split; [done|]. rewrite HR1 in F2. simplify_eq. lia.
    - exists s2, R1. eexists. rewrite Hc2. split; [done|]. split; [by left|]. split; [exact HR1|]. pose proof (fp_own_range app (fp_owner s)). lia. }
  cbn [mbind option_bind].
  assert (sw_lock s3 = -1) as Hl3 by (destruct Hfp as [[-> _]|(? & ? & _ & _ & _ & -> & _)]; done).
  rewrite (on_sw_lock_eq wr_unlock 0 sw s3) by (apply lookup_at_sw || by rewrite Hl3). rewrite at_sw_at_sw. cbn [mbind option_bind refs out at_sw with_].
  rewrite (c_app_put_eq app r3) by done. eexists _, (<[app := r3 - 1]> R3). split; [reflexivity|].
  pose proof (shifted_one app (-1) R3 r3 Hr3) as Hd.
  destruct Hfp as [[-> ->]|(t3 & r & F1 & F2 & F3 & F4 & F5 & F6 & F7)].
  - split.
    + split; cbn; try done; [by left|]. intros x Hx. unfold weight. cbn. rewrite cnt_remove, Hoth by done.
      rewrite bool_decide_true by done. cbn. rewrite bool_decide_false by congruence. lia.
    + eapply shifted_ext; [|eapply shifted_trans; [exact Hsh|exact Hd]]. intros x. unfold weight. cbn. rewrite cnt_remove.
      rewrite (bool_decide_true (app ∈ _)) by done. cbn. case_bool_decide; lia.
  - subst s3 R3. split.
    + split; cbn; try done; [by apply F7|by right|]. intros x Hx. unfold weight. cbn. rewrite cnt_remove, F6. cbn. rewrite Hoth by done.
      rewrite (bool_decide_true (app ∈ _)) by done. cbn. rewrite bool_decide_false by congruence.
      cbn in F1. unfold fp_own. rewrite F1, (proj2 (Z.eqb_neq app x)) by done. cbn. rewrite andb_comm. cbn. lia.
    + eapply shifted_ext; [|eapply shifted_trans; [exact Hsh|eapply shifted_trans; [exact (shifted_one app (-1) R1 r F2)|exact Hd]]].
      intros x. unfold weight. cbn. rewrite cnt_remove, F6. cbn. rewrite (bool_decide_true (app ∈ _)) by done. cbn in F1 |- *.
      unfold fp_own. rewrite F1, (proj2 (Z.eqb_neq app 0)) by done. cbn. rewrite andb_comm. cbn.
      destruct (Z.eqb_spec app x); [rewrite !bool_decide_true by done|rewrite !bool_decide_false by done]; cbn; lia.
Qed.

(** ** The invariant *)

Record sw_inv (c : ctrl_hdl T) (s : c_switch T) : Prop := {
  si_lock : sw_lock s = 0;
  si_ref : 0 <= sw_ref s;
  si_q : app_eventq s = [];
  si_nodup : NoDup (app_list s);
  si_tabs : t_ok (dom (refs c)) (tabs s);
  si_fp : fp_type s <> C_FP_TYPE_L2 -> fp_owner s = 0;
  si_list : forall a, a ∈ app_list s -> a ∈ apps_all c /\ wanted (apps c) (DPID s) a = true }.

(** Counters cover what is held; registered applications are live and have different names; the list of a switch holds registered
    applications that want it, each once. *)
Record core (c : ctrl_hdl T) : Prop := {
  iv_lock : lock c = 0;
  iv_dom : dom (refs c) = dom (apps c);
  iv_enough : enough c;
  iv_nodup : NoDup (apps_all c);
  iv_apps : forall a, a ∈ apps_all c -> a <> 0 /\ exists i, apps c !! a = Some i /\ app_ok i;
  iv_names : forall a b i j, a ∈ apps_all c -> b ∈ apps_all c -> apps c !! a = Some i -> apps c !! b = Some j ->
    same_name (app_name i) (app_name j) = true -> a = b;
  iv_hash : NoDup (sw_hash_tbl c);
  iv_live : forall sw, sw ∈ sw_hash_tbl c -> is_Some (sws c !! sw);
  iv_dpid : forall sw1 sw2 s1 s2, sw1 ∈ sw_hash_tbl c -> sw2 ∈ sw_hash_tbl c -> sws c !! sw1 = Some s1 -> sws c !! sw2 = Some s2 ->
    DPID s1 = DPID s2 -> sw1 = sw2;
  iv_sws : forall sw s, sws c !! sw = Some s -> sw_inv c s }.

(** All applications that want a switch are in its list once it is published; a switch that is not in the hash table has none. *)
Record inv (c : ctrl_hdl T) : Prop := {
  inv_core : core c;
  iv_out : forall sw s, sw ∉ sw_hash_tbl c -> sws c !! sw = Some s -> app_list s = [];
  iv_pub : forall sw s a, sw ∈ sw_hash_tbl c -> sws c !! sw = Some s -> has (switch_state s) SW_PUBLISHED = true ->
    a ∈ apps_all c -> wanted (apps c) (DPID s) a = true -> a ∈ app_list s }.

Lemma inv_live c a : core c -> a ∈ apps_all c -> exists i r, apps c !! a = Some i /\ app_ok i /\ refs c !! a = Some r /\ 0 <= r.
Proof.
  intros I Ha. destruct (iv_apps c I a Ha) as (_ & i & Hi & Hok).
  assert (a ∈ dom (refs c)) as [r Hr]%elem_of_dom by (rewrite (iv_dom c I); by apply elem_of_dom).
  exists i, r. split_and!; try done. pose proof (iv_enough c I a) as Hen. rewrite Hr in Hen. pose proof (held_nonneg a c). lia.
Qed.

Lemma refs_nonneg c x n : enough c -> refs c !! x = Some n -> 0 <= n.
Proof. intros He Hx. specialize (He x). rewrite Hx in He. pose proof (held_nonneg x c). lia. Qed.

(** ** Events at a switch *)

Lemma hier_rdlock_eq sw s c : lock c = 0 -> sws c !! sw = Some s -> sw_lock s = 0 ->
  c_sw_hier_rdlock (Some sw) c = Some (set_lock 1 (at_sw sw (set_sw_lock 1 s) (refs c) (out c) c)).
Proof.
  intros Hl Hs Hsl. unfold c_sw_hier_rdlock, on_lock. rewrite Hl. cbn [rd_lock Z.leb Z.add mbind option_bind Z.compare].
  rewrite (on_sw_lock_eq rd_lock 1 sw s) by (done || by rewrite Hsl). done.
Qed.

Lemma hier_unlock_eq sw s c : lock c = 1 -> sws c !! sw = Some s -> sw_lock s = 1 ->
  c_sw_hier_unlock (Some sw) c = Some (set_lock 0 (at_sw sw (set_sw_lock 0 s) (refs c) (out c) c)).
Proof.
  intros Hl Hs Hsl. unfold c_sw_hier_unlock. rewrite (on_sw_lock_eq rd_unlock 0 sw s) by (done || by rewrite Hsl).
  cbn [mbind option_bind]. unfold on_lock. cbn [lock at_sw with_]. by rewrite Hl.
Qed.

Lemma topo_notify_eq n c : lock c = 0 -> c_topo_loop_change_notify n c = Some (set_loop n c).
Proof. intros Hl. unfold c_topo_loop_change_notify, on_lock. rewrite Hl. cbn. destruct c. cbn in *. by subst. Qed.

Lemma event_loop_none sw b e p l s : forall c, sws c !! sw = Some s -> app_handler e (Some (DPID s, switch_state s, info s)) b p = Some None ->
  Forall (fun a => is_Some (apps c !! a)) l -> traverse (one_event (Some sw) b e p) l c = Some c.
Proof.
  induction l as [|a l IH]; intros c Hs Hm Hl; [done|]. apply Forall_cons in Hl as [[i Hi] Hl]. cbn [traverse].
  assert (one_event (Some sw) b e p a c = Some c) as ->; [|by apply IH].
  unfold one_event. rewrite Hi. cbn [mbind option_bind]. destruct (has _ _); [|done]. cbn [sw_view]. rewrite Hs.
  cbn [mbind option_bind]. by rewrite Hm.
Qed.

(** What the loop does, with or without a message. *)
Definition now_of (e : c_app_event) (A : gmap Z c_app_info) (mo : option app_msg) (l : list Z) : list (Z * app_msg) :=
  match mo with Some m => sent_now e A m l | None => [] end.
Definition queue_of (e : c_app_event) (A : gmap Z c_app_info) (mo : option app_msg) (l : list Z) : list (Z * app_msg) :=
  match mo with Some m => queued e A m l | None => [] end.

Lemma event_loop_eq sw b e p l mo s c : finish_sw e (Some sw) = Some sw -> sws c !! sw = Some s ->
  app_handler e (Some (DPID s, switch_state s, info s)) b p = Some mo ->
  Forall (fun a => is_Some (apps c !! a) /\ is_Some (refs c !! a)) l ->
  exists R', traverse (one_event (Some sw) b e p) l c =
      Some (at_sw sw (set_eventq (app_eventq s ++ queue_of e (apps c) mo l) s) R' (out c ++ now_of e (apps c) mo l) c) /\
    shifted (fun x => cnt x (map fst (queue_of e (apps c) mo l))) (refs c) R'.
Proof.
  intros Hf Hs Hm Hl. destruct mo as [m|]; [by apply event_loop|]. exists (refs c). split; [|apply shifted_nil].
  rewrite (event_loop_none _ _ _ _ _ s) by (done || (eapply Forall_impl; [exact Hl|]; by intros a [? _])).
  cbn. rewrite !app_nil_r. unfold at_sw. rewrite insert_id by (rewrite Hs; by destruct s). by rewrite with_same.
Qed.

(** Queued events can be delivered. *)
Lemma queue_local e A mo l : Forall (fun a => exists i, A !! a = Some i /\ app_ok i) l ->
  Forall (fun '(a, _) => a ∈ l /\ exists i, A !! a = Some i /\ remote i = false /\ silent i = false) (queue_of e A mo l).
Proof.
  destruct mo as [m|]; [|constructor]. intros Hl. apply Forall_forall. intros [a m'] Hin. cbn in Hin. unfold queued, pick in Hin.
  apply list_elem_of_In, in_flat_map in Hin as (a' & Ha & Hin). apply list_elem_of_In in Ha. rewrite Forall_forall in Hl.
  destruct (Hl a' Ha) as (i & Hi & Hok). rewrite Hi in Hin. destruct (_ && _) eqn:E; [|done]. destruct Hin as [[= -> ->]|[]].
  apply andb_prop in E as [E1 E2]. apply negb_true_iff in E2. split; [done|]. exists i. split_and!; try done.
  destruct (silent i) eqn:Es; [|done]. by rewrite (ao_cb i Hok E2 Es e) in E1.
Qed.

Lemma eventq_send_eq sw s c : sws c !! sw = Some s ->
  Forall (fun '(a, _) => exists i, apps c !! a = Some i /\ remote i = false /\ silent i = false) (app_eventq s) ->
  (forall x n, refs c !! x = Some n -> cnt x (map fst (app_eventq s)) <= n) -> Forall (fun '(a, _) => is_Some (refs c !! a)) (app_eventq s) ->
  exists R, c_switch_app_eventq_send (Some sw) c = Some (at_sw sw (set_eventq [] s) R (out c ++ app_eventq s) c) /\
    shifted (fun x => - cnt x (map fst (app_eventq s))) (refs c) R.
Proof.
  intros Hs H1 H2 H3. cbn [c_switch_app_eventq_send]. rewrite Hs. cbn [mbind option_bind].
  destruct (send_all_eq (app_eventq s) c H1 H2 H3) as (R & -> & Hsh). exists R. cbn [mbind option_bind].
  rewrite (upd_sw_eq sw s) by done. done.
Qed.

(** The end of an event: the locks are released and the queue [q] is delivered. *)
Lemma signal_tail sw s q R0 c : lock c = 1 -> sws c !! sw = Some s -> sw_lock s = 1 -> app_eventq s = q ->
  Forall (fun '(a, _) => exists i, apps c !! a = Some i /\ remote i = false /\ silent i = false) q ->
  (forall x n, R0 !! x = Some n -> 0 <= n) -> shifted (fun x => cnt x (map fst q)) R0 (refs c) ->
  Forall (fun '(a, _) => is_Some (R0 !! a)) q ->
  (c ← c_sw_hier_unlock (Some sw) c; c_switch_app_eventq_send (Some sw) c) =
    Some (set_lock 0 (at_sw sw (set_sw_lock 0 (set_eventq [] s)) R0 (out c ++ q) c)).
Proof.
  intros Hl Hs Hsl Hq Hloc Hnn Hsh Hal. rewrite (hier_unlock_eq sw s) by done. cbn [mbind option_bind].
  destruct (eventq_send_eq sw (set_sw_lock 0 s) (set_lock 0 (at_sw sw (set_sw_lock 0 s) (refs c) (out c) c))) as (R & E & Hd).
  - apply lookup_at_sw.
  - cbn. by rewrite Hq.
  - cbn. rewrite Hq. intros x n Hx. rewrite (Hsh x) in Hx. destruct (R0 !! x) eqn:E0; [|done]. cbn in Hx. simplify_eq.
    specialize (Hnn x _ E0). lia.
  - cbn. rewrite Hq. eapply Forall_impl; [exact Hal|]. intros [a m] Ha. by eapply shifted_is_Some.
  - rewrite E. cbn in Hd. rewrite Hq in Hd. assert (R = R0) as ->.
    { apply shifted_eq. eapply shifted_ext; [|eapply shifted_trans; [exact Hsh|exact Hd]]. intros x. cbn. lia. }
    f_equal. unfold at_sw, with_, set_lock. cbn. rewrite Hq, insert_insert_eq. destruct s. done.
Qed.

(** The events about a switch other than its arrival and departure. *)
Definition plain_event (e : c_app_event) : bool :=
  match e with C_DP_REG | C_DP_UNREG | C_HA_STATE | C_TR_STATUS => false | _ => true end.
Definition loop_after (e : c_app_event) (n : Z) : Z := match e with C_PORT_CHANGE | C_DP_UNREG => C_LOOP_STATE_NONE | _ => n end.

(** Who gets an event: the application given, or all of the switch. *)
Definition targets (app : option Z) (s : c_switch T) : list Z := match app with Some a => [a] | None => app_list s end.

Lemma loop_targets sw b e app p s c : sws c !! sw = Some s ->
  c_process_app_event_loop (Some sw) b e app p c = traverse (one_event (Some sw) b e p) (targets app s) c.
Proof.
  intros Hs. unfold c_process_app_event_loop. destruct app; cbn [targets traverse].
  - by destruct (one_event _ _ _ _ _ _).
  - by rewrite Hs.
Qed.

Lemma pre_plain e sw c : plain_event e = true -> pre_proc e sw c = Some c /\ post_proc e sw c = Some c /\ finish_sw e sw = sw.
Proof. by destruct e. Qed.

Lemma notify_eq e c : lock c = 0 ->
  match e with C_DP_UNREG | C_PORT_CHANGE => c_topo_loop_change_notify C_LOOP_STATE_NONE c | _ => Some c end =
  Some (set_loop (loop_after e (loop_status c)) c).
Proof. intros Hl. destruct e; cbn [loop_after]; try (by destruct c); by apply topo_notify_eq. Qed.

Definition live (c : ctrl_hdl T) (a : Z) : Prop := (exists i, apps c !! a = Some i /\ app_ok i) /\ is_Some (refs c !! a).

Lemma inv_all_live c : core c -> Forall (live c) (apps_all c).
Proof. intros I. apply Forall_forall. intros a Ha. destruct (inv_live c a I Ha) as (i & r & ? & ? & ? & ?). split; eauto. Qed.

Lemma inv_targets c sw s app : core c -> sws c !! sw = Some s -> (forall a, app = Some a -> a ∈ apps_all c) -> Forall (live c) (targets app s).
Proof.
  intros I Hs Ha. pose proof (inv_all_live c I) as Hall. rewrite Forall_forall in Hall. apply Forall_forall. intros a Hin. apply Hall.
  destruct app as [x|]; cbn in Hin; [|by apply (si_list c s (iv_sws c I sw s Hs))].
  apply elem_of_cons in Hin as [->|[]%elem_of_nil]. by apply Ha.
Qed.

(** The exact result of an event. *)
Lemma plain_event_eq sw s b e app p mo c : core c -> sws c !! sw = Some s -> plain_event e = true ->
  app_handler e (Some (DPID s, switch_state s, info s)) b p = Some mo -> (forall a, app = Some a -> a ∈ apps_all c) ->
  c_signal_app_event (Some sw) b e app p false c =
    Some (with_ (refs c) (sws c) (out c ++ now_of e (apps c) mo (targets app s) ++ queue_of e (apps c) mo (targets app s))
            (set_loop (loop_after e (loop_status c)) c)).
Proof.
  intros I Hs He Hm Ha. pose proof (iv_sws c I sw s Hs) as SI. pose proof (inv_targets c sw s app I Hs Ha) as Hl.
  unfold c_signal_app_event. rewrite (notify_eq e c (iv_lock c I)). cbn [mbind option_bind]. set (c1 := set_loop _ c).
  destruct (pre_plain e (Some sw) c1 He) as (_ & _ & Hf).
  rewrite (hier_rdlock_eq sw s) by (done || apply I || apply SI). cbn [mbind option_bind]. set (c2 := set_lock 1 _).
  assert (sws c2 !! sw = Some (set_sw_lock 1 s)) as Hs2 by (cbn; apply lookup_insert_eq).
  rewrite (proj1 (pre_plain e (Some sw) c2 He)). cbn [mbind option_bind]. rewrite (loop_targets sw b e app p (set_sw_lock 1 s)) by done.
  change (targets app (set_sw_lock 1 s)) with (targets app s).
  destruct (event_loop_eq sw b e p (targets app s) mo (set_sw_lock 1 s) c2) as (R & -> & Hsh); try done.
  { eapply Forall_impl; [exact Hl|]. intros a [(i & Hi & _) Hr]. split; [by exists i|exact Hr]. }
  cbn [mbind option_bind]. change (app_eventq (set_sw_lock 1 s)) with (app_eventq s). rewrite (si_q c s SI). cbn [Datatypes.app].
  set (c3 := at_sw sw _ R _ c2). rewrite (proj1 (proj2 (pre_plain e (Some sw) c3 He))). cbn [mbind option_bind].
  assert (Forall (fun a => exists i, apps c !! a = Some i /\ app_ok i) (targets app s)) as Hl' by (eapply Forall_impl; [exact Hl|]; by intros a [? _]).
  pose proof (queue_local e (apps c) mo _ Hl') as Hq. cbn [apps c2 set_lock at_sw with_ c1 set_loop app_eventq set_sw_lock refs out] in *.
  rewrite (signal_tail sw (set_eventq (queue_of e (apps c) mo (targets app s)) (set_sw_lock 1 s)) (queue_of e (apps c) mo (targets app s)) (refs c) c3).
  - f_equal. unfold c3, at_sw, with_, set_lock, set_loop. cbn. rewrite !insert_insert_eq, <- app_assoc.
    rewrite insert_id by (rewrite Hs; f_equal; destruct s; cbn in *; destruct SI; cbn in *; by subst). f_equal. symmetry. apply I.
  - done.
  - apply lookup_at_sw.
  - done.
  - done.
  - eapply Forall_impl; [exact Hq|]. by intros [a m] [_ ?].
  - intros x n. by apply refs_nonneg, I.
  - exact Hsh.
  - eapply Forall_impl; [exact Hq|]. intros [a m] [Hin _]. rewrite Forall_forall in Hl. by destruct (Hl a Hin).
Qed.

(** ** A switch arrives and leaves *)

Lemma missing_elem A dpid have l a : a ∈ missing A dpid have l <-> a ∈ l /\ wanted A dpid a = true /\ a ∉ have.
Proof. unfold missing. rewrite list_elem_of_filter. naive_solver. Qed.

(** The applications of a switch after its arrival was announced. *)
Definition expanded (c : ctrl_hdl T) (s : c_switch T) : list Z :=
  app_list s ++ missing (apps c) (DPID s) (app_list s) (apps_all c).

Lemma dpreg_event_eq sw s b app p mo c : core c -> sws c !! sw = Some s ->
  app_handler C_DP_REG (Some (DPID s, switch_state s, info s)) b p = Some mo -> (forall a, app = Some a -> a ∈ apps_all c) ->
  exists R, c_signal_app_event (Some sw) b C_DP_REG app p false c =
      Some (at_sw sw (set_app_list (expanded c s) s) R
              (out c ++ now_of C_DP_REG (apps c) mo (targets app (set_app_list (expanded c s) s)) ++
                        queue_of C_DP_REG (apps c) mo (targets app (set_app_list (expanded c s) s))) c) /\
    shifted (fun x => cnt x (missing (apps c) (DPID s) (app_list s) (apps_all c))) (refs c) R.
Proof.
  intros I Hs Hm Ha. pose proof (iv_sws c I sw s Hs) as SI. pose proof (inv_all_live c I) as Hall.
  unfold c_signal_app_event. cbn [mbind option_bind].
  rewrite (hier_rdlock_eq sw s) by (done || apply I || apply SI). cbn [mbind option_bind]. set (c2 := set_lock 1 _).
  cbn [pre_proc mbind option_bind]. unfold c_switch_app_list_exp.
  destruct (list_exp_eq sw (apps_all c) (set_sw_lock 1 s) c2) as (R1 & E1 & Hsh1); [apply lookup_at_sw|apply I|exact Hall|].
  change (apps_all c2) with (apps_all c). rewrite E1. clear E1. cbn [mbind option_bind].
  change (app_list (set_sw_lock 1 s)) with (app_list s) in *. change (DPID (set_sw_lock 1 s)) with (DPID s) in *.
  change (apps c2) with (apps c) in *. fold (expanded c s). set (s1 := set_app_list (expanded c s) (set_sw_lock 1 s)).
  set (c3 := at_sw sw s1 R1 (out c2) c2). rewrite (loop_targets sw b C_DP_REG app p s1) by apply lookup_at_sw.
  change (targets app s1) with (targets app (set_app_list (expanded c s) s)). set (l := targets app _).
  assert (Forall (live c) l) as Hl.
  { rewrite Forall_forall in Hall. apply Forall_forall. intros a Hin. apply Hall. subst l. destruct app as [x|]; cbn in Hin.
    - apply elem_of_cons in Hin as [->|[]%elem_of_nil]. by apply Ha.
    - apply elem_of_app in Hin as [?|[? _]%missing_elem]; [by apply (si_list c s SI)|done]. }
  destruct (event_loop_eq sw b C_DP_REG p l mo s1 c3) as (R2 & E2 & Hsh2); try done; [apply lookup_at_sw| |].
  { eapply Forall_impl; [exact Hl|]. intros a [(i & Hi & _) Hr]. split; [by exists i|by eapply shifted_is_Some]. }
  rewrite E2. clear E2. cbn [mbind option_bind post_proc].
  change (app_eventq s1) with (app_eventq s). rewrite (si_q c s SI). cbn [Datatypes.app]. change (apps c3) with (apps c) in *.
  assert (Forall (fun a => exists i, apps c !! a = Some i /\ app_ok i) l) as Hl' by (eapply Forall_impl; [exact Hl|]; by intros a [? _]).
  pose proof (queue_local C_DP_REG (apps c) mo _ Hl') as Hq.
  exists R1. split; [|exact Hsh1].
  rewrite (signal_tail sw (set_eventq (queue_of C_DP_REG (apps c) mo l) s1) (queue_of C_DP_REG (apps c) mo l) R1).
  - replace (set_sw_lock 0 (set_eventq [] (set_eventq (queue_of C_DP_REG (apps c) mo l) s1))) with (set_app_list (expanded c s) s)
      by (subst s1; destruct s; cbn in *; destruct SI; cbn in *; by subst).
    f_equal. unfold c3, c2, at_sw, with_, set_lock. cbn. rewrite !insert_insert_eq, <- app_assoc. f_equal. symmetry. apply I.
  - done.
  - apply lookup_at_sw.
  - done.
  - done.
  - eapply Forall_impl; [exact Hq|]. by intros [a m] [_ ?].
  - intros x n Hx. rewrite (Hsh1 x) in Hx. destruct (refs c2 !! x) eqn:E0; [|done]. cbn in Hx. simplify_eq.
    pose proof (refs_nonneg c x _ (iv_enough c I) E0). pose proof (cnt_nonneg x (missing (apps c) (DPID s) (app_list s) (apps_all c))). lia.
  - exact Hsh2.
  - eapply Forall_impl; [exact Hq|]. intros [a m] [Hin _]. rewrite Forall_forall in Hl. destruct (Hl a Hin). by eapply shifted_is_Some.
Qed.

Lemma cnt_nodup x l : NoDup l -> cnt x l = if bool_decide (x ∈ l) then 1 else 0.
Proof.
  induction 1 as [|y l Hy Hnd IH]; [done|]. cbn. rewrite IH. destruct (decide (y = x)) as [->|Hne].
  - rewrite (bool_decide_true (x = x)), (bool_decide_true (x ∈ x :: l)), (bool_decide_false (x ∈ l)) by (done || left). lia.
  - rewrite (bool_decide_false (y = x)) by done. rewrite (bool_decide_ext (x ∈ y :: l) (x ∈ l)) by (rewrite elem_of_cons; naive_solver). lia.
Qed.

Lemma cnt_same x l k : NoDup l -> NoDup k -> (forall y, y ∈ l <-> y ∈ k) -> cnt x l = cnt x k.
Proof. intros Hl Hk He. rewrite !cnt_nodup by done. by rewrite (bool_decide_ext _ _ (He x)). Qed.

Lemma shift_exists (d : Z -> Z) m : exists m', shifted d m m'.
Proof. exists (map_imap (fun x n => Some (n + d x)) m). intros x. rewrite map_lookup_imap. by destruct (m !! x). Qed.

Lemma shifted_swap d1 d2 m m0 m1 m2 : shifted d1 m m1 -> shifted d2 m1 m2 -> shifted d2 m m0 -> shifted d1 m0 m2.
Proof. intros H1 H2 H3 x. rewrite (H2 x), (H1 x), (H3 x). destruct (m !! x); cbn; [|done]. f_equal. lia. Qed.

(** All applications that want a switch are in its list, or none is. *)
Definition covered (c : ctrl_hdl T) (s : c_switch T) : Prop :=
  app_list s = [] \/ forall a, a ∈ apps_all c -> wanted (apps c) (DPID s) a = true -> a ∈ app_list s.

Lemma de_exp_eq sw s c D : sws c !! sw = Some s -> NoDup (app_list s) -> NoDup (apps_all c) ->
  (forall a, a ∈ app_list s -> a ∈ apps_all c /\ wanted (apps c) (DPID s) a = true) -> covered c s -> D = refs c ->
  Forall (fun a => exists i, apps c !! a = Some i /\ app_ok i) (apps_all c) ->
  (forall a, a ∈ app_list s -> exists n, D !! a = Some n /\ 1 <= n) ->
  exists R, c_switch_app_list_de_exp sw c = Some (at_sw sw (set_app_list [] s) R (out c) c) /\
    shifted (fun x => - cnt x (app_list s)) (refs c) R.
Proof.
  intros Hs Hnd Hna Hin Hcov -> Hall Hr. unfold c_switch_app_list_de_exp. rewrite Hs. cbn [mbind option_bind].
  destruct (app_list s) as [|a0 l0] eqn:El.
  { exists (refs c). split; [|apply shifted_nil_down]. unfold at_sw. rewrite insert_id by (rewrite Hs; f_equal; by destruct s; cbn in *; subst).
    by rewrite with_same. }
  destruct Hcov as [|Hcov]; [congruence|]. rewrite El in Hcov. rewrite <- El in *.
  set (W := wanting (apps c) (DPID s) (apps_all c)).
  assert (forall y, y ∈ W <-> y ∈ app_list s) as HW.
  { intros y. unfold W, wanting. rewrite list_elem_of_filter. split; [intros [? ?]; by apply Hcov|]. intros Hy. destruct (Hin y Hy). done. }
  assert (NoDup W) as HndW by (by apply NoDup_filter).
  destruct (list_unreg_eq sw (apps_all c) s c Hs Hall) as (R & -> & Hsh).
  { intros a Ha. fold W in Ha |- *. apply HW in Ha. destruct (Hr a Ha) as (n & Hn & Hle). exists n. split; [done|].
    rewrite cnt_nodup by done. case_bool_decide; lia. }
  fold W in Hsh |- *. cbn [mbind option_bind]. rewrite lookup_at_sw. cbn [mbind option_bind app_list set_app_list].
  rewrite rem_all_nil by (done || (intros y Hy; by apply HW)). exists R. split; [done|].
  eapply shifted_ext; [|exact Hsh]. intros x. cbn. by rewrite (cnt_same x W (app_list s)).
Qed.

End OPS.
