(* ===== verification/RegLife.v ===== *)
(** * Registration and events: the invariant is kept

    Every operation of the registry, from a state of the invariant and with arguments the code expects, completes and leads to such a
    state again. *)
From stdpp Require Import base list gmap.
From Stdlib Require Import ZArith Lia.
From S2P Require Import Prelude Bytes AppEv Reg RegSpec RegOps.
Import Bytes AppEv Reg.
#[local] Open Scope Z_scope.

Section LIFE.
Context {T : Type} `{SwTables T}.
Implicit Types c : ctrl_hdl T.
Implicit Types s : c_switch T.

(** ** A switch leaves *)

Lemma dpunreg_event_eq sw s b p mo c : core c -> sws c !! sw = Some s -> covered c s ->
  app_handler C_DP_UNREG (Some (DPID s, switch_state s, info s)) b p = Some mo ->
  exists R, c_signal_app_event (Some sw) b C_DP_UNREG None p false c =
      Some (at_sw sw (set_app_list [] s) R
              (out c ++ now_of C_DP_UNREG (apps c) mo (app_list s) ++ queue_of C_DP_UNREG (apps c) mo (app_list s))
              (set_loop C_LOOP_STATE_NONE c)) /\
    shifted (fun x => - cnt x (app_list s)) (refs c) R.
Proof.
  intros I Hs Hcov Hm. pose proof (iv_sws c I sw s Hs) as SI. pose proof (inv_targets c sw s None I Hs ltac:(done)) as Hl. cbn in Hl.
  unfold c_signal_app_event. rewrite topo_notify_eq by apply I. cbn [mbind option_bind]. set (c1 := set_loop _ c).
  rewrite (hier_rdlock_eq sw s) by (done || apply I || apply SI). cbn [mbind option_bind pre_proc]. set (c2 := set_lock 1 _).
  rewrite (loop_targets sw b C_DP_UNREG None p (set_sw_lock 1 s)) by apply lookup_at_sw.
  change (targets None (set_sw_lock 1 s)) with (app_list s). set (l := app_list s) in *.
  destruct (event_loop_eq sw b C_DP_UNREG p l mo (set_sw_lock 1 s) c2) as (R1 & -> & Hsh1); try done; [apply lookup_at_sw| |].
  { eapply Forall_impl; [exact Hl|]. intros a [(i & Hi & _) Hr]. split; [by exists i|exact Hr]. }
  cbn [mbind option_bind post_proc]. change (app_eventq (set_sw_lock 1 s)) with (app_eventq s). rewrite (si_q c s SI). cbn [Datatypes.app].
  change (apps c2) with (apps c) in *. change (refs c2) with (refs c) in *. set (Q := queue_of C_DP_UNREG (apps c) mo l) in *.
  set (s2 := set_eventq Q (set_sw_lock 1 s)). set (c3 := at_sw sw s2 R1 _ c2).
  destruct (de_exp_eq sw s2 c3 R1) as (R2 & -> & Hsh2); try done; try apply lookup_at_sw; try apply I; try apply SI.
  { eapply Forall_impl; [apply (inv_all_live c I)|]. by intros a [? _]. }
  { intros a Ha. rewrite Forall_forall in Hl. destruct (Hl a Ha) as [_ [n Hn]]. exists (n + cnt a (map fst Q)). split; [by rewrite (Hsh1 a), Hn|].
    pose proof (iv_enough c I a) as Hen. rewrite Hn in Hen. pose proof (held_sw a c sw s Hs) as Hw. unfold weight in Hw.
    pose proof (cnt_in a l Ha). pose proof (cnt_nonneg a (map fst Q)). pose proof (fp_own_range a (fp_owner s)).
    pose proof (cnt_nonneg a (map fst (app_eventq s))). pose proof (t_owned_nonneg a (tabs s)). fold l in Hw. lia. }
  cbn [mbind option_bind]. change (app_list s2) with l in *. change (refs c3) with R1 in *.
  destruct (shift_exists (fun x => - cnt x l) (refs c)) as (R0 & Hsh0). pose proof (shifted_swap _ _ _ _ _ _ Hsh1 Hsh2 Hsh0) as Hsh3.
  assert (Forall (fun a => exists i, apps c !! a = Some i /\ app_ok i) l) as Hl' by (eapply Forall_impl; [exact Hl|]; by intros a [? _]).
  pose proof (queue_local C_DP_UNREG (apps c) mo _ Hl') as Hq. fold Q in Hq.
  exists R0. split; [|exact Hsh0]. rewrite (signal_tail sw (set_app_list [] s2) Q R0); try done; try apply lookup_at_sw.
  - replace (set_sw_lock 0 (set_eventq [] (set_app_list [] s2))) with (set_app_list [] s)
      by (subst s2; destruct s; cbn in *; destruct SI; cbn in *; by subst).
    f_equal. unfold c3, c2, c1, at_sw, with_, set_lock, set_loop. cbn. rewrite !insert_insert_eq, <- app_assoc. f_equal. symmetry. apply I.
  - eapply Forall_impl; [exact Hq|]. by intros [a m] [_ ?].
  - intros x n Hx. rewrite (Hsh0 x) in Hx. destruct (refs c !! x) eqn:E0; [|done]. cbn in Hx. simplify_eq.
    pose proof (iv_enough c I x) as Hen. rewrite E0 in Hen. pose proof (held_sw x c sw s Hs) as Hw. unfold weight in Hw. fold l in Hw.
    pose proof (fp_own_range x (fp_owner s)). pose proof (cnt_nonneg x (map fst (app_eventq s))). pose proof (t_owned_nonneg x (tabs s)). lia.
  - eapply Forall_impl; [exact Hq|]. intros [a m] [Hin _]. rewrite Forall_forall in Hl. destruct (Hl a Hin) as [_ Hr]. by eapply shifted_is_Some.
Qed.

(** ** One switch changes *)

Lemma shifted_domeq d m m' : shifted d m m' -> dom m' = dom m.
Proof. intros Hs. apply set_eq. intros x. rewrite !elem_of_dom. by apply shifted_dom with (d := d). Qed.

Lemma enough_at_sw sw s s' R O c : enough c -> sws c !! sw = Some s -> shifted (fun x => weight x s' - weight x s) (refs c) R ->
  (forall x, refs c !! x = None -> weight x s' = weight x s) -> enough (at_sw sw s' R O c).
Proof.
  intros He Hs Hsh Hn x. cbn [refs at_sw with_]. rewrite (Hsh x), (held_at_sw x sw s) by done. specialize (He x).
  destruct (refs c !! x) eqn:E; cbn; [lia|]. rewrite Hn by done. lia.
Qed.

Lemma core_at_sw sw s s' R O c : core c -> sws c !! sw = Some s -> shifted (fun x => weight x s' - weight x s) (refs c) R ->
  (forall x, refs c !! x = None -> weight x s' = weight x s) -> DPID s' = DPID s -> sw_inv c s' -> core (at_sw sw s' R O c).
Proof.
  intros I Hs Hsh Hn Hd Hsi. pose proof (shifted_domeq _ _ _ Hsh) as HD. destruct I as [J1 J2 J3 J4 J5 J6 J7 J8 J9 J10].
  split; cbn [lock refs apps apps_all sw_hash_tbl sws at_sw with_]; try done.
  - by rewrite HD.
  - by eapply enough_at_sw.
  - intros x Hx. rewrite lookup_insert_is_Some'. auto.
  - intros x y s1 s2 Hx Hy H1 H2 Hxy. apply lookup_insert_Some in H1 as [[<- <-]|[? H1]], H2 as [[<- <-]|[? H2]]; try done.
    + rewrite Hd in Hxy. by eapply J9.
    + rewrite Hd in Hxy. by eapply J9.
    + by eapply J9.
  - intros x s1 [[<- <-]|[? H1]]%lookup_insert_Some; [|specialize (J10 x s1 H1)].
    + destruct Hsi. split; try done. cbn. by rewrite HD.
    + destruct J10. split; try done. cbn. by rewrite HD.
Qed.

Lemma inv_at_sw sw s s' R O c : inv c -> sws c !! sw = Some s -> shifted (fun x => weight x s' - weight x s) (refs c) R ->
  (forall x, refs c !! x = None -> weight x s' = weight x s) -> DPID s' = DPID s -> sw_inv c s' ->
  (sw ∉ sw_hash_tbl c -> app_list s' = []) ->
  (has (switch_state s') SW_PUBLISHED = true -> forall a, a ∈ apps_all c -> wanted (apps c) (DPID s') a = true -> sw ∈ sw_hash_tbl c -> a ∈ app_list s') ->
  inv (at_sw sw s' R O c).
Proof.
  intros [I J11 J12] Hs Hsh Hn Hd Hsi Hout Hpub. split; [by eapply core_at_sw|..]; cbn [apps apps_all sw_hash_tbl sws at_sw with_].
  - intros x s1 Hx [[<- <-]|[? H1]]%lookup_insert_Some; [by apply Hout|by eapply J11].
  - intros x s1 a Hx [[<- <-]|[? H1]]%lookup_insert_Some Hp Ha Hw; [by apply Hpub|by eapply J12].
Qed.

Lemma inv_with_out O n c : inv c -> inv (with_ (refs c) (sws c) O (set_loop n c)).
Proof.
  intros [[J1 J2 J3 J4 J5 J6 J7 J8 J9 J10] J11 J12]. split; cbn; try done. split; cbn; try done. intros sw s Hs. by destruct (J10 sw s Hs).
Qed.

(** ** Arrival *)

Lemma expanded_nodup sw s c : core c -> sws c !! sw = Some s -> NoDup (expanded c s).
Proof.
  intros I Hs. unfold expanded. apply NoDup_app. split_and!; [exact (si_nodup c s (iv_sws c I sw s Hs))| |apply NoDup_filter, I].
  intros a Ha (_ & _ & Hn)%missing_elem. done.
Qed.

Lemma expanded_elem sw s c a : core c -> sws c !! sw = Some s -> a ∈ expanded c s <-> a ∈ apps_all c /\ wanted (apps c) (DPID s) a = true.
Proof.
  intros I Hs. unfold expanded. rewrite elem_of_app, missing_elem. split.
  - intros [Ha|Ha]; [by apply (si_list c s (iv_sws c I sw s Hs))|naive_solver].
  - intros [Ha Hw]. destruct (decide (a ∈ app_list s)); auto.
Qed.

Lemma missing_dead c s x : core c -> refs c !! x = None -> cnt x (missing (apps c) (DPID s) (app_list s) (apps_all c)) = 0.
Proof.
  intros I Hx. apply cnt_notin. intros (Ha & _)%missing_elem. destruct (inv_live c x I Ha) as (? & ? & _ & _ & ? & _). congruence.
Qed.

(** A switch is published: all that want it are in its list and told once. *)
Lemma publish_ok sw s b mo c : inv c -> sw ∈ sw_hash_tbl c -> sws c !! sw = Some s ->
  app_handler C_DP_REG (Some (DPID s, switch_state s, info s)) b NoPriv = Some mo ->
  exists R, let c' := at_sw sw (set_state (Z.lor (switch_state s) SW_PUBLISHED) (set_app_list (expanded c s) s)) R
              (out c ++ now_of C_DP_REG (apps c) mo (expanded c s) ++ queue_of C_DP_REG (apps c) mo (expanded c s)) c in
    c_switch_publish sw b c = Some c' /\ inv c'.
Proof.
  intros I Hin Hs Hm. pose proof (inv_core c I) as J. pose proof (iv_sws c J sw s Hs) as SI.
  destruct (dpreg_event_eq sw s b None NoPriv mo c J Hs Hm ltac:(done)) as (R & E & Hsh). exists R. cbv zeta. split.
  - unfold c_switch_publish. rewrite E. cbn [mbind option_bind]. rewrite (upd_sw_eq sw (set_app_list (expanded c s) s)) by apply lookup_at_sw.
    unfold at_sw, with_, set_sws. cbn. by rewrite insert_insert_eq.
  - apply (inv_at_sw sw s); try done.
    + eapply shifted_ext; [|exact Hsh]. intros x. unfold weight, expanded. cbn. rewrite cnt_app. lia.
    + intros x Hx. unfold weight, expanded. cbn. rewrite cnt_app, (missing_dead c s x J Hx). lia.
    + destruct SI. split; try done; [by eapply expanded_nodup|]. intros a Ha. exact (proj1 (expanded_elem sw s c a J Hs) Ha).
    + intros _ a Ha Hw _. exact (proj2 (expanded_elem sw s c a J Hs) (conj Ha Hw)).
Qed.

(** ** Departure *)

Lemma core_set_hash l c : core c -> NoDup l -> (forall x, x ∈ l -> x ∈ sw_hash_tbl c) -> core (set_hash l c).
Proof.
  intros [J1 J2 J3 J4 J5 J6 J7 J8 J9 J10] Hnd Hl. split; cbn; try done; eauto. intros sw s Hs. by destruct (J10 sw s Hs).
Qed.

Lemma core_set_loop n c : core c -> core (set_loop n c).
Proof. intros [J1 J2 J3 J4 J5 J6 J7 J8 J9 J10]. split; cbn; try done. intros sw s Hs. by destruct (J10 sw s Hs). Qed.

Lemma wr_lock_eq c : lock c = 0 -> on_lock wr_lock c = Some (set_lock (-1) c).
Proof. intros Hl. unfold on_lock. by rewrite Hl. Qed.

Lemma wr_unlock_eq c : lock c = -1 -> on_lock wr_unlock c = Some (set_lock 0 c).
Proof. intros Hl. unfold on_lock. by rewrite Hl. Qed.

Lemma set_lock_back c : lock c = 0 -> set_lock 0 (set_lock (-1) c) = c.
Proof. intros Hl. destruct c. cbn in *. by subst. Qed.

Definition others (sw : Z) (c : ctrl_hdl T) : list Z := base.filter (fun x => x <> sw) (sw_hash_tbl c).

Lemma others_eq sw s c : core c -> sw ∈ sw_hash_tbl c -> sws c !! sw = Some s ->
  base.filter (fun x => bool_decide (DPID <$> sws c !! x <> Some (DPID s))) (sw_hash_tbl c) = others sw c.
Proof.
  intros I Hin Hs. apply filter_ext_elem. intros x Hx. rewrite bool_decide_spec. destruct (iv_live c I x Hx) as [sx Hsx]. rewrite Hsx. cbn. split.
  - intros Hne ->. apply Hne. congruence.
  - intros Hne [= Hd]. apply Hne. by eapply (iv_dpid c I x sw sx s).
Qed.

(** A switch that was published leaves: its applications are told once, and it has none afterwards. *)
Lemma del_ok sw s c : inv c -> sw ∈ sw_hash_tbl c -> sws c !! sw = Some s -> has (switch_state s) SW_REGISTERED = true -> covered c s ->
  exists R m, let c' := at_sw sw (set_state (Z.lor (switch_state s) SW_DEAD) (set_app_list [] s)) R
              (out c ++ sent_now C_DP_UNREG (apps c) m (app_list s) ++ queued C_DP_UNREG (apps c) m (app_list s))
              (set_loop C_LOOP_STATE_NONE (set_hash (others sw c) c)) in
    c_switch_del sw c = Some c' /\ inv c' /\ m_body m = SwitchDelete (htonll (DPID s)) (htonl (u32 (alias_id (info s)))).
Proof.
  intros [J J11 J12] Hin Hs Hreg Hcov. pose proof (iv_sws c J sw s Hs) as SI. set (c1 := set_hash (others sw c) c).
  assert (core c1) as Jc1.
  { apply core_set_hash; [done|apply NoDup_filter, J|]. intros x [_ ?]%list_elem_of_filter. done. }
  destruct (dpunreg_event_eq sw s None NoPriv _ c1 Jc1 Hs Hcov eq_refl) as (R & E & Hsh). eexists R, _. cbv zeta. split_and!.
  - unfold c_switch_del. rewrite wr_lock_eq by apply J. cbn [mbind option_bind sws set_lock]. rewrite Hs. cbn [mbind option_bind].
    change (base.filter _ _) with (base.filter (fun x => bool_decide (DPID <$> sws c !! x <> Some (DPID s))) (sw_hash_tbl c)).
    rewrite (others_eq sw s), wr_unlock_eq by done. cbn [mbind option_bind]. rewrite Hreg.
    change (set_lock 0 (set_hash (others sw c) (set_lock (-1) c))) with (set_hash (others sw c) (set_lock 0 (set_lock (-1) c))).
    rewrite set_lock_back by apply J. fold c1. rewrite E. cbn [mbind option_bind].
    rewrite (upd_sw_eq sw (set_app_list [] s)) by apply lookup_at_sw. unfold at_sw, with_, set_sws. cbn. by rewrite insert_insert_eq.
  - split.
    + apply (core_at_sw sw s); try done; [by apply core_set_loop| | |].
      * eapply shifted_ext; [|exact Hsh]. intros x. unfold weight. cbn. lia.
      * intros x Hx. unfold weight. cbn. rewrite (cnt_notin x (app_list s)); [lia|]. intros Ha.
        apply (si_list c s SI) in Ha as [Ha _]. destruct (inv_live c x J Ha) as (? & ? & _ & _ & ? & _). cbn in Hx. congruence.
      * destruct SI. split; try done; [constructor|]. intros a []%elem_of_nil.
    + cbn. intros x s1 Hx [[<- <-]|[Hne H1]]%lookup_insert_Some; [done|]. eapply J11; [|exact H1].
      intros Hx'. apply Hx. by apply list_elem_of_filter.
    + cbn. intros x s1 a [Hne Hx]%list_elem_of_filter H1. rewrite lookup_insert_ne in H1 by done. by eapply J12.
  - done.
Qed.

End LIFE.
