(* ===== verification/RegReg.v ===== *)
(** * Registration and events: applications register and leave *)
From stdpp Require Import base list gmap.
From Stdlib Require Import ZArith Lia.
From S2P Require Import Prelude Bytes AppEv Reg RegSpec RegOps RegLife.
Import Bytes AppEv Reg.
#[local] Open Scope Z_scope.

Section REG.
Context {T : Type} `{SwTables T}.
Implicit Types c : ctrl_hdl T.
Implicit Types s : c_switch T.

(** ** Lookup *)

Lemma find_app_spec p l c : Forall (fun a => is_Some (apps c !! a)) l ->
  (find_app p l c = Some None /\ forall a i, a ∈ l -> apps c !! a = Some i -> p i = false) \/
  (exists a i, find_app p l c = Some (Some a) /\ a ∈ l /\ apps c !! a = Some i /\ p i = true).
Proof.
  induction 1 as [|a l [i Hi] Hl IH]; cbn [find_app].
  { left. split; [done|]. intros a i []%elem_of_nil. }
  rewrite Hi. cbn [mbind option_bind]. destruct (p i) eqn:Ep.
  { right. exists a, i. split_and!; [done|left|done|done]. }
  destruct IH as [[-> Hn]|(b & j & -> & Hb & Hj & Hp)].
  - left. split; [done|]. intros b j [->|Hb]%elem_of_cons Hj; [congruence|by eapply Hn].
  - right. exists b, j. split_and!; [done|by right|done|done].
Qed.

Lemma find_app_ext p l c c' : apps c' = apps c -> find_app p l c' = find_app p l c.
Proof. intros E. induction l as [|a l IH]; [done|]. cbn. rewrite E. destruct (apps c !! a); [|done]. cbn. by rewrite IH. Qed.

Lemma app_lookup_locked name n c : __c_app_lookup name (set_lock n c) = __c_app_lookup name c.
Proof. by apply find_app_ext. Qed.

Lemma core_apps_live c : core c -> Forall (fun a => is_Some (apps c !! a)) (apps_all c).
Proof. intros I. eapply Forall_impl; [apply inv_all_live, I|]. intros a [(i & Hi & _) _]. by exists i. Qed.

(** The name of a registered application finds it. *)
Lemma lookup_self c a i : core c -> a ∈ apps_all c -> apps c !! a = Some i -> __c_app_lookup (app_name i) c = Some (Some a).
Proof.
  intros I Ha Hi. unfold __c_app_lookup.
  destruct (find_app_spec (fun j => same_name (app_name j) (app_name i)) (apps_all c) c (core_apps_live c I)) as [[_ Hn]|(b & j & -> & Hb & Hj & Hp)].
  - specialize (Hn a i Ha Hi). unfold same_name in Hn. by rewrite bool_decide_true in Hn.
  - do 2 f_equal. by eapply (iv_names c I b a j i).
Qed.

(** ** Leaving all switches *)

Lemma enough_conserved c c' : enough c -> conserved c c' -> (forall x, refs c !! x = None -> held x c' = held x c) -> enough c'.
Proof.
  intros He Hc Hn x. specialize (He x). rewrite (Hc x). destruct (refs c !! x) eqn:E; cbn; [lia|]. rewrite Hn by done. done.
Qed.

Lemma unregister_all app i l : forall c, NoDup l -> app <> 0 -> apps c !! app = Some i -> is_Some (refs c !! app) -> enough c ->
  Forall (fun sw => exists s, sws c !! sw = Some s /\ sw_lock s = 0 /\ t_ok (dom (refs c)) (tabs s) /\ t_purgeable app (tabs s)) l ->
  exists R S, let c' := with_ R S (out c) c in traverse (c_per_switch_app_unregister app) l c = Some c' /\
    (forall x, x ∉ l -> S !! x = sws c !! x) /\
    (forall x, x ∈ l -> exists s s', sws c !! x = Some s /\ S !! x = Some s' /\ unreg_of app (dom (refs c)) s s') /\
    conserved c c' /\ (forall x, x <> app -> held x c' = held x c).
Proof.
  induction l as [|sw l IH]; intros c Hnd Hz Hi Hr Hen Hl; cbn [traverse].
  { exists (refs c), (sws c). cbv zeta. rewrite with_same. split_and!; try done; [intros x []%elem_of_nil|apply conserved_refl]. }
  apply NoDup_cons in Hnd as [Hni Hnd]. apply Forall_cons in Hl as [(s & Hs & Hlk & Hok & Hpu) Hl]. destruct Hr as [n Hn].
  destruct (unregister_one app sw s n i c) as (s' & R1 & -> & Hu & Hsh); try done. cbn [mbind option_bind].
  assert (forall x, x <> app -> held x (at_sw sw s' R1 (out c) c) = held x c) as Hh.
  { intros x Hx. rewrite (held_at_sw x sw s) by done. rewrite (uo_weight _ _ _ _ Hu x Hx). lia. }
  pose proof (conserved_at_sw sw s s' R1 (out c) c Hs Hsh) as Hc1. pose proof (shifted_domeq _ _ _ Hsh) as HD.
  destruct (IH (at_sw sw s' R1 (out c) c)) as (R & S & E & Hout & Hin & Hc2 & Hh2); try done.
  - by eapply shifted_is_Some.
  - eapply enough_conserved; [exact Hen|done|]. intros x Hx. apply Hh. intros ->. congruence.
  - apply Forall_forall. intros x Hx. rewrite Forall_forall in Hl. destruct (Hl x Hx) as (sx & Hsx & ? & ? & ?). exists sx.
    cbn [refs sws at_sw with_]. rewrite HD, lookup_insert_ne by (by intros ->). done.
  - cbn [refs sws at_sw with_ out] in *. rewrite HD in Hin. exists R, S. cbv zeta. split_and!.
    + rewrite E. done.
    + intros x [Hne Hx]%not_elem_of_cons. rewrite Hout by done. by rewrite lookup_insert_ne.
    + intros x [->|Hx]%elem_of_cons.
      * exists s, s'. split_and!; try done. rewrite Hout by done. apply lookup_insert_eq.
      * destruct (Hin x Hx) as (s1 & s2 & H1 & H2 & H3). rewrite lookup_insert_ne in H1 by (by intros ->). by exists s1, s2.
    + eapply conserved_trans; [exact Hc1|exact Hc2].
    + intros x Hx. rewrite <- (Hh x Hx). by apply Hh2.
Qed.

(** The object of an application that left. *)
Definition left_app (i : c_app_info) : c_app_info :=
  mk_app (ev_mask i) (app_flags i) (Z.land (priv_flags i) (Z.lnot C_APP_FP_L2)) (match dpid_hlist i with Some _ => 0 | None => n_dpid i end)
    (app_cookie i) None c_app_event_blackhole (app_name i).

Lemma wanted_ne A a i dpid x : x <> a -> wanted (<[a := i]> A) dpid x = wanted A dpid x.
Proof. intros Hne. unfold wanted. by rewrite lookup_insert_ne. Qed.

(** The state after an application left. *)
Definition unreg_state (app : Z) (i : c_app_info) (R : gmap Z Z) (S : gmap Z (c_switch T)) (c : ctrl_hdl T) : ctrl_hdl T :=
  mk_ctrl (lock c) (g_slist_remove app (apps_all c)) (sw_hash_tbl c) (loop_status c) (<[app := left_app i]> (apps c)) R S (out c).

Lemma unreg_inv app i R S c : inv c -> app ∈ apps_all c -> apps c !! app = Some i -> 
  (forall x, x ∉ sw_hash_tbl c -> S !! x = sws c !! x) ->
  (forall x, x ∈ sw_hash_tbl c -> exists s s', sws c !! x = Some s /\ S !! x = Some s' /\ unreg_of app (dom (refs c)) s s') ->
  conserved c (unreg_state app i R S c) -> (forall x, x <> app -> held x (unreg_state app i R S c) = held x c) ->
  inv (unreg_state app i R S c).
Proof.
  intros [J J11 J12] Ha Hi Hout Hin Hc Hh. pose proof (shifted_domeq _ _ _ Hc) as HD. cbn [refs unreg_state] in HD.
  assert (forall x y, x ∈ g_slist_remove y (apps_all c) <-> x ∈ apps_all c /\ x <> y) as Hrem by (intros; apply g_slist_remove_elem, J).
  assert (forall x s', S !! x = Some s' -> exists s, sws c !! x = Some s /\ DPID s' = DPID s /\ switch_state s' = switch_state s /\
    (x ∈ sw_hash_tbl c /\ unreg_of app (dom (refs c)) s s' \/ x ∉ sw_hash_tbl c /\ s' = s)) as HS.
  { intros x s' Hs'. destruct (decide (x ∈ sw_hash_tbl c)) as [Hx|Hx].
    - destruct (Hin x Hx) as (s & s1 & H1 & H2 & H3). simplify_eq. exists s. split_and!; [done|apply H3|apply H3|by left].
    - rewrite Hout in Hs' by done. exists s'. split_and!; auto. }
  destruct (inv_live c app J Ha) as (_ & r & _ & _ & Hr & _).
  split.
  - split; cbn [lock refs apps apps_all sw_hash_tbl sws unreg_state]; try apply J.
    + rewrite HD, (iv_dom c J), dom_insert_L. apply set_eq. intros x. rewrite elem_of_union, elem_of_singleton.
      split; [auto|]. intros [->|?]; [|done]. apply elem_of_dom. by exists i.
    + eapply enough_conserved; [apply J|exact Hc|]. intros x Hx. apply Hh. intros ->. congruence.
    + by apply g_slist_remove_nodup, J.
    + intros a [Hx Hne]%Hrem. destruct (iv_apps c J a Hx) as (? & j & Hj & ?). split; [done|]. exists j. by rewrite lookup_insert_ne.
    + intros a b i1 i2 [Hx Hn1]%Hrem [Hy Hn2]%Hrem. rewrite !lookup_insert_ne by done. by apply (iv_names c J).
    + intros x Hx. destruct (Hin x Hx) as (? & ? & _ & ? & _). eauto.
    + intros x y s1 s2 Hx Hy (s3 & H3 & D3 & _)%HS (s4 & H4 & D4 & _)%HS Hd. rewrite D3, D4 in Hd. by eapply (iv_dpid c J x y).
    + intros x s' (s & Hs & Hd & _ & [[Hx Hu]|[Hx ->]])%HS; pose proof (iv_sws c J x s Hs) as [K1 K2 K3 K4 K5 K7 K6].
      * destruct Hu. split; cbn; rewrite ?HD; try congruence.
        -- rewrite uo_list. by apply g_slist_remove_nodup.
        -- destruct uo_fp as [(-> & -> & _)|(_ & -> & _)]; done.
        -- rewrite uo_list, uo_dpid. intros a [Hx1 Hne]%g_slist_remove_elem; [|done]. rewrite wanted_ne by done.
           destruct (K6 a Hx1). by rewrite Hrem.
      * split; cbn; rewrite ?HD; try done. rewrite (J11 x s Hx Hs). intros a []%elem_of_nil.
  - cbn. intros x s' Hx (s & Hs & _ & _ & [[Hx' _]|[_ ->]])%HS; [done|]. by apply (J11 x).
  - cbn. intros x s' a Hx (s & Hs & Hd & Hst & [[_ Hu]|[Hx' ->]])%HS Hp [Ha1 Hne]%Hrem Hw; [|done].
    rewrite Hst in Hp. rewrite Hd, wanted_ne in Hw by done. rewrite (uo_list _ _ _ _ Hu). apply g_slist_remove_elem.
    + apply (si_nodup c s), (iv_sws c J x s Hs).
    + split; [by eapply J12|done].
Qed.

(** One reference more, taken for the time of a call. *)
Lemma enough_ref app r c : enough c -> refs c !! app = Some r -> enough (set_refs (<[app := r + 1]> (refs c)) c).
Proof.
  intros He Hr x. specialize (He x). change (held x (set_refs _ c)) with (held x c). cbn [refs set_refs].
  destruct (decide (x = app)) as [->|Hne]; [rewrite lookup_insert_eq, Hr in *; lia|by rewrite lookup_insert_ne].
Qed.

Lemma app_get_none name c : core c -> (forall a i, a ∈ apps_all c -> apps c !! a = Some i -> same_name (app_name i) name = false) ->
  __c_app_get name c = Some (None, c).
Proof.
  intros I Hn. unfold __c_app_get, get_of, __c_app_lookup.
  destruct (find_app_spec (fun i => same_name (app_name i) name) (apps_all c) c (core_apps_live c I)) as [[-> _]|(a & i & _ & Ha & Hi & Hp)]; [done|].
  by rewrite (Hn a i Ha Hi) in Hp.
Qed.

(** A registered application leaves by its name. *)
Lemma unregister_ok app i c : inv c -> app ∈ apps_all c -> apps c !! app = Some i ->
  (forall sw s, sw ∈ sw_hash_tbl c -> sws c !! sw = Some s -> t_purgeable app (tabs s)) ->
  exists R S, mul_unregister_app (app_name i) c = Some (0, unreg_state app i R S c) /\ inv (unreg_state app i R S c) /\
    (forall x, x ∉ sw_hash_tbl c -> S !! x = sws c !! x) /\
    (forall x, x ∈ sw_hash_tbl c -> exists s s', sws c !! x = Some s /\ S !! x = Some s' /\ unreg_of app (dom (refs c)) s s') /\
    conserved c (unreg_state app i R S c).
Proof.
  intros I Ha Hi Hpu. pose proof (inv_core c I) as J. destruct (inv_live c app J Ha) as (_ & r & _ & _ & Hr & Hnn).
  destruct (iv_apps c J app Ha) as (Hz & _). unfold mul_unregister_app. rewrite wr_lock_eq by apply J. cbn [mbind option_bind].
  unfold __c_app_get. rewrite app_lookup_locked, (lookup_self c app i J Ha Hi). cbn [get_of mbind option_bind]. rewrite (c_app_ref_eq app r) by done. cbn [mbind option_bind].
  set (c1 := set_apps_all _ _). unfold __c_switch_traverse_all.
  destruct (unregister_all app i (sw_hash_tbl c) c1) as (R & S & E & Hout & Hin & Hc & Hh); try done.
  - apply J.
  - cbn. rewrite lookup_insert_eq. eauto.
  - exact (enough_ref app r c (iv_enough c J) Hr).
  - apply Forall_forall. intros x Hx. destruct (iv_live c J x Hx) as [s Hs]. exists s. destruct (iv_sws c J x s Hs).
    split_and!; [exact Hs|done| |by eapply Hpu]. cbn. rewrite dom_insert_L.
    replace ({[app]} ∪ dom (refs c)) with (dom (refs c)); [done|]. apply set_eq. intros y. rewrite elem_of_union, elem_of_singleton.
    split; [auto|]. intros [->|?]; [apply elem_of_dom; eauto|done].
  - change (sw_hash_tbl c1) with (sw_hash_tbl c). rewrite E. cbn [mbind option_bind]. unfold upd_app. cbn [apps with_ c1 set_apps_all set_refs set_lock].
    rewrite Hi. cbn [mbind option_bind]. rewrite wr_unlock_eq by done. cbn [mbind option_bind].
    assert (dom (refs c1) = dom (refs c)) as HD1.
    { cbn. rewrite dom_insert_L. apply set_eq. intros y. rewrite elem_of_union, elem_of_singleton.
      split; [|auto]. intros [->|?]; [apply elem_of_dom; eauto|done]. }
    rewrite HD1 in Hin. set (c2 := with_ R S (out c1) c1) in *. change (sws c1) with (sws c) in *.
    assert (R !! app = Some (r + 1 + (held app c2 - held app c))) as HR.
    { pose proof (Hc app) as E1. change (refs c2) with R in E1. rewrite E1. cbn. rewrite lookup_insert_eq. done. }
    pose proof (held_nonneg app c2). pose proof (iv_enough c J app) as Hen. rewrite Hr in Hen.
    rewrite (c_app_put_eq app (r + 1 + (held app c2 - held app c))) by (exact HR || lia). cbn [mbind option_bind refs set_lock set_apps with_ c2].
    set (R' := <[app := r + 1 + (held app c2 - held app c) - 1]> R).
    assert (conserved c (unreg_state app i R' S c)) as Hcc.
    { intros x. change (held x (unreg_state app i R' S c)) with (held x c2). cbn [refs unreg_state]. subst R'.
      destruct (decide (x = app)) as [->|Hne]; [rewrite lookup_insert_eq, Hr; cbn; f_equal; lia|].
      rewrite lookup_insert_ne by done. pose proof (Hc x) as E1. change (refs c2) with R in E1. rewrite E1. cbn. by rewrite lookup_insert_ne. }
    exists R', S. split_and!; [|by apply unreg_inv|done|done|done].
    do 2 f_equal. unfold unreg_state, set_lock, set_apps, set_refs. cbn. f_equal. symmetry. apply J.
Qed.

Lemma unregister_unknown name c : inv c -> (forall a i, a ∈ apps_all c -> apps c !! a = Some i -> same_name (app_name i) name = false) ->
  mul_unregister_app name c = Some (-1, c).
Proof.
  intros [J _ _] Hn. unfold mul_unregister_app. rewrite wr_lock_eq by apply J. cbn [mbind option_bind].
  assert (__c_app_get name (set_lock (-1) c) = Some (None, set_lock (-1) c)) as ->.
  { pose proof (app_get_none name c J Hn) as E. unfold __c_app_get, get_of in *.
    rewrite app_lookup_locked. destruct (__c_app_lookup name c) as [[a|]|]; cbn in *; try done. unfold c_app_ref in E. by destruct (refs c !! a). }
  cbn [mbind option_bind]. rewrite wr_unlock_eq by done. cbn [mbind option_bind]. by rewrite set_lock_back by apply J.
Qed.

End REG.
