(* ===== verification/RegNew.v ===== *)
(** * Registration and events: a new application *)
From stdpp Require Import base list gmap.
From Stdlib Require Import ZArith Lia.
From S2P Require Import Prelude Bytes AppEv Reg RegSpec RegOps RegLife RegReg.
Import Bytes AppEv Reg.
#[local] Open Scope Z_scope.

Section NEW.
Context {T : Type} `{SwTables T}.
Implicit Types c : ctrl_hdl T.
Implicit Types s : c_switch T.

Lemma lookup_dpid_spec d l c : Forall (fun x => is_Some (sws c !! x)) l ->
  (lookup_dpid d l c = Some None /\ forall x s, x ∈ l -> sws c !! x = Some s -> DPID s <> d) \/
  (exists x s, lookup_dpid d l c = Some (Some x) /\ x ∈ l /\ sws c !! x = Some s /\ DPID s = d).
Proof.
  induction 1 as [|x l [s Hs] Hl IH]; cbn [lookup_dpid].
  { left. split; [done|]. intros x s []%elem_of_nil. }
  rewrite Hs. cbn [mbind option_bind]. destruct (Z.eqb_spec (DPID s) d) as [Hd|Hd].
  { right. exists x, s. split_and!; [done|left|done|done]. }
  destruct IH as [[-> Hn]|(y & sy & -> & Hy & Hsy & Hdy)].
  - left. split; [done|]. intros y sy [->|Hy]%elem_of_cons Hsy; [congruence|by eapply Hn].
  - right. exists y, sy. split_and!; [done|by right|done|done].
Qed.

Lemma add_if_fields app s : DPID (add_if app s) = DPID s /\ sw_ref (add_if app s) = sw_ref s /\ sw_lock (add_if app s) = sw_lock s /\
  switch_state (add_if app s) = switch_state s /\ app_eventq (add_if app s) = app_eventq s /\ tabs (add_if app s) = tabs s /\
  fp_type (add_if app s) = fp_type s /\ fp_owner (add_if app s) = fp_owner s.
Proof. unfold add_if. by case_bool_decide. Qed.

(** What the loop over the identifiers [h] has done so far. *)
Record dp_rel (c0 : ctrl_hdl T) (n app : Z) (i0 : c_app_info) (h : gset Z) (c : ctrl_hdl T) : Prop := {
  dr_shape : c = set_apps (<[app := set_dpids n h i0]> (apps c0)) (with_ (refs c) (sws c) (out c0) c0);
  dr_sws : forall x, sws c !! x = (fun s => if bool_decide (x ∈ sw_hash_tbl c0 /\ DPID s ∈ h) then add_if app s else s) <$> sws c0 !! x;
  dr_cons : conserved c0 c }.

Lemma set_dpids_twice n h h' i : set_dpids n h' (set_dpids n h i) = set_dpids n h' i.
Proof. done. Qed.

Lemma add_dpid_ok c0 n app i0 h d c : core (set_lock 0 c0) -> is_Some (refs c0 !! app) -> dp_rel c0 n app i0 h c ->
  exists c', add_dpid n app d c = Some c' /\ dp_rel c0 n app i0 ({[ntohll d]} ∪ h) c'.
Proof.
  intros J Hr [Hsh HS Hc]. unfold add_dpid. set (dpid := ntohll d).
  assert (apps c = <[app := set_dpids n h i0]> (apps c0)) as HA by (rewrite Hsh; done). rewrite HA, lookup_insert_eq.
  cbn [mbind option_bind dpid_hlist set_dpids]. case_bool_decide as Hin.
  { exists c. split; [done|]. by replace ({[dpid]} ∪ h) with h by set_solver. }
  assert (sw_hash_tbl c = sw_hash_tbl c0) as Hhash by (by rewrite Hsh).
  unfold upd_app. rewrite HA, lookup_insert_eq. cbn [mbind option_bind]. rewrite set_dpids_twice.
  set (i1 := set_dpids n ({[dpid]} ∪ h) i0). set (c1 := set_apps _ c).
  assert (c1 = set_apps (<[app := i1]> (apps c0)) (with_ (refs c) (sws c) (out c0) c0)) as Hc1.
  { unfold c1. rewrite Hsh. unfold set_apps, with_. cbn. by rewrite insert_insert_eq. }
  unfold __c_switch_get.
  destruct (lookup_dpid_spec dpid (sw_hash_tbl c1) c1) as [[-> Hn]|(sw & s & -> & Hsw & Hs & Hd)].
  { apply Forall_forall. intros x Hx. change (sws c1) with (sws c). rewrite HS, fmap_is_Some. apply (iv_live _ J). cbn. by rewrite <- Hhash. }
  - cbn [mbind option_bind]. exists c1. split; [done|]. split; [exact Hc1| |exact Hc]. intros x. change (sws c1) with (sws c). rewrite HS.
    destruct (sws c0 !! x) as [s|] eqn:Es; [|done]. cbn. f_equal.
    rewrite (bool_decide_ext (x ∈ sw_hash_tbl c0 /\ DPID s ∈ {[dpid]} ∪ h) (x ∈ sw_hash_tbl c0 /\ DPID s ∈ h)); [done|].
    rewrite elem_of_union, elem_of_singleton. split; [|naive_solver]. intros [Hx [Heq|?]]; [|done]. exfalso.
    eapply (Hn x); [change (sw_hash_tbl c1) with (sw_hash_tbl c); by rewrite Hhash| |exact Heq].
    change (sws c1) with (sws c). rewrite HS, Es. cbn. rewrite bool_decide_false; [done|]. intros [_ Hh]. congruence.
  - change (sw_hash_tbl c1) with (sw_hash_tbl c) in Hsw. rewrite Hhash in Hsw. change (sws c1) with (sws c) in Hs.
    assert (sws c0 !! sw = Some s) as Hs0.
    { pose proof (HS sw) as E. rewrite Hs in E. destruct (sws c0 !! sw) as [s0|] eqn:E0; [|done]. cbn in E.
      case_bool_decide as Hb; [|by simplify_eq]. simplify_eq. destruct Hb as [_ Hb]. pose proof (proj1 (add_if_fields app s0)). congruence. }
    destruct (iv_sws _ J sw s Hs0) as [K1 K2 _ _ _ _ _].
    cbn [mbind option_bind]. rewrite (upd_sw_eq sw s) by done. cbn [mbind option_bind]. set (s1 := set_sw_ref (sw_ref s + 1) s).
    set (c2 := set_sws _ c1).
    destruct (register_one sw s1 app c2) as (R & -> & Hsh1); [apply lookup_insert_eq|done|by eapply shifted_is_Some|]. cbn [mbind option_bind].
    unfold c_switch_put. rewrite lookup_at_sw. cbn [mbind option_bind]. destruct (add_if_fields app s1) as (_ & F2 & _).
    assert ((sw_ref (add_if app s1) =? 0) = false) as -> by (rewrite F2; apply Z.eqb_neq; cbn; lia). rewrite (upd_sw_eq sw (add_if app s1)) by apply lookup_at_sw.
    eexists. split; [reflexivity|].
    assert (set_sw_ref (sw_ref (add_if app s1) - 1) (add_if app s1) = add_if app s) as Hback.
    { rewrite F2. cbn [sw_ref set_sw_ref s1]. replace (sw_ref s + 1 - 1) with (sw_ref s) by lia. unfold s1, add_if. cbn.
      case_bool_decide; by destruct s. }
    rewrite Hback. split.
    + unfold c2. rewrite Hc1. unfold at_sw, with_, set_apps, set_sws. cbn. done.
    + cbn. rewrite !insert_insert_eq. intros x. destruct (decide (x = sw)) as [->|Hne].
      * rewrite lookup_insert_eq, Hs0. cbn. rewrite bool_decide_true; [done|]. split; [done|]. set_solver.
      * rewrite lookup_insert_ne, HS by done. destruct (sws c0 !! x) as [sx|] eqn:Ex; [|done]. cbn. f_equal.
        rewrite (bool_decide_ext (x ∈ sw_hash_tbl c0 /\ DPID sx ∈ {[dpid]} ∪ h) (x ∈ sw_hash_tbl c0 /\ DPID sx ∈ h)); [done|].
        rewrite elem_of_union, elem_of_singleton. split; [|naive_solver]. intros [Hx [Heq|?]]; [|done]. destruct Hne.
        eapply (iv_dpid _ J x sw sx s); [done|done|done|done|congruence].
    + eapply conserved_trans; [exact Hc|]. intros x. cbn [refs at_sw with_ set_sws]. rewrite (Hsh1 x). change (refs c2) with (refs c).
      destruct (refs c !! x); cbn; [|done]. f_equal. unfold held. cbn. rewrite !insert_insert_eq, (msum_insert _ _ _ s) by done.
      rewrite !add_if_weight. unfold s1. cbn. change (weight x (set_sw_ref _ s)) with (weight x s). lia.
Qed.

Lemma add_dpids_ok c0 n app i0 dl : core (set_lock 0 c0) -> is_Some (refs c0 !! app) -> forall h c, dp_rel c0 n app i0 h c ->
  exists c', traverse (add_dpid n app) dl c = Some c' /\ dp_rel c0 n app i0 (list_to_set (map ntohll dl) ∪ h) c'.
Proof.
  intros J Hr. induction dl as [|d dl IH]; intros h c Hc; cbn [traverse map].
  { exists c. split; [done|]. by replace (list_to_set [] ∪ h) with h by set_solver. }
  destruct (add_dpid_ok c0 n app i0 h d c J Hr Hc) as (c1 & -> & Hc1). cbn [mbind option_bind].
  destruct (IH _ _ Hc1) as (c' & E & Hc'). exists c'. split; [done|]. cbn [list_to_set].
  by replace (({[ntohll d]} ∪ list_to_set (map ntohll dl)) ∪ h) with (list_to_set (map ntohll dl) ∪ ({[ntohll d]} ∪ h)) by set_solver.
Qed.

Definition reg_state (app : Z) (i : c_app_info) (R : gmap Z Z) (S : gmap Z (c_switch T)) (c : ctrl_hdl T) : ctrl_hdl T :=
  mk_ctrl (lock c) (apps_all c ++ [app]) (sw_hash_tbl c) (loop_status c) (<[app := i]> (apps c)) R S (out c).

(** The switches after registration: those in the hash table that the application wants have it in their list. *)
Definition with_app (app : Z) (i : c_app_info) (c : ctrl_hdl T) (x : Z) (s : c_switch T) : c_switch T :=
  if bool_decide (x ∈ sw_hash_tbl c /\ wants i (DPID s) = Some true) then add_if app s else s.

Lemma with_app_fields app i c x s : DPID (with_app app i c x s) = DPID s /\ sw_ref (with_app app i c x s) = sw_ref s /\
  sw_lock (with_app app i c x s) = sw_lock s /\ switch_state (with_app app i c x s) = switch_state s /\
  app_eventq (with_app app i c x s) = app_eventq s /\ tabs (with_app app i c x s) = tabs s /\
  fp_type (with_app app i c x s) = fp_type s /\ fp_owner (with_app app i c x s) = fp_owner s.
Proof. unfold with_app. case_bool_decide; [apply add_if_fields|done]. Qed.

Lemma with_app_list app i c x s a : a ∈ app_list (with_app app i c x s) <->
  a ∈ app_list s \/ a = app /\ x ∈ sw_hash_tbl c /\ wants i (DPID s) = Some true.
Proof.
  unfold with_app, add_if. case_bool_decide as H1; [|naive_solver]. case_bool_decide as H2; [naive_solver|].
  cbn. rewrite elem_of_app, elem_of_cons, elem_of_nil. naive_solver.
Qed.

Lemma with_app_nodup app i c x s : NoDup (app_list s) -> NoDup (app_list (with_app app i c x s)).
Proof.
  intros Hn. unfold with_app, add_if. case_bool_decide; [|done]. case_bool_decide as Hin; [done|]. cbn. apply NoDup_app. split_and!; [done| |].
  - intros a Ha [->|[]%elem_of_nil]%elem_of_cons. done.
  - apply NoDup_singleton.
Qed.

Lemma with_app_weight app i c x s y : y <> app -> weight y (with_app app i c x s) = weight y s.
Proof.
  intros Hne. unfold with_app. case_bool_decide; [|done]. rewrite add_if_weight, cnt_notin; [destruct (bool_decide _); lia|].
  by intros [->|[]%elem_of_nil]%elem_of_cons.
Qed.

Lemma same_name_sym a b : same_name a b = same_name b a.
Proof. unfold same_name. apply bool_decide_ext. split; congruence. Qed.

Lemma wanted_new A app i dpid : app_ok i -> wanted (<[app := i]> A) dpid app = true <-> wants i dpid = Some true.
Proof.
  intros Hok. unfold wanted. rewrite lookup_insert_eq, (ao_aux _ Hok). cbn. destruct (app_ok_wants i dpid Hok) as [b ->]. destruct b; naive_solver.
Qed.

Lemma reg_inv app i R S c : inv c -> app <> 0 -> app ∉ apps_all c -> is_Some (apps c !! app) -> app_ok i ->
  (forall a j, a ∈ apps_all c -> apps c !! a = Some j -> same_name (app_name j) (app_name i) = false) ->
  (forall x, S !! x = with_app app i c x <$> sws c !! x) -> conserved c (reg_state app i R S c) -> inv (reg_state app i R S c).
Proof.
  intros [J J11 J12] Hz Hni Hal Hok Hnm HS Hc. pose proof (shifted_domeq _ _ _ Hc) as HD. cbn [refs reg_state] in HD.
  assert (forall x s', S !! x = Some s' -> exists s, sws c !! x = Some s /\ s' = with_app app i c x s) as HS'.
  { intros x s' Hx. rewrite HS in Hx. destruct (sws c !! x) as [s|]; [|done]. cbn in Hx. simplify_eq. eauto. }
  assert (forall a, a ∈ apps_all c -> a <> app) as Hne by (intros a Ha ->; done).
  split.
  - split; cbn [lock refs apps apps_all sw_hash_tbl sws reg_state]; try apply J.
    + rewrite HD, (iv_dom c J), dom_insert_L. apply set_eq. intros x. rewrite elem_of_union, elem_of_singleton.
      split; [auto|]. intros [->|?]; [|done]. by apply elem_of_dom.
    + eapply enough_conserved; [apply J|exact Hc|]. intros x Hx. unfold held. cbn. apply msum_ext. intros k. rewrite HS.
      destruct (sws c !! k); [|done]. cbn. f_equal. apply with_app_weight. intros ->.
      apply elem_of_dom in Hal. rewrite <- (iv_dom c J) in Hal. apply elem_of_dom in Hal as [? ?]. congruence.
    + apply NoDup_app. split_and!; [apply J| |apply NoDup_singleton]. intros a Ha [->|[]%elem_of_nil]%elem_of_cons. done.
    + intros a [Ha|[->|[]%elem_of_nil]%elem_of_cons]%elem_of_app.
      * rewrite lookup_insert_ne by (symmetry; auto). by apply (iv_apps c J).
      * split; [done|]. exists i. by rewrite lookup_insert_eq.
    + intros a b i1 i2 [Ha|[->|[]%elem_of_nil]%elem_of_cons]%elem_of_app [Hb|[->|[]%elem_of_nil]%elem_of_cons]%elem_of_app; [| | |done].
      * rewrite !lookup_insert_ne by (symmetry; auto). by apply (iv_names c J).
      * rewrite lookup_insert_ne, lookup_insert_eq by (symmetry; auto). intros Hi1 [= <-] Hsm. by rewrite (Hnm a i1 Ha Hi1) in Hsm.
      * rewrite lookup_insert_eq, lookup_insert_ne by (symmetry; auto). intros [= <-] Hi2 Hsm. rewrite same_name_sym in Hsm. by rewrite (Hnm b i2 Hb Hi2) in Hsm.
    + intros x Hx. rewrite HS, fmap_is_Some. by apply (iv_live c J).
    + intros x y s1 s2 Hx Hy (s3 & H3 & ->)%HS' (s4 & H4 & ->)%HS' Hd. rewrite !(proj1 (with_app_fields _ _ _ _ _)) in Hd. by eapply (iv_dpid c J x y).
    + intros x s' (s & Hs & ->)%HS'. destruct (with_app_fields app i c x s) as (F1 & F2 & F3 & F4 & F5 & F6 & F7 & F8).
      destruct (iv_sws c J x s Hs) as [K1 K2 K3 K4 K5 K7 K6]. split; cbn [refs apps apps_all reg_state]; rewrite ?F1, ?F2, ?F3, ?F5, ?F6, ?F7, ?F8, ?HD; try done.
      * by apply with_app_nodup.
      * intros a [Ha|(-> & Hx & Hw)]%with_app_list.
        -- destruct (K6 a Ha) as [Ha1 Ha2]. rewrite wanted_ne by auto. split; [|done]. apply elem_of_app. by left.
        -- split; [apply elem_of_app; right; left|]. by apply wanted_new.
  - cbn. intros x s' Hx (s & Hs & ->)%HS'. unfold with_app. rewrite bool_decide_false by naive_solver. by apply (J11 x).
  - cbn. intros x s' a Hx (s & Hs & ->)%HS' Hp [Ha|[->|[]%elem_of_nil]%elem_of_cons]%elem_of_app Hw;
      destruct (with_app_fields app i c x s) as (F1 & F2 & F3 & F4 & F5 & F6 & F7 & F8); rewrite F4 in Hp; rewrite F1 in Hw; apply with_app_list.
    + left. rewrite wanted_ne in Hw by auto. by eapply J12.
    + right. split_and!; [done|done|]. by apply (wanted_new (apps c) app i).
Qed.

End NEW.
