(* ===== verification/RegThm.v ===== *)
(** * Registration and events: the theorems *)
From stdpp Require Import base list gmap.
From Stdlib Require Import ZArith Lia.
From S2P Require Import Prelude Bytes AppEv Reg RegSpec RegOps RegLife RegReg RegNew.
Import Bytes AppEv Reg.
#[local] Open Scope Z_scope.

Section THM.
Context {T : Type} `{SwTables T}.
Implicit Types c : ctrl_hdl T.
Implicit Types s : c_switch T.

(** ** A new object *)

Definition alloc_state (a : Z) (i : c_app_info) (c : ctrl_hdl T) : ctrl_hdl T :=
  set_apps (<[a := i]> (apps c)) (set_refs (<[a := 0]> (refs c)) c).

Lemma alloc_inv a i c : inv c -> refs c !! a = None -> inv (alloc_state a i c).
Proof.
  intros [[J1 J2 J3 J4 J5 J6 J7 J8 J9 J10] J11 J12] Ha.
  assert (apps c !! a = None) as Ha'.
  { apply not_elem_of_dom. rewrite <- J2. by apply not_elem_of_dom. }
  assert (forall x, x ∈ apps_all c -> x <> a) as Hne.
  { intros x Hx ->. destruct (J5 a Hx) as (_ & j & Hj & _). congruence. }
  split.
  - split; cbn [lock refs apps apps_all sw_hash_tbl sws alloc_state set_apps set_refs]; try done.
    + by rewrite !dom_insert_L, J2.
    + intros x. cbn [refs alloc_state set_apps set_refs]. change (held x (alloc_state a i c)) with (held x c). specialize (J3 x).
      destruct (decide (x = a)) as [->|Hx]; [rewrite lookup_insert_eq; rewrite Ha in J3; lia|by rewrite lookup_insert_ne].
    + intros x Hx. rewrite lookup_insert_ne by (symmetry; auto). auto.
    + intros x y i1 i2 Hx Hy. rewrite !lookup_insert_ne by (symmetry; auto). eauto.
    + intros sw s Hs. destruct (J10 sw s Hs) as [K1 K2 K3 K4 K5 K7 K6]. split; try done.
      * cbn. eapply t_ok_live; [|exact K5]. intros x Hx. left. rewrite dom_insert_L. set_solver.
      * intros x Hx. cbn [apps_all apps alloc_state set_apps set_refs]. destruct (K6 x Hx). by rewrite wanted_ne by auto.
  - done.
  - cbn. intros sw s x Hsw Hs Hp Hx. rewrite wanted_ne by auto. eauto.
Qed.

(** ** Registration *)

Lemma upd_app_eq a i f c : apps c !! a = Some i -> upd_app a f c = Some (set_apps (<[a := f i]> (apps c)) c).
Proof. intros Hi. unfold upd_app. by rewrite Hi. Qed.

(** The object of an application once it is registered. *)
Definition reg_final (is_remote : bool) (i : c_app_info) (name : list Z) (flags mask : Z) (dl : list Z) (cb : option ev_callback) : c_app_info :=
  let i := reg_info i is_remote name flags mask cb in
  if has (app_flags i) C_APP_ALL_SW then i else set_dpids (Z.of_nat (length dl)) (list_to_set (map ntohll dl)) i.

Lemma reg_final_wants r i name flags mask dl cb dpid :
  let i' := reg_final r i name flags mask dl cb in
  wants i' dpid = Some (has (app_flags i') C_APP_ALL_SW || bool_decide (dpid ∈ (list_to_set (map ntohll dl) : gset Z))).
Proof.
  cbv zeta. unfold reg_final, wants. destruct (has (app_flags (reg_info i r name flags mask cb)) C_APP_ALL_SW) eqn:E; [by rewrite E|].
  cbn [app_flags set_dpids dpid_hlist]. rewrite E. done.
Qed.

Lemma register_one_app app r i0 name flags mask dl cb c : inv c -> app <> 0 -> app ∉ apps_all c -> apps c !! app = Some i0 ->
  (length name < C_MAX_APP_STRLEN)%nat -> (forall a j, a ∈ apps_all c -> apps c !! a = Some j -> same_name (app_name j) name = false) ->
  app_ok (reg_final r i0 name flags mask dl cb) -> has (app_flags (reg_final r i0 name flags mask dl cb)) C_APP_ALL_SW = true \/ dl <> [] ->
  exists R S, register_locked app r name flags mask dl cb c = Some (0, reg_state app (reg_final r i0 name flags mask dl cb) R S c) /\
    (forall x, S !! x = with_app app (reg_final r i0 name flags mask dl cb) c x <$> sws c !! x) /\
    conserved c (reg_state app (reg_final r i0 name flags mask dl cb) R S c).
Proof.
  intros I Hz Hni Hi0 Hlen Hnm Hok Hdl. pose proof (inv_core c I) as J. set (i := reg_final r i0 name flags mask dl cb) in *.
  assert (is_Some (refs c !! app)) as Hr by (apply elem_of_dom; rewrite (iv_dom c J); apply elem_of_dom; eauto).
  unfold register_locked. rewrite wr_lock_eq by apply J. cbn [mbind option_bind].
  assert (__c_app_get name (set_lock (-1) c) = Some (None, set_lock (-1) c)) as ->.
  { unfold __c_app_get. rewrite app_lookup_locked. pose proof (app_get_none name c J Hnm) as E. unfold __c_app_get, get_of in E |- *.
    destruct (__c_app_lookup name c) as [[a|]|]; cbn in *; try done. unfold c_app_ref in E. by destruct (refs c !! a). }
  cbn [mbind option_bind]. rewrite (upd_app_eq app i0) by done. cbn [mbind option_bind].
  change (apps (set_lock (-1) c)) with (apps c).
  set (i1 := reg_info i0 r name flags mask cb). set (c1 := set_apps (<[app := i1]> (apps c)) (set_lock (-1) c)).
  cbn [apps c1 set_apps]. rewrite lookup_insert_eq. cbn [mbind option_bind].
  unfold reg_final in i. fold i1 in i. destruct (has (app_flags i1) C_APP_ALL_SW) eqn:Eall.
  - unfold __c_switch_traverse_all. change (sw_hash_tbl c1) with (sw_hash_tbl c).
    destruct (register_all app (sw_hash_tbl c) c1) as (R & S & E & HS & Hc); [apply J| |done|].
    { apply Forall_forall. intros x Hx. destruct (iv_live c J x Hx) as [s Hs]. exists s. split; [done|apply (iv_sws c J x s Hs)]. }
    rewrite E. cbn [mbind option_bind]. rewrite wr_unlock_eq by done. cbn [mbind option_bind]. exists R, S. split_and!.
    + do 2 f_equal. unfold reg_state, set_lock, set_apps_all. cbn. f_equal. symmetry. apply J.
    + intros x. rewrite HS. change (sws c1) with (sws c). destruct (sws c !! x) as [s|]; [|done]. cbn. f_equal. unfold with_app.
      rewrite (bool_decide_ext (x ∈ sw_hash_tbl c /\ wants i (DPID s) = Some true) (x ∈ sw_hash_tbl c)); [done|].
      assert (wants i (DPID s) = Some true) as -> by (unfold wants, i; by rewrite Eall). naive_solver.
    + exact Hc.
  - assert (has (app_flags i) C_APP_ALL_SW = false) as Eall' by exact Eall.
    rewrite bool_decide_false by (destruct Hdl; [congruence|done]). rewrite (upd_app_eq app i1) by apply lookup_insert_eq.
    cbn [mbind option_bind]. set (c2 := set_apps _ c1). set (n := Z.of_nat (length dl)).
    destruct (add_dpids_ok (set_lock (-1) c) n app i1 dl) with (h := (∅ : gset Z)) (c := c2) as (c3 & -> & [Hsh HS Hc]).
    { replace (set_lock 0 (set_lock (-1) c)) with c; [done|]. symmetry. by apply set_lock_back, J. }
    { done. }
    { split.
      - unfold c2, c1, set_apps, with_. cbn. by rewrite insert_insert_eq.
      - intros x. change (sws c2) with (sws c). change (sws (set_lock (-1) c)) with (sws c). destruct (sws c !! x); [|done]. cbn.
        rewrite bool_decide_false; [done|]. intros [_ []%elem_of_empty].
      - exact (conserved_refl c). }
    cbn [mbind option_bind]. rewrite wr_unlock_eq by (by rewrite Hsh). cbn [mbind option_bind]. exists (refs c3), (sws c3). split_and!.
    + do 2 f_equal. clear HS Hc. rewrite (union_empty_r_L (list_to_set (map ntohll dl))) in Hsh.
      destruct c3 as [a1 a2 a3 a4 a5 a6 a7 a8]. unfold set_apps, with_, set_lock in Hsh. cbn in Hsh. injection Hsh as -> -> -> -> -> ->.
      unfold reg_state, set_lock, set_apps_all. cbn. f_equal. symmetry. apply J.
    + intros x. rewrite HS. change (sws (set_lock (-1) c)) with (sws c). destruct (sws c !! x) as [s|]; [|done]. cbn. f_equal. unfold with_app.
      rewrite (union_empty_r_L (list_to_set (map ntohll dl))).
      rewrite (bool_decide_ext (x ∈ sw_hash_tbl c /\ wants i (DPID s) = Some true) (x ∈ sw_hash_tbl c /\ DPID s ∈ (list_to_set (map ntohll dl) : gset Z))); [done|].
      assert (wants i (DPID s) = Some (bool_decide (DPID s ∈ (list_to_set (map ntohll dl) : gset Z)))) as ->
        by (unfold wants; rewrite Eall'; done).
      split; intros [? Hw]; (split; [done|]); [by apply Some_inj, bool_decide_eq_true in Hw|by rewrite bool_decide_true].
    + exact Hc.
Qed.

End THM.
