(* ===== verification/RegStep.v ===== *)
(** * Registration and events: the remaining operations *)
From stdpp Require Import base list gmap.
From Stdlib Require Import ZArith Lia.
From S2P Require Import Prelude Bytes AppEv Reg RegSpec RegOps RegLife RegReg RegNew RegThm.
Import Bytes AppEv Reg.
#[local] Open Scope Z_scope.

Section STEP.
Context {T : Type} `{SwTables T}.
Implicit Types c : ctrl_hdl T.
Implicit Types s : c_switch T.

(** ** Changes of one object *)

(** Fields of an object that the invariant does not read. *)
Definition same_sub (i i' : c_app_info) : Prop :=
  ev_mask i' = ev_mask i /\ app_flags i' = app_flags i /\ dpid_hlist i' = dpid_hlist i /\ ev_cb i' = ev_cb i /\ app_name i' = app_name i.

Lemma same_sub_ok i i' : same_sub i i' -> app_ok i -> app_ok i'.
Proof.
  intros (E1 & E2 & E3 & E4 & E5) [A1 A2 A3]. split; unfold remote, silent, subscribed in *; rewrite ?E1, ?E2, ?E3, ?E4; auto.
Qed.

Lemma same_sub_wanted A a i i' dpid x : A !! a = Some i -> same_sub i i' -> wanted (<[a := i']> A) dpid x = wanted A dpid x.
Proof.
  intros Ha (E1 & E2 & E3 & _). destruct (decide (x = a)) as [->|Hne]; [|by apply wanted_ne].
  unfold wanted, wants. rewrite lookup_insert_eq, Ha, E2, E3. done.
Qed.

Lemma inv_app_same a i i' c : inv c -> apps c !! a = Some i -> same_sub i i' -> inv (set_apps (<[a := i']> (apps c)) c).
Proof.
  intros [[J1 J2 J3 J4 J5 J6 J7 J8 J9 J10] J11 J12] Ha Hs. split; [split|..]; cbn [lock refs apps apps_all sw_hash_tbl sws set_apps]; try done.
  - rewrite dom_insert_lookup_L by eauto. done.
  - intros x Hx. destruct (J5 x Hx) as (Hz & j & Hj & Hok). split; [done|]. destruct (decide (x = a)) as [->|Hne].
    + exists i'. rewrite lookup_insert_eq. split; [done|]. simplify_eq. by eapply same_sub_ok.
    + exists j. by rewrite lookup_insert_ne.
  - intros x y i1 i2 Hx Hy H1 H2. destruct Hs as (_ & _ & _ & _ & E5).
    assert (forall z k, <[a := i']> (apps c) !! z = Some k -> exists j, apps c !! z = Some j /\ app_name k = app_name j) as Hnm.
    { intros z k [[-> ->]|[_ Hz]]%lookup_insert_Some; eauto. }
    destruct (Hnm x i1 H1) as (j1 & G1 & ->), (Hnm y i2 H2) as (j2 & G2 & ->).
    by apply (J6 x y).
  - intros sw s Hsw. destruct (J10 sw s Hsw) as [K1 K2 K3 K4 K5 K7 K6]. split; try done. intros x Hx. cbn.
    rewrite (same_sub_wanted _ _ i) by done. auto.
  - intros sw s x Hsw Hss Hp Hx. rewrite (same_sub_wanted _ _ i) by done. by eapply J12.
Qed.

Lemma inv_refs_up a r c : inv c -> refs c !! a = Some r -> inv (set_refs (<[a := r + 1]> (refs c)) c).
Proof.
  intros [[J1 J2 J3 J4 J5 J6 J7 J8 J9 J10] J11 J12] Hr. assert (dom (<[a := r + 1]> (refs c)) = dom (refs c)) as HD by (apply dom_insert_lookup_L; eauto).
  split; [split|..]; cbn [lock refs apps apps_all sw_hash_tbl sws set_refs]; try done.
  - by rewrite HD.
  - by apply enough_ref.
  - intros sw s Hs. destruct (J10 sw s Hs) as [K1 K2 K3 K4 K5 K7 K6]. split; try done. cbn. by rewrite HD.
Qed.

(** A name that is taken: the request fails, and the application that has it gets a reference that nobody drops. *)
Lemma register_taken app r name flags mask dl cb old j n c : inv c -> __c_app_lookup name c = Some (Some old) -> apps c !! old = Some j ->
  refs c !! old = Some n -> register_locked app r name flags mask dl cb c = Some (-1, set_refs (<[old := n + 1]> (refs c)) c).
Proof.
  intros I Hl Hj Hn. unfold register_locked. rewrite wr_lock_eq by apply I. cbn [mbind option_bind]. unfold __c_app_get. rewrite app_lookup_locked, Hl.
  cbn [get_of mbind option_bind]. rewrite (c_app_ref_eq old n) by done. cbn [mbind option_bind]. rewrite wr_unlock_eq by done.
  cbn [mbind option_bind]. do 2 f_equal. unfold set_lock, set_refs. cbn. f_equal. symmetry. apply I.
Qed.

(** ** The fast path *)

Lemma fp_own_zero x : fp_own x 0 = 0.
Proof. unfold fp_own. by rewrite andb_comm. Qed.

Lemma fpops_locked app sw s i r ty c : sws c !! sw = Some s -> sw_lock s = -1 -> app <> 0 -> apps c !! app = Some i -> refs c !! app = Some r ->
  weight app s <= r -> t_ok (dom (refs c)) (tabs s) -> (fp_type s <> C_FP_TYPE_L2 -> fp_owner s = 0) ->
  exists i' s' R, __c_sw_fpops_set app sw ty c = Some (set_apps (<[app := i']> (apps c)) (at_sw sw s' R (out c) c)) /\ same_sub i i' /\
    shifted (fun x => weight x s' - weight x s) (refs c) R /\ (forall x, x <> app -> weight x s' = weight x s) /\
    t_ok (dom (refs c)) (tabs s') /\ (fp_type s' <> C_FP_TYPE_L2 -> fp_owner s' = 0) /\ app_list s' = app_list s /\ app_eventq s' = app_eventq s /\
    DPID s' = DPID s /\ sw_ref s' = sw_ref s /\ sw_lock s' = sw_lock s /\ switch_state s' = switch_state s.
Proof.
  intros Hs Hl Hz Hi Hr Hw Ht Hfp.
  assert (at_sw sw s (refs c) (out c) c = c) as Hid by (unfold at_sw; rewrite insert_id by done; apply with_same).
  assert (set_apps (<[app := i]> (apps c)) c = c) as Hia by (rewrite insert_id by done; by destruct c).
  assert (shifted (fun x => weight x s - weight x s) (refs c) (refs c)) as Hsame.
  { intros x. destruct (refs c !! x); cbn; [|done]. f_equal. lia. }
  destruct (decide (ty = C_FP_TYPE_DFL)) as [->|Hnd].
  - assert (0 < r \/ fp_owner s <> app) as [Hpos|Hno].
    { destruct (decide (fp_owner s = app)) as [Ho|]; [|by right]. left. unfold weight in Hw. rewrite Ho in Hw. unfold fp_own in Hw.
      rewrite Z.eqb_refl, (proj2 (Z.eqb_neq app 0)) in Hw by done. cbn in Hw. pose proof (cnt_nonneg app (app_list s)).
      pose proof (cnt_nonneg app (map fst (app_eventq s))). pose proof (t_owned_nonneg app (tabs s)). lia. }
    + destruct (fp_clear app sw s r (dom (refs c)) c Hs Hr Hpos Ht) as (s' & R & E & Hf). exists i, s', R. rewrite E.
      split; [do 2 f_equal; change (apps c) with (apps (at_sw sw s' R (out c) c)) at 1; rewrite insert_id by done; by destruct c|]. split; [done|].
      destruct Hf as [[-> ->]|(t & r' & F1 & F2 & F3 & F4 & F5 & F6 & F7)]; [by split_and!|]. subst s' R. cbn. split_and!; try done.
      * eapply shifted_ext; [|exact (shifted_one app (-1) (refs c) r' F2)]. intros x. unfold weight. cbn. rewrite fp_own_zero, F6.
        unfold fp_own. rewrite F1, (proj2 (Z.eqb_neq app 0)) by done. cbn. rewrite andb_true_r. destruct (Z.eqb_spec app x).
        -- rewrite bool_decide_true by done. lia.
        -- rewrite bool_decide_false by done. lia.
      * intros x Hx. unfold weight. cbn. rewrite fp_own_zero, F6. unfold fp_own. rewrite F1, (proj2 (Z.eqb_neq app x)) by done. done.
    + exists i, s, (refs c). rewrite Hid, Hia. split; [|by split_and!]. unfold __c_sw_fpops_set. rewrite Hs. cbn [mbind option_bind].
      destruct (_ =? _); [done|]. cbn [Z.eqb C_FP_TYPE_DFL]. by rewrite (proj2 (Z.eqb_neq _ _)).
  - destruct (decide (fp_type s = ty)) as [He|He].
    { exists i, s, (refs c). rewrite Hid, Hia. split; [|by split_and!]. unfold __c_sw_fpops_set. rewrite Hs. cbn [mbind option_bind]. by rewrite He, Z.eqb_refl. }
    destruct (decide (ty = C_FP_TYPE_L2)) as [->|Hn2].
    2:{ exists i, s, (refs c). rewrite Hid, Hia. split; [|by split_and!]. unfold __c_sw_fpops_set. rewrite Hs. cbn [mbind option_bind].
        by rewrite !(proj2 (Z.eqb_neq _ _)) by done. }
    unfold __c_sw_fpops_set. rewrite Hs. cbn [mbind option_bind]. rewrite (proj2 (Z.eqb_neq _ _)) by done. cbn [Z.eqb C_FP_TYPE_L2 C_FP_TYPE_DFL].
    assert (exists t, (if fp_db_dtor (fp_ops s) then c_l2fdb_destroy (tabs s) else Some (tabs s)) = Some t /\ t_ok (dom (refs c)) t /\
      (forall x, t_owned x t = t_owned x (tabs s))) as (t & -> & Ht1 & Ho1).
    { destruct (fp_db_dtor _); [|by exists (tabs s)]. destruct (t_destroy (dom (refs c)) (tabs s) Ht) as (t & ? & ? & ? & _). by exists t. }
    cbn [mbind option_bind]. destruct (t_init (dom (refs c)) t Ht1) as (t' & -> & Ht2 & Ho2 & _). cbn [mbind option_bind]. rewrite Hi. cbn [mbind option_bind].
    rewrite (c_app_ref_eq app r) by done. cbn [mbind option_bind]. rewrite (upd_sw_eq sw s) by done. cbn [sws set_refs set_apps].
    eexists _, (set_fp l2_ops C_FP_TYPE_L2 app t' s), (<[app := r + 1]> (refs c)). split; [reflexivity|]. split; [done|]. cbn. split_and!; try done.
    + eapply shifted_ext; [|exact (shifted_one app 1 (refs c) r Hr)]. intros x. unfold weight. cbn. rewrite (Hfp He), fp_own_zero, Ho2, Ho1.
      unfold fp_own. rewrite (proj2 (Z.eqb_neq app 0)) by done. cbn. rewrite andb_true_r.
      destruct (Z.eqb_spec app x); [rewrite bool_decide_true by done|rewrite bool_decide_false by done]; lia.
    + intros x Hx. unfold weight. cbn. rewrite (Hfp He), fp_own_zero, Ho2, Ho1. unfold fp_own. rewrite (proj2 (Z.eqb_neq app x)) by done. done.
Qed.

(** A switch by its identifier, with a reference. *)
Lemma switch_get_eq d c : core (set_lock 0 c) ->
  (__c_switch_get d c = Some (None, c) /\ forall x s, x ∈ sw_hash_tbl c -> sws c !! x = Some s -> DPID s <> d) \/
  (exists x s, x ∈ sw_hash_tbl c /\ sws c !! x = Some s /\ DPID s = d /\
     __c_switch_get d c = Some (Some x, at_sw x (set_sw_ref (sw_ref s + 1) s) (refs c) (out c) c)).
Proof.
  intros J. unfold __c_switch_get.
  destruct (lookup_dpid_spec d (sw_hash_tbl c) c) as [[-> Hn]|(x & s & -> & Hx & Hs & Hd)].
  - apply Forall_forall. intros x Hx. exact (iv_live _ J x Hx).
  - by left.
  - right. exists x, s. split_and!; try done. cbn [mbind option_bind]. by rewrite (upd_sw_eq x s).
Qed.

Lemma switch_put_eq x s n R O c : 0 <= n -> sw_ref s = n -> c_switch_put x (at_sw x (set_sw_ref (n + 1) s) R O c) = Some (at_sw x s R O c).
Proof.
  intros Hn Hr. unfold c_switch_put. rewrite lookup_at_sw. cbn [mbind option_bind sw_ref set_sw_ref]. rewrite (proj2 (Z.eqb_neq _ _)) by lia.
  rewrite (upd_sw_eq x (set_sw_ref (n + 1) s)) by apply lookup_at_sw. cbn [sw_ref set_sw_ref].
  replace (n + 1 - 1) with n by lia. f_equal. unfold at_sw, with_, set_sws. cbn. rewrite insert_insert_eq. do 2 f_equal. destruct s. cbn in *. by subst.
Qed.

Lemma rd_lock_eq c : lock c = 0 -> on_lock rd_lock c = Some (set_lock 1 c).
Proof. intros Hl. unfold on_lock. by rewrite Hl. Qed.

Lemma rd_unlock_eq c : lock c = 1 -> on_lock rd_unlock c = Some (set_lock 0 c).
Proof. intros Hl. unfold on_lock. by rewrite Hl. Qed.

Lemma set_lock_lock n c : lock c = 0 -> set_lock 0 (set_lock n c) = c.
Proof. intros Hl. destruct c. cbn in *. by subst. Qed.

Lemma set_fpops_ok app dpid ty c : inv c -> app ∈ apps_all c -> exists r c', c_app_set_fpops_command app dpid ty c = Some (r, c') /\ inv c'.
Proof.
  intros I Ha. pose proof (inv_core c I) as J. destruct (inv_live c app J Ha) as (i & r & Hi & Hok & Hr & Hnn). destruct (iv_apps c J app Ha) as (Hz & _).
  unfold c_app_set_fpops_command. rewrite Hi. cbn [mbind option_bind]. rewrite (ao_aux _ Hok), rd_lock_eq by apply J. cbn [mbind option_bind].
  destruct (switch_get_eq dpid (set_lock 1 c)) as [[-> _]|(x & s & Hx & Hs & Hd & ->)]; [by rewrite set_lock_lock by apply J|..]; cbn [mbind option_bind].
  { rewrite rd_unlock_eq by done. cbn [mbind option_bind]. rewrite set_lock_lock by apply J. eauto. }
  rewrite rd_unlock_eq by done. cbn [mbind option_bind]. cbn [sws set_lock sw_hash_tbl] in Hs, Hx. pose proof (iv_sws c J x s Hs) as SI.
  set (s1 := set_sw_ref (sw_ref s + 1) s).
  assert (set_lock 0 (at_sw x s1 (refs (set_lock 1 c)) (out (set_lock 1 c)) (set_lock 1 c)) = at_sw x s1 (refs c) (out c) c) as ->.
  { unfold at_sw, with_, set_lock. cbn. f_equal. symmetry. apply J. }
  rewrite (on_sw_lock_eq wr_lock (-1) x s1) by (apply lookup_at_sw || by (cbn; rewrite (si_lock c s SI))). cbn [mbind option_bind]. rewrite at_sw_at_sw.
  change (refs (at_sw x s1 (refs c) (out c) c)) with (refs c). change (out (at_sw x s1 (refs c) (out c) c)) with (out c).
  set (c1 := at_sw x (set_sw_lock (-1) s1) (refs c) (out c) c).
  destruct (fpops_locked app x (set_sw_lock (-1) s1) i r ty c1) as (i' & s' & R & -> & Hss & Hsh & Hoth & Htk & Hfp & Hal & Hq & Hdp & Hrf & Hlk & Hst); try done.
  { apply lookup_insert_eq. }
  { pose proof (iv_enough c J app) as He. rewrite Hr in He. pose proof (held_sw app c x s Hs). change (weight app (set_sw_lock (-1) s1)) with (weight app s). lia. }
  { apply SI. }
  { apply SI. }
  cbn [mbind option_bind]. change (apps c1) with (apps c). set (c2 := set_apps _ _).
  rewrite (on_sw_lock_eq wr_unlock 0 x s') by (by (cbn; apply lookup_insert_eq) || by rewrite Hlk). cbn [mbind option_bind].
  set (s2 := set_sw_ref (sw_ref s) (set_sw_lock 0 s')).
  assert (at_sw x (set_sw_lock 0 s') (refs c2) (out c2) c2 = at_sw x (set_sw_ref (sw_ref s + 1) s2) R (out c) (set_apps (<[app := i']> (apps c)) c)) as ->.
  { unfold c2, c1, at_sw, with_, set_apps. cbn. rewrite !insert_insert_eq. do 2 f_equal. unfold s2. destruct s'. cbn in *. by subst. }
  rewrite switch_put_eq by (done || apply SI). cbn [mbind option_bind]. eexists _, _. split; [reflexivity|].
  apply (inv_at_sw x s).
  - by eapply inv_app_same.
  - done.
  - exact Hsh.
  - intros y Hy. change (weight y s' = weight y s). apply Hoth. intros ->. cbn in Hy. congruence.
  - exact Hdp.
  - destruct SI as [K1 K2 K3 K4 K5 K7 K6]. split; cbn; try done.
    + rewrite Hq. done.
    + by rewrite Hal.
    + intros a. rewrite Hal, Hdp. cbn. intros Hin. rewrite (same_sub_wanted _ _ i) by done. auto.
  - intros Hn. done.
  - cbn. rewrite Hst, Hdp, Hal. cbn. intros Hp a Hin Hw _. rewrite (same_sub_wanted _ _ i) in Hw by done. by eapply (iv_pub c I x s).
Qed.

(** ** A switch is created and added *)

Lemma new_switch_inv sw s c : inv c -> sws c !! sw = None -> sw ∉ sw_hash_tbl c -> sw_inv c s -> (forall x, weight x s = 0) -> app_list s = [] ->
  inv (set_sws (<[sw := s]> (sws c)) c).
Proof.
  intros [[J1 J2 J3 J4 J5 J6 J7 J8 J9 J10] J11 J12] Hn Hh Hs Hw Hl.
  assert (forall x, x ∈ sw_hash_tbl c -> x <> sw) as Hne by (intros x Hx ->; done).
  split; [split|..]; cbn [lock refs apps apps_all sw_hash_tbl sws set_sws]; try done.
  - intros x. specialize (J3 x). cbn [refs set_sws]. replace (held x (set_sws (<[sw := s]> (sws c)) c)) with (held x c); [done|].
    unfold held. cbn. rewrite msum_fresh, Hw by done. lia.
  - intros x Hx. rewrite lookup_insert_ne by (symmetry; auto). auto.
  - intros x y s1 s2 Hx Hy. rewrite !lookup_insert_ne by (symmetry; auto). eauto.
  - intros x s1 [[<- <-]|[? H1]]%lookup_insert_Some; [|specialize (J10 x s1 H1)]; [destruct Hs|destruct J10]; by split.
  - intros x s1 Hx [[<- <-]|[? H1]]%lookup_insert_Some; [done|by eapply J11].
  - intros x s1 a Hx. rewrite lookup_insert_ne by (symmetry; auto). eauto.
Qed.

Lemma switch_add_ok sw s alias c : inv c -> sws c !! sw = Some s -> sw ∉ sw_hash_tbl c -> has (switch_state s) SW_PUBLISHED = false ->
  exists c', c_switch_add sw alias c = Some c' /\ inv c'.
Proof.
  intros I Hs Hni Hp. pose proof (inv_core c I) as J. unfold c_switch_add. rewrite Hs. cbn [mbind option_bind]. rewrite wr_lock_eq by apply J.
  cbn [mbind option_bind].
  destruct (switch_get_eq (DPID s) (set_lock (-1) c)) as [[-> Hn]|(x & sx & Hx & Hsx & Hd & ->)]; [by rewrite set_lock_back by apply J|..]; cbn [mbind option_bind].
  2:{ cbn [sws set_lock sw_hash_tbl] in Hsx, Hx. rewrite switch_put_eq by (done || apply (iv_sws c J x sx Hsx)). cbn [mbind option_bind].
      rewrite wr_unlock_eq by done. exists c. split; [|done]. f_equal. unfold set_lock, at_sw, with_. cbn. rewrite insert_id by done.
      destruct c. cbn in *. f_equal. symmetry. apply J. }
  cbn [sws set_lock sw_hash_tbl] in Hn. rewrite (upd_sw_eq sw s) by done. cbn [mbind option_bind]. rewrite wr_unlock_eq by done.
  eexists. split; [reflexivity|]. destruct I as [[J1 J2 J3 J4 J5 J6 J7 J8 J9 J10] J11 J12].
  assert (forall x s1, <[sw := set_alias alias s]> (sws c) !! x = Some s1 -> exists s0, sws c !! x = Some s0 /\ DPID s1 = DPID s0 /\ switch_state s1 = switch_state s0 /\
    app_list s1 = app_list s0 /\ (sw_inv c s0 -> sw_inv c s1)) as HS.
  { intros x s1 [[<- <-]|[_ H1]]%lookup_insert_Some; [exists s|exists s1]; split_and!; try done. intros [K1 K2 K3 K4 K5 K7 K6]. by split. }
  split; [split|..]; cbn [lock refs apps apps_all sw_hash_tbl sws set_sws set_hash set_lock]; try done.
  - intros x. specialize (J3 x). cbn [refs set_sws set_hash set_lock].
    match goal with |- context [held x ?d] => replace (held x d) with (held x c); [done|] end.
    unfold held. cbn. rewrite (msum_insert _ _ _ s) by done. unfold weight. cbn. lia.
  - apply NoDup_app. split_and!; [done| |apply NoDup_singleton]. intros x Hx [->|[]%elem_of_nil]%elem_of_cons. done.
  - intros x [Hx|[->|[]%elem_of_nil]%elem_of_cons]%elem_of_app; rewrite lookup_insert_is_Some'; [auto|by left].
  - assert (forall x s1, x ∈ sw_hash_tbl c -> sws c !! x = Some s1 -> DPID s1 <> DPID s) as Hn' by exact Hn.
    intros x y s1 s2 Hx Hy (s3 & H3 & D3 & _)%HS (s4 & H4 & D4 & _)%HS Hd. rewrite D3, D4 in Hd.
    apply elem_of_app in Hx as [Hx|[->|[]%elem_of_nil]%elem_of_cons], Hy as [Hy|[->|[]%elem_of_nil]%elem_of_cons].
    + by eapply J9.
    + simplify_eq. by destruct (Hn' x s3 Hx H3).
    + simplify_eq. by destruct (Hn' y s4 Hy H4).
    + done.
  - intros x s1 (s0 & H0' & _ & _ & _ & Hk)%HS. destruct (Hk (J10 x s0 H0')). by split.
  - intros x s1 [Hx _]%not_elem_of_app (s0 & H0' & _ & _ & -> & _)%HS. by eapply J11.
  - intros x s1 a Hx (s0 & H0' & E1 & E2 & E3 & _)%HS Hp1 Hin Hw. rewrite E1 in Hw. rewrite E2 in Hp1. rewrite E3.
    apply elem_of_app in Hx as [Hx|[->|[]%elem_of_nil]%elem_of_cons]; [by eapply J12|]. simplify_eq. congruence.
Qed.

End STEP.
