(* ===== verification/RegReplay.v ===== *)
(** * Registration and events: controller events, replay, the end of a connection *)
From stdpp Require Import base list gmap.
From Stdlib Require Import ZArith Lia.
From S2P Require Import Prelude Bytes AppEv Reg RegSpec RegOps RegLife RegReg RegNew RegThm RegStep.
Import Bytes AppEv Reg.
#[local] Open Scope Z_scope.

Section REPLAY.
Context {T : Type} `{SwTables T}.
Implicit Types c : ctrl_hdl T.
Implicit Types s : c_switch T.

(** ** Events of the controller itself *)

Definition ctl_event (e : c_app_event) : bool := match e with C_HA_STATE | C_TR_STATUS => true | _ => false end.
Definition ctl_msg (b : list Z) : app_msg := mk_msg 0 0 0 None (Copy b).

Lemma ctl_loop e b l : ctl_event e = true -> forall c, Forall (fun a => is_Some (apps c !! a)) l ->
  traverse (one_event None (Some b) e NoPriv) l c = Some (with_ (refs c) (sws c) (out c ++ sent_now e (apps c) (ctl_msg b) l) c).
Proof.
  intros He. induction l as [|a l IH]; intros c Hl; cbn [traverse].
  { unfold sent_now, pick. cbn. by rewrite app_nil_r, with_same. }
  apply Forall_cons in Hl as [[i Hi] Hl].
  assert (one_event None (Some b) e NoPriv a c = Some (if subscribed e i && remote i && negb (silent i) then add_out (a, ctl_msg b) c else c)) as ->.
  { unfold one_event. rewrite Hi. cbn [mbind option_bind]. fold (subscribed e i). destruct (subscribed e i); [|done]. cbn [sw_view mbind option_bind andb].
    replace (app_handler e None (Some b) NoPriv) with (Some (Some (ctl_msg b))) by (by destruct e). cbn [mbind option_bind].
    replace (finish_sw e None) with (@None Z) by (by destruct e). unfold c_app_event_finish. rewrite Hi. cbn [mbind option_bind]. fold (remote i).
    destruct (remote i); [|done]. rewrite call_cb_eq. by destruct (silent i). }
  cbn [mbind option_bind]. unfold sent_now, pick in *. cbn [flat_map]. rewrite Hi. destruct (_ && _); cbn [Datatypes.app].
  - rewrite IH by done. unfold with_. cbn. by rewrite <- app_assoc.
  - by apply IH.
Qed.

Lemma ctl_event_eq e b app c : inv c -> ctl_event e = true -> (forall a, app = Some a -> a ∈ apps_all c) ->
  c_signal_app_event None (Some b) e app NoPriv false c =
    Some (with_ (refs c) (sws c) (out c ++ sent_now e (apps c) (ctl_msg b) (match app with Some a => [a] | None => apps_all c end)) c).
Proof.
  intros I He Ha. pose proof (inv_core c I) as J. unfold c_signal_app_event.
  replace (match e with C_DP_UNREG | C_PORT_CHANGE => c_topo_loop_change_notify C_LOOP_STATE_NONE c | _ => Some c end) with (Some c) by (by destruct e).
  cbn [mbind option_bind]. unfold c_sw_hier_rdlock. rewrite rd_lock_eq by apply J. cbn [mbind option_bind].
  replace (pre_proc e None (set_lock 1 c)) with (Some (set_lock 1 c)) by (by destruct e). cbn [mbind option_bind].
  assert (c_process_app_event_loop None (Some b) e app NoPriv (set_lock 1 c) =
    traverse (one_event None (Some b) e NoPriv) (match app with Some a => [a] | None => apps_all c end) (set_lock 1 c)) as ->.
  { unfold c_process_app_event_loop. destruct app; [|done]. cbn [traverse]. by destruct (one_event _ _ _ _ _ _). }
  rewrite ctl_loop; [|done|].
  - cbn [mbind option_bind]. set (c1 := with_ _ _ _ _). replace (post_proc e None c1) with (Some c1) by (by destruct e).
    cbn [mbind option_bind]. unfold c_sw_hier_unlock. cbn [mbind option_bind]. rewrite rd_unlock_eq by done. cbn [mbind option_bind c_switch_app_eventq_send].
    f_equal. unfold c1, set_lock, with_. cbn. f_equal. symmetry. apply J.
  - pose proof (core_apps_live c J) as Hl. destruct app as [a|]; [|exact Hl]. constructor; [|done]. rewrite Forall_forall in Hl. by apply (Hl a), Ha.
Qed.

(** ** Replay *)

Definition ref_up (s : c_switch T) : c_switch T := set_sw_ref (sw_ref s + 1) s.
Fixpoint bump (q : list Z) (S : gmap Z (c_switch T)) : gmap Z (c_switch T) := match q with [] => S | x :: q => bump q (alter ref_up x S) end.

Lemma bump_lookup q : forall S y, NoDup q -> bump q S !! y = (fun s => if bool_decide (y ∈ q) then ref_up s else s) <$> S !! y.
Proof.
  induction q as [|x q IH]; intros S y Hnd; cbn [bump].
  { destruct (S !! y); [|done]. cbn. done. }
  apply NoDup_cons in Hnd as [Hx Hnd]. rewrite IH by done. destruct (decide (y = x)) as [->|Hne].
  - rewrite lookup_alter_eq. destruct (S !! x); [|done]. cbn. rewrite bool_decide_false by done. by rewrite bool_decide_true by left.
  - rewrite lookup_alter_ne by done. destruct (S !! y); [|done]. cbn.
    by rewrite (bool_decide_ext (y ∈ x :: q) (y ∈ q)) by (rewrite elem_of_cons; tauto).
Qed.

(** The switches to replay. *)
Definition published (c : ctrl_hdl T) (x : Z) : Prop := exists s, sws c !! x = Some s /\ has (switch_state s) SW_PUBLISHED = true.
#[export] Instance published_dec c x : Decision (published c x).
Proof.
  unfold published. destruct (sws c !! x) as [s|]; [|right; by intros (? & ? & _)].
  destruct (has (switch_state s) SW_PUBLISHED) eqn:E; [left; eauto|right]. intros (s' & [= <-] & Hp). congruence.
Defined.

Lemma replay_q_eq l : forall c, NoDup l -> Forall (fun x => is_Some (sws c !! x)) l ->
  replay_q l c = Some (base.filter (published c) l, set_sws (bump (base.filter (published c) l) (sws c)) c).
Proof.
  induction l as [|x l IH]; intros c Hnd Hl; cbn [replay_q]; [cbn; by rewrite set_sws_same|].
  apply NoDup_cons in Hnd as [Hx Hnd]. apply Forall_cons in Hl as [[s Hs] Hl]. rewrite Hs. cbn [mbind option_bind]. rewrite filter_cons.
  destruct (has (switch_state s) SW_PUBLISHED) eqn:Ep.
  - rewrite decide_True by (by exists s). rewrite (upd_sw_eq x s) by done. cbn [mbind option_bind]. fold (ref_up s).
    assert (<[x := ref_up s]> (sws c) = alter ref_up x (sws c)) as ->.
    { apply map_eq. intros y. destruct (decide (y = x)) as [->|Hne]; [by rewrite lookup_insert_eq, lookup_alter_eq, Hs|].
      by rewrite lookup_insert_ne, lookup_alter_ne. }
    rewrite IH; [|done|].
    + cbn [mbind option_bind sws set_sws]. rewrite (filter_ext_elem (published (set_sws (alter ref_up x (sws c)) c)) (published c)); [done|].
      intros y Hy. unfold published. cbn. by rewrite lookup_alter_ne by (by intros ->).
    + apply Forall_forall. intros y Hy. cbn. rewrite Forall_forall in Hl. rewrite lookup_alter_ne by (by intros ->). auto.
  - rewrite decide_False; [by apply IH|]. intros (s' & Hs' & Hp'). simplify_eq. congruence.
Qed.

Lemma inv_ref_up x c : inv c -> inv (set_sws (alter ref_up x (sws c)) c).
Proof.
  intros I. destruct (sws c !! x) as [s|] eqn:Hs.
  - assert (set_sws (alter ref_up x (sws c)) c = at_sw x (ref_up s) (refs c) (out c) c) as ->.
    { unfold at_sw, with_, set_sws. f_equal. apply map_eq. intros y. destruct (decide (y = x)) as [->|Hne].
      - by rewrite lookup_insert_eq, lookup_alter_eq, Hs.
      - by rewrite lookup_insert_ne, lookup_alter_ne. }
    destruct (iv_sws c (inv_core c I) x s Hs) as [K1 K2 K3 K4 K5 K7 K6]. apply (inv_at_sw x s); try done.
    + intros y. change (weight y (ref_up s)) with (weight y s). destruct (refs c !! y); cbn; [|done]. f_equal. lia.
    + split; try done. cbn. lia.
    + intros Hx. cbn. by apply (iv_out c I x).
    + intros Hp a Ha Hw Hx. cbn in *. by eapply (iv_pub c I x s).
  - assert (alter ref_up x (sws c) = sws c) as -> by (apply map_eq; intros y; destruct (decide (y = x)) as [->|Hne];
      [by rewrite lookup_alter_eq, Hs|by rewrite lookup_alter_ne]). by rewrite set_sws_same.
Qed.

Lemma inv_bump q : forall c, inv c -> inv (set_sws (bump q (sws c)) c).
Proof.
  induction q as [|x q IH]; intros c I; cbn [bump]; [by rewrite set_sws_same|]. exact (IH _ (inv_ref_up x c I)).
Qed.

Lemma inv_set_out O c : inv c -> inv (with_ (refs c) (sws c) O c).
Proof. intros I. pose proof (inv_with_out O (loop_status c) c I) as E. by destruct c. Qed.

(** What an application is told about one switch. *)
Definition announce (app : Z) (c : ctrl_hdl T) (x : Z) : list (Z * app_msg) :=
  match sws c !! x with
  | Some s =>
      if wanted (apps c) (DPID s) app then
        match c_app_dpreg_event (DPID s) (switch_state s) (info s) None with
        | Some mo => now_of C_DP_REG (apps c) mo [app] ++ queue_of C_DP_REG (apps c) mo [app]
        | None => []
        end
      else []
  | None => []
  end.

Lemma missing_none c x s : inv c -> x ∈ sw_hash_tbl c -> sws c !! x = Some s -> has (switch_state s) SW_PUBLISHED = true ->
  missing (apps c) (DPID s) (app_list s) (apps_all c) = [].
Proof.
  intros I Hx Hs Hp. destruct (missing _ _ _ _) as [|a l] eqn:E; [done|]. assert (a ∈ a :: l) as Ha by left. rewrite <- E in Ha.
  apply missing_elem in Ha as (Ha & Hw & Hn). destruct Hn. by eapply (iv_pub c I x s).
Qed.

Lemma dpreg_defined dpid st i : exists mo, c_app_dpreg_event dpid st i None = Some mo.
Proof. unfold c_app_dpreg_event. destruct (ver_known _); [|eauto]. cbn. eauto. Qed.

Lemma replay_one_eq app x s O S c : inv (with_ (refs c) S O c) -> app ∈ apps_all c -> x ∈ sw_hash_tbl c -> S !! x = Some (ref_up s) -> 0 <= sw_ref s ->
  has (switch_state s) SW_PUBLISHED = true -> sws c !! x = Some s ->
  replay_one app x (with_ (refs c) S O c) = Some (with_ (refs c) (<[x := s]> S) (O ++ announce app c x) c).
Proof.
  intros I Ha Hx HS Href Hp Hsc. set (c1 := with_ (refs c) S O c) in *. pose proof (inv_core c1 I) as J.
  destruct (inv_live c1 app J Ha) as (i & r & Hi & Hok & _). unfold replay_one. rewrite Hi. cbn [mbind option_bind sws c1 with_].
  rewrite HS. cbn [mbind option_bind]. change (DPID (ref_up s)) with (DPID s). rewrite (wanted_eq _ _ _ _ Hi Hok). cbn [mbind option_bind].
  change (apps c1) with (apps c). unfold announce. rewrite Hsc. destruct (wanted (apps c) (DPID s) app) eqn:Ew.
  2:{ rewrite app_nil_r. pose proof (switch_put_eq x s (sw_ref s) (refs c) O c1 Href eq_refl) as E. unfold at_sw in E. cbn in E.
      change (<[x := set_sw_ref (sw_ref s + 1) s]> S) with (<[x := ref_up s]> S) in E. rewrite insert_id in E by done. exact E. }
  destruct (dpreg_defined (DPID s) (switch_state s) (info s)) as [mo Hmo].
  destruct (dpreg_event_eq x (ref_up s) None (Some app) NoPriv mo c1 J HS Hmo) as (R & -> & Hsh); [by intros a [= <-]|]. cbn [mbind option_bind].
  pose proof (missing_none c1 x (ref_up s) I Hx HS Hp) as Hm. unfold expanded. rewrite Hm in Hsh |- *. rewrite Hmo.
  assert (R = refs c) as ->. { apply shifted_eq. eapply shifted_ext; [|exact Hsh]. done. }
  change (app_list (ref_up s)) with (app_list s). rewrite app_nil_r. change (apps c1) with (apps c). change (out c1) with O. cbn [targets].
  assert (set_app_list (app_list s) (ref_up s) = set_sw_ref (sw_ref s + 1) s) as -> by (by destruct s).
  rewrite switch_put_eq by done. done.
Qed.

Lemma replay_all_eq app q : forall c O, NoDup q -> inv (with_ (refs c) (bump q (sws c)) O c) -> app ∈ apps_all c -> inv c ->
  Forall (fun x => x ∈ sw_hash_tbl c /\ published c x) q ->
  traverse (replay_one app) q (with_ (refs c) (bump q (sws c)) O c) = Some (with_ (refs c) (sws c) (O ++ flat_map (announce app c) q) c).
Proof.
  induction q as [|x q IH]; intros c O Hnd I Ha Ic Hq; cbn [traverse].
  { cbn. by rewrite app_nil_r. }
  pose proof Hnd as Hnd'. apply NoDup_cons in Hnd' as [Hx Hnd']. apply Forall_cons in Hq as [[Hh (s & Hs & Hp)] Hq].
  assert (bump (x :: q) (sws c) !! x = Some (ref_up s)) as Hb by (rewrite bump_lookup, Hs by done; cbn; by rewrite bool_decide_true by left).
  rewrite (replay_one_eq app x s O (bump (x :: q) (sws c)) c) by (done || apply (iv_sws c (inv_core c Ic) x s Hs)). cbn [mbind option_bind].
  assert (<[x := s]> (bump (x :: q) (sws c)) = bump q (sws c)) as ->.
  { apply map_eq. intros y. destruct (decide (y = x)) as [->|Hne].
    - rewrite lookup_insert_eq, bump_lookup, Hs by done. cbn. by rewrite bool_decide_false.
    - rewrite lookup_insert_ne, !bump_lookup by done. by rewrite (bool_decide_ext (y ∈ x :: q) (y ∈ q)) by (rewrite elem_of_cons; tauto). }
  cbn [flat_map]. rewrite app_assoc. apply IH; try done. pose proof (inv_set_out (O ++ announce app c x) _ (inv_bump q c Ic)) as E. exact E.
Qed.

(** All published switches that it wants are announced to an application, once each and in their order; nothing else changes. *)
Lemma replay_eq app c : inv c -> app ∈ apps_all c ->
  c_switch_replay_all app c = Some (with_ (refs c) (sws c) (out c ++ flat_map (announce app c) (base.filter (published c) (sw_hash_tbl c))) c).
Proof.
  intros I Ha. pose proof (inv_core c I) as J. unfold c_switch_replay_all. rewrite rd_lock_eq by apply J. cbn [mbind option_bind].
  rewrite replay_q_eq; [|apply J|apply Forall_forall; intros x Hx; exact (iv_live c J x Hx)]. cbn [mbind option_bind sw_hash_tbl set_lock].
  change (base.filter (published (set_lock 1 c)) (sw_hash_tbl c)) with (base.filter (published c) (sw_hash_tbl c)). set (q := base.filter _ _).
  rewrite rd_unlock_eq by done. cbn [mbind option_bind sws set_lock].
  assert (set_lock 0 (set_sws (bump q (sws c)) (set_lock 1 c)) = with_ (refs c) (bump q (sws c)) (out c) c) as ->.
  { unfold set_lock, set_sws, with_. cbn. f_equal. symmetry. apply J. }
  apply replay_all_eq; try done.
  - apply NoDup_filter, J.
  - exact (inv_bump q c I).
  - apply Forall_forall. intros x [? ?]%list_elem_of_filter. done.
Qed.

(** ** The connection of an application ends *)

Definition freed (app : Z) (c : ctrl_hdl T) : ctrl_hdl T := set_apps (delete app (apps c)) (set_refs (delete app (refs c)) c).

(** An object that is neither registered nor referenced may go. *)
Lemma freed_inv app c : inv c -> app ∉ apps_all c -> held app c = 0 -> inv (freed app c).
Proof.
  intros [[J1 J2 J3 J4 J5 J6 J7 J8 J9 J10] J11 J12] Hni Hh.
  assert (forall x, x ∈ apps_all c -> delete app (apps c) !! x = apps c !! x) as Hx by (intros x Hx; apply lookup_delete_ne; by intros ->).
  assert (forall d x, x ∈ apps_all c -> wanted (delete app (apps c)) d x = wanted (apps c) d x) as Hw by (intros d x Hin; unfold wanted; by rewrite Hx).
  split; [split|..]; cbn [lock refs apps apps_all sw_hash_tbl sws freed set_apps set_refs]; try done.
  - by rewrite !dom_delete_L, J2.
  - intros x. specialize (J3 x). cbn [refs freed set_apps set_refs]. change (held x (freed app c)) with (held x c).
    destruct (decide (x = app)) as [->|Hne]; [by rewrite lookup_delete_eq|by rewrite lookup_delete_ne].
  - intros a Ha. rewrite Hx by done. auto.
  - intros a b i j Ha Hb. rewrite !Hx by done. eauto.
  - intros sw s Hs. destruct (J10 sw s Hs) as [K1 K2 K3 K4 K5 K7 K6]. split; try done.
    + cbn. rewrite dom_delete_L. eapply t_ok_live; [|exact K5]. intros x Hin. destruct (decide (x = app)) as [->|Hne]; [right|left; set_solver].
      pose proof (held_sw app c sw s Hs) as Hle. unfold weight in Hle. pose proof (cnt_nonneg app (app_list s)).
      pose proof (cnt_nonneg app (map fst (app_eventq s))). pose proof (fp_own_range app (fp_owner s)). pose proof (t_owned_nonneg app (tabs s)). lia.
    + intros a Ha. cbn. destruct (K6 a Ha). by rewrite Hw.
  - intros sw s a Hsw Hs Hp Ha. rewrite Hw by done. by apply (J12 sw s a).
Qed.

Lemma inv_refs_down a r c : inv c -> refs c !! a = Some r -> held a c < r -> inv (set_refs (<[a := r - 1]> (refs c)) c).
Proof.
  intros [[J1 J2 J3 J4 J5 J6 J7 J8 J9 J10] J11 J12] Hr Hh. assert (dom (<[a := r - 1]> (refs c)) = dom (refs c)) as HD by (apply dom_insert_lookup_L; eauto).
  split; [split|..]; cbn [lock refs apps apps_all sw_hash_tbl sws set_refs]; try done.
  - by rewrite HD.
  - intros x. specialize (J3 x). cbn [refs set_refs]. change (held x (set_refs _ c)) with (held x c).
    destruct (decide (x = a)) as [->|Hne]; [rewrite lookup_insert_eq; rewrite Hr in J3; lia|by rewrite lookup_insert_ne].
  - intros sw s Hs. destruct (J10 sw s Hs) as [K1 K2 K3 K4 K5 K7 K6]. split; try done. cbn. by rewrite HD.
Qed.

(** The application leaves, and its object goes with the last reference. *)
Lemma app_del_ok app i c : inv c -> app ∈ apps_all c -> apps c !! app = Some i ->
  (forall sw s, sw ∈ sw_hash_tbl c -> sws c !! sw = Some s -> t_purgeable app (tabs s)) ->
  (forall r c1, mul_unregister_app (app_name i) c = Some (r, c1) -> held app c1 = 0) ->
  exists c', c_worker_do_app_del app c = Some c' /\ inv c' /\ apps_all c' = g_slist_remove app (apps_all c).
Proof.
  intros I Ha Hi Hpu Hh. pose proof (inv_core c I) as J. destruct (inv_live c app J Ha) as (i' & r & Hi' & Hok & Hr & _). simplify_eq.
  destruct (unregister_ok app i c I Ha Hi Hpu) as (R & S & E & I1 & _ & _ & Hc). specialize (Hh _ _ E).
  unfold c_worker_do_app_del. rewrite Hi. cbn [mbind option_bind]. rewrite (ao_aux _ Hok), E. cbn [mbind option_bind].
  set (c1 := unreg_state app i R S c) in *.
  assert (app ∉ apps_all c1) as Hni by (cbn; intros [_ []]%g_slist_remove_elem; [done|apply J]).
  assert (is_Some (refs c1 !! app)) as [r1 Hr1] by (eapply shifted_is_Some; [exact Hc|eauto]).
  unfold c_app_put. rewrite Hr1. cbn [mbind option_bind]. eexists. split; [reflexivity|]. pose proof (iv_enough c1 (inv_core c1 I1) app) as He.
  rewrite Hr1 in He. destruct (Z.eqb_spec r1 0) as [->|Hne]; (split; [|done]); [by apply freed_inv|]. apply inv_refs_down; [done..|lia].
Qed.

End REPLAY.
