(* ===== verification/RegFlows.v ===== *)
(** * Registration and events: the references that flow entries hold

    The removal of an application from the flow tables moves references and owners together: every run of it drops as many references to
    the application as it removes owners, and those of other applications stay. *)
From stdpp Require Import base list gmap.
From Stdlib Require Import ZArith Lia.
From S2P Require Import Prelude Bytes Flow Ha FlowTbl FlowTblSpec FlowTblDel AppEv Reg RegSpec.
Import FlowTbl.
#[local] Open Scope Z_scope.

Definition counted (m : gmap Z c_fl_entry) : Prop := forall a e, m !! a = Some e -> app_ref e = Z.of_nat (length (app_owner_list e)).

(** No entry comes, and none gets a group or a meter. *)
Definition no_new_users (m m' : gmap Z c_fl_entry) : Prop := forall a e', m' !! a = Some e' ->
  exists e, m !! a = Some e /\ (forall g, g ∈ groups e' -> g ∈ groups e) /\ (forall g, g ∈ meters e' -> g ∈ meters e).

Lemma no_new_users_trans m1 m2 m3 : no_new_users m1 m2 -> no_new_users m2 m3 -> no_new_users m1 m3.
Proof. intros H1 H2 a e3 H3. destruct (H2 a e3 H3) as (e2 & Ha & ? & ?). destruct (H1 a e2 Ha) as (e1 & ? & ? & ?). exists e1. auto. Qed.

Lemma no_new_users_refl m : no_new_users m m.
Proof. intros a e Ha. by exists e. Qed.

Lemma no_new_users_insert m a e e' : m !! a = Some e -> groups e' = groups e -> meters e' = meters e -> no_new_users m (<[a := e']> m).
Proof. intros Ha Hg Hm b x [[<- <-]|[_ Hb]]%lookup_insert_Some; [exists e|exists x]; rewrite ?Hg, ?Hm; done. Qed.

Record flow_drops (app : Z) (s s' : c_switch) : Prop := {
  fd_moves : moves s s';
  fd_other : forall x, x <> app -> owns x (ents s') = owns x (ents s);
  fd_le : owns app (ents s') <= owns app (ents s);
  fd_counted : counted (ents s) -> counted (ents s');
  fd_users : no_new_users (ents s) (ents s') }.

Lemma flow_drops_trans app s1 s2 s3 : flow_drops app s1 s2 -> flow_drops app s2 s3 -> flow_drops app s1 s3.
Proof.
  intros [A1 A2 A3 A4 A5] [B1 B2 B3 B4 B5].
  split; [by eapply moves_trans|intros; rewrite B2, A2 by done; done|lia|auto|by eapply no_new_users_trans].
Qed.

(** Steps that leave owners alone. *)
Lemma flow_drops_quiet app s s' : (forall x, owns x (ents s') = owns x (ents s)) -> (counted (ents s) -> counted (ents s')) ->
  no_new_users (ents s) (ents s') -> app_refs s' = app_refs s -> same_apps (grp_refs s) (grp_refs s') -> same_apps (meter_refs s) (meter_refs s') ->
  ofp_ctors s' = ofp_ctors s -> multi_table_support s' = multi_table_support s -> flow_drops app s s'.
Proof. intros Ho Hc Hu Ha Hg Hm Hct Hmt. split; try done; [by apply moves_same|by rewrite Ho]. Qed.

Lemma flow_drops_refl app s : flow_drops app s s.
Proof. apply flow_drops_quiet; try done. apply no_new_users_refl. Qed.

Lemma upd_quiet app a f s s' : upd a f s = Some s' ->
  (forall e, app_owner_list (f e) = app_owner_list e /\ app_ref (f e) = app_ref e /\ groups (f e) = groups e /\ meters (f e) = meters e) -> flow_drops app s s'.
Proof.
  intros E Hf. unfold upd in E. inv_bind. subst s'. apply flow_drops_quiet; try done; cbn.
  - intros y. unfold owns. rewrite (msum_insert _ _ _ x) by done. rewrite (proj1 (Hf x)). lia.
  - intros Hc b e [[<- <-]|[_ Hb]]%lookup_insert_Some; [|by eapply Hc]. destruct (Hf x) as (-> & -> & _). by eapply Hc.
  - by apply (no_new_users_insert _ _ x); try apply (Hf x).
Qed.

Lemma drop_refs_same l : forall m m', drop_refs l m = Some m' -> same_apps m m'.
Proof.
  induction l as [|g l IH]; intros m m' E; cbn in E; inv_bind; [by subst|]. eapply same_apps_trans; [|by eapply IH].
  unfold ref_add in *. inv_bind. subst. intros y. rewrite lookup_insert_is_Some'. destruct (decide (g = y)) as [->|]; [|naive_solver].
  split; eauto.
Qed.

Lemma lock_quiet app a s s' : c_wr_lock a s = Some s' \/ c_wr_unlock a s = Some s' -> flow_drops app s s'.
Proof. intros [E|E]; unfold c_wr_lock, c_wr_unlock in E; inv_bind; case_match; try done; by eapply upd_quiet. Qed.

Lemma send_quiet app c e b s s' : of_send_flow_del c e b s = Some s' -> flow_drops app s s'.
Proof. unfold of_send_flow_del. repeat case_match; intros [= <-]; apply flow_drops_quiet; try done; apply no_new_users_refl. Qed.

(** An owner leaves an entry. *)
Lemma del_owner_drops app a e s s' : ents s !! a = Some e -> app ∈ app_owner_list e -> __c_flow_del_app_owner a app s = Some s' ->
  flow_drops app s s' /\ ents s' !! a = Some (del_owner app e).
Proof.
  intros He Hin E. unfold __c_flow_del_app_owner in E. rewrite (upd_eq a e) in E by done. cbn [mbind option_bind] in E.
  unfold c_app_unref, ref_add in E. inv_bind. subst. split; [|apply lookup_store]. cbn in *.
  assert (forall y, owns y (<[a := del_owner app e]> (ents s)) = owns y (ents s) - cnt y [app]) as Ho.
  { intros y. unfold owns. rewrite (msum_insert _ _ _ e) by done. cbn [app_owner_list del_owner set_owners].
    rewrite cnt_remove, bool_decide_true by done. lia. }
  split; cbn; try done.
  - split; try done; cbn.
    + eapply shifted_ext; [|by apply (shifted_one app (-1))]. intros y. rewrite Ho. cbn. case_bool_decide; lia.
    + intros y _. rewrite Ho. pose proof (cnt_nonneg y [app]). lia.
  - intros y Hy. rewrite Ho. cbn. rewrite bool_decide_false by done. lia.
  - rewrite Ho. cbn. rewrite bool_decide_true by done. lia.
  - intros Hc b e' [[<- <-]|[_ Hb]]%lookup_insert_Some; [|by eapply Hc]. cbn. rewrite (Hc a e He).
    rewrite (g_slist_remove_length app _ Hin). lia.
  - by eapply no_new_users_insert.
Qed.

(** An entry without owners goes. *)
Lemma entry_put_drops app a e s s' : ents s !! a = Some e -> app_owner_list e = [] -> c_flow_entry_put a s = Some s' -> flow_drops app s s'.
Proof.
  intros He Ho E. unfold c_flow_entry_put in E. rewrite He in E. cbn [mbind option_bind] in E. case_match; [|by eapply upd_quiet].
  unfold __c_flow_rule_disassociate_meters, __c_flow_rule_disassociate_grps, __c_flow_rule_disassociate_meters_only,
    __c_flow_rule_disassociate_grps_only in E. rewrite He in E. cbn [mbind option_bind] in E.
  apply bind_Some in E as (s1 & (s0 & (M & EM & [= <-])%bind_Some & E1)%bind_Some & E).
  rewrite (upd_eq a e) in E1 by done. injection E1 as <-. apply bind_Some in E as (s2 & E2 & [= <-]).
  rewrite lookup_store in E2. cbn [mbind option_bind] in E2. apply bind_Some in E2 as (s3 & (G & EG & [= <-])%bind_Some & E3).
  rewrite (upd_eq a (set_meters [] e)) in E3 by apply lookup_store. injection E3 as <-.
  apply flow_drops_quiet; cbn in *; try done; try (by eapply drop_refs_same).
  - intros y. unfold owns. rewrite !delete_insert_eq, (msum_delete _ _ _ e) by done. rewrite Ho. cbn. lia.
  - rewrite !delete_insert_eq. intros Hc b e' [_ Hb]%lookup_delete_Some. by eapply Hc.
  - rewrite !delete_insert_eq. intros b e' [_ Hb]%lookup_delete_Some. by exists e'.
Qed.

Lemma rule_free_drops app a e s s' : ents s !! a = Some e -> app_owner_list e = [] -> c_flow_rule_free a s = Some s' -> flow_drops app s s'.
Proof.
  intros He Ho E. unfold c_flow_rule_free in E. apply bind_Some in E as (s1 & E1 & E).
  assert (ents s1 = ents s /\ flow_drops app s s1) as [E2 Hd].
  { unfold cookies_remove in E1. rewrite He in E1. cbn [mbind option_bind] in E1. inv_bind. subst. case_match; split; try done; apply flow_drops_quiet; try done; apply no_new_users_refl. }
  eapply flow_drops_trans; [exact Hd|]. eapply entry_put_drops; [by rewrite E2|done|done].
Qed.

Lemma lock_entry a e s s' : ents s !! a = Some e -> c_wr_lock a s = Some s' \/ c_wr_unlock a s = Some s' ->
  exists e', ents s' !! a = Some e' /\ app_owner_list e' = app_owner_list e /\ app_ref e' = app_ref e.
Proof.
  intros He [E|E]; unfold c_wr_lock, c_wr_unlock in E; rewrite He in E; cbn [mbind option_bind] in E; case_match; try done;
    rewrite (upd_eq a e) in E by done; simplify_eq; eexists; (split; [apply lookup_store|done]).
Qed.

Lemma del_rule_drops c app l : forall s l' s', counted (ents s) -> __c_per_switch_del_app_flow_rule c l app s = Some (l', s') -> flow_drops app s s'.
Proof.
  induction l as [|a l IH]; intros s l' s' Hc E; cbn [__c_per_switch_del_app_flow_rule] in E; [simplify_eq; apply flow_drops_refl|].
  apply bind_Some in E as (s1 & E1 & E). pose proof (lock_quiet app a s s1 (or_introl E1)) as D1.
  eapply flow_drops_trans; [exact D1|]. pose proof (fd_counted _ _ _ D1 Hc) as Hc1. clear s Hc E1 D1.
  apply bind_Some in E as (e & He & E). unfold __c_flow_find_app_owner in E. case_bool_decide as Hin.
  - apply bind_Some in E as (s2 & E2 & E). destruct (del_owner_drops app a e s1 s2 He Hin E2) as [D2 He2].
    eapply flow_drops_trans; [exact D2|]. pose proof (fd_counted _ _ _ D2 Hc1) as Hc2. rewrite He2 in E. cbn [mbind option_bind] in E.
    destruct (Z.eqb_spec (app_ref (del_owner app e)) 0) as [Hz|Hz].
    + assert (app_owner_list (del_owner app e) = []) as Hnil.
      { pose proof (Hc2 a _ He2) as Hl. destruct (app_owner_list (del_owner app e)); [done|]. cbn in Hl, Hz. lia. }
      apply bind_Some in E as (s3 & E3 & E).
      assert (flow_drops app s2 s3 /\ ents s3 = ents s2) as [D3 Ee].
      { case_match; [simplify_eq; split; [apply flow_drops_refl|done]|]. split; [by eapply send_quiet|]. unfold of_send_flow_del in E3.
        repeat case_match; by simplify_eq. }
      eapply flow_drops_trans; [exact D3|]. apply bind_Some in E as (s4 & E4 & E). rewrite <- Ee in He2.
      destruct (lock_entry a _ s3 s4 He2 (or_intror E4)) as (e4 & He4 & Ho4 & _).
      pose proof (lock_quiet app a s3 s4 (or_intror E4)) as D4. eapply flow_drops_trans; [exact D4|]. apply bind_Some in E as (s5 & E5 & E).
      pose proof (rule_free_drops app a e4 s4 s5 He4 ltac:(congruence) E5) as D5. eapply flow_drops_trans; [exact D5|].
      eapply IH; [|exact E]. apply (fd_counted _ _ _ D5), (fd_counted _ _ _ D4), (fd_counted _ _ _ D3), Hc2.
    + apply bind_Some in E as (s3 & E3 & E). pose proof (lock_quiet app a s2 s3 (or_intror E3)) as D3. eapply flow_drops_trans; [exact D3|].
      apply bind_Some in E as ([l1 s4] & E4 & E). simplify_eq. eapply IH; [|exact E4]. by apply (fd_counted _ _ _ D3).
  - apply bind_Some in E as (s2 & E2 & E). pose proof (lock_quiet app a s1 s2 (or_intror E2)) as D2. eapply flow_drops_trans; [exact D2|].
    apply bind_Some in E as ([l1 s3] & E3 & E). simplify_eq. eapply IH; [|exact E3]. by apply (fd_counted _ _ _ D2).
Qed.

(** A fact that every pass of a loop that completes keeps. *)
Lemma for_range_run {S} (P : S -> Prop) n (f : Z -> S -> option S) s s' :
  P s -> (forall i s1 s2, P s1 -> f i s1 = Some s2 -> P s2) -> for_range n f s = Some s' -> P s'.
Proof.
  intros H0 Hf. unfold for_range. revert s H0. generalize (Z.to_nat n). generalize 0%nat. intros i k. revert i.
  induction k as [|k IH]; intros i s H0 E; cbn in E; [by simplify_eq|]. apply bind_Some in E as (s1 & E1 & E). exact (IH _ s1 (Hf _ _ _ H0 E1) E).
Qed.

Lemma del_app_owner_drops c app s s' : counted (ents s) -> __c_per_switch_del_app_flow_owner c app s = Some s' -> flow_drops app s s'.
Proof.
  intros Hc. refine (for_range_run (flow_drops app s) _ _ _ _ (flow_drops_refl app s) _). intros i s1 s2 D E. unfold del_app_tbl in E.
  inv_bind. destruct x0 as [l s3]. inv_bind. eapply flow_drops_trans; [exact D|].
  assert (flow_drops app s1 s3) as D1 by (eapply del_rule_drops; [by apply (fd_counted _ _ _ D)|done]).
  eapply flow_drops_trans; [exact D1|]. unfold upd_tbl in *. inv_bind. subst. apply flow_drops_quiet; try done; apply no_new_users_refl.
Qed.
