(* ===== verification/RegTables.v ===== *)
(** * Registration and events: the tables of a switch

    What the registry expects of the tables of a switch ([SwTables]) holds of the flow, group and meter tables with the forwarding
    database. *)
From stdpp Require Import base list gmap.
From Stdlib Require Import ZArith Lia.
From S2P Require Import Prelude Bytes Flow Ha FlowTbl FlowTblSpec FlowTblDel GroupTbl GroupTblSpec MeterTblSpec GroupThm L2Fdb AppEv Reg RegSpec RegFlows.
#[local] Open Scope Z_scope.

(** The counters are those of the controller; the tables of [GroupTbl] see them in their own field. *)
Record sw_tabs := mk_tabs { tb_sw : GroupTbl.switch; tb_fp : L2Fdb.fp_switch }.

Definition at_refs (r : gmap Z Z) (g : GroupTbl.switch) : GroupTbl.switch := with_apps r g.

Section TABLES.
Variable hc : Ha.ctrl_hdl.
Variable sz : Z.

#[export] Instance tab_ops : Reg.SwOps sw_tabs := {|
  Reg.app_unregister_owned app r t :=
    g ← GroupTbl.app_unregister_owned hc app (at_refs r (tb_sw t));
    Some (FlowTbl.app_refs (GroupTbl.sw_fl g), mk_tabs g (tb_fp t));
  Reg.c_l2fdb_init t := Some (mk_tabs (tb_sw t) (L2Fdb.c_l2fdb_init sz (tb_fp t)));
  Reg.c_l2fdb_destroy t := f ← L2Fdb.c_l2fdb_destroy sz hc true (tb_fp t); Some (mk_tabs (tb_sw t) f) |}.

Notation fl g := (GroupTbl.sw_fl g).

Definition tab_owned (x : Z) (t : sw_tabs) : Z := owned x (tb_sw t) + owns x (FlowTbl.ents (fl (tb_sw t))).

Definition fdb_ok (f : L2Fdb.fp_switch) : Prop := forall t, L2Fdb.app_flow_tbl f = Some t -> Z.of_nat (length t) = sz.

(** The tables are well formed for counters that are high enough. *)
Record tab_ok (D : gset Z) (t : sw_tabs) : Prop := {
  to_wf : gwf nohold (at_refs (gset_to_gmap (msum (fun _ => 1) (GroupTbl.groups (tb_sw t)) +
            msum (fun _ => 1) (GroupTbl.meters (tb_sw t)) + Z.of_nat (length (GroupTbl.exp_list (tb_sw t)))) D) (tb_sw t));
  to_counted : counted (FlowTbl.ents (fl (tb_sw t)));
  to_live : forall x, x ∉ D -> tab_owned x t = 0;
  to_ctors : FlowTbl.ofp_ctors (fl (tb_sw t)) = true;
  to_fdb : fdb_ok (tb_fp t) }.

(** No flow entry that stays uses a group or a meter of the application. *)
Definition tab_purgeable (app : Z) (t : sw_tabs) : Prop := forall r f,
  FlowTbl.__c_per_switch_del_app_flow_owner hc app (fl (at_refs r (tb_sw t))) = Some f ->
  (forall id g, GroupTbl.groups (tb_sw t) !! id = Some g -> GroupTbl.g_app_owner g = app ->
     ~ used_by_flow FlowTbl.groups id (GroupTbl.set_sw_fl f (tb_sw t))) /\
  (forall id m, GroupTbl.meters (tb_sw t) !! id = Some m -> GroupTbl.m_app_owner m = app ->
     ~ used_by_flow FlowTbl.meters id (GroupTbl.set_sw_fl f (tb_sw t))).

(** Nothing of the application is left in the tables. *)
Definition tab_clean (app : Z) (t : sw_tabs) : Prop :=
  (forall id g, GroupTbl.groups (tb_sw t) !! id = Some g -> GroupTbl.g_app_owner g <> app) /\
  (forall id m, GroupTbl.meters (tb_sw t) !! id = Some m -> GroupTbl.m_app_owner m <> app) /\
  (forall a e, in_tables (fl (tb_sw t)) a -> FlowTbl.ents (fl (tb_sw t)) !! a = Some e -> app ∉ FlowTbl.app_owner_list e).

Lemma tab_owned_nonneg x t : 0 <= tab_owned x t.
Proof. unfold tab_owned. pose proof (owned_nonneg x (tb_sw t)). pose proof (owns_nonneg x (FlowTbl.ents (fl (tb_sw t)))). lia. Qed.

Lemma msum_le {A} (f g : A -> Z) m : (forall x, f x <= g x) -> msum f m <= msum g m.
Proof.
  intros Hf. induction m as [|k x m Hk IH] using map_ind; [done|]. rewrite !msum_fresh by done. specialize (Hf x). lia.
Qed.

Lemma cnt_le x l : cnt x l <= Z.of_nat (length l).
Proof. induction l as [|y l IH]; [done|]. cbn [cnt length]. case_bool_decide; lia. Qed.

Lemma owned_most x g : owned x g <= msum (fun _ => 1) (GroupTbl.groups g) + msum (fun _ => 1) (GroupTbl.meters g) + Z.of_nat (length (GroupTbl.exp_list g)).
Proof.
  unfold owned. pose proof (msum_le (fun y => own x (GroupTbl.g_app_owner y)) (fun _ => 1) (GroupTbl.groups g) (fun y => proj2 (own_range x _))).
  pose proof (msum_le (fun y => own x (GroupTbl.m_app_owner y)) (fun _ => 1) (GroupTbl.meters g) (fun y => proj2 (own_range x _))).
  pose proof (cnt_le x (map GroupTbl.exp_app (GroupTbl.exp_list g))) as Hl. rewrite length_map in Hl. lia.
Qed.

(** Other counters that are high enough, with all owners. *)
Lemma gwf_at_refs r r' g : gwf nohold (at_refs r g) ->
  (forall a e x, FlowTbl.ents (fl g) !! a = Some e -> x ∈ FlowTbl.app_owner_list e -> is_Some (r' !! x)) ->
  (forall x, match r' !! x with Some n => owned x g <= n | None => owned x g = 0 end) -> gwf nohold (at_refs r' g).
Proof.
  intros [[W1 W2 W3 W4 W5] G M GO MO A E] Ho Hr. split; try done.
  - split; try done. intros t tbl Ht. destruct (W2 t tbl Ht) as (es & V & N & Eo & S). exists es. split_and!; try done. cbn in V, Eo |- *.
    clear - V Eo Ho. induction V as [|a e l es Ha V IH]; [done|]. apply Forall_cons in Eo as [O Eo]. constructor; [|auto].
    destruct O. split; try done. apply Forall_forall. intros x Hx. by eapply Ho.
  - intros x. specialize (Hr x). cbn. change (owned x (at_refs r' g)) with (owned x g). unfold nohold. destruct (r' !! x); lia.
Qed.

Lemma owner_live D t a e x : tab_ok D t -> FlowTbl.ents (fl (tb_sw t)) !! a = Some e -> x ∈ FlowTbl.app_owner_list e -> x ∈ D /\ 1 <= tab_owned x t.
Proof.
  intros O Ha Hx. assert (1 <= tab_owned x t) as H1.
  { unfold tab_owned. pose proof (owned_nonneg x (tb_sw t)).
    pose proof (msum_ge (fun e => cnt x (FlowTbl.app_owner_list e)) _ a e ltac:(intros; apply cnt_nonneg) Ha) as Hle.
    pose proof (cnt_in x _ Hx). unfold owns. cbn in Hle. lia. }
  split; [|done]. destruct (decide (x ∈ D)) as [|Hn]; [done|]. pose proof (to_live D t O x Hn). lia.
Qed.

Lemma tab_wf D r t : tab_ok D t -> dom r = D -> (forall x n, r !! x = Some n -> tab_owned x t <= n) -> gwf nohold (at_refs r (tb_sw t)).
Proof.
  intros O <- Hr. eapply gwf_at_refs; [apply (to_wf _ _ O)| |].
  - intros a e x Ha Hx. apply elem_of_dom. by eapply owner_live.
  - intros x. pose proof (owns_nonneg x (FlowTbl.ents (fl (tb_sw t)))). destruct (r !! x) as [n|] eqn:E.
    + specialize (Hr x n E). unfold tab_owned in Hr. lia.
    + pose proof (to_live _ _ O x (proj2 (not_elem_of_dom r x) E)) as Hz. unfold tab_owned in Hz. pose proof (owned_nonneg x (tb_sw t)). lia.
Qed.

(** Well-formed tables from their invariant at some counters. *)
Lemma tab_ok_intro D r t : gwf nohold (at_refs r (tb_sw t)) -> counted (FlowTbl.ents (fl (tb_sw t))) -> (forall x, x ∉ D -> tab_owned x t = 0) ->
  FlowTbl.ofp_ctors (fl (tb_sw t)) = true -> fdb_ok (tb_fp t) -> tab_ok D t.
Proof.
  intros G Hc Hl Hct Hf. split; try done. eapply gwf_at_refs; [exact G| |].
  - intros a e x Ha Hx. rewrite lookup_gset_to_gmap. destruct (decide (x ∈ D)) as [Hin|Hn]; [rewrite option_guard_True by done; eauto|].
    specialize (Hl x Hn). unfold tab_owned in Hl. pose proof (owned_nonneg x (tb_sw t)).
    pose proof (msum_ge (fun e => cnt x (FlowTbl.app_owner_list e)) _ a e ltac:(intros; apply cnt_nonneg) Ha) as Hle.
    pose proof (cnt_in x _ Hx). unfold owns in Hl. cbn in Hle. lia.
  - intros x. rewrite lookup_gset_to_gmap. destruct (decide (x ∈ D)) as [Hin|Hn].
    + rewrite option_guard_True by done. apply owned_most.
    + rewrite option_guard_False by done. cbn. specialize (Hl x Hn). unfold tab_owned in Hl. pose proof (owned_nonneg x (tb_sw t)).
      pose proof (owns_nonneg x (FlowTbl.ents (fl (tb_sw t)))). lia.
Qed.

(** If no flow entry uses what the application owns, it may go. *)
Lemma unused_purgeable app t : counted (FlowTbl.ents (fl (tb_sw t))) ->
  (forall id g, GroupTbl.groups (tb_sw t) !! id = Some g -> GroupTbl.g_app_owner g = app -> ~ used_by_flow FlowTbl.groups id (tb_sw t)) ->
  (forall id m, GroupTbl.meters (tb_sw t) !! id = Some m -> GroupTbl.m_app_owner m = app -> ~ used_by_flow FlowTbl.meters id (tb_sw t)) ->
  tab_purgeable app t.
Proof.
  intros Hc Hg Hm r f E. pose proof (fd_users _ _ _ (del_app_owner_drops hc app (fl (at_refs r (tb_sw t))) f Hc E)) as Hu.
  split; intros id x Hx Ho (a & e & Ha & Hin); destruct (Hu a e Ha) as (e0 & Ha0 & H1 & H2);
    [apply (Hg id x Hx Ho)|apply (Hm id x Hx Ho)]; exists a, e0; auto.
Qed.

(** The tables between the removal of the flows and that of the groups. *)
Lemma flows_gone_wf app r t f : tab_ok (dom r) t -> (forall x n, r !! x = Some n -> tab_owned x t <= n) -> wf f ->
  flow_drops app (fl (at_refs r (tb_sw t))) f -> gwf nohold (GroupTbl.set_sw_fl f (at_refs r (tb_sw t))).
Proof.
  intros O Hr W D. destruct (tab_wf _ _ _ O eq_refl Hr) as [_ G M GO MO A E]. split; try done.
  - intros id. cbn. rewrite G. symmetry. apply (mv_grp _ _ (fd_moves _ _ _ D)).
  - intros id. cbn. rewrite M. symmetry. apply (mv_meter _ _ (fd_moves _ _ _ D)).
  - intros x. specialize (A x). cbn. rewrite (mv_apps _ _ (fd_moves _ _ _ D) x). change (owned x (GroupTbl.set_sw_fl f (at_refs r (tb_sw t)))) with (owned x (tb_sw t)).
    change (owned x (at_refs r (tb_sw t))) with (owned x (tb_sw t)) in A. cbn in A |- *. unfold nohold in *.
    destruct (r !! x) as [n|] eqn:Ex; cbn; [|done]. specialize (Hr x n Ex). unfold tab_owned in Hr.
    pose proof (owns_nonneg x (FlowTbl.ents f)). lia.
Qed.

Lemma tab_purge app r t : tab_ok (dom r) t -> tab_purgeable app t -> is_Some (r !! app) -> (forall x n, r !! x = Some n -> tab_owned x t <= n) ->
  exists r' t', Reg.app_unregister_owned app r t = Some (r', t') /\ tab_ok (dom r') t' /\ tab_clean app t' /\
    (forall x, x <> app -> tab_owned x t' = tab_owned x t) /\ tab_owned app t' <= tab_owned app t /\
    shifted (fun x => tab_owned x t' - tab_owned x t) r r'.
Proof.
  intros O P Ha Hr. set (g0 := at_refs r (tb_sw t)). pose proof (tab_wf _ _ _ O eq_refl Hr) as G0. fold g0 in G0.
  destruct (app_removal_run hc app (fl g0) (gw_fl _ _ G0) (to_ctors _ _ O)) as (f & E & W & Hct & Htb & Hin).
  pose proof (del_app_owner_drops hc app (fl g0) f (to_counted _ _ O) E) as D. destruct (P r f E) as [Pg Pm].
  pose proof (flows_gone_wf app r t f O Hr W D) as G1. fold g0 in G1. set (g1 := GroupTbl.set_sw_fl f g0) in *.
  destruct (owner_removal_run app g1 G1 Pg Pm) as (s1 & s2 & E1 & E2 & G2 & F & Dr & L1 & L2 & He).
  exists (FlowTbl.app_refs (fl s2)), (mk_tabs s2 (tb_fp t)).
  assert (forall x, tab_owned x (mk_tabs s2 (tb_fp t)) = owned x s2 + owns x (FlowTbl.ents f)) as Ho.
  { intros x. unfold tab_owned. cbn. by rewrite He. }
  assert (forall x, owned x g1 = owned x (tb_sw t)) as Hg1 by done.
  assert (forall x, x <> app -> tab_owned x (mk_tabs s2 (tb_fp t)) = tab_owned x t) as Hoth.
  { intros x Hx. rewrite Ho, (ds_other _ _ _ Dr x Hx), Hg1, (fd_other _ _ _ D x Hx). done. }
  assert (shifted (fun x => tab_owned x (mk_tabs s2 (tb_fp t)) - tab_owned x t) r (FlowTbl.app_refs (fl s2))) as Hs.
  { eapply shifted_ext; [|exact (shifted_trans _ _ _ _ _ (mv_apps _ _ (fd_moves _ _ _ D)) (ds_apps _ _ _ Dr))]. intros x. cbn.
    rewrite Ho, Hg1. unfold tab_owned. lia. }
  split_and!; [| | |done| |done].
  - cbn. unfold GroupTbl.app_unregister_owned. fold g0. rewrite E. cbn [mbind option_bind]. fold g1. rewrite E1. cbn [mbind option_bind]. by rewrite E2.
  - eapply (tab_ok_intro _ (FlowTbl.app_refs (fl s2))); [|by cbn; rewrite He; apply (fd_counted _ _ _ D), O| |by cbn; rewrite (ds_ctors _ _ _ Dr)|apply O].
    + cbn. unfold at_refs. by rewrite with_apps_id.
    + intros x Hx. assert (x ∉ dom r) as Hx'.
      { intros [n Hn]%elem_of_dom. apply Hx, elem_of_dom. rewrite (Hs x), Hn. cbn. eauto. }
      rewrite Hoth; [by apply O|]. intros ->. by apply Hx', elem_of_dom.
  - split_and!; cbn.
    + intros id g Hg. specialize (L1 id). rewrite Hg in L1. destruct (GroupTbl.groups g1 !! id) as [g'|]; [|done]. cbn in L1.
      destruct (Z.eqb_spec (GroupTbl.g_app_owner g') app); [done|]. by simplify_eq.
    + intros id g Hg. specialize (L2 id). rewrite Hg in L2. destruct (GroupTbl.meters g1 !! id) as [g'|]; [|done]. cbn in L2.
      destruct (Z.eqb_spec (GroupTbl.m_app_owner g') app); [done|]. by simplify_eq.
    + intros a e (i & tbl & Hi & Hat) Hae. rewrite (fr_tbls _ _ F) in Hi. rewrite He in Hae.
      destruct (Hin a) as (e0 & _ & Ha' & Hno); [by exists i, tbl|]. cbn in Hae. by simplify_eq.
  - rewrite Ho. pose proof (ds_le _ _ _ Dr). pose proof (fd_le _ _ _ D). rewrite Hg1 in *. unfold tab_owned. cbn in *. lia.
Qed.

Lemma tab_init D t : 0 <= sz -> tab_ok D t -> exists t', Reg.c_l2fdb_init t = Some t' /\ tab_ok D t' /\ tb_sw t' = tb_sw t.
Proof.
  intros Hsz [O1 O2 O3 O4 O5]. eexists. split; [reflexivity|]. split; [|done]. split; try done. intros tb [= <-]. rewrite length_replicate. lia.
Qed.

Lemma tab_destroy D t : 0 <= sz -> tab_ok D t -> exists t', Reg.c_l2fdb_destroy t = Some t' /\ tab_ok D t' /\ tb_sw t' = tb_sw t.
Proof.
  intros Hsz [O1 O2 O3 O4 O5]. cbn. unfold L2Fdb.c_l2fdb_destroy, L2Fdb.__c_l2fdb_destroy. cbn [mbind option_bind].
  destruct (L2Fdb.app_flow_tbl (tb_fp t)) as [tb|] eqn:Et.
  - match goal with |- context [for_range sz ?f ?s0] => destruct (for_range_inv (fun _ (p : list (list L2Fdb.c_l2fdb_ent) * list L2Fdb.fp_msg) =>
      length p.1 = length tb) f (Z.to_nat sz) s0) as ([tb' l] & E & _) end.
    + done.
    + intros i [tb1 l1] Hi Hl. cbn in Hl. destruct (aget_in_range tb1 (Z.of_nat i)) as [x Hx]; [rewrite Hl, (O5 tb Et); lia|].
      rewrite Hx. cbn [mbind option_bind]. destruct (L2Fdb.destroy_row hc x) as [r0 l']. rewrite aset_pos by (rewrite Hl, (O5 tb Et); lia).
      eexists. split; [reflexivity|]. cbn. by rewrite length_insert.
    + rewrite Z2Nat.id in E by done. rewrite E. cbn [mbind option_bind]. eexists. split; [reflexivity|]. split; [|done]. split; try done.
  - cbn [mbind option_bind]. eexists. split; [reflexivity|]. split; [|done]. split; try done.
Qed.

Lemma tab_live D D' t : (forall x, x ∈ D -> x ∈ D' \/ tab_owned x t = 0) -> tab_ok D t -> tab_ok D' t.
Proof.
  intros Hd O. eapply tab_ok_intro; try apply O. intros x Hx. destruct (decide (x ∈ D)) as [Hin|Hn]; [|by apply O].
  by destruct (Hd x Hin).
Qed.

Variable sz_nonneg : 0 <= sz.

#[export] Instance tab_laws : SwTables sw_tabs.
Proof.
  refine {| t_owned := tab_owned; t_ok := tab_ok; t_purgeable := tab_purgeable; t_clean := tab_clean; t_owned_nonneg := tab_owned_nonneg;
    t_ok_live := tab_live; t_purge := tab_purge |}.
  - intros D t O. destruct (tab_init D t sz_nonneg O) as (t' & E & O' & Es). exists t'. unfold tab_owned, tab_clean. rewrite Es. done.
  - intros D t O. destruct (tab_destroy D t sz_nonneg O) as (t' & E & O' & Es). exists t'. unfold tab_owned, tab_clean. rewrite Es. done.
Defined.

End TABLES.
