(* ===== verification/RegMain.v ===== *)
(** * Registration and events: runs, and what the operations promise *)
From stdpp Require Import base list gmap.
From Stdlib Require Import ZArith Lia.
From S2P Require Import Prelude Bytes AppEv Reg RegSpec RegOps RegLife RegReg RegNew RegThm RegStep RegReplay.
Import Bytes AppEv Reg.
#[local] Open Scope Z_scope.

Section MAIN.
Context {T : Type} `{SwTables T}.
Implicit Types c : ctrl_hdl T.
Implicit Types s : c_switch T.

(** ** What is left of single operations *)

(** The object of an application that is not registered may be anything. *)
Lemma inv_app_unlisted a i c : inv c -> a ∉ apps_all c -> is_Some (apps c !! a) -> inv (set_apps (<[a := i]> (apps c)) c).
Proof.
  intros [[J1 J2 J3 J4 J5 J6 J7 J8 J9 J10] J11 J12] Ha Hs. assert (forall x, x ∈ apps_all c -> x <> a) as Hne by (intros x Hx ->; done).
  split; [split|..]; cbn [lock refs apps apps_all sw_hash_tbl sws set_apps]; try done.
  - by rewrite dom_insert_lookup_L.
  - intros x Hx. rewrite lookup_insert_ne by (symmetry; auto). auto.
  - intros x y i1 i2 Hx Hy. rewrite !lookup_insert_ne by (symmetry; auto). eauto.
  - intros sw s Hs'. destruct (J10 sw s Hs') as [K1 K2 K3 K4 K5 K7 K6]. split; try done. intros x Hx. cbn. destruct (K6 x Hx).
    by rewrite wanted_ne by auto.
  - intros sw s x Hsw Hs' Hp Hx. rewrite wanted_ne by auto. eauto.
Qed.

(** A request without switches is refused. *)
Lemma register_empty app r i0 name flags mask cb c : inv c -> apps c !! app = Some i0 ->
  (forall a j, a ∈ apps_all c -> apps c !! a = Some j -> same_name (app_name j) name = false) ->
  has (app_flags (reg_info i0 r name flags mask cb)) C_APP_ALL_SW = false ->
  register_locked app r name flags mask [] cb c = Some (-1, set_apps (<[app := reg_info i0 r name flags mask cb]> (apps c)) c).
Proof.
  intros I Hi Hnm Hf. pose proof (inv_core c I) as J. unfold register_locked. rewrite wr_lock_eq by apply J. cbn [mbind option_bind].
  assert (__c_app_get name (set_lock (-1) c) = Some (None, set_lock (-1) c)) as ->.
  { unfold __c_app_get. rewrite app_lookup_locked. pose proof (app_get_none name c J Hnm) as E. unfold __c_app_get, get_of in E |- *.
    destruct (__c_app_lookup name c) as [[a|]|]; cbn in *; try done. unfold c_app_ref in E. by destruct (refs c !! a). }
  cbn [mbind option_bind]. rewrite (upd_app_eq app i0) by done. cbn [mbind option_bind apps set_apps set_lock]. rewrite lookup_insert_eq. cbn [mbind option_bind].
  rewrite Hf. rewrite bool_decide_true by done. rewrite wr_unlock_eq by done. cbn [mbind option_bind]. do 2 f_equal.
  unfold set_lock, set_apps. cbn. f_equal. symmetry. apply J.
Qed.

(** A switch that never registered leaves. *)
Lemma del_quiet sw s c : inv c -> sw ∈ sw_hash_tbl c -> sws c !! sw = Some s -> has (switch_state s) SW_REGISTERED = false -> app_list s = [] ->
  exists c', c_switch_del sw c = Some c' /\ inv c'.
Proof.
  intros [J J11 J12] Hin Hs Hreg Hl. pose proof (iv_sws c J sw s Hs) as SI. set (c1 := set_hash (others sw c) c).
  assert (core c1) as Jc1.
  { apply core_set_hash; [done|apply NoDup_filter, J|]. intros x [_ ?]%list_elem_of_filter. done. }
  eexists. split.
  - unfold c_switch_del. rewrite wr_lock_eq by apply J. cbn [mbind option_bind sws set_lock]. rewrite Hs. cbn [mbind option_bind].
    change (base.filter _ _) with (base.filter (fun x => bool_decide (DPID <$> sws c !! x <> Some (DPID s))) (sw_hash_tbl c)).
    rewrite (others_eq sw s), wr_unlock_eq by done. cbn [mbind option_bind]. rewrite Hreg. cbn [mbind option_bind].
    change (set_lock 0 (set_hash (others sw c) (set_lock (-1) c))) with (set_hash (others sw c) (set_lock 0 (set_lock (-1) c))).
    rewrite set_lock_back by apply J. fold c1. by rewrite (upd_sw_eq sw s).
  - change (set_sws _ c1) with (at_sw sw (set_state (Z.lor (switch_state s) SW_DEAD) s) (refs c1) (out c1) c1). split.
    + apply (core_at_sw sw s); try done; [|by destruct SI]. intros x. destruct (refs c1 !! x); cbn; [|done]. f_equal. unfold weight. cbn. lia.
    + cbn. intros x s1 Hx [[<- <-]|[Hne H1]]%lookup_insert_Some; [done|]. eapply J11; [|exact H1].
      intros Hx'. apply Hx. by apply list_elem_of_filter.
    + cbn. intros x s1 a [Hne Hx]%list_elem_of_filter H1. rewrite lookup_insert_ne in H1 by done. by eapply J12.
Qed.

(** ** Operations *)

(** [OpConn]: the connection of an application is accepted.  [OpReg]: a request of such a connection; [OpBuiltin]: of a module of the
    controller, for which [a] is a new address.  [OpSwitch]: a switch connects, with the state [s]. *)
Inductive op :=
| OpConn (a : Z)
| OpReg (a : Z) (name : list Z) (flags mask : Z) (dl : list Z) (cb : option ev_callback)
| OpBuiltin (a : Z) (name : list Z) (flags mask : Z) (dl : list Z) (cb : option ev_callback)
| OpUnreg (name : list Z)
| OpAppDel (a : Z)
| OpFpops (a dpid ty : Z)
| OpReplay (a : Z)
| OpSwitch (sw : Z) (s : c_switch T)
| OpAdd (sw alias : Z)
| OpPublish (sw : Z) (b : option (list Z))
| OpDel (sw : Z)
| OpEvent (sw : Z) (b : option (list Z)) (e : c_app_event) (a : option Z) (p : priv)
| OpCtl (b : list Z) (e : c_app_event) (a : option Z).

Definition exec (o : op) (c : ctrl_hdl T) : option (ctrl_hdl T) :=
  match o with
  | OpConn a => Some (c_app_alloc a c)
  | OpReg a name flags mask dl cb => snd <$> mul_register_app (Some a) a name flags mask dl cb c
  | OpBuiltin a name flags mask dl cb => snd <$> mul_register_app None a name flags mask dl cb c
  | OpUnreg name => snd <$> mul_unregister_app name c
  | OpAppDel a => c_worker_do_app_del a c
  | OpFpops a dpid ty => snd <$> c_app_set_fpops_command a dpid ty c
  | OpReplay a => c_switch_replay_all a c
  | OpSwitch sw s => Some (set_sws (<[sw := s]> (sws c)) c)
  | OpAdd sw alias => c_switch_add sw alias c
  | OpPublish sw b => c_switch_publish sw b c
  | OpDel sw => c_switch_del sw c
  | OpEvent sw b e a p => c_signal_app_event (Some sw) b e a p false c
  | OpCtl b e a => c_signal_app_event None (Some b) e a NoPriv false c
  end.

Definition name_free (name : list Z) (c : ctrl_hdl T) : Prop :=
  forall a i, a ∈ apps_all c -> apps c !! a = Some i -> same_name (app_name i) name = false.
Definition purgeable (a : Z) (c : ctrl_hdl T) : Prop :=
  forall sw s, sw ∈ sw_hash_tbl c -> sws c !! sw = Some s -> t_purgeable a (tabs s).

(** A request the registry can serve: its name fits, and its flags do not make it an auxiliary application. *)
Definition request_ok (remote : bool) (i : c_app_info) (name : list Z) (flags mask : Z) (dl : list Z) (cb : option ev_callback) : Prop :=
  (length name < C_MAX_APP_STRLEN)%nat /\ app_ok (reg_final remote i name flags mask dl cb).

(** When the code calls an operation. *)
Definition op_ok (o : op) (c : ctrl_hdl T) : Prop :=
  match o with
  | OpConn a => a <> 0 /\ refs c !! a = None
  | OpReg a name flags mask dl cb => a <> 0 /\ a ∉ apps_all c /\ exists i, apps c !! a = Some i /\ request_ok true i name flags mask dl cb
  | OpBuiltin a name flags mask dl cb => a <> 0 /\ refs c !! a = None /\ request_ok false zero_app name flags mask dl cb
  | OpUnreg name => name_free name c \/ exists a i, a ∈ apps_all c /\ apps c !! a = Some i /\ app_name i = name /\ purgeable a c
  | OpAppDel a => a ∈ apps_all c /\ purgeable a c /\ exists i, apps c !! a = Some i /\
      forall r c1, mul_unregister_app (app_name i) c = Some (r, c1) -> held a c1 = 0
  | OpFpops a _ _ | OpReplay a => a ∈ apps_all c
  | OpSwitch sw s => sws c !! sw = None /\ sw ∉ sw_hash_tbl c /\ sw_inv c s /\ (forall x, weight x s = 0) /\ app_list s = []
  | OpAdd sw _ => sw ∉ sw_hash_tbl c /\ exists s, sws c !! sw = Some s /\ has (switch_state s) SW_PUBLISHED = false
  | OpPublish sw b => sw ∈ sw_hash_tbl c /\ exists s, sws c !! sw = Some s /\
      is_Some (app_handler C_DP_REG (Some (DPID s, switch_state s, info s)) b NoPriv)
  | OpDel sw => sw ∈ sw_hash_tbl c /\ exists s, sws c !! sw = Some s /\
      (app_list s = [] \/ has (switch_state s) SW_PUBLISHED = true /\ has (switch_state s) SW_REGISTERED = true)
  | OpEvent sw b e a p => plain_event e = true /\ (forall x, a = Some x -> x ∈ apps_all c) /\ exists s, sws c !! sw = Some s /\
      is_Some (app_handler e (Some (DPID s, switch_state s, info s)) b p)
  | OpCtl _ e a => ctl_event e = true /\ (forall x, a = Some x -> x ∈ apps_all c)
  end.

(** ** Registration as an operation *)

(** The outcome of a request: the state is one of the invariant, and an object that is refused stays unregistered. *)
Lemma register_step a r i0 name flags mask dl cb c : inv c -> a <> 0 -> a ∉ apps_all c -> apps c !! a = Some i0 ->
  request_ok r i0 name flags mask dl cb ->
  exists res c', register_locked a r name flags mask dl cb c = Some (res, c') /\ inv c' /\ (res <> 0 -> apps_all c' = apps_all c /\ held a c' = held a c).
Proof.
  intros I Hz Hni Hi [Hlen Hok]. pose proof (inv_core c I) as J.
  destruct (find_app_spec (fun j => same_name (app_name j) name) (apps_all c) c (core_apps_live c J)) as [[_ Hn]|(b & j & E & Hb & Hj & _)].
  - destruct (decide (has (app_flags (reg_final r i0 name flags mask dl cb)) C_APP_ALL_SW = true \/ dl <> [])) as [Hd|Hd].
    + destruct (register_one_app a r i0 name flags mask dl cb c) as (R & S & -> & HS & Hc); try done. eexists _, _. split; [reflexivity|]. split; [|done].
      apply reg_inv; [done|done|done|by eexists|done| |exact HS|exact Hc]. intros b j Hb Hj. rewrite <- (Hn b j Hb Hj). f_equal. unfold reg_final.
      assert (take (C_MAX_APP_STRLEN - 1) name = name) as Ht by (apply take_ge; unfold C_MAX_APP_STRLEN in *; lia).
      case_match; cbn [app_name set_dpids reg_info]; exact Ht.
    + assert (dl = []) as -> by (destruct dl; [done|]; destruct Hd; by right).
      assert (has (app_flags (reg_info i0 r name flags mask cb)) C_APP_ALL_SW = false) as Hf.
      { destruct (has (app_flags (reg_info i0 r name flags mask cb)) C_APP_ALL_SW) eqn:Ef; [|done]. destruct Hd. left. unfold reg_final. by rewrite Ef. }
      rewrite (register_empty a r i0 name flags mask cb c I Hi Hn Hf).
      eexists _, _. split; [reflexivity|]. split; [|done]. apply inv_app_unlisted; eauto.
  - destruct (inv_live c b J Hb) as (j' & n & _ & _ & Hn & _). rewrite (register_taken a r name flags mask dl cb b j n) by done.
    eexists _, _. split; [reflexivity|]. split; [|done]. by apply inv_refs_up.
Qed.

Lemma dead_unlisted a c : core c -> refs c !! a = None -> a ∉ apps_all c /\ held a c = 0.
Proof.
  intros J Ha. split; [|by pose proof (iv_enough c J a) as E; rewrite Ha in E]. intros Hin. destruct (inv_live c a J Hin) as (? & ? & _ & _ & ? & _). congruence.
Qed.

Lemma builtin_step a name flags mask dl cb c : inv c -> a <> 0 -> refs c !! a = None -> request_ok false zero_app name flags mask dl cb ->
  exists res c', mul_register_app None a name flags mask dl cb c = Some (res, c') /\ inv c'.
Proof.
  intros I Hz Ha Hok. destruct (dead_unlisted a c (inv_core c I) Ha) as [Hni Hh]. unfold mul_register_app.
  fold (alloc_state a zero_app c). pose proof (alloc_inv a zero_app c I Ha) as I1.
  destruct (register_step a false zero_app name flags mask dl cb _ I1 Hz Hni ltac:(apply lookup_insert_eq) Hok) as (res & c' & -> & I' & Hres).
  cbn [mbind option_bind]. eexists _, _. split; [reflexivity|]. destruct (Z.eqb_spec res 0) as [|Hr]; [done|]. destruct (Hres Hr) as [El Eh].
  apply (freed_inv a c' I'); [by rewrite El|]. rewrite Eh. exact Hh.
Qed.

(** ** One step, and runs *)

Lemma step_ok o c : inv c -> op_ok o c -> exists c', exec o c = Some c' /\ inv c'.
Proof.
  intros I. destruct o as [a|a name flags mask dl cb|a name flags mask dl cb|name|a|a dpid ty|a|sw s|sw alias|sw b|sw|sw b e a p|b e a]; cbn [op_ok exec].
  - intros [_ Ha]. eexists. split; [reflexivity|]. by apply alloc_inv.
  - intros (Hz & Hni & i & Hi & Hok). destruct (register_step a true i name flags mask dl cb c) as (res & c' & E & I' & _); try done.
    exists c'. cbn [mul_register_app]. by rewrite E.
  - intros (Hz & Ha & Hok). destruct (builtin_step a name flags mask dl cb c) as (res & c' & E & I'); try done. exists c'. by rewrite E.
  - intros [Hf|(a & i & Ha & Hi & <- & Hp)].
    + exists c. by rewrite (unregister_unknown name c I Hf).
    + destruct (unregister_ok a i c I Ha Hi Hp) as (R & S & -> & I' & _). by eexists.
  - intros (Ha & Hp & i & Hi & Hh). destruct (app_del_ok a i c I Ha Hi Hp Hh) as (c' & E & I' & _). by exists c'.
  - intros Ha. destruct (set_fpops_ok a dpid ty c I Ha) as (r & c' & -> & I'). by exists c'.
  - intros Ha. rewrite (replay_eq a c I Ha). eexists. split; [reflexivity|]. by apply inv_set_out.
  - intros (Hn & Hh & Hs & Hw & Hl). eexists. split; [reflexivity|]. by apply new_switch_inv.
  - intros (Hn & s & Hs & Hp). by apply (switch_add_ok sw s alias c).
  - intros (Hin & s & Hs & [mo Hm]). destruct (publish_ok sw s b mo c I Hin Hs Hm) as (R & E & I'). by eexists.
  - intros (Hin & s & Hs & Hc). destruct (has (switch_state s) SW_REGISTERED) eqn:Er.
    + destruct (del_ok sw s c I Hin Hs Er) as (R & m & E & I' & _); [|by eexists].
      destruct Hc as [|[Hp _]]; [by left|]. right. intros x Hx Hw. by eapply (iv_pub c I sw s).
    + destruct Hc as [Hl|[_ Hr]]; [|congruence]. by apply (del_quiet sw s).
  - intros (He & Ha & s & Hs & [mo Hm]). rewrite (plain_event_eq sw s b e a p mo c (inv_core c I) Hs He Hm Ha). eexists. split; [reflexivity|].
    by apply inv_with_out.
  - intros (He & Ha). rewrite (ctl_event_eq e b a c I He Ha). eexists. split; [reflexivity|]. by apply inv_set_out.
Qed.

Fixpoint run (l : list op) (c : ctrl_hdl T) : option (ctrl_hdl T) :=
  match l with [] => Some c | o :: l => c ← exec o c; run l c end.

(** A sequence of operations, each called when the code may. *)
Fixpoint run_ok (l : list op) (c : ctrl_hdl T) : Prop :=
  match l with [] => True | o :: l => op_ok o c /\ forall c', exec o c = Some c' -> run_ok l c' end.

Lemma reg_run_inv l : forall c, inv c -> run_ok l c -> exists c', run l c = Some c' /\ inv c'.
Proof.
  induction l as [|o l IH]; intros c I Hl; cbn [run]; [by exists c|]. destruct Hl as [Ho Hl]. destruct (step_ok o c I Ho) as (c1 & E & I1).
  rewrite E. cbn [mbind option_bind]. by apply IH; [|apply Hl].
Qed.

End MAIN.
