(* ===== verification/RegProp.v ===== *)
(** * Registration and events: the properties *)
From stdpp Require Import base list gmap.
From Stdlib Require Import ZArith Lia.
From S2P Require Import Prelude Bytes Ha FlowTbl GroupTbl GroupTblSpec AppEv Reg RegSpec RegOps RegLife RegReg RegNew RegThm RegStep RegReplay RegFlows RegTables RegMain.
Import Bytes AppEv Reg.
#[local] Open Scope Z_scope.

Section PROP.
Context {T : Type} `{SwTables T}.
Implicit Types c : ctrl_hdl T.
Implicit Types s : c_switch T.

(** ** Runs *)


(** ** Delivery *)

Lemma pick_elem p (A : gmap Z c_app_info) (m : app_msg) l a m' : (a, m') ∈ pick p A m l <-> m' = m /\ a ∈ l /\ exists i, A !! a = Some i /\ p i = true.
Proof.
  unfold pick. rewrite list_elem_of_In, in_flat_map. split.
  - intros (b & Hb & Hin). apply list_elem_of_In in Hb. destruct (A !! b) as [i|] eqn:Hi; [|done]. destruct (p i) eqn:Hp; [|done].
    destruct Hin as [[= -> ->]|[]]. eauto.
  - intros (-> & Hin & i & Hi & Hp). exists a. split; [by apply list_elem_of_In|]. rewrite Hi, Hp. by left.
Qed.

Lemma pick_fst p (A : gmap Z c_app_info) (m : app_msg) l : NoDup l -> NoDup (map fst (pick p A m l)).
Proof.
  induction 1 as [|a l Ha Hl IH]; [constructor|]. unfold pick. cbn [flat_map]. destruct (A !! a) as [i|]; [|done]. destruct (p i); [|done].
  cbn. constructor; [|done]. intros Hb. apply list_elem_of_fmap in Hb as ([b m'] & -> & Hb). apply pick_elem in Hb as (_ & Hb & _). done.
Qed.

Lemma pick_split (p q : c_app_info -> bool) (A : gmap Z c_app_info) (m : app_msg) l : NoDup l -> (forall i, p i = true -> q i = true -> False) ->
  NoDup (map fst (pick p A m l ++ pick q A m l)).
Proof.
  intros Hl Hpq. rewrite map_app. apply NoDup_app. split_and!; [by apply pick_fst| |by apply pick_fst].
  intros a Hb Hb'. apply list_elem_of_fmap in Hb as ([b m1] & -> & Hb). apply list_elem_of_fmap in Hb' as ([b' m2] & Hbb & Hb'). cbn in Hbb. subst b'.
  apply pick_elem in Hb as (_ & _ & i & Hi & Hp). apply pick_elem in Hb' as (_ & _ & j & Hj & Hq). simplify_eq. eauto.
Qed.

(** An application that gets a message for an event. *)
Definition receives (e : c_app_event) (c : ctrl_hdl T) (a : Z) : Prop :=
  exists i, apps c !! a = Some i /\ subscribed e i = true /\ (remote i = true -> silent i = false).


(** ** Registration *)

(** C17: a new application is entered at exactly the switches it asked for.  A request with a name that fits and that nobody has completes
    and keeps the registry consistent; the application is the last of the list of all; every known switch that it asked for (all of them,
    or those whose identifiers the request lists) has it in its list from now on, and no list changes otherwise; the counters grow
    by exactly the entries made. *)
Theorem register_spec app r i0 name flags mask dl cb c (i := reg_final r i0 name flags mask dl cb) :
  inv c -> app <> 0 -> app ∉ apps_all c -> apps c !! app = Some i0 -> name_free name c -> request_ok r i0 name flags mask dl cb ->
  has (app_flags i) C_APP_ALL_SW = true \/ dl <> [] ->
  exists c', register_locked app r name flags mask dl cb c = Some (0, c') /\ inv c' /\ apps_all c' = apps_all c ++ [app] /\
    apps c' = <[app := i]> (apps c) /\ out c' = out c /\ conserved c c' /\
    forall sw, match sws c !! sw with
      | Some s => exists s', sws c' !! sw = Some s' /\ tabs s' = tabs s /\ switch_state s' = switch_state s /\
          forall a, a ∈ app_list s' <-> a ∈ app_list s \/
            a = app /\ sw ∈ sw_hash_tbl c /\ (has (app_flags i) C_APP_ALL_SW = true \/ DPID s ∈ map ntohll dl)
      | None => sws c' !! sw = None
      end.
Proof.
  intros I Hz Hni Hi Hnm [Hlen Hok] Hdl. destruct (register_one_app app r i0 name flags mask dl cb c) as (R & S & E & HS & Hc); try done.
  eexists. split; [exact E|]. split.
  { apply reg_inv; [done|done|done|by eexists|done| |exact HS|exact Hc]. intros b j Hb Hj. rewrite <- (Hnm b j Hb Hj). f_equal. unfold reg_final.
    assert (take (C_MAX_APP_STRLEN - 1) name = name) as Ht by (apply take_ge; unfold C_MAX_APP_STRLEN in *; lia).
    case_match; cbn [app_name set_dpids reg_info]; exact Ht. }
  split_and!; try done. intros sw. cbn [sws reg_state]. rewrite HS. destruct (sws c !! sw) as [s|]; [|done]. cbn.
  eexists. split; [reflexivity|]. destruct (with_app_fields app (reg_final r i0 name flags mask dl cb) c sw s) as (_ & _ & _ & F4 & _ & F6 & _).
  split_and!; [exact F6|exact F4|]. intros a. rewrite with_app_list. pose proof (reg_final_wants r i0 name flags mask dl cb (DPID s)) as Hw. cbv zeta in Hw.
  rewrite Hw. fold i. assert (Some (has (app_flags i) C_APP_ALL_SW || bool_decide (DPID s ∈ (list_to_set (map ntohll dl) : gset Z))) = Some true <->
    has (app_flags i) C_APP_ALL_SW = true \/ DPID s ∈ map ntohll dl) as ->; [|done].
  pose proof (elem_of_list_to_set (C := gset Z) (DPID s) (map ntohll dl)) as Hl.
  destruct (has (app_flags i) C_APP_ALL_SW); cbn [orb]; [split; auto|]. case_bool_decide as Hb; [split; [right; tauto|done]|].
  split; [done|]. intros [|]; [done|tauto].
Qed.


(** ** Replay *)

(** The message about a switch for the applications that register after it. *)
Definition switch_news (c : ctrl_hdl T) (x : Z) : option app_msg :=
  s ← sws c !! x; mo ← c_app_dpreg_event (DPID s) (switch_state s) (info s) None; mo.

Definition wanted_at (c : ctrl_hdl T) (a x : Z) : bool := match sws c !! x with Some s => wanted (apps c) (DPID s) a | None => false end.

(** C19: a new application learns of the switches that are there.  The replay completes and changes no counter, list or switch (the
    references taken for the time of the walk are given back); an application that has subscribed to new switches is told of exactly
    the published switches that it wants, once each and in their order; any other is told nothing. *)
Theorem replay_spec app i c : inv c -> app ∈ apps_all c -> apps c !! app = Some i ->
  exists d, c_switch_replay_all app c = Some (with_ (refs c) (sws c) (out c ++ d) c) /\
    (subscribed C_DP_REG i = true -> (remote i = true -> silent i = false) ->
       d = flat_map (fun x => match switch_news c x with Some m => [(app, m)] | None => [] end)
             (base.filter (fun x => published c x /\ wanted_at c app x = true) (sw_hash_tbl c))) /\
    (subscribed C_DP_REG i = false \/ remote i = true /\ silent i = true -> d = []).
Proof.
  intros I Ha Hi. rewrite (replay_eq app c I Ha). eexists. split; [reflexivity|].
  assert (forall x, announce app c x = if wanted_at c app x
    then (if subscribed C_DP_REG i && (negb (remote i) || negb (silent i)) then match switch_news c x with Some m => [(app, m)] | None => [] end else []) else []) as Han.
  { intros x. unfold announce, switch_news, wanted_at. destruct (sws c !! x) as [s|]; cbn [mbind option_bind]; [|done].
    destruct (wanted (apps c) (DPID s) app) eqn:Ew; [|done].
    destruct (c_app_dpreg_event _ _ _ _) as [[m|]|]; cbn [mbind option_bind now_of queue_of]; [|by destruct (_ && _)|by destruct (_ && _)].
    unfold sent_now, queued, pick. cbn. rewrite Hi. by destruct (subscribed C_DP_REG i), (remote i), (silent i). }
  induction (sw_hash_tbl c) as [|x l [IH1 IH2]]; [done|]. rewrite !filter_cons. split.
  - intros H1 H2. assert (subscribed C_DP_REG i && (negb (remote i) || negb (silent i)) = true) as Hb.
    { rewrite H1. destruct (remote i); [by rewrite H2|done]. }
    rewrite Hb in Han. destruct (decide (published c x)) as [Hp|Hp]; [|rewrite decide_False by (by intros [? _]); by apply IH1].
    cbn [flat_map]. rewrite Han, IH1 by done. destruct (wanted_at c app x) eqn:Hw; [by rewrite decide_True|by rewrite decide_False by (by intros [_ ?])].
  - intros H2. assert (subscribed C_DP_REG i && (negb (remote i) || negb (silent i)) = false) as Hb.
    { destruct H2 as [->|[-> ->]]; [done|by rewrite andb_false_r]. }
    rewrite Hb in Han. destruct (decide (published c x)); [|by apply IH2]. cbn [flat_map]. rewrite Han, IH2 by done. by destruct (wanted_at c app x).
Qed.

End PROP.

(** ** The tables of a switch *)

(** C27: what an application owns in the tables of a switch goes with it, and the counters follow.  On well-formed tables, with counters
    that cover the owners, the removal of an application whose groups and meters no remaining flow uses completes and leaves well-formed
    tables; no group, no meter and no entry of a flow table is owned by the application, other applications own what they
    owned, and the counter of every application changes by exactly as much as what it owns: groups, meters, expired entries and owners
    of flow entries together.  This is the promise that the registry relies on. *)
Theorem owned_tables_purged hc sz app r t : tab_ok sz (dom r) t -> tab_purgeable hc app t -> is_Some (r !! app) ->
  (forall x n, r !! x = Some n -> tab_owned x t <= n) ->
  exists g', GroupTbl.app_unregister_owned hc app (at_refs r (tb_sw t)) = Some g' /\
    let t' := mk_tabs g' (tb_fp t) in
    tab_ok sz (dom (FlowTbl.app_refs (GroupTbl.sw_fl g'))) t' /\ tab_clean app t' /\
    (forall x, x <> app -> tab_owned x t' = tab_owned x t) /\
    (forall x, FlowTbl.app_refs (GroupTbl.sw_fl g') !! x = (fun n => n + (tab_owned x t' - tab_owned x t)) <$> r !! x).
Proof.
  intros O P Ha Hr. destruct (tab_purge hc sz app r t O P Ha Hr) as (r' & t' & E & O' & Hcl & Hoth & _ & Hs). cbn in E.
  apply bind_Some in E as (g' & E & [= <- <-]). exists g'. split; [exact E|]. by split_and!.
Qed.
