(* ===== verification/RegEx.v ===== *)
(** * Registration and events: a concrete registry and witnesses *)
From stdpp Require Import base list gmap.
From Stdlib Require Import ZArith Lia.
From S2P Require Import Prelude Bytes Flow Ha FlowTbl FlowTblSpec FlowTblEx GroupTbl GroupTblSpec GroupThm GroupEx L2Fdb AppEv Reg RegSpec RegOps RegLife RegReg RegNew RegThm RegStep RegReplay RegFlows RegTables RegMain RegProp.
Import Bytes AppEv Reg.
#[local] Open Scope Z_scope.

Module RegEx.

(** Tables with group 5 and meter 6 of application 7, which no flow uses, and a forwarding database of two rows. *)
Definition rx_fl : FlowTbl.c_switch :=
  FlowTbl.mk_switch ∅ (replicate 255 no_tbl) [] 0 {[5 := 0]} {[6 := 0]} ∅ true true FlowTbl.SW_HA_NONE [].
Definition rx_grp : GroupTbl.switch := GroupTbl.mk_sw rx_fl false 9 true false false {[5 := gx_group]} {[6 := gx_meter]} [].
Definition rx_tabs : sw_tabs := mk_tabs rx_grp (L2Fdb.mk_fp None false ∅ []).

#[local] Instance rx_ops : SwOps sw_tabs := tab_ops ex_hdl 2.
#[local] Instance rx_laws : SwTables sw_tabs := tab_laws ex_hdl 2 ltac:(lia).

Definition rx_port : c_sw_port := mk_port 3 [2; 0; 0; 0; 0; 1] [101; 49] 0 0 0 0 0 0 0 0 0 0 0.
Definition rx_info : sw_info := mk_info 5 1 256 2 199 (-1) (-1) false false [rx_port].
Definition rx_fp : c_switch_fp_ops := mk_ops false false false false false false false.

(** A published switch that has both applications: 7 is a connection that wants all switches, 8 is built in and wants this one; both
    want to know of switches and of changed ports. *)
Definition rx_sw : c_switch sw_tabs := mk_sw 9 0 0 (SW_REGISTERED + SW_PUBLISHED) rx_info [7; 8] [] rx_fp 0 0 rx_tabs.
Definition rx_app7 : c_app_info := mk_app 11 (C_APP_ALL_SW + C_APP_REMOTE) 0 0 0 None c_remote_app_event [97].
Definition rx_app8 : c_app_info := mk_app 11 0 0 1 0 (Some {[9]}) (cb_user 1) [98].
Definition rx : ctrl_hdl sw_tabs := mk_ctrl 0 [7; 8] [10] 0 {[7 := rx_app7; 8 := rx_app8]} {[7 := 3; 8 := 1]} {[10 := rx_sw]} [].

Lemma rx_fl_wf A : wf (FlowTbl.set_app_refs A rx_fl).
Proof. apply (wf_empty {[5 := 0]} {[6 := 0]} A); intros g n Hg; by apply lookup_singleton_Some in Hg as [<- <-]. Qed.

Lemma no_ents a e : FlowTbl.ents rx_fl !! a = Some e -> False.
Proof. cbn. by rewrite lookup_empty. Qed.

Lemma rx_owned x : tab_owned x rx_tabs = if bool_decide (x = 7) then 2 else 0.
Proof.
  unfold tab_owned, owned, owns, msum. cbn. rewrite !map_fold_singleton, map_fold_empty. cbn. unfold own.
  rewrite (bool_decide_ext (7 = x) (x = 7)) by done. by case_bool_decide.
Qed.

Lemma rx_tab_ok D : 7 ∈ D -> tab_ok 2 D rx_tabs.
Proof.
  intros H7. apply (tab_ok_intro 2 D {[7 := 2]}).
  - split; try done.
    + exact (rx_fl_wf {[7 := 2]}).
    + intros id. cbn. destruct (decide (id = 5)) as [->|]; [by rewrite !lookup_singleton_eq|by rewrite !lookup_singleton_ne].
    + intros id. cbn. destruct (decide (id = 6)) as [->|]; [by rewrite !lookup_singleton_eq|by rewrite !lookup_singleton_ne].
    + intros id g Hg. cbn in Hg. apply lookup_singleton_Some in Hg as [<- <-]. split; [done|]. exists [gx_bkt]. split_and!; cbn; [lia|done|done].
    + intros id g Hg. cbn in Hg. apply lookup_singleton_Some in Hg as [<- <-]. split; [done|]. exists []. split_and!; cbn; [lia|done|done].
    + intros x. pose proof (rx_owned x) as E. unfold tab_owned, owns, msum in E. cbn [tb_sw rx_tabs rx_grp GroupTbl.sw_fl rx_fl FlowTbl.ents] in E.
      rewrite map_fold_empty in E. change (owned x (at_refs {[7 := 2]} (tb_sw rx_tabs))) with (owned x rx_grp). unfold nohold. cbn.
      destruct (decide (x = 7)) as [->|Hx]; [rewrite lookup_singleton_eq, bool_decide_true in * by done|rewrite lookup_singleton_ne by done; rewrite bool_decide_false in E by done]; cbn in E; lia.
  - intros a e Ha. by apply no_ents in Ha.
  - intros x Hx. rewrite rx_owned. rewrite bool_decide_false; [done|]. by intros ->.
  - done.
  - intros t [=].
Qed.

Lemma rx_purgeable app : tab_purgeable ex_hdl app rx_tabs.
Proof.
  apply unused_purgeable.
  - intros a e Ha. by apply no_ents in Ha.
  - intros id g _ _ (a & e & Ha & _). by apply no_ents in Ha.
  - intros id g _ _ (a & e & Ha & _). by apply no_ents in Ha.
Qed.

Lemma rx_weight x : weight x rx_sw = cnt x [7; 8] + if bool_decide (x = 7) then 2 else 0.
Proof. unfold weight. change (t_owned x (tabs rx_sw)) with (tab_owned x rx_tabs). rewrite rx_owned. change (fp_owner rx_sw) with 0. rewrite fp_own_zero. cbn [app_list app_eventq rx_sw map cnt]. lia. Qed.

Lemma rx_held x : held x rx = cnt x [7; 8] + if bool_decide (x = 7) then 2 else 0.
Proof. unfold held, msum. change (sws rx) with ({[10 := rx_sw]} : gmap Z (c_switch sw_tabs)). rewrite map_fold_singleton, rx_weight. lia. Qed.

Lemma rx_app a i : a ∈ apps_all rx -> apps rx !! a = Some i -> a = 7 /\ i = rx_app7 \/ a = 8 /\ i = rx_app8.
Proof. intros [->|[->|[]%elem_of_nil]%elem_of_cons]%elem_of_cons E; cbn in E; vm_compute in E; [left|right]; by simplify_eq. Qed.

Lemma rx_app_ok a i : a ∈ apps_all rx -> apps rx !! a = Some i -> app_ok i.
Proof. intros Ha Hi. destruct (rx_app a i Ha Hi) as [[-> ->]|[-> ->]]; (split; [done| |done]); [by left|right; by eexists]. Qed.

Lemma rx_inv : inv rx.
Proof.
  split; [split|..]; try done.
  - intros x. rewrite rx_held. cbn [refs rx]. destruct (decide (x = 7)) as [->|H7]; [by vm_compute|].
    rewrite lookup_insert_ne, (bool_decide_false (x = 7)) by done. destruct (decide (x = 8)) as [->|H8]; [by vm_compute|].
    rewrite lookup_singleton_ne by done. cbn. by rewrite !bool_decide_false.
  - apply NoDup_cons. split; [by intros [?|[]%elem_of_nil]%elem_of_cons|apply NoDup_singleton].
  - intros a Ha. assert (a = 7 \/ a = 8) as [->| ->] by (apply elem_of_cons in Ha as [->|[->|[]%elem_of_nil]%elem_of_cons]; auto);
      (split; [done|]); eexists; (split; [reflexivity|]); by eapply rx_app_ok.
  - intros a b i j Ha Hb Hi Hj. destruct (rx_app a i Ha Hi) as [[-> ->]|[-> ->]], (rx_app b j Hb Hj) as [[-> ->]|[-> ->]]; done.
  - apply NoDup_singleton.
  - intros sw [->|[]%elem_of_nil]%elem_of_cons. by eexists.
  - intros x y s1 s2 [->|[]%elem_of_nil]%elem_of_cons [->|[]%elem_of_nil]%elem_of_cons. done.
  - intros sw s Hs. cbn in Hs. apply lookup_singleton_Some in Hs as [<- <-]. split; try done.
    + apply NoDup_cons. split; [by intros [?|[]%elem_of_nil]%elem_of_cons|apply NoDup_singleton].
    + apply rx_tab_ok. apply elem_of_dom. by eexists.
    + intros a Ha. split; [done|]. apply elem_of_cons in Ha as [->|[->|[]%elem_of_nil]%elem_of_cons]; by vm_compute.
  - intros sw s Hn Hs. cbn in Hs. apply lookup_singleton_Some in Hs as [<- <-]. destruct Hn. left.
  - intros sw s a _ Hs _ Ha _. cbn in Hs. apply lookup_singleton_Some in Hs as [<- <-]. done.
Qed.

Lemma rx_all_purgeable a : purgeable a rx.
Proof. intros sw s _ Hs. cbn in Hs. apply lookup_singleton_Some in Hs as [<- <-]. exact (rx_purgeable a). Qed.

(** ** Runs *)

Lemma run_ok_cons (o : op) l (c c' : ctrl_hdl sw_tabs) : exec o c = Some c' -> op_ok o c -> run_ok l c' -> run_ok (o :: l) c.
Proof. intros E Ho Hl. split; [done|]. intros c1 E1. rewrite E in E1. by simplify_eq. Qed.

(** Application 7 leaves, application 1 connects, registers for all switches and learns of the one that is there, a port changes,
    and the switch leaves. *)
Definition rx_ops_run : list (op (T := sw_tabs)) :=
  [OpUnreg [97]; OpConn 1; OpReg 1 [99] C_APP_ALL_SW 11 [] (Some c_remote_app_event); OpReplay 1;
   OpEvent 10 (Some [1; 12; 0; 64; 0; 0; 0; 7]) C_PORT_CHANGE None (PortChg rx_port None 2); OpDel 10].

Lemma rx_run_ok : run_ok rx_ops_run rx.
Proof.
  eapply run_ok_cons; [vm_compute; reflexivity|right; exists 7, rx_app7; split_and!; [left|done|done|exact (rx_all_purgeable 7)]|].
  eapply run_ok_cons; [vm_compute; reflexivity|split; [done|reflexivity]|].
  eapply run_ok_cons; [vm_compute; reflexivity| |].
  { split; [done|]. split; [by intros [?|[]%elem_of_nil]%elem_of_cons|]. eexists. split; [vm_compute; reflexivity|]. split; [cbn; unfold C_MAX_APP_STRLEN; lia|].
    split; [done|by left|done]. }
  eapply run_ok_cons; [vm_compute; reflexivity|right; left|].
  eapply run_ok_cons; [vm_compute; reflexivity| |].
  { split; [done|]. split; [done|]. eexists. split; [vm_compute; reflexivity|]. vm_compute. by eexists. }
  eapply run_ok_cons; [vm_compute; reflexivity| |done].
  split; [left|]. eexists. split; [vm_compute; reflexivity|]. by right.
Qed.


(** ** Single operations *)

Definition rx_port_msg : list Z := [1; 12; 0; 64; 0; 0; 0; 7].


(** Application 1 has connected. *)
Definition rx1 : ctrl_hdl sw_tabs := c_app_alloc 1 rx.

Lemma rx1_inv : inv rx1.
Proof. apply (alloc_inv 1); [exact rx_inv|reflexivity]. Qed.

Lemma rx1_name_free : name_free [99] rx1.
Proof.
  intros a i Ha Hi. assert (a = 7 \/ a = 8) as [->| ->] by (apply elem_of_cons in Ha as [->|[->|[]%elem_of_nil]%elem_of_cons]; auto);
    vm_compute in Hi; simplify_eq; by vm_compute.
Qed.

Lemma register_spec_witness : exists c',
  register_locked 1 true [99] 0 11 [htonll 9] (Some c_remote_app_event) rx1 = Some (0, c') /\ inv c' /\ apps_all c' = [7; 8; 1].
Proof.
  destruct (register_spec 1 true (mk_app 0 0 0 0 0 None c_app_event_blackhole unreg) [99] 0 11 [htonll 9] (Some c_remote_app_event) rx1) as (c' & E & I & A & _);
    [exact rx1_inv|done| |reflexivity|exact rx1_name_free| |by right|].
  - by intros [?|[?|[]%elem_of_nil]%elem_of_cons]%elem_of_cons.
  - split; [cbn; unfold C_MAX_APP_STRLEN; lia|]. split; [done|right; by eexists|done].
  - exists c'. exact (conj E (conj I A)).
Defined.


Lemma replay_spec_witness : exists d, c_switch_replay_all 7 rx = Some (with_ (refs rx) (sws rx) (out rx ++ d) rx) /\ d <> [].
Proof.
  destruct (replay_spec 7 rx_app7 rx) as (d & E & Hd & _); [exact rx_inv|left|reflexivity|]. exists d. split; [exact E|].
  rewrite Hd by (vm_compute; done). vm_compute. discriminate.
Defined.

Lemma owned_tables_purged_witness : exists g', GroupTbl.app_unregister_owned ex_hdl 7 (at_refs {[7 := 3]} rx_grp) = Some g' /\
  tab_clean 7 (mk_tabs g' (tb_fp rx_tabs)).
Proof.
  destruct (owned_tables_purged ex_hdl 2 7 {[7 := 3]} rx_tabs) as (g' & E & _ & C & _).
  - apply rx_tab_ok. apply elem_of_dom. by eexists.
  - exact (rx_purgeable 7).
  - by eexists.
  - intros x n Hx. apply lookup_singleton_Some in Hx as [<- <-]. rewrite rx_owned. by vm_compute.
  - exists g'. exact (conj E C).
Defined.

(** ** What the conditions of the operations exclude *)

(** A request with a name that is taken leaves a reference to the application that has it. *)
Example taken_name_leaks : exists c', register_locked 1 true [97] C_APP_ALL_SW 11 [] (Some c_remote_app_event) rx1 = Some (-1, c') /\
  refs rx1 !! 7 = Some 3 /\ refs c' !! 7 = Some 4.
Proof. eexists. split; [vm_compute; reflexivity|]. by vm_compute. Qed.

Definition no_ctrl : ctrl_hdl sw_tabs := mk_ctrl 0 [] [] 0 ∅ ∅ ∅ [].
Definition new_tabs : sw_tabs := mk_tabs (GroupTbl.mk_sw (empty_switch ∅ ∅ ∅) false 9 true false false ∅ ∅ []) (L2Fdb.mk_fp None false ∅ []).
Definition new_sw : c_switch sw_tabs := mk_sw 9 0 0 SW_REGISTERED rx_info [] [] rx_fp 0 0 new_tabs.

(** A switch that leaves before it was published, when one application registered before it came and one after: the reference that the
    first never took is dropped, and the first is freed although it is registered. *)
Example early_departure_frees : exists c',
  run [OpConn 7; OpReg 7 [97] C_APP_ALL_SW 3 [] (Some c_remote_app_event); OpSwitch 10 new_sw; OpAdd 10 5;
       OpConn 8; OpReg 8 [98] C_APP_ALL_SW 3 [] (Some c_remote_app_event); OpDel 10] no_ctrl = Some c' /\
  apps_all c' = [7; 8] /\ apps c' !! 7 = None.
Proof. eexists. split; [vm_compute; reflexivity|]. by vm_compute. Qed.

End RegEx.
