(* ===== verification/Act.v ===== *)
(** * Actions and instructions: the makers (mul_of_msg.c, mul_of_msg.h)

    Applications build the instructions of a flow by a sequence of calls that append to a buffer.  In OpenFlow 1.3 actions lie in a
    write or an apply instruction, which is opened by the first action and whose length is brought up to date by every further one.

    The buffer is [act_base] with the number [md_gen] of its allocation; a pointer into it is an offset, the pointers to the open
    instructions are an allocation with an offset, so that a pointer into a freed buffer is seen.  A maker writes its structure
    through a pointer to [act_wr_ptr]: a function of the bytes from there on.  [None] is a stray access or a failed assertion. *)
From stdpp Require Import base list.
From Stdlib Require Import ZArith Lia.
From S2P Require Import Prelude Bytes Flow Oxm.
#[local] Open Scope Z_scope.

Module Act.
Import Bytes Flow Oxm.

Definition MUL_ACT_BUF_SZ : nat := 4096.
Definition OF_MAX_MISS_SEND_LEN : Z := 1518.
Definition OFPCML_NO_BUFFER : Z := 0xffff.
Definition ETH_TYPE_PBB : Z := 0x88e7.

Definition OFPIT_GOTO_TABLE : Z := 1.
Definition OFPIT_WRITE_METADATA : Z := 2.
Definition OFPIT_WRITE_ACTIONS : Z := 3.
Definition OFPIT_APPLY_ACTIONS : Z := 4.
Definition OFPIT_CLEAR_ACTIONS : Z := 5.
Definition OFPIT_METER : Z := 6.
Definition OFPIT_EXPERIMENTER : Z := 0xffff.

Definition OFPP131_IN_PORT : Z := 0xfffffff8.
Definition OFPP131_ALL : Z := 0xfffffffc.
Definition OFPP131_CONTROLLER : Z := 0xfffffffd.
Definition OF_SEND_IN_PORT : Z := OFPP131_IN_PORT.
Definition OF_ALL_PORTS : Z := OFPP131_ALL.
Definition OFPP_IN_PORT : Z := 0xfff8.
Definition OFPP_ALL : Z := 0xfffc.
Definition OFPP_CONTROLLER : Z := 0xfffd.

Definition OFPAT131_OUTPUT : Z := 0.
Definition OFPAT131_COPY_TTL_OUT : Z := 11.
Definition OFPAT131_COPY_TTL_IN : Z := 12.
Definition OFPAT131_MPLS_TTL : Z := 15.
Definition OFPAT131_DEC_MPLS_TTL : Z := 16.
Definition OFPAT131_PUSH_VLAN : Z := 17.
Definition OFPAT131_POP_VLAN : Z := 18.
Definition OFPAT131_PUSH_MPLS : Z := 19.
Definition OFPAT131_POP_MPLS : Z := 20.
Definition OFPAT131_SET_QUEUE : Z := 21.
Definition OFPAT131_GROUP : Z := 22.
Definition OFPAT131_SET_NW_TTL : Z := 23.
Definition OFPAT131_DEC_NW_TTL : Z := 24.
Definition OFPAT131_SET_FIELD : Z := 25.
Definition OFPAT131_PUSH_PBB : Z := 26.
Definition OFPAT131_POP_PBB : Z := 27.

(** Of OpenFlow 1.0. *)
Definition OFPAT_OUTPUT : Z := 0.
Definition OFPAT_SET_VLAN_VID : Z := 1.
Definition OFPAT_SET_VLAN_PCP : Z := 2.
Definition OFPAT_STRIP_VLAN : Z := 3.
Definition OFPAT_SET_DL_SRC : Z := 4.
Definition OFPAT_SET_DL_DST : Z := 5.
Definition OFPAT_SET_NW_SRC : Z := 6.
Definition OFPAT_SET_NW_DST : Z := 7.
Definition OFPAT_SET_NW_TOS : Z := 8.
Definition OFPAT_SET_TP_SRC : Z := 9.
Definition OFPAT_SET_TP_DST : Z := 10.

(** ** The buffer *)

Record mul_act_mdata := mk_md {
  act_base : list Z; md_gen : nat; act_wr_ptr : nat; act_inst_wr_ptr : option (nat * nat); act_inst_app_ptr : option (nat * nat);
  buf_len : nat; only_acts : bool; act_inst_type : Z; inst_bm : Z; act_bm : Z; setf_bm : list Z }.

Definition set_base (b : list Z) (m : mul_act_mdata) : mul_act_mdata :=
  mk_md b (md_gen m) (act_wr_ptr m) (act_inst_wr_ptr m) (act_inst_app_ptr m) (buf_len m) (only_acts m) (act_inst_type m)
    (inst_bm m) (act_bm m) (setf_bm m).
Definition set_wr_ptr (w : nat) (m : mul_act_mdata) : mul_act_mdata :=
  mk_md (act_base m) (md_gen m) w (act_inst_wr_ptr m) (act_inst_app_ptr m) (buf_len m) (only_acts m) (act_inst_type m)
    (inst_bm m) (act_bm m) (setf_bm m).
Definition set_inst_wr (p : option (nat * nat)) (m : mul_act_mdata) : mul_act_mdata :=
  mk_md (act_base m) (md_gen m) (act_wr_ptr m) p (act_inst_app_ptr m) (buf_len m) (only_acts m) (act_inst_type m)
    (inst_bm m) (act_bm m) (setf_bm m).
Definition set_inst_app (p : option (nat * nat)) (m : mul_act_mdata) : mul_act_mdata :=
  mk_md (act_base m) (md_gen m) (act_wr_ptr m) (act_inst_wr_ptr m) p (buf_len m) (only_acts m) (act_inst_type m)
    (inst_bm m) (act_bm m) (setf_bm m).
Definition set_inst_type (t : Z) (m : mul_act_mdata) : mul_act_mdata :=
  mk_md (act_base m) (md_gen m) (act_wr_ptr m) (act_inst_wr_ptr m) (act_inst_app_ptr m) (buf_len m) (only_acts m) t
    (inst_bm m) (act_bm m) (setf_bm m).
Definition set_bms (ib ab : Z) (sb : list Z) (m : mul_act_mdata) : mul_act_mdata :=
  mk_md (act_base m) (md_gen m) (act_wr_ptr m) (act_inst_wr_ptr m) (act_inst_app_ptr m) (buf_len m) (only_acts m) (act_inst_type m)
    ib ab sb.
Definition set_only_acts (o : bool) (m : mul_act_mdata) : mul_act_mdata :=
  mk_md (act_base m) (md_gen m) (act_wr_ptr m) (act_inst_wr_ptr m) (act_inst_app_ptr m) (buf_len m) o (act_inst_type m)
    (inst_bm m) (act_bm m) (setf_bm m).

(** The bytes are not cleared. *)
Definition of_mact_mdata_reset (m : mul_act_mdata) : mul_act_mdata :=
  mk_md (act_base m) (md_gen m) 0 None None (buf_len m) false 0 0 0 [0; 0].
Definition of_mact_mdata_init (len : nat) (m : mul_act_mdata) : mul_act_mdata :=
  let m := of_mact_mdata_reset m in
  mk_md (act_base m) (md_gen m) (act_wr_ptr m) (act_inst_wr_ptr m) (act_inst_app_ptr m) len (only_acts m) (act_inst_type m)
    (inst_bm m) (act_bm m) (setf_bm m).
Definition of_mact_alloc : mul_act_mdata :=
  of_mact_mdata_init MUL_ACT_BUF_SZ (mk_md (replicate MUL_ACT_BUF_SZ 0) 0 0 None None 0 false 0 0 0 [0; 0]).
Definition of_mact_mdata_reset_act_wr_inst (m : mul_act_mdata) : mul_act_mdata := set_inst_wr None m.

Definition of_mact_buf_room (m : mul_act_mdata) : nat :=
  if (buf_len m <? act_wr_ptr m)%nat then 0 else buf_len m - act_wr_ptr m.
Definition of_mact_len (m : mul_act_mdata) : nat := act_wr_ptr m.

(** The new buffer has room for the rest of the old one and [len] bytes; that many bytes are copied from the start. *)
Definition of_check_realloc_act (len : nat) (m : mul_act_mdata) : option mul_act_mdata :=
  let old_room := of_mact_buf_room m in
  if (old_room <? len)%nat then
    copied ← rd (act_base m) 0 old_room;
    Some (mk_md (copied ++ replicate len 0) (S (md_gen m)) old_room (act_inst_wr_ptr m) (act_inst_app_ptr m) (old_room + len)
            (only_acts m) (act_inst_type m) (inst_bm m) (act_bm m) (setf_bm m))
  else Some m.

(** A structure of [len] bytes is written at [act_wr_ptr] by [f], which gets the bytes from there on. *)
Definition emit (len : nat) (f : list Z -> option (list Z)) (m : mul_act_mdata) : option mul_act_mdata :=
  m ← of_check_realloc_act len m;
  p ← f (drop (act_wr_ptr m) (act_base m));
  Some (set_wr_ptr (act_wr_ptr m + len) (set_base (take (act_wr_ptr m) (act_base m) ++ p) m)).

(** [->type] and [->len]. *)
Definition put_head (type len : Z) (p : list Z) : option (list Z) :=
  p ← wr_le p 0 2 (htons type); wr_le p 2 2 (htons (u16 len)).

(** ** Makers of OpenFlow 1.0 *)

Definition of_make_action_output (eoport : Z) (m : mul_act_mdata) : option (mul_act_mdata * Z) :=
  let oport := if eoport =? OF_ALL_PORTS then OFPP_ALL else if eoport =? OF_SEND_IN_PORT then OFPP_IN_PORT else u16 eoport in
  let oport := if oport =? 0 then OFPP_CONTROLLER else oport in
  m ← emit 8 (fun p => p ← put_head OFPAT_OUTPUT 8 p; p ← wr_le p 4 2 (htons oport);
                       wr_le p 6 2 (if oport =? OFPP_CONTROLLER then htons OF_MAX_MISS_SEND_LEN else 0)) m;
  Some (m, 8).

Definition of_make_action_set_vid (vid : Z) (m : mul_act_mdata) : option (mul_act_mdata * Z) :=
  m ← emit 8 (fun p => p ← put_head OFPAT_SET_VLAN_VID 8 p; wr_le p 4 2 (htons vid)) m; Some (m, 8).
Definition of_make_action_strip_vlan (m : mul_act_mdata) : option (mul_act_mdata * Z) :=
  m ← emit 8 (put_head OFPAT_STRIP_VLAN 8) m; Some (m, 8).
Definition of_make_action_set_dmac (dmac : list Z) (m : mul_act_mdata) : option (mul_act_mdata * Z) :=
  m ← emit 16 (fun p => p ← put_head OFPAT_SET_DL_DST 16 p; wr p 4 (take 6 dmac)) m; Some (m, 16).
Definition of_make_action_set_smac (smac : list Z) (m : mul_act_mdata) : option (mul_act_mdata * Z) :=
  m ← emit 16 (fun p => p ← put_head OFPAT_SET_DL_SRC 16 p; wr p 4 (take 6 smac)) m; Some (m, 16).
Definition of_make_action_set_vlan_pcp (vlan_pcp : Z) (m : mul_act_mdata) : option (mul_act_mdata * Z) :=
  m ← emit 8 (fun p => p ← put_head OFPAT_SET_VLAN_PCP 8 p; wr p 4 [Z.land vlan_pcp 7]) m; Some (m, 8).
Definition of_make_action_set_nw_ip (ip type : Z) (m : mul_act_mdata) : option (mul_act_mdata * Z) :=
  m ← emit 8 (fun p => p ← put_head type 8 p; wr_le p 4 4 (htonl ip)) m; Some (m, 8).
Definition of_make_action_set_nw_saddr (nw_saddr : Z) := of_make_action_set_nw_ip nw_saddr OFPAT_SET_NW_SRC.
Definition of_make_action_set_nw_daddr (nw_daddr : Z) := of_make_action_set_nw_ip nw_daddr OFPAT_SET_NW_DST.
Definition of_make_action_set_nw_tos (tos : Z) (m : mul_act_mdata) : option (mul_act_mdata * Z) :=
  m ← emit 8 (fun p => p ← put_head OFPAT_SET_NW_TOS 8 p; wr p 4 [Z.land tos 127]) m; Some (m, 8).
Definition of_make_action_set_tp_port (is_src : bool) (port : Z) (m : mul_act_mdata) : option (mul_act_mdata * Z) :=
  let type := if is_src then OFPAT_SET_TP_SRC else OFPAT_SET_TP_DST in
  m ← emit 8 (fun p => p ← put_head type 8 p; wr_le p 4 2 (htons port)) m; Some (m, 8).
Definition of_make_action_set_tp_udp_sport (port : Z) := of_make_action_set_tp_port true port.
Definition of_make_action_set_tp_udp_dport (port : Z) := of_make_action_set_tp_port false port.
Definition of_make_action_set_tp_tcp_sport (port : Z) := of_make_action_set_tp_port true port.
Definition of_make_action_set_tp_tcp_dport (port : Z) := of_make_action_set_tp_port false port.

(** ** Instructions of OpenFlow 1.3 *)

Definition of131_set_inst_action_type (type : Z) (m : mul_act_mdata) : option (mul_act_mdata * Z) :=
  if negb ((type =? OFPIT_WRITE_ACTIONS) || (type =? OFPIT_APPLY_ACTIONS)) then None
  else if ((type =? OFPIT_WRITE_ACTIONS) && bool_decide (is_Some (act_inst_wr_ptr m))) ||
          ((type =? OFPIT_APPLY_ACTIONS) && bool_decide (is_Some (act_inst_app_ptr m))) then Some (m, UINT64_MAX)
  else Some (set_inst_type type m, 0).

Definition of131_make_inst_actions (type : Z) (m : mul_act_mdata) : option (mul_act_mdata * Z) :=
  if only_acts m then Some (m, 0)
  else if ((type =? OFPIT_WRITE_ACTIONS) && bool_decide (is_Some (act_inst_wr_ptr m))) ||
          ((type =? OFPIT_APPLY_ACTIONS) && bool_decide (is_Some (act_inst_app_ptr m))) then Some (m, 0)
  else
    m ← emit 8 (put_head type 8) m;
    let p := Some (md_gen m, act_wr_ptr m - 8)%nat in
    if type =? OFPIT_WRITE_ACTIONS then Some (set_inst_wr p m, 8)
    else if type =? OFPIT_APPLY_ACTIONS then Some (set_inst_app p m, 8)
    else None.

Definition __of131_make_inst_actions (m : mul_act_mdata) : option (mul_act_mdata * Z) :=
  let m := if negb (act_inst_type m =? OFPIT_WRITE_ACTIONS) && negb (act_inst_type m =? OFPIT_APPLY_ACTIONS)
           then set_inst_type OFPIT_APPLY_ACTIONS m else m in
  of131_make_inst_actions (act_inst_type m) m.

Definition open_inst (m : mul_act_mdata) : option (nat * nat) :=
  if act_inst_type m =? OFPIT_WRITE_ACTIONS then act_inst_wr_ptr m
  else if act_inst_type m =? OFPIT_APPLY_ACTIONS then act_inst_app_ptr m else None.

(** The instruction reaches to [act_wr_ptr]. *)
Definition of131_fini_inst_actions (m : mul_act_mdata) : option mul_act_mdata :=
  if only_acts m then Some m
  else
    match open_inst m with
    | None => Some m
    | Some (gen, off) =>
        if negb (gen =? md_gen m)%nat || (act_wr_ptr m <? off)%nat then None
        else b ← wr_le (act_base m) (off + 2) 2 (htons (u16 (Z.of_nat (act_wr_ptr m - off)))); Some (set_base b m)
    end.

Definition has_bit (bm bit : Z) : bool := negb (Z.land bm (Z.shiftl 1 bit) =? 0).

(** An instruction that may occur once. *)
Definition add_inst (type : Z) (len : nat) (f : list Z -> option (list Z)) (m : mul_act_mdata) : option (mul_act_mdata * Z) :=
  if has_bit (inst_bm m) type then Some (m, 0)
  else
    let m := set_bms (Z.lor (inst_bm m) (Z.shiftl 1 type)) (act_bm m) (setf_bm m) m in
    m ← emit len (fun p => p ← put_head type (Z.of_nat len) p; f p) m; Some (m, Z.of_nat len).

Definition of131_make_inst_goto (table_id : Z) := add_inst OFPIT_GOTO_TABLE 8 (fun p => wr p 4 [table_id]).
Definition of131_make_inst_meter (meter : Z) := add_inst OFPIT_METER 8 (fun p => wr_le p 4 4 (htonl meter)).
Definition of131_make_inst_wr_meta (metadata metadata_mask : Z) :=
  add_inst OFPIT_WRITE_METADATA 24 (fun p => p ← wr_le p 8 8 (htonll metadata); wr_le p 16 8 (htonll metadata_mask)).
Definition of131_make_inst_clear_act := add_inst OFPIT_CLEAR_ACTIONS 8 Some.

(** ** Actions of OpenFlow 1.3 *)

(** In a write instruction an action of each kind may occur once; [None] refuses another one. *)
Definition once_act (mask : Z) (m : mul_act_mdata) : option mul_act_mdata :=
  if act_inst_type m =? OFPIT_WRITE_ACTIONS then
    if Z.land (act_bm m) mask =? 0 then Some (set_bms (inst_bm m) (Z.lor (act_bm m) mask) (setf_bm m) m) else None
  else Some m.

Definition GET_BIT_IN_32MASK (mask : list Z) (bit : Z) : bool :=
  Z.testbit (nth (Z.to_nat (bit / 32)) mask 0) (bit mod 32).
Definition SET_BIT_IN_32MASK (mask : list Z) (bit : Z) : list Z :=
  alter (fun w => Z.lor w (Z.shiftl 1 (bit mod 32))) (Z.to_nat (bit / 32)) mask.

Definition once_field (field : Z) (m : mul_act_mdata) : option mul_act_mdata :=
  if act_inst_type m =? OFPIT_WRITE_ACTIONS then
    if GET_BIT_IN_32MASK (setf_bm m) field then None
    else Some (set_bms (inst_bm m) (act_bm m) (SET_BIT_IN_32MASK (setf_bm m) field) m)
  else Some m.

Definition add_action (once : mul_act_mdata -> option mul_act_mdata) (len : nat) (f : list Z -> option (list Z)) (m : mul_act_mdata)
  : option (mul_act_mdata * Z) :=
  '(m, _) ← __of131_make_inst_actions m;
  match once m with
  | None => Some (m, 0)
  | Some m => m ← emit len f m; m ← of131_fini_inst_actions m; Some (m, Z.of_nat len)
  end.

Definition act_once (type : Z) := once_act (Z.shiftl 1 type).
Definition add_simple (type : Z) (f : list Z -> option (list Z)) := add_action (act_once type) 8 (fun p => p ← put_head type 8 p; f p).

Definition of131_make_action_output (oport : Z) : mul_act_mdata -> option (mul_act_mdata * Z) :=
  let oport := if oport =? 0 then OFPP131_CONTROLLER else oport in
  add_action (act_once OFPAT131_OUTPUT) 16 (fun p =>
    p ← put_head OFPAT131_OUTPUT 16 p; p ← wr_le p 4 4 (htonl oport);
    wr_le p 8 2 (if oport =? OFPP131_CONTROLLER then htons OFPCML_NO_BUFFER else htons OF_MAX_MISS_SEND_LEN)).

(** The structure of a set-field action: the header and one OXM field of [sz] bytes. *)
Definition setf_len (sz : Z) : nat := Z.to_nat (C_ALIGN_8B_LEN (4 + 4 + sz)).
Definition put_set_field (field sz : Z) (data : list Z) (p : list Z) : option (list Z) :=
  p ← put_head OFPAT131_SET_FIELD (Z.of_nat (setf_len sz)) p;
  '(p, _) ← oxm_put 0 field sz data (p, 4%nat); Some p.
Definition add_set_field (field sz : Z) (data : list Z) := add_action (once_field field) (setf_len sz) (put_set_field field sz data).

Definition of131_make_action_set_vid (vid : Z) :=
  add_set_field OFPXMT_OFB_VLAN_VID 2 (le_bytes 2 (htons (Z.lor (Z.land vid 0xfff) OFPVID_PRESENT))).
Definition of131_make_action_set_mpls_label (label : Z) :=
  add_set_field OFPXMT_OFB_MPLS_LABEL 4 (of_put_mpls_label_oxm (htonl label) 4).
Definition of131_make_action_set_mpls_tc (tc : Z) := add_set_field OFPXMT_OFB_MPLS_TC 1 [tc].
Definition of131_make_action_set_mpls_bos (bos : Z) := add_set_field OFPXMT_OFB_MPLS_BOS 1 [if bos =? 0 then 0 else 1].

Definition push_type (eth_type : Z) : option Z :=
  if (eth_type =? ETH_TYPE_VLAN) || (eth_type =? ETH_TYPE_SVLAN) then Some OFPAT131_PUSH_VLAN
  else if (eth_type =? ETH_TYPE_MPLS) || (eth_type =? ETH_TYPE_MPLS_MCAST) then Some OFPAT131_PUSH_MPLS
  else if eth_type =? ETH_TYPE_PBB then Some OFPAT131_PUSH_PBB else None.
Definition of131_make_action_push (eth_type : Z) (m : mul_act_mdata) : option (mul_act_mdata * Z) :=
  match push_type eth_type with
  | None => Some (m, 0)
  | Some ptype => add_simple ptype (fun p => wr_le p 4 2 (htons eth_type)) m
  end.
Definition of131_make_action_strip_mpls (eth_type : Z) := add_simple OFPAT131_POP_MPLS (fun p => wr_le p 4 2 (htons eth_type)).
Definition of131_make_action_set_mpls_ttl (ttl : Z) := add_simple OFPAT131_MPLS_TTL (fun p => wr p 4 [ttl]).
Definition of131_make_action_dec_mpls_ttl := add_simple OFPAT131_DEC_MPLS_TTL Some.
Definition of131_make_action_set_ip_ttl (ttl : Z) := add_simple OFPAT131_SET_NW_TTL (fun p => wr p 4 [ttl]).
Definition of131_make_action_dec_ip_ttl := add_simple OFPAT131_DEC_NW_TTL Some.

(** [1 << in ? OFPAT131_COPY_TTL_IN : OFPAT131_COPY_TTL_OUT] is [(1 << in) ? ... : ...]. *)
Definition cp_ttl_mask (inw : bool) : Z :=
  if negb (Z.shiftl 1 (if inw then 1 else 0) =? 0) then OFPAT131_COPY_TTL_IN else OFPAT131_COPY_TTL_OUT.
Definition of131_make_action_cp_ttl (inw : bool) :=
  add_action (once_act (cp_ttl_mask inw)) 8 (put_head (if inw then OFPAT131_COPY_TTL_IN else OFPAT131_COPY_TTL_OUT) 8).
Definition of131_make_action_strip_pbb := add_simple OFPAT131_POP_PBB Some.
Definition of131_make_action_strip_vlan := add_simple OFPAT131_POP_VLAN Some.
Definition of131_make_action_set_vlan_pcp (vlan_pcp : Z) := add_set_field OFPXMT_OFB_VLAN_PCP 1 [vlan_pcp].
Definition of131_make_action_set_dmac (dmac : list Z) := add_set_field OFPXMT_OFB_ETH_DST 6 (take 6 dmac).
Definition of131_make_action_set_smac (smac : list Z) := add_set_field OFPXMT_OFB_ETH_SRC 6 (take 6 smac).
Definition of131_make_action_set_eth_type (eth_type : Z) := add_set_field OFPXMT_OFB_ETH_TYPE 2 (le_bytes 2 (htons eth_type)).
Definition of131_make_action_set_ipv4_src (nw_saddr : Z) := add_set_field OFPXMT_OFB_IPV4_SRC 4 (le_bytes 4 (htonl nw_saddr)).
Definition of131_make_action_set_ipv4_dst (nw_daddr : Z) := add_set_field OFPXMT_OFB_IPV4_DST 4 (le_bytes 4 (htonl nw_daddr)).
Definition of131_make_action_set_ipv6_src (nw_saddr : list Z) := add_set_field OFPXMT_OFB_IPV6_SRC 16 (take 16 nw_saddr).
Definition of131_make_action_set_ipv6_dst (nw_daddr : list Z) := add_set_field OFPXMT_OFB_IPV6_DST 16 (take 16 nw_daddr).
Definition of131_make_action_set_nw_tos (tos : Z) := add_set_field OFPXMT_OFB_IP_DSCP 1 [Z.land tos 127].

Definition tp_field (ip_proto : Z) (is_src : bool) : option Z :=
  if ip_proto =? IP_TYPE_TCP then Some (if is_src then OFPXMT_OFB_TCP_SRC else OFPXMT_OFB_TCP_DST)
  else if ip_proto =? IP_TYPE_UDP then Some (if is_src then OFPXMT_OFB_UDP_SRC else OFPXMT_OFB_UDP_DST) else None.
Definition of131_make_action_set_tp_port (ip_proto : Z) (is_src : bool) (port : Z) (m : mul_act_mdata) : option (mul_act_mdata * Z) :=
  match tp_field ip_proto is_src with
  | None => Some (m, 0)
  | Some port_type => add_set_field port_type 2 (le_bytes 2 (htons port)) m
  end.
Definition of131_make_action_set_tp_udp_sport (port : Z) := of131_make_action_set_tp_port IP_TYPE_UDP true port.
Definition of131_make_action_set_tp_udp_dport (port : Z) := of131_make_action_set_tp_port IP_TYPE_UDP false port.
Definition of131_make_action_set_tp_tcp_sport (port : Z) := of131_make_action_set_tp_port IP_TYPE_TCP true port.
Definition of131_make_action_set_tp_tcp_dport (port : Z) := of131_make_action_set_tp_port IP_TYPE_TCP false port.

Definition of131_make_action_group (group : Z) := add_simple OFPAT131_GROUP (fun p => wr_le p 4 4 (htonl group)).
Definition of131_make_action_set_queue (queue : Z) := add_simple OFPAT131_SET_QUEUE (fun p => wr_le p 4 4 (htonl queue)).
Definition of131_make_action_set_tunnel_id (tunnel_id : Z) := add_set_field OFPXMT_OFB_TUNNEL_ID 8 (le_bytes 8 (htonll tunnel_id)).

(** ** Bands of meters *)

Definition OFPMBT_DROP : Z := 1.
Definition OFPMBT_DSCP_REMARK : Z := 2.
Record of_meter_band_parms := mk_bparms { bp_rate : Z; bp_burst_size : Z; bp_prec_level : Z }.

Definition of131_make_meter_band_common (type : Z) (bparms : of_meter_band_parms) (p : list Z) : option (list Z) :=
  p ← wr_le p 0 2 (htons type); p ← wr_le p 4 4 (htonl (bp_rate bparms)); wr_le p 8 4 (htonl (bp_burst_size bparms)).
Definition of131_make_meter_band_drop (bparms : of_meter_band_parms) (m : mul_act_mdata) : option (mul_act_mdata * Z) :=
  m ← emit 16 (fun p => p ← of131_make_meter_band_common OFPMBT_DROP bparms p; wr_le p 2 2 (htons 16)) m; Some (m, 16).
Definition of131_make_meter_band_mark_dscp (bparms : of_meter_band_parms) (m : mul_act_mdata) : option (mul_act_mdata * Z) :=
  m ← emit 16 (fun p => p ← of131_make_meter_band_common OFPMBT_DSCP_REMARK bparms p; p ← wr p 12 [u8 (bp_prec_level bparms)];
                        wr_le p 2 2 (htons 16)) m; Some (m, 16).

End Act.
