(* ===== verification/ActParse.v ===== *)
(** * Actions and instructions: parsing, checking and applying (mul_of_msg.c)

    A list of instructions is walked by [of131_parse_instructions], the actions in it by [of131_parse_actions], with a table of
    handlers.  The check handlers decide whether a switch can execute the actions and, when the caller passes a flow, apply
    their effects on it.

    Handlers get a pointer to the structure: its offset in the buffer.  Their results are ignored by the walk, they report errors in [res].
    Byte order is converted in place and back.  A NULL handler is [None]; the call-backs of the checker are functions of the
    caller.  [None] is a stray access; the walks are bounded by a count, which the fuel follows. *)
From stdpp Require Import base list.
From Stdlib Require Import ZArith Lia.
From S2P Require Import Prelude Bytes Flow Oxm Act.
#[local] Open Scope Z_scope.

Module ActParse.
Import Bytes Flow Oxm Act.

Definition OFP_MAX_INSTRUCTIONS : Z := 6.
Definition OFP_MAX_ACTIONS : Z := 32.
Definition IP_TYPE_SCTP : Z := 132.

(** What a table of a switch supports. *)
Record of_flow_tbl_props := mk_props {
  bm_inst : Z; bm_wr_actions : Z; bm_app_actions : Z; bm_wr_set_field : list Z; bm_app_set_field : list Z }.

Record ofp_inst_check_args := mk_ca {
  ca_fl : option flow; group_act_check : bool; tbl_prop : option of_flow_tbl_props; grp_prop : option Z; check_setf_supp : bool;
  inst_local : bool; grp_list : list Z; meter_list : list Z; out_port : Z; group_id : Z;
  check_port : option (Z -> bool); check_add_group : option (Z -> list Z -> bool * list Z);
  check_add_meter : option (Z -> list Z -> bool * list Z); get_v2p_tbl : option (Z -> option Z) }.

Definition upd_ca_fl (f : flow -> flow) (u : ofp_inst_check_args) : ofp_inst_check_args :=
  mk_ca (f <$> ca_fl u) (group_act_check u) (tbl_prop u) (grp_prop u) (check_setf_supp u) (inst_local u) (grp_list u) (meter_list u)
    (out_port u) (group_id u) (check_port u) (check_add_group u) (check_add_meter u) (get_v2p_tbl u).
Definition set_ca_local (u : ofp_inst_check_args) : ofp_inst_check_args :=
  mk_ca (ca_fl u) (group_act_check u) (tbl_prop u) (grp_prop u) (check_setf_supp u) true (grp_list u) (meter_list u)
    (out_port u) (group_id u) (check_port u) (check_add_group u) (check_add_meter u) (get_v2p_tbl u).
Definition set_ca_lists (g m : list Z) (u : ofp_inst_check_args) : ofp_inst_check_args :=
  mk_ca (ca_fl u) (group_act_check u) (tbl_prop u) (grp_prop u) (check_setf_supp u) (inst_local u) g m
    (out_port u) (group_id u) (check_port u) (check_add_group u) (check_add_meter u) (get_v2p_tbl u).
Definition set_ca_out (p g : Z) (u : ofp_inst_check_args) : ofp_inst_check_args :=
  mk_ca (ca_fl u) (group_act_check u) (tbl_prop u) (grp_prop u) (check_setf_supp u) (inst_local u) (grp_list u) (meter_list u)
    p g (check_port u) (check_add_group u) (check_add_meter u) (get_v2p_tbl u).

(** The context of a walk, without the text buffer of the printing handlers. *)
Record ofp_inst_parser_arg := mk_pa {
  pa_fl : option flow; pa_mask : option flow; res : Z; u_arg : option ofp_inst_check_args; act_set : bool;
  inst_wr : bool; inst_app : bool; inst_goto : bool; inst_meter : bool; inst_clear : bool; inst_wr_meta : bool; mod_fl_flag : bool;
  push_mpls : Z; push_vlan : Z; push_pbb : Z }.

Definition set_res (r : Z) (dp : ofp_inst_parser_arg) : ofp_inst_parser_arg :=
  mk_pa (pa_fl dp) (pa_mask dp) r (u_arg dp) (act_set dp) (inst_wr dp) (inst_app dp) (inst_goto dp) (inst_meter dp) (inst_clear dp)
    (inst_wr_meta dp) (mod_fl_flag dp) (push_mpls dp) (push_vlan dp) (push_pbb dp).
Definition set_uarg (u : option ofp_inst_check_args) (dp : ofp_inst_parser_arg) : ofp_inst_parser_arg :=
  mk_pa (pa_fl dp) (pa_mask dp) (res dp) u (act_set dp) (inst_wr dp) (inst_app dp) (inst_goto dp) (inst_meter dp) (inst_clear dp)
    (inst_wr_meta dp) (mod_fl_flag dp) (push_mpls dp) (push_vlan dp) (push_pbb dp).
Definition set_push (mpls vlan pbb : Z) (dp : ofp_inst_parser_arg) : ofp_inst_parser_arg :=
  mk_pa (pa_fl dp) (pa_mask dp) (res dp) (u_arg dp) (act_set dp) (inst_wr dp) (inst_app dp) (inst_goto dp) (inst_meter dp) (inst_clear dp)
    (inst_wr_meta dp) (mod_fl_flag dp) mpls vlan pbb.
Definition set_insts (aset wr app goto meter clear meta : bool) (dp : ofp_inst_parser_arg) : ofp_inst_parser_arg :=
  mk_pa (pa_fl dp) (pa_mask dp) (res dp) (u_arg dp) aset wr app goto meter clear meta
    (mod_fl_flag dp) (push_mpls dp) (push_vlan dp) (push_pbb dp).
Definition fail (dp : ofp_inst_parser_arg) : ofp_inst_parser_arg := set_res (-1) dp.

(** The buffer and the context. *)
Definition pstate := (list Z * ofp_inst_parser_arg)%type.
Definition handler := nat -> pstate -> option pstate.

(** The handlers of set-field actions, [act_setf_*], and the others. *)
Record ofp_setf_parsers := mk_setf {
  act_setf_in_port : option handler; act_setf_dl_dst : option handler; act_setf_dl_src : option handler;
  act_setf_dl_type : option handler; act_setf_dl_vlan : option handler; act_setf_dl_vlan_pcp : option handler;
  act_setf_mpls_label : option handler; act_setf_mpls_tc : option handler; act_setf_mpls_bos : option handler;
  act_setf_ipv4_src : option handler; act_setf_ipv4_dst : option handler; act_setf_ipv6_src : option handler;
  act_setf_ipv6_dst : option handler; act_setf_ipv4_dscp : option handler; act_setf_tcp_src : option handler;
  act_setf_tcp_dst : option handler; act_setf_udp_dst : option handler; act_setf_udp_src : option handler;
  act_setf_tunnel : option handler }.

Record ofp_act_parsers := mk_acts {
  act_output : option handler; act_push : option handler; act_pop_vlan : option handler; act_pop_mpls : option handler;
  act_set_mpls_ttl : option handler; act_dec_mpls_ttl : option handler; act_pop_pbb : option handler; act_set_queue : option handler;
  act_set_grp : option handler; act_set_nw_ttl : option handler; act_dec_nw_ttl : option handler; act_set_field : option handler;
  act_cp_ttl_out : option handler; act_cp_ttl_in : option handler }.

Record ofp_inst_parsers := mk_insts {
  pre_proc : option (ofp_inst_parser_arg -> ofp_inst_parser_arg); no_inst : option (ofp_inst_parser_arg -> ofp_inst_parser_arg);
  post_proc : option (ofp_inst_parser_arg -> ofp_inst_parser_arg);
  goto_inst : option handler; wr_meta_inst : option handler; wr_act_inst : option handler; apply_act_inst : option handler;
  clear_act_inst : option handler; meter_inst : option handler; exp_inst : option handler }.

Definition call (h : option handler) (off : nat) (st : pstate) : option pstate :=
  match h with Some h => h off st | None => Some st end.

(** ** The walks *)

(** The table of the switch: which handler an OXM field goes to; the outer [None] is the default case. *)
Definition setf_handler (sp : ofp_setf_parsers) (field : Z) : option (option handler) :=
  if field =? OFPXMT_OFB_IN_PORT then Some (act_setf_in_port sp)
  else if field =? OFPXMT_OFB_ETH_DST then Some (act_setf_dl_dst sp)
  else if field =? OFPXMT_OFB_ETH_SRC then Some (act_setf_dl_src sp)
  else if field =? OFPXMT_OFB_VLAN_VID then Some (act_setf_dl_vlan sp)
  else if field =? OFPXMT_OFB_VLAN_PCP then Some (act_setf_dl_vlan_pcp sp)
  else if field =? OFPXMT_OFB_ETH_TYPE then Some (act_setf_dl_type sp)
  else if field =? OFPXMT_OFB_IPV4_SRC then Some (act_setf_ipv4_src sp)
  else if field =? OFPXMT_OFB_IPV4_DST then Some (act_setf_ipv4_dst sp)
  else if field =? OFPXMT_OFB_IPV6_SRC then Some (act_setf_ipv6_src sp)
  else if field =? OFPXMT_OFB_IPV6_DST then Some (act_setf_ipv6_dst sp)
  else if field =? OFPXMT_OFB_IP_DSCP then Some (act_setf_ipv4_dscp sp)
  else if field =? OFPXMT_OFB_TCP_SRC then Some (act_setf_tcp_src sp)
  else if field =? OFPXMT_OFB_UDP_SRC then Some (act_setf_udp_src sp)
  else if field =? OFPXMT_OFB_TCP_DST then Some (act_setf_tcp_dst sp)
  else if field =? OFPXMT_OFB_UDP_DST then Some (act_setf_udp_dst sp)
  else if field =? OFPXMT_OFB_MPLS_LABEL then Some (act_setf_mpls_label sp)
  else if field =? OFPXMT_OFB_MPLS_TC then Some (act_setf_mpls_tc sp)
  else if field =? OFPXMT_OFB_MPLS_BOS then Some (act_setf_mpls_bos sp)
  else if field =? OFPXMT_OFB_TUNNEL_ID then Some (act_setf_tunnel sp)
  else None.

(** [NTOH_OXM_HDR] and [HTON_OXM_HDR]: the header is converted in place. *)
Definition swap_oxm_hdr (oxm : nat) (buf : list Z) : option (list Z) := v ← rd_le buf oxm 4; wr_le buf oxm 4 (ntohl v).

Definition of131_parse_act_set_field_tlv (sp : ofp_setf_parsers) (ofp_sf : nat) (st : pstate) : option pstate :=
  let '(buf, dp) := st in
  let oxm := (ofp_sf + 4)%nat in
  buf ← swap_oxm_hdr oxm buf;
  oxm_class ← rd_le buf (oxm + 2) 2;
  if negb (oxm_class =? OFPXMC_OPENFLOW_BASIC) then buf ← swap_oxm_hdr oxm buf; Some (buf, dp)
  else
    field_hm ← rd_le buf (oxm + 1) 1;
    '(buf, dp) ← (match setf_handler sp (OFP_OXM_GHDR_FIELD field_hm) with Some h => call h oxm (buf, dp) | None => Some (buf, dp) end);
    buf ← swap_oxm_hdr oxm buf; Some (buf, dp).

(** The same for actions; [None] stops the walk. *)
Definition act_handler (ap : ofp_act_parsers) (type : Z) : option (option handler) :=
  if type =? OFPAT_OUTPUT then Some (act_output ap)
  else if type =? OFPAT131_PUSH_VLAN then Some (act_push ap)
  else if type =? OFPAT131_POP_VLAN then Some (act_pop_vlan ap)
  else if type =? OFPAT131_PUSH_MPLS then Some (act_push ap)
  else if type =? OFPAT131_POP_MPLS then Some (act_pop_mpls ap)
  else if type =? OFPAT131_PUSH_PBB then Some (act_push ap)
  else if type =? OFPAT131_POP_PBB then Some (act_pop_pbb ap)
  else if type =? OFPAT131_SET_FIELD then Some (act_set_field ap)
  else if type =? OFPAT131_GROUP then Some (act_set_grp ap)
  else if type =? OFPAT131_SET_NW_TTL then Some (act_set_nw_ttl ap)
  else if type =? OFPAT131_DEC_NW_TTL then Some (act_dec_nw_ttl ap)
  else if type =? OFPAT131_MPLS_TTL then Some (act_set_mpls_ttl ap)
  else if type =? OFPAT131_DEC_MPLS_TTL then Some (act_dec_mpls_ttl ap)
  else if type =? OFPAT131_COPY_TTL_OUT then Some (act_cp_ttl_out ap)
  else if type =? OFPAT131_COPY_TTL_IN then Some (act_cp_ttl_in ap)
  else if type =? OFPAT131_SET_QUEUE then Some (act_set_queue ap)
  else None.

Definition inst_handler (ip : ofp_inst_parsers) (type : Z) : option (option handler) :=
  if type =? OFPIT_GOTO_TABLE then Some (goto_inst ip)
  else if type =? OFPIT_WRITE_METADATA then Some (wr_meta_inst ip)
  else if type =? OFPIT_WRITE_ACTIONS then Some (wr_act_inst ip)
  else if type =? OFPIT_APPLY_ACTIONS then Some (apply_act_inst ip)
  else if type =? OFPIT_CLEAR_ACTIONS then Some (clear_act_inst ip)
  else if type =? OFPIT_METER then Some (meter_inst ip)
  else if type =? OFPIT_EXPERIMENTER then Some (exp_inst ip)
  else None.

(** Both loops: [n] counts the turns against [max], [len] is the [size_t] that is left; the result says whether the walk reached the
    end. *)
Fixpoint walk (select : Z -> option (option handler)) (max : Z) (fuel : nat) (n : Z) (off : nat) (len : Z) (st : pstate)
  : option (bool * pstate) :=
  match fuel with
  | O => None
  | S fuel =>
      if len =? 0 then Some (true, st)
      else if (max <? n) || negb (res st.2 =? 0) then Some (false, st)
      else
        type ← rd_le st.1 off 2;
        match select (ntohs type) with
        | None => Some (false, st)
        | Some h =>
            st ← call h off st;
            l ← rd_le st.1 (off + 2) 2;
            walk select max fuel (n + 1) (off + Z.to_nat (ntohs l)) (u64 (len - ntohs l)) st
        end
  end.

(** More turns than the count allows are not needed. *)
Definition walk_fuel (max : Z) : nat := Z.to_nat max + 3.

Definition of131_parse_actions (ap : ofp_act_parsers) (actions : nat) (act_len : Z) (st : pstate) : option pstate :=
  if act_len =? 0 then Some st
  else '(_, st) ← walk (act_handler ap) OFP_MAX_ACTIONS (walk_fuel OFP_MAX_ACTIONS) 0 actions act_len st; Some st.

Definition of_inst_parser_alloc (fl mask : option flow) (u : option ofp_inst_check_args) : ofp_inst_parser_arg :=
  mk_pa fl mask 0 u false false false false false false false
    (match u with Some u => bool_decide (is_Some (ca_fl u)) | None => false end) 0 0 0.

Definition opt_proc (f : option (ofp_inst_parser_arg -> ofp_inst_parser_arg)) (dp : ofp_inst_parser_arg) : ofp_inst_parser_arg :=
  match f with Some f => f dp | None => dp end.

Definition of131_parse_instructions (fl mask : option flow) (inst_list : list Z) (inst_len : Z) (ip : ofp_inst_parsers)
  (ap : ofp_act_parsers) (u : option ofp_inst_check_args) (acts_only : bool) : option pstate :=
  let dp := of_inst_parser_alloc fl mask u in
  if (inst_len =? 0) && bool_decide (is_Some (no_inst ip)) then Some (inst_list, opt_proc (no_inst ip) dp)
  else if acts_only then of131_parse_actions ap 0 inst_len (inst_list, dp)
  else
    let dp := opt_proc (pre_proc ip) dp in
    '(full, (buf, dp)) ← walk (inst_handler ip) OFP_MAX_INSTRUCTIONS (walk_fuel OFP_MAX_INSTRUCTIONS) 0 0 inst_len (inst_list, dp);
    Some (buf, if (full : bool) then opt_proc (post_proc ip) dp else dp).

(** ** What is supported *)

Definition of131_check_inst_supported (dp : ofp_inst_parser_arg) (type : Z) : bool :=
  match u_arg dp with
  | Some u => match tbl_prop u with Some prop => has_bit (bm_inst prop) type | None => true end
  | None => true
  end.

Definition of131_check_action_supported (dp : ofp_inst_parser_arg) (action : Z) : bool :=
  if OFPAT131_POP_PBB <? action then false
  else
    match u_arg dp with
    | None => true
    | Some u =>
        if group_act_check u then match grp_prop u with Some acts => has_bit (ntohl acts) action | None => true end
        else match tbl_prop u with
             | Some prop => has_bit (if act_set dp then bm_wr_actions prop else bm_app_actions prop) action
             | None => true
             end
    end.

Definition of131_check_setfield_supported (dp : ofp_inst_parser_arg) (oxm_field : Z) : bool :=
  match u_arg dp with
  | Some u =>
      if check_setf_supp u then
        match tbl_prop u with
        | Some prop => GET_BIT_IN_32MASK (if act_set dp then bm_wr_set_field prop else bm_app_set_field prop) oxm_field
        | None => true
        end
      else true
  | None => true
  end.

(** ** Checks of actions *)

Definition of131_check_act_output : handler := fun off '((buf, dp) : pstate) =>
  p ← rd_le buf (off + 4) 4;
  let bad := match u_arg dp with
             | Some u => match check_port u with Some f => negb (f (ntohl p)) | None => false end
             | None => false
             end in
  if (p =? 0) || bad then Some (buf, fail dp)
  else
    (* [u_arg] is used without a test *)
    dp ← (if ntohl p =? OFPP131_CONTROLLER then u ← u_arg dp; Some (set_uarg (Some (set_ca_local u)) dp) else Some dp);
    Some (buf, if mod_fl_flag dp then set_uarg ((fun u => set_ca_out (ntohl p) (group_id u) u) <$> u_arg dp) dp else dp).

Definition of131_check_push_action : handler := fun off '((buf, dp) : pstate) =>
  t ← rd_le buf off 2;
  let t := ntohs t in
  let ok dp := Some (buf, if of131_check_action_supported dp t then dp else fail dp) in
  if t =? OFPAT131_PUSH_VLAN then ok (set_push (push_mpls dp) (push_vlan dp + 1) (push_pbb dp) dp)
  else if t =? OFPAT131_PUSH_MPLS then ok (set_push (push_mpls dp + 1) (push_vlan dp) (push_pbb dp) dp)
  else if t =? OFPAT131_PUSH_PBB then ok (set_push (push_mpls dp) (push_vlan dp) (push_pbb dp + 1) dp)
  else Some (buf, fail dp).

Definition of131_check_pop_vlan_action : handler := fun _ '((buf, dp) : pstate) =>
  Some (buf, if of131_check_action_supported dp OFPAT131_POP_VLAN then set_push (push_mpls dp) (push_vlan dp - 1) (push_pbb dp) dp else fail dp).
Definition of131_check_pop_pbb_action : handler := fun _ '((buf, dp) : pstate) =>
  Some (buf, if of131_check_action_supported dp OFPAT131_POP_PBB then set_push (push_mpls dp) (push_vlan dp) (push_pbb dp - 1) dp else fail dp).
Definition of131_check_pop_mpls_action : handler := fun _ '((buf, dp) : pstate) =>
  Some (buf, if negb (of131_check_action_supported dp OFPAT131_POP_MPLS) || (push_mpls dp <=? 0) then fail dp
             else set_push (push_mpls dp - 1) (push_vlan dp) (push_pbb dp) dp).
(** [need_mpls]: the action needs an MPLS header. *)
Definition check_plain (type : Z) (need_mpls : bool) : handler := fun _ '((buf, dp) : pstate) =>
  Some (buf, if negb (of131_check_action_supported dp type) || (need_mpls && (push_mpls dp <=? 0)) then fail dp else dp).
Definition of131_check_dec_mpls_ttl : handler := check_plain OFPAT131_DEC_MPLS_TTL true.
Definition of131_check_set_mpls_ttl : handler := check_plain OFPAT131_MPLS_TTL true.
Definition of131_check_dec_nw_ttl : handler := check_plain OFPAT131_DEC_NW_TTL false.
Definition of131_check_set_nw_ttl : handler := check_plain OFPAT131_SET_NW_TTL false.
Definition of131_check_cp_ttl_out : handler := check_plain OFPAT131_COPY_TTL_OUT false.
Definition of131_check_cp_ttl_in : handler := check_plain OFPAT131_COPY_TTL_IN false.
Definition of131_check_set_queue : handler := check_plain OFPAT131_SET_QUEUE false.

Definition of131_check_group_act : handler := fun off '((buf, dp) : pstate) =>
  if negb (of131_check_action_supported dp OFPAT131_GROUP) then Some (buf, fail dp)
  else
    match u_arg dp with
    | None => Some (buf, dp)
    | Some u =>
        g ← rd_le buf (off + 4) 4;
        let g := ntohl g in
        let '(ok, l) := match check_add_group u with Some f => f g (grp_list u) | None => (true, grp_list u) end in
        let u := set_ca_lists l (meter_list u) u in
        let dp := set_uarg (Some u) dp in
        Some (buf, if negb ok then fail dp
                   else if mod_fl_flag dp then set_uarg (Some (set_ca_out (out_port u) g u)) dp else dp)
    end.

(** ** Checks of set-field actions *)

Definition mod_uflow (f : flow -> flow) (dp : ofp_inst_parser_arg) : ofp_inst_parser_arg :=
  if mod_fl_flag dp then set_uarg (upd_ca_fl f <$> u_arg dp) dp else dp.

(** The part all of them share: no mask, the field supported, then a test of the context, then the effect on the flow.  [get] reads
    the value from [oxm->data], where [early] says that the handler reads it before the tests. *)
Definition check_setf {A} (early : bool) (get : list Z -> nat -> option A) (field : Z) (need : ofp_inst_parser_arg -> bool)
  (f : A -> flow -> flow) : handler := fun oxm '((buf, dp) : pstate) =>
  _ ← (if early then x ← get buf (oxm + 4)%nat; Some () else Some ());
  field_hm ← rd_le buf (oxm + 1) 1;
  if negb (OFP_OXM_GHDR_HM field_hm =? 0) || negb (of131_check_setfield_supported dp field) || negb (need dp) then Some (buf, fail dp)
  else if mod_fl_flag dp then x ← get buf (oxm + 4)%nat; Some (buf, mod_uflow (f x) dp)
  else Some (buf, dp).

Definition any_ctx (dp : ofp_inst_parser_arg) : bool := true.
Definition in_vlan (dp : ofp_inst_parser_arg) : bool := 0 <? push_vlan dp.
Definition in_mpls (dp : ofp_inst_parser_arg) : bool := 0 <? push_mpls dp.
(** The match of the flow is for one of these types of frame. *)
Definition of_types (types : list Z) (dp : ofp_inst_parser_arg) : bool :=
  match pa_fl dp, pa_mask dp with
  | Some fl, Some mask => nz (dl_type mask) && existsb (fun t => dl_type fl =? htons t) types
  | _, _ => true
  end.

Definition of131_check_set_field_dl_dst_mod_uflow : handler :=
  check_setf false (fun b p => rd b p 6) OFPXMT_OFB_ETH_DST any_ctx set_dl_dst.
Definition of131_check_set_field_dl_src_mod_uflow : handler :=
  check_setf false (fun b p => rd b p 6) OFPXMT_OFB_ETH_SRC any_ctx set_dl_src.
Definition of131_check_set_field_dl_type_mod_uflow : handler :=
  check_setf true (fun b p => rd_le b p 2) OFPXMT_OFB_ETH_TYPE any_ctx set_dl_type.
Definition of131_check_set_field_dl_vlan_mod_uflow : handler :=
  check_setf false (fun b p => rd_le b p 2) OFPXMT_OFB_VLAN_VID in_vlan (fun v => set_dl_vlan (htons (Z.land (ntohs v) 0xfff))).
Definition of131_check_set_field_dl_vlan_pcp_mod_uflow : handler :=
  check_setf false (fun b p => rd_le b p 1) OFPXMT_OFB_VLAN_PCP in_vlan set_dl_vlan_pcp.

(** The length in the header tells the size of the label. *)
Definition of131_check_set_field_mpls_label_mod_uflow : handler := fun oxm st =>
  sz ← rd_le st.1 oxm 1;
  check_setf true (fun b p => of_get_mpls_label_oxm (drop p b) sz) OFPXMT_OFB_MPLS_LABEL in_mpls set_mpls_label oxm st.
Definition of131_check_set_field_mpls_tc_mod_uflow : handler :=
  check_setf false (fun b p => rd_le b p 1) OFPXMT_OFB_MPLS_TC in_mpls set_mpls_tc.
Definition of131_check_set_field_mpls_bos_mod_uflow : handler :=
  check_setf false (fun b p => rd_le b p 1) OFPXMT_OFB_MPLS_BOS in_mpls set_mpls_bos.
Definition of131_check_set_field_ipv4_src_mod_uflow : handler :=
  check_setf true (fun b p => rd_le b p 4) OFPXMT_OFB_IPV4_SRC (of_types [ETH_TYPE_IP; ETH_TYPE_ARP]) set_nw_src.
Definition of131_check_set_field_ipv4_dst_mod_uflow : handler :=
  check_setf true (fun b p => rd_le b p 4) OFPXMT_OFB_IPV4_DST (of_types [ETH_TYPE_IP; ETH_TYPE_ARP]) set_nw_dst.
Definition of131_check_set_field_ipv6_src : handler :=
  check_setf false (fun _ _ => Some tt) OFPXMT_OFB_IPV6_SRC (of_types [ETH_TYPE_IPV6]) (fun _ fl => fl).
Definition of131_check_set_field_ipv6_dst : handler :=
  check_setf false (fun _ _ => Some tt) OFPXMT_OFB_IPV6_DST (of_types [ETH_TYPE_IPV6]) (fun _ fl => fl).
Definition of131_check_set_field_ipv4_dscp_mod_uflow : handler :=
  check_setf true (fun b p => rd_le b p 1) OFPXMT_OFB_IP_DSCP (of_types [ETH_TYPE_IP]) set_nw_tos.

(** With a match the ports are checked against it and the flow is left as it is. *)
Definition of131_check_set_field_tp_port (oxm_field : Z) : handler := fun oxm '((buf, dp) : pstate) =>
  port ← rd_le buf (oxm + 4) 2;
  field_hm ← rd_le buf (oxm + 1) 1;
  Some (buf,
    if negb (OFP_OXM_GHDR_HM field_hm =? 0) || negb (of131_check_setfield_supported dp oxm_field) then fail dp
    else match pa_fl dp, pa_mask dp with
         | Some fl, Some mask =>
             if of_types [ETH_TYPE_IP; ETH_TYPE_IPV6] dp && nz (nw_proto mask) &&
                ((nw_proto fl =? IP_TYPE_TCP) || (nw_proto fl =? IP_TYPE_UDP) || (nw_proto fl =? IP_TYPE_SCTP)) then dp else fail dp
         | _, _ =>
             if (oxm_field =? OFPXMT_OFB_UDP_SRC) || (oxm_field =? OFPXMT_OFB_TCP_SRC) then mod_uflow (set_tp_src port) dp
             else if (oxm_field =? OFPXMT_OFB_TCP_DST) || (oxm_field =? OFPXMT_OFB_UDP_DST) then mod_uflow (set_tp_dst port) dp
             else dp
         end).
Definition of131_check_set_field_tp_udp_sport_mod_uflow : handler := of131_check_set_field_tp_port OFPXMT_OFB_UDP_SRC.
Definition of131_check_set_field_tp_udp_dport_mod_uflow : handler := of131_check_set_field_tp_port OFPXMT_OFB_UDP_DST.
Definition of131_check_set_field_tp_tcp_sport_mod_uflow : handler := of131_check_set_field_tp_port OFPXMT_OFB_TCP_SRC.
Definition of131_check_set_field_tp_tcp_dport_mod_uflow : handler := of131_check_set_field_tp_port OFPXMT_OFB_TCP_DST.

Definition check_setf_parsers : ofp_setf_parsers := {|
  act_setf_in_port := None;
  act_setf_dl_dst := Some of131_check_set_field_dl_dst_mod_uflow; act_setf_dl_src := Some of131_check_set_field_dl_src_mod_uflow;
  act_setf_dl_type := Some of131_check_set_field_dl_type_mod_uflow; act_setf_dl_vlan := Some of131_check_set_field_dl_vlan_mod_uflow;
  act_setf_dl_vlan_pcp := Some of131_check_set_field_dl_vlan_pcp_mod_uflow;
  act_setf_mpls_label := Some of131_check_set_field_mpls_label_mod_uflow; act_setf_mpls_tc := Some of131_check_set_field_mpls_tc_mod_uflow;
  act_setf_mpls_bos := Some of131_check_set_field_mpls_bos_mod_uflow; act_setf_ipv4_src := Some of131_check_set_field_ipv4_src_mod_uflow;
  act_setf_ipv4_dst := Some of131_check_set_field_ipv4_dst_mod_uflow; act_setf_ipv6_src := Some of131_check_set_field_ipv6_src;
  act_setf_ipv6_dst := Some of131_check_set_field_ipv6_dst; act_setf_ipv4_dscp := Some of131_check_set_field_ipv4_dscp_mod_uflow;
  act_setf_tcp_src := Some of131_check_set_field_tp_tcp_sport_mod_uflow; act_setf_tcp_dst := Some of131_check_set_field_tp_tcp_dport_mod_uflow;
  act_setf_udp_dst := Some of131_check_set_field_tp_udp_dport_mod_uflow; act_setf_udp_src := Some of131_check_set_field_tp_udp_sport_mod_uflow;
  act_setf_tunnel := None |}.

Definition of131_check_act_set_field : handler := of131_parse_act_set_field_tlv check_setf_parsers.

Definition of131_check_mod_act_parsers : ofp_act_parsers := {|
  act_output := Some of131_check_act_output; act_push := Some of131_check_push_action; act_pop_vlan := Some of131_check_pop_vlan_action;
  act_pop_mpls := Some of131_check_pop_mpls_action; act_set_mpls_ttl := Some of131_check_set_mpls_ttl;
  act_dec_mpls_ttl := Some of131_check_dec_mpls_ttl; act_pop_pbb := Some of131_check_pop_pbb_action;
  act_set_queue := Some of131_check_set_queue; act_set_grp := Some of131_check_group_act; act_set_nw_ttl := Some of131_check_set_nw_ttl;
  act_dec_nw_ttl := Some of131_check_dec_nw_ttl; act_set_field := Some of131_check_act_set_field;
  act_cp_ttl_out := Some of131_check_cp_ttl_out; act_cp_ttl_in := Some of131_check_cp_ttl_in |}.

(** ** Checks of instructions *)

Definition of131_check_meter_inst : handler := fun off '((buf, dp) : pstate) =>
  if inst_meter dp then Some (buf, fail dp)
  else
    let done dp := set_insts (act_set dp) (inst_wr dp) (inst_app dp) (inst_goto dp) true (inst_clear dp) (inst_wr_meta dp) dp in
    match u_arg dp with
    | Some u =>
        match check_add_meter u with
        | Some f =>
            m ← rd_le buf (off + 4) 4;
            let '(ok, l) := f (ntohl m) (meter_list u) in
            let dp := set_uarg (Some (set_ca_lists (grp_list u) l u)) dp in
            Some (buf, if ok then done dp else fail dp)
        | None => Some (buf, done dp)
        end
    | None => Some (buf, done dp)
    end.

(** The number of the table is translated in place. *)
Definition of131_check_goto_inst : handler := fun off '((buf, dp) : pstate) =>
  if inst_goto dp then Some (buf, fail dp)
  else
    type ← rd_le buf off 2;
    if negb (of131_check_inst_supported dp (ntohs type)) then Some (buf, fail dp)
    else
      t ← rd_le buf (off + 4) 1;
      buf ← match u_arg dp with
            | Some u => match get_v2p_tbl u with Some f => t ← f t; wr buf (off + 4) [u8 t] | None => Some buf end
            | None => Some buf
            end;
      t ← rd_le buf (off + 4) 1;
      let dp := set_insts (act_set dp) (inst_wr dp) (inst_app dp) true (inst_meter dp) (inst_clear dp) (inst_wr_meta dp) dp in
      Some (buf, mod_uflow (set_table_id t) dp).

Definition of131_check_wr_meta_inst : handler := fun off '((buf, dp) : pstate) =>
  type ← rd_le buf off 2;
  Some (buf, if inst_wr_meta dp || negb (of131_check_inst_supported dp (ntohs type)) then fail dp
             else set_insts (act_set dp) (inst_wr dp) (inst_app dp) (inst_goto dp) (inst_meter dp) (inst_clear dp) true dp).

(** An apply instruction is refused after a write instruction, not after another apply instruction. *)
Definition of131_check_act_inst (ap : ofp_act_parsers) : handler := fun off '((buf, dp) : pstate) =>
  type ← rd_le buf off 2;
  let type := ntohs type in
  let acts dp :=
    if negb (of131_check_inst_supported dp type) then Some (buf, fail dp)
    else
      len ← rd_le buf (off + 2) 2;
      if 8 <? ntohs len then of131_parse_actions ap (off + 8) (ntohs len - 8) (buf, dp) else Some (buf, dp) in
  if type =? OFPIT_WRITE_ACTIONS then
    if inst_wr dp then Some (buf, fail dp)
    else acts (set_insts true true (inst_app dp) (inst_goto dp) (inst_meter dp) (inst_clear dp) (inst_wr_meta dp) dp)
  else if type =? OFPIT_APPLY_ACTIONS then
    if inst_wr dp then Some (buf, fail dp)
    else acts (set_insts false (inst_wr dp) true (inst_goto dp) (inst_meter dp) (inst_clear dp) (inst_wr_meta dp) dp)
  else if type =? OFPIT_CLEAR_ACTIONS then
    if inst_clear dp then Some (buf, fail dp)
    else Some (buf, set_insts (act_set dp) (inst_wr dp) (inst_app dp) (inst_goto dp) (inst_meter dp) true (inst_wr_meta dp) dp)
  else Some (buf, fail dp).

Definition of_check_inst_parser_pre_proc (dp : ofp_inst_parser_arg) : ofp_inst_parser_arg :=
  match pa_fl dp, pa_mask dp with
  | Some _, Some mask =>
      set_push (if nz (mpls_label mask) then push_mpls dp + 1 else push_mpls dp)
        (if nz (dl_vlan mask) then push_vlan dp + 1 else push_vlan dp) (push_pbb dp) dp
  | _, _ => dp
  end.

Definition of131_check_inst_parsers : ofp_inst_parsers := {|
  pre_proc := Some of_check_inst_parser_pre_proc; no_inst := None; post_proc := None;
  goto_inst := Some of131_check_goto_inst; wr_meta_inst := Some of131_check_wr_meta_inst;
  wr_act_inst := Some (of131_check_act_inst of131_check_mod_act_parsers);
  apply_act_inst := Some (of131_check_act_inst of131_check_mod_act_parsers);
  clear_act_inst := Some (of131_check_act_inst of131_check_mod_act_parsers);
  meter_inst := Some of131_check_meter_inst; exp_inst := None |}.

(** The result, the instructions after the walk, and what was learned through [arg]. *)
Definition of131_validate_actions (fl mask : option flow) (inst_list : list Z) (inst_len : Z) (acts_only : bool)
  (arg : option ofp_inst_check_args) : option (Z * list Z * option ofp_inst_check_args) :=
  '(buf, dp) ← of131_parse_instructions fl mask inst_list inst_len of131_check_inst_parsers of131_check_mod_act_parsers arg acts_only;
  Some (res dp, buf, u_arg dp).

Definition of131_modify_uflow (fl mask : option flow) (inst_list : list Z) (inst_len : Z) (acts_only : bool)
  (arg : option ofp_inst_check_args) : option (Z * list Z * option ofp_inst_check_args) :=
  '(buf, dp) ← of131_parse_instructions fl mask inst_list inst_len of131_check_inst_parsers of131_check_mod_act_parsers arg acts_only;
  Some (res dp, buf, u_arg dp).

End ActParse.
