(* ===== verification/ActSpec.v ===== *)
(** * What the makers of actions and instructions promise

    The calls of an application describe a list of instructions, whose bytes are [enc_insts].  A call for an action continues the open instruction of the current type or opens one: [accepts] says
    which list results.  It has no case for an action that continues an instruction which is no longer the last of the buffer. *)
From stdpp Require Import base list.
From Stdlib Require Import ZArith Lia.
From S2P Require Import Prelude Bytes Flow Oxm OxmSpec Act.
#[local] Open Scope Z_scope.

Module ActSpec.
Import Bytes Flow Oxm Act.

(** ** Actions, instructions and their bytes *)

Inductive action :=
| AOutput (port max_len : Z)
| APush (type eth_type : Z)
| APopMpls (eth_type : Z)
| ATtl (type ttl : Z)
| AId (type id : Z)
| APlain (type : Z)
| ASetField (field : Z) (data : list Z).

Inductive inst :=
| IGoto (table : Z)
| IMeter (meter : Z)
| IMeta (metadata mask : Z)
| IClear
| IActs (write : bool) (acts : list action).

Definition be (n : nat) (v : Z) : list Z := rev (le_bytes n v).
Definition tlv_enc (type : Z) (body : list Z) : list Z := be 2 type ++ be 2 (4 + Z.of_nat (length body)) ++ body.

Definition act_type (a : action) : Z :=
  match a with
  | AOutput _ _ => OFPAT131_OUTPUT
  | APush t _ | ATtl t _ | AId t _ | APlain t => t
  | APopMpls _ => OFPAT131_POP_MPLS
  | ASetField _ _ => OFPAT131_SET_FIELD
  end.
Definition act_body (a : action) : list Z :=
  match a with
  | AOutput p l => be 4 p ++ be 2 l ++ replicate 6 0
  | APush _ e | APopMpls e => be 2 e ++ [0; 0]
  | ATtl _ t => [t; 0; 0; 0]
  | AId _ i => be 4 i
  | APlain _ => [0; 0; 0; 0]
  | ASetField f d => enc_tlv (mk_tlv false f d) ++ replicate (setf_len (Z.of_nat (length d)) - (8 + length d)) 0
  end.
Definition enc_act (a : action) : list Z := tlv_enc (act_type a) (act_body a).
Definition enc_acts (l : list action) : list Z := concat (enc_act <$> l).

Definition inst_type (i : inst) : Z :=
  match i with
  | IGoto _ => OFPIT_GOTO_TABLE
  | IMeter _ => OFPIT_METER
  | IMeta _ _ => OFPIT_WRITE_METADATA
  | IClear => OFPIT_CLEAR_ACTIONS
  | IActs w _ => if w then OFPIT_WRITE_ACTIONS else OFPIT_APPLY_ACTIONS
  end.
Definition inst_body (i : inst) : list Z :=
  match i with
  | IGoto t => [t; 0; 0; 0]
  | IMeter m => be 4 m
  | IMeta d k => replicate 4 0 ++ be 8 d ++ be 8 k
  | IClear => replicate 4 0
  | IActs _ l => replicate 4 0 ++ enc_acts l
  end.
Definition enc_inst (i : inst) : list Z := tlv_enc (inst_type i) (inst_body i).
Definition enc_insts (l : list inst) : list Z := concat (enc_inst <$> l).

(** Of the actions of one kind a write instruction has one; copying the TTL inwards and outwards count as one kind. *)
Definition act_kind (a : action) : Z :=
  match a with
  | ASetField f _ => 32 + f
  | _ => if act_type a =? OFPAT131_COPY_TTL_IN then OFPAT131_COPY_TTL_OUT else act_type a
  end.
Definition same_kind (a b : action) : bool := act_kind a =? act_kind b.

Definition act_ok (a : action) : Prop :=
  match a with
  | AOutput _ _ | APopMpls _ => True
  | APush t _ => t = OFPAT131_PUSH_VLAN \/ t = OFPAT131_PUSH_MPLS \/ t = OFPAT131_PUSH_PBB
  | ATtl t _ => t = OFPAT131_MPLS_TTL \/ t = OFPAT131_SET_NW_TTL
  | AId t _ => t = OFPAT131_GROUP \/ t = OFPAT131_SET_QUEUE
  | APlain t => t ∈ [OFPAT131_POP_VLAN; OFPAT131_POP_PBB; OFPAT131_DEC_NW_TTL; OFPAT131_DEC_MPLS_TTL; OFPAT131_COPY_TTL_OUT;
                     OFPAT131_COPY_TTL_IN]
  | ASetField f d => 0 <= f < 64 /\ (length d <= 16)%nat
  end.

(** ** Calls *)

Inductive call :=
| CType (type : Z)
| CGoto (table : Z) | CMeter (meter : Z) | CMeta (metadata mask : Z) | CClear
| COutput (port : Z) | CGroup (group : Z) | CQueue (queue : Z)
| CPush (eth_type : Z) | CPopVlan | CPopMpls (eth_type : Z) | CPopPbb
| CMplsTtl (ttl : Z) | CDecMplsTtl | CIpTtl (ttl : Z) | CDecIpTtl | CCpTtl (inw : bool)
| CVid (vid : Z) | CVlanPcp (pcp : Z) | CMplsLabel (label : Z) | CMplsTc (tc : Z) | CMplsBos (bos : Z)
| CDmac (mac : list Z) | CSmac (mac : list Z) | CEthType (eth_type : Z)
| CIpv4Src (ip : Z) | CIpv4Dst (ip : Z) | CIpv6Src (ip : list Z) | CIpv6Dst (ip : list Z) | CTos (tos : Z)
| CUdpSport (port : Z) | CUdpDport (port : Z) | CTcpSport (port : Z) | CTcpDport (port : Z) | CTunnel (id : Z).

Definition run_call (c : call) : mul_act_mdata -> option (mul_act_mdata * Z) :=
  match c with
  | CType t => of131_set_inst_action_type t
  | CGoto t => of131_make_inst_goto t
  | CMeter m => of131_make_inst_meter m
  | CMeta d k => of131_make_inst_wr_meta d k
  | CClear => of131_make_inst_clear_act
  | COutput p => of131_make_action_output p
  | CGroup g => of131_make_action_group g
  | CQueue q => of131_make_action_set_queue q
  | CPush e => of131_make_action_push e
  | CPopVlan => of131_make_action_strip_vlan
  | CPopMpls e => of131_make_action_strip_mpls e
  | CPopPbb => of131_make_action_strip_pbb
  | CMplsTtl t => of131_make_action_set_mpls_ttl t
  | CDecMplsTtl => of131_make_action_dec_mpls_ttl
  | CIpTtl t => of131_make_action_set_ip_ttl t
  | CDecIpTtl => of131_make_action_dec_ip_ttl
  | CCpTtl b => of131_make_action_cp_ttl b
  | CVid v => of131_make_action_set_vid v
  | CVlanPcp p => of131_make_action_set_vlan_pcp p
  | CMplsLabel l => of131_make_action_set_mpls_label l
  | CMplsTc t => of131_make_action_set_mpls_tc t
  | CMplsBos b => of131_make_action_set_mpls_bos b
  | CDmac a => of131_make_action_set_dmac a
  | CSmac a => of131_make_action_set_smac a
  | CEthType e => of131_make_action_set_eth_type e
  | CIpv4Src i => of131_make_action_set_ipv4_src i
  | CIpv4Dst i => of131_make_action_set_ipv4_dst i
  | CIpv6Src i => of131_make_action_set_ipv6_src i
  | CIpv6Dst i => of131_make_action_set_ipv6_dst i
  | CTos t => of131_make_action_set_nw_tos t
  | CUdpSport p => of131_make_action_set_tp_udp_sport p
  | CUdpDport p => of131_make_action_set_tp_udp_dport p
  | CTcpSport p => of131_make_action_set_tp_tcp_sport p
  | CTcpDport p => of131_make_action_set_tp_tcp_dport p
  | CTunnel i => of131_make_action_set_tunnel_id i
  end.

Fixpoint run_calls (cs : list call) (m : mul_act_mdata) : option (mul_act_mdata * list Z) :=
  match cs with
  | [] => Some (m, [])
  | c :: cs => '(m, r) ← run_call c m; '(m, rs) ← run_calls cs m; Some (m, r :: rs)
  end.

(** The action a call asks for. *)
Definition call_act (c : call) : option action :=
  match c with
  | CType _ | CGoto _ | CMeter _ | CMeta _ _ | CClear => None
  | COutput p => Some (if (p =? 0) || (p =? OFPP131_CONTROLLER) then AOutput OFPP131_CONTROLLER OFPCML_NO_BUFFER
                       else AOutput p OF_MAX_MISS_SEND_LEN)
  | CGroup g => Some (AId OFPAT131_GROUP g)
  | CQueue q => Some (AId OFPAT131_SET_QUEUE q)
  | CPush e => (fun t => APush t e) <$> push_type e
  | CPopVlan => Some (APlain OFPAT131_POP_VLAN)
  | CPopMpls e => Some (APopMpls e)
  | CPopPbb => Some (APlain OFPAT131_POP_PBB)
  | CMplsTtl t => Some (ATtl OFPAT131_MPLS_TTL t)
  | CDecMplsTtl => Some (APlain OFPAT131_DEC_MPLS_TTL)
  | CIpTtl t => Some (ATtl OFPAT131_SET_NW_TTL t)
  | CDecIpTtl => Some (APlain OFPAT131_DEC_NW_TTL)
  | CCpTtl b => Some (APlain (if b then OFPAT131_COPY_TTL_IN else OFPAT131_COPY_TTL_OUT))
  | CVid v => Some (ASetField OFPXMT_OFB_VLAN_VID (be 2 (Z.lor (Z.land v 0xfff) OFPVID_PRESENT)))
  | CVlanPcp p => Some (ASetField OFPXMT_OFB_VLAN_PCP [p])
  | CMplsLabel l => Some (ASetField OFPXMT_OFB_MPLS_LABEL (be 4 l))
  | CMplsTc t => Some (ASetField OFPXMT_OFB_MPLS_TC [t])
  | CMplsBos b => Some (ASetField OFPXMT_OFB_MPLS_BOS [if b =? 0 then 0 else 1])
  | CDmac a => Some (ASetField OFPXMT_OFB_ETH_DST (take 6 a))
  | CSmac a => Some (ASetField OFPXMT_OFB_ETH_SRC (take 6 a))
  | CEthType e => Some (ASetField OFPXMT_OFB_ETH_TYPE (be 2 e))
  | CIpv4Src i => Some (ASetField OFPXMT_OFB_IPV4_SRC (be 4 i))
  | CIpv4Dst i => Some (ASetField OFPXMT_OFB_IPV4_DST (be 4 i))
  | CIpv6Src i => Some (ASetField OFPXMT_OFB_IPV6_SRC (take 16 i))
  | CIpv6Dst i => Some (ASetField OFPXMT_OFB_IPV6_DST (take 16 i))
  | CTos t => Some (ASetField OFPXMT_OFB_IP_DSCP [Z.land t 127])
  | CUdpSport p => Some (ASetField OFPXMT_OFB_UDP_SRC (be 2 p))
  | CUdpDport p => Some (ASetField OFPXMT_OFB_UDP_DST (be 2 p))
  | CTcpSport p => Some (ASetField OFPXMT_OFB_TCP_SRC (be 2 p))
  | CTcpDport p => Some (ASetField OFPXMT_OFB_TCP_DST (be 2 p))
  | CTunnel i => Some (ASetField OFPXMT_OFB_TUNNEL_ID (be 8 i))
  end.

(** Addresses are arrays of their length. *)
Definition call_ok (c : call) : Prop :=
  match c with
  | CType t => t = OFPIT_WRITE_ACTIONS \/ t = OFPIT_APPLY_ACTIONS
  | CDmac a | CSmac a => length a = 6%nat
  | CIpv6Src i | CIpv6Dst i => length i = 16%nat
  | _ => True
  end.

(** ** What the calls describe *)

Record abs := mk_abs { ab_insts : list inst; ab_cur : Z }.

Definition is_acts (w : bool) (i : inst) : bool := match i with IActs w' _ => eqb w w' | _ => false end.
Definition has_acts (w : bool) (l : list inst) : bool := existsb (is_acts w) l.
Definition has_inst (t : Z) (l : list inst) : bool := existsb (fun i => inst_type i =? t) l.
(** The actions of the write instructions. *)
Definition wr_acts (l : list inst) : list action := concat ((fun i => match i with IActs true a => a | _ => [] end) <$> l).

Definition call_inst (c : call) : option inst :=
  match c with
  | CGoto t => Some (IGoto t)
  | CMeter m => Some (IMeter m)
  | CMeta d k => Some (IMeta d k)
  | CClear => Some IClear
  | _ => None
  end.

(** The type an action goes to: apply unless the caller asked for write. *)
Definition to_write (cur : Z) : bool := cur =? OFPIT_WRITE_ACTIONS.
Definition norm_cur (cur : Z) : Z := if to_write cur then OFPIT_WRITE_ACTIONS else OFPIT_APPLY_ACTIONS.

(** [accepts s c s' r]: in the state [s] the call [c] returns [r] and leaves [s']. *)
Inductive accepts : abs -> call -> abs -> Z -> Prop :=
| acc_type l cur t : has_acts (to_write t) l = false -> accepts (mk_abs l cur) (CType t) (mk_abs l t) 0
| acc_type_again l cur t : has_acts (to_write t) l = true -> accepts (mk_abs l cur) (CType t) (mk_abs l cur) UINT64_MAX
| acc_inst l cur c i : call_inst c = Some i -> has_inst (inst_type i) l = false ->
    accepts (mk_abs l cur) c (mk_abs (l ++ [i]) cur) (Z.of_nat (length (enc_inst i)))
| acc_inst_again l cur c i : call_inst c = Some i -> has_inst (inst_type i) l = true ->
    accepts (mk_abs l cur) c (mk_abs l cur) 0
| acc_open l cur c a : call_act c = Some a -> has_acts (to_write cur) l = false ->
    accepts (mk_abs l cur) c (mk_abs (l ++ [IActs (to_write cur) [a]]) (norm_cur cur)) (Z.of_nat (length (enc_act a)))
| acc_more l cur c a acts : call_act c = Some a -> has_acts (to_write cur) l = false ->
    (to_write cur = true -> existsb (same_kind a) acts = false) ->
    accepts (mk_abs (l ++ [IActs (to_write cur) acts]) cur) c
      (mk_abs (l ++ [IActs (to_write cur) (acts ++ [a])]) (norm_cur cur)) (Z.of_nat (length (enc_act a)))
| acc_again l cur c a : call_act c = Some a -> to_write cur = true -> has_acts true l = true -> existsb (same_kind a) (wr_acts l) = true ->
    accepts (mk_abs l cur) c (mk_abs l cur) 0
| acc_none l cur e : push_type e = None -> accepts (mk_abs l cur) (CPush e) (mk_abs l cur) 0.

Inductive accepts_all : abs -> list call -> abs -> list Z -> Prop :=
| acc_nil s : accepts_all s [] s []
| acc_cons s c s1 r cs s2 rs : accepts s c s1 r -> accepts_all s1 cs s2 rs -> accepts_all s (c :: cs) s2 (r :: rs).

Definition abs0 : abs := mk_abs [] 0.

End ActSpec.
