(* ===== verification/ActMake.v ===== *)
(** * The makers of actions and instructions are correct

    After any sequence of calls the buffer holds exactly the encoding of the list of instructions they describe, as long as it
    fits ([makers_refine]).  Past the end of the buffer the makers move it and write the length of the open instruction through the
    pointer into the freed one ([maker_overflow_faults]). *)
From stdpp Require Import base list.
From Stdlib Require Import ZArith Lia.
From S2P Require Import Prelude Bytes Flow Oxm OxmSpec Act ActSpec.
#[local] Open Scope Z_scope.

Module ActMake.
Import Bytes Flow Oxm Act ActSpec.

(** ** Sizes *)

Lemma be_length n v : length (be n v) = n.
Proof. unfold be. by rewrite length_rev, le_bytes_length. Qed.

Lemma align8 x : C_ALIGN_8B_LEN x = 8 * ((x + 7) / 8).
Proof.
  unfold C_ALIGN_8B_LEN. rewrite <- Z.ldiff_land. change 7 with (Z.ones 3) at 2.
  rewrite Z.ldiff_ones_r, Z.shiftr_div_pow2, Z.shiftl_mul_pow2 by lia. change (2 ^ 3) with 8. lia.
Qed.

Lemma setf_len_bounds n : (8 + n <= setf_len (Z.of_nat n) <= 15 + n)%nat.
Proof.
  unfold setf_len. rewrite align8. set (x := 4 + 4 + Z.of_nat n + 7).
  pose proof (Z.div_mod x 8 ltac:(lia)). pose proof (Z.mod_pos_bound x 8 ltac:(lia)). lia.
Qed.

Lemma tlv_enc_length t b : length (tlv_enc t b) = (4 + length b)%nat.
Proof. unfold tlv_enc. by rewrite !length_app, !be_length. Qed.

(** ** What a maker writes on cleared bytes *)

Definition fills (len : nat) (f : list Z -> option (list Z)) (bs : list Z) : Prop :=
  length bs = len /\ forall k, f (replicate (len + k) 0) = Some (bs ++ replicate k 0).

(** Runs writes at fixed offsets of values in network order. *)
Ltac run_wr := unfold htons, htonl, htonll, wr_le; rewrite ?le_bytes_bswap; reflexivity.

Lemma put_head_fills t (n : nat) : 4 + Z.of_nat n < 65536 ->
  fills 4 (put_head t (4 + Z.of_nat n)) (be 2 t ++ be 2 (4 + Z.of_nat n)).
Proof.
  intros Hn. split; [done|]. intros k. unfold put_head, u16. rewrite Z.mod_small by lia. run_wr.
Qed.

(** The header first, then the body behind it. *)
Lemma fills_body t n f body : (length body = n)%nat -> 4 + Z.of_nat n < 65536 ->
  (forall h k, length h = 4%nat -> f (h ++ replicate (n + k) 0) = Some (h ++ body ++ replicate k 0)) ->
  fills (4 + n) (fun p => p ← put_head t (4 + Z.of_nat n) p; f p) (tlv_enc t body).
Proof.
  intros Hb Hn Hf. split; [by rewrite tlv_enc_length, Hb|]. intros k. unfold tlv_enc. rewrite Hb.
  rewrite <- Nat.add_assoc. rewrite (proj2 (put_head_fills t n Hn)). cbn [mbind option_bind].
  rewrite Hf by done. by rewrite <- !app_assoc.
Qed.

Lemma fills_set_field field data : 0 <= field < 128 -> (length data < 256)%nat ->
  fills (setf_len (Z.of_nat (length data))) (put_set_field field (Z.of_nat (length data)) data)
    (enc_act (ASetField field data)).
Proof.
  intros Hf Hd. pose proof (setf_len_bounds (length data)) as Hs.
  set (n := (setf_len (Z.of_nat (length data)) - 4)%nat).
  assert (Hl : length (act_body (ASetField field data)) = n).
  { cbn [act_body]. rewrite length_app, enc_tlv_length, length_replicate. cbn [t_data]. lia. }
  unfold put_set_field, enc_act. replace (setf_len (Z.of_nat (length data))) with (4 + n)%nat by lia.
  rewrite Nat2Z.inj_add. apply (fills_body OFPAT131_SET_FIELD n
    (fun p => '(p, _) ← oxm_put 0 field (Z.of_nat (length data)) data (p, 4%nat); Some p)); [done|lia|].
  intros h k Hh. change 0 with (b2z false) at 1. rewrite <- Hh at 1.
  pose proof (oxm_put_zbuf false field (length data) data h (n + k) Hf ltac:(lia) ltac:(lia) ltac:(lia)) as E.
  unfold zbuf in E. rewrite E. cbn [mbind option_bind]. rewrite Nat.sub_diag, app_nil_r. cbn [act_body].
  rewrite <- !app_assoc, <- replicate_add. do 4 f_equal. lia.
Qed.

(** ** Every call for an action is an [add_action] of its encoding *)

Definition act_mask (a : action) : Z :=
  if act_kind a =? OFPAT131_COPY_TTL_OUT then OFPAT131_COPY_TTL_IN else Z.shiftl 1 (act_type a).
Definition once_of (a : action) : mul_act_mdata -> option mul_act_mdata :=
  match a with ASetField f _ => once_field f | _ => once_act (act_mask a) end.

Definition makes (a : action) (mk : mul_act_mdata -> option (mul_act_mdata * Z)) : Prop :=
  exists f, mk = add_action (once_of a) (length (enc_act a)) f /\ fills (length (enc_act a)) f (enc_act a).

Lemma makes_simple a f : length (act_body a) = 4%nat -> once_of a = act_once (act_type a) ->
  (forall h k, length h = 4%nat -> f (h ++ replicate (4 + k) 0) = Some (h ++ act_body a ++ replicate k 0)) ->
  makes a (add_simple (act_type a) f).
Proof.
  intros Hb Ho Hf. eexists. unfold add_simple, enc_act. rewrite Ho, tlv_enc_length, Hb. split; [reflexivity|].
  by apply (fills_body (act_type a) 4).
Qed.

Lemma makes_set_field field data sz : sz = Z.of_nat (length data) -> 0 <= field < 128 -> (length data < 256)%nat ->
  makes (ASetField field data) (add_set_field field sz data).
Proof.
  intros -> Hf Hd. pose proof (fills_set_field field data Hf Hd) as H. exists (put_set_field field (Z.of_nat (length data)) data).
  rewrite (proj1 H). done.
Qed.

Ltac split_head := intros h k Hh; do 5 (destruct h as [|? h]; try discriminate Hh).

Lemma makes_output p : let q := if p =? 0 then OFPP131_CONTROLLER else p in
  makes (AOutput q (if q =? OFPP131_CONTROLLER then OFPCML_NO_BUFFER else OF_MAX_MISS_SEND_LEN)) (of131_make_action_output p).
Proof.
  intros q. eexists. split; [reflexivity|]. fold q.
  apply (fills_body OFPAT131_OUTPUT 12 (fun p => p ← wr_le p 4 4 (htonl q); wr_le p 8 2 _)); [done|lia|].
  split_head. destruct (q =? OFPP131_CONTROLLER); run_wr.
Qed.

Lemma makes_set_int field n v : 0 <= field < 128 -> (n < 256)%nat ->
  makes (ASetField field (be n v)) (add_set_field field (Z.of_nat n) (le_bytes n (bswap n v))).
Proof. intros Hf Hn. rewrite le_bytes_bswap. apply makes_set_field; rewrite ?length_rev, ?le_bytes_length; done || lia. Qed.

Lemma act_ok_int field n v : 0 <= field < 64 -> (n <= 16)%nat -> act_ok (ASetField field (be n v)).
Proof. intros. split; [done|by rewrite be_length]. Qed.

Lemma act_ok_addr field n l : 0 <= field < 64 -> (n <= 16)%nat -> act_ok (ASetField field (take n l)).
Proof. intros. split; [done|rewrite length_take; lia]. Qed.

Ltac make_simple :=
  lazymatch goal with |- makes ?a _ => apply (makes_simple a); [reflexivity|reflexivity|split_head; run_wr] end.

Ltac side := first [done | cbn; lia].

Lemma call_makes c a : call_ok c -> call_act c = Some a -> makes a (run_call c) /\ act_ok a.
Proof.
  intros Hc Ha.
  destruct c; cbn [call_act call_ok] in Ha, Hc; simplify_eq; cbn [run_call];
    lazymatch goal with
    | |- makes (ASetField ?f [_]) _ /\ _ => split; [apply makes_set_field; side|split; side]
    | |- makes (ASetField ?f (be 2 ?v)) _ /\ _ => split; [apply (makes_set_int f 2); side|apply act_ok_int; side]
    | |- makes (ASetField ?f (be 4 ?v)) _ /\ _ => split; [apply (makes_set_int f 4); side|apply act_ok_int; side]
    | |- makes (ASetField ?f (be 8 ?v)) _ /\ _ => split; [apply (makes_set_int f 8); side|apply act_ok_int; side]
    | |- makes (ASetField ?f _) _ /\ _ =>
        split; [apply makes_set_field; rewrite ?length_take, ?Hc; side|apply act_ok_addr; side]
    | |- _ => idtac
    end.
  - pose proof (makes_output port) as H. cbv zeta in H.
    destruct (port =? 0); [done|]. cbn [orb]. destruct (port =? OFPP131_CONTROLLER) eqn:E; [|done].
    apply Z.eqb_eq in E. by subst.
  - split; [make_simple|cbn; auto].
  - split; [make_simple|cbn; auto].
  - destruct (push_type eth_type) as [t|] eqn:E; simplify_eq/=.
    assert (t = OFPAT131_PUSH_VLAN \/ t = OFPAT131_PUSH_MPLS \/ t = OFPAT131_PUSH_PBB) as Ht.
    { unfold push_type in E. repeat case_match; simplify_eq; auto. }
    split; [|done]. unfold of131_make_action_push. rewrite E.
    apply (makes_simple (APush t eth_type)); [reflexivity| |split_head; run_wr].
    by destruct Ht as [->|[->| ->]].
  - split; [make_simple|cbn; rewrite !elem_of_cons; auto].
  - split; [make_simple|done].
  - split; [make_simple|cbn; rewrite !elem_of_cons; auto].
  - split; [make_simple|cbn; auto].
  - split; [make_simple|cbn; rewrite !elem_of_cons; auto].
  - split; [make_simple|cbn; auto].
  - split; [make_simple|cbn; rewrite !elem_of_cons; auto].
  - split; [|destruct inw; cbn; rewrite !elem_of_cons; auto 8].
    eexists. split; [by destruct inw|]. destruct inw; (split; [done|]); intros k; unfold put_head; run_wr.
Qed.

(** ** Once per write instruction *)

Definition once_free (a : action) (m : mul_act_mdata) : bool :=
  match a with ASetField f _ => negb (GET_BIT_IN_32MASK (setf_bm m) f) | _ => Z.land (act_bm m) (act_mask a) =? 0 end.
Definition mark (a : action) (m : mul_act_mdata) : mul_act_mdata :=
  match a with
  | ASetField f _ => set_bms (inst_bm m) (act_bm m) (SET_BIT_IN_32MASK (setf_bm m) f) m
  | _ => set_bms (inst_bm m) (Z.lor (act_bm m) (act_mask a)) (setf_bm m) m
  end.

Lemma once_of_eq a m : once_of a m =
  if act_inst_type m =? OFPIT_WRITE_ACTIONS then if once_free a m then Some (mark a m) else None else Some m.
Proof. destruct a; try reflexivity. cbn. unfold once_field. by destruct GET_BIT_IN_32MASK. Qed.

(** The actions other than set-field by their types. *)
Definition plain_types : list Z := [0; 11; 12; 15; 16; 17; 18; 19; 20; 21; 22; 23; 24; 26; 27].
Definition kind_of (t : Z) : Z := if t =? OFPAT131_COPY_TTL_IN then OFPAT131_COPY_TTL_OUT else t.
Definition mask_of (t : Z) : Z := if kind_of t =? OFPAT131_COPY_TTL_OUT then OFPAT131_COPY_TTL_IN else Z.shiftl 1 t.
Definition is_setf (a : action) : bool := match a with ASetField _ _ => true | _ => false end.

Lemma plain_type a : act_ok a -> is_setf a = false ->
  act_type a ∈ plain_types /\ act_kind a = kind_of (act_type a) /\ act_mask a = mask_of (act_type a).
Proof.
  intros Ha Hs. split; [|by destruct a].
  destruct a; cbn in Ha, Hs |- *; try done; rewrite ?elem_of_cons in Ha; unfold plain_types;
    repeat match goal with H : _ \/ _ |- _ => destruct H as [H|H] end; subst;
    try (by apply elem_of_nil in Ha); rewrite !elem_of_cons; auto 20.
Qed.

Lemma mask_disjoint a b : act_ok a -> act_ok b -> is_setf a = false -> is_setf b = false ->
  (Z.land (act_mask a) (act_mask b) =? 0) = negb (same_kind b a).
Proof.
  intros Ha Hb Sa Sb. destruct (plain_type a Ha Sa) as (Ta & Ka & Ma), (plain_type b Hb Sb) as (Tb & Kb & Mb).
  unfold same_kind. rewrite Ka, Kb, Ma, Mb.
  assert (forallb (fun t => forallb (fun u => eqb (Z.land (mask_of t) (mask_of u) =? 0) (negb (kind_of u =? kind_of t))) plain_types)
            plain_types = true) as H by (vm_compute; reflexivity).
  rewrite forallb_forall in H. specialize (H _ (proj1 (list_elem_of_In _ _) Ta)). rewrite forallb_forall in H.
  specialize (H _ (proj1 (list_elem_of_In _ _) Tb)). by apply eqb_prop in H.
Qed.

Lemma kind_range a : act_ok a -> if is_setf a then 32 <= act_kind a else act_kind a < 32.
Proof.
  intros Ha. destruct (is_setf a) eqn:E; [destruct a; try discriminate E; cbn in *; lia|].
  destruct (plain_type a Ha E) as (T & K & _). rewrite K.
  unfold plain_types in T. rewrite !elem_of_cons in T.
  repeat match goal with H : _ \/ _ |- _ => destruct H as [H|H] end;
    first [by apply elem_of_nil in T | by rewrite T].
Qed.

Lemma get_set_bit l f g : length l = 2%nat -> 0 <= f < 64 -> 0 <= g < 64 ->
  GET_BIT_IN_32MASK (SET_BIT_IN_32MASK l f) g = GET_BIT_IN_32MASK l g || (g =? f).
Proof.
  intros Hl Hf Hg. unfold GET_BIT_IN_32MASK, SET_BIT_IN_32MASK.
  assert (Hdm : forall x, 0 <= x < 64 -> x = 32 * (x / 32) + x mod 32 /\ 0 <= x mod 32 < 32 /\ (x / 32 = 0 \/ x / 32 = 1)).
  { intros x Hx. pose proof (Z.div_mod x 32 ltac:(lia)). pose proof (Z.mod_pos_bound x 32 ltac:(lia)). lia. }
  destruct (Hdm f Hf) as (Ef & Mf & Df), (Hdm g Hg) as (Eg & Mg & Dg).
  destruct l as [|x [|y [|]]]; try discriminate Hl.
  assert (forall w, Z.testbit (Z.lor w (Z.shiftl 1 (f mod 32))) (g mod 32) = Z.testbit w (g mod 32) || (g mod 32 =? f mod 32)) as Hb.
  { intros w. rewrite Z.lor_spec, Z.shiftl_spec by lia. f_equal. destruct (Z.eqb_spec (g mod 32) (f mod 32)) as [->|Hn].
    - by rewrite Z.sub_diag.
    - destruct (Z.ltb_spec (g mod 32) (f mod 32)); [by rewrite Z.testbit_neg_r by lia|].
      by rewrite Z.bits_above_log2 by (cbn; lia). }
  destruct Df as [Df|Df], Dg as [Dg|Dg]; rewrite Df, Dg; change (Z.to_nat 0) with 0%nat;
    change (Z.to_nat 1) with 1%nat; cbn [nth alter list_alter]; rewrite ?Hb; rewrite Df in Ef; rewrite Dg in Eg;
    destruct (Z.eqb_spec (g mod 32) (f mod 32)), (Z.eqb_spec g f); rewrite ?orb_false_r, ?orb_true_r; try done; try lia.
Qed.

Lemma once_free_mark a b m : act_ok a -> act_ok b -> length (setf_bm m) = 2%nat ->
  once_free b (mark a m) = once_free b m && negb (same_kind b a) /\ length (setf_bm (mark a m)) = 2%nat.
Proof.
  intros Ha Hb Hl. split; [|destruct a; try done; cbn; unfold SET_BIT_IN_32MASK; by rewrite length_alter].
  pose proof (kind_range a Ha) as Ra. pose proof (kind_range b Hb) as Rb.
  destruct (is_setf a) eqn:Sa, (is_setf b) eqn:Sb.
  - destruct a, b; try discriminate. cbn in *. rewrite get_set_bit by lia. unfold same_kind. cbn [act_kind].
    rewrite negb_orb. do 2 f_equal. destruct (Z.eqb_spec field0 field), (Z.eqb_spec (32 + field0) (32 + field)); lia || done.
  - replace (same_kind b a) with false by (unfold same_kind; symmetry; apply Z.eqb_neq; lia).
    rewrite andb_true_r. by destruct a, b.
  - replace (same_kind b a) with false by (unfold same_kind; symmetry; apply Z.eqb_neq; lia).
    rewrite andb_true_r. by destruct a, b.
  - rewrite <- (mask_disjoint a b) by done.
    replace (once_free b (mark a m)) with (Z.land (Z.lor (act_bm m) (act_mask a)) (act_mask b) =? 0) by (by destruct a, b).
    replace (once_free b m) with (Z.land (act_bm m) (act_mask b) =? 0) by (by destruct b).
    rewrite Z.land_lor_distr_l. apply eq_true_iff_eq. rewrite andb_true_iff, !Z.eqb_eq. apply Z.lor_eq_0_iff.
Qed.

(** ** The buffer and the list it stands for *)

Lemma enc_insts_app a b : enc_insts (a ++ b) = enc_insts a ++ enc_insts b.
Proof. unfold enc_insts. by rewrite fmap_app, concat_app. Qed.
Lemma enc_insts_one i : enc_insts [i] = enc_inst i.
Proof. apply app_nil_r. Qed.
Lemma enc_acts_app a b : enc_acts (a ++ b) = enc_acts a ++ enc_acts b.
Proof. unfold enc_acts. by rewrite fmap_app, concat_app. Qed.
Lemma wr_acts_app a b : wr_acts (a ++ b) = wr_acts a ++ wr_acts b.
Proof. unfold wr_acts. by rewrite fmap_app, concat_app. Qed.

(** Where the open instruction begins. *)
Fixpoint pos (w : bool) (l : list inst) : option nat :=
  match l with
  | [] => None
  | i :: l => if is_acts w i then Some 0%nat else Nat.add (length (enc_inst i)) <$> pos w l
  end.

Lemma pos_None w l : pos w l = None <-> has_acts w l = false.
Proof.
  induction l as [|i l IH]; [done|]. cbn. destruct (is_acts w i); [done|]. rewrite fmap_None. exact IH.
Qed.

Lemma pos_snoc w l i : pos w (l ++ [i]) =
  match pos w l with Some n => Some n | None => if is_acts w i then Some (length (enc_insts l)) else None end.
Proof.
  induction l as [|j l IH]; cbn; [by destruct (is_acts w i)|]. destruct (is_acts w j); [done|]. rewrite IH.
  destruct (pos w l); [done|]. destruct (is_acts w i); [|done]. cbn. by rewrite length_app.
Qed.

Lemma has_bit_spec bm t : 0 <= t -> has_bit bm t = Z.testbit bm t.
Proof.
  intros Ht. unfold has_bit. rewrite Z.shiftl_1_l. destruct (Z.testbit bm t) eqn:E.
  - apply negb_true_iff, Z.eqb_neq. intros H. assert (Z.testbit (Z.land bm (2 ^ t)) t = false) as H' by (rewrite H; apply Z.bits_0).
    rewrite Z.land_spec, E, Z.pow2_bits_true in H' by lia. done.
  - apply negb_false_iff, Z.eqb_eq, Z.bits_inj'. intros n Hn. rewrite Z.land_spec, Z.bits_0.
    destruct (Z.eqb_spec n t) as [->|Hne]; [by rewrite E|]. rewrite (Z.pow2_bits_false t n) by lia. apply andb_false_r.
Qed.

Record repr (s : abs) (m : mul_act_mdata) : Prop := {
  rp_base : act_base m = enc_insts (ab_insts s) ++ replicate (MUL_ACT_BUF_SZ - length (enc_insts (ab_insts s))) 0;
  rp_fit : (length (enc_insts (ab_insts s)) <= MUL_ACT_BUF_SZ)%nat;
  rp_wr : act_wr_ptr m = length (enc_insts (ab_insts s));
  rp_len : buf_len m = MUL_ACT_BUF_SZ;
  rp_only : only_acts m = false;
  rp_cur : act_inst_type m = ab_cur s;
  rp_wptr : act_inst_wr_ptr m = pair (md_gen m) <$> pos true (ab_insts s);
  rp_aptr : act_inst_app_ptr m = pair (md_gen m) <$> pos false (ab_insts s);
  rp_ibm : forall t, t ∈ [OFPIT_GOTO_TABLE; OFPIT_WRITE_METADATA; OFPIT_CLEAR_ACTIONS; OFPIT_METER] ->
    has_bit (inst_bm m) t = has_inst t (ab_insts s);
  rp_free : forall a, act_ok a -> once_free a m = negb (existsb (same_kind a) (wr_acts (ab_insts s)));
  rp_setf : length (setf_bm m) = 2%nat }.

Lemma repr_init : repr abs0 of_mact_alloc.
Proof.
  split; try done.
  - cbn. lia.
  - intros a Ha. destruct a; try done. cbn. unfold GET_BIT_IN_32MASK.
    replace (nth _ [0; 0] 0) with 0 by (by destruct (Z.to_nat _) as [|[|[|]]]). by rewrite Z.bits_0.
Qed.

(** A structure is appended. *)
Lemma emit_fits m e k len f bs : act_base m = e ++ replicate (len + k) 0 -> act_wr_ptr m = length e ->
  (length e + (len + k) = buf_len m)%nat -> fills len f bs ->
  emit len f m = Some (set_wr_ptr (length e + len) (set_base (e ++ bs ++ replicate k 0) m)).
Proof.
  intros Hb Hw Hl [_ Hf]. unfold emit, of_check_realloc_act, of_mact_buf_room.
  rewrite (proj2 (Nat.ltb_ge (buf_len m) (act_wr_ptr m))) by lia. rewrite (proj2 (Nat.ltb_ge _ len)) by lia.
  cbn [mbind option_bind]. rewrite Hb, Hw, drop_app_length, Hf. cbn [mbind option_bind]. by rewrite take_app_length.
Qed.

(** The length of the open instruction is brought up to date. *)
Lemma tlv_grow p t b x r : 4 + Z.of_nat (length (b ++ x)) < 65536 ->
  wr_le (p ++ tlv_enc t b ++ x ++ r) (length p + 2) 2 (htons (u16 (Z.of_nat (length (tlv_enc t b ++ x))))) =
  Some (p ++ tlv_enc t (b ++ x) ++ r).
Proof.
  intros Hb. unfold wr_le, htons. rewrite le_bytes_bswap.
  replace (u16 (Z.of_nat (length (tlv_enc t b ++ x)))) with (4 + Z.of_nat (length (b ++ x))).
  2:{ unfold u16. rewrite !length_app, tlv_enc_length. rewrite length_app in Hb. rewrite Z.mod_small by lia. lia. }
  unfold tlv_enc at 1. rewrite <- !app_assoc, (app_assoc p).
  rewrite wr_app_mid; [|by rewrite length_app, be_length|done].
  unfold tlv_enc. by rewrite <- !app_assoc.
Qed.

(** ** Instructions *)

Lemma has_inst_snoc t l i : has_inst t (l ++ [i]) = has_inst t l || (inst_type i =? t).
Proof. unfold has_inst. rewrite existsb_app. cbn. by rewrite orb_false_r. Qed.

Lemma call_inst_makes c i : call_inst c = Some i ->
  exists f, run_call c = add_inst (inst_type i) (length (enc_inst i)) f /\
    fills (length (enc_inst i)) (fun p => p ← put_head (inst_type i) (Z.of_nat (length (enc_inst i))) p; f p) (enc_inst i) /\
    inst_type i ∈ [OFPIT_GOTO_TABLE; OFPIT_WRITE_METADATA; OFPIT_CLEAR_ACTIONS; OFPIT_METER] /\
    (forall w, is_acts w i = false) /\ wr_acts [i] = [].
Proof.
  intros Hc. destruct c; cbn in Hc; simplify_eq; eexists; (split; [reflexivity|]);
    (split; [|split; [rewrite !elem_of_cons; cbn; auto 8|split; [done|done]]]).
  - apply (fills_body OFPIT_GOTO_TABLE 4 (fun p => wr p 4 [table])); [done|lia|split_head; run_wr].
  - apply (fills_body OFPIT_METER 4 (fun p => wr_le p 4 4 (htonl meter))); [done|lia|split_head; run_wr].
  - apply (fills_body OFPIT_WRITE_METADATA 20 (fun p => p ← wr_le p 8 8 (htonll metadata0); wr_le p 16 8 (htonll mask0)));
      [done|lia|split_head; run_wr].
  - apply (fills_body OFPIT_CLEAR_ACTIONS 4 Some); [done|lia|split_head; run_wr].
Qed.

(** The part of the buffer behind the instructions, split for the next structure. *)
Lemma repr_room s m e len : repr s m -> e = enc_insts (ab_insts s) -> (length e + len <= MUL_ACT_BUF_SZ)%nat ->
  act_base m = e ++ replicate (len + (MUL_ACT_BUF_SZ - (length e + len))) 0 /\
  (length e + (len + (MUL_ACT_BUF_SZ - (length e + len))) = buf_len m)%nat.
Proof.
  intros R -> Hl. rewrite (rp_base _ _ R), (rp_len _ _ R). split; [do 2 f_equal; lia|lia].
Qed.

Lemma inst_step c i l cur m : repr (mk_abs l cur) m -> call_inst c = Some i -> has_inst (inst_type i) l = false ->
  (length (enc_insts (l ++ [i])) <= MUL_ACT_BUF_SZ)%nat ->
  exists m', run_call c m = Some (m', Z.of_nat (length (enc_inst i))) /\ repr (mk_abs (l ++ [i]) cur) m'.
Proof.
  intros R Hc Hh Hl. destruct (call_inst_makes c i Hc) as (f & -> & Hf & Ht & Ha & Hw).
  rewrite enc_insts_app, enc_insts_one, length_app in Hl.
  set (m1 := set_bms (Z.lor (inst_bm m) (Z.shiftl 1 (inst_type i))) (act_bm m) (setf_bm m) m).
  destruct (repr_room _ m (enc_insts l) _ R eq_refl Hl) as [Hb Hbl].
  unfold add_inst. rewrite (rp_ibm _ _ R _ Ht : _ = has_inst (inst_type i) l), Hh. fold m1.
  rewrite (emit_fits m1 _ _ _ _ _ Hb (rp_wr _ _ R) Hbl Hf). cbn [mbind option_bind]. eexists. split; [reflexivity|].
  split; cbn [ab_insts ab_cur act_base act_wr_ptr buf_len only_acts act_inst_type act_inst_wr_ptr act_inst_app_ptr inst_bm act_bm setf_bm
    md_gen set_wr_ptr set_base set_bms m1]; rewrite ?enc_insts_app, ?enc_insts_one, ?length_app, ?pos_snoc, ?Ha.
  - by rewrite <- app_assoc.
  - done.
  - done.
  - apply (rp_len _ _ R).
  - apply (rp_only _ _ R).
  - apply (rp_cur _ _ R).
  - rewrite (rp_wptr _ _ R). cbn. by destruct (pos true l).
  - rewrite (rp_aptr _ _ R). cbn. by destruct (pos false l).
  - intros t Hi. rewrite has_inst_snoc, <- (rp_ibm _ _ R t Hi : _ = has_inst t l).
    assert (0 <= t /\ 0 <= inst_type i) as [? ?].
    { rewrite !elem_of_cons in Hi, Ht. unfold OFPIT_GOTO_TABLE, OFPIT_WRITE_METADATA, OFPIT_CLEAR_ACTIONS, OFPIT_METER in *.
      split; [destruct Hi as [?|[?|[?|[?|?%elem_of_nil]]]]|destruct Ht as [?|[?|[?|[?|?%elem_of_nil]]]]]; done || lia. }
    rewrite !has_bit_spec, Z.lor_spec, Z.shiftl_1_l by done. f_equal.
    destruct (Z.eqb_spec (inst_type i) t) as [->|Hn]; [by apply Z.pow2_bits_true|by apply Z.pow2_bits_false].
  - intros a Hok. rewrite wr_acts_app, Hw, app_nil_r. apply (rp_free _ _ R a Hok).
  - apply (rp_setf _ _ R).
Qed.

Lemma inst_step_again c i l cur m : repr (mk_abs l cur) m -> call_inst c = Some i -> has_inst (inst_type i) l = true ->
  run_call c m = Some (m, 0).
Proof.
  intros R Hc Hh. destruct (call_inst_makes c i Hc) as (f & -> & _ & Ht & _). unfold add_inst. by rewrite (rp_ibm _ _ R _ Ht : _ = has_inst (inst_type i) l), Hh.
Qed.

(** ** Opening an instruction *)

Lemma repr_type l cur m t : repr (mk_abs l cur) m -> repr (mk_abs l t) (set_inst_type t m).
Proof. intros []. by split. Qed.

Lemma ptr_open l cur m (w : bool) : repr (mk_abs l cur) m ->
  bool_decide (is_Some (if w then act_inst_wr_ptr m else act_inst_app_ptr m)) = has_acts w l.
Proof.
  intros R. assert ((if w then act_inst_wr_ptr m else act_inst_app_ptr m) = pair (md_gen m) <$> pos w l) as ->.
  { destruct w; [apply (rp_wptr _ _ R)|apply (rp_aptr _ _ R)]. }
  pose proof (pos_None w l) as H. destruct (has_acts w l); [|by rewrite (proj2 H)].
  destruct (pos w l); [done|]. by discriminate (proj1 H eq_refl).
Qed.

Definition acts_type (w : bool) : Z := if w then OFPIT_WRITE_ACTIONS else OFPIT_APPLY_ACTIONS.

Lemma open_test l cur m w : repr (mk_abs l cur) m ->
  ((acts_type w =? OFPIT_WRITE_ACTIONS) && bool_decide (is_Some (act_inst_wr_ptr m))) ||
  ((acts_type w =? OFPIT_APPLY_ACTIONS) && bool_decide (is_Some (act_inst_app_ptr m))) = has_acts w l.
Proof.
  intros R. rewrite (ptr_open l cur m true R), (ptr_open l cur m false R). destruct w; cbn; [apply orb_false_r|done].
Qed.

Lemma norm_type cur m : act_inst_type m = cur ->
  (if negb (act_inst_type m =? OFPIT_WRITE_ACTIONS) && negb (act_inst_type m =? OFPIT_APPLY_ACTIONS)
   then set_inst_type OFPIT_APPLY_ACTIONS m else m) = set_inst_type (norm_cur cur) m.
Proof.
  intros <-. unfold norm_cur, to_write. destruct (Z.eqb_spec (act_inst_type m) OFPIT_WRITE_ACTIONS) as [E|E].
  - cbn. rewrite <- E. by destruct m.
  - destruct (Z.eqb_spec (act_inst_type m) OFPIT_APPLY_ACTIONS) as [E2|E2]; cbn; [|done]. rewrite <- E2. by destruct m.
Qed.

Lemma norm_cur_type cur : norm_cur cur = acts_type (to_write cur).
Proof. done. Qed.

Lemma open_step l cur m : repr (mk_abs l cur) m -> has_acts (to_write cur) l = false ->
  (length (enc_insts (l ++ [IActs (to_write cur) []])) <= MUL_ACT_BUF_SZ)%nat ->
  exists m', __of131_make_inst_actions m = Some (m', 8) /\ repr (mk_abs (l ++ [IActs (to_write cur) []]) (norm_cur cur)) m'.
Proof.
  intros R Hh Hl. rewrite enc_insts_app, enc_insts_one, length_app in Hl.
  unfold __of131_make_inst_actions. rewrite (norm_type cur m (rp_cur _ _ R)), norm_cur_type. set (w := to_write cur) in *.
  assert (H8 : length (enc_inst (IActs w [])) = 8%nat) by (by destruct w). rewrite H8 in Hl.
  pose proof (repr_type l cur m (acts_type w) R) as R1. set (m1 := set_inst_type (acts_type w) m) in *.
  unfold of131_make_inst_actions. change (act_inst_type m1) with (acts_type w).
  rewrite (rp_only _ _ R1), (open_test _ _ m1 w R1), Hh.
  destruct (repr_room _ m1 (enc_insts l) _ R1 eq_refl Hl) as [Hb Hbl].
  assert (Hf : fills 8 (put_head (acts_type w) 8) (enc_inst (IActs w []))).
  { split; [by destruct w|]. intros k. destruct w; unfold put_head; run_wr. }
  rewrite (emit_fits m1 _ _ _ _ _ Hb (rp_wr _ _ R1) Hbl Hf). cbn [mbind option_bind].
  exists (let m2 := set_wr_ptr (length (enc_insts l) + 8) (set_base (enc_insts l ++ enc_inst (IActs w []) ++
            replicate (MUL_ACT_BUF_SZ - (length (enc_insts l) + 8)) 0) m1) in
          if w then set_inst_wr (Some (md_gen m1, length (enc_insts l))) m2 else set_inst_app (Some (md_gen m1, length (enc_insts l))) m2).
  assert (Hp : forall w', pair (md_gen m1) <$> pos w' (l ++ [IActs w []]) =
    if eqb w' w then Some (md_gen m1, length (enc_insts l)) else pair (md_gen m1) <$> pos w' l).
  { intros w'. rewrite pos_snoc. cbn [is_acts]. destruct (eqb w' w) eqn:E; [|by destruct (pos w' l)].
    apply eqb_prop in E as ->. by rewrite (proj2 (pos_None w l) Hh). }
  assert (Hi : forall t, t ∈ [OFPIT_GOTO_TABLE; OFPIT_WRITE_METADATA; OFPIT_CLEAR_ACTIONS; OFPIT_METER] -> acts_type w =? t = false).
  { intros t Ht. rewrite !elem_of_cons in Ht. destruct Ht as [->|[->|[->|[->|?%elem_of_nil]]]]; by destruct w. }
  split; [cbn [act_wr_ptr set_wr_ptr]; rewrite Nat.add_sub; by destruct w|].
  split; cbn [ab_insts ab_cur]; rewrite ?enc_insts_app, ?enc_insts_one, ?length_app, ?H8, ?Hp.
  - rewrite <- app_assoc. by destruct w.
  - done.
  - by destruct w.
  - destruct w; apply (rp_len _ _ R).
  - destruct w; apply (rp_only _ _ R).
  - by destruct w.
  - destruct w; cbn; rewrite ?(rp_wptr _ _ R), ?(rp_aptr _ _ R); done.
  - destruct w; cbn; rewrite ?(rp_wptr _ _ R), ?(rp_aptr _ _ R); done.
  - intros t Ht. rewrite has_inst_snoc. cbn [inst_type]. fold (acts_type w). rewrite (Hi t Ht), orb_false_r.
    rewrite <- (rp_ibm _ _ R t Ht : _ = has_inst t l). by destruct w.
  - intros a Hok. rewrite wr_acts_app. replace (wr_acts [IActs w []]) with (@nil action) by (by destruct w).
    rewrite app_nil_r, <- (rp_free _ _ R a Hok : _ = negb (existsb _ (wr_acts l))). by destruct w, a.
  - destruct w; apply (rp_setf _ _ R).
Qed.

Lemma open_already l cur m : repr (mk_abs l cur) m -> has_acts (to_write cur) l = true ->
  __of131_make_inst_actions m = Some (set_inst_type (norm_cur cur) m, 0) /\ repr (mk_abs l (norm_cur cur)) (set_inst_type (norm_cur cur) m).
Proof.
  intros R Hh. pose proof (repr_type l cur m (norm_cur cur) R) as R1. split; [|done].
  unfold __of131_make_inst_actions. rewrite (norm_type cur m (rp_cur _ _ R)), norm_cur_type in *.
  unfold of131_make_inst_actions. change (act_inst_type (set_inst_type _ _)) with (acts_type (to_write cur)).
  by rewrite (rp_only _ _ R1), (open_test _ _ _ _ R1), Hh.
Qed.

(** ** Actions *)

Lemma norm_idem cur : norm_cur (norm_cur cur) = norm_cur cur /\ to_write (norm_cur cur) = to_write cur.
Proof. unfold norm_cur, to_write. by destruct (cur =? OFPIT_WRITE_ACTIONS). Qed.

(** What [add_action] does once the instruction is open. *)
Definition put_action (a : action) (f : list Z -> option (list Z)) (m : mul_act_mdata) : option (mul_act_mdata * Z) :=
  match once_of a m with
  | None => Some (m, 0)
  | Some m => m ← emit (length (enc_act a)) f m; m ← of131_fini_inst_actions m; Some (m, Z.of_nat (length (enc_act a)))
  end.

Lemma once_repr a l cur m : repr (mk_abs l cur) m -> act_ok a ->
  once_of a m = if to_write cur then if existsb (same_kind a) (wr_acts l) then None else Some (mark a m) else Some m.
Proof.
  intros R Ha. rewrite once_of_eq, (rp_cur _ _ R), (rp_free _ _ R a Ha). cbn [ab_cur ab_insts]. unfold to_write.
  destruct (cur =? OFPIT_WRITE_ACTIONS); [|done]. by destruct (existsb _ _).
Qed.

(** Marking changes the bitmaps only. *)
Definition marked (a : action) (w : bool) (m : mul_act_mdata) : mul_act_mdata := if w then mark a m else m.

Lemma marked_frame a w m : let m' := marked a w m in
  act_base m' = act_base m /\ md_gen m' = md_gen m /\ act_wr_ptr m' = act_wr_ptr m /\ act_inst_wr_ptr m' = act_inst_wr_ptr m /\
  act_inst_app_ptr m' = act_inst_app_ptr m /\ buf_len m' = buf_len m /\ only_acts m' = only_acts m /\
  act_inst_type m' = act_inst_type m /\ inst_bm m' = inst_bm m.
Proof. destruct w, a; split_and!; done. Qed.

Lemma fini_repr l (w : bool) acts a m g : act_base m = enc_insts (l ++ [IActs w acts]) ++ enc_act a ++ g ->
  act_wr_ptr m = length (enc_insts (l ++ [IActs w acts]) ++ enc_act a) -> only_acts m = false -> act_inst_type m = acts_type w ->
  (if w then act_inst_wr_ptr m else act_inst_app_ptr m) = Some (md_gen m, length (enc_insts l)) ->
  (length (enc_insts (l ++ [IActs w acts]) ++ enc_act a) <= MUL_ACT_BUF_SZ)%nat ->
  of131_fini_inst_actions m = Some (set_base (enc_insts (l ++ [IActs w (acts ++ [a])]) ++ g) m).
Proof.
  intros Hb Hw Ho Ht Hp Hl. unfold of131_fini_inst_actions, open_inst. rewrite Ho, Ht.
  replace (if acts_type w =? OFPIT_WRITE_ACTIONS then act_inst_wr_ptr m
           else if acts_type w =? OFPIT_APPLY_ACTIONS then act_inst_app_ptr m else None)
    with (Some (md_gen m, length (enc_insts l))) by (rewrite <- Hp; by destruct w).
  rewrite Nat.eqb_refl, Hb, Hw. rewrite !enc_insts_app, !enc_insts_one, !length_app in *.
  rewrite (proj2 (Nat.ltb_ge _ _)) by lia. cbn [negb orb].
  replace (length (enc_insts l) + length (enc_inst (IActs w acts)) + length (enc_act a) - length (enc_insts l))%nat
    with (length (enc_inst (IActs w acts) ++ enc_act a)) by (rewrite length_app; lia).
  unfold enc_inst in *. cbn [inst_type inst_body] in *. rewrite <- !app_assoc.
  rewrite tlv_grow.
  - cbn [mbind option_bind]. do 2 f_equal. 
    by rewrite enc_acts_app, (app_nil_r (enc_act a) : enc_acts [a] = enc_act a), <- !app_assoc.
  - rewrite tlv_enc_length in Hl. rewrite !length_app in Hl. rewrite !length_app.
    pose proof (eq_refl : Z.of_nat MUL_ACT_BUF_SZ = 4096). lia.
Qed.

Lemma wr_acts_none l : has_acts true l = false -> wr_acts l = [].
Proof.
  induction l as [|i l IH]; [done|]. cbn. intros [Hi Hl]%orb_false_iff.
  destruct i as [| | | |w acts]; try (by apply IH). destruct w; [done|by apply IH].
Qed.

Lemma pos_last w l acts : has_acts w l = false -> pos w (l ++ [IActs w acts]) = Some (length (enc_insts l)).
Proof. intros H. rewrite pos_snoc, (proj2 (pos_None w l) H). cbn. by rewrite eqb_reflx. Qed.

(** Where the instructions begin does not depend on the actions of the last one. *)
Lemma pos_acts w' l w acts acts' : pos w' (l ++ [IActs w acts]) = pos w' (l ++ [IActs w acts']).
Proof. by rewrite !pos_snoc. Qed.

Lemma grow_length l w acts a :
  length (enc_insts (l ++ [IActs w (acts ++ [a])])) = length (enc_insts (l ++ [IActs w acts]) ++ enc_act a).
Proof.
  rewrite !enc_insts_app, !enc_insts_one, !length_app. unfold enc_inst. rewrite !tlv_enc_length. cbn [inst_body].
  rewrite !length_app, enc_acts_app, length_app, (app_nil_r (enc_act a) : enc_acts [a] = enc_act a). lia.
Qed.

Lemma has_inst_acts t l w acts acts' : has_inst t (l ++ [IActs w acts]) = has_inst t (l ++ [IActs w acts']).
Proof. by rewrite !has_inst_snoc. Qed.

Lemma put_step a f l cur w acts m : w = to_write cur ->
  repr (mk_abs (l ++ [IActs w acts]) cur) m -> cur = norm_cur cur -> has_acts w l = false -> act_ok a ->
  fills (length (enc_act a)) f (enc_act a) -> (w = true -> existsb (same_kind a) acts = false) ->
  (length (enc_insts (l ++ [IActs w (acts ++ [a])])) <= MUL_ACT_BUF_SZ)%nat ->
  exists m', put_action a f m = Some (m', Z.of_nat (length (enc_act a))) /\ repr (mk_abs (l ++ [IActs w (acts ++ [a])]) cur) m'.
Proof.
  intros Ew R Hc Hh Ha Hf Hn Hl. pose proof (grow_length l w acts a) as Hg. rewrite Hg in Hl. rewrite length_app in Hl.
  assert (Hwa : forall x, wr_acts (l ++ [IActs w x]) = wr_acts l ++ (if w then x else [])).
  { intros x. rewrite wr_acts_app. f_equal. unfold wr_acts. destruct w; cbn; [apply app_nil_r|done]. }
  assert (once_of a m = Some (marked a w m)) as Ho.
  { rewrite (once_repr a _ cur m R Ha), Hwa, <- Ew. destruct w; [|done]. rewrite (wr_acts_none l Hh). cbn [app].
    by rewrite (Hn eq_refl). }
  destruct (marked_frame a w m) as (Fb & Fg & Fw & Fp & Fq & Fl & Fo & Ft & Fi).
  destruct (repr_room _ m _ _ R eq_refl Hl) as [Hb Hbl]. cbn [ab_insts] in Hb, Hbl.
  unfold put_action. rewrite Ho. rewrite <- Fb in Hb. rewrite <- Fl in Hbl.
  rewrite (emit_fits (marked a w m) _ _ _ _ _ Hb) by (done || (rewrite Fw; apply (rp_wr _ _ R))). cbn [mbind option_bind].
  set (m1 := set_wr_ptr _ _).
  assert (Hp : forall v : bool, (if v then act_inst_wr_ptr m1 else act_inst_app_ptr m1) = pair (md_gen m1) <$> pos v (l ++ [IActs w acts])).
  { intros v. cbn. rewrite Fp, Fq, Fg, (rp_wptr _ _ R), (rp_aptr _ _ R). by destruct v. }
  erewrite (fini_repr l w acts a m1); [|reflexivity|cbn; by rewrite length_app|cbn; rewrite Fo; apply (rp_only _ _ R)
    |cbn; rewrite Ft, (rp_cur _ _ R); cbn; by rewrite Hc, norm_cur_type, <- Ew|by rewrite Hp, pos_last|by rewrite length_app].
  cbn [mbind option_bind]. eexists. split; [reflexivity|].
  split; cbn [ab_insts ab_cur]; rewrite ?Hg, ?(pos_acts _ l w _ acts), ?length_app.
  - done.
  - done.
  - done.
  - cbn. rewrite Fl. apply (rp_len _ _ R).
  - cbn. rewrite Fo. apply (rp_only _ _ R).
  - cbn. rewrite Ft. apply (rp_cur _ _ R).
  - apply (Hp true).
  - apply (Hp false).
  - intros t Ht. rewrite (has_inst_acts t l w _ acts). cbn. rewrite Fi. apply (rp_ibm _ _ R t Ht).
  - intros b Hb'. rewrite Hwa. pose proof (rp_free _ _ R b Hb') as Hfr. cbn [ab_insts] in Hfr. rewrite Hwa in Hfr.
    destruct (once_free_mark a b m Ha Hb' (rp_setf _ _ R)) as [Hm _].
    destruct w; [|rewrite <- Hfr; by destruct b].
    transitivity (once_free b (mark a m)); [by destruct b|]. rewrite Hm, Hfr, !existsb_app, !negb_orb, <- !andb_assoc. cbn.
    by rewrite orb_false_r.
  - destruct w; [|apply (rp_setf _ _ R)]. apply (once_free_mark a a m Ha Ha (rp_setf _ _ R)).
Qed.

(** ** Calls *)

Lemma action_call c a m : call_ok c -> call_act c = Some a -> act_ok a /\
  exists f, fills (length (enc_act a)) f (enc_act a) /\ run_call c m = '(m, _) ← __of131_make_inst_actions m; put_action a f m.
Proof. intros Hc Ha. destruct (call_makes c a Hc Ha) as [(f & -> & Hf) Hok]. split; [done|]. by exists f. Qed.

Lemma type_step t l cur m : t = OFPIT_WRITE_ACTIONS \/ t = OFPIT_APPLY_ACTIONS -> repr (mk_abs l cur) m ->
  of131_set_inst_action_type t m = if has_acts (to_write t) l then Some (m, UINT64_MAX) else Some (set_inst_type t m, 0).
Proof.
  intros Ht R. unfold of131_set_inst_action_type. rewrite <- (open_test l cur m (to_write t) R).
  by destruct Ht as [->| ->].
Qed.

Lemma open_put a f l cur m : repr (mk_abs l cur) m -> has_acts (to_write cur) l = false -> act_ok a ->
  fills (length (enc_act a)) f (enc_act a) -> (length (enc_insts (l ++ [IActs (to_write cur) [a]])) <= MUL_ACT_BUF_SZ)%nat ->
  exists m', ('(m, _) ← __of131_make_inst_actions m; put_action a f m) = Some (m', Z.of_nat (length (enc_act a))) /\
    repr (mk_abs (l ++ [IActs (to_write cur) [a]]) (norm_cur cur)) m'.
Proof.
  intros R Hh Ha Hf Hl. pose proof (grow_length l (to_write cur) [] a) as Hg. cbn [app] in Hg. rewrite Hg, length_app in Hl.
  destruct (open_step l cur m R Hh ltac:(lia)) as (m1 & -> & R1). cbn [mbind option_bind]. destruct (norm_idem cur) as [N1 N2].
  apply (put_step a f l (norm_cur cur) (to_write cur) [] m1); try done. cbn [app]. by rewrite Hg, length_app.
Qed.

Lemma call_step s c s' r m : accepts s c s' r -> call_ok c -> repr s m ->
  (length (enc_insts (ab_insts s')) <= MUL_ACT_BUF_SZ)%nat -> exists m', run_call c m = Some (m', r) /\ repr s' m'.
Proof.
  intros Hacc Hc R Hl. destruct Hacc as [l cur t Hh|l cur t Hh|l cur c i Hi Hh|l cur c i Hi Hh|l cur c a Ha Hh|l cur c a acts Ha Hh Hk
    |l cur c a Ha Hw Hh Hk|l cur e He]; cbn [ab_insts] in Hl.
  - exists (set_inst_type t m). cbn. rewrite (type_step t l cur m Hc R), Hh. split; [done|]. by eapply repr_type.
  - exists m. cbn. by rewrite (type_step t l cur m Hc R), Hh.
  - by apply inst_step.
  - exists m. by rewrite (inst_step_again c i l cur m R Hi Hh).
  - destruct (action_call c a m Hc Ha) as (Hok & f & Hf & ->). by apply open_put.
  - destruct (action_call c a m Hc Ha) as (Hok & f & Hf & ->).
    destruct (open_already _ cur m R) as [-> R1].
    { unfold has_acts. rewrite existsb_app. cbn. by rewrite eqb_reflx, orb_true_r. }
    cbn [mbind option_bind]. destruct (norm_idem cur) as [N1 N2]. by apply put_step.
  - destruct (action_call c a m Hc Ha) as (Hok & f & Hf & ->).
    assert (cur = OFPIT_WRITE_ACTIONS) as -> by (by apply Z.eqb_eq).
    destruct (open_already _ _ m R Hh) as [-> R1]. cbn [mbind option_bind].
    eexists. split; [|exact R1]. unfold put_action. rewrite (once_repr a _ _ _ R1 Hok). cbn. by rewrite Hk.
  - exists m. cbn. unfold of131_make_action_push. by rewrite He.
Qed.

Lemma accepts_grows s c s' r : accepts s c s' r -> (length (enc_insts (ab_insts s)) <= length (enc_insts (ab_insts s')))%nat.
Proof.
  intros []; cbn [ab_insts]; rewrite ?grow_length, ?enc_insts_app, ?length_app; lia.
Qed.

Lemma accepts_all_grows s cs s' rs : accepts_all s cs s' rs ->
  (length (enc_insts (ab_insts s)) <= length (enc_insts (ab_insts s')))%nat.
Proof. induction 1 as [|s c s1 r cs s2 rs H _ IH]; [done|]. pose proof (accepts_grows _ _ _ _ H). lia. Qed.

Lemma calls_run s cs s' rs m : accepts_all s cs s' rs -> Forall call_ok cs -> repr s m ->
  (length (enc_insts (ab_insts s')) <= MUL_ACT_BUF_SZ)%nat -> exists m', run_calls cs m = Some (m', rs) /\ repr s' m'.
Proof.
  intros H. revert m. induction H as [s|s c s1 r cs s2 rs H Hs IH]; intros m Hok R Hl; [by exists m|].
  apply Forall_cons in Hok as [Hc Hcs]. pose proof (accepts_all_grows _ _ _ _ Hs).
  destruct (call_step s c s1 r m H Hc R) as (m1 & E & R1); [lia|]. destruct (IH m1 Hcs R1 Hl) as (m2 & E2 & R2).
  exists m2. cbn. rewrite E. cbn. rewrite E2. done.
Qed.

(** C24: a sequence of calls of the OpenFlow 1.3 makers on a fresh buffer that describes a list of instructions of at most 4096 bytes
    returns what the description says, and the buffer then holds the encoding of exactly that list: every instruction with its
    length, every action in the instruction it was meant for, an action of a kind at most once in the write instruction. *)
Theorem makers_refine cs s rs : accepts_all abs0 cs s rs -> Forall call_ok cs ->
  (length (enc_insts (ab_insts s)) <= MUL_ACT_BUF_SZ)%nat ->
  exists m, run_calls cs of_mact_alloc = Some (m, rs) /\ take (of_mact_len m) (act_base m) = enc_insts (ab_insts s) /\
    of_mact_len m = length (enc_insts (ab_insts s)).
Proof.
  intros H Hok Hl. destruct (calls_run _ _ _ _ _ H Hok repr_init Hl) as (m & E & R). exists m. split; [done|].
  unfold of_mact_len. rewrite (rp_wr _ _ R), (rp_base _ _ R). split; [apply take_app_length|done].
Qed.

(** ** A full buffer *)

Lemma emit_moves m len f bs : (buf_len m < act_wr_ptr m + len)%nat -> (act_wr_ptr m <= buf_len m <= length (act_base m))%nat ->
  fills len f bs -> exists b w n, emit len f m =
    Some (mk_md b (S (md_gen m)) w (act_inst_wr_ptr m) (act_inst_app_ptr m) n (only_acts m) (act_inst_type m) (inst_bm m) (act_bm m) (setf_bm m)).
Proof.
  intros Hl Hb [_ Hf]. unfold emit, of_check_realloc_act, of_mact_buf_room.
  rewrite (proj2 (Nat.ltb_ge (buf_len m) (act_wr_ptr m))) by lia. rewrite (proj2 (Nat.ltb_lt _ len)) by lia.
  rewrite rd_Some by lia. cbn [mbind option_bind act_wr_ptr act_base].
  rewrite drop_app_length' by (rewrite length_take, length_drop; lia). pose proof (Hf 0%nat) as E. rewrite Nat.add_0_r in E. rewrite E.
  cbn. by do 3 eexists.
Qed.

(** When the next action does not fit behind the open instruction, its maker moves the buffer and then writes the length of the
    instruction through the pointer into the old one: a use of freed memory. *)
Theorem maker_overflow_faults cs l w acts cur rs c a : accepts_all abs0 cs (mk_abs (l ++ [IActs w acts]) cur) rs ->
  Forall call_ok cs -> call_ok c -> call_act c = Some a -> w = to_write cur -> has_acts w l = false ->
  (w = true -> existsb (same_kind a) acts = false) ->
  (length (enc_insts (l ++ [IActs w acts])) <= MUL_ACT_BUF_SZ < length (enc_insts (l ++ [IActs w (acts ++ [a])])))%nat ->
  run_calls (cs ++ [c]) of_mact_alloc = None.
Proof.
  intros H Hok Hc Ha Ew Hh Hk [Hl Hg]. destruct (calls_run _ _ _ _ _ H Hok repr_init Hl) as (m & E & R).
  enough (run_call c m = None) as En.
  { clear -E En. revert E. generalize of_mact_alloc as m0. revert rs. induction cs as [|d cs IH]; intros rs m0 E; cbn in *.
    - simplify_eq. by rewrite En.
    - destruct (run_call d m0) as [[m1 r]|]; [|done]. cbn in *. destruct (run_calls cs m1) as [[m2 rs2]|] eqn:E2; [|done].
      cbn in *. simplify_eq. by rewrite (IH _ _ E2). }
  destruct (action_call c a m Hc Ha) as (Hok' & f & Hf & ->). destruct (open_already _ cur m R) as [-> R1].
  { unfold has_acts. rewrite existsb_app. cbn. by rewrite Ew, eqb_reflx, orb_true_r. }
  cbn [mbind option_bind]. set (m1 := set_inst_type _ m) in *. destruct (norm_idem cur) as [_ N].
  assert (once_of a m1 = Some (marked a w m1)) as Ho.
  { rewrite (once_repr a _ _ m1 R1 Hok'), N, <- Ew, wr_acts_app. destruct w; [|done]. rewrite (wr_acts_none l Hh). cbn.
    by rewrite app_nil_r, (Hk eq_refl). }
  destruct (marked_frame a w m1) as (Fb & Fg & Fw & Fp & Fq & Fl & Fo & Ft & _). rewrite grow_length, length_app in Hg.
  unfold put_action. rewrite Ho. destruct (emit_moves (marked a w m1) (length (enc_act a)) f (enc_act a)) as (b & wp & n & Em); [| |done|].
  { rewrite Fl, Fw, (rp_len _ _ R1), (rp_wr _ _ R1). done. }
  { rewrite Fl, Fw, Fb, (rp_len _ _ R1), (rp_wr _ _ R1), (rp_base _ _ R1), length_app, length_replicate. cbn [ab_insts]. lia. }
  rewrite Em. cbn [mbind option_bind]. unfold of131_fini_inst_actions, open_inst. cbn [only_acts act_inst_type act_inst_wr_ptr act_inst_app_ptr].
  rewrite Fo, Ft, (rp_only _ _ R1), (rp_cur _ _ R1), Fp, Fq, (rp_wptr _ _ R1), (rp_aptr _ _ R1). cbn [ab_cur ab_insts].
  rewrite norm_cur_type, <- Ew.
  replace (if acts_type w =? OFPIT_WRITE_ACTIONS then pair (md_gen m1) <$> pos true (l ++ [IActs w acts])
           else if acts_type w =? OFPIT_APPLY_ACTIONS then pair (md_gen m1) <$> pos false (l ++ [IActs w acts]) else None)
    with (Some (md_gen m1, length (enc_insts l))) by (destruct w; cbn; by rewrite pos_last).
  cbn [md_gen]. rewrite Fg, (proj2 (Nat.eqb_neq _ _)) by lia. done.
Qed.

End ActMake.
