(* ===== verification/ActCheck.v ===== *)
(** * The checker of actions and instructions on encoded lists

    [chk_insts] is the checker as a function of a list of instructions.  On the bytes of such a list the code computes the same:
    the same result, the same effects on the flow of the caller, and the same list with the tables of goto instructions translated
    ([validate_refines]). *)
From stdpp Require Import base list.
From Stdlib Require Import ZArith Lia.
From S2P Require Import Prelude Bytes Flow Oxm OxmSpec Act ActParse ActSpec ActMake.
#[local] Open Scope Z_scope.

Module ActCheck.
Import Bytes Flow Oxm Act ActParse ActSpec ActMake.

(** ** The checker on lists *)

(** A field that may be set: how many bytes of it are read, when it may be set, and its effect on a flow. *)
Record fspec := mk_fspec { fs_size : nat; fs_need : ofp_inst_parser_arg -> bool; fs_set : list Z -> flow -> flow }.

Definition fset (n : nat) (set : Z -> flow -> flow) (d : list Z) : flow -> flow := set (le_val (take n d)).
Definition label_of (d : list Z) : Z := if (length d =? 3)%nat then le_val (0 :: d) else le_val (take 4 d).

(** With a match the ports of a packet are only compared with it. *)
Definition tp_need (dp : ofp_inst_parser_arg) : bool :=
  match pa_fl dp, pa_mask dp with
  | Some fl, Some mask =>
      of_types [ETH_TYPE_IP; ETH_TYPE_IPV6] dp && nz (nw_proto mask) &&
      ((nw_proto fl =? IP_TYPE_TCP) || (nw_proto fl =? IP_TYPE_UDP) || (nw_proto fl =? IP_TYPE_SCTP))
  | _, _ => true
  end.

Definition field_spec (f : Z) : option fspec :=
  if f =? OFPXMT_OFB_ETH_DST then Some (mk_fspec 6 any_ctx (fun d => set_dl_dst (take 6 d)))
  else if f =? OFPXMT_OFB_ETH_SRC then Some (mk_fspec 6 any_ctx (fun d => set_dl_src (take 6 d)))
  else if f =? OFPXMT_OFB_ETH_TYPE then Some (mk_fspec 2 any_ctx (fset 2 set_dl_type))
  else if f =? OFPXMT_OFB_VLAN_VID then Some (mk_fspec 2 in_vlan (fset 2 (fun v => set_dl_vlan (htons (Z.land (ntohs v) 0xfff)))))
  else if f =? OFPXMT_OFB_VLAN_PCP then Some (mk_fspec 1 in_vlan (fset 1 set_dl_vlan_pcp))
  else if f =? OFPXMT_OFB_MPLS_LABEL then Some (mk_fspec 3 in_mpls (fun d => set_mpls_label (label_of d)))
  else if f =? OFPXMT_OFB_MPLS_TC then Some (mk_fspec 1 in_mpls (fset 1 set_mpls_tc))
  else if f =? OFPXMT_OFB_MPLS_BOS then Some (mk_fspec 1 in_mpls (fset 1 set_mpls_bos))
  else if f =? OFPXMT_OFB_IPV4_SRC then Some (mk_fspec 4 (of_types [ETH_TYPE_IP; ETH_TYPE_ARP]) (fset 4 set_nw_src))
  else if f =? OFPXMT_OFB_IPV4_DST then Some (mk_fspec 4 (of_types [ETH_TYPE_IP; ETH_TYPE_ARP]) (fset 4 set_nw_dst))
  else if f =? OFPXMT_OFB_IPV6_SRC then Some (mk_fspec 0 (of_types [ETH_TYPE_IPV6]) (fun _ fl => fl))
  else if f =? OFPXMT_OFB_IPV6_DST then Some (mk_fspec 0 (of_types [ETH_TYPE_IPV6]) (fun _ fl => fl))
  else if f =? OFPXMT_OFB_IP_DSCP then Some (mk_fspec 1 (of_types [ETH_TYPE_IP]) (fset 1 set_nw_tos))
  else None.

Definition tp_field_spec (f : Z) : option (Z -> flow -> flow) :=
  if (f =? OFPXMT_OFB_UDP_SRC) || (f =? OFPXMT_OFB_TCP_SRC) then Some set_tp_src
  else if (f =? OFPXMT_OFB_TCP_DST) || (f =? OFPXMT_OFB_UDP_DST) then Some set_tp_dst else None.

Definition chk_field (f : Z) (d : list Z) (dp : ofp_inst_parser_arg) : ofp_inst_parser_arg :=
  match field_spec f, tp_field_spec f with
  | Some s, _ =>
      if of131_check_setfield_supported dp f && fs_need s dp then mod_uflow (fs_set s d) dp else fail dp
  | None, Some set =>
      if of131_check_setfield_supported dp f && tp_need dp then
        if bool_decide (is_Some (pa_fl dp)) && bool_decide (is_Some (pa_mask dp)) then dp else mod_uflow (set (le_val (take 2 d))) dp
      else fail dp
  | None, None => dp
  end.

Definition count_push (t : Z) (k : Z) (dp : ofp_inst_parser_arg) : ofp_inst_parser_arg :=
  if (t =? OFPAT131_PUSH_VLAN) || (t =? OFPAT131_POP_VLAN) then set_push (push_mpls dp) (push_vlan dp + k) (push_pbb dp) dp
  else if (t =? OFPAT131_PUSH_MPLS) || (t =? OFPAT131_POP_MPLS) then set_push (push_mpls dp + k) (push_vlan dp) (push_pbb dp) dp
  else if (t =? OFPAT131_PUSH_PBB) || (t =? OFPAT131_POP_PBB) then set_push (push_mpls dp) (push_vlan dp) (push_pbb dp + k) dp
  else dp.

Definition needs_mpls (t : Z) : bool := (t =? OFPAT131_POP_MPLS) || (t =? OFPAT131_MPLS_TTL) || (t =? OFPAT131_DEC_MPLS_TTL).

(** Actions that are not output, push, group or set-field. *)
Definition chk_other (t : Z) (dp : ofp_inst_parser_arg) : ofp_inst_parser_arg :=
  if of131_check_action_supported dp t && (negb (needs_mpls t) || (0 <? push_mpls dp)) then count_push t (-1) dp else fail dp.

Definition port_ok (u : option ofp_inst_check_args) (p : Z) : bool :=
  negb (p =? 0) && match u with Some u => match check_port u with Some f => f p | None => true end | None => true end.

(** [None] when the controller is an output port and the caller passed no [arg]. *)
Definition chk_output (p : Z) (dp : ofp_inst_parser_arg) : option ofp_inst_parser_arg :=
  if negb (port_ok (u_arg dp) p) then Some (fail dp)
  else match u_arg dp with
       | None => if p =? OFPP131_CONTROLLER then None else Some dp
       | Some u =>
           let u := if p =? OFPP131_CONTROLLER then set_ca_local u else u in
           Some (set_uarg (Some (if mod_fl_flag dp then set_ca_out p (group_id u) u else u)) dp)
       end.

Definition chk_group (g : Z) (dp : ofp_inst_parser_arg) : ofp_inst_parser_arg :=
  if negb (of131_check_action_supported dp OFPAT131_GROUP) then fail dp
  else match u_arg dp with
       | None => dp
       | Some u =>
           let '(ok, l) := match check_add_group u with Some f => f g (grp_list u) | None => (true, grp_list u) end in
           let u := set_ca_lists l (meter_list u) u in
           let dp := set_uarg (Some u) dp in
           if negb ok then fail dp else if mod_fl_flag dp then set_uarg (Some (set_ca_out (out_port u) g u)) dp else dp
       end.

Definition chk_act (a : action) (dp : ofp_inst_parser_arg) : option ofp_inst_parser_arg :=
  match a with
  | AOutput p _ => chk_output p dp
  | APush t _ => let dp := count_push t 1 dp in Some (if of131_check_action_supported dp t then dp else fail dp)
  | AId t i => Some (if t =? OFPAT131_GROUP then chk_group i dp else chk_other t dp)
  | ASetField f d => Some (chk_field f d dp)
  | _ => Some (chk_other (act_type a) dp)
  end.

(** The count and the result end the walk, the rest of the list is not looked at. *)
Fixpoint chk_acts (n : Z) (acts : list action) (dp : ofp_inst_parser_arg) : option ofp_inst_parser_arg :=
  match acts with
  | [] => Some dp
  | a :: acts => if (OFP_MAX_ACTIONS <? n) || negb (res dp =? 0) then Some dp else dp ← chk_act a dp; chk_acts (n + 1) acts dp
  end.

Definition chk_meter (m : Z) (dp : ofp_inst_parser_arg) : ofp_inst_parser_arg :=
  if inst_meter dp then fail dp
  else
    let seen dp := set_insts (act_set dp) (inst_wr dp) (inst_app dp) (inst_goto dp) true (inst_clear dp) (inst_wr_meta dp) dp in
    match u_arg dp with
    | Some u =>
        match check_add_meter u with
        | Some f => let '(ok, l) := f m (meter_list u) in
                    let dp := set_uarg (Some (set_ca_lists (grp_list u) l u)) dp in
                    if ok then seen dp else fail dp
        | None => seen dp
        end
    | None => seen dp
    end.

Definition xlate (dp : ofp_inst_parser_arg) (t : Z) : option Z :=
  match u_arg dp with Some u => match get_v2p_tbl u with Some f => u8 <$> f t | None => Some t end | None => Some t end.

(** The instruction as it is left in the buffer, and the context. *)
Definition chk_inst (i : inst) (dp : ofp_inst_parser_arg) : option (inst * ofp_inst_parser_arg) :=
  match i with
  | IGoto t =>
      if inst_goto dp || negb (of131_check_inst_supported dp OFPIT_GOTO_TABLE) then Some (i, fail dp)
      else let dp' := set_insts (act_set dp) (inst_wr dp) (inst_app dp) true (inst_meter dp) (inst_clear dp) (inst_wr_meta dp) dp in
           t ← xlate dp t; Some (IGoto t, mod_uflow (set_table_id t) dp')
  | IMeter m => Some (i, chk_meter m dp)
  | IMeta _ _ =>
      Some (i, if inst_wr_meta dp || negb (of131_check_inst_supported dp OFPIT_WRITE_METADATA) then fail dp
               else set_insts (act_set dp) (inst_wr dp) (inst_app dp) (inst_goto dp) (inst_meter dp) (inst_clear dp) true dp)
  | IClear =>
      Some (i, if inst_clear dp then fail dp
               else set_insts (act_set dp) (inst_wr dp) (inst_app dp) (inst_goto dp) (inst_meter dp) true (inst_wr_meta dp) dp)
  | IActs w acts =>
      if inst_wr dp then Some (i, fail dp)
      else
        let dp := set_insts w (w || inst_wr dp) (negb w || inst_app dp) (inst_goto dp) (inst_meter dp) (inst_clear dp) (inst_wr_meta dp) dp in
        if negb (of131_check_inst_supported dp (inst_type i)) then Some (i, fail dp) else dp ← chk_acts 0 acts dp; Some (i, dp)
  end.

Fixpoint chk_insts (n : Z) (l : list inst) (dp : ofp_inst_parser_arg) : option (list inst * ofp_inst_parser_arg) :=
  match l with
  | [] => Some ([], dp)
  | i :: l => if (OFP_MAX_INSTRUCTIONS <? n) || negb (res dp =? 0) then Some (i :: l, dp)
              else '(i, dp) ← chk_inst i dp; '(l, dp) ← chk_insts (n + 1) l dp; Some (i :: l, dp)
  end.

(** ** Lists within the widths of the protocol *)

Definition data_ok (f : Z) (d : list Z) : Prop :=
  match field_spec f with
  | Some s => if f =? OFPXMT_OFB_MPLS_LABEL then length d = 3%nat \/ (4 <= length d)%nat else (fs_size s <= length d)%nat
  | None => if tp_field_spec f then (2 <= length d)%nat else True
  end.

Definition act_enc_ok (a : action) : Prop :=
  act_ok a /\
  match a with
  | AOutput p _ => 0 <= p < 2 ^ 32
  | AId _ i => 0 <= i < 2 ^ 32
  | ASetField f d => data_ok f d
  | _ => True
  end.

Definition inst_enc_ok (i : inst) : Prop :=
  Z.of_nat (length (enc_inst i)) < 65536 /\
  match i with
  | IGoto t => is_byte t
  | IMeter m => 0 <= m < 2 ^ 32
  | IActs _ acts => Forall act_enc_ok acts
  | _ => True
  end.

(** ** Reading a structure in the buffer *)

Lemma rd_in pre x post k n : (k + n <= length x)%nat -> rd (pre ++ x ++ post) (length pre + k) n = rd x k n.
Proof.
  intros H. rewrite !rd_Some by (rewrite ?length_app; lia).
  rewrite <- drop_drop, drop_app_length, drop_app_le, take_app_le by (rewrite ?length_drop; lia). done.
Qed.

Lemma rd_body pre t b post k n : (k + n <= length b)%nat -> rd (pre ++ tlv_enc t b ++ post) (length pre + (4 + k)) n = rd b k n.
Proof.
  intros H. rewrite rd_in by (rewrite tlv_enc_length; lia). unfold tlv_enc.
  pose proof (rd_in (be 2 t ++ be 2 (4 + Z.of_nat (length b))) b [] k n H) as E. rewrite app_nil_r, <- app_assoc in E. exact E.
Qed.

Lemma rd_le_body pre t b post k n : (k + n <= length b)%nat -> rd_le (pre ++ tlv_enc t b ++ post) (length pre + (4 + k)) n = rd_le b k n.
Proof. intros H. unfold rd_le. by rewrite rd_body. Qed.

Lemma rd_le_be n v r : rd_le (be n v ++ r) 0 n = Some (bswap n v).
Proof. 
  unfold rd_le. pose proof (rd_app_mid [] (be n v) r 0 n eq_refl ltac:(by rewrite be_length)) as E. cbn [app] in E. by rewrite E.
Qed.

Lemma rd_type pre t b post : rd_le (pre ++ tlv_enc t b ++ post) (length pre) 2 = Some (bswap 2 t).
Proof.
  replace (length pre) with (length pre + 0)%nat by lia. unfold rd_le. rewrite rd_in by (rewrite tlv_enc_length; lia).
  apply (rd_le_be 2 t).
Qed.

Lemma rd_len pre t b post : rd_le (pre ++ tlv_enc t b ++ post) (length pre + 2) 2 = Some (bswap 2 (4 + Z.of_nat (length b))).
Proof.
  unfold rd_le. rewrite rd_in by (rewrite tlv_enc_length; lia). unfold tlv_enc.
  by rewrite (rd_app_mid (be 2 t) (be 2 (4 + Z.of_nat (length b))) b 2 2).
Qed.

Lemma bswap_zero n : bswap n 0 = 0.
Proof.
  unfold bswap. assert (le_bytes n 0 = replicate n 0) as ->.
  { induction n as [|n IH]; [done|]. change (le_bytes (S n) 0) with (0 :: le_bytes n 0). by rewrite IH. }
  assert (rev (replicate n 0) = replicate n 0) as -> by (rewrite rev_alt; exact (reverse_replicate n 0)).
  induction n as [|n IH]; [done|]. change (le_val (replicate (S n) 0)) with (0 + 256 * le_val (replicate n 0)). by rewrite IH.
Qed.

Lemma bswap_eqb_0 n v : 0 <= v < 256 ^ Z.of_nat n -> (bswap n v =? 0) = (v =? 0).
Proof.
  intros Hv. destruct (Z.eqb_spec v 0) as [->|Hn]; [by rewrite bswap_zero|].
  apply Z.eqb_neq. intros H. apply Hn. by rewrite <- (bswap_involutive n v), H, bswap_zero.
Qed.

(** ** Actions *)

Definition put_back (buf : list Z) (x : option ofp_inst_parser_arg) : option pstate := pair buf <$> x.

Lemma set_uarg_same dp u : u_arg dp = u -> set_uarg u dp = dp.
Proof. intros <-. by destruct dp. Qed.

Lemma output_at pre p l post dp : 0 <= p < 2 ^ 32 ->
  of131_check_act_output (length pre) (pre ++ enc_act (AOutput p l) ++ post, dp) =
  put_back (pre ++ enc_act (AOutput p l) ++ post) (chk_output p dp).
Proof.
  intros Hp. unfold of131_check_act_output. set (buf := pre ++ _ ++ post).
  assert (rd_le buf (length pre + 4) 4 = Some (bswap 4 p)) as ->.
  { apply (rd_le_body pre OFPAT131_OUTPUT (act_body (AOutput p l)) post 0 4).
    cbn [act_body]. rewrite length_app, be_length. lia. }
  cbn [mbind option_bind]. unfold ntohl. rewrite (bswap_eqb_0 4), (bswap_involutive 4) by done.
  unfold chk_output, port_ok. rewrite negb_andb, negb_involutive.
  destruct (u_arg dp) as [u|] eqn:Eu.
  - destruct (check_port u) as [f|]; cbn [negb].
    1: destruct ((p =? 0) || negb (f p)); [done|].
    2: destruct ((p =? 0) || false); [done|].
    all: destruct (p =? OFPP131_CONTROLLER); cbn; rewrite ?Eu; destruct (mod_fl_flag dp) eqn:Ef; cbn; rewrite ?Ef, ?Eu; cbn; try done.
    all: by rewrite set_uarg_same.
  - cbn [negb]. rewrite orb_false_r. destruct (p =? 0); [done|]. destruct (p =? OFPP131_CONTROLLER); [done|].
    cbn. rewrite Eu. destruct (mod_fl_flag dp); [|done]. cbn. by rewrite set_uarg_same.
Qed.

Lemma push_at pre t e post dp : t = OFPAT131_PUSH_VLAN \/ t = OFPAT131_PUSH_MPLS \/ t = OFPAT131_PUSH_PBB ->
  of131_check_push_action (length pre) (pre ++ enc_act (APush t e) ++ post, dp) =
  put_back (pre ++ enc_act (APush t e) ++ post) (chk_act (APush t e) dp).
Proof.
  intros Ht. unfold of131_check_push_action, enc_act. rewrite rd_type. cbn [mbind option_bind act_type].
  unfold ntohs. rewrite bswap_involutive by (destruct Ht as [->|[->| ->]]; done). by destruct Ht as [->|[->| ->]].
Qed.

Lemma group_at pre g post dp : 0 <= g < 2 ^ 32 ->
  of131_check_group_act (length pre) (pre ++ enc_act (AId OFPAT131_GROUP g) ++ post, dp) =
  put_back (pre ++ enc_act (AId OFPAT131_GROUP g) ++ post) (Some (chk_group g dp)).
Proof.
  intros Hg. unfold of131_check_group_act, chk_group. set (buf := pre ++ _ ++ post).
  destruct (of131_check_action_supported dp OFPAT131_GROUP); cbn [negb]; [|done]. destruct (u_arg dp) as [u|]; [|done].
  assert (rd_le buf (length pre + 4) 4 = Some (bswap 4 g)) as ->.
  { etransitivity; [apply (rd_le_body pre OFPAT131_GROUP (be 4 g) post 0 4); by rewrite be_length|].
    rewrite <- (app_nil_r (be 4 g)). apply rd_le_be. }
  cbn [mbind option_bind]. unfold ntohl. rewrite (bswap_involutive 4) by done. 
  destruct (check_add_group u) as [f|]; [|done]. by destruct (f g (grp_list u)).
Qed.

(** The handlers that look at nothing but the type. *)
Lemma other_at a dp buf off : act_ok a -> match a with AOutput _ _ | APush _ _ | ASetField _ _ => False | AId t _ => t <> OFPAT131_GROUP | _ => True end ->
  exists h, act_handler of131_check_mod_act_parsers (act_type a) = Some (Some h) /\ h off (buf, dp) = Some (buf, chk_other (act_type a) dp).
Proof.
  intros Ha Hk.
  assert (Ht : act_type a ∈ [OFPAT131_POP_MPLS; OFPAT131_MPLS_TTL; OFPAT131_SET_NW_TTL; OFPAT131_SET_QUEUE; OFPAT131_POP_VLAN; OFPAT131_POP_PBB;
    OFPAT131_DEC_NW_TTL; OFPAT131_DEC_MPLS_TTL; OFPAT131_COPY_TTL_OUT; OFPAT131_COPY_TTL_IN]).
  { destruct a; cbn in Ha, Hk |- *; try done; rewrite !elem_of_cons in *; naive_solver. }
  rewrite !elem_of_cons in Ht.
  destruct Ht as [->|[->|[->|[->|[->|[->|[->|[->|[->|[->|?%elem_of_nil]]]]]]]]]]; [..|done]; eexists; (split; [reflexivity|]);
    cbv beta iota delta [of131_check_pop_vlan_action of131_check_pop_pbb_action of131_check_pop_mpls_action of131_check_dec_mpls_ttl
      of131_check_set_mpls_ttl of131_check_dec_nw_ttl of131_check_set_nw_ttl of131_check_cp_ttl_out of131_check_cp_ttl_in
      of131_check_set_queue check_plain chk_other]; rewrite ?Z.leb_antisym;
    destruct (of131_check_action_supported dp _); destruct (0 <? push_mpls dp); reflexivity.
Qed.

(** ** Set-field actions *)

(** The header of the field in the byte order of the host. *)
Definition host_hdr (f : Z) (d : list Z) : list Z := [Z.of_nat (length d); 2 * f; 0; 128].

Definition setf_head (d : list Z) : list Z := be 2 OFPAT131_SET_FIELD ++ be 2 (Z.of_nat (setf_len (Z.of_nat (length d)))).
Definition setf_pad (d : list Z) : list Z := replicate (setf_len (Z.of_nat (length d)) - (8 + length d)) 0.

Lemma enc_setf f d : enc_act (ASetField f d) = setf_head d ++ [128; 0; 2 * f; Z.of_nat (length d)] ++ d ++ setf_pad d.
Proof.
  unfold enc_act, tlv_enc, setf_head, setf_pad. cbn [act_type act_body]. rewrite <- !app_assoc. do 2 f_equal.
  - f_equal. rewrite length_app, enc_tlv_length, length_replicate. cbn [t_data]. pose proof (setf_len_bounds (length d)). lia.
  - unfold enc_tlv. cbn [t_field t_hm t_data b2z]. by rewrite Z.add_0_r, <- app_assoc.
Qed.

Lemma swap_hdr pre h post off : length h = 4%nat -> is_bytes h -> off = length pre ->
  swap_oxm_hdr off (pre ++ h ++ post) = Some (pre ++ rev h ++ post).
Proof.
  intros Hl Hb ->. unfold swap_oxm_hdr, rd_le. rewrite rd_app_mid by done. cbn [mbind option_bind].
  unfold ntohl, wr_le. rewrite le_bytes_bswap. pose proof (le_bytes_le_val h Hb) as E. rewrite Hl in E. rewrite E.
  apply wr_app_mid; [done|]. by rewrite length_rev.
Qed.

Lemma hdr_is_bytes f (d : list Z) : 0 <= f < 64 -> (length d <= 16)%nat -> is_bytes [128; 0; 2 * f; Z.of_nat (length d)].
Proof. intros. repeat constructor; unfold is_byte; lia. Qed.

(** A handler of a field works on the swapped header: [p] is the buffer before it, [r] the buffer behind the field. *)
Definition field_buf (p : list Z) (f : Z) (d r : list Z) : list Z := p ++ host_hdr f d ++ d ++ r.

Lemma field_rd p f d r k n : (k + n <= length d)%nat -> rd (field_buf p f d r) (length p + 4 + k) n = rd d k n.
Proof.
  intros H. unfold field_buf. rewrite app_assoc. replace (length p + 4)%nat with (length (p ++ host_hdr f d)) by (by rewrite length_app).
  by apply rd_in.
Qed.

Lemma field_byte p f d r k : (k < 4)%nat -> rd_le (field_buf p f d r) (length p + k) 1 = rd_le (host_hdr f d) k 1.
Proof. intros H. unfold rd_le, field_buf. rewrite rd_in; [done|]. cbn. lia. Qed.

Lemma field_hm_even f : OFP_OXM_GHDR_HM (2 * f) =? 0 = true.
Proof.
  unfold OFP_OXM_GHDR_HM. change 1 with (Z.ones 1). rewrite Z.land_ones by lia. change (2 ^ 1) with 2.
  by rewrite Z.mul_comm, Z.mod_mul.
Qed.

Lemma check_setf_at {A} early (get : list Z -> nat -> option A) field need g p f d r dp x : 0 <= f < 128 ->
  get (field_buf p f d r) (length p + 4)%nat = Some x ->
  check_setf early get field need g (length p) (field_buf p f d r, dp) =
  Some (field_buf p f d r, if of131_check_setfield_supported dp field && need dp then mod_uflow (g x) dp else fail dp).
Proof.
  intros Hf Hg. unfold check_setf. rewrite Hg, field_byte by lia.
  rewrite (eq_refl : rd_le (host_hdr f d) 1 1 = Some (2 * f + 0)), Z.add_0_r.
  replace (if early then _ else Some ()) with (Some ()) by (by destruct early). cbn [mbind option_bind].
  rewrite field_hm_even. cbn [negb orb]. destruct (of131_check_setfield_supported dp field), (need dp); cbn [negb orb andb]; try done.
  unfold mod_uflow. by destruct (mod_fl_flag dp).
Qed.

Lemma setf_case {A} early (get : list Z -> nat -> option A) g f s p d r dp x : field_spec f = Some s -> 0 <= f < 128 ->
  get (field_buf p f d r) (length p + 4)%nat = Some x -> fs_set s d = g x ->
  check_setf early get f (fs_need s) g (length p) (field_buf p f d r, dp) = Some (field_buf p f d r, chk_field f d dp).
Proof. intros Hs Hf Hx Hg. rewrite (check_setf_at early get f (fs_need s) g p f d r dp x) by done. unfold chk_field. by rewrite Hs, Hg. Qed.

Lemma field_rd_le p f d r n : (n <= length d)%nat -> rd_le (field_buf p f d r) (length p + 4) n = Some (le_val (take n d)).
Proof.
  intros H. unfold rd_le. replace (length p + 4)%nat with (length p + 4 + 0)%nat by lia. rewrite field_rd by lia.
  rewrite rd_Some by lia. by rewrite drop_0.
Qed.

Lemma field_rd_all p f d r n : (n <= length d)%nat -> rd (field_buf p f d r) (length p + 4) n = Some (take n d).
Proof.
  intros H. replace (length p + 4)%nat with (length p + 4 + 0)%nat by lia. rewrite field_rd by lia.
  rewrite rd_Some by lia. by rewrite drop_0.
Qed.

Lemma label_at p f d r dp : f = OFPXMT_OFB_MPLS_LABEL -> data_ok f d ->
  of131_check_set_field_mpls_label_mod_uflow (length p) (field_buf p f d r, dp) = Some (field_buf p f d r, chk_field f d dp).
Proof.
  intros -> Hd. unfold of131_check_set_field_mpls_label_mod_uflow. cbn [fst].
  replace (length p) with (length p + 0)%nat at 1 by lia. rewrite field_byte by lia.
  rewrite (eq_refl : rd_le (host_hdr OFPXMT_OFB_MPLS_LABEL d) 0 1 = Some (Z.of_nat (length d) + 0)), Z.add_0_r. cbn [mbind option_bind].
  apply (setf_case true (fun b p => of_get_mpls_label_oxm (drop p b) (Z.of_nat (length d))) set_mpls_label OFPXMT_OFB_MPLS_LABEL
    (mk_fspec 3 in_mpls (fun d => set_mpls_label (label_of d))) p d r dp (label_of d)); [done|done| |done].
  unfold field_buf. rewrite app_assoc, drop_app_length' by (by rewrite length_app). unfold of_get_mpls_label_oxm, label_of, rd_le.
  destruct Hd as [Hd|Hd].
  - rewrite Hd. cbn. pose proof (rd_app_mid [] d r 0 3 eq_refl (eq_sym Hd)) as E. cbn [app] in E. by rewrite E.
  - rewrite (proj2 (Z.eqb_neq _ _)), (proj2 (Nat.eqb_neq _ _)) by lia. rewrite rd_app, rd_Some by lia. by rewrite drop_0.
Qed.

Lemma tp_at p f d r dp : (if tp_field_spec f then true else false) = true -> 0 <= f < 128 -> (2 <= length d)%nat -> field_spec f = None ->
  of131_check_set_field_tp_port f (length p) (field_buf p f d r, dp) = Some (field_buf p f d r, chk_field f d dp).
Proof.
  intros Ht Hf Hd Hs. unfold of131_check_set_field_tp_port. rewrite field_rd_le, field_byte by lia.
  rewrite (eq_refl : rd_le (host_hdr f d) 1 1 = Some (2 * f + 0)), Z.add_0_r. cbn [mbind option_bind].
  rewrite field_hm_even. cbn [negb orb]. unfold chk_field. rewrite Hs. unfold tp_need, tp_field_spec in *.
  destruct (of131_check_setfield_supported dp f); cbn [negb andb].
  2:{ destruct ((f =? OFPXMT_OFB_UDP_SRC) || (f =? OFPXMT_OFB_TCP_SRC)); [done|].
      by destruct ((f =? OFPXMT_OFB_TCP_DST) || (f =? OFPXMT_OFB_UDP_DST)). }
  destruct ((f =? OFPXMT_OFB_UDP_SRC) || (f =? OFPXMT_OFB_TCP_SRC));
    [|destruct ((f =? OFPXMT_OFB_TCP_DST) || (f =? OFPXMT_OFB_UDP_DST)); [|done]];
    destruct (pa_fl dp) as [fl|], (pa_mask dp) as [mk|]; cbn; try done; by case_match.
Qed.

Ltac int_field c early n :=
  lazymatch goal with |- context [field_buf ?p c ?d ?r] =>
    eapply (setf_case early _ _ c _ p d r _ (le_val (take n d)) eq_refl); [done|by apply field_rd_le|reflexivity] end.

Lemma field_at p f d r dp : 0 <= f < 128 -> data_ok f d ->
  match setf_handler check_setf_parsers f with
  | Some h => ActParse.call h (length p) (field_buf p f d r, dp)
  | None => Some (field_buf p f d r, dp)
  end = Some (field_buf p f d r, chk_field f d dp).
Proof.
  intros Hf Hd. unfold setf_handler.
  repeat match goal with |- context [f =? ?c] =>
    destruct (Z.eqb_spec f c) as [->|?]; [try reflexivity; try (by apply label_at); try (by apply tp_at)|] end.
  - apply (setf_case false _ set_dl_dst OFPXMT_OFB_ETH_DST _ p d r dp (take 6 d) eq_refl Hf); [by apply field_rd_all|done].
  - apply (setf_case false _ set_dl_src OFPXMT_OFB_ETH_SRC _ p d r dp (take 6 d) eq_refl Hf); [by apply field_rd_all|done].
  - int_field OFPXMT_OFB_VLAN_VID false 2%nat.
  - int_field OFPXMT_OFB_VLAN_PCP false 1%nat.
  - int_field OFPXMT_OFB_ETH_TYPE true 2%nat.
  - int_field OFPXMT_OFB_IPV4_SRC true 4%nat.
  - int_field OFPXMT_OFB_IPV4_DST true 4%nat.
  - by apply (setf_case false _ (fun _ fl => fl) OFPXMT_OFB_IPV6_SRC _ p d r dp () eq_refl Hf).
  - by apply (setf_case false _ (fun _ fl => fl) OFPXMT_OFB_IPV6_DST _ p d r dp () eq_refl Hf).
  - int_field OFPXMT_OFB_IP_DSCP true 1%nat.
  - int_field OFPXMT_OFB_MPLS_TC false 1%nat.
  - int_field OFPXMT_OFB_MPLS_BOS false 1%nat.
  - unfold chk_field, field_spec, tp_field_spec. by rewrite !(proj2 (Z.eqb_neq f _)) by done.
Qed.

Lemma setf_at pre f d post dp : 0 <= f < 64 -> (length d <= 16)%nat -> data_ok f d ->
  of131_check_act_set_field (length pre) (pre ++ enc_act (ASetField f d) ++ post, dp) =
  Some (pre ++ enc_act (ASetField f d) ++ post, chk_field f d dp).
Proof.
  intros Hf Hl Hd. unfold of131_check_act_set_field, of131_parse_act_set_field_tlv. rewrite enc_setf, <- !app_assoc, (app_assoc pre).
  set (p := pre ++ setf_head d). replace (length pre + 4)%nat with (length p) by (unfold p; by rewrite length_app).
  pose proof (hdr_is_bytes f d Hf Hl) as Hb. rewrite swap_hdr by done. cbn [mbind option_bind].
  change (rev [128; 0; 2 * f; Z.of_nat (length d)]) with (host_hdr f d).
  change (p ++ host_hdr f d ++ d ++ setf_pad d ++ post) with (field_buf p f d (setf_pad d ++ post)).
  set (r := setf_pad d ++ post).
  assert (rd_le (field_buf p f d r) (length p + 2) 2 = Some OFPXMC_OPENFLOW_BASIC) as ->.
  { unfold rd_le, field_buf. by rewrite rd_in by (cbn; lia). }
  cbn [mbind option_bind]. rewrite Z.eqb_refl. cbn [negb]. rewrite field_byte by lia.
  rewrite (eq_refl : rd_le (host_hdr f d) 1 1 = Some (2 * f + 0)). cbn [mbind option_bind].
  rewrite (ghdr_field f false ltac:(lia) : OFP_OXM_GHDR_FIELD (2 * f + 0) = f). rewrite field_at by (done || lia). cbn [mbind option_bind].
  unfold field_buf. rewrite swap_hdr by (done || by apply is_bytes_rev in Hb). cbn [mbind option_bind].
  by rewrite (eq_refl : rev (host_hdr f d) = [128; 0; 2 * f; Z.of_nat (length d)]).
Qed.

Lemma act_at a pre post dp : act_enc_ok a -> exists h, act_handler of131_check_mod_act_parsers (act_type a) = Some h /\
  ActParse.call h (length pre) (pre ++ enc_act a ++ post, dp) = put_back (pre ++ enc_act a ++ post) (chk_act a dp).
Proof.
  intros [Hok Hr]. destruct (decide (match a with AOutput _ _ | APush _ _ | ASetField _ _ => false
    | AId t _ => negb (t =? OFPAT131_GROUP) | _ => true end = true)) as [Hk|Hk].
  - destruct (other_at a dp (pre ++ enc_act a ++ post) (length pre) Hok) as (h & Hh & E).
    { destruct a; try done. by apply negb_true_iff, Z.eqb_neq in Hk. }
    exists (Some h). split; [done|]. cbn. rewrite E. destruct a; try done. cbn. apply negb_true_iff in Hk. by rewrite Hk.
  - destruct a; try done.
    + eexists. split; [reflexivity|]. by apply output_at.
    + exists (Some of131_check_push_action). split; [by destruct Hok as [->|[->| ->]]|]. by apply push_at.
    + apply not_true_iff_false, negb_false_iff, Z.eqb_eq in Hk as ->. eexists. split; [reflexivity|]. by apply group_at.
    + eexists. split; [reflexivity|]. destruct Hok. by apply setf_at.
Qed.

(** ** The walks *)

Lemma act_type_range a : act_ok a -> 0 <= act_type a < 65536.
Proof.
  intros Ha. destruct (is_setf a) eqn:E; [by destruct a|]. destruct (plain_type a Ha E) as (T & _).
  unfold plain_types in T. rewrite !elem_of_cons in T.
  repeat match goal with H : _ \/ _ |- _ => destruct H as [H|H] end; first [by apply elem_of_nil in T | by rewrite T].
Qed.

(** One turn: the structure at the front is handled and skipped. *)
Lemma walk_turn select max fuel n pre t b r post dp h : n <= max -> res dp = 0 -> 0 <= t < 65536 ->
  4 + Z.of_nat (length b) + r < 2 ^ 64 -> 0 <= r -> select t = Some h ->
  walk select max (S fuel) n (length pre) (Z.of_nat (length (tlv_enc t b)) + r) (pre ++ tlv_enc t b ++ post, dp) =
  st ← ActParse.call h (length pre) (pre ++ tlv_enc t b ++ post, dp);
  l ← rd_le st.1 (length pre + 2) 2;
  walk select max fuel (n + 1) (length pre + Z.to_nat (ntohs l)) (u64 (Z.of_nat (length (tlv_enc t b)) + r - ntohs l)) st.
Proof.
  intros Hn Hr Ht Hs Hr0 Hsel. rewrite !tlv_enc_length. cbn [walk fst snd].
  rewrite (proj2 (Z.eqb_neq _ 0)) by lia. rewrite (proj2 (Z.ltb_ge _ _)), Hr by lia. cbn [negb orb Z.eqb].
  rewrite rd_type. cbn [mbind option_bind]. unfold ntohs at 1. rewrite (bswap_involutive 2) by done. by rewrite Hsel.
Qed.

(** The length of the structure is what the walk goes on by. *)
Lemma skip_len pre t b post r : 4 + Z.of_nat (length b) < 65536 -> 0 <= r -> 4 + Z.of_nat (length b) + r < 2 ^ 64 ->
  exists l, rd_le (pre ++ tlv_enc t b ++ post) (length pre + 2) 2 = Some l /\
    (length pre + Z.to_nat (ntohs l))%nat = length (pre ++ tlv_enc t b) /\ u64 (Z.of_nat (length (tlv_enc t b)) + r - ntohs l) = r.
Proof.
  intros Hb Hr Hs. eexists. split; [apply rd_len|]. unfold ntohs. rewrite (bswap_involutive 2) by (split; [lia|done]).
  rewrite length_app, tlv_enc_length. split; [lia|]. unfold u64. rewrite Z.mod_small by lia. lia.
Qed.

Lemma enc_acts_cons a l : enc_acts (a :: l) = enc_act a ++ enc_acts l.
Proof. done. Qed.

Lemma walk_acts acts : forall fuel n pre post dp, Forall act_enc_ok acts -> 0 <= n -> OFP_MAX_ACTIONS + 3 <= Z.of_nat fuel + n ->
  (0 < fuel)%nat -> Z.of_nat (length (enc_acts acts)) < 65536 -> 
  match chk_acts n acts dp with
  | Some dp' => exists b, walk (act_handler of131_check_mod_act_parsers) OFP_MAX_ACTIONS fuel n (length pre)
      (Z.of_nat (length (enc_acts acts))) (pre ++ enc_acts acts ++ post, dp) = Some (b, (pre ++ enc_acts acts ++ post, dp'))
  | None => walk (act_handler of131_check_mod_act_parsers) OFP_MAX_ACTIONS fuel n (length pre)
      (Z.of_nat (length (enc_acts acts))) (pre ++ enc_acts acts ++ post, dp) = None
  end.
Proof.
  induction acts as [|a acts IH]; intros fuel n pre post dp Hok Hn Hf Hf0 Hl; destruct fuel as [|fuel]; [lia| |lia|]; [by exists true|].
  apply Forall_cons in Hok as [Ha Hok]. cbn [chk_acts]. rewrite enc_acts_cons, length_app in *.
  assert (Ht : length (enc_act a) = (4 + length (act_body a))%nat) by apply tlv_enc_length.
  destruct ((OFP_MAX_ACTIONS <? n) || negb (res dp =? 0)) eqn:Estop.
  { exists false. cbn [walk fst snd]. rewrite (proj2 (Z.eqb_neq _ 0)) by lia. by rewrite Estop. }
  apply orb_false_iff in Estop as [En Er]. apply Z.ltb_ge in En. apply negb_false_iff, Z.eqb_eq in Er.
  destruct (act_at a pre (enc_acts acts ++ post) dp Ha) as (h & Hh & E). rewrite <- app_assoc.
  rewrite Nat2Z.inj_add.
  pose proof (walk_turn (act_handler of131_check_mod_act_parsers) OFP_MAX_ACTIONS fuel n pre (act_type a) (act_body a)
    (Z.of_nat (length (enc_acts acts))) (enc_acts acts ++ post) dp h En Er (act_type_range a (proj1 Ha)) ltac:(lia) ltac:(lia) Hh) as Ew.
  fold (enc_act a) in Ew. rewrite E in Ew. rewrite Ew. destruct (chk_act a dp) as [dp1|]; [|done].
  destruct (skip_len pre (act_type a) (act_body a) (enc_acts acts ++ post) (Z.of_nat (length (enc_acts acts)))) as (l & E1 & E2 & E3); [lia..|].
  fold (enc_act a) in E1, E2, E3. cbn [mbind option_bind put_back fmap option_fmap option_map fst]. rewrite E1. cbn [mbind option_bind].
  rewrite E2, E3, (app_assoc pre). apply IH; try done; lia.
Qed.

Lemma parse_acts acts pre post dp : Forall act_enc_ok acts -> Z.of_nat (length (enc_acts acts)) < 65536 ->
  of131_parse_actions of131_check_mod_act_parsers (length pre) (Z.of_nat (length (enc_acts acts))) (pre ++ enc_acts acts ++ post, dp) =
  put_back (pre ++ enc_acts acts ++ post) (chk_acts 0 acts dp).
Proof.
  intros Hok Hl. unfold of131_parse_actions. destruct acts as [|a acts]; [done|].
  rewrite (proj2 (Z.eqb_neq _ 0)).
  2:{ rewrite enc_acts_cons, length_app. pose proof (tlv_enc_length (act_type a) (act_body a)). unfold enc_act in *. lia. }
  pose proof (walk_acts (a :: acts) (walk_fuel OFP_MAX_ACTIONS) 0 pre post dp Hok ltac:(lia) ltac:(by vm_compute)
    ltac:(unfold walk_fuel; lia) Hl) as H.
  destruct (chk_acts 0 (a :: acts) dp) as [dp'|]; [destruct H as [b ->]|rewrite H]; done.
Qed.

(** ** Instructions *)

Lemma goto_at t pre post dp : is_byte t ->
  of131_check_goto_inst (length pre) (pre ++ enc_inst (IGoto t) ++ post, dp) =
  '(i, dp) ← chk_inst (IGoto t) dp; Some (pre ++ enc_inst i ++ post, dp).
Proof.
  intros Ht. unfold of131_check_goto_inst, enc_inst. cbn [chk_inst inst_type]. destruct (inst_goto dp); [done|].
  rewrite rd_type. cbn [mbind option_bind]. rewrite (eq_refl : ntohs (bswap 2 OFPIT_GOTO_TABLE) = OFPIT_GOTO_TABLE).
  destruct (of131_check_inst_supported dp OFPIT_GOTO_TABLE); cbn [negb orb]; [|done].
  assert (Hrd : forall x, rd_le (pre ++ tlv_enc OFPIT_GOTO_TABLE (inst_body (IGoto x)) ++ post) (length pre + 4) 1 = Some x).
  { intros x. etransitivity; [apply (rd_le_body pre OFPIT_GOTO_TABLE (inst_body (IGoto x)) post 0 1); cbn; lia|].
    rewrite (eq_refl : rd_le (inst_body (IGoto x)) 0 1 = Some (x + 0)). by rewrite Z.add_0_r. }
  rewrite Hrd. cbn [mbind option_bind].
  assert (Hwr : forall x y, wr (pre ++ tlv_enc OFPIT_GOTO_TABLE (inst_body (IGoto x)) ++ post) (length pre + 4) [y] =
    Some (pre ++ tlv_enc OFPIT_GOTO_TABLE (inst_body (IGoto y)) ++ post)).
  { intros x y. unfold tlv_enc. cbn [inst_body length]. rewrite <- !app_assoc. rewrite !(app_assoc pre), !(app_assoc (pre ++ _)).
    apply (wr_app_mid ((pre ++ be 2 OFPIT_GOTO_TABLE) ++ be 2 (4 + Z.of_nat 4)) [x] [y] ([0; 0; 0] ++ post)); [|done].
    by rewrite !length_app, !be_length, <- Nat.add_assoc. }
  unfold xlate. destruct (u_arg dp) as [u|]; [destruct (get_v2p_tbl u) as [f|]|]; cbn [mbind option_bind].
  1: destruct (f t) as [t'|]; [|done]; cbn [mbind option_bind fmap option_fmap option_map]; rewrite Hwr.
  all: cbn [mbind option_bind]; rewrite Hrd; done.
Qed.

Lemma meter_at m pre post dp : 0 <= m < 2 ^ 32 ->
  of131_check_meter_inst (length pre) (pre ++ enc_inst (IMeter m) ++ post, dp) = Some (pre ++ enc_inst (IMeter m) ++ post, chk_meter m dp).
Proof.
  intros Hm. unfold of131_check_meter_inst, chk_meter. destruct (inst_meter dp); [done|]. destruct (u_arg dp) as [u|]; [|done].
  destruct (check_add_meter u) as [f|]; [|done].
  assert (rd_le (pre ++ enc_inst (IMeter m) ++ post) (length pre + 4) 4 = Some (bswap 4 m)) as ->.
  { etransitivity; [apply (rd_le_body pre OFPIT_METER (be 4 m) post 0 4); by rewrite be_length|].
    rewrite <- (app_nil_r (be 4 m)). apply rd_le_be. }
  cbn [mbind option_bind]. unfold ntohl. rewrite (bswap_involutive 4) by done. by destruct (f m (meter_list u)) as [[] l].
Qed.

Lemma acts_at w acts pre post dp : Forall act_enc_ok acts -> Z.of_nat (length (enc_inst (IActs w acts))) < 65536 ->
  of131_check_act_inst of131_check_mod_act_parsers (length pre) (pre ++ enc_inst (IActs w acts) ++ post, dp) =
  '(i, dp) ← chk_inst (IActs w acts) dp; Some (pre ++ enc_inst i ++ post, dp).
Proof.
  intros Hok Hl. unfold of131_check_act_inst. cbn [chk_inst].
  assert (rd_le (pre ++ enc_inst (IActs w acts) ++ post) (length pre) 2 = Some (bswap 2 (acts_type w))) as -> by apply rd_type.
  cbn [mbind option_bind]. 
  assert (ntohs (bswap 2 (acts_type w)) = acts_type w) as -> by (by destruct w).
  assert (Hacts : forall dp', 
    (len ← rd_le (pre ++ enc_inst (IActs w acts) ++ post) (length pre + 2) 2;
     if 8 <? ntohs len then of131_parse_actions of131_check_mod_act_parsers (length pre + 8) (ntohs len - 8)
       (pre ++ enc_inst (IActs w acts) ++ post, dp') else Some (pre ++ enc_inst (IActs w acts) ++ post, dp')) =
    put_back (pre ++ enc_inst (IActs w acts) ++ post) (chk_acts 0 acts dp')).
  { intros dp'. unfold enc_inst in *. rewrite rd_len. cbn [mbind option_bind]. unfold ntohs. rewrite tlv_enc_length in Hl.
    rewrite (bswap_involutive 2) by (split; [lia|change (256 ^ Z.of_nat 2) with 65536; lia]).
    cbn [inst_body inst_type] in *. rewrite length_app, length_replicate in *. destruct acts as [|a acts]; [done|].
    assert (Z.of_nat (length (enc_acts (a :: acts))) <> 0) as Hn.
    { rewrite enc_acts_cons, length_app. pose proof (tlv_enc_length (act_type a) (act_body a)). unfold enc_act in *. lia. }
    rewrite (proj2 (Z.ltb_lt 8 _)) by lia.
    set (l := a :: acts) in *. set (hd := be 2 (acts_type w) ++ be 2 (4 + Z.of_nat (length (replicate 4 0 ++ enc_acts l))) ++ replicate 4 0).
    pose proof (parse_acts l (pre ++ hd) post dp' Hok ltac:(lia)) as H.
    assert (pre ++ tlv_enc (acts_type w) (replicate 4 0 ++ enc_acts l) ++ post = (pre ++ hd) ++ enc_acts l ++ post) as Eb.
    { unfold tlv_enc, hd. by rewrite <- !app_assoc. }
    fold (acts_type w). rewrite Eb. rewrite <- H. f_equal; [by rewrite length_app|lia]. }
  destruct w; unfold acts_type; simpl (_ =? _); cbv iota; destruct (inst_wr dp) eqn:Ew; try done; cbn [orb negb inst_type];
    (destruct (of131_check_inst_supported _ _); cbn [negb]; [|done]); rewrite Hacts; by destruct (chk_acts 0 acts _).
Qed.

Lemma inst_at i pre post dp : inst_enc_ok i -> exists h, inst_handler of131_check_inst_parsers (inst_type i) = Some h /\
  ActParse.call h (length pre) (pre ++ enc_inst i ++ post, dp) = '(i, dp) ← chk_inst i dp; Some (pre ++ enc_inst i ++ post, dp).
Proof.
  intros [Hl Hi]. destruct i as [t|m|d k| |w acts].
  - eexists. split; [reflexivity|]. by apply goto_at.
  - eexists. split; [reflexivity|]. by apply meter_at.
  - eexists. split; [reflexivity|]. cbn [ActParse.call wr_meta_inst of131_check_inst_parsers]. unfold of131_check_wr_meta_inst, enc_inst.
    rewrite rd_type. done.
  - eexists. split; [reflexivity|]. cbn [ActParse.call clear_act_inst of131_check_inst_parsers]. unfold of131_check_act_inst, enc_inst.
    rewrite rd_type. cbn [mbind option_bind]. rewrite (eq_refl : ntohs (bswap 2 (inst_type IClear)) = OFPIT_CLEAR_ACTIONS). cbn.
    by destruct (inst_clear dp).
  - exists (Some (of131_check_act_inst of131_check_mod_act_parsers)). split; [by destruct w|]. by apply acts_at.
Qed.

(** Checking changes an instruction in place. *)
Lemma chk_inst_shape i dp i' dp' : chk_inst i dp = Some (i', dp') ->
  inst_type i' = inst_type i /\ length (inst_body i') = length (inst_body i).
Proof.
  destruct i as [t|m|d k| |w acts]; cbn [chk_inst]; intros H; simplify_eq; try done.
  - case_match; [by simplify_eq|]. by destruct (xlate dp t); simplify_eq/=.
  - case_match; [by simplify_eq|]. case_match; [by simplify_eq|]. by destruct (chk_acts 0 acts _); simplify_eq/=.
Qed.

Lemma inst_type_range i : 0 <= inst_type i < 65536.
Proof. destruct i as [| | | |[]]; done. Qed.

Lemma enc_insts_cons i l : enc_insts (i :: l) = enc_inst i ++ enc_insts l.
Proof. done. Qed.

Lemma walk_insts l : forall fuel n pre post dp, Forall inst_enc_ok l -> 0 <= n -> OFP_MAX_INSTRUCTIONS + 3 <= Z.of_nat fuel + n ->
  (0 < fuel)%nat -> Z.of_nat (length (enc_insts l)) < 2 ^ 64 ->
  let w := walk (inst_handler of131_check_inst_parsers) OFP_MAX_INSTRUCTIONS fuel n (length pre) (Z.of_nat (length (enc_insts l)))
             (pre ++ enc_insts l ++ post, dp) in
  match chk_insts n l dp with
  | Some (l', dp') => exists b, w = Some (b, (pre ++ enc_insts l' ++ post, dp'))
  | None => w = None
  end.
Proof.
  induction l as [|i l IH]; intros fuel n pre post dp Hok Hn Hf Hf0 Hl; destruct fuel as [|fuel]; [lia| |lia|]; [by exists true|].
  apply Forall_cons in Hok as [Hi Hok]. cbn [chk_insts]. rewrite enc_insts_cons, length_app in *. cbv zeta.
  assert (Ht : length (enc_inst i) = (4 + length (inst_body i))%nat) by apply tlv_enc_length.
  destruct ((OFP_MAX_INSTRUCTIONS <? n) || negb (res dp =? 0)) eqn:Estop.
  { exists false. cbn [walk fst snd]. rewrite (proj2 (Z.eqb_neq _ 0)) by lia. by rewrite Estop. }
  apply orb_false_iff in Estop as [En Er]. apply Z.ltb_ge in En. apply negb_false_iff, Z.eqb_eq in Er.
  destruct (inst_at i pre (enc_insts l ++ post) dp Hi) as (h & Hh & E). rewrite <- app_assoc, Nat2Z.inj_add.
  pose proof (walk_turn (inst_handler of131_check_inst_parsers) OFP_MAX_INSTRUCTIONS fuel n pre (inst_type i) (inst_body i)
    (Z.of_nat (length (enc_insts l))) (enc_insts l ++ post) dp h En Er (inst_type_range i) ltac:(lia) ltac:(lia) Hh) as Ew.
  fold (enc_inst i) in Ew. rewrite E in Ew. rewrite Ew. destruct (chk_inst i dp) as [[i' dp1]|] eqn:Ei; [|done].
  destruct (chk_inst_shape i dp i' dp1 Ei) as [Si Sb]. destruct Hi as [Hi _]. cbn [mbind option_bind fst].
  destruct (skip_len pre (inst_type i') (inst_body i') (enc_insts l ++ post) (Z.of_nat (length (enc_insts l)))) as (v & E1 & E2 & E3);
    [lia..|].
  fold (enc_inst i') in E1, E2, E3. rewrite E1. cbn [mbind option_bind].
  rewrite (tlv_enc_length _ _ : length (enc_inst i') = _), Sb, <- Ht in E3. rewrite E2, E3, (app_assoc pre).
  specialize (IH fuel (n + 1) (pre ++ enc_inst i') post dp1 Hok ltac:(lia) ltac:(lia) ltac:(unfold OFP_MAX_INSTRUCTIONS in *; lia) ltac:(lia)).
  cbv zeta in IH. destruct (chk_insts (n + 1) l dp1) as [[l' dp']|]; [|done]. cbn [mbind option_bind].
  destruct IH as [b ->]. exists b. by rewrite enc_insts_cons, <- !app_assoc.
Qed.

Lemma validate_refines_insts fl mask l post arg : Forall inst_enc_ok l -> Z.of_nat (length (enc_insts l)) < 2 ^ 64 ->
  of131_validate_actions fl mask (enc_insts l ++ post) (Z.of_nat (length (enc_insts l))) false arg =
  '(l', dp) ← chk_insts 0 l (of_check_inst_parser_pre_proc (of_inst_parser_alloc fl mask arg));
  Some (res dp, enc_insts l' ++ post, u_arg dp).
Proof.
  intros Hok Hl. unfold of131_validate_actions, of131_parse_instructions. rewrite andb_false_r.
  cbn [opt_proc pre_proc of131_check_inst_parsers].
  pose proof (walk_insts l (walk_fuel OFP_MAX_INSTRUCTIONS) 0 [] post (of_check_inst_parser_pre_proc (of_inst_parser_alloc fl mask arg))
    Hok ltac:(lia) ltac:(by vm_compute) ltac:(unfold walk_fuel; lia) Hl) as H. cbv zeta in H.
  destruct (chk_insts 0 l _) as [[l' dp']|]; [destruct H as [b H]|]; cbn [length app] in H; rewrite H; cbn; [by destruct b|done].
Qed.

(** C25: on the bytes of a list of instructions [of131_validate_actions] computes the checker on the list: the same verdict, the same
    effects on what the caller passed (flow, groups, meters, output port), and the bytes of the same list with the tables of goto
    instructions translated; and on the bytes of a list of actions alone the checker of actions, which leaves the bytes as they are. *)
Theorem validate_refines fl mask l acts post arg : Forall inst_enc_ok l -> Z.of_nat (length (enc_insts l)) < 2 ^ 64 ->
  Forall act_enc_ok acts -> Z.of_nat (length (enc_acts acts)) < 65536 ->
  of131_validate_actions fl mask (enc_insts l ++ post) (Z.of_nat (length (enc_insts l))) false arg =
    ('(l', dp) ← chk_insts 0 l (of_check_inst_parser_pre_proc (of_inst_parser_alloc fl mask arg));
     Some (res dp, enc_insts l' ++ post, u_arg dp)) /\
  of131_validate_actions fl mask (enc_acts acts ++ post) (Z.of_nat (length (enc_acts acts))) true arg =
    (dp ← chk_acts 0 acts (of_inst_parser_alloc fl mask arg); Some (res dp, enc_acts acts ++ post, u_arg dp)).
Proof.
  intros Hok Hl Hok' Hl'. split; [by apply validate_refines_insts|]. unfold of131_validate_actions, of131_parse_instructions.
  rewrite andb_false_r. pose proof (parse_acts acts [] post (of_inst_parser_alloc fl mask arg) Hok' Hl') as H.
  cbn [length app] in H. rewrite H. by destruct (chk_acts 0 acts _).
Qed.

End ActCheck.
