(* ===== verification/ActThm.v ===== *)
(** * Accepted lists, and lists made by the makers

    A list that the checker accepts uses only what the switch supports ([accepted_sound]).  The checker reads back what the makers
    wrote ([made_then_checked]).  The walks need no more turns than their count allows ([walk_fuel_enough]). *)
From stdpp Require Import base list.
From Stdlib Require Import ZArith Lia.
From S2P Require Import Prelude Bytes Flow Oxm OxmSpec Act ActParse ActSpec ActMake ActCheck.
#[local] Open Scope Z_scope.

Module ActThm.
Import Bytes Flow Oxm Act ActParse ActSpec ActMake ActCheck.

(** On any bytes the count ends the walk: more fuel changes nothing. *)
Lemma walk_fuel_enough select max k : forall fuel n off len st, max + 3 <= Z.of_nat fuel + n -> (0 < fuel)%nat -> 0 <= max ->
  walk select max (fuel + k) n off len st = walk select max fuel n off len st.
Proof.
  induction fuel as [|fuel IH]; intros n off len st Hf H0 Hm; [lia|]. cbn [walk Nat.add].
  destruct (len =? 0); [done|]. destruct (Z.ltb_spec max n) as [?|Hn]; [done|]. cbn [orb].
  destruct (negb (res st.2 =? 0)); [done|]. destruct (rd_le st.1 off 2) as [t|]; [|done]. cbn [mbind option_bind].
  destruct (select (ntohs t)) as [h|]; [|done]. destruct (ActParse.call h off st) as [st'|]; [|done]. cbn [mbind option_bind].
  destruct (rd_le st'.1 (off + 2) 2) as [v|]; [|done]. cbn [mbind option_bind]. apply IH; lia.
Qed.

(** ** What is supported does not change during a walk *)

(** The part of the caller's arguments the checks look at. *)
Definition ctx (u : option ofp_inst_check_args) :=
  (fun u => (group_act_check u, tbl_prop u, grp_prop u, check_setf_supp u, check_port u)) <$> u.

Definition flags (dp : ofp_inst_parser_arg) := (act_set dp, inst_wr dp, inst_app dp, inst_goto dp, inst_meter dp, inst_clear dp, inst_wr_meta dp).

Definition frame (dp dp' : ofp_inst_parser_arg) : Prop := ctx (u_arg dp') = ctx (u_arg dp) /\ flags dp' = flags dp.

Lemma kept_refl dp : frame dp dp.
Proof. done. Qed.
Lemma kept_trans a b c : frame a b -> frame b c -> frame a c.
Proof. intros [? ?] [? ?]. split; congruence. Qed.
Lemma frame_fail dp : frame dp (fail dp).
Proof. done. Qed.
Lemma frame_push dp a b c : frame dp (set_push a b c dp).
Proof. done. Qed.
Lemma frame_uarg dp u : ctx u = ctx (u_arg dp) -> frame dp (set_uarg u dp).
Proof. done. Qed.
#[local] Hint Resolve kept_refl frame_fail frame_push : core.

Lemma frame_mod f dp : frame dp (mod_uflow f dp).
Proof. unfold mod_uflow. destruct (mod_fl_flag dp); [|done]. apply frame_uarg. by destruct (u_arg dp). Qed.
#[local] Hint Resolve frame_mod : core.

Lemma chk_act_frame a dp dp' : chk_act a dp = Some dp' -> frame dp dp'.
Proof.
  assert (Ho : forall t, frame dp (chk_other t dp)).
  { intros t. unfold chk_other, count_push. repeat case_match; auto. }
  destruct a; cbn [chk_act act_type]; intros H; simplify_eq; auto.
  - unfold chk_output in H. destruct (negb _); [by simplify_eq|]. destruct (u_arg dp) as [u|] eqn:Eu; [|by case_match; simplify_eq].
    simplify_eq. apply frame_uarg. rewrite Eu. by destruct (mod_fl_flag dp), (port =? OFPP131_CONTROLLER).
  - unfold count_push. by repeat case_match.
  - destruct (type =? OFPAT131_GROUP); [|done]. unfold chk_group. destruct (negb _); [auto|]. destruct (u_arg dp) as [u|] eqn:Eu; [|auto].
    destruct (match check_add_group u with Some f => f id (grp_list u) | None => (true, grp_list u) end) as [ok g].
    set (u' := set_ca_lists g (meter_list u) u). assert (Hf : frame dp (set_uarg (Some u') dp)) by (apply frame_uarg; by rewrite Eu).
    destruct ok; cbn [negb]; [|done]. destruct (mod_fl_flag _); [|done].
    eapply kept_trans; [exact Hf|]. by apply frame_uarg.
  - unfold chk_field. repeat case_match; auto.
Qed.

Lemma chk_acts_frame acts : forall n dp dp', chk_acts n acts dp = Some dp' -> frame dp dp'.
Proof.
  induction acts as [|a acts IH]; intros n dp dp' H; cbn in H; [by simplify_eq|]. case_match; [by simplify_eq|].
  inv_bind. eapply kept_trans; [by eapply chk_act_frame|by eapply IH].
Qed.

(** ** Accepted actions *)

(** The context of a write or an apply instruction of a caller. *)
Definition dp_of (u : option ofp_inst_check_args) (w : bool) : ofp_inst_parser_arg :=
  set_insts w false false false false false false (of_inst_parser_alloc None None u).

Definition act_allowed (u : option ofp_inst_check_args) (w : bool) (a : action) : Prop :=
  match a with
  | AOutput p _ => port_ok u p = true
  | ASetField f _ => field_spec f <> None \/ tp_field_spec f <> None -> of131_check_setfield_supported (dp_of u w) f = true
  | _ => of131_check_action_supported (dp_of u w) (act_type a) = true
  end.

Definition inst_allowed (u : option ofp_inst_check_args) (i : inst) : Prop :=
  match i with
  | IGoto _ | IMeta _ _ => of131_check_inst_supported (dp_of u false) (inst_type i) = true
  | IActs w acts => of131_check_inst_supported (dp_of u w) (inst_type i) = true /\ Forall (act_allowed u w) acts
  | _ => True
  end.

Lemma act_supported_ctx dp u w t : ctx (u_arg dp) = ctx u -> act_set dp = w ->
  of131_check_action_supported dp t = of131_check_action_supported (dp_of u w) t.
Proof.
  intros Hc Hw. unfold of131_check_action_supported, dp_of. cbn [u_arg set_insts of_inst_parser_alloc act_set].
  destruct (OFPAT131_POP_PBB <? t); [done|]. destruct (u_arg dp) as [a|], u as [b|]; try done. injection Hc as -> -> -> _ _. by rewrite Hw.
Qed.

Lemma setf_supported_ctx dp u w f : ctx (u_arg dp) = ctx u -> act_set dp = w ->
  of131_check_setfield_supported dp f = of131_check_setfield_supported (dp_of u w) f.
Proof.
  intros Hc Hw. unfold of131_check_setfield_supported, dp_of. cbn [u_arg set_insts of_inst_parser_alloc act_set].
  destruct (u_arg dp) as [a|], u as [b|]; try done. injection Hc as _ -> _ -> _. by rewrite Hw.
Qed.

Lemma inst_supported_ctx dp u w t : ctx (u_arg dp) = ctx u ->
  of131_check_inst_supported dp t = of131_check_inst_supported (dp_of u w) t.
Proof.
  intros Hc. unfold of131_check_inst_supported, dp_of. cbn [u_arg set_insts of_inst_parser_alloc].
  destruct (u_arg dp) as [a|], u as [b|]; try done. by injection Hc as _ -> _ _ _.
Qed.

Lemma port_ok_ctx u u' p : ctx u = ctx u' -> port_ok u p = port_ok u' p.
Proof. intros Hc. destruct u as [a|], u' as [b|]; try done. unfold port_ok. by injection Hc as _ _ _ _ ->. Qed.

Lemma res_fail dp : res (fail dp) <> 0.
Proof. done. Qed.

Lemma chk_act_allowed a dp dp' u w : chk_act a dp = Some dp' -> res dp' = 0 -> ctx (u_arg dp) = ctx u -> act_set dp = w -> act_allowed u w a.
Proof.
  intros H Hr Hc Hw.
  assert (Ho : forall t, res (chk_other t dp) = 0 -> of131_check_action_supported (dp_of u w) t = true).
  { intros t. unfold chk_other. rewrite (act_supported_ctx dp u w) by done. by destruct (of131_check_action_supported _ _). }
  destruct a; cbn [chk_act act_allowed act_type] in *; simplify_eq; auto.
  - unfold chk_output in H. rewrite (port_ok_ctx _ u port Hc) in H. destruct (port_ok u port); [done|]. cbn in H. by simplify_eq.
  - rewrite <- (act_supported_ctx (count_push type 1 dp)) with (u := u) (w := act_set dp);
      [|unfold count_push; by repeat case_match..]. by destruct (of131_check_action_supported _ _).
  - destruct (Z.eqb_spec type OFPAT131_GROUP) as [->|_]; [|auto]. unfold chk_group in Hr.
    rewrite <- (act_supported_ctx dp) by done. by destruct (of131_check_action_supported dp OFPAT131_GROUP).
  - intros Hf. rewrite <- (setf_supported_ctx dp) by done. unfold chk_field in Hr.
    destruct (of131_check_setfield_supported dp field); [done|]. cbn [andb] in Hr.
    destruct (field_spec field); [done|]. destruct (tp_field_spec field); [done|]. by destruct Hf.
Qed.

Lemma chk_acts_allowed acts : forall n dp dp' u w, chk_acts n acts dp = Some dp' -> res dp' = 0 -> ctx (u_arg dp) = ctx u -> act_set dp = w ->
  n + Z.of_nat (length acts) <= OFP_MAX_ACTIONS + 1 -> res dp = 0 /\ Forall (act_allowed u w) acts.
Proof.
  induction acts as [|a acts IH]; intros n dp dp' u w H Hr Hc Hw Hn; cbn in H; [simplify_eq; auto|].
  rewrite (proj2 (Z.ltb_ge _ _)) in H by (cbn in Hn; lia). cbn [orb] in H.
  destruct (Z.eqb_spec (res dp) 0) as [E|E]; cbn [negb] in H; [|by simplify_eq]. split; [done|]. inv_bind.
  destruct (chk_act_frame _ _ _ H0) as [F1 F2].
  destruct (IH _ _ _ u w H Hr) as [Hr1 Hf]; [congruence| |cbn in Hn; lia|].
  - injection F2 as -> _. done.
  - constructor; [|done]. by eapply chk_act_allowed.
Qed.

(** ** Accepted instructions *)

Definition seen (dp : ofp_inst_parser_arg) (t : Z) : bool :=
  if t =? OFPIT_GOTO_TABLE then inst_goto dp
  else if t =? OFPIT_WRITE_METADATA then inst_wr_meta dp
  else if t =? OFPIT_WRITE_ACTIONS then inst_wr dp
  else if t =? OFPIT_CLEAR_ACTIONS then inst_clear dp
  else if t =? OFPIT_METER then inst_meter dp
  else false.

Definition few_acts (i : inst) : Prop := match i with IActs _ acts => Z.of_nat (length acts) <= OFP_MAX_ACTIONS + 1 | _ => True end.

(** After an accepted instruction its type is seen, and so are those seen before. *)
Definition advance (i : inst) (dp dp' : ofp_inst_parser_arg) : Prop :=
  ctx (u_arg dp') = ctx (u_arg dp) /\
  (inst_type i <> OFPIT_APPLY_ACTIONS -> seen dp (inst_type i) = false /\ seen dp' (inst_type i) = true) /\
  (forall t, seen dp t = true -> seen dp' t = true).

Lemma seen_flags dp dp' : flags dp' = flags dp -> forall t, seen dp' t = seen dp t.
Proof. intros H t. unfold seen. injection H as _ -> _ -> -> -> ->. done. Qed.

Ltac seen_mono := intros ?; unfold seen; cbn; repeat (case_match; try done).

Lemma chk_inst_accepts i dp i' dp' u : chk_inst i dp = Some (i', dp') -> res dp' = 0 -> ctx (u_arg dp) = ctx u -> few_acts i ->
  inst_allowed u i /\ advance i dp dp'.
Proof.
  intros H Hr Hc Hf. destruct i as [t|m|d k| |w acts]; cbn [chk_inst inst_type] in H; cbn [inst_allowed inst_type].
  - destruct (inst_goto dp) eqn:Eg; cbn [orb] in H; [by simplify_eq|]. rewrite <- (inst_supported_ctx dp u false) by done.
    destruct (of131_check_inst_supported dp OFPIT_GOTO_TABLE); cbn [negb] in H; [|by simplify_eq]. inv_bind. simplify_eq. split; [done|].
    destruct (frame_mod (set_table_id x)
      (set_insts (act_set dp) (inst_wr dp) (inst_app dp) true (inst_meter dp) (inst_clear dp) (inst_wr_meta dp) dp)) as [F1 F2].
    split; [exact F1|]. split; [rewrite (seen_flags _ _ F2); by intros _|]. intros t'. rewrite (seen_flags _ _ F2). revert t'. seen_mono.
  - split; [done|]. simplify_eq. unfold chk_meter in *. destruct (inst_meter dp) eqn:Em; [done|].
    destruct (u_arg dp) as [a|] eqn:Eu; [destruct (check_add_meter a) as [f|]; [destruct (f m (meter_list a)) as [[] l]|]|]; try done;
      (split; [cbn; by rewrite ?Eu|split; [done|seen_mono]]).
  - destruct (inst_wr_meta dp) eqn:Em; cbn [orb] in H; [by simplify_eq|]. rewrite <- (inst_supported_ctx dp u false) by done.
    destruct (of131_check_inst_supported dp OFPIT_WRITE_METADATA); cbn [negb] in H; simplify_eq. split; [done|].
    split; [done|]. split; [done|seen_mono].
  - split; [done|]. destruct (inst_clear dp) eqn:Em; simplify_eq. split; [done|]. split; [done|seen_mono].
  - destruct (inst_wr dp) eqn:Ew; [by simplify_eq|].
    set (dp1 := set_insts w (w || false) (negb w || inst_app dp) (inst_goto dp) (inst_meter dp) (inst_clear dp) (inst_wr_meta dp) dp) in *.
    rewrite <- (inst_supported_ctx dp1 u w) by done.
    destruct (of131_check_inst_supported dp1 _); cbn [negb] in H; [|by simplify_eq]. inv_bind. simplify_eq.
    destruct (chk_acts_allowed acts 0 dp1 _ u w H0 Hr Hc eq_refl Hf) as [_ Hall]. split; [done|].
    destruct (chk_acts_frame _ _ _ _ H0) as [F1 F2]. split; [exact F1|]. split.
    + intros Hn. rewrite (seen_flags _ _ F2). destruct w; [by split|done].
    + intros t. rewrite (seen_flags _ _ F2). revert t. seen_mono. congruence.
Qed.

Lemma chk_insts_stuck n l dp l' dp' : chk_insts n l dp = Some (l', dp') -> res dp <> 0 -> dp' = dp.
Proof.
  destruct l; cbn; [by intros; simplify_eq|]. intros H Hr. rewrite (proj2 (Z.eqb_neq _ 0) Hr), orb_true_r in H. by simplify_eq.
Qed.

Definition once_types (l : list inst) : list Z := filter (fun t => t <> OFPIT_APPLY_ACTIONS) (inst_type <$> l).

Lemma chk_insts_accepts u l : forall n dp l' dp', chk_insts n l dp = Some (l', dp') -> res dp' = 0 -> ctx (u_arg dp) = ctx u ->
  Forall few_acts l -> n + Z.of_nat (length l) <= OFP_MAX_INSTRUCTIONS + 1 ->
  Forall (inst_allowed u) l /\ NoDup (once_types l) /\ Forall (fun t => seen dp t = false) (once_types l).
Proof.
  induction l as [|i l IH]; intros n dp l' dp' H Hr Hc Hf Hn; [split_and!; constructor|]. cbn [chk_insts] in H.
  apply Forall_cons in Hf as [Hfi Hf]. rewrite (proj2 (Z.ltb_ge _ _)) in H by (cbn in Hn; lia). cbn [orb] in H.
  destruct (Z.eqb_spec (res dp) 0) as [E|E]; cbn [negb] in H; [|by simplify_eq]. inv_bind. destruct x as [i1 dp1]. inv_bind.
  destruct x as [l1 dp2]. simplify_eq.
  assert (Hr1 : res dp1 = 0).
  { destruct (Z.eq_dec (res dp1) 0) as [|Hne]; [done|]. by rewrite (chk_insts_stuck _ _ _ _ _ H1 Hne) in Hr. }
  destruct (chk_inst_accepts i dp i1 dp1 u H0 Hr1 Hc Hfi) as (Ha & A1 & A2 & A3).
  destruct (IH (n + 1) dp1 l1 dp' H1 Hr ltac:(congruence) Hf ltac:(cbn in Hn; lia)) as (B1 & B2 & B3).
  split; [by constructor|]. unfold once_types in *. rewrite fmap_cons.
  assert (Hs : Forall (fun t => seen dp t = false) (filter (fun t => t <> OFPIT_APPLY_ACTIONS) (inst_type <$> l))).
  { eapply Forall_impl; [exact B3|]. intros t Ht. cbn in Ht. destruct (seen dp t) eqn:Es; [|done]. by rewrite (A3 t Es) in Ht. }
  destruct (decide (inst_type i <> OFPIT_APPLY_ACTIONS)) as [Hne|Heq].
  - rewrite filter_cons_True by done. destruct (A2 Hne) as [S1 S2]. split; [|by constructor]. constructor; [|done].
    intros Hin. rewrite Forall_forall in B3. specialize (B3 _ Hin). cbn in B3. congruence.
  - by rewrite filter_cons_False.
Qed.


(** ** Made, then checked *)

(** Arguments within the types of the parameters. *)
Definition call_rng (c : ActSpec.call) : Prop :=
  match c with
  | CGoto t => is_byte t
  | CMeter x | COutput x | CGroup x | CQueue x => 0 <= x < 2 ^ 32
  | _ => True
  end.

Definition inst_rng (i : inst) : Prop :=
  match i with
  | IGoto t => is_byte t
  | IMeter m => 0 <= m < 2 ^ 32
  | IActs _ acts => Forall act_enc_ok acts
  | _ => True
  end.

Lemma data_ok_len f d k : length d = k -> data_ok f (replicate k 0) -> data_ok f d.
Proof. intros <-. unfold data_ok. by rewrite length_replicate. Qed.

Lemma call_act_rng c a : call_ok c -> call_rng c -> call_act c = Some a -> act_enc_ok a.
Proof.
  intros Hc Hr Ha. destruct (call_makes c a Hc Ha) as [_ Hok]. split; [done|].
  destruct c; cbn [call_act call_rng call_ok] in *; simplify_eq; try done;
    lazymatch goal with
    | |- data_ok _ (be ?n _) => apply (data_ok_len _ _ n); [apply be_length|vm_compute; lia]
    | |- data_ok _ (take ?n _) => apply (data_ok_len _ _ n); [rewrite length_take, Hc; done|vm_compute; lia]
    | |- data_ok _ _ => apply (data_ok_len _ _ 1); [done|vm_compute; lia]
    | |- _ => idtac
    end.
  - destruct (port =? 0), (port =? OFPP131_CONTROLLER); done.
  - by destruct (push_type eth_type); simplify_eq/=.
Qed.

Lemma accepts_rng s c s' r : accepts s c s' r -> call_ok c -> call_rng c -> Forall inst_rng (ab_insts s) -> Forall inst_rng (ab_insts s').
Proof.
  intros H Hc Hr Hs. destruct H; cbn [ab_insts] in *; try done.
  - apply Forall_app. split; [done|]. constructor; [|done]. destruct c; cbn in *; by simplify_eq.
  - apply Forall_app. split; [done|]. constructor; [|done]. constructor; [|done]. by eapply call_act_rng.
  - apply Forall_app in Hs as [Hl Hs]. apply Forall_cons in Hs as [Hs _]. apply Forall_app. split; [done|].
    constructor; [|done]. apply Forall_app. split; [done|]. constructor; [|done]. by eapply call_act_rng.
Qed.

Lemma accepts_all_rng s cs s' rs : accepts_all s cs s' rs -> Forall call_ok cs -> Forall call_rng cs -> Forall inst_rng (ab_insts s) ->
  Forall inst_rng (ab_insts s').
Proof.
  induction 1 as [|s c s1 r cs s2 rs H _ IH]; intros Hc Hr Hs; [done|].
  apply Forall_cons in Hc as [? ?], Hr as [? ?]. apply IH; [done..|]. by eapply accepts_rng.
Qed.

Lemma rng_enc_ok l : Forall inst_rng l -> Z.of_nat (length (enc_insts l)) < 65536 -> Forall inst_enc_ok l.
Proof.
  induction l as [|i l IH]; intros Hr Hl; [done|]. apply Forall_cons in Hr as [Hi Hr]. rewrite enc_insts_cons, length_app in Hl.
  constructor; [|apply IH; [done|lia]]. split; [lia|exact Hi].
Qed.

(** What the makers wrote into a buffer, the checker reads back: validating the buffer is checking the list of instructions that
    the calls describe. *)
Theorem made_then_checked cs s rs fl mask arg : accepts_all abs0 cs s rs -> Forall call_ok cs -> Forall call_rng cs ->
  (length (enc_insts (ab_insts s)) <= MUL_ACT_BUF_SZ)%nat ->
  exists m, run_calls cs of_mact_alloc = Some (m, rs) /\
    of131_validate_actions fl mask (act_base m) (Z.of_nat (of_mact_len m)) false arg =
    ('(l', dp) ← chk_insts 0 (ab_insts s) (of_check_inst_parser_pre_proc (of_inst_parser_alloc fl mask arg));
     Some (res dp, enc_insts l' ++ replicate (MUL_ACT_BUF_SZ - length (enc_insts (ab_insts s))) 0, u_arg dp)).
Proof.
  intros H Hc Hr Hl. destruct (calls_run _ _ _ _ _ H Hc repr_init Hl) as (m & E & R). exists m. split; [done|].
  pose proof (eq_refl : Z.of_nat MUL_ACT_BUF_SZ = 4096). unfold of_mact_len. rewrite (rp_wr _ _ R), (rp_base _ _ R).
  apply validate_refines_insts; [|lia]. apply rng_enc_ok; [|lia]. by apply (accepts_all_rng _ _ _ _ H).
Qed.

End ActThm.
