(* ===== verification/ActEx.v ===== *)
(** * Examples of actions and instructions

    A flow that rewrites the destination, sends the packet out and goes on in another table is built by calls, encoded and checked; a
    buffer is filled to its end.  The examples run the definitions and instantiate the theorems. *)
From stdpp Require Import base list.
From Stdlib Require Import ZArith Lia.
From S2P Require Import Prelude Bytes Flow Oxm OxmSpec Act ActParse ActSpec ActMake ActCheck ActThm.
#[local] Open Scope Z_scope.

Module ActEx.
Import Bytes Flow Oxm Act ActParse ActSpec ActMake ActCheck ActThm.

Definition mac : list Z := [2; 0; 0; 0; 0; 9].

(** The second group is refused: the write instruction has one already. *)
Definition calls : list ActSpec.call := [CDmac mac; COutput 3; CMeter 7; CType OFPIT_WRITE_ACTIONS; CGroup 5; CGroup 6; CGoto 2].
Definition insts : list inst :=
  [IActs false [ASetField OFPXMT_OFB_ETH_DST mac; AOutput 3 OF_MAX_MISS_SEND_LEN]; IMeter 7; IActs true [AId OFPAT131_GROUP 5]; IGoto 2].

Lemma calls_accepted : accepts_all abs0 calls (mk_abs insts OFPIT_WRITE_ACTIONS) [16; 16; 8; 0; 8; 0; 8].
Proof.
  eapply acc_cons; [apply (acc_open [] 0 (CDmac mac) (ASetField OFPXMT_OFB_ETH_DST mac) eq_refl eq_refl)|].
  eapply acc_cons; [apply (acc_more [] 4 (COutput 3) (AOutput 3 OF_MAX_MISS_SEND_LEN) [ASetField OFPXMT_OFB_ETH_DST mac] eq_refl eq_refl); done|].
  eapply acc_cons; [by apply acc_inst with (i := IMeter 7)|].
  eapply acc_cons; [by apply acc_type|].
  eapply acc_cons; [by apply acc_open with (a := AId OFPAT131_GROUP 5)|].
  eapply acc_cons; [by apply acc_again with (a := AId OFPAT131_GROUP 6)|].
  eapply acc_cons; [by apply acc_inst with (i := IGoto 2)|]. apply acc_nil.
Qed.

Lemma calls_ok : Forall call_ok calls /\ Forall call_rng calls.
Proof. split; unfold calls; rewrite !Forall_cons; split_and!; try done; by left. Qed.

(** Built and encoded, byte by byte. *)
Example calls_bytes : ('(m, rs) ← run_calls calls of_mact_alloc; Some (take (of_mact_len m) (act_base m), rs)) =
  Some ([0; 4; 0; 40; 0; 0; 0; 0;
         0; 25; 0; 16; 128; 0; 6; 6; 2; 0; 0; 0; 0; 9; 0; 0;
         0; 0; 0; 16; 0; 0; 0; 3; 5; 238; 0; 0; 0; 0; 0; 0;
         0; 6; 0; 8; 0; 0; 0; 7;
         0; 3; 0; 16; 0; 0; 0; 0; 0; 22; 0; 8; 0; 0; 0; 5;
         0; 1; 0; 8; 2; 0; 0; 0], [16; 16; 8; 0; 8; 0; 8]).
Proof. vm_compute. reflexivity. Qed.

Lemma makers_refine_witness : exists m, run_calls calls of_mact_alloc = Some (m, [16; 16; 8; 0; 8; 0; 8]) /\
  take (of_mact_len m) (act_base m) = enc_insts insts /\ of_mact_len m = length (enc_insts insts).
Proof.
  apply (makers_refine calls (mk_abs insts OFPIT_WRITE_ACTIONS)); [exact calls_accepted|exact (proj1 calls_ok)|].
  vm_compute. lia.
Defined.

(** ** A full buffer *)

Lemma outputs_accepted n : accepts_all abs0 (replicate (S n) (COutput 3))
  (mk_abs [IActs false (replicate (S n) (AOutput 3 OF_MAX_MISS_SEND_LEN))] OFPIT_APPLY_ACTIONS) (replicate (S n) 16).
Proof.
  eapply acc_cons; [by apply (acc_open [] 0 (COutput 3) (AOutput 3 OF_MAX_MISS_SEND_LEN))|]. cbn [app].
  change [AOutput 3 OF_MAX_MISS_SEND_LEN] with (replicate 1 (AOutput 3 OF_MAX_MISS_SEND_LEN)).
  change (to_write 0) with false. change (norm_cur 0) with OFPIT_APPLY_ACTIONS.
  replace (S n) with (1 + n)%nat at 1 by lia. generalize 1%nat as k. induction n as [|n IH]; intros k.
  - rewrite Nat.add_0_r. apply acc_nil.
  - eapply acc_cons.
    + by apply (acc_more [] OFPIT_APPLY_ACTIONS (COutput 3) (AOutput 3 OF_MAX_MISS_SEND_LEN) (replicate k (AOutput 3 OF_MAX_MISS_SEND_LEN))).
    + change (to_write OFPIT_APPLY_ACTIONS) with false. change (norm_cur OFPIT_APPLY_ACTIONS) with OFPIT_APPLY_ACTIONS.
      change [AOutput 3 OF_MAX_MISS_SEND_LEN] with (replicate 1 (AOutput 3 OF_MAX_MISS_SEND_LEN)). cbn [app].
      rewrite <- replicate_add. replace (k + S n)%nat with (k + 1 + n)%nat by lia. apply IH.
Qed.

Lemma maker_overflow_faults_witness : run_calls (replicate 255 (COutput 3) ++ [COutput 4]) of_mact_alloc = None.
Proof.
  apply (maker_overflow_faults (replicate 255 (COutput 3)) [] false (replicate 255 (AOutput 3 OF_MAX_MISS_SEND_LEN)) OFPIT_APPLY_ACTIONS
    (replicate 255 16) (COutput 4) (AOutput 4 OF_MAX_MISS_SEND_LEN)).
  - exact (outputs_accepted 254).
  - apply Forall_replicate. exact I.
  - exact I.
  - reflexivity.
  - reflexivity.
  - reflexivity.
  - discriminate.
  - vm_compute. lia.
Defined.

(** ** Checking *)

(** A table that supports everything but setting fields of IPv6, ports 1 to 8, and tables translated by one. *)
Definition props : of_flow_tbl_props := mk_props 0xffff 0xfffffff 0xfffffff [0xffffffff; 0] [0x3ffffff; 0].
Definition args (fl : option flow) : ofp_inst_check_args :=
  mk_ca fl false (Some props) None true false [] [] 0 0 (Some (fun p => (1 <=? p) && (p <=? 8)))
    (Some (fun g l => (true, l ++ [g]))) (Some (fun m l => (true, l ++ [m]))) (Some (fun t => Some (t + 1))).

(** The flow of the caller gets the new destination and the translated table, and the caller learns the port, the group and the meter. *)
Example insts_checked :
  match of131_validate_actions None None (enc_insts insts) (Z.of_nat (length (enc_insts insts))) false (Some (args (Some zero_flow))) with
  | Some (r, buf, Some u) =>
      (r, buf, option_map dl_dst (ca_fl u), option_map table_id (ca_fl u), out_port u, group_id u, grp_list u, meter_list u) =
      (0, enc_insts (take 3 insts ++ [IGoto 3]), Some mac, Some 3, 3, 5, [5], [7])
  | _ => False
  end.
Proof. vm_compute. reflexivity. Qed.

(** A write instruction may not set a field the table does not support for it, and a list with two of them is refused. *)
Example insts_refused :
  let run l := '(r, _, _) ← of131_validate_actions None None (enc_insts l) (Z.of_nat (length (enc_insts l))) false (Some (args None)); Some r in
  run [IActs false [ASetField OFPXMT_OFB_IPV6_SRC (replicate 16 1)]] = Some (-1) /\
  run [IActs true [APlain OFPAT131_POP_PBB]; IActs true [APlain OFPAT131_POP_PBB]] = Some (-1) /\
  run [IActs false [APlain OFPAT131_POP_PBB]; IActs false [APlain OFPAT131_POP_PBB]] = Some 0 /\
  run [IActs false [AOutput 9 0]] = Some (-1) /\
  run [IActs false (replicate 33 (AOutput 1 0) ++ [AOutput 9 0])] = Some 0.
Proof. vm_compute. done. Qed.

Lemma insts_enc_ok : Forall inst_enc_ok insts.
Proof.
  apply rng_enc_ok; [|done]. exact (accepts_all_rng _ _ _ _ calls_accepted (proj1 calls_ok) (proj2 calls_ok) (Forall_nil_2 _)).
Qed.

Definition acts : list action := [APush OFPAT131_PUSH_VLAN ETH_TYPE_VLAN; ASetField OFPXMT_OFB_VLAN_VID [16; 5]; AOutput 2 0].

Lemma acts_enc_ok : Forall act_enc_ok acts.
Proof. repeat constructor; cbn; (done || lia || (left; done) || idtac). Qed.

Lemma validate_refines_witness :
  of131_validate_actions None None (enc_insts insts ++ []) (Z.of_nat (length (enc_insts insts))) false (Some (args None)) =
    ('(l', dp) ← chk_insts 0 insts (of_check_inst_parser_pre_proc (of_inst_parser_alloc None None (Some (args None))));
     Some (res dp, enc_insts l' ++ [], u_arg dp)) /\
  of131_validate_actions None None (enc_acts acts ++ []) (Z.of_nat (length (enc_acts acts))) true (Some (args None)) =
    (dp ← chk_acts 0 acts (of_inst_parser_alloc None None (Some (args None))); Some (res dp, enc_acts acts ++ [], u_arg dp)).
Proof.
  apply (validate_refines None None insts acts [] (Some (args None)));
    [exact insts_enc_ok|vm_compute; reflexivity|exact acts_enc_ok|vm_compute; reflexivity].
Defined.


Lemma made_then_checked_witness : exists m, run_calls calls of_mact_alloc = Some (m, [16; 16; 8; 0; 8; 0; 8]) /\
  of131_validate_actions None None (act_base m) (Z.of_nat (of_mact_len m)) false (Some (args None)) =
  ('(l', dp) ← chk_insts 0 insts (of_check_inst_parser_pre_proc (of_inst_parser_alloc None None (Some (args None))));
   Some (res dp, enc_insts l' ++ replicate (MUL_ACT_BUF_SZ - length (enc_insts insts)) 0, u_arg dp)).
Proof.
  apply (made_then_checked calls (mk_abs insts OFPIT_WRITE_ACTIONS) [16; 16; 8; 0; 8; 0; 8] None None (Some (args None)));
    [exact calls_accepted|exact (proj1 calls_ok)|exact (proj2 calls_ok)|vm_compute; lia].
Defined.

End ActEx.
