(* ===== verification/FlowCmd.v ===== *)
(** * Commands on flows (mul_app_interface.c, mul_of.c)

    An application asks for a flow to be added or deleted with a message.  The controller finds the switch, normalises the
    match, translates the table, checks the actions against the switch, and runs the operation on the flow tables; a change that should
    outlive a controller is forwarded to the peer, and the application gets an answer.  A message that asks for no answer is
    handed to the thread of the switch, which runs it later.

    The message is its bytes; [fm_msg] are its parts, since the code changes the match and the actions in place.  What differs
    between the versions of OpenFlow is behind the class [OfpCtors].  The controller has one switch here: a message for another
    one is a message for an unknown one.  [None] is undefined behaviour, as an access outside of an array or to a freed list. *)
From stdpp Require Import base list gmap.
From Stdlib Require Import ZArith Lia.
From S2P Require Import Prelude Bytes Flow Ha FlowTbl GroupTbl Oxm Act ActParse.
#[local] Open Scope Z_scope.

Module FlowCmd.
Import Bytes Flow.

Notation c_fl := FlowTbl.c_switch.
Notation has := FlowTbl.has.

Definition C_FL_ENT_SWALIAS : Z := 0x40.
Definition C_FL_ENT_TBL_PHYS : Z := 0x1000.
Definition C_OFPC_ADD : Z := 0.
Definition C_OFPT_FLOW_MOD : Z := 14.
Definition C_APP_REMOTE : Z := 0x02.
Definition C_APP_AUX_REMOTE : Z := 0x04.
Definition OF_MAX_LOG_PORTS : Z := 0xffffff00.
Definition C_OFP_MAX_ERR_LEN : Z := 128.
Definition OFPET_FLOW_MOD_FAILED : Z := 3.
Definition OFPBRC_BAD_LEN : Z := 6.
Definition OFPFMFC_BAD_COMMAND : Z := 4.
Definition OFPBRC_BAD_DPID : Z := 100.
Definition OFPBAC_BAD_GENERIC : Z := 200.
Definition OFPFMFC_BAD_FLAG : Z := 300.
Definition OFPFMFC_GENERIC : Z := 301.
Definition OFPFMFC_FLOW_EXIST : Z := 302.

(** ** The message *)

(** [struct flow] in memory. *)
Definition ip6_bytes (a : ipv6_addr) : list Z := le_bytes 4 (w0 a) ++ le_bytes 4 (w1 a) ++ le_bytes 4 (w2 a) ++ le_bytes 4 (w3 a).
Definition flow_bytes (f : flow) : list Z :=
  le_bytes 4 (in_port f) ++ le_bytes 2 (dl_vlan f) ++ le_bytes 2 (dl_type f) ++ dl_dst f ++ dl_src f ++
  le_bytes 1 (dl_vlan_pcp f) ++ le_bytes 1 (table_id f) ++ le_bytes 1 (nw_tos f) ++ le_bytes 1 (nw_proto f) ++
  le_bytes 4 (mpls_label f) ++ le_bytes 2 (tp_src f) ++ le_bytes 2 (tp_dst f) ++ ip6_bytes (nw6_src f) ++ ip6_bytes (nw6_dst f) ++
  le_bytes 8 (tunnel_id f) ++ le_bytes 8 (metadata f) ++ le_bytes 1 (mpls_bos f) ++ le_bytes 1 (mpls_tc f) ++ pad f.

Definition rd_ip6 (b : list Z) (off : nat) : option ipv6_addr :=
  a ← rd_le b off 4; x ← rd_le b (off + 4) 4; y ← rd_le b (off + 8) 4; z ← rd_le b (off + 12) 4; Some (mk_ip6 a x y z).
Definition rd_flow (b : list Z) (off : nat) : option flow :=
  in_port ← rd_le b off 4; dl_vlan ← rd_le b (off + 4) 2; dl_type ← rd_le b (off + 6) 2;
  dl_dst ← rd b (off + 8) 6; dl_src ← rd b (off + 14) 6;
  pcp ← rd_le b (off + 20) 1; table ← rd_le b (off + 21) 1; tos ← rd_le b (off + 22) 1; proto ← rd_le b (off + 23) 1;
  label ← rd_le b (off + 24) 4; tp_src ← rd_le b (off + 28) 2; tp_dst ← rd_le b (off + 30) 2;
  s6 ← rd_ip6 b (off + 32); d6 ← rd_ip6 b (off + 48); tunnel ← rd_le b (off + 64) 8; meta ← rd_le b (off + 72) 8;
  bos ← rd_le b (off + 80) 1; tc ← rd_le b (off + 81) 1; pad ← rd b (off + 82) 6;
  Some (mk_flow in_port dl_vlan dl_type dl_dst dl_src pcp table tos proto label tp_src tp_dst s6 d6 tunnel meta bos tc pad).

(** The parts of [struct c_ofp_flow_mod]: the first 16 bytes, the flow, the mask, the fields after them, and the actions.  Bytes
    after the length in the header are [m_rest].  With a length below that of the fixed part the length of the actions wraps around. *)
Record fm_msg := mk_fm {
  m_head : list Z; m_flow : flow; m_mask : flow; m_tail : list Z; m_acts : list Z; m_rest : list Z }.

Definition SIZEOF_FLOW_MOD : Z := 240.

Definition fm_bytes (m : fm_msg) : list Z :=
  m_head m ++ flow_bytes (m_flow m) ++ flow_bytes (m_mask m) ++ m_tail m ++ m_acts m ++ m_rest m.
Definition read_fm (b : list Z) : option fm_msg :=
  len ← rd_le b 2 2;
  if ntohs len <? SIZEOF_FLOW_MOD then None else
  let n := Z.to_nat (ntohs len - SIZEOF_FLOW_MOD) in
  head ← rd b 0 16; fl ← rd_flow b 16; mask ← rd_flow b 104; tail ← rd b 192 48; acts ← rd b 240 n;
  Some (mk_fm head fl mask tail acts (drop (240 + n) b)).

Definition set_match (fl mask : flow) (m : fm_msg) : fm_msg := mk_fm (m_head m) fl mask (m_tail m) (m_acts m) (m_rest m).
Definition set_acts (acts : list Z) (m : fm_msg) : fm_msg := mk_fm (m_head m) (m_flow m) (m_mask m) (m_tail m) acts (m_rest m).

(** The fields. *)
Definition fld (b : list Z) (off n : nat) : Z := le_val (take n (drop off b)).
Definition fm_dpid (m : fm_msg) : Z := ntohll (fld (m_head m) 8 8).
Definition fm_flags (m : fm_msg) : Z := ntohll (fld (m_tail m) 0 8).
Definition fm_command (m : fm_msg) : Z := fld (m_tail m) 9 1.
Definition fm_priority (m : fm_msg) : Z := ntohs (fld (m_tail m) 10 2).
Definition fm_sw_alias (m : fm_msg) : Z := s32 (ntohl (fld (m_tail m) 12 4)).
Definition fm_itimeo (m : fm_msg) : Z := ntohs (fld (m_tail m) 20 2).
Definition fm_htimeo (m : fm_msg) : Z := ntohs (fld (m_tail m) 22 2).
Definition fm_buffer_id (m : fm_msg) : Z := ntohl (fld (m_tail m) 28 4).
Definition fm_cookie (m : fm_msg) : Z := ntohl (fld (m_tail m) 40 4).
Definition fm_seq_cookie (m : fm_msg) : Z := ntohl (fld (m_tail m) 44 4).

(** ** The switch *)

(** The tables of the switch with what else the commands look at. *)
Record fsw := mk_fsw {
  fs_sw : GroupTbl.switch; fs_ref : Z; fs_alias : Z; sw_ports : gset Z; debug_flag : bool;
  tbl_props : list (option ActParse.of_flow_tbl_props); hw_tbl_active : list bool; xphys_map_tbl : list Z }.

Definition set_sw (s : GroupTbl.switch) (w : fsw) : fsw :=
  mk_fsw s (fs_ref w) (fs_alias w) (sw_ports w) (debug_flag w) (tbl_props w) (hw_tbl_active w) (xphys_map_tbl w).
Definition set_ref (r : Z) (w : fsw) : fsw :=
  mk_fsw (fs_sw w) r (fs_alias w) (sw_ports w) (debug_flag w) (tbl_props w) (hw_tbl_active w) (xphys_map_tbl w).
Definition set_fl (f : c_fl) (w : fsw) : fsw := set_sw (GroupTbl.set_sw_fl f (fs_sw w)) w.
Notation fs_fl w := (GroupTbl.sw_fl (fs_sw w)).

Definition c_switch_get (dpid : Z) (w : fsw) : option fsw :=
  if dpid =? GroupTbl.datapath_id (fs_sw w) then Some (set_ref (fs_ref w + 1) w) else None.
Definition c_switch_alias_get (alias : Z) (w : fsw) : option fsw :=
  if alias =? fs_alias w then Some (set_ref (fs_ref w + 1) w) else None.
(** The last reference would free the switch. *)
Definition c_switch_put (w : fsw) : option fsw := if fs_ref w =? 0 then None else Some (set_ref (fs_ref w - 1) w).

(** The functions that look at a switch take its lock for reading: nobody may hold it for writing. *)
Definition rd_locked {A} (w : fsw) (x : option A) : option A := if GroupTbl.sw_lock (fs_sw w) then None else x.

Definition __c_switch_port_valid (w : fsw) (port : Z) : bool :=
  if OF_MAX_LOG_PORTS <=? port then true else nz port && bool_decide (port ∈ sw_ports w).
Definition of_switch_port_valid (w : fsw) (fl mask : flow) : option bool :=
  if nz (in_port mask) then rd_locked w (Some (__c_switch_port_valid w (ntohl (in_port fl)))) else Some true.
Definition of_switch_port_validate_cb (w : fsw) (port : Z) : bool := __c_switch_port_valid w port.

Definition multi_tables (w : fsw) : bool := FlowTbl.ofp_ctors (fs_fl w) && FlowTbl.multi_table_support (fs_fl w).

(** Table 0 is always allowed. *)
Definition of_switch_table_valid (w : fsw) (table : Z) : option bool :=
  rd_locked w (if nz (u8 table) && multi_tables w then aget (hw_tbl_active w) (u8 table) else Some true).
Definition of_switch_get_v2p_tbl (w : fsw) (vtable : Z) : option Z :=
  if multi_tables w then aget (xphys_map_tbl w) (u8 vtable) else Some 0.

(** The call-backs of the checker: a group or meter that is there and has not expired joins the list of those the flow will use. *)
Definition add_once (id : Z) (l : list Z) : list Z := if bool_decide (id ∈ l) then l else l ++ [id].
Definition c_of_fl_group_check_add (w : fsw) (id : Z) (l : list Z) : bool * list Z :=
  match GroupTbl.groups (fs_sw w) !! id with
  | None => (false, l)
  | Some g => if has (GroupTbl.g_flags g) GroupTbl.C_GRP_EXPIRED then (false, l) else (true, add_once id l)
  end.
Definition c_of_fl_meter_check_add (w : fsw) (id : Z) (l : list Z) : bool * list Z :=
  match GroupTbl.meters (fs_sw w) !! id with
  | None => (false, l)
  | Some m => if has (GroupTbl.m_cflags m) GroupTbl.C_METER_EXPIRED then (false, l) else (true, add_once id l)
  end.

Definition inst_args (w : fsw) (props : option ActParse.of_flow_tbl_props) : ActParse.ofp_inst_check_args :=
  ActParse.mk_ca None false props None false false [] [] 0 0 (Some (of_switch_port_validate_cb w))
    (Some (c_of_fl_group_check_add w)) (Some (c_of_fl_meter_check_add w)) (Some (of_switch_get_v2p_tbl w)).

(** ** What depends on the version of the protocol *)

(** [normalize_flow] and [validate_acts] in the table of constructors of a switch; a null pointer is [None].  The checker returns its
    verdict, the actions as it leaves them, and what it learned. *)
Class OfpCtors := {
  normalize_flow : option (flow -> flow -> option (Z * flow * flow));
  validate_acts : option (flow -> flow -> list Z -> ActParse.ofp_inst_check_args ->
    option (Z * list Z * ActParse.ofp_inst_check_args)) }.

(** [of131_ctors] and [of140_ctors]. *)
#[export] Instance of131_ctors : OfpCtors := {|
  normalize_flow := Some (fun fl mask => Some (of131_flow_normalize fl mask));
  validate_acts := Some (fun fl mask acts args =>
    '(r, acts', u) ← ActParse.of131_validate_actions (Some fl) (Some mask) acts (Z.of_nat (length acts)) false (Some args);
    args ← u; Some (r, acts', args)) |}.
(** [of_unk_ctors], before the handshake is complete. *)
Definition of_unk_ctors : OfpCtors := {| normalize_flow := None; validate_acts := None |}.

(** ** Answers *)

(** [Refusal] carries the type and the code of the error and the first bytes of the message. *)
Inductive reply := NoReply | Success | Refusal (type code : Z) (data : list Z).

Section ANSWERS.
Context (app_flags : Z -> Z).

(** The application sits behind a connection; address 0 is the null pointer. *)
Definition is_remote (app : Z) : bool :=
  nz app && (has (app_flags app) C_APP_REMOTE || has (app_flags app) C_APP_AUX_REMOTE).

(** [RETURN_APP_ERR]: the value returned, and the answer. *)
Definition return_app_err (app : Z) (b : list Z) (ret type code : Z) : Z * reply :=
  if is_remote app then
    if ret =? 0 then (0, Success) else (0, Refusal type code (take (Z.to_nat C_OFP_MAX_ERR_LEN) b))
  else (ret, NoReply).
(** [RETURN_APP_FL_ERR] *)
Definition return_app_fl_err (app : Z) (b : list Z) (ret type code : Z) (ack : bool) : Z * reply :=
  if ack then return_app_err app b ret type code else (ret, NoReply).

End ANSWERS.

(** ** Flows that are sent without an entry *)

Definition of_send_flow_add_direct (c : Ha.ctrl_hdl) (fl mask : flow) (buffer_id : Z) (acts : list Z) (itimeo htimeo prio : Z)
    (s : c_fl) : option (Z * c_fl) :=
  if negb (Ha.c_switch_of_master_check c) then Some (0, s)
  else if negb (FlowTbl.ofp_ctors s) then None
  else Some (0, FlowTbl.send (FlowTbl.FlowAdd fl mask buffer_id acts itimeo htimeo prio 0 false) s).

Definition of_send_flow_del_direct (c : Ha.ctrl_hdl) (fl mask : flow) (strict : bool) (prio : Z) (s : c_fl) : option (Z * c_fl) :=
  if negb (Ha.c_switch_of_master_check c) then Some (0, s)
  else if negb (FlowTbl.ofp_ctors s) then None
  else Some (0, FlowTbl.send (FlowTbl.FlowDel fl mask strict prio) s).

Section COMMAND.
Context `{OfpCtors}.
(** The flags of applications, and the application that commands without one are run for, when it is registered. *)
Context (app_flags : Z -> Z) (vty_app : option Z).
(** The address of a new entry, and the transaction id of a message. *)
Context (calloc xid : c_fl -> Z).
Context (c : Ha.ctrl_hdl) (now : Z).

Definition no_ack (m : fm_msg) : bool := has (fm_flags m) FlowTbl.C_FL_NO_ACK.

(** Only local flows, and those read back from the switch, may match everything. *)
Definition all_wild (m : fm_msg) : bool :=
  negb (has (fm_flags m) FlowTbl.C_FL_ENT_LOCAL) && negb (has (fm_flags m) FlowTbl.C_FL_ENT_RESIDUAL) &&
  of_check_flow_wildcard_generic (m_mask m).

Definition bad_flags (m : fm_msg) : bool :=
  has (fm_flags m) FlowTbl.C_FL_ENT_NOCACHE && has (fm_flags m) (Z.lor FlowTbl.C_FL_ENT_LOCAL FlowTbl.C_FL_ENT_CLONE).

Definition fm_find (m : fm_msg) (w : fsw) : option fsw :=
  if has (fm_flags m) C_FL_ENT_SWALIAS then c_switch_alias_get (fm_sw_alias m) w else c_switch_get (fm_dpid m) w.

(** The application that owns the flow, with a reference when it is not the one that asked. *)
Definition fm_app (app_arg : Z) (w : fsw) : option (Z * fsw) :=
  if (app_arg =? 0) || has (app_flags app_arg) C_APP_AUX_REMOTE then
    match vty_app with
    | Some v => s ← GroupTbl.c_app_ref v (fs_sw w); Some (v, set_sw s w)
    | None => Some (app_arg, w)
    end
  else Some (app_arg, w).
Definition fm_app_put (app_arg app : Z) (w : fsw) : option fsw :=
  if app =? app_arg then Some w else s ← GroupTbl.c_app_put app (fs_sw w); Some (set_sw s w).

(** The result of [normalize_flow] and the message it leaves. *)
Definition fm_normalize (m : fm_msg) : option (Z * fm_msg) :=
  match normalize_flow with
  | Some f => '(r, fl, mask) ← f (m_flow m) (m_mask m); Some (r, set_match fl mask m)
  | None => Some (0, m)
  end.

(** The number of the table in the switch. *)
Definition fm_table (m : fm_msg) (w : fsw) : option (Z * fm_msg) :=
  if has (fm_flags m) C_FL_ENT_TBL_PHYS then Some (table_id (m_flow m), m)
  else t ← rd_locked w (of_switch_get_v2p_tbl w (table_id (m_flow m))); Some (t, set_match (set_table_id t (m_flow m)) (m_mask m) m).

(** The conditions after the label [loop_mtable]: whether they hold, with the message and what the checker learned. *)
Definition fm_check (table : Z) (m : fm_msg) (args : ActParse.ofp_inst_check_args) (w : fsw)
  : option (bool * fm_msg * ActParse.ofp_inst_check_args) :=
  if debug_flag w then Some (true, m, args)
  else
    port ← of_switch_port_valid w (m_flow m) (m_mask m);
    if negb port then Some (false, m, args)
    else
      tbl ← of_switch_table_valid w table;
      if negb tbl then Some (false, m, args)
      else
        match (if fm_command m =? C_OFPC_ADD then validate_acts else None) with
        | Some f => '(r, acts, args) ← rd_locked w (f (m_flow m) (m_mask m) (m_acts m) args); Some (r =? 0, set_acts acts m, args)
        | None => Some (true, m, args)
        end.

Definition fm_parms (app : Z) (m : fm_msg) (args : ActParse.ofp_inst_check_args) : FlowTbl.of_flow_mod_params :=
  FlowTbl.mk_parms app (m_flow m) (m_mask m) (m_acts m) (fm_buffer_id m) (fm_priority m) (fm_itimeo m) (fm_htimeo m)
    (Z.lor (fm_flags m) C_FL_ENT_TBL_PHYS) (fm_cookie m) (fm_seq_cookie m)
    (ActParse.meter_list args) (ActParse.grp_list args).

Definition fm_apply (p : FlowTbl.of_flow_mod_params) (m : fm_msg) (s : c_fl) : option (Z * c_fl) :=
  let direct := has (fm_flags m) FlowTbl.C_FL_ENT_NOCACHE in
  if fm_command m =? C_OFPC_ADD then
    if direct then
      of_send_flow_add_direct c (FlowTbl.p_flow p) (FlowTbl.p_mask p) (FlowTbl.p_buffer_id p) (FlowTbl.p_actions p)
        (FlowTbl.p_itimeo p) (FlowTbl.p_htimeo p) (FlowTbl.p_prio p) s
    else FlowTbl.c_switch_flow_add c now (xid s) (calloc s) p s
  else
    if direct then of_send_flow_del_direct c (FlowTbl.p_flow p) (FlowTbl.p_mask p) false (FlowTbl.p_prio p) s
    else FlowTbl.c_switch_flow_del c p s.

(** The error code that goes with the result. *)
Definition fm_code (m : fm_msg) (ret : Z) : Z :=
  if (fm_command m =? C_OFPC_ADD) && (ret =? - FlowTbl.EEXIST) then OFPFMFC_FLOW_EXIST else OFPFMFC_GENERIC.

(** [c_ha_proc]: a master tells its peer, with the message as it is now. *)
Definition fm_forward (m : fm_msg) (ret : Z) (s : c_fl) : c_fl :=
  if (has (fm_flags m) FlowTbl.C_FL_ENT_STATIC || has (fm_flags m) FlowTbl.C_FL_ENT_RESIDUAL) &&
     negb (has (fm_flags m) FlowTbl.C_FL_ENT_NOCACHE) && (ret =? 0) && Ha.c_ha_master c
  then FlowTbl.send (FlowTbl.HaCmd (fm_bytes m)) s else s.

(** [while (++table_id < C_MAX_RULE_FLOW_TBLS)], up to a table that may be used. *)
Fixpoint next_table (n : nat) (table : Z) (w : fsw) : option (option Z) :=
  match n with
  | O => Some None
  | S n =>
      if table + 1 <? FlowTbl.C_MAX_RULE_FLOW_TBLS then
        v ← of_switch_table_valid w (table + 1);
        if (v : bool) then Some (Some (table + 1)) else next_table n (table + 1) w
      else Some None
  end.

(** What a command ends with: the result, the error code of the refused, whether the switch was already given back, and the message. *)
Record outcome := mk_out { o_ret : Z; o_code : Z; o_put : bool; o_msg : fm_msg }.

(** From the label [loop_mtable] on.  A local flow goes to every later table as well; the lists of the checker are
    freed before that, and the next pass uses them. *)
Fixpoint fm_loop (fuel : nat) (app table : Z) (m : fm_msg) (args : ActParse.ofp_inst_check_args) (w : fsw)
  : option (outcome * fsw) :=
  match fuel with
  | O => None
  | S fuel =>
      '(ok, m, args) ← fm_check table m args w;
      if negb ok then w ← c_switch_put w; Some (mk_out (-1) OFPBAC_BAD_GENERIC true m, w)
      else
        '(ret, f) ← fm_apply (fm_parms app m args) m (fs_fl w);
        let w := set_fl (fm_forward m ret f) w in
        let out := mk_out ret (fm_code m ret) false m in
        if (ret =? 0) && has (fm_flags m) FlowTbl.C_FL_ENT_LOCAL && multi_tables w then
          next ← next_table 256 table w;
          match next with
          | Some t =>
              if bool_decide (ActParse.grp_list args = []) && bool_decide (ActParse.meter_list args = []) then
                fm_loop fuel app t (set_match (set_table_id t (m_flow m)) (m_mask m) m) args w
              else None
          | None => Some (out, w)
          end
        else Some (out, w)
  end.

(** A refusal before the label leaves the references to the switch and to the application. *)
Definition c_app_flow_mod_wrk_command (app_arg : Z) (b : list Z) (w : fsw) : option (Z * reply * fsw) :=
  m ← read_fm b;
  let refuse m ret code w := Some (return_app_fl_err app_flags app_arg (fm_bytes m) ret OFPET_FLOW_MOD_FAILED code (negb (no_ack m)), w) in
  if all_wild m then refuse m (-1) OFPFMFC_BAD_FLAG w
  else
    match fm_find m w with
    | None => refuse m (-1) OFPBRC_BAD_DPID w
    | Some w =>
        '(app, w) ← fm_app app_arg w;
        if bad_flags m then refuse m (-1) OFPFMFC_BAD_FLAG w
        else
          '(r, m) ← fm_normalize m;
          if r <? 0 then refuse m r OFPFMFC_BAD_COMMAND w
          else
            '(table, m) ← fm_table m w;
            props ← aget (tbl_props w) table;
            '(out, w) ← fm_loop 256 app table m (inst_args w props) w;
            w ← (if o_put out then Some w else w ← c_switch_put w; fm_app_put app_arg app w);
            refuse (o_msg out) (o_ret out) (o_code out) w
    end.

(** [c_app_worq_tx]: the message goes to the thread of the switch.  [wq_dead] is the state of the connection to it, [wq] what
    was queued. *)
Definition c_app_worq_tx (wq_dead : bool) (dpid : Z) (b : list Z) (wq : list (list Z)) (w : fsw) : option (Z * list (list Z) * fsw) :=
  match c_switch_get dpid w with
  | None => Some (-1, wq, w)
  | Some w => w ← c_switch_put w; Some (if wq_dead then (1, wq, w) else (0, wq ++ [b], w))
  end.

(** [ret] becomes the comparison, not the result of the queue. *)
Definition c_app_flow_mod_command (wq_dead : bool) (app_arg : Z) (b : list Z) (wq : list (list Z)) (w : fsw)
  : option (Z * reply * list (list Z) * fsw) :=
  if app_arg =? 0 then None
  else
    len ← rd_le b 2 2;
    if ntohs len <? SIZEOF_FLOW_MOD then
      Some (return_app_err app_flags app_arg b (-1) OFPET_FLOW_MOD_FAILED OFPBRC_BAD_LEN, wq, w)
    else
      m ← read_fm b;
      '(queued, wq, w) ← (if no_ack m then
                            '(r, wq, w) ← c_app_worq_tx wq_dead (fm_dpid m) b wq w; Some (r <=? 0, wq, w)
                          else Some (false, wq, w));
      if (queued : bool) then Some (return_app_fl_err app_flags app_arg b 1 OFPET_FLOW_MOD_FAILED OFPFMFC_BAD_FLAG false, wq, w)
      else '(r, w) ← c_app_flow_mod_wrk_command app_arg b w; Some (r, wq, w).

(** The thread of the switch runs what was queued, for no application. *)
Definition __mul_app_workq_handler (b : list Z) (w : fsw) : option (Z * fsw) :=
  type ← rd_le b 1 1;
  if type =? C_OFPT_FLOW_MOD then '(r, _, w) ← c_app_flow_mod_wrk_command 0 b w; Some (r, w) else Some (-1, w).

(** ** Flows of applications inside the controller *)

(** The switch that the caller has, or one with this id. *)
Definition sw_of (given : bool) (dpid : Z) (w : fsw) : option fsw :=
  if given then Some (set_ref (fs_ref w + 1) w) else c_switch_get dpid w.

(** [app] is the application with the name that the caller gives, when it is registered. *)
Definition as_app (app : option Z) (run : Z -> c_fl -> option (Z * c_fl)) (w : fsw) : option (Z * fsw) :=
  match app with
  | None => w ← c_switch_put w; Some (- FlowTbl.EINVAL, w)
  | Some a =>
      s ← GroupTbl.c_app_ref a (fs_sw w);
      '(r, f) ← run a (GroupTbl.sw_fl s);
      s ← GroupTbl.c_app_put a (GroupTbl.set_sw_fl f s);
      w ← c_switch_put (set_sw s w); Some (r, w)
  end.

Definition mul_app_send_flow_add (app : option Z) (given : bool) (dpid : Z) (fl fl_mask : flow) (buffer_id : Z) (acts : list Z)
    (itimeo htimeo prio flags : Z) (w : fsw) : option (Z * fsw) :=
  match sw_of given dpid w with
  | None => Some (- FlowTbl.EINVAL, w)
  | Some w =>
      if has flags FlowTbl.C_FL_ENT_NOCACHE then
        '(r, f) ← of_send_flow_add_direct c fl fl_mask buffer_id acts itimeo htimeo prio (fs_fl w);
        w ← c_switch_put (set_fl f w); Some (r, w)
      else
        as_app app (fun a s => FlowTbl.c_switch_flow_add c now (xid s) (calloc s)
          (FlowTbl.mk_parms a fl fl_mask acts buffer_id prio itimeo htimeo flags 0 0 [] []) s) w
  end.

(** The priority is converted to network order, which the tables do not use. *)
Definition mul_app_send_flow_del (app : option Z) (given : bool) (dpid : Z) (fl mask : flow) (prio flags : Z) (w : fsw)
  : option (Z * fsw) :=
  match sw_of given dpid w with
  | None => Some (- FlowTbl.EINVAL, w)
  | Some w =>
      if has flags FlowTbl.C_FL_ENT_NOCACHE then
        '(r, f) ← of_send_flow_del_direct c fl mask false prio (fs_fl w);
        w ← c_switch_put (set_fl f w); Some (r, w)
      else
        as_app app (fun a s => FlowTbl.c_switch_flow_del c
          (FlowTbl.mk_parms a fl mask [] 0 (htons prio) 0 0 flags 0 0 [] []) s) w
  end.

End COMMAND.
End FlowCmd.
