(* ===== verification/FlowCmdSpec.v ===== *)
(** * Commands on flows: the invariant and the outcome

    What the flow tables, the groups, the meters and the applications of a switch agree on ([full]), and what a command does to it.  The
    parts that differ between the versions of OpenFlow are used through the laws of [OfpLaws]. *)
From stdpp Require Import base list gmap.
From Stdlib Require Import ZArith Lia.
From S2P Require Import Prelude Bytes Flow Ha FlowTbl FlowTblSpec FlowTblDel FlowTblAdd GroupTbl GroupTblSpec GroupCmdSpec ActParse FlowCmd.
Import FlowCmd.
Import Bytes Flow.
#[local] Open Scope Z_scope.

Notation flapps s := (FlowTbl.app_refs s).

(** ** The invariant of a switch with flows *)

(** [h x] references to application [x] are held by others than the tables. *)
Definition full (h : Z -> Z) (s : GroupTbl.switch) : Prop := gwf (fun x => owns x (FlowTbl.ents (GroupTbl.sw_fl s)) + h x) s.

Lemma full_flow h s f : (forall x, 0 <= h x) -> full h s -> wf f -> moves (GroupTbl.sw_fl s) f -> full h (GroupTbl.set_sw_fl f s).
Proof.
  intros Hh [F G M GO MO A E] W [Ma Md Mg Mm _ _]. split; cbn; try done.
  - intros id. by rewrite G, (Mg id).
  - intros id. by rewrite M, (Mm id).
  - intros x. specialize (A x). change (owned x (GroupTbl.set_sw_fl f s)) with (owned x s). cbn beta in A. rewrite (Ma x).
    destruct (flapps (GroupTbl.sw_fl s) !! x) eqn:Ex; cbn; [lia|]. specialize (Md x Ex). specialize (Hh x).
    pose proof (owned_nonneg x s). pose proof (owns_nonneg x (FlowTbl.ents (GroupTbl.sw_fl s))). pose proof (owns_nonneg x (FlowTbl.ents f)). lia.
Qed.

Lemma full_mono h h' s : (forall x, 0 <= h' x <= h x) -> full h s -> full h' s.
Proof.
  intros Hh. apply gwf_mono. intros x. specialize (Hh x). pose proof (owns_nonneg x (FlowTbl.ents (GroupTbl.sw_fl s))). lia.
Qed.

Lemma full_ref h s x : full h s -> is_Some (flapps (GroupTbl.sw_fl s) !! x) ->
  exists A, GroupTbl.c_app_ref x s = Some (with_apps A s) /\ shifted (fun y => own y x) (flapps (GroupTbl.sw_fl s)) A /\
    full (fun y => h y + own y x) (with_apps A s).
Proof.
  intros G Hx. destruct (app_ref_gwf _ _ _ G Hx) as (A & E & S & G'). exists A. split_and!; [done|done|].
  eapply gwf_ext; [|exact G']. intros y. cbn. lia.
Qed.

Lemma full_put h s x : (forall y, 0 <= h y) -> full (fun y => h y + own y x) s ->
  exists A, GroupTbl.c_app_put x s = Some (with_apps A s) /\ shifted (fun y => - own y x) (flapps (GroupTbl.sw_fl s)) A /\
    full h (with_apps A s).
Proof.
  intros Hh G. destruct (app_put_gwf _ _ x G) as (A & E & S & G').
  { pose proof (owned_nonneg x s). pose proof (owns_nonneg x (FlowTbl.ents (GroupTbl.sw_fl s))). rewrite own_self. specialize (Hh x). lia. }
  exists A. split_and!; [done|done|]. eapply gwf_ext; [|exact G']. intros y. cbn. lia.
Qed.

(** A switch that commands can run on: the locks are free, the handshake is complete, and the arrays are as long as in the code. *)
Record fsw_ok (h : Z -> Z) (w : fsw) : Prop := {
  fo_full : full h (fs_sw w); fo_lock : GroupTbl.sw_lock (fs_sw w) = false; fo_ctors : FlowTbl.ofp_ctors (fs_fl w) = true; fo_ref : 0 <= fs_ref w;
  fo_props : length (tbl_props w) = 255%nat; fo_active : length (hw_tbl_active w) = 255%nat;
  fo_map : length (xphys_map_tbl w) = 255%nat; fo_phys : Forall (fun t => 0 <= t < 255) (xphys_map_tbl w) }.

(** Messages do not matter to the invariant. *)
Lemma wf_send f m : wf f -> wf (FlowTbl.send m f).
Proof. intros W. eapply wf_frame; [exact W|done|done|done|done|apply W|apply W]. Qed.
Lemma moves_send f m : moves f (FlowTbl.send m f).
Proof. by apply moves_same. Qed.

Lemma has_lor_other x a b : Z.land a b = 0 -> FlowTbl.has (Z.lor x a) b = FlowTbl.has x b.
Proof. intros E. unfold FlowTbl.has. by rewrite Z.land_lor_distr_l, E, Z.lor_0_r. Qed.

(** ** The versions of the protocol *)

(** What commands rely on.  [acts_use v2p acts acts' G M]: the bytes [acts] use the groups [G] and the meters [M], and are [acts']
    with the tables translated by [v2p].  The checker accepts such bytes or refuses them; what it adds to its lists is there, and
    when it accepts, it found everything that is used. *)
Class OfpLaws `{OfpCtors} := {
  acts_use : (Z -> option Z) -> list Z -> list Z -> list Z -> list Z -> Prop;
  normalize_total : forall f fl mask, normalize_flow = Some f ->
    exists r fl' mask', f fl mask = Some (r, fl', mask') /\ (0 <= r -> table_id fl' = table_id fl);
  check_total : forall f w props fl mask acts acts' G M, validate_acts = Some f -> acts_use (of_switch_get_v2p_tbl w) acts acts' G M ->
    exists r acts1 args, f fl mask acts (inst_args w props) = Some (r, acts1, args) /\
      Forall (fun g => is_Some (GroupTbl.groups (fs_sw w) !! g)) (ActParse.grp_list args) /\
      Forall (fun m => is_Some (GroupTbl.meters (fs_sw w) !! m)) (ActParse.meter_list args) /\
      (r = 0 -> acts1 = acts' /\ NoDup (ActParse.grp_list args) /\ NoDup (ActParse.meter_list args) /\
        (forall g, g ∈ ActParse.grp_list args <-> g ∈ G) /\ (forall m, m ∈ ActParse.meter_list args <-> m ∈ M)) }.

(** ** The steps of a command *)

Section STEPS.
Context `{OfpLaws}.
Context (app_flags : Z -> Z) (vty_app : option Z) (calloc xid : FlowTbl.c_switch -> Z) (c : Ha.ctrl_hdl) (now : Z).
Context (calloc_fresh : forall s, FlowTbl.ents s !! calloc s = None).
Context (h : Z -> Z) (Hh : forall x, 0 <= h x).

(** The application that will own the flow, and the references to it that the command holds. *)
Definition taken (app_arg : Z) : option Z := if (app_arg =? 0) || has (app_flags app_arg) C_APP_AUX_REMOTE then vty_app else None.
Definition fm_owner (app_arg : Z) : Z := default app_arg (taken app_arg).
Definition hold (app_arg x : Z) : Z := match taken app_arg with Some v => own x v | None => 0 end.

Lemma hold_nonneg app_arg x : 0 <= hold app_arg x.
Proof. unfold hold. destruct (taken app_arg) as [v|]; [apply own_range|done]. Qed.

Lemma set_fl_same w : set_fl (fs_fl w) w = w.
Proof. by destruct w as [[] ? ? ? ? ? ? ?]. Qed.

Lemma set_app_refs_same s : FlowTbl.set_app_refs (flapps s) s = s.
Proof. by destruct s. Qed.

(** [w] with the references [A] and [k] more references to it. *)
Notation at_ref k w := (set_ref (fs_ref w + k) w).
Notation at_apps A w := (set_fl (FlowTbl.set_app_refs A (fs_fl w)) w).

Lemma fm_app_spec app_arg w : fsw_ok h w -> is_Some (flapps (fs_fl w) !! fm_owner app_arg) ->
  exists A, fm_app app_flags vty_app app_arg w = Some (fm_owner app_arg, at_apps A w) /\ shifted (hold app_arg) (flapps (fs_fl w)) A /\
    full (fun x => h x + hold app_arg x) (fs_sw (at_apps A w)).
Proof.
  intros O Hx. assert (forall x, hold app_arg x = match taken app_arg with Some v => own x v | None => 0 end) as Eh by done.
  unfold fm_app, fm_owner in *. unfold taken in *. destruct ((app_arg =? 0) || _); [destruct vty_app as [v|]|].
  - destruct (full_ref h _ v (fo_full _ _ O) Hx) as (A & -> & S & G). exists A. split_and!; [done| |].
    + eapply shifted_ext; [|exact S]. intros y. cbn. by rewrite Eh.
    + eapply gwf_ext; [|exact G]. intros y. cbn. by rewrite Eh.
  - exists (flapps (fs_fl w)). rewrite set_app_refs_same, set_fl_same. split_and!; [done|by apply shifted_none|].
    eapply gwf_ext; [|apply O]. intros y. cbn. rewrite Eh. lia.
  - exists (flapps (fs_fl w)). rewrite set_app_refs_same, set_fl_same. split_and!; [done|by apply shifted_none|].
    eapply gwf_ext; [|apply O]. intros y. cbn. rewrite Eh. lia.
Qed.

(** The reference is given back unless the application is the one that asked. *)
Lemma fm_app_put_spec app_arg w : full (fun x => h x + hold app_arg x) (fs_sw w) ->
  exists A, fm_app_put app_arg (fm_owner app_arg) w = Some (at_apps A w) /\ full h (fs_sw (at_apps A w)) /\
    shifted (fun x => if fm_owner app_arg =? app_arg then 0 else - hold app_arg x) (flapps (fs_fl w)) A.
Proof.
  intros G. assert (forall x, hold app_arg x = match taken app_arg with Some v => own x v | None => 0 end) as Eh by done.
  unfold fm_app_put. destruct (Z.eqb_spec (fm_owner app_arg) app_arg) as [E|E].
  - exists (flapps (fs_fl w)). rewrite set_app_refs_same, set_fl_same. split_and!; [done| |by apply shifted_none].
    eapply full_mono; [|exact G]. intros x. pose proof (hold_nonneg app_arg x). specialize (Hh x). cbn. lia.
  - unfold fm_owner in *. destruct (taken app_arg) as [v|]; [|done]. cbn [from_option id] in *.
    destruct (full_put h (fs_sw w) v Hh) as (A & -> & S & G').
    { eapply gwf_ext; [|exact G]. intros x. cbn. by rewrite Eh. }
    exists A. split_and!; [done|done|]. eapply shifted_ext; [|exact S]. intros x. cbn. by rewrite Eh.
Qed.

Lemma fm_normalize_spec m :
  exists r fl mask, fm_normalize m = Some (r, set_match fl mask m) /\ (0 <= r -> table_id fl = table_id (m_flow m)).
Proof.
  unfold fm_normalize. destruct normalize_flow as [f|] eqn:E.
  - destruct (normalize_total f (m_flow m) (m_mask m) E) as (r & fl & mask & -> & Ht). by exists r, fl, mask.
  - exists 0, (m_flow m), (m_mask m). split; [|done]. by destruct m.
Qed.

Lemma aget_lt {A} (l : list A) t : 0 <= t < Z.of_nat (length l) -> exists x, aget l t = Some x /\ x ∈ l.
Proof.
  intros Ht. unfold aget. destruct (lookup_lt_is_Some_2 l (Z.to_nat t)) as [x Hx]; [lia|]. exists x. split; [|by eapply list_elem_of_lookup_2].
  by rewrite (proj2 (Z.ltb_ge _ _)) by lia.
Qed.

Lemma fm_table_spec g m w : fsw_ok g w -> 0 <= table_id (m_flow m) < 255 ->
  exists t, fm_table m w = Some (t, set_match (set_table_id t (m_flow m)) (m_mask m) m) /\ 0 <= t < 255.
Proof.
  intros O Ht. unfold fm_table. destruct (has _ C_FL_ENT_TBL_PHYS).
  { exists (table_id (m_flow m)). split; [|done]. by destruct m as [? [] ? ? ? ?]. }
  unfold rd_locked, of_switch_get_v2p_tbl. rewrite (fo_lock _ _ O). unfold u8. rewrite Z.mod_small by lia. destruct (multi_tables w).
  - destruct (aget_lt (xphys_map_tbl w) (table_id (m_flow m))) as (t & -> & Hin); [rewrite (fo_map _ _ O); lia|].
    exists t. split; [done|]. by eapply (proj1 (Forall_forall _ _) (fo_phys _ _ O)).
  - by exists 0.
Qed.

(** The groups and meters that the checker found are there; with [uses] they are those that the actions use. *)
Definition checked (w : fsw) (args : ActParse.ofp_inst_check_args) : Prop :=
  Forall (fun g => is_Some (GroupTbl.groups (fs_sw w) !! g)) (ActParse.grp_list args) /\
  Forall (fun m => is_Some (GroupTbl.meters (fs_sw w) !! m)) (ActParse.meter_list args).
Definition same_set (l l' : list Z) : Prop := NoDup l /\ forall x, x ∈ l <-> x ∈ l'.
Definition uses (args : ActParse.ofp_inst_check_args) (G M : list Z) : Prop :=
  same_set (ActParse.grp_list args) G /\ same_set (ActParse.meter_list args) M.

Lemma fm_check_spec g t m props w acts' G M : fsw_ok g w -> 0 <= t < 255 ->
  (fm_command m = C_OFPC_ADD -> acts_use (of_switch_get_v2p_tbl w) (m_acts m) acts' G M) ->
  exists ok acts args, fm_check t m (inst_args w props) w = Some (ok, set_acts acts m, args) /\ checked w args /\
    (ok = true -> fm_command m = C_OFPC_ADD -> debug_flag w = false -> is_Some validate_acts -> acts = acts' /\ uses args G M).
Proof.
  intros O Ht Ha. assert (set_acts (m_acts m) m = m) as Em by by destruct m.
  assert (checked w (inst_args w props)) as Hc by (split; constructor). unfold fm_check.
  destruct (debug_flag w). { exists true, (m_acts m), (inst_args w props). by rewrite Em. }
  assert (exists v, of_switch_port_valid w (m_flow m) (m_mask m) = Some v) as [v ->].
  { unfold of_switch_port_valid, rd_locked. rewrite (fo_lock _ _ O). destruct (nz _); eauto. }
  cbn [mbind option_bind]. destruct v; cbn [negb]. 2:{ exists false, (m_acts m), (inst_args w props). by rewrite Em. }
  assert (exists v, of_switch_table_valid w t = Some v) as [v ->].
  { unfold of_switch_table_valid, rd_locked. rewrite (fo_lock _ _ O). unfold u8. rewrite Z.mod_small by lia. destruct (_ && _); [|eauto].
    destruct (aget_lt (hw_tbl_active w) t) as (x & -> & _); [rewrite (fo_active _ _ O); lia|eauto]. }
  cbn [mbind option_bind]. destruct v; cbn [negb]. 2:{ exists false, (m_acts m), (inst_args w props). by rewrite Em. }
  destruct (Z.eqb_spec (fm_command m) C_OFPC_ADD) as [Eadd|].
  2:{ exists true, (m_acts m), (inst_args w props). by rewrite Em. }
  destruct validate_acts as [f|] eqn:Ef.
  2:{ exists true, (m_acts m), (inst_args w props). rewrite Em. done. }
  destruct (check_total f w props (m_flow m) (m_mask m) (m_acts m) acts' G M Ef (Ha Eadd)) as (r & acts & args & -> & C1 & C2 & C3).
  unfold rd_locked. rewrite (fo_lock _ _ O). cbn [mbind option_bind]. exists (r =? 0), acts, args. split_and!; [done|done|].
  intros Hr _ _ _. destruct (C3 (proj1 (Z.eqb_eq _ _) Hr)) as (? & ? & ? & ? & ?). done.
Qed.

(** ** The operation on the tables *)

(** The request as the tables get it, apart from the groups and meters. *)
Definition fm_req (app : Z) (m : fm_msg) : FlowTbl.of_flow_mod_params := fm_parms app m (ActParse.mk_ca None false None None false false [] [] 0 0 None None None None).

(** What an addition needs, see [flow_add_spec]: the flow has no bit outside of its mask, the next cookie is not in use, and it
    is not one of the two requests that break the lock of an entry. *)
Record addable (app : Z) (m : fm_msg) (s : FlowTbl.c_switch) : Prop := {
  ad_self : __of_match_flows (m_flow m) (m_mask m) (m_flow m) = true;
  ad_cookie : fresh_cookie s (fm_req app m);
  ad_lock : forall b e, in_tables s b -> FlowTbl.ents s !! b = Some e ->
    FlowTbl.strict_key e (m_flow m) (m_mask m) (fm_priority m) = true -> relocks e (fm_req app m) = false }.

(** The outcome [ret] and the new tables. *)
Record applied (p : FlowTbl.of_flow_mod_params) (m : fm_msg) (s : FlowTbl.c_switch) (ret : Z) (f : FlowTbl.c_switch) : Prop := {
  al_wf : wf f;
  al_moves : moves s f;
  al_err : ret <> 0 -> FlowTbl.rule_flow_tbls f = FlowTbl.rule_flow_tbls s;
  al_add : fm_command m = C_OFPC_ADD -> has (fm_flags m) FlowTbl.C_FL_ENT_NOCACHE = false -> add_post c now (calloc s) p s ret f }.

Lemma fm_apply_spec app m args s : wf s -> FlowTbl.ofp_ctors s = true -> is_Some (flapps s !! app) -> 0 <= table_id (m_flow m) ->
  (fm_command m = C_OFPC_ADD -> addable app m s) ->
  exists ret f, fm_apply calloc xid c now (fm_parms app m args) m s = Some (ret, f) /\ applied (fm_parms app m args) m s ret f.
Proof.
  intros W Hc Hx Ht0 Had. unfold fm_apply, of_send_flow_add_direct, of_send_flow_del_direct.
  assert (forall ret, (ret = 0 -> has (fm_flags m) FlowTbl.C_FL_ENT_NOCACHE = true) -> ret = 0 -> applied (fm_parms app m args) m s ret s) as Hsame.
  { intros ret Hn ->. split; try done; [apply moves_refl|]. intros _ Hf. by rewrite Hn in Hf. }
  destruct (Z.eqb_spec (fm_command m) C_OFPC_ADD) as [Ea|Ea]; destruct (has _ FlowTbl.C_FL_ENT_NOCACHE) eqn:Hn.
  - destruct (negb (Ha.c_switch_of_master_check c)); [eexists _, _; split; [reflexivity|by apply Hsame]|]. rewrite Hc. cbn [negb].
    eexists _, _. split; [reflexivity|]. split; [by apply wf_send|apply moves_send|done|]. intros _ Hf. congruence.
  - destruct (Had Ea) as [A1 A2 A3].
    destruct (flow_add_run c now (xid s) (calloc s) (fm_parms app m args) s W (calloc_fresh s) Hx Hc Ht0 A1 A2 A3) as (r & f & -> & P).
    exists r, f. split; [done|]. destruct P. by split.
  - destruct (negb (Ha.c_switch_of_master_check c)); [eexists _, _; split; [reflexivity|by apply Hsame]|]. rewrite Hc. cbn [negb].
    eexists _, _. split; [reflexivity|]. split; [by apply wf_send|apply moves_send|done|done].
  - destruct (flow_del_run c (fm_parms app m args) s W Hc Ht0) as (r & f & -> & W' & Mv & Hr). exists r, f. split; [done|].
    split; [done|done| |done]. intros Hne. by destruct Hr as [(_ & -> & _)|(-> & _)].
Qed.

(** ** The command *)

(** The message as the tables get it: normalised, with the table [t] of the switch. *)
Definition resolves (m : fm_msg) (t : Z) (m2 : fm_msg) (w : fsw) : Prop :=
  exists r m1, fm_normalize m = Some (r, m1) /\ 0 <= r /\ fm_table m1 w = Some (t, m2).

Definition found (m : fm_msg) (w : fsw) : bool := bool_decide (is_Some (fm_find m w)).

(** The checks of ports, table and actions. *)
Definition passes (m : fm_msg) (t : Z) (m2 m3 : fm_msg) (args : ActParse.ofp_inst_check_args) (w : fsw) : Prop :=
  found m w = true /\ all_wild m = false /\ bad_flags m = false /\ resolves m t m2 w /\
  exists props, aget (tbl_props w) t = Some props /\ fm_check t m2 (inst_args w props) w = Some (true, m3, args).

(** The message as it is when the command ends, the result, the references to the switch that are left, and the new tables. *)
Record cmd_post (app_arg : Z) (m : fm_msg) (w : fsw) (ret k : Z) (f : FlowTbl.c_switch) : Prop := {
  cp_ok : fsw_ok h (at_ref k (set_fl f w));
  cp_k : 0 <= k <= 1;
  cp_err : ret <> 0 -> FlowTbl.rule_flow_tbls f = FlowTbl.rule_flow_tbls (fs_fl w);
  cp_done : ret = 0 -> k = 0 /\ (taken app_arg <> Some app_arg -> moves (fs_fl w) f) /\ exists t m2 m3 args, passes m t m2 m3 args w;
  cp_run : forall t m2 m3 args, passes m t m2 m3 args w -> exists A f0,
    applied (fm_parms (fm_owner app_arg) m3 args) m3 (FlowTbl.set_app_refs A (fs_fl w)) ret f0 /\
    FlowTbl.ents f = FlowTbl.ents f0 /\ FlowTbl.rule_flow_tbls f = FlowTbl.rule_flow_tbls f0 /\
    FlowTbl.tx f = FlowTbl.tx (fm_forward c m3 ret f0) }.

Lemma fm_find_cases m w : fm_find m w = None \/ fm_find m w = Some (at_ref 1 w).
Proof. unfold fm_find, c_switch_alias_get, c_switch_get. repeat case_match; auto. Qed.

(** One pass of the loop, which is all when the flow is not for every table. *)
Lemma fm_loop_once g app t m props w acts' G M fuel : (forall x, 0 <= g x) -> fsw_ok g w -> 0 < fs_ref w -> 0 <= t < 255 -> table_id (m_flow m) = t ->
  has (fm_flags m) FlowTbl.C_FL_ENT_LOCAL && multi_tables w = false -> is_Some (flapps (fs_fl w) !! app) ->
  (fm_command m = C_OFPC_ADD -> addable app m (fs_fl w) /\ acts_use (of_switch_get_v2p_tbl w) (m_acts m) acts' G M) ->
  exists ok acts args, fm_check t m (inst_args w props) w = Some (ok, set_acts acts m, args) /\
    (if (ok : bool) then exists ret f, applied (fm_parms app (set_acts acts m) args) (set_acts acts m) (fs_fl w) ret f /\
       fm_loop calloc xid c now (S fuel) app t m (inst_args w props) w =
         Some (mk_out ret (fm_code m ret) false (set_acts acts m), set_fl (fm_forward c (set_acts acts m) ret f) w)
     else fm_loop calloc xid c now (S fuel) app t m (inst_args w props) w =
         Some (mk_out (-1) OFPBAC_BAD_GENERIC true (set_acts acts m), set_ref (fs_ref w - 1) w)).
Proof.
  intros Hg O Hr Ht Et Hl Hx Had.
  destruct (fm_check_spec g t m props w acts' G M O Ht (fun E => proj2 (Had E))) as (ok & acts & args & E & _ & _).
  exists ok, acts, args. split; [done|]. cbn [fm_loop]. rewrite E. cbn [mbind option_bind]. destruct ok; cbn [negb].
  2:{ unfold c_switch_put. by rewrite (proj2 (Z.eqb_neq _ 0)) by lia. }
  destruct (fm_apply_spec app (set_acts acts m) args (fs_fl w)) as (ret & f & -> & Hap); [apply O|apply O|done|cbn; lia| |].
  { intros Ha. destruct (Had Ha) as [[A1 A2 A3] _]. by split. }
  exists ret, f. split; [done|]. cbn [mbind option_bind].
  assert (multi_tables (set_fl (fm_forward c (set_acts acts m) ret f) w) = multi_tables w) as ->.
  { destruct Hap as [_ [_ _ _ _ E4 E5] _ _]. unfold multi_tables, fm_forward. case_match; cbn; by rewrite E4, E5. }
  change (fm_flags (set_acts acts m)) with (fm_flags m). by rewrite <- andb_assoc, Hl, andb_false_r.
Qed.

Lemma fsw_ok_upd g g' w k f : fsw_ok g w -> full g' (fs_sw (set_fl f w)) -> FlowTbl.ofp_ctors f = true -> 0 <= fs_ref w + k ->
  fsw_ok g' (at_ref k (set_fl f w)).
Proof. intros [? ? ? ? ? ? ? ?] G Hc Hk. by split. Qed.

Lemma at_same w : at_ref 0 (set_fl (fs_fl w) w) = w.
Proof. destruct w as [[] ? ? ? ? ? ? ?]. cbn. by rewrite Z.add_0_r. Qed.

Lemma refused_post app_arg m w ret k f : fsw_ok h (at_ref k (set_fl f w)) -> 0 <= k <= 1 -> ret <> 0 ->
  FlowTbl.rule_flow_tbls f = FlowTbl.rule_flow_tbls (fs_fl w) -> (forall t m2 m3 args, ~ passes m t m2 m3 args w) -> cmd_post app_arg m w ret k f.
Proof. intros O Hk Hr Ht Hp. split; try done. intros t m2 m3 args P. by destruct (Hp t m2 m3 args). Qed.

(** References taken before and given back after a change of the tables. *)
Lemma moves_held s f A B dA dB : shifted dA (flapps s) A -> moves (FlowTbl.set_app_refs A s) f -> shifted dB (flapps f) B ->
  (forall x, dA x + dB x = 0) -> moves s (FlowTbl.set_app_refs B f).
Proof.
  intros HA [M1 M2 M3 M4 M5 M6] HB HZ. split; try done; cbn.
  - eapply shifted_ext; [|eapply shifted_trans; [exact HA|eapply shifted_trans; [exact M1|exact HB]]]. intros x. cbn. specialize (HZ x). lia.
  - intros x Hx. apply M2. cbn. by rewrite (HA x), Hx.
Qed.

(** The end of a command that was run: [f] are the tables after it, in which it holds its references. *)
Lemma finish_post app_arg m w A f t m2 m3 args ret :
  fsw_ok h w -> shifted (hold app_arg) (flapps (fs_fl w)) A -> full (fun x => h x + hold app_arg x) (fs_sw (at_apps A w)) ->
  passes m t m2 m3 args w -> (forall t' m2' m3' args', passes m t' m2' m3' args' w -> t' = t /\ m2' = m2 /\ m3' = m3 /\ args' = args) ->
  applied (fm_parms (fm_owner app_arg) m3 args) m3 (FlowTbl.set_app_refs A (fs_fl w)) ret f ->
  exists B, (w' ← c_switch_put (set_fl (fm_forward c m3 ret f) (at_ref 1 w)); fm_app_put app_arg (fm_owner app_arg) w') =
      Some (at_ref 0 (set_fl (FlowTbl.set_app_refs B (fm_forward c m3 ret f)) w)) /\
    cmd_post app_arg m w ret 0 (FlowTbl.set_app_refs B (fm_forward c m3 ret f)).
Proof.
  intros O S G P Hp Hap. set (f' := fm_forward c m3 ret f). pose proof (fo_ref _ _ O) as Hr0.
  assert (FlowTbl.ents f' = FlowTbl.ents f /\ FlowTbl.rule_flow_tbls f' = FlowTbl.rule_flow_tbls f /\ flapps f' = flapps f) as (E1 & E2 & E3)
    by (unfold f', fm_forward; by case_match).
  assert (wf f') as W by (unfold f', fm_forward; case_match; [apply wf_send|]; apply Hap).
  assert (moves (FlowTbl.set_app_refs A (fs_fl w)) f') as Mv.
  { eapply moves_trans; [apply Hap|]. unfold f', fm_forward. case_match; [apply moves_send|apply moves_refl]. }
  unfold c_switch_put. rewrite (proj2 (Z.eqb_neq _ 0)) by (cbn; lia). cbn [mbind option_bind].
  destruct (fm_app_put_spec app_arg (set_ref (fs_ref w + 1 - 1) (set_fl f' (at_ref 1 w)))) as (B & EB & GB & SB).
  { apply (full_flow _ _ f') in G; try done. intros x. pose proof (hold_nonneg app_arg x). specialize (Hh x). lia. }
  exists B. split; [cbn in EB |- *; by replace (fs_ref w + 0) with (fs_ref w + 1 - 1) by lia|].
  assert (FlowTbl.ofp_ctors f' = true) as Hc by (rewrite (mv_ctors _ _ Mv); apply O).
  split; [by eapply fsw_ok_upd; [exact O|exact GB|done|lia]|lia| | |].
  - intros Hne. cbn. rewrite E2. by apply (al_err _ _ _ _ _ Hap).
  - intros ->. split_and!; [done| |by exists t, m2, m3, args]. intros Hta. eapply moves_held; [exact S|exact Mv|exact SB|].
    intros x. cbn. destruct (Z.eqb_spec (fm_owner app_arg) app_arg) as [E|E]; [|lia]. unfold fm_owner, hold in *.
    destruct (taken app_arg) as [v|]; [|done]. cbn in E. congruence.
  - intros t' m2' m3' args' (-> & -> & -> & ->)%Hp. by exists A, f.
Qed.

(** A message a command can run with: its table is one of the 255, its owner is registered, it is not a local flow for several tables, and
    what an addition needs holds of the message that the tables get. *)
Record fm_ok (app_arg : Z) (m : fm_msg) (w : fsw) (acts' G M : list Z) : Prop := {
  fk_owner : is_Some (flapps (fs_fl w) !! fm_owner app_arg);
  fk_table : 0 <= table_id (m_flow m) < 255;
  fk_local : has (fm_flags m) FlowTbl.C_FL_ENT_LOCAL && multi_tables w = false;
  fk_add : forall t m2, resolves m t m2 w -> fm_command m = C_OFPC_ADD ->
    addable (fm_owner app_arg) m2 (fs_fl w) /\ acts_use (of_switch_get_v2p_tbl w) (m_acts m) acts' G M }.

(** What the command ends with. *)
Notation answer app_arg m ret code := (return_app_fl_err app_flags app_arg (fm_bytes m) ret OFPET_FLOW_MOD_FAILED code (negb (no_ack m))).
Notation wrk := (c_app_flow_mod_wrk_command app_flags vty_app calloc xid c now).

(** After the application was found. *)
Lemma wrk_tail app_arg m w A acts' G M r fl mask :
  fsw_ok h w -> fm_ok app_arg m w acts' G M -> found m w = true -> all_wild m = false -> bad_flags m = false ->
  shifted (hold app_arg) (flapps (fs_fl w)) A -> full (fun x => h x + hold app_arg x) (fs_sw (at_apps A w)) ->
  fm_normalize m = Some (r, set_match fl mask m) -> 0 <= r -> table_id fl = table_id (m_flow m) ->
  let w1 := at_apps A (at_ref 1 w) in
  exists ret code m' k f, ('(table, m) ← fm_table (set_match fl mask m) w1; props ← aget (tbl_props w1) table;
      '(out, w2) ← fm_loop calloc xid c now 256 (fm_owner app_arg) table m (inst_args w1 props) w1;
      w3 ← (if o_put out then Some w2 else w3 ← c_switch_put w2; fm_app_put app_arg (fm_owner app_arg) w3);
      Some (answer app_arg (o_msg out) (o_ret out) (o_code out), w3)) = Some (answer app_arg m' ret code, at_ref k (set_fl f w)) /\
    cmd_post app_arg m w ret k f /\ m_tail m' = m_tail m.
Proof.
  intros O K Hf Hw Hb S Gf En Hr Et w1. pose proof (fo_ref _ _ O) as Hr0.
  assert (forall x, 0 <= h x + hold app_arg x) as Hg by (intros x; pose proof (hold_nonneg app_arg x); specialize (Hh x); lia).
  assert (fsw_ok (fun x => h x + hold app_arg x) w1) as O1 by (apply (fsw_ok_upd h _ w 1 (FlowTbl.set_app_refs A (fs_fl w))); [done|done|apply O|lia]).
  destruct (fm_table_spec _ (set_match fl mask m) w1 O1) as (t & E1 & Ht); [cbn; rewrite Et; apply K|].
  rewrite E1. cbn [mbind option_bind]. set (m2 := set_match (set_table_id t fl) mask m) in *.
  change (set_match _ _ (set_match fl mask m)) with m2 in E1 |- *.
  destruct (aget_lt (tbl_props w) t) as (props & Ep & _); [rewrite (fo_props _ _ O); lia|]. change (tbl_props w1) with (tbl_props w). rewrite Ep.
  cbn [mbind option_bind]. assert (resolves m t m2 w) as Hres by by exists r, (set_match fl mask m).
  destruct (fm_loop_once _ (fm_owner app_arg) t m2 props w1 acts' G M 255 Hg O1) as (ok & acts & args & Ec & Hrun);
    [cbn; lia|exact Ht|reflexivity|apply K| | |].
  { cbn. rewrite (shifted_dom _ _ _ _ S). apply K. }
  { intros Ha. destruct (fk_add _ _ _ _ _ _ K t m2 Hres Ha) as [[A1 A2 A3] A4]. by split. }
  change (fm_check t m2 (inst_args w props) w = Some (ok, set_acts acts m2, args)) in Ec.
  assert (forall t' m2' m3' args', passes m t' m2' m3' args' w -> t' = t /\ m2' = m2 /\ Some (true, m3', args') = Some (ok, set_acts acts m2, args)) as Hp.
  { intros t' m2' m3' args' (_ & _ & _ & (r' & m1' & En' & _ & Et') & props' & Ep' & Ec'). rewrite En in En'. injection En' as <- <-.
    change (fm_table (set_match fl mask m) w = Some (t, m2)) in E1. rewrite E1 in Et'. injection Et' as <- <-.
    rewrite Ep in Ep'. injection Ep' as <-. by rewrite Ec in Ec'. }
  destruct ok.
  - destruct Hrun as (ret & f & Hap & ->). cbn [mbind option_bind o_put o_msg o_ret o_code].
    destruct (finish_post app_arg m w A f t m2 (set_acts acts m2) args ret O S Gf) as (B & EB & P); [| |done|].
    { split_and!; try done. by exists props. }
    { intros t' m2' m3' args' (-> & -> & [= -> ->])%Hp. done. }
    eexists ret, _, (set_acts acts m2), 0, _. split; [|split; [exact P|done]].
    change (set_fl (fm_forward c (set_acts acts m2) ret f) w1) with (set_fl (fm_forward c (set_acts acts m2) ret f) (at_ref 1 w)). by rewrite EB.
  - rewrite Hrun. cbn [mbind option_bind o_put o_msg o_ret o_code]. eexists (-1), _, (set_acts acts m2), 0, (FlowTbl.set_app_refs A (fs_fl w)).
    split; [cbn; by replace (fs_ref w + 1 - 1) with (fs_ref w + 0) by lia|]. split; [|done]. apply refused_post; try done.
    + eapply fsw_ok_upd; [exact O| |apply O|lia]. eapply full_mono; [|exact Gf]. intros x. pose proof (hold_nonneg app_arg x). specialize (Hh x). cbn. lia.
    + by intros t' m2' m3' args' (_ & _ & ?)%Hp.
Qed.

Lemma wrk_run app_arg b m w acts' G M : fsw_ok h w -> read_fm b = Some m -> fm_ok app_arg m w acts' G M ->
  exists ret code m' k f, wrk app_arg b w = Some (answer app_arg m' ret code, at_ref k (set_fl f w)) /\ cmd_post app_arg m w ret k f /\ m_tail m' = m_tail m.
Proof.
  intros O Hm K. pose proof (fo_ref _ _ O) as Hr0. unfold c_app_flow_mod_wrk_command. rewrite Hm. cbn [mbind option_bind].
  assert (forall ret code, ret <> 0 -> (forall t m2 m3 args, ~ passes m t m2 m3 args w) ->
    exists ret' code' m' k f, Some (answer app_arg m ret code, w) = Some (answer app_arg m' ret' code', at_ref k (set_fl f w)) /\
      cmd_post app_arg m w ret' k f /\ m_tail m' = m_tail m) as Hsame.
  { intros ret code Hne Hp. exists ret, code, m, 0, (fs_fl w). split; [by rewrite at_same|]. split; [|done].
    apply refused_post; try done. by rewrite at_same. }
  destruct (all_wild m) eqn:Ew. { apply Hsame; [done|]. intros t m2 m3 args (_ & E & _). congruence. }
  destruct (fm_find_cases m w) as [E|E]; rewrite E.
  { apply Hsame; [done|]. unfold passes, found. rewrite E. intros t m2 m3 args (Hf & _). by rewrite bool_decide_eq_true, is_Some_alt in Hf. }
  assert (found m w = true) as Hf by (unfold found; rewrite E; by apply bool_decide_eq_true_2).
  destruct (fm_app_spec app_arg (at_ref 1 w)) as (A & -> & S & Gf); [|apply K|].
  { rewrite <- (set_fl_same w) at 2. eapply fsw_ok_upd; [exact O|rewrite set_fl_same; apply O|apply O|lia]. }
  cbn [mbind option_bind].
  assert (forall m1 ret code, m_tail m1 = m_tail m -> ret <> 0 -> (forall t m2 m3 args, ~ passes m t m2 m3 args w) ->
    exists ret' code' m' k f, Some (answer app_arg m1 ret code, at_apps A (at_ref 1 w)) = Some (answer app_arg m' ret' code', at_ref k (set_fl f w)) /\
      cmd_post app_arg m w ret' k f /\ m_tail m' = m_tail m) as Hleft.
  { intros m1 ret code Hm1 Hne Hp. exists ret, code, m1, 1, (FlowTbl.set_app_refs A (fs_fl w)). split; [done|]. split; [|done].
    apply refused_post; try done. eapply fsw_ok_upd; [exact O| |apply O|lia]. eapply full_mono; [|exact Gf].
    intros x. pose proof (hold_nonneg app_arg x). specialize (Hh x). cbn. lia. }
  destruct (bad_flags m) eqn:Eb. { apply Hleft; [done|done|]. intros t m2 m3 args (_ & _ & E' & _). congruence. }
  destruct (fm_normalize_spec m) as (r & fl & mask & En & Et). rewrite En. cbn [mbind option_bind].
  destruct (Z.ltb_spec r 0) as [Hr|Hr].
  { apply Hleft; [done|lia|]. intros t m2 m3 args (_ & _ & _ & (r' & m1 & En' & ? & _) & _). rewrite En in En'. injection En' as <- <-. lia. }
  exact (wrk_tail app_arg m w A acts' G M r fl mask O K Hf Ew Eb S Gf En Hr (Et Hr)).
Qed.

Lemma resolves_shape m t m2 w : fsw_ok h w -> resolves m t m2 w -> 0 <= table_id (m_flow m) < 255 ->
  0 <= t < 255 /\ table_id (m_flow m2) = t /\ m_acts m2 = m_acts m /\ m_tail m2 = m_tail m.
Proof.
  intros O (r & m1 & En & Hr & Et) Hi. destruct (fm_normalize_spec m) as (r' & fl & mask & En' & Hk). rewrite En in En'. injection En' as <- ->.
  destruct (fm_table_spec h (set_match fl mask m) w O) as (t' & Et' & Ht); [by cbn; rewrite Hk|]. rewrite Et in Et'. by injection Et' as -> ->.
Qed.

End STEPS.
