(* ===== verification/FlowCmdThm.v ===== *)
(** * Commands on flows: what they guarantee

    A command completes and keeps the invariant of the switch, an accepted addition leaves exactly the flow that was asked for, and a new flow that
    passes the checks is accepted and sent. *)
From stdpp Require Import base list gmap.
From Stdlib Require Import ZArith Lia.
From S2P Require Import Prelude Bytes Flow Ha FlowTbl FlowTblSpec FlowTblAdd FlowTblDel GroupTbl GroupTblSpec ActParse FlowCmd FlowCmdSpec.
Import FlowCmd.
Import Bytes Flow.
#[local] Open Scope Z_scope.

(** The application learns that its command was done: no refusal, and no error from the call. *)
Definition accepted (x : Z * reply) : bool := (x.1 =? 0) && match x.2 with Refusal _ _ _ => false | _ => true end.

Lemma accepted_answer app_flags app b ret type code ack :
  accepted (return_app_fl_err app_flags app b ret type code ack) = (ret =? 0).
Proof.
  unfold return_app_fl_err, return_app_err, accepted. destruct ack; [|by rewrite andb_true_r]. destruct (is_remote app_flags app); [|by rewrite andb_true_r].
  by destruct (ret =? 0).
Qed.

Section THM.
Context `{OfpLaws}.
Context (app_flags : Z -> Z) (vty_app : option Z) (calloc xid : FlowTbl.c_switch -> Z) (c : Ha.ctrl_hdl) (now : Z).

Notation wrk := (c_app_flow_mod_wrk_command app_flags vty_app calloc xid c now).
Notation ready := (fm_ok app_flags vty_app).
Notation owner := (fm_owner app_flags vty_app).


(** C5: when an addition that is not direct is accepted, the table it names, as the switch numbers it, holds an entry with the normalised match and
    the priority of the message, which the application owns; unless the flow is local the entry has the actions of the message with their tables translated,
    it refers to exactly the groups and meters that these actions use, and all of them are there. *)
Theorem flow_command_adds h app_arg b m w acts' G M x w' : (forall s, FlowTbl.ents s !! calloc s = None) -> (forall y, 0 <= h y) ->
  fsw_ok h w -> read_fm b = Some m -> ready app_arg m w acts' G M -> is_Some validate_acts -> debug_flag w = false ->
  fm_command m = C_OFPC_ADD -> has (fm_flags m) FlowTbl.C_FL_ENT_NOCACHE = false -> has (fm_flags m) FlowTbl.C_FL_ENT_LOCAL = false ->
  wrk app_arg b w = Some (x, w') -> accepted x = true ->
  exists t m2 tbl a e, resolves m t m2 w /\ FlowTbl.rule_flow_tbls (fs_fl w') !! Z.to_nat t = Some tbl /\ a ∈ FlowTbl.rule_fl_tbl tbl /\
    FlowTbl.ents (fs_fl w') !! a = Some e /\ FlowTbl.strict_key e (m_flow m2) (m_mask m2) (fm_priority m) = true /\
    owner app_arg ∈ FlowTbl.app_owner_list e /\ FlowTbl.actions e = acts' /\ same_set (FlowTbl.groups e) G /\ same_set (FlowTbl.meters e) M /\
    Forall (fun g => is_Some (GroupTbl.groups (fs_sw w') !! g)) (FlowTbl.groups e) /\
    Forall (fun g => is_Some (GroupTbl.meters (fs_sw w') !! g)) (FlowTbl.meters e).
Proof.
  intros Hc Hh O Hm K Hv Hd Ha Hn Hl Ex Hacc.
  destruct (wrk_run app_flags vty_app calloc xid c now Hc h Hh app_arg b m w acts' G M O Hm K) as (ret & code & m' & k & f & Ew & P & _).
  rewrite Ew in Ex. injection Ex as <- <-. rewrite accepted_answer in Hacc. apply Z.eqb_eq in Hacc as ->.
  destruct (cp_done _ _ _ _ _ _ _ _ _ _ _ _ P eq_refl) as (_ & _ & t & m2 & m3 & args & Hp).
  destruct (cp_run _ _ _ _ _ _ _ _ _ _ _ _ P _ _ _ _ Hp) as (A & f0 & Hap & E1 & E2 & _).
  destruct Hp as (_ & _ & _ & Hres & props & Ep & Ec). destruct (resolves_shape h m t m2 w O Hres (fk_table _ _ _ _ _ _ _ _ K)) as (Ht & Etb & Eac & Eta).
  destruct (fm_check_spec h t m2 props w acts' G M O Ht) as (ok & acts & args' & Ec' & [C1 C2] & Hu).
  { intros _. rewrite Eac. by apply (fk_add _ _ _ _ _ _ _ _ K t m2). }
  rewrite Ec in Ec'. injection Ec' as <- -> <-. assert (forall o n, fld (m_tail m2) o n = fld (m_tail m) o n) as Ef by (intros; by rewrite Eta).
  destruct Hu as [-> [Hg Hmm]]; try done. { unfold fm_command in *. by rewrite Ef. }
  destruct (al_add _ _ _ _ _ _ _ _ Hap) as [_ _ _ Hok _].
  { unfold fm_command in *. cbn. by rewrite Ef. }
  { unfold fm_flags in *. cbn. by rewrite Ef. }
  destruct (Hok eq_refl) as (tbl & a & e & B1 & B2 & B3 & B4 & B5 & B6 & _). cbn in B1, B4, B5, B6. rewrite Etb in B1.
  destruct B6 as (B6 & B7 & B8). { unfold fm_flags in *. rewrite has_lor_other by done. cbn. by rewrite Ef. }
  exists t, m2, tbl, a, e. cbn. rewrite E1, E2, B7, B8. split_and!; try done. unfold fm_priority in *. by rewrite <- Ef.
Qed.

(** A flow that should outlive this controller. *)
Definition lasting (m : fm_msg) : bool := has (fm_flags m) FlowTbl.C_FL_ENT_STATIC || has (fm_flags m) FlowTbl.C_FL_ENT_RESIDUAL.

(** C6: a flow that passes the checks and that no entry has yet is accepted: the groups and meters the checker found are not missed by the tables.
    The switch gets it if it is for the switch and this controller is its master; then, if it should outlive a controller, the master tells its peer, with
    the message as the switch got it. *)
Theorem flow_command_accepts h app_arg b m w acts' G M t m2 m3 args : (forall s, FlowTbl.ents s !! calloc s = None) -> (forall y, 0 <= h y) ->
  fsw_ok h w -> read_fm b = Some m -> ready app_arg m w acts' G M ->
  fm_command m = C_OFPC_ADD -> has (fm_flags m) FlowTbl.C_FL_ENT_NOCACHE = false -> passes m t m2 m3 args w ->
  FlowTbl.c_flow_mod_validate_parms (fs_fl w) (fm_req (owner app_arg) m3) = true ->
  (forall a e, in_tables (fs_fl w) a -> FlowTbl.ents (fs_fl w) !! a = Some e -> FlowTbl.strict_key e (m_flow m2) (m_mask m2) (fm_priority m) = false) ->
  let p := fm_parms (owner app_arg) m3 args in
  exists x w', wrk app_arg b w = Some (x, w') /\ accepted x = true /\
    FlowTbl.tx (fs_fl w') = FlowTbl.tx (fs_fl w) ++
      (if FlowTbl.FL_NEED_HW_SYNC c p then add_msgs c (added now true p (fs_fl w)) (fm_buffer_id m) false else []) ++
      (if lasting m && Ha.c_ha_master c then [FlowTbl.HaCmd (fm_bytes m3)] else []).
Proof.
  intros Hc Hh O Hm K Ha Hn Hp Hv Hno p.
  destruct (wrk_run app_flags vty_app calloc xid c now Hc h Hh app_arg b m w acts' G M O Hm K) as (ret & code & m' & k & f & Ew & P & _).
  destruct (cp_run _ _ _ _ _ _ _ _ _ _ _ _ P _ _ _ _ Hp) as (A & f0 & Hap & _ & _ & Etx). eexists _, _. split; [exact Ew|].
  destruct Hp as (_ & _ & _ & Hres & props & Ep & Ec). destruct (resolves_shape h m t m2 w O Hres (fk_table _ _ _ _ _ _ _ _ K)) as (Ht & Etb & Eac & Eta).
  destruct (fm_check_spec h t m2 props w acts' G M O Ht) as (ok & acts & args' & Ec' & [C1 C2] & _).
  { intros _. rewrite Eac. by apply (fk_add _ _ _ _ _ _ _ _ K t m2). }
  rewrite Ec in Ec'. injection Ec' as <- -> <-. set (m3 := set_acts acts m2) in *.
  assert (fm_command m3 = fm_command m /\ fm_flags m3 = fm_flags m /\ fm_priority m3 = fm_priority m /\ fm_buffer_id m3 = fm_buffer_id m) as (Q1 & Q2 & Q3 & Q4)
    by (unfold fm_command, fm_flags, fm_priority, fm_buffer_id; subst m3; cbn; by rewrite Eta).
  destruct (al_add _ _ _ _ _ _ _ _ Hap) as [_ _ _ _ Hnew]; [by rewrite Q1|by rewrite Q2|].
  destruct Hnew as [-> Ht0]; [done|by cbn; rewrite Q3| | |].
  { intros (g & Hg & Hz). cbn in Hg. rewrite Forall_forall in C1. apply C1, (gw_grp _ _ (fo_full _ _ O)) in Hg as [? Hg]. cbn in Hz. congruence. }
  { intros (g & Hg & Hz). cbn in Hg. rewrite Forall_forall in C2. apply C2, (gw_meter _ _ (fo_full _ _ O)) in Hg as [? Hg]. cbn in Hz. congruence. }
  rewrite accepted_answer. split; [done|]. change (fs_fl (set_ref _ (set_fl f w))) with f. rewrite Etx, app_assoc. rewrite <- Q4. fold p in Ht0.
  change (FlowTbl.tx f0 = FlowTbl.tx (fs_fl w) ++ (if FlowTbl.FL_NEED_HW_SYNC c p then add_msgs c (added now true p (fs_fl w)) (fm_buffer_id m3) false else [])) in Ht0.
  rewrite <- Ht0. unfold fm_forward, lasting. rewrite Q2, Hn. change (0 =? 0) with true. cbn [negb]. rewrite !andb_true_r.
  destruct (_ && Ha.c_ha_master c); [done|by rewrite app_nil_r].
Qed.

End THM.

(** ** Flows of applications inside the controller *)

Section APPS.
Context (calloc xid : FlowTbl.c_switch -> Z) (c : Ha.ctrl_hdl) (now : Z).

Notation at_ref k w := (set_ref (fs_ref w + k) w).

(** The operation runs while the application is held; afterwards all references are as before, but for the entries. *)
Lemma as_app_spec h a run w (P : Z -> FlowTbl.c_switch -> FlowTbl.c_switch -> Prop) : (forall x, 0 <= h x) -> fsw_ok h w -> is_Some (flapps (fs_fl w) !! a) ->
  (forall A, shifted (fun y => own y a) (flapps (fs_fl w)) A -> wf (FlowTbl.set_app_refs A (fs_fl w)) ->
     exists r f, run a (FlowTbl.set_app_refs A (fs_fl w)) = Some (r, f) /\ wf f /\ moves (FlowTbl.set_app_refs A (fs_fl w)) f /\
       P r (FlowTbl.set_app_refs A (fs_fl w)) f) ->
  exists r A B f, as_app (Some a) run (at_ref 1 w) = Some (r, at_ref 0 (set_fl (FlowTbl.set_app_refs B f) w)) /\
    fsw_ok h (at_ref 0 (set_fl (FlowTbl.set_app_refs B f) w)) /\ moves (fs_fl w) (FlowTbl.set_app_refs B f) /\ P r (FlowTbl.set_app_refs A (fs_fl w)) f.
Proof.
  intros Hh O Hx Hrun. pose proof (fo_ref _ _ O) as Hr0. destruct (full_ref h (fs_sw w) a (fo_full _ _ O) Hx) as (A & E1 & S1 & G1).
  destruct (Hrun A S1) as (r & f & Er & W & Mv & HP); [apply G1|]. unfold as_app. change (fs_sw (at_ref 1 w)) with (fs_sw w). rewrite E1. cbn [mbind option_bind].
  change (GroupTbl.sw_fl (with_apps A (fs_sw w))) with (FlowTbl.set_app_refs A (fs_fl w)). rewrite Er. cbn [mbind option_bind].
  apply (full_flow _ _ f) in G1; [|intros x; pose proof (own_range x a); specialize (Hh x); lia|done|done].
  destruct (full_put h _ a Hh G1) as (B & -> & S2 & G2). cbn [mbind option_bind]. unfold c_switch_put.
  rewrite (proj2 (Z.eqb_neq _ 0)) by (cbn; lia). cbn [mbind option_bind]. exists r, A, B, f.
  split_and!; [cbn; by replace (fs_ref w + 0) with (fs_ref w + 1 - 1) by lia| | |done].
  - eapply fsw_ok_upd; [exact O|exact G2|cbn; rewrite (mv_ctors _ _ Mv); apply O|lia].
  - eapply moves_held; [exact S1|exact Mv|exact S2|]. intros x. cbn. lia.
Qed.

(** An application inside the controller adds a flow to a switch it has or names: the invariant is kept and no reference is left behind; on success the
    table holds an entry with the match and priority of the call, which the application owns, and on an error no table has changed. *)
Theorem app_flow_add h a given dpid fl mask buf acts itimeo htimeo prio flags w :
  let p := FlowTbl.mk_parms a fl mask acts buf prio itimeo htimeo flags 0 0 [] [] in
  (forall s, FlowTbl.ents s !! calloc s = None) -> (forall x, 0 <= h x) -> fsw_ok h w -> is_Some (flapps (fs_fl w) !! a) ->
  given || (dpid =? GroupTbl.datapath_id (fs_sw w)) = true -> has flags FlowTbl.C_FL_ENT_NOCACHE = false -> 0 <= table_id fl ->
  __of_match_flows fl mask fl = true -> fresh_cookie (fs_fl w) p ->
  (forall b e, in_tables (fs_fl w) b -> FlowTbl.ents (fs_fl w) !! b = Some e -> FlowTbl.strict_key e fl mask prio = true -> relocks e p = false) ->
  exists r f, mul_app_send_flow_add calloc xid c now (Some a) given dpid fl mask buf acts itimeo htimeo prio flags w = Some (r, at_ref 0 (set_fl f w)) /\
    fsw_ok h (at_ref 0 (set_fl f w)) /\ moves (fs_fl w) f /\
    if r =? 0 then exists tbl b e, FlowTbl.rule_flow_tbls f !! Z.to_nat (table_id fl) = Some tbl /\ b ∈ FlowTbl.rule_fl_tbl tbl /\
        FlowTbl.ents f !! b = Some e /\ FlowTbl.strict_key e fl mask prio = true /\ a ∈ FlowTbl.app_owner_list e
    else FlowTbl.rule_flow_tbls f = FlowTbl.rule_flow_tbls (fs_fl w).
Proof.
  intros p Hc Hh O Hx Hsw Hn Ht Hs Hk Hl.
  destruct (as_app_spec h a (fun a s => FlowTbl.c_switch_flow_add c now (xid s) (calloc s) (FlowTbl.mk_parms a fl mask acts buf prio itimeo htimeo flags 0 0 [] []) s) w
    (fun r s f => add_post c now (calloc s) p s r f) Hh O Hx) as (r & A & B & f & E & O' & Mv & P).
  { intros A SA W. destruct (flow_add_run c now (xid (FlowTbl.set_app_refs A (fs_fl w))) (calloc (FlowTbl.set_app_refs A (fs_fl w))) p _ W (Hc _)) as (r & f & E & P); try done.
    - cbn. by rewrite (shifted_dom _ _ _ _ SA).
    - apply O.
    - exists r, f. destruct P as [P1 P2 P3 P4 P5]. by split_and!. }
  exists r, (FlowTbl.set_app_refs B f). split_and!; [|done|done|].
  - unfold mul_app_send_flow_add, sw_of, c_switch_get. destruct given; cbn in Hsw; rewrite ?Hsw, Hn; exact E.
  - destruct (Z.eqb_spec r 0) as [->|Hne]; [|by apply (ap_err _ _ _ _ _ _ _ P)].
    destruct (ap_ok _ _ _ _ _ _ _ P eq_refl) as (tbl & b & e & ? & ? & ? & ? & ? & _). by exists tbl, b, e.
Qed.

(** C38: deletion by an application inside the controller looks for the priority with its bytes swapped: when the switch has no entry of that
    priority, the flow that was added with the same arguments is not found, whatever it is. *)
Theorem app_flow_del_swapped h a given dpid fl mask prio flags w :
  (forall x, 0 <= h x) -> fsw_ok h w -> is_Some (flapps (fs_fl w) !! a) -> given || (dpid =? GroupTbl.datapath_id (fs_sw w)) = true ->
  has flags FlowTbl.C_FL_ENT_NOCACHE = false -> 0 <= table_id fl ->
  (forall b e, in_tables (fs_fl w) b -> FlowTbl.ents (fs_fl w) !! b = Some e -> FlowTbl.FL_PRIO e <> htons prio) ->
  exists f, mul_app_send_flow_del c (Some a) given dpid fl mask prio flags w = Some (-1, at_ref 0 (set_fl f w)) /\
    FlowTbl.ents f = FlowTbl.ents (fs_fl w) /\ FlowTbl.rule_flow_tbls f = FlowTbl.rule_flow_tbls (fs_fl w) /\ FlowTbl.tx f = FlowTbl.tx (fs_fl w).
Proof.
  intros Hh O Hx Hsw Hn Ht Hno.
  destruct (as_app_spec h a (fun a s => FlowTbl.c_switch_flow_del c (FlowTbl.mk_parms a fl mask [] 0 (htons prio) 0 0 flags 0 0 [] []) s) w
    (fun r s f => r = -1 /\ f = s) Hh O Hx) as (r & A & B & f & E & _ & _ & -> & ->).
  { intros A SA W. destruct (flow_del_run c (FlowTbl.mk_parms a fl mask [] 0 (htons prio) 0 0 flags 0 0 [] []) _ W) as (r & f & E & W' & Mv & Hr); [apply O|done|].
    exists r, f. destruct Hr as [(-> & -> & _)|(-> & b & e & (tbl & T1 & T2 & T3 & T4) & _)]; [done|]. exfalso.
    apply (Hno b e); [by eexists _, tbl|done|]. unfold del_match in T4. breflect. done. }
  exists (FlowTbl.set_app_refs B (FlowTbl.set_app_refs A (fs_fl w))). split; [|done]. unfold mul_app_send_flow_del, sw_of, c_switch_get. destruct given; cbn in Hsw; rewrite ?Hsw, Hn; exact E.
Qed.

End APPS.
