(* ===== verification/FlowCmdAct.v ===== *)
(** * Commands on flows: OpenFlow 1.3 and 1.4

    The checker of instructions and the normalisation of matches of these versions keep the laws that commands rely on. *)
From stdpp Require Import base list gmap.
From Stdlib Require Import ZArith Lia.
From S2P Require Import Prelude Bytes Flow FlowNormSpec FlowTbl GroupTbl Oxm Act ActParse ActSpec ActCheck ActThm FlowCmd FlowCmdSpec.
Import FlowCmd.
Import Bytes Flow Act ActParse ActSpec ActCheck ActThm.
#[local] Open Scope Z_scope.

(** ** The groups and meters of instructions *)

Definition act_groups (a : action) : list Z := match a with AId t g => if t =? OFPAT131_GROUP then [g] else [] | _ => [] end.
Definition inst_groups (i : inst) : list Z := match i with IActs _ acts => acts ≫= act_groups | _ => [] end.
Definition inst_meters (i : inst) : list Z := match i with IMeter m => [m] | _ => [] end.

(** The instruction with its table translated. *)
Definition inst_to (v2p : Z -> option Z) (i i' : inst) : Prop :=
  match i with IGoto t => exists t', v2p t = Some t' /\ i' = IGoto (u8 t') | _ => i' = i end.

Section TRACK.
Context (w : fsw).

(** The arguments of a command on this switch, with lists of what is there. *)
Record tracks (dp : ofp_inst_parser_arg) (u : ofp_inst_check_args) : Prop := {
  tr_arg : u_arg dp = Some u;
  tr_group : check_add_group u = Some (c_of_fl_group_check_add w);
  tr_meter : check_add_meter u = Some (c_of_fl_meter_check_add w);
  tr_v2p : get_v2p_tbl u = Some (of_switch_get_v2p_tbl w);
  tr_gnodup : NoDup (grp_list u); tr_mnodup : NoDup (meter_list u);
  tr_galive : Forall (fun g => is_Some (GroupTbl.groups (fs_sw w) !! g)) (grp_list u);
  tr_malive : Forall (fun g => is_Some (GroupTbl.meters (fs_sw w) !! g)) (meter_list u) }.

(** The lists grew by these. *)
Definition grew (u u' : ofp_inst_check_args) (G M : list Z) : Prop :=
  (forall g, g ∈ grp_list u' <-> g ∈ grp_list u \/ g ∈ G) /\ (forall m, m ∈ meter_list u' <-> m ∈ meter_list u \/ m ∈ M).

Lemma grew_refl u : grew u u [] [].
Proof. split; intros x; set_solver. Qed.
Lemma grew_trans u u1 u2 G1 M1 G2 M2 : grew u u1 G1 M1 -> grew u1 u2 G2 M2 -> grew u u2 (G1 ++ G2) (M1 ++ M2).
Proof. intros [A1 A2] [B1 B2]. split; intros x; [rewrite B1, A1|rewrite B2, A2]; set_solver. Qed.

(** A step of the walk that uses [G] and [M]. *)
Definition step_ok (dp dp' : ofp_inst_parser_arg) (G M : list Z) : Prop :=
  forall u, tracks dp u -> exists u', tracks dp' u' /\ (res dp' = 0 -> grew u u' G M).

Lemma step_same dp dp' : (forall u, u_arg dp = Some u -> exists u', u_arg dp' = Some u' /\
    (check_add_group u', check_add_meter u', get_v2p_tbl u', grp_list u', meter_list u') =
    (check_add_group u, check_add_meter u, get_v2p_tbl u, grp_list u, meter_list u)) -> step_ok dp dp' [] [].
Proof.
  intros Hs u [T1 T2 T3 T4 T5 T6 T7 T8]. destruct (Hs u T1) as (u' & E & [= E1 E2 E3 E4 E5]). exists u'. split.
  - split; congruence.
  - intros _. unfold grew. rewrite E4, E5. apply grew_refl.
Qed.

Lemma step_uarg dp dp' : u_arg dp' = u_arg dp -> step_ok dp dp' [] [].
Proof. intros E. apply step_same. intros u Hu. exists u. by rewrite E. Qed.

Lemma step_mod dp f : step_ok dp (mod_uflow f dp) [] [].
Proof. apply step_same. intros u Hu. unfold mod_uflow. destruct (mod_fl_flag dp); [|eauto]. cbn. rewrite Hu. cbn. eauto. Qed.

Lemma step_fail dp dp' G M : u_arg dp' = u_arg dp -> res dp' <> 0 -> step_ok dp dp' G M.
Proof. intros E Hr u T. exists u. split; [|done]. destruct T. split; congruence. Qed.

(** ** The checker *)

Lemma add_once_spec id l : NoDup l -> NoDup (add_once id l) /\ forall x, x ∈ add_once id l <-> x ∈ l \/ x = id.
Proof.
  intros Hn. unfold add_once. case_bool_decide as Hin; [split; [done|set_solver]|]. split; [|set_solver].
  apply NoDup_app. split_and!; [done|set_solver|apply NoDup_singleton].
Qed.

(** Outcome of a part of the walk: it has one, and what it found. *)
Definition walked (x : option ofp_inst_parser_arg) (u : ofp_inst_check_args) (G M : list Z) : Prop :=
  exists dp' u', x = Some dp' /\ tracks dp' u' /\ (res dp' = 0 -> grew u u' G M).

Lemma walked_step dp dp' u G M : tracks dp u -> step_ok dp dp' G M -> walked (Some dp') u G M.
Proof. intros T Hs. destruct (Hs u T) as (u' & T' & Hg). by exists dp', u'. Qed.

Lemma chk_group_walked g dp u : tracks dp u -> walked (Some (chk_group g dp)) u [g] [].
Proof.
  intros T. unfold chk_group. destruct (of131_check_action_supported dp OFPAT131_GROUP); cbn [negb]; [|by eapply walked_step, step_fail].
  pose proof T as [T1 T2 T3 T4 T5 T6 T7 T8]. rewrite T1, T2. unfold c_of_fl_group_check_add.
  assert (tracks (fail (set_uarg (Some (set_ca_lists (grp_list u) (meter_list u) u)) dp)) (set_ca_lists (grp_list u) (meter_list u) u)) as Tf by by split.
  destruct (GroupTbl.groups (fs_sw w) !! g) as [e|] eqn:Eg; [|by eexists _, _]. destruct (FlowTbl.has _ _); [by eexists _, _|]. cbn [negb].
  destruct (add_once_spec g (grp_list u) T5) as [An Ai]. set (u' := set_ca_lists _ _ u).
  assert (Forall (fun g => is_Some (GroupTbl.groups (fs_sw w) !! g)) (add_once g (grp_list u))) as Aa.
  { apply Forall_forall. intros x [Hx| ->]%Ai; [by apply (proj1 (Forall_forall _ _) T7)|]. rewrite Eg. eauto. }
  destruct (mod_fl_flag _).
  - exists (set_uarg (Some (set_ca_out (out_port u') g u')) (set_uarg (Some u') dp)), (set_ca_out (out_port u') g u'). split_and!; [done|by split|].
    intros _. split; cbn; [set_solver|set_solver].
  - exists (set_uarg (Some u') dp), u'. split_and!; [done|by split|]. intros _. split; cbn; [set_solver|set_solver].
Qed.

Lemma chk_meter_walked m dp u : tracks dp u -> walked (Some (chk_meter m dp)) u [] [m].
Proof.
  intros T. unfold chk_meter. destruct (inst_meter dp); [by eapply walked_step, step_fail|].
  pose proof T as [T1 T2 T3 T4 T5 T6 T7 T8]. rewrite T1, T3. unfold c_of_fl_meter_check_add.
  assert (tracks (fail (set_uarg (Some (set_ca_lists (grp_list u) (meter_list u) u)) dp)) (set_ca_lists (grp_list u) (meter_list u) u)) as Tf by by split.
  destruct (GroupTbl.meters (fs_sw w) !! m) as [e|] eqn:Eg; [|by eexists _, _]. destruct (FlowTbl.has _ _); [by eexists _, _|].
  destruct (add_once_spec m (meter_list u) T6) as [An Ai].
  assert (Forall (fun g => is_Some (GroupTbl.meters (fs_sw w) !! g)) (add_once m (meter_list u))) as Aa.
  { apply Forall_forall. intros x [Hx| ->]%Ai; [by apply (proj1 (Forall_forall _ _) T8)|]. rewrite Eg. eauto. }
  eexists _, (set_ca_lists (grp_list u) (add_once m (meter_list u)) u). split_and!; [reflexivity|by split|]. intros _. split; cbn; [set_solver|set_solver].
Qed.

Lemma chk_act_walked a dp u : tracks dp u -> walked (chk_act a dp) u (act_groups a) [].
Proof.
  intros T. assert (forall t, walked (Some (chk_other t dp)) u [] []) as Ho.
  { intros t. eapply walked_step; [exact T|]. apply step_uarg. unfold chk_other, count_push. repeat case_match; done. }
  destruct a; cbn [chk_act act_groups]; auto.
  - unfold chk_output. destruct (negb _); [by eapply walked_step, step_uarg|]. rewrite (tr_arg _ _ T). eapply walked_step; [exact T|].
    apply step_same. intros v Hv. rewrite (tr_arg _ _ T) in Hv. injection Hv as <-. eexists. split; [reflexivity|]. by destruct (mod_fl_flag dp), (_ =? _).
  - eapply walked_step; [exact T|]. apply step_uarg. unfold count_push. repeat case_match; done.
  - destruct (_ =? OFPAT131_GROUP); [by apply chk_group_walked|apply Ho].
  - eapply walked_step; [exact T|]. unfold chk_field. repeat case_match; first [by apply step_mod|by apply step_uarg].
Qed.

Lemma chk_acts_stuck n acts dp dp' : chk_acts n acts dp = Some dp' -> res dp <> 0 -> dp' = dp.
Proof. destruct acts; cbn; [congruence|]. intros E Hr. rewrite (proj2 (Z.eqb_neq _ 0) Hr), orb_true_r in E. congruence. Qed.

Lemma chk_acts_walked acts : forall n dp u, tracks dp u -> n + Z.of_nat (length acts) <= OFP_MAX_ACTIONS + 1 ->
  walked (chk_acts n acts dp) u (acts ≫= act_groups) [].
Proof.
  induction acts as [|a acts IH]; intros n dp u T Hn; cbn [chk_acts].
  { exists dp, u. split_and!; [done|done|]. intros _. apply grew_refl. }
  rewrite length_cons in Hn. rewrite (proj2 (Z.ltb_ge _ _)) by lia. cbn [orb].
  destruct (Z.eqb_spec (res dp) 0) as [E|E]; cbn [negb]. 2:{ exists dp, u. by split_and!. }
  destruct (chk_act_walked a dp u T) as (dp1 & u1 & -> & T1 & G1). cbn [mbind option_bind].
  destruct (IH (n + 1) dp1 u1 T1 ltac:(lia)) as (dp2 & u2 & E2 & T2 & G2). exists dp2, u2. split_and!; [done|done|]. intros Hr.
  rewrite bind_cons. change ([] : list Z) with (([] : list Z) ++ []). eapply grew_trans; [apply G1|by apply G2].
  destruct (Z.eq_dec (res dp1) 0) as [|Hne]; [done|]. by rewrite (chk_acts_stuck _ _ _ _ E2 Hne) in Hr.
Qed.

Lemma chk_inst_walked i i2 dp u : tracks dp u -> few_acts i -> inst_to (of_switch_get_v2p_tbl w) i i2 ->
  exists i' dp' u', chk_inst i dp = Some (i', dp') /\ tracks dp' u' /\ (res dp' = 0 -> i' = i2 /\ grew u u' (inst_groups i) (inst_meters i)).
Proof.
  intros T Hf Hto. assert (forall i' dp' G M, walked (Some dp') u G M -> (res dp' = 0 -> i' = i2) ->
    exists i1 dp1 u1, Some (i', dp') = Some (i1, dp1) /\ tracks dp1 u1 /\ (res dp1 = 0 -> i1 = i2 /\ grew u u1 G M)) as Hw.
  { intros i' dp' G M (dp1 & u1 & [= <-] & T1 & G1) Hi. exists i', dp', u1. auto. }
  assert (forall i' dp', u_arg dp' = u_arg dp -> (res dp' = 0 -> i' = i2) -> exists i1 dp1 u1, Some (i', dp') = Some (i1, dp1) /\ tracks dp1 u1 /\
    (res dp1 = 0 -> i1 = i2 /\ grew u u1 [] [])) as Hs.
  { intros i' dp' E Hi. apply Hw; [|done]. by eapply walked_step, step_uarg. }
  assert (forall i' G M, exists i1 dp1 u1, Some (i', fail dp) = Some (i1, dp1) /\ tracks dp1 u1 /\ (res dp1 = 0 -> i1 = i2 /\ grew u u1 G M)) as Hno.
  { intros i' G M. apply Hw; [by eapply walked_step, step_fail|done]. }
  destruct i as [t|m|v mk| |wr acts]; cbn [chk_inst inst_groups inst_meters inst_to] in *.
  - destruct (_ || _); [apply Hno|]. destruct Hto as (t' & Ev & ->). unfold xlate. rewrite (tr_arg _ _ T), (tr_v2p _ _ T), Ev. cbn [fmap option_fmap option_map mbind option_bind].
    apply Hw; [|done]. eapply walked_step; [|apply step_mod]. destruct T. by split.
  - subst i2. apply Hw; [by apply chk_meter_walked|done].
  - subst i2. apply Hs; [by case_match|done].
  - subst i2. apply Hs; [by case_match|done].
  - subst i2. destruct (inst_wr dp); [apply Hno|]. set (dp1 := set_insts _ _ _ _ _ _ _ dp). assert (tracks dp1 u) as T1 by (destruct T; by split).
    destruct (negb (of131_check_inst_supported _ _)); [apply Hw; [by eapply walked_step, step_fail|done]|].
    destruct (chk_acts_walked acts 0 dp1 u T1) as (dp2 & u2 & -> & T2 & G2); [cbn in Hf; lia|]. cbn [mbind option_bind]. apply Hw; [|done]. by exists dp2, u2.
Qed.

Lemma chk_insts_walked l : forall l2 n dp u, tracks dp u -> Forall few_acts l -> Forall2 (inst_to (of_switch_get_v2p_tbl w)) l l2 ->
  n + Z.of_nat (length l) <= OFP_MAX_INSTRUCTIONS + 1 ->
  exists l' dp' u', chk_insts n l dp = Some (l', dp') /\ tracks dp' u' /\ (res dp' = 0 -> l' = l2 /\ grew u u' (l ≫= inst_groups) (l ≫= inst_meters)).
Proof.
  induction l as [|i l IH]; intros l2 n dp u T Hf Hto Hn; cbn [chk_insts].
  { apply Forall2_nil_inv_l in Hto as ->. exists [], dp, u. split_and!; [done|done|]. intros _. split; [done|apply grew_refl]. }
  apply Forall2_cons_inv_l in Hto as (i2 & l3 & Hi & Hto & ->). apply Forall_cons in Hf as [Hfi Hf].
  rewrite length_cons in Hn. rewrite (proj2 (Z.ltb_ge _ _)) by lia. cbn [orb].
  destruct (Z.eqb_spec (res dp) 0) as [E|E]; cbn [negb]. 2:{ exists (i :: l), dp, u. by split_and!. }
  destruct (chk_inst_walked i i2 dp u T Hfi Hi) as (i1 & dp1 & u1 & -> & T1 & G1). cbn [mbind option_bind].
  destruct (IH l3 (n + 1) dp1 u1 T1 Hf Hto ltac:(lia)) as (l' & dp2 & u2 & E2 & T2 & G2). rewrite E2. cbn [mbind option_bind].
  exists (i1 :: l'), dp2, u2. split_and!; [done|done|]. intros Hr. destruct G2 as [-> G2]; [done|]. destruct G1 as [-> G1].
  { destruct (Z.eq_dec (res dp1) 0) as [|Hne]; [done|]. by rewrite (chk_insts_stuck _ _ _ _ _ E2 Hne) in Hr. }
  split; [done|]. rewrite !bind_cons. by eapply grew_trans.
Qed.

End TRACK.

(** ** The laws *)

(** At most seven instructions of at most thirty-three actions each, within the widths of the protocol. *)
Record of131_acts (v2p : Z -> option Z) (acts acts' G M : list Z) (l l' : list inst) : Prop := {
  oa_enc : acts = enc_insts l; oa_to : acts' = enc_insts l'; oa_xlate : Forall2 (inst_to v2p) l l';
  oa_groups : G = l ≫= inst_groups; oa_meters : M = l ≫= inst_meters; oa_ok : Forall inst_enc_ok l; oa_few : Forall few_acts l;
  oa_num : Z.of_nat (length l) <= OFP_MAX_INSTRUCTIONS + 1; oa_len : Z.of_nat (length acts) < 2 ^ 64 }.

Lemma normalize_table fl mask : table_id (of131_flow_normalize fl mask).1.2 = table_id fl.
Proof.
  unfold of131_flow_normalize. case_match; [done|]. unfold norm_l4, norm_arp, norm_ip, norm_mpls, norm_vlan. repeat case_match; simplify_eq/=; done.
Qed.

#[export] Instance of131_laws : @OfpLaws of131_ctors.
Proof.
  refine {| acts_use v2p acts acts' G M := exists l l', of131_acts v2p acts acts' G M l l' |}.
  - intros f fl mask [= <-]. pose proof (normalize_table fl mask) as Ht. destruct (of131_flow_normalize fl mask) as [[r fl'] mask'].
    by exists r, fl', mask'.
  - intros f w props fl mask acts acts' G M [= <-] (l & l' & [-> -> Hx -> -> Hok Hf Hn Hl]).
    pose proof (validate_refines_insts (Some fl) (Some mask) l [] (Some (inst_args w props)) Hok Hl) as E. rewrite app_nil_r in E. cbn beta. rewrite E. clear E.
    set (dp := of_check_inst_parser_pre_proc _). assert (tracks w dp (inst_args w props)) as T by (split; try done; constructor).
    destruct (chk_insts_walked w l l' 0 dp _ T Hf Hx ltac:(lia)) as (l2 & dp' & u' & -> & [T1 T2 T3 T4 T5 T6 T7 T8] & Hg). cbn [mbind option_bind].
    rewrite T1. eexists _, _, _. split_and!; [reflexivity|done|done|]. intros Hr. destruct (Hg Hr) as [-> [G1 G2]]. rewrite app_nil_r.
    split_and!; try done; intros x; [rewrite G1|rewrite G2]; cbn; set_solver.
Defined.

(** Before the handshake nothing is checked. *)
#[export] Instance of_unk_laws : @OfpLaws of_unk_ctors.
Proof. by refine {| acts_use v2p acts acts' G M := True |}. Defined.
