(* ===== verification/FlowCmdBytes.v ===== *)
(** * Commands on flows: the layout of the message *)
From stdpp Require Import base list gmap.
From Stdlib Require Import ZArith Lia.
From S2P Require Import Prelude Bytes Flow OxmSpec GroupCmdSpec FlowCmd.
Import FlowCmd.
Import Bytes Flow.
#[local] Open Scope Z_scope.

Lemma rd_le_mid pre n v post off : off = length pre -> 0 <= v < 256 ^ Z.of_nat n -> rd_le (pre ++ le_bytes n v ++ post) off n = Some v.
Proof.
  intros -> Hv. unfold rd_le. rewrite rd_app_mid by (done || by rewrite le_bytes_length). cbn. by rewrite le_val_le_bytes.
Qed.

(** A field that was read is the bytes at its place, and neighbours are adjacent. *)
Lemma rd_le_at b off n v : is_bytes b -> rd_le b off n = Some v -> le_bytes n v = take n (drop off b).
Proof.
  intros Hb (bs & Er & [= <-])%bind_Some. pose proof (rd_length _ _ _ _ Er) as El. rewrite <- El at 1.
  rewrite le_bytes_le_val by by eapply rd_bytes. unfold rd in Er. case_match; congruence.
Qed.

Lemma rd_at b off n bs : rd b off n = Some bs -> bs = take n (drop off b).
Proof. unfold rd. case_match; congruence. Qed.

Lemma adjacent (b : list Z) o o' n k : o' = (o + n)%nat -> take n (drop o b) ++ take k (drop o' b) = take (n + k) (drop o b).
Proof. intros ->. rewrite <- drop_drop. by rewrite take_take_drop. Qed.

(** A flow with every field within its width. *)
Definition flow_mem (f : flow) : Prop := flow_wf f /\ 0 <= table_id f < 256 /\ length (pad f) = 6%nat.

Lemma flow_ip6_length a : length (ip6_bytes a) = 16%nat.
Proof. unfold ip6_bytes. by rewrite !length_app, !le_bytes_length. Qed.

(** One field of a structure is read, and the next one comes to the front. *)
Ltac mid_side := rewrite ?length_app, ?le_bytes_length, ?flow_ip6_length; cbn [length]; lia.
Ltac read_mid :=
  lazymatch goal with
  | |- mbind _ (rd_le (?p ++ le_bytes ?n ?v ++ ?r) ?o ?n) = _ =>
      rewrite (rd_le_mid p n v r o) by first [assumption|mid_side]; cbn [mbind option_bind]; try rewrite (app_assoc p (le_bytes n v) r)
  | |- mbind _ (rd (?p ++ ?x ++ ?r) ?o ?n) = _ =>
      rewrite (rd_app_mid p x r o n) by mid_side; cbn [mbind option_bind]; try rewrite (app_assoc p x r)
  end.

Lemma rd_ip6_mid pre a post off : off = length pre -> ip6_wf a -> rd_ip6 (pre ++ ip6_bytes a ++ post) off = Some a.
Proof.
  intros -> (H0 & H1 & H2 & H3). unfold rd_ip6, ip6_bytes. rewrite <- !app_assoc. do 4 read_mid. by destruct a.
Qed.

Lemma rd_flow_mid pre f post off : off = length pre -> flow_mem f -> rd_flow (pre ++ flow_bytes f ++ post) off = Some f.
Proof.
  intros -> ([] & Ht & Hp). unfold rd_flow, flow_bytes. rewrite <- !app_assoc. do 12 read_mid.
  do 2 (lazymatch goal with |- mbind _ (rd_ip6 (?p ++ ip6_bytes ?a ++ ?r) ?o) = _ =>
    rewrite (rd_ip6_mid p a r o) by first [assumption|mid_side];
    cbn [mbind option_bind]; try rewrite (app_assoc p (ip6_bytes a) r) end).
  do 5 read_mid. by destruct f.
Qed.

Lemma flow_bytes_length f : flow_mem f -> length (flow_bytes f) = 88%nat.
Proof. intros ([] & _ & Hp). unfold flow_bytes. rewrite !length_app, !le_bytes_length, !flow_ip6_length. lia. Qed.

(** Every field of a structure that was read, as the bytes at its place. *)
Ltac fields_at Hb :=
  repeat match goal with
  | E : Some _ = Some _ |- _ => injection E as <-
  | E : mbind _ _ = Some _ |- _ => apply bind_Some in E as (? & ? & E)
  | E : rd_le _ _ _ = Some _ |- _ => apply (rd_le_at _ _ _ _ Hb) in E
  | E : rd _ _ _ = Some _ |- _ => apply rd_at in E
  end.

Ltac join_fields := repeat match goal with E : le_bytes _ ?x = _ |- context [le_bytes _ ?x] => rewrite E end; subst; repeat rewrite adjacent by lia; done.

Lemma rd_ip6_at b off a : is_bytes b -> rd_ip6 b off = Some a -> ip6_bytes a = take 16 (drop off b).
Proof. intros Hb E. unfold rd_ip6 in E. fields_at Hb. unfold ip6_bytes. cbn [w0 w1 w2 w3]. join_fields. Qed.

Lemma rd_flow_at b off f : is_bytes b -> rd_flow b off = Some f -> flow_bytes f = take 88 (drop off b).
Proof.
  intros Hb E. unfold rd_flow in E. fields_at Hb.
  repeat match goal with E : rd_ip6 _ _ = Some ?a |- _ => apply (rd_ip6_at _ _ _ Hb) in E end. unfold flow_bytes. cbn.
  repeat match goal with E : ip6_bytes ?x = _ |- context [ip6_bytes ?x] => rewrite E end. join_fields.
Qed.

Lemma rd_flow_Some b off : (off + 88 <= length b)%nat -> is_Some (rd_flow b off).
Proof.
  intros Hl. unfold rd_flow, rd_ip6.
  repeat (lazymatch goal with
  | |- is_Some (mbind _ (mbind _ _)) => rewrite option_bind_assoc; unfold compose
  | |- is_Some (mbind _ (rd_le ?b ?o ?n)) => destruct (rd_le_Some b o n) as [? ->]; [lia|]
  | |- is_Some (mbind _ (rd ?b ?o ?n)) => destruct (rd_is_Some b o n) as [? ->]; [lia|] end; cbn [mbind option_bind]). eauto.
Qed.

(** ** The message *)

(** The parts have their sizes, and the header has the length of the message up to [m_rest]. *)
Record fm_mem (m : fm_msg) : Prop := {
  fmm_head : length (m_head m) = 16%nat; fmm_flow : flow_mem (m_flow m); fmm_mask : flow_mem (m_mask m); fmm_tail : length (m_tail m) = 48%nat;
  fmm_len : exists len, rd_le (m_head m) 2 2 = Some len /\ ntohs len = SIZEOF_FLOW_MOD + Z.of_nat (length (m_acts m)) }.

Lemma read_fm_bytes m : fm_mem m -> read_fm (fm_bytes m) = Some m.
Proof.
  intros [Hh Hf Hm Ht (len & El & Hl)]. unfold read_fm, fm_bytes.
  rewrite (rd_le_app (m_head m)) by lia. rewrite El. cbn [mbind option_bind]. rewrite Hl. rewrite (proj2 (Z.ltb_ge _ _)) by lia.
  replace (Z.to_nat (SIZEOF_FLOW_MOD + Z.of_nat (length (m_acts m)) - SIZEOF_FLOW_MOD)) with (length (m_acts m)) by lia.
  rewrite rd_here by done. cbn [mbind option_bind]. rewrite (rd_flow_mid (m_head m) (m_flow m) _ 16) by first [done|lia]. cbn [mbind option_bind].
  rewrite (app_assoc (m_head m)). rewrite (rd_flow_mid (m_head m ++ _) (m_mask m) _ 104) by first [done|rewrite length_app, flow_bytes_length by done; lia]. cbn [mbind option_bind].
  rewrite (app_assoc (m_head m ++ _)). assert (length ((m_head m ++ flow_bytes (m_flow m)) ++ flow_bytes (m_mask m)) = 192%nat) as E1
    by (rewrite !length_app, !flow_bytes_length by done; lia).
  rewrite (rd_app_mid _ (m_tail m) _ 192 48) by (by rewrite ?E1). cbn [mbind option_bind]. rewrite (app_assoc _ (m_tail m)).
  rewrite (rd_app_mid _ (m_acts m) _ 240 _) by (rewrite ?length_app; rewrite ?length_app in E1; lia). cbn [mbind option_bind]. rewrite (app_assoc _ (m_acts m)), drop_app_length'.
  - by destruct m.
  - rewrite !length_app. rewrite !length_app in E1. lia.
Qed.

Lemma fm_bytes_read b len : is_bytes b -> rd_le b 2 2 = Some len -> SIZEOF_FLOW_MOD <= ntohs len <= Z.of_nat (length b) ->
  exists m, read_fm b = Some m /\ fm_bytes m = b.
Proof.
  intros Hb El Hl. unfold SIZEOF_FLOW_MOD in *. set (n := Z.to_nat (ntohs len - 240)).
  destruct (rd_is_Some b 0 16) as [hd E1]; [lia|]. destruct (rd_flow_Some b 16) as [fl E2]; [lia|]. destruct (rd_flow_Some b 104) as [mk E3]; [lia|].
  destruct (rd_is_Some b 192 48) as [tl E4]; [lia|]. destruct (rd_is_Some b 240 n) as [ac E5]; [lia|].
  exists (mk_fm hd fl mk tl ac (drop (240 + n) b)). split.
  - unfold read_fm. rewrite El. cbn [mbind option_bind]. rewrite (proj2 (Z.ltb_ge _ _)) by (unfold SIZEOF_FLOW_MOD; lia). change (Z.to_nat (ntohs len - SIZEOF_FLOW_MOD)) with n.
    rewrite E1. cbn [mbind option_bind]. rewrite E2. cbn [mbind option_bind]. rewrite E3. cbn [mbind option_bind]. by rewrite E4, E5.
  - unfold fm_bytes. cbn [m_head m_flow m_mask m_tail m_acts m_rest]. rewrite (rd_flow_at b 16 fl Hb E2), (rd_flow_at b 104 mk Hb E3).
    rewrite (rd_at _ _ _ _ E1), (rd_at _ _ _ _ E4), (rd_at _ _ _ _ E5). rewrite !app_assoc.
    repeat rewrite adjacent by lia. rewrite drop_0. apply take_drop.
Qed.

