(* ===== verification/FlowCmdEx.v ===== *)
(** * Commands on flows: a concrete switch, witnesses and defects *)
From stdpp Require Import base list gmap.
From Stdlib Require Import ZArith Lia.
From S2P Require Import Prelude Bytes Flow Ha FlowTbl FlowTblSpec FlowTblAdd FlowTblEx GroupTbl GroupTblSpec GroupCmd GroupEx Act ActParse ActSpec ActCheck ActThm ActEx OxmSpec FlowCmd FlowCmdSpec FlowCmdThm FlowCmdAct FlowCmdBytes.
Import FlowCmd.
Import Bytes Flow Act ActSpec.
#[local] Open Scope Z_scope.

(** Ports 1 to 3; table [t] of the applications is table [t + 1] of the switch. *)
Definition fx : fsw :=
  mk_fsw gx_idle 0 3 {[1; 2; 3]} false (replicate 255 (Some ActEx.props)) (replicate 255 true) (map Z.of_nat (seq 1 254 ++ [254%nat])).

(** Application 7 sits behind a connection, application 8 is that of the command line. *)
Definition fx_flags (app : Z) : Z := if app =? 7 then C_APP_REMOTE else 0.
Definition fx_calloc (s : FlowTbl.c_switch) : Z := fresh (elements (dom (FlowTbl.ents s))).


Lemma fx_calloc_fresh s : FlowTbl.ents s !! fx_calloc s = None.
Proof. apply (not_elem_of_dom (D := gset Z)). unfold fx_calloc. rewrite <- elem_of_elements. apply infinite_is_fresh. Qed.

Lemma fx_ok : fsw_ok nohold fx.
Proof.
  split; try done.
  - eapply gwf_ext; [|exact gx_idle_gwf]. done.
  - apply (bool_decide_unpack _). by vm_compute.
Qed.

Definition fx_tail (flags command prio : Z) : list Z :=
  le_bytes 8 (htonll flags) ++ [0; command] ++ le_bytes 2 (htons prio) ++ replicate 16 0 ++ le_bytes 4 (htonl 0xffffffff) ++ replicate 16 0.
Definition fx_msg (flags command prio : Z) (fl mask : flow) (acts : list Z) : fm_msg :=
  mk_fm (GroupTbl.ofp_hdr (240 + Z.of_nat (length acts)) C_OFPT_FLOW_MOD 1 ++ le_bytes 8 (htonll 9)) fl mask (fx_tail flags command prio) acts [].

(** Packets from port 1, in table 2: through meter 6, to group 5 and port 2, and on to table 4. *)
Definition fx_fl : flow := set_table_id 2 (set_in_port (htonl 1) zero_flow).
Definition fx_mask : flow := set_in_port UINT32_MAX zero_flow.
Definition fx_insts (goto : Z) : list inst := [IMeter 6; IActs false [AId OFPAT131_GROUP 5; AOutput 2 0]; IGoto goto].
Definition fx_add : fm_msg := fx_msg FlowTbl.C_FL_ENT_STATIC C_OFPC_ADD 10 fx_fl fx_mask (enc_insts (fx_insts 4)).

Notation fx_wrk := (c_app_flow_mod_wrk_command fx_flags (Some 8) fx_calloc (fun _ => 0) ex_hdl 100).

Example fx_read : read_fm (fm_bytes fx_add) = Some fx_add.
Proof. vm_compute. reflexivity. Qed.

(** The entry that the command leaves, and what is sent. *)
Example fx_run :
  match fx_wrk 7 (fm_bytes fx_add) fx with
  | Some (x, w) =>
      x = (0, Success) /\ fs_ref w = 0 /\ FlowTbl.app_refs (fs_fl w) !! 7 = Some 3 /\
      map (fun e => (table_id (FlowTbl.fl e.2), FlowTbl.FL_PRIO e.2, FlowTbl.app_owner_list e.2, FlowTbl.actions e.2, FlowTbl.groups e.2, FlowTbl.meters e.2))
        (map_to_list (FlowTbl.ents (fs_fl w))) = [(3, 10, [7], enc_insts (fx_insts 5), [5], [6])] /\
      FlowTbl.grp_refs (fs_fl w) !! 5 = Some 1 /\ length (FlowTbl.tx (fs_fl w)) = 2%nat
  | None => False
  end.
Proof. vm_compute. split_and!; reflexivity. Qed.

(** ** Witnesses *)

Lemma fx_acts : of131_acts (of_switch_get_v2p_tbl fx) (enc_insts (fx_insts 4)) (enc_insts (fx_insts 5)) [5] [6] (fx_insts 4) (fx_insts 5).
Proof.
  split; try done.
  - constructor; [done|]. constructor; [done|]. constructor; [|constructor]. by exists 5.
  - repeat constructor; cbn; (done || lia || (left; done)).
  - repeat constructor; cbn; done.
Qed.

Lemma fx_norm : of131_flow_normalize fx_fl fx_mask = (0, fx_fl, set_table_id 255 fx_mask).
Proof. vm_compute. reflexivity. Qed.

Definition fx_add2 : fm_msg := set_match (set_table_id 3 fx_fl) (set_table_id 255 fx_mask) fx_add.

Lemma fx_resolves t m2 : resolves fx_add t m2 fx -> t = 3 /\ m2 = fx_add2.
Proof.
  intros (r & m1 & En & _ & Et). change (fm_normalize fx_add) with
    ('(r, fl, mask) ← Some (of131_flow_normalize fx_fl fx_mask); Some (r, set_match fl mask fx_add)) in En.
  rewrite fx_norm in En. injection En as <- <-. by injection Et as <- <-.
Qed.

Lemma fx_fm_ok : fm_ok fx_flags (Some 8) 7 fx_add fx (enc_insts (fx_insts 5)) [5] [6].
Proof.
  split; [by eexists|cbn; lia|done|]. intros t m2 [-> ->]%fx_resolves _. split; [|exists (fx_insts 4), (fx_insts 5); exact fx_acts].
  split; [by vm_compute| |]; intros b e []%empty_not_in.
Qed.


Lemma fx_done : exists w', fx_wrk 7 (fm_bytes fx_add) fx = Some ((0, Success), w').
Proof. eexists. vm_compute. reflexivity. Qed.

Lemma flow_command_adds_witness :
  exists w' t m2 tbl a e, fx_wrk 7 (fm_bytes fx_add) fx = Some ((0, Success), w') /\ resolves fx_add t m2 fx /\
    FlowTbl.rule_flow_tbls (fs_fl w') !! Z.to_nat t = Some tbl /\ a ∈ FlowTbl.rule_fl_tbl tbl /\ FlowTbl.ents (fs_fl w') !! a = Some e.
Proof.
  destruct fx_done as [w' E].
  destruct (flow_command_adds fx_flags (Some 8) fx_calloc (fun _ => 0) ex_hdl 100 nohold 7 (fm_bytes fx_add) fx_add fx _ _ _ (0, Success) w' fx_calloc_fresh
    (fun _ => Z.le_refl 0) fx_ok fx_read fx_fm_ok) as (t & m2 & tbl & a & e & R & T1 & T2 & T3 & _);
    [by eexists|reflexivity|vm_compute; reflexivity|vm_compute; reflexivity|vm_compute; reflexivity|exact E|reflexivity|].
  exists w', t, m2, tbl, a, e. exact (conj E (conj R (conj T1 (conj T2 T3)))).
Defined.

Lemma fx_passes : exists m3 args, passes fx_add 3 fx_add2 m3 args fx /\
  FlowTbl.c_flow_mod_validate_parms (fs_fl fx) (fm_req 7 m3) = true.
Proof.
  eexists _, _. split.
  - split_and!; [by vm_compute|by vm_compute|by vm_compute| |].
    + exists 0, (set_match fx_fl (set_table_id 255 fx_mask) fx_add). split_and!; [vm_compute; reflexivity|done|done].
    + exists (Some ActEx.props). split; [done|]. vm_compute. reflexivity.
  - vm_compute. reflexivity.
Qed.

Lemma flow_command_accepts_witness : exists x w', fx_wrk 7 (fm_bytes fx_add) fx = Some (x, w') /\ accepted x = true.
Proof.
  destruct fx_passes as (m3 & args & P & V).
  destruct (flow_command_accepts fx_flags (Some 8) fx_calloc (fun _ => 0) ex_hdl 100 nohold 7 (fm_bytes fx_add) fx_add fx _ _ _ 3 fx_add2 m3 args fx_calloc_fresh
    (fun _ => Z.le_refl 0) fx_ok fx_read fx_fm_ok) as (x & w' & E & A & _);
    [vm_compute; reflexivity|vm_compute; reflexivity|exact P|exact V|by intros b e []%empty_not_in|exists x, w'; exact (conj E A)].
Defined.

Lemma fx_fl_mem : flow_mem fx_fl.
Proof. split; [|split; [cbn; lia|done]]. split; vm_compute; split_and?; first [reflexivity|discriminate]. Qed.
Lemma fx_mask_mem : flow_mem fx_mask.
Proof. split; [|split; [cbn; lia|done]]. split; vm_compute; split_and?; first [reflexivity|discriminate]. Qed.


Lemma app_flow_add_witness :
  exists r f, mul_app_send_flow_add fx_calloc (fun _ => 0) ex_hdl 100 (Some 7) true 0 fx_fl fx_mask 0 [] 0 0 10 0 fx = Some (r, set_ref (fs_ref fx + 0) (set_fl f fx)) /\
    fsw_ok nohold (set_ref (fs_ref fx + 0) (set_fl f fx)).
Proof.
  destruct (app_flow_add fx_calloc (fun _ => 0) ex_hdl 100 nohold 7 true 0 fx_fl fx_mask 0 [] 0 0 10 0 fx fx_calloc_fresh (fun _ => Z.le_refl 0) fx_ok)
    as (r & f & E & W & _); [by eexists|reflexivity|reflexivity|vm_compute; discriminate|vm_compute; reflexivity
    |by intros b e []%empty_not_in|by intros b e []%empty_not_in|exists r, f; exact (conj E W)].
Defined.

Lemma app_flow_del_swapped_witness :
  exists f, mul_app_send_flow_del ex_hdl (Some 7) true 0 fx_fl fx_mask 10 0 fx = Some (-1, set_ref (fs_ref fx + 0) (set_fl f fx)).
Proof.
  destruct (app_flow_del_swapped ex_hdl nohold 7 true 0 fx_fl fx_mask 10 0 fx (fun _ => Z.le_refl 0) fx_ok) as (f & E & _);
    [by eexists|reflexivity|reflexivity|vm_compute; discriminate|by intros b e []%empty_not_in|exists f; exact E].
Defined.

(** ** Defects *)

(** A flow that an application inside the controller adds is not deleted by the same arguments, unless both bytes of the priority are the same. *)
Example added_not_deleted :
  let run prio :=
    '(r, w) ← mul_app_send_flow_add fx_calloc (fun _ => 0) ex_hdl 100 (Some 7) true 0 fx_fl fx_mask 0 [] 0 0 prio 0 fx;
    '(r', _) ← mul_app_send_flow_del ex_hdl (Some 7) true 0 fx_fl fx_mask prio 0 w; Some (r, r') in
  run 10 = Some (0, -1) /\ run 0x0a0a = Some (0, 0).
Proof. vm_compute. done. Qed.

(** The peer gets the table of the switch without a word that it is one: it translates the table of the flow, and that of its goto, a second time. *)
Example peer_translates_again :
  (fun w => map (fun e => (table_id (FlowTbl.fl e.2), FlowTbl.actions e.2)) (map_to_list (FlowTbl.ents (fs_fl w)))) <$>
    ('(_, w) ← fx_wrk 7 (fm_bytes fx_add) fx;
     b ← (match last (FlowTbl.tx (fs_fl w)) with Some (FlowTbl.HaCmd b) => Some b | _ => None end);
     '(_, w) ← fx_wrk 7 b fx; Some w) = Some [(4, enc_insts (fx_insts 6))].
Proof. vm_compute. reflexivity. Qed.

(** Without an answer the flow belongs to the application of the command line, whoever asked for it. *)
Example queued_for_another :
  let m := fx_msg FlowTbl.C_FL_NO_ACK C_OFPC_ADD 10 fx_fl fx_mask (enc_insts (fx_insts 4)) in
  match c_app_flow_mod_command fx_flags (Some 8) fx_calloc (fun _ => 0) ex_hdl 100 false 7 (fm_bytes m) [] fx with
  | Some (x, [b], w) =>
      x = (1, NoReply) /\ FlowTbl.ents (fs_fl w) = ∅ /\
      ('(r, w) ← __mul_app_workq_handler fx_flags (Some 8) fx_calloc (fun _ => 0) ex_hdl 100 b w;
       Some (r, map (fun e => FlowTbl.app_owner_list e.2) (map_to_list (FlowTbl.ents (fs_fl w))))) = Some (0, [[8]])
  | _ => False
  end.
Proof. vm_compute. done. Qed.

(** A refusal because of the flags keeps a reference to the switch, and one because of the actions (there is no group 4) a reference to the application. *)
Example refusals_leak :
  let direct := fx_msg (Z.lor FlowTbl.C_FL_ENT_NOCACHE FlowTbl.C_FL_ENT_CLONE) C_OFPC_ADD 10 fx_fl fx_mask [] in
  let nogroup := fx_msg 0 C_OFPC_ADD 10 fx_fl fx_mask (enc_insts [IActs false [AId OFPAT131_GROUP 4]]) in
  let refs x := '(r, w) ← x; Some (r.1, fs_ref w, FlowTbl.app_refs (fs_fl w) !! 8) in
  refs (fx_wrk 7 (fm_bytes direct) fx) = Some (0, 1, Some 0) /\ refs (fx_wrk 0 (fm_bytes nogroup) fx) = Some (-1, 0, Some 1).
Proof. vm_compute. done. Qed.

(** A local flow that uses a group, on a switch with several tables, uses the list of groups after it was freed; a flow for table 255 reads
    beyond the tables. *)
Example local_uses_freed :
  fx_wrk 7 (fm_bytes (fx_msg FlowTbl.C_FL_ENT_LOCAL C_OFPC_ADD 10 fx_fl fx_mask (enc_insts [IActs false [AId OFPAT131_GROUP 5]]))) fx = None /\
  fx_wrk 7 (fm_bytes (fx_msg 0 C_OFPC_ADD 10 (set_table_id 255 fx_fl) fx_mask [])) fx = None.
Proof. vm_compute. done. Qed.
